(* ===== verification/_CoqProject ===== *)
-Q . S2P
Prelude.v
Utils.v
Time.v
BTreeSet.v
JitterBuffer.v
JitterBufferRun.v
F64.v
Skew.v
Sync.v
SyncRun.v
Lru.v
Source.v
SourceProps.v
Session.v
SessionInv.v
SessionProps.v
Flow.v
BitStream.v
ByteStream.v
RtpBase.v
Av1Common.v
Av1Pay.v
Av1PayProps.v
Av1Depay.v
Av1DepayProps.v
Av1Props.v
Vp8Desc.v
Vp8Bool.v
Vp8Frame.v
Vp8Pay.v
Vp8Depay.v
Vp8Props.v
Vp9Desc.v
Vp9Frame.v
Vp9Pay.v
Vp9Depay.v
Vp9Props.v
Queues.v
DepayMeta.v
BaseDepay.v
BaseDepayInv.v
BaseDepayProps.v
BaseDepayRun.v
BasePay.v
BasePayInv.v
BasePayProps.v
RtpWire.v
BasePayRun.v
PayElement.v
DepayElement.v
DepayStream.v
Vp8Element.v
Vp9Element.v
Vp9Stream.v
Klv.v
KlvProps.v
AudioPay.v
AudioPayProps.v
LinearAudio.v
LinearAudioProps.v
Mp4a.v
Mp4aProps.v
Mp4gHeader.v
Mp4gHeaderProps.v
Mp4gDeint.v
Mp4gDeintProps.v
Mp4gDepay.v
Mp4gPay.v
Mp4gProps.v
