(* ===== verification/Prelude.v ===== *)
(** * Verification of the RTP stack of gst-plugins-rs

    This library models the core logic of the RTP plugin (net/rtp in the
    repository): the receiving and sending side of rtpbin2, and payload formats
    with their base classes. Definitions follow the Rust code function by
    function and are executable; theorems are about these definitions.

    ** The program

    An RTP session (rtpbin2/session.rs) owns the sources it sends as and the
    ones it hears of (rtpbin2/source.rs), decides on every received packet, and
    schedules and writes RTCP. Received packets then wait in a jitter buffer
    (rtpbin2/jitterbuffer.rs) until they are due, in sequence, and get a
    presentation time from the synchronisation context (rtpbin2/sync.rs), which
    follows the clock skew of each sender and aligns streams of one CNAME by
    their sender reports, using NTP time (rtpbin2/time.rs). Sequence numbers and
    timestamps are extended from their wrapping wire form (utils.rs). Payloaders
    cut media frames into packets and depayloaders join them again (av1, vp8, vp9,
    klv, linear_audio, pcmau, mp4a, mp4g), as subclasses of basepay (for audio through
    baseaudiopay) and basedepay.

    ** Files

    - Prelude: panics ([res]), machine integers with their overflow, durations,
      the interface [Gst] of the multiplication helpers of the gst crate, record
      updates, tactics ([inv_ok], [zcase], [run_chk]) and shared lemmas.
    - Utils (utils.rs), Time (rtpbin2/time.rs): counters and NTP time, with
      their theorems.
    - BTreeSet (the standard library's ordered set), JitterBuffer
      (rtpbin2/jitterbuffer.rs: [JitterBuffer_queue_packet], [JitterBuffer_poll],
      ...), JitterBufferRun: theorems over any sequence of calls.
    - F64 (binary64 arithmetic), Skew (Observations of rtpbin2/sync.rs), Sync
      (Context and Ssrc of rtpbin2/sync.rs), SyncRun: theorems over any sequence.
    - Lru (interface of the lru crate), Source (rtpbin2/source.rs), SourceProps,
      Session (rtpbin2/session.rs), SessionInv (the invariant and that every
      operation keeps it), SessionProps: theorems.
    - Flow (code that fails, panics and keeps its state), BitStream and
      ByteStream (interfaces of the bitstream_io crate with their laws and an
      instance), RtpBase (the interfaces of the base classes, with laws and
      instances).
    - Av1Common (av1/common: integers.rs, aggr_header.rs, obu.rs), Av1Pay
      (av1/pay/imp.rs), Av1Depay (av1/depay/imp.rs), Av1PayProps and
      Av1DepayProps (what is sent, and what is made of it), Av1Props: theorems.
    - Vp8Desc (vp8/payload_descriptor.rs), Vp8Bool (vp8/bool_decoder.rs),
      Vp8Frame (vp8/frame_header.rs), Vp8Pay (vp8/pay/imp.rs), Vp8Depay
      (vp8/depay/imp.rs), Vp8Props: theorems.
    - Vp9Desc (vp9/payload_descriptor.rs), Vp9Frame (vp9/frame_header.rs), Vp9Pay
      (vp9/pay/imp.rs), Vp9Depay (vp9/depay/imp.rs), Vp9Props: theorems.
    - Queues (prefixes of queues by a test, numbered queues), DepayMeta (data,
      metas and header extensions), BaseDepay (the element): basedepay/imp.rs
      and mod.rs. A subclass is a class of virtual methods over
      its own state and that of the base class; BaseDepayInv says what every
      call it makes keeps, BaseDepayProps that every operation keeps the
      invariant and none panics, BaseDepayRun: theorems and instances.
    - BasePay (basepay/imp.rs and mod.rs: the element and its subclass in the
      same way), BasePayInv (laws of the RTP writer, what every call keeps),
      BasePayProps (every operation keeps the invariant), RtpWire (an instance of
      the RTP reader and writer of the rtp_types crate after RFC 3550, with its
      laws), BasePayRun: theorems and instances.
    - PayElement: the interface the payload formats are written against, made of
      the base class, and a payload format as a subclass of it; Vp8Element and
      Vp9Element: the VP8 and VP9 payloaders as such subclasses.
    - DepayElement: the same for the depayloaders, with the calls a format makes
      and their panics; DepayStream: the base class while the packets of a frame
      arrive; Vp9Element has the VP9 depayloader as a subclass, Vp9Stream the
      theorems about both VP9 elements and their base classes.
    - Klv (klv/klv_utils.rs, pay/imp.rs, depay/imp.rs), KlvProps: theorems.
    - AudioPay (audio_discont.rs and baseaudiopay/imp.rs), AudioPayProps:
      theorems; LinearAudio (linear_audio/common/channel_positions.rs,
      pay/imp.rs, depay/imp.rs, and pcmau), LinearAudioProps: theorems.
    - Mp4a (mp4a/parsers.rs, pay/imp.rs, depay/imp.rs), Mp4aProps: theorems.
    - Mp4gHeader (mp4g/mode.rs, header.rs), Mp4gDeint (mp4g/depay/deint_buf.rs),
      Mp4gDepay (mp4g/depay/parsers.rs, imp.rs), Mp4gPay (mp4g/pay/imp.rs);
      Mp4gHeaderProps, Mp4gDeintProps and Mp4gProps: theorems.

    A Rust struct is a Record with the same fields behind a short prefix, an
    enum an Inductive, a method [T::f] the Definition [T_f]; what a method
    mutates is an argument and a result. [Panic] and [Crash] stand for every
    panic, overflow included; [Fail] for an [Err] or [FlowError].

    ** What the theorems show

    - Jitter buffer: output in order without duplicates, ids conserved across
      flushes, every item handed out once due, exact timeouts, no panic below
      65535 queued packets, a well-formed state after any calls.
    - Synchronisation: streams of a CNAME play at sender time plus one common
      delay and the correction of the timestamping mode; each observation's
      effect on the window; no panic for plausible times and SSRCs that keep
      their CNAME; exact output for ideal clocks.
    - Sources and sessions: reception refines the probation and window rules of
      RFC 3550; invariants over all operations; no panic on reception (clock
      rates up to 1 MHz); report, BYE and timeout behaviour; RTCP timing; loss
      figures.
    - Counters and time: extended counters reconstruct the sender's numbering;
      NTP timestamps survive era rollover.
    - AV1: LEB128 equals its reference; payloader and depayloader are inverse
      for OBUs with minimal size fields and packets that are well delimited; the
      sending loop ends; packets fit. VP8: the same round trip in every
      fragmentation mode; how frames are cut; the boolean decoder inverts exact
      arithmetic coding; partitions cover the frame. VP9: the round trip, frames
      in as few packets as possible, and every buffer of the depayloader is one
      whole picture, whatever packets arrive.
    - Depayloader base class, for any subclass: an invariant over all
      operations, no panic on plausible input while the numbers of the stream are
      in range, buffers leave in the order they were queued in with the timestamps
      and flags documented, what becomes of a packet by its sequence number,
      header extensions are cut as written.
    - Payloader base class, for any subclass: an invariant over all operations,
      consecutive sequence numbers in the order of the calls, timestamps with and
      without offsets, packets that fit the MTU with their sources and header
      extensions, queueing that does not panic, resolution of SSRC collisions.
    - Composition: a VP8 frame pushed into the payloader element leaves as RTP
      packets in bytes, which parsed again give the depayloader that frame; a VP9
      frame goes through both elements and both base classes; the VP9 depayloader
      with its base class does not panic whatever bytes packets carry, while the
      numbers of the stream are in range.
    - KLV: peeking equals the encoding of units, units survive the round trip in
      any state of the depayloader, which handles any packets.
    - Audio: a stream is sent whole, in groups that start at discontinuities, with
      exact frame counts as timestamps; when timestamps are taken for a
      discontinuity; the reordering of channels is undone by the receiver.
    - MPEG-4 (RFC 3016 and RFC 3640): frames and access units survive the round
      trip, in fragments or several to a packet; interleaved units leave in order;
      modes and configurations survive the caps.
    - Inputs on which the code fails its purpose are theorems too (names that end
      in [_panics], [_crashes], [_lost] and the like).

    ** Parameters, bounds and fuel

    Code outside the repository is a class argument with its documented laws
    and an instance that satisfies them: the gst crate's fixed-point
    multiplication ([Gst]), the lru, slab and hex crates, bitstream_io, the iteration order of
    a HashMap, random draws and clocks (arguments), the wire size of RTCP packets
    (rtcp_types). Every theorem with such hypotheses has a witness at a concrete
    instance. Loops that are not structural take fuel that a lemma shows to be
    enough: [expire_lru] the length of the cache, the AV1 sending loop
    [queue_fuel] (one round per unsent byte or OBU), parsing loops one more than
    the bytes they read, LEB128 five rounds for 32 bits, the boolean decoder
    eight shifts for a range of at least one, KLV fragments, audio packets and
    fragments of access units one more than the bytes left, lists in the slab
    its length. Bounds of theorems: runs of up to
    2^40 operations where 64-bit counters matter, clock rates up to 1 MHz,
    arrival times below two years, frames below 2^31 bytes, OBUs below 2^29.

    ** Not modelled

    Pads, caps negotiation, GObject properties and registration, logging, the
    tasks and wakers of rtprecv and rtpsend, RFC 7273 clock signalling: bindings
    to GStreamer objects and threads. The other payload formats, congestion
    control, and all other plugins of the repository are not reached yet; the
    manifest lists each with its reason. *)

(** * Shared vocabulary of the development

    Results of code that can panic, machine integers, durations, the
    fixed-point multiplication interface, record updates, and the list and
    arithmetic lemmas and tactics that every component uses. *)

From stdpp Require Export base tactics option list gmap strings fin_maps.
From Stdlib Require Export ZArith Lia.

#[global] Open Scope Z_scope.

Declare Scope rtp_scope.
Delimit Scope rtp_scope with rtp.

(** ** Code that can panic

    [Ok a] is a normal return, [Panic] stands for every way the code aborts:
    [unwrap] and [expect] on [None], [unreachable!()], [assert!], and integer
    arithmetic that leaves its type (the behaviour of a build with overflow
    checks; a build without them wraps instead, so a theorem that a call does
    not panic is also a theorem that the wrapped value is the exact one). *)
Inductive res (A : Type) : Type :=
| Ok (a : A)
| Panic.
Arguments Ok {A} a.
Arguments Panic {A}.

#[export] Instance res_ret : MRet res := @Ok.
#[export] Instance res_bind : MBind res :=
  fun A B f m => match m with Ok a => f a | Panic => Panic end.

#[export] Instance res_eq_dec {A} `{EqDecision A} : EqDecision (res A).
Proof. solve_decision. Defined.

Definition unwrap {A} (o : option A) : res A :=
  match o with Some a => Ok a | None => Panic end.

Definition assert_ (b : bool) : res unit := if b then Ok tt else Panic.

Definition is_ok {A} (r : res A) : bool :=
  match r with Ok _ => true | Panic => false end.

(** A [for] loop whose body can panic, threading a state. *)
Fixpoint res_fold {A S} (f : S -> A -> res S) (s : S) (l : list A) : res S :=
  match l with
  | [] => Ok s
  | a :: l' => s' ← f s a; res_fold f s' l'
  end.

Section ResLemmas.
Context {A B : Type}.
Implicit Types (m : res A) (f : A -> res B).

Lemma bind_ok m f b : (m ≫= f) = Ok b <-> exists a, m = Ok a /\ f a = Ok b.
Proof.
  destruct m as [a|]; cbn; split.
  - eauto.
  - intros (a' & [= <-] & ?); done.
  - done.
  - intros (a' & ? & ?); done.
Qed.

Lemma bind_Ok a f : (Ok a ≫= f) = f a.
Proof. done. Qed.

Lemma unwrap_ok (o : option A) a : unwrap o = Ok a <-> o = Some a.
Proof. destruct o; cbn; split; congruence. Qed.
End ResLemmas.

Lemma assert_ok b u : assert_ b = Ok u <-> b = true.
Proof. destruct b, u; cbn; split; congruence. Qed.

Lemma res_fold_app {A S} (f : S -> A -> res S) s l1 l2 :
  res_fold f s (l1 ++ l2) = (s' ← res_fold f s l1; res_fold f s' l2).
Proof.
  revert s; induction l1 as [|a l1 IH]; intros s; cbn; [done|].
  destruct (f s a); cbn; [apply IH|done].
Qed.

(** A loop invariant of [res_fold]. *)
Lemma res_fold_inv {A S} (P : S -> Prop) (f : S -> A -> res S) s l s' :
  (forall s a s', P s -> f s a = Ok s' -> P s') ->
  P s -> res_fold f s l = Ok s' -> P s'.
Proof.
  intros Hstep. revert s. induction l as [|a l IH]; intros s Hs; cbn.
  - by intros [= <-].
  - intros (s1 & H1 & H2)%bind_ok. eauto.
Qed.

Lemma res_fold_total {A S} (Q : A -> Prop) (f : S -> A -> res S) s l :
  (forall s a, Q a -> exists s', f s a = Ok s') -> Forall Q l -> exists s', res_fold f s l = Ok s'.
Proof.
  intros Hstep Hl. revert s. induction Hl as [|a l Ha _ IH]; intros s; cbn; [eauto|].
  destruct (Hstep s a Ha) as [s' ->]. apply IH.
Qed.

Lemma fold_left_inv {A S} (P : S -> Prop) (f : S -> A -> S) s l :
  (forall s a, P s -> P (f s a)) -> P s -> P (fold_left f l s).
Proof. intros Hstep. revert s. induction l as [|a l IH]; intros s Hs; cbn; auto. Qed.

(** ** Machine integers

    A w-bit integer is its value in [Z]; the arithmetic of the source is
    written with the operations below, each at its width. *)

Abbreviation U8 := 256.
Abbreviation U16 := 65536.
Abbreviation U32 := 4294967296.
Abbreviation U64 := 18446744073709551616.
Abbreviation I64 := 9223372036854775808.

Definition is_u8 (x : Z) : Prop := 0 <= x < U8.
Definition is_u16 (x : Z) : Prop := 0 <= x < U16.
Definition is_u32 (x : Z) : Prop := 0 <= x < U32.
Definition is_u64 (x : Z) : Prop := 0 <= x < U64.
Definition is_i64 (x : Z) : Prop := - I64 <= x < I64.

(** [x as uN] and the wrapping operations. *)
Definition wrap (m x : Z) : Z := x mod m.

(** [x as iN] for a value of any width: two's complement. *)
Definition swrap (m x : Z) : Z :=
  let r := x mod m in if r <? m / 2 then r else r - m.

(** [a + b], [a - b], [a * b] on an unsigned type of modulus [m]. *)
Definition uint_add (m a b : Z) : res Z := if a + b <? m then Ok (a + b) else Panic.
Definition uint_sub (a b : Z) : res Z := if b <=? a then Ok (a - b) else Panic.
Definition uint_mul (m a b : Z) : res Z := if a * b <? m then Ok (a * b) else Panic.

Definition u64_add := uint_add U64.
Definition u64_sub := uint_sub.
Definition u64_mul := uint_mul U64.

(** The result of an [i64] operation whose exact value is [x]. *)
Definition i64_chk (x : Z) : res Z :=
  if (- I64 <=? x) && (x <? I64) then Ok x else Panic.

Definition checked_u64 (x : Z) : option Z :=
  if (0 <=? x) && (x <? U64) then Some x else None.

Definition saturating_sub (a b : Z) : Z := Z.max 0 (a - b).
Definition saturating_add (m a b : Z) : Z := Z.min (m - 1) (a + b).
Definition abs_diff (a b : Z) : Z := Z.abs (a - b).

(** Two's complement bit operations on a w-bit value with a literal mask. *)
Definition and_mask (x k : Z) : Z := Z.land x (Z.ones k).

Lemma and_mask_mod x k : 0 <= k -> and_mask x k = x mod 2 ^ k.
Proof. apply Z.land_ones. Qed.

(** [x & !mask] for a mask of the k low bits. *)
Definition clear_low (x k : Z) : Z := Z.shiftl (Z.shiftr x k) k.

Lemma clear_low_mod x k : 0 <= k -> clear_low x k = x - x mod 2 ^ k.
Proof.
  intros Hk. unfold clear_low.
  rewrite Z.shiftl_mul_pow2, Z.shiftr_div_pow2 by done.
  pose proof (Z.div_mod x (2 ^ k) (Z.pow_nonzero 2 k ltac:(lia) Hk)). lia.
Qed.

Lemma land_shiftl_low a b k : 0 <= k -> 0 <= b < 2 ^ k -> Z.land (Z.shiftl a k) b = 0.
Proof.
  intros Hk Hb. apply Z.bits_inj'. intros n Hn. rewrite Z.land_spec, Z.bits_0.
  destruct (Z_lt_le_dec n k).
  - by rewrite Z.shiftl_spec_low.
  - rewrite <- (Z.mod_small b (2 ^ k)), Z.mod_pow2_bits_high by lia. apply andb_false_r.
Qed.

(** Packing two bit fields is arithmetic. *)
Lemma lor_shiftl_add a b k :
  0 <= k -> 0 <= b < 2 ^ k -> Z.lor (Z.shiftl a k) b = a * 2 ^ k + b.
Proof.
  intros Hk Hb. rewrite <- Z.shiftl_mul_pow2 by done.
  by rewrite Z.add_nocarry_lxor, Z.lxor_lor by (by apply land_shiftl_low).
Qed.

Section IntLemmas.
Implicit Types (a b c m x : Z).

Lemma uint_add_ok m a b c : uint_add m a b = Ok c <-> c = a + b /\ a + b < m.
Proof. unfold uint_add. destruct (Z.ltb_spec (a + b) m); split; intuition congruence || lia. Qed.

Lemma u64_add_ok a b c : u64_add a b = Ok c <-> c = a + b /\ a + b < U64.
Proof. apply uint_add_ok. Qed.

Lemma uint_sub_ok a b c : uint_sub a b = Ok c <-> c = a - b /\ b <= a.
Proof. unfold uint_sub. destruct (Z.leb_spec b a); split; intuition congruence || lia. Qed.

Lemma u64_sub_ok a b c : u64_sub a b = Ok c <-> c = a - b /\ b <= a.
Proof. apply uint_sub_ok. Qed.

Lemma uint_mul_ok m a b c : uint_mul m a b = Ok c <-> c = a * b /\ a * b < m.
Proof. unfold uint_mul. destruct (Z.ltb_spec (a * b) m); split; intuition congruence || lia. Qed.

Lemma u64_mul_ok a b c : u64_mul a b = Ok c <-> c = a * b /\ a * b < U64.
Proof. apply uint_mul_ok. Qed.

Lemma i64_chk_ok x c : i64_chk x = Ok c <-> c = x /\ is_i64 x.
Proof.
  unfold i64_chk, is_i64.
  destruct (Z.leb_spec (- I64) x), (Z.ltb_spec x I64); cbn; split; intuition congruence || lia.
Qed.

Lemma checked_u64_Some x c : checked_u64 x = Some c <-> c = x /\ is_u64 x.
Proof.
  unfold checked_u64, is_u64.
  destruct (Z.leb_spec 0 x), (Z.ltb_spec x U64); cbn; split; intuition congruence || lia.
Qed.

Lemma wrap_small m x : 0 <= x < m -> wrap m x = x.
Proof. apply Z.mod_small. Qed.

Lemma swrap_small m x : 0 < m -> m mod 2 = 0 -> - (m / 2) <= x < m / 2 -> swrap m x = x.
Proof.
  intros Hm Heven Hx. unfold swrap.
  assert (m = 2 * (m / 2)) by (pose proof (Z.div_mod m 2); lia).
  destruct (Z_lt_le_dec x 0).
  - replace (x mod m) with (x + m)
      by (rewrite <- (Z.mod_add x 1 m), Z.mod_small by lia; lia).
    destruct (Z.ltb_spec (x + m) (m / 2)); lia.
  - rewrite Z.mod_small by lia. destruct (Z.ltb_spec x (m / 2)); lia.
Qed.

Lemma swrap_cong m x : 0 < m -> (swrap m x - x) mod m = 0.
Proof.
  intros Hm. unfold swrap. destruct (_ <? _).
  - rewrite Zminus_mod, Z.mod_mod, Z.sub_diag by lia. apply Z.mod_0_l; lia.
  - replace (x mod m - m - x) with (- (x / m + 1) * m)
      by (pose proof (Z.div_mod x m); lia).
    apply Z.mod_mul; lia.
Qed.

Lemma swrap_range m x : 0 < m -> m mod 2 = 0 -> - (m / 2) <= swrap m x < m / 2.
Proof.
  intros Hm Heven. unfold swrap.
  assert (m = 2 * (m / 2)) by (pose proof (Z.div_mod m 2); lia).
  pose proof (Z.mod_pos_bound x m Hm).
  destruct (Z.ltb_spec (x mod m) (m / 2)); lia.
Qed.

Lemma cong_small m x y : 0 < m -> (x - y) mod m = 0 -> - m < x - y < m -> x = y.
Proof.
  intros Hm Hc Hr. apply Z.mod_divide in Hc as [k Hk]; [|lia].
  assert (k = 0) by nia. nia.
Qed.

(** [swrap m x] is the only representative of [x] in the signed range. *)
Lemma swrap_unique m x y :
  0 < m -> m mod 2 = 0 -> - (m / 2) <= y < m / 2 -> (y - x) mod m = 0 -> swrap m x = y.
Proof.
  intros Hm Heven Hy Hc.
  pose proof (swrap_range m x Hm Heven). pose proof (swrap_cong m x Hm) as Hc'.
  assert (m = 2 * (m / 2)) by (pose proof (Z.div_mod m 2); lia).
  apply (cong_small m); [done| |lia].
  replace (swrap m x - y) with (swrap m x - x - (y - x)) by lia.
  rewrite Zminus_mod, Hc, Hc'. apply Z.mod_0_l; lia.
Qed.

Lemma swrap_eq m x y : 0 < m -> m mod 2 = 0 -> (x - y) mod m = 0 -> swrap m x = swrap m y.
Proof.
  intros Hm Heven Hc. apply swrap_unique; [done..|by apply swrap_range|].
  replace (swrap m y - x) with (swrap m y - y - (x - y)) by lia.
  rewrite Zminus_mod, Hc, swrap_cong by lia. apply Z.mod_0_l; lia.
Qed.

Lemma swrap_sub m x y :
  0 < m -> m mod 2 = 0 -> swrap m (swrap m x - swrap m y) = swrap m (x - y).
Proof.
  intros Hm Heven. apply swrap_eq; [done..|].
  replace (swrap m x - swrap m y - (x - y)) with ((swrap m x - x) - (swrap m y - y)) by lia.
  rewrite Zminus_mod, !swrap_cong by lia. apply Z.mod_0_l; lia.
Qed.

Lemma swrap_add_l m x y :
  0 < m -> m mod 2 = 0 -> swrap m (swrap m x + y) = swrap m (x + y).
Proof.
  intros Hm Heven. apply swrap_eq; [done..|].
  replace (swrap m x + y - (x + y)) with (swrap m x - x) by lia. by apply swrap_cong.
Qed.

Lemma swrap_wrap m x : 0 < m -> m mod 2 = 0 -> swrap m (wrap m x) = swrap m x.
Proof.
  intros Hm Heven. apply swrap_eq; [done..|]. unfold wrap.
  rewrite Zminus_mod, Z.mod_mod, Z.sub_diag by lia. apply Z.mod_0_l; lia.
Qed.

Lemma wrap_swrap m x : 0 < m -> wrap m (swrap m x) = wrap m x.
Proof.
  intros Hm. unfold wrap, swrap. destruct (_ <? _).
  - apply Z.mod_mod; lia.
  - rewrite Zminus_mod, Z.mod_same, Z.sub_0_r, !Z.mod_mod by lia. done.
Qed.
End IntLemmas.


(** ** Time

    A [Duration] is its length in nanoseconds, an [Instant] and a
    [SystemTime] a number of nanoseconds from an origin (the UNIX epoch for
    a [SystemTime]); instants are not bounded, durations are. *)

Abbreviation NS_PER_SEC := 1000000000.

Definition DURATION_MAX : Z := U64 * NS_PER_SEC - 1.

Definition duration_add (a b : Z) : res Z :=
  if a + b <=? DURATION_MAX then Ok (a + b) else Panic.
Definition duration_saturating_sub (a b : Z) : Z := saturating_sub a b.
Definition duration_from_secs (s : Z) : Z := s * NS_PER_SEC.
Definition duration_as_secs (d : Z) : Z := d / NS_PER_SEC.
Definition duration_subsec_nanos (d : Z) : Z := d mod NS_PER_SEC.

(** [later - earlier] and [later.duration_since(earlier)] on instants
    saturate at zero. *)
Definition instant_sub (later earlier : Z) : Z := saturating_sub later earlier.
Definition instant_add (i d : Z) : Z := i + d.

Lemma duration_add_ok a b c :
  duration_add a b = Ok c <-> c = a + b /\ a + b <= DURATION_MAX.
Proof.
  unfold duration_add. destruct (Z.leb_spec (a + b) DURATION_MAX); split; intuition congruence || lia.
Qed.

(** ** What the code uses of the gstreamer bindings

    The [MulDiv] trait, for an unsigned type of modulus [m]: [val * num /
    denom] computed without intermediate overflow, [None] when the result does
    not fit; and the distance of the NTP and UNIX epochs. *)
Class Gst := {
  mul_div_floor : Z -> Z -> Z -> Z -> option Z;
  mul_div_round : Z -> Z -> Z -> Z -> option Z;
  mul_div_ceil  : Z -> Z -> Z -> Z -> option Z;
  UNIX_TO_NTP_TIME_OFFSET_SECONDS : Z;
}.

Definition fits (m x : Z) : option Z := if x <? m then Some x else None.

(** Its documented contract: the exact quotient, rounded down, to nearest
    with halves up, or up; 1970 is 2208988800 seconds after 1900. *)
Class GstLaws `{Gst} : Prop := {
  mul_div_floor_spec m v n d :
    0 <= v < m -> 0 <= n < m -> 0 < d < m ->
    mul_div_floor m v n d = fits m (v * n / d);
  mul_div_round_spec m v n d :
    0 <= v < m -> 0 <= n < m -> 0 < d < m ->
    mul_div_round m v n d = fits m ((2 * (v * n) + d) / (2 * d));
  mul_div_ceil_spec m v n d :
    0 <= v < m -> 0 <= n < m -> 0 < d < m ->
    mul_div_ceil m v n d = fits m ((v * n + d - 1) / d);
  ntp_offset_spec : UNIX_TO_NTP_TIME_OFFSET_SECONDS = 2208988800;
}.

(** An implementation of the contract, used by the witnesses. *)
Definition gst_exact : Gst := {|
  mul_div_floor m v n d := fits m (v * n / d);
  mul_div_round m v n d := fits m ((2 * (v * n) + d) / (2 * d));
  mul_div_ceil m v n d := fits m ((v * n + d - 1) / d);
  UNIX_TO_NTP_TIME_OFFSET_SECONDS := 2208988800;
|}.

Lemma gst_exact_laws : @GstLaws gst_exact.
Proof. by split. Qed.

Lemma fits_Some m x y : fits m x = Some y <-> y = x /\ x < m.
Proof. unfold fits. destruct (Z.ltb_spec x m); split; intuition congruence || lia. Qed.

Lemma fits_small m x : x < m -> fits m x = Some x.
Proof. intros. by apply fits_Some. Qed.

(** ** Record updates

    [r <| f := v |>] is [r] with field [f] set to [v], the reading of the
    source's [self.f = v]. A record type declares how it is rebuilt from its
    fields once, and the update of each field is derived from that. *)
Class Rebuild (R : Type) := { rebuild : R -> R }.
Class Field {R E : Type} (get : R -> E) := modify : (E -> E) -> R -> R.
Arguments modify {R E} get {_} f r : rename.

Ltac derive_field :=
  lazymatch goal with
  | |- @Field ?R ?E ?get =>
      let i := constr:(_ : Rebuild R) in
      let b := eval red in i in
      lazymatch b with
      | Build_Rebuild _ ?whole =>
          lazymatch eval pattern get in whole with
          | ?ctx _ =>
              let t := eval cbv beta in (fun upd : E -> E => ctx (fun r : R => upd (get r))) in
              exact t
          end
      end
  end.
#[export] Hint Opaque Field : typeclass_instances.
#[export] Hint Extern 1 (Field _) => derive_field : typeclass_instances.

Notation "r <| f := v |>" := (modify f (fun _ => v) r)
  (at level 1, left associativity, f at level 0, v at level 200,
   format "r  <| f  :=  v |>").
Notation "r <| f ::= g |>" := (modify f g r)
  (at level 1, left associativity, f at level 0, g at level 200,
   format "r  <| f  ::=  g |>").

(** ** Tactics and hints *)

Create HintDb rtp discriminated.

(** Eliminate the variables that equations determine, the others left alone. *)
Ltac subst_vars :=
  repeat match goal with
  | H : ?x = _ |- _ => is_var x; subst x
  | H : _ = ?x |- _ => is_var x; subst x
  end.

(** Decompose hypotheses that say a computation returned normally. *)
Ltac inv_ok_step :=
  match goal with
  | H : (_ ≫= _) = Ok _ |- _ => apply bind_ok in H as (? & ? & ?)
  | H : mret _ = Ok _ |- _ => injection H; clear H; intros; subst_vars
  | H : Ok _ = Ok _ |- _ => injection H; clear H; intros; subst_vars
  | H : Panic = Ok _ |- _ => discriminate H
  | H : unwrap _ = Ok _ |- _ => apply unwrap_ok in H
  | H : assert_ _ = Ok _ |- _ => apply assert_ok in H
  | H : u64_add _ _ = Ok _ |- _ => apply u64_add_ok in H as [? ?]; subst_vars
  | H : u64_sub _ _ = Ok _ |- _ => apply u64_sub_ok in H as [? ?]; subst_vars
  | H : u64_mul _ _ = Ok _ |- _ => apply u64_mul_ok in H as [? ?]; subst_vars
  | H : uint_add _ _ _ = Ok _ |- _ => apply uint_add_ok in H as [? ?]; subst_vars
  | H : uint_sub _ _ = Ok _ |- _ => apply uint_sub_ok in H as [? ?]; subst_vars
  | H : uint_mul _ _ _ = Ok _ |- _ => apply uint_mul_ok in H as [? ?]; subst_vars
  | H : i64_chk _ = Ok _ |- _ => apply i64_chk_ok in H as [? ?]; subst_vars
  | H : duration_add _ _ = Ok _ |- _ => apply duration_add_ok in H as [? ?]; subst_vars
  end.
Ltac inv_ok := repeat (inv_ok_step; cbv beta iota in *).

(** Case analysis on the integer comparison that guards the next branch. *)
Ltac zcase :=
  match goal with
  | |- context [Z.ltb ?a ?b] => destruct (Z.ltb_spec a b)
  | |- context [Z.leb ?a ?b] => destruct (Z.leb_spec a b)
  | |- context [Z.eqb ?a ?b] => destruct (Z.eqb_spec a b)
  | |- context [Z.gtb ?a ?b] => rewrite (Z.gtb_ltb a b); destruct (Z.ltb_spec b a)
  | |- context [Z.geb ?a ?b] => rewrite (Z.geb_leb a b); destruct (Z.leb_spec b a)
  | H : context [Z.ltb ?a ?b] |- _ => destruct (Z.ltb_spec a b)
  | H : context [Z.leb ?a ?b] |- _ => destruct (Z.leb_spec a b)
  | H : context [Z.eqb ?a ?b] |- _ => destruct (Z.eqb_spec a b)
  | H : context [Z.gtb ?a ?b] |- _ => rewrite (Z.gtb_ltb a b) in H; destruct (Z.ltb_spec b a)
  | H : context [Z.geb ?a ?b] |- _ => rewrite (Z.geb_leb a b) in H; destruct (Z.leb_spec b a)
  end.

(** Case analysis on a boolean test, as the order it decides where it is one. *)
Ltac zreflect c :=
  lazymatch c with
  | Z.ltb ?a ?b => destruct (Z.ltb_spec a b)
  | Z.leb ?a ?b => destruct (Z.leb_spec a b)
  | Z.eqb ?a ?b => destruct (Z.eqb_spec a b)
  | Z.gtb ?a ?b => rewrite (Z.gtb_ltb a b) in *; destruct (Z.ltb_spec b a)
  | Z.geb ?a ?b => rewrite (Z.geb_leb a b) in *; destruct (Z.leb_spec b a)
  | negb ?c => zreflect c
  | _ => destruct c eqn:?
  end.

(** Case analysis on the test the goal's computation makes next. *)
Ltac zif :=
  lazymatch goal with
  | |- context [(if ?c then _ else _) ≫= _] => zreflect c
  | |- (if ?c then _ else _) = _ => zreflect c
  | H : (if ?c then _ else _) = Ok _ |- _ => zreflect c
  | |- context [if ?c then _ else _] => zreflect c
  end; cbn [negb] in *.

(** Run the checked operation the goal's computation makes next, when [lia]
    proves its side condition. *)
Ltac run_chk_op m :=
  lazymatch m with
  | u64_add ?a ?b => rewrite (proj2 (u64_add_ok a b _)) by (split; [reflexivity|lia])
  | u64_sub ?a ?b => rewrite (proj2 (u64_sub_ok a b _)) by (split; [reflexivity|lia])
  | u64_mul ?a ?b => rewrite (proj2 (u64_mul_ok a b _)) by (split; [reflexivity|lia])
  | uint_add ?m ?a ?b => rewrite (proj2 (uint_add_ok m a b _)) by (split; [reflexivity|lia])
  | uint_sub ?a ?b => rewrite (proj2 (uint_sub_ok a b _)) by (split; [reflexivity|lia])
  | uint_mul ?m ?a ?b => rewrite (proj2 (uint_mul_ok m a b _)) by (split; [reflexivity|lia])
  | i64_chk ?a => rewrite (proj2 (i64_chk_ok a _)) by (split; [reflexivity|unfold is_i64; lia])
  | duration_add ?a ?b =>
      rewrite (proj2 (duration_add_ok a b _)) by (split; [reflexivity|unfold DURATION_MAX; lia])
  | ?m' ≫= _ => run_chk_op m'
  | Ok _ => idtac
  end.
Ltac run_chk :=
  lazymatch goal with
  | |- context [?m ≫= _] => run_chk_op m; rewrite ?bind_Ok
  end.
