(* ===== verification/Utils.v ===== *)
(** * Serial numbers (net/rtp/src/utils.rs)

    [seqnum_distance], the wrapping comparable 32-bit types that
    [define_wrapping_comparable_u32!] declares, and the two counters that
    extend RTP timestamps and sequence numbers to 64 bits. *)

From S2P Require Import Prelude.

(** ** Distance of two sequence numbers *)

Definition seqnum_distance (seqnum1 seqnum2 : Z) : Z :=
  let seqnum1 := swrap U16 seqnum1 in
  let seqnum2 := swrap U16 seqnum2 in
  swrap U16 (seqnum1 - seqnum2).

(** ** [define_wrapping_comparable_u32!]

    The declared type wraps a [u32]; its value is that [u32]. *)
Record wrapping_u32 := Wrapping { w_val : Z }.

#[export] Instance wrapping_u32_eq_dec : EqDecision wrapping_u32.
Proof. solve_decision. Defined.

Definition wrapping_ZERO : wrapping_u32 := Wrapping 0.
Definition wrapping_MIN : wrapping_u32 := Wrapping 0.
Definition wrapping_MAX : wrapping_u32 := Wrapping (U32 - 1).
Definition wrapping_new (val : Z) : wrapping_u32 := Wrapping val.
Definition wrapping_from_ext (ext_val : Z) : wrapping_u32 := Wrapping (and_mask ext_val 32).
Definition wrapping_is_zero (self : wrapping_u32) : bool := w_val self =? 0.

Definition wrapping_distance_u32 (self : wrapping_u32) (other : Z) : option Z :=
  let this := swrap U32 (w_val self) in
  let other := swrap U32 other in
  let delta := swrap U32 (this - other) in
  if delta =? -2147483648 then None else Some delta.

Definition wrapping_distance (self other : wrapping_u32) : option Z :=
  wrapping_distance_u32 self (w_val other).

Definition wrapping_add_u32 (self : wrapping_u32) (rhs : Z) : wrapping_u32 :=
  Wrapping (wrap U32 (w_val self + rhs)).
Definition wrapping_add (self rhs : wrapping_u32) : wrapping_u32 :=
  Wrapping (wrap U32 (w_val self + w_val rhs)).
Definition wrapping_add_i32 (self : wrapping_u32) (rhs : Z) : wrapping_u32 :=
  let this := swrap U32 (w_val self) in
  let res := swrap U32 (this + rhs) in
  Wrapping (wrap U32 res).
Definition wrapping_sub_u32 (self : wrapping_u32) (rhs : Z) : wrapping_u32 :=
  Wrapping (wrap U32 (w_val self - rhs)).
Definition wrapping_sub (self rhs : wrapping_u32) : wrapping_u32 :=
  wrapping_sub_u32 self (w_val rhs).
Definition wrapping_eq (self other : wrapping_u32) : bool := w_val self =? w_val other.

Definition wrapping_partial_cmp (self other : wrapping_u32) : option comparison :=
  (fun d => d ?= 0) <$> wrapping_distance self other.

(** [Err] of the comparison error the macro's caller names is [inr]. *)
Definition wrapping_try_cmp {E} (comp_err : E) (self other : wrapping_u32) : comparison + E :=
  match wrapping_partial_cmp self other with
  | Some o => inl o
  | None => inr comp_err
  end.

(** ** Extended counters

    [ExtendedTimestamp::next] and [ExtendedSeqnum::next] are the same code at
    32 and at 16 bits; [extend_next bits] is that code, on the stored
    [last_ext]. It returns the extended value and what is stored. *)
Definition extend_next (bits : Z) (last_ext : option Z) (x : Z) : res (Z * option Z) :=
  match last_ext with
  | None => ext ← u64_add (2 ^ bits) x; Ok (ext, Some ext)
  | Some last_ext =>
      (* pick the wraparound counter from the previous value *)
      ext ← u64_add x (clear_low last_ext bits);
      if ext <? last_ext then
        diff ← u64_sub last_ext ext;
        if diff >? 2 ^ (bits - 1) - 1 then
          ext ← u64_add ext (2 ^ bits); Ok (ext, Some ext)
        else Ok (ext, Some ext)
      else
        diff ← u64_sub ext last_ext;
        if diff >? 2 ^ (bits - 1) - 1 then
          if ext <? 2 ^ bits then Panic
          else
            (* returned without being stored *)
            ext ← u64_sub ext (2 ^ bits); Ok (ext, Some last_ext)
        else Ok (ext, Some ext)
  end.

Record ExtendedTimestamp := mkExtendedTimestamp { ts_last_ext : option Z }.
Record ExtendedSeqnum := mkExtendedSeqnum { sn_last_ext : option Z }.

#[export] Instance ExtendedTimestamp_eq_dec : EqDecision ExtendedTimestamp.
Proof. solve_decision. Defined.
#[export] Instance ExtendedSeqnum_eq_dec : EqDecision ExtendedSeqnum.
Proof. solve_decision. Defined.

Definition ExtendedTimestamp_default : ExtendedTimestamp := mkExtendedTimestamp None.
Definition ExtendedSeqnum_default : ExtendedSeqnum := mkExtendedSeqnum None.

Definition ExtendedTimestamp_next (self : ExtendedTimestamp) (rtp_timestamp : Z)
  : res (Z * ExtendedTimestamp) :=
  '(ext, last) ← extend_next 32 (ts_last_ext self) rtp_timestamp;
  Ok (ext, mkExtendedTimestamp last).

Definition ExtendedSeqnum_current (self : ExtendedSeqnum) : option Z := sn_last_ext self.

Definition ExtendedSeqnum_next (self : ExtendedSeqnum) (rtp_seqnum : Z)
  : res (Z * ExtendedSeqnum) :=
  '(ext, last) ← extend_next 16 (sn_last_ext self) rtp_seqnum;
  Ok (ext, mkExtendedSeqnum last).

(** ** Specification of the counters

    The abstract counter: a sender numbers its packets with an unbounded
    integer [n] and puts [n mod 2^bits] on the wire. A receiver whose stored
    value is [s] keeps [s] when [n] lies in an earlier cycle, and stores [n]
    otherwise. *)
Definition counter_spec (bits : Z) (s n : Z) : Z :=
  if n / 2 ^ bits <? s / 2 ^ bits then s else n.

(** What the stored value satisfies from the first call on. *)
Definition ext_wf (bits : Z) (last_ext : option Z) : Prop :=
  match last_ext with None => True | Some l => 2 ^ bits <= l end.

(** Feeding a whole stream of wire values to a counter, collecting the
    extended values. *)
Fixpoint counter_run {S} (next : S -> Z -> res (Z * S)) (st : S) (xs : list Z) : res (list Z) :=
  match xs with
  | [] => Ok []
  | x :: xs =>
      '(e, st) ← next st x;
      es ← counter_run next st xs;
      Ok (e :: es)
  end.

(** Every number of the stream is less than half a cycle away from the value
    the receiver has stored when it arrives. *)
Fixpoint in_window (bits s : Z) (ns : list Z) : Prop :=
  match ns with
  | [] => True
  | n :: ns =>
      0 <= n /\ n + 2 ^ bits < U64 /\ Z.abs (n - s) < 2 ^ (bits - 1) /\
      in_window bits (counter_spec bits s n) ns
  end.

(** ** Lemmas *)

Section Extend.
Context (bits : Z) (Hbits : 1 <= bits <= 32).
Local Abbreviation M := (2 ^ bits).
Local Abbreviation H := (2 ^ (bits - 1)).

Lemma half_cycle : M = 2 * H /\ 1 <= H <= 2147483648.
Proof using Hbits.
  split.
  - replace bits with (bits - 1 + 1) at 1 by lia. rewrite Z.pow_add_r by lia. lia.
  - split; [apply (Z.pow_le_mono_r 2 0); lia|].
    change 2147483648 with (2 ^ 31). apply Z.pow_le_mono_r; lia.
Qed.

(** The three values [extend_next] chooses from. *)
Lemma extend_next_sound l x e o :
  M <= l -> 0 <= x < M -> extend_next bits (Some l) x = Ok (e, o) ->
  o = Some (counter_spec bits l e) /\ e mod M = x /\ 0 <= e /\ - H <= e - l <= H.
Proof using Hbits.
  intros Hl Hx. destruct half_cycle as [HM HH].
  unfold extend_next. rewrite clear_low_mod by lia.
  pose proof (Z.mod_pos_bound l M ltac:(lia)) as Hmod.
  pose proof (Z.div_mod l M ltac:(lia)) as Hdm.
  set (q := l / M) in *. set (r := l mod M) in *.
  assert (Hq : 1 <= q) by (apply Z.div_le_lower_bound; lia).
  assert (Hqe : forall k, (x + (l - r) + k * M) / M = q + k).
  { intros k. replace (x + (l - r) + k * M) with (x + (q + k) * M) by lia.
    rewrite Z.div_add, (Z.div_small x) by lia. lia. }
  assert (Hre : forall k, (x + (l - r) + k * M) mod M = x).
  { intros k. replace (x + (l - r) + k * M) with (x + (q + k) * M) by lia.
    rewrite Z.mod_add, Z.mod_small by lia. done. }
  assert (Hspec : forall k, counter_spec bits l (x + (l - r) + k * M)
                     = if k <? 0 then l else x + (l - r) + k * M).
  { intros k. unfold counter_spec. rewrite Hqe. fold q.
    repeat zcase; done || lia. }
  intros (ext & [-> _]%u64_add_ok & Hn)%bind_ok.
  assert (Hk : exists k, -1 <= k <= 1 /\ e = x + (l - r) + k * M /\
    o = Some (if k <? 0 then l else e) /\ 0 <= e /\ - H <= e - l <= H).
  { destruct (Z.ltb_spec (x + (l - r)) l); inv_ok; zif; inv_ok.
    - exists 1. split_and!; first [done|lia].
    - exists 0. split_and!; first [done|lia].
    - zif; inv_ok. exists (-1). split_and!; first [done|nia].
    - exists 0. split_and!; first [done|lia]. }
  destruct Hk as (k & Hk & -> & -> & Hpos & Hd). by rewrite Hspec, Hre.
Qed.

Lemma extend_next_total l x :
  M <= l -> l + M < U64 -> 0 <= x < M -> exists v, extend_next bits (Some l) x = Ok v.
Proof using Hbits.
  intros Hl Hov Hx. destruct half_cycle as [HM HH].
  unfold extend_next. rewrite clear_low_mod by lia.
  pose proof (Z.mod_pos_bound l M ltac:(lia)) as Hmod.
  assert (Hq : 1 <= l / M) by (apply Z.div_le_lower_bound; lia).
  pose proof (Z.div_mod l M ltac:(lia)) as Hdm.
  run_chk. destruct (Z.ltb_spec (x + (l - l mod M)) l); run_chk; zif.
  - run_chk. eauto.
  - eauto.
  - zif; [nia|]. run_chk. eauto.
  - eauto.
Qed.

Lemma extend_next_cases l x :
  M <= l -> l + M < U64 -> 0 <= x < M ->
  exists e, extend_next bits (Some l) x = Ok (e, Some (counter_spec bits l e)) /\
    e mod M = x /\ 0 <= e /\ - H <= e - l <= H.
Proof using Hbits.
  intros Hl Hov Hx. destruct (extend_next_total l x Hl Hov Hx) as [[e o] He].
  destruct (extend_next_sound l x e o Hl Hx He) as (-> & Hr). eauto.
Qed.

Lemma counter_spec_wf s n : 0 <= n -> M <= s -> M <= counter_spec bits s n.
Proof using Hbits.
  intros Hn Hs. destruct half_cycle as [HM HH]. unfold counter_spec.
  zcase; [done|].
  assert (1 <= s / M) by (apply Z.div_le_lower_bound; lia).
  pose proof (Z.div_mod n M ltac:(lia)). pose proof (Z.mod_pos_bound n M ltac:(lia)). nia.
Qed.

Lemma extend_next_first x :
  0 <= x < M -> extend_next bits None x = Ok (M + x, Some (M + x)).
Proof using Hbits.
  intros Hx. destruct half_cycle as [HM HH]. unfold extend_next. by run_chk.
Qed.

(** One step of the counter reconstructs the sender's number. *)
Lemma extend_next_nearest l n :
  M <= l -> l + M < U64 -> 0 <= n -> Z.abs (n - l) < H ->
  extend_next bits (Some l) (n mod M) = Ok (n, Some (counter_spec bits l n)).
Proof using Hbits.
  intros Hl Hov Hn Hnear. destruct half_cycle as [HM HH].
  pose proof (Z.mod_pos_bound n M ltac:(lia)) as Hx.
  destruct (extend_next_cases l (n mod M) Hl Hov Hx) as (e & He & Hcong & _ & Hdist).
  assert (e = n) as ->; [|done].
  pose proof (Z.div_mod e M ltac:(lia)). pose proof (Z.div_mod n M ltac:(lia)).
  assert (Z.abs (e / M - n / M) < 1) by nia. lia.
Qed.

(** A counter type that wraps [extend_next bits] reconstructs every stream
    that stays in the window. *)
Lemma counter_run_window {S} (get : S -> option Z) (mk : option Z -> S)
    (next : S -> Z -> res (Z * S)) s ns :
  (forall o, get (mk o) = o) ->
  (forall st x, next st x = '(e, o) ← extend_next bits (get st) x; Ok (e, mk o)) ->
  M <= s -> s + M < U64 -> in_window bits s ns ->
  counter_run next (mk (Some s)) ((fun n => n mod M) <$> ns) = Ok ns.
Proof using Hbits.
  intros Hget Hnext. revert s. induction ns as [|n ns IH]; intros s Hs Hov; [done|].
  intros (Hn & HnU & Hnear & Hrest). cbn [fmap list_fmap counter_run].
  rewrite Hnext, Hget, extend_next_nearest by done. cbn -[Z.pow].
  rewrite IH; [done| |..].
  - by apply counter_spec_wf.
  - unfold counter_spec. by zcase.
  - done.
Qed.

Lemma counter_run_stream {S} (get : S -> option Z) (mk : option Z -> S)
    (next : S -> Z -> res (Z * S)) n0 ns :
  (forall o, get (mk o) = o) ->
  (forall st x, next st x = '(e, o) ← extend_next bits (get st) x; Ok (e, mk o)) ->
  M <= n0 < 2 * M -> in_window bits n0 ns ->
  counter_run next (mk None) ((fun n => n mod M) <$> (n0 :: ns)) = Ok (n0 :: ns).
Proof using Hbits.
  intros Hget Hnext Hn0 Hw. destruct half_cycle as [HM HH].
  cbn [fmap list_fmap counter_run]. rewrite Hnext, Hget.
  assert (n0 mod M = n0 - M) as ->.
  { rewrite <- (Z.mod_add n0 (-1)), Z.mod_small by lia. lia. }
  rewrite extend_next_first by lia. cbn -[Z.pow].
  replace (M + (n0 - M)) with n0 by lia.
  rewrite (counter_run_window get) by (done || lia). done.
Qed.

(** The stored value goes back when an older value of the same cycle comes. *)
Lemma extend_next_older l x :
  M <= l -> l + M < U64 -> 0 <= x < l mod M -> l mod M - x < H ->
  exists e, extend_next bits (Some l) x = Ok (e, Some e) /\ e = l - (l mod M - x).
Proof using Hbits.
  intros Hl Hov Hx Hd. destruct half_cycle as [HM HH].
  unfold extend_next. rewrite clear_low_mod by lia.
  pose proof (Z.mod_pos_bound l M ltac:(lia)) as Hmod.
  eexists. split; [|reflexivity]. run_chk. zif; [|lia]. run_chk. zif; [lia|].
  by replace (x + (l - l mod M)) with (l - (l mod M - x)) by lia.
Qed.
End Extend.


(** What a call that returns guarantees. *)
Lemma ExtendedSeqnum_next_sound st x e st' :
  ext_wf 16 (sn_last_ext st) -> is_u16 x -> ExtendedSeqnum_next st x = Ok (e, st') ->
  0 <= e /\ e mod U16 = x /\ ext_wf 16 (sn_last_ext st').
Proof.
  destruct st as [[l|]]; unfold ExtendedSeqnum_next, is_u16;
    cbn [sn_last_ext ext_wf]; intros Hwf Hx ([e' o] & Hn & [= <- <-])%bind_ok.
  - destruct (extend_next_sound 16 ltac:(lia) l x e' o) as (-> & Hc & Hp & _); [done..|].
    split_and!; [done..|]. by apply (counter_spec_wf 16).
  - rewrite extend_next_first in Hn by (done || lia). injection Hn as <- <-.
    change (2 ^ 16) with U16. cbn [sn_last_ext].
    replace (U16 + x) with (x + 1 * U16) by lia. rewrite Z.mod_add, Z.mod_small by lia.
    cbn. lia.
Qed.

Lemma ExtendedSeqnum_next_total st x :
  ext_wf 16 (sn_last_ext st) -> is_u16 x ->
  (forall l, sn_last_ext st = Some l -> l + U16 < U64) ->
  exists e st', ExtendedSeqnum_next st x = Ok (e, st') /\
    e mod U16 = x /\ ext_wf 16 (sn_last_ext st') /\
    (forall l, sn_last_ext st = Some l -> - 32768 <= e - l <= 32768) /\
    (sn_last_ext st' = Some e \/ sn_last_ext st' = sn_last_ext st) /\
    (sn_last_ext st = None -> e = U16 + x /\ sn_last_ext st' = Some e).
Proof.
  destruct st as [[l|]]; unfold ExtendedSeqnum_next; cbn [sn_last_ext ext_wf]; intros Hwf Hx Hb.
  - destruct (extend_next_cases 16 ltac:(lia) l x) as (e & -> & Hc & He & Hd);
      [done|by apply Hb|done|].
    eexists e, _. cbn. split_and!; [done..| | | |done].
    + by apply (counter_spec_wf 16).
    + intros l' [= <-]. change (2 ^ (16 - 1)) with 32768 in Hd. lia.
    + unfold counter_spec. zif; auto.
  - rewrite extend_next_first by (done || lia). change (2 ^ 16) with U16.
    eexists _, _. split; [reflexivity|]. split_and!; [|cbn; unfold is_u16 in Hx; lia|done|by left|done].
    replace (U16 + x) with (x + 1 * U16) by lia. rewrite Z.mod_add by lia.
    by apply Z.mod_small.
Qed.

Lemma wrapping_distance_eq a b :
  wrapping_distance a b =
    (let d := swrap U32 (w_val a - w_val b) in
     if d =? -2147483648 then None else Some d).
Proof. unfold wrapping_distance, wrapping_distance_u32. by rewrite swrap_sub. Qed.

Lemma swrap_opp x : swrap U32 x <> -2147483648 -> swrap U32 (- x) = - swrap U32 x.
Proof.
  intros Hne. pose proof (swrap_range U32 x ltac:(lia) eq_refl) as Hr.
  change (U32 / 2) with 2147483648 in Hr.
  apply swrap_unique; [done..|change (U32 / 2) with 2147483648; lia|].
  replace (- swrap U32 x - - x) with (- (swrap U32 x - x)) by lia.
  apply Z.mod_opp_l_z; [done|]. by apply swrap_cong.
Qed.

(** ** Properties *)

(** C31: a receiver that extends a stream of sequence numbers (or timestamps)
    reconstructs the sender's unbounded numbering exactly: for every stream
    that starts in the first cycle and in which each number is less than half
    a cycle from the stored one, the extended values are the sender's. *)
Theorem extended_counters_reconstruct n0 ns :
  (U16 <= n0 < 2 * U16 -> in_window 16 n0 ns ->
   counter_run ExtendedSeqnum_next ExtendedSeqnum_default
     ((fun n => n mod U16) <$> (n0 :: ns)) = Ok (n0 :: ns)) /\
  (U32 <= n0 < 2 * U32 -> in_window 32 n0 ns ->
   counter_run ExtendedTimestamp_next ExtendedTimestamp_default
     ((fun n => n mod U32) <$> (n0 :: ns)) = Ok (n0 :: ns)).
Proof.
  split; intros Hn0 Hw.
  - by apply (counter_run_stream 16 ltac:(lia) sn_last_ext mkExtendedSeqnum).
  - by apply (counter_run_stream 32 ltac:(lia) ts_last_ext mkExtendedTimestamp).
Qed.

(** The extension never panics and keeps its invariant: from a stored
    value of at least one cycle (as the default state produces), every wire
    value is extended to a 64-bit value congruent to it and at most half a
    cycle from the stored one (in the first cycle when there is none), and
    the new stored value, that one or the old one, is again at least one
    cycle. *)
Lemma extended_seqnum_total (st : ExtendedSeqnum) (x : Z) :
  ext_wf 16 (sn_last_ext st) -> is_u16 x ->
  (forall l, sn_last_ext st = Some l -> l + U16 < U64) ->
  exists e st', ExtendedSeqnum_next st x = Ok (e, st') /\
    e mod U16 = x /\ ext_wf 16 (sn_last_ext st') /\
    (forall l, sn_last_ext st = Some l -> - 32768 <= e - l <= 32768) /\
    (sn_last_ext st' = Some e \/ sn_last_ext st' = sn_last_ext st) /\
    (sn_last_ext st = None -> e = U16 + x /\ sn_last_ext st' = Some e).
Proof. apply ExtendedSeqnum_next_total. Qed.

(** The stored value does go back, although a comment in the code says it
    never does: an older value of the same cycle replaces the newer one that
    was stored. *)
Lemma extended_timestamp_goes_back (l x : Z) :
  U32 <= l -> l + U32 < U64 -> 0 <= x < l mod U32 -> l mod U32 - x < 2147483648 ->
  exists e st', ExtendedTimestamp_next (mkExtendedTimestamp (Some l)) x = Ok (e, st') /\
    ts_last_ext st' = Some e /\ e < l.
Proof.
  intros Hl Hov Hx Hd.
  destruct (extend_next_older 32 ltac:(lia) l x) as (e & He & Heq); [done..|].
  eexists e, _. unfold ExtendedTimestamp_next. cbn [ts_last_ext]. rewrite He.
  split; [reflexivity|]. split; [done|]. change (2 ^ 32) with U32 in Heq. lia.
Qed.

(** [seqnum_distance] is the signed distance of the two numbers on the
    16-bit circle, and it is antisymmetric except at the ambiguous half
    turn. *)
Lemma seqnum_distance_spec (a b : Z) :
  - 32768 <= seqnum_distance a b < 32768 /\
  (seqnum_distance a b - (a - b)) mod U16 = 0 /\
  (seqnum_distance a b <> - 32768 -> seqnum_distance b a = - seqnum_distance a b).
Proof.
  unfold seqnum_distance. rewrite !swrap_sub by done.
  pose proof (swrap_range U16 (a - b) ltac:(lia) eq_refl) as Hr.
  change (U16 / 2) with 32768 in Hr.
  split_and!; [lia|lia|by apply swrap_cong|]. intros Hne.
  apply swrap_unique; [done..|change (U16 / 2) with 32768; lia|].
  replace (- swrap U16 (a - b) - (b - a)) with (- (swrap U16 (a - b) - (a - b))) by lia.
  apply Z.mod_opp_l_z; [done|]. by apply swrap_cong.
Qed.

(** On the wrapping comparable types, adding a signed offset and taking
    the distance back returns the offset, across wrap-around, for every
    offset but the ambiguous one. *)
Lemma wrapping_distance_add (a : wrapping_u32) (d : Z) :
  - 2147483648 < d < 2147483648 ->
  wrapping_distance (wrapping_add_i32 a d) a = Some d.
Proof.
  intros Hd. rewrite wrapping_distance_eq. unfold wrapping_add_i32. cbn [w_val].
  rewrite swrap_add_l, wrap_swrap by done.
  replace (swrap U32 (wrap U32 (w_val a + d) - w_val a)) with d; cbn zeta.
  - destruct (Z.eqb_spec d (-2147483648)); [lia|done].
  - symmetry. apply swrap_unique; [done..|change (U32 / 2) with 2147483648; lia|].
    unfold wrap. rewrite (Z.mod_eq (w_val a + d)) by lia.
    replace (d - (w_val a + d - U32 * ((w_val a + d) / U32) - w_val a))
      with ((w_val a + d) / U32 * U32) by lia.
    by apply Z.mod_mul.
Qed.

(** Comparison on the wrapping types fails exactly at the half turn, and
    is otherwise antisymmetric: swapping the arguments reverses the order. *)
Lemma wrapping_partial_cmp_antisym (a b : wrapping_u32) :
  (wrapping_partial_cmp a b = None <-> (w_val a - w_val b) mod U32 = 2147483648) /\
  (forall o, wrapping_partial_cmp a b = Some o -> wrapping_partial_cmp b a = Some (CompOpp o)).
Proof.
  unfold wrapping_partial_cmp. rewrite !wrapping_distance_eq. cbn zeta.
  pose proof (swrap_range U32 (w_val a - w_val b) ltac:(lia) eq_refl) as Hr.
  change (U32 / 2) with 2147483648 in Hr. split.
  - unfold swrap. change (U32 / 2) with 2147483648.
    pose proof (Z.mod_pos_bound (w_val a - w_val b) U32 ltac:(lia)).
    destruct (Z.ltb_spec ((w_val a - w_val b) mod U32) 2147483648);
      match goal with |- context [?x =? ?y] => destruct (Z.eqb_spec x y) end; cbn;
      split; congruence || lia.
  - intros o. destruct (Z.eqb_spec (swrap U32 (w_val a - w_val b)) (-2147483648)); [done|].
    intros [= <-]. replace (w_val b - w_val a) with (- (w_val a - w_val b)) by lia.
    rewrite swrap_opp by done.
    destruct (Z.eqb_spec (- swrap U32 (w_val a - w_val b)) (-2147483648)); [lia|].
    change (Some (- swrap U32 (w_val a - w_val b) ?= 0)
            = Some (CompOpp (swrap U32 (w_val a - w_val b) ?= 0))).
    f_equal. set (d := swrap U32 (w_val a - w_val b)).
    destruct (Z.compare_spec d 0), (Z.compare_spec (- d) 0); (lia || done).
Qed.

(** ** Witnesses *)

Lemma extended_counters_reconstruct_witness :
  counter_run ExtendedSeqnum_next ExtendedSeqnum_default [65534; 65535; 1; 0; 2]
    = Ok [131070; 131071; 131073; 131072; 131074].
Proof.
  apply (proj1 (extended_counters_reconstruct 131070 [131071; 131073; 131072; 131074]));
    [lia|vm_compute; auto 20].
  repeat split; congruence.
Defined.

Lemma extended_seqnum_total_witness :
  exists e st', ExtendedSeqnum_next (mkExtendedSeqnum (Some 131071)) 3 = Ok (e, st') /\
    e mod U16 = 3.
Proof.
  destruct (extended_seqnum_total (mkExtendedSeqnum (Some 131071)) 3) as (e & st' & H1 & H2 & _).
  - cbn. lia.
  - unfold is_u16. lia.
  - intros l [= <-]. lia.
  - exists e, st'. split; [exact H1|exact H2].
Defined.

Lemma extended_timestamp_goes_back_witness :
  exists e st', ExtendedTimestamp_next (mkExtendedTimestamp (Some 4294968296)) 500 = Ok (e, st') /\
    ts_last_ext st' = Some e /\ e < 4294968296.
Proof.
  apply (extended_timestamp_goes_back 4294968296 500); vm_compute; try split; congruence.
Defined.

Lemma seqnum_distance_spec_witness : seqnum_distance 65530 5 = - seqnum_distance 5 65530.
Proof. apply (seqnum_distance_spec 5 65530). vm_compute. discriminate. Defined.

Lemma wrapping_distance_add_witness :
  wrapping_distance (wrapping_add_i32 (Wrapping 4294967290) 20) (Wrapping 4294967290)
    = Some 20.
Proof. apply (wrapping_distance_add (Wrapping 4294967290) 20). lia. Defined.

Lemma wrapping_partial_cmp_antisym_witness :
  wrapping_partial_cmp (Wrapping 3) (Wrapping 4294967295) = Some Gt.
Proof.
  exact (proj2 (wrapping_partial_cmp_antisym (Wrapping 4294967295) (Wrapping 3))
           Lt eq_refl).
Defined.
