(* ===== verification/Time.v ===== *)
(** * NTP time (net/rtp/src/rtpbin2/time.rs)

    64-bit NTP timestamps (32.32 fixed-point seconds since 1900, wrapping
    every 2^32 seconds), their conversion to and from durations, and the
    choice of the era of a received timestamp. *)

From S2P Require Import Prelude.

(** One second as nanoseconds. *)
Definition SECOND : Z := 1000000000.

Record NtpTime := mkNtpTime { ntp_val : Z }.

#[export] Instance NtpTime_eq_dec : EqDecision NtpTime.
Proof. solve_decision. Defined.

Section Time.
Context `{Gst}.

Definition UNIX_TO_NTP_TIME_OFFSET : Z :=
duration_from_secs UNIX_TO_NTP_TIME_OFFSET_SECONDS.

(** [st.duration_since(UNIX_EPOCH).expect(..)]. *)
Definition duration_since_epoch (st : Z) : res Z := if 0 <=? st then Ok st else Panic.

Definition ntp_era_from_system_time (st : Z) : res Z :=
d ← duration_since_epoch st;
d ← duration_add d UNIX_TO_NTP_TIME_OFFSET;
Ok (duration_as_secs d / U32).

Definition NtpTime_from_duration (dur : Z) : res NtpTime :=
let seconds := duration_as_secs dur in
fractional ← unwrap (mul_div_ceil U64 (duration_subsec_nanos dur) U32 SECOND);
Ok (mkNtpTime (Z.lor (wrap U64 (Z.shiftl seconds 32)) fractional)).

Definition system_time_to_ntp_time_u64 (time : Z) : res NtpTime :=
d ← duration_since_epoch time;
dur ← duration_add d UNIX_TO_NTP_TIME_OFFSET;
NtpTime_from_duration dur.

Definition NtpTime_as_duration_with_current_time (self : NtpTime) (current_time : Z) : res Z :=
current_ntp_time ← system_time_to_ntp_time_u64 current_time;
timestamp_era ← ntp_era_from_system_time current_time;
timestamp_era ←
  (if (ntp_val current_ntp_time >? ntp_val self)
      && (ntp_val current_ntp_time - ntp_val self >? I64)
   then u64_add timestamp_era 1
   else if (ntp_val current_ntp_time <? ntp_val self)
           && (ntp_val self - ntp_val current_ntp_time >? I64)
   then u64_sub timestamp_era 1
   else Ok timestamp_era);
nanos ← unwrap (mul_div_ceil U64 (ntp_val self) SECOND U32);
duration_add nanos (duration_from_secs (wrap U64 (Z.shiftl timestamp_era 32))).

(** [as_duration] reads the current time once per process; [current_time] is
  that reading. *)
Definition NtpTime_as_duration (current_time : Z) (self : NtpTime) : res Z :=
NtpTime_as_duration_with_current_time self current_time.

(** Middle 32 bits of the timestamp (16.16 seconds). *)
Definition NtpTime_as_u32 (self : NtpTime) : Z :=
and_mask (Z.shiftr (ntp_val self) 16) 32.

Definition NtpTime_as_u64 (self : NtpTime) : Z := ntp_val self.

Definition NtpTime_as_nanos (self : NtpTime) : res Z :=
unwrap (mul_div_ceil U64 (ntp_val self) SECOND U32).

Definition NtpTime_sub (self rhs : NtpTime) : res NtpTime :=
v ← u64_sub (ntp_val self) (ntp_val rhs); Ok (mkNtpTime v).

Definition NtpTime_add (self rhs : NtpTime) : res NtpTime :=
v ← u64_add (ntp_val self) (ntp_val rhs); Ok (mkNtpTime v).

End Time.

(** ** Lemmas *)

(** The fraction of a second of [s] nanoseconds in units of 2^-32 s, rounded
    up, and back. *)
Definition ntp_frac (s : Z) : Z := (s * U32 + SECOND - 1) / SECOND.

Lemma ntp_frac_bounds s : 0 <= s < SECOND ->
  0 <= ntp_frac s < U32 /\ s * U32 <= ntp_frac s * SECOND < s * U32 + SECOND.
Proof. unfold ntp_frac, SECOND. intros. Z.div_mod_to_equations. lia. Qed.

(** The unbounded NTP time of a duration since 1900. *)
Definition ntp_ext (d : Z) : Z := (d / SECOND) * U32 + ntp_frac (d mod SECOND).

Lemma ntp_ext_div d : 0 <= d -> ntp_ext d / U64 = d / SECOND / U32.
Proof.
  intros Hd. unfold ntp_ext.
  pose proof (ntp_frac_bounds (d mod SECOND) (Z.mod_pos_bound d SECOND eq_refl)) as [Hf _].
  change U64 with (U32 * U32). rewrite <- Z.div_div, Z.div_add_l by lia.
  rewrite (Z.div_small (ntp_frac _)) by lia. f_equal. lia.
Qed.

Section TimeLemmas.
Context `{GstLaws}.

Lemma from_duration_eq d : 0 <= d -> NtpTime_from_duration d = Ok (mkNtpTime (ntp_ext d mod U64)).
Proof.
  intros Hd. unfold NtpTime_from_duration, duration_as_secs, duration_subsec_nanos.
  change NS_PER_SEC with SECOND. assert (SECOND = 1000000000) as HS by done.
  pose proof (Z.mod_pos_bound d SECOND eq_refl) as Hs.
  rewrite mul_div_ceil_spec by lia.
  destruct (ntp_frac_bounds (d mod SECOND) Hs) as [Hf _].
  change ((d mod SECOND * U32 + SECOND - 1) / SECOND) with (ntp_frac (d mod SECOND)).
  rewrite fits_small by lia. cbn [unwrap]. rewrite bind_Ok. do 2 f_equal.
  unfold wrap, ntp_ext.
  rewrite Z.shiftl_mul_pow2 by lia. change U64 with (2 ^ 32 * 2 ^ 32).
  rewrite Z.mul_mod_distr_r by lia.
  rewrite <- Z.shiftl_mul_pow2, lor_shiftl_add by (done || lia).
  change U32 with (2 ^ 32). rewrite Z.add_mod, Z.mul_mod_distr_r by lia.
  rewrite (Z.mod_small (ntp_frac _)) by lia. symmetry. apply Z.mod_small.
  pose proof (Z.mod_pos_bound (d / SECOND) (2 ^ 32) eq_refl). nia.
Qed.

(** Rounding up twice loses at most one nanosecond. *)
Lemma ntp_nanos_eq v : 0 <= v < U64 ->
  mul_div_ceil U64 v SECOND U32 = Some ((v * SECOND + U32 - 1) / U32).
Proof.
  intros Hv. rewrite mul_div_ceil_spec by (unfold SECOND; lia).
  apply fits_small. unfold SECOND. Z.div_mod_to_equations. lia.
Qed.

Lemma ntp_nanos_ext s f :
  0 <= f < U32 -> ((s * U32 + f) * SECOND + U32 - 1) / U32 = s * SECOND + (f * SECOND + U32 - 1) / U32.
Proof.
  intros Hf. replace ((s * U32 + f) * SECOND + U32 - 1)
    with ((s * SECOND) * U32 + (f * SECOND + U32 - 1)) by lia.
  rewrite Z.div_add_l by lia. done.
Qed.

Lemma ntp_frac_back s : 0 <= s < SECOND ->
  s <= (ntp_frac s * SECOND + U32 - 1) / U32 <= s + 1.
Proof.
  intros Hs. destruct (ntp_frac_bounds s Hs) as [_ Hf]. unfold SECOND in *.
  Z.div_mod_to_equations. lia.
Qed.

Lemma system_time_to_ntp_eq t :
  0 <= t -> t + UNIX_TO_NTP_TIME_OFFSET <= DURATION_MAX ->
  system_time_to_ntp_time_u64 t = Ok (mkNtpTime (ntp_ext (t + UNIX_TO_NTP_TIME_OFFSET) mod U64)).
Proof.
  intros Ht Hb. unfold system_time_to_ntp_time_u64, duration_since_epoch.
  rewrite (proj2 (Z.leb_le 0 t)) by done. rewrite bind_Ok.
  rewrite (proj2 (duration_add_ok _ _ _)) by (split; [reflexivity|lia]). rewrite bind_Ok.
  apply from_duration_eq. unfold UNIX_TO_NTP_TIME_OFFSET, duration_from_secs.
  rewrite ntp_offset_spec. lia.
Qed.

Lemma ntp_era_eq t :
  0 <= t -> t + UNIX_TO_NTP_TIME_OFFSET <= DURATION_MAX ->
  ntp_era_from_system_time t = Ok (ntp_ext (t + UNIX_TO_NTP_TIME_OFFSET) / U64).
Proof.
  intros Ht Hb. unfold ntp_era_from_system_time, duration_since_epoch.
  rewrite (proj2 (Z.leb_le 0 t)) by done. rewrite bind_Ok.
  rewrite (proj2 (duration_add_ok _ _ _)) by (split; [reflexivity|lia]). rewrite bind_Ok.
  rewrite ntp_ext_div; [done|].
  unfold UNIX_TO_NTP_TIME_OFFSET, duration_from_secs. rewrite ntp_offset_spec. lia.
Qed.
End TimeLemmas.

Lemma ntp_ext_bounds d : 0 <= d ->
  0 <= ntp_ext d /\ d * U32 <= ntp_ext d * SECOND < d * U32 + SECOND.
Proof.
  intros Hd. unfold ntp_ext.
  pose proof (Z.mod_pos_bound d SECOND eq_refl) as Hs.
  destruct (ntp_frac_bounds (d mod SECOND) Hs) as [Hf1 Hf2].
  pose proof (Z.div_mod d SECOND ltac:(done)).
  pose proof (Z.div_pos d SECOND Hd eq_refl). unfold SECOND in *. nia.
Qed.

(** A timestamp, its era and what it lost to rounding. *)
Lemma ntp_ext_nanos d : 0 <= d ->
  exists eps, 0 <= eps <= 1 /\
    (ntp_ext d mod U64 * SECOND + U32 - 1) / U32 + (ntp_ext d / U64) * U32 * SECOND = d + eps.
Proof.
  intros Hd. unfold ntp_ext at 1.
  pose proof (Z.mod_pos_bound d SECOND eq_refl) as Hs.
  destruct (ntp_frac_bounds (d mod SECOND) Hs) as [Hf _].
  pose proof (ntp_frac_back (d mod SECOND) Hs) as Hb.
  assert ((d / SECOND * U32 + ntp_frac (d mod SECOND)) mod U64
          = (d / SECOND) mod U32 * U32 + ntp_frac (d mod SECOND)) as ->.
  { change U64 with (U32 * U32). rewrite Z.add_mod, Z.mul_mod_distr_r by lia.
    rewrite (Z.mod_small (ntp_frac _)) by lia. apply Z.mod_small.
    pose proof (Z.mod_pos_bound (d / SECOND) U32 eq_refl). nia. }
  rewrite ntp_nanos_ext by lia. rewrite ntp_ext_div by done.
  exists ((ntp_frac (d mod SECOND) * SECOND + U32 - 1) / U32 - d mod SECOND).
  split; [lia|].
  pose proof (Z.div_mod d SECOND ltac:(done)).
  pose proof (Z.div_mod (d / SECOND) U32 ltac:(done)). unfold SECOND in *. nia.
Qed.

(** The era of a timestamp less than half a cycle from the current time. *)
Lemma ntp_era_choice X C :
  0 <= X -> 0 <= C < U64 * U32 -> Z.abs (X - C) < I64 ->
  (if (C mod U64 >? X mod U64) && (C mod U64 - X mod U64 >? I64)
   then u64_add (C / U64) 1
   else if (C mod U64 <? X mod U64) && (X mod U64 - C mod U64 >? I64)
   then u64_sub (C / U64) 1 else Ok (C / U64)) = Ok (X / U64).
Proof.
  intros HX HC Hd.
  pose proof (Z.div_mod X U64 ltac:(done)). pose proof (Z.div_mod C U64 ltac:(done)).
  pose proof (Z.mod_pos_bound X U64 eq_refl). pose proof (Z.mod_pos_bound C U64 eq_refl).
  set (x := X mod U64) in *. set (c := C mod U64) in *.
  repeat zcase; cbn [andb];
    first [apply u64_add_ok|apply u64_sub_ok|f_equal]; lia.
Qed.

(** Reading a timestamp gives the time nearest to the current one. *)
Lemma as_duration_near `{GstLaws} (v cur : Z) :
  is_u64 v -> 0 <= cur < 2 ^ 62 * SECOND ->
  exists d, NtpTime_as_duration_with_current_time (mkNtpTime v) cur = Ok d /\
    Z.abs (d - (cur + UNIX_TO_NTP_TIME_OFFSET)) <= 2147483648 * SECOND + 2.
Proof.
  intros Hv Hcur. assert (SECOND = 1000000000) as HS by done. unfold is_u64 in Hv.
  assert (Hoff : UNIX_TO_NTP_TIME_OFFSET = 2208988800000000000).
  { unfold UNIX_TO_NTP_TIME_OFFSET, duration_from_secs. by rewrite ntp_offset_spec. }
  assert (HD : DURATION_MAX = 18446744073709551615999999999) by done.
  unfold NtpTime_as_duration_with_current_time.
  rewrite system_time_to_ntp_eq, ntp_era_eq by lia. rewrite !bind_Ok. cbn [ntp_val].
  set (Cu := cur + UNIX_TO_NTP_TIME_OFFSET) in *.
  destruct (ntp_ext_bounds Cu ltac:(lia)) as [HC0 HC].
  pose proof (Z.div_mod (ntp_ext Cu) U64 ltac:(done)) as HCm.
  pose proof (Z.mod_pos_bound (ntp_ext Cu) U64 eq_refl) as HCb.
  assert (Hera : exists era, 0 <= era < 2 ^ 31 /\ Z.abs (era * U64 + v - ntp_ext Cu) <= I64 /\
    (if (ntp_ext Cu mod U64 >? v) && (ntp_ext Cu mod U64 - v >? I64)
     then u64_add (ntp_ext Cu / U64) 1
     else if (ntp_ext Cu mod U64 <? v) && (v - ntp_ext Cu mod U64 >? I64)
     then u64_sub (ntp_ext Cu / U64) 1 else Ok (ntp_ext Cu / U64)) = Ok era).
  { set (c := ntp_ext Cu mod U64) in *. set (e := ntp_ext Cu / U64) in *.
    exists (if (c >? v) && (c - v >? I64) then e + 1
            else if (c <? v) && (v - c >? I64) then e - 1 else e).
    repeat zcase; cbn [andb]; (split; [|split; [|first [apply u64_add_ok|apply u64_sub_ok|done]]]); lia. }
  destruct Hera as (era & Hb & Hnear & ->).
  rewrite bind_Ok, ntp_nanos_eq by done. cbn [unwrap]. rewrite bind_Ok.
  unfold wrap, duration_from_secs. rewrite Z.shiftl_mul_pow2, (Z.mod_small (era * _)) by lia.
  change NS_PER_SEC with SECOND. change (2 ^ 32) with U32. unfold SECOND in *. eexists. split.
  - apply duration_add_ok. split; [reflexivity|]. Z.div_mod_to_equations. lia.
  - clear HCm HCb. Z.div_mod_to_equations. lia.
Qed.

(** ** Properties *)

(** Converting a duration of less than an era to an NTP timestamp and
    back never panics and adds at most one nanosecond. *)
Lemma ntp_roundtrip `{GstLaws} (d : Z) :
  0 <= d < U32 * SECOND ->
  exists t n, NtpTime_from_duration d = Ok t /\ NtpTime_as_nanos t = Ok n /\ d <= n <= d + 1.
Proof.
  intros Hd. rewrite from_duration_eq by lia. eexists _, _. split; [reflexivity|].
  unfold NtpTime_as_nanos. cbn [ntp_val].
  rewrite ntp_nanos_eq by (apply Z.mod_pos_bound; lia). split; [reflexivity|].
  destruct (ntp_ext_nanos d) as (eps & Heps & Heq); [lia|].
  rewrite ntp_ext_div in Heq by lia.
  rewrite (Z.div_small (d / SECOND)) in Heq by (unfold SECOND in *; Z.div_mod_to_equations; lia).
  lia.
Qed.

(** The era of a received NTP timestamp is chosen correctly: for two
    system times less than half an era apart, the timestamp of one read with
    the other as current time gives back the first one's time since 1900, up
    to the nanosecond of rounding, across the rollovers of 2036 and later. *)
Lemma ntp_era_correct `{GstLaws} (t cur : Z) :
  0 <= t < 2 ^ 62 * SECOND -> 0 <= cur < 2 ^ 62 * SECOND ->
  Z.abs (t - cur) <= 2147483647 * SECOND ->
  exists ts d, system_time_to_ntp_time_u64 t = Ok ts /\
    NtpTime_as_duration_with_current_time ts cur = Ok d /\
    t + UNIX_TO_NTP_TIME_OFFSET <= d <= t + UNIX_TO_NTP_TIME_OFFSET + 1.
Proof.
  intros Ht Hcur Hnear. assert (SECOND = 1000000000) as HS by done.
  assert (Hoff : UNIX_TO_NTP_TIME_OFFSET = 2208988800000000000).
  { unfold UNIX_TO_NTP_TIME_OFFSET, duration_from_secs. by rewrite ntp_offset_spec. }
  assert (DURATION_MAX = 18446744073709551615999999999) by done.
  assert (0 <= t + UNIX_TO_NTP_TIME_OFFSET) as Hpos by lia.
  destruct (ntp_ext_nanos _ Hpos) as (eps & Heps & Heq).
  rewrite system_time_to_ntp_eq by (clear Heq; lia). eexists _, (t + UNIX_TO_NTP_TIME_OFFSET + eps).
  split; [reflexivity|]. revert Heq.
  unfold NtpTime_as_duration_with_current_time.
  rewrite system_time_to_ntp_eq, ntp_era_eq by lia. rewrite !bind_Ok. cbn [ntp_val].
  set (T := t + UNIX_TO_NTP_TIME_OFFSET) in *. set (Cu := cur + UNIX_TO_NTP_TIME_OFFSET) in *.
  destruct (ntp_ext_bounds T ltac:(lia)) as [HT0 HT].
  destruct (ntp_ext_bounds Cu ltac:(lia)) as [HC0 HC].
  assert (HeraB : ntp_ext T / U64 < 2 ^ 31) by (apply Z.div_lt_upper_bound; lia).
  pose proof (Z.div_pos (ntp_ext T) U64 HT0 eq_refl).
  rewrite ntp_era_choice by lia.
  rewrite bind_Ok, ntp_nanos_eq by (apply Z.mod_pos_bound; lia). cbn [unwrap].
  rewrite bind_Ok.
  unfold wrap. rewrite Z.shiftl_mul_pow2 by lia. change (2 ^ 32) with U32.
  rewrite (Z.mod_small (ntp_ext T / U64 * U32)) by lia.
  unfold duration_from_secs. change NS_PER_SEC with SECOND.
  intros Heq. split; [|clear Heq; lia].
  apply duration_add_ok. rewrite Heq. clear Heq. lia.
Qed.

(** Reading a received NTP timestamp never panics, whatever its 64 bits
    are and for every current time from 1970 on, and it always means the time
    nearest to now: at most half an era (68 years) away. *)
Lemma ntp_as_duration_total `{GstLaws} (v cur : Z) :
  is_u64 v -> 0 <= cur < 2 ^ 62 * SECOND ->
  exists d, NtpTime_as_duration_with_current_time (mkNtpTime v) cur = Ok d /\
    Z.abs (d - (cur + UNIX_TO_NTP_TIME_OFFSET)) <= 2147483648 * SECOND + 2.
Proof. apply as_duration_near. Qed.

(** Timestamps and clocks of 2036, at the rollover, and a year before. *)
Lemma ntp_roundtrip_witness : exists t n,
  @NtpTime_from_duration gst_exact 3999999999999999999 = Ok t /\
  @NtpTime_as_nanos gst_exact t = Ok n /\ 3999999999999999999 <= n <= 3999999999999999999 + 1.
Proof. apply (@ntp_roundtrip gst_exact gst_exact_laws). unfold SECOND. lia. Defined.

Lemma ntp_era_correct_witness : exists ts d,
  @system_time_to_ntp_time_u64 gst_exact (2085978496 * SECOND) = Ok ts /\
  @NtpTime_as_duration_with_current_time gst_exact ts (2085978495 * SECOND) = Ok d /\
  2085978496 * SECOND + @UNIX_TO_NTP_TIME_OFFSET gst_exact <= d
    <= 2085978496 * SECOND + @UNIX_TO_NTP_TIME_OFFSET gst_exact + 1.
Proof. apply (@ntp_era_correct gst_exact gst_exact_laws); unfold SECOND; lia. Defined.

Lemma ntp_as_duration_total_witness : exists d,
  @NtpTime_as_duration_with_current_time gst_exact (mkNtpTime 0) (1800000000 * SECOND) = Ok d /\
  Z.abs (d - (1800000000 * SECOND + @UNIX_TO_NTP_TIME_OFFSET gst_exact)) <= 2147483648 * SECOND + 2.
Proof. apply (@ntp_as_duration_total gst_exact gst_exact_laws); [done|unfold SECOND; lia]. Defined.
