(* ===== verification/BTreeSet.v ===== *)
(** * Ordered sets

    Rust's [BTreeSet] as the strictly increasing list of its elements for the
    element type's [Ord]: the operations the jitter buffer uses, and their
    laws. As in Rust, elements that compare equal are the same element of the
    set even when they are different values, and inserting one that is
    already there leaves the set as it was. *)

From S2P Require Import Prelude.
From Stdlib Require Import Sorting.Sorted.

Class Ord (A : Type) := cmp : A -> A -> comparison.

Class OrdLaws (A : Type) `{Ord A} : Prop := {
  cmp_antisym (a b : A) : cmp b a = CompOpp (cmp a b);
  cmp_lt_trans (a b c : A) : cmp a b = Lt -> cmp b c = Lt -> cmp a c = Lt;
  cmp_eq_l (a b c : A) : cmp a b = Eq -> cmp a c = cmp b c;
}.

#[export] Instance Z_Ord : Ord Z := Z.compare.
#[export] Instance Z_OrdLaws : OrdLaws Z.
Proof.
  split; unfold cmp, Z_Ord.
  - intros. apply Z.compare_antisym.
  - intros a b c. rewrite !Z.compare_lt_iff. lia.
  - intros a b c ->%Z.compare_eq_iff. done.
Qed.

Section Operations.
Context {A : Type} `{Ord A}.

(** [set.insert(x)]: the new set, and whether [x] was inserted. *)
Fixpoint bts_insert (x : A) (l : list A) : list A * bool :=
match l with
| [] => ([x], true)
| y :: l' =>
    match cmp x y with
    | Lt => (x :: l, true)
    | Eq => (l, false)
    | Gt => let '(l2, b) := bts_insert x l' in (y :: l2, b)
    end
end.

Definition bts_contains (x : A) (l : list A) : bool :=
existsb (fun y => match cmp x y with Eq => true | _ => false end) l.

Definition bts_first (l : list A) : option A := head l.
Definition bts_last (l : list A) : option A := last l.
Definition bts_pop_first (l : list A) : option A * list A :=
match l with [] => (None, []) | x :: l' => (Some x, l') end.
Definition bts_len (l : list A) : Z := Z.of_nat (length l).

Definition bts_wf (l : list A) : Prop := StronglySorted (fun a b => cmp a b = Lt) l.

End Operations.

#[global] Arguments bts_contains : simpl never.

Section Laws.
Context {A : Type} `{OrdLaws A}.
Implicit Types (x y z : A) (l : list A).

Lemma cmp_refl x : cmp x x = Eq.
Proof. pose proof (cmp_antisym x x). by destruct (cmp x x). Qed.

Lemma cmp_gt_lt x y : cmp x y = Gt -> cmp y x = Lt.
Proof. intros E. by rewrite cmp_antisym, E. Qed.

Lemma cmp_eq_r x y z : cmp x y = Eq -> cmp z x = cmp z y.
Proof. intros E. by rewrite (cmp_antisym x z), (cmp_antisym y z), (cmp_eq_l x y z E). Qed.

(** What an insertion adds. *)
Lemma elem_of_bts_insert x l z :
  z ∈ fst (bts_insert x l) <-> (z = x /\ snd (bts_insert x l) = true) \/ z ∈ l.
Proof.
  induction l as [|y l IH]; cbn.
  - rewrite list_elem_of_singleton, elem_of_nil. tauto.
  - destruct (cmp x y); cbn.
    + intuition congruence.
    + rewrite elem_of_cons. intuition.
    + destruct (bts_insert x l) as [l2 b]; cbn in *. rewrite !elem_of_cons, IH. tauto.
Qed.

(** A refused insertion leaves the set as it was, and an equal element was
    there. *)
Lemma bts_insert_false x l :
  snd (bts_insert x l) = false ->
  fst (bts_insert x l) = l /\ exists y, y ∈ l /\ cmp x y = Eq.
Proof.
  induction l as [|y l IH]; cbn; [done|].
  destruct (cmp x y) eqn:E; cbn; [|done|].
  - intros _. split; [done|]. exists y. rewrite elem_of_cons. auto.
  - destruct (bts_insert x l) as [l2 b]; cbn in *. intros Hb.
    destruct (IH Hb) as [-> (z & Hz & Ez)]. split; [done|].
    exists z. rewrite elem_of_cons. auto.
Qed.

Lemma bts_insert_true x l :
  (forall y, y ∈ l -> cmp x y <> Eq) -> snd (bts_insert x l) = true.
Proof.
  induction l as [|y l IH]; cbn; [done|]. intros Hne.
  destruct (cmp x y) eqn:E; cbn; [|done|].
  - destruct (Hne y); [rewrite elem_of_cons; auto|done].
  - destruct (bts_insert x l) as [l2 b]; cbn in *. apply IH.
    intros z Hz. apply Hne. rewrite elem_of_cons. auto.
Qed.

Lemma bts_wf_cons x l :
  bts_wf (x :: l) <-> bts_wf l /\ forall y, y ∈ l -> cmp x y = Lt.
Proof.
  unfold bts_wf. split.
  - intros Hs. inversion Hs; subst. split; [done|]. by apply Forall_forall.
  - intros [Hs Hall]. constructor; [done|]. by apply Forall_forall.
Qed.

Lemma bts_insert_wf x l : bts_wf l -> bts_wf (fst (bts_insert x l)).
Proof.
  induction l as [|y l IH]; cbn; intros Hs.
  - apply bts_wf_cons. split; [constructor|]. intros z []%elem_of_nil.
  - apply bts_wf_cons in Hs as [Hs Hy]. destruct (cmp x y) eqn:E; cbn.
    + by apply bts_wf_cons.
    + apply bts_wf_cons. split; [by apply bts_wf_cons|].
      intros z [->|Hz]%elem_of_cons; [done|]. by apply (cmp_lt_trans x y z); [|apply Hy].
    + specialize (IH Hs). pose proof (elem_of_bts_insert x l) as Hin.
      destruct (bts_insert x l) as [l2 b]; cbn in *. apply bts_wf_cons. split; [done|].
      intros z [[-> _]|Hz]%Hin; [by apply cmp_gt_lt|by apply Hy].
Qed.

(** In a set, an element equal to a member is refused. *)
Lemma bts_insert_present x y l :
  bts_wf l -> y ∈ l -> cmp x y = Eq -> bts_insert x l = (l, false).
Proof.
  induction l as [|z l IH]; [intros _ []%elem_of_nil|].
  intros [Hs Hz]%bts_wf_cons Hin E. cbn. apply elem_of_cons in Hin as [->|Hin].
  - by rewrite E.
  - rewrite (cmp_eq_l x y z E), (cmp_antisym z y), (Hz y Hin). cbn. by rewrite IH.
Qed.

Lemma bts_insert_length x l :
  length (fst (bts_insert x l)) = (length l + (if snd (bts_insert x l) then 1 else 0))%nat.
Proof.
  induction l as [|y l IH]; cbn; [done|]. destruct (cmp x y); cbn; [lia..|].
  destruct (bts_insert x l) as [l2 b]; cbn in *. destruct b; lia.
Qed.

Lemma bts_contains_spec x l :
  bts_contains x l = true <-> exists y, y ∈ l /\ cmp x y = Eq.
Proof.
  unfold bts_contains. rewrite existsb_exists.
  split; intros (y & Hy & E); exists y; rewrite ?list_elem_of_In in *;
    (split; [done|]); by destruct (cmp x y).
Qed.

Lemma bts_wf_tail x l : bts_wf (x :: l) -> bts_wf l.
Proof. by intros [? _]%bts_wf_cons. Qed.
End Laws.

Lemma bts_contains_Z x (l : list Z) : bts_contains x l = true <-> x ∈ l.
Proof.
  rewrite bts_contains_spec. unfold cmp, Z_Ord. split.
  - by intros (y & Hy & ->%Z.compare_eq_iff).
  - intros. exists x. by rewrite Z.compare_refl.
Qed.

#[export] Hint Resolve bts_insert_wf bts_wf_tail : rtp.
