(* ===== verification/JitterBuffer.v ===== *)
(** * The jitter buffer (net/rtp/src/rtpbin2/jitterbuffer.rs)

    Packets are queued by extended sequence number and leave in that order
    once their deadline has passed; serialized events and queries travel
    between them. The buffer hands out ids; its user keeps the payloads. *)

From S2P Require Import Prelude Utils BTreeSet.

(** ** State *)

Record Stats := mkStats {
  num_late : Z;
  num_lost : Z;
  num_duplicates : Z;
  num_pushed : Z;
}.
#[export] Instance Stats_rebuild : Rebuild Stats :=
  {| rebuild := fun s => mkStats (num_late s) (num_lost s) (num_duplicates s) (num_pushed s) |}.

Record Item := mkItem {
  it_id : Z;
  it_deadline : option Z;    (* not set: an event or a query *)
  it_seqnum : Z;
}.
#[export] Instance Item_eq_dec : EqDecision Item.
Proof. solve_decision. Defined.

Definition Item_cmp (self other : Item) : comparison :=
  match it_seqnum self ?= it_seqnum other with
  | Eq =>
      match it_deadline self, it_deadline other with
      | None, Some _ => Gt
      | Some _, None => Lt
      | _, _ => Eq
      end
  | o => o
  end.
#[export] Instance Item_Ord : Ord Item := Item_cmp.

Inductive PollResult :=
| PollForward (id : Z) (discont : bool)
| PollDrop (id : Z)
| PollTimeout (instant : Z)
| PollEmpty
| PollFlushing.

Inductive QueueResult :=
| QueueForward (id : Z) (discont : bool)
| QueueQueued (id : Z)
| QueueLate
| QueueDuplicate
| QueueFlushing.

Record JitterBuffer := mkJitterBuffer {
  packet_counter : Z;
  seqnums : list Z;                       (* BTreeSet<u64> *)
  items : list Item;                      (* BTreeSet<Item> *)
  latency : Z;
  base_times : option (Z * Z);            (* arrival time, PTS *)
  last_output_seqnum : option Z;
  extended_seqnum : ExtendedSeqnum;
  stats : Stats;
  flushing : bool;
  can_forward_packets_when_empty : bool;
}.
#[export] Instance JitterBuffer_rebuild : Rebuild JitterBuffer :=
  {| rebuild := fun j => mkJitterBuffer (packet_counter j) (seqnums j) (items j) (latency j) (base_times j)
    (last_output_seqnum j) (extended_seqnum j) (stats j) (flushing j)
    (can_forward_packets_when_empty j) |}.

(** ** Operations *)

Definition JitterBuffer_new (latency : Z) : JitterBuffer := {|
  packet_counter := 0;
  seqnums := [];
  items := [];
  latency := latency;
  base_times := None;
  last_output_seqnum := None;
  extended_seqnum := ExtendedSeqnum_default;
  stats := mkStats 0 0 0 0;
  flushing := true;
  can_forward_packets_when_empty := latency =? 0;
|}.

(** [let id = self.packet_counter; self.packet_counter += 1]. *)
Definition take_id (self : JitterBuffer) : res (Z * JitterBuffer) :=
  let id := packet_counter self in
  c ← u64_add (packet_counter self) 1;
  Ok (id, self <| packet_counter := c |>).

Definition JitterBuffer_queue_serialized_item (self : JitterBuffer)
  : res (QueueResult * JitterBuffer) :=
  match items self with
  | [] =>
      '(id, self) ← take_id self;
      Ok (QueueForward id false, self)
  | _ :: _ =>
      '(id, self) ← take_id self;
      let item := {| it_id := id; it_deadline := None;
                     it_seqnum := default 0 (bts_last (seqnums self)) |} in
      Ok (QueueQueued id, self <| items := fst (bts_insert item (items self)) |>)
  end.

Definition JitterBuffer_set_flushing (self : JitterBuffer) (flushing_ : bool) : JitterBuffer :=
  self <| flushing := flushing_ |>
       <| last_output_seqnum := None |>
       <| can_forward_packets_when_empty := latency self =? 0 |>.

(** [while self.seqnums.len() >= u16::MAX as usize { self.seqnums.pop_first(); }] *)
Fixpoint trim_seqnums (l : list Z) : list Z :=
  match l with
  | [] => []
  | _ :: l' => if bts_len l >=? 65535 then trim_seqnums l' else l
  end.

(** Queueing the packet of extended number [seqnum], the last part of
    [queue_packet]. *)
Definition enqueue_packet (self : JitterBuffer) (seqnum pts arrival_time : Z)
  : res (QueueResult * JitterBuffer) :=
  let '(base_arrival, base_pts) := default (arrival_time, pts) (base_times self) in
  let self := self <| base_times := Some (base_arrival, base_pts) |> in
  d ← duration_add pts (latency self);
  let deadline := duration_saturating_sub d base_pts in
  '(id, self) ← take_id self;
  let item := {| it_id := id; it_deadline := Some deadline; it_seqnum := seqnum |} in
  let '(items', inserted) := bts_insert item (items self) in
  if negb inserted then Panic  (* unreachable!() *)
  else Ok (QueueQueued id, self <| items := items' |>).

(** Passing the packet of extended number [seqnum] on at once. *)
Definition forward_packet (self : JitterBuffer) (seqnum : Z) (discont : bool)
  : res (QueueResult * JitterBuffer) :=
  let self := self <| last_output_seqnum := Some seqnum |> in
  '(id, self) ← take_id self;
  pushed ← u64_add (num_pushed (stats self)) 1;
  Ok (QueueForward id discont, self <| stats ::= modify num_pushed (fun _ => pushed) |>).

Definition JitterBuffer_queue_packet (self : JitterBuffer) (sequence_number pts arrival_time : Z)
  : res (QueueResult * JitterBuffer) :=
  if flushing self then Ok (QueueFlushing, self) else
  '(seqnum, ext) ← ExtendedSeqnum_next (extended_seqnum self) sequence_number;
  let self := self <| extended_seqnum := ext |> in
  let self := self <| seqnums ::= trim_seqnums |> in
  if bts_contains seqnum (seqnums self) then
    n ← u64_add (num_duplicates (stats self)) 1;
    Ok (QueueDuplicate, self <| stats ::= modify num_duplicates (fun _ => n) |>)
  else
  let self := self <| seqnums ::= fun s => fst (bts_insert seqnum s) |> in
  if (match last_output_seqnum self with Some l => l >=? seqnum | None => false end) then
    n ← u64_add (num_late (stats self)) 1;
    Ok (QueueLate, self <| stats ::= modify num_late (fun _ => n) |>)
  else
  match items self with
  | [] =>
      if can_forward_packets_when_empty self then
        if (match last_output_seqnum self with
            | Some l => seqnum =? wrap U64 (l + 1)
            | None => false
            end) then
          forward_packet self seqnum false
        else if latency self =? 0 then
          self ← match last_output_seqnum self with
                 | Some last_output_seq_ext =>
                     gap ← u64_sub seqnum last_output_seq_ext;
                     _ ← assert_ (negb (gap =? 1));
                     g ← u64_sub gap 1;
                     n ← u64_add (num_lost (stats self)) g;
                     Ok (self <| stats ::= modify num_lost (fun _ => n) |>)
                 | None => Ok self
                 end;
          forward_packet self seqnum true
        else enqueue_packet self seqnum pts arrival_time
      else enqueue_packet self seqnum pts arrival_time
  | _ :: _ => enqueue_packet self seqnum pts arrival_time
  end.

Definition JitterBuffer_poll (self : JitterBuffer) (now : Z) : res (PollResult * JitterBuffer) :=
  if flushing self then
    match bts_pop_first (items self) with
    | (Some item, rest) => Ok (PollDrop (it_id item), self <| items := rest |>)
    | (None, _) => Ok (PollFlushing, self)
    end
  else
  match bts_first (items self) with
  | None => Ok (PollEmpty, self)
  | Some item =>
      match it_deadline item with
      | None =>
          '(item, rest) ← (match bts_pop_first (items self) with
                           | (Some item, rest) => Ok (item, rest)
                           | (None, _) => Panic
                           end);
          Ok (PollForward (it_id item) false, self <| items := rest |>)
      | Some deadline =>
          match base_times self with
          | None => Ok (PollEmpty, self)
          | Some (base_instant, _) =>
              let duration_since_base_instant := instant_sub now base_instant in
              if deadline <=? duration_since_base_instant then
                '(discont, self) ←
                  match last_output_seqnum self with
                  | None => Ok (true, self)
                  | Some last_output_seq_ext =>
                      gap ← u64_sub (it_seqnum item) last_output_seq_ext;
                      if negb (gap =? 1) then
                        g ← u64_sub gap 1;
                        n ← u64_add (num_lost (stats self)) g;
                        Ok (true, self <| stats ::= modify num_lost (fun _ => n) |>)
                      else Ok (false, self)
                  end;
                let self := self <| last_output_seqnum := Some (it_seqnum item) |> in
                '(packet, rest) ← (match bts_pop_first (items self) with
                                   | (Some item, rest) => Ok (item, rest)
                                   | (None, _) => Panic
                                   end);
                let self := self <| items := rest |> in
                pushed ← u64_add (num_pushed (stats self)) 1;
                let self := self <| stats ::= modify num_pushed (fun _ => pushed) |>
                                 <| can_forward_packets_when_empty := true |> in
                Ok (PollForward (it_id packet) discont, self)
              else Ok (PollTimeout (instant_add base_instant deadline), self)
          end
      end
  end.

(** ** Runs

    The operations as one step function, and what a step delivers: the
    extended sequence number of the packet it hands to its user, if any. *)
Inductive jb_op :=
| OpPacket (sequence_number pts arrival_time : Z)
| OpSerialized
| OpPoll (now : Z)
| OpSetFlushing (flushing : bool).

Inductive jb_out :=
| OutQueue (r : QueueResult)
| OutPoll (r : PollResult)
| OutNone.

Definition jb_exec (jb : JitterBuffer) (op : jb_op) : res (jb_out * JitterBuffer) :=
  match op with
  | OpPacket s pts arr => '(r, jb) ← JitterBuffer_queue_packet jb s pts arr; Ok (OutQueue r, jb)
  | OpSerialized => '(r, jb) ← JitterBuffer_queue_serialized_item jb; Ok (OutQueue r, jb)
  | OpPoll now => '(r, jb) ← JitterBuffer_poll jb now; Ok (OutPoll r, jb)
  | OpSetFlushing b => Ok (OutNone, JitterBuffer_set_flushing jb b)
  end.

(** The inputs the types of the source allow. *)
Definition op_wf (op : jb_op) : Prop :=
  match op with
  | OpPacket s pts _ => is_u16 s /\ is_u64 pts
  | _ => True
  end.

Definition is_packet (i : Item) : bool := match it_deadline i with Some _ => true | None => false end.

Definition delivered (jb : JitterBuffer) (op : jb_op) (out : jb_out) (jb' : JitterBuffer)
  : option Z :=
  match op, out with
  | OpPacket _ _ _, OutQueue (QueueForward _ _) => last_output_seqnum jb'
  | OpPoll _, OutPoll (PollForward _ _) =>
      match bts_first (items jb) with
      | Some i => if is_packet i then Some (it_seqnum i) else None
      | None => None
      end
  | _, _ => None
  end.

(** The id a step hands back to the user for good: forwarded or dropped. *)
Definition out_id (out : jb_out) : option Z :=
  match out with
  | OutQueue (QueueForward id _) => Some id
  | OutPoll (PollForward id _) => Some id
  | OutPoll (PollDrop id) => Some id
  | _ => None
  end.

(** A run, with the sequence numbers delivered and the ids handed back. *)
Inductive jb_run : JitterBuffer -> list jb_op -> list Z -> list Z -> JitterBuffer -> Prop :=
| run_nil jb : jb_run jb [] [] [] jb
| run_cons jb op ops out jb1 seqs ids jb2 :
    op_wf op ->
    jb_exec jb op = Ok (out, jb1) ->
    jb_run jb1 ops seqs ids jb2 ->
    jb_run jb (op :: ops)
      (option_list (delivered jb op out jb1) ++ seqs) (option_list (out_id out) ++ ids) jb2.

Definition is_flush (op : jb_op) : bool := match op with OpSetFlushing _ => true | _ => false end.

(** ** Invariant *)

Record jb_inv (jb : JitterBuffer) : Prop := {
  inv_items : bts_wf (items jb);
  inv_seqnums : bts_wf (seqnums jb);
  inv_ext : ext_wf 16 (sn_last_ext (extended_seqnum jb));
  inv_nonneg : forall l, last_output_seqnum jb = Some l -> 0 <= l;
  (* what is queued comes after what was output *)
  inv_order : forall i l, i ∈ items jb -> is_packet i = true ->
    last_output_seqnum jb = Some l -> l < it_seqnum i;
  inv_pos : forall i, i ∈ items jb -> is_packet i = true -> 0 <= it_seqnum i;
  (* queued ids are distinct and already taken *)
  inv_ids : NoDup (it_id <$> items jb);
  inv_counter : forall i, i ∈ items jb -> it_id i < packet_counter jb;
  inv_base : forall i, i ∈ items jb -> is_packet i = true -> is_Some (base_times jb);
}.

(** *** The branches of [queue_packet] *)

Inductive queue_step (jb : JitterBuffer) (pts arr : Z) (e : Z) (ext : ExtendedSeqnum)
  : QueueResult -> JitterBuffer -> Prop :=
| QS_duplicate n jb1 :
    jb1 = jb <| extended_seqnum := ext |> <| seqnums := trim_seqnums (seqnums jb) |> ->
    e ∈ trim_seqnums (seqnums jb) ->
    n = num_duplicates (stats jb) + 1 ->
    queue_step jb pts arr e ext QueueDuplicate
      (jb1 <| stats ::= modify num_duplicates (fun _ => n) |>)
| QS_late l n jb1 :
    jb1 = jb <| extended_seqnum := ext |>
             <| seqnums := fst (bts_insert e (trim_seqnums (seqnums jb))) |> ->
    e ∉ trim_seqnums (seqnums jb) ->
    last_output_seqnum jb = Some l -> e <= l ->
    n = num_late (stats jb) + 1 ->
    queue_step jb pts arr e ext QueueLate (jb1 <| stats ::= modify num_late (fun _ => n) |>)
| QS_forward (discont : bool) st jb1 :
    jb1 = jb <| extended_seqnum := ext |>
             <| seqnums := fst (bts_insert e (trim_seqnums (seqnums jb))) |> ->
    e ∉ trim_seqnums (seqnums jb) ->
    items jb = [] ->
    (forall l, last_output_seqnum jb = Some l -> l < e) ->
    st = (stats jb) <| num_pushed ::= Z.succ |>
                  <| num_lost ::= fun n =>
                       if discont then match last_output_seqnum jb with
                                       | Some l => n + (e - l - 1) | None => n end
                       else n |> ->
    (discont = false -> exists l, last_output_seqnum jb = Some l /\ e = wrap U64 (l + 1)) ->
    forall jb',
    jb' = jb1 <| last_output_seqnum := Some e |> <| packet_counter ::= Z.succ |>
              <| stats := st |> ->
    queue_step jb pts arr e ext (QueueForward (packet_counter jb) discont) jb'
| QS_queued d its jb1 :
    jb1 = jb <| extended_seqnum := ext |>
             <| seqnums := fst (bts_insert e (trim_seqnums (seqnums jb))) |> ->
    e ∉ trim_seqnums (seqnums jb) ->
    (forall l, last_output_seqnum jb = Some l -> l < e) ->
    bts_insert (mkItem (packet_counter jb) (Some d) e) (items jb) = (its, true) ->
    queue_step jb pts arr e ext (QueueQueued (packet_counter jb))
      (jb1 <| base_times := Some (default (arr, pts) (base_times jb)) |>
           <| packet_counter ::= Z.succ |> <| items := its |>).

Lemma not_contains (e : Z) (l : list Z) : bts_contains e l = false -> e ∉ l.
Proof. intros E H%bts_contains_Z. congruence. Qed.

Lemma enqueue_packet_inv jb jb1 pts arr e ext r jb' :
  jb1 = jb <| extended_seqnum := ext |>
           <| seqnums := fst (bts_insert e (trim_seqnums (seqnums jb))) |> ->
  e ∉ trim_seqnums (seqnums jb) ->
  (forall l, last_output_seqnum jb = Some l -> l < e) ->
  enqueue_packet jb1 e pts arr = Ok (r, jb') -> queue_step jb pts arr e ext r jb'.
Proof.
  intros -> Hnin Hlate. unfold enqueue_packet, take_id. cbn.
  destruct (default (arr, pts) (base_times jb)) as [ba bp] eqn:Hb. intros H.
  inv_ok. cbn in *. destruct (bts_insert (mkItem _ _ _) _) as [its []] eqn:Hins; cbn in *; inv_ok.
  eapply QS_queued in Hins; [|reflexivity|done..]. by rewrite Hb in Hins.
Qed.

Lemma queue_packet_inv jb s pts arr r jb' :
  JitterBuffer_queue_packet jb s pts arr = Ok (r, jb') ->
  (flushing jb = true /\ r = QueueFlushing /\ jb' = jb) \/
  (flushing jb = false /\ exists e ext,
     ExtendedSeqnum_next (extended_seqnum jb) s = Ok (e, ext) /\
     queue_step jb pts arr e ext r jb').
Proof.
  unfold JitterBuffer_queue_packet. destruct (flushing jb) eqn:Hf.
  { intros [= <- <-]. by left. }
  intros ([e ext] & Hnext & H)%bind_ok. right. split; [done|]. exists e, ext. split; [done|].
  cbn in H. destruct (bts_contains e (trim_seqnums (seqnums jb))) eqn:Hc.
  { inv_ok. eapply QS_duplicate; [done|by apply bts_contains_Z|done]. }
  apply not_contains in Hc. destruct (last_output_seqnum jb) as [l|] eqn:Hl.
  - rewrite Z.geb_leb in H. destruct (Z.leb_spec e l).
    { inv_ok. by eapply QS_late. }
    assert (Hlate : forall l', last_output_seqnum jb = Some l' -> l' < e)
      by (rewrite Hl; intros l' [= <-]; done).
    destruct (items jb) eqn:Hi; [|by eapply enqueue_packet_inv].
    destruct (can_forward_packets_when_empty jb); [|by eapply enqueue_packet_inv].
    destruct (e =? wrap U64 (l + 1)) eqn:He.
    + unfold forward_packet, take_id in H. inv_ok. cbn in *. inv_ok. apply Z.eqb_eq in He.
      by eapply (QS_forward jb pts arr e ext false); eauto.
    + destruct (latency jb =? 0); [|by eapply enqueue_packet_inv].
      unfold forward_packet, take_id in H. inv_ok. cbn in *. inv_ok. cbn in *.
      eapply (QS_forward jb pts arr e ext true); [done..|]. unfold modify; cbn. by rewrite Hl.
  - assert (Hlate : forall l', last_output_seqnum jb = Some l' -> l' < e) by (by rewrite Hl).
    destruct (items jb) eqn:Hi; [|by eapply enqueue_packet_inv].
    destruct (can_forward_packets_when_empty jb); [|by eapply enqueue_packet_inv].
    destruct (latency jb =? 0); [|by eapply enqueue_packet_inv].
    unfold forward_packet, take_id in H. inv_ok. cbn in *. inv_ok. cbn in *.
    eapply (QS_forward jb pts arr e ext true); [done..|]. unfold modify; cbn. by rewrite Hl.
Qed.

(** *** The branches of [poll] *)

Inductive poll_step (jb : JitterBuffer) (now : Z) : PollResult -> JitterBuffer -> Prop :=
| PS_drop i rest :
    flushing jb = true -> items jb = i :: rest ->
    poll_step jb now (PollDrop (it_id i)) (jb <| items := rest |>)
| PS_flushing :
    flushing jb = true -> items jb = [] -> poll_step jb now PollFlushing jb
| PS_empty :
    flushing jb = false ->
    items jb = [] \/
      (exists i rest, items jb = i :: rest /\ is_packet i = true /\ base_times jb = None) ->
    poll_step jb now PollEmpty jb
| PS_event i rest :
    flushing jb = false -> items jb = i :: rest -> is_packet i = false ->
    poll_step jb now (PollForward (it_id i) false) (jb <| items := rest |>)
| PS_forward i rest d base bp (discont : bool) st :
    flushing jb = false -> items jb = i :: rest -> it_deadline i = Some d ->
    base_times jb = Some (base, bp) -> d <= instant_sub now base ->
    (forall l, last_output_seqnum jb = Some l -> l <= it_seqnum i) ->
    discont = match last_output_seqnum jb with
              | None => true
              | Some l => negb (it_seqnum i - l =? 1)
              end ->
    st = (stats jb) <| num_pushed ::= Z.succ |>
                    <| num_lost ::= fun n =>
                         if discont then match last_output_seqnum jb with
                                         | Some l => n + (it_seqnum i - l - 1) | None => n end
                         else n |> ->
    forall jb',
    jb' = jb <| last_output_seqnum := Some (it_seqnum i) |> <| items := rest |> <| stats := st |>
             <| can_forward_packets_when_empty := true |> ->
    poll_step jb now (PollForward (it_id i) discont) jb'
| PS_timeout i rest d base bp :
    flushing jb = false -> items jb = i :: rest -> it_deadline i = Some d ->
    base_times jb = Some (base, bp) -> instant_sub now base < d ->
    poll_step jb now (PollTimeout (instant_add base d)) jb.

Lemma poll_inv jb now r jb' : JitterBuffer_poll jb now = Ok (r, jb') -> poll_step jb now r jb'.
Proof.
  unfold JitterBuffer_poll. destruct (flushing jb) eqn:Hf, (items jb) as [|i rest] eqn:Hi; cbn;
    intros H; inv_ok; [by constructor|by eapply PS_drop|by constructor; auto|].
  destruct (it_deadline i) as [d|] eqn:Hd; cbn in *.
  - destruct (base_times jb) as [[base bp]|] eqn:Hb; inv_ok.
    2: { apply PS_empty; [done|]. right. exists i, rest. unfold is_packet. by rewrite Hd. }
    destruct (Z.leb_spec d (instant_sub now base)); [|inv_ok; by eapply PS_timeout].
    destruct (last_output_seqnum jb) as [l|] eqn:Hl; cbn in H.
    + assert (Hle : forall A (k : Z -> res A) v,
        (u64_sub (it_seqnum i) l ≫= k) = Ok v ->
        k (it_seqnum i - l) = Ok v /\ forall l', Some l = Some l' -> l' <= it_seqnum i).
      { intros A k v Hk. inv_ok. split; [done|]. intros l' [= <-]. lia. }
      apply bind_ok in H as ([discont jb1] & H1 & H2). apply Hle in H1 as [H1 Hl'].
      destruct (it_seqnum i - l =? 1) eqn:Hgap; cbn in H1.
      * injection H1 as <- <-. cbn in *. rewrite Hi in *. inv_ok. cbn in *. inv_ok. eapply (PS_forward jb now i rest d base bp false); rewrite ?Hl; try done.
        by rewrite Hgap.
      * inv_ok. cbn in *. rewrite Hi in *. inv_ok. cbn in *. inv_ok.
        eapply (PS_forward jb now i rest d base bp true); rewrite ?Hl; try done.
        by rewrite Hgap.
    + rewrite Hi in *. inv_ok. cbn in *. inv_ok.
      eapply (PS_forward jb now i rest d base bp true); rewrite ?Hl; done.
  - injection H as <- <-. eapply PS_event; [done..|]. unfold is_packet. by rewrite Hd.
Qed.

(** *** Preservation *)

#[export] Instance Item_OrdLaws : OrdLaws Item.
Proof.
  split; unfold cmp, Item_Ord, Item_cmp.
  - intros a b. rewrite (Z.compare_antisym (it_seqnum a)).
    destruct (it_seqnum a ?= it_seqnum b); cbn; try done.
    by destruct (it_deadline a), (it_deadline b).
  - intros a b c.
    destruct (Z.compare_spec (it_seqnum a) (it_seqnum b)), (Z.compare_spec (it_seqnum b) (it_seqnum c)),
      (Z.compare_spec (it_seqnum a) (it_seqnum c)); try lia; try done.
    by destruct (it_deadline a), (it_deadline b), (it_deadline c).
  - intros a b c. destruct (Z.compare_spec (it_seqnum a) (it_seqnum b)) as [->|?|?]; [|done..].
    destruct (it_seqnum b ?= it_seqnum c); try done.
    by destruct (it_deadline a), (it_deadline b), (it_deadline c).
Qed.

Lemma Item_cmp_lt a b : cmp a b = Lt -> it_seqnum a <= it_seqnum b.
Proof.
  unfold cmp, Item_Ord, Item_cmp. destruct (Z.compare_spec (it_seqnum a) (it_seqnum b)); lia || done.
Qed.

Lemma Item_cmp_eq_packet a b :
  is_packet a = true -> is_packet b = true -> cmp a b = Eq <-> it_seqnum a = it_seqnum b.
Proof.
  unfold cmp, Item_Ord, Item_cmp, is_packet.
  destruct (Z.compare_spec (it_seqnum a) (it_seqnum b)),
    (it_deadline a), (it_deadline b); try done; intros; split; intros; lia || done.
Qed.

Lemma Item_cmp_lt_packet a b :
  is_packet a = true -> is_packet b = true -> cmp a b = Lt -> it_seqnum a < it_seqnum b.
Proof.
  intros Ha Hb E. pose proof (Item_cmp_lt a b E).
  assert (it_seqnum a <> it_seqnum b); [|lia].
  rewrite <- Item_cmp_eq_packet by done. by rewrite E.
Qed.

Lemma trim_seqnums_suffix l : exists k, trim_seqnums l = drop k l.
Proof.
  induction l as [|x l [k IH]]; [by exists 0%nat|]. cbn [trim_seqnums].
  destruct (_ >=? _); [by exists (S k)|by exists 0%nat].
Qed.

Lemma bts_wf_drop {A} `{OrdLaws A} k (l : list A) : bts_wf l -> bts_wf (drop k l).
Proof.
  revert l. induction k as [|k IH]; intros [|x l] Hl; try done.
  apply IH. by eapply bts_wf_tail.
Qed.

Lemma trim_seqnums_wf l : bts_wf l -> bts_wf (trim_seqnums l).
Proof. destruct (trim_seqnums_suffix l) as [k ->]. apply bts_wf_drop. Qed.

Lemma track_seqnum_wf (e : Z) l : bts_wf l -> bts_wf (fst (bts_insert e (trim_seqnums l))).
Proof. intros. by apply bts_insert_wf, trim_seqnums_wf. Qed.

Lemma trim_seqnums_subset l x : x ∈ trim_seqnums l -> x ∈ l.
Proof.
  destruct (trim_seqnums_suffix l) as [k ->]. rewrite <- (take_drop k l) at 2.
  rewrite elem_of_app. auto.
Qed.

Lemma new_inv lat : jb_inv (JitterBuffer_new lat).
Proof.
  split; cbn; try (constructor; fail); try done; intros i; by intros ?%elem_of_nil.
Qed.

Lemma NoDup_bts_insert_ids x l :
  NoDup (it_id <$> l) -> it_id x ∉ (it_id <$> l) -> NoDup (it_id <$> fst (bts_insert x l)).
Proof.
  induction l as [|y l IH]; cbn; intros Hnd Hnin.
  - apply NoDup_singleton.
  - destruct (cmp x y); cbn; [done|by constructor|].
    apply NoDup_cons in Hnd as [Hy Hnd]. apply not_elem_of_cons in Hnin as [Hne Hnin].
    specialize (IH Hnd Hnin). pose proof (elem_of_bts_insert x l) as Hin.
    destruct (bts_insert x l) as [l2 b]; cbn in *. constructor; [|done].
    intros (z & Hz & [[-> _]|Hz']%Hin)%list_elem_of_fmap; [congruence|].
    apply Hy, list_elem_of_fmap. eauto.
Qed.

Lemma inv_fresh_id jb : jb_inv jb -> packet_counter jb ∉ (it_id <$> items jb).
Proof.
  intros Hinv (i & Hi & Hin)%list_elem_of_fmap. pose proof (inv_counter _ Hinv i Hin). lia.
Qed.

Lemma queue_step_inv jb pts arr e ext r jb' :
  jb_inv jb -> 0 <= e -> ext_wf 16 (sn_last_ext ext) ->
  queue_step jb pts arr e ext r jb' -> jb_inv jb'.
Proof.
  intros Hinv He Hext Hstep. pose proof (inv_fresh_id jb Hinv) as Hfresh.
  destruct Hinv as [Hi Hs _ Hn Ho Hp Hids Hc Hb].
  destruct Hstep as [n jb1 -> Hin ->|l n jb1 -> Hnin Hl Hle ->
    |discont st jb1 -> Hnin Hitems Hlast Hst Hd jb' ->|d its jb1 -> Hnin Hlast Hins].
  - split; cbn; eauto using trim_seqnums_wf.
  - split; cbn; eauto using track_seqnum_wf.
  - rewrite Hitems in *. split; cbn; rewrite ?Hitems; eauto using track_seqnum_wf.
    + by intros l [= <-].
    + by intros i l ?%elem_of_nil.
    + by intros i ?%elem_of_nil.
  - pose proof (elem_of_bts_insert (mkItem (packet_counter jb) (Some d) e) (items jb)) as Hin.
    pose proof (bts_insert_wf (mkItem (packet_counter jb) (Some d) e) _ Hi) as Hwf.
    pose proof (NoDup_bts_insert_ids (mkItem (packet_counter jb) (Some d) e) _ Hids Hfresh) as Hnd.
    rewrite Hins in *. cbn in Hin, Hwf, Hnd.
    split; cbn; eauto using track_seqnum_wf.
    + intros i l [[-> _]|Hi']%Hin; cbn; eauto.
    + intros i [[-> _]|Hi']%Hin; cbn; eauto.
    + intros i [[-> _]|Hi'%Hc]%Hin; cbn; lia.
Qed.

Lemma bts_wf_packets_sorted i rest :
  bts_wf (i :: rest) -> is_packet i = true ->
  forall j, j ∈ rest -> is_packet j = true -> it_seqnum i < it_seqnum j.
Proof. intros [_ H]%bts_wf_cons Hi j Hj Hjp. eauto using Item_cmp_lt_packet. Qed.

Lemma poll_step_inv jb now r jb' : jb_inv jb -> poll_step jb now r jb' -> jb_inv jb'.
Proof.
  intros Hinv Hstep.
  assert (Hpop : forall i rest, items jb = i :: rest -> jb_inv (jb <| items := rest |>)).
  { intros i rest Hit. destruct Hinv as [Hi Hs Hx Hn Ho Hp Hids Hc Hb]. rewrite Hit in *.
    assert (Hsub : forall j, j ∈ rest -> j ∈ i :: rest) by (intros; by apply list_elem_of_further).
    cbn in Hids. apply NoDup_cons in Hids as [_ Hids].
    split; cbn; eauto using bts_wf_tail. }
  destruct Hstep as [i rest Hf Hit|Hf Hit|Hf Hit|i rest Hf Hit Hpk
    |i rest d base bp discont st Hf Hit Hd Hbt Hdue Hl Hdis Hst jb' ->|i rest d base bp Hf Hit Hd Hbt Hdue];
    eauto.
  specialize (Hpop i rest Hit).
  assert (Hpk : is_packet i = true) by (unfold is_packet; by rewrite Hd).
  destruct Hinv as [Hi _ _ _ _ Hp _ _ _]. rewrite Hit in Hi, Hp.
  pose proof (bts_wf_packets_sorted i rest Hi Hpk) as Hsorted.
  destruct Hpop as [Hi' Hs Hx Hn Ho Hp' Hids Hc Hb]; cbn in *.
  split; cbn; eauto.
  - intros l [= <-]. apply Hp; [by left|done].
  - intros j l Hj Hjp [= <-]. eauto.
Qed.

(** The branches of [queue_serialized_item]. *)
Lemma queue_serialized_inv jb r jb' :
  JitterBuffer_queue_serialized_item jb = Ok (r, jb') ->
  (items jb = [] /\ r = QueueForward (packet_counter jb) false /\
   jb' = jb <| packet_counter ::= Z.succ |>) \/
  (items jb <> [] /\ r = QueueQueued (packet_counter jb) /\ exists s,
   jb' = jb <| packet_counter ::= Z.succ |>
            <| items := fst (bts_insert (mkItem (packet_counter jb) None s) (items jb)) |>).
Proof.
  unfold JitterBuffer_queue_serialized_item, take_id.
  destruct (items jb) as [|i rest] eqn:Hi; intros H; inv_ok; cbn in *; inv_ok.
  - left. done.
  - right. split_and!; [done..|]. eexists. by rewrite Hi.
Qed.

Lemma exec_inv jb op out jb' :
  jb_inv jb -> op_wf op -> jb_exec jb op = Ok (out, jb') -> jb_inv jb'.
Proof.
  intros Hinv Hop. destruct op as [s pts arr| |now|b]; cbn.
  - intros ([r j] & Hq & [= <- <-])%bind_ok.
    apply queue_packet_inv in Hq as [(_ & _ & ->)|(_ & e & ext & Hn & Hs)]; [done|].
    destruct Hop as [Hs16 _].
    destruct (ExtendedSeqnum_next_sound _ _ _ _ (inv_ext _ Hinv) Hs16 Hn) as (He & _ & Hx).
    by eapply queue_step_inv.
  - intros ([r j] & Hq & [= <- <-])%bind_ok. pose proof (inv_fresh_id jb Hinv) as Hfresh.
    destruct Hinv as [Hi Hs Hx Hn Ho Hp Hids Hc Hb].
    apply queue_serialized_inv in Hq as [(Hit & _ & ->)|(_ & _ & s & ->)].
    + split; cbn; eauto. intros i Hi'%Hc. lia.
    + set (it := mkItem (packet_counter jb) None s) in *.
      pose proof (elem_of_bts_insert it (items jb)) as Hin.
      split; cbn; eauto; [by apply bts_insert_wf| | |by apply NoDup_bts_insert_ids| |].
      * intros i l [[-> _]|Hi']%Hin; [done|eauto].
      * intros i [[-> _]|Hi']%Hin; [done|eauto].
      * intros i [[-> _]|Hi'%Hc]%Hin; cbn; lia.
      * intros i [[-> _]|Hi']%Hin; [done|eauto].
  - intros ([r j] & Hq & [= <- <-])%bind_ok. eauto using poll_step_inv, poll_inv.
  - intros [= <- <-]. destruct Hinv. split; cbn; eauto; done.
Qed.

(** What a step that is no flush does to the last output, the statistics and
    the ids. *)
Definition advance (last : option Z) (s : Z) : Z :=
  match last with Some l => s - l | None => 1 end.

Definition accounted (jb : JitterBuffer) : Z := num_pushed (stats jb) + num_lost (stats jb).

Lemma queue_step_effect jb pts arr e ext r jb' :
  jb_inv jb -> queue_step jb pts arr e ext r jb' ->
  match r with
  | QueueForward _ _ =>
      last_output_seqnum jb' = Some e /\ (forall l, last_output_seqnum jb = Some l -> l < e) /\
      accounted jb' = accounted jb + advance (last_output_seqnum jb) e /\
      num_pushed (stats jb') = num_pushed (stats jb) + 1
  | _ => last_output_seqnum jb' = last_output_seqnum jb /\ accounted jb' = accounted jb /\
         num_pushed (stats jb') = num_pushed (stats jb)
  end.
Proof.
  intros Hinv Hstep. unfold accounted.
  destruct Hstep as [n jb1 -> Hin ->|l n jb1 -> Hnin Hl Hle ->
    |discont st jb1 -> Hnin Hitems Hlast -> Hd jb' ->|d its jb1 -> Hnin Hlast Hins]; cbn; try done.
  split_and!; [done..| |lia]. destruct discont.
  - unfold advance. destruct (last_output_seqnum jb); lia.
  - destruct (Hd eq_refl) as (l & Hl & Hw). rewrite Hl. cbn.
    pose proof (Hlast l Hl). pose proof (inv_nonneg _ Hinv l Hl) as Hpos.
    pose proof (Z.mod_pos_bound (l + 1) U64 eq_refl) as Hm. unfold wrap in Hw.
    rewrite Z.mod_small in Hw by lia. lia.
Qed.

Lemma poll_step_effect jb now r jb' :
  jb_inv jb -> poll_step jb now r jb' ->
  match delivered jb (OpPoll now) (OutPoll r) jb' with
  | Some s =>
      last_output_seqnum jb' = Some s /\ (forall l, last_output_seqnum jb = Some l -> l < s) /\
      accounted jb' = accounted jb + advance (last_output_seqnum jb) s /\
      num_pushed (stats jb') = num_pushed (stats jb) + 1
  | None => last_output_seqnum jb' = last_output_seqnum jb /\ accounted jb' = accounted jb /\
            num_pushed (stats jb') = num_pushed (stats jb)
  end.
Proof.
  intros Hinv Hstep. unfold accounted.
  destruct Hstep as [i rest Hf Hit|Hf Hit|Hf Hit|i rest Hf Hit Hpk
    |i rest d base bp discont st Hf Hit Hd Hbt Hdue Hl Hdis -> jb' ->|i rest d base bp Hf Hit Hd Hbt Hdue];
    cbn; rewrite ?Hit; cbn; rewrite ?Hpk; try done.
  assert (Hpk : is_packet i = true) by (unfold is_packet; by rewrite Hd). rewrite Hpk.
  split_and!; [done| | |lia].
  - intros l Hl'. eapply (inv_order _ Hinv); [rewrite Hit; by left|done..].
  - rewrite Hdis. unfold advance. destruct (last_output_seqnum jb) as [l|]; [|lia].
    destruct (Z.eqb_spec (it_seqnum i - l) 1); cbn; lia.
Qed.

Lemma exec_effect jb op out jb' :
  jb_inv jb -> is_flush op = false -> jb_exec jb op = Ok (out, jb') ->
  match delivered jb op out jb' with
  | Some s =>
      last_output_seqnum jb' = Some s /\ (forall l, last_output_seqnum jb = Some l -> l < s) /\
      accounted jb' = accounted jb + advance (last_output_seqnum jb) s /\
      num_pushed (stats jb') = num_pushed (stats jb) + 1
  | None => last_output_seqnum jb' = last_output_seqnum jb /\ accounted jb' = accounted jb /\
            num_pushed (stats jb') = num_pushed (stats jb)
  end.
Proof.
  intros Hinv Hnf. destruct op as [s pts arr| |now|b]; cbn [jb_exec]; [..|done].
  - intros ([r j] & Hq & [= <- <-])%bind_ok.
    apply queue_packet_inv in Hq as [(_ & -> & ->)|(_ & e & ext & Hn & Hs)]; [done|].
    apply queue_step_effect in Hs; [|done]. destruct r; cbn; try done.
    destruct Hs as (-> & ?). done.
  - intros ([r j] & Hq & [= <- <-])%bind_ok.
    by apply queue_serialized_inv in Hq as [(Hit & -> & ->)|(_ & -> & s & ->)].
  - intros ([r j] & Hq%poll_inv & [= <- <-])%bind_ok. by apply poll_step_effect.
Qed.

(** The ids: a step hands back an id that was queued, or a fresh one, and
    then it is gone for good; nothing else leaves the queue. *)
Lemma exec_ids jb op out jb' :
  jb_inv jb -> jb_exec jb op = Ok (out, jb') ->
  packet_counter jb <= packet_counter jb' /\
  (forall id, out_id out = Some id ->
     (id ∈ it_id <$> items jb \/ packet_counter jb <= id) /\
     (id ∉ it_id <$> items jb') /\ id < packet_counter jb') /\
  (forall id, id ∈ it_id <$> items jb' -> id ∈ it_id <$> items jb \/ packet_counter jb <= id) /\
  (forall id, id ∈ it_id <$> items jb -> id ∈ it_id <$> items jb' \/ out_id out = Some id).
Proof.
  intros Hinv. pose proof (inv_fresh_id jb Hinv) as Hfresh.
  assert (Hins : forall x id, it_id x = packet_counter jb ->
    id ∈ it_id <$> fst (bts_insert x (items jb)) ->
    id ∈ it_id <$> items jb \/ packet_counter jb <= id).
  { intros x id Hx (y & -> & Hy)%list_elem_of_fmap.
    apply elem_of_bts_insert in Hy as [[-> _]|Hy]; [right; lia|left].
    apply list_elem_of_fmap; eauto. }
  assert (Hkeep : forall x id, id ∈ it_id <$> items jb ->
    id ∈ it_id <$> fst (bts_insert x (items jb))).
  { intros x id (y & -> & Hy)%list_elem_of_fmap. apply list_elem_of_fmap.
    exists y. split; [done|]. apply elem_of_bts_insert. auto. }
  assert (Hpop : forall i rest, items jb = i :: rest ->
    (it_id i ∉ it_id <$> rest) /\ it_id i < packet_counter jb).
  { intros i rest Hit. pose proof (inv_ids _ Hinv) as Hnd. rewrite Hit in Hnd. cbn in Hnd.
    apply NoDup_cons in Hnd as [? _]. split; [done|].
    apply (inv_counter _ Hinv). rewrite Hit. by left. }
  destruct op as [s pts arr| |now|b]; cbn [jb_exec].
  - intros ([r j] & Hq & [= <- <-])%bind_ok.
    apply queue_packet_inv in Hq as [(_ & -> & ->)|(_ & e & ext & _ & Hs)].
    { split_and!; [lia|done|auto..]. }
    destruct Hs as [n jb1 -> Hin ->|l n jb1 -> Hnin Hl Hle ->
      |discont st jb1 -> Hnin Hitems Hlast -> Hd jb' ->|d its jb1 -> Hnin Hlast Hi];
      cbn; (split; [lia|]); try (split_and!; [done|by auto..]).
    + rewrite Hitems. cbn. split_and!; [|auto..].
      intros id [= <-]. split_and!; [right; lia|by intros ?%elem_of_nil|lia].
    + specialize (Hins (mkItem (packet_counter jb) (Some d) e)).
      specialize (Hkeep (mkItem (packet_counter jb) (Some d) e)).
      rewrite Hi in *. cbn in *. split_and!; [done|auto..].
  - intros ([r j] & Hq & [= <- <-])%bind_ok.
    apply queue_serialized_inv in Hq as [(Hit & -> & ->)|(_ & -> & s & ->)]; cbn;
      (split; [lia|]).
    + split_and!; [|by auto..].
      intros id [= <-]. split_and!; [right; lia|by rewrite Hit; intros ?%elem_of_nil|lia].
    + specialize (Hins (mkItem (packet_counter jb) None s)). cbn in Hins.
      split_and!; [done|by auto..].
  - intros ([r j] & Hq%poll_inv & [= <- <-])%bind_ok.
    destruct Hq as [i rest Hf Hit|Hf Hit|Hf Hit|i rest Hf Hit Hpk
      |i rest d base bp discont st Hf Hit Hd Hbt Hdue Hl Hdis -> jb' ->|i rest d base bp Hf Hit Hd Hbt Hdue];
      cbn; (split; [lia|]); try (split_and!; [done|by auto..]);
      destruct (Hpop i rest Hit) as [Hni Hlt]; rewrite Hit; cbn; split_and!;
      try (intros id [= <-]; split_and!; [left; by left|done|done]);
      intros id; rewrite ?elem_of_cons; intuition congruence.
  - intros [= <- <-]. cbn. split_and!; [lia|done|auto..].
Qed.

(** ** Duplicate tracking

    The packets in the queue, and when the buffer can still tell every one of
    their duplicates: the queued numbers are tracked, and every tracked number
    beyond the last output is queued. *)
Definition queued_seqnums (jb : JitterBuffer) : list Z :=
  it_seqnum <$> base.filter (fun i => is_packet i = true) (items jb).

Definition beyond (last : option Z) (s : Z) : Prop :=
  match last with Some l => l < s | None => True end.

Record jb_tracked (jb : JitterBuffer) : Prop := {
  tracked_queued : forall s, s ∈ queued_seqnums jb -> s ∈ seqnums jb;
  tracked_only : forall s, s ∈ seqnums jb -> beyond (last_output_seqnum jb) s ->
    s ∈ queued_seqnums jb;
}.

Lemma elem_of_queued jb s :
  s ∈ queued_seqnums jb <-> exists i, i ∈ items jb /\ is_packet i = true /\ it_seqnum i = s.
Proof.
  unfold queued_seqnums. rewrite list_elem_of_fmap. split.
  - intros (i & -> & [Hp Hi]%list_elem_of_filter). eauto.
  - intros (i & Hi & Hp & <-). exists i. by rewrite list_elem_of_filter.
Qed.

Lemma queued_beyond jb s :
  jb_inv jb -> s ∈ queued_seqnums jb -> beyond (last_output_seqnum jb) s.
Proof.
  intros Hinv (i & Hi & Hp & <-)%elem_of_queued. unfold beyond.
  destruct (last_output_seqnum jb) as [l|] eqn:Hl; [|done]. by eapply (inv_order _ Hinv).
Qed.

Lemma beyond_le last s t : beyond last s -> s <= t -> beyond last t.
Proof. unfold beyond. destruct last; [lia|done]. Qed.

(** A number that trimming forgets was the least of at least 65535. *)
Lemma trim_forgets l x :
  x ∈ l -> x ∉ trim_seqnums l -> exists l1 l2, l = l1 ++ x :: l2 /\ 65535 <= bts_len (x :: l2).
Proof.
  induction l as [|y l IH]; [by intros ?%elem_of_nil|]. intros Hx. cbn [trim_seqnums].
  destruct (Z.geb_spec (bts_len (y :: l)) 65535) as [Hlen|Hlen]; [|done].
  intros Hn. apply elem_of_cons in Hx as [->|Hx].
  - exists [], l. split; [done|lia].
  - destruct (IH Hx Hn) as (l1 & l2 & -> & Hl). by exists (y :: l1), l2.
Qed.

Lemma bts_wf_NoDup (l : list Z) : bts_wf l -> NoDup l.
Proof.
  induction l as [|x l IH]; intros Hw; [constructor|].
  apply bts_wf_cons in Hw as [Hw Hlt]. constructor; [|auto].
  intros Hin. specialize (Hlt x Hin). unfold cmp, Z_Ord in Hlt. rewrite Z.compare_refl in Hlt. done.
Qed.

Lemma bts_wf_app_r {A} `{OrdLaws A} (l1 l2 : list A) : bts_wf (l1 ++ l2) -> bts_wf l2.
Proof. induction l1 as [|x l1 IH]; [done|]. intros [? _]%bts_wf_cons. auto. Qed.

(** With fewer than 65535 packets queued, trimming forgets none of them. *)
Lemma trim_keeps_queued jb s :
  jb_inv jb -> jb_tracked jb -> bts_len (queued_seqnums jb) < 65535 ->
  s ∈ queued_seqnums jb -> s ∈ trim_seqnums (seqnums jb).
Proof.
  intros Hinv [Ht1 Ht2] Hroom Hs.
  destruct (decide (s ∈ trim_seqnums (seqnums jb))) as [|Hn]; [done|exfalso].
  destruct (trim_forgets _ _ (Ht1 s Hs) Hn) as (l1 & l2 & Heq & Hlen).
  pose proof (inv_seqnums _ Hinv) as Hwf. rewrite Heq in Hwf. apply bts_wf_app_r in Hwf.
  assert (Hsub : s :: l2 ⊆+ queued_seqnums jb).
  { apply NoDup_submseteq; [by apply bts_wf_NoDup|]. intros y Hy. apply Ht2.
    - rewrite Heq, elem_of_app. auto.
    - apply (beyond_le _ s); [by apply queued_beyond|].
      apply bts_wf_cons in Hwf as [_ Hlt]. apply elem_of_cons in Hy as [->|Hy%Hlt]; [lia|].
      change (s < y) in Hy. lia. }
  apply submseteq_length in Hsub. unfold bts_len in *. lia.
Qed.

(** Bounds that keep every counter of a step inside its type. *)
Record jb_room (jb : JitterBuffer) (k : Z) : Prop := {
  room_counter : packet_counter jb <= k;
  room_dup : num_duplicates (stats jb) <= k;
  room_late : num_late (stats jb) <= k;
  room_pushed : 0 <= num_pushed (stats jb);
  room_lost : 0 <= num_lost (stats jb);
  room_accounted : accounted jb <= match last_output_seqnum jb with Some l => l + 1 | None => 0 end;
  room_ext : forall l, sn_last_ext (extended_seqnum jb) = Some l -> l <= 131072 + 32768 * k;
  room_last : forall l, last_output_seqnum jb = Some l -> l <= 131072 + 32768 * k;
  room_items : forall i, i ∈ items jb -> is_packet i = true -> it_seqnum i <= 131072 + 32768 * k;
}.

Lemma counter_spec_le bits s n b : s <= b -> n <= b -> counter_spec bits s n <= b.
Proof. unfold counter_spec. intros. by zcase. Qed.

Lemma ext_next_room jb k s :
  jb_inv jb -> jb_room jb k -> 0 <= k < 2 ^ 40 -> is_u16 s ->
  exists e ext, ExtendedSeqnum_next (extended_seqnum jb) s = Ok (e, ext) /\
    0 <= e <= 131072 + 32768 * (k + 1) /\ ext_wf 16 (sn_last_ext ext) /\
    (forall l, sn_last_ext ext = Some l -> l <= 131072 + 32768 * (k + 1)).
Proof.
  intros Hinv Hroom Hk Hs. pose proof (inv_ext _ Hinv) as Hwf. pose proof (room_ext _ _ Hroom) as Hb.
  destruct (extended_seqnum jb) as [[l|]]; unfold ExtendedSeqnum_next, is_u16 in *;
    cbn [sn_last_ext ext_wf] in *.
  - specialize (Hb l eq_refl).
    destruct (extend_next_cases 16 ltac:(lia) l s) as (e & He & _ & Hp & Hd); [done|lia|done|].
    rewrite He, bind_Ok. eexists e, _. change (2 ^ (16 - 1)) with 32768 in Hd.
    split_and!; [done|done|lia|by apply (counter_spec_wf 16)|].
    cbn. intros l' [= <-]. apply counter_spec_le; lia.
  - rewrite extend_next_first by (done || lia). rewrite bind_Ok. change (2 ^ 16) with U16.
    eexists _, _. split; [reflexivity|]. cbn. split_and!; [lia..|]. intros l' [= <-]. lia.
Qed.

Section NoPanic.
Context (jb : JitterBuffer) (k : Z).
Context (Hinv : jb_inv jb) (Htr : jb_tracked jb) (Hroom : jb_room jb k).
Context (Hk : 0 <= k < 2 ^ 40) (Hlat : 0 <= latency jb <= 2 ^ 63).
Context (Hcap : bts_len (queued_seqnums jb) < 65535).

Lemma room_counts :
  packet_counter jb + 1 < U64 /\ num_duplicates (stats jb) + 1 < U64 /\
  num_late (stats jb) + 1 < U64 /\ num_pushed (stats jb) + 1 < U64 /\
  num_lost (stats jb) <= match last_output_seqnum jb with Some l => l + 1 | None => 0 end.
Proof using Hroom Hk.
  destruct Hroom as [Hc Hd Hl Hp Ho Ha _ Hla _]. unfold accounted in Ha.
  assert (2 ^ 40 = 1099511627776) by done.
  destruct (last_output_seqnum jb) as [l|]; [specialize (Hla l eq_refl)|]; lia.
Qed.

Lemma enqueue_total jb1 e pts arr :
  items jb1 = items jb -> packet_counter jb1 = packet_counter jb -> latency jb1 = latency jb ->
  is_u64 pts -> e ∉ trim_seqnums (seqnums jb) ->
  exists v, enqueue_packet jb1 e pts arr = Ok v.
Proof using Hinv Htr Hroom Hk Hlat Hcap.
  intros Hi Hc Hl Hpts Hnew. destruct room_counts as (Hcnt & _). unfold is_u64 in Hpts.
  assert (2 ^ 63 = 9223372036854775808) by done.
  unfold enqueue_packet, take_id. destruct (default _ _) as [ba bp].
  cbn. rewrite Hl, Hc.
  rewrite (proj2 (duration_add_ok _ _ _)) by (split; [done|unfold DURATION_MAX; lia]).
  rewrite bind_Ok. run_chk. cbn. rewrite Hi.
  match goal with |- context [bts_insert ?x ?l] =>
    pose proof (bts_insert_true x l) as Hins; destruct (bts_insert x l) as [its b] end.
  cbn in Hins. rewrite Hins; [cbn; eauto|].
  intros y Hy E. destruct (is_packet y) eqn:Hp.
  - apply Item_cmp_eq_packet in E; [|done..]. cbn in E. apply Hnew.
    apply trim_keeps_queued; [done..|]. apply elem_of_queued. eauto.
  - unfold cmp, Item_Ord, Item_cmp, is_packet in *. cbn in E.
    destruct (_ ?= _), (it_deadline y); done.
Qed.

Lemma queue_packet_total s pts arr :
  is_u16 s -> is_u64 pts -> exists v, JitterBuffer_queue_packet jb s pts arr = Ok v.
Proof using Hinv Htr Hroom Hk Hlat Hcap.
  intros Hs Hpts. destruct room_counts as (Hcnt & Hdup & Hlt & Hpush & Hlost).
  destruct (ext_next_room jb k s Hinv Hroom Hk Hs) as (e & ext & Hn & He & _ & _).
  assert (2 ^ 40 = 1099511627776) by done.
  unfold JitterBuffer_queue_packet. destruct (flushing jb); [eauto|].
  rewrite Hn. rewrite bind_Ok. cbn.
  destruct (bts_contains e (trim_seqnums (seqnums jb))) eqn:Hc; [run_chk; eauto|].
  apply not_contains in Hc.
  assert (Henq : forall jb1, items jb1 = items jb -> packet_counter jb1 = packet_counter jb ->
    latency jb1 = latency jb -> exists v, enqueue_packet jb1 e pts arr = Ok v)
    by eauto using enqueue_total.
  unfold forward_packet, take_id.
  destruct (last_output_seqnum jb) as [l|] eqn:Hl.
  - rewrite Z.geb_leb. destruct (Z.leb_spec e l); [run_chk; eauto|].
    pose proof (inv_nonneg _ Hinv l Hl). pose proof (room_last _ _ Hroom l Hl).
    destruct (items jb) eqn:Hi; [|by apply Henq].
    destruct (can_forward_packets_when_empty jb); [|by apply Henq].
    destruct (Z.eqb_spec e (wrap U64 (l + 1))) as [Hw|Hw].
    { cbn. run_chk. cbn. run_chk. eauto. }
    destruct (latency jb =? 0); [|by apply Henq]. cbn.
    rewrite wrap_small in Hw by lia. run_chk.
    destruct (Z.eqb_spec (e - l) 1); [lia|]. cbn [negb assert_]. rewrite bind_Ok.
    run_chk. run_chk. cbn. run_chk. cbn. run_chk. eauto.
  - destruct (items jb) eqn:Hi; [|by apply Henq].
    destruct (can_forward_packets_when_empty jb); [|by apply Henq].
    destruct (latency jb =? 0); [|by apply Henq]. cbn. run_chk. cbn. run_chk. eauto.
Qed.

Lemma poll_total now : exists v, JitterBuffer_poll jb now = Ok v.
Proof using Hinv Hroom Hk.
  destruct room_counts as (_ & _ & _ & Hpush & Hlost).
  assert (2 ^ 40 = 1099511627776) by done.
  unfold JitterBuffer_poll. destruct (flushing jb), (items jb) as [|i rest] eqn:Hi; cbn; eauto.
  destruct (it_deadline i) as [d|] eqn:Hd; [|cbn; eauto].
  destruct (base_times jb) as [[base bp]|]; [|eauto].
  destruct (d <=? instant_sub now base); [|eauto].
  assert (Hp : is_packet i = true) by (unfold is_packet; by rewrite Hd).
  assert (Hin : i ∈ items jb) by (rewrite Hi; by left).
  pose proof (room_items _ _ Hroom i Hin Hp).
  destruct (last_output_seqnum jb) as [l|] eqn:Hl.
  - pose proof (inv_order _ Hinv i l Hin Hp Hl). pose proof (inv_nonneg _ Hinv l Hl).
    run_chk. destruct (Z.eqb_spec (it_seqnum i - l) 1); cbn [negb].
    + rewrite bind_Ok. cbn. rewrite Hi. cbn. run_chk. eauto.
    + run_chk. run_chk. cbn. rewrite Hi. cbn. run_chk. eauto.
  - rewrite bind_Ok. cbn. rewrite Hi. cbn. run_chk. eauto.
Qed.

Lemma exec_total op : op_wf op -> exists v, jb_exec jb op = Ok v.
Proof using Hinv Htr Hroom Hk Hlat Hcap.
  destruct op as [s pts arr| |now|b]; cbn; intros Hop.
  - destruct Hop as [Hs Hp]. destruct (queue_packet_total s pts arr Hs Hp) as [[r j] ->]. cbn. eauto.
  - destruct room_counts as (Hcnt & _). unfold JitterBuffer_queue_serialized_item, take_id.
    destruct (items jb); run_chk; cbn; eauto.
  - destruct (poll_total now) as [[r j] ->]. cbn. eauto.
  - eauto.
Qed.
End NoPanic.

Lemma queued_insert jb x s :
  s ∈ queued_seqnums (jb <| items ::= fun l => fst (bts_insert x l) |>) <->
  s ∈ queued_seqnums jb \/
    (is_packet x = true /\ s = it_seqnum x /\ snd (bts_insert x (items jb)) = true).
Proof.
  rewrite !elem_of_queued. cbn. setoid_rewrite elem_of_bts_insert. split.
  - intros (i & [[-> Hb]|Hi] & Hp & <-); eauto 6.
  - intros [(i & Hi & Hp & <-)|(Hp & -> & Hb)]; eauto 8.
Qed.

Lemma queued_items jb jb' s :
  items jb' = items jb -> s ∈ queued_seqnums jb' <-> s ∈ queued_seqnums jb.
Proof. unfold queued_seqnums. by intros ->. Qed.

Lemma queue_step_tracked jb pts arr e ext r jb' :
  jb_inv jb -> jb_tracked jb -> bts_len (queued_seqnums jb) < 65535 ->
  queue_step jb pts arr e ext r jb' -> jb_tracked jb'.
Proof.
  intros Hinv Htr Hcap Hstep. pose proof (trim_keeps_queued jb) as Hkeep.
  pose proof (tracked_only _ Htr) as Honly.
  assert (Hadd : forall s, s ∈ fst (bts_insert e (trim_seqnums (seqnums jb))) ->
    s = e \/ s ∈ seqnums jb).
  { intros s [[-> _]|Hs%trim_seqnums_subset]%elem_of_bts_insert; auto. }
  assert (Hin : e ∉ trim_seqnums (seqnums jb) ->
    e ∈ fst (bts_insert e (trim_seqnums (seqnums jb)))).
  { intros Hn. apply elem_of_bts_insert. left. split; [done|].
    apply bts_insert_true. intros y Hy E%Z.compare_eq_iff. by subst. }
  assert (Hold : forall s, s ∈ queued_seqnums jb ->
    s ∈ fst (bts_insert e (trim_seqnums (seqnums jb)))).
  { intros s Hs. apply elem_of_bts_insert. right. by apply Hkeep. }
  destruct Hstep as [n jb1 -> He ->|l n jb1 -> Hnin Hl Hle ->
    |discont st jb1 -> Hnin Hitems Hlast -> Hd jb' ->|d its jb1 -> Hnin Hlast Hins]; split;
    intros s; rewrite ?(queued_items jb) by done; cbn.
  - by apply Hkeep.
  - intros Hs%trim_seqnums_subset. by apply Honly.
  - apply Hold.
  - rewrite Hl. cbn. intros [->|Hs]%Hadd Hb; [lia|]. apply Honly; [done|]. by rewrite Hl.
  - unfold queued_seqnums. rewrite Hitems. by intros ?%elem_of_nil.
  - intros [->|Hs]%Hadd Hb; [lia|]. apply Honly; [done|].
    unfold beyond. destruct (last_output_seqnum jb) as [l|]; [|done]. specialize (Hlast l eq_refl). lia.
  - intros Hs. change (s ∈ queued_seqnums (jb <| items := its |>)) in Hs.
    pose proof (queued_insert jb (mkItem (packet_counter jb) (Some d) e) s) as Hq.
    unfold modify in Hq, Hs. cbn in Hq, Hs. rewrite Hins in Hq.
    apply Hq in Hs as [Hs|(_ & -> & _)]; auto.
  - intros Hs Hb. change (s ∈ queued_seqnums (jb <| items := its |>)).
    pose proof (queued_insert jb (mkItem (packet_counter jb) (Some d) e) s) as Hq.
    unfold modify in Hq |- *. cbn in Hq |- *. rewrite Hins in Hq.
    apply Hq. apply Hadd in Hs as [->|Hs]; auto.
Qed.

Lemma poll_step_tracked jb now r jb' :
  jb_inv jb -> jb_tracked jb -> flushing jb = false -> poll_step jb now r jb' -> jb_tracked jb'.
Proof.
  intros Hinv Htr Hnf Hstep. destruct Htr as [Ht1 Ht2].
  assert (Hsub : forall i rest s, items jb = i :: rest ->
    s ∈ queued_seqnums (jb <| items := rest |>) -> s ∈ queued_seqnums jb).
  { intros i rest s Hit (j & Hj & Hp & <-)%elem_of_queued. apply elem_of_queued. cbn in Hj.
    exists j. rewrite Hit. split; [by right|done]. }
  assert (Hrest : forall i rest s, items jb = i :: rest -> s ∈ queued_seqnums jb ->
    is_packet i = false \/ it_seqnum i <> s -> s ∈ queued_seqnums (jb <| items := rest |>)).
  { intros i rest s Hit (j & Hj & Hp & <-)%elem_of_queued Hne. apply elem_of_queued.
    rewrite Hit in Hj. apply elem_of_cons in Hj as [->|Hj]; [|cbn; eauto].
    destruct Hne; congruence. }
  destruct Hstep as [i rest Hf Hit|Hf Hit|Hf Hit|i rest Hf Hit Hpk
    |i rest d base bp discont st Hf Hit Hd Hbt Hdue Hl Hdis -> jb' ->|i rest d base bp Hf Hit Hd Hbt Hdue];
    try done; try congruence.
  - split; intros s; cbn.
    + intros Hs. eapply Ht1, Hsub; done.
    + intros Hs Hb. eapply Hrest; eauto.
  - assert (Hp : is_packet i = true) by (unfold is_packet; by rewrite Hd).
    split; intros s; rewrite (queued_items (jb <| items := rest |>)) by done; cbn.
    + intros Hs. eapply Ht1, Hsub; done.
    + intros Hs Hb. eapply Hrest; [done| |right; lia]. apply Ht2; [done|].
      unfold beyond in *. destruct (last_output_seqnum jb) as [l|] eqn:Hlo; [|done].
      specialize (Hl l eq_refl). lia.
Qed.
