(* ===== verification/JitterBufferRun.v ===== *)
(** * Runs of the jitter buffer

    What holds of any sequence of [queue_packet], [queue_serialized_item],
    [poll] and [set_flushing] calls: the order of the output, the
    conservation of ids, the statistics, the deadlines, and that no call
    panics, with the two inputs that break the code's own expectations. *)

From S2P Require Import Prelude Utils BTreeSet JitterBuffer.
From Stdlib Require Import Sorting.Sorted.

(** ** Steps keep the queue tracked and the counters in range *)

Lemma exec_flushing jb op out jb' :
  is_flush op = false -> jb_exec jb op = Ok (out, jb') ->
  flushing jb' = flushing jb /\ latency jb' = latency jb.
Proof.
  intros Hnf. destruct op as [s pts arr| |now|b]; cbn [jb_exec]; [..|done].
  - intros ([r j] & Hq & [= <- <-])%bind_ok.
    apply queue_packet_inv in Hq as [(_ & -> & ->)|(_ & e & ext & Hn & Hs)]; [done|].
    by destruct Hs; subst.
  - intros ([r j] & Hq & [= <- <-])%bind_ok.
    by apply queue_serialized_inv in Hq as [(Hit & -> & ->)|(_ & -> & s & ->)].
  - intros ([r j] & Hq%poll_inv & [= <- <-])%bind_ok. by destruct Hq; subst.
Qed.

Lemma exec_tracked jb op out jb' :
  jb_inv jb -> jb_tracked jb -> bts_len (queued_seqnums jb) < 65535 ->
  flushing jb = false -> is_flush op = false -> jb_exec jb op = Ok (out, jb') -> jb_tracked jb'.
Proof.
  intros Hinv Htr Hcap Hf Hnf. destruct op as [s pts arr| |now|b]; cbn [jb_exec]; [..|done].
  - intros ([r j] & Hq & [= <- <-])%bind_ok.
    apply queue_packet_inv in Hq as [(_ & -> & ->)|(_ & e & ext & Hn & Hs)]; [done|].
    by eapply queue_step_tracked.
  - intros ([r j] & Hq & [= <- <-])%bind_ok.
    apply queue_serialized_inv in Hq as [(Hit & -> & ->)|(_ & -> & s & ->)]; [by destruct Htr|].
    assert (Hsame : forall q, q ∈ queued_seqnums (jb <| packet_counter ::= Z.succ |>
      <| items := fst (bts_insert (mkItem (packet_counter jb) None s) (items jb)) |>) <->
      q ∈ queued_seqnums jb).
    { intros q.
      transitivity (q ∈ queued_seqnums (jb <| items ::=
        fun l => fst (bts_insert (mkItem (packet_counter jb) None s) l) |>)); [done|].
      rewrite queued_insert. cbn. intuition done. }
    destruct Htr as [H1 H2]. split; intros q; rewrite Hsame; cbn; auto.
  - intros ([r j] & Hq%poll_inv & [= <- <-])%bind_ok. by eapply poll_step_tracked.
Qed.

Section Room.
Context (jb : JitterBuffer) (k : Z).
Context (Hinv : jb_inv jb) (Hroom : jb_room jb k) (Hk : 0 <= k < 2 ^ 40).

(** The accounting bound follows from the effect of a step. *)
Lemma accounted_room op out jb' :
  is_flush op = false -> op_wf op -> jb_exec jb op = Ok (out, jb') ->
  accounted jb' <= match last_output_seqnum jb' with Some l => l + 1 | None => 0 end /\
  0 <= num_pushed (stats jb').
Proof using Hinv Hroom.
  intros Hnf Hop He. pose proof (exec_effect jb op out jb' Hinv Hnf He) as Heff.
  pose proof (room_accounted _ _ Hroom) as Ha. pose proof (room_pushed _ _ Hroom).
  pose proof (inv_nonneg _ (exec_inv jb op out jb' Hinv Hop He)) as Hpos.
  destruct (delivered jb op out jb') as [s|].
  - destruct Heff as (Hl & _ & -> & ->). rewrite Hl in *. specialize (Hpos s eq_refl).
    unfold advance. destruct (last_output_seqnum jb); lia.
  - destruct Heff as (-> & -> & ->). split; [done|lia].
Qed.

Lemma exec_room op out jb' :
  is_flush op = false -> op_wf op -> jb_exec jb op = Ok (out, jb') -> jb_room jb' (k + 1).
Proof using Hinv Hroom Hk.
  intros Hnf Hop He. destruct (accounted_room op out jb' Hnf Hop He) as [Hacc Hpush].
  destruct Hroom as [Hc Hd Hl _ Hlo _ Hx Hla Hi].
  assert (Hx' : forall l, sn_last_ext (extended_seqnum jb) = Some l -> l <= 131072 + 32768 * (k + 1))
    by (intros l ?%Hx; lia).
  assert (Hla' : forall l, last_output_seqnum jb = Some l -> l <= 131072 + 32768 * (k + 1))
    by (intros l ?%Hla; lia).
  assert (Hi' : forall i, i ∈ items jb -> is_packet i = true -> it_seqnum i <= 131072 + 32768 * (k + 1))
    by (intros i Hii Hp; specialize (Hi i Hii Hp); lia).
  destruct op as [s pts arr| |now|b]; cbn [jb_exec] in He; [..|done].
  - apply bind_ok in He as ([r j] & Hq & [= <- <-]). destruct Hop as [Hs _].
    destruct (ext_next_room jb k s Hinv Hroom Hk Hs) as (e & ext & Hn & He & _ & Hxl).
    apply queue_packet_inv in Hq as [(_ & -> & ->)|(_ & e2 & ext2 & Hn2 & Hst)].
    { split; eauto; lia. }
    rewrite Hn in Hn2. injection Hn2 as <- <-.
    destruct Hst as [n jb1 -> Hin ->|l n jb1 -> Hnin Hll Hle ->
      |discont st jb1 -> Hnin Hitems Hlast -> Hdd jb' ->|d its jb1 -> Hnin Hlast Hins];
      split; cbn in *; eauto; try lia.
    + destruct discont; [|done]. destruct (last_output_seqnum jb) as [l|]; [|done].
      specialize (Hlast l eq_refl). lia.
    + intros l [= <-]. lia.
    + intros i Hii Hp. pose proof (elem_of_bts_insert (mkItem (packet_counter jb) (Some d) e)
        (items jb) i) as Hin. rewrite Hins in Hin. apply Hin in Hii as [[-> _]|Hii]; [cbn; lia|eauto].
  - apply bind_ok in He as ([r j] & Hq & [= <- <-]).
    apply queue_serialized_inv in Hq as [(Hit & -> & ->)|(_ & -> & s & ->)];
      split; cbn in *; eauto; try lia.
    intros i [[-> _]|Hii]%elem_of_bts_insert; [done|eauto].
  - apply bind_ok in He as ([r j] & Hq%poll_inv & [= <- <-]).
    destruct Hq as [i rest Hf Hit|Hf Hit|Hf Hit|i rest Hf Hit Hpk
      |i rest d base bp discont st Hf Hit Hdl Hbt Hdue Hll Hdis -> jb' ->|i rest d base bp Hf Hit Hdl Hbt Hdue];
      try rewrite Hit in Hi'; split; cbn in *; rewrite ?Hit; eauto; try lia;
      try (intros j Hj; apply Hi'; by right).
    + destruct discont; [|done]. destruct (last_output_seqnum jb) as [l|] eqn:Hlast; [|done].
      destruct (Z.eqb_spec (it_seqnum i - l) 1); [done|].
      assert (l < it_seqnum i); [|lia]. eapply (inv_order _ Hinv); [rewrite Hit; by left| |done].
      unfold is_packet. by rewrite Hdl.
    + intros l [= <-]. apply Hi'; [by left|]. unfold is_packet. by rewrite Hdl.
Qed.
End Room.

(** ** Lemmas on runs *)

Lemma run_inv jb ops seqs ids jb' : jb_inv jb -> jb_run jb ops seqs ids jb' -> jb_inv jb'.
Proof. intros Hinv Hrun. induction Hrun; eauto using exec_inv. Qed.

(** The ids a run hands back were queued at its start or taken during it, are
    handed back once, and are no longer queued at its end. *)
Lemma run_ids jb ops seqs ids jb' :
  jb_inv jb -> jb_run jb ops seqs ids jb' ->
  packet_counter jb <= packet_counter jb' /\
  (forall id, id ∈ ids -> id ∈ it_id <$> items jb \/ packet_counter jb <= id) /\
  (forall id, id ∈ it_id <$> items jb' -> id ∈ it_id <$> items jb \/ packet_counter jb <= id) /\
  (forall id, id ∈ ids -> (id ∉ it_id <$> items jb') /\ id < packet_counter jb') /\
  (forall id, id ∈ it_id <$> items jb -> id ∈ it_id <$> items jb' \/ id ∈ ids) /\
  NoDup ids.
Proof.
  intros Hinv Hrun. induction Hrun as [jb|jb op ops out jb1 seqs ids jb2 Hop He Hrun IH].
  { split_and!; [lia|by intros ? ?%elem_of_nil|auto|by intros ? ?%elem_of_nil|auto|constructor]. }
  destruct (exec_ids _ _ _ _ Hinv He) as (Hc & Hout & Hback & Hkeep).
  destruct (IH (exec_inv _ _ _ _ Hinv Hop He)) as (Hc2 & Hi2 & Hq2 & Hf2 & Hk2 & Hnd2).
  assert (Hnew : forall id, out_id out = Some id -> (id ∉ ids) /\ (id ∉ it_id <$> items jb2) /\
    id < packet_counter jb2).
  { intros id Hid. destruct (Hout id Hid) as (_ & Hn & Hlt). split_and!; [..|lia].
    - intros [?|?]%Hi2; [done|lia].
    - intros [?|?]%Hq2; [done|lia]. }
  assert (Hsplit : forall id, id ∈ option_list (out_id out) ++ ids ->
    out_id out = Some id \/ id ∈ ids).
  { intros id. rewrite elem_of_app. destruct (out_id out); cbn;
      rewrite ?list_elem_of_singleton, ?elem_of_nil; intuition congruence. }
  split_and!.
  - lia.
  - intros id [Hid|Hid]%Hsplit; [by apply (Hout id Hid)|].
    apply Hi2 in Hid as [Hid|Hid]; [by apply Hback|right; lia].
  - intros id [Hid|Hid]%Hq2; [by apply Hback|right; lia].
  - intros id [Hid|Hid]%Hsplit; [by apply (Hnew id Hid)|by apply Hf2].
  - intros id [Hid|Hid]%Hkeep.
    + rewrite elem_of_app. apply Hk2 in Hid as [|]; auto.
    + rewrite Hid. right. by left.
  - destruct (out_id out) as [id|] eqn:Hid; cbn; [|done].
    apply NoDup_cons. split; [|done]. by apply (Hnew id).
Qed.

(** The order of the output and the statistics of a run without a flush. *)
Definition span (last : option Z) (seqs : list Z) : Z :=
  match list.last seqs with
  | Some s => s - match last with Some l => l | None => default 0 (head seqs) - 1 end
  | None => 0
  end.

Lemma run_output jb ops seqs ids jb' :
  jb_inv jb -> Forall (fun op => is_flush op = false) ops -> jb_run jb ops seqs ids jb' ->
  StronglySorted Z.lt seqs /\
  (forall l s, last_output_seqnum jb = Some l -> s ∈ seqs -> l < s) /\
  num_pushed (stats jb') = num_pushed (stats jb) + Z.of_nat (length seqs) /\
  accounted jb' = accounted jb + span (last_output_seqnum jb) seqs.
Proof.
  intros Hinv Hnf Hrun. induction Hrun as [jb|jb op ops out jb1 seqs ids jb2 Hop He Hrun IH].
  { cbn. split_and!; [constructor|by intros l s _ ?%elem_of_nil|lia..]. }
  apply Forall_cons in Hnf as [Hnf1 Hnf].
  destruct (IH (exec_inv _ _ _ _ Hinv Hop He) Hnf) as (Hsort & Hgt & Hpush & Hacc).
  pose proof (exec_effect _ _ _ _ Hinv Hnf1 He) as Heff.
  destruct (delivered jb op out jb1) as [s|]; cbn.
  - destruct Heff as (Hl & Hlast & Ha & Hp). split_and!.
    + constructor; [done|]. apply Forall_forall. eauto.
    + intros l t Hl' [->|Ht]%elem_of_cons; [by apply Hlast|].
      specialize (Hlast l Hl'). specialize (Hgt s t Hl Ht). lia.
    + rewrite Hpush, Hp. lia.
    + rewrite Hacc, Ha, Hl. unfold span, advance. rewrite last_cons.
      destruct (list.last seqs), (last_output_seqnum jb); cbn; lia.
  - destruct Heff as (Hl & Ha & Hp). rewrite Hl in *. rewrite <- Hp, <- Ha. split_and!; done.
Qed.

Lemma set_flushing_inv jb b : jb_inv jb -> jb_inv (JitterBuffer_set_flushing jb b).
Proof. intros H. exact (exec_inv _ (OpSetFlushing b) _ _ H I eq_refl). Qed.

(** The id of a packet that is kept is new, and it is queued. *)
Lemma queued_packet_id jb s pts arr id jb' :
  JitterBuffer_queue_packet jb s pts arr = Ok (QueueQueued id, jb') ->
  id = packet_counter jb /\ id ∈ it_id <$> items jb'.
Proof.
  intros [(_ & ? & _)|(_ & e & ext & _ & Hq)]%queue_packet_inv; [done|].
  inversion Hq as [| | |d its jb1 E Hn Hl Hins]; subst. split; [done|]. cbn.
  apply list_elem_of_fmap. exists (mkItem (packet_counter jb) (Some d) e). split; [done|].
  pose proof (elem_of_bts_insert (mkItem (packet_counter jb) (Some d) e) (items jb) (mkItem (packet_counter jb) (Some d) e)) as He.
  rewrite Hins in He. apply He. by left.
Qed.

(** The state a stream starts in: flushing ends, nothing was queued. *)
Definition jb_start (latency : Z) : JitterBuffer :=
  JitterBuffer_set_flushing (JitterBuffer_new latency) false.

Lemma start_inv lat : jb_inv (jb_start lat).
Proof. eapply (exec_inv (JitterBuffer_new lat) (OpSetFlushing false)); [apply new_inv|done..]. Qed.

Lemma start_tracked lat : jb_tracked (jb_start lat).
Proof. split; by intros s ?%elem_of_nil. Qed.

Lemma start_room lat : jb_room (jb_start lat) 0.
Proof. split; cbn; try done; by intros i ?%elem_of_nil. Qed.

(** Executing a list of operations, and whether the queue stays below the
    capacity of the duplicate detection on the way. *)
Fixpoint jb_exec_all (jb : JitterBuffer) (ops : list jb_op) : res (list jb_out * JitterBuffer) :=
  match ops with
  | [] => Ok ([], jb)
  | op :: ops =>
      '(out, jb) ← jb_exec jb op;
      '(outs, jb) ← jb_exec_all jb ops;
      Ok (out :: outs, jb)
  end.

Fixpoint within_capacity (jb : JitterBuffer) (ops : list jb_op) : bool :=
  (bts_len (queued_seqnums jb) <? 65535) &&
  match ops with
  | [] => true
  | op :: ops => match jb_exec jb op with
                 | Ok (_, jb) => within_capacity jb ops
                 | Panic => true
                 end
  end.

Lemma exec_all_total jb k ops :
  jb_inv jb -> jb_tracked jb -> jb_room jb k -> 0 <= k -> k + Z.of_nat (length ops) <= 2 ^ 40 ->
  0 <= latency jb <= 2 ^ 63 -> flushing jb = false ->
  Forall op_wf ops -> Forall (fun op => is_flush op = false) ops ->
  within_capacity jb ops = true -> exists v, jb_exec_all jb ops = Ok v.
Proof.
  revert jb k. induction ops as [|op ops IH]; intros jb k Hinv Htr Hroom Hk Hlen Hlat Hf Hwf Hnf Hcap;
    [cbn; eauto|].
  apply Forall_cons in Hwf as [Hop Hwf]. apply Forall_cons in Hnf as [Hnf1 Hnf].
  cbn [within_capacity] in Hcap. apply andb_true_iff in Hcap as [Hcap%Z.ltb_lt Hrest].
  cbn [length] in Hlen. assert (Hk' : 0 <= k < 2 ^ 40) by lia.
  destruct (exec_total jb k Hinv Htr Hroom Hk' Hlat Hcap op Hop) as [[out jb1] He].
  cbn [jb_exec_all]. rewrite He, bind_Ok in *.
  destruct (exec_flushing _ _ _ _ Hnf1 He) as [Hf1 Hl1].
  destruct (IH jb1 (k + 1)) as [[outs jb2] Hall].
  - by eapply exec_inv.
  - by eapply exec_tracked.
  - by eapply exec_room.
  - lia.
  - lia.
  - by rewrite Hl1.
  - by rewrite Hf1.
  - done.
  - done.
  - done.
  - rewrite Hall. cbn. eauto.
Qed.

(** A stream: calls within their types, no flush, and at most 2^32 of them. *)
Definition stream_ops (ops : list jb_op) : Prop :=
  Forall op_wf ops /\ Forall (fun op => is_flush op = false) ops /\ Z.of_nat (length ops) <= 2 ^ 32.

Lemma exec_all_reach jb k ops outs jb' :
  jb_inv jb -> jb_room jb k -> 0 <= k -> k + Z.of_nat (length ops) <= 2 ^ 40 ->
  flushing jb = false -> Forall op_wf ops -> Forall (fun op => is_flush op = false) ops ->
  jb_exec_all jb ops = Ok (outs, jb') ->
  jb_inv jb' /\ jb_room jb' (k + Z.of_nat (length ops)) /\ flushing jb' = false.
Proof.
  revert jb k outs. induction ops as [|op ops IH]; intros jb k outs Hinv Hroom Hk Hlen Hf Hwf Hnf.
  { intros [= <- <-]. by rewrite Z.add_0_r. }
  apply Forall_cons in Hwf as [Hop Hwf]. apply Forall_cons in Hnf as [Hnf1 Hnf].
  cbn [jb_exec_all length] in *. intros ([out jb1] & He & ([outs1 jb2] & Hall & [= <- <-])%bind_ok)%bind_ok.
  destruct (exec_flushing _ _ _ _ Hnf1 He) as [Hf1 _].
  replace (k + Z.of_nat (S (length ops))) with (k + 1 + Z.of_nat (length ops)) by lia.
  eapply IH; [by eapply exec_inv| |lia|lia|by rewrite Hf1|done|done|exact Hall].
  exact (exec_room jb k Hinv Hroom ltac:(lia) op out jb1 Hnf1 Hop He).
Qed.

Lemma pow32_40 : 2 * 2 ^ 32 < 2 ^ 40.
Proof. done. Qed.

Lemma start_reach lat ops outs jb :
  stream_ops ops -> jb_exec_all (jb_start lat) ops = Ok (outs, jb) ->
  exists k, jb_inv jb /\ jb_room jb k /\ 0 <= k <= 2 ^ 32 /\ flushing jb = false.
Proof.
  intros (Hwf & Hnf & Hlen) Hall. pose proof pow32_40. exists (0 + Z.of_nat (length ops)).
  destruct (exec_all_reach _ 0 ops _ _ (start_inv lat) (start_room lat) ltac:(lia) ltac:(lia) eq_refl
    Hwf Hnf Hall) as (Hi & Hr & Hf).
  split_and!; [done..|lia|lia|done].
Qed.

Lemma exec_all_inv jb ops outs jb' :
  jb_inv jb -> Forall op_wf ops -> jb_exec_all jb ops = Ok (outs, jb') -> jb_inv jb'.
Proof.
  revert jb outs. induction ops as [|op ops IH]; intros jb outs Hinv Hwf; [by intros [= <- <-]|].
  apply Forall_cons in Hwf as [Hop Hwf]. cbn [jb_exec_all].
  intros ([out jb1] & He & ([outs1 jb2] & Hall & [= <- <-])%bind_ok)%bind_ok.
  exact (IH jb1 outs1 (exec_inv _ _ _ _ Hinv Hop He) Hwf Hall).
Qed.

Lemma jb_exec_all_app jb ops1 ops2 :
  jb_exec_all jb (ops1 ++ ops2) =
    '(outs1, jb) ← jb_exec_all jb ops1;
    '(outs2, jb) ← jb_exec_all jb ops2;
    Ok (outs1 ++ outs2, jb).
Proof.
  revert jb. induction ops1 as [|op ops1 IH]; intros jb; cbn.
  - by destruct (jb_exec_all jb ops2) as [[]|].
  - destruct (jb_exec jb op) as [[out jb1]|]; cbn; [|done]. rewrite IH.
    destruct (jb_exec_all jb1 ops1) as [[outs1 jb2]|]; cbn; [|done].
    by destruct (jb_exec_all jb2 ops2) as [[]|].
Qed.

(** *** Draining *)

(** An item is due at [now], and every item of the queue is. *)
Definition item_due (jb : JitterBuffer) (now : Z) (i : Item) : Prop :=
  forall d, it_deadline i = Some d ->
    exists base bp, base_times jb = Some (base, bp) /\ d <= instant_sub now base.

Definition all_due (jb : JitterBuffer) (now : Z) : Prop :=
  forall i, i ∈ items jb -> item_due jb now i.

(** One poll takes the first item. *)
Lemma poll_due jb now i rest :
  jb_inv jb -> flushing jb = false -> items jb = i :: rest -> item_due jb now i ->
  (exists v, JitterBuffer_poll jb now = Ok v) ->
  exists discont jb', JitterBuffer_poll jb now = Ok (PollForward (it_id i) discont, jb') /\
    items jb' = rest /\ base_times jb' = base_times jb.
Proof.
  intros Hinv Hf Hit Hdue [[r jb'] Hp]. rewrite Hp. apply poll_inv in Hp.
  assert (Hin : i ∈ items jb) by (rewrite Hit; by left).
  destruct Hp as [j rest' Hf' Hit'|Hf' Hit'|Hf' [Hit'|(j & rest' & Hit' & Hpk & Hb)]|j rest' Hf' Hit' Hpk
    |j rest' d base bp discont st Hf' Hit' Hd Hbt Hle Hl Hdis Hst jb' ->|j rest' d base bp Hf' Hit' Hd Hbt Hle];
    try congruence; rewrite Hit in Hit'; injection Hit' as <- <-.
  - destruct (inv_base _ Hinv i Hin Hpk) as [? ?]. congruence.
  - eauto.
  - eauto.
  - destruct (Hdue d Hd) as (b & bp' & Hb & Hle'). rewrite Hbt in Hb.
    injection Hb as <- <-. lia.
Qed.

Lemma exec_poll jb now r jb' :
  JitterBuffer_poll jb now = Ok (r, jb') -> jb_exec jb (OpPoll now) = Ok (OutPoll r, jb').
Proof. intros Hp. cbn. by rewrite Hp. Qed.

Lemma drain_run jb k now n :
  jb_inv jb -> jb_room jb k -> 0 <= k -> k + Z.of_nat n <= 2 ^ 40 -> flushing jb = false ->
  all_due jb now -> length (items jb) = n ->
  exists jb', jb_run jb (replicate n (OpPoll now)) (queued_seqnums jb) (it_id <$> items jb) jb' /\
    items jb' = [].
Proof.
  revert jb k. induction n as [|n IH]; intros jb k Hinv Hroom Hk Hlen Hf Hdue Hn.
  { destruct (items jb) eqn:Hi; [|done]. exists jb. split; [|done]. unfold queued_seqnums.
    rewrite Hi. constructor. }
  destruct (items jb) as [|i rest] eqn:Hi; [done|]. cbn in Hn.
  destruct (poll_due jb now i rest Hinv Hf Hi) as (discont & jb1 & Hp & Hit1 & Hb1).
  { apply Hdue. rewrite Hi. by left. }
  { eapply (poll_total jb k); [done..|lia]. }
  pose proof (exec_poll _ _ _ _ Hp) as He.
  destruct (exec_flushing _ (OpPoll now) _ _ eq_refl He) as [Hf1 _].
  destruct (IH jb1 (k + 1)) as (jb' & Hrun & Hempty).
  - exact (exec_inv jb (OpPoll now) _ _ Hinv I He).
  - exact (exec_room jb k Hinv Hroom ltac:(lia) (OpPoll now) _ _ eq_refl I He).
  - lia.
  - lia.
  - by rewrite Hf1.
  - intros j Hj d Hd. rewrite Hb1. apply (Hdue j); [|done]. rewrite Hi. right. by rewrite <- Hit1.
  - rewrite Hit1. lia.
  - exists jb'. split; [|done]. cbn [replicate].
    replace (queued_seqnums jb) with
      (option_list (delivered jb (OpPoll now) (OutPoll (PollForward (it_id i) discont)) jb1)
         ++ queued_seqnums jb1).
    + rewrite Hit1 in Hrun.
      exact (run_cons jb (OpPoll now) _ _ _ _ _ _ I He Hrun).
    + unfold queued_seqnums. cbn [delivered]. rewrite Hi, Hit1. cbn [bts_first head].
      rewrite filter_cons. by destruct (is_packet i).
Qed.

(** *** Filling the queue

    The buffer after the packets [0 .. n-1], all with presentation time 0,
    were queued and none has left. *)
Definition filled (lat n : Z) : JitterBuffer := {|
  packet_counter := n;
  seqnums := seqZ 65536 n;
  items := (fun j => mkItem j (Some lat) (65536 + j)) <$> seqZ 0 n;
  latency := lat;
  base_times := Some (0, 0);
  last_output_seqnum := None;
  extended_seqnum := mkExtendedSeqnum (Some (65536 + n - 1));
  stats := mkStats 0 0 0 0;
  flushing := false;
  can_forward_packets_when_empty := lat =? 0;
|}.

Lemma bts_insert_end {A} `{OrdLaws A} (x : A) l :
  (forall y, y ∈ l -> cmp x y = Gt) -> bts_insert x l = (l ++ [x], true).
Proof.
  induction l as [|y l IH]; intros Hgt; [done|]. cbn. rewrite Hgt by (by left).
  rewrite IH; [done|]. intros z Hz. apply Hgt. by right.
Qed.

Lemma trim_short l : bts_len l < 65535 -> trim_seqnums l = l.
Proof. destruct l as [|x l]; [done|]. intros Hlen. cbn [trim_seqnums]. by zcase; [lia|]. Qed.

Lemma bts_len_seqZ a n : 0 <= n -> bts_len (seqZ a n) = n.
Proof. intros. unfold bts_len. rewrite length_seqZ. lia. Qed.

Lemma trim_once x l : bts_len (x :: l) = 65535 -> trim_seqnums (x :: l) = l.
Proof.
  intros Hlen. cbn [trim_seqnums]. rewrite Hlen, trim_short; [done|].
  unfold bts_len in *. cbn [length] in Hlen. lia.
Qed.

Lemma trim_full a n : n = 65535 -> trim_seqnums (seqZ a n) = seqZ (a + 1) (n - 1).
Proof.
  intros Hn. rewrite seqZ_cons by lia. rewrite trim_once.
  - f_equal; lia.
  - unfold bts_len. cbn [length]. rewrite length_seqZ. lia.
Qed.

Lemma seqZ_insert_end a n : 0 <= n -> bts_insert (a + n) (seqZ a n) = (seqZ a (n + 1), true).
Proof.
  intros Hn. rewrite bts_insert_end.
  - rewrite (seqZ_app a n 1) by lia. done.
  - intros y Hy%elem_of_seqZ. apply Z.compare_gt_iff. lia.
Qed.

Lemma filled_items lat n :
  0 <= n -> bts_insert (mkItem n (Some lat) (65536 + n)) (items (filled lat n)) =
    (items (filled lat (n + 1)), true).
Proof.
  intros Hn. rewrite bts_insert_end.
  - cbn [items filled]. rewrite (seqZ_app 0 n 1) by lia. by rewrite fmap_app.
  - intros y (j & -> & Hj%elem_of_seqZ)%list_elem_of_fmap.
    unfold cmp, Item_Ord, Item_cmp. cbn. by rewrite (proj2 (Z.compare_gt_iff _ _)) by lia.
Qed.

Lemma filled_next n :
  1 <= n < 65536 ->
  ExtendedSeqnum_next (mkExtendedSeqnum (Some (65536 + n - 1))) n =
    Ok (65536 + n, mkExtendedSeqnum (Some (65536 + n))).
Proof.
  intros Hn. unfold ExtendedSeqnum_next. cbn [sn_last_ext].
  replace n with ((65536 + n) mod 2 ^ 16) at 2
    by (change (2 ^ 16) with 65536; rewrite <- (Z.mod_add _ (-1)), Z.mod_small by lia; lia).
  rewrite extend_next_nearest by (change (2 ^ 16) with 65536; change (2 ^ (16 - 1)) with 32768; lia).
  cbn. unfold counter_spec. change (2 ^ 16) with 65536. zcase; [|done].
  enough ((65536 + n - 1) / 65536 <= (65536 + n) / 65536) by lia. apply Z.div_le_mono; lia.
Qed.

Lemma seqZ_not_contains n e a :
  e < a -> bts_contains e (seqZ a n) = false.
Proof.
  intros He. destruct (bts_contains e (seqZ a n)) eqn:Hc; [|done].
  apply bts_contains_Z, elem_of_seqZ in Hc. lia.
Qed.

Section Overfull.
Context (lat : Z) (Hlat : 0 < lat <= 2 ^ 63).

Lemma enqueue_filled jb1 n :
  items jb1 = items (filled lat n) -> packet_counter jb1 = n -> latency jb1 = lat ->
  base_times jb1 = Some (0, 0) -> 0 <= n < 65536 ->
  enqueue_packet jb1 (65536 + n) 0 0 = Ok (QueueQueued n,
    jb1 <| base_times := Some (0, 0) |> <| packet_counter := n + 1 |>
        <| items := items (filled lat (n + 1)) |>).
Proof using Hlat.
  intros Hi Hc Hl Hb Hn. assert (2 ^ 63 = 9223372036854775808) by done.
  unfold enqueue_packet, take_id. rewrite Hb. cbn [default fst snd]. cbn.
  rewrite Hl, Hc. run_chk. run_chk. cbn. rewrite Hi.
  unfold duration_saturating_sub, saturating_sub.
  replace (Z.max 0 (0 + lat - 0)) with lat by lia. rewrite filled_items by lia. done.
Qed.

Lemma fill_step n :
  1 <= n < 65536 ->
  JitterBuffer_queue_packet (filled lat n) n 0 0 = Ok (QueueQueued n,
    (filled lat (n + 1)) <| seqnums := fst (bts_insert (65536 + n) (trim_seqnums (seqZ 65536 n))) |>).
Proof using Hlat.
  intros Hn. unfold JitterBuffer_queue_packet. cbn [flushing filled extended_seqnum].
  rewrite filled_next by done. cbn -[bts_insert trim_seqnums enqueue_packet].
  destruct (bts_contains _ _) eqn:Hc.
  { apply bts_contains_Z, trim_seqnums_subset, elem_of_seqZ in Hc. lia. }
  destruct (lat =? 0) eqn:Hz; [apply Z.eqb_eq in Hz; lia|].
  match goal with |- match ?l with [] => _ | _ => _ end = _ =>
    replace (match l with [] => _ | _ => _ end)
      with (enqueue_packet ((filled lat n)
              <| extended_seqnum := mkExtendedSeqnum (Some (65536 + n)) |>
              <| seqnums := fst (bts_insert (65536 + n) (trim_seqnums (seqZ 65536 n))) |>)
              (65536 + n) 0 0) by (destruct l; unfold filled; cbn -[seqZ]; by rewrite Hz)
  end.
  rewrite (enqueue_filled _ n) by (done || lia).
  unfold filled, modify. cbn -[seqZ bts_insert]. replace (65536 + (n + 1) - 1) with (65536 + n) by lia. done.
Qed.
Lemma exec_packet jb n r jb' :
  JitterBuffer_queue_packet jb n 0 0 = Ok (r, jb') ->
  jb_exec_all jb [OpPacket n 0 0] = Ok ([OutQueue r], jb').
Proof using. intros Hq. cbn. by rewrite Hq. Qed.

Lemma fill_first : JitterBuffer_queue_packet (jb_start lat) 0 0 0 = Ok (QueueQueued 0, filled lat 1).
Proof using Hlat.
  assert (2 ^ 63 = 9223372036854775808) by done.
  unfold JitterBuffer_queue_packet. cbn -[enqueue_packet].
  destruct (Z.eqb_spec lat 0); [lia|].
  change (u64_add (2 ^ 16) 0) with (Ok 65536). rewrite !bind_Ok.
  change (bts_contains 65536 []) with false. cbv iota.
  unfold enqueue_packet, take_id. cbn. run_chk. run_chk. cbn.
  unfold duration_saturating_sub, saturating_sub.
  replace (Z.max 0 (0 + lat - 0)) with lat by lia.
  unfold filled, modify. cbn. destruct (Z.eqb_spec lat 0); [lia|]. done.
Qed.

(** The first 65535 packets of the stream are queued. *)
Lemma fill_run n :
  1 <= Z.of_nat n <= 65535 ->
  exists outs, jb_exec_all (jb_start lat) ((fun j => OpPacket j 0 0) <$> seqZ 0 (Z.of_nat n)) =
    Ok (outs, filled lat (Z.of_nat n)).
Proof using Hlat.
  induction n as [|n IH]; [lia|]. intros Hn. destruct (decide (n = 0%nat)) as [->|Hne].
  { eexists. change (seqZ 0 (Z.of_nat 1)) with [0]. apply exec_packet, fill_first. }
  destruct IH as [outs IH]; [lia|].
  replace (Z.of_nat (S n)) with (Z.of_nat n + 1) by lia.
  rewrite seqZ_app, fmap_app by lia. rewrite jb_exec_all_app, IH, bind_Ok.
  rewrite Z.add_0_l. change (seqZ (Z.of_nat n) 1) with [Z.of_nat n]. cbn [fmap list_fmap].
  rewrite (exec_packet _ _ _ _ (fill_step (Z.of_nat n) ltac:(lia))).
  rewrite trim_short by (rewrite bts_len_seqZ; lia). rewrite seqZ_insert_end by lia.
  cbn [fst snd]. eexists. reflexivity.
Qed.
Lemma duplicate_step jb n e ext :
  flushing jb = false -> ExtendedSeqnum_next (extended_seqnum jb) n = Ok (e, ext) ->
  e ∈ trim_seqnums (seqnums jb) -> num_duplicates (stats jb) + 1 < U64 ->
  exists jb', JitterBuffer_queue_packet jb n 0 0 = Ok (QueueDuplicate, jb') /\
    extended_seqnum jb' = ext /\ seqnums jb' = trim_seqnums (seqnums jb) /\ items jb' = items jb /\
    last_output_seqnum jb' = last_output_seqnum jb /\ flushing jb' = false /\
    num_duplicates (stats jb') = num_duplicates (stats jb) + 1.
Proof using.
  intros Hf Hn He Hd. apply bts_contains_Z in He. unfold JitterBuffer_queue_packet.
  rewrite Hf, Hn, bind_Ok. cbn -[trim_seqnums]. rewrite He. run_chk. eexists. split; [reflexivity|]. done.
Qed.

(** A packet whose number is queued but no longer tracked ends in the
    [unreachable!()]. *)
Lemma untracked_panics jb n e ext i :
  bts_wf (items jb) -> flushing jb = false -> last_output_seqnum jb = None ->
  ExtendedSeqnum_next (extended_seqnum jb) n = Ok (e, ext) -> e ∉ trim_seqnums (seqnums jb) ->
  i ∈ items jb -> is_packet i = true -> it_seqnum i = e ->
  JitterBuffer_queue_packet jb n 0 0 = Panic.
Proof using.
  intros Hwf Hf Hl Hn He Hi Hp Hs. unfold JitterBuffer_queue_packet.
  rewrite Hf, Hn, bind_Ok. cbn -[trim_seqnums]. rewrite Hl.
  destruct (bts_contains _ _) eqn:Hc; [by apply bts_contains_Z in Hc|].
  destruct (items jb) as [|x l] eqn:Hit; [by apply elem_of_nil in Hi|].
  unfold enqueue_packet, take_id. destruct (default _ _) as [ba bp]. cbn -[trim_seqnums bts_insert].
  destruct (duration_add _ _) as [d|]; [|done]. rewrite bind_Ok.
  destruct (u64_add _ _) as [c|]; [|done]. rewrite bind_Ok. cbn -[trim_seqnums bts_insert].
  rewrite Hit, (bts_insert_present _ i); [done..|].
  rewrite Item_cmp_eq_packet by done. done.
Qed.

(** After 65536 packets the tracked numbers start at 65537, the queue at 65536. *)
Lemma fill_full :
  exists outs jb, jb_exec_all (jb_start lat) ((fun j => OpPacket j 0 0) <$> seqZ 0 65536) = Ok (outs, jb) /\
    seqnums jb = seqZ 65537 65535 /\ mkItem 0 (Some lat) 65536 ∈ items jb /\
    extended_seqnum jb = mkExtendedSeqnum (Some 131071) /\ last_output_seqnum jb = None /\
    flushing jb = false /\ num_duplicates (stats jb) = 0.
Proof using Hlat.
  assert (exists n : nat, Z.of_nat n = 65535) as [n Hn] by (exists (Z.to_nat 65535); lia).
  destruct (fill_run n ltac:(lia)) as [outs Hrun].
  assert (seqZ 0 65536 = seqZ 0 (Z.of_nat n + 1)) as -> by (f_equal; lia).
  rewrite seqZ_app, fmap_app by lia.
  rewrite jb_exec_all_app, Hrun, bind_Ok, Z.add_0_l.
  change (seqZ (Z.of_nat n) 1) with [Z.of_nat n]. cbn [fmap list_fmap].
  rewrite (exec_packet _ _ _ _ (fill_step (Z.of_nat n) ltac:(lia))), bind_Ok.
  eexists _, _. split; [reflexivity|]. split_and!; try done.
  - cbn [seqnums modify]. rewrite trim_full by done.
    replace (65536 + Z.of_nat n) with (65536 + 1 + (Z.of_nat n - 1)) by lia.
    rewrite seqZ_insert_end by lia. cbn [fst]. f_equal; lia.
  - cbn [items filled modify]. apply list_elem_of_fmap. exists 0. split; [done|].
    apply elem_of_seqZ. lia.
  - cbn [extended_seqnum filled modify]. do 2 f_equal. lia.
Qed.
End Overfull.

(** The stream that overfills the duplicate detection. *)
Definition overfull_stream : list jb_op :=
  ((fun j => OpPacket j 0 0) <$> seqZ 0 65536) ++
  [OpPacket 40000 0 0; OpPacket 20000 0 0; OpPacket 0 0 0].

(** *** Evaluating a run *)

Fixpoint jb_trace (jb : JitterBuffer) (ops : list jb_op) : res (list Z * list Z * JitterBuffer) :=
  match ops with
  | [] => Ok ([], [], jb)
  | op :: ops =>
      '(out, jb1) ← jb_exec jb op;
      '(seqs, ids, jb2) ← jb_trace jb1 ops;
      Ok (option_list (delivered jb op out jb1) ++ seqs, option_list (out_id out) ++ ids, jb2)
  end.

Lemma jb_trace_run jb ops seqs ids jb' :
  Forall op_wf ops -> jb_trace jb ops = Ok (seqs, ids, jb') -> jb_run jb ops seqs ids jb'.
Proof.
  revert jb seqs ids. induction ops as [|op ops IH]; intros jb seqs ids Hwf; cbn.
  { intros [= <- <- <-]. constructor. }
  apply Forall_cons in Hwf as [Hop Hwf].
  intros ([out jb1] & He & ([[seqs1 ids1] jb2] & Ht & [= <- <- <-])%bind_ok)%bind_ok.
  econstructor; eauto.
Qed.

(** A stream with a reordering, a loss, a duplicate and an event: packets 10,
    12, 12 and 11 arrive, then the event, then 14; polls at 100 and later. *)
Definition sample_ops : list jb_op :=
  [OpPacket 10 0 0; OpPacket 12 0 1; OpPacket 12 0 2; OpPacket 11 0 3; OpSerialized; OpPacket 14 0 5;
   OpPoll 50; OpPoll 100; OpPoll 100].
Definition sample_drain : list jb_op := [OpPoll 101; OpPoll 102; OpPoll 103].

Lemma sample_wf : Forall op_wf (sample_ops ++ sample_drain).
Proof. repeat constructor; cbn; unfold is_u16, is_u64; lia. Qed.

Definition sample_state : JitterBuffer :=
  match jb_trace (jb_start 100) sample_ops with Ok (_, _, jb) => jb | Panic => jb_start 100 end.

Definition sample_final : JitterBuffer :=
  match jb_trace sample_state sample_drain with Ok (_, _, jb) => jb | Panic => jb_start 100 end.

Lemma sample_stream : stream_ops sample_ops.
Proof. split_and!; [exact (proj1 (proj1 (Forall_app _ _ _) sample_wf))|by repeat constructor|done]. Qed.

(** ** Properties *)

(** C38: whatever calls are made, the buffer stays well formed: both sets are
    ordered, queued packets come after the last one output, their ids are
    distinct and below the counter, and a base time is known as soon as a
    packet waits. *)
Theorem jitterbuffer_invariant lat ops seqs ids jb :
  jb_run (JitterBuffer_new lat) ops seqs ids jb -> jb_inv jb.
Proof. apply run_inv, new_inv. Qed.

(** C1: in any stretch between two calls of [set_flushing] (the first one after
    any calls [before], the last one not yet made) the packets leave in strictly
    increasing order of extended sequence number, never a packet twice, and the
    statistics account for every number of the range: in the stretch the count
    of pushed packets grows by those delivered, and pushed plus lost packets by
    the length of the range from the first to the last one delivered. *)
Theorem jitterbuffer_output_order lat before seqs0 ids0 jb0 b ops seqs ids jb :
  jb_run (JitterBuffer_new lat) before seqs0 ids0 jb0 ->
  Forall (fun op => is_flush op = false) ops -> jb_run (JitterBuffer_set_flushing jb0 b) ops seqs ids jb ->
  StronglySorted Z.lt seqs /\
  num_pushed (stats jb) = num_pushed (stats jb0) + Z.of_nat (length seqs) /\
  (forall first last, head seqs = Some first -> list.last seqs = Some last ->
     num_pushed (stats jb) + num_lost (stats jb) =
     num_pushed (stats jb0) + num_lost (stats jb0) + (last - first + 1)).
Proof.
  intros H0 Hnf Hrun. pose proof (run_inv _ _ _ _ _ (new_inv lat) H0) as Hinv.
  destruct (run_output _ _ _ _ _ (set_flushing_inv _ b Hinv) Hnf Hrun) as (Hs & _ & Hp & Ha).
  split_and!; [done|done|]. intros first last Hh Hl. fold (accounted jb). rewrite Ha. unfold span.
  rewrite Hl, Hh. unfold accounted. cbn. lia.
Qed.

(** C3: every id the buffer gives back (forwarded at once, forwarded by
    [poll], or dropped on a flush) is given back at most once and is queued no
    more, and an id that is queued stays queued until it is given back, across
    any number of flushes; an id that [queue_packet] answers for a packet it
    keeps is queued. (The id answered for a serialized item may never be
    queued, see [serialized_item_lost].) *)
Theorem jitterbuffer_ids_conserved lat ops1 ops2 seqs1 ids1 jb1 seqs2 ids2 jb2 :
  jb_run (JitterBuffer_new lat) ops1 seqs1 ids1 jb1 -> jb_run jb1 ops2 seqs2 ids2 jb2 ->
  NoDup ids1 /\
  (forall id, id ∈ ids1 -> (id ∉ ids2) /\ (id ∉ it_id <$> items jb2)) /\
  (forall id, id ∈ it_id <$> items jb1 -> (id ∈ it_id <$> items jb2) \/ id ∈ ids2) /\
  (forall s pts arr id jb, JitterBuffer_queue_packet jb2 s pts arr = Ok (QueueQueued id, jb) ->
     id ∈ it_id <$> items jb /\ id ∉ ids1 ++ ids2).
Proof.
  intros H1 H2. pose proof (run_inv _ _ _ _ _ (new_inv lat) H1) as Hinv.
  destruct (run_ids _ _ _ _ _ (new_inv lat) H1) as (_ & _ & _ & Hgone & _ & Hnd).
  destruct (run_ids _ _ _ _ _ Hinv H2) as (Hc & Hi & Hq & Hf & Hk & _).
  split_and!; [done| |done|].
  - intros id [Hn Hlt]%Hgone. split.
    + intros [?|?]%Hi; [done|lia].
    + intros [?|?]%Hq; [done|lia].
  - intros s pts arr id jb [-> Hid]%queued_packet_id. split; [done|].
    intros [[_ Hlt]%Hgone|[_ Hlt]%Hf]%elem_of_app; lia.
Qed.

(** A timeout returned by [poll] is exact: the call changed nothing, the
    answer is the same at any earlier time, and from the time it names on
    the first item is handed out. *)
Lemma poll_timeout_exact lat ops outs jb now t jb' :
  stream_ops ops -> jb_exec_all (jb_start lat) ops = Ok (outs, jb) ->
  JitterBuffer_poll jb now = Ok (PollTimeout t, jb') ->
  jb' = jb /\ now < t /\
  (forall now', now' < t -> JitterBuffer_poll jb now' = Ok (PollTimeout t, jb)) /\
  (forall now', t <= now' -> exists i discont jb2, bts_first (items jb) = Some i /\
     JitterBuffer_poll jb now' = Ok (PollForward (it_id i) discont, jb2)).
Proof.
  intros Hops Hall Hp. pose proof pow32_40. destruct (start_reach _ _ _ _ Hops Hall) as (k & Hinv & Hroom & Hk & _).
  apply poll_inv in Hp. inversion Hp as [| | | | |i rest d base bp Hf Hit Hd Hb Hlt]; subst.
  unfold instant_sub, instant_add, saturating_sub in *. split_and!; [done|lia|..].
  - intros now' Hnow. unfold JitterBuffer_poll. rewrite Hf, Hit. cbn. rewrite Hd, Hb.
    unfold instant_sub, saturating_sub. destruct (Z.leb_spec d (Z.max 0 (now' - base))); [lia|done].
  - intros now' Hnow.
    destruct (poll_due jb' now' i rest Hinv Hf Hit) as (discont & jb2 & Hp2 & _).
    + intros d' Hd'. rewrite Hd in Hd'. injection Hd' as <-. exists base, bp. split; [done|].
      unfold instant_sub, saturating_sub. lia.
    + eapply (poll_total jb' k); [done..|lia].
    + exists i, discont, jb2. by rewrite Hit.
Qed.

(** C2: no call of a stream panics (no counter overflows, no [unwrap] fails,
    the [assert!] and the [unreachable!()] are not reached) as long as fewer
    than 65535 packets wait in the queue at any time. *)
Theorem jitterbuffer_no_panic lat ops :
  0 <= lat <= 2 ^ 63 -> stream_ops ops -> within_capacity (jb_start lat) ops = true ->
  is_ok (jb_exec_all (jb_start lat) ops) = true.
Proof.
  intros Hlat (Hwf & Hnf & Hlen) Hcap. pose proof pow32_40.
  destruct (exec_all_total (jb_start lat) 0 ops) as [v ->];
    eauto using start_inv, start_tracked, start_room; lia.
Qed.

(** C4: once every deadline has passed, polling as often as there are items
    hands out all of them, packets and serialized items, in queue order, and
    leaves the queue empty. *)
Theorem jitterbuffer_drains lat ops outs jb now :
  stream_ops ops -> jb_exec_all (jb_start lat) ops = Ok (outs, jb) -> all_due jb now ->
  Z.of_nat (length (items jb)) <= 2 ^ 32 ->
  exists jb', jb_run jb (replicate (length (items jb)) (OpPoll now))
                (queued_seqnums jb) (it_id <$> items jb) jb' /\ items jb' = [].
Proof.
  intros Hops Hall Hdue Hlen. destruct (start_reach _ _ _ _ Hops Hall) as (k & Hinv & Hroom & Hk & Hf).
  pose proof pow32_40. eapply (drain_run jb k); eauto; lia.
Qed.

(** A serialized item queued while another one waits at the same
    sequence number is lost: the call answers [Queued(id)], and no later call
    ever gives that id back. *)
Lemma serialized_item_lost jb i :
  jb_inv jb -> i ∈ items jb -> it_deadline i = None ->
  it_seqnum i = default 0 (bts_last (seqnums jb)) -> packet_counter jb + 1 < U64 ->
  exists jb', JitterBuffer_queue_serialized_item jb = Ok (QueueQueued (packet_counter jb), jb') /\
    forall ops seqs ids jb2, jb_run jb' ops seqs ids jb2 -> packet_counter jb ∉ ids.
Proof.
  intros Hinv Hi Hd Hs Hc.
  assert (Hins : forall s, s = it_seqnum i ->
    bts_insert (mkItem (packet_counter jb) None s) (items jb) = (items jb, false)).
  { intros s ->. apply (bts_insert_present _ i); [apply (inv_items _ Hinv)|done|].
    unfold cmp, Item_Ord, Item_cmp. cbn. by rewrite Z.compare_refl, Hd. }
  assert (Hq : JitterBuffer_queue_serialized_item jb = Ok (QueueQueued (packet_counter jb),
    jb <| packet_counter := packet_counter jb + 1 |> <| items := items jb |>)).
  { unfold JitterBuffer_queue_serialized_item, take_id.
    destruct (items jb) as [|x l] eqn:Hit; [by apply elem_of_nil in Hi|].
    run_chk. cbn -[bts_insert]. by rewrite Hit, Hins. }
  eexists. split; [exact Hq|]. intros ops seqs ids jb2 Hrun.
  destruct (run_ids _ _ _ _ _ (exec_inv jb OpSerialized _ _ Hinv I
    ltac:(cbn [jb_exec]; rewrite Hq; reflexivity)) Hrun) as (_ & Hin & _).
  intros [Hid|Hid]%Hin; cbn in Hid; [|lia]. by apply (inv_fresh_id jb Hinv).
Qed.

(** The [unreachable!()] of [queue_packet] is reachable. With a latency,
    65536 packets in order fill the queue; the duplicate detection then
    forgets packet 0, which still waits, and after two duplicates in the
    middle of the cycle a copy of packet 0 panics. *)
Lemma unreachable_reached lat :
  0 < lat <= 2 ^ 63 -> jb_exec_all (jb_start lat) overfull_stream = Panic.
Proof.
  intros Hlat. unfold overfull_stream.
  destruct (fill_full lat Hlat) as (outs & jb & Hrun & Hs & Hi & Hx & Hl & Hf & Hd).
  rewrite jb_exec_all_app, Hrun, bind_Ok.
  apply exec_all_inv in Hrun as Hinv; [|apply start_inv|].
  2: { apply Forall_fmap, Forall_forall. intros j Hj%elem_of_seqZ. cbn. unfold is_u16, is_u64. lia. }
  destruct (duplicate_step jb 40000 105536 (mkExtendedSeqnum (Some 105536)))
    as (jb1 & Hq1 & Hx1 & Hs1 & Hi1 & Hl1 & Hf1 & Hd1).
  { done. } { by rewrite Hx. } { rewrite Hs, trim_full by done. apply elem_of_seqZ. lia. } { lia. }
  rewrite Hs, trim_full in Hs1 by done.
  assert (Ht1 : trim_seqnums (seqnums jb1) = seqZ 65538 65534).
  { rewrite Hs1. apply trim_short. rewrite bts_len_seqZ; lia. }
  destruct (duplicate_step jb1 20000 85536 (mkExtendedSeqnum (Some 85536)))
    as (jb2 & Hq2 & Hx2 & Hs2 & Hi2 & Hl2 & Hf2 & Hd2).
  { done. } { by rewrite Hx1. } { rewrite Ht1. apply elem_of_seqZ. lia. } { lia. }
  rewrite Ht1 in Hs2. cbn [jb_exec_all jb_exec]. rewrite Hq1. cbn [jb_exec mbind res_bind].
  rewrite Hq2. cbn [jb_exec mbind res_bind].
  rewrite (untracked_panics jb2 0 65536 (mkExtendedSeqnum (Some 65536)) (mkItem 0 (Some lat) 65536));
    try done; try congruence.
  - rewrite Hi2, Hi1. apply (inv_items _ Hinv).
  - by rewrite Hx2.
  - rewrite Hs2, trim_short by (rewrite bts_len_seqZ; lia). rewrite elem_of_seqZ. lia.
Qed.

(** ** Witnesses *)

Lemma jitterbuffer_invariant_witness :
  exists seqs ids jb, jb_run (JitterBuffer_new 100) (OpSetFlushing false :: sample_ops) seqs ids jb /\
    jb_inv jb.
Proof.
  eexists _, _, _. split.
  - apply jb_trace_run; [constructor; [exact I|apply sample_stream]|vm_compute; reflexivity].
  - eapply (jitterbuffer_invariant 100 (OpSetFlushing false :: sample_ops)).
    apply jb_trace_run; [constructor; [exact I|apply sample_stream]|vm_compute; reflexivity].
Defined.

(** The second stretch: a stream, a flush, and the stream again from another number. *)
Definition sample_before : list jb_op := OpSetFlushing false :: sample_ops ++ sample_drain ++ [OpSetFlushing true].
Definition sample_again : list jb_op := [OpPacket 16 0 200; OpPacket 18 0 201; OpPoll 301; OpPoll 302].
Definition run_end (jb : JitterBuffer) (ops : list jb_op) : JitterBuffer :=
  match jb_trace jb ops with Ok (_, _, jb) => jb | Panic => jb end.
Definition sample_flushed : JitterBuffer := run_end (JitterBuffer_new 100) sample_before.
Definition sample_second : JitterBuffer := run_end (JitterBuffer_set_flushing sample_flushed false) sample_again.

Lemma jitterbuffer_output_order_witness :
  num_pushed (stats sample_flushed) + num_lost (stats sample_flushed) = 5 /\
  StronglySorted Z.lt [65552; 65554] /\ num_pushed (stats sample_second) = num_pushed (stats sample_flushed) + 2 /\
  num_pushed (stats sample_second) + num_lost (stats sample_second) = 5 + (65554 - 65552 + 1).
Proof.
  destruct (jitterbuffer_output_order 100 sample_before [65546; 65547; 65548; 65550] [0; 2; 1; 3; 4] sample_flushed false sample_again
    [65552; 65554] [5; 6] sample_second) as (H1 & H2 & H3).
  - apply jb_trace_run; [|vm_compute; reflexivity]. constructor; [exact I|]. rewrite app_assoc. apply Forall_app. split; [exact sample_wf|by repeat constructor].
  - by repeat constructor.
  - apply jb_trace_run; [by repeat constructor|vm_compute; reflexivity].
  - split; [vm_compute; reflexivity|]. exact (conj H1 (conj H2 (H3 65552 65554 eq_refl eq_refl))).
Defined.

Lemma jitterbuffer_ids_conserved_witness :
  let jb2 := JitterBuffer_set_flushing sample_flushed false in
  NoDup [0; 2] /\ (3 ∈ it_id <$> items jb2 \/ 3 ∈ [1; 3; 4]) /\
  match JitterBuffer_queue_packet jb2 16 0 200 with Ok (QueueQueued id, jb) => id = 5 /\ id ∈ it_id <$> items jb | _ => False end.
Proof.
  destruct (jitterbuffer_ids_conserved 100 (OpSetFlushing false :: sample_ops) (sample_drain ++ [OpSetFlushing true; OpSetFlushing false])
    [65546; 65547] [0; 2] sample_state [65548; 65550] [1; 3; 4] (JitterBuffer_set_flushing sample_flushed false)) as (H1 & _ & H3 & H4).
  - apply jb_trace_run; [constructor; [exact I|apply sample_stream]|vm_compute; reflexivity].
  - apply jb_trace_run; [by repeat constructor|vm_compute; reflexivity].
  - split; [exact H1|]. split; [apply (H3 3); apply list_elem_of_In; vm_compute; auto|].
    destruct (JitterBuffer_queue_packet _ 16 0 200) as [[r jb]|] eqn:E; [|by vm_compute in E].
    assert (r = QueueQueued 5) as -> by (vm_compute in E; congruence). split; [done|]. by eapply H4.
Defined.

Lemma poll_timeout_exact_witness :
  exists jb, jb_exec_all (jb_start 100) [OpPacket 10 0 0] = Ok ([OutQueue (QueueQueued 0)], jb) /\
    (forall now', now' < 100 -> JitterBuffer_poll jb now' = Ok (PollTimeout 100, jb)).
Proof.
  eexists. split; [vm_compute; reflexivity|].
  eapply (poll_timeout_exact 100 [OpPacket 10 0 0] [OutQueue (QueueQueued 0)] _ 50 100).
  - split_and!; [repeat constructor; cbn; unfold is_u16, is_u64; lia|by repeat constructor|done].
  - vm_compute; reflexivity.
  - vm_compute; reflexivity.
Defined.

Lemma jitterbuffer_no_panic_witness : is_ok (jb_exec_all (jb_start 100) sample_ops) = true.
Proof.
  apply (jitterbuffer_no_panic 100 sample_ops); [lia|apply sample_stream|vm_compute; reflexivity].
Defined.

Lemma jitterbuffer_drains_witness :
  exists jb', jb_run sample_state (replicate 3 (OpPoll 200)) [65548; 65550] [1; 3; 4] jb' /\
    items jb' = [].
Proof.
  apply (jitterbuffer_drains 100 sample_ops
    (match jb_exec_all (jb_start 100) sample_ops with Ok (o, _) => o | Panic => [] end) sample_state 200).
  - apply sample_stream.
  - vm_compute; reflexivity.
  - intros i Hi d Hd. exists 0, 0. split; [reflexivity|].
    apply list_elem_of_In in Hi. vm_compute in Hi. unfold instant_sub, saturating_sub.
    destruct Hi as [<-|[<-|[<-|[]]]]; cbn in Hd; [injection Hd as <-; lia|done|injection Hd as <-; lia].
  - vm_compute; discriminate.
Defined.

Lemma serialized_item_lost_witness :
  exists jb jb', jb_exec_all (jb_start 100) [OpPacket 10 0 0; OpSerialized] =
      Ok ([OutQueue (QueueQueued 0); OutQueue (QueueQueued 1)], jb) /\
    JitterBuffer_queue_serialized_item jb = Ok (QueueQueued 2, jb') /\
    forall ops seqs ids jb2, jb_run jb' ops seqs ids jb2 -> 2 ∉ ids.
Proof.
  destruct (jb_exec_all (jb_start 100) [OpPacket 10 0 0; OpSerialized]) as [[outs jb]|] eqn:E;
    [|vm_compute in E; discriminate].
  assert (Hinv : jb_inv jb).
  { eapply exec_all_inv; [apply (start_inv 100)| |exact E].
    repeat constructor; cbn; unfold is_u16, is_u64; lia. }
  vm_compute in E. injection E as <- <-.
  destruct (serialized_item_lost _ (mkItem 1 None 65546) Hinv) as (jb' & Hq & Hlost).
  - apply list_elem_of_In. vm_compute. auto.
  - reflexivity.
  - reflexivity.
  - reflexivity.
  - eexists _, jb'. split; [reflexivity|]. split; [exact Hq|exact Hlost].
Defined.

Lemma unreachable_reached_witness : jb_exec_all (jb_start 1000000) overfull_stream = Panic.
Proof. apply (unreachable_reached 1000000). lia. Defined.
