(* ===== verification/F64.v ===== *)
(** * Double precision arithmetic

    The [f64] operations of the code, on the binary64 numbers of the
    floating-point specification library, rounding to nearest even, and the
    conversions of the standard library between [f64] and [Duration]. *)

From S2P Require Import Prelude.
From Stdlib Require Export Floats.SpecFloat.

Definition f64_of_u64 (x : Z) : spec_float := binary_normalize 53 1024 x 0 false.
Definition f64_div : spec_float -> spec_float -> spec_float := SFdiv 53 1024.
Definition f64_mul : spec_float -> spec_float -> spec_float := SFmul 53 1024.
Definition f64_add : spec_float -> spec_float -> spec_float := SFadd 53 1024.

(** A decimal literal, the quotient of two integers. *)
Definition f64_literal (n d : Z) : spec_float := f64_div (f64_of_u64 n) (f64_of_u64 d).

(** [Duration::as_secs_f64] *)
Definition duration_as_secs_f64 (d : Z) : spec_float :=
  f64_add (f64_of_u64 (duration_as_secs d))
    (f64_div (f64_of_u64 (duration_subsec_nanos d)) (f64_of_u64 NS_PER_SEC)).

(** The integer nearest to [n / d], ties to even. *)
Definition round_half_even (n d : Z) : Z :=
  let q := n / d in
  match 2 * (n mod d) ?= d with
  | Lt => q
  | Gt => q + 1
  | Eq => if Z.even q then q else q + 1
  end.

(** [Duration::from_secs_f64]: to the nearest nanosecond; negative, too large
    and non-finite values panic. *)
Definition duration_from_secs_f64 (x : spec_float) : res Z :=
  match x with
  | S754_zero _ => Ok 0
  | S754_finite false m e =>
      let ns := if 0 <=? e then Zpos m * 2 ^ e * NS_PER_SEC
                else round_half_even (Zpos m * NS_PER_SEC) (2 ^ (- e)) in
      if ns <=? DURATION_MAX then Ok ns else Panic
  | _ => Panic
  end.

(** [Duration::mul_f64] *)
Definition duration_mul_f64 (d : Z) (rhs : spec_float) : res Z :=
  duration_from_secs_f64 (f64_mul rhs (duration_as_secs_f64 d)).

(** [Duration] times and divided by an integer. *)
Definition duration_mul (d k : Z) : res Z := if d * k <=? DURATION_MAX then Ok (d * k) else Panic.
Definition duration_div (d k : Z) : Z := d / k.
