(* ===== verification/Skew.v ===== *)
(** * Clock skew estimation (net/rtp/src/rtpbin2/sync.rs, [Observations])

    The receiver compares how far the sender's clock and its own have
    advanced since the first packet, keeps a window of the differences, and
    follows their minimum slowly. *)

From S2P Require Import Prelude F64.
From Stdlib Require Import Sorting.Sorted.

(** ** State *)

Record Observations := mkObservations {
  base_local_time : option Z;
  base_remote_time : option Z;
  highest_remote_time : option Z;
  deltas : list Z;                      (* VecDeque<i64> *)
  min_delta : Z;
  skew : Z;
  filling : bool;
  window_size : Z;
}.
#[export] Instance Observations_rebuild : Rebuild Observations :=
  {| rebuild := fun o => mkObservations (base_local_time o) (base_remote_time o) (highest_remote_time o)
    (deltas o) (min_delta o) (skew o) (filling o) (window_size o) |}.
#[export] Instance Observations_eq_dec : EqDecision Observations.
Proof. solve_decision. Defined.

Definition WINDOW_LENGTH : Z := 512.
Definition WINDOW_DURATION : Z := 2000000000.

Definition Observations_default : Observations := {|
  base_local_time := None;
  base_remote_time := None;
  highest_remote_time := None;
  deltas := [];
  min_delta := 0;
  skew := 0;
  filling := true;
  window_size := 0;
|}.

(** ** Operations *)

(** [x as i64] of a [u64], and [x as u64] of a non-negative [i64]. *)
Definition as_i64 (x : Z) : Z := swrap U64 x.

Definition Observations_out_time (self : Observations) (base_local remote_diff : Z)
  : res (Z * bool) :=
  out_time ← u64_add base_local remote_diff;
  out_time ← (if skew self <? 0 then
                n ← i64_chk (- skew self);
                Ok (saturating_sub out_time (wrap U64 n))
              else u64_add out_time (wrap U64 (skew self)));
  Ok (out_time, false).

(** Starting afresh from a pair of times. *)
Definition Observations_init_base (self : Observations) (remote_time local_time : Z) : Observations :=
  self <| base_remote_time := Some remote_time |>
       <| base_local_time := Some local_time |>
       <| highest_remote_time := Some remote_time |>.

(** [(0.8..1.2).contains(&slope)] *)
Definition slope_in_range (local_diff remote_diff : Z) : bool :=
  let slope := f64_div (f64_of_u64 local_diff) (f64_of_u64 remote_diff) in
  SFleb (f64_literal 8 10) slope && SFltb slope (f64_literal 12 10).

(** Whether [delta] is more than a second away from the current skew. *)
Definition delta_too_far (self : Observations) (delta : Z) : res bool :=
  above ← (if delta >? skew self then
             d ← i64_chk (delta - skew self); Ok (d >? 1000000000)
           else Ok false);
  if above : bool then Ok true
  else if delta <? skew self then
    d ← i64_chk (skew self - delta); Ok (d >? 1000000000)
  else Ok false.

Section Process.
Context `{Gst}.

(** The branch of [process] that fills the first window. *)
Definition fill_window (self : Observations) (remote_diff delta : Z) : res Observations :=
let self := match deltas self with
            | [] => self <| min_delta := delta |>
            | _ :: _ => if delta <? min_delta self then self <| min_delta := delta |> else self
            end in
let self := self <| deltas ::= fun ds => ds ++ [delta] |> in
let len := Z.of_nat (length (deltas self)) in
if (remote_diff >? WINDOW_DURATION) || (len =? WINDOW_LENGTH) then
  Ok (self <| window_size := len |> <| skew := min_delta self |> <| filling := false |>)
else
  perc_time ← unwrap (mul_div_floor U64 remote_diff 100 WINDOW_DURATION);
  perc_window ← unwrap (mul_div_floor U64 len 100 WINDOW_LENGTH);
  let perc := Z.max (as_i64 perc_time) (as_i64 perc_window) in
  a ← i64_chk (perc * min_delta self);
  r ← i64_chk (10000 - perc);
  b ← i64_chk (r * skew self);
  s ← i64_chk (a + b);
  Ok (self <| skew := Z.quot s 10000 |>).

(** [self.deltas.iter().copied().min()] *)
Definition iter_min (ds : list Z) : option Z :=
match ds with [] => None | d :: ds => Some (fold_left Z.min ds d) end.

(** The branch of [process] that slides the full window. *)
Definition slide_window (self : Observations) (delta : Z) : res Observations :=
match deltas self with
| [] => Panic
| old :: rest =>
    let self := self <| deltas := rest ++ [delta] |> in
    self ← (if delta <=? min_delta self then Ok (self <| min_delta := delta |>)
            else if old =? min_delta self then
              m ← unwrap (iter_min (deltas self));
              Ok (self <| min_delta := m |>)
            else Ok self);
    b ← i64_chk (124 * skew self);
    s ← i64_chk (min_delta self + b);
    Ok (self <| skew := Z.quot s 125 |>)
end.

Definition Observations_process (self : Observations) (remote_time local_time : Z)
: res (Z * bool * Observations) :=
match base_remote_time self, base_local_time self with
| Some base_remote, Some base_local =>
    highest ← unwrap (highest_remote_time self);
    let remote_diff := saturating_sub remote_time base_remote in
    if remote_time <=? highest then
      '(out, d) ← Observations_out_time self base_local remote_diff;
      Ok (out, d, self)
    else
    let self := self <| highest_remote_time := Some remote_time |> in
    let local_diff := saturating_sub local_time base_local in
    delta ← i64_chk (as_i64 local_diff - as_i64 remote_diff);
    let discont := negb (match deltas self with [] => true | _ => false end) in
    let restarted := Observations_init_base Observations_default remote_time local_time in
    if (remote_diff >? 0) && (local_diff >? 0) && negb (slope_in_range local_diff remote_diff) then
      Ok (local_time, discont, restarted)
    else
    far ← delta_too_far self delta;
    if far : bool then Ok (local_time, discont, restarted)
    else
    self ← (if filling self then fill_window self remote_diff delta
            else slide_window self delta);
    '(out, d) ← Observations_out_time self base_local remote_diff;
    Ok (out, d, self)
| _, _ => Ok (local_time, false, Observations_init_base self remote_time local_time)
end.

End Process.

(** ** Invariant

    Times are bounded by [TIME_MAX], 2^56 ns or more than two years of
    stream; within it no computation overflows. *)
Definition TIME_MAX : Z := 2 ^ 56.
Definition obs_time (t : Z) : Prop := 0 <= t <= TIME_MAX.

(** The bound on the differences while the first window fills: each is
    within a second of a skew that has moved by at most a second per step. *)
Definition delta_bound (o : Observations) : Z :=
  if filling o then Z.of_nat (length (deltas o)) * 1000000000 else TIME_MAX.

Record obs_inv (o : Observations) : Prop := {
  (* the base times are set together *)
  oi_base :
    match base_remote_time o, base_local_time o, highest_remote_time o with
    | Some r, Some l, Some h => obs_time r /\ obs_time l /\ obs_time h /\ r <= h
    | None, None, None => o = Observations_default
    | _, _, _ => False
    end;
  (* the minimum is the minimum of the window *)
  oi_min : deltas o <> [] -> min_delta o ∈ deltas o /\ forall d, d ∈ deltas o -> min_delta o <= d;
  oi_window :
    if filling o then Z.of_nat (length (deltas o)) < WINDOW_LENGTH
    else window_size o = Z.of_nat (length (deltas o)) /\ 1 <= window_size o <= WINDOW_LENGTH;
  oi_skew : Z.abs (skew o) <= delta_bound o;
  oi_deltas : forall d, d ∈ deltas o -> Z.abs d <= delta_bound o;
}.

(** ** Lemmas *)

(** A weighted mean rounded towards zero lies between the two values. *)
Lemma quot_between n w a b :
  0 < n -> 0 <= w <= n -> Z.min a b <= Z.quot (w * a + (n - w) * b) n <= Z.max a b.
Proof.
  intros Hn Hw.
  rewrite <- (Z.quot_mul (Z.min a b) n), <- (Z.quot_mul (Z.max a b) n) by lia.
  split; apply Z.quot_le_mono; nia.
Qed.

Lemma fold_min_spec ds d :
  fold_left Z.min ds d ∈ d :: ds /\ forall x, x ∈ d :: ds -> fold_left Z.min ds d <= x.
Proof.
  revert d. induction ds as [|y ds IH]; intros d; cbn.
  - split; [by left|]. intros x ->%list_elem_of_singleton. lia.
  - destruct (IH (Z.min d y)) as [Hin Hle]. split.
    + apply elem_of_cons in Hin as [Hin|Hin]; [|by do 2 right].
      rewrite Hin. destruct (Z.min_spec d y) as [[_ ->]|[_ ->]]; [by left|by right; left].
    + intros x Hx. pose proof (Hle (Z.min d y) ltac:(by left)).
      apply elem_of_cons in Hx as [->|[->|Hx]%elem_of_cons]; [lia..|]. apply Hle. by right.
Qed.

Lemma as_i64_small x : 0 <= x < I64 -> as_i64 x = x.
Proof. intros. apply swrap_small; [done..|]. change (U64 / 2) with I64. lia. Qed.

Lemma time_max_val : TIME_MAX = 72057594037927936.
Proof. done. Qed.

Lemma init_base_inv r l :
  obs_time r -> obs_time l -> obs_inv (Observations_init_base Observations_default r l).
Proof.
  intros Hr Hl. split; cbn; try done. by intros d ?%elem_of_nil.
Qed.

Lemma default_inv : obs_inv Observations_default.
Proof. split; cbn; try done. intros d ?%elem_of_nil. done. Qed.

Lemma out_time_total o bl rd :
  obs_time bl -> obs_time rd -> Z.abs (skew o) <= TIME_MAX ->
  Observations_out_time o bl rd = Ok (Z.max 0 (bl + rd + skew o), false).
Proof.
  intros Hb Hr Hs. pose proof time_max_val. unfold obs_time in *. unfold Observations_out_time.
  run_chk. destruct (Z.ltb_spec (skew o) 0); cbv iota.
  - run_chk. rewrite wrap_small by lia. unfold saturating_sub. do 2 f_equal. lia.
  - rewrite wrap_small by lia. run_chk. do 2 f_equal. lia.
Qed.

(** What a window update guarantees: the window is one difference richer, or
    slid by one, its minimum is right, and the skew has moved towards it. *)
Definition window_step (o o' : Observations) (delta : Z) : Prop :=
  deltas o' = (if filling o then deltas o else tail (deltas o)) ++ [delta] /\
  (min_delta o' ∈ deltas o' /\ forall d, d ∈ deltas o' -> min_delta o' <= d) /\
  Z.min (skew o) (min_delta o') <= skew o' <= Z.max (skew o) (min_delta o') /\
  (if filling o' then Z.of_nat (length (deltas o')) < WINDOW_LENGTH
   else window_size o' = Z.of_nat (length (deltas o')) /\ 1 <= window_size o' <= WINDOW_LENGTH) /\
  (filling o = false -> filling o' = false) /\
  base_remote_time o' = base_remote_time o /\ base_local_time o' = base_local_time o /\
  highest_remote_time o' = highest_remote_time o.

Section Windows.
Context `{GstLaws}.
Context (o : Observations) (delta : Z).
Context (Hmin : deltas o <> [] -> min_delta o ∈ deltas o /\ forall d, d ∈ deltas o -> min_delta o <= d).
Context (Hskew : Z.abs (skew o) <= delta_bound o).
Context (Hdeltas : forall d, d ∈ deltas o -> Z.abs d <= delta_bound o).

Lemma slide_window_total :
  filling o = false -> window_size o = Z.of_nat (length (deltas o)) -> 1 <= window_size o <= WINDOW_LENGTH ->
  Z.abs delta <= TIME_MAX ->
  exists o', slide_window o delta = Ok o' /\ window_step o o' delta.
Proof using Hmin Hskew Hdeltas.
  intros Hf Hw Hlen Hd. pose proof time_max_val. unfold slide_window, window_step.
  unfold delta_bound in *. rewrite Hf in *.
  destruct (deltas o) as [|old rest] eqn:Hds; [cbn in Hw; lia|].
  destruct (Hmin ltac:(done)) as [Hin Hle].
  assert (Hnew : exists m, (if delta <=? min_delta o then Ok (o <| deltas := rest ++ [delta] |> <| min_delta := delta |>)
    else if old =? min_delta o then
      m ← unwrap (iter_min (rest ++ [delta])); Ok (o <| deltas := rest ++ [delta] |> <| min_delta := m |>)
    else Ok (o <| deltas := rest ++ [delta] |>)) = Ok (o <| deltas := rest ++ [delta] |> <| min_delta := m |>) /\
    m ∈ rest ++ [delta] /\ forall d, d ∈ rest ++ [delta] -> m <= d).
  { destruct (Z.leb_spec delta (min_delta o)).
    - exists delta. split; [done|]. rewrite elem_of_app. split; [right; by left|].
      intros d [Hd'| ->%list_elem_of_singleton]%elem_of_app; [|lia].
      specialize (Hle d ltac:(by right)). lia.
    - destruct (Z.eqb_spec old (min_delta o)) as [|Hne].
      + destruct (rest ++ [delta]) as [|x xs] eqn:E; [by destruct rest|].
        exists (fold_left Z.min xs x). split; [done|]. apply fold_min_spec.
      + exists (min_delta o). split; [done|]. apply elem_of_cons in Hin as [Hin|Hin]; [congruence|].
        rewrite elem_of_app. split; [by left|].
        intros d [Hd'| ->%list_elem_of_singleton]%elem_of_app; [|lia]. apply Hle. by right. }
  destruct Hnew as (m & Hm & Hmin').
  cbn [min_delta deltas modify] in Hm |- *. rewrite Hm, bind_Ok. cbn.
  assert (Hmb : Z.abs m <= TIME_MAX).
  { destruct Hmin' as [[Hm'| ->%list_elem_of_singleton]%elem_of_app _]; [|done].
    apply Hdeltas. by right. }
  run_chk. run_chk. eexists. split; [reflexivity|]. cbn. rewrite Hf.
  pose proof (quot_between 125 1 m (skew o) ltac:(lia) ltac:(lia)) as Hq.
  rewrite Z.mul_1_l in Hq. change (125 - 1) with 124 in Hq.
  rewrite length_app. cbn in Hw |- *. split_and!; try done; try exact (proj1 Hmin'); try exact (proj2 Hmin'); unfold WINDOW_LENGTH in *; lia.
Qed.

Lemma fill_window_total remote_diff :
  filling o = true -> Z.of_nat (length (deltas o)) < WINDOW_LENGTH -> obs_time remote_diff ->
  Z.abs delta <= (Z.of_nat (length (deltas o)) + 1) * 1000000000 ->
  exists o', fill_window o remote_diff delta = Ok o' /\ window_step o o' delta.
Proof using H0 Hmin Hskew Hdeltas.
  intros Hf Hlen Hr Hd. pose proof time_max_val. unfold fill_window, window_step.
  unfold delta_bound, WINDOW_LENGTH, obs_time in *. rewrite Hf in *.
  set (o1 := match deltas o with [] => _ | _ => _ end).
  assert (Ho1 : exists m, o1 = o <| min_delta := m |> /\ m ∈ deltas o ++ [delta] /\
    forall d, d ∈ deltas o ++ [delta] -> m <= d).
  { subst o1. setoid_rewrite elem_of_app. setoid_rewrite list_elem_of_singleton.
    destruct (deltas o) as [|x xs] eqn:E.
    - exists delta. split_and!; [done|by right|]. intros d [?%elem_of_nil| ->]; [done|lia].
    - destruct (Hmin ltac:(done)) as [Hin Hle]. destruct (Z.ltb_spec delta (min_delta o)).
      + exists delta. split_and!; [done|by right|]. intros d [Hx%Hle| ->]; lia.
      + exists (min_delta o). split_and!; [by destruct o|by left|]. intros d [Hx%Hle| ->]; lia. }
  destruct Ho1 as (m & -> & Hmin'). cbn. rewrite length_app. cbn [length].
  assert (Hmb : Z.abs m <= (Z.of_nat (length (deltas o)) + 1) * 1000000000).
  { destruct Hmin' as [[Hm'%Hdeltas| ->%list_elem_of_singleton]%elem_of_app _]; lia. }
  set (n := Z.of_nat (length (deltas o) + 1)).
  assert (Hn : n = Z.of_nat (length (deltas o)) + 1) by lia.
  destruct (Z.gtb_spec remote_diff WINDOW_DURATION) as [Hgt|Hle]; cbn [orb].
  { eexists. split; [reflexivity|]. cbn. rewrite ?Hf, ?length_app. cbn [length]. split_and!; try done; try exact (proj1 Hmin'); try exact (proj2 Hmin'); lia. }
  destruct (Z.eqb_spec n 512).
  { eexists. split; [reflexivity|]. cbn. rewrite ?Hf, ?length_app. cbn [length]. split_and!; try done; try exact (proj1 Hmin'); try exact (proj2 Hmin'); lia. }
  unfold WINDOW_DURATION in *.
  rewrite !mul_div_floor_spec, !fits_small by (Z.div_mod_to_equations; lia).
  cbn [unwrap]. rewrite !bind_Ok.
  rewrite !as_i64_small by (Z.div_mod_to_equations; lia).
  set (perc := Z.max _ _). assert (Hp : 0 <= perc <= 100) by (subst perc; Z.div_mod_to_equations; lia).
  clearbody perc.
  assert (Z.abs (perc * m) <= 100 * 512000000000) by nia.
  assert (Z.abs ((10000 - perc) * skew o) <= 10000 * 512000000000) by nia.
  do 4 run_chk. eexists. split; [reflexivity|]. cbn. rewrite ?Hf.
  pose proof (quot_between 10000 perc m (skew o) ltac:(lia) ltac:(lia)).
  rewrite length_app. cbn [length]. split_and!; try done; try exact (proj1 Hmin'); try exact (proj2 Hmin'); lia.
Qed.
End Windows.

(** What a call of [process] does, in each of its cases. *)
Inductive obs_step (o : Observations) (remote local : Z) : Z -> bool -> Observations -> Prop :=
| OS_restart discont :
    (discont = true -> deltas o <> []) ->
    obs_step o remote local local discont
      (Observations_init_base Observations_default remote local)
| OS_old br bl h :
    base_remote_time o = Some br -> base_local_time o = Some bl -> highest_remote_time o = Some h ->
    remote <= h ->
    obs_step o remote local (Z.max 0 (bl + saturating_sub remote br + skew o)) false o
| OS_update br bl h delta o' :
    base_remote_time o = Some br -> base_local_time o = Some bl -> highest_remote_time o = Some h ->
    h < remote -> delta = saturating_sub local bl - (remote - br) ->
    Z.abs (delta - skew o) <= 1000000000 ->
    window_step (o <| highest_remote_time := Some remote |>) o' delta ->
    obs_step o remote local (Z.max 0 (bl + (remote - br) + skew o')) false o'.

Lemma delta_too_far_spec o delta :
  Z.abs (skew o) <= TIME_MAX -> Z.abs delta <= TIME_MAX ->
  delta_too_far o delta = Ok (1000000000 <? Z.abs (delta - skew o)).
Proof.
  intros Hs Hd. pose proof time_max_val. unfold delta_too_far. rewrite Z.gtb_ltb.
  destruct (Z.ltb_spec (skew o) delta); cbv iota.
  - run_chk. rewrite Z.gtb_ltb. destruct (Z.ltb_spec 1000000000 (delta - skew o)).
    + f_equal. symmetry. apply Z.ltb_lt. lia.
    + destruct (Z.ltb_spec delta (skew o)); [lia|]. f_equal. symmetry. apply Z.ltb_ge. lia.
  - cbn. destruct (Z.ltb_spec delta (skew o)).
    + run_chk. rewrite Z.gtb_ltb. f_equal. f_equal. lia.
    + f_equal. symmetry. apply Z.ltb_ge. lia.
Qed.

Lemma delta_bound_le o : obs_inv o -> delta_bound o <= TIME_MAX.
Proof.
  intros Hinv. pose proof (oi_window _ Hinv) as Hw. unfold delta_bound, WINDOW_LENGTH in *.
  rewrite time_max_val. destruct (filling o); lia.
Qed.

Lemma obs_step_inv o remote local out d o' :
  obs_inv o -> obs_time remote -> obs_time local -> obs_step o remote local out d o' -> obs_inv o'.
Proof.
  intros Hinv Hr Hl Hstep. destruct Hstep as [|br bl h|br bl h delta o' Hbr Hbl Hh Hlt -> Hfar Hwin];
    [by apply init_base_inv|done|].
  pose proof (oi_base _ Hinv) as Hbase. pose proof (delta_bound_le _ Hinv) as Hb.
  pose proof (oi_skew _ Hinv) as Hs. pose proof (oi_deltas _ Hinv) as Hd.
  pose proof (oi_window _ Hinv) as Hw.
  rewrite Hbr, Hbl, Hh in Hbase. destruct Hbase as (Hbr' & Hbl' & Hh' & Hle).
  set (delta := saturating_sub local bl - (remote - br)) in *.
  destruct Hwin as (Hds & Hmin & Hskew & Hwin & Hf & E1 & E2 & E3). cbn in *.
  unfold delta_bound, saturating_sub, obs_time, WINDOW_LENGTH in *. pose proof time_max_val as HT.
  assert (Hdelta : Z.abs delta <= TIME_MAX) by lia.
  assert (Hall : forall x, x ∈ deltas o' -> Z.abs x <=
    if filling o' then Z.of_nat (length (deltas o')) * 1000000000 else TIME_MAX).
  { intros x. rewrite Hds, length_app. cbn. intros [Hx| ->%list_elem_of_singleton]%elem_of_app.
    - assert (Hx' : x ∈ deltas o).
      { destruct (filling o); [done|]. destruct (deltas o); [by apply elem_of_nil in Hx|by right]. }
      apply Hd in Hx'. destruct (filling o), (filling o'); first [lia|discriminate (Hf eq_refl)].
    - destruct (filling o), (filling o'); first [lia|discriminate (Hf eq_refl)]. }
  split.
  - rewrite E1, E2, E3, Hbr, Hbl. unfold obs_time. lia.
  - intros _. exact Hmin.
  - exact Hwin.
  - unfold delta_bound. destruct Hmin as [Hmin%Hall _].
    rewrite Hds, length_app in *. cbn in *. destruct (filling o), (filling o'); first [lia|discriminate (Hf eq_refl)].
  - exact Hall.
Qed.

Section ProcessTotal.
Context `{GstLaws}.

Lemma process_total o remote local :
  obs_inv o -> obs_time remote -> obs_time local ->
  exists out d o', Observations_process o remote local = Ok (out, d, o') /\
    obs_step o remote local out d o'.
Proof using H0.
  intros Hinv Hr Hl. pose proof (oi_base _ Hinv) as Hbase. pose proof (delta_bound_le _ Hinv) as Hb.
  pose proof Hinv as [_ Hmin Hw Hs Hd]. pose proof time_max_val as HT. unfold Observations_process.
  destruct (base_remote_time o) as [br|] eqn:Hbr, (base_local_time o) as [bl|] eqn:Hbl,
    (highest_remote_time o) as [h|] eqn:Hh; try done.
  2: { rewrite Hbase. eexists _, _, _. split; [reflexivity|]. by apply OS_restart. }
  destruct Hbase as (Hbr' & Hbl' & Hh' & Hle). cbn [unwrap]. rewrite bind_Ok.
  assert (Hrd : obs_time (saturating_sub remote br)) by (unfold obs_time, saturating_sub in *; lia).
  destruct (Z.leb_spec remote h) as [Hold|Hnew].
  { rewrite out_time_total by (done || lia). eexists _, _, _. split; [reflexivity|]. exact (OS_old o remote local br bl h Hbr Hbl Hh Hold). }
  replace (saturating_sub remote br) with (remote - br) in * by (unfold saturating_sub; lia).
  assert (Hld : obs_time (saturating_sub local bl)) by (unfold obs_time, saturating_sub in *; lia).
  unfold obs_time in Hrd, Hld. rewrite !as_i64_small by lia. run_chk.
  set (delta := saturating_sub local bl - (remote - br)) in *.
  set (discont := negb (match deltas _ with [] => true | _ => false end)).
  assert (Hdisc : discont = true -> deltas o <> []) by (subst discont; cbn; by destruct (deltas o)).
  destruct (_ && _ && _).
  { eexists _, _, _. split; [reflexivity|]. by apply OS_restart. }
  rewrite delta_too_far_spec by (cbn; lia). rewrite bind_Ok. cbn [skew modify].
  destruct (Z.ltb_spec 1000000000 (Z.abs (delta - skew o))) as [|Hfar].
  { eexists _, _, _. split; [reflexivity|]. by apply OS_restart. }
  set (o1 := o <| highest_remote_time := Some remote |>).
  assert (Hwin : exists o', (if filling o then fill_window o1 (remote - br) delta
    else slide_window o1 delta) = Ok o' /\ window_step o1 o' delta).
  { unfold delta_bound in *. destruct (filling o) eqn:Hf.
    - eapply (fill_window_total o1 delta); cbn; unfold delta_bound; cbn; rewrite ?Hf;
        unfold obs_time; done || lia.
    - destruct Hw. eapply (slide_window_total o1 delta); cbn; unfold delta_bound; cbn; rewrite ?Hf;
        done || lia. }
  destruct Hwin as (o' & Ho' & Hst). change (filling o1) with (filling o). rewrite Ho', bind_Ok.
  assert (Hstep : obs_step o remote local (Z.max 0 (bl + (remote - br) + skew o')) false o')
    by (exact (OS_update o remote local br bl h delta o' Hbr Hbl Hh Hnew eq_refl Hfar Hst)).
  pose proof (obs_step_inv _ _ _ _ _ _ Hinv Hr Hl Hstep) as Hinv'.
  pose proof (delta_bound_le _ Hinv'). pose proof (oi_skew _ Hinv').
  rewrite out_time_total by (done || unfold obs_time; lia). eauto.
Qed.
End ProcessTotal.

(** ** Runs *)

Section Runs.
Context `{GstLaws}.

(** A stream of packets, each with its remote and local time. *)
Fixpoint obs_run (o : Observations) (xs : list (Z * Z)) : res (list (Z * bool) * Observations) :=
match xs with
| [] => Ok ([], o)
| (remote, local) :: xs =>
    '(out, d, o) ← Observations_process o remote local;
    '(outs, o) ← obs_run o xs;
    Ok ((out, d) :: outs, o)
end.

Definition sample_time (x : Z * Z) : Prop := obs_time (fst x) /\ obs_time (snd x).

Lemma obs_run_total o xs :
obs_inv o -> Forall sample_time xs -> exists outs o', obs_run o xs = Ok (outs, o') /\ obs_inv o'.
Proof using H0.
intros Hinv Hxs. revert o Hinv. induction Hxs as [|[r l] xs [Hr Hl] Hxs IH]; intros o Hinv; cbn.
{ eauto. }
destruct (process_total o r l Hinv Hr Hl) as (out & d & o1 & -> & Hstep). rewrite bind_Ok.
destruct (IH o1) as (outs & o' & -> & Hinv'); [exact (obs_step_inv _ _ _ _ _ _ Hinv Hr Hl Hstep)|]. cbn. eauto.
Qed.

(** Clocks that run alike, [c] apart: the skew stays zero. *)
Record ideal (c : Z) (o : Observations) : Prop := {
id_base : forall br bl, base_remote_time o = Some br -> base_local_time o = Some bl -> bl = br + c;
id_skew : skew o = 0;
id_deltas : forall d, d ∈ deltas o -> d = 0;
}.

Lemma ideal_step c o r out d o' :
obs_inv o -> ideal c o -> (forall h, highest_remote_time o = Some h -> h <= r) ->
obs_step o r (r + c) out d o' ->
ideal c o' /\ highest_remote_time o' = Some r.
Proof using.
intros Hinv [Hb Hs Hd] Hh Hstep. destruct Hstep as [|br bl h Hbr Hbl Hhh Hle|br bl h delta o' Hbr Hbl Hhh Hlt Hdelta Hfar Hwin].
- split; [|done]. split; cbn; [|done|by intros x ?%elem_of_nil]. intros br bl [= <-] [= <-]. done.
- split; [by split|]. specialize (Hh h Hhh). rewrite Hhh. f_equal. lia.
- pose proof (oi_base _ Hinv) as Hbase. rewrite Hbr, Hbl, Hhh in Hbase.
  destruct Hbase as (_ & _ & _ & Hle). specialize (Hb br bl Hbr Hbl).
  destruct Hwin as (Hds & [Hmin _] & Hskew & _ & _ & E1 & E2 & E3). cbn in *.
  assert (Hzero : delta = 0) by (unfold saturating_sub in Hdelta; lia).
  assert (Hall : forall x, x ∈ deltas o' -> x = 0).
  { intros x. rewrite Hds. intros [Hx| ->%list_elem_of_singleton]%elem_of_app; [|done].
    apply Hd. destruct (filling o); [done|]. destruct (deltas o); [by apply elem_of_nil in Hx|by right]. }
  split; [|done]. split; [|rewrite (Hall _ Hmin) in Hskew; lia|done].
  rewrite E1, E2. intros ? ? ? ?. simplify_eq. lia.
Qed.

Lemma ideal_out c o r out d o' :
obs_inv o -> ideal c o -> 0 <= r + c -> (forall h, highest_remote_time o = Some h -> h <= r) ->
obs_step o r (r + c) out d o' -> ideal c o' -> out = r + c.
Proof using.
intros Hinv [Hb Hs _] Hpos Hh Hstep [_ Hs' _]. pose proof (oi_base _ Hinv) as Hbase.
destruct Hstep as [|br bl h Hbr Hbl Hhh Hle|br bl h delta o' Hbr Hbl Hhh Hlt Hdelta Hfar Hwin];
  [done|..]; specialize (Hb br bl Hbr Hbl); rewrite Hbr, Hbl, Hhh in Hbase;
  destruct Hbase as (_ & _ & _ & Hle'); specialize (Hh h Hhh); unfold saturating_sub; lia.
Qed.

Lemma ideal_run c o rs :
obs_inv o -> ideal c o -> Forall sample_time ((fun r => (r, r + c)) <$> rs) ->
StronglySorted Z.le rs -> (forall h r, highest_remote_time o = Some h -> r ∈ rs -> h <= r) ->
exists outs o', obs_run o ((fun r => (r, r + c)) <$> rs) = Ok (outs, o') /\
  outs.*1 = (fun r => r + c) <$> rs.
Proof using H0.
intros Hinv Hid Hxs Hsort. revert o Hinv Hid Hxs.
induction Hsort as [|r rs Hsort IH Hall]; intros o Hinv Hid Hxs Hh; cbn; [eauto|].
apply Forall_cons in Hxs as [[Hr Hl] Hxs]. cbn in Hr, Hl.
destruct (process_total o r (r + c) Hinv Hr Hl) as (out & d & o1 & -> & Hstep). rewrite bind_Ok.
assert (Hh1 : forall h, highest_remote_time o = Some h -> h <= r).
{ intros h Hh'. apply (Hh h r Hh'). by left. }
destruct (ideal_step c o r out d o1 Hinv Hid Hh1 Hstep) as [Hid1 Hhr].
pose proof (ideal_out c o r out d o1 Hinv Hid (proj1 Hl) Hh1 Hstep Hid1) as ->.
destruct (IH o1) as (outs & o' & Hrun & Houts); [|done..| |].
- exact (obs_step_inv _ _ _ _ _ _ Hinv Hr Hl Hstep).
- rewrite Hhr. intros h r' [= <-] Hr'. by apply (proj1 (Forall_forall _ _) Hall).
- rewrite Hrun. cbn. eexists _, _. split; [reflexivity|]. cbn. by rewrite Houts.
Qed.
End Runs.

(** ** Properties *)

(** No stream of packets whose times stay below 2^56 ns makes the
    estimator panic or overflow, and after it the window holds at most 512
    differences, [min_delta] is their minimum, and the skew is bounded by
    theirs. *)
Lemma observations_no_panic `{GstLaws} xs :
  Forall sample_time xs ->
  exists outs o', obs_run Observations_default xs = Ok (outs, o') /\ obs_inv o'.
Proof. intros Hxs. apply obs_run_total; [apply default_inv|done]. Qed.

(** One call of [process], in every case: it restarts from the current
    pair of times and answers the local time; or the packet is not newer than
    the newest, nothing changes and it is mapped with the current skew; or the
    difference is within a second of the skew, the window takes it, and the
    skew moves to a value between the old one and the new minimum. *)
Lemma observations_process_spec `{GstLaws} o remote local :
  obs_inv o -> obs_time remote -> obs_time local ->
  exists out d o', Observations_process o remote local = Ok (out, d, o') /\
    obs_step o remote local out d o' /\ obs_inv o'.
Proof.
  intros Hinv Hr Hl. destruct (process_total o remote local Hinv Hr Hl) as (out & d & o' & Hp & Hs).
  exists out, d, o'. split_and!; [done..|]. exact (obs_step_inv _ _ _ _ _ _ Hinv Hr Hl Hs).
Qed.

(** When the two clocks run alike and packets arrive in order, however
    far apart, every packet is given its own arrival time. *)
Lemma observations_ideal_clocks `{GstLaws} c rs :
  Forall sample_time ((fun r => (r, r + c)) <$> rs) -> StronglySorted Z.le rs ->
  exists outs o', obs_run Observations_default ((fun r => (r, r + c)) <$> rs) = Ok (outs, o') /\
    outs.*1 = (fun r => r + c) <$> rs.
Proof.
  intros Hxs Hsort. apply ideal_run; [apply default_inv|split; cbn; try done; by intros d ?%elem_of_nil|done..].
Qed.

(** ** Witnesses *)

Definition sample_samples : list (Z * Z) :=
  [(1000, 5000); (20001000, 20005500); (40001000, 40003000); (60000000, 1); (90000000000, 90000005000)].

Lemma observations_no_panic_witness :
  exists outs o', @obs_run gst_exact Observations_default sample_samples = Ok (outs, o') /\ obs_inv o'.
Proof.
  apply (@observations_no_panic gst_exact gst_exact_laws).
  repeat constructor; cbn; vm_compute; discriminate.
Defined.

Lemma observations_process_spec_witness :
  exists out d o', @Observations_process gst_exact (Observations_init_base Observations_default 1000 5000)
      20001000 20005500 = Ok (out, d, o') /\ obs_inv o'.
Proof.
  destruct (@observations_process_spec gst_exact gst_exact_laws
    (Observations_init_base Observations_default 1000 5000) 20001000 20005500) as (out & d & o' & H1 & _ & H2).
  - apply init_base_inv; split; vm_compute; discriminate.
  - split; vm_compute; discriminate.
  - split; vm_compute; discriminate.
  - exists out, d, o'. exact (conj H1 H2).
Defined.

Lemma observations_ideal_clocks_witness :
  exists outs o', @obs_run gst_exact Observations_default
      [(1000, 8000); (21000, 28000); (900021000, 900028000)] = Ok (outs, o') /\
    outs.*1 = [8000; 28000; 900028000].
Proof.
  apply (@observations_ideal_clocks gst_exact gst_exact_laws 7000 [1000; 21000; 900021000]).
  - repeat constructor; cbn; vm_compute; discriminate.
  - repeat constructor; lia.
Defined.
