(* ===== verification/Sync.v ===== *)
(** * Synchronisation context (net/rtp/src/rtpbin2/sync.rs)

    Presentation times of the packets of one session: each SSRC extends its
    RTP timestamps, optionally follows the clock skew, and the SSRCs that
    share a CNAME are delayed to play together once each has a sender report. *)

From S2P Require Import Prelude Utils Time Skew.

(** ** State *)

Record Ssrc := mkSsrc {
  cname : option string;
  clock_rate : option Z;
  extended_timestamp : ExtendedTimestamp;
  last_sr_ntp_timestamp : option NtpTime;
  last_sr_rtp_ext : option Z;
  ssrc_base_times : option (Z * Z * Z);   (* arrival, RTP timestamp (extended, ns), PTS *)
  current_delay : option Z;
  observations : Observations;
}.
#[export] Instance Ssrc_rebuild : Rebuild Ssrc :=
  {| rebuild := fun s => mkSsrc (cname s) (clock_rate s) (extended_timestamp s) (last_sr_ntp_timestamp s)
    (last_sr_rtp_ext s) (ssrc_base_times s) (current_delay s) (observations s) |}.

Record CnameLargestDelay := mkCnameLargestDelay {
  largest_delay : Z;
  all_sync : bool;
}.
#[export] Instance CnameLargestDelay_rebuild : Rebuild CnameLargestDelay :=
  {| rebuild := fun c => mkCnameLargestDelay (largest_delay c) (all_sync c) |}.

Inductive TimestampingMode := Arrival | Rtp | Skew.
#[export] Instance TimestampingMode_eq_dec : EqDecision TimestampingMode.
Proof. solve_decision. Defined.

Record Context := mkContext {
  ssrcs : gmap Z Ssrc;
  mode : TimestampingMode;
  cnames_to_ssrcs : gmap string (list Z);
  cname_to_largest_delays : gmap string CnameLargestDelay;
}.
#[export] Instance Context_rebuild : Rebuild Context :=
  {| rebuild := fun c => mkContext (ssrcs c) (mode c) (cnames_to_ssrcs c) (cname_to_largest_delays c) |}.

(** ** Operations of an SSRC *)

Definition Ssrc_new (clock_rate : option Z) : Ssrc := {|
  cname := None;
  clock_rate := clock_rate;
  extended_timestamp := ExtendedTimestamp_default;
  last_sr_ntp_timestamp := None;
  last_sr_rtp_ext := None;
  ssrc_base_times := None;
  current_delay := None;
  observations := Observations_default;
|}.

Definition Ssrc_reset_times (self : Ssrc) : Ssrc :=
  self <| extended_timestamp := ExtendedTimestamp_default |>
       <| last_sr_ntp_timestamp := None |>
       <| last_sr_rtp_ext := None |>
       <| ssrc_base_times := None |>
       <| current_delay := None |>
       <| observations := Observations_default |>.

Definition Ssrc_set_clock_rate (self : Ssrc) (rate : Z) : bool * Ssrc :=
  if decide (Some rate = clock_rate self) then (false, self)
  else (true, Ssrc_reset_times (self <| clock_rate := Some rate |>)).

Definition Ssrc_add_sender_report (self : Ssrc) (rtp_timestamp ntp_timestamp : Z) : res Ssrc :=
  '(ext, et) ← ExtendedTimestamp_next (extended_timestamp self) rtp_timestamp;
  Ok (self <| extended_timestamp := et |>
           <| last_sr_rtp_ext := Some ext |>
           <| last_sr_ntp_timestamp := Some (mkNtpTime ntp_timestamp) |>
           <| current_delay := None |>).

(** ** Operations of the context *)

Definition Context_new (mode : TimestampingMode) : Context := {|
  ssrcs := ∅; mode := mode; cnames_to_ssrcs := ∅; cname_to_largest_delays := ∅;
|}.

(** [if let Some(ref cname) = ssrc.cname { self.cname_to_largest_delays.remove(cname); }] *)
Definition forget_delay (self : Context) (cname : option string) : Context :=
  match cname with
  | Some c => self <| cname_to_largest_delays ::= delete c |>
  | None => self
  end.

Definition Context_set_clock_rate (self : Context) (ssrc_val rate : Z) : Context :=
  match ssrcs self !! ssrc_val with
  | Some ssrc =>
      let '(changed, ssrc) := Ssrc_set_clock_rate ssrc rate in
      let self := self <| ssrcs ::= insert ssrc_val ssrc |> in
      if changed : bool then forget_delay self (cname ssrc) else self
  | None => self <| ssrcs ::= insert ssrc_val (Ssrc_new (Some rate)) |>
  end.

Definition Context_has_clock_rate (self : Context) (ssrc_val : Z) : bool :=
  match ssrcs self !! ssrc_val with
  | Some ssrc => match clock_rate ssrc with Some _ => true | None => false end
  | None => false
  end.

Definition Context_disassociate (self : Context) (ssrc_val : Z) (cname : string) : Context :=
  let self := self <| cname_to_largest_delays ::= delete cname |> in
  match cnames_to_ssrcs self !! cname with
  | Some l => self <| cnames_to_ssrcs ::= insert cname (base.filter (fun o => o <> ssrc_val) l) |>
  | None => self
  end.

Definition Context_remove_ssrc (self : Context) (ssrc_val : Z) : Context :=
  match ssrcs self !! ssrc_val with
  | Some ssrc =>
      let self := self <| ssrcs ::= delete ssrc_val |> in
      match cname ssrc with
      | Some c => Context_disassociate self ssrc_val c
      | None => self
      end
  | None => self
  end.

(** [entry(ssrc_val).or_insert_with(|| Ssrc::new(None))] *)
Definition ssrc_entry (self : Context) (ssrc_val : Z) : Ssrc :=
  default (Ssrc_new None) (ssrcs self !! ssrc_val).

Definition Context_associate (self : Context) (ssrc_val : Z) (c : string) : Context :=
  let ssrc := ssrc_entry self ssrc_val in
  let self := self <| ssrcs ::= insert ssrc_val ssrc |> in
  if decide (cname ssrc = Some c) then self
  else
    let self := self <| ssrcs ::= insert ssrc_val (ssrc <| cname := Some c |>) |> in
    let self := match cname ssrc with
                | Some _ => Context_disassociate self ssrc_val c
                | None => self
                end in
    let l := default [] (cnames_to_ssrcs self !! c) in
    self <| cnames_to_ssrcs ::= insert c (l ++ [ssrc_val]) |>
         <| cname_to_largest_delays ::= delete c |>.

Definition Context_add_sender_report (self : Context) (ssrc_val rtp_timestamp ntp_timestamp : Z)
  : res Context :=
  ssrc ← Ssrc_add_sender_report (ssrc_entry self ssrc_val) rtp_timestamp ntp_timestamp;
  Ok (self <| ssrcs ::= insert ssrc_val ssrc |>).

Section CalculatePts.
Context `{Gst} (current_time : Z).

(** The time a packet is mapped to before any offset, by the mode. *)
Definition ssrc_pts (mode : TimestampingMode) (ssrc : Ssrc) (rtp_ext_ns arrival_time : Z)
: res (Z * bool * Ssrc) :=
match mode with
| Skew =>
    '(skew_corrected, discont, obs) ← Observations_process (observations ssrc) rtp_ext_ns arrival_time;
    let ssrc := ssrc <| observations := obs |> in
    Ok (skew_corrected, discont, if discont : bool then Ssrc_reset_times ssrc else ssrc)
| Rtp => Ok (rtp_ext_ns, false, ssrc)
| Arrival => Ok (arrival_time, false, ssrc)
end.

(** The NTP time, in nanoseconds, [range] after (or before) a sender report. *)
Definition sr_base_ntp (last_sr_ntp : NtpTime) (base_rtp_ext_ns last_sr_rtp_ext_ns : Z) : res (option Z) :=
dur ← NtpTime_as_duration current_time last_sr_ntp;
if base_rtp_ext_ns >? last_sr_rtp_ext_ns then
  Ok (checked_u64 (wrap U64 dur + (base_rtp_ext_ns - last_sr_rtp_ext_ns)))
else
  Ok (checked_u64 (wrap U64 dur - (last_sr_rtp_ext_ns - base_rtp_ext_ns))).

(** The delay of a new sender report: how the first packet's NTP time relates
  to its arrival. [None] when the mapping is invalid. *)
Definition sr_current_delay (base_arrival_time base_ntp_time : Z) : res Z :=
if base_ntp_time <? base_arrival_time then
  i64_chk (as_i64 base_arrival_time - as_i64 base_ntp_time)
else
  d ← i64_chk (as_i64 base_ntp_time - as_i64 base_arrival_time);
  i64_chk (- d).

(** The NTP time of the packet. *)
Definition sr_ntp_time (last_sr_ntp : NtpTime) (rtp_ext_ns last_sr_rtp_ext_ns : Z) : res (option NtpTime) :=
dur ← NtpTime_as_duration current_time last_sr_ntp;
let d := if rtp_ext_ns >? last_sr_rtp_ext_ns then
           let d := dur + (rtp_ext_ns - last_sr_rtp_ext_ns) in
           if d <=? DURATION_MAX then Some d else None
         else
           let d := dur - (last_sr_rtp_ext_ns - rtp_ext_ns) in
           if 0 <=? d then Some d else None in
match d with
| Some d => t ← NtpTime_from_duration d; Ok (Some t)
| None => Ok None
end.

(** The part of [calculate_pts] that uses the last sender report: a delay for
  this SSRC where it has none yet, and the packet's NTP time. *)
Definition ssrc_apply_sr (self : Context) (ssrc : Ssrc) (rate rtp_ext_ns base_arrival base_rtp_ext_ns : Z)
: res (option NtpTime * Ssrc * Context) :=
match last_sr_ntp_timestamp ssrc, last_sr_rtp_ext ssrc with
| Some last_sr_ntp, Some last_sr_rtp =>
    last_sr_rtp_ext_ns ← unwrap (mul_div_round U64 last_sr_rtp SECOND rate);
    '(ssrc, self) ←
      match current_delay ssrc with
      | Some _ => Ok (ssrc, self)
      | None =>
          base_ntp ← sr_base_ntp last_sr_ntp base_rtp_ext_ns last_sr_rtp_ext_ns;
          match base_ntp with
          | Some base_ntp_time =>
              d ← sr_current_delay base_arrival base_ntp_time;
              Ok (ssrc <| current_delay := Some d |>, forget_delay self (cname ssrc))
          | None =>
              Ok (ssrc <| last_sr_ntp_timestamp := None |> <| last_sr_rtp_ext := None |>, self)
          end
      end;
    ntp_time ← sr_ntp_time last_sr_ntp rtp_ext_ns last_sr_rtp_ext_ns;
    Ok (ntp_time, ssrc, self)
| _, _ => Ok (None, ssrc, self)
end.

(** The search for the largest delay of a CNAME. *)
Definition search_largest_delay (self : Context) (c : string) : res CnameLargestDelay :=
ssrc_vals ← unwrap (cnames_to_ssrcs self !! c);
res_fold (fun acc v =>
    ssrc ← unwrap (ssrcs self !! v);
    match current_delay ssrc with
    | Some delay => Ok (if delay >? largest_delay acc then acc <| largest_delay := delay |> else acc)
    | None => Ok (acc <| all_sync := false |>)
    end)
  (mkCnameLargestDelay (- I64) true) ssrc_vals.

(** Delaying the packet to the SSRC of its CNAME that is the latest. *)
Definition cname_offset (self : Context) (ssrc : Ssrc) (pts : Z) : res (Z * Context) :=
match cname ssrc with
| Some c =>
    '(largest, self) ←
      match cname_to_largest_delays self !! c with
      | Some l => Ok (l, self)
      | None =>
          l ← search_largest_delay self c;
          Ok (l, self <| cname_to_largest_delays ::= insert c l |>)
      end;
    if all_sync largest then
      delay ← unwrap (current_delay ssrc);
      offset ← i64_chk (largest_delay largest - delay);
      pts ← u64_add pts (wrap U64 offset);
      Ok (pts, self)
    else Ok (pts, self)
| None => Ok (pts, self)
end.

Definition Context_calculate_pts (self : Context) (ssrc_val rtp_timestamp arrival_time : Z)
: res (Z * option NtpTime * Context) :=
ssrc ← unwrap (ssrcs self !! ssrc_val);
rate ← unwrap (clock_rate ssrc);
'(ext, et) ← ExtendedTimestamp_next (extended_timestamp ssrc) rtp_timestamp;
let ssrc := ssrc <| extended_timestamp := et |> in
rtp_ext_ns ← unwrap (mul_div_round U64 ext SECOND rate);
'(pts, discont, ssrc) ← ssrc_pts (mode self) ssrc rtp_ext_ns arrival_time;
let self := if discont : bool then forget_delay self (cname ssrc) else self in
let '(base_arrival_time, base_rtp_ext_ns, base_pts) :=
  default (arrival_time, rtp_ext_ns, pts) (ssrc_base_times ssrc) in
let ssrc := ssrc <| ssrc_base_times := Some (base_arrival_time, base_rtp_ext_ns, base_pts) |> in
pts ← u64_add pts base_arrival_time;
let pts := saturating_sub pts base_pts in
'(ntp_time, ssrc, self) ← ssrc_apply_sr self ssrc rate rtp_ext_ns base_arrival_time base_rtp_ext_ns;
let self := self <| ssrcs ::= insert ssrc_val ssrc |> in
'(pts, self) ← cname_offset self ssrc pts;
Ok (pts, ntp_time, self).

End CalculatePts.
