(* ===== verification/SyncRun.v ===== *)
(** * The synchronisation context over any sequence of calls

    No call panics and the tables stay consistent, as long as an SSRC keeps
    its CNAME; streams of one CNAME are aligned; and what goes wrong when an
    SSRC changes its CNAME. *)

From S2P Require Import Prelude Utils Time Skew Sync.

(** ** Invariants *)

(** Delays: arrival times are small, NTP times are those of 2006 to 2116 give
    or take half an era, so delays are negative and their differences fit. *)
Definition delay_ok (d : Z) : Prop := - 9100000000000000000 <= d <= - 1000000000000000000.

(** An extended timestamp that stays within 2^55 ns at its clock rate. *)
Definition rtp_fits (rate : option Z) (ext : Z) : Prop :=
  0 <= ext <= 2 ^ 62 /\ forall r, rate = Some r -> ext * SECOND <= r * 2 ^ 55.

Record ssrc_inv (s : Ssrc) : Prop := {
  si_ext : ext_wf 32 (ts_last_ext (extended_timestamp s));
  si_rate : forall r, clock_rate s = Some r -> 256 <= r < U32;
  si_sr : forall e, last_sr_rtp_ext s = Some e -> rtp_fits (clock_rate s) e;
  si_ntp : forall t, last_sr_ntp_timestamp s = Some t -> is_u64 (ntp_val t);
  si_both : is_Some (last_sr_rtp_ext s) <-> is_Some (last_sr_ntp_timestamp s);
  si_obs : obs_inv (observations s);
  si_base : forall a r p, ssrc_base_times s = Some (a, r, p) ->
    obs_time a /\ obs_time r /\ 0 <= p <= 3 * TIME_MAX;
  si_delay : forall d, current_delay s = Some d -> delay_ok d;
}.

(** The next timestamp still fits: the stream is not longer than 2^55 ns. *)
Definition rtp_room (s : Ssrc) : Prop :=
  forall l, ts_last_ext (extended_timestamp s) = Some l -> rtp_fits (clock_rate s) (l + U32).

(** What a cached largest delay says of an SSRC of its CNAME. *)
Definition delay_below (s : Ssrc) (largest : Z) : Prop :=
  match current_delay s with
  | Some d => d <= largest
  | None => is_Some (last_sr_rtp_ext s)
  end.

Record ctx_inv (c : Sync.Context) : Prop := {
  ci_ssrc : forall v s, ssrcs c !! v = Some s -> ssrc_inv s;
  ci_listed : forall v s n, ssrcs c !! v = Some s -> cname s = Some n ->
    exists l, cnames_to_ssrcs c !! n = Some l /\ v ∈ l;
  ci_only : forall n l v, cnames_to_ssrcs c !! n = Some l -> v ∈ l ->
    exists s, ssrcs c !! v = Some s /\ cname s = Some n;
  ci_cache : forall n k, cname_to_largest_delays c !! n = Some k -> all_sync k = true ->
    delay_ok (largest_delay k) /\
    forall v s, ssrcs c !! v = Some s -> cname s = Some n -> delay_below s (largest_delay k);
}.

(** ** Small lemmas *)

Lemma SECOND_val : SECOND = 1000000000.
Proof. done. Qed.

Lemma pow55 : 2 ^ 55 = 36028797018963968.
Proof. done. Qed.

Lemma pow62 : 2 ^ 62 = 4611686018427387904.
Proof. done. Qed.

Lemma new_ssrc_inv rate :
  (forall r, rate = Some r -> 256 <= r < U32) -> ssrc_inv (Ssrc_new rate).
Proof. intros Hr. split; cbn; try done. apply default_inv. Qed.

Lemma reset_times_inv s : ssrc_inv s -> ssrc_inv (Ssrc_reset_times s).
Proof. intros Hs. split; cbn; try done; [apply (si_rate _ Hs)|apply default_inv]. Qed.

(** A stored timestamp and any next one. *)
Lemma next_fits s x :
  ssrc_inv s -> rtp_room s -> is_u32 x ->
  exists ext et, ExtendedTimestamp_next (extended_timestamp s) x = Ok (ext, et) /\
    rtp_fits (clock_rate s) ext /\ ext_wf 32 (ts_last_ext et) /\
    (forall l, ts_last_ext et = Some l -> rtp_fits (clock_rate s) l).
Proof.
  intros Hs Hroom Hx. pose proof (si_ext _ Hs) as Hwf. pose proof (si_rate _ Hs) as Hrate.
  unfold rtp_room in Hroom. destruct (extended_timestamp s) as [[l|]]; unfold ExtendedTimestamp_next;
    cbn [ts_last_ext ext_wf] in *.
  - destruct (Hroom l eq_refl) as [Hl Hlr]. pose proof pow62.
    destruct (extend_next_cases 32 ltac:(lia) l x) as (e & -> & _ & Hp & Hd); [done|lia|done|].
    change (2 ^ (32 - 1)) with 2147483648 in Hd. rewrite bind_Ok. eexists e, _. split; [reflexivity|].
    assert (Hfit : forall y, 0 <= y <= l + U32 -> rtp_fits (clock_rate s) y).
    { intros y Hy. split; [lia|]. intros r Hr. specialize (Hlr r Hr). unfold SECOND in *. lia. }
    split_and!; [apply Hfit; lia|by apply (counter_spec_wf 32)|].
    cbn. intros l' [= <-]. apply Hfit. unfold counter_spec. zcase; lia.
  - rewrite extend_next_first by (done || lia). rewrite bind_Ok. change (2 ^ 32) with U32.
    unfold is_u32 in Hx.
    assert (Hfit : rtp_fits (clock_rate s) (U32 + x)).
    { split; [rewrite pow62; lia|]. intros r Hr%Hrate. rewrite pow55. unfold SECOND. lia. }
    eexists _, _. split; [reflexivity|]. cbn. split_and!; [done|lia|]. by intros l [= <-].
Qed.

(** *** Updating the tables *)

(** An SSRC that keeps its CNAME is updated; cached delays may be forgotten,
    and those kept still hold of it. *)
Lemma update_inv c c' v s' :
  ctx_inv c -> ssrc_inv s' ->
  ssrcs c' = <[v := s']> (ssrcs c) -> cnames_to_ssrcs c' = cnames_to_ssrcs c ->
  (forall n k, cname_to_largest_delays c' !! n = Some k -> cname_to_largest_delays c !! n = Some k) ->
  (match ssrcs c !! v with Some s => cname s' = cname s | None => cname s' = None end) ->
  (forall n k s, ssrcs c !! v = Some s -> cname s = Some n -> cname_to_largest_delays c' !! n = Some k ->
     all_sync k = true -> delay_below s (largest_delay k) -> delay_below s' (largest_delay k)) ->
  ctx_inv c'.
Proof.
  intros [H1 H2 H3 H4] Hs' Es Ec Hd Hn Hb. split; rewrite ?Es, ?Ec.
  - intros u s [[<- <-]|[Hne Hu]]%lookup_insert_Some; eauto.
  - intros u s n [[<- <-]|[Hne Hu]]%lookup_insert_Some Hc; [|eauto].
    destruct (ssrcs c !! v) as [s0|] eqn:E; [|congruence]. rewrite Hn in Hc. eauto.
  - intros n l u Hl Hu. destruct (H3 n l u Hl Hu) as (s & Hs & Hc).
    destruct (decide (u = v)) as [->|Hne].
    + rewrite Hs in Hn. exists s'. rewrite lookup_insert_eq. split; [done|congruence].
    + exists s. by rewrite lookup_insert_ne.
  - intros n k Hk E. destruct (H4 n k (Hd n k Hk) E) as [Hok Hall]. split; [done|].
    intros u s [[<- <-]|[Hne Hu]]%lookup_insert_Some Hc; [|eauto].
    destruct (ssrcs c !! v) as [s0|] eqn:E0; [|congruence]. rewrite Hn in Hc. eauto.
Qed.

Lemma forget_delay_spec c n :
  ssrcs (forget_delay c n) = ssrcs c /\ cnames_to_ssrcs (forget_delay c n) = cnames_to_ssrcs c /\
  mode (forget_delay c n) = mode c /\
  (forall m k, cname_to_largest_delays (forget_delay c n) !! m = Some k ->
     cname_to_largest_delays c !! m = Some k /\ n <> Some m).
Proof.
  destruct n as [n|]; cbn; split_and!; try done. intros m k [Hne Hk]%lookup_delete_Some.
  split; [done|congruence].
Qed.

Lemma new_ctx_inv m : ctx_inv (Context_new m).
Proof. split; cbn; intros *; by rewrite lookup_empty. Qed.

Lemma set_clock_rate_inv c v rate :
  ctx_inv c -> 256 <= rate < U32 -> ctx_inv (Context_set_clock_rate c v rate).
Proof.
  intros Hc Hr. unfold Context_set_clock_rate. destruct (ssrcs c !! v) as [s|] eqn:Hs.
  - pose proof (ci_ssrc _ Hc v s Hs) as Hsi. unfold Ssrc_set_clock_rate.
    destruct (decide (Some rate = clock_rate s)) as [Heq|Hneq].
    + apply (update_inv c _ v s); rewrite ?Hs; try done. intros n k s' [= <-]. done.
    + set (s' := Ssrc_reset_times _).
      destruct (forget_delay_spec (c <| ssrcs ::= insert v s' |>) (cname s')) as (E1 & E2 & _ & E3).
      apply (update_inv c _ v s'); rewrite ?E1, ?E2, ?Hs; try done.
      * split; cbn; try done; [by intros r [= <-]|apply default_inv].
      * intros n k [? _]%E3. done.
      * intros n k s0 [= <-] Hn [_ Hk]%E3. done.
  - apply (update_inv c _ v (Ssrc_new (Some rate))); rewrite ?Hs; try done.
    apply new_ssrc_inv. by intros r [= <-].
Qed.

Lemma entry_inv c v : ctx_inv c -> ssrc_inv (ssrc_entry c v).
Proof.
  intros Hc. unfold ssrc_entry. destruct (ssrcs c !! v) as [s|] eqn:Hs; cbn; [by eapply ci_ssrc|].
  by apply new_ssrc_inv.
Qed.

Lemma add_sender_report_total c v rtp ntp :
  ctx_inv c -> rtp_room (ssrc_entry c v) -> is_u32 rtp -> is_u64 ntp ->
  exists c', Context_add_sender_report c v rtp ntp = Ok c' /\ ctx_inv c'.
Proof.
  intros Hc Hroom Hr Hn. pose proof (entry_inv c v Hc) as Hs.
  unfold Context_add_sender_report, Ssrc_add_sender_report.
  destruct (next_fits _ rtp Hs Hroom Hr) as (ext & et & -> & Hfit & Hwf & _). rewrite !bind_Ok.
  eexists. split; [reflexivity|].
  eapply (update_inv c _ v); [done| |reflexivity|done|done|..].
  - destruct Hs. split; cbn; try done.
    + by intros e [= <-].
    + by intros t [= <-].
  - unfold ssrc_entry. by destruct (ssrcs c !! v).
  - intros n k s _ _ _ _ _. unfold delay_below. by cbn.
Qed.

Lemma remove_ssrc_inv c v : ctx_inv c -> ctx_inv (Context_remove_ssrc c v).
Proof.
  intros [H1 H2 H3 H4]. unfold Context_remove_ssrc. destruct (ssrcs c !! v) as [s|] eqn:Hs; [|done].
  destruct (cname s) as [n|] eqn:Hn.
  - destruct (H2 v s n Hs Hn) as (l & Hl & Hv). unfold Context_disassociate. cbn. rewrite Hl.
    split; cbn.
    + intros u s' [_ Hu]%lookup_delete_Some. eauto.
    + intros u s' n' [Hne Hu]%lookup_delete_Some Hn'. destruct (H2 u s' n' Hu Hn') as (l' & Hl' & Hu').
      destruct (decide (n' = n)) as [->|Hne'].
      * rewrite Hl in Hl'. injection Hl' as <-. eexists. rewrite lookup_insert_eq. split; [done|].
        by apply list_elem_of_filter.
      * exists l'. by rewrite lookup_insert_ne.
    + intros n' l' u [[<- <-]|[Hne Hl']]%lookup_insert_Some Hu.
      * apply list_elem_of_filter in Hu as [Huv Hu]. destruct (H3 n l u Hl Hu) as (s' & Hs' & Hc).
        exists s'. by rewrite lookup_delete_ne.
      * destruct (H3 n' l' u Hl' Hu) as (s' & Hs' & Hc). exists s'. split; [|done].
        apply lookup_delete_Some. split; [|done]. intros ->. congruence.
    + intros n' k [Hne Hk]%lookup_delete_Some E. destruct (H4 n' k Hk E) as [Hok Hall].
      split; [done|]. cbn. intros u s' [_ Hu]%lookup_delete_Some. eauto.
  - split; cbn.
    + intros u s' [_ Hu]%lookup_delete_Some. eauto.
    + intros u s' n' [Hne Hu]%lookup_delete_Some Hn'. eauto.
    + intros n' l' u Hl' Hu. destruct (H3 n' l' u Hl' Hu) as (s' & Hs' & Hc). exists s'. split; [|done].
      apply lookup_delete_Some. split; [|done]. intros ->. congruence.
    + intros n' k Hk E. destruct (H4 n' k Hk E) as [Hok Hall].
      split; [done|]. cbn. intros u s' [_ Hu]%lookup_delete_Some. eauto.
Qed.

(** A CNAME for an SSRC that has none, or the one it has. *)
Lemma associate_inv c v n :
  ctx_inv c -> (forall m, cname (ssrc_entry c v) = Some m -> m = n) -> ctx_inv (Context_associate c v n).
Proof.
  intros Hc Hkeep. pose proof (entry_inv c v Hc) as Hs. unfold Context_associate.
  destruct (cname (ssrc_entry c v)) as [m|] eqn:Hm.
  - rewrite (Hkeep m eq_refl) in *. rewrite decide_True by done.
    unfold ssrc_entry in *. destruct (ssrcs c !! v) as [s|] eqn:E; [|done]. cbn in *.
    apply (update_inv c _ v s); rewrite ?E; try done. intros n' k s' [= <-]. done.
  - rewrite decide_False by done. clear Hkeep. destruct Hc as [H1 H2 H3 H4].
    assert (Hold : forall s, ssrcs c !! v = Some s -> cname s = None).
    { intros s E. unfold ssrc_entry in Hm. by rewrite E in Hm. }
    set (l := default [] _). set (s' := (ssrc_entry c v) <| cname := Some n |>).
    assert (Hs' : ssrc_inv s') by (destruct Hs; by split).
    split; cbn; rewrite ?insert_insert_eq.
    + intros u s [[<- <-]|[Hne Hu]]%lookup_insert_Some; eauto.
    + intros u s m [[<- <-]|[Hne Hu]]%lookup_insert_Some Hcm.
      * injection Hcm as <-. eexists. rewrite lookup_insert_eq. split; [done|].
        apply elem_of_app. right. by left.
      * destruct (H2 u s m Hu Hcm) as (l' & Hl' & Hu'). destruct (decide (m = n)) as [->|Hne'].
        -- eexists. rewrite lookup_insert_eq. split; [done|]. subst l. cbn. rewrite Hl'.
           apply elem_of_app. by left.
        -- exists l'. by rewrite lookup_insert_ne.
    + intros m l' u Hl' Hu. destruct (decide (u = v)) as [->|Hne].
      { exists s'. rewrite lookup_insert_eq. split; [done|].
        apply lookup_insert_Some in Hl' as [[<- <-]|[Hne Hl']]; [done|].
        destruct (H3 m l' v Hl' Hu) as (s & E & Hcs). rewrite (Hold s E) in Hcs. done. }
      rewrite lookup_insert_ne by done.
      apply lookup_insert_Some in Hl' as [[<- <-]|[Hne' Hl']]; [|eauto].
      apply elem_of_app in Hu as [Hu|Hu%list_elem_of_singleton]; [|done]. subst l. cbn in Hu.
      destruct (cnames_to_ssrcs c !! n) as [l'|] eqn:El; [eauto|by apply elem_of_nil in Hu].
    + intros m k [Hne Hk]%lookup_delete_Some E. destruct (H4 m k Hk E) as [Hok Hall].
      split; [done|]. cbn. intros u s [[<- <-]|[Hne' Hu]]%lookup_insert_Some Hcs; [|eauto].
      cbn in Hcs. congruence.
Qed.

Section Sync.
Context `{GstLaws} (now : Z).
Context (Hnow : 2 ^ 60 <= now <= 2 ^ 62).

(** The time of an extended timestamp in nanoseconds. *)
Definition rtp_ns (rate ext : Z) : Z := (2 * (ext * SECOND) + rate) / (2 * rate).

Lemma rtp_ns_ok rate ext :
  256 <= rate < U32 -> rtp_fits (Some rate) ext ->
  mul_div_round U64 ext SECOND rate = Some (rtp_ns rate ext) /\ obs_time (rtp_ns rate ext).
Proof using H0.
  intros Hr [He Hf]. specialize (Hf rate eq_refl). rewrite pow62 in He. rewrite pow55 in Hf.
  pose proof SECOND_val.
  assert (Hb : 0 <= rtp_ns rate ext <= 36028797018963969).
  { unfold rtp_ns. split; [apply Z.div_pos; lia|]. apply Z.div_le_upper_bound; [lia|]. nia. }
  split; [|unfold obs_time; rewrite time_max_val; lia].
  rewrite mul_div_round_spec by lia. apply fits_small. change (rtp_ns rate ext < U64). lia.
Qed.

(** *** The mode *)

Lemma ssrc_pts_total m s r a :
  ssrc_inv s -> obs_time r -> obs_time a ->
  exists pts discont obs,
    ssrc_pts m s r a = Ok (pts, discont,
      if discont : bool then Ssrc_reset_times (s <| observations := obs |>)
      else s <| observations := obs |>) /\
    0 <= pts <= 3 * TIME_MAX /\ obs_inv obs /\ (m = Rtp -> pts = r /\ discont = false).
Proof using H0.
  intros Hs Hr Ha. pose proof (si_obs _ Hs) as Hobs. pose proof time_max_val as HT.
  destruct m; unfold ssrc_pts.
  - exists a, false, (observations s). unfold obs_time in *. split_and!; try done; [by destruct s|lia|lia].
  - exists r, false, (observations s). unfold obs_time in *. split_and!; try done; [by destruct s|lia|lia].
  - destruct (process_total _ r a Hobs Hr Ha) as (out & d & o' & -> & Hst). rewrite bind_Ok.
    pose proof (obs_step_inv _ _ _ _ _ _ Hobs Hr Ha Hst) as Hinv'.
    exists out, d, o'. split_and!; try done.
    + destruct Hst; unfold obs_time in *; lia.
    + pose proof (delta_bound_le _ Hinv'). pose proof (oi_skew _ Hinv').
      pose proof (oi_base _ Hobs) as Hb. unfold obs_time in *.
      destruct Hst as [|br bl h Hbr Hbl Hh Hle|br bl h delta o' Hbr Hbl Hh Hlt Hdelta Hfar Hwin]; [lia|..];
        rewrite Hbr, Hbl, Hh in Hb; unfold saturating_sub; lia.
Qed.
(** *** Sender reports *)

(** The time of a sender report since 1900, in nanoseconds. *)
Definition sr_ns (t : NtpTime) : Z :=
  match NtpTime_as_duration now t with Ok d => d | Panic => 0 end.

Lemma sr_ns_ok t :
  is_u64 (ntp_val t) ->
  NtpTime_as_duration now t = Ok (sr_ns t) /\ 1214000000000000000 <= sr_ns t <= 8970000000000000000.
Proof using H0 Hnow.
  intros Ht. rewrite pow62 in Hnow. change (2 ^ 60) with 1152921504606846976 in Hnow.
  destruct (as_duration_near (ntp_val t) now Ht) as (d & Hd & Hnear);
    [rewrite pow62; unfold SECOND; lia|].
  unfold sr_ns, NtpTime_as_duration. destruct t as [v]. cbn in *. rewrite Hd. split; [done|].
  unfold UNIX_TO_NTP_TIME_OFFSET, duration_from_secs in Hnear. rewrite ntp_offset_spec in Hnear.
  unfold SECOND in Hnear. lia.
Qed.

(** The NTP time of the RTP time [r], by the sender report. *)
Definition packet_ntp (t : NtpTime) (sr_rtp r : Z) : Z := sr_ns t + (r - sr_rtp).

Lemma sr_base_ntp_ok t br sr :
  is_u64 (ntp_val t) -> obs_time br -> obs_time sr ->
  sr_base_ntp now t br sr = Ok (Some (packet_ntp t sr br)).
Proof using H0 Hnow.
  intros Ht Hb Hs. destruct (sr_ns_ok t Ht) as [Hd Hr]. unfold sr_base_ntp, packet_ntp, obs_time in *.
  rewrite time_max_val in *. rewrite Hd, bind_Ok, wrap_small by lia.
  zcase; f_equal; apply checked_u64_Some; unfold is_u64; lia.
Qed.

Lemma sr_delay_ok t a br sr :
  is_u64 (ntp_val t) -> obs_time a -> obs_time br -> obs_time sr ->
  sr_current_delay a (packet_ntp t sr br) = Ok (a - packet_ntp t sr br) /\
  delay_ok (a - packet_ntp t sr br).
Proof using H0 Hnow.
  intros Ht Ha Hb Hs. destruct (sr_ns_ok t Ht) as [_ Hr].
  unfold sr_current_delay, packet_ntp, delay_ok, obs_time in *. rewrite time_max_val in *.
  rewrite !as_i64_small by lia. zcase; [lia|]. run_chk. split; [|lia].
  rewrite (proj2 (i64_chk_ok _ _)) by (split; [reflexivity|unfold is_i64; lia]). f_equal. lia.
Qed.

Lemma sr_ntp_time_ok t r sr :
  is_u64 (ntp_val t) -> obs_time r -> obs_time sr ->
  exists n, sr_ntp_time now t r sr = Ok (Some n) /\ NtpTime_from_duration (packet_ntp t sr r) = Ok n.
Proof using H0 Hnow.
  intros Ht Hr Hs. destruct (sr_ns_ok t Ht) as [Hd Hb]. unfold sr_ntp_time, packet_ntp, obs_time in *.
  rewrite time_max_val in *. rewrite Hd, bind_Ok.
  assert (HD : DURATION_MAX = 18446744073709551615999999999) by done.
  rewrite Z.gtb_ltb. destruct (Z.ltb_spec sr r); cbv zeta; zcase; try lia;
    rewrite !from_duration_eq by lia; rewrite bind_Ok; eexists; (split; [reflexivity|]);
    do 4 f_equal; lia.
Qed.

(** The delay a new sender report gives to an SSRC. *)
Definition new_delay (t : NtpTime) (rate e a br : Z) : Z := a - packet_ntp t (rtp_ns rate e) br.

(** What looking at the sender report does. *)
Definition sr_effect (c : Sync.Context) (s : Ssrc) (rate r a br : Z)
    (ntp : option NtpTime) (s' : Ssrc) (c' : Sync.Context) : Prop :=
  match last_sr_ntp_timestamp s, last_sr_rtp_ext s with
  | Some t, Some e =>
      (exists n, ntp = Some n /\ NtpTime_from_duration (packet_ntp t (rtp_ns rate e) r) = Ok n) /\
      match current_delay s with
      | Some _ => s' = s /\ c' = c
      | None => delay_ok (new_delay t rate e a br) /\
          s' = s <| current_delay := Some (new_delay t rate e a br) |> /\
          c' = forget_delay c (cname s)
      end
  | _, _ => ntp = None /\ s' = s /\ c' = c
  end.

Lemma apply_sr_total c s rate r a br :
  ssrc_inv s -> clock_rate s = Some rate -> obs_time r -> obs_time a -> obs_time br ->
  exists ntp s' c', ssrc_apply_sr now c s rate r a br = Ok (ntp, s', c') /\
    sr_effect c s rate r a br ntp s' c'.
Proof using H0 Hnow.
  intros Hs Hrate Hr Ha Hbr. unfold ssrc_apply_sr, sr_effect.
  pose proof (si_ntp _ Hs) as Hntp. pose proof (si_sr _ Hs) as Hsr.
  destruct (last_sr_ntp_timestamp s) as [t|]; [|eauto 10].
  destruct (last_sr_rtp_ext s) as [e|]; [|eauto 10].
  specialize (Hntp t eq_refl). specialize (Hsr e eq_refl). rewrite Hrate in Hsr.
  destruct (rtp_ns_ok rate e (si_rate _ Hs rate Hrate) Hsr) as [-> Hns]. cbn [unwrap]. rewrite bind_Ok.
  destruct (sr_ntp_time_ok t r (rtp_ns rate e) Hntp Hr Hns) as (n & Hn & Hdur).
  destruct (current_delay s) as [d|].
  - rewrite bind_Ok, Hn, bind_Ok. eauto 10.
  - rewrite sr_base_ntp_ok, bind_Ok by done.
    destruct (sr_delay_ok t a br (rtp_ns rate e)) as [-> Hok]; [done..|].
    rewrite !bind_Ok, Hn, bind_Ok. eexists _, _, _. split; [reflexivity|]. eauto 10.
Qed.

Lemma delay_inv s d : ssrc_inv s -> delay_ok d -> ssrc_inv (s <| current_delay := Some d |>).
Proof using. intros [] Hd. split; cbn; try done. by intros d' [= <-]. Qed.

(** The tables after it: the cached delay of this CNAME survives only if
    the SSRC is unchanged and waits for no report. *)
Lemma sr_effect_tables c s rate r a br ntp s' c' :
  ssrc_inv s -> sr_effect c s rate r a br ntp s' c' ->
  (ssrcs c' = ssrcs c /\ cnames_to_ssrcs c' = cnames_to_ssrcs c /\ mode c' = mode c) /\
  (forall n k, cname_to_largest_delays c' !! n = Some k ->
     cname_to_largest_delays c !! n = Some k /\
     (cname s = Some n -> s' = s /\ (current_delay s = None -> last_sr_rtp_ext s = None))) /\
  ssrc_inv s' /\ cname s' = cname s.
Proof using.
  intros Hs He. unfold sr_effect in He. pose proof (proj1 (si_both _ Hs)) as Hboth.
  destruct (last_sr_ntp_timestamp s) as [t|], (last_sr_rtp_ext s) as [e|].
  - destruct He as [_ He]. destruct (current_delay s) as [d|]; [by destruct He as [-> ->]; split_and!|].
    destruct He as (Hok & -> & ->). destruct (forget_delay_spec c (cname s)) as (E1 & E2 & E3 & E4).
    rewrite E1, E2, E3. split_and!; try done; [|by apply delay_inv].
    by intros n k [Hk Hne]%E4.
  - by destruct He as (_ & -> & ->); split_and!.
  - by destruct Hboth as [? ?].
  - by destruct He as (_ & -> & ->); split_and!.
Qed.

(** The fields of the SSRC after it. *)
Lemma sr_effect_fields c s rate r a br ntp s' c' :
  sr_effect c s rate r a br ntp s' c' ->
  ssrc_base_times s' = ssrc_base_times s /\ last_sr_ntp_timestamp s' = last_sr_ntp_timestamp s /\
  last_sr_rtp_ext s' = last_sr_rtp_ext s /\ clock_rate s' = clock_rate s /\
  current_delay s' =
    match current_delay s, last_sr_ntp_timestamp s, last_sr_rtp_ext s with
    | None, Some t, Some e => Some (new_delay t rate e a br)
    | d, _, _ => d
    end /\
  forall t e, last_sr_ntp_timestamp s = Some t -> last_sr_rtp_ext s = Some e ->
    exists n, ntp = Some n /\ NtpTime_from_duration (packet_ntp t (rtp_ns rate e) r) = Ok n.
Proof using.
  unfold sr_effect. intros He.
  destruct (last_sr_ntp_timestamp s) as [t|] eqn:Et, (last_sr_rtp_ext s) as [e|] eqn:Ee.
  - destruct He as [Hntp He]. destruct (current_delay s) as [d|] eqn:Ed.
    + destruct He as [-> ->]. split_and!; try done. by intros ? ? [= <-] [= <-].
    + destruct He as (_ & -> & ->). split_and!; try done. by intros ? ? [= <-] [= <-].
  - destruct He as (_ & -> & ->). split_and!; try done; by destruct (current_delay s).
  - destruct He as (_ & -> & ->). split_and!; try done; by destruct (current_delay s).
  - destruct He as (_ & -> & ->). split_and!; try done; by destruct (current_delay s).
Qed.

(** *** The largest delay *)

Lemma search_largest_total c n l :
  cnames_to_ssrcs c !! n = Some l ->
  (forall v, v ∈ l -> exists s, ssrcs c !! v = Some s /\
     forall d, current_delay s = Some d -> delay_ok d) ->
  exists k, search_largest_delay c n = Ok k /\
    (all_sync k = true -> l <> [] -> delay_ok (largest_delay k)) /\
    (all_sync k = true -> forall v s, v ∈ l -> ssrcs c !! v = Some s ->
       exists d, current_delay s = Some d /\ d <= largest_delay k).
Proof using.
  intros Hl Hall. unfold search_largest_delay. rewrite Hl. cbn [unwrap]. rewrite bind_Ok.
  set (k0 := mkCnameLargestDelay (- I64) true).
  assert (Hgen : forall k0, (all_sync k0 = true -> largest_delay k0 = - I64 \/ delay_ok (largest_delay k0)) ->
    exists k, res_fold (fun acc v => ssrc ← unwrap (ssrcs c !! v);
        match current_delay ssrc with
        | Some delay => Ok (if delay >? largest_delay acc then acc <| largest_delay := delay |> else acc)
        | None => Ok (acc <| all_sync := false |>)
        end) k0 l = Ok k /\
      (all_sync k = true -> all_sync k0 = true /\ largest_delay k0 <= largest_delay k /\
        (largest_delay k = largest_delay k0 \/ delay_ok (largest_delay k)) /\
        forall v s, v ∈ l -> ssrcs c !! v = Some s ->
          exists d, current_delay s = Some d /\ d <= largest_delay k)).
  { clear k0 Hl. induction l as [|v l IH]; intros k0 Hk0.
    { exists k0. split; [done|]. intros E. split_and!; [done|lia|auto|]. by intros v s ?%elem_of_nil. }
    destruct (Hall v ltac:(by left)) as (s & Hs & Hd). cbn [res_fold]. rewrite Hs. cbn [unwrap].
    rewrite bind_Ok.
    set (k1 := match current_delay s with
               | Some delay => if delay >? largest_delay k0 then k0 <| largest_delay := delay |> else k0
               | None => k0 <| all_sync := false |> end).
    replace (match current_delay s with Some _ => _ | None => _ end) with (Ok k1)
      by (subst k1; by destruct (current_delay s)). rewrite bind_Ok.
    destruct (IH ltac:(intros; apply Hall; by right) k1) as (k & Hk & Hspec).
    { subst k1. destruct (current_delay s) as [d|]; [|done]. rewrite Z.gtb_ltb.
      destruct (_ <? _); [|done]. cbn. intros _. right. by apply Hd. }
    exists k. split; [exact Hk|]. intros E. destruct (Hspec E) as (E1 & Hle & Hlk & Hrest).
    assert (Hk1 : exists d, current_delay s = Some d /\ all_sync k0 = true /\
      largest_delay k1 = Z.max d (largest_delay k0)).
    { subst k1. destruct (current_delay s) as [d|]; [|done]. exists d. split; [done|].
      rewrite Z.gtb_ltb in *. destruct (Z.ltb_spec (largest_delay k0) d); cbn in *; split; done || lia. }
    destruct Hk1 as (d & Hds & E0 & Hmax). specialize (Hd d Hds).
    split_and!; [done|lia| |].
    - destruct Hlk as [Hlk|Hlk]; [|by right]. rewrite Hlk, Hmax.
      destruct (Z.max_spec d (largest_delay k0)) as [[_ ->]|[_ ->]]; auto.
    - intros v' s' [->|Hv]%elem_of_cons Hs'; [|eauto]. rewrite Hs in Hs'. injection Hs' as <-.
      exists d. split; [done|lia]. }
  destruct (Hgen k0) as (k & Hk & Hspec); [by left|]. exists k. split; [exact Hk|]. split.
  - intros E Hne. destruct (Hspec E) as (_ & _ & [Heq|Hok] & Hin); [|done].
    destruct l as [|v l]; [done|]. destruct (Hall v ltac:(by left)) as (s & Hs & Hd).
    destruct (Hin v s ltac:(by left) Hs) as (d & Hds & Hle). specialize (Hd d Hds).
    rewrite Heq in Hle. unfold delay_ok in Hd. cbn in Hle. lia.
  - intros E. by apply Hspec.
Qed.
(** *** One packet *)

(** The presentation time [pts'] of a packet of an SSRC: [pts] delayed to
    the SSRC with the largest delay, when all of its CNAME have one. *)
Definition offset_pts (c : Sync.Context) (s : Ssrc) (pts pts' : Z) : Prop :=
  match cname s with
  | Some n => exists k, cname_to_largest_delays c !! n = Some k /\
      if all_sync k then exists d, current_delay s = Some d /\ d <= largest_delay k /\
        pts' = pts + (largest_delay k - d)
      else pts' = pts
  | None => pts' = pts
  end.

Lemma add_offset pts k d :
  0 <= pts <= 4 * TIME_MAX -> delay_ok k -> delay_ok d -> d <= k ->
  (offset ← i64_chk (k - d); u64_add pts (wrap U64 offset)) = Ok (pts + (k - d)).
Proof using.
  unfold delay_ok. intros Hp Hk Hd Hle. rewrite time_max_val in Hp. run_chk.
  rewrite wrap_small by lia. apply u64_add_ok. lia.
Qed.

Lemma cname_offset_total c v s pts :
  ctx_inv c -> ssrcs c !! v = Some s -> 0 <= pts <= 4 * TIME_MAX ->
  (forall n k, cname s = Some n -> cname_to_largest_delays c !! n = Some k -> all_sync k = true ->
     is_Some (current_delay s)) ->
  exists pts' c', cname_offset c s pts = Ok (pts', c') /\ ctx_inv c' /\ ssrcs c' = ssrcs c /\
    mode c' = mode c /\ offset_pts c' s pts pts'.
Proof using.
  intros Hc Hs Hp Hsync. unfold cname_offset, offset_pts.
  destruct (cname s) as [n|] eqn:Hn; [|by eauto 10].
  assert (Hk : exists k c', match cname_to_largest_delays c !! n with
      | Some l => Ok (l, c)
      | None => l ← search_largest_delay c n; Ok (l, c <| cname_to_largest_delays ::= insert n l |>)
      end = Ok (k, c') /\ ctx_inv c' /\ ssrcs c' = ssrcs c /\ mode c' = mode c /\
      cname_to_largest_delays c' !! n = Some k /\
      (all_sync k = true -> exists d, current_delay s = Some d /\ d <= largest_delay k)).
  { destruct (cname_to_largest_delays c !! n) as [k|] eqn:Hk.
    - exists k, c. split_and!; try done. intros E. destruct (Hsync n k eq_refl Hk E) as [d Hd].
      exists d. split; [done|]. destruct (ci_cache _ Hc n k Hk E) as [_ Hall].
      specialize (Hall v s Hs Hn). unfold delay_below in Hall. by rewrite Hd in Hall.
    - destruct (ci_listed _ Hc v s n Hs Hn) as (l & Hl & Hv).
      destruct (search_largest_total c n l Hl) as (k & -> & Hok & Hall).
      { intros u Hu. destruct (ci_only _ Hc n l u Hl Hu) as (su & Hsu & _). exists su. split; [done|].
        apply (si_delay _ (ci_ssrc _ Hc u su Hsu)). }
      rewrite bind_Ok. eexists k, _. split; [reflexivity|].
      split_and!; try done; [|by cbn; rewrite lookup_insert_eq|by eauto].
      destruct Hc as [H1 H2 H3 H4]. split; cbn; try done.
      intros n' k' [[<- <-]|[Hne Hk']]%lookup_insert_Some E; [|eauto]. split.
      + apply Hok; [done|]. intros ->. by apply elem_of_nil in Hv.
      + intros u su Hsu Hcu. destruct (H2 u su n Hsu Hcu) as (l' & Hl' & Hu).
        rewrite Hl in Hl'. injection Hl' as <-.
        destruct (Hall E u su Hu Hsu) as (d & Hd & Hle). unfold delay_below. by rewrite Hd. }
  destruct Hk as (k & c' & -> & Hc' & Es & Em & Hk & Hd). rewrite bind_Ok.
  destruct (all_sync k) eqn:E.
  2: { exists pts, c'. split_and!; try done. exists k. by rewrite E. }
  destruct (Hd eq_refl) as (d & Hcd & Hle). rewrite Hcd. cbn [unwrap]. rewrite bind_Ok.
  assert (Hdok : delay_ok d) by (apply (si_delay _ (ci_ssrc _ Hc v s Hs)); done).
  destruct (ci_cache _ Hc' n k Hk E) as [Hkok _].
  pose proof (add_offset pts (largest_delay k) d Hp Hkok Hdok Hle) as Ha.
  destruct (i64_chk _) as [o|]; [|done]. cbn [mbind res_bind] in Ha |- *. rewrite Ha.
  eexists _, _. split; [reflexivity|]. split_and!; try done. exists k. rewrite E. eauto 10.
Qed.
(** The SSRC of a packet once its timestamp, mode and base times are dealt
    with: everything before the sender report is looked at. *)
Definition with_base (s : Ssrc) (a r p : Z) : Ssrc :=
  s <| ssrc_base_times := Some (default (a, r, p) (ssrc_base_times s)) |>.

Lemma with_base_inv s a r p :
  ssrc_inv s -> obs_time a -> obs_time r -> 0 <= p <= 3 * TIME_MAX -> ssrc_inv (with_base s a r p).
Proof using.
  intros Hs Ha Hr Hp. pose proof (si_base _ Hs) as Hb. destruct Hs.
  unfold with_base. split; cbn; try done.
  intros a' r' p'. destruct (ssrc_base_times s) as [[[a0 r0] p0]|]; cbn; intros [= <- <- <-]; eauto.
Qed.

Lemma ext_obs_inv s et obs :
  ssrc_inv s -> ext_wf 32 (ts_last_ext et) -> obs_inv obs ->
  ssrc_inv (s <| extended_timestamp := et |> <| observations := obs |>).
Proof using. intros [] ? ?. by split. Qed.

(** What [calculate_pts] returns, and the SSRC it leaves. *)
Definition pts_result (c : Sync.Context) (v rtp arrival rate : Z) (s : Ssrc)
    (pts : Z) (ntp : option NtpTime) (c' : Sync.Context) : Prop :=
  exists ext et m discont s0 s1 pts0,
    ExtendedTimestamp_next (extended_timestamp s) rtp = Ok (ext, et) /\
    let r := rtp_ns rate ext in
    ssrc_pts (mode c) (s <| extended_timestamp := et |>) r arrival = Ok (m, discont, s0) /\
    (exists obs, s0 = if discont then Ssrc_reset_times (s <| extended_timestamp := et |> <| observations := obs |>)
                      else s <| extended_timestamp := et |> <| observations := obs |>) /\
    (let '(a, br, bp) := default (arrival, r, m) (ssrc_base_times s0) in
     ssrc_base_times s1 = Some (a, br, bp) /\ pts0 = Z.max 0 (m + a - bp) /\
     last_sr_ntp_timestamp s1 = last_sr_ntp_timestamp s0 /\ last_sr_rtp_ext s1 = last_sr_rtp_ext s0 /\
     clock_rate s1 = clock_rate s0 /\
     current_delay s1 =
       match current_delay s0, last_sr_ntp_timestamp s0, last_sr_rtp_ext s0 with
       | None, Some t, Some e => Some (new_delay t rate e a br)
       | d, _, _ => d
       end /\
     forall t e, last_sr_ntp_timestamp s0 = Some t -> last_sr_rtp_ext s0 = Some e ->
       exists n, ntp = Some n /\ NtpTime_from_duration (packet_ntp t (rtp_ns rate e) r) = Ok n) /\
    ssrcs c' = <[v := s1]> (ssrcs c) /\ cname s1 = cname s /\ offset_pts c' s1 pts0 pts.

Lemma pts_result_ssrc c v rtp arrival rate s pts ntp c' :
  pts_result c v rtp arrival rate s pts ntp c' ->
  exists s1, ssrcs c' = <[v := s1]> (ssrcs c) /\ ssrcs c' !! v = Some s1 /\ cname s1 = cname s.
Proof using.
  intros (? & ? & ? & ? & ? & s1 & ? & _ & _ & _ & _ & Es & Ec & _). exists s1.
  rewrite Es, lookup_insert_eq. done.
Qed.

Lemma calculate_total c v s rate rtp arrival :
  ctx_inv c -> ssrcs c !! v = Some s -> clock_rate s = Some rate -> rtp_room s ->
  is_u32 rtp -> obs_time arrival ->
  exists pts ntp c', Context_calculate_pts now c v rtp arrival = Ok (pts, ntp, c') /\ ctx_inv c' /\
    mode c' = mode c /\ pts_result c v rtp arrival rate s pts ntp c'.
Proof using H0 Hnow.
  intros Hc Hs Hrate Hroom Hrtp Harr. pose proof time_max_val as HT.
  pose proof (ci_ssrc _ Hc v s Hs) as Hsi. unfold Context_calculate_pts, pts_result.
  rewrite Hs. cbn [unwrap]. rewrite bind_Ok, Hrate. cbn [unwrap]. rewrite bind_Ok.
  destruct (next_fits s rtp Hsi Hroom Hrtp) as (ext & et & -> & Hfit & Hwf & _). rewrite bind_Ok.
  rewrite Hrate in Hfit. destruct (rtp_ns_ok rate ext (si_rate _ Hsi rate Hrate) Hfit) as [-> Hr].
  cbn [unwrap]. rewrite bind_Ok. set (r := rtp_ns rate ext) in *.
  assert (Hsi1 : ssrc_inv (s <| extended_timestamp := et |>))
    by (pose proof (ext_obs_inv s et _ Hsi Hwf (si_obs _ Hsi)); by destruct s).
  destruct (ssrc_pts_total (mode c) _ r arrival Hsi1 Hr Harr) as (m & discont & obs & Hp & Hm & Hobs & Hmode).
  rewrite Hp, bind_Ok. set (s0 := if discont then _ else _).
  assert (Hs0 : ssrc_inv s0).
  { subst s0. pose proof (ext_obs_inv s et obs Hsi Hwf Hobs). destruct discont; [by apply reset_times_inv|done]. }
  assert (Hn0 : cname s0 = cname s /\ clock_rate s0 = Some rate)
    by (subst s0; destruct discont; by cbn).
  set (c0 := if discont then forget_delay c (cname s0) else c).
  destruct (default (arrival, r, m) (ssrc_base_times s0)) as [[a br] bp] eqn:Hbase.
  assert (Hs2 : ssrc_inv (s0 <| ssrc_base_times := Some (a, br, bp) |>)).
  { rewrite <- Hbase. by apply (with_base_inv s0 arrival r m). }
  destruct (si_base _ Hs2 a br bp eq_refl) as (Ha & Hbr & Hbp). unfold obs_time in Ha, Harr.
  run_chk. set (s2 := s0 <| ssrc_base_times := Some (a, br, bp) |>) in *.
  destruct (apply_sr_total c0 s2 rate r a br Hs2 (proj2 Hn0) Hr Ha Hbr) as (ntp & s1 & c1 & -> & Hsr).
  rewrite bind_Ok.
  assert (Hc0 : ssrcs c0 = ssrcs c /\ cnames_to_ssrcs c0 = cnames_to_ssrcs c /\ mode c0 = mode c /\
    forall n k, cname_to_largest_delays c0 !! n = Some k ->
      cname_to_largest_delays c !! n = Some k /\ (cname s = Some n -> discont = false)).
  { subst c0. destruct (forget_delay_spec c (cname s0)) as (E1 & E2 & E3 & E4). destruct discont.
    - split_and!; try done. intros n k [Hk Hne]%E4. split; [done|]. intros Hn. destruct Hn0. congruence.
    - split_and!; done. }
  destruct Hc0 as (Es0 & En0 & Em0 & Ed0).
  destruct (sr_effect_tables _ _ _ _ _ _ _ _ _ Hs2 Hsr) as ((Es1 & En1 & Em1) & Ed1 & Hs1 & Hcn1).
  rewrite Es0 in Es1. rewrite En0 in En1. rewrite Em0 in Em1.
  change (cname s2) with (cname s0) in *. rewrite (proj1 Hn0) in *.
  assert (Hctx : ctx_inv (c1 <| ssrcs ::= insert v s1 |>)).
  { apply (update_inv c _ v s1); cbn; rewrite ?Es1, ?Hs; try done.
    - intros n k [[? _]%Ed0 _]%Ed1. done.
    - intros n k s' [= <-] Hn [[_ Hd0]%Ed0 Hd]%Ed1 E. destruct (Hd Hn) as [-> _].
      subst s2 s0. by rewrite (Hd0 Hn). }
  destruct (cname_offset_total (c1 <| ssrcs ::= insert v s1 |>) v s1 (saturating_sub (m + a) bp))
    as (pts & c' & -> & Hc' & Es' & Em' & Hoff); [done|by cbn; rewrite lookup_insert_eq
    |unfold saturating_sub; lia| |].
  { intros n k Hn Hk E. cbn in Hk. rewrite Hcn1 in Hn. apply Ed1 in Hk as [[Hk Hd0]%Ed0 Hd].
    specialize (Hd0 Hn) as Hdis. destruct (Hd Hn) as [-> Hno]. destruct (ci_cache _ Hc n k Hk E) as [_ Hall].
    specialize (Hall v s Hs Hn). unfold delay_below in Hall.
    assert (Hsd : current_delay s2 = current_delay s /\ last_sr_rtp_ext s2 = last_sr_rtp_ext s).
    { subst s2 s0. rewrite Hdis. done. }
    destruct Hsd as [E1 E2]. rewrite <- E1 in Hall. destruct (current_delay s2); [done|].
    rewrite <- E2, Hno in Hall by done. by destruct Hall. }
  rewrite bind_Ok. eexists pts, ntp, c'. split; [reflexivity|]. split; [done|].
  split; [cbn in Em'; congruence|].
  eexists ext, et, m, discont, s0, s1, (saturating_sub (m + a) bp). split; [reflexivity|].
  cbv zeta. fold r. split; [done|]. split; [by exists obs|]. rewrite Hbase. split; [|split; [|done]].
  2: { cbn in Es'. by rewrite Es', Es1. }
  destruct (sr_effect_fields _ _ _ _ _ _ _ _ _ Hsr) as (F1 & F2 & F3 & F4 & F5 & F6). by split_and!.
Qed.
(** *** Sequences of calls *)

Inductive sync_op :=
| SetClockRate (ssrc_val rate : Z)
| Associate (ssrc_val : Z) (n : string)
| RemoveSsrc (ssrc_val : Z)
| AddSenderReport (ssrc_val rtp_timestamp ntp_timestamp : Z)
| CalculatePts (ssrc_val rtp_timestamp arrival_time : Z).

Definition sync_exec (c : Sync.Context) (op : sync_op) : res (option (Z * option NtpTime) * Sync.Context) :=
  match op with
  | SetClockRate v r => Ok (None, Context_set_clock_rate c v r)
  | Associate v n => Ok (None, Context_associate c v n)
  | RemoveSsrc v => Ok (None, Context_remove_ssrc c v)
  | AddSenderReport v rtp ntp => c ← Context_add_sender_report c v rtp ntp; Ok (None, c)
  | CalculatePts v rtp a =>
      '(pts, ntp, c) ← Context_calculate_pts now c v rtp a; Ok (Some (pts, ntp), c)
  end.

(** Calls within their types and the bounds on times, for SSRCs that are
    known when a packet of theirs is timed and that keep their CNAME. *)
Definition sync_op_ok (c : Sync.Context) (op : sync_op) : Prop :=
  match op with
  | SetClockRate _ r => 256 <= r < U32
  | Associate v n => forall m, cname (ssrc_entry c v) = Some m -> m = n
  | RemoveSsrc _ => True
  | AddSenderReport v rtp ntp => rtp_room (ssrc_entry c v) /\ is_u32 rtp /\ is_u64 ntp
  | CalculatePts v rtp a =>
      Context_has_clock_rate c v = true /\ rtp_room (ssrc_entry c v) /\ is_u32 rtp /\ obs_time a
  end.

Inductive sync_reach (m : TimestampingMode) : Sync.Context -> Prop :=
| reach_new : sync_reach m (Context_new m)
| reach_step c op out c' :
    sync_reach m c -> sync_op_ok c op -> sync_exec c op = Ok (out, c') -> sync_reach m c'.

Lemma has_clock_rate_spec c v :
  Context_has_clock_rate c v = true ->
  exists s rate, ssrcs c !! v = Some s /\ clock_rate s = Some rate /\ ssrc_entry c v = s.
Proof using.
  unfold Context_has_clock_rate, ssrc_entry. destruct (ssrcs c !! v) as [s|]; [|done].
  destruct (clock_rate s) as [r|] eqn:E; [|done]. intros _. by exists s, r.
Qed.

Lemma sync_exec_total c op :
  ctx_inv c -> sync_op_ok c op -> exists out c', sync_exec c op = Ok (out, c') /\ ctx_inv c'.
Proof using H0 Hnow.
  intros Hc Hop. destruct op as [v r|v n|v|v rtp ntp|v rtp a]; cbn in *.
  - eauto using set_clock_rate_inv.
  - eauto using associate_inv.
  - eauto using remove_ssrc_inv.
  - destruct Hop as (Hroom & Hr & Hn).
    destruct (add_sender_report_total c v rtp ntp Hc Hroom Hr Hn) as (c' & -> & Hc'). cbn. eauto.
  - destruct Hop as (Hrate & Hroom & Hr & Ha).
    destruct (has_clock_rate_spec c v Hrate) as (s & rate & Hs & Hrt & Hent). rewrite Hent in Hroom.
    destruct (calculate_total c v s rate rtp a Hc Hs Hrt Hroom Hr Ha) as (pts & n & c' & -> & Hc' & _).
    cbn. eauto.
Qed.

Lemma sync_reach_inv m c : sync_reach m c -> ctx_inv c.
Proof using H0 Hnow.
  induction 1 as [|c op out c' _ Hc Hop He]; [apply new_ctx_inv|].
  destruct (sync_exec_total c op Hc Hop) as (out' & c2 & He2 & Hc2). congruence.
Qed.

(** *** Timing with sender reports *)

(** The delay of an SSRC is that of its sender report, and in plain RTP timing
    the time of its base is its first timestamp. *)
Definition synced (m : TimestampingMode) (s : Ssrc) : Prop :=
  (m = Rtp -> forall a br bp, ssrc_base_times s = Some (a, br, bp) -> bp = br) /\
  (forall d, current_delay s = Some d -> exists t e rate a br bp,
     last_sr_ntp_timestamp s = Some t /\ last_sr_rtp_ext s = Some e /\ clock_rate s = Some rate /\
     ssrc_base_times s = Some (a, br, bp) /\ d = new_delay t rate e a br).

Lemma pts_result_sync c v rtp arrival rate s pts ntp c' s' :
  clock_rate s = Some rate -> synced (mode c) s ->
  pts_result c v rtp arrival rate s pts ntp c' -> ssrcs c' !! v = Some s' ->
  synced (mode c) s' /\ exists ext et time discont s0 a br bp, ExtendedTimestamp_next (extended_timestamp s) rtp = Ok (ext, et) /\
    ssrc_pts (mode c) (s <| extended_timestamp := et |>) (rtp_ns rate ext) arrival = Ok (time, discont, s0) /\
    ssrc_base_times s' = Some (a, br, bp) /\ clock_rate s' = Some rate /\
    offset_pts c' s' (Z.max 0 (time + a - bp)) pts.
Proof using.
  intros Hrate [Hb Hd] (ext & et & m & discont & s0 & s1 & pts0 & Hn & Hres) Hs'. cbv zeta in Hres.
  destruct Hres as (Hm & (obs & Hs0) & Hbase & Hins & _ & Hoff). rewrite Hins, lookup_insert_eq in Hs'. injection Hs' as <-.
  destruct (default (arrival, rtp_ns rate ext, m) (ssrc_base_times s0)) as [[a br] bp] eqn:Ebase.
  destruct Hbase as (F1 & -> & F2 & F3 & F4 & F5 & _).
  assert (Hr0 : clock_rate s0 = Some rate) by (subst s0; by destruct discont).
  split; [split|].
  - intros Hmode a' br' bp'. rewrite F1. intros [= <- <- <-]. rewrite Hmode in Hm. injection Hm as <- <- <-. cbn in Ebase.
    destruct (ssrc_base_times s) as [[[a0 br0] bp0]|]; cbn in Ebase; injection Ebase as <- <- <-; [|done].
    by apply (Hb Hmode a0 br0 bp0).
  - intros d. rewrite F5, F2, F3, F4, F1, Hr0. destruct discont.
    { rewrite Hs0. done. }
    rewrite Hs0 in *. cbn in *. destruct (current_delay s) as [d0|].
    + intros [= <-]. destruct (Hd d0 eq_refl) as (t & e & rate' & a' & br' & bp' & Et & Ee & Er & Eb & ->).
      rewrite Eb in Ebase. cbn in Ebase. injection Ebase as -> -> ->. rewrite Hrate in Er. eauto 12.
    + destruct (last_sr_ntp_timestamp s) as [t|], (last_sr_rtp_ext s) as [e|]; [|done..].
      intros [= <-]. eauto 12.
  - exists ext, et, m, discont, s0, a, br, bp. rewrite F4. done.
Qed.

Lemma exec_synced m c op out c' :
  mode c = m -> ctx_inv c -> (forall v s, ssrcs c !! v = Some s -> synced m s) -> sync_op_ok c op ->
  sync_exec c op = Ok (out, c') ->
  mode c' = m /\ forall v s, ssrcs c' !! v = Some s -> synced m s.
Proof using H0 Hnow.
  intros Hm Hc Hall Hop. assert (Hnew : forall r, synced m (Ssrc_new r)) by (by split).
  assert (Hent : forall v, synced m (ssrc_entry c v)).
  { intros v. unfold ssrc_entry. destruct (ssrcs c !! v) eqn:E; cbn; eauto. }
  destruct op as [v r|v n|v|v rtp ntp|v rtp a]; cbn.
  - intros [= <- <-]. unfold Context_set_clock_rate. destruct (ssrcs c !! v) as [s|] eqn:Es.
    + unfold Ssrc_set_clock_rate. destruct (decide _).
      * split; [done|]. cbn. intros u s' [[<- <-]|[_ Hu]]%lookup_insert_Some; eauto.
      * set (s' := Ssrc_reset_times _).
        destruct (forget_delay_spec (c <| ssrcs ::= insert v s' |>) (cname s')) as (E1 & _ & E2 & _).
        rewrite E1, E2. split; [done|]. cbn. intros u su [[<- <-]|[_ Hu]]%lookup_insert_Some; eauto. by split.
    + split; [done|]. cbn. intros u s' [[<- <-]|[_ Hu]]%lookup_insert_Some; eauto.
  - intros [= <- <-]. unfold Context_associate. destruct (decide _).
    + split; [done|]. cbn. intros u s' [[<- <-]|[_ Hu]]%lookup_insert_Some; eauto.
    + assert (Hsame : forall s, synced m s -> synced m (s <| cname := Some n |>)) by done.
      unfold Context_disassociate.
      destruct (cname (ssrc_entry c v)); cbn; [destruct (cnames_to_ssrcs c !! n); cbn|];
        (split; [done|]); rewrite insert_insert_eq;
        intros u s' [[<- <-]|[_ Hu]]%lookup_insert_Some; eauto.
  - intros [= <- <-]. unfold Context_remove_ssrc, Context_disassociate.
    destruct (ssrcs c !! v) as [s|]; [|done].
    destruct (cname s) as [n|]; cbn; [destruct (cnames_to_ssrcs c !! n); cbn|];
      (split; [done|]); intros u s' [_ Hu]%lookup_delete_Some; eauto.
  - intros (c2 & Ha & [= <- <-])%bind_ok. unfold Context_add_sender_report, Ssrc_add_sender_report in Ha.
    destruct (ExtendedTimestamp_next _ _) as [[e et]|]; [|done]. cbn in Ha. injection Ha as <-.
    split; [done|]. cbn. intros u s' [[<- <-]|[_ Hu]]%lookup_insert_Some; [|eauto].
    split; [|done]. apply (Hent v).
  - destruct Hop as (Hrate & Hroom & Hr & Ha).
    destruct (has_clock_rate_spec c v Hrate) as (s & rate & Hs & Hrt & Hentry). rewrite Hentry in Hroom.
    destruct (calculate_total c v s rate rtp a Hc Hs Hrt Hroom Hr Ha) as (pts & n & c2 & -> & Hc' & Em & Hres).
    cbn. intros [= <- <-]. split; [congruence|]. subst m. intros u su Hu.
    destruct (pts_result_ssrc _ _ _ _ _ _ _ _ _ Hres) as (s1 & Es & _). destruct (decide (u = v)) as [->|Hne].
    + by eapply pts_result_sync; eauto.
    + rewrite Es, lookup_insert_ne in Hu by done. eauto.
Qed.

Lemma reach_synced m c :
  sync_reach m c -> mode c = m /\ forall v s, ssrcs c !! v = Some s -> synced m s.
Proof using H0 Hnow.
  induction 1 as [|c op out c' Hreach [Hm Hall] Hop He]; [done|].
  eapply exec_synced; eauto using sync_reach_inv.
Qed.
End Sync.

(** ** Properties *)

(** C37: no sequence of calls makes the context panic, while each SSRC keeps
    its CNAME, packets are timed only for SSRCs with a clock rate, clock rates
    are at least 256 Hz and streams shorter than 2^55 ns: every table lookup
    succeeds, every delay is known when it is used, nothing overflows; and the
    tables stay consistent. (An SSRC that changes its CNAME can make the next
    packet panic, see [cname_change_panics].) *)
Theorem sync_no_panic `{GstLaws} now m c op :
  2 ^ 60 <= now <= 2 ^ 62 -> sync_reach now m c -> sync_op_ok c op ->
  ctx_inv c /\ exists out c', sync_exec now c op = Ok (out, c') /\ ctx_inv c'.
Proof.
  intros Hnow Hreach Hop. pose proof (sync_reach_inv now Hnow m c Hreach) as Hc.
  split; [done|]. by apply sync_exec_total.
Qed.


(** Two SSRCs of one CNAME, the first of which may change its CNAME before it
    is removed. *)
Definition cname_calls (change : bool) : list sync_op :=
  [SetClockRate 1 90000; SetClockRate 2 90000; Associate 1 "a"] ++
  (if change then [Associate 1 "b"] else []) ++
  [RemoveSsrc 1; Associate 2 "a"; CalculatePts 2 0 5].

Definition sync_exec_all `{Gst} (now : Z) (c : Sync.Context) (ops : list sync_op) : res Sync.Context :=
  res_fold (fun c op => '(_, c) ← sync_exec now c op; Ok c) c ops.

(** An SSRC that changes its CNAME corrupts the tables: it stays listed
    under its old CNAME, and once it is removed, timing a packet of any other
    SSRC of that CNAME panics. Without the change the same calls return. *)
Lemma cname_change_panics `{GstLaws} now :
  sync_exec_all now (Context_new Arrival) (cname_calls true) = Panic /\
  is_ok (sync_exec_all now (Context_new Arrival) (cname_calls false)) = true.
Proof.
  assert (Hmul : mul_div_round U64 4294967296 1000000000 90000 = Some 47721858844444)
    by (by rewrite mul_div_round_spec by lia).
  clear H0. destruct H as [f r c off]. cbn [mul_div_round] in Hmul.
  split; vm_compute; rewrite Hmul; vm_compute; reflexivity.
Qed.

(** ** Witnesses *)

Fixpoint sync_ops_ok `{Gst} (now : Z) (c : Sync.Context) (ops : list sync_op) : Prop :=
  match ops with
  | [] => True
  | op :: ops => sync_op_ok c op /\
      match sync_exec now c op with Ok (_, c) => sync_ops_ok now c ops | Panic => False end
  end.

Lemma ops_reach `{Gst} now m c ops c' :
  sync_reach now m c -> sync_ops_ok now c ops -> sync_exec_all now c ops = Ok c' -> sync_reach now m c'.
Proof.
  revert c. induction ops as [|op ops IH]; intros c Hc Hok; [by intros [= <-]|].
  destruct Hok as [Hop Hok]. unfold sync_exec_all in *. cbn.
  destruct (sync_exec now c op) as [[out c1]|] eqn:E; [|done]. cbn. apply IH; [|done].
  by eapply reach_step.
Qed.

(** Video and audio of one sender in 2023, their sender reports, and a packet of each half a
    second later; the audio comes 20 ms after the video. *)
Definition sample_now : Z := 1700000000000000000.
Definition sample_sync : list sync_op :=
  [SetClockRate 1 90000; Associate 1 "a"; SetClockRate 2 48000; Associate 2 "a";
   CalculatePts 1 1000 5000000; CalculatePts 2 7000 25000000;
   AddSenderReport 1 1000 (3909000000 * 4294967296); AddSenderReport 2 7000 (3909000000 * 4294967296);
   CalculatePts 1 46000 505000000; CalculatePts 2 31000 525000000].
Definition sample_ctx : Sync.Context :=
  match @sync_exec_all gst_exact sample_now (Context_new Rtp) sample_sync with
  | Ok c => c | Panic => Context_new Rtp end.

(** The room a known context leaves to an SSRC, by computation. *)
Ltac solve_room :=
  let l := fresh "l" in let Hl := fresh "Hl" in let r := fresh "r" in let Hr := fresh "Hr" in
  intros l Hl; vm_compute in Hl;
  first [discriminate Hl
        |injection Hl as <-; split; [vm_compute; split; discriminate|];
         intros r Hr; vm_compute in Hr; injection Hr as <-; vm_compute; discriminate].
Ltac run_exec :=
  lazymatch goal with
  | |- match @sync_exec ?g ?n ?c ?op with _ => _ end =>
      let v := eval vm_compute in (@sync_exec g n c op) in
      change (@sync_exec g n c op) with v; cbv iota beta
  end.

Ltac ok_op :=
  first [intros m Hm; vm_compute in Hm; discriminate|split; [reflexivity|split; [solve_room|vm_compute; repeat split; discriminate]]
        |split; [solve_room|vm_compute; repeat split; discriminate]|cbn; lia].

Lemma sample_reach : @sync_reach gst_exact sample_now Rtp sample_ctx.
Proof.
  eapply (@ops_reach gst_exact sample_now Rtp (Context_new Rtp) sample_sync);
    [constructor| |vm_compute; reflexivity].
  unfold sample_sync. cbn [sync_ops_ok]. repeat (split; [ok_op|run_exec]). exact I.
Qed.

Lemma sample_call_ok : sync_op_ok sample_ctx (CalculatePts 1 91000 1000000000).
Proof. ok_op. Qed.

Lemma sample_call2_ok : sync_op_ok sample_ctx (CalculatePts 2 55000 1040000000).
Proof. ok_op. Qed.

Lemma sample_now_ok : 2 ^ 60 <= sample_now <= 2 ^ 62.
Proof. by vm_compute. Qed.

Lemma sync_no_panic_witness :
  exists out c', @sync_exec gst_exact sample_now sample_ctx (CalculatePts 1 91000 1000000000) = Ok (out, c') /\
    ctx_inv c'.
Proof.
  apply (@sync_no_panic gst_exact gst_exact_laws sample_now Rtp);
    [exact sample_now_ok|exact sample_reach|exact sample_call_ok].
Defined.

Lemma rtp_mode_time `{Gst} s r a time discont s0 : ssrc_pts Rtp s r a = Ok (time, discont, s0) -> time = r.
Proof. by intros [= <- _ _]. Qed.


Lemma cname_change_panics_witness :
  @sync_exec_all gst_exact sample_now (Context_new Arrival) (cname_calls true) = Panic.
Proof. apply (@cname_change_panics gst_exact gst_exact_laws sample_now). Defined.
