(* ===== verification/Lru.v ===== *)
(** * The least-recently-used caches of a session

    The session keeps its remote sources in the caches of the [lru] crate.
    The crate is a parameter: the operations the session calls, and what its
    documentation promises of them, in terms of the order [iter] visits the
    entries in, from the most to the least recently used one. *)

From S2P Require Import Prelude.

Class LruOps := {
  LruCache : Type -> Type;
  lru_new : forall {V}, Z -> LruCache V;
  lru_cap : forall {V}, LruCache V -> Z;
  lru_iter : forall {V}, LruCache V -> list (Z * V);
  lru_push : forall {V}, LruCache V -> Z -> V -> LruCache V;
  lru_pop : forall {V}, LruCache V -> Z -> option V * LruCache V;
  lru_peek : forall {V}, LruCache V -> Z -> option V;
  (* a reference into the cache: the value, and the cache once it is written *)
  lru_get_mut : forall {V}, LruCache V -> Z -> option (V * (V -> LruCache V));
  lru_get_or_insert_mut : forall {V}, LruCache V -> Z -> V -> V * (V -> LruCache V);
  (* writing back the values [iter_mut] visits *)
  lru_write : forall {V}, LruCache V -> list V -> LruCache V;
  lru_peek_lru : forall {V}, LruCache V -> option (Z * V);
  lru_pop_lru : forall {V}, LruCache V -> LruCache V;
  lru_resize : forall {V}, LruCache V -> Z -> LruCache V;
}.

(** Looking a key up in the list of entries, and the other entries. *)
Definition assoc {V} (k : Z) (l : list (Z * V)) : option V :=
  match list_find (fun e => fst e = k) l with Some (_, e) => Some (snd e) | None => None end.
Definition others {V} (k : Z) (l : list (Z * V)) : list (Z * V) := base.filter (fun e => fst e <> k) l.

Definition lru_wf `{LruOps} {V} (c : LruCache V) : Prop :=
  NoDup (lru_iter c).*1 /\ 1 <= lru_cap c /\ Z.of_nat (length (lru_iter c)) <= lru_cap c.

Class LruLaws `{LruOps} : Prop := {
  lru_new_spec {V} n : 1 <= n -> lru_iter (lru_new (V := V) n) = [] /\ lru_cap (lru_new (V := V) n) = n;
  lru_push_iter {V} (c : LruCache V) k v : lru_wf c ->
    lru_iter (lru_push c k v) = take (Z.to_nat (lru_cap c)) ((k, v) :: others k (lru_iter c));
  lru_push_cap {V} (c : LruCache V) k v : lru_cap (lru_push c k v) = lru_cap c;
  lru_pop_spec {V} (c : LruCache V) k : lru_wf c ->
    fst (lru_pop c k) = assoc k (lru_iter c) /\ lru_iter (snd (lru_pop c k)) = others k (lru_iter c);
  lru_pop_cap {V} (c : LruCache V) k : lru_cap (snd (lru_pop c k)) = lru_cap c;
  lru_peek_spec {V} (c : LruCache V) k : lru_wf c -> lru_peek c k = assoc k (lru_iter c);
  lru_get_mut_spec {V} (c : LruCache V) k : lru_wf c ->
    match assoc k (lru_iter c) with
    | None => lru_get_mut c k = None
    | Some v => exists set, lru_get_mut c k = Some (v, set) /\
        forall w, lru_iter (set w) = (k, w) :: others k (lru_iter c) /\ lru_cap (set w) = lru_cap c
    end;
  lru_get_or_insert_mut_spec {V} (c : LruCache V) k v0 : lru_wf c ->
    fst (lru_get_or_insert_mut c k v0) = default v0 (assoc k (lru_iter c)) /\
    forall w, lru_iter (snd (lru_get_or_insert_mut c k v0) w) =
        take (Z.to_nat (lru_cap c)) ((k, w) :: others k (lru_iter c)) /\
      lru_cap (snd (lru_get_or_insert_mut c k v0) w) = lru_cap c;
  lru_write_spec {V} (c : LruCache V) vs : lru_wf c -> length vs = length (lru_iter c) ->
    lru_iter (lru_write c vs) = zip (lru_iter c).*1 vs /\ lru_cap (lru_write c vs) = lru_cap c;
  lru_peek_lru_spec {V} (c : LruCache V) : lru_wf c -> lru_peek_lru c = last (lru_iter c);
  lru_pop_lru_spec {V} (c : LruCache V) : lru_wf c ->
    lru_iter (lru_pop_lru c) = removelast (lru_iter c) /\ lru_cap (lru_pop_lru c) = lru_cap c;
  lru_resize_spec {V} (c : LruCache V) n : lru_wf c -> 1 <= n ->
    lru_iter (lru_resize c n) = take (Z.to_nat n) (lru_iter c) /\ lru_cap (lru_resize c n) = n;
}.

(** ** An implementation of the contract *)

Record lru_list (V : Type) := mkLruList { ll_cap : Z; ll_entries : list (Z * V) }.
Arguments mkLruList {V} _ _.
Arguments ll_cap {V} _.
Arguments ll_entries {V} _.

Definition ll_front {V} (c : lru_list V) (k : Z) (v : V) : lru_list V :=
  mkLruList (ll_cap c) (take (Z.to_nat (ll_cap c)) ((k, v) :: others k (ll_entries c))).

Definition lru_exact : LruOps := {|
  LruCache := lru_list;
  lru_new V n := mkLruList n [];
  lru_cap V c := ll_cap c;
  lru_iter V c := ll_entries c;
  lru_push V c k v := ll_front c k v;
  lru_pop V c k := (assoc k (ll_entries c), mkLruList (ll_cap c) (others k (ll_entries c)));
  lru_peek V c k := assoc k (ll_entries c);
  lru_get_mut V c k :=
    match assoc k (ll_entries c) with
    | Some v => Some (v, fun w => mkLruList (ll_cap c) ((k, w) :: others k (ll_entries c)))
    | None => None
    end;
  lru_get_or_insert_mut V c k v0 := (default v0 (assoc k (ll_entries c)), fun w => ll_front c k w);
  lru_write V c vs := mkLruList (ll_cap c) (zip (ll_entries c).*1 vs);
  lru_peek_lru V c := last (ll_entries c);
  lru_pop_lru V c := mkLruList (ll_cap c) (removelast (ll_entries c));
  lru_resize V c n := mkLruList n (take (Z.to_nat n) (ll_entries c));
|}.

Lemma lru_exact_laws : @LruLaws lru_exact.
Proof.
  split; intros; cbn in *; try done.
  destruct (assoc k (ll_entries c)); eauto.
Qed.

(** ** Reading and updating the entries *)

Section Entries.
Context {V : Type}.
Implicit Types (l : list (Z * V)) (k j : Z).

Lemma assoc_Some k l v : assoc k l = Some v -> (k, v) ∈ l.
Proof.
  unfold assoc. destruct (list_find _ l) as [[i [k' v']]|] eqn:E; [|done].
  apply list_find_Some in E as (Hi & Hk & _). cbn in Hk. subst. intros [= <-].
  by eapply list_elem_of_lookup_2.
Qed.

Lemma assoc_None k l : assoc k l = None <-> k ∉ l.*1.
Proof.
  unfold assoc. destruct (list_find _ l) as [[i [k' v']]|] eqn:E.
  - apply list_find_Some in E as (Hi & Hk & _). cbn in Hk. subst. split; [done|]. intros Hn. destruct Hn.
    apply list_elem_of_fmap. exists (k, v'). split; [done|]. by eapply list_elem_of_lookup_2.
  - split; [intros _|done]. apply list_find_None in E. rewrite Forall_forall in E.
    intros ([k' v'] & -> & Hin)%list_elem_of_fmap. by apply (E _ Hin).
Qed.

Lemma elem_of_others k l e : e ∈ others k l <-> fst e <> k /\ e ∈ l.
Proof. unfold others. by rewrite list_elem_of_filter. Qed.

Lemma others_notin k l : k ∉ (others k l).*1.
Proof. intros (e & Hk & [Hne _]%elem_of_others)%list_elem_of_fmap. by apply Hne. Qed.

Lemma others_nodup k l : NoDup l.*1 -> NoDup (others k l).*1.
Proof. intros Hn. eapply sublist_NoDup; [done|apply fmap_sublist, sublist_filter]. Qed.

Lemma others_length k l : (length (others k l) <= length l)%nat.
Proof. apply length_filter. Qed.

Lemma others_length_lt k l v : (k, v) ∈ l -> (length (others k l) < length l)%nat.
Proof. intros Hin. apply (length_filter_lt _ _ (k, v)); [done|]. cbn. by intros []. Qed.
End Entries.

Section Caches.
Context `{LruLaws}.
Context {V : Type}.
Implicit Types (c : LruCache V) (k j : Z) (P : Z -> V -> Prop).

Definition cache_keys (c : LruCache V) : list Z := (lru_iter c).*1.

(** [c'] is [c] with [k] bound to [w], most recently used. *)
Definition front (c : LruCache V) (k : Z) (w : V) (c' : LruCache V) : Prop :=
  lru_iter c' = take (Z.to_nat (lru_cap c)) ((k, w) :: others k (lru_iter c)) /\ lru_cap c' = lru_cap c.

Lemma front_elem c k w c' e : front c k w c' -> e ∈ lru_iter c' -> e = (k, w) \/ (e ∈ lru_iter c /\ fst e <> k).
Proof using.
  intros [-> _] He. apply elem_of_take in He as (i & He & _). apply list_elem_of_lookup_2 in He.
  apply elem_of_cons in He as [->|[? ?]%elem_of_others]; auto.
Qed.

Lemma front_wf c k w c' : lru_wf c -> front c k w c' -> lru_wf c'.
Proof using.
  intros (Hn & Hc & Hl) [Hi Hcap]. unfold lru_wf. rewrite Hi, Hcap. split_and!; [|done|].
  - rewrite fmap_take. eapply sublist_NoDup; [|apply sublist_take]. cbn.
    constructor; [apply others_notin|by apply others_nodup].
  - rewrite length_take. lia.
Qed.

Lemma front_forall P c k w c' :
  Forall (fun e => P (fst e) (snd e)) (lru_iter c) -> P k w -> front c k w c' ->
  Forall (fun e => P (fst e) (snd e)) (lru_iter c').
Proof using.
  intros Hall Hw Hf. rewrite Forall_forall in Hall. apply Forall_forall. intros e He.
  destruct (front_elem _ _ _ _ _ Hf He) as [->|[He' _]]; [done|by apply Hall].
Qed.

Lemma front_keys c k w c' j : front c k w c' -> j ∈ cache_keys c' -> j = k \/ j ∈ cache_keys c.
Proof using.
  intros Hf (e & -> & He)%list_elem_of_fmap.
  destruct (front_elem _ _ _ _ _ Hf He) as [->|[He' _]]; [by left|right].
  apply list_elem_of_fmap. eauto.
Qed.

Lemma push_front c k v : lru_wf c -> front c k v (lru_push c k v).
Proof using H0. intros Hwf. split; [by apply lru_push_iter|apply lru_push_cap]. Qed.

Lemma get_mut_Some c k v set :
  lru_wf c -> lru_get_mut c k = Some (v, set) -> (k, v) ∈ lru_iter c /\ forall w, front c k w (set w).
Proof using H0.
  intros Hwf Hg. pose proof (lru_get_mut_spec c k Hwf) as Hs.
  destruct (assoc k (lru_iter c)) as [v'|] eqn:E; [|congruence].
  destruct Hs as (set' & Hg' & Hset). rewrite Hg in Hg'. injection Hg' as -> ->.
  apply assoc_Some in E. split; [done|]. intros w. destruct (Hset w) as [Hi Hc]. split; [|done].
  rewrite Hi, take_ge; [done|]. pose proof (others_length_lt k (lru_iter c) v' E).
  destruct Hwf as (_ & _ & Hl). cbn. lia.
Qed.

Lemma get_mut_None c k : lru_wf c -> lru_get_mut c k = None -> k ∉ cache_keys c.
Proof using H0.
  intros Hwf Hg. pose proof (lru_get_mut_spec c k Hwf) as Hs.
  destruct (assoc k (lru_iter c)) as [v'|] eqn:E; [|by apply assoc_None].
  destruct Hs as (set' & Hg' & _). congruence.
Qed.

Lemma get_or_insert_front c k v0 v set :
  lru_wf c -> lru_get_or_insert_mut c k v0 = (v, set) ->
  ((k, v) ∈ lru_iter c \/ (v = v0 /\ k ∉ cache_keys c)) /\ forall w, front c k w (set w).
Proof using H0.
  intros Hwf Hg. destruct (lru_get_or_insert_mut_spec c k v0 Hwf) as [Hv Hset].
  rewrite Hg in Hv, Hset. cbn in Hv, Hset. split; [|exact Hset].
  destruct (assoc k (lru_iter c)) as [v'|] eqn:E; cbn in Hv; subst.
  - left. by apply assoc_Some.
  - right. split; [done|by apply assoc_None].
Qed.

Lemma pop_spec c k o c' :
  lru_wf c -> lru_pop c k = (o, c') ->
  lru_wf c' /\ lru_iter c' = others k (lru_iter c) /\ lru_cap c' = lru_cap c /\
  match o with Some v => (k, v) ∈ lru_iter c | None => k ∉ cache_keys c end.
Proof using H0.
  intros Hwf Hp. destruct (lru_pop_spec c k Hwf) as [Ho Hi]. pose proof (lru_pop_cap c k) as Hc.
  rewrite Hp in Ho, Hi, Hc. cbn in Ho, Hi, Hc. destruct Hwf as (Hn & Hcap & Hl).
  split_and!; [|done|done|].
  - unfold lru_wf. rewrite Hi, Hc. split_and!; [by apply others_nodup|done|].
    pose proof (others_length k (lru_iter c)). lia.
  - subst o. destruct (assoc k (lru_iter c)) eqn:E; [by apply assoc_Some|by apply assoc_None].
Qed.

Lemma peek_None c k : lru_wf c -> lru_peek c k = None <-> k ∉ cache_keys c.
Proof using H0. intros Hwf. rewrite lru_peek_spec by done. apply assoc_None. Qed.
End Caches.
