(* ===== verification/Source.v ===== *)
(** * RTP sources (net/rtp/src/rtpbin2/source.rs)

    What a session knows of each SSRC: the local sources it sends or receives
    as, and the remote ones, with probation of new senders, reception
    statistics and report blocks, and requests for key units. *)

From S2P Require Import Prelude Utils Time.

Definition DEFAULT_PROBATION_N_PACKETS : Z := 2.
Definition DEFAULT_MAX_DROPOUT : Z := 3000.
Definition DEFAULT_MAX_MISORDER : Z := 100.
Definition BITRATE_WINDOW : Z := duration_from_secs 3.

(** ** Strings and addresses of the standard library *)

(** A socket address: the bytes of the IP address, and the port. *)
Definition SocketAddr : Type := list Z * Z.

(** Strings are their UTF-8 bytes. [std::str::from_utf8]: *)
Definition utf8_cont (b : Z) : bool := (128 <=? b) && (b <? 192).
Definition in_range (b lo hi : Z) : bool := (lo <=? b) && (b <=? hi).
Fixpoint utf8_valid (s : list Z) : bool :=
  match s with
  | [] => true
  | b :: s1 =>
      if b <? 128 then utf8_valid s1
      else if in_range b 194 223 then
        match s1 with c :: s2 => utf8_cont c && utf8_valid s2 | _ => false end
      else if in_range b 224 239 then
        match s1 with
        | c :: d :: s3 =>
            (if b =? 224 then in_range c 160 191
             else if b =? 237 then in_range c 128 159 else utf8_cont c)
            && utf8_cont d && utf8_valid s3
        | _ => false
        end
      else if in_range b 240 244 then
        match s1 with
        | c :: d :: e :: s4 =>
            (if b =? 240 then in_range c 144 191
             else if b =? 244 then in_range c 128 143 else utf8_cont c)
            && utf8_cont d && utf8_cont e && utf8_valid s4
        | _ => false
        end
      else false
  end.
Definition from_utf8 (value : list Z) : option (list Z) :=
  if utf8_valid value then Some value else None.

(** ** Bitrate estimation *)

Record Bitrate := mkBitrate {
  max_time : Z;
  entries : list (Z * Z);               (* VecDeque<(usize, Instant)>, oldest first *)
}.
#[export] Instance Bitrate_rebuild : Rebuild Bitrate :=
  {| rebuild := fun b => mkBitrate (max_time b) (entries b) |}.

Definition Bitrate_new (max_time : Z) : Bitrate := mkBitrate max_time [].

(** The loop that pops entries until one is recent enough. *)
Fixpoint drop_stale (max_time time : Z) (es : list (Z * Z)) : list (Z * Z) :=
  match es with
  | [] => []
  | (bytes, latest_time) :: es' =>
      if instant_sub time latest_time <? max_time then es else drop_stale max_time time es'
  end.

Definition Bitrate_add_entry (self : Bitrate) (bytes time : Z) : Bitrate :=
  self <| entries := drop_stale (max_time self) time (entries self ++ [(bytes, time)]) |>.

Definition Bitrate_bitrate `{Gst} (self : Bitrate) : res Z :=
  match entries self with
  | front :: _ =>
      back ← unwrap (last (entries self));
      let dur_micros := instant_sub (snd back) (snd front) / 1000 in
      if dur_micros =? 0 then Ok (fst front)
      else
        bytes ← res_fold (fun acc e => u64_add acc (fst e)) 0 (entries self);
        Ok (default (fst front) (mul_div_round U64 bytes 1000000 (wrap U64 dur_micros)))
  | [] => Ok 0
  end.

Definition Bitrate_reset (self : Bitrate) : Bitrate := self <| entries := [] |>.

(** ** Report blocks *)

Record Rb := mkRb {
  rb_ssrc : Z;
  rb_fraction_lost : Z;                 (* u8 *)
  rb_cumulative_lost : Z;               (* u32 *)
  rb_extended_sequence_number : Z;
  rb_jitter : Z;
  rb_last_sr : Z;
  rb_delay_since_last_sr : Z;
}.

(** Decoding the 24-bit count of lost packets. *)
Definition Rb_cumulative_lost (self : Rb) : Z :=
  if Z.land (rb_cumulative_lost self) 8388608 >? 0
  then - (swrap U32 (Z.land (rb_cumulative_lost self) 8388607))
  else swrap U32 (rb_cumulative_lost self).

Record ReceivedRb := mkReceivedRb {
  rrb_rb : Rb;
  rrb_receive_time : Z;
  rrb_receive_ntp_time : NtpTime;
}.

Definition ReceivedRb_round_trip_time (self : ReceivedRb) : res Z :=
  rb_send_ntp_time ← u64_add (rb_last_sr (rrb_rb self)) (rb_delay_since_last_sr (rrb_rb self));
  if rb_send_ntp_time =? 0 then Ok 0
  else
    let rb_recv_ntp_time := NtpTime_as_u32 (rrb_receive_ntp_time self) in
    rb_recv_ntp_time ←
      (if rb_send_ntp_time >? rb_recv_ntp_time then
         if rb_send_ntp_time - rb_recv_ntp_time >? 2147483647
         then u64_add rb_recv_ntp_time (U32 - 1)
         else Ok rb_recv_ntp_time
       else Ok rb_recv_ntp_time);
    let diff := saturating_sub rb_recv_ntp_time rb_send_ntp_time in
    if Z.shiftr diff 16 >? 5 then Ok (duration_from_secs 1)
    else
      rtt ← u64_mul 2 diff;
      ns ← u64_mul rtt 1000000000;
      Ok (ns / 65536).

Record Sr := mkSr {
  sr_local_time : Z;
  sr_remote_time : NtpTime;
  sr_rtp_time : Z;
  sr_octet_count : Z;
  sr_packet_count : Z;
}.

(** ** Sources *)

Inductive SourceState := Probation (n : Z) | Normal | Bye.
#[export] Instance SourceState_eq_dec : EqDecision SourceState.
Proof. solve_decision. Defined.

Record Source := mkSource {
  src_ssrc : Z;
  src_state : SourceState;
  src_sdes : gmap Z (list Z);
  src_last_activity : Z;
  src_payload_type : option Z;
}.
#[export] Instance Source_rebuild : Rebuild Source :=
  {| rebuild := fun s => mkSource (src_ssrc s) (src_state s) (src_sdes s) (src_last_activity s) (src_payload_type s) |}.

(** [now] is the reading of [Instant::now()]. *)
Definition Source_new (now ssrc : Z) : Source := {|
  src_ssrc := ssrc;
  src_state := Probation DEFAULT_PROBATION_N_PACKETS;
  src_sdes := ∅;
  src_last_activity := now;
  src_payload_type := None;
|}.

Definition Source_set_state (self : Source) (state : SourceState) : Source :=
  self <| src_state := state |>.

(** *** Local senders *)

Record LocalSendSource := mkLocalSendSource {
  lss_source : Source;
  lss_ext_seqnum : ExtendedSeqnum;
  lss_last_rtp_sent : option (Z * Z);
  lss_sent_bytes : Z;
  lss_sent_packets : Z;
  lss_bitrate : Bitrate;
  lss_bye_sent_time : option Z;
  lss_bye_reason : option (list Z);
  lss_last_sent_sr : option Sr;
  lss_last_received_rb : gmap Z ReceivedRb;
}.
#[export] Instance LocalSendSource_rebuild : Rebuild LocalSendSource :=
  {| rebuild := fun s => mkLocalSendSource (lss_source s) (lss_ext_seqnum s) (lss_last_rtp_sent s) (lss_sent_bytes s)
    (lss_sent_packets s) (lss_bitrate s) (lss_bye_sent_time s) (lss_bye_reason s) (lss_last_sent_sr s)
    (lss_last_received_rb s) |}.

Definition LocalSendSource_new (now ssrc : Z) : LocalSendSource := {|
  lss_source := Source_new now ssrc;
  lss_ext_seqnum := ExtendedSeqnum_default;
  lss_last_rtp_sent := None;
  lss_sent_bytes := 0;
  lss_sent_packets := 0;
  lss_bitrate := Bitrate_new BITRATE_WINDOW;
  lss_bye_sent_time := None;
  lss_bye_reason := None;
  lss_last_sent_sr := None;
  lss_last_received_rb := ∅;
|}.

Definition LocalSendSource_set_state (self : LocalSendSource) (state : SourceState) : LocalSendSource :=
  self <| lss_source ::= fun s => Source_set_state s state |>.

Definition LocalSendSource_state (self : LocalSendSource) : SourceState := src_state (lss_source self).
Definition LocalSendSource_ssrc (self : LocalSendSource) : Z := src_ssrc (lss_source self).

Definition LocalSendSource_sent_packet (self : LocalSendSource)
    (bytes time seqnum rtp_time payload_type : Z) : res LocalSendSource :=
  let self := self <| lss_bitrate ::= fun b => Bitrate_add_entry b bytes time |> in
  '(_, ext) ← ExtendedSeqnum_next (lss_ext_seqnum self) seqnum;
  let self := self <| lss_ext_seqnum := ext |>
                   <| lss_source ::= modify src_payload_type (fun _ => Some payload_type) |>
                   <| lss_sent_bytes ::= fun b => wrap U64 (b + wrap U64 bytes) |> in
  packets ← u64_add (lss_sent_packets self) 1;
  Ok (self <| lss_sent_packets := packets |> <| lss_last_rtp_sent := Some (rtp_time, time) |>).

Definition LocalSendSource_set_sdes_item (self : LocalSendSource) (type_ : Z) (value : list Z)
  : LocalSendSource :=
  self <| lss_source ::= modify src_sdes (insert type_ value) |>.

Definition LocalSendSource_set_sdes (self : LocalSendSource) (sdes : gmap Z (list Z)) : LocalSendSource :=
  self <| lss_source ::= modify src_sdes (fun _ => sdes) |>.

Definition LocalSendSource_set_last_activity (self : LocalSendSource) (time : Z) : LocalSendSource :=
  self <| lss_source ::= modify src_last_activity (fun _ => time) |>.

Definition LocalSendSource_last_activity (self : LocalSendSource) : Z := src_last_activity (lss_source self).

Definition LocalSendSource_take_sr_snapshot (self : LocalSendSource) (ntp_now : Z) (ntp_time : NtpTime)
    (rtp_timestamp : Z) : LocalSendSource :=
  self <| lss_last_sent_sr := Some {|
    sr_local_time := ntp_now;
    sr_remote_time := ntp_time;
    sr_rtp_time := rtp_timestamp;
    sr_octet_count := and_mask (lss_sent_bytes self) 32;
    sr_packet_count := and_mask (lss_sent_packets self) 32;
  |} |>.

Definition LocalSendSource_bye_sent_at (self : LocalSendSource) (time : Z) : LocalSendSource :=
  self <| lss_bye_sent_time := Some time |>.

Definition LocalSendSource_mark_bye (self : LocalSendSource) (reason : list Z) : LocalSendSource :=
  if decide (src_state (lss_source self) = Bye) then self
  else (LocalSendSource_set_state self Bye) <| lss_bye_reason := Some reason |>.

Definition LocalSendSource_add_last_rb `{Gst} (self : LocalSendSource) (sender_ssrc : Z) (rb : Rb)
    (now ntp_now : Z) : res LocalSendSource :=
  ntp_now ← system_time_to_ntp_time_u64 ntp_now;
  Ok (self <| lss_last_received_rb ::= insert sender_ssrc (mkReceivedRb rb now ntp_now) |>).

(** *** Local receivers *)

Record LocalReceiveSource := mkLocalReceiveSource {
  lrs_source : Source;
  lrs_bye_sent_time : option Z;
  lrs_bye_reason : option (list Z);
}.
#[export] Instance LocalReceiveSource_rebuild : Rebuild LocalReceiveSource :=
  {| rebuild := fun s => mkLocalReceiveSource (lrs_source s) (lrs_bye_sent_time s) (lrs_bye_reason s) |}.

Definition LocalReceiveSource_new (now ssrc : Z) : LocalReceiveSource :=
  mkLocalReceiveSource (Source_new now ssrc) None None.

Definition LocalReceiveSource_set_state (self : LocalReceiveSource) (state : SourceState)
  : LocalReceiveSource :=
  self <| lrs_source ::= fun s => Source_set_state s state |>.

Definition LocalReceiveSource_state (self : LocalReceiveSource) : SourceState := src_state (lrs_source self).
Definition LocalReceiveSource_ssrc (self : LocalReceiveSource) : Z := src_ssrc (lrs_source self).

Definition LocalReceiveSource_set_sdes_item (self : LocalReceiveSource) (type_ : Z) (value : list Z)
  : LocalReceiveSource :=
  self <| lrs_source ::= modify src_sdes (insert type_ value) |>.

Definition LocalReceiveSource_set_sdes (self : LocalReceiveSource) (sdes : gmap Z (list Z))
  : LocalReceiveSource :=
  self <| lrs_source ::= modify src_sdes (fun _ => sdes) |>.

Definition LocalReceiveSource_set_last_activity (self : LocalReceiveSource) (time : Z)
  : LocalReceiveSource :=
  self <| lrs_source ::= modify src_last_activity (fun _ => time) |>.

Definition LocalReceiveSource_last_activity (self : LocalReceiveSource) : Z :=
  src_last_activity (lrs_source self).

Definition LocalReceiveSource_bye_sent_at (self : LocalReceiveSource) (time : Z) : LocalReceiveSource :=
  self <| lrs_bye_sent_time := Some time |>.

Definition LocalReceiveSource_mark_bye (self : LocalReceiveSource) (reason : list Z)
  : LocalReceiveSource :=
  if decide (src_state (lrs_source self) = Bye) then self
  else (LocalReceiveSource_set_state self Bye) <| lrs_bye_reason := Some reason |>.

Definition LocalSendSource_into_receive (self : LocalSendSource) : LocalReceiveSource := {|
  lrs_source := lss_source self;
  lrs_bye_sent_time := lss_bye_sent_time self;
  lrs_bye_reason := lss_bye_reason self;
|}.

(** *** Remote senders *)

Inductive SourceRecvReply :=
| ReplyHold (id : Z)
| ReplyDrop (id : Z)
| ReplyForward (id : Z)
| ReplyPassthrough
| ReplyIgnore.
#[export] Instance SourceRecvReply_eq_dec : EqDecision SourceRecvReply.
Proof. solve_decision. Defined.

Record HeldRecvBuffer := mkHeldRecvBuffer {
  held_id : Z;
  held_time : Z;
  held_seqnum : Z;
  held_bytes : Z;
}.

Inductive KeyUnitRequestType := Fir (count : Z) | Pli.

Record RemoteSendSource := mkRemoteSendSource {
  rss_source : Source;
  rss_probation_packets : Z;
  rss_last_received_sr : option Sr;
  rss_rtp_from : option SocketAddr;
  rss_rtcp_from : option SocketAddr;
  rss_initial_seqnum : option Z;
  rss_ext_seqnum : ExtendedSeqnum;
  rss_recv_bytes : Z;
  rss_recv_packets : Z;
  rss_recv_packets_at_last_rtcp : Z;
  rss_ext_seqnum_at_last_rtcp : Z;
  rss_jitter : Z;
  rss_transit : option Z;
  rss_held_buffers : list HeldRecvBuffer;      (* VecDeque, front first *)
  rss_bitrate : Bitrate;
  rss_last_sent_rb : option Rb;
  rss_last_received_rb : gmap Z ReceivedRb;
  rss_last_request_key_unit : gmap Z Z;
  rss_send_pli : bool;
  rss_send_fir : bool;
  rss_send_fir_seqnum : Z;
  rss_send_fir_count : option Z;
}.
#[export] Instance RemoteSendSource_rebuild : Rebuild RemoteSendSource :=
  {| rebuild := fun s => mkRemoteSendSource (rss_source s) (rss_probation_packets s) (rss_last_received_sr s)
    (rss_rtp_from s) (rss_rtcp_from s) (rss_initial_seqnum s) (rss_ext_seqnum s) (rss_recv_bytes s)
    (rss_recv_packets s) (rss_recv_packets_at_last_rtcp s) (rss_ext_seqnum_at_last_rtcp s)
    (rss_jitter s) (rss_transit s) (rss_held_buffers s) (rss_bitrate s) (rss_last_sent_rb s)
    (rss_last_received_rb s) (rss_last_request_key_unit s) (rss_send_pli s) (rss_send_fir s)
    (rss_send_fir_seqnum s) (rss_send_fir_count s) |}.

(** A remote sender built on a source record, shared by [new] and
    [RemoteReceiveSource::into_send]. *)
Definition remote_send_from (source : Source) (rtcp_from : option SocketAddr)
    (last_request_key_unit : gmap Z Z) : RemoteSendSource := {|
  rss_source := source;
  rss_probation_packets := DEFAULT_PROBATION_N_PACKETS;
  rss_last_received_sr := None;
  rss_rtp_from := None;
  rss_rtcp_from := rtcp_from;
  rss_initial_seqnum := None;
  rss_ext_seqnum := ExtendedSeqnum_default;
  rss_recv_bytes := 0;
  rss_recv_packets := 0;
  rss_recv_packets_at_last_rtcp := 0;
  rss_ext_seqnum_at_last_rtcp := 0;
  rss_held_buffers := [];
  rss_jitter := 0;
  rss_transit := None;
  rss_bitrate := Bitrate_new BITRATE_WINDOW;
  rss_last_sent_rb := None;
  rss_last_received_rb := ∅;
  rss_last_request_key_unit := last_request_key_unit;
  rss_send_pli := false;
  rss_send_fir := false;
  rss_send_fir_seqnum := 0;
  rss_send_fir_count := None;
|}.

Definition RemoteSendSource_new (now ssrc : Z) : RemoteSendSource :=
  remote_send_from (Source_new now ssrc) None ∅.

Definition RemoteSendSource_ssrc (self : RemoteSendSource) : Z := src_ssrc (rss_source self).
Definition RemoteSendSource_state (self : RemoteSendSource) : SourceState := src_state (rss_source self).

Definition RemoteSendSource_set_state (self : RemoteSendSource) (state : SourceState) : RemoteSendSource :=
  self <| rss_source ::= fun s => Source_set_state s state |>.

Definition RemoteSendSource_set_rtp_from (self : RemoteSendSource) (from : option SocketAddr)
  : RemoteSendSource := self <| rss_rtp_from := from |>.
Definition RemoteSendSource_set_rtcp_from (self : RemoteSendSource) (from : option SocketAddr)
  : RemoteSendSource := self <| rss_rtcp_from := from |>.

Definition RemoteSendSource_set_last_received_sr (self : RemoteSendSource) (ntp_time : Z)
    (remote_time : NtpTime) (rtp_time octet_count packet_count : Z) : RemoteSendSource :=
  self <| rss_last_received_sr := Some (mkSr ntp_time remote_time rtp_time octet_count packet_count) |>.

Definition RemoteSendSource_init_sequence (self : RemoteSendSource) (seqnum : Z) : RemoteSendSource :=
  self <| rss_last_received_sr := None |>
       <| rss_recv_bytes := 0 |>
       <| rss_recv_packets := 0 |>
       <| rss_recv_packets_at_last_rtcp := 0 |>
       <| rss_initial_seqnum := ExtendedSeqnum_current (rss_ext_seqnum self) |>
       <| rss_ext_seqnum_at_last_rtcp :=
            match ExtendedSeqnum_current (rss_ext_seqnum self) with
            | Some ext => ext
            | None => 65536 + seqnum
            end |>
       <| rss_bitrate ::= Bitrate_reset |>.

(** [VecDeque::pop_back] *)
Definition pop_back {A} (l : list A) : option (A * list A) :=
  match last l with Some x => Some (x, removelast l) | None => None end.

Section RecvPacket.
Context `{Gst}.

Definition RemoteSendSource_recv_packet_add_to_stats (self : RemoteSendSource)
  (rtp_timestamp now initial_time payload_type : Z) (clock_rate : option Z) (ext_seqnum bytes : Z)
: res RemoteSendSource :=
self ← match clock_rate with
       | Some clock_rate =>
           let micros := and_mask (instant_sub now initial_time / 1000) 64 in
           rtparrival ← unwrap (mul_div_round U32 (wrap U32 micros) clock_rate 1000000);
           let transit := wrap U32 (rtparrival - rtp_timestamp) in
           let diff := match rss_transit self with
                       | Some existing_transit => abs_diff existing_transit transit
                       | None => 0
                       end in
           let self := self <| rss_transit := Some transit |> in
           Ok (self <| rss_jitter ::= fun jitter =>
                 saturating_add U32 jitter
                   (saturating_sub diff (Z.shiftr (saturating_add U32 jitter 8) 4)) |>)
       | None => Ok self
       end;
let self := self <| rss_source ::= modify src_payload_type (fun _ => Some payload_type) |> in
let self := match rss_initial_seqnum self with
            | None => self <| rss_initial_seqnum := Some ext_seqnum |>
            | Some _ => self
            end in
let self := self <| rss_bitrate ::= fun b => Bitrate_add_entry b bytes now |>
                 <| rss_recv_bytes ::= fun b => wrap U64 (b + bytes) |> in
packets ← u64_add (rss_recv_packets self) 1;
Ok (self <| rss_recv_packets := packets |>).

(** Holding a packet of a source in probation, with the state set once it is
  held: the reply, and whether it is final (an early return). *)
Definition hold_buffer (self : RemoteSendSource) (state : option SourceState) (buffer : HeldRecvBuffer)
: SourceRecvReply * bool * RemoteSendSource :=
let self := self <| rss_held_buffers ::= cons buffer |> in
if Z.of_nat (length (rss_held_buffers self)) >? rss_probation_packets self then
  match pop_back (rss_held_buffers self) with
  | Some (held, rest) => (ReplyDrop (held_id held), true, self <| rss_held_buffers := rest |>)
  | None => (ReplyHold (held_id buffer), false, self)
  end
else (ReplyHold (held_id buffer), false,
      match state with Some st => RemoteSendSource_set_state self st | None => self end).

(** The decision on a packet of a source in probation. *)
Definition probation_reply (self : RemoteSendSource) (n_probation diff : Z) (buffer : HeldRecvBuffer)
: SourceRecvReply * bool * RemoteSendSource :=
let leave := RemoteSendSource_set_state (RemoteSendSource_init_sequence self (held_seqnum buffer)) Normal in
if diff =? 1 then
  if (0 <=? n_probation) && (n_probation <=? 1) then (ReplyPassthrough, false, leave)
  else hold_buffer self (Some (Probation (n_probation - 1))) buffer
else if rss_probation_packets self >? 0 then
  let self := RemoteSendSource_set_state self (Probation (rss_probation_packets self - 1)) in
  match pop_back (rss_held_buffers self) with
  | Some (held, rest) => (ReplyDrop (held_id held), true, self <| rss_held_buffers := rest |>)
  | None => hold_buffer self None buffer
  end
else (ReplyPassthrough, false, leave).

(** The decision on a packet of a source that has left probation. *)
Definition window_reply (self : RemoteSendSource) (diff : Z) : SourceRecvReply * bool * RemoteSendSource :=
if (diff >=? 1) && (diff <? DEFAULT_MAX_DROPOUT) then (ReplyPassthrough, false, self)
else if (diff <? - DEFAULT_MAX_MISORDER) || (diff >=? DEFAULT_MAX_DROPOUT)
then (ReplyIgnore, true, self)
else (ReplyPassthrough, false, self).

(** Once the reply is decided: a buffer that is still held goes first. *)
Definition deliver (self : RemoteSendSource) (ret : SourceRecvReply)
  (bytes time rtp_timestamp payload_type : Z) (clock_rate : option Z) (ext_seqnum initial_time : Z)
: res (SourceRecvReply * RemoteSendSource) :=
match (if decide (ret = ReplyPassthrough) then pop_back (rss_held_buffers self) else None) with
| Some (held, rest) =>
    self ← RemoteSendSource_recv_packet_add_to_stats (self <| rss_held_buffers := rest |>)
             rtp_timestamp (held_time held) initial_time payload_type clock_rate ext_seqnum
             (held_bytes held);
    Ok (ReplyForward (held_id held), self)
| None =>
    self ← RemoteSendSource_recv_packet_add_to_stats self rtp_timestamp time initial_time
             payload_type clock_rate ext_seqnum bytes;
    Ok (ret, self)
end.

(** [initial_time] is the value of [INITIAL_RECV_TIME] once it is set: the
  time of the first packet the process received. *)
Definition RemoteSendSource_recv_packet (self : RemoteSendSource)
  (bytes time seqnum rtp_timestamp payload_type : Z) (clock_rate : option Z)
  (hold_buffer_id initial_time : Z) : res (SourceRecvReply * RemoteSendSource) :=
if decide (RemoteSendSource_state self = Bye) then Ok (ReplyIgnore, self) else
let previous_seqnum := ExtendedSeqnum_current (rss_ext_seqnum self) in
'(ext_seqnum, ext) ← ExtendedSeqnum_next (rss_ext_seqnum self) seqnum;
let self := self <| rss_ext_seqnum := ext |> in
let diff := match previous_seqnum with
            | Some ext => swrap U64 (swrap U64 ext_seqnum - swrap U64 ext)
            | None => 0
            end in
let '(ret, final, self) :=
  match RemoteSendSource_state self with
  | Probation n_probation =>
      probation_reply self n_probation diff (mkHeldRecvBuffer hold_buffer_id time seqnum bytes)
  | _ => window_reply self diff
  end in
if final : bool then Ok (ret, self)
else deliver self ret bytes time rtp_timestamp payload_type clock_rate ext_seqnum initial_time.

End RecvPacket.

Definition RemoteSendSource_received_sdes (self : RemoteSendSource) (type_ : Z) (value : list Z)
  : RemoteSendSource :=
  match from_utf8 value with
  | Some s => self <| rss_source ::= modify src_sdes (insert type_ s) |>
  | None => self
  end.

Definition RemoteSendSource_set_last_activity (self : RemoteSendSource) (time : Z) : RemoteSendSource :=
  self <| rss_source ::= modify src_last_activity (fun _ => time) |>.

Definition RemoteSendSource_last_activity (self : RemoteSendSource) : Z :=
  src_last_activity (rss_source self).

Definition RemoteSendSource_extended_sequence_number (self : RemoteSendSource) : Z :=
  and_mask (default 0 (ExtendedSeqnum_current (rss_ext_seqnum self))) 32.

Definition RemoteSendSource_packets_lost (self : RemoteSendSource) : res Z :=
  match ExtendedSeqnum_current (rss_ext_seqnum self), rss_initial_seqnum self with
  | Some ext_seqnum, Some initial_seqnum =>
      d ← i64_chk (swrap U64 ext_seqnum - swrap U64 initial_seqnum);
      expected ← i64_chk (d + 1);
      i64_chk (expected - swrap U64 (rss_recv_packets self))
  | _, _ => Ok 0
  end.

(** The fraction of the packets expected since the last report that was lost,
    out of 256. *)
Definition fraction_lost_of (expected lost : Z) : Z :=
  if (expected =? 0) || (lost <=? 0) then 0
  else wrap U8 (wrap U64 (Z.shiftl lost 8) / expected).

(** The 24-bit encoding of the packets lost. *)
Definition cumulative_lost_of (lost : Z) : Z :=
  if lost <? 0 then Z.lor 8388608 (wrap U32 (Z.land lost 8388607))
  else wrap U32 (Z.land lost 134217727).

Definition RemoteSendSource_generate_report_block `{Gst} (self : RemoteSendSource) (ntp_time : Z) : res Rb :=
  '(last_sr, delay_since_last_sr) ←
    match rss_last_received_sr self with
    | Some t =>
        d ← NtpTime_from_duration (saturating_sub ntp_time (sr_local_time t));
        Ok (sr_remote_time t, d)
    | None =>
        z ← NtpTime_from_duration 0;
        Ok (z, z)
    end;
  lost ← RemoteSendSource_packets_lost self;
  let expected_since_last_rtcp :=
    saturating_sub (default 0 (ExtendedSeqnum_current (rss_ext_seqnum self)))
      (rss_ext_seqnum_at_last_rtcp self) in
  recv_packets_since_last_rtcp ← u64_sub (rss_recv_packets self) (rss_recv_packets_at_last_rtcp self);
  lost_packets_since_last_rtcp ←
    i64_chk (swrap U64 expected_since_last_rtcp - swrap U64 recv_packets_since_last_rtcp);
  Ok {|
    rb_ssrc := RemoteSendSource_ssrc self;
    rb_fraction_lost := fraction_lost_of expected_since_last_rtcp lost_packets_since_last_rtcp;
    rb_cumulative_lost := cumulative_lost_of lost;
    rb_extended_sequence_number := RemoteSendSource_extended_sequence_number self;
    rb_jitter := Z.shiftr (rss_jitter self) 4;
    rb_last_sr := NtpTime_as_u32 last_sr;
    rb_delay_since_last_sr := NtpTime_as_u32 delay_since_last_sr;
  |}.

Definition RemoteSendSource_update_last_rtcp (self : RemoteSendSource) : RemoteSendSource :=
  let self := self <| rss_recv_packets_at_last_rtcp := rss_recv_packets self |> in
  match ExtendedSeqnum_current (rss_ext_seqnum self) with
  | Some ext => self <| rss_ext_seqnum_at_last_rtcp := ext |>
  | None => self
  end.

Definition RemoteSendSource_add_last_rb `{Gst} (self : RemoteSendSource) (sender_ssrc : Z) (rb : Rb)
    (now ntp_now : Z) : res RemoteSendSource :=
  ntp_now ← system_time_to_ntp_time_u64 ntp_now;
  Ok (self <| rss_last_received_rb ::= insert sender_ssrc (mkReceivedRb rb now ntp_now) |>).

(** One key-unit request per round trip and SSRC: whether this one is
    allowed, and the new table. *)
Definition request_key_unit_allowed (table : gmap Z Z) (now : Z) (rb : ReceivedRb) : res (bool * gmap Z Z) :=
  rtt ← ReceivedRb_round_trip_time rb;
  let ssrc := rb_ssrc (rrb_rb rb) in
  let allowed := match table !! ssrc with
                 | Some previous => instant_sub now previous >=? rtt
                 | None => false
                 end in
  Ok (allowed, <[ssrc := now]> table).

Definition RemoteSendSource_remote_request_key_unit_allowed (self : RemoteSendSource) (now : Z)
    (rb : ReceivedRb) : res (bool * RemoteSendSource) :=
  '(allowed, t) ← request_key_unit_allowed (rss_last_request_key_unit self) now rb;
  Ok (allowed, self <| rss_last_request_key_unit := t |>).

Definition RemoteSendSource_request_remote_key_unit (self : RemoteSendSource) (typ : KeyUnitRequestType)
  : RemoteSendSource :=
  match typ with
  | Fir count =>
      let self := if decide (rss_send_fir_count self <> Some count)
                  then self <| rss_send_fir_seqnum ::= fun n => wrap U8 (n + 1) |> else self in
      self <| rss_send_fir := true |> <| rss_send_fir_count := Some count |>
  | Pli => if rss_send_fir self then self else self <| rss_send_pli := true |>
  end.

(** Whether a PLI is to be sent. *)
Definition RemoteSendSource_generate_pli (self : RemoteSendSource) : bool * RemoteSendSource :=
  if rss_send_pli self then (true, self <| rss_send_pli := false |>) else (false, self).

(** The entries of a FIR packet, as pairs of an SSRC and a sequence number. *)
Definition RemoteSendSource_generate_fir (self : RemoteSendSource) (fir : list (Z * Z)) (added : bool)
  : list (Z * Z) * bool * RemoteSendSource :=
  if rss_send_fir self then
    (fir ++ [(RemoteSendSource_ssrc self, rss_send_fir_seqnum self)], true,
     self <| rss_send_fir := false |>)
  else (fir, added, self).

(** *** Remote receivers *)

Record RemoteReceiveSource := mkRemoteReceiveSource {
  rrs_source : Source;
  rrs_rtcp_from : option SocketAddr;
  rrs_last_request_key_unit : gmap Z Z;
}.
#[export] Instance RemoteReceiveSource_rebuild : Rebuild RemoteReceiveSource :=
  {| rebuild := fun s => mkRemoteReceiveSource (rrs_source s) (rrs_rtcp_from s) (rrs_last_request_key_unit s) |}.

Definition RemoteReceiveSource_new (now ssrc : Z) : RemoteReceiveSource :=
  mkRemoteReceiveSource (Source_new now ssrc) None ∅.

Definition RemoteReceiveSource_ssrc (self : RemoteReceiveSource) : Z := src_ssrc (rrs_source self).
Definition RemoteReceiveSource_state (self : RemoteReceiveSource) : SourceState := src_state (rrs_source self).

Definition RemoteReceiveSource_set_state (self : RemoteReceiveSource) (state : SourceState)
  : RemoteReceiveSource :=
  self <| rrs_source ::= fun s => Source_set_state s state |>.

Definition RemoteReceiveSource_set_rtcp_from (self : RemoteReceiveSource) (from : option SocketAddr)
  : RemoteReceiveSource := self <| rrs_rtcp_from := from |>.

Definition RemoteReceiveSource_set_last_activity (self : RemoteReceiveSource) (time : Z)
  : RemoteReceiveSource :=
  self <| rrs_source ::= modify src_last_activity (fun _ => time) |>.

Definition RemoteReceiveSource_last_activity (self : RemoteReceiveSource) : Z :=
  src_last_activity (rrs_source self).

Definition RemoteReceiveSource_received_sdes (self : RemoteReceiveSource) (type_ : Z) (value : list Z)
  : RemoteReceiveSource :=
  match from_utf8 value with
  | Some s => self <| rrs_source ::= modify src_sdes (insert type_ s) |>
  | None => self
  end.

Definition RemoteSendSource_into_receive (self : RemoteSendSource) : RemoteReceiveSource := {|
  rrs_source := rss_source self;
  rrs_rtcp_from := rss_rtcp_from self;
  rrs_last_request_key_unit := rss_last_request_key_unit self;
|}.

Definition RemoteReceiveSource_into_send (self : RemoteReceiveSource) : RemoteSendSource :=
  remote_send_from (rrs_source self) (rrs_rtcp_from self) (rrs_last_request_key_unit self).

Definition RemoteReceiveSource_remote_request_key_unit_allowed (self : RemoteReceiveSource) (now : Z)
    (rb : ReceivedRb) : res (bool * RemoteReceiveSource) :=
  '(allowed, t) ← request_key_unit_allowed (rrs_last_request_key_unit self) now rb;
  Ok (allowed, self <| rrs_last_request_key_unit := t |>).
