(* ===== verification/SourceProps.v ===== *)
(** * Properties of the sources

    Probation of new senders and the reception window, the loss figures of
    report blocks, jitter, round trips, key-unit requests and the bitrate
    window. *)

From Stdlib Require Import Sorting.Sorted.
From stdpp Require Import sorting.
From S2P Require Import Prelude Utils Time Source.

(** ** Reception statistics *)

(** Clock rates up to 1 MHz: the arrival time, at most 2^32 microseconds, then
    fits in 32 bits at the clock rate. *)
Definition rate_ok (clock_rate : option Z) : Prop :=
  match clock_rate with Some r => 0 < r <= 1000000 | None => True end.

(** What receiving a packet leaves alone: the SSRC, and the time of the last
    activity. *)
Definition same_id (s s' : RemoteSendSource) : Prop :=
  RemoteSendSource_ssrc s' = RemoteSendSource_ssrc s /\
  RemoteSendSource_last_activity s' = RemoteSendSource_last_activity s.

(** What adding a packet to the statistics leaves alone. *)
Definition same_reception (s s' : RemoteSendSource) : Prop :=
  src_state (rss_source s') = src_state (rss_source s) /\
  same_id s s' /\
  rss_probation_packets s' = rss_probation_packets s /\
  rss_ext_seqnum s' = rss_ext_seqnum s /\
  rss_held_buffers s' = rss_held_buffers s /\
  rss_recv_packets_at_last_rtcp s' = rss_recv_packets_at_last_rtcp s /\
  rss_ext_seqnum_at_last_rtcp s' = rss_ext_seqnum_at_last_rtcp s.

Lemma same_id_trans s1 s2 s3 : same_id s1 s2 -> same_id s2 s3 -> same_id s1 s3.
Proof. intros [E1 E2] [E3 E4]. split; congruence. Qed.

Section Stats.
Context `{GstLaws}.

Lemma rtparrival_ok micros rate :
  0 < rate <= 1000000 -> is_u32 micros ->
  exists v, mul_div_round U32 micros rate 1000000 = Some v.
Proof using H0.
  unfold is_u32. intros Hr Hm. rewrite mul_div_round_spec by lia. eexists. apply fits_small.
  apply Z.div_lt_upper_bound; [lia|]. nia.
Qed.

Lemma add_to_stats_total s rtp now init pt cr ext bytes :
  rate_ok cr -> rss_recv_packets s + 1 < U64 ->
  exists s', RemoteSendSource_recv_packet_add_to_stats s rtp now init pt cr ext bytes = Ok s' /\
    same_reception s s' /\ rss_recv_packets s' = rss_recv_packets s + 1 /\
    rss_initial_seqnum s' = Some (default ext (rss_initial_seqnum s)) /\
    (is_u32 (rss_jitter s) -> is_u32 (rss_jitter s') /\ rss_jitter s <= rss_jitter s').
Proof using H0.
  intros Hr Hp. unfold RemoteSendSource_recv_packet_add_to_stats.
  assert (Hj : forall j d e, is_u32 j ->
    is_u32 (saturating_add U32 j (saturating_sub d e)) /\ j <= saturating_add U32 j (saturating_sub d e)).
  { unfold is_u32, saturating_add, saturating_sub. lia. }
  destruct cr as [r|]; cbn in Hr.
  - match goal with |- context [mul_div_round U32 ?m r _] =>
      destruct (rtparrival_ok m r Hr) as [v ->] end; [apply Z.mod_pos_bound; lia|].
    cbn [unwrap]. rewrite !bind_Ok. destruct (rss_initial_seqnum s) as [i|] eqn:Hi; cbn; rewrite Hi; cbn;
      run_chk; (eexists; split; [reflexivity|]); cbn; rewrite ?Hi; split_and!; try done;
      by apply Hj.
  - rewrite bind_Ok. destruct (rss_initial_seqnum s) as [i|] eqn:Hi; cbn; rewrite ?Hi; cbn;
      run_chk; (eexists; split; [reflexivity|]); cbn; rewrite ?Hi; split_and!; done.
Qed.
End Stats.

(** ** Receiving packets *)

(** The probation is the default one (only the tests set another), and no
    more buffers are held than it has taken packets. *)
Definition probation_ok (s : RemoteSendSource) : Prop :=
  rss_probation_packets s = DEFAULT_PROBATION_N_PACKETS /\
  let held := Z.of_nat (length (rss_held_buffers s)) in
  match RemoteSendSource_state s with
  | Probation n => 0 <= n /\ held + n <= rss_probation_packets s
  | _ => held <= rss_probation_packets s
  end.

Record rss_inv (s : RemoteSendSource) : Prop := {
  ri_ext : ext_wf 16 (sn_last_ext (rss_ext_seqnum s));
  ri_probation : probation_ok s;
  ri_packets : 0 <= rss_recv_packets_at_last_rtcp s <= rss_recv_packets s;
  ri_jitter : is_u32 (rss_jitter s);
}.

(** The stored extended sequence number, one cycle before there is one. *)
Definition last_ext (s : RemoteSendSource) : Z := default U16 (sn_last_ext (rss_ext_seqnum s)).

(** Counters far from overflow. *)
Definition rss_room (s : RemoteSendSource) : Prop :=
  rss_recv_packets s + 1 < U64 /\ last_ext s + U16 < U64.

Lemma rss_new_inv now ssrc : rss_inv (RemoteSendSource_new now ssrc).
Proof. split; cbn; try done. Qed.

Lemma pop_back_spec {A} (l : list A) :
  match pop_back l with Some (x, rest) => l = rest ++ [x] | None => l = [] end.
Proof.
  unfold pop_back. destruct l as [|a l] using rev_ind; [done|].
  by rewrite last_snoc, removelast_last.
Qed.

Definition held_ids (s : RemoteSendSource) : list Z := held_id <$> rss_held_buffers s.

(** What the reply to a packet says of the buffers, [id] being the one the
    packet would be held under: buffers are taken at the front of the queue
    and given back from its end. *)
Definition reply_sound (s : RemoteSendSource) (id : Z) (reply : SourceRecvReply) (s' : RemoteSendSource)
  : Prop :=
  match reply with
  | ReplyHold i => i = id /\ held_ids s' = id :: held_ids s /\
      exists n, RemoteSendSource_state s' = Probation n
  | ReplyDrop i => held_ids s = held_ids s' ++ [i] /\
      exists n, RemoteSendSource_state s' = Probation n
  | ReplyForward i => held_ids s = held_ids s' ++ [i] /\ RemoteSendSource_state s' = Normal
  | ReplyPassthrough => held_ids s = [] /\ held_ids s' = [] /\ RemoteSendSource_state s' = Normal
  | ReplyIgnore => held_ids s' = held_ids s /\ rss_recv_packets s' = rss_recv_packets s
  end.

Lemma same_reception_inv s s' :
  same_reception s s' -> rss_inv s -> rss_recv_packets s <= rss_recv_packets s' ->
  is_u32 (rss_jitter s') -> rss_inv s'.
Proof.
  intros (E1 & _ & E2 & E3 & E4 & E5 & E6) [H1 H2 H3 H4] Hle Hj.
  unfold probation_ok, RemoteSendSource_state in *.
  split; unfold probation_ok, RemoteSendSource_state; rewrite ?E1, ?E2, ?E3, ?E4, ?E5; try done. lia.
Qed.

(** The distance of a packet from the last sequence number stored. *)
Definition distance (s : RemoteSendSource) (seqnum diff : Z) : Prop :=
  match sn_last_ext (rss_ext_seqnum s) with
  | None => diff = 0
  | Some l => - 32768 <= diff <= 32768 /\ (l + diff) mod U16 = seqnum
  end.

Section Recv.
Context `{GstLaws}.

Lemma probation_ok_shorter s rest :
  probation_ok s -> (length rest <= length (rss_held_buffers s))%nat ->
  probation_ok (s <| rss_held_buffers := rest |>).
Proof using.
  unfold probation_ok. change (RemoteSendSource_state (s <| rss_held_buffers := rest |>))
    with (RemoteSendSource_state s). cbn. destruct (RemoteSendSource_state s); lia.
Qed.

Lemma rss_inv_shorter s rest h :
  rss_inv s -> rss_held_buffers s = rest ++ [h] -> rss_inv (s <| rss_held_buffers := rest |>).
Proof using.
  intros [H1 H2 H3 H4] Hh. split; cbn; try done. apply probation_ok_shorter; [done|].
  rewrite Hh, length_app. cbn. lia.
Qed.

(** The last part of [recv_packet]: the statistics, and a held buffer first. *)
Lemma deliver_total s ret bytes time rtp pt cr ext init :
  rss_inv s -> rate_ok cr -> rss_recv_packets s + 1 < U64 ->
  exists reply s' rest,
    deliver s ret bytes time rtp pt cr ext init = Ok (reply, s') /\ rss_inv s' /\
    same_reception (s <| rss_held_buffers := rest |>) s' /\
    rss_recv_packets s' = rss_recv_packets s + 1 /\
    ((reply = ret /\ rest = rss_held_buffers s /\ (ret = ReplyPassthrough -> rss_held_buffers s = [])) \/
     (ret = ReplyPassthrough /\
      exists h, reply = ReplyForward (held_id h) /\ rss_held_buffers s = rest ++ [h])).
Proof using H0.
  intros Hinv Hr Hp. unfold deliver. pose proof (pop_back_spec (rss_held_buffers s)) as Hpop.
  assert (Hstay : exists s',
    RemoteSendSource_recv_packet_add_to_stats s rtp time init pt cr ext bytes = Ok s' /\ rss_inv s' /\
    same_reception (s <| rss_held_buffers := rss_held_buffers s |>) s' /\
    rss_recv_packets s' = rss_recv_packets s + 1).
  { destruct (add_to_stats_total s rtp time init pt cr ext bytes Hr Hp) as (s' & -> & Hsame & Hn & _ & Hj).
    exists s'. split_and!; [done| |apply Hsame..|done].
    apply (same_reception_inv _ _ Hsame); [done|lia|exact (proj1 (Hj (ri_jitter _ Hinv)))]. }
  destruct (decide (ret = ReplyPassthrough)) as [->|Hne]; cbv iota;
    [destruct (pop_back (rss_held_buffers s)) as [[h rest]|]|].
  - edestruct (add_to_stats_total (s <| rss_held_buffers := rest |>) rtp (held_time h) init pt cr ext
      (held_bytes h) Hr) as (s' & -> & Hsame & Hn & _ & Hj); [exact Hp|].
    rewrite bind_Ok. exists (ReplyForward (held_id h)), s', rest. split; [done|]. split; [|by eauto 10].
    cbn in Hn, Hj. apply (same_reception_inv _ _ Hsame); [|cbn; lia|exact (proj1 (Hj (ri_jitter _ Hinv)))].
    by eapply rss_inv_shorter.
  - destruct Hstay as (s' & -> & Hi & Hsame & Hn). rewrite bind_Ok.
    exists ReplyPassthrough, s', (rss_held_buffers s). eauto 10.
  - destruct Hstay as (s' & -> & Hi & Hsame & Hn). rewrite bind_Ok.
    exists ret, s', (rss_held_buffers s). split_and!; try done; [apply Hsame..|]. left. done.
Qed.

(** A packet of a source in probation is held, or the oldest held one given
    up, and the extended sequence number stays. *)
Definition held_reply (s : RemoteSendSource) (b : HeldRecvBuffer) (r : SourceRecvReply * bool * RemoteSendSource)
  : Prop :=
  let '(ret, final, s') := r in
  rss_inv s' /\ rss_recv_packets s' = rss_recv_packets s /\ rss_ext_seqnum s' = rss_ext_seqnum s /\
  (exists n, RemoteSendSource_state s' = Probation n) /\ same_id s s' /\
  if final : bool then exists i, ret = ReplyDrop i /\ held_ids s = held_ids s' ++ [i]
  else ret = ReplyHold (held_id b) /\ held_ids s' = held_id b :: held_ids s.

(** The loops that drop buffers while more are held than the probation takes
    never run. *)
Lemma hold_buffer_inv s st b n :
  rss_inv s -> match st with Some x => x = Probation n | None => RemoteSendSource_state s = Probation n end ->
  (exists n, RemoteSendSource_state s = Probation n) ->
  0 <= n -> Z.of_nat (length (rss_held_buffers s)) + 1 + n <= rss_probation_packets s ->
  held_reply s b (hold_buffer s st b).
Proof using.
  intros [H1 [Hdef H2] H3 H4] Hst Hpro Hn Hlen. unfold hold_buffer. cbv zeta. cbn.
  rewrite Z.gtb_ltb. zif; [lia|].
  destruct st as [st|]; subst; cbn; (split; [split; cbn; try done|split_and!; cbn; eauto; done]).
  - unfold probation_ok. cbn. split; [done|lia].
  - unfold probation_ok, RemoteSendSource_state. cbn. unfold RemoteSendSource_state in Hst. rewrite Hst.
    split; [done|lia].
Qed.

(** The decision on a source in probation: it is held, or it leaves
    probation with its buffers as they are. *)
Lemma probation_reply_inv s n diff b :
  rss_inv s -> RemoteSendSource_state s = Probation n ->
  held_reply s b (probation_reply s n diff b) \/
  exists s', probation_reply s n diff b = (ReplyPassthrough, false, s') /\ rss_inv s' /\
    rss_recv_packets s' = 0 /\ RemoteSendSource_state s' = Normal /\
    rss_held_buffers s' = rss_held_buffers s /\ rss_ext_seqnum s' = rss_ext_seqnum s /\ same_id s s'.
Proof using.
  intros Hinv Hst. unfold probation_reply. cbv zeta. pose proof Hinv as [H1 H2 H3 H4].
  pose proof H2 as [Hdef Hp]. unfold DEFAULT_PROBATION_N_PACKETS in Hdef. rewrite Hst in Hp.
  zif; [destruct ((0 <=? n) && (n <=? 1)) eqn:En|zif].
  - right. eexists. split; [reflexivity|].
    split; [split; cbn; try done; unfold probation_ok, DEFAULT_PROBATION_N_PACKETS; cbn; lia|done].
  - left. apply andb_false_iff in En. eapply hold_buffer_inv; [done|reflexivity|eauto|lia..].
  - left. set (s1 := RemoteSendSource_set_state s (Probation (rss_probation_packets s - 1))).
    pose proof (pop_back_spec (rss_held_buffers s1)) as Hpop.
    destruct (pop_back (rss_held_buffers s1)) as [[h rest]|];
      change (rss_held_buffers s1) with (rss_held_buffers s) in Hpop.
    + split; [|split_and!; cbn; eauto; try done].
      * split; cbn; try done. unfold probation_ok, DEFAULT_PROBATION_N_PACKETS; cbn. rewrite Hpop, length_app in Hp. cbn in Hp. lia.
      * eexists. split; [reflexivity|]. unfold held_ids. by rewrite Hpop, fmap_app.
    + apply (hold_buffer_inv s1 None b (rss_probation_packets s - 1)); [|done|by eauto|lia|].
      * split; cbn; try done. unfold probation_ok, DEFAULT_PROBATION_N_PACKETS; cbn. rewrite Hpop. cbn. lia.
      * cbn. rewrite Hpop. cbn. lia.
  - right. eexists. split; [reflexivity|].
    split; [split; cbn; try done; unfold probation_ok, DEFAULT_PROBATION_N_PACKETS; cbn; lia|done].
Qed.

(** Handing on a packet of a source that is not in probation. *)
Lemma deliver_normal s s1 bytes time rtp pt cr ext init id :
  rss_inv s1 -> rate_ok cr -> rss_recv_packets s1 + 1 < U64 -> rss_recv_packets s1 <= rss_recv_packets s ->
  RemoteSendSource_state s1 = Normal -> rss_held_buffers s1 = rss_held_buffers s ->
  exists reply s', deliver s1 ReplyPassthrough bytes time rtp pt cr ext init = Ok (reply, s') /\
    rss_inv s' /\ reply_sound s id reply s' /\ rss_recv_packets s' <= rss_recv_packets s + 1 /\
    rss_ext_seqnum s' = rss_ext_seqnum s1 /\ same_id s1 s'.
Proof using H0.
  intros Hinv Hr Hp Hle Hst Hheld.
  destruct (deliver_total s1 ReplyPassthrough bytes time rtp pt cr ext init Hinv Hr Hp)
    as (reply & s' & rest & -> & Hinv' & Hsame & Hn & Hcase).
  destruct Hsame as (Est & Eid & _ & Ee & Eh & _). cbn in Est, Ee, Eh.
  exists reply, s'. split; [done|]. split; [done|]. split; [|split; [lia|done]].
  unfold reply_sound, held_ids, RemoteSendSource_state in *. rewrite Est, Eh, <- Hheld.
  destruct Hcase as [(-> & -> & Hnil)|(_ & h & -> & Hrest)]; [by rewrite Hnil|].
  split; [by rewrite Hrest, fmap_app|done].
Qed.

(** Receiving a packet is: store its sequence number, decide on its
    distance from the one stored before, and deliver it. *)
Lemma recv_packet_steps s bytes time seqnum ts pt cr id init :
  rss_inv s -> last_ext s + U16 < U64 -> is_u16 seqnum -> RemoteSendSource_state s <> Bye ->
  exists s1 e d, distance s seqnum d /\ rss_inv s1 /\
    RemoteSendSource_state s1 = RemoteSendSource_state s /\ rss_held_buffers s1 = rss_held_buffers s /\
    rss_recv_packets s1 = rss_recv_packets s /\ same_id s s1 /\
    (forall s' : RemoteSendSource, rss_ext_seqnum s' = rss_ext_seqnum s1 -> last_ext s' <= last_ext s + U16) /\
    RemoteSendSource_recv_packet s bytes time seqnum ts pt cr id init =
      let '(ret, final, self) :=
        match RemoteSendSource_state s with
        | Probation n => probation_reply s1 n d (mkHeldRecvBuffer id time seqnum bytes)
        | _ => window_reply s1 d
        end in
      if final : bool then Ok (ret, self) else deliver self ret bytes time ts pt cr e init.
Proof using.
  intros Hinv Hext Hseq Hbye. unfold RemoteSendSource_recv_packet. rewrite decide_False by done.
  destruct (ExtendedSeqnum_next_total (rss_ext_seqnum s) seqnum (ri_ext _ Hinv) Hseq)
    as (e & ext & -> & Hmod & Hwf & Hd & He & Hfirst).
  { unfold last_ext in Hext. intros l Hl. by rewrite Hl in Hext. }
  exists (s <| rss_ext_seqnum := ext |>), e, (match sn_last_ext (rss_ext_seqnum s) with Some l => e - l | None => 0 end).
  split_and!; [|destruct Hinv; split; done|done..| |].
  - unfold distance. destruct (sn_last_ext (rss_ext_seqnum s)) as [l|]; [|done].
    split; [by apply Hd|]. by replace (l + (e - l)) with e by lia.
  - cbn. unfold last_ext, is_u16 in *. intros s' ->. destruct (sn_last_ext (rss_ext_seqnum s)) as [l|].
    + specialize (Hd l eq_refl). destruct He as [->| ->]; cbn; lia.
    + destruct (Hfirst eq_refl) as [-> ->]; cbn; lia.
  - rewrite bind_Ok. cbv zeta. unfold ExtendedSeqnum_current.
    change (RemoteSendSource_state (s <| rss_ext_seqnum := ext |>)) with (RemoteSendSource_state s).
    destruct (sn_last_ext (rss_ext_seqnum s)) as [l|]; [|done].
    specialize (Hd l eq_refl). rewrite swrap_sub, (swrap_small _ (e - l)) by (done || (change (U64 / 2) with I64; lia)).
    done.
Qed.

(** Receiving a packet never panics and keeps the invariant. *)
Lemma recv_packet_total s bytes time seqnum ts pt cr id init :
  rss_inv s -> rss_room s -> is_u16 seqnum -> rate_ok cr ->
  exists reply s',
    RemoteSendSource_recv_packet s bytes time seqnum ts pt cr id init = Ok (reply, s') /\
    rss_inv s' /\ reply_sound s id reply s' /\ rss_recv_packets s' <= rss_recv_packets s + 1 /\
    last_ext s' <= last_ext s + U16 /\ same_id s s'.
Proof using H0.
  intros Hinv [Hroom Hext] Hseq Hr.
  destruct (decide (RemoteSendSource_state s = Bye)) as [Hbye|Hbye].
  { exists ReplyIgnore, s. unfold RemoteSendSource_recv_packet. rewrite decide_True by done.
    split_and!; try done; lia. }
  destruct (recv_packet_steps s bytes time seqnum ts pt cr id init Hinv Hext Hseq Hbye)
    as (s1 & e & d & _ & Hinv1 & Hst & Hheld & Hpk & Hid & Hle & ->).
  set (b := mkHeldRecvBuffer id time seqnum bytes).
  destruct (RemoteSendSource_state s) as [n| |] eqn:En; [| |done].
  - destruct (probation_reply_inv s1 n d b Hinv1 Hst) as [Hh|(s2 & -> & Hi & Hz & Hn & Hb & Hx & Hid2)].
    + destruct (probation_reply s1 n d b) as [[ret final] s2]. unfold held_reply in Hh.
      destruct Hh as (Hi & Hp & Hx & [m Hm] & Hid2 & Hret). unfold held_ids in Hret. rewrite Hheld in Hret.
      destruct final; destruct Hret as [Hret Hids].
      * destruct Hids as [-> Hids]. exists (ReplyDrop Hret), s2.
        split; [done|]. split; [done|]. split; [split; [done|by eauto]|].
        split; [lia|split; [by apply Hle|by eapply same_id_trans]].
      * subst ret. change (held_id b) with id in *.
        destruct (deliver_total s2 (ReplyHold id) bytes time ts pt cr e init Hi Hr ltac:(lia))
          as (reply & s' & rest & -> & Hinv' & (Est & Eid & _ & Ee & Eh & _) & Hn' & [(-> & -> & _)|[[=] _]]).
        cbn in Est, Eh, Ee. exists (ReplyHold id), s'. split; [done|]. split; [done|].
        split; [|split; [lia|split; [apply Hle; congruence|]]];
          [|eapply same_id_trans, same_id_trans; [exact Hid|exact Hid2|exact Eid]].
        unfold reply_sound, held_ids, RemoteSendSource_state in *. rewrite Est, Eh. eauto.
    + pose proof (ri_packets _ Hinv).
      destruct (deliver_normal s s2 bytes time ts pt cr e init id) as (r & s' & -> & A1 & A2 & A3 & A4 & A5);
        try done; try lia; [congruence|].
      exists r, s'. split; [done|]. split; [done|]. split; [done|]. split; [done|].
      split; [apply Hle; congruence|]. eapply same_id_trans, same_id_trans; [exact Hid|exact Hid2|exact A5].
  - destruct (deliver_normal s s1 bytes time ts pt cr e init id) as (r & s' & Hdel & A1 & A2 & A3 & A4 & A5);
      try done; try lia. apply (same_id_trans _ _ _ Hid) in A5.
    unfold window_reply. destruct ((d >=? 1) && _); [|destruct ((d <? _) || _)]; try rewrite Hdel; eauto 10.
    exists ReplyIgnore, s1. split; [done|]. split; [done|]. split; [|split; [lia|split; [by apply Hle|done]]].
    split; [|done]. unfold held_ids. by rewrite Hheld.
Qed.
End Recv.

(** ** Runs of a source *)

(** A packet as [recv_packet] is called with it, and the buffer id it would
    be held under. *)
Record Arrival := mkArrival {
  a_bytes : Z; a_time : Z; a_seqnum : Z; a_timestamp : Z; a_pt : Z; a_rate : option Z; a_id : Z;
}.

Definition arrival_ok (a : Arrival) : Prop := is_u16 (a_seqnum a) /\ rate_ok (a_rate a).

Section Runs.
Context `{Gst}.

(** Receiving packets in order, with the log of the replies. *)
Definition recv_one (init : Z) (st : RemoteSendSource * list SourceRecvReply) (a : Arrival)
  : res (RemoteSendSource * list SourceRecvReply) :=
  '(r, s) ← RemoteSendSource_recv_packet (fst st) (a_bytes a) (a_time a) (a_seqnum a) (a_timestamp a)
              (a_pt a) (a_rate a) (a_id a) init;
  Ok (s, snd st ++ [r]).

Definition recv_run (init : Z) (s : RemoteSendSource) (packets : list Arrival) :=
  res_fold (recv_one init) (s, []) packets.
End Runs.

(** The buffers the replies take, and those they give back. *)
Definition taken (log : list SourceRecvReply) : list Z :=
  omap (fun r => match r with ReplyHold i => Some i | _ => None end) log.
Definition released (log : list SourceRecvReply) : list Z :=
  omap (fun r => match r with ReplyForward i | ReplyDrop i => Some i | _ => None end) log.

Lemma reply_sound_held s id r s' log :
  reply_sound s id r s' -> taken log = released log ++ rev (held_ids s) ->
  taken (log ++ [r]) = released (log ++ [r]) ++ rev (held_ids s').
Proof.
  intros Hs Hl. unfold taken, released. rewrite !omap_app. fold (taken log) (released log). rewrite Hl.
  destruct r; cbn in Hs; cbn.
  - destruct Hs as (-> & -> & _). cbn. by rewrite app_nil_r, app_assoc.
  - destruct Hs as (-> & _). rewrite rev_app_distr, app_nil_r. cbn. by rewrite <- app_assoc.
  - destruct Hs as (-> & _). rewrite rev_app_distr, app_nil_r. cbn. by rewrite <- app_assoc.
  - destruct Hs as (-> & -> & _). by rewrite !app_nil_r.
  - destruct Hs as (-> & _). by rewrite !app_nil_r.
Qed.

Section RunLemmas.
Context `{GstLaws}.

Definition run_inv (k : Z) (st : RemoteSendSource * list SourceRecvReply) : Prop :=
  rss_inv (fst st) /\ rss_recv_packets (fst st) <= k /\ last_ext (fst st) <= (k + 1) * U16 /\
  Z.of_nat (length (snd st)) = k /\
  taken (snd st) = released (snd st) ++ rev (held_ids (fst st)).

Lemma recv_one_total init k st a :
  run_inv k st -> arrival_ok a -> k < 2 ^ 40 -> exists st', recv_one init st a = Ok st' /\ run_inv (k + 1) st'.
Proof using H0.
  intros (Hi & Hp & Hx & Hl & Ht) [Hs Hr] Hk. change (2 ^ 40) with 1099511627776 in Hk. unfold recv_one.
  destruct (recv_packet_total (fst st) (a_bytes a) (a_time a) (a_seqnum a) (a_timestamp a) (a_pt a) (a_rate a)
    (a_id a) init Hi ltac:(split; lia) Hs Hr) as (r & s' & -> & Hi' & Hrep & Hp' & Hx' & _).
  rewrite bind_Ok. eexists. split; [reflexivity|]. unfold run_inv. cbn.
  split_and!; [done|lia|lia|rewrite length_app; cbn; lia|]. by eapply reply_sound_held.
Qed.

Lemma recv_run_total init k st packets :
  run_inv k st -> Forall arrival_ok packets -> k + Z.of_nat (length packets) <= 2 ^ 40 ->
  exists st', res_fold (recv_one init) st packets = Ok st' /\ run_inv (k + Z.of_nat (length packets)) st'.
Proof using H0.
  intros Hinv Hok. revert k st Hinv. induction Hok as [|a packets Ha _ IH]; intros k st Hinv Hlen.
  - exists st. cbn. by rewrite Z.add_0_r.
  - destruct (recv_one_total init k st a Hinv Ha) as (st1 & H1 & Hinv1); [cbn in Hlen; lia|].
    destruct (IH (k + 1) st1 Hinv1) as (st' & H2 & Hinv'); [cbn in Hlen |- *; lia|].
    exists st'. cbn. rewrite H1, bind_Ok. split; [done|].
    replace (k + Z.of_nat (S (length packets))) with (k + 1 + Z.of_nat (length packets)) by lia. done.
Qed.

Lemma run_inv_new now ssrc : run_inv 0 (RemoteSendSource_new now ssrc, []).
Proof using. split; [apply rss_new_inv|done]. Qed.
End RunLemmas.

(** ** Specification of the reception

    A sender is seen through its state and the ids of the buffers held, the
    newest first, and a packet through its distance from the last sequence
    number stored. *)
Definition give_back (reply : Z -> SourceRecvReply) (none : SourceRecvReply * (SourceState * list Z))
    (st : SourceState) (held : list Z) : SourceRecvReply * (SourceState * list Z) :=
  match pop_back held with Some (i, rest) => (reply i, (st, rest)) | None => none end.

Definition recv_spec (st : SourceState) (held : list Z) (diff id : Z)
  : SourceRecvReply * (SourceState * list Z) :=
  let pass := give_back ReplyForward (ReplyPassthrough, (Normal, [])) Normal held in
  match st with
  | Bye => (ReplyIgnore, (Bye, held))
  | Normal => if (- 100 <=? diff) && (diff <? 3000) then pass else (ReplyIgnore, (Normal, held))
  | Probation n =>
      if diff =? 1 then
        if n <=? 1 then pass else (ReplyHold id, (Probation (n - 1), id :: held))
      else give_back ReplyDrop (ReplyHold id, (Probation 1, [id])) (Probation 1) held
  end.

Definition view (s : RemoteSendSource) : SourceState * list Z := (RemoteSendSource_state s, held_ids s).

Lemma pop_back_fmap {A B} (f : A -> B) l :
  pop_back (f <$> l) = match pop_back l with Some (x, rest) => Some (f x, f <$> rest) | None => None end.
Proof.
  unfold pop_back. rewrite fmap_last. destruct l as [|a l] using rev_ind; [done|].
  rewrite fmap_app. cbn. by rewrite last_snoc, !removelast_last.
Qed.

Section Refinement.
Context `{GstLaws}.

Lemma deliver_view s ret bytes time rtp pt cr ext init r s' :
  rss_inv s -> rate_ok cr -> rss_recv_packets s + 1 < U64 ->
  deliver s ret bytes time rtp pt cr ext init = Ok (r, s') ->
  (r, view s') =
    (if decide (ret = ReplyPassthrough)
     then give_back ReplyForward (ret, view s) (RemoteSendSource_state s) (held_ids s)
     else (ret, view s)) /\ rss_ext_seqnum s' = rss_ext_seqnum s.
Proof using H0.
  intros Hi Hr Hp Hd.
  destruct (deliver_total s ret bytes time rtp pt cr ext init Hi Hr Hp)
    as (r' & s'' & rest & Hd' & _ & Hsame & _ & Hc).
  rewrite Hd in Hd'. injection Hd' as -> ->. destruct Hsame as (Es & _ & _ & Ex & Eh & _). cbn in Es, Ex, Eh.
  unfold view, held_ids, give_back, RemoteSendSource_state. rewrite Es, Ex, Eh, pop_back_fmap.
  split; [|done]. pose proof (pop_back_spec (rss_held_buffers s)) as Hpop.
  destruct Hc as [(-> & -> & Hnil)|(-> & h & -> & Hh)].
  - destruct (decide (ret = ReplyPassthrough)) as [Hret|]; [|done]. by rewrite (Hnil Hret).
  - rewrite decide_True by done. destruct (pop_back (rss_held_buffers s)) as [[x l]|].
    + rewrite Hh in Hpop. by apply app_inj_tail in Hpop as [-> ->].
    + rewrite Hh in Hpop. by apply app_nil in Hpop as [_ [=]].
Qed.

Lemma probation_reply_view s n diff b :
  rss_inv s -> RemoteSendSource_state s = Probation n ->
  let '(ret, final, s') := probation_reply s n diff b in
  if (diff =? 1) && (n <=? 1)
  then ret = ReplyPassthrough /\ final = false /\ view s' = (Normal, held_ids s)
  else (ret, view s') = recv_spec (Probation n) (held_ids s) diff (held_id b) /\
       ret <> ReplyPassthrough /\ (final = false -> ret = ReplyHold (held_id b)).
Proof using.
  intros [_ [Hdef Hp] _ _] Hst. rewrite Hst in Hp. unfold DEFAULT_PROBATION_N_PACKETS in Hdef.
  assert (Hhold : forall s0 : RemoteSendSource, rss_probation_packets s0 = 2 -> forall st m,
    Z.of_nat (length (rss_held_buffers s0)) < 2 ->
    match st with Some x => x = Probation m | None => RemoteSendSource_state s0 = Probation m end ->
    exists s1, hold_buffer s0 st b = (ReplyHold (held_id b), false, s1) /\
      view s1 = (Probation m, held_id b :: held_ids s0)).
  { intros s0 H2 st m Hl Hm. unfold hold_buffer. cbv zeta. cbn. rewrite Z.gtb_ltb. zif; [lia|].
    eexists. split; [reflexivity|]. destruct st; subst; [done|]. unfold view, RemoteSendSource_state in *.
    cbn. by rewrite Hm. }
  unfold probation_reply, recv_spec. cbv zeta. zif; cbn [andb].
  - destruct (Z.leb_spec n 1).
    + rewrite (proj2 (Z.leb_le 0 n)) by lia. done.
    + rewrite andb_false_r. edestruct (Hhold s) as (s1 & -> & ->); [lia|lia|reflexivity|]. done.
  - rewrite Hdef. change (2 >? 0) with true. change (2 - 1) with 1. cbv iota.
    change (rss_held_buffers (RemoteSendSource_set_state s (Probation 1))) with (rss_held_buffers s).
    unfold give_back, held_ids. rewrite pop_back_fmap.
    pose proof (pop_back_spec (rss_held_buffers s)) as Hpop.
    destruct (pop_back (rss_held_buffers s)) as [[h rest]|]; [done|].
    edestruct (Hhold (RemoteSendSource_set_state s (Probation 1)) Hdef None) as (s1 & -> & ->);
      [cbn; rewrite Hpop; cbn; lia|reflexivity|]. unfold held_ids. cbn. by rewrite Hpop.
Qed.

Lemma window_reply_spec s d :
  window_reply s d = if (- 100 <=? d) && (d <? 3000) then (ReplyPassthrough, false, s) else (ReplyIgnore, true, s).
Proof using.
  unfold window_reply, DEFAULT_MAX_DROPOUT, DEFAULT_MAX_MISORDER.
  rewrite !Z.geb_leb. repeat zcase; cbn; done || lia.
Qed.

Lemma deliver_pass s bytes time rtp pt cr ext init r s' :
  rss_inv s -> rate_ok cr -> rss_recv_packets s + 1 < U64 -> RemoteSendSource_state s = Normal ->
  deliver s ReplyPassthrough bytes time rtp pt cr ext init = Ok (r, s') ->
  (r, view s') = give_back ReplyForward (ReplyPassthrough, (Normal, [])) Normal (held_ids s).
Proof using H0.
  intros Hi Hr Hp Hst Hdel. apply deliver_view in Hdel as [-> _]; [|done..].
  rewrite decide_True by done. unfold give_back, view. rewrite Hst.
  pose proof (pop_back_spec (held_ids s)) as Hpop.
  destruct (pop_back (held_ids s)) as [[x l]|]; [done|]. by rewrite Hpop.
Qed.

Lemma recv_packet_view s bytes time seqnum ts pt cr id init r s' :
  rss_inv s -> rss_room s -> is_u16 seqnum -> rate_ok cr ->
  RemoteSendSource_recv_packet s bytes time seqnum ts pt cr id init = Ok (r, s') ->
  exists diff, (RemoteSendSource_state s <> Bye -> distance s seqnum diff) /\
    (r, view s') = recv_spec (RemoteSendSource_state s) (held_ids s) diff id.
Proof using H0.
  intros Hinv [Hroom Hext] Hseq Hr.
  destruct (decide (RemoteSendSource_state s = Bye)) as [Hbye|Hbye].
  { unfold RemoteSendSource_recv_packet. rewrite decide_True by done. intros [= <- <-].
    exists 0. split; [done|]. unfold view. by rewrite Hbye. }
  destruct (recv_packet_steps s bytes time seqnum ts pt cr id init Hinv Hext Hseq Hbye)
    as (s1 & e & d & Hdist & Hinv1 & Hst & Hh & Hpk & _ & _ & ->).
  assert (Hids : held_ids s1 = held_ids s) by (unfold held_ids; by rewrite Hh).
  intros Hrecv. exists d. split; [done|]. revert Hrecv. rewrite <- Hids.
  set (b := mkHeldRecvBuffer id time seqnum bytes).
  destruct (RemoteSendSource_state s) as [n| |]; [| |done].
  - pose proof (probation_reply_view s1 n d b Hinv1 Hst) as Hv.
    pose proof (probation_reply_inv s1 n d b Hinv1 Hst) as Hi.
    destruct (probation_reply s1 n d b) as [[ret final] s2].
    assert (Hs2 : rss_inv s2 /\ rss_recv_packets s2 + 1 < U64).
    { destruct Hi as [(A & B & _)|(s3 & [= _ _ <-] & A & B & _)]; split; done || lia. }
    destruct Hs2 as [Hi2 Hp2]. destruct ((d =? 1) && (n <=? 1)) eqn:Hpass.
    + apply andb_true_iff in Hpass as [E1 E2]. destruct Hv as (-> & -> & [= Hs2 Hh2]).
      intros Hdel. apply deliver_pass in Hdel; [|done..]. unfold recv_spec. by rewrite E1, E2, Hdel, Hh2.
    + destruct Hv as (Hv & Hne & _). destruct final; [by intros [= <- <-]|].
      intros Hdel. apply deliver_view in Hdel as [-> _]; [|done..]. by rewrite decide_False.
  - unfold recv_spec. rewrite window_reply_spec. destruct ((- 100 <=? d) && (d <? 3000)).
    + intros Hdel. apply deliver_pass in Hdel; done || lia.
    + intros [= <- <-]. unfold view. by rewrite Hst.
Qed.
End Refinement.

(** ** Arithmetic of the reports *)

Lemma land_low x k : 0 <= k -> Z.land x (2 ^ k - 1) = x mod 2 ^ k.
Proof. intros Hk. rewrite <- Z.land_ones by done. by rewrite Z.ones_equiv, Z.sub_1_r. Qed.

Lemma land_pow2 x k : 0 <= k -> Z.land x (2 ^ k) = if Z.testbit x k then 2 ^ k else 0.
Proof.
  intros Hk. apply Z.bits_inj'. intros n Hn. rewrite Z.land_spec, Z.pow2_bits_eqb by done.
  destruct (Z.eqb_spec k n) as [->|Hne].
  - rewrite andb_true_r. destruct (Z.testbit x n); [by rewrite Z.pow2_bits_true|by rewrite Z.bits_0].
  - rewrite andb_false_r. destruct (Z.testbit x k); [by rewrite Z.pow2_bits_false|by rewrite Z.bits_0].
Qed.

(** Requests for key units at given times, with the same report block. *)
Fixpoint key_unit_run (table : gmap Z Z) (rb : ReceivedRb) (times : list Z) : res (list bool) :=
  match times with
  | [] => Ok []
  | t :: times =>
      '(allowed, table) ← request_key_unit_allowed table t rb;
      rest ← key_unit_run table rb times;
      Ok (allowed :: rest)
  end.

(** Which requests are a round trip or more after the one before. *)
Fixpoint spaced (rtt prev : Z) (times : list Z) : list bool :=
  match times with [] => [] | t :: times => (rtt <=? t - prev) :: spaced rtt t times end.

Lemma round_trip_time_total rb :
  is_u32 (rb_last_sr (rrb_rb rb)) -> is_u32 (rb_delay_since_last_sr (rrb_rb rb)) ->
  is_u64 (ntp_val (rrb_receive_ntp_time rb)) ->
  exists rtt, ReceivedRb_round_trip_time rb = Ok rtt /\ 0 <= rtt < 12 * NS_PER_SEC.
Proof.
  unfold is_u32, is_u64. intros Hs Hd Hn. unfold ReceivedRb_round_trip_time. run_chk.
  set (send := rb_last_sr (rrb_rb rb) + rb_delay_since_last_sr (rrb_rb rb)) in *.
  destruct (Z.eqb_spec send 0); [by exists 0|].
  assert (Hr : 0 <= NtpTime_as_u32 (rrb_receive_ntp_time rb) < U32).
  { unfold NtpTime_as_u32. rewrite and_mask_mod by lia. apply Z.mod_pos_bound. lia. }
  assert (Hrest : forall r, 0 <= r < 2 * U32 -> exists rtt,
    (let diff := saturating_sub r send in
     if Z.shiftr diff 16 >? 5 then Ok (duration_from_secs 1)
     else rtt ← u64_mul 2 diff; ns ← u64_mul rtt 1000000000; Ok (ns / 65536)) = Ok rtt /\
    0 <= rtt < 12 * NS_PER_SEC).
  { intros r Hr'. cbv zeta. rewrite Z.gtb_ltb. set (diff := saturating_sub r send).
    assert (0 <= diff) by (unfold diff, saturating_sub; lia).
    rewrite Z.shiftr_div_pow2 by lia. change (2 ^ 16) with 65536. zif.
    - eexists. split; [reflexivity|]. unfold duration_from_secs. lia.
    - assert (diff < 6 * 65536) by (pose proof (Z.div_mod diff 65536); pose proof (Z.mod_pos_bound diff 65536); lia).
      run_chk. run_chk. eexists. split; [reflexivity|]. split; [apply Z.div_pos; lia|].
      apply Z.div_lt_upper_bound; lia. }
  destruct (_ >? _); [destruct (_ >? _)|]; [run_chk| |]; rewrite ?bind_Ok; apply Hrest; lia.
Qed.

Lemma key_unit_run_from table rb rtt prev times :
  ReceivedRb_round_trip_time rb = Ok rtt -> 0 <= rtt -> table !! rb_ssrc (rrb_rb rb) = Some prev ->
  StronglySorted Z.le (prev :: times) -> key_unit_run table rb times = Ok (spaced rtt prev times).
Proof.
  intros Hrtt Hpos. revert table prev. induction times as [|t times IH]; intros table prev Ht Hs; [done|].
  cbn. unfold request_key_unit_allowed at 1. rewrite Hrtt, bind_Ok. cbn. rewrite Ht.
  rewrite (IH _ t); [|by rewrite lookup_insert_eq|by inversion Hs].
  cbn. inversion Hs as [|? ? _ Hall]; subst. inversion Hall; subst.
  unfold instant_sub, saturating_sub. rewrite Z.geb_leb, Z.max_r by lia. done.
Qed.

(** *** The bitrate window *)

Lemma filter_all {A} (P : A -> Prop) `{forall x, Decision (P x)} l : Forall P l -> base.filter P l = l.
Proof. induction 1 as [|x l Hx _ IH]; [done|]. by rewrite filter_cons_True, IH. Qed.

Lemma filter_sorted {A} (R : A -> A -> Prop) (P : A -> Prop) `{forall x, Decision (P x)} l :
  StronglySorted R l -> StronglySorted R (base.filter P l).
Proof.
  induction 1 as [|x l _ IH Hall]; [constructor|]. rewrite filter_cons. case_decide; [|done].
  constructor; [done|]. apply Forall_forall. intros y [_ Hy]%list_elem_of_filter.
  by apply (proj1 (Forall_forall _ _) Hall).
Qed.

Lemma drop_stale_filter max now es :
  StronglySorted (fun a b => snd a <= snd b) es -> Forall (fun e => snd e <= now) es ->
  drop_stale max now es = base.filter (fun e => now - snd e < max) es.
Proof.
  intros Hs Hle. induction Hs as [|[b t] es _ IH Hall]; [done|].
  inversion Hle as [|? ? Ht Hle']; subst. cbn [drop_stale]. rewrite filter_cons.
  unfold instant_sub, saturating_sub. cbn in Ht. rewrite Z.max_r by lia.
  cbn [snd]. destruct (Z.ltb_spec (now - t) max) as [Hlt|Hge].
  - rewrite decide_True by done. f_equal. symmetry. apply filter_all.
    eapply Forall_impl; [apply Hall|]. intros [b' t'] Hb. cbn in Hb |- *. lia.
  - rewrite decide_False by lia. by apply IH.
Qed.

(** Adding a history of entries to an empty window. *)
Definition bitrate_run (max : Z) (es : list (Z * Z)) : Bitrate :=
  fold_left (fun b e => Bitrate_add_entry b (fst e) (snd e)) es (Bitrate_new max).

Lemma bitrate_run_snoc max es e :
  bitrate_run max (es ++ [e]) = Bitrate_add_entry (bitrate_run max es) (fst e) (snd e).
Proof. unfold bitrate_run. by rewrite fold_left_app. Qed.

Lemma bitrate_run_filter max es e :
  StronglySorted (fun a b => snd a <= snd b) (es ++ [e]) ->
  max_time (bitrate_run max (es ++ [e])) = max /\
  entries (bitrate_run max (es ++ [e])) = base.filter (fun x => snd e - snd x < max) (es ++ [e]).
Proof.
  revert e. induction es as [|e' es IH] using rev_ind; intros e Hs; rewrite bitrate_run_snoc.
  - split; [done|]. destruct e as [b t]. apply (drop_stale_filter max t [(b, t)]); repeat constructor; done.
  - assert (Hs' := Hs). apply StronglySorted_app in Hs' as (Hcross & Hs1 & _).
    destruct (IH e' Hs1) as [Hmax Hes]. split; [done|]. destruct e as [b t]. cbn. rewrite Hmax, Hes.
    assert (Hle : forall x, x ∈ es ++ [e'] -> snd x <= t).
    { intros x Hx. apply (Hcross x (b, t)); [done|by left]. }
    assert (He' : snd e' <= t) by (apply Hle, elem_of_app; right; by left).
    rewrite (drop_stale_filter max t).
    + rewrite !(filter_app _ _ [(b, t)]). f_equal. apply list_filter_filter_l. intros x. lia.
    + apply StronglySorted_app_2; [|by apply filter_sorted|repeat constructor].
      intros x1 x2 [_ Hx1]%list_elem_of_filter ->%list_elem_of_singleton. by apply Hle.
    + apply Forall_app. split; [|by repeat constructor]. apply Forall_forall.
      intros x [_ Hx]%list_elem_of_filter. by apply Hle.
Qed.

(** ** Properties *)

(** C8: a new sender can receive any sequence of fewer than 2^40 packets, with
    any sequence numbers, times and clock rates up to 1 MHz, without a panic,
    and no buffer is lost or delivered twice: the buffers it was told to hold
    are exactly, in order, those it was told to forward or drop and the ones
    still held, of which there are at most as many as the probation takes
    packets. *)
Theorem source_run_sound `{GstLaws} (now ssrc init : Z) (packets : list Arrival) :
  Forall arrival_ok packets -> Z.of_nat (length packets) <= 2 ^ 40 ->
  exists s log, recv_run init (RemoteSendSource_new now ssrc) packets = Ok (s, log) /\
    length log = length packets /\ rss_inv s /\
    taken log = released log ++ rev (held_ids s) /\
    Z.of_nat (length (held_ids s)) <= DEFAULT_PROBATION_N_PACKETS.
Proof.
  intros Hok Hlen.
  destruct (recv_run_total init 0 (RemoteSendSource_new now ssrc, []) packets (run_inv_new _ _) Hok Hlen)
    as ([s log] & Hrun & Hi & _ & _ & Hl & Ht).
  exists s, log. cbn in Hi, Hl, Ht. split_and!; [done|lia|apply Hi..|done|].
  destruct (ri_probation _ Hi) as [Hdef Hp]. unfold held_ids. rewrite length_fmap.
  rewrite Hdef in Hp. cbv zeta in Hp. destruct (RemoteSendSource_state s); lia.
Qed.

(** C7: receiving a packet implements the probation and reception-window
    specification [recv_spec]: a sender in probation is released by a packet
    that follows the last one, and loses its held packet on any other; a
    sender in the normal state passes the packets from 100 before to 2999
    after the last sequence number stored; a sender that said BYE is ignored.
    The distance is the exact one between the 16-bit sequence numbers. *)
Theorem recv_packet_refines `{GstLaws} (s : RemoteSendSource) (bytes time seqnum ts pt : Z) (cr : option Z)
    (id init : Z) :
  rss_inv s -> rss_room s -> is_u16 seqnum -> rate_ok cr ->
  exists r s' diff,
    RemoteSendSource_recv_packet s bytes time seqnum ts pt cr id init = Ok (r, s') /\ rss_inv s' /\
    (RemoteSendSource_state s <> Bye -> distance s seqnum diff) /\
    (r, (RemoteSendSource_state s', held_ids s')) = recv_spec (RemoteSendSource_state s) (held_ids s) diff id.
Proof.
  intros Hi Hroom Hs Hr.
  destruct (recv_packet_total s bytes time seqnum ts pt cr id init Hi Hroom Hs Hr) as (r & s' & E & Hi' & _).
  destruct (recv_packet_view s bytes time seqnum ts pt cr id init r s' Hi Hroom Hs Hr E) as (d & Hd & Hv).
  eauto 10.
Qed.

(** The fraction of packets lost in a report block is the loss times 256
    over the packets expected, rounded down, whenever something arrived; but
    when every expected packet was lost the value 256 does not fit the 8 bits
    and the report says that nothing was lost. *)
Lemma fraction_lost_spec (expected lost : Z) :
  0 < expected < 2 ^ 55 -> 0 <= lost <= expected ->
  fraction_lost_of expected lost = (if lost =? expected then 0 else 256 * lost / expected).
Proof.
  change (2 ^ 55) with 36028797018963968. intros He Hl. unfold fraction_lost_of.
  destruct (Z.eqb_spec expected 0); [lia|]. cbn [orb]. unfold wrap. rewrite Z.shiftl_mul_pow2 by lia.
  change (2 ^ 8) with 256. rewrite (Z.mod_small (lost * 256)) by lia.
  destruct (Z.leb_spec lost 0).
  - replace lost with 0 by lia. zif; [done|by rewrite Z.div_0_l].
  - zif.
    + subst. rewrite Z.mul_comm, Z.div_mul by lia. done.
    + rewrite (Z.mul_comm lost), Z.mod_small; [done|].
      split; [apply Z.div_pos; lia|apply Z.div_lt_upper_bound; lia].
Qed.

(** A count of lost packets is put into a report block as a 24-bit two's
    complement number, but read back as sign and magnitude: a count that is
    not negative survives the round trip, a negative one (more packets than
    expected) comes back as another negative number. *)
Lemma cumulative_lost_roundtrip (lost : Z) (rb : Rb) :
  - 2 ^ 23 <= lost < 2 ^ 23 -> rb_cumulative_lost rb = cumulative_lost_of lost ->
  cumulative_lost_of lost = lost mod 2 ^ 24 /\
  Rb_cumulative_lost rb = (if 0 <=? lost then lost else - (lost + 2 ^ 23)).
Proof.
  change (2 ^ 23) with 8388608. change (2 ^ 24) with 16777216. intros Hl Hrb.
  unfold Rb_cumulative_lost. rewrite Hrb. clear Hrb.
  assert (Hneg : lost < 0 -> cumulative_lost_of lost = lost + 16777216).
  { intros Hn. unfold cumulative_lost_of. rewrite (proj2 (Z.ltb_lt lost 0)) by done.
    change 8388607 with (2 ^ 23 - 1). rewrite land_low by lia. change (2 ^ 23) with 8388608.
    replace (lost mod 8388608) with (lost + 8388608)
      by (rewrite <- (Z.mod_add lost 1 8388608), Z.mod_small by lia; lia).
    rewrite wrap_small by lia. change 8388608 with (Z.shiftl 1 23) at 1.
    rewrite lor_shiftl_add by (change (2 ^ 23) with 8388608; lia). lia. }
  assert (Hbit : forall x, 0 <= x < 16777216 -> (Z.land x 8388608 >? 0) = (8388608 <=? x)).
  { intros x Hx. change (Z.land x 8388608) with (Z.land x (2 ^ 23)). rewrite land_pow2 by lia.
    destruct (Z.testbit x 23) eqn:Hb; [apply Z.testbit_true in Hb|apply Z.testbit_false in Hb]; try lia;
      change (2 ^ 23) with 8388608 in *; zcase; try done; Z.to_euclidean_division_equations; lia. }
  destruct (Z.leb_spec 0 lost).
  - assert (cumulative_lost_of lost = lost) as ->.
    { unfold cumulative_lost_of. rewrite (proj2 (Z.ltb_ge lost 0)) by done.
      change 134217727 with (2 ^ 27 - 1). rewrite land_low, Z.mod_small, wrap_small by lia. done. }
    rewrite Hbit by lia. rewrite (proj2 (Z.leb_gt 8388608 lost)), Z.mod_small by lia.
    split; [done|]. apply swrap_small; [done..|change (U32 / 2) with 2147483648; lia].
  - rewrite Hneg, Hbit by lia. rewrite (proj2 (Z.leb_le 8388608 (lost + 16777216))) by lia.
    split; [by rewrite <- (Z.mod_add lost 1 16777216), Z.mod_small by lia|].
    change 8388607 with (2 ^ 23 - 1). rewrite land_low by lia.
    replace (lost + 16777216) with (lost + 8388608 + 1 * 8388608) by lia.
    change (2 ^ 23) with 8388608. rewrite Z.mod_add, Z.mod_small by lia.
    by rewrite swrap_small by (done || (change (U32 / 2) with 2147483648; lia)).
Qed.

(** The interarrival jitter of a sender never decreases: whatever the
    arrival times and timestamps, adding a packet to the statistics leaves the
    estimate at least as large as it was, so it does not follow the smoothed
    absolute value of RFC 3550 (6.4.1), which decays. *)
Lemma jitter_never_decreases `{GstLaws} (s : RemoteSendSource) (ts now init pt : Z) (cr : option Z)
    (ext bytes : Z) :
  rss_inv s -> rate_ok cr -> rss_recv_packets s + 1 < U64 ->
  exists s', RemoteSendSource_recv_packet_add_to_stats s ts now init pt cr ext bytes = Ok s' /\
    rss_recv_packets s' = rss_recv_packets s + 1 /\ rss_jitter s <= rss_jitter s'.
Proof.
  intros Hi Hr Hp. destruct (add_to_stats_total s ts now init pt cr ext bytes Hr Hp)
    as (s' & E & _ & Hn & _ & Hj).
  exists s'. split_and!; [done..|]. apply Hj, (ri_jitter _ Hi).
Qed.

(** Key-unit requests of an SSRC the source has no record of: the first
    one is always refused, and each later one is allowed exactly when it comes
    a round trip or more after the one before, refused ones included; so at
    most one is allowed per round trip, as the comment in the code says, but a
    receiver that asks more often than that is refused for ever. *)
Lemma key_unit_requests (table : gmap Z Z) (rb : ReceivedRb) (t : Z) (times : list Z) :
  is_u32 (rb_last_sr (rrb_rb rb)) -> is_u32 (rb_delay_since_last_sr (rrb_rb rb)) ->
  is_u64 (ntp_val (rrb_receive_ntp_time rb)) -> table !! rb_ssrc (rrb_rb rb) = None ->
  StronglySorted Z.le (t :: times) ->
  exists rtt, ReceivedRb_round_trip_time rb = Ok rtt /\
    key_unit_run table rb (t :: times) = Ok (false :: spaced rtt t times).
Proof.
  intros Hs Hd Hn Ht Hsorted. destruct (round_trip_time_total rb Hs Hd Hn) as (rtt & Hrtt & Hpos & _).
  exists rtt. split; [done|]. cbn. unfold request_key_unit_allowed at 1. rewrite Hrtt, bind_Ok. cbn.
  rewrite Ht, (key_unit_run_from _ rb rtt t); [done|done|done| |done]. by rewrite lookup_insert_eq.
Qed.

(** The window of a bitrate estimate holds exactly the packets of the
    last [max_time], in order, for any history of packets with times that do
    not go back. *)
Lemma bitrate_window (max : Z) (es : list (Z * Z)) (bytes now : Z) :
  StronglySorted (fun a b => snd a <= snd b) (es ++ [(bytes, now)]) ->
  entries (bitrate_run max (es ++ [(bytes, now)])) =
    base.filter (fun e => now - snd e < max) (es ++ [(bytes, now)]).
Proof. intros Hs. by apply (bitrate_run_filter max es (bytes, now)). Qed.

(** The round trip computed from a report block is twice the time between
    its arrival and the sum of its two timestamps, in nanoseconds: RFC 3550
    (6.4.1) subtracts both from the arrival time and takes that difference
    itself as the round trip. *)
Lemma round_trip_time_doubled (rb : ReceivedRb) :
  let sent := rb_last_sr (rrb_rb rb) + rb_delay_since_last_sr (rrb_rb rb) in
  let received := NtpTime_as_u32 (rrb_receive_ntp_time rb) in
  0 < sent <= received -> received - sent < 6 * 65536 -> received < U32 ->
  ReceivedRb_round_trip_time rb = Ok (2 * (received - sent) * NS_PER_SEC / 65536).
Proof.
  intros sent received Hs Hd Hr. unfold ReceivedRb_round_trip_time. fold sent received.
  assert (Hsend : u64_add (rb_last_sr (rrb_rb rb)) (rb_delay_since_last_sr (rrb_rb rb)) = Ok sent)
    by (apply u64_add_ok; fold sent; lia).
  rewrite Hsend, bind_Ok. destruct (Z.eqb_spec sent 0); [lia|].
  rewrite (Z.gtb_ltb sent), (proj2 (Z.ltb_ge received sent)) by lia. rewrite bind_Ok. cbv zeta.
  unfold saturating_sub. rewrite Z.max_r, Z.gtb_ltb, Z.shiftr_div_pow2 by lia. change (2 ^ 16) with 65536.
  zif; [pose proof (Z.div_lt_upper_bound (received - sent) 65536 6); lia|].
  run_chk. by run_chk.
Qed.

(** Key-unit requests to a sender: a FIR request makes the next FIR
    packet carry exactly one entry for it, with the next command number when
    the request is a new one and the same number when it is repeated, and
    silences PLI requests until then; a PLI request makes exactly one PLI
    packet. *)
Lemma key_unit_feedback (s : RemoteSendSource) (count : Z) (fir : list (Z * Z)) (added : bool) :
  let s1 := RemoteSendSource_request_remote_key_unit s (Fir count) in
  let n := if decide (rss_send_fir_count s = Some count) then rss_send_fir_seqnum s
           else (rss_send_fir_seqnum s + 1) mod 256 in
  RemoteSendSource_request_remote_key_unit s1 Pli = s1 /\
  RemoteSendSource_request_remote_key_unit s1 (Fir count) = s1 /\
  (exists s2, RemoteSendSource_generate_fir s1 fir added = (fir ++ [(RemoteSendSource_ssrc s, n)], true, s2) /\
     RemoteSendSource_generate_fir s2 fir added = (fir, added, s2)) /\
  (rss_send_fir s = false -> exists s2,
     RemoteSendSource_generate_pli (RemoteSendSource_request_remote_key_unit s Pli) = (true, s2) /\
     RemoteSendSource_generate_pli s2 = (false, s2)).
Proof.
  cbv zeta. unfold RemoteSendSource_request_remote_key_unit, RemoteSendSource_generate_fir,
    RemoteSendSource_generate_pli, RemoteSendSource_ssrc.
  destruct (decide (rss_send_fir_count s = Some count)) as [E|E].
  - rewrite (decide_False (P := rss_send_fir_count s <> Some count)) by tauto. cbn.
    rewrite decide_False by tauto. split_and!; [done..|by eauto|]. intros ->. eauto.
  - rewrite (decide_True (P := rss_send_fir_count s <> Some count)) by done. cbn.
    rewrite decide_False by tauto. split_and!; [done..|by eauto|]. intros ->. eauto.
Qed.

(** ** Witnesses *)

Definition arrival (time seqnum id : Z) : Arrival :=
  mkArrival 100 time seqnum 0 96 (Some 90000) id.

(** Two consecutive packets release a sender; the second is received again
    once the first has been forwarded. *)
Lemma source_run_sound_witness : exists s log,
  @recv_run gst_exact 0 (RemoteSendSource_new 0 7)
    [arrival 1000 65535 1; arrival 2000 0 2; arrival 2000 0 3] = Ok (s, log) /\
  taken log = released log ++ rev (held_ids s) /\
  log = [ReplyHold 1; ReplyForward 1; ReplyPassthrough].
Proof.
  destruct (@source_run_sound gst_exact gst_exact_laws 0 7 0
    [arrival 1000 65535 1; arrival 2000 0 2; arrival 2000 0 3]) as (s & log & H1 & _ & _ & H2 & _).
  - repeat constructor; cbn; lia.
  - cbn. lia.
  - exists s, log. split; [exact H1|]. split; [exact H2|]. vm_compute in H1. by injection H1 as _ <-.
Defined.

Lemma recv_packet_refines_witness : exists r s' diff,
  @RemoteSendSource_recv_packet gst_exact (RemoteSendSource_new 0 7) 100 0 5 0 96 None 1 0 = Ok (r, s') /\
  (r, (RemoteSendSource_state s', held_ids s')) = recv_spec (Probation 2) [] diff 1.
Proof.
  destruct (@recv_packet_refines gst_exact gst_exact_laws (RemoteSendSource_new 0 7) 100 0 5 0 96 None 1 0)
    as (r & s' & diff & H1 & _ & _ & H2); [apply rss_new_inv|split; cbn; lia|unfold is_u16; lia|done|].
  exists r, s', diff. split; [exact H1|exact H2].
Defined.

Lemma fraction_lost_spec_witness : fraction_lost_of 100 100 = 0 /\ fraction_lost_of 100 25 = 64.
Proof.
  split.
  - rewrite (fraction_lost_spec 100 100) by lia. reflexivity.
  - rewrite (fraction_lost_spec 100 25) by lia. reflexivity.
Defined.

Lemma cumulative_lost_roundtrip_witness :
  cumulative_lost_of (-1) = 16777215 /\ Rb_cumulative_lost (mkRb 7 0 (cumulative_lost_of (-1)) 0 0 0 0) = -8388607.
Proof.
  destruct (cumulative_lost_roundtrip (-1) (mkRb 7 0 (cumulative_lost_of (-1)) 0 0 0 0)) as [H1 H2];
    [lia|reflexivity|].
  split; [exact H1|exact H2].
Defined.

Lemma jitter_never_decreases_witness : exists s',
  @RemoteSendSource_recv_packet_add_to_stats gst_exact (RemoteSendSource_new 0 7) 0 1000 0 96 (Some 90000) 65541 100
    = Ok s' /\ 0 <= rss_jitter s'.
Proof.
  destruct (@jitter_never_decreases gst_exact gst_exact_laws (RemoteSendSource_new 0 7) 0 1000 0 96 (Some 90000)
    65541 100) as (s' & H1 & _ & H2); [apply rss_new_inv|cbn; lia|cbn; lia|].
  exists s'. split; [exact H1|exact H2].
Defined.

(** A receiver with a round trip of 2 s that asks every second. *)
Lemma key_unit_requests_witness :
  key_unit_run ∅ (mkReceivedRb (mkRb 7 0 0 0 0 65536 0) 0 (mkNtpTime (131072 * 65536)))
    [0; NS_PER_SEC; 2 * NS_PER_SEC; 4 * NS_PER_SEC] = Ok [false; false; false; true].
Proof.
  destruct (key_unit_requests ∅ (mkReceivedRb (mkRb 7 0 0 0 0 65536 0) 0 (mkNtpTime (131072 * 65536))) 0
    [NS_PER_SEC; 2 * NS_PER_SEC; 4 * NS_PER_SEC]) as (rtt & H1 & ->);
    [unfold is_u32; cbn; lia|unfold is_u32; cbn; lia|unfold is_u64; cbn; lia|done|repeat constructor; lia|].
  vm_compute in H1. by injection H1 as <-.
Defined.

Lemma bitrate_window_witness :
  entries (bitrate_run (3 * NS_PER_SEC) [(100, 0); (200, NS_PER_SEC); (300, 3 * NS_PER_SEC)]) =
    [(200, NS_PER_SEC); (300, 3 * NS_PER_SEC)].
Proof.
  refine (eq_trans (bitrate_window (3 * NS_PER_SEC) [(100, 0); (200, NS_PER_SEC)] 300 (3 * NS_PER_SEC) _) _).
  - repeat constructor; cbn; lia.
  - reflexivity.
Defined.

Lemma round_trip_time_doubled_witness :
  ReceivedRb_round_trip_time (mkReceivedRb (mkRb 7 0 0 0 0 65536 0) 0 (mkNtpTime (131072 * 65536)))
    = Ok (2 * NS_PER_SEC).
Proof.
  rewrite (round_trip_time_doubled (mkReceivedRb (mkRb 7 0 0 0 0 65536 0) 0 (mkNtpTime (131072 * 65536))));
    [reflexivity|vm_compute; split; congruence || reflexivity|reflexivity|reflexivity].
Defined.

Lemma key_unit_feedback_witness : exists s2,
  RemoteSendSource_generate_pli (RemoteSendSource_request_remote_key_unit (RemoteSendSource_new 0 7) Pli)
    = (true, s2).
Proof.
  destruct (key_unit_feedback (RemoteSendSource_new 0 7) 1 [] false) as (_ & _ & _ & H).
  destruct (H eq_refl) as (s2 & H2 & _). exists s2. exact H2.
Defined.
