(* ===== verification/Session.v ===== *)
(** * RTP sessions (net/rtp/src/rtpbin2/session.rs)

    A session tracks its local and remote sources, decides what happens to
    each packet sent or received, handles RTCP and schedules its own
    (RFC 3550 and 4585). *)

From S2P Require Import Prelude Utils Time F64 Lru Source.

(** ** What the session uses of other crates *)

(** The constants of the [rtcp_types] crate, and its writer: the size of a
    compound packet, or [None] where the builder reports an error. *)
Class RtcpTypes (packet : Type) := {
  SDES_CNAME : Z; SDES_NAME : Z; SDES_EMAIL : Z; SDES_PHONE : Z;
  SDES_LOC : Z; SDES_TOOL : Z; SDES_NOTE : Z;
  rtcp_calculate_size : list packet -> option Z;
  rtcp_write_into : list packet -> option (list Z);
}.

(** The unspecified order in which a [HashMap] is visited. *)
Class HashOrder := hm_iter : forall {K V} `{Countable K}, gmap K V -> list (K * V).
Class HashOrderLaws `{HashOrder} : Prop :=
  hm_iter_perm : forall {K V} `{Countable K} (m : gmap K V), hm_iter m ≡ₚ map_to_list m.

(** The fields of an RTP packet the session reads. *)
Record RtpPacket := mkRtpPacket {
  rtp_ssrc : Z;
  rtp_payload_type : Z;
  rtp_sequence_number : Z;
  rtp_timestamp : Z;
  rtp_payload_len : Z;
}.

(** What a parsed RTCP packet holds; a report block is read into an [Rb]. *)
Inductive Fci := FciPli | FciFir (entries : list (Z * Z)) | FciOther.
Inductive Packet :=
| PacketApp
| PacketBye (ssrcs : list Z)
| PacketRr (ssrc : Z) (report_blocks : list Rb)
| PacketSr (ssrc ntp_timestamp rtp_timestamp octet_count packet_count : Z) (report_blocks : list Rb)
| PacketSdes (chunks : list (Z * list (Z * list Z)))
| PacketPayloadFeedback (sender_ssrc media_ssrc : Z) (fci : Fci)
| PacketOther
| PacketErr.

(** What the session asks the writer to build. *)
Inductive OutPacket :=
| OutSr (ssrc packet_count octet_count ntp_timestamp rtp_timestamp : Z) (report_blocks : list Rb)
| OutRr (ssrc : Z) (report_blocks : list Rb)
| OutSdes (chunks : list (Z * list (Z * list Z)))
| OutPli (sender_ssrc media_ssrc : Z)
| OutFir (sender_ssrc : Z) (entries : list (Z * Z))
| OutBye (reason : list Z) (ssrcs : list Z).

(** ** State *)

Definition RTCP_MIN_REPORT_INTERVAL : Z := duration_from_secs 5.
Definition RTCP_SOURCE_TIMEOUT_N_INTERVALS : Z := 5.
Definition RTCP_ADDRESS_CONFLICT_TIMEOUT : Z := Z.min DURATION_MAX (RTCP_MIN_REPORT_INTERVAL * 12).
Definition RTCP_MIN_BANDWIDTH : Z := 400.
Definition RTCP_MTU : Z := 1200.
Definition UDP_IP_OVERHEAD_BYTES : Z := 28.
Definition DEFAULT_MAX_REMOTE_SOURCES : Z := 150.

Record RtcpTimeMembers := mkRtcpTimeMembers { tm_time : option Z; tm_p_members : Z }.
#[export] Instance RtcpTimeMembers_rebuild : Rebuild RtcpTimeMembers :=
  {| rebuild := fun r => mkRtcpTimeMembers (tm_time r) (tm_p_members r) |}.

Record ByeState := mkByeState { bye_members : Z; bye_pmembers : Z }.
#[export] Instance ByeState_rebuild : Rebuild ByeState :=
  {| rebuild := fun r => mkByeState (bye_members r) (bye_pmembers r) |}.

Inductive RtpProfile := Avp | Avpf.
Definition RtpProfile_is_feedback (self : RtpProfile) : bool :=
  match self with Avpf => true | Avp => false end.

Inductive RequestEarlyRtcpResult := NotScheduled | Scheduled | TimerReconsideration.
#[export] Instance RequestEarlyRtcpResult_eq_dec : EqDecision RequestEarlyRtcpResult.
Proof. solve_decision. Defined.

Inductive RecvReply :=
| RecvNewSsrc (ssrc pt : Z)
| RecvHold (id : Z)
| RecvDrop (id : Z)
| RecvForward (id : Z)
| RecvPassthrough
| RecvIgnore
| RecvSsrcCollision (ssrc : Z).

Inductive SendReply :=
| SendNewSsrc (ssrc pt : Z)
| SendPassthrough
| SendDrop
| SendSsrcCollision (ssrc : Z).

Inductive RtcpRecvReply :=
| RtcpNewSsrc (ssrc : Z)
| RtcpSsrcCollision (ssrc : Z)
| RtcpTimerReconsideration
| RtcpRequestKeyUnit (ssrcs : list Z) (fir : bool)
| RtcpNewCName (cname : list Z) (ssrc : Z)
| RtcpNewRtpNtp (ssrc rtp ntp : Z)
| RtcpSsrcBye (ssrc : Z)
| RtcpSsrcTimedOut (ssrcs : list Z).

Inductive RtcpSendReply :=
| SendSsrcTimedOut (ssrcs : list Z)
| SendData (data : list Z)
| SendSsrcBye (ssrc : Z).

Inductive RequestRemoteKeyUnitReply := KeyUnitTimerReconsideration.

Record Session `{LruOps} := mkSession {
  se_min_rtcp_interval : Z;
  se_profile : RtpProfile;
  se_reduced_size_rtcp : bool;
  se_local_senders : gmap Z LocalSendSource;
  se_local_receivers : gmap Z LocalReceiveSource;
  se_remote_receivers : LruCache RemoteReceiveSource;
  se_remote_senders : LruCache RemoteSendSource;
  se_timed_out_ssrcs : list Z;
  se_average_rtcp_size : Z;
  se_hold_buffer_counter : Z;
  se_sdes : gmap Z (list Z);
  se_pt_map : gmap Z Z;
  se_conflicting_addresses : gmap SocketAddr Z;
  se_internal_rtcp_sender_src : option Z;
  se_bye_state : option ByeState;
  se_is_point_to_point : bool;
  se_rtcp_interval : option Z;
  se_last_rtcp_handle_time : option Z;
  se_next_rtcp_send : RtcpTimeMembers;
  se_last_rtcp_sent_times : list Z;               (* VecDeque, front first *)
  se_next_early_rtcp_time : option Z;
  se_pending_rtcp_send : list RtcpSendReply;      (* VecDeque, front first *)
}.
#[export] Instance Session_rebuild `{LruOps} : Rebuild Session :=
  {| rebuild := fun s => mkSession _ (se_min_rtcp_interval s) (se_profile s) (se_reduced_size_rtcp s)
    (se_local_senders s) (se_local_receivers s) (se_remote_receivers s) (se_remote_senders s)
    (se_timed_out_ssrcs s) (se_average_rtcp_size s) (se_hold_buffer_counter s) (se_sdes s) (se_pt_map s)
    (se_conflicting_addresses s) (se_internal_rtcp_sender_src s) (se_bye_state s) (se_is_point_to_point s)
    (se_rtcp_interval s) (se_last_rtcp_handle_time s) (se_next_rtcp_send s) (se_last_rtcp_sent_times s)
    (se_next_early_rtcp_time s) (se_pending_rtcp_send s) |}.

Section Session.
Context `{LruOps} `{Gst} `{HashOrder} `{RtcpTypes OutPacket}.

Definition Session_new (cname : list Z) : Session := {|
se_min_rtcp_interval := RTCP_MIN_REPORT_INTERVAL;
se_profile := Avp;
se_reduced_size_rtcp := false;
se_local_senders := ∅;
se_local_receivers := ∅;
se_remote_receivers := lru_new DEFAULT_MAX_REMOTE_SOURCES;
se_remote_senders := lru_new DEFAULT_MAX_REMOTE_SOURCES;
se_timed_out_ssrcs := [];
se_last_rtcp_sent_times := [];
se_rtcp_interval := None;
se_next_rtcp_send := mkRtcpTimeMembers None 0;
se_average_rtcp_size := 100;
se_hold_buffer_counter := 0;
se_sdes := {[ SDES_CNAME := cname ]};
se_pt_map := ∅;
se_conflicting_addresses := ∅;
se_internal_rtcp_sender_src := None;
se_bye_state := None;
se_next_early_rtcp_time := None;
se_last_rtcp_handle_time := None;
se_is_point_to_point := true;
se_pending_rtcp_send := [];
|}.

Definition Session_set_min_rtcp_interval (self : Session) (d : Z) : Session :=
self <| se_min_rtcp_interval := d |>.
Definition Session_set_profile (self : Session) (p : RtpProfile) : Session := self <| se_profile := p |>.
Definition Session_set_reduced_size_rtcp (self : Session) (b : bool) : Session :=
self <| se_reduced_size_rtcp := b |>.
Definition Session_set_max_remote_receiver_sources (self : Session) (n : Z) : Session :=
self <| se_remote_receivers ::= fun c => lru_resize c n |>.
Definition Session_set_max_remote_sender_sources (self : Session) (n : Z) : Session :=
self <| se_remote_senders ::= fun c => lru_resize c n |>.

(** ** Counting members *)

Definition is_normal (s : SourceState) : bool := match s with Normal => true | _ => false end.

Definition count {A} (f : A -> bool) (l : list A) : Z := Z.of_nat (length (List.filter f l)).

Definition Session_n_members (self : Session) : Z :=
match se_bye_state self with
| Some state => bye_members state
| None =>
    count (fun e => is_normal (LocalSendSource_state (snd e))) (hm_iter (se_local_senders self))
    + count (fun e => is_normal (LocalReceiveSource_state (snd e))) (hm_iter (se_local_receivers self))
    + count (fun e => is_normal (RemoteSendSource_state (snd e))) (lru_iter (se_remote_senders self))
    + count (fun e => is_normal (RemoteReceiveSource_state (snd e))) (lru_iter (se_remote_receivers self))
end.

Definition Session_n_senders (self : Session) : Z :=
match se_bye_state self with
| Some _ => 0
| None =>
    count (fun e => is_normal (LocalSendSource_state (snd e))) (hm_iter (se_local_senders self))
    + count (fun e => is_normal (RemoteSendSource_state (snd e))) (lru_iter (se_remote_senders self))
end.

Definition Session_p_members (self : Session) : Z :=
match se_bye_state self with
| Some state => bye_pmembers state
| None => tm_p_members (se_next_rtcp_send self)
end.

(** The fold of [all]: no two CNAMEs differ. *)
Definition same_cname (cnames : list (list Z)) : bool :=
match cnames with
| [] => true
| c :: cs => forallb (fun cn => bool_decide (cn = c)) cs
end.

Definition Session_update_point_to_point (self : Session) : Session :=
let cnames :=
  omap (fun e => src_sdes (rss_source (snd e)) !! SDES_CNAME) (lru_iter (se_remote_senders self)) ++
  omap (fun e => src_sdes (rrs_source (snd e)) !! SDES_CNAME) (lru_iter (se_remote_receivers self)) in
self <| se_is_point_to_point := same_cname cnames |>.

Definition Session_set_pt_clock_rate (self : Session) (pt clock_rate : Z) : Session :=
self <| se_pt_map ::= insert pt clock_rate |>.

Definition Session_clock_rate_from_pt (self : Session) (pt : Z) : option Z := se_pt_map self !! pt.

Definition Session_set_sdes (self : Session) (sdes : gmap Z (list Z)) : Session :=
self <| se_local_senders ::= fmap (fun s => LocalSendSource_set_sdes s sdes) |>
     <| se_local_receivers ::= fmap (fun s => LocalReceiveSource_set_sdes s sdes) |>
     <| se_sdes := sdes |>.

Definition Session_handle_ssrc_conflict (self : Session) (addr : SocketAddr) (now : Z) : bool * Session :=
match se_conflicting_addresses self !! addr with
| Some _ => (false, self <| se_conflicting_addresses ::= insert addr now |>)
| None => (true, self <| se_conflicting_addresses ::= insert addr now |>)
end.

(** ** Receiving RTP *)

(** The collision handling at the start of [handle_recv]: [Some] reply where
  it returns early. *)
Definition recv_collision (self : Session) (rtp : RtpPacket) (from : option SocketAddr) (now : Z)
: option RecvReply * Session :=
match from with
| None => (None, self)
| Some addr =>
    match se_local_senders self !! rtp_ssrc rtp with
    | Some _ =>
        let '(conflict, self) := Session_handle_ssrc_conflict self addr now in
        (Some (if conflict : bool then RecvSsrcCollision (rtp_ssrc rtp) else RecvIgnore), self)
    | None =>
        match lru_pop (se_remote_receivers self) (rtp_ssrc rtp) with
        | (Some recv, receivers) =>
            let sender := RemoteSendSource_set_rtp_from (RemoteReceiveSource_into_send recv) from in
            (None, self <| se_remote_receivers := receivers |>
                        <| se_remote_senders ::= fun c => lru_push c (rtp_ssrc rtp) sender |>)
        | (None, receivers) =>
            let self := self <| se_remote_receivers := receivers |> in
            match lru_get_mut (se_remote_senders self) (rtp_ssrc rtp) with
            | Some (recv, set) =>
                match rss_rtp_from recv with
                | Some from_addr =>
                    let self := self <| se_remote_senders := set recv |> in
                    if decide (addr <> from_addr) then (Some RecvIgnore, self) else (None, self)
                | None =>
                    (None, self <| se_remote_senders := set (RemoteSendSource_set_rtp_from recv from) |>)
                end
            | None => (None, self)
            end
        end
    end
end.

(** [instant_now] is what [Instant::now()] reads when a source is created,
  [initial_time] the process's first receive time. *)
Definition Session_handle_recv (self : Session) (rtp : RtpPacket) (from : option SocketAddr)
  (now initial_time instant_now : Z) : res (RecvReply * Session) :=
match recv_collision self rtp from now with
| (Some reply, self) => Ok (reply, self)
| (None, self) =>
    let clock_rate := Session_clock_rate_from_pt self (rtp_payload_type rtp) in
    match lru_get_mut (se_remote_senders self) (rtp_ssrc rtp) with
    | Some (source, set) =>
        '(reply, source) ←
          RemoteSendSource_recv_packet source (wrap U32 (rtp_payload_len rtp)) now
            (rtp_sequence_number rtp) (rtp_timestamp rtp) (rtp_payload_type rtp) clock_rate
            (se_hold_buffer_counter self) initial_time;
        let self := self <| se_remote_senders := set source |> in
        match reply with
        | ReplyHold id =>
            c ← u64_add (se_hold_buffer_counter self) 1;
            Ok (RecvHold id, self <| se_hold_buffer_counter := c |>)
        | ReplyDrop id => Ok (RecvDrop id, self)
        | ReplyIgnore => Ok (RecvIgnore, self)
        | ReplyForward id => Ok (RecvForward id, self)
        | ReplyPassthrough => Ok (RecvPassthrough, self)
        end
    | None =>
        let ssrc := rtp_ssrc rtp in
        let source := RemoteSendSource_set_rtp_from (RemoteSendSource_new instant_now ssrc) from in
        Ok (RecvNewSsrc ssrc (rtp_payload_type rtp),
            self <| se_remote_senders ::= fun c => lru_push c ssrc source |>)
    end
end.

(** ** RTCP timing *)

Definition Session_session_bandwidth (self : Session) : res Z :=
local ← res_fold (fun acc e => if is_normal (LocalSendSource_state (snd e)) then
                                 b ← Bitrate_bitrate (lss_bitrate (snd e)); u64_add acc b
                               else Ok acc) 0 (hm_iter (se_local_senders self));
remote ← res_fold (fun acc e => if is_normal (RemoteSendSource_state (snd e)) then
                                  b ← Bitrate_bitrate (rss_bitrate (snd e)); u64_add acc b
                                else Ok acc) 0 (lru_iter (se_remote_senders self));
u64_add local remote.

(** The minimum interval that applies now. *)
Definition min_interval (self : Session) : Z :=
let sent := match se_last_rtcp_sent_times self with [] => false | _ => true end in
let no_bye := match se_bye_state self with None => true | Some _ => false end in
if RtpProfile_is_feedback (se_profile self) then
  if se_is_point_to_point self && sent && no_bye then 0 else duration_from_secs 1
else if sent && no_bye then se_min_rtcp_interval self
else duration_div (se_min_rtcp_interval self) 2.

Definition compensation_ns : Z := 820829366.

Definition Session_deterministic_rtcp_duration (self : Session) (we_sent : bool) : res Z :=
let n_senders := Session_n_senders self in
let n_members := Session_n_members self in
session_bandwidth ← Session_session_bandwidth self;
let rtcp_bw := Z.max (session_bandwidth / 20) RTCP_MIN_BANDWIDTH in
n4 ← u64_mul n_senders 4;
'(n, rtcp_bw) ←
  (if n4 <=? n_members then
     if we_sent then Ok (n_senders, rtcp_bw / 4)
     else d ← u64_sub n_members n_senders; Ok (d, rtcp_bw / 4 * 3)
   else Ok (n_members, rtcp_bw));
size ← u64_mul (se_average_rtcp_size self) (Z.max n 1);
t_nanos ← unwrap (mul_div_round U64 compensation_ns size (Z.max rtcp_bw 1));
Ok (Z.max t_nanos (wrap U64 (min_interval self))).

(** [factor] is the random number drawn, in [0, 1). *)
Definition rtcp_dither (dur : Z) (factor : spec_float) : res Z :=
duration_mul_f64 dur (f64_add factor (f64_literal 5 10)).

Definition Session_calculated_rtcp_duration (self : Session) (we_sent : bool) (factor : spec_float) : res Z :=
dur ← Session_deterministic_rtcp_duration self we_sent;
rtcp_dither dur factor.

Definition Session_rtcp_interval (self : Session) (factor : spec_float) : res Z :=
let we_sent := negb (bool_decide (se_local_senders self = ∅))
               && match se_bye_state self with None => true | Some _ => false end in
Session_calculated_rtcp_duration self we_sent factor.

Definition Session_update_rtcp_average (self : Session) (additional_size : Z) : res Session :=
if se_average_rtcp_size self =? 0 then Ok (self <| se_average_rtcp_size := additional_size |>)
else
  a ← u64_mul (se_average_rtcp_size self) 15;
  s ← u64_add additional_size a;
  Ok (self <| se_average_rtcp_size := s / 16 |>).

Definition Session_rtcp_reverse_consideration (self : Session) (initial_n_members now : Z)
: res (bool * Session) :=
let n_members := Session_n_members self in
if n_members >=? Session_p_members self then Ok (false, self)
else
  match tm_time (se_next_rtcp_send self) with
  | Some prev =>
      if now >? prev then Ok (false, self)
      else
        let dur := instant_sub prev now in
        if tm_p_members (se_next_rtcp_send self) >? 0 then
          let member_factor :=
            f64_div (f64_of_u64 initial_n_members) (f64_of_u64 (tm_p_members (se_next_rtcp_send self))) in
          d ← duration_mul_f64 dur member_factor;
          let self := self <| se_next_rtcp_send := mkRtcpTimeMembers (Some (instant_add now d)) n_members |> in
          match se_last_rtcp_sent_times self with
          | last_rtcp :: rest =>
              let dur := instant_sub last_rtcp now in
              d ← duration_mul_f64 dur member_factor;
              Ok (true, self <| se_last_rtcp_sent_times := (now - d) :: rest |>)
          | [] => Ok (true, self)
          end
        else Ok (false, self)
  | None => Ok (false, self)
  end.

(** ** Sending RTP *)

Definition Session_handle_send (self : Session) (rtp : RtpPacket) (now capture_time instant_now : Z)
: res (SendReply * Session) :=
let collision := fun (self : Session) (addr : option SocketAddr) =>
  match addr with
  | Some a =>
      let '(conflict, self) := Session_handle_ssrc_conflict self a now in
      if conflict : bool then (SendSsrcCollision (rtp_ssrc rtp), self) else (SendDrop, self)
  | None => (SendDrop, self)
  end in
match lru_get_mut (se_remote_senders self) (rtp_ssrc rtp) with
| Some (source, set) =>
    let addr := match rss_rtp_from source with Some a => Some a | None => rss_rtcp_from source end in
    Ok (collision (self <| se_remote_senders := set source |>) addr)
| None =>
    match lru_get_mut (se_remote_receivers self) (rtp_ssrc rtp) with
    | Some (source, set) =>
        Ok (collision (self <| se_remote_receivers := set source |>) (rrs_rtcp_from source))
    | None =>
        match se_local_senders self !! rtp_ssrc rtp with
        | Some source =>
            if decide (LocalSendSource_state source <> Normal) then Ok (SendDrop, self)
            else
              let source := LocalSendSource_set_last_activity source now in
              match se_pt_map self !! rtp_payload_type rtp with
              | Some _ =>
                  source ← LocalSendSource_sent_packet source (rtp_payload_len rtp) capture_time
                             (rtp_sequence_number rtp) (rtp_timestamp rtp) (rtp_payload_type rtp);
                  Ok (SendPassthrough, self <| se_local_senders ::= insert (rtp_ssrc rtp) source |>)
              | None => Ok (SendDrop, self <| se_local_senders ::= insert (rtp_ssrc rtp) source |>)
              end
        | None =>
            let self := self <| se_local_receivers ::= delete (rtp_ssrc rtp) |> in
            let source := LocalSendSource_new instant_now (rtp_ssrc rtp) in
            let source := LocalSendSource_set_last_activity source now in
            let source := LocalSendSource_set_state source Normal in
            let source := LocalSendSource_set_sdes source (se_sdes self) in
            '(_, self) ← (if bool_decide (se_local_senders self = ∅)
                          then Session_rtcp_reverse_consideration self 0 now
                          else Ok (false, self));
            Ok (SendNewSsrc (rtp_ssrc rtp) (rtp_payload_type rtp),
                self <| se_local_senders ::= insert (rtp_ssrc rtp) source |>)
        end
    end
end.

(** ** Receiving RTCP *)

Definition Session_handle_rb (self : Session) (sender_ssrc : Z) (rb : Rb) (from : option SocketAddr)
  (now ntp_time instant_now : Z) : res (option RtcpRecvReply * Session) :=
match se_local_senders self !! rb_ssrc rb with
| Some source =>
    source ← LocalSendSource_add_last_rb source sender_ssrc rb now ntp_time;
    let source := LocalSendSource_set_last_activity source now in
    Ok (None, self <| se_local_senders ::= insert (rb_ssrc rb) source |>)
| None =>
    let self :=
      match lru_pop (se_remote_receivers self) (rb_ssrc rb) with
      | (Some source, receivers) =>
          self <| se_remote_receivers := receivers |>
               <| se_remote_senders ::= fun c => lru_push c (rb_ssrc rb) (RemoteReceiveSource_into_send source) |>
      | (None, receivers) => self <| se_remote_receivers := receivers |>
      end in
    let ret := match lru_peek (se_remote_senders self) (rb_ssrc rb) with
               | None => Some (RtcpNewSsrc (rb_ssrc rb))
               | Some _ => None
               end in
    let '(source, set) :=
      lru_get_or_insert_mut (se_remote_senders self) (rb_ssrc rb)
        (RemoteSendSource_new instant_now (rb_ssrc rb)) in
    let source := RemoteSendSource_set_rtcp_from source from in
    let source := RemoteSendSource_set_state source Normal in
    let source := RemoteSendSource_set_last_activity source now in
    source ← RemoteSendSource_add_last_rb source sender_ssrc rb now ntp_time;
    Ok (ret, self <| se_remote_senders := set source |>)
end.

(** The report blocks of one packet, in order, collecting the replies. *)
Definition handle_rbs (self : Session) (sender_ssrc : Z) (rbs : list Rb) (from : option SocketAddr)
  (now ntp_time instant_now : Z) (replies : list RtcpRecvReply) : res (list RtcpRecvReply * Session) :=
res_fold (fun '(replies, self) rb =>
    '(ret, self) ← Session_handle_rb self sender_ssrc rb from now ntp_time instant_now;
    Ok (replies ++ option_list ret, self))
  (replies, self) rbs.

(** The sources a BYE names. *)
Definition handle_bye_ssrcs (self : Session) (ssrcs : list Z) (from : option SocketAddr) (now : Z)
  (replies : list RtcpRecvReply) : bool * list RtcpRecvReply * Session :=
fold_left (fun '(check, replies, self) ssrc =>
    match lru_get_mut (se_remote_senders self) ssrc with
    | Some (source, set) =>
        let source := RemoteSendSource_set_rtcp_from source from in
        let source := RemoteSendSource_set_last_activity source now in
        let source := RemoteSendSource_set_state source Bye in
        (true, replies ++ [RtcpSsrcBye ssrc], self <| se_remote_senders := set source |>)
    | None =>
        match lru_get_mut (se_remote_receivers self) ssrc with
        | Some (source, set) =>
            let source := RemoteReceiveSource_set_last_activity source now in
            let source := RemoteReceiveSource_set_state source Bye in
            (true, replies ++ [RtcpSsrcBye ssrc], self <| se_remote_receivers := set source |>)
        | None => (check, replies, self)
        end
    end)
  ssrcs (false, replies, self).

(** The state of the loop over a compound packet: the session, the replies,
  and whether a reconsidered timeout was already reported. *)
Record rtcp_loop := mkRtcpLoop {
rl_session : Session;
rl_replies : list RtcpRecvReply;
rl_reconsidered : bool;
}.

(** Reconsider the timer where a member left, and report it once. *)
Definition reconsider (st : rtcp_loop) (check : bool) (n_members now : Z) : res rtcp_loop :=
if check then
  '(done_, self) ← Session_rtcp_reverse_consideration (rl_session st) n_members now;
  if (done_ : bool) && negb (rl_reconsidered st)
  then Ok (mkRtcpLoop self (rl_replies st ++ [RtcpTimerReconsideration]) true)
  else Ok (mkRtcpLoop self (rl_replies st) (rl_reconsidered st))
else Ok st.

Definition handle_packet_bye (st : rtcp_loop) (ssrcs : list Z) (from : option SocketAddr)
  (rtcp_len now : Z) : res rtcp_loop :=
let n_members := Session_n_members (rl_session st) in
let '(check, replies, self) := handle_bye_ssrcs (rl_session st) ssrcs from now (rl_replies st) in
match se_bye_state self with
| Some state =>
    members ← u64_add (bye_members state) 1;
    let self := self <| se_bye_state := Some (state <| bye_members := members |>) |> in
    size ← u64_add rtcp_len UDP_IP_OVERHEAD_BYTES;
    self ← Session_update_rtcp_average self size;
    reconsider (mkRtcpLoop self replies (rl_reconsidered st)) check members now
| None => reconsider (mkRtcpLoop self replies (rl_reconsidered st)) check n_members now
end.

Definition handle_packet_rr (st : rtcp_loop) (ssrc : Z) (rbs : list Rb) (from : option SocketAddr)
  (now ntp_time instant_now : Z) : res rtcp_loop :=
let self := rl_session st in
let self :=
  match lru_pop (se_remote_senders self) ssrc with
  | (Some source, senders) =>
      self <| se_remote_senders := senders |>
           <| se_remote_receivers ::= fun c => lru_push c ssrc (RemoteSendSource_into_receive source) |>
  | (None, senders) => self <| se_remote_senders := senders |>
  end in
let replies := match lru_peek (se_remote_receivers self) ssrc with
               | None => rl_replies st ++ [RtcpNewSsrc ssrc]
               | Some _ => rl_replies st
               end in
let '(source, set) :=
  lru_get_or_insert_mut (se_remote_receivers self) ssrc (RemoteReceiveSource_new instant_now ssrc) in
let source := RemoteReceiveSource_set_rtcp_from source from in
let source := RemoteReceiveSource_set_state source Normal in
let source := RemoteReceiveSource_set_last_activity source now in
let self := self <| se_remote_receivers := set source |> in
'(replies, self) ← handle_rbs self ssrc rbs from now ntp_time instant_now replies;
Ok (mkRtcpLoop self replies (rl_reconsidered st)).

(** Whether an SSRC is one of our own. *)
Definition is_local (self : Session) (ssrc : Z) : bool :=
bool_decide (is_Some (se_local_senders self !! ssrc)) ||
bool_decide (is_Some (se_local_receivers self !! ssrc)).

(** A packet from elsewhere under one of our SSRCs. *)
Definition handle_collision (st : rtcp_loop) (ssrc : Z) (addr : SocketAddr) (now : Z) : rtcp_loop :=
let '(conflict, self) := Session_handle_ssrc_conflict (rl_session st) addr now in
mkRtcpLoop self
  (if conflict : bool then rl_replies st ++ [RtcpSsrcCollision ssrc] else rl_replies st)
  (rl_reconsidered st).

Definition handle_packet_sr (st : rtcp_loop) (ssrc ntp_timestamp rtp_ts octet_count packet_count : Z)
  (rbs : list Rb) (from : option SocketAddr) (now ntp_time instant_now : Z) : res rtcp_loop :=
match from, is_local (rl_session st) ssrc with
| Some addr, true => Ok (handle_collision st ssrc addr now)
| _, _ =>
    let self := rl_session st in
    let self :=
      match lru_pop (se_remote_receivers self) ssrc with
      | (Some source, receivers) =>
          self <| se_remote_receivers := receivers |>
               <| se_remote_senders ::= fun c => lru_push c ssrc (RemoteReceiveSource_into_send source) |>
      | (None, receivers) => self <| se_remote_receivers := receivers |>
      end in
    let replies := match lru_peek (se_remote_senders self) ssrc with
                   | None => rl_replies st ++ [RtcpNewSsrc ssrc]
                   | Some _ => rl_replies st
                   end in
    let '(source, set) :=
      lru_get_or_insert_mut (se_remote_senders self) ssrc (RemoteSendSource_new instant_now ssrc) in
    let source := RemoteSendSource_set_rtcp_from source from in
    let source := RemoteSendSource_set_state source Normal in
    let source := RemoteSendSource_set_last_activity source now in
    let source := RemoteSendSource_set_last_received_sr source ntp_time (mkNtpTime ntp_timestamp) rtp_ts
                    octet_count packet_count in
    let self := self <| se_remote_senders := set source |> in
    let replies := replies ++ [RtcpNewRtpNtp ssrc rtp_ts ntp_timestamp] in
    '(replies, self) ← handle_rbs self ssrc rbs from now ntp_time instant_now replies;
    Ok (mkRtcpLoop self replies (rl_reconsidered st))
end.

Definition sdes_known (ty : Z) : bool :=
existsb (Z.eqb ty)
  [SDES_CNAME; SDES_NAME; SDES_EMAIL; SDES_PHONE; SDES_LOC; SDES_TOOL; SDES_NOTE].

(** One SDES item of the chunk of [ssrc]. *)
Definition handle_sdes_item (st : rtcp_loop) (ssrc ty : Z) (value : list Z) (from : option SocketAddr)
  (now instant_now : Z) : rtcp_loop :=
match from, is_local (rl_session st) ssrc with
| Some addr, true => handle_collision st ssrc addr now
| _, _ =>
    if negb (sdes_known ty) then st
    else
      let self := rl_session st in
      let '(replies, self) :=
        match lru_get_mut (se_remote_senders self) ssrc with
        | Some (source, set) =>
            let source := RemoteSendSource_set_rtcp_from source from in
            let source := RemoteSendSource_received_sdes source ty value in
            let source := RemoteSendSource_set_state source Normal in
            let source := RemoteSendSource_set_last_activity source now in
            (rl_replies st, self <| se_remote_senders := set source |>)
        | None =>
            let replies := match lru_peek (se_remote_receivers self) ssrc with
                           | None => rl_replies st ++ [RtcpNewSsrc ssrc]
                           | Some _ => rl_replies st
                           end in
            let '(source, set) :=
              lru_get_or_insert_mut (se_remote_receivers self) ssrc
                (RemoteReceiveSource_new instant_now ssrc) in
            let source := RemoteReceiveSource_set_rtcp_from source from in
            let source := RemoteReceiveSource_received_sdes source ty value in
            let source := RemoteReceiveSource_set_state source Normal in
            let source := RemoteReceiveSource_set_last_activity source now in
            (replies, self <| se_remote_receivers := set source |>)
        end in
      let replies := if ty =? SDES_CNAME then
                       match from_utf8 value with
                       | Some s => replies ++ [RtcpNewCName s ssrc]
                       | None => replies
                       end
                     else replies in
      mkRtcpLoop self replies (rl_reconsidered st)
end.

Definition handle_packet_sdes (st : rtcp_loop) (chunks : list (Z * list (Z * list Z)))
  (from : option SocketAddr) (now instant_now : Z) : rtcp_loop :=
fold_left (fun st '(ssrc, items) =>
    fold_left (fun st '(ty, value) => handle_sdes_item st ssrc ty value from now instant_now) items st)
  chunks st.

(** One media SSRC of a key-unit request: whether it is to be honoured. *)
Definition request_key_unit_one (self : Session) (now sender_ssrc media_ssrc : Z) : res (bool * Session) :=
match se_local_senders self !! media_ssrc with
| None => Ok (false, self)
| Some sender =>
    match lss_last_received_rb sender !! sender_ssrc with
    | None => Ok (false, self)
    | Some rb =>
        match lru_get_mut (se_remote_senders self) sender_ssrc with
        | Some (sender, set) =>
            '(allowed, sender) ← RemoteSendSource_remote_request_key_unit_allowed sender now rb;
            Ok (allowed, self <| se_remote_senders := set sender |>)
        | None =>
            match lru_get_mut (se_remote_receivers self) sender_ssrc with
            | Some (sender, set) =>
                '(allowed, sender) ← RemoteReceiveSource_remote_request_key_unit_allowed sender now rb;
                Ok (allowed, self <| se_remote_receivers := set sender |>)
            | None => Ok (true, self)
            end
        end
    end
end.

Definition Session_handle_remote_request_key_unit (self : Session) (now : Z) (replies : list RtcpRecvReply)
  (fir : bool) (sender_ssrc : Z) (media_ssrcs : list Z) : res (list RtcpRecvReply * Session) :=
'(ssrcs, self) ←
  res_fold (fun '(ssrcs, self) media_ssrc =>
      '(allowed, self) ← request_key_unit_one self now sender_ssrc media_ssrc;
      Ok (if allowed : bool then ssrcs ++ [media_ssrc] else ssrcs, self))
    ([], self) media_ssrcs;
match ssrcs with
| [] => Ok (replies, self)
| _ :: _ => Ok (replies ++ [RtcpRequestKeyUnit ssrcs fir], self)
end.

Definition handle_packet_feedback (st : rtcp_loop) (sender_ssrc media_ssrc : Z) (fci : Fci) (now : Z)
: res rtcp_loop :=
match fci with
| FciPli =>
    '(replies, self) ← Session_handle_remote_request_key_unit (rl_session st) now (rl_replies st) false
                         sender_ssrc [media_ssrc];
    Ok (mkRtcpLoop self replies (rl_reconsidered st))
| FciFir entries =>
    '(replies, self) ← Session_handle_remote_request_key_unit (rl_session st) now (rl_replies st) true
                         sender_ssrc (fst <$> entries);
    Ok (mkRtcpLoop self replies (rl_reconsidered st))
| FciOther => Ok st
end.

Definition handle_packet (st : rtcp_loop) (p : Packet) (from : option SocketAddr)
  (rtcp_len now ntp_time instant_now : Z) : res rtcp_loop :=
match p with
| PacketApp | PacketOther | PacketErr => Ok st
| PacketBye ssrcs => handle_packet_bye st ssrcs from rtcp_len now
| PacketRr ssrc rbs => handle_packet_rr st ssrc rbs from now ntp_time instant_now
| PacketSr ssrc ntp rtp octets packets rbs =>
    handle_packet_sr st ssrc ntp rtp octets packets rbs from now ntp_time instant_now
| PacketSdes chunks => Ok (handle_packet_sdes st chunks from now instant_now)
| PacketPayloadFeedback sender media fci => handle_packet_feedback st sender media fci now
end.

Definition Session_handle_rtcp_recv (self : Session) (rtcp : list Packet) (rtcp_len : Z)
  (from : option SocketAddr) (now ntp_time instant_now : Z) : res (list RtcpRecvReply * Session) :=
self ← match se_bye_state self with
       | None => size ← u64_add rtcp_len UDP_IP_OVERHEAD_BYTES; Session_update_rtcp_average self size
       | Some _ => Ok self
       end;
let '(replies, self) :=
  match se_timed_out_ssrcs self with
  | [] => ([], self)
  | _ :: _ => ([RtcpSsrcTimedOut (se_timed_out_ssrcs self)], self <| se_timed_out_ssrcs := [] |>)
  end in
st ← res_fold (fun st p => handle_packet st p from rtcp_len now ntp_time instant_now)
       (mkRtcpLoop self replies false) rtcp;
Ok (rl_replies st, Session_update_point_to_point (rl_session st)).

(** ** Generating RTCP *)

Definition Session_reduced_size_rtcp_allowed (self : Session) : bool :=
se_reduced_size_rtcp self && match se_profile self with Avpf => true | Avp => false end.

Definition Session_have_ssrc (self : Session) (ssrc : Z) : bool :=
is_local self ssrc ||
bool_decide (is_Some (lru_peek (se_remote_senders self) ssrc)) ||
bool_decide (is_Some (lru_peek (se_remote_receivers self) ssrc)).

(** [draws] are the random numbers the loop draws; it stops at the first one
  that is no SSRC of the session. Where the list holds none, the model has
  no answer and says [Panic]. *)
Definition Session_ensure_internal_send_src (self : Session) (draws : list Z) (instant_now : Z)
: res (Z * Session) :=
match se_internal_rtcp_sender_src self with
| Some ssrc => Ok (ssrc, self)
| None =>
    match List.find (fun ssrc => negb (Session_have_ssrc self ssrc)) draws with
    | Some ssrc =>
        let source := LocalReceiveSource_new instant_now ssrc in
        let source := LocalReceiveSource_set_state source Normal in
        let source := LocalReceiveSource_set_sdes source (se_sdes self) in
        Ok (ssrc, self <| se_local_receivers ::= insert ssrc source |>
                       <| se_internal_rtcp_sender_src := Some ssrc |>)
    | None => Panic
    end
end.

(** Remembering an SSRC once. *)
Definition report_ssrc (reported : list Z) (ssrc : Z) : list Z :=
if existsb (Z.eqb ssrc) reported then reported else reported ++ [ssrc].

(** The report blocks on all remote senders. *)
Definition report_blocks (self : Session) (ntp_now : Z) (reported : list Z) : res (list Rb * list Z) :=
res_fold (fun '(rbs, reported) '(_, sender) =>
    if decide (RemoteSendSource_state sender <> Normal) then Ok (rbs, reported)
    else
      rb ← RemoteSendSource_generate_report_block sender ntp_now;
      Ok (rbs ++ [rb], report_ssrc reported (RemoteSendSource_ssrc sender)))
  ([], reported) (lru_iter (se_remote_senders self)).

(** The RTP time of [now], extrapolated from the last packet sent. *)
Definition sr_rtp_timestamp (self : Session) (sender : LocalSendSource) (now : Z) : Z :=
match lss_last_rtp_sent sender with
| Some (last_rtp_ts, instant) =>
    let dur_since_last_rtp := instant_sub now instant in
    let advance :=
      pt ← src_payload_type (lss_source sender);
      clock_rate ← Session_clock_rate_from_pt self pt;
      v ← mul_div_round U64 (wrap U64 dur_since_last_rtp) clock_rate SECOND;
      Some (and_mask v 32) in
    wrap U32 (last_rtp_ts + default 0 advance)
| None => 0
end.

(** The loop of [generate_sr] over the local senders: the packets, the SSRCs
  reported, and the snapshots to take. *)
Fixpoint sender_reports (self : Session) (senders : list (Z * LocalSendSource)) (now ntp_now : Z)
  (ntp_time : NtpTime) (minimum : bool) (rtcp : list OutPacket) (reported : list Z)
  (srs : list (Z * Z)) : res (Session * list OutPacket * list Z * list (Z * Z)) :=
match senders with
| [] => Ok (self, rtcp, reported, srs)
| (_, sender) :: senders' =>
    if decide (LocalSendSource_state sender <> Normal) then
      sender_reports self senders' now ntp_now ntp_time minimum rtcp reported srs
    else
      let ssrc := LocalSendSource_ssrc sender in
      let self := match se_internal_rtcp_sender_src self with
                  | None => self <| se_internal_rtcp_sender_src := Some ssrc |>
                  | Some _ => self
                  end in
      let rtp_timestamp := sr_rtp_timestamp self sender now in
      let reported := report_ssrc reported ssrc in
      '(rbs, reported) ← (if minimum then Ok ([], reported) else report_blocks self ntp_now reported);
      let sr := OutSr ssrc (and_mask (lss_sent_packets sender) 32) (and_mask (lss_sent_bytes sender) 32)
                  (NtpTime_as_u64 ntp_time) rtp_timestamp rbs in
      let rtcp := rtcp ++ [sr] in
      let srs := srs ++ [(ssrc, rtp_timestamp)] in
      if minimum then Ok (self, rtcp, reported, srs)
      else sender_reports self senders' now ntp_now ntp_time minimum rtcp reported srs
end.

(** Whether a local sender still has something to report. *)
Definition sender_active (source : LocalSendSource) : bool :=
match LocalSendSource_state source with
| Normal => true
| Probation _ => false
| Bye => match lss_bye_sent_time source with None => true | Some _ => false end
end.

Definition Session_generate_sr (self : Session) (rtcp : list OutPacket) (now ntp_now : Z) (minimum : bool)
  (reported : list Z) : res (list OutPacket * list Z * Session) :=
if minimum && Session_reduced_size_rtcp_allowed self then Ok (rtcp, reported, self)
else
  ntp_time ← system_time_to_ntp_time_u64 ntp_now;
  if existsb (fun e => sender_active (snd e)) (hm_iter (se_local_senders self)) then
    '(self, rtcp, reported, srs) ←
      sender_reports self (hm_iter (se_local_senders self)) now ntp_now ntp_time minimum rtcp reported [];
    let senders :=
      fold_left (fun m '(ssrc, rtp_timestamp) =>
          alter (fun s => LocalSendSource_take_sr_snapshot s ntp_now ntp_time rtp_timestamp) ssrc m)
        srs (se_local_senders self) in
    Ok (rtcp, reported, self <| se_local_senders := senders |>)
  else Ok (rtcp, reported, self).

Definition Session_generate_rr (self : Session) (rtcp : list OutPacket) (now ntp_now : Z) (minimum : bool)
  (reported : list Z) (draws : list Z) (instant_now : Z) : res (list OutPacket * list Z * Session) :=
if minimum && Session_reduced_size_rtcp_allowed self then Ok (rtcp, reported, self)
else if forallb (fun e => negb (sender_active (snd e))) (hm_iter (se_local_senders self)) then
  '(ssrc, self) ← Session_ensure_internal_send_src self draws instant_now;
  let self :=
    self <| se_local_senders ::= alter (fun s => LocalSendSource_set_last_activity s now) ssrc |>
         <| se_local_receivers ::= alter (fun s => LocalReceiveSource_set_last_activity s now) ssrc |> in
  '(rbs, reported) ← (if minimum then Ok ([], reported) else report_blocks self ntp_now reported);
  Ok (rtcp ++ [OutRr ssrc rbs], reported, self)
else Ok (rtcp, reported, self).

(** The SDES chunk of one source. *)
Definition sdes_chunk (minimum : bool) (ssrc : Z) (sdes : gmap Z (list Z)) : list (Z * list (Z * list Z)) :=
if bool_decide (sdes = ∅) then []
else [(ssrc, List.filter (fun '(ty, _) => negb minimum || (ty =? SDES_CNAME)) (hm_iter sdes))].

Definition Session_generate_sdes (self : Session) (rtcp : list OutPacket) (minimum : bool) : list OutPacket :=
if minimum && Session_reduced_size_rtcp_allowed self then rtcp
else
  let chunks :=
    concat (map (fun '(_, s) => sdes_chunk minimum (LocalSendSource_ssrc s) (src_sdes (lss_source s)))
              (hm_iter (se_local_senders self))) ++
    concat (map (fun '(_, s) => sdes_chunk minimum (LocalReceiveSource_ssrc s) (src_sdes (lrs_source s)))
              (hm_iter (se_local_receivers self))) in
  match chunks with
  | [] => rtcp
  | _ :: _ => rtcp ++ [OutSdes chunks]
  end.

(** The bytes of the default reason ["Bye"]. *)
Definition default_bye_reason : list Z := [66; 121; 101].

(** [reason_ssrcs.entry(reason).or_insert_with(Vec::new).push(ssrc)] *)
Definition push_reason (m : gmap (list Z) (list Z)) (reason : option (list Z)) (ssrc : Z)
: gmap (list Z) (list Z) :=
let reason := default default_bye_reason reason in
<[reason := default [] (m !! reason) ++ [ssrc]]> m.

Definition unsent_bye (state : SourceState) (bye_sent_time : option Z) : bool :=
match state, bye_sent_time with Bye, None => true | _, _ => false end.

Definition Session_find_bye_sources (self : Session) : gmap (list Z) (list Z) :=
let m := fold_left (fun m '(_, s) =>
    if unsent_bye (LocalSendSource_state s) (lss_bye_sent_time s)
    then push_reason m (lss_bye_reason s) (LocalSendSource_ssrc s) else m)
  (hm_iter (se_local_senders self)) ∅ in
fold_left (fun m '(_, s) =>
    if unsent_bye (LocalReceiveSource_state s) (lrs_bye_sent_time s)
    then push_reason m (lrs_bye_reason s) (LocalReceiveSource_ssrc s) else m)
  (hm_iter (se_local_receivers self)) m.

(** One SSRC of a BYE packet. *)
Definition bye_one (now : Z) (self : Session) (ssrc : Z) : Session :=
let self := self <| se_pending_rtcp_send ::= cons (SendSsrcBye ssrc) |> in
match se_local_senders self !! ssrc with
| Some source => self <| se_local_senders ::= insert ssrc (LocalSendSource_bye_sent_at source now) |>
| None =>
    match se_local_receivers self !! ssrc with
    | Some source => self <| se_local_receivers ::= insert ssrc (LocalReceiveSource_bye_sent_at source now) |>
    | None => self
    end
end.

Definition Session_generate_bye (self : Session) (rtcp : list OutPacket) (now : Z) : list OutPacket * Session :=
fold_left (fun '(rtcp, self) '(reason, ssrcs) =>
    (rtcp ++ [OutBye reason ssrcs], fold_left (bye_one now) ssrcs self))
  (hm_iter (Session_find_bye_sources self)) (rtcp, self).

Definition Session_generate_pli (self : Session) (rtcp : list OutPacket) (draws : list Z) (instant_now : Z)
: res (list OutPacket * Session) :=
'(ssrc, self) ← Session_ensure_internal_send_src self draws instant_now;
let results := map (fun e => RemoteSendSource_generate_pli (snd e)) (lru_iter (se_remote_senders self)) in
let plis := omap (fun '(pli, source) =>
    if pli : bool then Some (OutPli ssrc (RemoteSendSource_ssrc source)) else None) results in
Ok (rtcp ++ plis, self <| se_remote_senders ::= fun c => lru_write c (snd <$> results) |>).

(** The FIR entries of the remote senders. *)
Fixpoint collect_firs (senders : list RemoteSendSource) (fir : list (Z * Z)) (have : bool)
: list (Z * Z) * bool * list RemoteSendSource :=
match senders with
| [] => (fir, have, [])
| s :: senders =>
    let '(fir, have, s) := RemoteSendSource_generate_fir s fir have in
    let '(fir, have, rest) := collect_firs senders fir have in
    (fir, have, s :: rest)
end.

Definition Session_generate_fir (self : Session) (rtcp : list OutPacket) (draws : list Z) (instant_now : Z)
: res (list OutPacket * Session) :=
let '(fir, have_fir, senders) := collect_firs (snd <$> lru_iter (se_remote_senders self)) [] false in
let self := self <| se_remote_senders ::= fun c => lru_write c senders |> in
if have_fir then
  '(ssrc, self) ← Session_ensure_internal_send_src self draws instant_now;
  Ok (rtcp ++ [OutFir ssrc fir], self)
else Ok (rtcp, self).

(** ** Timeouts *)

(** Popping the least recently used entries while they are stale. *)
Fixpoint expire_lru {V} (fuel : nat) (last_activity : V -> Z) (now td : Z) (c : LruCache V) (out : list Z)
: LruCache V * list Z :=
match fuel with
| O => (c, out)
| S fuel =>
    match lru_peek_lru c with
    | None => (c, out)
    | Some (lru_ssrc, lru_source) =>
        if instant_sub now (last_activity lru_source) <? td then (c, out)
        else expire_lru fuel last_activity now td (lru_pop_lru c) (out ++ [lru_ssrc])
    end
end.

Definition expire_all {V} (last_activity : V -> Z) (now td : Z) (c : LruCache V) (out : list Z)
: LruCache V * list Z :=
expire_lru (length (lru_iter c)) last_activity now td c out.

(** Local senders that have not sent since the report before the last one. *)
Definition demote_senders (self : Session) : Session :=
match se_last_rtcp_sent_times self with
| _ :: _ :: _ =>
    let two_rtcp_ago := default 0 (last (se_last_rtcp_sent_times self)) in
    let removed := omap (fun '(ssrc, source) =>
        if LocalSendSource_last_activity source <? two_rtcp_ago then Some ssrc else None)
      (hm_iter (se_local_senders self)) in
    fold_left (fun self ssrc =>
        match se_local_senders self !! ssrc with
        | Some source =>
            let new_source := LocalSendSource_into_receive source in
            self <| se_local_senders ::= delete ssrc |>
                 <| se_local_receivers ::= insert (LocalReceiveSource_ssrc new_source) new_source |>
        | None => self
        end)
      removed self
| _ => self
end.

Definition Session_handle_timeouts (self : Session) (now : Z) : res (list Z * Session) :=
d ← Session_deterministic_rtcp_duration self false;
td ← duration_mul (Z.max d (duration_from_secs 5)) RTCP_SOURCE_TIMEOUT_N_INTERVALS;
let fresh := fun source => instant_sub now (LocalReceiveSource_last_activity source) <? td in
let timed_out := omap (fun '(_, source) =>
    if fresh source then None else Some (LocalReceiveSource_ssrc source))
  (hm_iter (se_local_receivers self)) in
let self := self <| se_local_receivers ::= base.filter (fun e => fresh (snd e) = true) |> in
let '(senders, timed_out) :=
  expire_all RemoteSendSource_last_activity now td (se_remote_senders self) timed_out in
let '(receivers, timed_out) :=
  expire_all RemoteReceiveSource_last_activity now td (se_remote_receivers self) timed_out in
let self := self <| se_remote_senders := senders |> <| se_remote_receivers := receivers |> in
let all_timed_out := se_timed_out_ssrcs self ++ timed_out in
let self := self <| se_timed_out_ssrcs := drop (length all_timed_out - 256) all_timed_out |> in
let self := demote_senders self in
let self := self <| se_conflicting_addresses ::=
              base.filter (fun e => instant_sub now (snd e) < RTCP_ADDRESS_CONFLICT_TIMEOUT) |> in
Ok (timed_out, self).

Definition Session_has_pending_bye (self : Session) : bool :=
existsb (fun e => unsent_bye (LocalSendSource_state (snd e)) (lss_bye_sent_time (snd e)))
  (hm_iter (se_local_senders self)) ||
existsb (fun e => unsent_bye (LocalReceiveSource_state (snd e)) (lrs_bye_sent_time (snd e)))
  (hm_iter (se_local_receivers self)).

(** ** Sending RTCP *)

(** The random numbers of one call: the factors of the three intervals, and
  the SSRCs drawn. *)
Record Draws := mkDraws {
dr_reconsider : spec_float;
dr_interval : spec_float;
dr_trr : spec_float;
dr_ssrc : list Z;
}.

(** The next interval, and where the feedback profile lengthens it. *)
Definition next_interval (self : Session) (dr : Draws) : res (Z * Session) :=
interval ← Session_rtcp_interval self (dr_interval dr);
let self := self <| se_rtcp_interval := Some interval |> in
if RtpProfile_is_feedback (se_profile self) && negb (se_min_rtcp_interval self =? 0) then
  d ← rtcp_dither (se_min_rtcp_interval self) (dr_trr dr);
  Ok (Z.max interval d, self)
else Ok (interval, self).

(** Whether it is time to send: the answer where it is not. *)
Definition rtcp_due (self : Session) (now next_rtcp_send : Z) (is_early : bool) (dr : Draws)
: res (bool * Session) :=
if is_early then
  match se_next_early_rtcp_time self with
  | Some early => Ok (negb (now <? early), self)
  | None => Ok (true, self)
  end
else if now <? next_rtcp_send then Ok (false, self)
else
  let self := Session_update_point_to_point self in
  interval ← Session_rtcp_interval self (dr_reconsider dr);
  handle_time ← unwrap (se_last_rtcp_handle_time self);
  let test_next_rtcp_time := instant_add handle_time interval in
  if test_next_rtcp_time >? now then
    Ok (false, self <| se_next_rtcp_send ::= modify tm_time (fun _ => Some test_next_rtcp_time) |>)
  else Ok (true, self).

(** The packets of one compound. *)
Definition generate_compound (self : Session) (now ntp_now : Z) (is_early : bool) (dr : Draws)
  (instant_now : Z) : res (list OutPacket * list Z * Session) :=
'(rtcp, reported, self) ← Session_generate_sr self [] now ntp_now is_early [];
'(rtcp, reported, self) ← Session_generate_rr self rtcp now ntp_now is_early reported (dr_ssrc dr) instant_now;
let rtcp := Session_generate_sdes self rtcp is_early in
'(rtcp, self) ← Session_generate_pli self rtcp (dr_ssrc dr) instant_now;
'(rtcp, self) ← Session_generate_fir self rtcp (dr_ssrc dr) instant_now;
let '(rtcp, self) := Session_generate_bye self rtcp now in
Ok (rtcp, reported, self).

(** The bookkeeping after a regular (not early) report. *)
Definition after_regular (self : Session) (now : Z) (dr : Draws) : res Session :=
'(timed_out, self) ← Session_handle_timeouts self now;
let self := match timed_out with
            | [] => self
            | _ :: _ => self <| se_pending_rtcp_send ::= cons (SendSsrcTimedOut timed_out) |>
            end in
let self := Session_update_point_to_point self in
'(interval, self) ← next_interval self dr;
let self := self <| se_next_rtcp_send := mkRtcpTimeMembers (Some (instant_add now interval)) (Session_n_members self) |>
                 <| se_last_rtcp_sent_times ::= fun l => take 2 (now :: l) |>
                 <| se_bye_state := None |> in
Ok self.

Definition Session_poll_rtcp_send (self : Session) (now ntp_now : Z) (dr : Draws) (instant_now : Z)
: res (option RtcpSendReply * Session) :=
match pop_back (se_pending_rtcp_send self) with
| Some (event, rest) => Ok (Some event, self <| se_pending_rtcp_send := rest |>)
| None =>
    match tm_time (se_next_rtcp_send self) with
    | None => Ok (None, self)
    | Some next_rtcp_send =>
        let is_early := bool_decide (is_Some (se_next_early_rtcp_time self)) &&
                        match se_last_rtcp_sent_times self with [] => false | _ => true end in
        '(due, self) ← rtcp_due self now next_rtcp_send is_early dr;
        if negb due then Ok (None, self)
        else
          '(rtcp, reported, self) ← generate_compound self now ntp_now is_early dr instant_now;
          size ← unwrap (rtcp_calculate_size rtcp);
          _ ← assert_ (size <? RTCP_MTU);
          data ← unwrap (rtcp_write_into rtcp);
          let self := fold_left (fun self ssrc =>
              match lru_get_mut (se_remote_senders self) ssrc with
              | Some (receiver, set) =>
                  self <| se_remote_senders := set (RemoteSendSource_update_last_rtcp receiver) |>
              | None => self
              end) reported self in
          n ← u64_add size UDP_IP_OVERHEAD_BYTES;
          self ← Session_update_rtcp_average self n;
          self ← (if is_early then Ok self else after_regular self now dr);
          let self := self <| se_last_rtcp_handle_time := Some now |>
                           <| se_next_early_rtcp_time := None |> in
          Ok (Some (SendData data), self)
    end
end.

Definition Session_poll_rtcp_send_timeout (self : Session) (now : Z) (factor : spec_float)
: res (option Z * Session) :=
match se_next_early_rtcp_time self with
| Some early_time => Ok (Some early_time, self)
| None =>
    self ← match tm_time (se_next_rtcp_send self) with
           | None =>
               let self := Session_update_point_to_point self in
               interval ← Session_rtcp_interval self factor;
               let self := self <| se_rtcp_interval := Some interval |>
                                <| se_last_rtcp_handle_time := Some now |> in
               Ok (self <| se_next_rtcp_send :=
                      mkRtcpTimeMembers (Some (instant_add now interval)) (Session_n_members self) |>)
           | Some _ => Ok self
           end;
    Ok (tm_time (se_next_rtcp_send self), self)
end.

Definition Session_request_early_rtcp (self : Session) (now max_delay : Z) (factor : spec_float)
: res (RequestEarlyRtcpResult * Session) :=
if negb (RtpProfile_is_feedback (se_profile self)) then Ok (NotScheduled, self) else
let within := fun t => if instant_add now max_delay >=? t then Scheduled else NotScheduled in
match se_next_early_rtcp_time self with
| Some early_time => Ok (within early_time, self)
| None =>
    match tm_time (se_next_rtcp_send self) with
    | None => Ok (TimerReconsideration, self)
    | Some next_rtcp_send_time =>
        match se_last_rtcp_sent_times self with
        | [] => Ok (within next_rtcp_send_time, self)
        | last_rtcp_sent :: _ =>
            let self := Session_update_point_to_point self in
            last_rtcp_handle_time ← unwrap (se_last_rtcp_handle_time self);
            t_rr ← unwrap (se_rtcp_interval self);
            let t_dither_max := if se_is_point_to_point self then 0 else duration_div t_rr 2 in
            if instant_add now t_dither_max >? next_rtcp_send_time
            then Ok (within next_rtcp_send_time, self)
            else
              let '(allow_early, offset) :=
                if last_rtcp_sent =? last_rtcp_handle_time then (true, 0)
                else if instant_add last_rtcp_handle_time t_rr <=? instant_add now max_delay
                then (true, instant_sub (instant_add last_rtcp_handle_time t_rr) now)
                else (false, 0) in
              if negb allow_early then
                Ok (if instant_sub next_rtcp_send_time now <? max_delay then Scheduled else NotScheduled, self)
              else
                d ← duration_mul_f64 t_dither_max factor;
                Ok (TimerReconsideration,
                    self <| se_next_early_rtcp_time := Some (instant_add (instant_add now d) offset) |>)
        end
    end
end.

Definition Session_schedule_bye (self : Session) (reason : list Z) (now : Z) (dr : Draws) : res Session :=
match se_bye_state self with
| Some _ => Ok self
| None =>
    let self := self <| se_local_senders ::= fmap (fun s => LocalSendSource_mark_bye s reason) |>
                     <| se_local_receivers ::= fmap (fun s => LocalReceiveSource_mark_bye s reason) |> in
    if Session_n_members self <=? 50 then Ok self
    else
      let self := self <| se_bye_state := Some (mkByeState 1 1) |>
                       <| se_last_rtcp_sent_times := [now] |>
                       <| se_average_rtcp_size := 100 |> in
      let self := Session_update_point_to_point self in
      '(interval, self) ← next_interval self dr;
      Ok (self <| se_next_rtcp_send :=
            mkRtcpTimeMembers (Some (instant_add now interval)) (Session_n_members self) |>)
end.

Definition Session_request_remote_key_unit (self : Session) (now : Z) (typ : KeyUnitRequestType) (ssrc : Z)
  (factor : spec_float) : res (list RequestRemoteKeyUnitReply * Session) :=
match lru_peek (se_remote_senders self) ssrc with
| None => Ok ([], self)
| Some _ =>
    '(result, self) ← Session_request_early_rtcp self now (duration_from_secs 5) factor;
    let replies := if decide (result = TimerReconsideration)
                   then [KeyUnitTimerReconsideration] else [] in
    if decide (result <> NotScheduled) then
      '(source, set) ← unwrap (lru_get_mut (se_remote_senders self) ssrc);
      let source := RemoteSendSource_request_remote_key_unit source typ in
      Ok (replies, self <| se_remote_senders := set source |>)
    else Ok (replies, self)
end.

(** [ssrcs()], in the order it visits them. *)
Definition Session_ssrcs (self : Session) : list Z :=
(hm_iter (se_local_senders self)).*1 ++ (lru_iter (se_remote_senders self)).*1 ++
(hm_iter (se_local_receivers self)).*1 ++ (lru_iter (se_remote_receivers self)).*1.

End Session.
