(* ===== verification/SessionInv.v ===== *)
(** * The invariant of a session

    What holds of a session at all times: the caches of remote sources are
    well formed and each source is filed under its own SSRC, no two buffers
    are held under one id, no SSRC is a local sender and a local receiver,
    and, when all packets come with their address, none is a remote sender
    and a remote receiver. Every operation preserves it. *)

From S2P Require Import Prelude Utils Time F64 Lru Source SourceProps Session.

(** ** Remote sources *)

(** A remote sender filed under [k] after at most [n] packets, whose buffers
    are held under ids below [cnt]. *)
Record sender_ok (n cnt k : Z) (s : RemoteSendSource) : Prop := {
  so_ssrc : RemoteSendSource_ssrc s = k;
  so_inv : rss_inv s;
  so_packets : rss_recv_packets s <= n;
  so_ext : last_ext s <= (n + 1) * U16;
  so_nodup : NoDup (held_ids s);
  so_ids : Forall (fun i => 0 <= i < cnt) (held_ids s);
}.

Definition receiver_ok (k : Z) (r : RemoteReceiveSource) : Prop :=
  RemoteReceiveSource_ssrc r = k /\
  match RemoteReceiveSource_state r with Probation m => 0 <= m <= DEFAULT_PROBATION_N_PACKETS | _ => True end.

Lemma sender_ok_mono n cnt n' cnt' k s :
  n <= n' -> cnt <= cnt' -> sender_ok n cnt k s -> sender_ok n' cnt' k s.
Proof.
  intros Hn Hc [H1 H2 H3 H4 H5 H6]. split; try done; try lia.
  eapply Forall_impl; [exact H6|]. cbn. lia.
Qed.

(** What the operations other than receiving a packet leave alone. *)
Record same_core (s s' : RemoteSendSource) : Prop := {
  sc_ssrc : RemoteSendSource_ssrc s' = RemoteSendSource_ssrc s;
  sc_state : RemoteSendSource_state s' = RemoteSendSource_state s \/
             RemoteSendSource_state s' = Normal \/ RemoteSendSource_state s' = Bye;
  sc_probation : rss_probation_packets s' = rss_probation_packets s;
  sc_ext : rss_ext_seqnum s' = rss_ext_seqnum s;
  sc_held : rss_held_buffers s' = rss_held_buffers s;
  sc_packets : rss_recv_packets s' = rss_recv_packets s;
  sc_last : rss_recv_packets_at_last_rtcp s' = rss_recv_packets_at_last_rtcp s \/
            rss_recv_packets_at_last_rtcp s' = rss_recv_packets s;
  sc_jitter : rss_jitter s' = rss_jitter s;
}.

Lemma same_core_refl s : same_core s s.
Proof. split; auto. Qed.

Lemma same_core_trans s1 s2 s3 : same_core s1 s2 -> same_core s2 s3 -> same_core s1 s3.
Proof.
  intros [A1 A2 A3 A4 A5 A6 A7 A8] [B1 B2 B3 B4 B5 B6 B7 B8]. split; try congruence.
  - destruct B2 as [->|[|]]; auto.
  - destruct B7 as [->|]; [auto|]. right. congruence.
Qed.

Lemma same_core_ids s s' : same_core s s' -> held_ids s' = held_ids s.
Proof. intros Hc. unfold held_ids. by rewrite (sc_held _ _ Hc). Qed.

Lemma sender_ok_core n cnt k s s' : same_core s s' -> sender_ok n cnt k s -> sender_ok n cnt k s'.
Proof.
  intros Hc [H1 [G1 [G2 G2'] G3 G4] H3 H4 H5 H6]. pose proof (same_core_ids _ _ Hc) as Hids.
  destruct Hc as [C1 C2 C3 C4 C5 C6 C7 C8].
  split; rewrite ?Hids, ?C1, ?C6; try done.
  - split; rewrite ?C4, ?C6, ?C8; try done; [|destruct C7 as [->| ->]; lia].
    unfold probation_ok. rewrite C3, C5. split; [done|]. cbv zeta in *.
    destruct C2 as [->|[->| ->]]; [done|..]; destruct (RemoteSendSource_state s); lia.
  - unfold last_ext. rewrite C4. exact H4.
Qed.

Lemma core_set_rtp_from s from : same_core s (RemoteSendSource_set_rtp_from s from).
Proof. split; auto. Qed.
Lemma core_set_rtcp_from s from : same_core s (RemoteSendSource_set_rtcp_from s from).
Proof. split; auto. Qed.
Lemma core_set_last_activity s t : same_core s (RemoteSendSource_set_last_activity s t).
Proof. split; auto. Qed.
Lemma core_set_state s st : st = Normal \/ st = Bye -> same_core s (RemoteSendSource_set_state s st).
Proof. intros [->| ->]; split; cbn; auto. Qed.
Lemma core_received_sdes s ty v : same_core s (RemoteSendSource_received_sdes s ty v).
Proof. unfold RemoteSendSource_received_sdes. destruct (from_utf8 v); split; auto. Qed.
Lemma core_set_last_received_sr s a b c d e : same_core s (RemoteSendSource_set_last_received_sr s a b c d e).
Proof. split; auto. Qed.
Lemma core_update_last_rtcp s : same_core s (RemoteSendSource_update_last_rtcp s).
Proof. unfold RemoteSendSource_update_last_rtcp. cbv zeta. destruct (ExtendedSeqnum_current _); split; cbn; auto. Qed.
Lemma core_request_key_unit s typ : same_core s (RemoteSendSource_request_remote_key_unit s typ).
Proof.
  unfold RemoteSendSource_request_remote_key_unit. destruct typ; cbv zeta; repeat case_decide; repeat case_match;
    split; cbn; auto.
Qed.
Lemma core_generate_pli s : same_core s (snd (RemoteSendSource_generate_pli s)).
Proof. unfold RemoteSendSource_generate_pli. destruct (rss_send_pli s); split; cbn; auto. Qed.
Lemma core_generate_fir s fir added : same_core s (snd (RemoteSendSource_generate_fir s fir added)).
Proof. unfold RemoteSendSource_generate_fir. destruct (rss_send_fir s); split; cbn; auto. Qed.
Lemma core_add_last_rb `{Gst} s a rb t nt s' : RemoteSendSource_add_last_rb s a rb t nt = Ok s' -> same_core s s'.
Proof. unfold RemoteSendSource_add_last_rb. intros Hs. inv_ok. split; cbn; auto. Qed.
Lemma core_key_unit_allowed s now rb a s' :
  RemoteSendSource_remote_request_key_unit_allowed s now rb = Ok (a, s') -> same_core s s'.
Proof.
  unfold RemoteSendSource_remote_request_key_unit_allowed. intros Hs. inv_ok. destruct x. inv_ok. split; cbn; auto.
Qed.

(** A chain of such operations keeps what counts. *)
Ltac core :=
  repeat first
    [ apply same_core_refl
    | eapply same_core_trans;
      [| first [ apply core_set_rtp_from | apply core_set_rtcp_from | apply core_set_last_activity
               | apply core_set_state; auto | apply core_received_sdes | apply core_set_last_received_sr
               | apply core_update_last_rtcp | apply core_request_key_unit ]] ].

Lemma sender_ok_new n cnt now ssrc : 0 <= n -> sender_ok n cnt ssrc (RemoteSendSource_new now ssrc).
Proof.
  intros Hn. split; cbn; try done; try apply rss_new_inv; [unfold last_ext; cbn; lia|constructor].
Qed.

Lemma sender_ok_into_send n cnt k r :
  0 <= n -> receiver_ok k r -> sender_ok n cnt k (RemoteReceiveSource_into_send r) /\
  held_ids (RemoteReceiveSource_into_send r) = [].
Proof.
  intros Hn [Hk Hst]. split; [|done]. split; cbn; try done; [|unfold last_ext; cbn; lia|constructor].
  split; cbn; try done. split; [done|]. cbv zeta. unfold RemoteSendSource_state. cbn.
  unfold RemoteReceiveSource_state, DEFAULT_PROBATION_N_PACKETS in *. destruct (src_state (rrs_source r)); cbn; lia.
Qed.

Lemma receiver_ok_into_receive n cnt k s : sender_ok n cnt k s -> receiver_ok k (RemoteSendSource_into_receive s).
Proof.
  intros [Hk [_ [Hdef Hp] _ _] _ _ _ _]. split; [done|]. unfold RemoteReceiveSource_state. cbn.
  rewrite Hdef in Hp. unfold RemoteSendSource_state in Hp. destruct (src_state (rss_source s)); lia || done.
Qed.

(** *** The cache of remote senders *)

Section SenderCache.
Context `{LruLaws}.
Implicit Types (c : LruCache RemoteSendSource).

Record senders_ok (n cnt : Z) (c : LruCache RemoteSendSource) : Prop := {
  sk_wf : lru_wf c;
  sk_all : Forall (fun e => sender_ok n cnt (fst e) (snd e)) (lru_iter c);
  sk_unique : forall e1 e2 i, e1 ∈ lru_iter c -> e2 ∈ lru_iter c ->
    i ∈ held_ids (snd e1) -> i ∈ held_ids (snd e2) -> fst e1 = fst e2;
}.

Lemma senders_elem n cnt c e : senders_ok n cnt c -> e ∈ lru_iter c -> sender_ok n cnt (fst e) (snd e).
Proof using. intros [_ Hall _] He. rewrite Forall_forall in Hall. by apply Hall. Qed.

(** Binding a sender that holds no buffer of another one. *)
Lemma senders_front n cnt n' cnt' c k w c' :
  senders_ok n cnt c -> n <= n' -> cnt <= cnt' -> sender_ok n' cnt' k w ->
  (forall i, i ∈ held_ids w -> cnt <= i \/ exists v, (k, v) ∈ lru_iter c /\ i ∈ held_ids v) ->
  front c k w c' -> senders_ok n' cnt' c'.
Proof using.
  intros Hok Hn Hc Hw Hids Hf.
  assert (Hcross : forall e i, e ∈ lru_iter c -> i ∈ held_ids (snd e) -> i ∈ held_ids w -> fst e = k).
  { intros e i He Hi Hiw. destruct (Hids i Hiw) as [Hge|(v & Hv & Hiv)].
    - pose proof (so_ids _ _ _ _ (senders_elem _ _ _ _ Hok He)) as Hlt. rewrite Forall_forall in Hlt.
      specialize (Hlt _ Hi). lia.
    - by apply (sk_unique _ _ _ Hok e (k, v) i). }
  split.
  - eapply front_wf; [apply Hok|done].
  - eapply (front_forall (fun k s => sender_ok n' cnt' k s)); [|done|done].
    eapply Forall_impl; [apply Hok|]. intros e. by apply sender_ok_mono.
  - intros e1 e2 i H1 H2 Hi1 Hi2.
    destruct (front_elem _ _ _ _ _ Hf H1) as [->|[E1 N1]], (front_elem _ _ _ _ _ Hf H2) as [->|[E2 N2]];
      cbn in *; try done.
    + symmetry. by eapply Hcross.
    + by eapply Hcross.
    + by eapply (sk_unique _ _ _ Hok).
Qed.

(** Changing a sender of the cache in a way that keeps what counts. *)
Lemma senders_front_core n cnt c k v w c' :
  senders_ok n cnt c -> (k, v) ∈ lru_iter c -> same_core v w -> front c k w c' -> senders_ok n cnt c'.
Proof using.
  intros Hok Hv Hc Hf. eapply senders_front; [exact Hok|lia|lia| | |exact Hf].
  - eapply sender_ok_core; [exact Hc|]. exact (senders_elem _ _ _ _ Hok Hv).
  - rewrite (same_core_ids _ _ Hc). eauto.
Qed.

Lemma senders_front_fresh n cnt c k v w c' :
  senders_ok n cnt c -> sender_ok n cnt k v -> held_ids v = [] -> same_core v w -> front c k w c' ->
  senders_ok n cnt c'.
Proof using.
  intros Hok Hv Hnil Hc Hf. eapply senders_front; [exact Hok|lia|lia| | |exact Hf].
  - by eapply sender_ok_core.
  - rewrite (same_core_ids _ _ Hc), Hnil. by intros i ?%elem_of_nil.
Qed.

(** Dropping entries. *)
Lemma senders_sub n cnt c c' :
  senders_ok n cnt c -> lru_wf c' -> (forall e, e ∈ lru_iter c' -> e ∈ lru_iter c) -> senders_ok n cnt c'.
Proof using.
  intros [Hwf Hall Huniq] Hwf' Hsub. rewrite Forall_forall in Hall.
  split; [done|apply Forall_forall; auto|]. intros. eapply Huniq; eauto.
Qed.

(** Changing all of them in a way that keeps what counts. *)
Lemma senders_write n cnt c (vs : list RemoteSendSource) :
  senders_ok n cnt c -> Forall2 (fun e v => same_core (snd e) v) (lru_iter c) vs ->
  senders_ok n cnt (lru_write c vs) /\ cache_keys (lru_write c vs) = cache_keys c.
Proof using H0.
  intros Hok Hvs. pose proof (Forall2_length _ _ _ Hvs) as Hlen.
  destruct (lru_write_spec c vs (sk_wf _ _ _ Hok) (eq_sym Hlen)) as [Hi Hc].
  assert (Hkeys : (lru_iter (lru_write c vs)).*1 = (lru_iter c).*1).
  { rewrite Hi, fst_zip; [done|]. rewrite length_fmap. lia. }
  assert (Helem : forall e, e ∈ lru_iter (lru_write c vs) ->
    exists v, (fst e, v) ∈ lru_iter c /\ same_core v (snd e)).
  { rewrite Hi. intros e (i & He)%list_elem_of_lookup. apply lookup_zip_with_Some in He as (k & w & -> & Hk & Hw).
    rewrite list_lookup_fmap in Hk. destruct (lru_iter c !! i) as [[k' v]|] eqn:E; [|done]. injection Hk as <-.
    exists v. cbn. split; [by eapply list_elem_of_lookup_2|]. exact (Forall2_lookup_lr _ _ _ _ _ _ Hvs E Hw). }
  split; [|exact Hkeys]. split.
  - destruct (sk_wf _ _ _ Hok) as (Hn & Hcap & Hl). unfold lru_wf. rewrite Hkeys, Hc.
    split_and!; [done|done|]. apply (f_equal length) in Hkeys. rewrite !length_fmap in Hkeys. lia.
  - apply Forall_forall. intros e He. destruct (Helem e He) as (v & Hv & Hcore).
    eapply sender_ok_core; [exact Hcore|]. exact (senders_elem _ _ _ _ Hok Hv).
  - intros e1 e2 i (v1 & Hv1 & Hc1)%Helem (v2 & Hv2 & Hc2)%Helem.
    rewrite (same_core_ids _ _ Hc1), (same_core_ids _ _ Hc2). intros Hi1 Hi2.
    exact (sk_unique _ _ _ Hok _ _ _ Hv1 Hv2 Hi1 Hi2).
Qed.
End SenderCache.

(** ** The session *)

Section Invariant.
Context `{LruLaws} `{GstLaws} `{HashOrderLaws} `{RtcpTypes OutPacket}.

Definition receivers_ok (c : LruCache RemoteReceiveSource) : Prop :=
  lru_wf c /\ Forall (fun e => receiver_ok (fst e) (snd e)) (lru_iter c).

(** After at most [n] RTP packets, [strict] when all of them came with
    their address. *)
Record session_wf (strict : bool) (n : Z) (s : Session) : Prop := {
  sw_senders : senders_ok n (se_hold_buffer_counter s) (se_remote_senders s);
  sw_receivers : receivers_ok (se_remote_receivers s);
  sw_disjoint : strict = true -> forall k,
    k ∈ cache_keys (se_remote_senders s) -> k ∈ cache_keys (se_remote_receivers s) -> False;
  sw_local_senders : map_Forall (fun k src => LocalSendSource_ssrc src = k) (se_local_senders s);
  sw_local_receivers : map_Forall (fun k src => LocalReceiveSource_ssrc src = k) (se_local_receivers s);
  sw_local : forall k, is_Some (se_local_senders s !! k) -> se_local_receivers s !! k = None;
  sw_counter : 0 <= se_hold_buffer_counter s <= n;
  sw_rates : forall pt r, se_pt_map s !! pt = Some r -> 0 < r <= 1000000;
  sw_timed_out : (length (se_timed_out_ssrcs s) <= 256)%nat;
  sw_sent_times : (length (se_last_rtcp_sent_times s) <= 2)%nat;
}.

Lemma receivers_front c k w c' :
  receivers_ok c -> receiver_ok k w -> front c k w c' -> receivers_ok c'.
Proof using.
  intros [Hwf Hall] Hw Hf. split; [by eapply front_wf|]. by eapply (front_forall receiver_ok).
Qed.

Lemma receivers_elem c e : receivers_ok c -> e ∈ lru_iter c -> receiver_ok (fst e) (snd e).
Proof using. intros [_ Hall] He. rewrite Forall_forall in Hall. by apply Hall. Qed.

Lemma others_sub {V} k (l : list (Z * V)) e : e ∈ others k l -> e ∈ l.
Proof using. by intros [_ ?]%elem_of_others. Qed.

Lemma elem_key {V} (c : LruCache V) k v : (k, v) ∈ lru_iter c -> k ∈ cache_keys c.
Proof using. intros Hin. apply list_elem_of_fmap. by exists (k, v). Qed.

Lemma receivers_pop c k o c' :
  receivers_ok c -> lru_pop c k = (o, c') ->
  receivers_ok c' /\ (k ∉ cache_keys c') /\ (forall j, j ∈ cache_keys c' -> j ∈ cache_keys c) /\
  match o with Some r => receiver_ok k r /\ k ∈ cache_keys c | None => k ∉ cache_keys c end.
Proof using H0.
  intros Hok Hp. destruct (pop_spec _ _ _ _ (proj1 Hok) Hp) as (Hwf & Hi & _ & Ho).
  unfold cache_keys. rewrite Hi. split; [|split; [|split]].
  - split; [done|]. rewrite Hi. apply Forall_forall. intros e He%others_sub. by apply (receivers_elem c).
  - apply others_notin.
  - intros j (e & -> & He%others_sub)%list_elem_of_fmap. apply list_elem_of_fmap. by exists e.
  - destruct o as [r|]; [|done]. split; [exact (receivers_elem _ _ Hok Ho)|exact (elem_key _ _ _ Ho)].
Qed.

Lemma senders_pop n cnt c k o c' :
  senders_ok n cnt c -> lru_pop c k = (o, c') ->
  senders_ok n cnt c' /\ (k ∉ cache_keys c') /\ (forall j, j ∈ cache_keys c' -> j ∈ cache_keys c) /\
  match o with Some s => sender_ok n cnt k s /\ k ∈ cache_keys c | None => k ∉ cache_keys c end.
Proof using H0.
  intros Hok Hp. destruct (pop_spec _ _ _ _ (sk_wf _ _ _ Hok) Hp) as (Hwf & Hi & _ & Ho).
  unfold cache_keys. rewrite Hi. split; [|split; [|split]].
  - eapply senders_sub; [exact Hok|exact Hwf|]. rewrite Hi. intros e. apply others_sub.
  - apply others_notin.
  - intros j (e & -> & He%others_sub)%list_elem_of_fmap. apply list_elem_of_fmap. by exists e.
  - destruct o as [s|]; [|done]. split; [exact (senders_elem _ _ _ _ Hok Ho)|exact (elem_key _ _ _ Ho)].
Qed.

(** Moving an SSRC from the receivers to the senders. *)
Lemma receiver_to_sender strict n s k o cr f :
  session_wf strict n s -> 0 <= n -> lru_pop (se_remote_receivers s) k = (o, cr) ->
  (forall r, same_core r (f r)) ->
  let s' := match o with
            | Some r => s <| se_remote_receivers := cr |>
                          <| se_remote_senders ::= fun c => lru_push c k (f (RemoteReceiveSource_into_send r)) |>
            | None => s <| se_remote_receivers := cr |>
            end in
  session_wf strict n s' /\ k ∉ cache_keys (se_remote_receivers s').
Proof using H0.
  intros [W1 W2 W3 W4 W5 W6 W7 W8 W9 W10] Hn Hp Hcore. cbv zeta.
  destruct (receivers_pop _ _ _ _ W2 Hp) as (Hr & Hk & Hsub & Ho).
  destruct o as [r|]; (split; [|exact Hk]); split; cbn; try assumption.
  - destruct (sender_ok_into_send n (se_hold_buffer_counter s) k r Hn (proj1 Ho)) as [Hs Hnil].
    eapply senders_front_fresh; [exact W1|exact Hs|exact Hnil|apply Hcore|]. apply push_front, W1.
  - intros Hs j Hj Hj'. destruct (front_keys _ _ _ _ j (push_front _ _ _ (sk_wf _ _ _ W1)) Hj) as [->|Hj1];
      [by apply Hk|]. by eapply W3; [done|exact Hj1|apply Hsub].
  - intros Hs j Hj Hj'. eapply W3; [done|exact Hj|by apply Hsub].
Qed.

(** Moving an SSRC from the senders to the receivers. *)
Lemma sender_to_receiver strict n s k o cs :
  session_wf strict n s -> lru_pop (se_remote_senders s) k = (o, cs) ->
  let s' := match o with
            | Some v => s <| se_remote_senders := cs |>
                          <| se_remote_receivers ::= fun c => lru_push c k (RemoteSendSource_into_receive v) |>
            | None => s <| se_remote_senders := cs |>
            end in
  session_wf strict n s' /\ k ∉ cache_keys (se_remote_senders s').
Proof using H0.
  intros [W1 W2 W3 W4 W5 W6 W7 W8 W9 W10] Hp. cbv zeta.
  destruct (senders_pop _ _ _ _ _ _ W1 Hp) as (Hs & Hk & Hsub & Ho).
  destruct o as [v|]; (split; [|exact Hk]); split; cbn; try assumption.
  - eapply receivers_front; [exact W2|eapply receiver_ok_into_receive; apply Ho|]. apply push_front, W2.
  - intros Hst j Hj Hj'. destruct (front_keys _ _ _ _ j (push_front _ _ _ (proj1 W2)) Hj') as [->|Hj1];
      [by apply Hk|]. by eapply W3; [done|apply Hsub|exact Hj1].
  - intros Hst j Hj. by apply (W3 Hst), Hsub.
Qed.

(** Changing a sender of the cache. *)
Lemma sender_update strict n s k v w c' :
  session_wf strict n s -> (k, v) ∈ lru_iter (se_remote_senders s) -> same_core v w ->
  front (se_remote_senders s) k w c' -> session_wf strict n (s <| se_remote_senders := c' |>).
Proof using.
  intros [W1 W2 W3 W4 W5 W6 W7 W8 W9 W10] Hv Hc Hf. split; cbn; try assumption.
  - by eapply senders_front_core.
  - intros Hs j Hj. apply (W3 Hs). destruct (front_keys _ _ _ _ _ Hf Hj) as [->|]; [by eapply elem_key|done].
Qed.

(** Changing or adding one, where it is no receiver. *)
Lemma sender_insert strict n s k v0 v set w now :
  session_wf strict n s -> 0 <= n -> v0 = RemoteSendSource_new now k ->
  lru_get_or_insert_mut (se_remote_senders s) k v0 = (v, set) ->
  (strict = true -> k ∉ cache_keys (se_remote_receivers s)) -> same_core v w ->
  session_wf strict n (s <| se_remote_senders := set w |>).
Proof using H0.
  intros Hwf Hn -> Hg Hk Hc. pose proof Hwf as [W1 W2 W3 W4 W5 W6 W7 W8 W9 W10].
  destruct (get_or_insert_front _ _ _ _ _ (sk_wf _ _ _ W1) Hg) as [Hv Hset].
  destruct Hv as [Hv|[-> Hv]]; [by eapply sender_update; eauto|].
  split; cbn; try assumption.
  - eapply senders_front_fresh; [exact W1|apply sender_ok_new; exact Hn|done|exact Hc|apply Hset].
  - intros Hs j Hj Hj'. destruct (front_keys _ _ _ _ _ (Hset w) Hj) as [->|Hj1]; [by apply Hk|by eapply W3].
Qed.

Lemma receiver_update strict n s k w c' :
  session_wf strict n s -> receiver_ok k w -> front (se_remote_receivers s) k w c' ->
  (strict = true -> k ∉ cache_keys (se_remote_senders s)) ->
  session_wf strict n (s <| se_remote_receivers := c' |>).
Proof using.
  intros [W1 W2 W3 W4 W5 W6 W7 W8 W9 W10] Hw Hf Hk. split; cbn; try assumption.
  - by eapply receivers_front.
  - intros Hs j Hj Hj'. destruct (front_keys _ _ _ _ _ Hf Hj') as [->|Hj1]; [by apply Hk|by eapply W3].
Qed.

Lemma receiver_key_not_sender strict n s k :
  session_wf strict n s -> k ∈ cache_keys (se_remote_receivers s) ->
  strict = true -> k ∉ cache_keys (se_remote_senders s).
Proof using. intros Hwf Hk Hs Hk'. by eapply (sw_disjoint _ _ _ Hwf). Qed.

Lemma session_wf_mono strict n n' s : n <= n' -> session_wf strict n s -> session_wf strict n' s.
Proof using.
  intros Hn [[K1 K2 K3] W2 W3 W4 W5 W6 W7 W8 W9 W10]. split; try assumption; [|lia].
  split; try assumption. eapply Forall_impl; [exact K2|]. intros e. by apply sender_ok_mono.
Qed.

(** *** Receiving RTP *)

Lemma conflict_wf strict n s addr now b s' :
  session_wf strict n s -> Session_handle_ssrc_conflict s addr now = (b, s') -> session_wf strict n s'.
Proof using.
  intros [W1 W2 W3 W4 W5 W6 W7 W8 W9 W10]. unfold Session_handle_ssrc_conflict.
  destruct (se_conflicting_addresses s !! addr); intros [= <- <-]; split; cbn; assumption.
Qed.

Lemma recv_collision_wf strict n s rtp from now o s' :
  session_wf strict n s -> 0 <= n -> recv_collision s rtp from now = (o, s') ->
  session_wf strict n s' /\
  (o = None -> is_Some from -> rtp_ssrc rtp ∉ cache_keys (se_remote_receivers s')).
Proof using H0.
  intros Hwf Hn. unfold recv_collision. destruct from as [addr|]; [|by intros [= <- <-]; split; [|intros _ []]].
  destruct (se_local_senders s !! rtp_ssrc rtp).
  { destruct (Session_handle_ssrc_conflict s addr now) as [b s1] eqn:E. intros [= <- <-].
    split; [by eapply conflict_wf|done]. }
  destruct (lru_pop (se_remote_receivers s) (rtp_ssrc rtp)) as [o1 cr] eqn:Hp.
  pose proof (receiver_to_sender strict n s _ o1 cr (fun r => RemoteSendSource_set_rtp_from r (Some addr))
    Hwf Hn Hp (fun r => core_set_rtp_from r _)) as [Hw Hk]. cbv zeta in Hw, Hk.
  destruct o1 as [r|]; [by intros [= <- <-]|].
  destruct (lru_get_mut (se_remote_senders (s <| se_remote_receivers := cr |>)) (rtp_ssrc rtp))
    as [[v set]|] eqn:Hg; [|by intros [= <- <-]].
  destruct (get_mut_Some _ _ _ _ (sk_wf _ _ _ (sw_senders _ _ _ Hw)) Hg) as [Hv Hset].
  destruct (rss_rtp_from v) as [a|]; [case_decide|]; intros [= <- <-]; (split; [|try done]);
    (eapply sender_update; [exact Hw|exact Hv| |apply Hset]);
    apply same_core_refl || apply core_set_rtp_from.
Qed.

(** What receiving makes of a sender: it holds buffers of its own, and the
    one of the packet where the reply says so. *)
Lemma reply_ids n cnt k s id r s' :
  sender_ok n cnt k s -> reply_sound s id r s' -> id = cnt -> 0 <= cnt ->
  NoDup (held_ids s') /\
  Forall (fun i => 0 <= i < (match r with ReplyHold _ => cnt + 1 | _ => cnt end)) (held_ids s') /\
  (forall i, i ∈ held_ids s' -> cnt <= i \/ i ∈ held_ids s).
Proof using.
  intros [_ _ _ _ Hn Hids] Hr -> Hc.
  assert (Hsub : forall i, held_ids s = held_ids s' ++ [i] ->
    NoDup (held_ids s') /\ Forall (fun i => 0 <= i < cnt) (held_ids s') /\
    (forall j, j ∈ held_ids s' -> cnt <= j \/ j ∈ held_ids s)).
  { intros i E. rewrite E in Hn, Hids. apply NoDup_app in Hn as (Hn & _). apply Forall_app in Hids as [Hids _].
    split_and!; [done..|]. intros j Hj. right. rewrite E. by apply elem_of_app; left. }
  destruct r; cbn in Hr.
  - destruct Hr as (-> & -> & _). split_and!.
    + constructor; [|done]. intros Hin. rewrite Forall_forall in Hids. specialize (Hids _ Hin). lia.
    + constructor; [lia|]. eapply Forall_impl; [exact Hids|]. cbn. lia.
    + intros i [->|]%elem_of_cons; [left; lia|by right].
  - destruct Hr as [E _]. exact (Hsub _ E).
  - destruct Hr as [E _]. exact (Hsub _ E).
  - destruct Hr as (_ & -> & _). split_and!; [constructor..|]. by intros i ?%elem_of_nil.
  - destruct Hr as (-> & _). split_and!; [done..|]. by right.
Qed.

(** Receiving RTP never panics and keeps the invariant. *)
Lemma handle_recv_total strict n s rtp from now init inow :
  session_wf strict n s -> 0 <= n < 2 ^ 40 -> is_u16 (rtp_sequence_number rtp) ->
  (strict = true -> is_Some from) ->
  exists r s', Session_handle_recv s rtp from now init inow = Ok (r, s') /\ session_wf strict (n + 1) s'.
Proof using H0 H2.
  change (2 ^ 40) with 1099511627776. intros Hwf Hn Hseq Hfrom. unfold Session_handle_recv.
  destruct (recv_collision s rtp from now) as [o s1] eqn:Hcol.
  destruct (recv_collision_wf _ _ _ _ _ _ _ _ Hwf (proj1 Hn) Hcol) as [Hwf1 Hkey]. clear Hwf Hcol.
  destruct o as [reply|]; [exists reply, s1; split; [done|]; eapply session_wf_mono; [|done]; lia|].
  pose proof Hwf1 as [W1 W2 W3 W4 W5 W6 W7 W8 W9 W10].
  destruct (lru_get_mut (se_remote_senders s1) (rtp_ssrc rtp)) as [[src set]|] eqn:Hg.
  - destruct (get_mut_Some _ _ _ _ (sk_wf _ _ _ W1) Hg) as [Hv Hset].
    pose proof (senders_elem _ _ _ _ W1 Hv) as Hok. cbn in Hok. pose proof Hok as [O1 O2 O3 O4 O5 O6].
    assert (Hrate : rate_ok (Session_clock_rate_from_pt s1 (rtp_payload_type rtp))).
    { unfold rate_ok, Session_clock_rate_from_pt. destruct (se_pt_map s1 !! rtp_payload_type rtp) eqn:E; eauto. }
    destruct (recv_packet_total src (wrap U32 (rtp_payload_len rtp)) now (rtp_sequence_number rtp)
      (rtp_timestamp rtp) (rtp_payload_type rtp) _ (se_hold_buffer_counter s1) init O2 ltac:(split; lia) Hseq Hrate)
      as (r & src' & -> & Hi & Hrep & Hp & Hx & [Hid _]).
    rewrite bind_Ok. destruct (reply_ids _ _ _ _ _ _ _ Hok Hrep eq_refl (proj1 W7)) as (Hnd & Hids & Hold).
    set (cnt' := match r with ReplyHold _ => se_hold_buffer_counter s1 + 1 | _ => se_hold_buffer_counter s1 end) in *.
    assert (Hcnt : se_hold_buffer_counter s1 <= cnt' <= se_hold_buffer_counter s1 + 1) by (unfold cnt'; destruct r; lia).
    assert (Hs : senders_ok (n + 1) cnt' (set src')).
    { eapply senders_front; [exact W1|lia|lia| | |apply Hset].
      - split; try assumption; [congruence|lia..].
      - intros i Hi'. destruct (Hold i Hi'); eauto. }
    assert (Hdisj : strict = true -> forall k, k ∈ cache_keys (set src') ->
      k ∈ cache_keys (se_remote_receivers s1) -> False).
    { intros Hst j Hj. apply (W3 Hst). destruct (front_keys _ _ _ _ _ (Hset src') Hj) as [->|]; [|done].
      by eapply elem_key. }
    destruct r; [cbn; run_chk|..]; eexists _, _; (split; [reflexivity|]);
      (split; cbn; try assumption; lia).
  - eexists _, _. split; [reflexivity|]. split; cbn; try assumption; [| |lia].
    + eapply senders_front; [exact W1|lia|lia|eapply (sender_ok_core _ _ _ _ _ (core_set_rtp_from _ _))| |].
      * apply sender_ok_new. lia.
      * by intros i ?%elem_of_nil.
      * apply push_front, W1.
    + intros Hs j Hj Hj'. destruct (front_keys _ _ _ _ _ (push_front _ _ _ (sk_wf _ _ _ W1)) Hj) as [->|Hj1].
      * by apply Hkey; auto.
      * by eapply W3.
Qed.

(** *** RTCP timing *)

Lemma reverse_consideration_wf strict n s m now b s' :
  session_wf strict n s -> Session_rtcp_reverse_consideration s m now = Ok (b, s') -> session_wf strict n s'.
Proof using.
  intros Hwf. pose proof Hwf as [W1 W2 W3 W4 W5 W6 W7 W8 W9 W10]. unfold Session_rtcp_reverse_consideration. cbv zeta.
  destruct (_ >=? _); [by intros [= _ <-]|].
  destruct (tm_time (se_next_rtcp_send s)) as [prev|]; [|by intros [= _ <-]].
  destruct (now >? prev); [by intros [= _ <-]|]. destruct (_ >? 0); [|by intros [= _ <-]].
  intros (d & _ & H')%bind_ok. cbn in H'. destruct (se_last_rtcp_sent_times s) as [|last rest] eqn:El.
  - injection H' as _ <-. split; cbn; try assumption. by rewrite El.
  - apply bind_ok in H' as (d' & _ & [= _ <-]). split; cbn; try assumption.
Qed.

Definition same_local (s s' : Session) : Prop :=
  se_local_senders s' = se_local_senders s /\ se_local_receivers s' = se_local_receivers s.

Lemma reverse_consideration_local s m now b s' :
  Session_rtcp_reverse_consideration s m now = Ok (b, s') -> same_local s s'.
Proof using.
  unfold Session_rtcp_reverse_consideration. cbv zeta.
  destruct (_ >=? _); [by intros [= _ <-]|].
  destruct (tm_time (se_next_rtcp_send s)) as [prev|]; [|by intros [= _ <-]].
  destruct (now >? prev); [by intros [= _ <-]|]. destruct (_ >? 0); [|by intros [= _ <-]].
  intros (d & _ & H')%bind_ok. cbn in H'. destruct (se_last_rtcp_sent_times s); [by injection H' as _ <-|].
  by apply bind_ok in H' as (d' & _ & [= _ <-]).
Qed.

Lemma update_rtcp_average_wf strict n s size s' :
  session_wf strict n s -> Session_update_rtcp_average s size = Ok s' -> session_wf strict n s'.
Proof using.
  intros Hwf. pose proof Hwf as [W1 W2 W3 W4 W5 W6 W7 W8 W9 W10]. unfold Session_update_rtcp_average.
  destruct (_ =? 0); [intros [= <-]|intros E; inv_ok]; split; cbn; assumption.
Qed.

Lemma point_to_point_wf strict n s : session_wf strict n s -> session_wf strict n (Session_update_point_to_point s).
Proof using. intros [W1 W2 W3 W4 W5 W6 W7 W8 W9 W10]. split; cbn; assumption. Qed.

(** *** Sending RTP *)

Lemma local_sender_insert strict n s k src :
  session_wf strict n s -> se_local_receivers s !! k = None -> LocalSendSource_ssrc src = k ->
  session_wf strict n (s <| se_local_senders ::= insert k src |>).
Proof using.
  intros [W1 W2 W3 W4 W5 W6 W7 W8 W9 W10] Hk Hsrc. split; cbn; try assumption.
  - by apply map_Forall_insert_2.
  - intros j Hj. destruct (decide (j = k)) as [->|]; [done|]. apply W6. by rewrite lookup_insert_ne in Hj.
Qed.

Lemma local_sender_update strict n s k src :
  session_wf strict n s -> is_Some (se_local_senders s !! k) -> LocalSendSource_ssrc src = k ->
  session_wf strict n (s <| se_local_senders ::= insert k src |>).
Proof using. intros Hwf Hk. apply local_sender_insert; [done|]. by apply (sw_local _ _ _ Hwf). Qed.

Lemma send_collision_wf strict n s rtp now addr r s' :
  session_wf strict n s ->
  match addr : option SocketAddr with
  | Some a =>
      let '(conflict, self) := Session_handle_ssrc_conflict s a now in
      if conflict : bool then (SendSsrcCollision (rtp_ssrc rtp), self) else (SendDrop, self)
  | None => (SendDrop, s)
  end = (r, s') -> session_wf strict n s'.
Proof using.
  intros Hwf. destruct addr as [a|]; [|by intros [= _ <-]].
  destruct (Session_handle_ssrc_conflict s a now) as [b s1] eqn:E.
  apply (conflict_wf _ _ _ _ _ _ _ Hwf) in E. by destruct b; intros [= _ <-].
Qed.

Lemma sent_packet_ssrc src len t seq ts pt src' :
  LocalSendSource_sent_packet src len t seq ts pt = Ok src' -> LocalSendSource_ssrc src' = LocalSendSource_ssrc src.
Proof using. unfold LocalSendSource_sent_packet. intros E. inv_ok. repeat case_match; inv_ok; done. Qed.

Lemma handle_send_wf strict n s rtp now ct inow r s' :
  session_wf strict n s -> Session_handle_send s rtp now ct inow = Ok (r, s') -> session_wf strict n s'.
Proof using H0.
  intros Hwf. pose proof Hwf as [W1 W2 W3 W4 W5 W6 W7 W8 W9 W10]. unfold Session_handle_send. cbv zeta.
  destruct (lru_get_mut (se_remote_senders s) (rtp_ssrc rtp)) as [[v set]|] eqn:Hg.
  { destruct (get_mut_Some _ _ _ _ (sk_wf _ _ _ W1) Hg) as [Hv Hset]. intros [= E].
    eapply send_collision_wf; [|exact E]. eapply sender_update; [exact Hwf|exact Hv|apply same_core_refl|apply Hset]. }
  destruct (lru_get_mut (se_remote_receivers s) (rtp_ssrc rtp)) as [[v set]|] eqn:Hg'.
  { destruct (get_mut_Some _ _ _ _ (proj1 W2) Hg') as [Hv Hset]. intros [= E].
    eapply send_collision_wf; [|exact E].
    eapply receiver_update; [exact Hwf|exact (receivers_elem _ _ W2 Hv)|apply Hset|].
    intros _. apply get_mut_None; [apply W1|done]. }
  destruct (se_local_senders s !! rtp_ssrc rtp) as [src|] eqn:Hl.
  - case_decide; [by intros [= _ <-]|].
    assert (Hs : LocalSendSource_ssrc src = rtp_ssrc rtp) by (by apply (W4 _ _ Hl)).
    destruct (se_pt_map s !! rtp_payload_type rtp).
    + intros (src' & Hsent & [= _ <-])%bind_ok. eapply local_sender_update; [done|by eauto|].
      rewrite (sent_packet_ssrc _ _ _ _ _ _ _ Hsent). exact Hs.
    + intros [= _ <-]. eapply local_sender_update; [done|by eauto|exact Hs].
  - intros ([b s1] & Hrev & [= _ <-])%bind_ok.
    set (s0 := s <| se_local_receivers ::= delete (rtp_ssrc rtp) |>) in Hrev.
    assert (Hwf0 : session_wf strict n s0).
    { split; cbn; try assumption; [by apply map_Forall_delete|].
      intros j Hj. destruct (decide (j = rtp_ssrc rtp)) as [->|]; [by rewrite lookup_delete_eq|].
      rewrite lookup_delete_ne by done. by apply W6. }
    assert (Hwf1 : session_wf strict n s1 /\ same_local s0 s1).
    { destruct (bool_decide _); [|by injection Hrev as _ <-]. split; [by eapply reverse_consideration_wf|].
      by eapply reverse_consideration_local. }
    destruct Hwf1 as [Hwf1 [El Er]].
    apply local_sender_insert; [done| |done]. rewrite Er. cbn. by rewrite lookup_delete_eq.
Qed.

(** *** Receiving RTCP *)

Lemma add_last_rb_ssrc src a rb t nt src' :
  LocalSendSource_add_last_rb src a rb t nt = Ok src' -> LocalSendSource_ssrc src' = LocalSendSource_ssrc src.
Proof using. unfold LocalSendSource_add_last_rb. intros E. inv_ok. done. Qed.

Lemma handle_rb_wf strict n s a rb from now nt inow r s' :
  session_wf strict n s -> 0 <= n -> Session_handle_rb s a rb from now nt inow = Ok (r, s') ->
  session_wf strict n s'.
Proof using H0.
  intros Hwf Hn. unfold Session_handle_rb. destruct (se_local_senders s !! rb_ssrc rb) as [src|] eqn:Hl.
  { intros (src' & E & [= _ <-])%bind_ok. eapply local_sender_update; [done|by eauto|].
    unfold LocalSendSource_set_last_activity. cbn. rewrite <- (sw_local_senders _ _ _ Hwf _ _ Hl).
    by apply add_last_rb_ssrc in E. }
  destruct (lru_pop (se_remote_receivers s) (rb_ssrc rb)) as [o cr] eqn:Hp.
  destruct (receiver_to_sender strict n s _ o cr (fun r => r) Hwf Hn Hp same_core_refl) as [Hwf1 Hk].
  cbv zeta in *. set (s1 := match o with Some _ => _ | None => _ end) in *.
  destruct (lru_get_or_insert_mut (se_remote_senders s1) (rb_ssrc rb) _) as [v set] eqn:Hg.
  intros (src & E & [= _ <-])%bind_ok. apply core_add_last_rb in E.
  eapply sender_insert; [exact Hwf1|exact Hn|reflexivity|exact Hg|by intros _|].
  eapply same_core_trans; [|exact E]. core.
Qed.

Lemma handle_rbs_wf strict n s a rbs from now nt inow replies r s' :
  session_wf strict n s -> 0 <= n -> handle_rbs s a rbs from now nt inow replies = Ok (r, s') ->
  session_wf strict n s'.
Proof using H0.
  intros Hwf Hn E. unfold handle_rbs in E.
  apply (res_fold_inv (fun st => session_wf strict n (snd st))) in E; [done| |done].
  intros [r1 s1] rb [r2 s2] Hs ([o s3] & E1 & [= _ <-])%bind_ok. by eapply handle_rb_wf.
Qed.

Lemma receiver_ok_normal k r :
  RemoteReceiveSource_ssrc r = k -> (forall m, RemoteReceiveSource_state r <> Probation m) -> receiver_ok k r.
Proof using. intros Hk Hst. split; [done|]. destruct (RemoteReceiveSource_state r); [|done..]. by destruct (Hst n). Qed.

Lemma handle_bye_wf strict n s ssrcs from now replies c r s' :
  session_wf strict n s -> handle_bye_ssrcs s ssrcs from now replies = (c, r, s') -> session_wf strict n s'.
Proof using H0.
  intros Hwf E. unfold handle_bye_ssrcs in E. change s' with (snd (c, r, s')). rewrite <- E.
  apply (fold_left_inv (fun st => session_wf strict n (snd st))); [|done].
  intros [[c1 r1] s1] ssrc Hs. cbn in Hs.
  destruct (lru_get_mut (se_remote_senders s1) ssrc) as [[v set]|] eqn:Hg.
  - destruct (get_mut_Some _ _ _ _ (sk_wf _ _ _ (sw_senders _ _ _ Hs)) Hg) as [Hv Hset]. cbn.
    eapply sender_update; [done|exact Hv| |apply Hset]. core.
  - destruct (lru_get_mut (se_remote_receivers s1) ssrc) as [[v set]|] eqn:Hg'; [|done]. cbn.
    pose proof (sw_receivers _ _ _ Hs) as Hr.
    destruct (get_mut_Some _ _ _ _ (proj1 Hr) Hg') as [Hv Hset].
    eapply receiver_update; [done| |apply Hset|].
    + split; [exact (proj1 (receivers_elem _ _ Hr Hv))|done].
    + by eapply receiver_key_not_sender, elem_key.
Qed.

Definition loop_wf (strict : bool) (n : Z) (st : rtcp_loop) : Prop := session_wf strict n (rl_session st).

Lemma reconsider_wf strict n st check m now st' :
  loop_wf strict n st -> reconsider st check m now = Ok st' -> loop_wf strict n st'.
Proof using.
  intros Hwf. unfold reconsider. destruct check; [|by intros [= <-]].
  intros ([b s1] & E & H')%bind_ok. apply (reverse_consideration_wf _ _ _ _ _ _ _ Hwf) in E.
  by destruct (b && _); injection H' as <-.
Qed.

Lemma packet_bye_wf strict n st ssrcs from len now st' :
  loop_wf strict n st -> handle_packet_bye st ssrcs from len now = Ok st' -> loop_wf strict n st'.
Proof using H0.
  intros Hwf. unfold handle_packet_bye. cbv zeta.
  destruct (handle_bye_ssrcs (rl_session st) ssrcs from now (rl_replies st)) as [[c r] s1] eqn:E.
  apply (handle_bye_wf _ _ _ _ _ _ _ _ _ _ Hwf) in E. destruct (se_bye_state s1) as [b|].
  - intros (m & _ & (sz & _ & (s2 & Havg & Hrec)%bind_ok)%bind_ok)%bind_ok.
    eapply reconsider_wf; [|exact Hrec]. eapply update_rtcp_average_wf; [|exact Havg].
    destruct E as [W1 W2 W3 W4 W5 W6 W7 W8 W9 W10]. split; cbn; assumption.
  - intros Hrec. eapply reconsider_wf; [|exact Hrec]. exact E.
Qed.

Lemma packet_rr_wf strict n st ssrc rbs from now nt inow st' :
  loop_wf strict n st -> 0 <= n -> handle_packet_rr st ssrc rbs from now nt inow = Ok st' -> loop_wf strict n st'.
Proof using H0.
  intros Hwf Hn. unfold handle_packet_rr.
  destruct (lru_pop (se_remote_senders (rl_session st)) ssrc) as [o cs] eqn:Hp.
  destruct (sender_to_receiver strict n (rl_session st) ssrc o cs Hwf Hp) as [Hwf1 Hk].
  cbv zeta in *. set (s1 := match o with Some _ => _ | None => _ end) in *.
  destruct (lru_get_or_insert_mut (se_remote_receivers s1) ssrc _) as [v set] eqn:Hg.
  intros ([r s2] & E & [= <-])%bind_ok. unfold loop_wf. cbn. eapply handle_rbs_wf; [|done|exact E].
  destruct (get_or_insert_front _ _ _ _ _ (proj1 (sw_receivers _ _ _ Hwf1)) Hg) as [Hv Hset].
  eapply receiver_update; [exact Hwf1| |apply Hset|by intros _].
  apply receiver_ok_normal; [|done]. cbn.
  destruct Hv as [Hv|[-> _]]; [|done]. exact (proj1 (receivers_elem _ _ (sw_receivers _ _ _ Hwf1) Hv)).
Qed.

Lemma collision_wf strict n st ssrc addr now :
  loop_wf strict n st -> loop_wf strict n (handle_collision st ssrc addr now).
Proof using.
  intros Hwf. unfold handle_collision. destruct (Session_handle_ssrc_conflict (rl_session st) addr now) as [b s1] eqn:E.
  exact (conflict_wf _ _ _ _ _ _ _ Hwf E).
Qed.

Lemma packet_sr_wf strict n st ssrc ntp rtp oc pc rbs from now nt inow st' :
  loop_wf strict n st -> 0 <= n -> handle_packet_sr st ssrc ntp rtp oc pc rbs from now nt inow = Ok st' ->
  loop_wf strict n st'.
Proof using H0.
  intros Hwf Hn. unfold handle_packet_sr.
  destruct from as [addr|]; [destruct (is_local (rl_session st) ssrc); [intros [= <-]; by apply collision_wf|]|].
  all: destruct (lru_pop (se_remote_receivers (rl_session st)) ssrc) as [o cr] eqn:Hp.
  all: destruct (receiver_to_sender strict n (rl_session st) _ o cr (fun r => r) Hwf Hn Hp same_core_refl) as [Hwf1 Hk].
  all: cbv zeta in *; set (s1 := match o with Some _ => _ | None => _ end) in *.
  all: destruct (lru_get_or_insert_mut (se_remote_senders s1) ssrc _) as [v set] eqn:Hg.
  all: intros ([r s2] & E & [= <-])%bind_ok; unfold loop_wf; cbn; eapply handle_rbs_wf; [|done|exact E].
  all: eapply sender_insert; [exact Hwf1|exact Hn|reflexivity|exact Hg|by intros _|]; core.
Qed.

Lemma receiver_ok_sdes k ty v from now r :
  RemoteReceiveSource_ssrc r = k ->
  receiver_ok k (RemoteReceiveSource_set_last_activity (RemoteReceiveSource_set_state
    (RemoteReceiveSource_received_sdes (RemoteReceiveSource_set_rtcp_from r from) ty v) Normal) now).
Proof using. intros <-. unfold RemoteReceiveSource_received_sdes. by destruct (from_utf8 v). Qed.

Lemma sdes_item_wf strict n st ssrc ty v from now inow :
  loop_wf strict n st -> 0 <= n -> loop_wf strict n (handle_sdes_item st ssrc ty v from now inow).
Proof using H0.
  intros Hwf Hn. unfold handle_sdes_item.
  destruct from as [addr|]; [destruct (is_local (rl_session st) ssrc); [by apply collision_wf|]|].
  all: destruct (negb (sdes_known ty)); [done|]; cbv zeta.
  all: destruct (lru_get_mut (se_remote_senders (rl_session st)) ssrc) as [[v' set]|] eqn:Hg;
    [destruct (get_mut_Some _ _ _ _ (sk_wf _ _ _ (sw_senders _ _ _ Hwf)) Hg) as [Hv Hset];
     unfold loop_wf; cbn [rl_session]; eapply sender_update; [exact Hwf|exact Hv| |apply Hset]; core|].
  all: pose proof (get_mut_None _ _ (sk_wf _ _ _ (sw_senders _ _ _ Hwf)) Hg) as Hnot.
  all: destruct (lru_get_or_insert_mut (se_remote_receivers (rl_session st)) ssrc _) as [v' set] eqn:Hg';
    pose proof (sw_receivers _ _ _ Hwf) as Hr;
    destruct (get_or_insert_front _ _ _ _ _ (proj1 Hr) Hg') as [Hv Hset].
  all: unfold loop_wf; cbn [rl_session]; eapply receiver_update; [exact Hwf| |apply Hset|by intros _].
  all: apply receiver_ok_sdes; destruct Hv as [Hv|[-> _]]; [|done]; exact (proj1 (receivers_elem _ _ Hr Hv)).
Qed.

Lemma packet_sdes_wf strict n st chunks from now inow :
  loop_wf strict n st -> 0 <= n -> loop_wf strict n (handle_packet_sdes st chunks from now inow).
Proof using H0.
  intros Hwf Hn. unfold handle_packet_sdes. apply (fold_left_inv (loop_wf strict n)); [|done].
  intros st1 [ssrc items] H1'. apply (fold_left_inv (loop_wf strict n)); [|done].
  intros st2 [ty v] H2'. by apply sdes_item_wf.
Qed.

Lemma request_key_unit_one_wf strict n s now a m b s' :
  session_wf strict n s -> request_key_unit_one s now a m = Ok (b, s') -> session_wf strict n s'.
Proof using H0.
  intros Hwf. unfold request_key_unit_one. destruct (se_local_senders s !! m) as [ls|]; [|by intros [= _ <-]].
  destruct (lss_last_received_rb ls !! a) as [rb|]; [|by intros [= _ <-]].
  destruct (lru_get_mut (se_remote_senders s) a) as [[v set]|] eqn:Hg.
  - intros ([b1 v'] & E & [= _ <-])%bind_ok.
    destruct (get_mut_Some _ _ _ _ (sk_wf _ _ _ (sw_senders _ _ _ Hwf)) Hg) as [Hv Hset].
    eapply sender_update; [exact Hwf|exact Hv|by eapply core_key_unit_allowed|apply Hset].
  - destruct (lru_get_mut (se_remote_receivers s) a) as [[v set]|] eqn:Hg'; [|by intros [= _ <-]].
    intros ([b1 v'] & E & [= _ <-])%bind_ok. pose proof (sw_receivers _ _ _ Hwf) as Hr.
    destruct (get_mut_Some _ _ _ _ (proj1 Hr) Hg') as [Hv Hset].
    eapply receiver_update; [exact Hwf| |apply Hset|by eapply receiver_key_not_sender, elem_key].
    unfold RemoteReceiveSource_remote_request_key_unit_allowed in E. inv_ok. destruct x. inv_ok.
    exact (receivers_elem _ _ Hr Hv).
Qed.

Lemma remote_key_unit_wf strict n s now replies fir a ms r s' :
  session_wf strict n s -> Session_handle_remote_request_key_unit s now replies fir a ms = Ok (r, s') ->
  session_wf strict n s'.
Proof using H0.
  intros Hwf. unfold Session_handle_remote_request_key_unit. intros ([l s1] & E & H')%bind_ok.
  apply (res_fold_inv (fun st => session_wf strict n (snd st))) in E; [|clear -H0|done].
  - cbn in E. by destruct l; injection H' as _ <-.
  - intros [l1 s2] m [l2 s3] Hs ([b s4] & E1 & [= _ <-])%bind_ok. by eapply request_key_unit_one_wf.
Qed.

Lemma packet_feedback_wf strict n st a m fci now st' :
  loop_wf strict n st -> handle_packet_feedback st a m fci now = Ok st' -> loop_wf strict n st'.
Proof using H0.
  intros Hwf. unfold handle_packet_feedback. destruct fci; [| |by intros [= <-]];
    intros ([r s1] & E & [= <-])%bind_ok; exact (remote_key_unit_wf _ _ _ _ _ _ _ _ _ _ Hwf E).
Qed.

Lemma handle_packet_wf strict n st p from len now nt inow st' :
  loop_wf strict n st -> 0 <= n -> handle_packet st p from len now nt inow = Ok st' -> loop_wf strict n st'.
Proof using H0.
  intros Hwf Hn. destruct p; cbn; try (by intros [= <-]).
  - by apply packet_bye_wf.
  - by apply packet_rr_wf.
  - by apply packet_sr_wf.
  - intros [= <-]. by apply packet_sdes_wf.
  - by apply packet_feedback_wf.
Qed.

Lemma handle_rtcp_recv_wf strict n s rtcp len from now nt inow r s' :
  session_wf strict n s -> 0 <= n -> Session_handle_rtcp_recv s rtcp len from now nt inow = Ok (r, s') ->
  session_wf strict n s'.
Proof using H0.
  intros Hwf Hn. unfold Session_handle_rtcp_recv. intros (s1 & E1 & E)%bind_ok.
  assert (Hwf1 : session_wf strict n s1).
  { destruct (se_bye_state s); [by injection E1 as <-|]. apply bind_ok in E1 as (sz & _ & E1).
    by eapply update_rtcp_average_wf. }
  clear E1 Hwf. revert E.
  assert (Hloop : forall s2 replies, session_wf strict n s2 ->
    (st ← res_fold (fun st p => handle_packet st p from len now nt inow) (mkRtcpLoop s2 replies false) rtcp;
     Ok (rl_replies st, Session_update_point_to_point (rl_session st))) = Ok (r, s') -> session_wf strict n s').
  { intros s2 replies Hwf2 (st & E & [= _ <-])%bind_ok. apply point_to_point_wf.
    apply (res_fold_inv (loop_wf strict n)) in E; [done| |done]. intros. by eapply handle_packet_wf. }
  destruct (se_timed_out_ssrcs s1); intros E; (eapply Hloop; [|exact E]); [done|].
  destruct Hwf1 as [W1 W2 W3 W4 W5 W6 W7 W8 W9 W10]. split; cbn; try assumption. lia.
Qed.

(** *** Local sources *)

(** [m'] holds no source [m] does not, each under its own SSRC. *)
Definition local_sub {A} (ssrc : A -> Z) (m' m : gmap Z A) : Prop :=
  map_Forall (fun k a => ssrc a = k) m' /\ forall k, is_Some (m' !! k) -> is_Some (m !! k).

Lemma local_senders_set strict n s m :
  session_wf strict n s -> local_sub LocalSendSource_ssrc m (se_local_senders s) ->
  session_wf strict n (s <| se_local_senders := m |>).
Proof using. intros [W1 W2 W3 W4 W5 W6 W7 W8 W9 W10] [Hk Hsub]. split; cbn; try assumption. auto. Qed.

Lemma local_receivers_set strict n s m :
  session_wf strict n s -> local_sub LocalReceiveSource_ssrc m (se_local_receivers s) ->
  session_wf strict n (s <| se_local_receivers := m |>).
Proof using.
  intros [W1 W2 W3 W4 W5 W6 W7 W8 W9 W10] [Hk Hsub]. split; cbn; try assumption.
  intros k Hs. apply eq_None_not_Some. intros Hr%Hsub. rewrite (W6 k Hs) in Hr. by apply is_Some_None in Hr.
Qed.

Lemma local_sub_alter {A} (ssrc : A -> Z) f k m' m :
  local_sub ssrc m' m -> (forall a, ssrc (f a) = ssrc a) -> local_sub ssrc (alter f k m') m.
Proof using.
  intros [Hk Hsub] Hf. split.
  - intros j a. rewrite lookup_alter_Some. intros [(-> & b & Hb & ->)|[_ Ha]]; [rewrite Hf|]; by apply Hk.
  - intros j. rewrite lookup_alter_is_Some. apply Hsub.
Qed.

Lemma local_sub_insert {A} (ssrc : A -> Z) k a m' m :
  local_sub ssrc m' m -> is_Some (m !! k) -> ssrc a = k -> local_sub ssrc (<[k := a]> m') m.
Proof using.
  intros [Hk Hsub] Hm Ha. split; [by apply map_Forall_insert_2|].
  intros j. rewrite lookup_insert_is_Some'. intros [->|]; auto.
Qed.

Lemma local_sub_fmap {A} (ssrc : A -> Z) f m :
  map_Forall (fun k a => ssrc a = k) m -> (forall a, ssrc (f a) = ssrc a) -> local_sub ssrc (f <$> m) m.
Proof using.
  intros Hk Hf. split.
  - intros j a. rewrite lookup_fmap_Some. intros (b & <- & Hb). rewrite Hf. by apply Hk.
  - intros j. by rewrite lookup_fmap, fmap_is_Some.
Qed.

Lemma local_sub_refl {A} (ssrc : A -> Z) m : map_Forall (fun k a => ssrc a = k) m -> local_sub ssrc m m.
Proof using. by split. Qed.

Lemma sender_reports_wf strict n s l now nn nt mini rtcp rep srs s' out :
  session_wf strict n s -> sender_reports s l now nn nt mini rtcp rep srs = Ok (s', out) ->
  session_wf strict n (fst (fst s')).
Proof using.
  revert s rtcp rep srs. induction l as [|[k src] l IH]; intros s rtcp rep srs Hwf; cbn.
  - by intros [= <- _].
  - case_decide; [by apply IH|].
    set (s1 := match se_internal_rtcp_sender_src s with None => _ | Some _ => s end).
    assert (Hwf1 : session_wf strict n s1).
    { unfold s1. destruct (se_internal_rtcp_sender_src s); [done|].
      destruct Hwf as [W1 W2 W3 W4 W5 W6 W7 W8 W9 W10]. split; cbn; assumption. }
    intros ([rbs rep'] & _ & E)%bind_ok. destruct mini; [by injection E as <- _|by eapply IH].
Qed.

Lemma generate_sr_wf strict n s rtcp now nn mini rep r s' :
  session_wf strict n s -> Session_generate_sr s rtcp now nn mini rep = Ok (r, s') -> session_wf strict n s'.
Proof using.
  intros Hwf. unfold Session_generate_sr. destruct (mini && _); [by intros [= _ <-]|].
  intros (nt & _ & E)%bind_ok. destruct (existsb _ _); [|by injection E as _ <-].
  apply bind_ok in E as ([[[s1 rtcp1] rep1] srs] & E & [= _ <-]).
  apply (sender_reports_wf _ _ _ _ _ _ _ _ _ _ _ _ _ Hwf) in E. cbn in E. apply local_senders_set; [done|].
  apply (fold_left_inv (fun m => local_sub LocalSendSource_ssrc m (se_local_senders s1))).
  - intros m [ssrc ts] Hm. by apply local_sub_alter.
  - apply local_sub_refl, E.
Qed.

Lemma ensure_internal_wf strict n s draws inow k s' :
  session_wf strict n s -> Session_ensure_internal_send_src s draws inow = Ok (k, s') -> session_wf strict n s'.
Proof using.
  intros Hwf. unfold Session_ensure_internal_send_src.
  destruct (se_internal_rtcp_sender_src s); [by intros [= _ <-]|].
  destruct (List.find _ draws) as [ssrc|] eqn:Hf; [|done]. intros [= _ <-].
  apply find_some in Hf as [_ Hf]. apply negb_true_iff in Hf. unfold Session_have_ssrc, is_local in Hf.
  rewrite !orb_false_iff, !bool_decide_eq_false in Hf. destruct Hf as [[[Hl _] _] _].
  destruct Hwf as [W1 W2 W3 W4 W5 W6 W7 W8 W9 W10]. split; cbn; try assumption.
  - by apply map_Forall_insert_2.
  - intros j Hj. destruct (decide (j = ssrc)) as [->|]; [done|]. rewrite lookup_insert_ne by done. by apply W6.
Qed.

Lemma generate_rr_wf strict n s rtcp now nn mini rep draws inow r s' :
  session_wf strict n s -> Session_generate_rr s rtcp now nn mini rep draws inow = Ok (r, s') ->
  session_wf strict n s'.
Proof using.
  intros Hwf. unfold Session_generate_rr. destruct (mini && _); [by intros [= _ <-]|].
  destruct (forallb _ _); [|by intros [= _ <-]]. intros ([k s1] & E & H')%bind_ok.
  apply (ensure_internal_wf _ _ _ _ _ _ _ Hwf) in E. apply bind_ok in H' as ([rbs rep'] & _ & [= _ <-]).
  set (s2 := s1 <| se_local_senders ::= alter _ k |>).
  assert (Hwf2 : session_wf strict n s2).
  { apply local_senders_set; [done|]. apply local_sub_alter; [apply local_sub_refl, E|done]. }
  apply (local_receivers_set _ _ s2 _ Hwf2). apply local_sub_alter; [apply local_sub_refl, Hwf2|done].
Qed.

Lemma senders_write_wf strict n s vs :
  session_wf strict n s -> Forall2 (fun e v => same_core (snd e) v) (lru_iter (se_remote_senders s)) vs ->
  session_wf strict n (s <| se_remote_senders ::= fun c => lru_write c vs |>).
Proof using H0.
  intros [W1 W2 W3 W4 W5 W6 W7 W8 W9 W10] Hvs. destruct (senders_write _ _ _ _ W1 Hvs) as [Hs Hk].
  split; cbn; try assumption. rewrite Hk. exact W3.
Qed.

Lemma generate_pli_wf strict n s rtcp draws inow r s' :
  session_wf strict n s -> Session_generate_pli s rtcp draws inow = Ok (r, s') -> session_wf strict n s'.
Proof using H0.
  intros Hwf. unfold Session_generate_pli. intros ([k s1] & E & [= _ <-])%bind_ok.
  apply (ensure_internal_wf _ _ _ _ _ _ _ Hwf) in E. apply senders_write_wf; [done|].
  generalize (lru_iter (se_remote_senders s1)). intros l. induction l as [|e l IH]; cbn; constructor; [|done].
  apply core_generate_pli.
Qed.

Lemma collect_firs_core l fir have :
  Forall2 same_core l (snd (collect_firs l fir have)).
Proof using.
  revert fir have. induction l as [|s l IH]; intros fir have; cbn; [constructor|].
  pose proof (core_generate_fir s fir have) as Hc.
  destruct (RemoteSendSource_generate_fir s fir have) as [[fir1 have1] s1].
  specialize (IH fir1 have1). destruct (collect_firs l fir1 have1) as [[fir2 have2] l2]. by constructor.
Qed.

Lemma generate_fir_wf strict n s rtcp draws inow r s' :
  session_wf strict n s -> Session_generate_fir s rtcp draws inow = Ok (r, s') -> session_wf strict n s'.
Proof using H0.
  intros Hwf. unfold Session_generate_fir.
  pose proof (collect_firs_core (snd <$> lru_iter (se_remote_senders s)) [] false) as Hc.
  destruct (collect_firs (snd <$> lru_iter (se_remote_senders s)) [] false) as [[fir have] l]. cbn in Hc.
  assert (Hwf1 : session_wf strict n (s <| se_remote_senders ::= fun c => lru_write c l |>)).
  { apply senders_write_wf; [done|]. exact (proj1 (Forall2_fmap_l snd same_core _ _) Hc). }
  destruct have; [|by intros [= _ <-]]. intros ([k s1] & E & [= _ <-])%bind_ok.
  by eapply ensure_internal_wf.
Qed.

Lemma bye_one_wf strict n now s k : session_wf strict n s -> session_wf strict n (bye_one now s k).
Proof using.
  intros Hwf. unfold bye_one. cbv zeta. set (s1 := s <| se_pending_rtcp_send ::= cons (SendSsrcBye k) |>).
  assert (Hwf1 : session_wf strict n s1).
  { destruct Hwf as [W1 W2 W3 W4 W5 W6 W7 W8 W9 W10]. split; cbn; assumption. }
  destruct (se_local_senders s1 !! k) as [src|] eqn:E.
  - apply local_senders_set; [done|]. apply local_sub_insert; [apply local_sub_refl, Hwf1|by eauto|].
    exact (sw_local_senders _ _ _ Hwf1 _ _ E).
  - destruct (se_local_receivers s1 !! k) as [src|] eqn:E'; [|done].
    apply local_receivers_set; [done|]. apply local_sub_insert; [apply local_sub_refl, Hwf1|by eauto|].
    exact (sw_local_receivers _ _ _ Hwf1 _ _ E').
Qed.

Lemma generate_bye_wf strict n s rtcp now : session_wf strict n s -> session_wf strict n (snd (Session_generate_bye s rtcp now)).
Proof using.
  intros Hwf. unfold Session_generate_bye. apply (fold_left_inv (fun st => session_wf strict n (snd st))); [|done].
  intros [rtcp1 s1] [reason ssrcs] Hs. cbn in *. apply (fold_left_inv (session_wf strict n)); [|done].
  intros. by apply bye_one_wf.
Qed.

Lemma generate_compound_wf strict n s now nn early dr inow r s' :
  session_wf strict n s -> generate_compound s now nn early dr inow = Ok (r, s') -> session_wf strict n s'.
Proof using H0.
  intros Hwf. unfold generate_compound. intros ([[rtcp1 rep1] s1] & E1 & H')%bind_ok.
  apply (generate_sr_wf _ _ _ _ _ _ _ _ _ _ Hwf) in E1. apply bind_ok in H' as ([[rtcp2 rep2] s2] & E2 & H').
  apply (generate_rr_wf _ _ _ _ _ _ _ _ _ _ _ _ E1) in E2. apply bind_ok in H' as ([rtcp3 s3] & E3 & H').
  apply (generate_pli_wf _ _ _ _ _ _ _ _ E2) in E3. apply bind_ok in H' as ([rtcp4 s4] & E4 & H').
  apply (generate_fir_wf _ _ _ _ _ _ _ _ E3) in E4.
  pose proof (generate_bye_wf _ _ _ rtcp4 now E4) as E5. destruct (Session_generate_bye s4 rtcp4 now) as [rtcp5 s5].
  by injection H' as _ <-.
Qed.

(** *** Timeouts *)

(** Expiring drops entries from the end, the stale ones, and stops at a
    fresh one. *)
Lemma expire_lru_spec {V} (act : V -> Z) now td fuel (c : LruCache V) out c' out' :
  lru_wf c -> expire_lru fuel act now td c out = (c', out') ->
  lru_wf c' /\ exists gone, lru_iter c = lru_iter c' ++ gone /\ out' = out ++ rev gone.*1 /\
    Forall (fun e => td <= instant_sub now (act (snd e))) gone /\
    ((length (lru_iter c) <= fuel)%nat ->
     forall e, last (lru_iter c') = Some e -> instant_sub now (act (snd e)) < td).
Proof using H0.
  revert c out. induction fuel as [|fuel IH]; intros c out Hwf; cbn.
  { intros [= <- <-]. split; [done|]. exists []. rewrite !app_nil_r. split_and!; [done|done|constructor|].
    destruct (lru_iter c); [done|cbn; lia]. }
  rewrite (lru_peek_lru_spec c Hwf). destruct (last (lru_iter c)) as [[k v]|] eqn:Hl.
  2: { intros [= <- <-]. split; [done|]. exists []. rewrite !app_nil_r. split_and!; [done|done|constructor|].
       intros _ e He. congruence. }
  destruct (Z.ltb_spec (instant_sub now (act v)) td) as [Hlt|Hge].
  { intros [= <- <-]. split; [done|]. exists []. rewrite !app_nil_r. split_and!; [done|done|constructor|].
    intros _ e He. rewrite Hl in He. by injection He as <-. }
  intros E. destruct (lru_pop_lru_spec c Hwf) as [Hi Hc]. apply last_Some in Hl as [l El].
  rewrite El, removelast_last in Hi.
  assert (Hwf1 : lru_wf (lru_pop_lru c)).
  { destruct Hwf as (Hn & Hcap & Hlen). rewrite El in Hn, Hlen. rewrite length_app in Hlen. cbn in Hlen.
    unfold lru_wf. rewrite Hi, Hc. rewrite fmap_app in Hn. apply NoDup_app in Hn as (Hn & _).
    split_and!; [done|done|lia]. }
  destruct (IH _ _ Hwf1 E) as (Hwf' & gone & Eg & -> & Hall & Hlast). split; [done|].
  exists (gone ++ [(k, v)]). rewrite Hi in Eg, Hlast. split_and!.
  - by rewrite El, Eg, app_assoc.
  - rewrite fmap_app, rev_app_distr. cbn. by rewrite <- app_assoc.
  - apply Forall_app. by repeat constructor.
  - rewrite El, length_app. cbn. intros Hf. apply Hlast. lia.
Qed.

Lemma expire_sub {V} (act : V -> Z) now td (c : LruCache V) out c' out' :
  lru_wf c -> expire_all act now td c out = (c', out') ->
  lru_wf c' /\ forall e, e ∈ lru_iter c' -> e ∈ lru_iter c.
Proof using H0.
  intros Hwf E. destruct (expire_lru_spec _ _ _ _ _ _ _ _ Hwf E) as (Hwf' & gone & Eg & _).
  split; [done|]. intros e He. rewrite Eg. apply elem_of_app. by left.
Qed.

Lemma elem_keys_sub {V} (c c' : LruCache V) :
  (forall e, e ∈ lru_iter c' -> e ∈ lru_iter c) -> forall k, k ∈ cache_keys c' -> k ∈ cache_keys c.
Proof using. intros Hsub k (e & -> & He)%list_elem_of_fmap. apply list_elem_of_fmap. exists e. auto. Qed.

(** Replacing both caches by smaller ones. *)
Lemma shrink_wf strict n s cs cr :
  session_wf strict n s -> lru_wf cs -> lru_wf cr ->
  (forall e, e ∈ lru_iter cs -> e ∈ lru_iter (se_remote_senders s)) ->
  (forall e, e ∈ lru_iter cr -> e ∈ lru_iter (se_remote_receivers s)) ->
  session_wf strict n (s <| se_remote_senders := cs |> <| se_remote_receivers := cr |>).
Proof using.
  intros [W1 W2 W3 W4 W5 W6 W7 W8 W9 W10] Hs Hr Hsub Hsub'. split; cbn; try assumption.
  - by eapply senders_sub.
  - split; [done|]. destruct W2 as [_ W2]. rewrite Forall_forall in W2. apply Forall_forall. auto.
  - intros Hst k Hk Hk'. eapply W3; [done|by eapply elem_keys_sub|by eapply elem_keys_sub].
Qed.

Lemma demote_senders_wf strict n s : session_wf strict n s -> session_wf strict n (demote_senders s).
Proof using.
  intros Hwf. unfold demote_senders. destruct (se_last_rtcp_sent_times s) as [|? [|? ?]]; [done..|].
  apply (fold_left_inv (session_wf strict n)); [|done]. clear. intros s k Hwf.
  destruct (se_local_senders s !! k) as [src|] eqn:E; [|done].
  destruct Hwf as [W1 W2 W3 W4 W5 W6 W7 W8 W9 W10]. pose proof (W4 _ _ E) as Hk. cbn in Hk.
  split; cbn; try assumption.
  - by apply map_Forall_delete.
  - by apply map_Forall_insert_2.
  - intros j. change (LocalReceiveSource_ssrc _) with (LocalSendSource_ssrc src). rewrite Hk.
    destruct (decide (j = k)) as [->|Hne].
    + rewrite lookup_delete_eq. by intros ?%is_Some_None.
    + rewrite lookup_delete_ne, lookup_insert_ne by done. apply W6.
Qed.

Lemma handle_timeouts_wf strict n s now out s' :
  session_wf strict n s -> Session_handle_timeouts s now = Ok (out, s') -> session_wf strict n s'.
Proof using H0.
  intros Hwf. unfold Session_handle_timeouts. intros (d & _ & (td & _ & E)%bind_ok)%bind_ok.
  cbv zeta in E. set (s1 := modify se_local_receivers _ s) in E.
  assert (Hwf1 : session_wf strict n s1).
  { apply local_receivers_set; [done|]. split.
    - intros k a [Ha _]%map_lookup_filter_Some. by apply (sw_local_receivers _ _ _ Hwf).
    - intros k [a [Ha _]%map_lookup_filter_Some]. eauto. }
  destruct (expire_all RemoteSendSource_last_activity now td _ _) as [cs o1] eqn:E1.
  destruct (expire_all RemoteReceiveSource_last_activity now td _ _) as [cr o2] eqn:E2.
  destruct (expire_sub _ _ _ _ _ _ _ (sk_wf _ _ _ (sw_senders _ _ _ Hwf)) E1) as [Hs Hsub].
  destruct (expire_sub _ _ _ _ _ _ _ (proj1 (sw_receivers _ _ _ Hwf)) E2) as [Hr Hsub'].
  pose proof (shrink_wf _ _ _ cs cr Hwf1 Hs Hr Hsub Hsub') as Hwf2.
  injection E as _ <-. match goal with |- session_wf _ _ (modify se_conflicting_addresses _ ?t) => set (s3 := t) end.
  assert (Hwf3 : session_wf strict n s3).
  { apply demote_senders_wf. destruct Hwf2 as [W1 W2 W3 W4 W5 W6 W7 W8 W9 W10]. split; cbn; try assumption.
    rewrite length_drop. lia. }
  destruct Hwf3 as [W1 W2 W3 W4 W5 W6 W7 W8 W9 W10]. split; cbn; assumption.
Qed.

(** *** Sending RTCP *)

Lemma next_interval_wf strict n s dr i s' :
  session_wf strict n s -> next_interval s dr = Ok (i, s') -> session_wf strict n s'.
Proof using.
  intros [W1 W2 W3 W4 W5 W6 W7 W8 W9 W10]. unfold next_interval. intros (d & _ & E)%bind_ok. cbv zeta in E.
  destruct (_ && _); [apply bind_ok in E as (d' & _ & E)|]; injection E as _ <-; split; cbn; assumption.
Qed.

Lemma after_regular_wf strict n s now dr s' :
  session_wf strict n s -> after_regular s now dr = Ok s' -> session_wf strict n s'.
Proof using H0.
  intros Hwf. unfold after_regular. intros ([out s1] & E1 & H')%bind_ok.
  apply (handle_timeouts_wf _ _ _ _ _ _ Hwf) in E1. cbv zeta in H'.
  apply bind_ok in H' as ([i s2] & E2 & [= <-]). apply next_interval_wf with (strict := strict) (n := n) in E2.
  - destruct E2 as [W1 W2 W3 W4 W5 W6 W7 W8 W9 W10]. split; cbn; try assumption.
    destruct (se_last_rtcp_sent_times s2); cbn; [lia|]. rewrite length_take. lia.
  - apply point_to_point_wf. destruct out; [done|].
    destruct E1 as [W1 W2 W3 W4 W5 W6 W7 W8 W9 W10]. split; cbn; assumption.
Qed.

Lemma rtcp_due_wf strict n s now nx early dr b s' :
  session_wf strict n s -> rtcp_due s now nx early dr = Ok (b, s') -> session_wf strict n s'.
Proof using.
  intros Hwf. unfold rtcp_due. destruct early; [destruct (se_next_early_rtcp_time s); by intros [= _ <-]|].
  destruct (now <? nx); [by intros [= _ <-]|]. cbv zeta. apply point_to_point_wf in Hwf.
  intros (i & _ & (ht & _ & E)%bind_ok)%bind_ok. destruct (_ >? now); injection E as _ <-; [|done].
  destruct Hwf as [W1 W2 W3 W4 W5 W6 W7 W8 W9 W10]. split; cbn; assumption.
Qed.

Lemma poll_rtcp_send_wf strict n s now nn dr inow r s' :
  session_wf strict n s -> Session_poll_rtcp_send s now nn dr inow = Ok (r, s') -> session_wf strict n s'.
Proof using H0.
  intros Hwf. unfold Session_poll_rtcp_send. destruct (pop_back (se_pending_rtcp_send s)) as [[ev rest]|].
  { intros [= _ <-]. destruct Hwf as [W1 W2 W3 W4 W5 W6 W7 W8 W9 W10]. split; cbn; assumption. }
  destruct (tm_time (se_next_rtcp_send s)) as [nx|]; [|by intros [= _ <-]]. cbv zeta.
  set (early := bool_decide _ && _). intros ([due s1] & E1 & H')%bind_ok.
  apply (rtcp_due_wf _ _ _ _ _ _ _ _ _ Hwf) in E1. destruct (negb due); [by injection H' as _ <-|].
  apply bind_ok in H' as ([[rtcp rep] s2] & E2 & H'). apply (generate_compound_wf _ _ _ _ _ _ _ _ _ _ E1) in E2.
  apply bind_ok in H' as (size & _ & H'). apply bind_ok in H' as ([] & _ & H').
  apply bind_ok in H' as (data & _ & H'). apply bind_ok in H' as (sz & _ & H').
  apply bind_ok in H' as (s3 & E3 & H'). apply bind_ok in H' as (s4 & E4 & [= _ <-]).
  assert (Hwf3 : session_wf strict n s3).
  { eapply update_rtcp_average_wf; [|exact E3]. apply (fold_left_inv (session_wf strict n)); [|done].
    intros s5 k Hs. destruct (lru_get_mut (se_remote_senders s5) k) as [[v set]|] eqn:Hg; [|done].
    destruct (get_mut_Some _ _ _ _ (sk_wf _ _ _ (sw_senders _ _ _ Hs)) Hg) as [Hv Hset].
    eapply sender_update; [exact Hs|exact Hv|apply core_update_last_rtcp|apply Hset]. }
  assert (Hwf4 : session_wf strict n s4).
  { destruct early; [by injection E4 as <-|by eapply after_regular_wf]. }
  destruct Hwf4 as [W1 W2 W3 W4 W5 W6 W7 W8 W9 W10]. split; cbn; assumption.
Qed.

Lemma poll_timeout_wf strict n s now f r s' :
  session_wf strict n s -> Session_poll_rtcp_send_timeout s now f = Ok (r, s') -> session_wf strict n s'.
Proof using.
  intros Hwf. unfold Session_poll_rtcp_send_timeout. destruct (se_next_early_rtcp_time s); [by intros [= _ <-]|].
  intros (s1 & E & [= _ <-])%bind_ok. destruct (tm_time (se_next_rtcp_send s)); [by injection E as <-|].
  cbv zeta in E. apply bind_ok in E as (i & _ & [= <-]). apply point_to_point_wf in Hwf.
  destruct Hwf as [W1 W2 W3 W4 W5 W6 W7 W8 W9 W10]. split; cbn; assumption.
Qed.

Lemma request_early_wf strict n s now md f r s' :
  session_wf strict n s -> Session_request_early_rtcp s now md f = Ok (r, s') -> session_wf strict n s'.
Proof using.
  intros Hwf. unfold Session_request_early_rtcp. destruct (negb _); [by intros [= _ <-]|]. cbv zeta.
  destruct (se_next_early_rtcp_time s); [by intros [= _ <-]|].
  destruct (tm_time (se_next_rtcp_send s)); [|by intros [= _ <-]].
  destruct (se_last_rtcp_sent_times s) eqn:El; [by intros [= _ <-]|]. apply point_to_point_wf in Hwf.
  intros (ht & _ & (trr & _ & E)%bind_ok)%bind_ok.
  destruct (_ >? _); [by injection E as _ <-|]. destruct (if _ =? _ then _ else _) as [[] off]; cbn in E;
    [|by injection E as _ <-]. apply bind_ok in E as (d & _ & [= _ <-]).
  destruct Hwf as [W1 W2 W3 W4 W5 W6 W7 W8 W9 W10]. split; cbn; assumption.
Qed.

Lemma schedule_bye_wf strict n s reason now dr s' :
  session_wf strict n s -> Session_schedule_bye s reason now dr = Ok s' -> session_wf strict n s'.
Proof using.
  intros Hwf. unfold Session_schedule_bye. destruct (se_bye_state s); [by intros [= <-]|]. cbv zeta.
  set (s1 := s <| se_local_senders ::= fmap _ |>). set (s2 := s1 <| se_local_receivers ::= fmap _ |>).
  assert (Hwf1 : session_wf strict n s1).
  { apply local_senders_set; [done|]. apply local_sub_fmap; [apply Hwf|].
    intros a. unfold LocalSendSource_mark_bye. by repeat case_match. }
  assert (Hwf2 : session_wf strict n s2).
  { apply local_receivers_set; [done|]. apply local_sub_fmap; [apply Hwf1|].
    intros a. unfold LocalReceiveSource_mark_bye. by repeat case_match. }
  clearbody s2. destruct (_ <=? 50); [by intros [= <-]|]. intros ([i s3] & E & [= <-])%bind_ok.
  apply next_interval_wf with (strict := strict) (n := n) in E.
  - destruct E as [W1 W2 W3 W4 W5 W6 W7 W8 W9 W10]. split; cbn; assumption.
  - apply point_to_point_wf. destruct Hwf2 as [W1 W2 W3 W4 W5 W6 W7 W8 W9 W10]. split; cbn; try assumption. lia.
Qed.

Lemma request_remote_key_unit_wf strict n s now typ k f r s' :
  session_wf strict n s -> Session_request_remote_key_unit s now typ k f = Ok (r, s') -> session_wf strict n s'.
Proof using H0.
  intros Hwf. unfold Session_request_remote_key_unit.
  destruct (lru_peek (se_remote_senders s) k); [|by intros [= _ <-]].
  intros ([res s1] & E & H')%bind_ok. apply (request_early_wf _ _ _ _ _ _ _ _ Hwf) in E.
  destruct (decide (res <> NotScheduled)); [|by injection H' as _ <-].
  apply bind_ok in H' as ([v set] & Hg & [= _ <-]). apply unwrap_ok in Hg.
  destruct (get_mut_Some _ _ _ _ (sk_wf _ _ _ (sw_senders _ _ _ E)) Hg) as [Hv Hset].
  eapply sender_update; [exact E|exact Hv|apply core_request_key_unit|apply Hset].
Qed.
End Invariant.
