(* ===== verification/SessionProps.v ===== *)
(** * Properties of sessions

    The operations of a session as steps, what every reachable session
    satisfies, and what each operation does: the treatment of received
    packets, the timing of reports, timeouts, and the reports themselves. *)

From S2P Require Import Prelude Utils Time F64 Lru Source SourceProps Session SessionInv.

(** ** Steps of a session *)

Inductive SessionOp :=
| OpRecv (rtp : RtpPacket) (from : option SocketAddr) (now initial_time instant_now : Z)
| OpSend (rtp : RtpPacket) (now capture_time instant_now : Z)
| OpRtcpRecv (rtcp : list Packet) (rtcp_len : Z) (from : option SocketAddr) (now ntp_time instant_now : Z)
| OpPoll (now ntp_now : Z) (dr : Draws) (instant_now : Z)
| OpPollTimeout (now : Z) (factor : spec_float)
| OpEarly (now max_delay : Z) (factor : spec_float)
| OpBye (reason : list Z) (now : Z) (dr : Draws)
| OpKeyUnit (now : Z) (typ : KeyUnitRequestType) (ssrc : Z) (factor : spec_float)
| OpSetMinInterval (d : Z)
| OpSetProfile (p : RtpProfile)
| OpSetReducedSize (b : bool)
| OpSetMaxReceivers (n : Z)
| OpSetMaxSenders (n : Z)
| OpSetClockRate (pt clock_rate : Z)
| OpSetSdes (sdes : gmap Z (list Z)).

Section Steps.
Context `{LruOps} `{Gst} `{HashOrder} `{RtcpTypes OutPacket}.

Definition session_apply (s : Session) (op : SessionOp) : res Session :=
  match op with
  | OpRecv rtp from now init inow => '(_, s) ← Session_handle_recv s rtp from now init inow; Ok s
  | OpSend rtp now ct inow => '(_, s) ← Session_handle_send s rtp now ct inow; Ok s
  | OpRtcpRecv rtcp len from now nt inow =>
      '(_, s) ← Session_handle_rtcp_recv s rtcp len from now nt inow; Ok s
  | OpPoll now nn dr inow => '(_, s) ← Session_poll_rtcp_send s now nn dr inow; Ok s
  | OpPollTimeout now f => '(_, s) ← Session_poll_rtcp_send_timeout s now f; Ok s
  | OpEarly now md f => '(_, s) ← Session_request_early_rtcp s now md f; Ok s
  | OpBye reason now dr => Session_schedule_bye s reason now dr
  | OpKeyUnit now typ ssrc f => '(_, s) ← Session_request_remote_key_unit s now typ ssrc f; Ok s
  | OpSetMinInterval d => Ok (Session_set_min_rtcp_interval s d)
  | OpSetProfile p => Ok (Session_set_profile s p)
  | OpSetReducedSize b => Ok (Session_set_reduced_size_rtcp s b)
  | OpSetMaxReceivers n => Ok (Session_set_max_remote_receiver_sources s n)
  | OpSetMaxSenders n => Ok (Session_set_max_remote_sender_sources s n)
  | OpSetClockRate pt r => Ok (Session_set_pt_clock_rate s pt r)
  | OpSetSdes sdes => Ok (Session_set_sdes s sdes)
  end.

Definition session_run (cname : list Z) (ops : list SessionOp) : res Session :=
  res_fold session_apply (Session_new cname) ops.
End Steps.

(** The arguments the callers pass: 16-bit sequence numbers, cache sizes the
    type [NonZeroUsize] allows, clock rates up to 1 MHz; [strict] when every
    RTP packet comes with the address it was received from. *)
Definition op_ok (strict : bool) (op : SessionOp) : Prop :=
  match op with
  | OpRecv rtp from _ _ _ => is_u16 (rtp_sequence_number rtp) /\ (strict = true -> is_Some from)
  | OpSetMaxReceivers n | OpSetMaxSenders n => 1 <= n
  | OpSetClockRate _ r => 0 < r <= 1000000
  | _ => True
  end.

Section StepLemmas.
Context `{LruLaws} `{GstLaws} `{HashOrderLaws} `{RtcpTypes OutPacket}.

Lemma session_new_wf strict cname : session_wf strict 0 (Session_new cname).
Proof using H0.
  assert (Hnew : forall V, lru_wf (V := V) (lru_new DEFAULT_MAX_REMOTE_SOURCES) /\
    lru_iter (V := V) (lru_new DEFAULT_MAX_REMOTE_SOURCES) = []).
  { intros V. destruct (lru_new_spec (V := V) DEFAULT_MAX_REMOTE_SOURCES) as [Hi Hc]; [unfold DEFAULT_MAX_REMOTE_SOURCES; lia|].
    split; [|done]. unfold lru_wf. rewrite Hi, Hc. split_and!; [constructor|done|done]. }
  split; cbn; try done; try lia.
  - split; [apply Hnew|rewrite (proj2 (Hnew _)); constructor|].
    rewrite (proj2 (Hnew _)). by intros e1 e2 i ?%elem_of_nil.
  - split; [apply Hnew|rewrite (proj2 (Hnew _)); constructor].
  - unfold cache_keys. rewrite (proj2 (Hnew _)). by intros _ k ?%elem_of_nil.
Qed.

Lemma resize_sub {V} (c : LruCache V) n : lru_wf c -> 1 <= n ->
  lru_wf (lru_resize c n) /\ forall e, e ∈ lru_iter (lru_resize c n) -> e ∈ lru_iter c.
Proof using H0.
  intros Hwf Hn. destruct (lru_resize_spec c n Hwf Hn) as [Hi Hc]. destruct Hwf as (Hnd & _ & _). split.
  - unfold lru_wf. rewrite Hi, Hc, fmap_take, length_take. split_and!; [|done|lia].
    eapply sublist_NoDup; [exact Hnd|apply sublist_take].
  - intros e. rewrite Hi. intros (i & He & _)%elem_of_take. by eapply list_elem_of_lookup_2.
Qed.

Lemma session_apply_wf strict n s op s' :
  session_wf strict n s -> 0 <= n < 2 ^ 40 -> op_ok strict op -> session_apply s op = Ok s' ->
  session_wf strict (n + 1) s'.
Proof using H0 H2.
  intros Hwf Hn Hok. pose proof (session_wf_mono strict n (n + 1) s ltac:(lia) Hwf) as Hwf1.
  pose proof Hwf1 as [W1 W2 W3 W4 W5 W6 W7 W8 W9 W10].
  destruct op; cbn in Hok |- *; try (intros ([r s1] & E & [= <-])%bind_ok); try (intros [= <-]).
  - destruct Hok as [Hseq Hfrom].
    destruct (handle_recv_total strict n s rtp from now initial_time instant_now Hwf Hn Hseq Hfrom) as (r' & s' & E' & Hwf').
    rewrite E' in E. by injection E as _ <-.
  - by eapply handle_send_wf.
  - eapply handle_rtcp_recv_wf; [exact Hwf1|lia|exact E].
  - by eapply poll_rtcp_send_wf.
  - by eapply poll_timeout_wf.
  - by eapply request_early_wf.
  - by apply schedule_bye_wf.
  - by eapply request_remote_key_unit_wf.
  - split; cbn; assumption.
  - split; cbn; assumption.
  - split; cbn; assumption.
  - destruct (resize_sub _ _ (proj1 W2) Hok) as [Hr Hsub].
    exact (shrink_wf _ _ _ (se_remote_senders s) _ Hwf1 (sk_wf _ _ _ W1) Hr (fun e He => He) Hsub).
  - destruct (resize_sub _ _ (sk_wf _ _ _ W1) Hok) as [Hs Hsub].
    exact (shrink_wf _ _ _ _ (se_remote_receivers s) Hwf1 Hs (proj1 W2) Hsub (fun e He => He)).
  - split; cbn; try assumption. intros p r. rewrite lookup_insert_Some. intros [[_ <-]|[_ Hr]]; [done|by eapply W8].
  - unfold Session_set_sdes. set (s1 := s <| se_local_senders ::= _ |>).
    assert (Hwf2 : session_wf strict (n + 1) s1).
    { apply local_senders_set; [done|]. by apply local_sub_fmap. }
    set (s2 := s1 <| se_local_receivers ::= _ |>).
    assert (Hwf3 : session_wf strict (n + 1) s2).
    { apply local_receivers_set; [done|]. apply local_sub_fmap; [apply Hwf2|done]. }
    clearbody s2. clear - Hwf3. destruct Hwf3 as [W1 W2 W3 W4 W5 W6 W7 W8 W9 W10]. split; cbn; assumption.
Qed.

Lemma session_run_wf strict n s ops s' :
  session_wf strict n s -> 0 <= n -> n + Z.of_nat (length ops) <= 2 ^ 40 -> Forall (op_ok strict) ops ->
  res_fold session_apply s ops = Ok s' -> session_wf strict (n + Z.of_nat (length ops)) s'.
Proof using H0 H2.
  intros Hwf Hn Hlen Hok. revert n s Hwf Hn Hlen. induction Hok as [|op ops Hop _ IH]; intros n s Hwf Hn Hlen; cbn.
  - intros [= <-]. by rewrite Z.add_0_r.
  - intros (s1 & E1 & E)%bind_ok. cbn in Hlen.
    apply (session_apply_wf _ _ _ _ _ Hwf ltac:(lia) Hop) in E1.
    replace (n + Z.of_nat (S (length ops))) with (n + 1 + Z.of_nat (length ops)) by lia.
    apply (IH _ s1); [done|lia|lia|done].
Qed.
End StepLemmas.

(** ** Received packets *)

Section Received.
Context `{LruLaws} `{GstLaws} `{HashOrderLaws} `{RtcpTypes OutPacket}.

Lemma front_head {V} (c : LruCache V) k w c' : lru_wf c -> front c k w c' -> (k, w) ∈ lru_iter c'.
Proof using.
  intros (_ & Hcap & _) [Hi _]. rewrite Hi. destruct (Z.to_nat (lru_cap c)) as [|m] eqn:E; [lia|]. cbn. by left.
Qed.

Lemma get_mut_elem {V} (c : LruCache V) k v :
  lru_wf c -> (k, v) ∈ lru_iter c -> exists set, lru_get_mut c k = Some (v, set) /\ forall w, front c k w (set w).
Proof using H0.
  intros Hwf Hv. destruct (lru_get_mut c k) as [[v' set]|] eqn:Hg.
  - destruct (get_mut_Some _ _ _ _ Hwf Hg) as [Hv' Hset]. exists set. split; [|done].
    do 2 f_equal. destruct Hwf as (Hn & _ & _).
    apply list_elem_of_lookup in Hv as [i Hi], Hv' as [j Hj].
    assert (i = j) as ->.
    { apply (NoDup_lookup _ i j k Hn); rewrite list_lookup_fmap; [by rewrite Hi|by rewrite Hj]. }
    congruence.
  - destruct (get_mut_None _ _ Hwf Hg). by eapply elem_key.
Qed.

Lemma pop_absent {V} (c : LruCache V) k o c' : lru_wf c -> k ∉ cache_keys c -> lru_pop c k = (o, c') -> o = None.
Proof using H0.
  intros Hwf Hk Hp. destruct (pop_spec _ _ _ _ Hwf Hp) as (_ & _ & _ & Ho). destruct o as [v|]; [|done].
  destruct Hk. by eapply elem_key.
Qed.

(** A packet of a sender the session knows, from the address it knows. *)
Lemma recv_known strict n s rtp from now o s1 v :
  session_wf strict n s -> (rtp_ssrc rtp, v) ∈ lru_iter (se_remote_senders s) ->
  rtp_ssrc rtp ∉ cache_keys (se_remote_receivers s) ->
  recv_collision s rtp from now = (o, s1) ->
  exists v1, (rtp_ssrc rtp, v1) ∈ lru_iter (se_remote_senders s1) /\
    RemoteSendSource_last_activity v1 = RemoteSendSource_last_activity v.
Proof using H0.
  intros Hwf Hv Hk. unfold recv_collision. destruct from as [addr|]; [|by intros [= _ <-]; eauto].
  destruct (se_local_senders s !! rtp_ssrc rtp).
  { unfold Session_handle_ssrc_conflict. destruct (se_conflicting_addresses s !! addr); intros [= _ <-]; cbn; eauto. }
  destruct (lru_pop (se_remote_receivers s) (rtp_ssrc rtp)) as [o1 cr] eqn:Hp.
  apply pop_absent in Hp; [subst o1|apply (sw_receivers _ _ _ Hwf)|done]. cbv zeta.
  change (se_remote_senders (s <| se_remote_receivers := cr |>)) with (se_remote_senders s).
  pose proof (sk_wf _ _ _ (sw_senders _ _ _ Hwf)) as Hs.
  destruct (get_mut_elem _ _ _ Hs Hv) as (set & -> & Hset).
  destruct (rss_rtp_from v) as [a|]; [case_decide|]; intros [= _ <-]; cbn; eexists;
    (split; [eapply front_head; [exact Hs|apply Hset]|done]).
Qed.

Lemma recv_source_activity strict n s rtp k v now init r v' :
  session_wf strict n s -> 0 <= n < 2 ^ 40 -> is_u16 (rtp_sequence_number rtp) ->
  (k, v) ∈ lru_iter (se_remote_senders s) ->
  RemoteSendSource_recv_packet v (wrap U32 (rtp_payload_len rtp)) now (rtp_sequence_number rtp)
    (rtp_timestamp rtp) (rtp_payload_type rtp) (Session_clock_rate_from_pt s (rtp_payload_type rtp))
    (se_hold_buffer_counter s) init = Ok (r, v') ->
  RemoteSendSource_last_activity v' = RemoteSendSource_last_activity v.
Proof using H2.
  change (2 ^ 40) with 1099511627776. intros Hwf Hn Hseq Hv E.
  pose proof (senders_elem _ _ _ _ (sw_senders _ _ _ Hwf) Hv) as [O1 O2 O3 O4 O5 O6]. cbn in O3, O4.
  edestruct (recv_packet_total v) as (r1 & v1 & E1 & _ & _ & _ & _ & [_ Hid]);
    [exact O2|split; lia|exact Hseq| |].
  2: { rewrite E in E1. injection E1 as _ ->. exact Hid. }
  unfold rate_ok, Session_clock_rate_from_pt. destruct (se_pt_map s !! rtp_payload_type rtp) eqn:Ep; [|done].
  exact (sw_rates _ _ _ Hwf _ _ Ep).
Qed.
End Received.

(** ** Timeouts and timing *)

Lemma elem_of_rev {A} (x : A) l : x ∈ rev l <-> x ∈ l.
Proof. rewrite !list_elem_of_In. symmetry. apply in_rev. Qed.

Section Timing.
Context `{LruLaws} `{GstLaws} `{HashOrderLaws} `{RtcpTypes OutPacket}.

Lemma demote_remote s :
  se_remote_senders (demote_senders s) = se_remote_senders s /\
  se_remote_receivers (demote_senders s) = se_remote_receivers s.
Proof using.
  unfold demote_senders. destruct (se_last_rtcp_sent_times s) as [|? [|? ?]]; [done..|].
  apply (fold_left_inv (fun s' => se_remote_senders s' = se_remote_senders s /\
    se_remote_receivers s' = se_remote_receivers s)); [|done].
  intros s1 k [Es Er]. by destruct (se_local_senders s1 !! k).
Qed.

Lemma elem_of_hm_iter {V} (m : gmap Z V) k v : (k, v) ∈ hm_iter m <-> m !! k = Some v.
Proof using H4. rewrite (hm_iter_perm m). apply elem_of_map_to_list. Qed.

(** The local receivers a timeout removes. *)
Lemma local_timed_out strict n s now td i :
  session_wf strict n s ->
  i ∈ omap (fun '(_, source) =>
      if instant_sub now (LocalReceiveSource_last_activity source) <? td then None
      else Some (LocalReceiveSource_ssrc source)) (hm_iter (se_local_receivers s)) <->
  exists src, se_local_receivers s !! i = Some src /\
    td <= instant_sub now (LocalReceiveSource_last_activity src).
Proof using H4.
  intros Hwf. rewrite list_elem_of_omap. split.
  - intros ([k src] & Hin%elem_of_hm_iter & E). destruct (Z.ltb_spec (instant_sub now (LocalReceiveSource_last_activity src)) td);
      [done|]. injection E as <-. rewrite (sw_local_receivers _ _ _ Hwf _ _ Hin). eauto.
  - intros (src & Hl & Hst). exists (i, src). split; [by apply elem_of_hm_iter|].
    destruct (Z.ltb_spec (instant_sub now (LocalReceiveSource_last_activity src)) td); [lia|].
    by rewrite (sw_local_receivers _ _ _ Hwf _ _ Hl).
Qed.

Lemma count_nonneg {A} (f : A -> bool) l : 0 <= count f l.
Proof using. unfold count. lia. Qed.

Lemma senders_are_members s :
  (forall b, se_bye_state s = Some b -> 0 <= bye_members b) -> 0 <= Session_n_senders s <= Session_n_members s.
Proof using.
  intros Hb. unfold Session_n_senders, Session_n_members. destruct (se_bye_state s) as [b|]; [by split; [lia|apply Hb]|].
  pose proof (count_nonneg (fun e => is_normal (LocalSendSource_state (snd e))) (hm_iter (se_local_senders s))).
  pose proof (count_nonneg (fun e => is_normal (LocalReceiveSource_state (snd e))) (hm_iter (se_local_receivers s))).
  pose proof (count_nonneg (fun e => is_normal (RemoteSendSource_state (snd e))) (lru_iter (se_remote_senders s))).
  pose proof (count_nonneg (fun e => is_normal (RemoteReceiveSource_state (snd e))) (lru_iter (se_remote_receivers s))).
  lia.
Qed.

Lemma duration_mul_f64_zero f d : duration_mul_f64 0 f = Ok d -> d = 0.
Proof using.
  unfold duration_mul_f64. change (duration_as_secs_f64 0) with (S754_zero false).
  destruct f as [[]|[]| |[] m e]; cbn; congruence.
Qed.
End Timing.

(** ** Leaving *)

Section Leaving.
Context `{LruLaws} `{GstLaws} `{HashOrderLaws} `{RtcpTypes OutPacket}.

(** An SSRC of one of the lists of a map from reasons. *)
Definition listed (m : gmap (list Z) (list Z)) (i : Z) : Prop := exists r l, m !! r = Some l /\ i ∈ l.

Lemma listed_push m reason k i : listed (push_reason m reason k) i <-> i = k \/ listed m i.
Proof using.
  unfold listed, push_reason. set (r0 := default default_bye_reason reason). split.
  - intros (r & l & Hl & Hi). apply lookup_insert_Some in Hl as [[<- <-]|[_ Hl]]; [|by eauto].
    apply elem_of_app in Hi as [Hi|Hi%list_elem_of_singleton]; [|by left].
    destruct (m !! r0) as [l0|] eqn:E; [by eauto|by apply elem_of_nil in Hi].
  - intros [->|(r & l & Hl & Hi)].
    + eexists r0, _. rewrite lookup_insert_eq. split; [done|]. apply elem_of_app. right. by left.
    + destruct (decide (r = r0)) as [->|Hne].
      * eexists r0, _. rewrite lookup_insert_eq, Hl. split; [done|]. cbn. apply elem_of_app. by left.
      * exists r, l. by rewrite lookup_insert_ne.
Qed.

Lemma listed_fold {A} (p : A -> bool) (reason : A -> option (list Z)) (ssrc : A -> Z) (l : list (Z * A)) m i :
  listed (fold_left (fun m '(_, s) => if p s then push_reason m (reason s) (ssrc s) else m) l m) i <->
  listed m i \/ exists k a, (k, a) ∈ l /\ p a = true /\ ssrc a = i.
Proof using.
  revert m. induction l as [|[k a] l IH]; intros m; cbn [fold_left].
  - split; [by left|]. intros [|(k & a & Hin & _)]; [done|by apply elem_of_nil in Hin].
  - rewrite IH. assert (Hcons : forall Q : A -> Prop,
      (exists k' a', (k', a') ∈ (k, a) :: l /\ Q a') <-> Q a \/ exists k' a', (k', a') ∈ l /\ Q a').
    { intros Q. split.
      - intros (k' & a' & [[= -> ->]|Hin]%elem_of_cons & HQ); eauto.
      - intros [HQ|(k' & a' & Hin & HQ)]; [exists k, a|exists k', a']; split; try done; [by left|by right]. }
    rewrite (Hcons (fun a => p a = true /\ ssrc a = i)). destruct (p a); [rewrite listed_push|]; intuition congruence.
Qed.

(** The local sources that have said BYE and not sent it. *)
Definition pending_bye (s : Session) (i : Z) : Prop :=
  (exists src, se_local_senders s !! i = Some src /\
     unsent_bye (LocalSendSource_state src) (lss_bye_sent_time src) = true) \/
  (exists src, se_local_receivers s !! i = Some src /\
     unsent_bye (LocalReceiveSource_state src) (lrs_bye_sent_time src) = true).

Lemma find_bye_listed strict n s i :
  session_wf strict n s -> listed (Session_find_bye_sources s) i <-> pending_bye s i.
Proof using H4.
  intros Hwf. unfold Session_find_bye_sources, pending_bye. cbv zeta.
  rewrite (listed_fold (fun s => unsent_bye (LocalReceiveSource_state s) (lrs_bye_sent_time s)) lrs_bye_reason).
  rewrite (listed_fold (fun s => unsent_bye (LocalSendSource_state s) (lss_bye_sent_time s)) lss_bye_reason).
  setoid_rewrite elem_of_hm_iter. split.
  - intros [[(r & l & Hl & _)|(k & a & Hk & Hp & <-)]|(k & a & Hk & Hp & <-)].
    + by rewrite lookup_empty in Hl.
    + left. rewrite (sw_local_senders _ _ _ Hwf _ _ Hk). eauto.
    + right. rewrite (sw_local_receivers _ _ _ Hwf _ _ Hk). eauto.
  - intros [(a & Hk & Hp)|(a & Hk & Hp)].
    + left. right. exists i, a. by rewrite (sw_local_senders _ _ _ Hwf _ _ Hk).
    + right. exists i, a. by rewrite (sw_local_receivers _ _ _ Hwf _ _ Hk).
Qed.

Definition sent_s (now : Z) (src : LocalSendSource) := LocalSendSource_bye_sent_at src now.
Definition sent_r (now : Z) (src : LocalReceiveSource) := LocalReceiveSource_bye_sent_at src now.

Lemma bye_one_senders now s k j :
  se_local_senders (bye_one now s k) !! j =
    (if decide (j = k) then sent_s now <$> se_local_senders s !! j else se_local_senders s !! j).
Proof using.
  unfold bye_one. cbn. destruct (se_local_senders s !! k) as [src|] eqn:E; cbn.
  - destruct (decide (j = k)) as [->|]; [by rewrite lookup_insert_eq, E|by rewrite lookup_insert_ne].
  - destruct (se_local_receivers s !! k); cbn; case_decide; subst; by rewrite ?E.
Qed.

Lemma bye_one_receivers now s k j :
  se_local_receivers (bye_one now s k) !! j =
    (if decide (j = k /\ se_local_senders s !! j = None) then sent_r now <$> se_local_receivers s !! j
     else se_local_receivers s !! j).
Proof using.
  unfold bye_one. cbn. destruct (se_local_senders s !! k) as [src|] eqn:E; cbn.
  - case_decide as Hd; [|done]. destruct Hd as [-> Hn]. congruence.
  - destruct (se_local_receivers s !! k) as [src|] eqn:E'; cbn; case_decide as Hd.
    + destruct Hd as [-> _]. by rewrite lookup_insert_eq, E'.
    + rewrite lookup_insert_ne; [done|]. intros ->. by apply Hd.
    + destruct Hd as [-> _]. by rewrite E'.
    + done.
Qed.

Lemma byes_senders now l s j :
  se_local_senders (fold_left (bye_one now) l s) !! j =
    (if decide (j ∈ l) then sent_s now <$> se_local_senders s !! j else se_local_senders s !! j).
Proof using.
  revert s. induction l as [|k l IH]; intros s; cbn [fold_left]; [done|]. rewrite IH, bye_one_senders.
  destruct (decide (j ∈ l)), (decide (j = k)), (decide (j ∈ k :: l)) as [Hd|Hd]; rewrite elem_of_cons in Hd;
    try tauto; by destruct (se_local_senders s !! j).
Qed.

Lemma byes_receivers now l s j :
  se_local_senders s !! j = None ->
  se_local_receivers (fold_left (bye_one now) l s) !! j =
    (if decide (j ∈ l) then sent_r now <$> se_local_receivers s !! j else se_local_receivers s !! j).
Proof using.
  revert s. induction l as [|k l IH]; intros s Hn; cbn [fold_left]; [done|].
  rewrite IH by (rewrite bye_one_senders, Hn; by destruct (decide (j = k))). rewrite bye_one_receivers, Hn.
  destruct (decide (j ∈ l)), (decide (j = k /\ None = None)), (decide (j ∈ k :: l)) as [Hd|Hd];
    rewrite elem_of_cons in Hd; try tauto; by destruct (se_local_receivers s !! j).
Qed.

Lemma generate_bye_eq s rtcp now :
  let l := hm_iter (Session_find_bye_sources s) in
  Session_generate_bye s rtcp now =
    (rtcp ++ map (fun e => OutBye (fst e) (snd e)) l, fold_left (bye_one now) (concat (snd <$> l)) s).
Proof using.
  cbv zeta. unfold Session_generate_bye. generalize (hm_iter (Session_find_bye_sources s)). intros l.
  revert rtcp s. induction l as [|[r ssrcs] l IH]; intros rtcp s; cbn; [by rewrite app_nil_r|].
  rewrite IH, fold_left_app. f_equal. by rewrite <- app_assoc.
Qed.
End Leaving.

(** ** Reports *)

Definition is_report (p : OutPacket) : bool :=
  match p with OutSr _ _ _ _ _ _ | OutRr _ _ => true | _ => false end.

Section Reports.
Context `{LruLaws} `{GstLaws} `{HashOrderLaws} `{RtcpTypes OutPacket}.

(** What decides on the reports of a local sender. *)
Definition sender_view (src : LocalSendSource) : SourceState * option Z :=
  (LocalSendSource_state src, lss_bye_sent_time src).

Definition no_reports (l : list OutPacket) : Prop := Forall (fun p => is_report p = false) l.

Lemma sender_reports_spec s l now nn nt mini rtcp rep srs s' rtcp' rep' srs' :
  sender_reports s l now nn nt mini rtcp rep srs = Ok (s', rtcp', rep', srs') ->
  (se_local_senders s' = se_local_senders s /\
   Session_reduced_size_rtcp_allowed s' = Session_reduced_size_rtcp_allowed s) /\
  exists new, rtcp' = rtcp ++ new /\ Forall (fun p => is_report p = true) new /\
    (new = [] <-> Forall (fun e => LocalSendSource_state (snd e) <> Normal) l).
Proof using.
  revert s rtcp rep srs. induction l as [|[k src] l IH]; intros s rtcp rep srs; cbn.
  - intros [= <- <- <- <-]. split; [done|]. exists []. rewrite app_nil_r. by repeat constructor.
  - case_decide as Hst.
    + intros E. destruct (IH _ _ _ _ E) as (Hl & new & -> & Hr & Hnew). split; [done|].
      exists new. split_and!; [done..|]. rewrite Hnew, Forall_cons. cbn. tauto.
    + set (s1 := match se_internal_rtcp_sender_src s with None => _ | Some _ => s end).
      assert (Hl1 : se_local_senders s1 = se_local_senders s /\
        Session_reduced_size_rtcp_allowed s1 = Session_reduced_size_rtcp_allowed s)
        by (unfold s1; by destruct (se_internal_rtcp_sender_src s)).
      intros ([rbs rep1] & _ & E)%bind_ok.
      assert (Hne : forall (p : OutPacket) new, p :: new = [] <->
        Forall (fun e => LocalSendSource_state (snd e) <> Normal) ((k, src) :: l)).
      { intros p new. split; [done|]. rewrite Forall_cons. cbn. intros [? _]. done. }
      destruct mini.
      * injection E as <- <- <- <-. split; [done|]. eexists [_]. split_and!; [done| |apply Hne]. by repeat constructor.
      * destruct (IH _ _ _ _ E) as (Hl & new & -> & Hr & _). split; [intuition congruence|].
        eexists (_ :: new). rewrite <- app_assoc. split_and!; [done| |apply Hne]. by constructor.
Qed.

Lemma snapshot_view (srs : list (Z * Z)) nn nt (m : gmap Z LocalSendSource) :
  sender_view <$> fold_left (fun m '(ssrc, ts) =>
      alter (fun s => LocalSendSource_take_sr_snapshot s nn nt ts) ssrc m) srs m = sender_view <$> m.
Proof using.
  revert m. induction srs as [|[k ts] srs IH]; intros m; cbn [fold_left]; [done|]. rewrite IH.
  apply map_eq. intros j. rewrite !lookup_fmap. destruct (decide (j = k)) as [->|].
  - rewrite lookup_alter_eq. by destruct (m !! k).
  - by rewrite lookup_alter_ne.
Qed.

(** A test on the local senders that depends on their view only. *)
Lemma forallb_senders (f : SourceState * option Z -> bool) (m : gmap Z LocalSendSource) :
  forallb (fun e => f (sender_view (snd e))) (hm_iter m) = true <->
  forall k v, (sender_view <$> m) !! k = Some v -> f v = true.
Proof using H4.
  rewrite forallb_forall. split.
  - intros Hall k v. rewrite lookup_fmap_Some. intros (src & <- & Hm).
    apply (Hall (k, src)), list_elem_of_In. by apply elem_of_hm_iter.
  - intros Hall [k src] Hin%list_elem_of_In%elem_of_hm_iter. apply (Hall k). by rewrite lookup_fmap, Hin.
Qed.

Definition some_sender (f : LocalSendSource -> bool) (s : Session) : bool :=
  existsb (fun e => f (snd e)) (hm_iter (se_local_senders s)).

Lemma some_sender_spec f s :
  some_sender f s = true <-> exists k src, se_local_senders s !! k = Some src /\ f src = true.
Proof using H4.
  unfold some_sender. rewrite existsb_exists. split.
  - intros ([k src] & Hin%list_elem_of_In%elem_of_hm_iter & Hf). eauto.
  - intros (k & src & Hin & Hf). exists (k, src). split; [|done]. by apply list_elem_of_In, elem_of_hm_iter.
Qed.

Lemma generate_sr_reports s now nn early rtcp rep s' :
  Session_generate_sr s [] now nn early [] = Ok (rtcp, rep, s') ->
  early && Session_reduced_size_rtcp_allowed s = false ->
  Forall (fun p => is_report p = true) rtcp /\
  (rtcp = [] <-> some_sender (fun src => is_normal (LocalSendSource_state src)) s = false) /\
  sender_view <$> se_local_senders s' = sender_view <$> se_local_senders s /\
  Session_reduced_size_rtcp_allowed s' = Session_reduced_size_rtcp_allowed s.
Proof using H4.
  unfold Session_generate_sr. intros E Hred. rewrite Hred in E. apply bind_ok in E as (nt & _ & E).
  assert (Hnorm : some_sender (fun src => is_normal (LocalSendSource_state src)) s = false <->
    Forall (fun e => LocalSendSource_state (snd e) <> Normal) (hm_iter (se_local_senders s))).
  { unfold some_sender. rewrite <- not_true_iff_false, existsb_exists, Forall_forall. split.
    - intros Hn e He Hst. apply Hn. exists e. split; [by apply list_elem_of_In|]. by rewrite Hst.
    - intros Hall (e & He%list_elem_of_In & Hst). apply (Hall _ He). by destruct (LocalSendSource_state (snd e)). }
  destruct (existsb (fun e => sender_active (snd e)) (hm_iter (se_local_senders s))) eqn:Hact.
  - apply bind_ok in E as ([[[s1 rtcp1] rep1] srs] & E & [= <- _ <-]).
    apply sender_reports_spec in E as ((Hl & Hr) & new & -> & Hrep & Hnew).
    cbn. rewrite snapshot_view, Hl, Hnorm. done.
  - injection E as <- _ <-. split; [constructor|]. split; [|done]. split; [intros _|done]. apply Hnorm, Forall_forall.
    intros e He Hst. apply not_true_iff_false in Hact. apply Hact, existsb_exists. exists e.
    split; [by apply list_elem_of_In|]. unfold sender_active. by rewrite Hst.
Qed.

Lemma generate_rr_reports s0 s rtcp now nn early rep draws inow rtcp' rep' s' :
  Session_generate_rr s rtcp now nn early rep draws inow = Ok (rtcp', rep', s') ->
  early && Session_reduced_size_rtcp_allowed s = false ->
  sender_view <$> se_local_senders s = sender_view <$> se_local_senders s0 ->
  exists new, rtcp' = rtcp ++ new /\ Forall (fun p => is_report p = true) new /\
    (new = [] <-> some_sender sender_active s0 = true).
Proof using H4.
  unfold Session_generate_rr. intros E Hred Hview. rewrite Hred in E.
  set (f := fun v : SourceState * option Z => match fst v with
     | Normal => true | Probation _ => false | Bye => match snd v with None => true | Some _ => false end end).
  assert (Hall : forallb (fun e => negb (sender_active (snd e))) (hm_iter (se_local_senders s)) = negb (some_sender sender_active s0)).
  { apply eq_true_iff_eq. rewrite negb_true_iff, <- not_true_iff_false, some_sender_spec.
    eapply iff_trans; [exact (forallb_senders (fun v => negb (f v)) (se_local_senders s))|]. rewrite Hview. split.
    - intros Hn (k & src & Hk & Ha). specialize (Hn k (sender_view src)). rewrite lookup_fmap, Hk in Hn.
      specialize (Hn eq_refl). change (f (sender_view src)) with (sender_active src) in Hn. by rewrite Ha in Hn.
    - intros Hn k v. rewrite lookup_fmap_Some. intros (src & <- & Hk). change (f (sender_view src)) with (sender_active src).
      apply negb_true_iff, not_true_iff_false. intros Ha. apply Hn. eauto. }
  rewrite Hall in E. destruct (some_sender sender_active s0); cbn in E.
  - injection E as <- _ _. exists []. rewrite app_nil_r. by repeat constructor.
  - apply bind_ok in E as ([k s1] & _ & E). apply bind_ok in E as ([rbs rep1] & _ & [= <- _ _]).
    eexists [_]. split_and!; [done| |done]. by repeat constructor.
Qed.

Lemma generate_sdes_no_reports s rtcp mini : exists new, Session_generate_sdes s rtcp mini = rtcp ++ new /\ no_reports new.
Proof using.
  unfold Session_generate_sdes. destruct (mini && _); [exists []; by rewrite app_nil_r; repeat constructor|].
  cbv zeta. destruct (_ ++ _); [exists []; by rewrite app_nil_r; repeat constructor|].
  eexists [_]. split; [done|]. by repeat constructor.
Qed.

Lemma generate_pli_no_reports s rtcp draws inow rtcp' s' :
  Session_generate_pli s rtcp draws inow = Ok (rtcp', s') -> exists new, rtcp' = rtcp ++ new /\ no_reports new.
Proof using.
  unfold Session_generate_pli. intros ([k s1] & _ & [= <- _])%bind_ok. eexists. split; [reflexivity|].
  apply Forall_forall. intros p ([b src] & _ & Hp)%list_elem_of_omap. destruct b; [|done]. by injection Hp as <-.
Qed.

Lemma generate_fir_no_reports s rtcp draws inow rtcp' s' :
  Session_generate_fir s rtcp draws inow = Ok (rtcp', s') -> exists new, rtcp' = rtcp ++ new /\ no_reports new.
Proof using.
  unfold Session_generate_fir. destruct (collect_firs _ [] false) as [[fir have] l]. destruct have.
  - intros ([k s1] & _ & [= <- _])%bind_ok. eexists [_]. split; [done|]. by repeat constructor.
  - intros [= <- _]. exists []. rewrite app_nil_r. by repeat constructor.
Qed.

Lemma generate_bye_no_reports s rtcp now : exists new, fst (Session_generate_bye s rtcp now) = rtcp ++ new /\ no_reports new.
Proof using.
  rewrite generate_bye_eq. cbn. eexists. split; [reflexivity|]. apply Forall_forall.
  intros p (e & <- & _)%list_elem_of_In%in_map_iff. done.
Qed.
End Reports.

(** ** Properties *)

(** C5: whatever the calls (any packets, addresses, times, RTCP contents and
    random numbers; at most 2^40 calls, clock rates up to 1 MHz), a session
    that has not panicked keeps its invariant: the caches of remote sources
    are well formed, within their capacity and each source filed under its
    own SSRC; no two buffers are held under one id, and ids are below the
    counter that allocates them; no SSRC is at once a local sender and a
    local receiver; when RTP packets come with their address, none is at once
    a remote sender and a remote receiver; at most 256 timed-out SSRCs and two
    report times are remembered. *)
Theorem session_invariant `{LruLaws} `{GstLaws} `{HashOrderLaws} `{RtcpTypes OutPacket}
    (strict : bool) (cname : list Z) (ops : list SessionOp) (s : Session) :
  Forall (op_ok strict) ops -> Z.of_nat (length ops) <= 2 ^ 40 -> session_run cname ops = Ok s ->
  session_wf strict (Z.of_nat (length ops)) s.
Proof.
  intros Hok Hlen Hrun. by apply (session_run_wf strict 0 (Session_new cname) ops s (session_new_wf _ _)).
Qed.

(** C32: receiving an RTP packet does not panic, whatever its contents, in any
    state a session can reach with fewer than 2^40 calls and clock rates up to
    1 MHz, and keeps the invariant. *)
Theorem session_recv_total `{LruLaws} `{GstLaws} `{HashOrderLaws} `{RtcpTypes OutPacket}
    (cname : list Z) (ops : list SessionOp) (s : Session) (rtp : RtpPacket) (from : option SocketAddr)
    (now init instant_now : Z) :
  Forall (op_ok false) ops -> Z.of_nat (length ops) < 2 ^ 40 -> session_run cname ops = Ok s ->
  is_u16 (rtp_sequence_number rtp) ->
  exists reply s', Session_handle_recv s rtp from now init instant_now = Ok (reply, s') /\
    session_wf false (Z.of_nat (length ops) + 1) s'.
Proof.
  intros Hok Hlen Hrun Hseq.
  assert (Hwf : session_wf false (Z.of_nat (length ops)) s).
  { apply (session_run_wf false 0 (Session_new cname) ops s (session_new_wf _ _)); done || lia. }
  apply (handle_recv_total false _ s rtp from now init instant_now Hwf); [lia|done|done].
Qed.

(** Who may send under an SSRC. A packet under the SSRC of a local sender
    is never forwarded: it is reported as a collision the first time an
    address does it and ignored after that. A packet under the SSRC of a known
    remote sender, from another address than the one it sends from, is ignored
    and leaves the sender as it is. A packet under an SSRC that is not known at
    all makes a new sender, in probation. *)
Lemma recv_address_rules `{LruLaws} `{GstLaws} `{HashOrderLaws} `{RtcpTypes OutPacket}
    (n : Z) (s : Session) (rtp : RtpPacket) (addr : SocketAddr) (now init instant_now : Z) :
  let ssrc := rtp_ssrc rtp in
  session_wf true n s ->
  (is_Some (se_local_senders s !! ssrc) ->
   Session_handle_recv s rtp (Some addr) now init instant_now =
     Ok (match se_conflicting_addresses s !! addr with
         | None => RecvSsrcCollision ssrc
         | Some _ => RecvIgnore
         end, s <| se_conflicting_addresses ::= insert addr now |>)) /\
  (forall v a, se_local_senders s !! ssrc = None -> (ssrc, v) ∈ lru_iter (se_remote_senders s) ->
   rss_rtp_from v = Some a -> a <> addr ->
   exists s', Session_handle_recv s rtp (Some addr) now init instant_now = Ok (RecvIgnore, s') /\
     (ssrc, v) ∈ lru_iter (se_remote_senders s')) /\
  (se_local_senders s !! ssrc = None -> ssrc ∉ cache_keys (se_remote_senders s) ->
   ssrc ∉ cache_keys (se_remote_receivers s) ->
   exists v s', Session_handle_recv s rtp (Some addr) now init instant_now =
       Ok (RecvNewSsrc ssrc (rtp_payload_type rtp), s') /\
     (ssrc, v) ∈ lru_iter (se_remote_senders s') /\ rss_rtp_from v = Some addr /\
     RemoteSendSource_state v = Probation DEFAULT_PROBATION_N_PACKETS).
Proof.
  intros ssrc Hwf. pose proof (sk_wf _ _ _ (sw_senders _ _ _ Hwf)) as Hs.
  pose proof (proj1 (sw_receivers _ _ _ Hwf)) as Hr.
  unfold Session_handle_recv, recv_collision. fold ssrc. split_and!.
  - intros [src ->]. unfold Session_handle_ssrc_conflict. by destruct (se_conflicting_addresses s !! addr).
  - intros v a -> Hv Ha Hne. destruct (lru_pop (se_remote_receivers s) ssrc) as [o cr] eqn:Hp.
    apply pop_absent in Hp; [subst o|done|]; cbv zeta.
    2: { intros Hk. eapply (sw_disjoint _ _ _ Hwf eq_refl ssrc); [by eapply elem_key|done]. }
    change (se_remote_senders (s <| se_remote_receivers := cr |>)) with (se_remote_senders s).
    destruct (get_mut_elem _ _ _ Hs Hv) as (set & -> & Hset). rewrite Ha, decide_True by congruence.
    eexists. split; [reflexivity|]. cbn. eapply front_head; [exact Hs|apply Hset].
  - intros -> Hk Hk'. destruct (lru_pop (se_remote_receivers s) ssrc) as [o cr] eqn:Hp.
    apply pop_absent in Hp; [subst o|done..]; cbv zeta.
    change (se_remote_senders (s <| se_remote_receivers := cr |>)) with (se_remote_senders s).
    destruct (lru_get_mut (se_remote_senders s) ssrc) as [[v set]|] eqn:Hg.
    { destruct Hk. eapply elem_key, get_mut_Some; eauto. }
    change (se_remote_senders (s <| se_remote_receivers := cr |>)) with (se_remote_senders s). rewrite Hg.
    eexists _, _. split; [reflexivity|]. cbn. split; [eapply front_head; [exact Hs|by apply push_front]|done].
Qed.

(** RTP does not count as activity: a packet of a known sender, however
    it is answered, leaves the time of the sender's last activity as it is, so
    that a sender from which only RTP is received is removed by the timeouts
    in the end, while its packets keep arriving (RFC 3550, 6.3.5, times out a
    participant only when no RTP or RTCP packets are received). *)
Lemma rtp_is_no_activity `{LruLaws} `{GstLaws} `{HashOrderLaws} `{RtcpTypes OutPacket}
    (n : Z) (s : Session) (rtp : RtpPacket) (from : option SocketAddr) (now init instant_now : Z)
    (v : RemoteSendSource) :
  session_wf true n s -> 0 <= n < 2 ^ 40 -> is_u16 (rtp_sequence_number rtp) -> is_Some from ->
  (rtp_ssrc rtp, v) ∈ lru_iter (se_remote_senders s) ->
  exists reply s' v', Session_handle_recv s rtp from now init instant_now = Ok (reply, s') /\
    (rtp_ssrc rtp, v') ∈ lru_iter (se_remote_senders s') /\
    RemoteSendSource_last_activity v' = RemoteSendSource_last_activity v.
Proof.
  intros Hwf Hn Hseq Hfrom Hv.
  assert (Hk : rtp_ssrc rtp ∉ cache_keys (se_remote_receivers s)).
  { intros Hk. eapply (sw_disjoint _ _ _ Hwf eq_refl); [by eapply elem_key|done]. }
  destruct (handle_recv_total true n s rtp from now init instant_now Hwf Hn Hseq ltac:(done)) as (r & s' & E & _).
  cut (exists v', (rtp_ssrc rtp, v') ∈ lru_iter (se_remote_senders s') /\
         RemoteSendSource_last_activity v' = RemoteSendSource_last_activity v).
  { intros (v' & Hv' & Ha). eauto 10. }
  revert E. unfold Session_handle_recv. destruct (recv_collision s rtp from now) as [o s1] eqn:Hc.
  destruct (recv_collision_wf _ _ _ _ _ _ _ _ Hwf (proj1 Hn) Hc) as [Hwf1 _].
  destruct (recv_known _ _ _ _ _ _ _ _ _ Hwf Hv Hk Hc) as (v1 & Hv1 & Ha).
  destruct o as [reply|]; [intros [= <- <-]; eauto|].
  pose proof (sk_wf _ _ _ (sw_senders _ _ _ Hwf1)) as Hs.
  destruct (get_mut_elem _ _ _ Hs Hv1) as (set & -> & Hset).
  intros ([reply v2] & E2 & E)%bind_ok.
  assert (Hid : RemoteSendSource_last_activity v2 = RemoteSendSource_last_activity v1)
    by (eapply recv_source_activity; [exact Hwf1|exact Hn|exact Hseq|exact Hv1|exact E2]).
  assert (Hs' : se_remote_senders s' = set v2).
  { destruct reply; cbn in E; [apply bind_ok in E as (c & _ & E)|..]; by injection E as _ <-. }
  exists v2. rewrite Hs', Hid. split; [|done]. eapply front_head; [exact Hs|apply Hset].
Qed.

(** A timeout removes only sources that have been silent for the timeout,
    which is at least 25 seconds, from the end of the caches, until the least
    recently used one left is not; the SSRCs it reports are those of the local
    receivers that were silent and of the remote sources removed. *)
Lemma timeouts_spec `{LruLaws} `{GstLaws} `{HashOrderLaws} `{RtcpTypes OutPacket}
    (strict : bool) (n : Z) (s : Session) (now : Z) (out : list Z) (s' : Session) :
  session_wf strict n s -> Session_handle_timeouts s now = Ok (out, s') ->
  exists td gone_s gone_r,
    25 * NS_PER_SEC <= td /\
    lru_iter (se_remote_senders s) = lru_iter (se_remote_senders s') ++ gone_s /\
    lru_iter (se_remote_receivers s) = lru_iter (se_remote_receivers s') ++ gone_r /\
    Forall (fun e => td <= instant_sub now (RemoteSendSource_last_activity (snd e))) gone_s /\
    Forall (fun e => td <= instant_sub now (RemoteReceiveSource_last_activity (snd e))) gone_r /\
    (forall e, last (lru_iter (se_remote_senders s')) = Some e ->
      instant_sub now (RemoteSendSource_last_activity (snd e)) < td) /\
    (forall e, last (lru_iter (se_remote_receivers s')) = Some e ->
      instant_sub now (RemoteReceiveSource_last_activity (snd e)) < td) /\
    (forall i, i ∈ out <-> i ∈ gone_s.*1 \/ i ∈ gone_r.*1 \/ exists src, se_local_receivers s !! i = Some src /\
      td <= instant_sub now (LocalReceiveSource_last_activity src)).
Proof.
  intros Hwf. unfold Session_handle_timeouts. intros (d & _ & (td & Htd & E)%bind_ok)%bind_ok. cbv zeta in E.
  destruct (expire_all RemoteSendSource_last_activity now td _ _) as [cs o1] eqn:E1.
  destruct (expire_all RemoteReceiveSource_last_activity now td _ _) as [cr o2] eqn:E2.
  destruct (expire_lru_spec _ _ _ _ _ _ _ _ (sk_wf _ _ _ (sw_senders _ _ _ Hwf)) E1) as (_ & gs & Hgs & -> & Hsts & Hls).
  destruct (expire_lru_spec _ _ _ _ _ _ _ _ (proj1 (sw_receivers _ _ _ Hwf)) E2) as (_ & gr & Hgr & -> & Hstr & Hlr).
  injection E as <- <-. cbn in Hls, Hlr.
  match goal with |- context [demote_senders ?t] => destruct (demote_remote t) as [Ds Dr] end. cbn in Ds, Dr.
  exists td, gs, gr. cbn. rewrite Ds, Dr. split; [|split_and!; try done; auto].
  - unfold duration_mul in Htd. zif; [|done]. injection Htd as <-.
    unfold duration_from_secs, RTCP_SOURCE_TIMEOUT_N_INTERVALS. lia.
  - intros i. rewrite !elem_of_app, !elem_of_rev.
    rewrite (local_timed_out strict n s now td i Hwf). tauto.
Qed.

(** The deterministic interval between reports can be computed whenever
    the members are fewer than 2^20, the reports at most 64 KiB and the
    interval configured fits 64 bits, and it is never below the minimum that
    applies: 5 seconds by default, half of it before the first report and
    while leaving, and for the feedback profile 1 second, or nothing between
    two participants. *)
Lemma deterministic_duration_total `{LruLaws} `{GstLaws} `{HashOrderLaws} `{RtcpTypes OutPacket}
    (s : Session) (we_sent : bool) (bandwidth : Z) :
  Session_session_bandwidth s = Ok bandwidth -> 0 <= bandwidth < U64 ->
  0 <= se_average_rtcp_size s <= U16 -> Session_n_members s < 2 ^ 20 ->
  (forall b, se_bye_state s = Some b -> 0 <= bye_members b) -> is_u64 (se_min_rtcp_interval s) ->
  exists d, Session_deterministic_rtcp_duration s we_sent = Ok d /\ min_interval s <= d < U64.
Proof.
  change (2 ^ 20) with 1048576. intros Hbw Hb Havg Hm Hbye Hmin.
  pose proof (senders_are_members s Hbye) as Hsm.
  unfold Session_deterministic_rtcp_duration. rewrite Hbw, bind_Ok. cbv zeta. run_chk.
  set (rbw := Z.max (bandwidth / 20) RTCP_MIN_BANDWIDTH).
  assert (Hr : 400 <= rbw < U64).
  { unfold rbw, RTCP_MIN_BANDWIDTH. split; [lia|]. apply Z.max_lub_lt; [|lia]. apply Z.div_lt_upper_bound; lia. }
  assert (Hq : 100 <= rbw / 4 /\ 4 * (rbw / 4) <= rbw) by (Z.to_euclidean_division_equations; lia).
  assert (Hmi : 0 <= min_interval s < U64).
  { unfold min_interval, duration_div, duration_from_secs, is_u64 in *.
    destruct (RtpProfile_is_feedback _); repeat case_match; try lia; Z.to_euclidean_division_equations; lia. }
  assert (Hcore : forall n bw, 0 <= n < 1048576 -> 100 <= bw < U64 ->
    exists d, (size ← u64_mul (se_average_rtcp_size s) (Z.max n 1);
      t_nanos ← unwrap (mul_div_round U64 compensation_ns size (Z.max bw 1));
      Ok (Z.max t_nanos (wrap U64 (min_interval s)))) = Ok d /\ min_interval s <= d < U64).
  { intros n bw Hn Hbw'. assert (0 <= se_average_rtcp_size s * Z.max n 1 <= U16 * 1048576) by nia.
    run_chk. unfold compensation_ns.
    rewrite mul_div_round_spec by lia. set (q := (2 * _ + Z.max bw 1) / _).
    assert (0 <= q < U64).
    { unfold q. split; [apply Z.div_pos; lia|]. apply Z.div_lt_upper_bound; lia. }
    rewrite fits_small by lia. cbn [unwrap]. rewrite bind_Ok, wrap_small by done.
    eexists. split; [reflexivity|]. lia. }
  destruct (_ <=? _); [destruct we_sent; [|run_chk]|]; rewrite ?bind_Ok; apply Hcore; lia.
Qed.

(** The average size of RTCP packets stays between the sizes seen: it
    never exceeds the larger of the old average and the new size, and drops at
    most a sixteenth of the way (and the rounding) towards a smaller one; the
    first size is taken as it is. *)
Lemma rtcp_average_bounds `{LruOps} (s : Session) (size : Z) :
  let avg := se_average_rtcp_size s in
  0 <= avg < 2 ^ 59 -> 0 <= size < 2 ^ 59 ->
  exists s', Session_update_rtcp_average s size = Ok s' /\
    (avg = 0 -> se_average_rtcp_size s' = size) /\
    Z.min avg size <= se_average_rtcp_size s' <= Z.max avg size /\
    (size <= avg -> avg - (avg - size) / 16 - 1 <= se_average_rtcp_size s').
Proof.
  change (2 ^ 59) with 576460752303423488. intros avg Ha Hs. unfold Session_update_rtcp_average. fold avg.
  destruct (Z.eqb_spec avg 0) as [E|E].
  - eexists. split; [reflexivity|]. cbn. split_and!; try done; try lia.
    intros. replace avg with 0 in * by lia. replace size with 0 by lia. done.
  - unfold u64_mul, u64_add. run_chk. run_chk. eexists. split; [reflexivity|]. cbn.
    split; [done|]. Z.to_euclidean_division_equations. lia.
Qed.

(** When a member leaves and the reports are reconsidered, the time of
    the last report is set to the present one, whatever the number of members
    before and after: RFC 3550 (6.3.4) moves it to the fraction of the time
    elapsed that the numbers of members give. *)
Lemma reverse_consideration_resets `{LruOps} `{HashOrder}
    (s : Session) (members now last : Z) (rest : list Z) (s' : Session) :
  se_last_rtcp_sent_times s = last :: rest -> last <= now ->
  Session_rtcp_reverse_consideration s members now = Ok (true, s') ->
  se_last_rtcp_sent_times s' = now :: rest /\ Session_n_members s < Session_p_members s.
Proof.
  intros Hl Hle. unfold Session_rtcp_reverse_consideration. cbv zeta. rewrite Z.geb_leb.
  destruct (Z.leb_spec (Session_p_members s) (Session_n_members s)); [done|].
  destruct (tm_time (se_next_rtcp_send s)) as [prev|]; [|done]. destruct (now >? prev); [done|].
  destruct (_ >? 0); [|done]. intros (d & _ & E)%bind_ok. cbn in E. rewrite Hl in E.
  apply bind_ok in E as (d' & Hd' & [= <-]). split; [|lia]. cbn.
  replace (instant_sub last now) with 0 in Hd' by (unfold instant_sub, saturating_sub; lia).
  apply duration_mul_f64_zero in Hd' as ->. by rewrite Z.sub_0_r.
Qed.

(** BYE packets are complete: generating them adds BYE packets only, which
    name exactly the local sources that have left and not said so yet, after
    which none is pending; each of them is marked with the time. *)
Lemma byes_complete `{LruLaws} `{GstLaws} `{HashOrderLaws} `{RtcpTypes OutPacket}
    (strict : bool) (n : Z) (s : Session) (rtcp : list OutPacket) (now : Z) :
  session_wf strict n s ->
  exists byes s', Session_generate_bye s rtcp now = (rtcp ++ byes, s') /\ session_wf strict n s' /\
    Forall (fun p => exists r l, p = OutBye r l) byes /\
    (forall i, (exists r l, OutBye r l ∈ byes /\ i ∈ l) <-> pending_bye s i) /\
    (forall i, ~ pending_bye s' i) /\ Session_has_pending_bye s' = false.
Proof.
  intros Hwf. pose proof (generate_bye_wf strict n s rtcp now Hwf) as Hwf'. revert Hwf'.
  rewrite generate_bye_eq. cbn [snd]. set (l := hm_iter (Session_find_bye_sources s)).
  set (s' := fold_left (bye_one now) (concat (snd <$> l)) s). intros Hwf'.
  assert (Hlisted : forall i, (exists r ss, (r, ss) ∈ l /\ i ∈ ss) <-> pending_bye s i).
  { intros i. rewrite <- (find_bye_listed strict n s i Hwf). unfold l, listed.
    split; intros (r & ss & Hin & Hi); exists r, ss; (split; [|done]).
    - apply elem_of_map_to_list. by rewrite <- (hm_iter_perm (Session_find_bye_sources s)).
    - rewrite (hm_iter_perm (Session_find_bye_sources s)). by apply elem_of_map_to_list. }
  assert (Hconcat : forall i, pending_bye s i -> i ∈ concat (snd <$> l)).
  { intros i (r & ss & Hin & Hi)%Hlisted. apply list_elem_of_In, in_concat. exists ss.
    split; apply list_elem_of_In; [|done]. apply list_elem_of_fmap. by exists (r, ss). }
  assert (Hnone : forall i, ~ pending_bye s' i).
  { intros i [(src & Hsrc & Hu)|(src & Hsrc & Hu)]; revert Hsrc; unfold s'.
    - rewrite byes_senders. case_decide as Hd.
      + destruct (se_local_senders s !! i); [|done]. intros [= <-]. cbn in Hu.
        unfold LocalSendSource_state in Hu. cbn in Hu. by destruct (src_state _) in Hu.
      + intros Hsrc. apply Hd, Hconcat. left. eauto.
    - destruct (se_local_senders s !! i) as [ls|] eqn:El.
      + assert (Hn : se_local_receivers s' !! i = None).
        { apply (sw_local _ _ _ Hwf'). unfold s'. rewrite byes_senders, El. case_decide; cbn; eauto. }
        fold s'. by rewrite Hn.
      + rewrite byes_receivers by done. case_decide as Hd.
        * destruct (se_local_receivers s !! i); [|done]. intros [= <-]. cbn in Hu.
          unfold LocalReceiveSource_state in Hu. cbn in Hu. by destruct (src_state _) in Hu.
        * intros Hsrc. apply Hd, Hconcat. right. eauto. }
  eexists _, s'. split; [reflexivity|]. split; [exact Hwf'|]. split_and!.
  - apply Forall_forall. intros p (e & <- & _)%list_elem_of_In%in_map_iff. eauto.
  - intros i. rewrite <- Hlisted. split; intros (r & ss & Hin & Hi); exists r, ss; (split; [|done]).
    + apply list_elem_of_In, in_map_iff in Hin as ([r' ss'] & [= -> ->] & Hin). by apply list_elem_of_In.
    + apply list_elem_of_In, in_map_iff. exists (r, ss). split; [done|]. by apply list_elem_of_In.
  - exact Hnone.
  - unfold Session_has_pending_bye. apply orb_false_iff. split; apply not_true_iff_false;
      intros ([k src] & Hin%list_elem_of_In%elem_of_hm_iter & Hu)%existsb_exists; apply (Hnone k); [left|right]; eauto.
Qed.

(** A compound packet that is not a reduced-size one starts with a sender
    or receiver report, as RFC 3550 (6.1) asks, when a local sender is in the
    normal state or none has anything to report; but when the only local
    senders with something to report are those that have left and not said so,
    it holds no report at all, in front of the BYE. *)
Lemma compound_reports `{LruLaws} `{GstLaws} `{HashOrderLaws} `{RtcpTypes OutPacket}
    (s : Session) (now ntp_now : Z) (early : bool) (dr : Draws) (instant_now : Z)
    (rtcp : list OutPacket) (reported : list Z) (s' : Session) :
  generate_compound s now ntp_now early dr instant_now = Ok (rtcp, reported, s') ->
  early && Session_reduced_size_rtcp_allowed s = false ->
  let normal := exists k src, se_local_senders s !! k = Some src /\ LocalSendSource_state src = Normal in
  let active := exists k src, se_local_senders s !! k = Some src /\ sender_active src = true in
  (normal \/ ~ active -> exists p rest, rtcp = p :: rest /\ is_report p = true) /\
  (~ normal /\ active -> Forall (fun p => is_report p = false) rtcp).
Proof.
  intros E Hred normal active. revert E. unfold generate_compound.
  intros ([[rtcp1 rep1] s1] & E1 & E)%bind_ok.
  destruct (generate_sr_reports _ _ _ _ _ _ _ E1 Hred) as (Hr1 & Hn1 & Hv1 & Hred1).
  apply bind_ok in E as ([[rtcp2 rep2] s2] & E2 & E). rewrite <- Hred1 in Hred.
  destruct (generate_rr_reports s _ _ _ _ _ _ _ _ _ _ _ E2 Hred Hv1) as (new2 & -> & Hr2 & Hn2).
  destruct (generate_sdes_no_reports s2 (rtcp1 ++ new2) early) as (new3 & E3 & Hr3).
  cbv zeta in E. rewrite E3 in E. apply bind_ok in E as ([rtcp4 s4] & E4 & E).
  apply generate_pli_no_reports in E4 as (new4 & -> & Hr4). apply bind_ok in E as ([rtcp5 s5] & E5 & E).
  apply generate_fir_no_reports in E5 as (new5 & -> & Hr5).
  destruct (generate_bye_no_reports s5 ((((rtcp1 ++ new2) ++ new3) ++ new4) ++ new5) now) as (new6 & E6 & Hr6).
  destruct (Session_generate_bye s5 _ now) as [rtcp6 s6]. cbn in E6. subst rtcp6. injection E as <- _ _.
  assert (Hnormal : normal <-> rtcp1 <> []).
  { rewrite Hn1, not_false_iff_true, some_sender_spec. unfold normal.
    split; intros (k & src & Hk & Hst); exists k, src; (split; [done|]);
      [by rewrite Hst|by destruct (LocalSendSource_state src)]. }
  assert (Hactive : active <-> new2 = []) by (rewrite Hn2, some_sender_spec; done).
  rewrite Hnormal, Hactive. split.
  - intros Hhead. destruct rtcp1 as [|q1 rtcp1]; cbn.
    + destruct new2 as [|q2 new2]; [intuition congruence|]. inversion Hr2; subst. cbn. eauto.
    + inversion Hr1; subst. eauto.
  - intros [Hnil ->]. destruct rtcp1 as [|q1 rtcp1]; [|by destruct Hnil]. cbn.
    by repeat apply Forall_app_2.
Qed.

Section ReportTimes.
Context `{LruOps} `{Gst} `{HashOrder}.

(** What the generation of a report and the timeouts leave alone: the state of a BYE and
    the times of reports. *)
Definition report_times (s : Session) : option ByeState * list Z := (se_bye_state s, se_last_rtcp_sent_times s).

Lemma update_average_times s n s' : Session_update_rtcp_average s n = Ok s' -> report_times s' = report_times s.
Proof. unfold Session_update_rtcp_average. destruct (_ =? 0); intros; inv_ok; done. Qed.

Lemma ensure_internal_times s draws inow ssrc s' :
  Session_ensure_internal_send_src s draws inow = Ok (ssrc, s') -> report_times s' = report_times s.
Proof.
  unfold Session_ensure_internal_send_src. destruct (se_internal_rtcp_sender_src s); [by intros [= _ <-]|].
  destruct (List.find _ _); [by intros [= _ <-]|done].
Qed.

Lemma sender_reports_times s senders now nn nt m rtcp rep srs s' rtcp' rep' srs' :
  sender_reports s senders now nn nt m rtcp rep srs = Ok (s', rtcp', rep', srs') -> report_times s' = report_times s.
Proof.
  revert s rtcp rep srs. induction senders as [|[k src] l IH]; intros s rtcp rep srs; cbn; [by intros [= <- _ _ _]|].
  destruct (decide _); [by apply IH|]. set (s1 := match se_internal_rtcp_sender_src s with None => _ | Some _ => _ end).
  assert (report_times s1 = report_times s) as <- by (subst s1; by destruct (se_internal_rtcp_sender_src s)).
  intros ([rbs rep1] & _ & E)%bind_ok. destruct m; [by injection E as <- _ _ _|by eapply IH].
Qed.

Lemma generate_sr_times s rtcp now nn m rep rtcp' rep' s' :
  Session_generate_sr s rtcp now nn m rep = Ok (rtcp', rep', s') -> report_times s' = report_times s.
Proof.
  unfold Session_generate_sr. destruct (_ && _); [by intros [= _ _ <-]|]. intros (nt & _ & E)%bind_ok.
  destruct (existsb _ _); [|by injection E as _ _ <-]. apply bind_ok in E as ([[[s1 r1] rep1] srs] & E1 & [= _ _ <-]).
  exact (sender_reports_times _ _ _ _ _ _ _ _ _ _ _ _ _ E1).
Qed.

Lemma generate_rr_times s rtcp now nn m rep draws inow rtcp' rep' s' :
  Session_generate_rr s rtcp now nn m rep draws inow = Ok (rtcp', rep', s') -> report_times s' = report_times s.
Proof.
  unfold Session_generate_rr. destruct (_ && _); [by intros [= _ _ <-]|]. destruct (forallb _ _); [|by intros [= _ _ <-]].
  intros ([ssrc s1] & E1%ensure_internal_times & E)%bind_ok. cbv zeta in E.
  apply bind_ok in E as ([rbs rep1] & _ & [= _ _ <-]). exact E1.
Qed.

Lemma generate_pli_times s rtcp draws inow rtcp' s' :
  Session_generate_pli s rtcp draws inow = Ok (rtcp', s') -> report_times s' = report_times s.
Proof.
  unfold Session_generate_pli. intros ([ssrc s1] & E1%ensure_internal_times & [= _ <-])%bind_ok. exact E1.
Qed.

Lemma generate_fir_times s rtcp draws inow rtcp' s' :
  Session_generate_fir s rtcp draws inow = Ok (rtcp', s') -> report_times s' = report_times s.
Proof.
  unfold Session_generate_fir. destruct (collect_firs _ _ _) as [[fir have] l]. destruct have; [|by intros [= _ <-]].
  intros ([ssrc s1] & E1%ensure_internal_times & [= _ <-])%bind_ok. exact E1.
Qed.

Lemma generate_bye_times s rtcp now : report_times (snd (Session_generate_bye s rtcp now)) = report_times s.
Proof.
  unfold Session_generate_bye. generalize (hm_iter (Session_find_bye_sources s)). intros l. revert s rtcp.
  induction l as [|[reason ssrcs] l IH]; intros s rtcp; cbn; [done|]. rewrite IH.
  clear IH rtcp. revert s. induction ssrcs as [|k ks IH]; intros s; cbn; [done|]. rewrite IH. unfold bye_one. cbn.
  destruct (se_local_senders s !! k); [done|]. cbn. by destruct (se_local_receivers s !! k).
Qed.

Lemma generate_compound_times `{RtcpTypes OutPacket} s now nn early dr inow rtcp rep s' :
  generate_compound s now nn early dr inow = Ok (rtcp, rep, s') -> report_times s' = report_times s.
Proof.
  unfold generate_compound. intros ([[rtcp1 rep1] s1] & <-%generate_sr_times & E)%bind_ok.
  apply bind_ok in E as ([[rtcp2 rep2] s2] & <-%generate_rr_times & E). apply bind_ok in E as ([rtcp3 s3] & <-%generate_pli_times & E).
  apply bind_ok in E as ([rtcp4 s4] & <-%generate_fir_times & E).
  rewrite <- (generate_bye_times s4 rtcp4 now). destruct (Session_generate_bye s4 rtcp4 now) as [r5 s5]. by injection E as _ _ <-.
Qed.

Lemma handle_timeouts_times s now out s' : Session_handle_timeouts s now = Ok (out, s') -> report_times s' = report_times s.
Proof.
  unfold Session_handle_timeouts. intros (d & _ & E)%bind_ok. apply bind_ok in E as (td & _ & E). cbv zeta in E.
  destruct (expire_all _ _ _ _ _) as [c1 o1], (expire_all _ _ _ _ _) as [c2 o2]. injection E as _ <-.
  set (s1 := demote_senders _). change (report_times s1 = report_times s).
  subst s1. unfold demote_senders. cbn. destruct (se_last_rtcp_sent_times s) as [|x [|y l]] eqn:El; [by (unfold report_times; cbn; rewrite El)..|].
  generalize (omap (fun '(ssrc, source) => if LocalSendSource_last_activity source <? default 0 (last (x :: y :: l)) then Some ssrc else None)
    (hm_iter (se_local_senders s))). intros ks.
  match goal with |- report_times (fold_left ?f ks ?t) = _ => assert (Hk : forall t0, report_times (fold_left f ks t0) = report_times t0) end.
  { induction ks as [|k ks IH]; intros t0; cbn; [done|]. rewrite IH. by destruct (se_local_senders t0 !! k). }
  rewrite Hk. unfold report_times. cbn. by rewrite El.
Qed.
End ReportTimes.

(** C36: RTCP is sent only when it is due: with no event pending, a poll that
    returns something returns data; it is an early report, requested before
    and due by now, or a regular one, whose scheduled time has come and for
    which an interval computed anew has passed since the last one (timer
    reconsideration). A regular report becomes the latest of the (at most two)
    report times and schedules the next one: the interval drawn for the session
    as it is left by the report, with its members, senders, bandwidth and average
    packet size, and with the BYE state and the report times of before, is kept in
    the session, and the next report is due that long after now, or, in a feedback
    profile with a minimum interval, after the longer of it and a dithered minimum
    interval. Either report clears the request for an early one. *)
Theorem poll_sends_when_due `{LruOps} `{Gst} `{HashOrder} `{RtcpTypes OutPacket}
    (s : Session) (now ntp_now : Z) (dr : Draws) (instant_now : Z) (r : RtcpSendReply) (s' : Session) :
  se_pending_rtcp_send s = [] -> Session_poll_rtcp_send s now ntp_now dr instant_now = Ok (Some r, s') ->
  (exists data, r = SendData data) /\
  se_last_rtcp_handle_time s' = Some now /\ se_next_early_rtcp_time s' = None /\
  ((exists early, se_next_early_rtcp_time s = Some early /\ early <= now /\ se_last_rtcp_sent_times s <> []) \/
   (exists next handled interval interval' wait,
      tm_time (se_next_rtcp_send s) = Some next /\ next <= now /\
      se_last_rtcp_handle_time s = Some handled /\
      Session_rtcp_interval (Session_update_point_to_point s) (dr_reconsider dr) = Ok interval /\
      handled + interval <= now /\
      Session_rtcp_interval (s' <| se_bye_state := se_bye_state s |> <| se_last_rtcp_sent_times := se_last_rtcp_sent_times s |>)
        (dr_interval dr) = Ok interval' /\
      se_rtcp_interval s' = Some interval' /\
      (if RtpProfile_is_feedback (se_profile s') && negb (se_min_rtcp_interval s' =? 0) then
         exists d, rtcp_dither (se_min_rtcp_interval s') (dr_trr dr) = Ok d /\ wait = Z.max interval' d
       else wait = interval') /\
      tm_time (se_next_rtcp_send s') = Some (now + wait) /\
      se_last_rtcp_sent_times s' = take 2 (now :: se_last_rtcp_sent_times s) /\ se_bye_state s' = None)).
Proof.
  intros Hp. unfold Session_poll_rtcp_send. rewrite Hp. cbn [pop_back last].
  destruct (tm_time (se_next_rtcp_send s)) as [next|] eqn:Hnext; [|done]. cbv zeta.
  set (early := bool_decide _ && _). intros ([due s1] & Hdue & E)%bind_ok. destruct due; [cbn in E|done].
  apply bind_ok in E as ([[rtcp rep] s2] & Hgen & E). apply bind_ok in E as (size & _ & E).
  apply bind_ok in E as ([] & _ & E). apply bind_ok in E as (data & _ & E). apply bind_ok in E as (sz & _ & E).
  apply bind_ok in E as (s3 & Havg & E). apply bind_ok in E as (s4 & Haft & [= <- <-]). cbn.
  split; [by eauto|]. split; [done|]. split; [done|]. unfold rtcp_due in Hdue. destruct early eqn:He.
  - left. apply andb_true_iff in He as [Hb Hs]. apply bool_decide_eq_true in Hb as [e Hb].
    rewrite Hb in Hdue. injection Hdue as Hn _. apply negb_true_iff, Z.ltb_ge in Hn.
    exists e. split_and!; [done|done|]. by destruct (se_last_rtcp_sent_times s).
  - right. destruct (Z.ltb_spec now next); [done|]. cbv zeta in Hdue.
    apply bind_ok in Hdue as (i & Hi & Hdue). apply bind_ok in Hdue as (ht & Hht & Hdue). apply unwrap_ok in Hht.
    rewrite Z.gtb_ltb in Hdue. destruct (Z.ltb_spec now (instant_add ht i)); [done|]. injection Hdue as Hs1.
    assert (Ht : report_times s3 = report_times s).
    { apply update_average_times in Havg. rewrite Havg. subst s1. apply generate_compound_times in Hgen. transitivity (report_times s2); [|exact Hgen].
      apply (fold_left_inv (fun t => report_times t = report_times s2)); [|done]. intros t k Ht.
      by destruct (lru_get_mut (se_remote_senders t) k) as [[? ?]|]. }
    unfold after_regular in Haft. apply bind_ok in Haft as ([out s5] & H5 & Haft). cbv zeta in Haft.
    apply handle_timeouts_times in H5. rewrite Ht in H5. clear Ht. set (s6 := Session_update_point_to_point _) in Haft.
    assert (report_times s6 = report_times s) as H6 by (subst s6; by destruct out). clearbody s6. clear H5.
    apply bind_ok in Haft as ([wait s7] & Hn & [= <-]). unfold next_interval in Hn. apply bind_ok in Hn as (i' & Hi' & Hn).
    unfold report_times in H6. injection H6 as Hbye Hsent.
    assert (Hi2 : Session_rtcp_interval (s6 <| se_bye_state := se_bye_state s |> <| se_last_rtcp_sent_times := se_last_rtcp_sent_times s |>)
      (dr_interval dr) = Ok i') by (rewrite <- Hbye, <- Hsent; exact Hi').
    exists next, ht, i, i', wait. unfold instant_add in *. do 5 (split; [done || lia|]).
    cbn zeta in Hn. rewrite <- Hsent. cbn in Hn |- *. destruct (RtpProfile_is_feedback (se_profile s6) && negb (se_min_rtcp_interval s6 =? 0)) eqn:Hf.
    + apply bind_ok in Hn as (d & Hd & [= <- <-]). cbn. rewrite Hf. rewrite <- Hsent in Hi2. split; [exact Hi2|]. eauto 10.
    + injection Hn as <- <-. cbn. rewrite Hf. rewrite <- Hsent in Hi2. split; [exact Hi2|]. done.
Qed.

(** An SSRC known as a receiver that starts to send, where packets come
    without an address, is filed a second time, as a sender, and is then in
    both caches (a packet with an address moves it instead). *)
Lemma recv_without_address `{LruLaws} `{GstLaws} `{HashOrderLaws} `{RtcpTypes OutPacket}
    (strict : bool) (n : Z) (s : Session) (rtp : RtpPacket) (now init instant_now : Z) :
  session_wf strict n s -> rtp_ssrc rtp ∈ cache_keys (se_remote_receivers s) ->
  rtp_ssrc rtp ∉ cache_keys (se_remote_senders s) ->
  exists s', Session_handle_recv s rtp None now init instant_now =
      Ok (RecvNewSsrc (rtp_ssrc rtp) (rtp_payload_type rtp), s') /\
    rtp_ssrc rtp ∈ cache_keys (se_remote_receivers s') /\ rtp_ssrc rtp ∈ cache_keys (se_remote_senders s').
Proof.
  intros Hwf Hr Hs. unfold Session_handle_recv, recv_collision.
  pose proof (sk_wf _ _ _ (sw_senders _ _ _ Hwf)) as Hw.
  destruct (lru_get_mut (se_remote_senders s) (rtp_ssrc rtp)) as [[v set]|] eqn:Hg.
  { destruct Hs. eapply elem_key, get_mut_Some; eauto. }
  eexists. split; [reflexivity|]. cbn. split; [done|]. eapply elem_key, front_head; [exact Hw|by apply push_front].
Qed.

(** ** Witnesses *)

Definition map_order : HashOrder := fun K V _ _ m => map_to_list m.

Lemma map_order_laws : @HashOrderLaws map_order.
Proof. by intros K V ? ? m. Qed.

(** A writer of four-byte packets. *)
Definition rtcp_words : RtcpTypes OutPacket := {|
  SDES_CNAME := 1; SDES_NAME := 2; SDES_EMAIL := 3; SDES_PHONE := 4;
  SDES_LOC := 5; SDES_TOOL := 6; SDES_NOTE := 7;
  rtcp_calculate_size := fun l => Some (4 * Z.of_nat (length l));
  rtcp_write_into := fun l => Some (repeat 0 (4 * length l));
|}.

#[local] Existing Instances lru_exact lru_exact_laws gst_exact gst_exact_laws map_order map_order_laws rtcp_words.

Definition packet (ssrc seqnum : Z) : RtpPacket := mkRtpPacket ssrc 96 seqnum 0 100.
Definition home : SocketAddr := ([127; 0; 0; 1], 5004).
Definition away : SocketAddr := ([127; 0; 0; 1], 5006).
Definition half : spec_float := f64_literal 5 10.
Definition draws : Draws := mkDraws half half half [1; 2; 3].

Definition state_after (ops : list SessionOp) : Session :=
  match session_run [] ops with Ok s => s | Panic => Session_new [] end.

(** A session that knows the sender 7 and the receiver 8, sends as 5, and has
    sent its first report. *)
Definition some_ops : list SessionOp := [
  OpSetClockRate 96 90000;
  OpRecv (packet 7 1) (Some home) 0 0 0;
  OpRtcpRecv [PacketRr 8 []] 8 (Some home) 0 0 0;
  OpSend (packet 5 1) 0 0 0;
  OpPollTimeout 0 half;
  OpPoll (10 * NS_PER_SEC) 0 draws 0].

Lemma some_ops_ok : Forall (op_ok true) some_ops.
Proof. repeat constructor; cbn; try lia; eauto. Qed.

Lemma some_state_wf : session_wf true 6 (state_after some_ops).
Proof.
  apply (session_run_wf true 0 (Session_new []) some_ops _ (session_new_wf true [])); [lia|cbn; lia|apply some_ops_ok|].
  vm_compute. reflexivity.
Qed.

Lemma session_invariant_witness :
  session_run [] some_ops = Ok (state_after some_ops) /\ session_wf true 6 (state_after some_ops).
Proof.
  assert (H : session_run [] some_ops = Ok (state_after some_ops)) by (vm_compute; reflexivity).
  split; [exact H|].
  apply (session_invariant true [] some_ops (state_after some_ops)); [exact some_ops_ok|cbn; lia|exact H].
Defined.

Lemma some_run : session_run [] some_ops = Ok (state_after some_ops).
Proof. vm_compute. reflexivity. Qed.

Lemma session_recv_total_witness : exists reply s',
  Session_handle_recv (state_after some_ops) (packet 7 2) (Some home) 1 0 1 = Ok (reply, s').
Proof.
  destruct (session_recv_total [] some_ops (state_after some_ops) (packet 7 2) (Some home) 1 0 1)
    as (reply & s' & H1 & _).
  - repeat constructor; cbn; try lia; eauto.
  - cbn. lia.
  - exact some_run.
  - unfold is_u16. cbn. lia.
  - exists reply, s'. exact H1.
Defined.

Lemma recv_address_rules_witness :
  (exists s', Session_handle_recv (state_after some_ops) (packet 7 2) (Some away) 1 0 1 = Ok (RecvIgnore, s')) /\
  (exists s', Session_handle_recv (state_after some_ops) (packet 5 2) (Some away) 1 0 1
     = Ok (RecvSsrcCollision 5, s')).
Proof.
  split.
  - destruct (recv_address_rules 6 (state_after some_ops) (packet 7 2) away 1 0 1 some_state_wf) as (_ & H & _).
    edestruct H as (s' & H1 & _); [vm_compute; reflexivity|vm_compute; left|vm_compute; reflexivity|discriminate|].
    exists s'. exact H1.
  - destruct (recv_address_rules 6 (state_after some_ops) (packet 5 2) away 1 0 1 some_state_wf) as (H & _).
    eexists. rewrite H by (vm_compute; eauto). vm_compute. reflexivity.
Defined.

Lemma rtp_is_no_activity_witness : exists reply s' v' v,
  Session_handle_recv (state_after some_ops) (packet 7 2) (Some home) 1 0 1 = Ok (reply, s') /\
  (7, v') ∈ lru_iter (se_remote_senders s') /\
  RemoteSendSource_last_activity v' = RemoteSendSource_last_activity v.
Proof.
  edestruct (rtp_is_no_activity 6 (state_after some_ops) (packet 7 2) (Some home) 1 0 1)
    as (reply & s' & v' & H1 & H2 & H3);
    [exact some_state_wf|lia|unfold is_u16; cbn; lia|eauto|vm_compute; left|].
  exists reply, s', v'. eexists. split; [exact H1|]. split; [exact H2|exact H3].
Defined.

(** A minute later everything but the local sender has timed out. *)
Lemma timeouts_spec_witness : exists out s' td gone,
  Session_handle_timeouts (state_after some_ops) (60 * NS_PER_SEC) = Ok (out, s') /\
  25 * NS_PER_SEC <= td /\
  lru_iter (se_remote_senders (state_after some_ops)) = lru_iter (se_remote_senders s') ++ gone /\
  out = [7; 8].
Proof.
  destruct (Session_handle_timeouts (state_after some_ops) (60 * NS_PER_SEC)) as [[out s']|] eqn:E;
    [|vm_compute in E; discriminate].
  destruct (timeouts_spec true 6 (state_after some_ops) (60 * NS_PER_SEC) out s' some_state_wf E)
    as (td & gs & gr & H1 & H2 & _).
  exists out, s', td, gs. split; [reflexivity|]. split; [exact H1|]. split; [exact H2|].
  vm_compute in E. injection E as <- _. reflexivity.
Defined.

Lemma deterministic_duration_total_witness : exists d,
  Session_deterministic_rtcp_duration (state_after some_ops) false = Ok d /\ 5 * NS_PER_SEC <= d.
Proof.
  destruct (deterministic_duration_total (state_after some_ops) false 0) as (d & H1 & H2 & _);
    [vm_compute; reflexivity|lia|vm_compute; split; discriminate|vm_compute; reflexivity
    |intros b H; vm_compute in H; discriminate|vm_compute; split; [discriminate|reflexivity]|].
  exists d. split; [exact H1|]. vm_compute in H2 |- *. exact H2.
Defined.

Lemma rtcp_average_bounds_witness : exists s',
  Session_update_rtcp_average (Session_new []) 500 = Ok s' /\ 100 <= se_average_rtcp_size s' <= 500.
Proof.
  destruct (rtcp_average_bounds (Session_new []) 500) as (s' & H1 & _ & H2 & _); [cbn; lia|lia|].
  exists s'. split; [exact H1|exact H2].
Defined.

(** A session of one sender whose last report counted four members. *)
Definition lonely : Session :=
  (state_after some_ops) <| se_next_rtcp_send := mkRtcpTimeMembers (Some (20 * NS_PER_SEC)) 4 |>.

Lemma reverse_consideration_resets_witness : exists s',
  Session_rtcp_reverse_consideration lonely 3 (15 * NS_PER_SEC) = Ok (true, s') /\
  se_last_rtcp_sent_times s' = [15 * NS_PER_SEC].
Proof.
  destruct (Session_rtcp_reverse_consideration lonely 3 (15 * NS_PER_SEC)) as [[b s']|] eqn:E;
    [|vm_compute in E; discriminate].
  destruct b; [|vm_compute in E; discriminate]. exists s'. split; [reflexivity|].
  destruct (reverse_consideration_resets lonely 3 (15 * NS_PER_SEC) (10 * NS_PER_SEC) [] s') as [H _];
    [vm_compute; reflexivity|lia|exact E|exact H].
Defined.

(** The session leaves. *)
Definition leaving : Session := state_after (some_ops ++ [OpBye [104] (11 * NS_PER_SEC) draws]).

Lemma leaving_wf : session_wf true 7 leaving.
Proof.
  apply (session_run_wf true 0 (Session_new []) (some_ops ++ [OpBye [104] (11 * NS_PER_SEC) draws]) _
    (session_new_wf true [])); [lia|cbn; lia|apply Forall_app; split; [apply some_ops_ok|repeat constructor]|].
  vm_compute. reflexivity.
Qed.

Lemma byes_complete_witness : exists byes s',
  Session_generate_bye leaving [] (12 * NS_PER_SEC) = (byes, s') /\
  Session_has_pending_bye leaving = true /\ Session_has_pending_bye s' = false.
Proof.
  destruct (byes_complete true 7 leaving [] (12 * NS_PER_SEC) leaving_wf) as (byes & s' & H1 & _ & _ & _ & _ & H2).
  exists byes, s'. split; [exact H1|]. split; [vm_compute; reflexivity|exact H2].
Defined.

Lemma compound_reports_witness : exists rtcp reported s',
  generate_compound leaving (12 * NS_PER_SEC) 0 false draws 0 = Ok (rtcp, reported, s') /\
  Forall (fun p => is_report p = false) rtcp.
Proof.
  destruct (generate_compound leaving (12 * NS_PER_SEC) 0 false draws 0) as [[[rtcp rep] s']|] eqn:E;
    [|vm_compute in E; discriminate].
  exists rtcp, rep, s'. split; [reflexivity|].
  destruct (compound_reports leaving (12 * NS_PER_SEC) 0 false draws 0 rtcp rep s' E eq_refl) as [_ H]. apply H. split.
  - intros (k & src & Hk & Hst).
    assert (Hn : some_sender (fun src => is_normal (LocalSendSource_state src)) leaving = true).
    { apply (proj2 (some_sender_spec _ leaving)). exists k, src. split; [exact Hk|]. rewrite Hst. reflexivity. }
    vm_compute in Hn. discriminate.
  - apply (some_sender_spec sender_active leaving). vm_compute. reflexivity.
Defined.

(** A regular report, and the next one an interval later. *)
Lemma poll_sends_when_due_witness : exists data s' interval,
  Session_poll_rtcp_send (state_after some_ops) (60 * NS_PER_SEC) 0 draws 0 = Ok (Some (SendData data), s') /\
  se_rtcp_interval s' = Some interval /\ NS_PER_SEC < interval /\ tm_time (se_next_rtcp_send s') = Some (60 * NS_PER_SEC + interval).
Proof.
  destruct (Session_poll_rtcp_send (state_after some_ops) (60 * NS_PER_SEC) 0 draws 0) as [[[r|] s']|] eqn:E;
    [|vm_compute in E; discriminate..].
  destruct (poll_sends_when_due (state_after some_ops) (60 * NS_PER_SEC) 0 draws 0 r s') as ((data & ->) & _ & _ & [(e & H & _)|H]);
    [vm_compute; reflexivity|exact E|vm_compute in H; discriminate|].
  destruct H as (next & handled & i & i' & w & _ & _ & _ & _ & _ & _ & Hi & Hw & Ht & _).
  exists data, s', i'. split; [reflexivity|]. split; [exact Hi|]. split.
  - vm_compute in E. injection E as <- <-. vm_compute in Hi. injection Hi as <-. vm_compute. reflexivity.
  - rewrite Ht. replace w with i'; [reflexivity|]. vm_compute in E. injection E as <- <-. symmetry. exact Hw.
Defined.

Lemma recv_without_address_witness : exists s',
  Session_handle_recv (state_after some_ops) (packet 8 1) None 1 0 1 = Ok (RecvNewSsrc 8 96, s') /\
  8 ∈ cache_keys (se_remote_receivers s') /\ 8 ∈ cache_keys (se_remote_senders s').
Proof.
  apply (recv_without_address true 6 (state_after some_ops) (packet 8 1) 1 0 1 some_state_wf).
  - vm_compute. left.
  - vm_compute. intros H. inversion H as [|? ? ? H']; subst. inversion H'.
Defined.
