(* ===== verification/Flow.v ===== *)
(** * Code with a state that can fail

    The payload format code returns [Result] values and mutates a state on the
    way: a [?] leaves the function with the state as it is at that point. The
    monad below keeps the state on every exit, so what an error leaves behind
    is part of the model. *)

From S2P Require Import Prelude.

(** [Done a] is [Ok(a)], [Fail] an [Err] (the code maps every error it handles
    to [gst::FlowError::Error] or drops its value), [Crash] a panic. *)
Inductive flow (A : Type) : Type :=
| Done (a : A)
| Fail
| Crash.
Arguments Done {A} a.
Arguments Fail {A}.
Arguments Crash {A}.

#[export] Instance flow_eq_dec {A} `{EqDecision A} : EqDecision (flow A).
Proof. solve_decision. Defined.

Definition fmap_flow {A B} (f : A -> B) (x : flow A) : flow B :=
  match x with Done a => Done (f a) | Fail => Fail | Crash => Crash end.

(** A computation over a state [S]. *)
Definition M (S A : Type) : Type := S -> flow A * S.

#[export] Instance M_ret {S} : MRet (M S) := fun A a s => (Done a, s).
#[export] Instance M_bind {S} : MBind (M S) :=
  fun A B k m s =>
    match m s with
    | (Done a, s') => k a s'
    | (Fail, s') => (Fail, s')
    | (Crash, s') => (Crash, s')
    end.

Definition fail_ {S A} : M S A := fun s => (Fail, s).
Definition crash_ {S A} : M S A := fun s => (Crash, s).
Definition get_ {S} : M S S := fun s => (Done s, s).
Definition put_ {S} (s : S) : M S unit := fun _ => (Done tt, s).
Definition upd_ {S} (f : S -> S) : M S unit := fun s => (Done tt, f s).

(** Code that panics but does not fail, and code that fails but does not panic. *)
Definition of_res {S A} (r : res A) : M S A :=
  fun s => match r with Ok a => (Done a, s) | Panic => (Crash, s) end.
Definition of_option {S A} (o : option A) : M S A :=
  fun s => match o with Some a => (Done a, s) | None => (Fail, s) end.

Definition of_flow {S A} (f : flow A) : M S A := fun s => (f, s).

(** [is_some()] and [is_none()] *)
Definition is_some {A} (o : option A) : bool := match o with Some _ => true | None => false end.
Definition is_none {A} (o : option A) : bool := match o with None => true | Some _ => false end.

Section FlowLemmas.
Context {S A B : Type}.
Implicit Types (m : M S A) (k : A -> M S B) (s : S).

Lemma M_bind_done m k s a s' :
  m s = (Done a, s') -> (m ≫= k) s = k a s'.
Proof. intros H. unfold mbind, M_bind. by rewrite H. Qed.

Lemma M_bind_inv m k s b s' :
  (m ≫= k) s = (Done b, s') -> exists a s1, m s = (Done a, s1) /\ k a s1 = (Done b, s').
Proof. unfold mbind, M_bind. destruct (m s) as [[a| |] s1]; intros H; [eauto|done..]. Qed.

(** A crash of a sequence is a crash of one of its parts. *)
Lemma M_bind_crash m k s s' :
  (m ≫= k) s = (Crash, s') ->
  m s = (Crash, s') \/ exists a s1, m s = (Done a, s1) /\ k a s1 = (Crash, s').
Proof.
  unfold mbind, M_bind. destruct (m s) as [[a| |] s1]; intros H; [eauto|done|].
  left. congruence.
Qed.

Lemma of_res_ok (r : res A) s a s' : of_res r s = (Done a, s') <-> r = Ok a /\ s' = s.
Proof. destruct r; cbn; split; intuition congruence. Qed.
End FlowLemmas.

(** ** Code without panics *)
Definition no_crash {S A} (m : M S A) : Prop := forall s, fst (m s) <> Crash.

Create HintDb flow.

Section NoCrash.
Context {S A B : Type}.

Lemma no_crash_ret (a : A) : no_crash (mret a : M S A).
Proof. by intros s. Qed.

Lemma no_crash_fail : no_crash (@fail_ S A).
Proof. by intros s. Qed.

Lemma no_crash_bind (m : M S A) (k : A -> M S B) : no_crash m -> (forall a, no_crash (k a)) -> no_crash (m ≫= k).
Proof.
  intros Hm Hk s. specialize (Hm s). unfold mbind, M_bind. destruct (m s) as [[a| |] s']; [apply Hk|done..].
Qed.

Lemma no_crash_if (c : bool) (m m' : M S A) : no_crash m -> no_crash m' -> no_crash (if c then m else m').
Proof. by destruct c. Qed.

Lemma no_crash_match {X} (o : option X) (f : X -> M S A) (m : M S A) :
  (forall x, no_crash (f x)) -> no_crash m -> no_crash (match o with Some x => f x | None => m end).
Proof. by destruct o. Qed.
End NoCrash.

#[export] Hint Resolve no_crash_ret no_crash_fail no_crash_bind no_crash_if no_crash_match : flow.
