(* ===== verification/BitStream.v ===== *)
(** * Bit streams

    What the payload format code uses of the [bitstream_io] crate: reading and
    writing big-endian bit fields over byte buffers. The crate is not part of
    the repository, so its reader and writer are parameters, the class
    [BitIO]; what the code relies on is the class [BitIOLaws], which states
    the documented behaviour over lists of bits, most significant bit first. *)

From S2P Require Import Prelude Flow.

(** ** Bits, most significant first *)

(** The [n] low bits of [v]. *)
Fixpoint bits_of (n : nat) (v : Z) : list bool :=
  match n with
  | O => []
  | S n => Z.testbit v (Z.of_nat n) :: bits_of n v
  end.

(** The number a list of bits stands for. *)
Definition val_of (l : list bool) : Z :=
  fold_left (fun acc b => 2 * acc + Z.b2z b) l 0.

Definition bytes_bits (bs : list Z) : list bool := concat (map (bits_of 8) bs).

Definition is_bytes (bs : list Z) : Prop := Forall is_u8 bs.

Section BitLemmas.

Lemma bits_of_length n v : length (bits_of n v) = n.
Proof. induction n; cbn; auto. Qed.

Lemma val_of_from l a :
  fold_left (fun acc b => 2 * acc + Z.b2z b) l a = a * 2 ^ Z.of_nat (length l) + val_of l.
Proof.
  unfold val_of. revert a. induction l as [|b l IH]; intros a; cbn [fold_left length]; [lia|].
  rewrite (IH (2 * a + _)), (IH (2 * 0 + _)).
  rewrite Nat2Z.inj_succ, Z.pow_succ_r by lia. lia.
Qed.

Lemma val_of_cons b l : val_of (b :: l) = Z.b2z b * 2 ^ Z.of_nat (length l) + val_of l.
Proof. unfold val_of at 1. cbn [fold_left]. rewrite val_of_from. lia. Qed.

Lemma val_of_app l1 l2 :
  val_of (l1 ++ l2) = val_of l1 * 2 ^ Z.of_nat (length l2) + val_of l2.
Proof.
  unfold val_of at 1. rewrite fold_left_app. fold (val_of l1). by rewrite val_of_from.
Qed.

Lemma val_of_bits n v : val_of (bits_of n v) = v mod 2 ^ Z.of_nat n.
Proof.
  induction n as [|n IH]; cbn [bits_of].
  - by rewrite Z.mod_1_r.
  - rewrite val_of_cons, bits_of_length, IH.
    rewrite Nat2Z.inj_succ, Z.pow_succ_r, (Z.mul_comm 2) by lia.
    rewrite Z.rem_mul_r by (pose proof (Z.pow_pos_nonneg 2 (Z.of_nat n)); lia).
    rewrite Z.testbit_spec' by lia. lia.
Qed.

Lemma val_of_small n v : 0 <= v < 2 ^ Z.of_nat n -> val_of (bits_of n v) = v.
Proof. intros. rewrite val_of_bits. by apply Z.mod_small. Qed.

Lemma bits_of_app m n v :
  bits_of (m + n) v = bits_of m (Z.shiftr v (Z.of_nat n)) ++ bits_of n v.
Proof.
  induction m as [|m IH]; cbn [Nat.add bits_of app]; [done|].
  rewrite IH, Z.shiftr_spec by lia. do 2 f_equal. lia.
Qed.

Lemma bits_of_ext n v w :
  (forall i, 0 <= i < Z.of_nat n -> Z.testbit v i = Z.testbit w i) -> bits_of n v = bits_of n w.
Proof.
  intros H. induction n as [|n IH]; cbn [bits_of]; [done|].
  rewrite IH by (intros; apply H; lia). f_equal. apply H. lia.
Qed.

Lemma bits_of_mod n v : bits_of n (v mod 2 ^ Z.of_nat n) = bits_of n v.
Proof. apply bits_of_ext. intros. by rewrite Z.mod_pow2_bits_low by lia. Qed.

(** Packing two fields into one number packs their bits. *)
Lemma bits_of_pack m n a b :
  0 <= b < 2 ^ Z.of_nat n -> bits_of (m + n) (a * 2 ^ Z.of_nat n + b) = bits_of m a ++ bits_of n b.
Proof.
  intros Hb. rewrite bits_of_app. pose proof (Z.pow_pos_nonneg 2 (Z.of_nat n)). f_equal.
  - f_equal. rewrite Z.shiftr_div_pow2 by lia.
    rewrite Z.div_add_l, (Z.div_small b) by lia. lia.
  - rewrite <- bits_of_mod. rewrite Z.add_comm, Z.mod_add, bits_of_mod by lia. done.
Qed.

Lemma val_of_bound l : 0 <= val_of l < 2 ^ Z.of_nat (length l).
Proof.
  induction l as [|b l IH]; [cbn; lia|].
  rewrite val_of_cons. cbn [length]. rewrite Nat2Z.inj_succ, Z.pow_succ_r by lia.
  destruct b; cbn [Z.b2z]; lia.
Qed.

Lemma bits_of_val l : bits_of (length l) (val_of l) = l.
Proof.
  induction l as [|b l IH]; [done|].
  rewrite val_of_cons. pose proof (val_of_bound l).
  change (length (b :: l)) with (1 + length l)%nat.
  rewrite bits_of_pack, IH by done. by destruct b.
Qed.

Lemma bytes_bits_cons b bs : bytes_bits (b :: bs) = bits_of 8 b ++ bytes_bits bs.
Proof. done. Qed.

Lemma bytes_bits_app bs1 bs2 : bytes_bits (bs1 ++ bs2) = bytes_bits bs1 ++ bytes_bits bs2.
Proof. unfold bytes_bits. by rewrite map_app, concat_app. Qed.

Lemma bytes_bits_length bs : length (bytes_bits bs) = (8 * length bs)%nat.
Proof.
  induction bs as [|b bs IH]; [done|].
  rewrite bytes_bits_cons, length_app, bits_of_length, IH. cbn [length]. lia.
Qed.

Lemma bytes_bits_inj bs1 bs2 :
  is_bytes bs1 -> is_bytes bs2 -> bytes_bits bs1 = bytes_bits bs2 -> bs1 = bs2.
Proof.
  intros H1. revert bs2. induction H1 as [|b1 bs1 Hb1 _ IH]; intros [|b2 bs2] H2 Heq; try done.
  rewrite !bytes_bits_cons in Heq. inversion H2 as [|? ? Hb2 Hbs2]; subst.
  apply app_inj_1 in Heq as [Hb Hbs]; [|by rewrite !bits_of_length].
  f_equal; [|by apply IH].
  rewrite <- (val_of_small 8 b1), <- (val_of_small 8 b2), Hb; [done|apply Hb2|apply Hb1].
Qed.
End BitLemmas.

(** ** The crate's reader and writer *)
Class BitIO := {
  (** [BitReader::endian(cursor, BigEndian)] over the bytes from the cursor on,
      [read::<n, _>()] ([None] at the end of the data), [byte_align()], and
      the bytes the cursor still has ahead when the reader is dropped. *)
  BitReader : Type;
  reader_endian : list Z -> BitReader;
  reader_read : nat -> BitReader -> option (Z * BitReader);
  reader_byte_align : BitReader -> BitReader;
  reader_left : BitReader -> list Z;
  (** [BitWriter::endian(writer, BigEndian)], [write::<n, _>(value)],
      [byte_align()], and the bytes given to the underlying writer. *)
  BitWriter : Type;
  writer_endian : BitWriter;
  writer_write : nat -> Z -> BitWriter -> BitWriter;
  writer_byte_align : BitWriter -> BitWriter;
  writer_bytes : BitWriter -> list Z;
}.

(** The documented behaviour: fields are read and written most significant bit
    first, whole bytes pass between the bit stream and the underlying buffer,
    aligning skips (or writes zeros) to the next byte boundary. *)
Class BitIOLaws `{BitIO} := {
  unread : BitReader -> list bool;
  written : BitWriter -> list bool;
  unread_endian bs : unread (reader_endian bs) = bytes_bits bs;
  unread_read n r l1 l2 :
    unread r = l1 ++ l2 -> length l1 = n ->
    exists r', reader_read n r = Some (val_of l1, r') /\ unread r' = l2;
  unread_short n r : (length (unread r) < n)%nat -> reader_read n r = None;
  unread_align r l bs :
    unread r = l ++ bytes_bits bs -> (length l < 8)%nat -> unread (reader_byte_align r) = bytes_bits bs;
  left_aligned r bs : is_bytes bs -> unread r = bytes_bits bs -> reader_left r = bs;
  written_endian : written writer_endian = [];
  written_write n v w : 0 <= v < 2 ^ Z.of_nat n -> written (writer_write n v w) = written w ++ bits_of n v;
  written_align w bs : written w = bytes_bits bs -> written (writer_byte_align w) = bytes_bits bs;
  bytes_aligned w bs : is_bytes bs -> written w = bytes_bits bs -> writer_bytes w = bs;
}.

(** ** An implementation, used by the witnesses: the bits themselves. *)
Fixpoint bytes_of_bits (l : list bool) : list Z :=
  match l with
  | b7 :: b6 :: b5 :: b4 :: b3 :: b2 :: b1 :: b0 :: l =>
      val_of [b7; b6; b5; b4; b3; b2; b1; b0] :: bytes_of_bits l
  | _ => []
  end.

Lemma bytes_of_bits_app b l : is_u8 b -> bytes_of_bits (bits_of 8 b ++ l) = b :: bytes_of_bits l.
Proof.
  intros Hb. transitivity (val_of (bits_of 8 b) :: bytes_of_bits l); [done|].
  rewrite val_of_small; [done|]. apply Hb.
Qed.

Lemma bytes_of_bytes_bits bs : is_bytes bs -> bytes_of_bits (bytes_bits bs) = bs.
Proof.
  induction 1 as [|b bs Hb _ IH]; [done|].
  by rewrite bytes_bits_cons, bytes_of_bits_app, IH by done.
Qed.

Definition bits_exact : BitIO := {|
  BitReader := list bool;
  reader_endian := bytes_bits;
  reader_read n r := if decide (length r < n)%nat then None else Some (val_of (take n r), drop n r);
  reader_byte_align r := drop (length r mod 8) r;
  reader_left := bytes_of_bits;
  BitWriter := list bool;
  writer_endian := [];
  writer_write n v w := w ++ bits_of n v;
  writer_byte_align w := w ++ replicate ((8 - length w mod 8) mod 8) false;
  writer_bytes := bytes_of_bits;
|}.

#[refine]
Definition bits_exact_laws : @BitIOLaws bits_exact := {|
  unread r := r : @BitReader bits_exact;
  written w := w : @BitWriter bits_exact;
|}.
Proof.
  - done.
  - intros n r l1 l2 -> Hn. cbn. rewrite decide_False by (rewrite length_app; lia).
    subst n. eexists. split; [|done]. by rewrite take_app_length, drop_app_length.
  - intros n r Hr. cbn. by rewrite decide_True.
  - intros r l bs -> Hl. cbn [reader_byte_align bits_exact]. rewrite length_app, bytes_bits_length.
    replace ((length l + 8 * length bs) mod 8)%nat with (length l)
      by (rewrite Nat.mul_comm, Nat.Div0.mod_add, Nat.mod_small; lia).
    by rewrite drop_app_length.
  - intros r bs Hbs ->. by apply bytes_of_bytes_bits.
  - done.
  - done.
  - intros w bs ->. cbn [writer_byte_align bits_exact]. rewrite bytes_bits_length, Nat.mul_comm, Nat.Div0.mod_mul. cbn.
    apply app_nil_r.
  - intros w bs Hbs ->. by apply bytes_of_bytes_bits.
Defined.

(** ** Parsers

    A parser is a computation over a reader; [parses p l a] says that it
    consumes exactly the bits [l] and returns [a]. *)
Definition read_ `{BitIO} (n : nat) : M BitReader Z :=
  fun r => match reader_read n r with Some (v, r') => (Done v, r') | None => (Fail, r) end.

Definition read_bit_ `{BitIO} : M BitReader bool := v ← read_ 1; mret (negb (v =? 0)).

Definition byte_align_ `{BitIO} : M BitReader unit := upd_ reader_byte_align.

(** A parser over a cursor: what it returns and the bytes ahead of the cursor
    afterwards. *)
Definition run_parser `{BitIO} {A} (p : M BitReader A) (bytes : list Z) : flow (A * list Z) :=
  match p (reader_endian bytes) with
  | (Done a, r) => Done (a, reader_left r)
  | (Fail, _) => Fail
  | (Crash, _) => Crash
  end.

Section Parses.
Context `{BitIOLaws}.

Definition parses {A} (p : M BitReader A) (l : list bool) (a : A) : Prop :=
  forall r rest, unread r = l ++ rest -> exists r', p r = (Done a, r') /\ unread r' = rest.

Lemma parses_ret {A} (a : A) : parses (mret a) [] a.
Proof. intros r rest Hr. by exists r. Qed.

Lemma parses_bind {A B} (p : M BitReader A) (k : A -> M BitReader B) l1 l2 a b :
  parses p l1 a -> parses (k a) l2 b -> parses (p ≫= k) (l1 ++ l2) b.
Proof.
  intros Hp Hk r rest Hr. rewrite <- app_assoc in Hr.
  destruct (Hp r _ Hr) as (r1 & Hr1 & Hu1). destruct (Hk r1 _ Hu1) as (r2 & Hr2 & Hu2).
  exists r2. split; [|done]. by rewrite (M_bind_done _ _ _ _ _ Hr1).
Qed.

Lemma parses_read l : parses (read_ (length l)) l (val_of l).
Proof.
  intros r rest Hr. destruct (unread_read (length l) r l rest Hr eq_refl) as (r' & Hr' & Hu).
  exists r'. unfold read_. by rewrite Hr'.
Qed.

Lemma parses_field n v : 0 <= v < 2 ^ Z.of_nat n -> parses (read_ n) (bits_of n v) v.
Proof.
  intros Hv. pose proof (parses_read (bits_of n v)) as Hp.
  by rewrite bits_of_length, val_of_small in Hp.
Qed.

Lemma parses_bit b : parses read_bit_ [b] b.
Proof.
  apply (parses_bind _ _ [b] [] (val_of [b])); [apply (parses_read [b])|].
  destruct b; apply parses_ret.
Qed.

(** The same where whole bytes follow, which is where a parser may align. *)
Definition parses_to_byte {A} (p : M BitReader A) (l : list bool) (a : A) : Prop :=
  forall r rest, unread r = l ++ bytes_bits rest ->
    exists r', p r = (Done a, r') /\ unread r' = bytes_bits rest.

Lemma parses_weaken {A} (p : M BitReader A) l a : parses p l a -> parses_to_byte p l a.
Proof. intros Hp r rest. apply Hp. Qed.

Lemma parses_to_byte_bind {A B} (p : M BitReader A) (k : A -> M BitReader B) l1 l2 a b :
  parses p l1 a -> parses_to_byte (k a) l2 b -> parses_to_byte (p ≫= k) (l1 ++ l2) b.
Proof.
  intros Hp Hk r rest Hr. rewrite <- app_assoc in Hr.
  destruct (Hp r _ Hr) as (r1 & Hr1 & Hu1). destruct (Hk r1 _ Hu1) as (r2 & Hr2 & Hu2).
  exists r2. split; [|done]. by rewrite (M_bind_done _ _ _ _ _ Hr1).
Qed.

Lemma parses_align {A} (k : M BitReader A) l bs a :
  (length l < 8)%nat -> parses_to_byte k (bytes_bits bs) a ->
  parses_to_byte (_ ← byte_align_; k) (l ++ bytes_bits bs) a.
Proof.
  intros Hl Hk r rest Hr. rewrite <- app_assoc, <- bytes_bits_app in Hr.
  pose proof (unread_align r l _ Hr Hl) as Hu. rewrite bytes_bits_app in Hu.
  destruct (Hk _ _ Hu) as (r2 & Hr2 & Hu2). by exists r2.
Qed.

Lemma run_parser_ok {A} (p : M BitReader A) bs rest a :
  parses_to_byte p (bytes_bits bs) a -> is_bytes rest -> run_parser p (bs ++ rest) = Done (a, rest).
Proof.
  intros Hp Hrest. unfold run_parser.
  destruct (Hp (reader_endian (bs ++ rest)) rest) as (r' & -> & Hu).
  { by rewrite unread_endian, bytes_bits_app. }
  by rewrite (left_aligned r' rest).
Qed.
End Parses.

(** Reading fails at the end of the data, it does not panic. *)
Lemma no_crash_read `{BitIO} n : no_crash (read_ n).
Proof. intros r. unfold read_. by destruct (reader_read n r) as [[v r']|]. Qed.

Lemma no_crash_read_bit `{BitIO} : no_crash read_bit_.
Proof. apply no_crash_bind; [apply no_crash_read|intros v; apply no_crash_ret]. Qed.

Lemma run_parser_no_crash `{BitIO} {A} (p : M BitReader A) bytes : no_crash p -> run_parser p bytes <> Crash.
Proof. intros Hp. specialize (Hp (reader_endian bytes)). unfold run_parser. by destruct (p _) as [[a| |] r]. Qed.

#[export] Hint Resolve no_crash_read no_crash_read_bit : flow.
