(* ===== verification/ByteStream.v ===== *)
(** * Byte streams

    What the payload format code uses of the byte reader and writer of the
    [bitstream_io] crate. As in the file on bit streams the crate is a
    parameter, [ByteIO], with the documented behaviour as laws over lists of
    bytes, [ByteIOLaws]. *)

From S2P Require Import Prelude Flow BitStream.

Class ByteIO := {
  (** [ByteReader::endian(&mut cursor, BigEndian)] over the bytes ahead of the
      cursor, [read::<u8>()], [read_as::<LittleEndian, u16>()],
      [read_as::<BigEndian, u16>()], [skip(n)]
      ([None] at the end of the data), and the bytes ahead of the cursor when
      the reader is dropped. *)
  ByteReader : Type;
  byte_reader : list Z -> ByteReader;
  byte_read : ByteReader -> option (Z * ByteReader);
  byte_read_le16 : ByteReader -> option (Z * ByteReader);
  byte_read_be16 : ByteReader -> option (Z * ByteReader);
  byte_skip : Z -> ByteReader -> option ByteReader;
  byte_left : ByteReader -> list Z;
  (** [ByteWriter::endian(&mut sink, BigEndian)] on a sink that takes
      everything, [write::<u8>(b)], [write::<u16>(v)], and the bytes given to the
      sink. *)
  ByteWriter : Type;
  byte_writer : ByteWriter;
  byte_write : Z -> ByteWriter -> ByteWriter;
  byte_write_be16 : Z -> ByteWriter -> ByteWriter;
  byte_written : ByteWriter -> list Z;
}.

Class ByteIOLaws `{ByteIO} := {
  ahead : ByteReader -> list Z;
  ahead_new bs : ahead (byte_reader bs) = bs;
  ahead_read r b bs : ahead r = b :: bs -> exists r', byte_read r = Some (b, r') /\ ahead r' = bs;
  ahead_read_end r : ahead r = [] -> byte_read r = None;
  ahead_le16 r b0 b1 bs :
    ahead r = b0 :: b1 :: bs -> exists r', byte_read_le16 r = Some (b0 + 256 * b1, r') /\ ahead r' = bs;
  ahead_le16_end r : (length (ahead r) < 2)%nat -> byte_read_le16 r = None;
  ahead_be16 r b0 b1 bs :
    ahead r = b0 :: b1 :: bs -> exists r', byte_read_be16 r = Some (256 * b0 + b1, r') /\ ahead r' = bs;
  ahead_be16_end r : (length (ahead r) < 2)%nat -> byte_read_be16 r = None;
  ahead_skip n r :
    0 <= n <= Z.of_nat (length (ahead r)) ->
    exists r', byte_skip n r = Some r' /\ ahead r' = drop (Z.to_nat n) (ahead r);
  ahead_skip_end n r : Z.of_nat (length (ahead r)) < n -> byte_skip n r = None;
  ahead_left r : byte_left r = ahead r;
  written_new : byte_written byte_writer = [];
  written_byte b w : byte_written (byte_write b w) = byte_written w ++ [b];
  written_be16 v w : byte_written (byte_write_be16 v w) = byte_written w ++ [v / 256; v mod 256];
}.

(** An implementation, used by the witnesses: the bytes themselves. *)
Definition bytes_exact : ByteIO := {|
  ByteReader := list Z;
  byte_reader bs := bs;
  byte_read r := match r with b :: r => Some (b, r) | [] => None end;
  byte_read_le16 r := match r with b0 :: b1 :: r => Some (b0 + 256 * b1, r) | _ => None end;
  byte_read_be16 r := match r with b0 :: b1 :: r => Some (256 * b0 + b1, r) | _ => None end;
  byte_skip n r := if n <=? Z.of_nat (length r) then Some (drop (Z.to_nat n) r) else None;
  byte_left r := r;
  ByteWriter := list Z;
  byte_writer := [];
  byte_write b w := w ++ [b];
  byte_write_be16 v w := w ++ [v / 256; v mod 256];
  byte_written w := w;
|}.

#[refine]
Definition bytes_exact_laws : @ByteIOLaws bytes_exact := {| ahead r := r : @ByteReader bytes_exact |}.
Proof.
  - done.
  - intros r b bs ->. by exists bs.
  - by intros r ->.
  - intros r b0 b1 bs ->. by exists bs.
  - intros [|? [|? r]] Hr; cbn in *; [done..|lia].
  - intros r b0 b1 bs ->. by exists bs.
  - intros [|? [|? r]] Hr; cbn in *; [done..|lia].
  - intros n r Hn. cbn. rewrite (proj2 (Z.leb_le _ _)) by lia. by eexists.
  - intros n r Hn. cbn. by rewrite (proj2 (Z.leb_gt _ _)).
  - done.
  - done.
  - done.
  - done.
Defined.

(** ** Parsers over bytes *)
Definition get_byte `{ByteIO} : M ByteReader Z :=
  fun r => match byte_read r with Some (b, r') => (Done b, r') | None => (Fail, r) end.
Definition get_le16 `{ByteIO} : M ByteReader Z :=
  fun r => match byte_read_le16 r with Some (v, r') => (Done v, r') | None => (Fail, r) end.
Definition get_be16 `{ByteIO} : M ByteReader Z :=
  fun r => match byte_read_be16 r with Some (v, r') => (Done v, r') | None => (Fail, r) end.
Definition skip_bytes `{ByteIO} (n : Z) : M ByteReader unit :=
  fun r => match byte_skip n r with Some r' => (Done tt, r') | None => (Fail, r) end.

(** A parser over a cursor: what it returns and the bytes ahead of the cursor
    afterwards. *)
Definition run_bytes `{ByteIO} {A} (p : M ByteReader A) (bytes : list Z) : flow (A * list Z) :=
  match p (byte_reader bytes) with
  | (Done a, r) => Done (a, byte_left r)
  | (Fail, _) => Fail
  | (Crash, _) => Crash
  end.

Section Simulation.
Context `{ByteIOLaws}.

(** [reads p f]: the parser [p] behaves as the function [f] on the bytes ahead:
    the value and the bytes left, [None] for an error. *)
Definition reads {A} (p : M ByteReader A) (f : list Z -> option (A * list Z)) : Prop :=
  forall r, match f (ahead r) with
            | Some (a, rest) => exists r', p r = (Done a, r') /\ ahead r' = rest
            | None => exists r', p r = (Fail, r')
            end.

Lemma reads_ret {A} (a : A) : reads (mret a) (fun l => Some (a, l)).
Proof. intros r. by exists r. Qed.

Lemma reads_fail {A} : reads (@fail_ ByteReader A) (fun _ => None).
Proof. intros r. by exists r. Qed.

Lemma reads_bind {A B} (p : M ByteReader A) (k : A -> M ByteReader B) f g :
  reads p f -> (forall a, reads (k a) (g a)) ->
  reads (p ≫= k) (fun l => match f l with Some (a, rest) => g a rest | None => None end).
Proof.
  intros Hp Hk r. specialize (Hp r). unfold mbind, M_bind.
  destruct (f (ahead r)) as [[a rest]|].
  - destruct Hp as (r1 & -> & <-). apply Hk.
  - destruct Hp as (r1 & ->). by exists r1.
Qed.

Lemma reads_byte : reads get_byte (fun l => match l with b :: l => Some (b, l) | [] => None end).
Proof.
  intros r. unfold get_byte. destruct (ahead r) as [|b l] eqn:E.
  - rewrite (ahead_read_end r E). by exists r.
  - destruct (ahead_read r b l E) as (r' & -> & ?). by exists r'.
Qed.

Lemma reads_le16 :
  reads get_le16 (fun l => match l with b0 :: b1 :: l => Some (b0 + 256 * b1, l) | _ => None end).
Proof.
  intros r. unfold get_le16. destruct (ahead r) as [|b0 [|b1 l]] eqn:E.
  1,2: rewrite (ahead_le16_end r) by (rewrite E; cbn; lia); by exists r.
  destruct (ahead_le16 r b0 b1 l E) as (r' & -> & ?). by exists r'.
Qed.

Lemma reads_skip n :
  0 <= n ->
  reads (skip_bytes n) (fun l => if n <=? Z.of_nat (length l) then Some (tt, drop (Z.to_nat n) l) else None).
Proof.
  intros Hn r. unfold skip_bytes. destruct (Z.leb_spec n (Z.of_nat (length (ahead r)))) as [Hle|Hgt].
  - destruct (ahead_skip n r) as (r' & -> & Hr'); [lia|]. by exists r'.
  - rewrite ahead_skip_end by done. by exists r.
Qed.

(** [consumes p l a]: the parser takes exactly the bytes [l] and returns [a]. *)
Definition consumes {A} (p : M ByteReader A) (l : list Z) (a : A) : Prop :=
  forall r rest, ahead r = l ++ rest -> exists r', p r = (Done a, r') /\ ahead r' = rest.

Lemma consumes_ret {A} (a : A) : consumes (mret a) [] a.
Proof. intros r rest Hr. by exists r. Qed.

Lemma consumes_bind {A B} (p : M ByteReader A) (k : A -> M ByteReader B) l1 l2 a b :
  consumes p l1 a -> consumes (k a) l2 b -> consumes (p ≫= k) (l1 ++ l2) b.
Proof.
  intros Hp Hk r rest Hr. rewrite <- app_assoc in Hr.
  destruct (Hp r _ Hr) as (r1 & Hr1 & Hu1). destruct (Hk r1 _ Hu1) as (r2 & Hr2 & Hu2).
  exists r2. split; [|done]. by rewrite (M_bind_done _ _ _ _ _ Hr1).
Qed.

Lemma consumes_byte b : consumes get_byte [b] b.
Proof.
  intros r rest Hr. destruct (ahead_read r b rest Hr) as (r' & Hb & ?). exists r'. unfold get_byte. by rewrite Hb.
Qed.

Lemma consumes_be16 v : consumes get_be16 [v / 256; v mod 256] v.
Proof.
  intros r rest Hr. destruct (ahead_be16 r _ _ rest Hr) as (r' & Hb & ?). exists r'. unfold get_be16. rewrite Hb.
  split; [|done]. do 2 f_equal. pose proof (Z.div_mod v 256). lia.
Qed.

Lemma run_bytes_consumes {A} (p : M ByteReader A) l a rest :
  consumes p l a -> run_bytes p (l ++ rest) = Done (a, rest).
Proof.
  intros Hp. unfold run_bytes. destruct (Hp (byte_reader (l ++ rest)) rest) as (r' & -> & Hr').
  { by rewrite ahead_new. }
  by rewrite ahead_left, Hr'.
Qed.

Lemma reads_ext {A} (p : M ByteReader A) f g : (forall l, f l = g l) -> reads p f -> reads p g.
Proof. intros Hfg Hp r. rewrite <- Hfg. apply Hp. Qed.

Lemma run_bytes_reads {A} (p : M ByteReader A) f bytes :
  reads p f -> run_bytes p bytes = match f bytes with Some x => Done x | None => Fail end.
Proof.
  intros Hp. specialize (Hp (byte_reader bytes)). rewrite ahead_new in Hp. unfold run_bytes.
  destruct (f bytes) as [[a rest]|]; destruct Hp as (r' & -> & ?) || destruct Hp as (r' & ->); [|done].
  by rewrite ahead_left, H1.
Qed.
End Simulation.


(** Reading fails at the end of the data, it does not panic. *)
Lemma no_crash_byte `{ByteIO} : no_crash get_byte.
Proof. intros r. unfold get_byte. by destruct (byte_read r) as [[b r']|]. Qed.

Lemma no_crash_be16 `{ByteIO} : no_crash get_be16.
Proof. intros r. unfold get_be16. by destruct (byte_read_be16 r) as [[b r']|]. Qed.

Lemma run_bytes_no_crash `{ByteIO} {A} (p : M ByteReader A) bytes : no_crash p -> run_bytes p bytes <> Crash.
Proof. intros Hp. specialize (Hp (byte_reader bytes)). unfold run_bytes. by destruct (p _) as [[a| |] r]. Qed.

#[export] Hint Resolve no_crash_byte no_crash_be16 : flow.
