(* ===== verification/RtpBase.v ===== *)
(** * What payloaders and depayloaders use of their base classes

    The payload formats are subclasses of [RtpBasePay2] and [RtpBaseDepay2]
    ([basepay], [basedepay] of the RTP plugin). Here are the packets and
    buffers that pass between them, the calls they make as interfaces, the
    laws their theorems rely on, and instances that keep what they are given. *)

From S2P Require Import Prelude Flow.

(** ** Payloading *)

(** A packet handed to the base class: the ids of the buffers it comes from,
    the marker bit and the payload. *)
Record PayPacket := mkPayPacket {
  pp_start_id : Z;
  pp_end_id : Z;
  pp_marker_bit : bool;
  pp_payload : list Z;
}.

(** The room for a payload, and the queue of packets, which may refuse one. *)
Class RtpBasePay2 := {
  BasePay : Type;
  max_payload_size : BasePay -> Z;
  queue_packet : PayPacket -> BasePay -> flow unit * BasePay;
}.

(** A base class that takes every packet, and leaves [limit] bytes for a payload. *)
Class AcceptingBase `{RtpBasePay2} (limit : Z) := {
  accepted : BasePay -> list PayPacket;
  accepting_size b : max_payload_size b = limit;
  accepting_queue p b : exists b', queue_packet p b = (Done tt, b') /\ accepted b' = accepted b ++ [p];
}.

(** A base class that, in the states [serves], takes the packets [good] and
    leaves [limit] bytes for a payload. *)
Class SelectiveBase `{RtpBasePay2} (limit : Z) (good : PayPacket -> Prop) := {
  serves : BasePay -> Prop;
  taken : BasePay -> list PayPacket;
  selective_size b : serves b -> max_payload_size b = limit;
  selective_queue p b :
    serves b -> good p -> exists b', queue_packet p b = (Done tt, b') /\ serves b' /\ taken b' = taken b ++ [p];
}.

Definition accepting_selective `{RtpBasePay2} (limit : Z) `{!AcceptingBase limit} : SelectiveBase limit (fun _ => True).
Proof.
  refine {| serves _ := True; taken := accepted; selective_size b _ := accepting_size b |}.
  intros p b _ _. destruct (accepting_queue p b) as (b' & E & Hb). by exists b'.
Defined.

(** [self.obj().queue_packet(..)?] beside the state of the element. *)
Definition queue_ `{RtpBasePay2} {St} (packet : PayPacket) : M (St * BasePay) unit :=
  fun s => let '(ret, base) := queue_packet packet (snd s) in (ret, (fst s, base)).

(** ** Depayloading *)

(** A packet as the base class hands it over. *)
Record DepayPacket := mkDepayPacket {
  dp_payload : list Z;
  dp_ext_timestamp : Z;
  dp_ext_seqnum : Z;
  dp_marker_bit : bool;
}.

(** An output buffer with the flags the code sets. *)
Record DepayBuffer := mkDepayBuffer {
  db_bytes : list Z;
  db_marker : bool;
  db_discont : bool;
  db_delta_unit : bool;
}.

(** The caps of the output: those of the pad template, or of a video stream
    with its profile and resolution. *)
Inductive Caps :=
| TemplateCaps
| VideoCaps (profile width height : Z).

(** Dropping the packets up to a sequence number (and that one too if
    [inclusive]), asking upstream for a key frame, setting the output caps,
    queueing a buffer made of a range of packets. *)
Class RtpBaseDepay2 := {
  BaseDepay : Type;
  drop_packets : Z -> bool -> BaseDepay -> BaseDepay;
  push_force_key_unit : BaseDepay -> BaseDepay;
  set_src_caps : Caps -> BaseDepay -> BaseDepay;
  has_current_caps : BaseDepay -> bool;
  queue_buffer : Z * Z -> DepayBuffer -> BaseDepay -> flow unit * BaseDepay;
}.

(** A base class whose queue takes every buffer; dropping packets, asking for
    key frames and setting caps leave the buffers queued so far alone. *)
Class CollectingDepay `{RtpBaseDepay2} := {
  outputs : BaseDepay -> list DepayBuffer;
  drop_outputs n inclusive b : outputs (drop_packets n inclusive b) = outputs b;
  force_outputs b : outputs (push_force_key_unit b) = outputs b;
  caps_outputs caps b : outputs (set_src_caps caps b) = outputs b;
  queue_outputs seqnums buf b :
    exists b', queue_buffer seqnums buf b = (Done tt, b') /\ outputs b' = outputs b ++ [buf];
}.

(** [self.obj().drop_packets(..)] and the like beside the state of the element. *)
Definition on_base `{RtpBaseDepay2} {St} (f : BaseDepay -> BaseDepay) : M (St * BaseDepay) unit :=
  upd_ (fun s => (fst s, f (snd s))).
Definition drop_ `{RtpBaseDepay2} {St} (n : Z) (inclusive : bool) : M (St * BaseDepay) unit :=
  on_base (drop_packets n inclusive).

(** ** Instances *)
Definition keep_packets (limit : Z) : RtpBasePay2 :=
  {| BasePay := list PayPacket; max_payload_size _ := limit; queue_packet p b := (Done tt, b ++ [p]) |}.

Definition keep_packets_accepting (limit : Z) : @AcceptingBase (keep_packets limit) limit.
Proof.
  unshelve econstructor; [exact (fun b => b)|done|]. intros p b. by exists (b ++ [p]).
Defined.

Definition keep_buffers : RtpBaseDepay2 :=
  {| BaseDepay := list DepayBuffer; drop_packets _ _ b := b; push_force_key_unit b := b;
     set_src_caps _ b := b; has_current_caps _ := true; queue_buffer _ buf b := (Done tt, b ++ [buf]) |}.

Definition keep_buffers_collecting : @CollectingDepay keep_buffers.
Proof.
  unshelve econstructor; [exact (fun b => b)|done|done|done|]. intros n buf b. by exists (b ++ [buf]).
Defined.
