(* ===== verification/Av1Common.v ===== *)
(** * AV1 payload format: shared parts

    [av1/common] of the RTP plugin: LEB128 integers ([integers.rs]), the
    aggregation header ([aggr_header.rs]) and OBU headers ([obu.rs]). *)

From S2P Require Import Prelude Flow BitStream.

(** ** LEB128 *)

(** [x << k] on a [u32]: bits shifted out are lost, a distance of 32 or more
    is an overflow. *)
Definition u32_shl (x k : Z) : res Z := if k <? 32 then Ok (wrap U32 (Z.shiftl x k)) else Panic.

Section Leb128.
Context `{BitIO}.

Fixpoint parse_leb128_loop (n : nat) (i value num_bytes : Z) : M BitReader (Z * Z) :=
  match n with
  | O => mret (value, num_bytes)
  | S n =>
      byte ← read_ 8;
      part ← of_res (u32_shl (Z.land byte 127) (i * 7));
      let value := Z.lor value part in
      let num_bytes := num_bytes + 1 in
      if Z.land byte 128 =? 0 then mret (value, num_bytes)
      else parse_leb128_loop n (i + 1) value num_bytes
  end.

Definition parse_leb128 : M BitReader (Z * Z) :=
  ret ← parse_leb128_loop 8 0 0 0;
  _ ← byte_align_;
  mret ret.

(** A [u32] takes at most five bytes, so five rounds are enough. *)
Fixpoint write_leb128_loop (fuel : nat) (writer : BitWriter) (value : Z) : BitWriter :=
  match fuel with
  | O => writer
  | S fuel =>
      let writer := writer_write 1 (if value >? 127 then 1 else 0) writer in
      let writer := writer_write 7 (Z.land value 127) writer in
      let value := Z.shiftr value 7 in
      if value =? 0 then writer_byte_align writer else write_leb128_loop fuel writer value
  end.

Definition write_leb128 (writer : BitWriter) (value : Z) : BitWriter :=
  write_leb128_loop 5 writer value.

(** The bytes [write_leb128(&mut BitWriter::endian(&mut writer, ..), value)]
    gives to [writer]. *)
Definition leb128_bytes (value : Z) : list Z := writer_bytes (write_leb128 writer_endian value).
End Leb128.

Fixpoint leb128_size_loop (fuel : nat) (value bytes : Z) : Z :=
  match fuel with
  | O => bytes
  | S fuel =>
      let value := Z.shiftr value 7 in
      if value =? 0 then bytes else leb128_size_loop fuel value (bytes + 1)
  end.

Definition leb128_size (value : Z) : Z := leb128_size_loop 5 value 1.

(** ** The aggregation header *)
Record AggregationHeader := mkAggr {
  leading_fragment : bool;
  trailing_fragment : bool;
  ag_obu_count : option Z;
  start_of_seq : bool;
}.

Definition bit (x k : Z) : bool := negb (Z.land x (Z.shiftl 1 k) =? 0).

Definition AggregationHeader_from (byte : Z) : AggregationHeader := {|
  leading_fragment := bit byte 7;
  trailing_fragment := bit byte 6;
  ag_obu_count := (let n := Z.land (Z.shiftr byte 4) 3 in if n =? 0 then None else Some n);
  start_of_seq := bit byte 3;
|}.

Definition AggregationHeader_into (aggr : AggregationHeader) : res Z :=
  let byte := Z.lor 0 (Z.shiftl (Z.b2z (leading_fragment aggr)) 7) in
  let byte := Z.lor byte (Z.shiftl (Z.b2z (trailing_fragment aggr)) 6) in
  let byte := Z.lor byte (Z.shiftl (Z.b2z (start_of_seq aggr)) 3) in
  match ag_obu_count aggr with
  | Some n => _ ← assert_ (n <? 4); Ok (Z.lor byte (Z.shiftl n 4))
  | None => Ok byte
  end.

(** ** OBU headers *)
Inductive ObuType :=
| Reserved | SequenceHeader | TemporalDelimiter | FrameHeader | TileGroup | Metadata
| Frame | RedundantFrameHeader | TileList | Padding.

#[export] Instance ObuType_eq_dec : EqDecision ObuType.
Proof. solve_decision. Defined.

Definition ObuType_from (n : Z) : res ObuType :=
  _ ← assert_ (n <? 16);
  Ok (match n with
      | 1 => SequenceHeader | 2 => TemporalDelimiter | 3 => FrameHeader | 4 => TileGroup
      | 5 => Metadata | 6 => Frame | 7 => RedundantFrameHeader | 8 => TileList | 15 => Padding
      | _ => Reserved
      end).

Definition ObuType_into (ty : ObuType) : Z :=
  match ty with
  | Reserved => 0 | SequenceHeader => 1 | TemporalDelimiter => 2 | FrameHeader => 3
  | TileGroup => 4 | Metadata => 5 | Frame => 6 | RedundantFrameHeader => 7 | TileList => 8
  | Padding => 15
  end.

Record UnsizedObu := mkUnsizedObu {
  uo_obu_type : ObuType;
  uo_has_extension : bool;
  uo_temporal_id : Z;
  uo_spatial_id : Z;
  uo_header_len : Z;
  uo_is_fragment : bool;
  uo_size : option (Z * Z);
}.

Record SizedObu := mkSizedObu {
  so_obu_type : ObuType;
  so_has_extension : bool;
  so_has_size_field : bool;
  so_temporal_id : Z;
  so_spatial_id : Z;
  so_size : Z;
  so_leb_size : Z;
  so_header_len : Z;
  so_is_fragment : bool;
}.

#[export] Instance SizedObu_rebuild : Rebuild SizedObu := {|
  rebuild := fun r => mkSizedObu (so_obu_type r) (so_has_extension r) (so_has_size_field r)
    (so_temporal_id r) (so_spatial_id r) (so_size r) (so_leb_size r) (so_header_len r)
    (so_is_fragment r) |}.

Section Obu.
Context `{BitIO}.

Definition UnsizedObu_parse : M BitReader UnsizedObu :=
  forbidden ← read_bit_;
  if forbidden : bool then fail_
  else
    n ← read_ 4;
    obu_type ← of_res (ObuType_from n);
    has_extension ← read_bit_;
    has_size_field ← read_bit_;
    _ ← read_bit_;
    ids ← (if has_extension : bool then t ← read_ 3; s ← read_ 2; mret (t, s) else mret (0, 0));
    _ ← byte_align_;
    size ← (if has_size_field : bool then s ← parse_leb128; mret (Some s) else mret None);
    mret (mkUnsizedObu obu_type has_extension (fst ids) (snd ids) (Z.b2z has_extension + 1) false size).

Definition UnsizedObu_as_sized (self : UnsizedObu) (size leb_size : Z) : SizedObu :=
  mkSizedObu (uo_obu_type self) (uo_has_extension self)
    (match uo_size self with Some _ => true | None => false end)
    (uo_temporal_id self) (uo_spatial_id self) size leb_size (uo_header_len self) (uo_is_fragment self).

Definition SizedObu_parse : M BitReader SizedObu :=
  forbidden ← read_bit_;
  if forbidden : bool then fail_
  else
    n ← read_ 4;
    obu_type ← of_res (ObuType_from n);
    has_extension ← read_bit_;
    has_size_field ← read_bit_;
    if negb has_size_field then fail_
    else
      _ ← read_bit_;
      ids ← (if has_extension : bool then t ← read_ 3; s ← read_ 2; mret (t, s) else mret (0, 0));
      _ ← byte_align_;
      sz ← parse_leb128;
      mret (mkSizedObu obu_type has_extension true (fst ids) (snd ids) (fst sz) (snd sz)
              (Z.b2z has_extension + 1) false).
End Obu.

Definition SizedObu_full_size (self : SizedObu) : res Z :=
  s ← uint_add U32 (so_size self) (so_leb_size self);
  uint_add U32 s (so_header_len self).

Definition SizedObu_partial_size (self : SizedObu) : res Z :=
  uint_add U32 (so_size self) (so_header_len self).

(** ** LEB128: what is written and read *)

(** The reference encoding: groups of seven bits, least significant first. *)
Fixpoint leb_enc (n : nat) (v : Z) : list Z :=
  match n with
  | O => []
  | S n => if v <? 128 then [v] else 128 + v mod 128 :: leb_enc n (v / 128)
  end.

Definition leb (v : Z) : list Z := leb_enc 5 v.

Section Leb128Lemmas.

Lemma leb_enc_bytes n v : 0 <= v -> is_bytes (leb_enc n v).
Proof.
  revert v. induction n as [|n IH]; intros v Hv; cbn [leb_enc]; [constructor|].
  zcase; constructor; unfold is_u8; try lia.
  - constructor.
  - pose proof (Z.mod_pos_bound v 128). lia.
  - apply IH. apply Z.div_pos; lia.
Qed.

Lemma leb_bytes v : 0 <= v -> is_bytes (leb v).
Proof. apply leb_enc_bytes. Qed.

Lemma land127 v : Z.land v 127 = v mod 128.
Proof. apply (Z.land_ones v 7). lia. Qed.

Lemma shiftr7 v : Z.shiftr v 7 = v / 128.
Proof. by rewrite Z.shiftr_div_pow2. Qed.

Lemma byte_of_fields c x :
  0 <= x < 128 -> bits_of 1 c ++ bits_of 7 x = bits_of 8 (c * 128 + x).
Proof. intros Hx. symmetry. apply (bits_of_pack 1 7). exact Hx. Qed.

Lemma leb128_size_loop_spec fuel v b :
  0 <= v < 2 ^ (7 * Z.of_nat fuel) -> (0 < fuel)%nat ->
  leb128_size_loop fuel v b = b + Z.of_nat (length (leb_enc fuel v)) - 1.
Proof.
  revert v b. induction fuel as [|fuel IH]; intros v b Hv Hf; [lia|].
  cbn [leb128_size_loop leb_enc]. rewrite shiftr7.
  destruct (Z.ltb_spec v 128).
  - rewrite Z.div_small by lia. cbn. lia.
  - destruct (Z.eqb_spec (v / 128) 0) as [E|E].
    { apply Z.div_small_iff in E; lia. }
    replace (7 * Z.of_nat (S fuel)) with (7 + 7 * Z.of_nat fuel) in Hv by lia.
    rewrite Z.pow_add_r in Hv by lia. change (2 ^ 7) with 128 in Hv.
    destruct fuel as [|fuel]; [cbn in Hv; lia|].
    rewrite IH; [cbn [length]; lia| |lia].
    split; [apply Z.div_pos; lia|]. apply Z.div_lt_upper_bound; lia.
Qed.

Lemma leb128_size_eq v : is_u32 v -> leb128_size v = Z.of_nat (length (leb v)).
Proof.
  intros Hv. unfold leb128_size. rewrite leb128_size_loop_spec; [unfold leb; lia| |lia].
  unfold is_u32 in Hv. change (2 ^ (7 * Z.of_nat 5)) with 34359738368. lia.
Qed.

Context `{BitIOLaws}.

Lemma write_leb128_loop_spec fuel w v bs :
  0 <= v < 2 ^ (7 * Z.of_nat fuel) -> (0 < fuel)%nat ->
  written w = bytes_bits bs ->
  written (write_leb128_loop fuel w v) = bytes_bits (bs ++ leb_enc fuel v).
Proof.
  revert w v bs. induction fuel as [|fuel IH]; intros w v bs Hv Hf Hw; [lia|].
  cbn [write_leb128_loop leb_enc]. rewrite shiftr7, land127.
  pose proof (Z.mod_pos_bound v 128 ltac:(lia)) as Hm.
  set (w' := writer_write 7 _ _).
  assert (Hw' : written w' = bytes_bits (bs ++ [(if v >? 127 then 1 else 0) * 128 + v mod 128])).
  { subst w'. rewrite !written_write by (destruct (v >? 127); cbn; lia).
    rewrite Hw, <- app_assoc, byte_of_fields by done.
    rewrite bytes_bits_app. unfold bytes_bits. cbn [map concat]. by rewrite app_nil_r. }
  destruct (Z.ltb_spec v 128).
  - rewrite Z.div_small by lia. cbn.
    apply written_align. rewrite Hw'. rewrite Z.gtb_ltb.
    destruct (Z.ltb_spec 127 v); [lia|]. by rewrite Z.mod_small by lia.
  - destruct (Z.eqb_spec (v / 128) 0) as [E|E].
    { apply Z.div_small_iff in E; lia. }
    replace (7 * Z.of_nat (S fuel)) with (7 + 7 * Z.of_nat fuel) in Hv by lia.
    rewrite Z.pow_add_r in Hv by lia. change (2 ^ 7) with 128 in Hv.
    destruct fuel as [|fuel]; [cbn in Hv; lia|].
    erewrite IH; [| |lia|exact Hw'].
    + rewrite <- app_assoc. cbn [app]. rewrite Z.gtb_ltb.
      destruct (Z.ltb_spec 127 v); [|lia]. done.
    + split; [apply Z.div_pos; lia|]. apply Z.div_lt_upper_bound; lia.
Qed.

Lemma leb128_bytes_eq v : is_u32 v -> leb128_bytes v = leb v.
Proof.
  intros Hv. unfold leb128_bytes. apply bytes_aligned.
  - apply leb_bytes. unfold is_u32 in Hv. lia.
  - apply (write_leb128_loop_spec 5 _ _ []); [|lia|apply written_endian].
    unfold is_u32 in Hv. change (2 ^ (7 * Z.of_nat 5)) with 34359738368. lia.
Qed.

(** Reading one byte of the encoding. *)
Lemma parse_leb128_step n i value num byte r rest :
  is_u8 byte -> unread r = bits_of 8 byte ++ rest ->
  exists r', unread r' = rest /\
    parse_leb128_loop (S n) i value num r =
      match u32_shl (byte mod 128) (i * 7) with
      | Ok part => if byte <? 128 then (Done (Z.lor value part, num + 1), r')
                   else parse_leb128_loop n (i + 1) (Z.lor value part) (num + 1) r'
      | Panic => (Crash, r')
      end.
Proof.
  intros Hb Hr. destruct (parses_field 8 byte Hb r rest Hr) as (r' & Hr' & Hu).
  exists r'. split; [done|]. cbn [parse_leb128_loop].
  rewrite (M_bind_done _ _ _ _ _ Hr'), land127.
  unfold of_res, mbind, M_bind. destruct (u32_shl _ _) as [part|]; [|done].
  assert ((Z.land byte 128 =? 0) = (byte <? 128)) as ->.
  { change 128 with (2 ^ 7) at 1. rewrite Z.land_comm.
    destruct (Z.testbit byte 7) eqn:Ht.
    - assert (Z.land (2 ^ 7) byte <> 0) as Hnz.
      { intros E. apply (f_equal (fun x => Z.testbit x 7)) in E.
        by rewrite Z.land_spec, Ht in E. }
      destruct (Z.ltb_spec byte 128) as [Hlt|]; [|by apply Z.eqb_neq].
      rewrite Z.testbit_odd, Z.shiftr_div_pow2, Z.div_small in Ht by (unfold is_u8 in Hb; lia). done.
    - assert (Z.land (2 ^ 7) byte = 0) as ->.
      { apply Z.bits_inj'. intros k Hk. rewrite Z.land_spec, Z.bits_0, Z.pow2_bits_eqb by lia.
        destruct (Z.eqb_spec 7 k) as [<-|]; [by rewrite Ht|done]. }
      destruct (Z.ltb_spec byte 128) as [|Hge]; [done|].
      rewrite Z.testbit_odd, Z.shiftr_div_pow2 in Ht by lia.
      assert (byte / 2 ^ 7 = 1) as E; [|by rewrite E in Ht].
      symmetry. apply (Z.div_unique _ _ _ (byte - 128)); unfold is_u8 in Hb; lia. }
  by destruct (byte <? 128).
Qed.

(** Reading the encoding of [v] above the [7 * i] bits read so far. *)
Lemma parse_leb128_loop_spec n k i value num v r rest :
  (k <= n)%nat -> 0 <= i -> i * 7 < 32 -> 0 <= value < 2 ^ (i * 7) ->
  0 <= v -> v * 2 ^ (i * 7) < U32 -> v < 2 ^ (7 * Z.of_nat k) -> (0 < k)%nat ->
  unread r = bytes_bits (leb_enc k v) ++ rest ->
  exists r', unread r' = rest /\
    parse_leb128_loop n i value num r =
      (Done (value + v * 2 ^ (i * 7), num + Z.of_nat (length (leb_enc k v))), r').
Proof.
  revert n i value num v r. induction k as [|k IH]; intros n i value num v r
    Hn Hi Hi32 Hvalue Hv Hv32 Hvk Hk Hr; [lia|].
  destruct n as [|n]; [lia|]. cbn [leb_enc] in *.
  assert (Hpart : forall x, 0 <= x < 128 -> x * 2 ^ (i * 7) < U32 ->
    u32_shl x (i * 7) = Ok (x * 2 ^ (i * 7)) /\
    Z.lor value (x * 2 ^ (i * 7)) = value + x * 2 ^ (i * 7)).
  { intros x Hx Hx32. unfold u32_shl. destruct (Z.ltb_spec (i * 7) 32); [|lia].
    rewrite Z.shiftl_mul_pow2, wrap_small by nia. split; [done|].
    rewrite (Z.add_comm value), <- lor_shiftl_add by lia.
    by rewrite Z.lor_comm, Z.shiftl_mul_pow2 by lia. }
  destruct (Z.ltb_spec v 128) as [Hlt|Hge]; cbn [length].
  - destruct (parse_leb128_step n i value num v r rest) as (r' & Hu & ->);
      [unfold is_u8; lia|rewrite Hr; by rewrite bytes_bits_cons|].
    exists r'. split; [done|].
    rewrite Z.mod_small by lia. destruct (Hpart v) as [-> ->]; [lia..|].
    destruct (Z.ltb_spec v 128); [|lia]. repeat f_equal; lia.
  - rewrite bytes_bits_cons, <- app_assoc in Hr.
    pose proof (Z.mod_pos_bound v 128 ltac:(lia)) as Hm.
    pose proof (Z.div_mod v 128 ltac:(lia)) as Hdm.
    assert (1 <= v / 128) by (apply Z.div_le_lower_bound; lia).
    pose proof (Z.pow_pos_nonneg 2 (i * 7) ltac:(lia) ltac:(lia)).
    assert (Hp : 2 ^ ((i + 1) * 7) = 2 ^ (i * 7) * 128).
    { replace ((i + 1) * 7) with (i * 7 + 7) by lia. by rewrite Z.pow_add_r by lia. }
    destruct (parse_leb128_step n i value num (128 + v mod 128) r _ ltac:(unfold is_u8; lia) Hr)
      as (r1 & Hu1 & ->).
    replace ((128 + v mod 128) mod 128) with (v mod 128).
    2:{ rewrite Z.add_mod, Z.mod_same, Z.add_0_l, !Z.mod_mod by lia. done. }
    destruct (Hpart (v mod 128)) as [-> ->]; [lia|nia|].
    destruct (Z.ltb_spec (128 + v mod 128) 128); [lia|].
    replace (7 * Z.of_nat (S k)) with (7 + 7 * Z.of_nat k) in Hvk by lia.
    rewrite Z.pow_add_r in Hvk by lia. change (2 ^ 7) with 128 in Hvk.
    destruct (IH n (i + 1) (value + v mod 128 * 2 ^ (i * 7)) (num + 1) (v / 128) r1)
      as (r' & Hu' & Heq); [lia|lia| |nia|lia|nia| | |done|].
    + destruct (Z_lt_le_dec ((i + 1) * 7) 32) as [|Hbig]; [done|].
      assert (2 ^ 32 <= 2 ^ ((i + 1) * 7)) by (apply Z.pow_le_mono_r; lia).
      change (2 ^ 32) with U32 in *. nia.
    + apply Z.div_lt_upper_bound; lia.
    + destruct k; [cbn in Hvk; lia|lia].
    + exists r'. split; [done|]. rewrite Heq, Hp.
      assert (v * 2 ^ (i * 7) = (128 * (v / 128) + v mod 128) * 2 ^ (i * 7)) as -> by (by rewrite <- Hdm).
      do 3 f_equal; lia.
Qed.

Lemma parses_leb128 v : is_u32 v ->
  parses_to_byte parse_leb128 (bytes_bits (leb v)) (v, Z.of_nat (length (leb v))).
Proof.
  intros Hv r rest Hr. unfold is_u32 in Hv.
  destruct (parse_leb128_loop_spec 8 5 0 0 0 v r (bytes_bits rest)) as (r1 & Hu & Hp);
    [lia..| |lia|done|].
  { change (2 ^ (7 * Z.of_nat 5)) with 34359738368. lia. }
  unfold parse_leb128. rewrite (M_bind_done _ _ _ _ _ Hp).
  rewrite Z.add_0_l, Z.mul_1_r. eexists. split; [done|].
  by apply (unread_align r1 []); [|cbn; lia].
Qed.

(** Five bytes that announce a sixth make the shift overflow. *)
Lemma parse_leb128_too_long bs b rest :
  length bs = 5%nat -> Forall (fun x => 128 <= x < 256) bs -> is_u8 b ->
  run_parser parse_leb128 (bs ++ b :: rest) = Crash.
Proof.
  intros Hlen Hbs Hb. do 5 (destruct bs as [|? bs]; [done|]). destruct bs; [|done].
  repeat match goal with H : Forall _ (_ :: _) |- _ => inversion H; clear H; subst end.
  unfold run_parser. set (r := reader_endian _).
  assert (Hr : unread r = bytes_bits ([z; z0; z1; z2; z3] ++ b :: rest)) by apply unread_endian.
  clearbody r. cbn [app] in Hr. rewrite !bytes_bits_cons in Hr.
  unfold parse_leb128.
  enough (exists r', parse_leb128_loop 8 0 0 0 r = (Crash, r')) as [r' Hc].
  { unfold mbind, M_bind. by rewrite Hc. }
  do 5 (edestruct parse_leb128_step as (r1 & Hu1 & ->); [|exact Hr|];
    [unfold is_u8; lia|];
    rewrite (proj2 (Z.ltb_ge _ 128)) by lia;
    clear Hr; rename Hu1 into Hr; try clear r; rename r1 into r;
    unfold u32_shl; match goal with |- context [Z.ltb ?a 32] => change (Z.ltb a 32) with true end;
    cbv iota).
  edestruct parse_leb128_step as (r1 & Hu1 & ->); [exact Hb|exact Hr|].
  unfold u32_shl. by eexists.
Qed.
End Leb128Lemmas.

(** ** OBU headers: what is parsed *)

(** The fields of a header's bytes. *)
Definition hd_type (b0 : Z) : ObuType :=
  match ObuType_from (val_of [Z.testbit b0 6; Z.testbit b0 5; Z.testbit b0 4; Z.testbit b0 3]) with
  | Ok t => t
  | Panic => Reserved
  end.
Definition hd_temporal (hdr : list Z) : Z :=
  match hdr with [_; b1] => val_of [Z.testbit b1 7; Z.testbit b1 6; Z.testbit b1 5] | _ => 0 end.
Definition hd_spatial (hdr : list Z) : Z :=
  match hdr with [_; b1] => val_of [Z.testbit b1 4; Z.testbit b1 3] | _ => 0 end.

(** One byte, or two with the extension bit set; the forbidden bit is clear. *)
Definition is_header (hdr : list Z) : Prop :=
  is_bytes hdr /\
  exists b0 ext, hdr = b0 :: ext /\ Z.testbit b0 7 = false /\
    length ext = if Z.testbit b0 2 then 1%nat else 0%nat.

#[export] Instance is_header_dec hdr : Decision (is_header hdr).
Proof.
  refine (match hdr with
          | b0 :: ext =>
              cast_if_and3 (decide (Forall (fun x => 0 <= x < U8) (b0 :: ext))) (decide (Z.testbit b0 7 = false))
                (decide (length ext = if Z.testbit b0 2 then 1%nat else 0%nat))
          | [] => right _
          end).
  - by intros (_ & b & l & E & _).
  - split; [done|]. by exists b0, ext.
  - by intros (_ & b & l & [= <- <-] & _ & Hl).
  - by intros (_ & b & l & [= <- <-] & Hb & _).
  - by intros (Hb & _).
Defined.

Section ObuLemmas.
Context `{BitIOLaws}.

Lemma obu_type_total l : length l = 4%nat -> exists t, ObuType_from (val_of l) = Ok t.
Proof.
  intros Hl. pose proof (val_of_bound l) as Hb. rewrite Hl in Hb. change (2 ^ Z.of_nat 4) with 16 in Hb.
  unfold ObuType_from. destruct (Z.ltb_spec (val_of l) 16); [|lia]. by eexists.
Qed.

(** The part of the header both parsers share: the extension and the alignment. *)
Lemma parses_extension {A} (k : Z * Z -> M BitReader A) b0 ext bs a :
  is_header (b0 :: ext) ->
  parses_to_byte (k (hd_temporal (b0 :: ext), hd_spatial (b0 :: ext))) (bytes_bits bs) a ->
  parses_to_byte
    (ids ← (if Z.testbit b0 2 then t ← read_ 3; s ← read_ 2; mret (t, s) else mret (0, 0));
     _ ← byte_align_;
     k ids) (bytes_bits (ext ++ bs)) a.
Proof.
  intros (Hbytes & ? & ? & [= <- <-] & _ & Hext) Hk. rewrite bytes_bits_app.
  destruct (Z.testbit b0 2).
  - destruct ext as [|b1 [|]]; [done| |done]. cbn [hd_temporal hd_spatial] in Hk.
    unfold bytes_bits at 1. cbn [map concat]. rewrite app_nil_r. cbn [bits_of Z.of_nat Pos.of_succ_nat Pos.succ].
    change (?b7 :: ?b6 :: ?b5 :: ?b4 :: ?b3 :: ?l) with ([b7; b6; b5] ++ [b4; b3] ++ l).
    rewrite <- !app_assoc, (app_assoc [_; _; _]).
    eapply parses_to_byte_bind.
    + eapply (parses_bind _ _ [_; _; _] [_; _]); [apply (parses_read [_; _; _])|].
      eapply (parses_bind _ _ [_; _] []); [apply (parses_read [_; _])|apply parses_ret].
    + apply parses_align; [cbn; lia|exact Hk].
  - destruct ext; [|done]. cbn [hd_temporal hd_spatial] in Hk.
    change (bytes_bits []) with ([] ++ [] : list bool). rewrite <- app_assoc.
    eapply parses_to_byte_bind; [apply parses_ret|]. by apply (parses_align _ []); [cbn; lia|].
Qed.

Lemma header_bits b0 ext :
  is_header (b0 :: ext) ->
  bytes_bits (b0 :: ext) =
    [false] ++ [Z.testbit b0 6; Z.testbit b0 5; Z.testbit b0 4; Z.testbit b0 3] ++
    [Z.testbit b0 2] ++ [Z.testbit b0 1] ++ [Z.testbit b0 0] ++ bytes_bits ext.
Proof.
  intros (_ & ? & ? & [= <- <-] & H7 & _). rewrite bytes_bits_cons. rewrite <- H7. reflexivity.
Qed.

Lemma hd_type_ok b0 :
  ObuType_from (val_of [Z.testbit b0 6; Z.testbit b0 5; Z.testbit b0 4; Z.testbit b0 3]) = Ok (hd_type b0).
Proof. unfold hd_type. by edestruct obu_type_total as [t ->]. Qed.

Lemma parses_of_res {A B} (r : res A) (k : A -> M BitReader B) l a b :
  r = Ok a -> parses_to_byte (k a) l b -> parses_to_byte (of_res r ≫= k) l b.
Proof. intros -> Hk. exact Hk. Qed.

(** A header with its size field. *)
Lemma parses_sized b0 ext v :
  is_header (b0 :: ext) -> Z.testbit b0 1 = true -> is_u32 v ->
  parses_to_byte SizedObu_parse (bytes_bits (b0 :: ext ++ leb v))
    (mkSizedObu (hd_type b0) (Z.testbit b0 2) true (hd_temporal (b0 :: ext)) (hd_spatial (b0 :: ext))
       v (Z.of_nat (length (leb v))) (Z.of_nat (length (b0 :: ext))) false).
Proof.
  intros Hh H1 Hv. change (b0 :: ext ++ leb v) with ((b0 :: ext) ++ leb v).
  rewrite bytes_bits_app, header_bits, <- !app_assoc by done.
  eapply parses_to_byte_bind; [apply parses_bit|]. cbn iota.
  eapply parses_to_byte_bind; [apply (parses_read [_; _; _; _])|].
  eapply parses_of_res; [apply hd_type_ok|].
  do 2 (eapply parses_to_byte_bind; [apply parses_bit|]).
  rewrite H1. cbn [negb].
  eapply parses_to_byte_bind; [apply parses_bit|].
  rewrite <- bytes_bits_app.
  eapply (parses_extension (fun ids => sz ← parse_leb128; _)); [done|].
  intros r rest Hr. destruct (parses_leb128 v Hv r rest Hr) as (r' & Hr' & Hu).
  exists r'. rewrite (M_bind_done _ _ _ _ _ Hr'). split; [|done].
  destruct Hh as (_ & ? & ? & [= <- <-] & _ & Hext).
  cbn [fst snd]. unfold mret, M_ret. do 3 f_equal. cbn [length]. rewrite Hext.
  by destruct (Z.testbit b0 2).
Qed.

(** A header without a size field. *)
Lemma parses_unsized b0 ext :
  is_header (b0 :: ext) -> Z.testbit b0 1 = false ->
  parses_to_byte UnsizedObu_parse (bytes_bits (b0 :: ext))
    (mkUnsizedObu (hd_type b0) (Z.testbit b0 2) (hd_temporal (b0 :: ext)) (hd_spatial (b0 :: ext))
       (Z.of_nat (length (b0 :: ext))) false None).
Proof.
  intros Hh H1. rewrite header_bits by done.
  eapply parses_to_byte_bind; [apply parses_bit|]. cbn iota.
  eapply parses_to_byte_bind; [apply (parses_read [_; _; _; _])|].
  eapply parses_of_res; [apply hd_type_ok|].
  do 2 (eapply parses_to_byte_bind; [apply parses_bit|]).
  rewrite H1.
  eapply parses_to_byte_bind; [apply parses_bit|].
  rewrite <- (app_nil_r ext) at 1.
  eapply (parses_extension (fun ids => size ← mret None; _)); [done|].
  apply parses_weaken. change (bytes_bits []) with ([] ++ [] : list bool).
  eapply parses_bind; [apply parses_ret|].
  destruct Hh as (_ & ? & ? & [= <- <-] & _ & Hext).
  replace (Z.of_nat (length (b0 :: ext))) with (Z.b2z (Z.testbit b0 2) + 1)
    by (cbn [length]; rewrite Hext; by destruct (Z.testbit b0 2)).
  apply parses_ret.
Qed.
End ObuLemmas.
