(* ===== verification/Av1Pay.v ===== *)
(** * The AV1 payloader

    [av1/pay/imp.rs] of the RTP plugin: OBUs are parsed from the input buffers
    and queued, packets are planned ([consider_new_packet]) and written
    ([generate_new_packet]) until no full packet is left. *)

From S2P Require Import Prelude Flow BitStream RtpBase Av1Common.

(** ** Data *)
Record PacketOBUData := mkPacketOBUData {
  pk_obu_count : Z;
  pk_payload_size : Z;
  pk_start_of_coded_video_sequence : bool;
  pk_last_obu_fragment_size : option Z;
  pk_omit_last_size_field : bool;
  pk_ends_temporal_unit : bool;
}.

#[export] Instance PacketOBUData_rebuild : Rebuild PacketOBUData := {|
  rebuild := fun r => mkPacketOBUData (pk_obu_count r) (pk_payload_size r)
    (pk_start_of_coded_video_sequence r) (pk_last_obu_fragment_size r)
    (pk_omit_last_size_field r) (pk_ends_temporal_unit r) |}.

(** One byte is used for the aggregation header. *)
Definition PacketOBUData_default : PacketOBUData := {|
  pk_payload_size := 1;
  pk_omit_last_size_field := true;
  pk_start_of_coded_video_sequence := false;
  pk_obu_count := 0;
  pk_last_obu_fragment_size := None;
  pk_ends_temporal_unit := false;
|}.

Record ObuData := mkObuData {
  od_info : SizedObu;
  od_keyframe : bool;
  od_bytes : list Z;
  od_offset : Z;
  od_id : Z;
}.

#[export] Instance ObuData_rebuild : Rebuild ObuData := {|
  rebuild := fun r => mkObuData (od_info r) (od_keyframe r) (od_bytes r) (od_offset r) (od_id r) |}.

Inductive KeyFrameState := KfUndefined | KfTemporalDelimiter | KfSequenceHeader.

#[export] Instance KeyFrameState_eq_dec : EqDecision KeyFrameState.
Proof. solve_decision. Defined.

Record Av1PayState := mkAv1PayState {
  ps_obus : list ObuData;
  ps_open_obu_fragment : bool;
  ps_framed : bool;
  ps_last_sequence_header : option ObuData;
  ps_key_frame_state : KeyFrameState;
}.

#[export] Instance Av1PayState_rebuild : Rebuild Av1PayState := {|
  rebuild := fun r => mkAv1PayState (ps_obus r) (ps_open_obu_fragment r) (ps_framed r)
    (ps_last_sequence_header r) (ps_key_frame_state r) |}.

Definition Av1PayState_default : Av1PayState := mkAv1PayState [] false false None KfUndefined.

(** ** Reading OBUs *)

(** [read_exact] of [n] bytes at position [pos] of a cursor. *)
Definition read_exact (data : list Z) (pos n : Z) : option (list Z) :=
  if pos + n <=? Z.of_nat (length data)
  then Some (take (Z.to_nat n) (drop (Z.to_nat pos) data)) else None.

(** [bytes[0] &= !2_u8] *)
Definition clear_size_field (bytes : list Z) : res (list Z) :=
  match bytes with
  | b0 :: bytes => Ok (Z.ldiff b0 2 :: bytes)
  | [] => Panic
  end.

(** Queue an OBU; a key frame without its sequence header gets the last one. *)
Definition store_obu (this_obu : ObuData) (id : Z) (keyframe : bool) (state : Av1PayState) : Av1PayState :=
  let obu_type := so_obu_type (od_info this_obu) in
  let state :=
    if keyframe then
      if decide (obu_type = SequenceHeader) then
        state <| ps_last_sequence_header := Some this_obu |>
              <| ps_key_frame_state := KfSequenceHeader |>
      else if decide ((obu_type = FrameHeader \/ obu_type = Frame) /\
                      ps_key_frame_state state = KfTemporalDelimiter) then
        match ps_last_sequence_header state with
        | Some seq_hdr =>
            state <| ps_obus ::= fun l => l ++ [seq_hdr <| od_id := id |>] |>
                  <| ps_key_frame_state := KfSequenceHeader |>
        | None => state
        end
      else state
    else state in
  state <| ps_obus ::= fun l => l ++ [this_obu] |>.

(** The variables of the loop of [consider_new_packet]. *)
Record Planning := mkPlanning {
  pl_packet : PacketOBUData;
  pl_pending_bytes : Z;
  pl_required_ids : option (Z * Z);
  pl_contains_keyframe : bool;
  pl_contains_sequence_header : bool;
}.

#[export] Instance Planning_rebuild : Rebuild Planning := {|
  rebuild := fun r => mkPlanning (pl_packet r) (pl_pending_bytes r) (pl_required_ids r)
    (pl_contains_keyframe r) (pl_contains_sequence_header r) |}.

Section Pay.
Context `{BitIO} `{RtpBasePay2}.

(** The parsing loop of [handle_new_obus], the cursor at [pos]. *)
Fixpoint parse_obus (fuel : nat) (data : list Z) (pos id : Z) (keyframe : bool) : M Av1PayState unit :=
  match fuel with
  | O => crash_
  | S fuel =>
      if negb (pos <? Z.of_nat (length data)) then mret tt
      else
        let obu_start := pos in
        parsed ← of_flow (run_parser SizedObu_parse (drop (Z.to_nat pos) data));
        let obu := fst parsed in
        let pos := Z.of_nat (length data) - Z.of_nat (length (snd parsed)) in
        match so_obu_type obu with
        | TileList | Padding => parse_obus fuel data (pos + so_size obu) id keyframe
        | TemporalDelimiter =>
            if negb (so_size obu =? 0) then fail_
            else
              _ ← upd_ (fun state =>
                state <| ps_obus ::= fun l => l ++ [mkObuData obu keyframe [] 0 id] |>
                      <| ps_key_frame_state := if keyframe then KfTemporalDelimiter else KfUndefined |>);
              parse_obus fuel data pos id keyframe
        | _ =>
            bytes_total ← of_res (uint_add U32 (so_header_len obu) (so_size obu));
            header ← of_option (read_exact data obu_start (so_header_len obu));
            header ← of_res (clear_size_field header);
            let pos := obu_start + so_header_len obu + so_leb_size obu in
            payload ← of_option (read_exact data pos (bytes_total - so_header_len obu));
            _ ← upd_ (store_obu (mkObuData obu keyframe (header ++ payload) 0 id) id keyframe);
            parse_obus fuel data (pos + (bytes_total - so_header_len obu)) id keyframe
        end
  end.

(** ** Planning a packet *)

Definition matching_obu_ids (obu : SizedObu) (required_ids : option (Z * Z)) : bool * option (Z * Z) :=
  match required_ids with
  | Some (sid, tid) => ((sid =? so_spatial_id obu) && (tid =? so_temporal_id obu), required_ids)
  | None => (true, Some (so_spatial_id obu, so_temporal_id obu))
  end.

(** [packet.start_of_coded_video_sequence = contains_keyframe && contains_sequence_header] *)
Definition note_start (p : Planning) : PacketOBUData :=
  (pl_packet p) <| pk_start_of_coded_video_sequence := pl_contains_keyframe p && pl_contains_sequence_header p |>.

(** More than three OBUs need a size field on the last one too. *)
Definition with_last_size (p : Planning) (packet : PacketOBUData) : res PacketOBUData :=
  if pk_obu_count packet >? 3 then
    size ← uint_add U32 (pk_payload_size packet) (pl_pending_bytes p);
    Ok (packet <| pk_payload_size := size |> <| pk_omit_last_size_field := false |>)
  else Ok packet.

Definition note_contents (p : Planning) (obu : ObuData) : Planning :=
  p <| pl_contains_keyframe ::= fun b => b || od_keyframe obu |>
    <| pl_contains_sequence_header ::=
         fun b => b || bool_decide (so_obu_type (od_info obu) = SequenceHeader) |>.

(** Put an OBU into the packet whole, without its own size field. *)
Definition take_obu (p : Planning) (obu : ObuData) : res Planning :=
  partial ← SizedObu_partial_size (od_info obu);
  more ← uint_add U32 partial (pl_pending_bytes p);
  size ← uint_add U32 (pk_payload_size (pl_packet p)) more;
  Ok (note_contents
        (p <| pl_packet := (pl_packet p) <| pk_obu_count ::= Z.add 1 |> <| pk_payload_size := size |> |>) obu).

(** The last branch of the loop: a fragment of the OBU, if there is room for one. *)
Definition consider_fragment (payload_limit : Z) (marker is_last : bool) (p : Planning) (obu : ObuData)
  : res PacketOBUData :=
  let current := od_info obu in
  let packet := pl_packet p in
  leb_size ← (if pk_obu_count packet <? 3 then Ok 0
              else room ← uint_sub payload_limit (pk_payload_size packet); Ok (leb128_size room));
  used ← uint_add U32 (pk_payload_size packet) (pl_pending_bytes p);
  used_leb ← uint_add U32 used leb_size;
  needed ← uint_add U32 used_leb (so_header_len current);
  if needed <? payload_limit then
    a ← uint_sub payload_limit (pk_payload_size packet);
    b ← uint_sub a (pl_pending_bytes p);
    fragment ← uint_sub b leb_size;
    Ok (note_start (note_contents
      (p <| pl_packet := packet <| pk_obu_count ::= Z.add 1 |>
                                <| pk_last_obu_fragment_size := Some fragment |>
                                <| pk_payload_size := payload_limit |>
                                <| pk_omit_last_size_field := leb_size =? 0 |> |>) obu))
  else if pk_obu_count packet >? 3 then
    Ok (note_start (p <| pl_packet := packet <| pk_ends_temporal_unit := marker && is_last |>
                                             <| pk_payload_size := used |> |>))
  else Ok (note_start p).

(** One round of the loop: the packet is complete, or the loop goes on. *)
Definition consider_obu (payload_limit : Z) (marker is_last : bool) (p : Planning) (obu : ObuData)
  : res (PacketOBUData + Planning) :=
  let current := od_info obu in
  let packet := pl_packet p in
  if decide (so_obu_type current = TemporalDelimiter) then
    if pk_obu_count packet >? 0 then
      packet ← with_last_size p ((note_start p) <| pk_ends_temporal_unit := true |>);
      Ok (inl packet)
    else Ok (inr (p <| pl_contains_keyframe ::= fun b => b || od_keyframe obu |>))
  else
    let '(stop, ids) :=
      if (pk_payload_size packet >=? payload_limit) ||
         ((pk_obu_count packet >? 0) && bool_decide (so_obu_type current = SequenceHeader))
      then (true, pl_required_ids p)
      else let '(same, ids) := matching_obu_ids current (pl_required_ids p) in (negb same, ids) in
    if stop : bool then
      packet ← with_last_size p (note_start p);
      Ok (inl (packet <| pk_ends_temporal_unit := marker && is_last |>))
    else
      let p := p <| pl_required_ids := ids |> in
      used ← uint_add U32 (pk_payload_size packet) (pl_pending_bytes p);
      full ← SizedObu_full_size current;
      with_full ← uint_add U32 used full;
      if with_full <=? payload_limit then
        p ← take_obu p obu;
        Ok (inr (p <| pl_pending_bytes := so_leb_size current |>))
      else
        fits_bare ← (if pk_obu_count packet <? 3 then
                       partial ← SizedObu_partial_size current;
                       with_partial ← uint_add U32 used partial;
                       Ok (with_partial <=? payload_limit)
                     else Ok false);
        if fits_bare : bool then
          p ← take_obu p obu;
          Ok (inl ((note_start p) <| pk_ends_temporal_unit := marker && is_last |>))
        else
          packet ← consider_fragment payload_limit marker is_last p obu;
          Ok (inl packet).

Fixpoint consider_loop (payload_limit : Z) (marker : bool) (obus : list ObuData) (p : Planning)
  : res (PacketOBUData + Planning) :=
  match obus with
  | [] => Ok (inr p)
  | obu :: obus =>
      step ← consider_obu payload_limit marker (match obus with [] => true | _ => false end) p obu;
      match step with
      | inl packet => Ok (inl packet)
      | inr p => consider_loop payload_limit marker obus p
      end
  end.

Definition Planning_start : Planning := mkPlanning PacketOBUData_default 0 None false false.

Definition consider_new_packet (payload_limit : Z) (state : Av1PayState) (force marker : bool)
  : res (option PacketOBUData) :=
  ret ← consider_loop payload_limit marker (ps_obus state) Planning_start;
  match ret with
  | inl packet => Ok (Some packet)
  | inr p =>
      if (force || marker) && (pk_obu_count (pl_packet p) >? 0) then
        packet ← with_last_size p (pl_packet p);
        Ok (Some ((note_start (p <| pl_packet := packet |>)) <| pk_ends_temporal_unit := true |>))
      else Ok None
  end.

(** ** Writing a packet *)

(** [loop { pop_front().unwrap() }] up to the first OBU that is no temporal delimiter. *)
Fixpoint pop_obu (obus : list ObuData) : res (ObuData * list ObuData) :=
  match obus with
  | [] => Panic
  | obu :: obus =>
      if decide (so_obu_type (od_info obu) = TemporalDelimiter) then pop_obu obus else Ok (obu, obus)
  end.

(** [&bytes[from..]] and [&bytes[from..to]] *)
Definition slice_from (bytes : list Z) (from : Z) : res (list Z) :=
  if from <=? Z.of_nat (length bytes) then Ok (drop (Z.to_nat from) bytes) else Panic.
Definition slice_range (bytes : list Z) (from to : Z) : res (list Z) :=
  if (from <=? to) && (to <=? Z.of_nat (length bytes))
  then Ok (take (Z.to_nat (to - from)) (drop (Z.to_nat from) bytes)) else Panic.

(** The loop over all OBUs of the packet but the last. *)
Fixpoint write_obus (n : nat) (obus : list ObuData) (payload : list Z) (start_id : option Z)
  : res (list ObuData * list Z * option Z) :=
  match n with
  | O => Ok (obus, payload, start_id)
  | S n =>
      '(obu, obus) ← pop_obu obus;
      let start_id := match start_id with Some i => Some i | None => Some (od_id obu) end in
      size ← uint_add U32 (so_size (od_info obu)) (so_header_len (od_info obu));
      bytes ← slice_from (od_bytes obu) (od_offset obu);
      write_obus n obus (payload ++ leb128_bytes size ++ bytes) start_id
  end.

Definition aggregation_header (open_obu_fragment : bool) (packet : PacketOBUData) : Z :=
  let w := if pk_omit_last_size_field packet && (pk_obu_count packet <? 4) then pk_obu_count packet else 0 in
  Z.lor (Z.lor (Z.lor (Z.shiftl (Z.b2z open_obu_fragment) 7)
    (Z.shiftl (match pk_last_obu_fragment_size packet with Some _ => 1 | None => 0 end) 6))
    (wrap U8 (Z.shiftl (wrap U8 w) 4)))
    (Z.shiftl (Z.b2z (pk_start_of_coded_video_sequence packet)) 3).

(** The last OBU is written separately: whole, or the next fragment of it. *)
Definition write_last_obu (packet : PacketOBUData) (last_obu : ObuData) (rest : list ObuData)
  : res (list Z * list ObuData) :=
  len ← uint_sub (wrap U32 (Z.of_nat (length (od_bytes last_obu)))) (wrap U32 (od_offset last_obu));
  match pk_last_obu_fragment_size packet with
  | None =>
      let field := if pk_omit_last_size_field packet then [] else leb128_bytes len in
      bytes ← slice_from (od_bytes last_obu) (od_offset last_obu);
      Ok (field ++ bytes, rest)
  | Some obu_size =>
      let field := if pk_omit_last_size_field packet then [] else leb128_bytes obu_size in
      bytes ← slice_range (od_bytes last_obu) (od_offset last_obu) (od_offset last_obu + obu_size);
      new_size ← uint_sub len obu_size;
      let info := (od_info last_obu) <| so_size := new_size |> <| so_header_len := 0 |>
                    <| so_leb_size := leb128_size new_size |> <| so_is_fragment := true |> in
      Ok (field ++ bytes,
          (last_obu <| od_info := info |> <| od_offset := od_offset last_obu + obu_size |>) :: rest)
  end.

Definition build_packet (state : Av1PayState) (packet : PacketOBUData) : res (PayPacket * Av1PayState) :=
  let header := aggregation_header (ps_open_obu_fragment state) packet in
  '(obus, payload, start_id) ← write_obus (Z.to_nat (pk_obu_count packet - 1)) (ps_obus state) [header] None;
  '(last_obu, rest) ← pop_obu obus;
  let start_id := match start_id with Some i => i | None => od_id last_obu end in
  '(bytes, obus) ← write_last_obu packet last_obu rest;
  Ok (mkPayPacket start_id (od_id last_obu) (pk_ends_temporal_unit packet) (payload ++ bytes),
      state <| ps_obus := obus |>
            <| ps_open_obu_fragment := match pk_last_obu_fragment_size packet with Some _ => true | None => false end |>).

Definition generate_new_packet (packet : PacketOBUData) : M (Av1PayState * BasePay) unit :=
  s ← get_;
  built ← of_res (build_packet (fst s) packet);
  _ ← put_ (snd built, snd s);
  queue_ (fst built).

(** [while let Some(packet_data) = self.consider_new_packet(..) { self.generate_new_packet(..)?; }] *)
Fixpoint packet_loop (fuel : nat) (force marker : bool) : M (Av1PayState * BasePay) unit :=
  match fuel with
  | O => crash_
  | S fuel =>
      s ← get_;
      packet ← of_res (consider_new_packet (max_payload_size (snd s)) (fst s) force marker);
      match packet with
      | None => mret tt
      | Some packet => _ ← generate_new_packet packet; packet_loop fuel force marker
      end
  end.

(** Every packet sends at least one byte of the queue or removes an OBU from it. *)
Definition queue_fuel (state : Av1PayState) : nat :=
  S (sum_list (map (fun obu => S (length (od_bytes obu) - Z.to_nat (od_offset obu))) (ps_obus state))).

Definition send_packets (force marker : bool) : M (Av1PayState * BasePay) unit :=
  s ← get_; packet_loop (queue_fuel (fst s)) force marker.

(** ** The element *)
Definition on_state {A} (m : M Av1PayState A) : M (Av1PayState * BasePay) A :=
  fun s => let '(ret, state) := m (fst s) in (ret, (state, snd s)).

Definition handle_new_obus (id : Z) (data : list Z) (keyframe marker : bool) : M (Av1PayState * BasePay) unit :=
  _ ← on_state (parse_obus (S (length data)) data 0 id keyframe);
  send_packets false marker.

Definition av1_pay_reset (full : bool) (state : Av1PayState) : Av1PayState :=
  if full then Av1PayState_default else Av1PayState_default <| ps_framed := ps_framed state |>.

Definition av1_pay_start : M (Av1PayState * BasePay) unit := on_state (upd_ (av1_pay_reset true)).
Definition av1_pay_stop : M (Av1PayState * BasePay) unit := on_state (upd_ (av1_pay_reset true)).
Definition av1_pay_flush : M (Av1PayState * BasePay) unit := on_state (upd_ (av1_pay_reset false)).

(** [set_sink_caps]: whether the alignment is [tu] or [frame]. *)
Definition av1_pay_set_alignment (tu_or_frame : bool) : M (Av1PayState * BasePay) unit :=
  on_state (upd_ (fun state => state <| ps_framed := tu_or_frame |>)).

(** A mapped input buffer: its data ([None] where mapping fails) and flags. *)
Record PayBuffer := mkPayBuffer {
  pb_data : option (list Z);
  pb_delta_unit : bool;
  pb_marker : bool;
}.

Definition av1_pay_handle_buffer (buffer : PayBuffer) (id : Z) : M (Av1PayState * BasePay) unit :=
  data ← of_option (pb_data buffer);
  s ← get_;
  handle_new_obus id data (negb (pb_delta_unit buffer)) (pb_marker buffer || ps_framed (fst s)).

Definition av1_pay_drain : M (Av1PayState * BasePay) unit := send_packets true true.
End Pay.
