(* ===== verification/Av1PayProps.v ===== *)
(** * What the AV1 payloader sends

    Planning and writing packets, seen through the bytes of the queue that are
    not sent yet. *)

From S2P Require Import Prelude Flow BitStream RtpBase Av1Common Av1Pay.

#[global] Arguments leb128_size : simpl never.
#[global] Arguments leb : simpl never.

(** ** The queue *)

Definition is_td (o : ObuData) : bool := bool_decide (so_obu_type (od_info o) = TemporalDelimiter).

(** The OBUs that are transmitted, and the bytes of one that are left to send. *)
Definition sendable (obus : list ObuData) : list ObuData := List.filter (fun o => negb (is_td o)) obus.
Definition unsent (o : ObuData) : list Z := drop (Z.to_nat (od_offset o)) (od_bytes o).
Definition unsent_len (o : ObuData) : Z := so_size (od_info o) + so_header_len (od_info o).

(** An OBU the parser queued, or what is left of one: its sizes are those of
    its bytes. *)
Definition obu_wf (o : ObuData) : Prop :=
  0 <= od_offset o <= Z.of_nat (length (od_bytes o)) /\
  unsent_len o = Z.of_nat (length (od_bytes o)) - od_offset o /\
  0 < unsent_len o < 2 ^ 30 /\
  0 <= so_size (od_info o) /\ 0 <= so_header_len (od_info o) <= 2 /\
  so_leb_size (od_info o) = leb128_size (so_size (od_info o)) /\
  Z.of_nat (length (od_bytes o)) < 2 ^ 30 /\
  is_bytes (od_bytes o).

Definition queue_wf (obus : list ObuData) : Prop := Forall obu_wf (sendable obus).

Definition leb_of (o : ObuData) : Z := so_leb_size (od_info o).

(** The room the planner reckons for OBUs with their size fields. *)
Definition reckoned (q : list ObuData) : Z := foldr (fun o n => leb_of o + unsent_len o + n) 0 q.

Section Queue.

Lemma sendable_app l1 l2 : sendable (l1 ++ l2) = sendable l1 ++ sendable l2.
Proof. apply List.filter_app. Qed.

Lemma reckoned_app q1 q2 : reckoned (q1 ++ q2) = reckoned q1 + reckoned q2.
Proof. unfold reckoned. induction q1; cbn in *; lia. Qed.

Lemma reckoned_cons o q : reckoned (o :: q) = leb_of o + unsent_len o + reckoned q.
Proof. done. Qed.

Lemma reckoned_snoc q o : reckoned (q ++ [o]) = reckoned q + leb_of o + unsent_len o.
Proof. rewrite reckoned_app, reckoned_cons. cbn. lia. Qed.

Lemma unsent_length o : obu_wf o -> Z.of_nat (length (unsent o)) = unsent_len o.
Proof.
  intros (Ho & Hl & _). unfold unsent. rewrite length_drop. lia.
Qed.

Lemma unsent_bytes o : obu_wf o -> is_bytes (unsent o).
Proof. intros Ho. apply Forall_drop. apply Ho. Qed.

Lemma leb_enc_length_bounds n v : (0 < n)%nat -> (1 <= length (leb_enc n v) <= n)%nat.
Proof.
  revert v. induction n as [|n IH]; intros v Hn; [lia|]. cbn [leb_enc].
  zcase; cbn [length]; [lia|]. destruct n; [cbn; lia|]. specialize (IH (v / 128)). lia.
Qed.

Lemma leb_length_bounds v : 1 <= Z.of_nat (length (leb v)) <= 5.
Proof. pose proof (leb_enc_length_bounds 5 v). unfold leb. lia. Qed.

Lemma leb128_size_bounds v : is_u32 v -> 1 <= leb128_size v <= 5.
Proof. intros. rewrite leb128_size_eq by done. apply leb_length_bounds. Qed.

Lemma leb_enc_mono n v w : 0 <= v <= w -> (length (leb_enc n v) <= length (leb_enc n w))%nat.
Proof.
  revert v w. induction n as [|n IH]; intros v w Hvw; cbn [leb_enc]; [done|].
  destruct (Z.ltb_spec v 128), (Z.ltb_spec w 128); cbn [length]; try lia.
  apply le_n_S, IH. split; [apply Z.div_pos; lia|]. apply Z.div_le_mono; lia.
Qed.

Lemma leb128_size_mono v w : 0 <= v <= w -> is_u32 w -> leb128_size v <= leb128_size w.
Proof.
  intros Hvw Hw. assert (is_u32 v) by (unfold is_u32 in *; lia).
  rewrite !leb128_size_eq by done. apply inj_le. by apply leb_enc_mono.
Qed.

Lemma obu_wf_leb o : obu_wf o -> 1 <= leb_of o <= 5.
Proof.
  intros (_ & _ & Hl & Hs & Hh & Hleb & _). unfold leb_of, unsent_len in *. rewrite Hleb.
  apply leb128_size_bounds. unfold is_u32. change (2 ^ 30) with 1073741824 in *. lia.
Qed.
End Queue.

(** ** Planning *)

(** More than three OBUs need a size field each. *)
Definition well_delimited (packet : PacketOBUData) : bool :=
  (pk_obu_count packet <=? 3) || negb (pk_omit_last_size_field packet).

(** The bytes the last OBU of a packet takes, as planned. *)
Definition last_planned (packet : PacketOBUData) (o : ObuData) : Z :=
  match pk_last_obu_fragment_size packet with
  | None => (if pk_omit_last_size_field packet then 0 else leb_of o) + unsent_len o
  | Some k => (if pk_omit_last_size_field packet then 0 else leb128_size k) + k
  end.

(** A plan takes the first OBUs of the queue, all whole but perhaps the last,
    and what it reckons fits. *)
Record plan_ok (limit : Z) (q : list ObuData) (packet : PacketOBUData) : Prop := {
  po_split : exists q1 o q2, q = q1 ++ o :: q2 /\ pk_obu_count packet = Z.of_nat (length q1) + 1 /\
    1 + reckoned q1 + last_planned packet o <= limit /\
    (forall k, pk_last_obu_fragment_size packet = Some k -> 0 < k < unsent_len o);
  po_marker : pk_ends_temporal_unit packet = true -> pk_last_obu_fragment_size packet = None;
  po_fragment : is_Some (pk_last_obu_fragment_size packet) -> well_delimited packet = true;
}.

(** The planner's variables after the OBUs [q] have been taken. *)
Record planning (limit : Z) (q : list ObuData) (p : Planning) : Prop := {
  pg_count : pk_obu_count (pl_packet p) = Z.of_nat (length q);
  pg_omit : pk_omit_last_size_field (pl_packet p) = true;
  pg_fragment : pk_last_obu_fragment_size (pl_packet p) = None;
  pg_ends : pk_ends_temporal_unit (pl_packet p) = false;
  pg_pending : pl_pending_bytes p = match last q with Some o => leb_of o | None => 0 end;
  pg_size : pk_payload_size (pl_packet p) + pl_pending_bytes p = 1 + reckoned q;
  pg_fits : 1 + reckoned q <= limit;
}.

Section PlanningLemmas.
Variable limit : Z.
Hypothesis limit_ok : 4 <= limit < 2 ^ 30.
Implicit Types (q : list ObuData) (p : Planning) (o : ObuData) (packet : PacketOBUData).

Lemma planning_last q p :
  planning limit q p -> q <> [] ->
  exists q1 o, q = q1 ++ [o] /\ pl_pending_bytes p = leb_of o /\
    pk_payload_size (pl_packet p) = 1 + reckoned q1 + unsent_len o.
Proof.
  intros Hp Hq. destruct (exists_last Hq) as (q1 & o & ->). exists q1, o.
  destruct Hp as [_ _ _ _ Hpend Hsize _]. rewrite last_snoc in Hpend.
  rewrite reckoned_snoc in Hsize. split; [done|]. lia.
Qed.

(** The packet ends before the current OBU: at [q], with a size field on the
    last OBU if [with_last_size] gives it one. *)
Lemma plan_excluded q p rest packet :
  Forall obu_wf q -> planning limit q p -> q <> [] ->
  pk_obu_count packet = pk_obu_count (pl_packet p) ->
  pk_last_obu_fragment_size packet = None ->
  plan_ok limit (q ++ rest) packet.
Proof.
  intros Hwf Hp Hq Hc Hf. destruct (planning_last q p Hp Hq) as (q1 & o & -> & Hpend & Hsize).
  rewrite Forall_app, Forall_singleton in Hwf. destruct Hwf as [_ Ho]. pose proof (obu_wf_leb o Ho).
  destruct Hp as [Hcount _ _ _ _ Hsum Hfits].
  rewrite reckoned_snoc in Hsum, Hfits.
  split; [|done|rewrite Hf; by intros [? ?]].
  exists q1, o, rest. rewrite <- app_assoc. split; [done|].
  rewrite Hc, Hcount, length_app. cbn [length]. split; [lia|].
  split; [|by rewrite Hf]. unfold last_planned. rewrite Hf.
  destruct (pk_omit_last_size_field packet); lia.
Qed.

Lemma planning_bounds q p :
  Forall obu_wf q -> planning limit q p ->
  1 <= pk_payload_size (pl_packet p) /\ 0 <= pl_pending_bytes p <= 5.
Proof.
  intros Hq Hp. destruct (decide (q = [])) as [->|Hne].
  - destruct Hp as [_ _ _ _ Hpend Hsum _]. cbn in Hpend. change (reckoned []) with 0 in Hsum. lia.
  - destruct (planning_last q p Hp Hne) as (q1 & o & -> & Hpend & Hsize).
    rewrite Forall_app, Forall_singleton in Hq. destruct Hq as [Hq1 Ho].
    pose proof (obu_wf_leb o Ho). destruct Ho as (_ & _ & Hl & _).
    assert (0 <= reckoned q1); [|lia].
    clear - Hq1. induction Hq1 as [|x l Hx _ IH]; [done|].
    rewrite reckoned_cons.
    pose proof (obu_wf_leb x Hx). destruct Hx as (_ & _ & Hl & _). lia.
Qed.

Lemma with_last_size_spec p packet :
  pk_payload_size packet + pl_pending_bytes p < U32 ->
  exists packet', with_last_size p packet = Ok packet' /\
    pk_obu_count packet' = pk_obu_count packet /\
    pk_last_obu_fragment_size packet' = pk_last_obu_fragment_size packet /\
    pk_ends_temporal_unit packet' = pk_ends_temporal_unit packet /\
    (pk_omit_last_size_field packet = true -> well_delimited packet' = true).
Proof.
  intros Hb. unfold with_last_size. zcase.
  - rewrite (proj2 (uint_add_ok _ _ _ _)) by (split; [reflexivity|done]).
    eexists. split; [done|]. cbn. unfold well_delimited. cbn.
    split_and!; [done..|]. intros _. apply orb_true_r.
  - exists packet. split_and!; [done..|]. intros _. unfold well_delimited.
    destruct (Z.leb_spec (pk_obu_count packet) 3); [done|lia].
Qed.

Lemma obu_sizes o :
  obu_wf o ->
  SizedObu_partial_size (od_info o) = Ok (unsent_len o) /\
  SizedObu_full_size (od_info o) = Ok (unsent_len o + leb_of o).
Proof.
  intros Ho. pose proof (obu_wf_leb o Ho) as Hl. destruct Ho as (_ & _ & Hu & Hs & Hh & _).
  unfold SizedObu_partial_size, SizedObu_full_size, unsent_len, leb_of in *.
  change (2 ^ 30) with 1073741824 in *. split.
  - by apply uint_add_ok; split; [|lia].
  - rewrite (proj2 (uint_add_ok _ _ _ _)) by (split; [reflexivity|lia]).
    apply uint_add_ok. lia.
Qed.

Lemma take_obu_spec q p o :
  Forall obu_wf q -> planning limit q p -> obu_wf o ->
  exists p', take_obu p o = Ok p' /\
    pk_obu_count (pl_packet p') = Z.of_nat (length q) + 1 /\
    pk_payload_size (pl_packet p') = 1 + reckoned q + unsent_len o /\
    pk_omit_last_size_field (pl_packet p') = true /\
    pk_last_obu_fragment_size (pl_packet p') = None /\
    pk_ends_temporal_unit (pl_packet p') = false.
Proof.
  intros Hq Hp Ho. pose proof (planning_bounds q p Hq Hp) as [Hs Hpend].
  destruct (obu_sizes o Ho) as [Hpart _]. destruct Ho as (_ & _ & Hu & _).
  destruct Hp as [Hc Hom Hf He _ Hsum Hfits]. change (2 ^ 30) with 1073741824 in *.
  unfold take_obu. rewrite Hpart. cbn [mbind res_bind].
  do 2 (rewrite (proj2 (uint_add_ok _ _ _ _)) by (split; [reflexivity|lia]); cbn [mbind res_bind]).
  eexists. split; [reflexivity|]. cbn. rewrite Hc. split_and!; [lia|lia|done..].
Qed.

Lemma consider_fragment_spec marker is_last q p o rest :
  Forall obu_wf q -> planning limit q p -> obu_wf o ->
  limit < 1 + reckoned q + unsent_len o + leb_of o ->
  (Z.of_nat (length q) < 3 -> limit < 1 + reckoned q + unsent_len o) ->
  pk_payload_size (pl_packet p) < limit ->
  exists packet, consider_fragment limit marker is_last p o = Ok packet /\
    plan_ok limit (q ++ o :: rest) packet.
Proof.
  intros Hq Hp Ho Hfull Hpart Hroom. pose proof (planning_bounds q p Hq Hp) as [Hs Hpend].
  pose proof Hp as [Hc Hom Hf He Hpd Hsum Hfits]. unfold consider_fragment.
  set (leb := if pk_obu_count (pl_packet p) <? 3 then 0 else leb128_size (limit - pk_payload_size (pl_packet p))).
  assert (Hleb : (if pk_obu_count (pl_packet p) <? 3 then Ok 0
      else room ← uint_sub limit (pk_payload_size (pl_packet p)); Ok (leb128_size room)) = Ok leb).
  { subst leb. zcase; [done|]. by rewrite (proj2 (uint_sub_ok _ _ _)) by (split; [reflexivity|lia]). }
  rewrite Hleb. cbn [mbind res_bind]. clear Hleb.
  change (2 ^ 30) with 1073741824 in *.
  assert (Hlb : 0 <= leb <= 5).
  { subst leb. zcase; [lia|]. pose proof (leb128_size_bounds (limit - pk_payload_size (pl_packet p))).
    unfold is_u32 in *. lia. }
  pose proof Ho as (_ & _ & Hu & Hsz & Hh & Hlo & _). change (2 ^ 30) with 1073741824 in *.
  do 3 (rewrite (proj2 (uint_add_ok _ _ _ _)) by (split; [reflexivity|lia]); cbn [mbind res_bind]).
  destruct (Z.ltb_spec (pk_payload_size (pl_packet p) + pl_pending_bytes p + leb + so_header_len (od_info o)) limit).
  - do 3 (rewrite (proj2 (uint_sub_ok _ _ _)) by (split; [reflexivity|lia]); cbn [mbind res_bind]).
    eexists. split; [reflexivity|].
    set (k := limit - pk_payload_size (pl_packet p) - pl_pending_bytes p - leb).
    assert (Hk : 0 < k < unsent_len o).
    { subst k. split; [lia|]. subst leb. rewrite Hc in *.
      destruct (Z.ltb_spec (Z.of_nat (length q)) 3) as [H3|H3]; [specialize (Hpart H3); lia|].
      destruct (Z_lt_le_dec (so_size (od_info o)) (limit - pk_payload_size (pl_packet p))) as [Hlt|Hge].
      - assert (leb_of o <= leb128_size (limit - pk_payload_size (pl_packet p))); [|lia].
        unfold leb_of. rewrite Hlo. apply leb128_size_mono; unfold is_u32; lia.
      - pose proof (leb128_size_bounds (limit - pk_payload_size (pl_packet p)) ltac:(unfold is_u32; lia)).
        unfold unsent_len in *. lia. }
    split; cbn -[Z.add Z.sub Z.of_nat].
    + exists q, o, rest. rewrite Hc. split; [done|]. split; [lia|]. split.
      * unfold last_planned. cbn -[Z.add Z.sub Z.of_nat Z.eqb]. subst k. destruct (Z.eqb_spec leb 0) as [E|E]; [rewrite E in *; lia|].
        subst leb. rewrite Hc in *. destruct (Z.ltb_spec (Z.of_nat (length q)) 3); [lia|].
        assert (leb128_size (limit - pk_payload_size (pl_packet p) - pl_pending_bytes p
          - leb128_size (limit - pk_payload_size (pl_packet p)))
          <= leb128_size (limit - pk_payload_size (pl_packet p))) by (apply leb128_size_mono; unfold is_u32; lia).
        lia.
      * intros ? [= <-]. exact Hk.
    + intros E. by rewrite He in E.
    + intros _. unfold well_delimited. cbn -[Z.add Z.sub Z.of_nat Z.eqb Z.leb]. rewrite Hc. subst leb. rewrite Hc in *.
      destruct (Z.ltb_spec (Z.of_nat (length q)) 3).
      { destruct (Z.leb_spec (1 + Z.of_nat (length q)) 3); [done|lia]. }
      pose proof (leb128_size_bounds (limit - pk_payload_size (pl_packet p)) ltac:(unfold is_u32; lia)).
      destruct (Z.eqb_spec (leb128_size (limit - pk_payload_size (pl_packet p))) 0); [lia|].
      apply orb_true_r.
  - assert (q <> []).
    { intros ->. subst leb. rewrite Hc in *. change (reckoned []) with 0 in *.
      cbn [last length Z.of_nat] in *. change (Z.of_nat 0 <? 3) with true in *. cbv iota in *. lia. }
    destruct (pk_obu_count (pl_packet p) >? 3); eexists; (split; [reflexivity|]);
      eapply plan_excluded; eauto.
Qed.

Lemma planning_size q p : planning limit q p -> pk_payload_size (pl_packet p) + pl_pending_bytes p < U32.
Proof. intros [_ _ _ _ _ -> ?]. change (2 ^ 30) with 1073741824 in *. lia. Qed.

(** Only the variables named in [planning] matter. *)
Lemma planning_same q p p' :
  planning limit q p -> pl_packet p' = pl_packet p -> pl_pending_bytes p' = pl_pending_bytes p ->
  planning limit q p'.
Proof. intros [] Hpk Hpe. split; rewrite ?Hpk, ?Hpe; auto. Qed.

Lemma planning_nonempty q p : planning limit q p -> pk_obu_count (pl_packet p) > 0 -> q <> [].
Proof. intros [Hc _ _ _ _ _ _] Hgt ->. rewrite Hc in Hgt. cbn in Hgt. lia. Qed.

(** Ending the packet before the current OBU. *)
Lemma finish_excluded q p rest packet :
  Forall obu_wf q -> planning limit q p -> q <> [] ->
  pk_obu_count packet = pk_obu_count (pl_packet p) ->
  pk_payload_size packet = pk_payload_size (pl_packet p) ->
  pk_last_obu_fragment_size packet = None ->
  exists packet', with_last_size p packet = Ok packet' /\
    forall packet'', pk_obu_count packet'' = pk_obu_count packet' ->
      pk_last_obu_fragment_size packet'' = pk_last_obu_fragment_size packet' ->
      plan_ok limit (q ++ rest) packet''.
Proof.
  intros Hq Hp Hne Hc Hs Hf.
  destruct (with_last_size_spec p packet) as (packet' & Heq & Hc' & Hf' & _ & _).
  { rewrite Hs. eapply planning_size; eauto. }
  exists packet'. split; [done|]. intros packet'' Hc'' Hf''.
  apply (plan_excluded q p); [done..|congruence|congruence].
Qed.

(** The first OBU of a packet sets the layer, so it is never refused for its layer. *)
Definition ids_ok q p : Prop := q = [] -> pl_required_ids p = None.

Lemma consider_obu_spec marker is_last q p o rest :
  Forall obu_wf q -> planning limit q p -> ids_ok q p -> (is_td o = false -> obu_wf o) ->
  exists r, consider_obu limit marker is_last p o = Ok r /\
    match r with
    | inl packet => plan_ok limit (q ++ sendable (o :: rest)) packet
    | inr p' => planning limit (q ++ sendable [o]) p' /\ ids_ok (q ++ sendable [o]) p'
    end.
Proof.
  intros Hq Hp Hids Ho. pose proof (planning_bounds q p Hq Hp) as [Hs Hpend].
  unfold consider_obu. unfold is_td in Ho.
  destruct (decide (so_obu_type (od_info o) = TemporalDelimiter)) as [Htd|Htd].
  { assert (Hnil : sendable [o] = []) by (cbn; unfold is_td; by rewrite bool_decide_true).
    rewrite Z.gtb_ltb. destruct (Z.ltb_spec 0 (pk_obu_count (pl_packet p))) as [Hn|Hn].
    - edestruct (finish_excluded q p (sendable (o :: rest))) as (packet' & -> & Hok);
        [done|done|eapply planning_nonempty; eauto; lia|done|done|apply Hp|].
      eexists. split; [done|]. by apply Hok.
    - eexists. split; [done|]. rewrite Hnil, app_nil_r. split; [|exact Hids].
      by eapply planning_same. }
  rewrite bool_decide_false in Ho by done. specialize (Ho eq_refl).
  assert (Hcons : forall l, sendable (o :: l) = o :: sendable l).
  { intros l. cbn. unfold is_td. by rewrite bool_decide_false. }
  set (test := if _ || _ then _ else _).
  assert (Hstop : (exists ids, test = (true, ids) /\ q <> []) \/
    (exists ids, test = (false, ids) /\ pk_payload_size (pl_packet p) < limit)).
  { subst test. rewrite Z.geb_leb, Z.gtb_ltb.
    destruct (Z.leb_spec limit (pk_payload_size (pl_packet p))); cbn [orb].
    { left. eexists. split; [done|]. intros ->. destruct Hp as [_ _ _ _ Hpd Hsum _].
      change (reckoned []) with 0 in Hsum. cbn in Hpd. lia. }
    destruct (Z.ltb_spec 0 (pk_obu_count (pl_packet p))) as [Hn|Hn]; cbn [andb].
    - assert (q <> []) by (eapply planning_nonempty; eauto; lia).
      destruct (bool_decide _); [left; by eexists|].
      destruct (matching_obu_ids _ _) as [[] ids]; [right|left]; by eexists.
    - destruct q as [|? q]; [|destruct Hp as [Hc _ _ _ _ _ _]; cbn [length] in Hc; lia].
      rewrite (Hids eq_refl). right. by eexists. }
  clearbody test. destruct Hstop as [(ids & -> & Hne)|(ids & -> & Hroom)].
  { edestruct (finish_excluded q p (sendable (o :: rest)) (note_start p)) as (packet' & -> & Hok);
      [done|done|done|done|done|apply Hp|].
    eexists. split; [done|]. by apply Hok. }
  rewrite !Hcons. set (p1 := p <| pl_required_ids := ids |>).
  assert (Hp1 : planning limit q p1) by (by eapply planning_same).
  destruct (obu_sizes o Ho) as [Hpart Hfull]. pose proof (obu_wf_leb o Ho) as Hlo.
  pose proof Ho as (_ & _ & Hu & _). pose proof Hp as [Hc Hom Hf He _ Hsum Hfits].
  destruct (take_obu_spec q p1 o Hq Hp1 Ho) as (p2 & Htake & Hc2 & Hs2 & Hom2 & Hf2 & He2).
  assert (Hpe1 : pl_pending_bytes p1 = pl_pending_bytes p) by done.
  clearbody p1. change (2 ^ 30) with 1073741824 in *.
  rewrite Hpart, Hfull, Htake. cbn [mbind res_bind]. rewrite Hpe1.
  rewrite (proj2 (uint_add_ok _ (pk_payload_size (pl_packet p)) (pl_pending_bytes p) _))
    by (split; [reflexivity|lia]). cbn [mbind res_bind].
  rewrite (proj2 (uint_add_ok _ _ (unsent_len o + leb_of o) _)) by (split; [reflexivity|lia]).
  cbn [mbind res_bind].
  assert (Hinc : plan_ok limit (q ++ o :: sendable rest) (pl_packet p2) \/
    limit < 1 + reckoned q + unsent_len o).
  { destruct (Z_lt_le_dec limit (1 + reckoned q + unsent_len o)); [by right|left].
    split; [|by rewrite He2|rewrite Hf2; by intros [? ?]].
    exists q, o, (sendable rest). split; [done|]. split; [done|].
    unfold last_planned. rewrite Hf2, Hom2. split; [lia|done]. }
  match goal with |- context [?a <=? limit] => destruct (Z.leb_spec a limit) as [Efull|Efull] end.
  { eexists. split; [done|].
    split; [|by intros [_ ?]%app_eq_nil].
    split; cbn -[Z.add Z.of_nat]; rewrite ?Hc2, ?length_app, ?last_snoc, ?reckoned_snoc; cbn [length]; auto; try lia.
    rewrite Hs2. fold (leb_of o). lia. }
  rewrite Hc.
  destruct (Z.ltb_spec (Z.of_nat (length q)) 3) as [H3|H3]; cbn [mbind res_bind].
  - rewrite (proj2 (uint_add_ok _ _ _ _)) by (split; [reflexivity|lia]); cbn [mbind res_bind].
    match goal with |- context [?a <=? limit] => destruct (Z.leb_spec a limit) as [Ebare|Ebare] end.
    + eexists. split; [done|]. destruct Hinc as [Hinc|]; [|lia].
      destruct Hinc as [Hsp Hm Hfr]. split; [exact Hsp|by intros _|exact Hfr].
    + destruct (consider_fragment_spec marker is_last q p1 o (sendable rest) Hq Hp1 Ho)
        as (packet & -> & Hok); [lia|lia| |by eexists].
      destruct Hp1 as [_ _ _ _ _ Hsum1 _]. lia.
  - destruct (consider_fragment_spec marker is_last q p1 o (sendable rest) Hq Hp1 Ho)
      as (packet & -> & Hok); [lia|lia| |by eexists].
    destruct Hp1 as [_ _ _ _ _ Hsum1 _]. lia.
Qed.

Lemma consider_loop_spec marker rest q p :
  Forall obu_wf q -> planning limit q p -> ids_ok q p -> queue_wf rest ->
  exists r, consider_loop limit marker rest p = Ok r /\
    match r with
    | inl packet => plan_ok limit (q ++ sendable rest) packet
    | inr p' => planning limit (q ++ sendable rest) p'
    end.
Proof.
  revert q p. induction rest as [|o rest IH]; intros q p Hq Hp Hids Hwf.
  { eexists. split; [done|]. by rewrite app_nil_r. }
  change (o :: rest) with ([o] ++ rest) in Hwf. unfold queue_wf in Hwf.
  rewrite sendable_app in Hwf. apply Forall_app in Hwf as [Ho Hrest].
  destruct (consider_obu_spec marker (match rest with [] => true | _ => false end) q p o rest Hq Hp Hids)
    as (r & Hr & Hok).
  { intros Htd. unfold sendable in Ho. cbn in Ho. rewrite Htd in Ho. by inversion Ho. }
  cbn [consider_loop]. rewrite Hr. cbn [mbind res_bind].
  destruct r as [packet|p'].
  - by exists (inl packet).
  - destruct Hok as [Hp' Hids'].
    destruct (IH (q ++ sendable [o]) p') as (r & Hr' & Hok'); [by apply Forall_app|done..|].
    exists r. split; [done|]. change (o :: rest) with ([o] ++ rest).
    rewrite sendable_app, app_assoc. exact Hok'.
Qed.

Lemma consider_new_packet_spec state force marker :
  queue_wf (ps_obus state) ->
  exists r, consider_new_packet limit state force marker = Ok r /\
    match r with
    | Some packet => plan_ok limit (sendable (ps_obus state)) packet
    | None => force || marker = true -> sendable (ps_obus state) = []
    end.
Proof.
  intros Hwf. unfold consider_new_packet.
  destruct (consider_loop_spec marker (ps_obus state) [] Planning_start) as (r & -> & Hok);
    [constructor| |done|done|].
  { split; try done; cbn; lia. }
  cbn [mbind res_bind]. rewrite app_nil_l in Hok. destruct r as [packet|p].
  - by exists (Some packet).
  - destruct (force || marker); cbn [andb].
    + rewrite Z.gtb_ltb. destruct (Z.ltb_spec 0 (pk_obu_count (pl_packet p))) as [Hn|Hn].
      * edestruct (finish_excluded (sendable (ps_obus state)) p [] (pl_packet p)) as (packet' & -> & Hpl);
          [exact Hwf|done|eapply planning_nonempty; eauto; lia|done|done|apply Hok|].
        rewrite app_nil_r in Hpl. eexists. split; [done|]. by apply Hpl.
      * eexists. split; [done|]. intros _. destruct Hok as [Hc _ _ _ _ _ _].
        destruct (sendable (ps_obus state)); [done|]. cbn [length] in Hc. lia.
    + by eexists.
Qed.
End PlanningLemmas.

(** ** Writing *)

(** The elements of a packet one after the other: each behind its size, the
    last one bare if [omit]. *)
Fixpoint body (omit : bool) (els : list (list Z)) : list Z :=
  match els with
  | [] => []
  | [e] => (if omit then [] else leb (Z.of_nat (length e))) ++ e
  | e :: els => leb (Z.of_nat (length e)) ++ e ++ body omit els
  end.

Definition sized_all (els : list (list Z)) : list Z :=
  concat (map (fun e => leb (Z.of_nat (length e)) ++ e) els).

(** Taking elements off a list of OBUs: whole ones, or whole ones and a proper
    part of the next. *)
Inductive split_off : list (list Z) -> list (list Z) -> bool -> list (list Z) -> Prop :=
| split_whole els e rest : split_off (els ++ e :: rest) (els ++ [e]) false rest
| split_cut els e e' rest :
    e <> [] -> e' <> [] -> split_off (els ++ (e ++ e') :: rest) (els ++ [e]) true (e' :: rest).

(** A packet with the elements [els]; [z] and [y] say whether its first
    element continues and its last one is continued. *)
Record packet_form (z y : bool) (els : list (list Z)) (plan : PacketOBUData) (p : PayPacket) : Prop := {
  pf_count : pk_obu_count plan = Z.of_nat (length els);
  pf_fragment : y = negb (match pk_last_obu_fragment_size plan with None => true | Some _ => false end);
  pf_payload : pp_payload p = aggregation_header z plan :: body (pk_omit_last_size_field plan) els;
  pf_marker : pp_marker_bit p = true -> y = false;
}.

(** The size field of an OBU in a packet, which counts its header, is as long
    as the field the planner reckons with, which does not. *)
Definition exact_leb (o : ObuData) : Prop := leb_of o = leb128_size (unsent_len o).

Definition pending (obus : list ObuData) : list (list Z) := map unsent (sendable obus).

Section Writing.
Context `{BitIOLaws}.

Lemma body_snoc omit els e :
  body omit (els ++ [e]) = sized_all els ++ (if omit then [] else leb (Z.of_nat (length e))) ++ e.
Proof.
  unfold sized_all. induction els as [|e0 els IH]; [done|].
  cbn [map concat]. rewrite <- !app_assoc, <- IH.
  destruct els; cbn [app body]; by rewrite ?app_assoc.
Qed.

Lemma pop_obu_spec obus o q :
  sendable obus = o :: q -> exists obus', pop_obu obus = Ok (o, obus') /\ sendable obus' = q.
Proof.
  induction obus as [|o1 obus IH]; [done|]. cbn [sendable List.filter pop_obu]. unfold is_td.
  destruct (decide (so_obu_type (od_info o1) = TemporalDelimiter)) as [Htd|Htd].
  - rewrite bool_decide_true by done. exact IH.
  - rewrite bool_decide_false by done. cbn [negb]. intros [= -> <-]. by exists obus.
Qed.

Lemma unsent_slice o : obu_wf o -> slice_from (od_bytes o) (od_offset o) = Ok (unsent o).
Proof.
  intros (Ho & _). unfold slice_from.
  by rewrite (proj2 (Z.leb_le _ _)) by lia.
Qed.

Lemma write_obus_spec q1 q2 obus payload start_id :
  sendable obus = q1 ++ q2 -> Forall obu_wf q1 ->
  exists obus' start_id', sendable obus' = q2 /\
    write_obus (length q1) obus payload start_id = Ok (obus', payload ++ sized_all (map unsent q1), start_id').
Proof.
  revert obus payload start_id. induction q1 as [|o q1 IH]; intros obus payload start_id Hs Hwf.
  { exists obus, start_id. split; [done|]. cbn. by rewrite app_nil_r. }
  apply Forall_cons in Hwf as [Ho Hwf].
  destruct (pop_obu_spec obus o (q1 ++ q2) Hs) as (obus1 & Hpop & Hs1).
  cbn [length write_obus]. rewrite Hpop. cbn [mbind res_bind].
  pose proof (obu_sizes o Ho) as [Hpart _]. unfold SizedObu_partial_size in Hpart.
  rewrite Hpart. cbn [mbind res_bind]. rewrite unsent_slice by done. cbn [mbind res_bind].
  destruct (IH obus1 (payload ++ leb128_bytes (unsent_len o) ++ unsent o)
    (match start_id with Some i => Some i | None => Some (od_id o) end) Hs1 Hwf)
    as (obus' & sid & Hs' & Hw).
  exists obus', sid. split; [done|]. rewrite Hw. do 3 f_equal.
  pose proof Ho as (_ & _ & Hu & _). change (2 ^ 30) with 1073741824 in *.
  rewrite leb128_bytes_eq by (unfold is_u32; lia).
  unfold sized_all. cbn [map concat]. by rewrite unsent_length, <- !app_assoc by done.
Qed.

Lemma write_last_spec packet o rest :
  obu_wf o -> (forall k, pk_last_obu_fragment_size packet = Some k -> 0 < k < unsent_len o) ->
  exists e obus,
    write_last_obu packet o rest =
      Ok ((if pk_omit_last_size_field packet then [] else leb (Z.of_nat (length e))) ++ e, obus) /\
    match pk_last_obu_fragment_size packet with
    | None => e = unsent o /\ obus = rest
    | Some _ => exists o', obus = o' :: rest /\ obu_wf o' /\ is_td o' = is_td o /\
                  unsent o = e ++ unsent o' /\ e <> [] /\ unsent o' <> [] /\ exact_leb o'
    end /\
    (exact_leb o ->
     Z.of_nat (length ((if pk_omit_last_size_field packet then [] else leb (Z.of_nat (length e))) ++ e))
       = last_planned packet o).
Proof.
  intros Ho Hk. pose proof Ho as (Hoff & Hlen & Hu & Hs & Hh & Hleb & Hb & Hbytes).
  change (2 ^ 30) with 1073741824 in *. unfold write_last_obu.
  rewrite !wrap_small by lia.
  rewrite (proj2 (uint_sub_ok _ _ _)) by (split; [reflexivity|lia]). cbn [mbind res_bind].
  rewrite <- Hlen. destruct (pk_last_obu_fragment_size packet) as [k|] eqn:Ef.
  - specialize (Hk k eq_refl). unfold slice_range.
    rewrite (proj2 (andb_true_iff _ _)) by (split; apply Z.leb_le; lia). cbn [mbind res_bind].
    rewrite (proj2 (uint_sub_ok _ _ _)) by (split; [reflexivity|lia]). cbn [mbind res_bind].
    replace (od_offset o + k - od_offset o) with k by lia. fold (unsent o).
    pose proof (unsent_length o Ho) as Hul.
    assert (Htake : Z.of_nat (length (take (Z.to_nat k) (unsent o))) = k).
    { rewrite length_take. lia. }
    exists (take (Z.to_nat k) (unsent o)). eexists. split.
    { rewrite Htake. destruct (pk_omit_last_size_field packet); [done|].
      by rewrite leb128_bytes_eq by (unfold is_u32; lia). }
    split.
    2:{ intros _. rewrite length_app, Nat2Z.inj_add, Htake. unfold last_planned. rewrite Ef.
        destruct (pk_omit_last_size_field packet); [done|].
        by rewrite leb128_size_eq by (unfold is_u32; lia). }
    eexists. split; [reflexivity|].
    set (o' := _ <| od_info := _ |> <| od_offset := _ |>).
    assert (Ho' : unsent o' = drop (Z.to_nat k) (unsent o)).
    { unfold unsent. cbn. rewrite drop_drop. f_equal. lia. }
    assert (Hl' : unsent_len o' = unsent_len o - k) by (unfold unsent_len at 1; cbn; lia).
    split; [|split; [done|split; [by rewrite Ho', take_drop|split; [|split]]]].
    + unfold obu_wf. rewrite Hl'. cbn. split_and!; try lia; done.
    + intros E. rewrite E in Htake. cbn in Htake. lia.
    + rewrite Ho'. intros E. apply (f_equal length) in E. rewrite length_drop in E. cbn in E. lia.
    + unfold exact_leb. rewrite Hl'. done.
  - rewrite unsent_slice by done. cbn [mbind res_bind].
    eexists (unsent o), rest. split; [|split; [done|]].
    { rewrite unsent_length by done. destruct (pk_omit_last_size_field packet); [done|].
      by rewrite leb128_bytes_eq by (unfold is_u32; lia). }
    intros Hex. rewrite length_app, Nat2Z.inj_add, unsent_length by done. unfold last_planned. rewrite Ef.
    destruct (pk_omit_last_size_field packet); [done|].
    unfold exact_leb in Hex. by rewrite Hex, leb128_size_eq by (unfold is_u32; lia).
Qed.

Lemma sized_all_length q :
  Forall obu_wf q -> Forall exact_leb q -> Z.of_nat (length (sized_all (map unsent q))) = reckoned q.
Proof.
  unfold sized_all. induction 1 as [|o q Ho _ IH]; intros Hex; [done|].
  apply Forall_cons in Hex as [Ho' Hex]. cbn [map concat]. rewrite reckoned_cons, <- IH by done.
  rewrite !length_app, !Nat2Z.inj_add, unsent_length by done.
  unfold exact_leb in Ho'. pose proof Ho as (_ & _ & Hu & _). change (2 ^ 30) with 1073741824 in *.
  rewrite Ho', leb128_size_eq by (unfold is_u32; lia). lia.
Qed.

Lemma build_packet_spec limit state packet :
  queue_wf (ps_obus state) -> plan_ok limit (sendable (ps_obus state)) packet ->
  exists p state' els y,
    build_packet state packet = Ok (p, state') /\
    queue_wf (ps_obus state') /\
    split_off (pending (ps_obus state)) els y (pending (ps_obus state')) /\
    packet_form (ps_open_obu_fragment state) y els packet p /\
    ps_open_obu_fragment state' = y /\
    (Forall exact_leb (sendable (ps_obus state)) ->
     Z.of_nat (length (pp_payload p)) <= limit /\ Forall exact_leb (sendable (ps_obus state'))).
Proof.
  intros Hwf [(q1 & o & q2 & Hq & Hcount & Hfit & Hk) Hmark _].
  unfold queue_wf in Hwf. rewrite Hq in Hwf. apply Forall_app in Hwf as [Hq1 Hoq].
  apply Forall_cons in Hoq as [Ho Hq2]. unfold build_packet.
  replace (Z.to_nat (pk_obu_count packet - 1)) with (length q1) by lia.
  destruct (write_obus_spec q1 (o :: q2) (ps_obus state)
    [aggregation_header (ps_open_obu_fragment state) packet] None Hq Hq1)
    as (obus1 & sid & Hs1 & ->). cbn [mbind res_bind].
  destruct (pop_obu_spec obus1 o q2 Hs1) as (obus2 & -> & Hs2). cbn [mbind res_bind].
  destruct (write_last_spec packet o obus2 Ho Hk) as (e & obus3 & -> & Hlast & Hlen). cbn [mbind res_bind].
  eexists _, _, (map unsent q1 ++ [e]), (match pk_last_obu_fragment_size packet with Some _ => true | None => false end).
  split; [reflexivity|].
  assert (Hsize : Forall exact_leb (q1 ++ o :: q2) ->
    Z.of_nat (length (([aggregation_header (ps_open_obu_fragment state) packet] ++ sized_all (map unsent q1)) ++
      (if pk_omit_last_size_field packet then [] else leb (Z.of_nat (length e))) ++ e)) <= limit).
  { intros Hex. apply Forall_app in Hex as [Hex1 Hex2]. apply Forall_cons in Hex2 as [Hexo _].
    rewrite length_app, Nat2Z.inj_add, Hlen, length_app, Nat2Z.inj_add, sized_all_length by done.
    cbn [length]. lia. }
  unfold pending. rewrite Hq, map_app. cbn [map ps_obus ps_open_obu_fragment].
  destruct (pk_last_obu_fragment_size packet) as [k|] eqn:Ef.
  - destruct Hlast as (o' & -> & Ho' & Htd & Heq & Hne & Hne' & Hex').
    assert (is_td o = false) as Hotd.
    { destruct (is_td o) eqn:E; [|done]. exfalso.
      assert (o ∈ sendable (ps_obus state)) as Hin by (rewrite Hq; apply elem_of_app; right; left).
      apply list_elem_of_In, filter_In in Hin as [_ Hin]. by rewrite E in Hin. }
    assert (Hso : sendable (o' :: obus2) = o' :: q2).
    { cbn. rewrite Htd, Hotd. cbn. by rewrite <- Hs2. }
    split; [|split; [|split; [|split; [reflexivity|]]]].
    + unfold queue_wf. cbn. rewrite Htd, Hotd. constructor; [done|]. fold (sendable obus2). by rewrite Hs2.
    + cbn [ps_obus modify]. rewrite Hso, Heq. cbn [map]. by apply split_cut.
    + split; cbn -[aggregation_header].
      * rewrite length_app, length_map. cbn [length]. lia.
      * by rewrite Ef.
      * by rewrite body_snoc.
      * intros E. by specialize (Hmark E).
    + intros Hex. split; [by apply Hsize|].
      change (Forall exact_leb (sendable (o' :: obus2))). rewrite Hso.
      apply Forall_app in Hex as [_ Hex]. apply Forall_cons in Hex as [_ Hex]. by constructor.
  - destruct Hlast as [-> ->]. split; [|split; [|split; [|split; [reflexivity|]]]].
    + change (Forall obu_wf (sendable obus2)). by rewrite Hs2.
    + cbn [ps_obus modify]. rewrite Hs2. apply split_whole.
    + split; cbn -[aggregation_header].
      * rewrite length_app, length_map. cbn [length]. lia.
      * by rewrite Ef.
      * by rewrite body_snoc.
      * done.
    + intros Hex. split; [by apply Hsize|].
      change (Forall exact_leb (sendable obus2)). rewrite Hs2.
      apply Forall_app in Hex as [_ Hex]. by apply Forall_cons in Hex as [_ Hex].
Qed.
End Writing.

(** ** Sending everything *)

(** The plans the loop makes. *)
Fixpoint planned `{BitIO} (fuel : nat) (limit : Z) (state : Av1PayState) (force marker : bool) : list PacketOBUData :=
  match fuel with
  | O => []
  | S fuel =>
      match consider_new_packet limit state force marker with
      | Ok (Some packet) =>
          packet :: match build_packet state packet with
                    | Ok (_, state) => planned fuel limit state force marker
                    | Panic => []
                    end
      | _ => []
      end
  end.

(** Packets that carry the OBUs of a queue, from one state of the fragment
    flag to another. *)
Inductive sent : bool -> list (list Z) -> list PacketOBUData -> list PayPacket -> bool -> list (list Z) -> Prop :=
| sent_nil z U : sent z U [] [] z U
| sent_cons z U els y U1 plan p plans ps z' U' :
    split_off U els y U1 -> packet_form z y els plan p ->
    sent y U1 plans ps z' U' -> sent z U (plan :: plans) (p :: ps) z' U'.

Definition mass (U : list (list Z)) : nat := sum_list (map (fun u => S (length u)) U).

Lemma mass_app U V : mass (U ++ V) = (mass U + mass V)%nat.
Proof. unfold mass. by rewrite map_app, sum_list_with_app. Qed.

Lemma split_off_mass U els y U' : split_off U els y U' -> (mass U' < mass U)%nat.
Proof.
  destruct 1 as [els e rest|els e e' rest He He'];
    rewrite mass_app; unfold mass; cbn [map sum_list_with id]; rewrite ?length_app; [lia|].
  destruct e; [done|]. cbn [length]. lia.
Qed.

Lemma split_off_open U els U' : split_off U els true U' -> U' <> [].
Proof. by inversion 1. Qed.

Lemma queue_fuel_enough state : (mass (pending (ps_obus state)) < queue_fuel state)%nat.
Proof.
  unfold queue_fuel, pending, sendable, mass.
  induction (ps_obus state) as [|o l IH]; cbn [List.filter map sum_list_with]; [cbn; lia|].
  assert (length (unsent o) = length (od_bytes o) - Z.to_nat (od_offset o))%nat by apply length_drop.
  destruct (is_td o); cbn [negb map sum_list_with]; unfold id in *; lia.
Qed.
Section Sending.
Context `{BitIOLaws} `{RtpBasePay2} (limit : Z) `{!AcceptingBase limit}.
Hypothesis limit_ok : 4 <= limit < 2 ^ 30.

(** The loop of the payloader comes to an end, and everything that can be sent
    has been sent. *)
Lemma packet_loop_spec fuel force marker state base :
  queue_wf (ps_obus state) -> (mass (pending (ps_obus state)) < fuel)%nat ->
  (ps_open_obu_fragment state = true -> pending (ps_obus state) <> []) ->
  exists state' base' ps,
    packet_loop fuel force marker (state, base) = (Done tt, (state', base')) /\
    accepted base' = accepted base ++ ps /\
    sent (ps_open_obu_fragment state) (pending (ps_obus state)) (planned fuel limit state force marker) ps
      (ps_open_obu_fragment state') (pending (ps_obus state')) /\
    queue_wf (ps_obus state') /\
    (ps_open_obu_fragment state' = true -> pending (ps_obus state') <> []) /\
    (force || marker = true -> pending (ps_obus state') = []) /\
    (Forall exact_leb (sendable (ps_obus state)) -> Forall (fun p => Z.of_nat (length (pp_payload p)) <= limit) ps).
Proof.
  revert state base. induction fuel as [|fuel IH]; intros state base Hwf Hmass Hopen; [lia|].
  destruct (consider_new_packet_spec limit limit_ok state force marker Hwf) as (r & Hr & Hok).
  cbn [packet_loop planned]. unfold mbind, M_bind at 1, get_. cbn [fst snd].
  rewrite accepting_size, Hr. unfold M_bind at 1, of_res at 1. destruct r as [packet|].
  - destruct (build_packet_spec limit state packet Hwf Hok)
      as (p & state1 & els & y & Hb & Hwf1 & Hsplit & Hform & Hopen1 & Hex).
    unfold M_bind at 1, generate_new_packet, mbind, M_bind at 1, get_. cbn [fst snd].
    rewrite Hb. unfold M_bind at 1, of_res at 1. unfold M_bind, put_, queue_. cbn [fst snd].
    destruct (accepting_queue p base) as (base1 & -> & Hacc).
    destruct (IH state1 base1 Hwf1) as (state' & base' & ps & Hloop & Hacc' & Hsent & Hwf' & Hop' & Hdone & Hfit).
    { pose proof (split_off_mass _ _ _ _ Hsplit). lia. }
    { rewrite Hopen1. intros ->. by eapply split_off_open. }
    exists state', base', (p :: ps). split; [done|]. split_and!; try done.
    + by rewrite Hacc', Hacc, <- app_assoc.
    + econstructor; [done..|]. by rewrite <- Hopen1.
    + intros He. destruct (Hex He) as [Hl He1]. constructor; [done|by apply Hfit].
  - exists state, base, []. split; [done|]. split_and!; try done.
    + by rewrite app_nil_r.
    + constructor.
    + intros Hfm. unfold pending. by rewrite (Hok Hfm).
Qed.

End Sending.

(** ** Reading the input *)

(** An OBU: its header without a size field, and its payload. *)
Record Obu := mkObu {
  ob_first : Z;
  ob_ext : list Z;
  ob_payload : list Z;
}.

Definition ob_type (o : Obu) : ObuType := hd_type (ob_first o).
Definition ob_header (o : Obu) : list Z := ob_first o :: ob_ext o.
Definition ob_size (o : Obu) : Z := Z.of_nat (length (ob_payload o)).

(** As an element of a packet, and with a size field as in a file. *)
Definition raw (o : Obu) : list Z := ob_header o ++ ob_payload o.
Definition sized (o : Obu) : list Z :=
  Z.lor (ob_first o) 2 :: ob_ext o ++ leb (ob_size o) ++ ob_payload o.

Definition is_obu (o : Obu) : Prop :=
  is_header (ob_header o) /\ Z.testbit (ob_first o) 1 = false /\
  is_bytes (ob_payload o) /\ ob_size o < 2 ^ 29 /\
  (ob_type o = TemporalDelimiter -> ob_payload o = []).

Definition obu_info (o : Obu) : SizedObu :=
  mkSizedObu (ob_type o) (Z.testbit (ob_first o) 2) true (hd_temporal (ob_header o)) (hd_spatial (ob_header o))
    (ob_size o) (leb128_size (ob_size o)) (Z.of_nat (length (ob_header o))) false.

(** What the parsing loop does with one OBU. *)
Definition parse_one (id : Z) (keyframe : bool) (state : Av1PayState) (o : Obu) : Av1PayState :=
  match ob_type o with
  | TileList | Padding => state
  | TemporalDelimiter =>
      state <| ps_obus ::= fun l => l ++ [mkObuData (obu_info o) keyframe [] 0 id] |>
            <| ps_key_frame_state := if keyframe then KfTemporalDelimiter else KfUndefined |>
  | _ => store_obu (mkObuData (obu_info o) keyframe (raw o) 0 id) id keyframe state
  end.

(** The OBUs that are to be transmitted: all but temporal delimiters, tile
    lists and padding, the last sequence header repeated before the frame of a
    key frame that has none. *)
Fixpoint transmitted (keyframe : bool) (kf : KeyFrameState) (seq : option Obu) (os : list Obu) : list Obu :=
  match os with
  | [] => []
  | o :: os =>
      match ob_type o with
      | TileList | Padding => transmitted keyframe kf seq os
      | TemporalDelimiter =>
          transmitted keyframe (if keyframe then KfTemporalDelimiter else KfUndefined) seq os
      | SequenceHeader =>
          o :: (if keyframe then transmitted keyframe KfSequenceHeader (Some o) os
                else transmitted keyframe kf seq os)
      | FrameHeader | Frame =>
          match keyframe, kf, seq with
          | true, KfTemporalDelimiter, Some s => s :: o :: transmitted keyframe KfSequenceHeader seq os
          | _, _, _ => o :: transmitted keyframe kf seq os
          end
      | _ => o :: transmitted keyframe kf seq os
      end
  end.

Definition seq_matches (state : Av1PayState) (seq : option Obu) : Prop :=
  match ps_last_sequence_header state, seq with
  | None, None => True
  | Some s, Some o => obu_wf s /\ is_td s = false /\ unsent s = raw o
  | _, _ => False
  end.

Section Reading.

Lemma lor2_add b : Z.testbit b 1 = false -> Z.lor b 2 = b + 2.
Proof.
  intros Hb. rewrite <- Z.lxor_lor, <- Z.add_nocarry_lxor; [done|..];
    apply Z.bits_inj'; intros n Hn; rewrite Z.land_spec, Z.bits_0; change 2 with (2 ^ 1);
    rewrite Z.pow2_bits_eqb by lia; destruct (Z.eqb_spec 1 n) as [<-|]; by rewrite ?Hb, ?andb_false_r.
Qed.

Lemma lor2_bits b i : Z.testbit (Z.lor b 2) i = Z.testbit b i || (i =? 1).
Proof.
  rewrite Z.lor_spec. f_equal. change 2 with (2 ^ 1).
  rewrite Z.pow2_bits_eqb by lia. apply Z.eqb_sym.
Qed.

Lemma lor2_header o : is_obu o -> is_header (Z.lor (ob_first o) 2 :: ob_ext o).
Proof.
  intros ((Hb & b0 & ext & [= <- <-] & H7 & Hext) & H1 & _).
  split.
  - inversion Hb as [|? ? Hf He]; subst. constructor; [|done].
    unfold is_u8 in *. rewrite lor2_add by done. split; [lia|].
    assert (ob_first o <> 254 /\ ob_first o <> 255); [|lia].
    split; intros E; by rewrite E in H7.
  - exists (Z.lor (ob_first o) 2), (ob_ext o). split; [done|]. rewrite !lor2_bits, H7. split; [done|].
    rewrite orb_false_r. exact Hext.
Qed.

Lemma lor2_type b : hd_type (Z.lor b 2) = hd_type b.
Proof. unfold hd_type. by rewrite !lor2_bits, !orb_false_r. Qed.

Lemma ldiff_lor2 b : Z.testbit b 1 = false -> Z.ldiff (Z.lor b 2) 2 = b.
Proof.
  intros Hb. apply Z.bits_inj'. intros n Hn. rewrite Z.ldiff_spec, lor2_bits.
  change 2 with (2 ^ 1). rewrite Z.pow2_bits_eqb, (Z.eqb_sym 1) by lia.
  destruct (Z.eqb_spec n 1) as [->|]; by rewrite ?Hb, ?orb_false_r, ?andb_true_r.
Qed.

Lemma header_length o : is_obu o -> (1 <= length (ob_header o) <= 2)%nat.
Proof.
  intros ((_ & ? & ? & E & _ & Hx) & _). rewrite E. cbn [length]. rewrite Hx.
  destruct (Z.testbit _ _); lia.
Qed.

Lemma header_bytes o : is_obu o -> is_bytes (ob_header o).
Proof. intros [[? _] _]. done. Qed.

Lemma ob_size_u32 o : is_obu o -> is_u32 (ob_size o).
Proof.
  intros (_ & _ & _ & Hs & _). unfold is_u32. change (2 ^ 29) with 536870912 in Hs.
  unfold ob_size in *. lia.
Qed.

Lemma raw_bytes o : is_obu o -> is_bytes (raw o).
Proof. intros Ho. apply Forall_app. split; [by apply header_bytes|apply Ho]. Qed.

Lemma sized_bytes o : is_obu o -> is_bytes (sized o).
Proof.
  intros Ho. destruct (lor2_header o Ho) as [Hh _]. pose proof (ob_size_u32 o Ho) as Hs.
  inversion Hh; subst. constructor; [done|]. apply Forall_app. split; [done|]. apply Forall_app.
  split; [|apply Ho]. apply leb_bytes. unfold is_u32 in Hs. lia.
Qed.

Context `{BitIOLaws}.

Lemma parse_sized o rest :
  is_obu o -> is_bytes rest ->
  run_parser SizedObu_parse (sized o ++ rest) = Done (obu_info o, ob_payload o ++ rest).
Proof.
  intros Ho Hrest. pose proof (ob_size_u32 o Ho) as Hs.
  replace (sized o ++ rest)
    with ((Z.lor (ob_first o) 2 :: ob_ext o ++ leb (ob_size o)) ++ ob_payload o ++ rest)
    by (unfold sized; cbn [app]; by rewrite <- !app_assoc).
  erewrite run_parser_ok; [| |by apply Forall_app; split; [apply Ho|]].
  - reflexivity.
  - unfold obu_info, ob_type, ob_header. rewrite leb128_size_eq, <- lor2_type by done.
    replace (Z.testbit (ob_first o) 2) with (Z.testbit (Z.lor (ob_first o) 2) 2)
      by (rewrite lor2_bits; apply orb_false_r).
    apply (parses_sized (Z.lor (ob_first o) 2) (ob_ext o));
      [by apply lor2_header|rewrite lor2_bits; apply orb_true_r|done].
Qed.

Lemma read_at (pre mid rest : list Z) pos n :
  pos = Z.of_nat (length pre) -> n = Z.of_nat (length mid) ->
  read_exact (pre ++ mid ++ rest) pos n = Some mid.
Proof.
  intros -> ->. unfold read_exact. rewrite !length_app.
  rewrite (proj2 (Z.leb_le _ _)) by lia.
  by rewrite !Nat2Z.id, drop_app_length, take_app_length.
Qed.

Lemma sized_length o : Z.of_nat (length (sized o)) =
  Z.of_nat (length (ob_header o)) + Z.of_nat (length (leb (ob_size o))) + ob_size o.
Proof. unfold sized, ob_header, ob_size. cbn [length]. rewrite !length_app. lia. Qed.

Lemma parse_obus_spec fuel pre os id keyframe state :
  Forall is_obu os -> is_bytes pre -> (length (concat (map sized os)) < fuel)%nat ->
  parse_obus fuel (pre ++ concat (map sized os)) (Z.of_nat (length pre)) id keyframe state =
    (Done tt, fold_left (parse_one id keyframe) os state).
Proof.
  revert pre os state. induction fuel as [|fuel IH]; intros pre os state Hos Hpre Hf; [lia|].
  cbn [parse_obus]. destruct os as [|o os]; cbn [map concat fold_left].
  { rewrite app_nil_r. by rewrite (proj2 (Z.ltb_ge _ _)) by lia. }
  apply Forall_cons in Hos as [Ho Hos]. pose proof (ob_size_u32 o Ho) as Hs.
  assert (0 <= ob_size o) by (unfold is_u32 in Hs; lia).
  assert (Hrest : is_bytes (concat (map sized os))).
  { clear - Hos. induction Hos; [constructor|]. cbn [map concat]. apply Forall_app. split; [by apply sized_bytes|done]. }
  set (rest := concat (map sized os)) in *.
  pose proof (sized_length o) as Hsl. pose proof (leb_length_bounds (ob_size o)) as Hlb.
  cbn [map concat] in Hf. fold rest in Hf. rewrite length_app in Hf.
  pose proof (header_length o Ho) as Hhl.
  rewrite (proj2 (Z.ltb_lt _ _)) by (rewrite !length_app; lia). cbn [negb].
  rewrite Nat2Z.id, drop_app_length.
  unfold mbind at 1, M_bind at 1, of_flow. rewrite parse_sized by done. cbn [fst snd].
  assert (Hnext : parse_obus fuel (pre ++ sized o ++ rest) (Z.of_nat (length (pre ++ sized o))) id keyframe
      (parse_one id keyframe state o) = (Done tt, fold_left (parse_one id keyframe) os (parse_one id keyframe state o))).
  { rewrite app_assoc. apply IH; [done|apply Forall_app; split; [done|by apply sized_bytes]|]. fold rest. lia. }
  assert (Hpos : Z.of_nat (length (pre ++ sized o ++ rest)) - Z.of_nat (length (ob_payload o ++ rest)) + ob_size o
                 = Z.of_nat (length (pre ++ sized o))).
  { rewrite !length_app. unfold ob_size in *. lia. }
  assert (Hheader : read_exact (pre ++ sized o ++ rest) (Z.of_nat (length pre)) (Z.of_nat (length (ob_header o)))
                    = Some (Z.lor (ob_first o) 2 :: ob_ext o)).
  { replace (sized o ++ rest)
      with ((Z.lor (ob_first o) 2 :: ob_ext o) ++ (leb (ob_size o) ++ ob_payload o) ++ rest)
      by (unfold sized; cbn [app]; by rewrite <- !app_assoc).
    by apply read_at. }
  assert (Hpay : read_exact (pre ++ sized o ++ rest)
      (Z.of_nat (length pre) + Z.of_nat (length (ob_header o)) + leb128_size (ob_size o)) (ob_size o)
      = Some (ob_payload o)).
  { rewrite leb128_size_eq by done.
    replace (pre ++ sized o ++ rest)
      with ((pre ++ (Z.lor (ob_first o) 2 :: ob_ext o) ++ leb (ob_size o)) ++ ob_payload o ++ rest)
      by (unfold sized; rewrite <- !app_assoc; cbn [app]; by rewrite <- !app_assoc).
    apply read_at; [|done]. rewrite !length_app. unfold ob_header. cbn [length]. lia. }
  pose proof Ho as (_ & Hbit & _ & Hsz & Htd). change (2 ^ 29) with 536870912 in Hsz.
  unfold parse_one at 1 in Hnext. unfold parse_one at 1.
  cbn [obu_info so_obu_type so_size so_header_len so_leb_size].
  destruct (ob_type o) eqn:Ety; try (rewrite Hpos; exact Hnext).
  3: { rewrite (Htd eq_refl) in *. unfold ob_size in Hpos. unfold ob_size. rewrite (Htd eq_refl) in *.
       cbn [length] in *. cbn [Z.of_nat Z.eqb negb].
       unfold mbind at 1, M_bind at 1, upd_. cbn [Z.of_nat] in Hpos. rewrite Z.add_0_r in Hpos. rewrite Hpos.
       exact Hnext. }
  all: unfold mbind, M_bind, of_res, of_option, upd_;
    rewrite (proj2 (uint_add_ok _ _ _ _)) by (split; [reflexivity|lia]);
    rewrite Hheader; cbn [clear_size_field]; rewrite ldiff_lor2 by done;
    replace (Z.of_nat (length (ob_header o)) + ob_size o - Z.of_nat (length (ob_header o))) with (ob_size o) by lia;
    rewrite Hpay;
    replace (Z.of_nat (length pre) + Z.of_nat (length (ob_header o)) + leb128_size (ob_size o) + ob_size o)
      with (Z.of_nat (length (pre ++ sized o)))
      by (rewrite length_app, leb128_size_eq by done; lia);
    exact Hnext.
Qed.

Lemma raw_wf o keyframe id :
  is_obu o -> ob_type o <> TemporalDelimiter ->
  obu_wf (mkObuData (obu_info o) keyframe (raw o) 0 id) /\
  is_td (mkObuData (obu_info o) keyframe (raw o) 0 id) = false.
Proof.
  intros Ho Hty. split; [|by apply bool_decide_false].
  pose proof (header_length o Ho) as Hhl.
  pose proof (raw_bytes o Ho). pose proof Ho as (_ & _ & _ & Hs & _).
  assert (Z.of_nat (length (raw o)) = Z.of_nat (length (ob_header o)) + ob_size o)
    by (unfold raw, ob_size; rewrite length_app; lia).
  assert (0 <= ob_size o) by (unfold ob_size; lia).
  unfold obu_wf, unsent_len. cbn [od_info od_offset od_bytes obu_info so_size so_header_len so_leb_size].
  change (2 ^ 30) with 1073741824. change (2 ^ 29) with 536870912 in *.
  split_and!; done || lia.
Qed.

Lemma pending_snoc l d : is_td d = false -> pending (l ++ [d]) = pending l ++ [unsent d].
Proof.
  intros Hd. unfold pending. rewrite sendable_app, map_app. f_equal. cbn. by rewrite Hd.
Qed.

Lemma pending_td l d : is_td d = true -> pending (l ++ [d]) = pending l.
Proof.
  intros Hd. unfold pending. rewrite sendable_app, map_app.
  replace (sendable [d]) with (@nil ObuData) by (cbn; by rewrite Hd). apply app_nil_r.
Qed.

Lemma queue_wf_snoc l d : queue_wf l -> (is_td d = false -> obu_wf d) -> queue_wf (l ++ [d]).
Proof.
  intros Hl Hd. unfold queue_wf. rewrite sendable_app. apply Forall_app. split; [done|].
  cbn. destruct (is_td d); cbn; auto.
Qed.

(** The queue after an OBU was read, and what the OBUs after it will add. *)
Lemma parse_one_spec id keyframe state seq o os :
  is_obu o -> queue_wf (ps_obus state) -> seq_matches state seq ->
  let state' := parse_one id keyframe state o in
  queue_wf (ps_obus state') /\ ps_open_obu_fragment state' = ps_open_obu_fragment state /\
  exists seq', seq_matches state' seq' /\
    pending (ps_obus state') ++ map raw (transmitted keyframe (ps_key_frame_state state') seq' os) =
    pending (ps_obus state) ++ map raw (transmitted keyframe (ps_key_frame_state state) seq (o :: os)).
Proof.
  intros Ho Hwf Hseq. cbn zeta. unfold parse_one. cbn [transmitted].
  set (d := mkObuData (obu_info o) keyframe (raw o) 0 id).
  destruct (decide (ob_type o = TemporalDelimiter)) as [Etd|Htd].
  { rewrite Etd. cbn [ps_obus modify ps_open_obu_fragment ps_key_frame_state].
    split; [|split; [done|]].
    - apply queue_wf_snoc; [done|]. intros E. unfold is_td in E. cbn in E.
      by rewrite bool_decide_true in E.
    - exists seq. split; [done|]. cbn [ps_obus]. rewrite pending_td by (by apply bool_decide_true). done. }
  destruct (raw_wf o keyframe id Ho Htd) as [Hd Hdtd]. fold d in Hd, Hdtd.
  assert (Hud : unsent d = raw o) by done.
  assert (Hplain : forall st seq0, queue_wf (ps_obus st) -> ps_open_obu_fragment st = ps_open_obu_fragment state ->
    seq_matches st seq0 ->
    pending (ps_obus st) ++ map raw (o :: transmitted keyframe (ps_key_frame_state st) seq0 os) =
    pending (ps_obus state) ++ map raw (transmitted keyframe (ps_key_frame_state state) seq (o :: os)) ->
    let st' := st <| ps_obus ::= fun l => l ++ [d] |> in
    queue_wf (ps_obus st') /\ ps_open_obu_fragment st' = ps_open_obu_fragment state /\
    exists seq', seq_matches st' seq' /\
      pending (ps_obus st') ++ map raw (transmitted keyframe (ps_key_frame_state st') seq' os) =
      pending (ps_obus state) ++ map raw (transmitted keyframe (ps_key_frame_state state) seq (o :: os))).
  { intros st seq0 Hq Hop Hm Heq. cbn [ps_obus modify ps_open_obu_fragment ps_key_frame_state].
    split; [by apply queue_wf_snoc|]. split; [done|]. exists seq0. split; [done|].
    cbn [ps_obus ps_key_frame_state]. rewrite pending_snoc, Hud, <- app_assoc by done. exact Heq. }
  cbn [transmitted] in Hplain.
  destruct (ob_type o) eqn:Ety; try done; try (by split; [|split; [|exists seq]]);
    unfold store_obu; cbn [d od_info obu_info so_obu_type]; rewrite Ety;
    destruct keyframe; try (by apply (Hplain state seq)).
  all: rewrite ?decide_True by done; rewrite ?(decide_False (P := _ = SequenceHeader)) by done.
  all: try (rewrite decide_False by (by intros [[?|?] _]); by apply (Hplain state seq)).
  1: apply (Hplain _ (Some o)); [done|done| |done]; by split; [|split].
  all: destruct (decide _) as [[_ Hkf]|Hn];
    [|apply (Hplain state seq); [done..|];
      destruct (ps_key_frame_state state); try done; by exfalso; apply Hn; auto].
  all: rewrite Hkf in *; unfold seq_matches in Hseq;
    destruct (ps_last_sequence_header state) as [sh|] eqn:Esh, seq as [s0|]; try done;
    [destruct Hseq as (Hsw & Hst & Hsu); apply (Hplain _ (Some s0));
       [by apply queue_wf_snoc|done|unfold seq_matches; cbn [ps_last_sequence_header modify]; by rewrite Esh|];
       cbn [ps_obus modify ps_key_frame_state]; rewrite pending_snoc, <- app_assoc by done;
       cbn [app map]; do 2 f_equal; exact Hsu
    |apply (Hplain state None); try done; [unfold seq_matches; by rewrite Esh|by rewrite Hkf]].
Qed.

Lemma parse_all_spec id keyframe os state seq :
  Forall is_obu os -> queue_wf (ps_obus state) -> seq_matches state seq ->
  let state' := fold_left (parse_one id keyframe) os state in
  queue_wf (ps_obus state') /\ ps_open_obu_fragment state' = ps_open_obu_fragment state /\
  pending (ps_obus state') =
    pending (ps_obus state) ++ map raw (transmitted keyframe (ps_key_frame_state state) seq os).
Proof.
  intros Hos. revert state seq. induction Hos as [|o os Ho _ IH]; intros state seq Hwf Hseq.
  { cbn. by rewrite app_nil_r. }
  destruct (parse_one_spec id keyframe state seq o os Ho Hwf Hseq) as (Hwf1 & Hop1 & seq1 & Hseq1 & Heq1).
  destruct (IH _ seq1 Hwf1 Hseq1) as (Hwf' & Hop' & Hp'). cbn [fold_left].
  split; [done|]. split; [congruence|]. by rewrite Hp', Heq1.
Qed.
End Reading.
