(* ===== verification/Av1Depay.v ===== *)
(** * The AV1 depayloader

    [av1/depay/imp.rs] of the RTP plugin: OBU elements are cut out of the
    packets, fragments joined across packets, and every complete OBU is
    written with a size field into the output buffer. *)

From S2P Require Import Prelude Flow BitStream RtpBase Av1Common Av1Pay.

(** ** Data *)
Record DepaySettings := mkDepaySettings {
  dset_request_keyframe : bool;
  dset_wait_for_keyframe : bool;
}.

Record PendingFragment := mkPendingFragment {
  pf_ext_seqnum : Z;
  pf_bytes : list Z;
}.

Record DepayState := mkDepayState {
  ds_last_timestamp : option Z;
  ds_marked_packet : bool;
  ds_needs_discont : bool;
  ds_found_valid_obu : bool;
  ds_obu_fragment : option PendingFragment;
  ds_seen_keyframe : bool;
}.

#[export] Instance DepayState_rebuild : Rebuild DepayState := {|
  rebuild := fun r => mkDepayState (ds_last_timestamp r) (ds_marked_packet r) (ds_needs_discont r)
    (ds_found_valid_obu r) (ds_obu_fragment r) (ds_seen_keyframe r) |}.

Definition DepayState_default : DepayState := mkDepayState None false true false None false.

Definition TEMPORAL_DELIMITER : list Z := [18; 0].

(** ** Cutting elements and OBUs *)

(** Writing [src] over the bytes of [dst] from [pos] on, as far as there is room. *)
Definition write_at (dst : list Z) (pos : Z) (src : list Z) : list Z :=
  take (Z.to_nat pos) dst ++ src ++ drop (Z.to_nat pos + length src) dst.

(** [bytes[0] |= 1 << 1] *)
Definition set_size_field (bytes : list Z) : res (list Z) :=
  match bytes with
  | b0 :: bytes => Ok (Z.lor b0 2 :: bytes)
  | [] => Panic
  end.

Section Depay.
Context `{BitIO} `{RtpBaseDepay2}.

(** The element's size, whether it is the last one, and the position after
    its size field. *)
Definition find_element_info (data : list Z) (pos : Z) (aggr_header : AggregationHeader) (index : Z)
  : flow (Z * bool * Z) :=
  let len := Z.of_nat (length data) in
  match ag_obu_count aggr_header with
  | Some count =>
      if index + 1 =? count then
        match uint_sub len pos with
        | Ok n => Done (wrap U32 n, true, pos)
        | Panic => Crash
        end
      else
        fmap_flow (fun '((size, _), rest) => (size, false, len - Z.of_nat (length rest)))
          (run_parser parse_leb128 (drop (Z.to_nat pos) data))
  | None =>
      match run_parser parse_leb128 (drop (Z.to_nat pos) data) with
      | Done ((size, _), rest) =>
          let pos := len - Z.of_nat (length rest) in
          match len ?= pos + size with
          | Gt => Done (size, false, pos)
          | Eq => Done (size, true, pos)
          | Lt => Fail
          end
      | Fail => Fail
      | Crash => Crash
      end
  end.

(** Append the OBU in [data] to [w], with a size field. *)
Definition translate_obu {S} (data : list Z) (obu : SizedObu) (w : list Z) : M S (list Z) :=
  full_size ← of_res (SizedObu_full_size obu);
  header ← of_option (read_exact data 0 (so_header_len obu));
  let bytes := write_at (replicate (Z.to_nat full_size) 0) 0 header in
  bytes ← of_res (set_size_field bytes);
  let rest := drop (Z.to_nat (so_header_len obu)) data in
  rest ← (if so_has_size_field obu
          then parsed ← of_flow (run_parser parse_leb128 rest); mret (snd parsed)
          else mret rest);
  let field := leb128_bytes (so_size obu) in
  if Z.of_nat (length field) <=? full_size - so_header_len obu then
    let bytes := write_at bytes (so_header_len obu) field in
    start ← of_res (uint_add U32 (so_header_len obu) (so_leb_size obu));
    payload ← of_option (read_exact rest 0 (full_size - start));
    mret (w ++ write_at bytes start payload)
  else fail_.

Abbreviation DM := (M (DepayState * BaseDepay)).

Definition on_depay (f : DepayState -> DepayState) : DM unit := upd_ (fun s => (f (fst s), snd s)).
Definition depay_reset : DM unit := on_depay (fun _ => DepayState_default).

(** The size of the OBU at the start of [remaining], with its header. [None]:
    the OBU is incomplete. *)
Definition element_size_of (obu : UnsizedObu) (remaining : list Z) : res (option Z) :=
  match uo_size obu with
  | Some (size, leb_size) =>
      a ← uint_add U32 size leb_size;
      size ← uint_add U32 a (uo_header_len obu);
      Ok (if size >? Z.of_nat (length remaining) then None else Some size)
  | None => Ok (Some (Z.of_nat (length remaining)))
  end.

(** [full_obu] of [translate_obus] *)
Definition sized_obu_of (obu : UnsizedObu) (element_size : Z) : res SizedObu :=
  match uo_size obu with
  | Some (size, leb_size) => Ok (UnsizedObu_as_sized obu size leb_size)
  | None =>
      size ← uint_sub (wrap U32 element_size) (uo_header_len obu);
      Ok (UnsizedObu_as_sized obu size (leb128_size size))
  end.

(** The loop of [translate_obus], [remaining] the data from the reader on. *)
Fixpoint translate_loop (fuel : nat) (first : bool) (remaining : list Z) (w : list Z) : DM (list Z) :=
  match fuel with
  | O => crash_
  | S fuel =>
      match remaining with
      | [] => mret w
      | _ =>
          match run_parser UnsizedObu_parse remaining with
          | Crash => crash_
          | Fail => if first then fail_ else mret w
          | Done (obu, _) =>
              element_size ← of_res (element_size_of obu remaining);
              match element_size with
              | None => if first then fail_ else mret w
              | Some element_size =>
                  _ ← on_depay (fun state => state <| ds_found_valid_obu := true |>);
                  let next := drop (Z.to_nat element_size) remaining in
                  if decide (uo_obu_type obu = TemporalDelimiter \/ uo_obu_type obu = TileList \/
                             uo_obu_type obu = Padding)
                  then translate_loop fuel false next w
                  else
                    full_obu ← of_res (sized_obu_of obu element_size);
                    w ← translate_obu (take (Z.to_nat element_size) remaining) full_obu w;
                    translate_loop fuel false next w
              end
          end
      end
  end.

Definition translate_obus (data w : list Z) : DM (list Z) :=
  translate_loop (S (length data)) true data w.

(** ** Handling a packet *)

Definition nothing_ready (ready_obus : list Z) : bool :=
  bool_decide (ready_obus = []) || bool_decide (ready_obus = TEMPORAL_DELIMITER).

(** What a new temporal unit starts with; [None]: the packet is dropped. *)
Definition new_temporal_unit (settings : DepaySettings) (packet : DepayPacket) (aggr_header : AggregationHeader)
  : DM (option (list Z)) :=
  s ← get_;
  if ds_marked_packet (fst s) || negb (bool_decide (ds_last_timestamp (fst s) = Some (dp_ext_timestamp packet))) then
    _ ← (if negb (is_none (ds_last_timestamp (fst s))) && negb (is_none (ds_obu_fragment (fst s))) then
           _ ← depay_reset; drop_ (dp_ext_seqnum packet) false
         else mret tt);
    _ ← (if start_of_seq aggr_header then on_depay (fun state => state <| ds_seen_keyframe := true |>)
         else mret tt);
    s ← get_;
    if negb (ds_seen_keyframe (fst s)) then
      _ ← (if dset_request_keyframe settings then on_base push_force_key_unit else mret tt);
      if dset_wait_for_keyframe settings then
        _ ← depay_reset;
        _ ← drop_ (dp_ext_seqnum packet) true;
        mret None
      else mret (Some TEMPORAL_DELIMITER)
    else mret (Some TEMPORAL_DELIMITER)
  else mret (Some []).

(** The leading fragment continues the one kept in the state: the position
    behind it, the OBUs ready, and the first sequence number of the output. *)
Definition continue_fragment (packet : DepayPacket) (aggr_header : AggregationHeader)
    (fragment : PendingFragment) (ready_obus : list Z) : DM (Z * list Z * Z) :=
  let data := dp_payload packet in
  _ ← of_res (assert_ (leading_fragment aggr_header));
  info ← of_flow (find_element_info data 1 aggr_header 0);
  let '(element_size, is_last_obu, pos) := info in
  more ← of_option (read_exact data pos element_size);
  let bytes := pf_bytes fragment ++ more in
  if negb is_last_obu || negb (trailing_fragment aggr_header) then
    _ ← on_depay (fun state => state <| ds_obu_fragment := None |>);
    ready_obus ← translate_obus bytes ready_obus;
    mret (pos + element_size, ready_obus, pf_ext_seqnum fragment)
  else
    _ ← on_depay (fun state =>
      state <| ds_obu_fragment := Some (mkPendingFragment (pf_ext_seqnum fragment) bytes) |>);
    mret (pos + element_size, ready_obus, dp_ext_seqnum packet).

(** The loop over the other elements, trailing fragments included. *)
Fixpoint elements_loop (fuel : nat) (packet : DepayPacket) (aggr_header : AggregationHeader)
    (pos idx : Z) (ready_obus : list Z) : DM (list Z) :=
  match fuel with
  | O => crash_
  | S fuel =>
      let data := dp_payload packet in
      let len := Z.of_nat (length data) in
      if negb (pos <? len) then mret ready_obus
      else
        info ← of_flow (find_element_info data pos aggr_header idx);
        let '(element_size, is_last_obu, pos) := info in
        if (idx =? 0) && leading_fragment aggr_header then
          let pos := pos + element_size in
          _ ← (if pos =? len then drop_ (dp_ext_seqnum packet) true else mret tt);
          elements_loop fuel packet aggr_header pos (idx + 1) ready_obus
        else if is_last_obu && trailing_fragment aggr_header then
          _ ← on_depay (fun state =>
            state <| ds_obu_fragment :=
              Some (mkPendingFragment (dp_ext_seqnum packet) (drop (Z.to_nat pos) data)) |>);
          elements_loop fuel packet aggr_header len (idx + 1) ready_obus
        else
          let remaining := drop (Z.to_nat pos) data in
          if Z.of_nat (length remaining) <? element_size then
            _ ← depay_reset;
            _ ← (if nothing_ready ready_obus then drop_ (dp_ext_seqnum packet) true else mret tt);
            mret ready_obus
          else
            ready_obus ← translate_obus (take (Z.to_nat element_size) remaining) ready_obus;
            elements_loop fuel packet aggr_header (pos + element_size) (idx + 1) ready_obus
  end.

(** The output buffer of the OBUs that are ready, if there are any. *)
Definition make_buffer (ready_obus : list Z) : DM (option DepayBuffer) :=
  if nothing_ready ready_obus then mret None
  else
    s ← get_;
    _ ← (if ds_needs_discont (fst s) then on_depay (fun state => state <| ds_needs_discont := false |>)
         else mret tt);
    mret (Some (mkDepayBuffer ready_obus (ds_marked_packet (fst s)) (ds_needs_discont (fst s)) false)).

(** The OBUs the packet completes, behind those that are ready, and the
    sequence number the output starts at. *)
Definition collect_obus (packet : DepayPacket) (aggr_header : AggregationHeader) (ready_obus : list Z)
  : DM (list Z * Z) :=
  s ← get_;
  lead ← match ds_obu_fragment (fst s) with
         | Some fragment =>
             ret ← continue_fragment packet aggr_header fragment ready_obus; mret (ret, 1)
         | None => mret (1, ready_obus, dp_ext_seqnum packet, 0)
         end;
  let '(pos, ready_obus, start_ext_seqnum, idx) := lead in
  ready_obus ← elements_loop (S (length (dp_payload packet))) packet aggr_header pos idx ready_obus;
  mret (ready_obus, start_ext_seqnum).

(** A marked packet must not leave a fragment behind. *)
Definition check_marker (packet : DepayPacket) (buffer : option DepayBuffer) : DM unit :=
  s ← get_;
  if ds_marked_packet (fst s) && negb (is_none (ds_obu_fragment (fst s))) then
    _ ← depay_reset;
    if is_none buffer then drop_ (dp_ext_seqnum packet) true else mret tt
  else mret tt.

Definition handle_rtp_packet (settings : DepaySettings) (packet : DepayPacket)
  : DM (option (Z * Z * DepayBuffer)) :=
  header ← of_option (read_exact (dp_payload packet) 0 1);
  let aggr_header := AggregationHeader_from (nth 0 header 0) in
  ready_obus ← new_temporal_unit settings packet aggr_header;
  match ready_obus with
  | None => mret None
  | Some ready_obus =>
      _ ← on_depay (fun state => state <| ds_marked_packet := dp_marker_bit packet |>
                                       <| ds_last_timestamp := Some (dp_ext_timestamp packet) |>);
      s ← get_;
      _ ← (if negb (is_none (ds_obu_fragment (fst s))) && negb (leading_fragment aggr_header) then
             _ ← depay_reset; drop_ (dp_ext_seqnum packet) false
           else mret tt);
      collected ← collect_obus packet aggr_header ready_obus;
      buffer ← make_buffer (fst collected);
      _ ← check_marker packet buffer;
      mret (match buffer with
            | Some buffer => Some (snd collected, dp_ext_seqnum packet, buffer)
            | None => None
            end)
  end.

(** ** The element *)
Definition depay_handle_packet (settings : DepaySettings) (packet : DepayPacket) : DM unit :=
  fun s =>
    match handle_rtp_packet settings packet s with
    | (Done (Some (seqnums, buffer)), (state, base)) =>
        let '(ret, base) := queue_buffer seqnums buffer base in (ret, (state, base))
    | (Done None, s) => (Done tt, s)
    | (Fail, s) => (_ ← depay_reset; drop_ (dp_ext_seqnum packet) true) s
    | (Crash, s) => (Crash, s)
    end.

Definition depay_start : DM unit := depay_reset.
Definition depay_stop : DM unit := depay_reset.
Definition depay_flush : DM unit := depay_reset.
End Depay.
