(* ===== verification/Av1DepayProps.v ===== *)
(** * What the AV1 depayloader makes of the payloader's packets

    Cutting elements out of a packet, joining fragments, and writing OBUs. *)

From S2P Require Import Prelude Flow BitStream RtpBase Av1Common Av1Pay Av1PayProps Av1Depay.

(** The kinds of OBU the depayloader passes on. *)
Definition passed_on (o : Obu) : Prop :=
  ob_type o <> TemporalDelimiter /\ ob_type o <> TileList /\ ob_type o <> Padding.

(** Nothing but the pending fragment and [found_valid_obu] differs. *)
Definition same_stream (st st' : DepayState) : Prop :=
  ds_last_timestamp st' = ds_last_timestamp st /\ ds_marked_packet st' = ds_marked_packet st /\
  ds_needs_discont st' = ds_needs_discont st /\ ds_seen_keyframe st' = ds_seen_keyframe st.

Lemma write_at_app (a b c src : list Z) pos :
  Z.to_nat pos = length a -> length src = length b -> write_at (a ++ b ++ c) pos src = a ++ src ++ c.
Proof.
  intros Hp Hl. unfold write_at. rewrite Hp, take_app_length. f_equal. f_equal.
  rewrite drop_app_add. by rewrite Hl, drop_app_length.
Qed.

Section DepayLemmas.
Context `{BitIOLaws} `{RtpBaseDepay2}.
Implicit Types (st : DepayState) (b : BaseDepay) (o : Obu).

Lemma translate_obu_spec {S} o w (s : S) :
  is_obu o ->
  translate_obu (raw o)
    (mkSizedObu (ob_type o) (Z.testbit (ob_first o) 2) false (hd_temporal (ob_header o)) (hd_spatial (ob_header o))
       (ob_size o) (leb128_size (ob_size o)) (Z.of_nat (length (ob_header o))) false) w s =
    (Done (w ++ sized o), s).
Proof.
  intros Ho. pose proof (ob_size_u32 o Ho) as Hs. pose proof Ho as (_ & _ & _ & Hs29 & _).
  change (2 ^ 29) with 536870912 in Hs29.
  pose proof (leb_length_bounds (ob_size o)) as Hlb.
  pose proof (header_length o Ho) as Hhl.
  unfold is_u32 in Hs. unfold translate_obu, SizedObu_full_size.
  cbn [so_size so_leb_size so_header_len so_has_size_field].
  rewrite leb128_size_eq, leb128_bytes_eq by done.
  do 3 (rewrite (proj2 (uint_add_ok _ _ _ _)) by (split; [reflexivity|lia]); cbn [mbind res_bind]).
  unfold mbind, M_bind, of_res, of_option.
  rewrite (read_at [] (ob_header o) (ob_payload o) 0) by done.
  set (full := ob_size o + _ + _).
  replace (write_at (replicate (Z.to_nat full) 0) 0 (ob_header o))
    with (ob_header o ++ replicate (length (leb (ob_size o))) 0 ++ replicate (length (ob_payload o)) 0).
  2:{ replace (Z.to_nat full) with (length (ob_header o) + (length (leb (ob_size o)) + length (ob_payload o)))%nat
        by (subst full; unfold ob_size; lia).
      rewrite !replicate_add. symmetry.
      apply (write_at_app [] (replicate (length (ob_header o)) 0)); [done|by rewrite length_replicate]. }
  unfold ob_header at 1. cbn [app set_size_field mret M_ret].
  rewrite (proj2 (Z.leb_le _ _)) by (subst full; lia).
  change (Z.lor (ob_first o) 2 :: ob_ext o ++ ?l) with ((Z.lor (ob_first o) 2 :: ob_ext o) ++ l).
  rewrite write_at_app by (rewrite ?length_replicate; unfold ob_header; cbn [length]; lia).
  unfold raw. rewrite Nat2Z.id, drop_app_length.
  replace (full - (Z.of_nat (length (ob_header o)) + Z.of_nat (length (leb (ob_size o))))) with (ob_size o)
    by (subst full; lia).
  pose proof (read_at [] (ob_payload o) [] 0 (ob_size o) eq_refl eq_refl) as Hread.
  cbn [app] in Hread. rewrite app_nil_r in Hread. rewrite Hread.
  unfold mret, M_ret. do 3 f_equal.
  rewrite app_assoc, <- (app_nil_r (replicate _ _)), write_at_app.
  - unfold sized. cbn [app]. by rewrite app_nil_r, <- !app_assoc.
  - rewrite length_app. unfold ob_header. cbn [length]. lia.
  - by rewrite length_replicate.
Qed.

Lemma parse_raw o :
  is_obu o ->
  run_parser UnsizedObu_parse (raw o) =
    Done (mkUnsizedObu (ob_type o) (Z.testbit (ob_first o) 2) (hd_temporal (ob_header o))
            (hd_spatial (ob_header o)) (Z.of_nat (length (ob_header o))) false None, ob_payload o).
Proof.
  intros Ho. apply run_parser_ok; [|apply Ho]. destruct Ho as (Hh & Hb1 & _).
  by apply (parses_unsized (ob_first o) (ob_ext o)).
Qed.

(** An element that holds a whole OBU. *)
Lemma translate_obus_spec o w st b :
  is_obu o -> passed_on o ->
  translate_obus (raw o) w (st, b) = (Done (w ++ sized o), (st <| ds_found_valid_obu := true |>, b)).
Proof.
  intros Ho (Htd & Htl & Hpd). unfold translate_obus.
  assert (exists n, length (raw o) = S n) as [n Hn] by (unfold raw, ob_header; by eexists).
  rewrite Hn. cbn [translate_loop].
  destruct (raw o) as [|b0 l] eqn:Eraw; [done|]. rewrite <- Eraw in *. clear Eraw.
  rewrite parse_raw by done.
  unfold mbind at 1, M_bind at 1, of_res at 1. cbn [element_size_of uo_size].
  unfold mbind at 1, M_bind at 1, on_depay at 1, upd_ at 1. cbn [fst snd uo_obu_type].
  rewrite decide_False by (by intros [|[|]]).
  assert (Hlen : Z.of_nat (length (raw o)) = Z.of_nat (length (ob_header o)) + ob_size o)
    by (unfold raw, ob_size; rewrite length_app; lia).
  pose proof Ho as (_ & _ & _ & Hs29 & _). change (2 ^ 29) with 536870912 in Hs29.
  pose proof (header_length o Ho) as Hhl.
  assert (0 <= ob_size o) by (unfold ob_size; lia).
  unfold sized_obu_of. cbn [uo_size uo_header_len].
  rewrite wrap_small by lia.
  rewrite (proj2 (uint_sub_ok _ _ _)) by (split; [reflexivity|lia]).
  replace (Z.of_nat (length (raw o)) - Z.of_nat (length (ob_header o))) with (ob_size o) by lia.
  unfold mbind, M_bind at 1, of_res at 1. cbn [res_bind].
  rewrite Nat2Z.id, take_ge, drop_ge by lia.
  unfold M_bind at 1. unfold UnsizedObu_as_sized.
  cbn [uo_obu_type uo_has_extension uo_size uo_temporal_id uo_spatial_id uo_header_len uo_is_fragment].
  by rewrite translate_obu_spec.
Qed.

(** An element as the payloader makes them. *)
Definition is_element (e : list Z) : Prop := e <> [] /\ is_bytes e /\ Z.of_nat (length e) < 2 ^ 30.

Lemma element_u32 e : is_element e -> is_u32 (Z.of_nat (length e)).
Proof. intros (_ & _ & ?). unfold is_u32. change (2 ^ 30) with 1073741824 in *. lia. Qed.

Lemma body_cons omit e t :
  body omit (e :: t) =
    (if omit && bool_decide (t = []) then [] else leb (Z.of_nat (length e))) ++ e ++ body omit t.
Proof.
  destruct t as [|e' t].
  - rewrite bool_decide_true, andb_true_r by done. cbn [body]. by rewrite app_nil_r.
  - by rewrite bool_decide_false, andb_false_r.
Qed.

Lemma body_bytes omit els : Forall is_element els -> is_bytes (body omit els).
Proof.
  induction 1 as [|e t He _ IH]; [constructor|]. rewrite body_cons.
  apply Forall_app; split; [|apply Forall_app; split; [apply He|done]].
  destruct (omit && _); [constructor|]. apply leb_bytes. lia.
Qed.

Lemma body_length omit els : Forall is_element els -> (length els <= length (body omit els))%nat.
Proof.
  induction 1 as [|e t He _ IH]; [done|]. rewrite body_cons, !length_app. cbn [length].
  destruct He as [He _]. destruct e; [done|]. cbn [length]. lia.
Qed.

(** The header's count for the elements from [idx] on. *)
Definition counts (omit : bool) (aggr : AggregationHeader) (idx : Z) (els : list (list Z)) : Prop :=
  ag_obu_count aggr = if omit then Some (idx + Z.of_nat (length els)) else None.

Lemma find_element_spec pre omit e t aggr idx :
  Forall is_element (e :: t) -> counts omit aggr idx (e :: t) ->
  exists pos',
    find_element_info (pre ++ body omit (e :: t)) (Z.of_nat (length pre)) aggr idx =
      Done (Z.of_nat (length e), bool_decide (t = []), pos') /\
    exists pre', pos' = Z.of_nat (length pre') /\
      pre ++ body omit (e :: t) = pre' ++ e ++ body omit t.
Proof.
  intros Hels Hc. pose proof (body_bytes omit _ Hels) as Hb.
  apply Forall_cons in Hels as [He Ht]. pose proof (element_u32 e He) as Hu.
  unfold find_element_info. rewrite Hc. rewrite Nat2Z.id, drop_app_length.
  rewrite body_cons in *. destruct omit; cbn [andb] in *.
  - destruct (decide (t = [])) as [->|Hne].
    + rewrite bool_decide_true in * by done. cbn [app body length] in *. rewrite app_nil_r in *.
      rewrite Z.eqb_refl. rewrite (proj2 (uint_sub_ok _ _ _)) by (split; [reflexivity|rewrite length_app; lia]).
      rewrite length_app. replace (Z.of_nat (length pre + length e) - Z.of_nat (length pre)) with (Z.of_nat (length e)) by lia.
      rewrite wrap_small by exact Hu. eexists. split; [done|]. exists pre. done.
    + rewrite bool_decide_false in * by done.
      destruct (Z.eqb_spec (idx + 1) (idx + Z.of_nat (length (e :: t)))) as [E|_].
      { destruct t; [done|]. cbn [length] in E. lia. }
      rewrite (run_parser_ok _ (leb (Z.of_nat (length e))) _ _ (parses_leb128 _ Hu))
        by (by apply Forall_app in Hb as [_ Hb]).
      cbn [fmap_flow]. eexists. split; [reflexivity|].
      exists (pre ++ leb (Z.of_nat (length e))). rewrite <- app_assoc, !length_app. split; [lia|done].
  - rewrite (run_parser_ok _ (leb (Z.of_nat (length e))) _ _ (parses_leb128 _ Hu))
      by (by apply Forall_app in Hb as [_ Hb]).
    rewrite !length_app.
    match goal with |- context [?a ?= ?b] => destruct (Z.compare_spec a b) as [E|E|E] end.
    + assert (t = []) as ->.
      { destruct t as [|e' t]; [done|]. exfalso. pose proof (body_length false _ Ht) as Hl. cbn [length] in Hl. lia. }
      rewrite bool_decide_true by done. eexists. split; [reflexivity|].
      exists (pre ++ leb (Z.of_nat (length e))). rewrite <- app_assoc, !length_app. split; [lia|done].
    + lia.
    + rewrite bool_decide_false by (intros ->; cbn [body length] in E; lia).
      eexists. split; [reflexivity|].
      exists (pre ++ leb (Z.of_nat (length e))). rewrite <- app_assoc, !length_app. split; [lia|done].
Qed.

Lemma raw_element o : is_obu o -> is_element (raw o).
Proof.
  intros Ho. split; [done|]. split; [by apply raw_bytes|].
  pose proof (header_length o Ho). destruct Ho as (_ & _ & _ & Hs & _). unfold ob_size in Hs.
  unfold raw. rewrite length_app. change (2 ^ 30) with 1073741824. change (2 ^ 29) with 536870912 in Hs. lia.
Qed.

(** The elements of a packet behind the leading fragment: whole OBUs, and in
    the end perhaps the start of another. *)
Lemma elements_loop_spec fuel pre packet aggr omit idx os tail ready st b :
  dp_payload packet = pre ++ body omit (map raw os ++ tail) ->
  Forall is_obu os -> Forall passed_on os ->
  tail = [] /\ trailing_fragment aggr = false \/
    (exists l, tail = [l] /\ is_element l) /\ trailing_fragment aggr = true ->
  counts omit aggr idx (map raw os ++ tail) ->
  (idx =? 0) && leading_fragment aggr = false -> 0 <= idx ->
  (length os + length tail < fuel)%nat ->
  exists st',
    elements_loop fuel packet aggr (Z.of_nat (length pre)) idx ready (st, b) =
      (Done (ready ++ concat (map sized os)), (st', b)) /\
    same_stream st st' /\
    ds_obu_fragment st' =
      match tail with [] => ds_obu_fragment st | l :: _ => Some (mkPendingFragment (dp_ext_seqnum packet) l) end.
Proof.
  revert pre idx os ready st. induction fuel as [|fuel IH]; intros pre idx os ready st
    Hdata Hos Hpass Htail Hc Hidx Hidx0 Hf; [lia|].
  cbn [elements_loop]. destruct os as [|o os]; cbn [map app concat] in *.
  - destruct Htail as [[-> Htr]|[(l & -> & Hl) Htr]].
    + rewrite Hdata. cbn [body]. rewrite app_nil_r, (proj2 (Z.ltb_ge _ _)) by lia.
      exists st. rewrite app_nil_r. split; [done|]. by split.
    + destruct (find_element_spec pre omit l [] aggr idx) as (pos' & Hfe & pre' & -> & Hpre'); [by constructor|done|].
      pose proof Hl as (Hne & _).
      assert ((length pre < length (dp_payload packet))%nat).
      { rewrite Hdata, length_app. pose proof (body_length omit [l] ltac:(by constructor)) as Hbl.
        cbn [length] in Hbl. lia. }
      rewrite (proj2 (Z.ltb_lt _ _)) by lia. cbn [negb].
      rewrite <- Hdata in Hfe, Hpre'.
      unfold mbind at 1, M_bind at 1, of_flow at 1. rewrite Hfe.
      rewrite bool_decide_true by done. rewrite Hidx, Htr. cbn [andb].
      unfold mbind at 1, M_bind at 1, on_depay, upd_. cbn [fst snd].
      assert (Hdrop : drop (Z.to_nat (Z.of_nat (length pre'))) (dp_payload packet) = l).
      { rewrite Hpre', Nat2Z.id, drop_app_length. cbn [body]. apply app_nil_r. }
      rewrite Hdrop. clear Hdrop.
      destruct fuel as [|fuel]; [cbn [length] in Hf; lia|]. cbn [elements_loop].
      rewrite (proj2 (Z.ltb_ge _ _)) by lia. cbn [negb].
      eexists. split; [by rewrite app_nil_r|]. by split.
  - apply Forall_cons in Hos as [Ho Hos]. apply Forall_cons in Hpass as [Hp Hpass].
    pose proof (raw_element o Ho) as He.
    assert (Ht : Forall is_element (map raw os ++ tail)).
    { apply Forall_app. split.
      - apply Forall_map. eapply Forall_impl; [exact Hos|]. apply raw_element.
      - destruct Htail as [[-> _]|[(l & -> & Hl) _]]; [constructor|by constructor]. }
    destruct (find_element_spec pre omit (raw o) (map raw os ++ tail) aggr idx) as (pos' & Hfe & pre' & -> & Hpre');
      [by constructor|done|].
    assert ((length pre < length (dp_payload packet))%nat).
    { rewrite Hdata, length_app. pose proof (body_length omit (raw o :: map raw os ++ tail) ltac:(by constructor)) as Hbl.
      cbn [length] in Hbl. lia. }
    rewrite (proj2 (Z.ltb_lt _ _)) by lia. cbn [negb].
    rewrite <- Hdata in Hfe, Hpre'.
    unfold mbind at 1, M_bind at 1, of_flow at 1. rewrite Hfe, Hidx.
    replace (bool_decide (map raw os ++ tail = []) && trailing_fragment aggr) with false.
    2:{ destruct Htail as [[_ ->]|[(l & -> & _) _]]; [by rewrite andb_false_r|].
        rewrite bool_decide_false; [done|]. by intros [_ ?]%app_eq_nil. }
    assert (Hdrop : drop (Z.to_nat (Z.of_nat (length pre'))) (dp_payload packet)
                    = raw o ++ body omit (map raw os ++ tail)).
    { by rewrite Hpre', Nat2Z.id, drop_app_length. }
    rewrite Hdrop. clear Hdrop.
    rewrite (proj2 (Z.ltb_ge _ _)) by (rewrite length_app; lia).
    unfold mbind at 1, M_bind at 1. rewrite Nat2Z.id, take_app_length, translate_obus_spec by done.
    replace (Z.of_nat (length pre') + Z.of_nat (length (raw o))) with (Z.of_nat (length (pre' ++ raw o)))
      by (rewrite length_app; lia).
    destruct (IH (pre' ++ raw o) (idx + 1) os (ready ++ sized o) (st <| ds_found_valid_obu := true |>))
      as (st' & -> & Hsame & Hfrag).
    + by rewrite Hpre', <- app_assoc.
    + done.
    + done.
    + done.
    + unfold counts in *. rewrite Hc. cbn [length]. destruct omit; [f_equal; lia|done].
    + rewrite (proj2 (Z.eqb_neq _ _)) by lia. done.
    + lia.
    + cbn [length] in Hf. lia.
    + exists st'. rewrite <- app_assoc. split; [done|]. split; [exact Hsame|exact Hfrag].
Qed.
End DepayLemmas.

(** ** Joining fragments *)

(** The elements with the bytes kept from earlier packets put in front. *)
Definition rejoin (kept : option (list Z)) (U : list (list Z)) : list (list Z) :=
  match kept, U with
  | Some pre, e :: t => (pre ++ e) :: t
  | _, _ => U
  end.

Lemma rejoin_snoc kept els e :
  exists init l, rejoin kept (els ++ [e]) = init ++ [l] /\ (e <> [] -> l <> []) /\
    forall e' rest, rejoin kept (els ++ (e ++ e') :: rest) = init ++ (l ++ e') :: rest.
Proof.
  destruct kept as [pre|]; [|by exists els, e].
  destruct els as [|e0 els].
  - exists [], (pre ++ e). split; [done|]. split.
    + intros He [_ ?]%app_eq_nil. done.
    + intros e' rest. cbn. by rewrite app_assoc.
  - by exists ((pre ++ e0) :: els), e.
Qed.

(** A packet carries the next OBUs, and in the end perhaps a part of another. *)
Lemma split_off_obus kept U els y U' os :
  split_off U els y U' -> rejoin kept U = map raw os ->
  exists done os', os = done ++ os' /\
    (y = false /\ rejoin kept els = map raw done /\ U' = map raw os' \/
     y = true /\ exists l, rejoin kept els = map raw done ++ [l] /\ l <> [] /\
       rejoin (Some l) U' = map raw os' /\ U' <> []).
Proof.
  intros Hsplit HU. destruct Hsplit as [els e rest|els e e' rest He He'].
  - destruct (rejoin_snoc kept els e) as (init & l & Hels & _ & Hr).
    specialize (Hr [] rest). rewrite !app_nil_r in Hr. rewrite Hr in HU.
    rewrite cons_middle, app_assoc in HU.
    symmetry in HU. apply map_eq_app in HU as (done & os' & -> & Hd & Hr').
    exists done, os'. split; [done|]. left. split; [done|]. split; [congruence|done].
  - destruct (rejoin_snoc kept els e) as (init & l & Hels & Hl & Hr).
    rewrite Hr in HU. symmetry in HU. apply map_eq_app in HU as (done & os' & -> & Hd & Hr').
    exists done, os'. split; [done|]. right. split; [done|].
    exists l. split; [by rewrite Hd|]. split; [by apply Hl|]. split; [cbn; congruence|done].
Qed.

Lemma split_off_elements U els y U' :
  split_off U els y U' -> Forall is_element U -> Forall is_element els /\ Forall is_element U' /\ els <> [].
Proof.
  intros Hsplit HU. destruct Hsplit as [els e rest|els e e' rest He He'];
    rewrite Forall_app, Forall_cons in HU.
  - destruct HU as (Hels & He & Hrest). rewrite Forall_app, Forall_singleton.
    split; [done|]. split; [done|]. intros E. by apply app_eq_nil in E as [_ E].
  - destruct HU as (Hels & (_ & Hb & Hl) & Hrest). unfold is_bytes in Hb.
    rewrite Forall_app in Hb. rewrite length_app in Hl. destruct Hb as [Hb1 Hb2].
    rewrite Forall_app, Forall_singleton, Forall_cons.
    assert (is_element e /\ is_element e') as [? ?] by (split; (split; [done|split; [done|lia]])).
    split; [done|]. split; [done|]. intros E. by apply app_eq_nil in E as [_ E].
Qed.

(** ** The aggregation header *)

(** The depayloader reads the header the payloader wrote. *)
Lemma aggregation_header_parsed z y els plan p :
  packet_form z y els plan p -> els <> [] -> well_delimited plan = true ->
  exists start, AggregationHeader_from (aggregation_header z plan) =
    mkAggr z y (if pk_omit_last_size_field plan then Some (Z.of_nat (length els)) else None) start.
Proof.
  intros [Hc Hf _ _] Hne Hwd. exists (pk_start_of_coded_video_sequence plan).
  unfold well_delimited in Hwd. unfold aggregation_header. rewrite Hc in *.
  assert (Hn : 0 < Z.of_nat (length els)) by (destruct els; [done|cbn; lia]).
  set (n := Z.of_nat (length els)) in *.
  assert (Hy : (match pk_last_obu_fragment_size plan with Some _ => 1 | None => 0 end) = Z.b2z y).
  { rewrite Hf. by destruct (pk_last_obu_fragment_size plan). }
  rewrite Hy. clear Hf Hy Hc. destruct (pk_omit_last_size_field plan); cbn [andb negb] in *.
  - rewrite orb_false_r in Hwd. apply Z.leb_le in Hwd. rewrite (proj2 (Z.ltb_lt _ _)) by lia.
    assert (n = 1 \/ n = 2 \/ n = 3) as [-> | [-> | ->]] by lia;
      destruct z, y, (pk_start_of_coded_video_sequence plan); reflexivity.
  - destruct z, y, (pk_start_of_coded_video_sequence plan); reflexivity.
Qed.

(** ** A packet *)

(** The OBUs of an output buffer behind its temporal delimiter. *)
Definition strip_td (bytes : list Z) : list Z :=
  match bytes with 18 :: 0 :: bytes => bytes | _ => bytes end.

Lemma sized_head o : passed_on o -> Z.lor (ob_first o) 2 <> 18.
Proof.
  intros (Hp & _) E. apply Hp. unfold ob_type. rewrite <- lor2_type, E. reflexivity.
Qed.

Lemma strip_sized td done :
  Forall passed_on done -> td = [] \/ td = TEMPORAL_DELIMITER ->
  strip_td (td ++ concat (map sized done)) = concat (map sized done) /\
  (nothing_ready (td ++ concat (map sized done)) = true <-> done = []).
Proof.
  intros Hd Htd. destruct done as [|o done]; cbn [map concat].
  { rewrite app_nil_r. destruct Htd as [-> | ->]; done. }
  apply Forall_cons in Hd as [Ho _]. pose proof (sized_head o Ho) as Hh. unfold sized.
  split.
  - destruct Htd as [-> | ->]; [|done]. cbn [app strip_td].
    set (h := Z.lor _ _) in *. clearbody h.
    destruct (decide (h = 18)); [done|].
    destruct h as [|h|]; try done. repeat (destruct h as [h|h|]; try done).
  - split; [|done]. unfold nothing_ready. rewrite orb_true_iff, !bool_decide_eq_true.
    intros [E|E]; [by destruct td|].
    destruct Htd as [-> | ->].
    + cbn in E. injection E as E _. done.
    + apply (f_equal length) in E. rewrite !length_app in E. cbn [length] in E. lia.
Qed.

Section PacketLemmas.
Context `{BitIOLaws} `{RtpBaseDepay2} `{!CollectingDepay}.
Implicit Types (st : DepayState) (b : BaseDepay) (o : Obu).

Definition kept_bytes (st : DepayState) : option (list Z) := pf_bytes <$> ds_obu_fragment st.

(** What is left of an OBU whose fragment ends a packet. *)
Definition ends_with (y : bool) (tail : list (list Z)) : Prop :=
  y = false /\ tail = [] \/ y = true /\ exists l, tail = [l] /\ is_element l.

(** The leading fragment of a packet. *)
Lemma continue_fragment_spec packet hdr y omit start fragment e t done tail ready st b :
  dp_payload packet = hdr :: body omit (e :: t) -> Forall is_element (e :: t) ->
  (pf_bytes fragment ++ e) :: t = map raw done ++ tail -> ends_with y tail ->
  Forall is_obu done -> Forall passed_on done ->
  ds_obu_fragment st = Some fragment ->
  exists pre' st' start' done1 done2,
    continue_fragment packet
      (mkAggr true y (if omit then Some (Z.of_nat (length (e :: t))) else None) start) fragment ready (st, b) =
      (Done (Z.of_nat (length pre'), ready ++ concat (map sized done1), start'), (st', b)) /\
    dp_payload packet = pre' ++ body omit t /\ done = done1 ++ done2 /\ same_stream st st' /\
    match done1 with
    | [] => t = [] /\ done2 = [] /\ exists l, tail = [l] /\ kept_bytes st' = Some l
    | _ => t = map raw done2 ++ tail /\ ds_obu_fragment st' = None
    end.
Proof.
  intros Hdata Hels Hjoin Htail Hobu Hpass Hfrag. unfold continue_fragment.
  set (aggr := mkAggr _ _ _ _).
  destruct (find_element_spec [hdr] omit e t aggr 0 Hels) as (pos' & Hfe & pre' & -> & Hpre').
  { unfold counts, aggr. cbn [ag_obu_count]. by destruct omit. }
  unfold mbind at 1, M_bind at 1, of_res at 1. cbn [assert_ leading_fragment aggr].
  unfold mbind at 1, M_bind at 1, of_flow at 1. rewrite Hdata. change (hdr :: ?l) with ([hdr] ++ l).
  fold aggr. change 1 with (Z.of_nat (length [hdr])). rewrite Hfe. cbv iota beta.
  unfold mbind at 1, M_bind at 1, of_option at 1.
  rewrite Hpre', read_at by done.
  replace (Z.of_nat (length pre') + Z.of_nat (length e)) with (Z.of_nat (length (pre' ++ e)))
    by (rewrite length_app; lia).
  cbn [trailing_fragment aggr].
  destruct done as [|o done]; cbn [map app] in Hjoin.
  - destruct Htail as [[-> ->]|[-> (l & -> & Hl)]]; [done|]. injection Hjoin as Hl' ->.
    rewrite bool_decide_true by done. cbn [negb orb].
    unfold mbind, M_bind, on_depay, upd_, mret, M_ret. cbn [fst snd].
    exists (pre' ++ e), (st <| ds_obu_fragment := Some (mkPendingFragment (pf_ext_seqnum fragment) (pf_bytes fragment ++ e)) |>).
    exists (dp_ext_seqnum packet), [], []. cbn [map concat]. rewrite app_nil_r.
    split; [done|]. split; [by rewrite <- app_assoc|]. split; [done|]. split; [done|].
    split; [done|]. split; [done|]. exists l. split; [done|]. unfold kept_bytes. cbn. by rewrite Hl'.
  - injection Hjoin as Ho Ht.
    replace (negb (bool_decide (t = [])) || negb y) with true.
    2:{ destruct Htail as [[-> _]|[-> (l & -> & _)]]; [by rewrite orb_true_r|].
        rewrite bool_decide_false; [done|]. rewrite Ht. intros E. by apply app_eq_nil in E as [_ E]. }
    apply Forall_cons in Hobu as [Hoo _]. apply Forall_cons in Hpass as [Hpo _].
    unfold mbind, M_bind, on_depay at 1, upd_ at 1. cbn [fst snd].
    rewrite Ho, translate_obus_spec by done. unfold mret, M_ret.
    eexists (pre' ++ e), _, (pf_ext_seqnum fragment), [o], done. cbn [map concat].
    rewrite app_nil_r. split; [done|]. split; [by rewrite <- app_assoc|].
    split; [done|]. split; [done|]. done.
Qed.

(** The elements of a packet, joined with what was kept from the packets before. *)
Lemma collect_obus_spec packet hdr z y omit start els done tail ready st b :
  dp_payload packet = hdr :: body omit els -> Forall is_element els ->
  rejoin (kept_bytes st) els = map raw done ++ tail -> ends_with y tail ->
  z = negb (is_none (ds_obu_fragment st)) -> els <> [] ->
  Forall is_obu done -> Forall passed_on done ->
  exists st' start',
    collect_obus packet (mkAggr z y (if omit then Some (Z.of_nat (length els)) else None) start) ready (st, b) =
      (Done (ready ++ concat (map sized done), start'), (st', b)) /\
    same_stream st st' /\ kept_bytes st' = head tail.
Proof.
  intros Hdata Hels Hjoin Htail Hz Hne Hobu Hpass. unfold collect_obus.
  unfold mbind at 1, M_bind at 1, get_ at 1. cbn [fst snd]. unfold kept_bytes in Hjoin.
  pose proof (body_length omit els Hels) as Hbl.
  assert (Htl : tail = [] /\ y = false \/ (exists l, tail = [l] /\ is_element l) /\ y = true)
    by (destruct Htail as [[-> ->]|[-> (l & -> & Hl)]]; eauto).
  destruct (ds_obu_fragment st) as [fragment|] eqn:Ef; cbn in Hz, Hjoin; subst z.
  - destruct els as [|e t]; [done|].
    destruct (continue_fragment_spec packet hdr y omit start fragment e t done tail ready st b)
      as (pre' & st1 & start1 & done1 & done2 & Hcf & Hdata1 & -> & Hsame1 & Hrest); [done..|].
    unfold mbind, M_bind at 1. unfold M_bind at 1. rewrite Hcf. unfold mret, M_ret at 1.
    rewrite map_app, concat_app, app_assoc.
    destruct done1 as [|o1 done1].
    + destruct Hrest as (-> & -> & l & -> & Hk). cbn [body] in Hdata1.
      unfold M_bind. rewrite Hdata1, app_nil_r. cbn [elements_loop]. rewrite Hdata1, app_nil_r.
      rewrite (proj2 (Z.ltb_ge _ _)) by lia. cbn [negb]. unfold mret, M_ret.
      eexists _, _. cbn [map concat]. rewrite !app_nil_r. split; [done|]. by split.
    + destruct Hrest as [-> Hk]. apply Forall_app in Hobu as [_ Hobu]. apply Forall_app in Hpass as [_ Hpass].
      unfold M_bind.
      edestruct (elements_loop_spec (S (length (dp_payload packet))) pre' packet
        (mkAggr true y (if omit then Some (Z.of_nat (length (e :: map raw done2 ++ tail))) else None) start)
        omit 1 done2 tail) as (st2 & -> & Hsame2 & Hk2); [done..| | | | |].
      * unfold counts. cbn [ag_obu_count length]. destruct omit; [f_equal; lia|done].
      * done.
      * lia.
      * rewrite Hdata. cbn [length]. cbn [length] in Hbl. rewrite length_app, length_map in Hbl. lia.
      * eexists _, _. split; [done|]. split.
        { destruct Hsame1 as (? & ? & ? & ?), Hsame2 as (? & ? & ? & ?). split_and!; congruence. }
        unfold kept_bytes. rewrite Hk2. destruct tail; [by rewrite Hk|done].
  - unfold mbind, M_bind at 1, mret, M_ret at 1.
    unfold M_bind. subst els.
    edestruct (elements_loop_spec (S (length (dp_payload packet))) [hdr] packet
      (mkAggr false y (if omit then Some (Z.of_nat (length (map raw done ++ tail))) else None) start)
      omit 0 done tail) as (st2 & Hloop & Hsame2 & Hk2); [done..| | | | |].
    + unfold counts. cbn [ag_obu_count]. by destruct omit.
    + done.
    + done.
    + rewrite Hdata. cbn [length]. rewrite length_app, length_map in Hbl. lia.
    + change (Z.of_nat (length [hdr])) with 1 in Hloop. rewrite Hloop.
      eexists _, _. split; [done|]. split; [done|].
      unfold kept_bytes. rewrite Hk2. destruct tail; [by rewrite Ef|done].
Qed.

(** Before a packet of the temporal unit at [ts]: a fragment is only kept
    inside the unit. *)
Definition in_unit (ts : Z) (st : DepayState) : Prop :=
  is_Some (ds_obu_fragment st) -> ds_marked_packet st = false /\ ds_last_timestamp st = Some ts.

Lemma new_temporal_unit_spec settings packet aggr st b :
  dset_wait_for_keyframe settings = false -> in_unit (dp_ext_timestamp packet) st ->
  exists td st' b', new_temporal_unit settings packet aggr (st, b) = (Done (Some td), (st', b')) /\
    (td = [] \/ td = TEMPORAL_DELIMITER) /\ ds_obu_fragment st' = ds_obu_fragment st /\ outputs b' = outputs b.
Proof.
  intros Hwait Hunit. unfold new_temporal_unit.
  unfold mbind at 1, M_bind at 1, get_ at 1. cbn [fst snd].
  destruct (ds_marked_packet st || _) eqn:Enew.
  2:{ exists [], st, b. by split_and!; [|left|..]. }
  destruct (ds_obu_fragment st) as [f|] eqn:Ef.
  { exfalso. destruct (Hunit ltac:(by eexists)) as [Hm Ht]. rewrite Hm, Ht in Enew.
    by rewrite bool_decide_true in Enew. }
  rewrite andb_false_r. rewrite Hwait.
  unfold mbind, M_bind, mret, M_ret, on_depay, on_base, upd_, get_.
  destruct (start_of_seq aggr); cbn [fst snd ds_seen_keyframe modify negb].
  - eexists TEMPORAL_DELIMITER, _, b. split; [done|]. by split; [right|].
  - destruct (ds_seen_keyframe st); cbn [negb].
    + eexists TEMPORAL_DELIMITER, _, b. split; [done|]. by split; [right|].
    + destruct (dset_request_keyframe settings); cbn [fst snd].
      * eexists TEMPORAL_DELIMITER, _, _. split; [done|]. split; [by right|]. split; [done|]. apply force_outputs.
      * eexists TEMPORAL_DELIMITER, _, _. split; [done|]. by split; [right|].
Qed.

(** One packet of the payloader: the OBUs it completes come out behind each
    other, what it begins is kept. *)
Lemma handle_packet_spec settings ts seq z y els U U' plan p os st b :
  dset_wait_for_keyframe settings = false ->
  split_off U els y U' -> packet_form z y els plan p -> well_delimited plan = true ->
  Forall is_element U -> Forall is_obu os -> Forall passed_on os ->
  rejoin (kept_bytes st) U = map raw os -> z = negb (is_none (ds_obu_fragment st)) -> in_unit ts st ->
  exists st' b' done os' bufs,
    depay_handle_packet settings (mkDepayPacket (pp_payload p) ts seq (pp_marker_bit p)) (st, b) =
      (Done tt, (st', b')) /\
    os = done ++ os' /\ outputs b' = outputs b ++ bufs /\
    concat (map (fun buf => strip_td (db_bytes buf)) bufs) = concat (map sized done) /\
    rejoin (kept_bytes st') U' = map raw os' /\ y = negb (is_none (ds_obu_fragment st')) /\ in_unit ts st'.
Proof.
  intros Hwait Hsplit Hform Hwd HU Hobu Hpass Hjoin Hz Hunit.
  destruct (split_off_elements _ _ _ _ Hsplit HU) as (Hels & HU' & Hne).
  destruct (aggregation_header_parsed _ _ _ _ _ Hform Hne Hwd) as [start Haggr].
  destruct Hform as [_ _ Hpayload Hmark].
  destruct (split_off_obus (kept_bytes st) U els y U' os Hsplit Hjoin) as (done & os' & -> & Hcase).
  apply Forall_app in Hobu as [Hobu Hobu']. apply Forall_app in Hpass as [Hpass _].
  set (packet := mkDepayPacket _ _ _ _).
  assert (exists tail, rejoin (kept_bytes st) els = map raw done ++ tail /\ ends_with y tail /\
    rejoin (head tail) U' = map raw os' /\ y = negb (is_none (head tail))) as (tail & Hj & Htail & Hrest & Hy).
  { destruct Hcase as [(-> & Hd & HU1)|(-> & l & Hd & Hl & HU1 & Hne')].
    - exists []. rewrite app_nil_r. split; [done|]. split; [by left|]. split; [by destruct U'|done].
    - exists [l]. split; [done|]. split; [|done]. right. split; [done|]. exists l. split; [done|].
      destruct U' as [|e' U']; [done|]. destruct os' as [|o os']; [done|]. cbn [rejoin map] in HU1.
      injection HU1 as Ho _. apply Forall_cons in Hobu' as [Ho' _].
      destruct (raw_element o Ho') as (_ & Hb & Hlen). rewrite <- Ho in Hb, Hlen.
      unfold is_bytes in Hb. rewrite Forall_app in Hb. rewrite length_app in Hlen.
      split; [done|]. split; [apply Hb|lia]. }
  unfold depay_handle_packet, handle_rtp_packet.
  unfold mbind at 1, M_bind at 1, of_option at 1. cbn [dp_payload packet]. rewrite Hpayload.
  pose proof (read_at [] [aggregation_header z plan] (body (pk_omit_last_size_field plan) els) 0 1
    eq_refl eq_refl) as Hread. cbn [app] in Hread. rewrite Hread. cbn [nth]. rewrite Haggr.
  destruct (new_temporal_unit_spec settings packet
    (mkAggr z y (if pk_omit_last_size_field plan then Some (Z.of_nat (length els)) else None) start)
    st b Hwait Hunit) as (td & st1 & b1 & Hntu & Htd & Hf1 & Hout1).
  unfold mbind at 1, M_bind at 1. rewrite Hntu.
  unfold mbind at 1, M_bind at 1, on_depay at 1, upd_ at 1. cbn [fst snd].
  set (st2 := _ <| ds_marked_packet := _ |> <| ds_last_timestamp := _ |>).
  assert (Hk2 : kept_bytes st2 = kept_bytes st) by (unfold kept_bytes; cbn; by rewrite Hf1).
  assert (Hf2 : ds_obu_fragment st2 = ds_obu_fragment st) by exact Hf1.
  unfold mbind at 1, M_bind at 1, get_ at 1. cbn [fst snd leading_fragment].
  rewrite Hf2, <- Hz, andb_negb_r. unfold mbind at 1, M_bind at 1, mret at 1, M_ret at 1.
  destruct (collect_obus_spec packet (aggregation_header z plan) z y (pk_omit_last_size_field plan) start els done tail
    td st2 b1) as (st3 & start' & Hcol & Hsame & Hk3);
    [exact Hpayload|done|by rewrite Hk2|done|by rewrite Hf2|done..|].
  unfold mbind at 1, M_bind at 1. rewrite Hcol. cbn [fst snd].
  destruct (strip_sized td done Hpass Htd) as [Hstrip Hready].
  assert (Hn3 : is_none (ds_obu_fragment st3) = is_none (head tail)).
  { rewrite <- Hk3. unfold kept_bytes. by destruct (ds_obu_fragment st3). }
  destruct Hsame as (Hts & Hm & _ & _).
  assert (Hunit3 : in_unit ts st3).
  { intros Hs. split; [|by rewrite Hts]. rewrite Hm. cbn [ds_marked_packet st2 modify packet dp_marker_bit].
    destruct (pp_marker_bit p) eqn:Emk; [|done].
    rewrite (Hmark eq_refl) in Hy. rewrite <- Hn3 in Hy.
    destruct (ds_obu_fragment st3); [done|by destruct Hs]. }
  assert (Hcheck : forall st4 buf b4, ds_marked_packet st4 = ds_marked_packet st3 ->
    ds_obu_fragment st4 = ds_obu_fragment st3 -> check_marker packet buf (st4, b4) = (Done tt, (st4, b4))).
  { intros st4 buf b4 Hm4 Hf4. unfold check_marker. unfold mbind at 1, M_bind at 1, get_ at 1. cbn [fst snd].
    rewrite Hm4, Hf4. destruct (ds_obu_fragment st3) as [f|] eqn:Ef3; [|by rewrite andb_false_r].
    destruct (Hunit3 ltac:(rewrite Ef3; by eexists)) as [-> _]. done. }
  unfold mbind at 1, M_bind at 1, make_buffer.
  destruct (nothing_ready (td ++ concat (map sized done))) eqn:Eready.
  - unfold mret at 1, M_ret at 1. unfold mbind at 1, M_bind at 1. rewrite Hcheck by done. unfold mret, M_ret.
    rewrite (proj1 Hready eq_refl) in *.
    exists st3, b1, [], os', []. split; [done|]. split; [done|]. split; [by rewrite app_nil_r|].
    split; [done|]. rewrite Hk3, Hn3. done.
  - unfold mbind at 1, M_bind at 1, get_ at 1. cbn [fst snd].
    assert (exists st4, (_ ← (if ds_needs_discont st3 then on_depay (fun state => state <| ds_needs_discont := false |>) else mret tt);
        mret (Some (mkDepayBuffer (td ++ concat (map sized done)) (ds_marked_packet st3) (ds_needs_discont st3) false))) (st3, b1)
        = (Done (Some (mkDepayBuffer (td ++ concat (map sized done)) (ds_marked_packet st3) (ds_needs_discont st3) false)), (st4, b1)) /\
      ds_marked_packet st4 = ds_marked_packet st3 /\ ds_obu_fragment st4 = ds_obu_fragment st3 /\
      ds_last_timestamp st4 = ds_last_timestamp st3) as (st4 & Hmk & Hm4 & Hf4 & Ht4).
    { destruct (ds_needs_discont st3); by eexists. }
    rewrite Hmk. unfold mbind at 1, M_bind at 1. rewrite Hcheck by done. unfold mret, M_ret.
    edestruct (queue_outputs) as (b5 & -> & Hout5).
    eexists st4, b5, done, os', [_]. split; [done|]. split; [done|]. split; [by rewrite Hout5, Hout1|].
    split; [cbn [map concat db_bytes]; by rewrite app_nil_r|].
    unfold kept_bytes in *. rewrite Hf4, Hk3, Hn3. split; [done|]. split; [done|].
    intros Hs. rewrite Hm4, Ht4. apply Hunit3. by rewrite <- Hf4.
Qed.
End PacketLemmas.
