(* ===== verification/Av1Props.v ===== *)
(** * The AV1 payload format end to end

    The theorems on LEB128, on the payloader, on the depayloader, and on the
    two connected: what goes in comes out, and the inputs for which it does
    not. *)

From S2P Require Import Prelude Flow BitStream RtpBase Av1Common Av1Pay Av1PayProps Av1Depay Av1DepayProps.

(** Packets of one temporal unit handed to the depayloader in order, from
    sequence number [seqnum] on. *)
Fixpoint feed `{BitIO} `{RtpBaseDepay2} (settings : DepaySettings) (ts seqnum : Z) (ps : list PayPacket)
  : M (DepayState * BaseDepay) unit :=
  match ps with
  | [] => mret tt
  | p :: ps =>
      _ ← depay_handle_packet settings (mkDepayPacket (pp_payload p) ts seqnum (pp_marker_bit p));
      feed settings ts (seqnum + 1) ps
  end.

(** A payloader with nothing left to send. *)
Definition pay_idle (state : Av1PayState) : Prop :=
  sendable (ps_obus state) = [] /\ ps_open_obu_fragment state = false.

Definition is_sequence_header (o : Obu) : Prop := is_obu o /\ ob_type o = SequenceHeader.

Section EndToEnd.
Context `{BitIOLaws}.

Lemma feed_spec `{RtpBaseDepay2} `{!CollectingDepay} settings ts seqnum z U plans ps z' U' os st b :
  dset_wait_for_keyframe settings = false ->
  sent z U plans ps z' U' -> Forall (fun plan => well_delimited plan = true) plans ->
  Forall is_element U -> Forall is_obu os -> Forall passed_on os ->
  rejoin (kept_bytes st) U = map raw os -> z = negb (is_none (ds_obu_fragment st)) -> in_unit ts st ->
  exists st' b' done os' bufs,
    feed settings ts seqnum ps (st, b) = (Done tt, (st', b')) /\
    os = done ++ os' /\ outputs b' = outputs b ++ bufs /\
    concat (map (fun buf => strip_td (db_bytes buf)) bufs) = concat (map sized done) /\
    rejoin (kept_bytes st') U' = map raw os' /\ z' = negb (is_none (ds_obu_fragment st')).
Proof.
  intros Hwait Hsent. revert seqnum os st b.
  induction Hsent as [z U|z U els y U1 plan p plans ps z' U' Hsplit Hform Hsent IH];
    intros seqnum os st b Hwd HU Hobu Hpass Hjoin Hz Hunit.
  { exists st, b, [], os, []. split; [done|]. split; [done|]. split; [by rewrite app_nil_r|]. done. }
  apply Forall_cons in Hwd as [Hwd1 Hwd].
  destruct (handle_packet_spec settings ts seqnum z y els U U1 plan p os st b)
    as (st1 & b1 & done1 & os1 & bufs1 & Hh & -> & Hout1 & Hb1 & Hj1 & Hy1 & Hu1); [done..|].
  destruct (split_off_elements _ _ _ _ Hsplit HU) as (_ & HU1 & _).
  apply Forall_app in Hobu as [_ Hobu]. apply Forall_app in Hpass as [_ Hpass].
  destruct (IH (seqnum + 1) os1 st1 b1) as (st' & b' & done2 & os' & bufs2 & Hf & -> & Hout2 & Hb2 & Hj2 & Hz2); [done..|].
  exists st', b', (done1 ++ done2), os', (bufs1 ++ bufs2).
  cbn [feed]. unfold mbind, M_bind. rewrite Hh, Hf. split; [done|].
  split; [by rewrite app_assoc|]. split; [by rewrite Hout2, Hout1, app_assoc|].
  split; [by rewrite !map_app, !concat_app, Hb1, Hb2|]. done.
Qed.

Lemma transmitted_ok keyframe kf seq os :
  Forall is_obu os -> (forall o, seq = Some o -> is_sequence_header o) ->
  Forall (fun o => is_obu o /\ passed_on o) (transmitted keyframe kf seq os).
Proof.
  intros Hos. revert kf seq. induction Hos as [|o os Ho _ IH]; intros kf seq Hseq; [constructor|].
  assert (Hso : forall o', is_sequence_header o' -> is_obu o' /\ passed_on o').
  { intros o' [? E]. split; [done|]. unfold passed_on. by rewrite E. }
  cbn [transmitted]. destruct (ob_type o) eqn:Ety; try (by apply IH);
    assert (Hpo : is_obu o /\ passed_on o) by (split; [done|unfold passed_on; by rewrite Ety]);
    try (constructor; [done|by apply IH]).
  - constructor; [done|]. destruct keyframe; [|by apply IH]. apply IH. by intros ? [= <-].
  - destruct keyframe, kf, seq as [s0|]; try (constructor; [done|by apply IH]).
    constructor; [by apply Hso, Hseq|]. constructor; [done|by apply IH].
  - destruct keyframe, kf, seq as [s0|]; try (constructor; [done|by apply IH]).
    constructor; [by apply Hso, Hseq|]. constructor; [done|by apply IH].
Qed.

(** The first half: the OBUs of a buffer are parsed and sent completely. *)
Lemma pay_buffer_spec `{RtpBasePay2} limit `{!AcceptingBase limit} state base seq os id keyframe :
  4 <= limit < 2 ^ 30 -> Forall is_obu os -> pay_idle state -> seq_matches state seq ->
  let state1 := fold_left (parse_one id keyframe) os state in
  exists state' base' ps,
    handle_new_obus id (concat (map sized os)) keyframe true (state, base) = (Done tt, (state', base')) /\
    accepted base' = accepted base ++ ps /\ pay_idle state' /\
    sent false (map raw (transmitted keyframe (ps_key_frame_state state) seq os))
      (planned (queue_fuel state1) limit state1 false true) ps false [] /\
    (Forall exact_leb (sendable (ps_obus state1)) -> Forall (fun p => Z.of_nat (length (pp_payload p)) <= limit) ps).
Proof.
  intros Hlimit Hos [Hidle Hopen] Hseq state1.
  assert (Hwf : queue_wf (ps_obus state)) by (unfold queue_wf; by rewrite Hidle).
  destruct (parse_all_spec id keyframe os state seq Hos Hwf Hseq) as (Hwf1 & Hop1 & Hp1).
  fold state1 in Hwf1, Hop1, Hp1. unfold pending in Hp1. rewrite Hidle in Hp1. cbn [map app] in Hp1.
  fold (pending (ps_obus state1)) in Hp1.
  destruct (packet_loop_spec limit Hlimit (queue_fuel state1) false true state1 base Hwf1)
    as (state' & base' & ps & Hloop & Hacc & Hsent & _ & Hop' & Hdone & Hfit).
  { apply queue_fuel_enough. }
  { rewrite Hop1, Hopen. done. }
  specialize (Hdone eq_refl).
  assert (ps_open_obu_fragment state' = false) as Hclosed.
  { destruct (ps_open_obu_fragment state') eqn:E; [|done]. by destruct (Hop' eq_refl). }
  exists state', base', ps. split.
  - unfold handle_new_obus, mbind, M_bind, on_state. cbn [fst snd].
    pose proof (parse_obus_spec (S (length (concat (map sized os)))) [] os id keyframe state) as Hparse.
    cbn [app length] in Hparse. change (Z.of_nat 0) with 0 in Hparse.
    rewrite Hparse by (done || constructor || lia).
    unfold send_packets, mbind, M_bind, get_. cbn [fst snd]. exact Hloop.
  - split; [done|]. rewrite Hop1, Hopen, Hp1, Hclosed, Hdone in Hsent.
    split; [|split; [exact Hsent|exact Hfit]]. split; [|done]. by apply map_eq_nil in Hdone.
Qed.
End EndToEnd.

(** ** Theorems *)

(** C34: LEB128 against its reference. For every 32-bit value, [write_leb128]
    writes the reference encoding (seven bits a byte, low ones first, a high
    bit on all bytes but the last), [leb128_size] is its length, and
    [parse_leb128] reads the value and that length back and leaves the cursor
    behind it, whatever follows. *)
Theorem leb128_correct `{BitIOLaws} (v : Z) (rest : list Z) :
  is_u32 v -> is_bytes rest ->
  leb128_bytes v = leb v /\
  leb128_size v = Z.of_nat (length (leb v)) /\
  run_parser parse_leb128 (leb128_bytes v ++ rest) = Done ((v, leb128_size v), rest).
Proof.
  intros Hv Hrest. rewrite leb128_bytes_eq, leb128_size_eq by done.
  split; [done|]. split; [done|]. by apply run_parser_ok; [apply parses_leb128|].
Qed.

(** C9: the AV1 payloader and depayloader are inverse to each other. An idle
    payloader that gets a buffer with OBUs in their file format, each with a size
    field of minimal length and a payload below 2^29 bytes, sends packets such
    that a depayloader that holds no fragment and does not wait for a key frame,
    and gets them in order, puts out exactly the OBUs that are to be transmitted,
    byte for byte and in order (temporal delimiters aside), and keeps no fragment.
    This holds for every packet limit from 4 bytes up (below 2^30), so all
    fragmentations are covered, provided that no packet that is planned with more
    than three OBUs leaves out its last size field; where one does, OBUs are lost
    ([av1_crowded_packet_lost]). *)
Theorem av1_roundtrip `{BitIOLaws} `{RtpBasePay2} `{RtpBaseDepay2} `{!CollectingDepay}
    (limit : Z) `{!AcceptingBase limit} settings state base seq os id keyframe ts seqnum st b :
  4 <= limit < 2 ^ 30 -> Forall is_obu os ->
  pay_idle state -> seq_matches state seq -> (forall o, seq = Some o -> is_sequence_header o) ->
  dset_wait_for_keyframe settings = false -> ds_obu_fragment st = None ->
  (let state1 := fold_left (parse_one id keyframe) os state in
   Forall (fun plan => well_delimited plan = true) (planned (queue_fuel state1) limit state1 false true)) ->
  exists state' base' ps st' b' bufs,
    handle_new_obus id (concat (map sized os)) keyframe true (state, base) = (Done tt, (state', base')) /\
    pay_idle state' /\ accepted base' = accepted base ++ ps /\
    feed settings ts seqnum ps (st, b) = (Done tt, (st', b')) /\
    ds_obu_fragment st' = None /\ outputs b' = outputs b ++ bufs /\
    concat (map (fun buf => strip_td (db_bytes buf)) bufs) =
      concat (map sized (transmitted keyframe (ps_key_frame_state state) seq os)).
Proof.
  intros Hlimit Hos Hidle Hseq Hseqh Hwait Hst Hwd.
  destruct (pay_buffer_spec limit state base seq os id keyframe Hlimit Hos Hidle Hseq)
    as (state' & base' & ps & Hpay & Hacc & Hidle' & Hsent & _).
  pose proof (transmitted_ok keyframe (ps_key_frame_state state) seq os Hos Hseqh) as Htr.
  apply Forall_and in Htr as [Hobu Hpass].
  destruct (feed_spec settings ts seqnum _ _ _ _ _ _
    (transmitted keyframe (ps_key_frame_state state) seq os) st b Hwait Hsent Hwd)
    as (st' & b' & done & os' & bufs & Hfeed & Hos' & Hout & Hbufs & Hj & Hz).
  - apply Forall_map. eapply Forall_impl; [exact Hobu|]. intros o Ho. by apply raw_element.
  - done.
  - done.
  - unfold kept_bytes. by rewrite Hst.
  - by rewrite Hst.
  - intros Hs. rewrite Hst in Hs. by destruct Hs.
  - assert (os' = []) as ->.
    { destruct (kept_bytes st'), os'; by cbn in Hj. }
    rewrite app_nil_r in Hos'. exists state', base', ps, st', b', bufs.
    split; [done|]. split; [done|]. split; [done|]. split; [done|].
    split; [by destruct (ds_obu_fragment st')|]. split; [done|]. by rewrite Hbufs, Hos'.
Qed.

(** C33: the payloader's sending loop ends. For packet limits from 4 bytes up
    (below 2^30), in a queue of OBUs whose sizes are those of their bytes (below
    2^30) and whose size fields had minimal length, with any number of rounds from
    [queue_fuel] on, the loop that plans and writes packets runs to its end
    without a panic or an error; forced or marked, it leaves nothing to send.
    (A size field with padding can make it panic, see [av1_padded_size_panics].) *)
Theorem av1_pay_terminates `{BitIOLaws} `{RtpBasePay2} (limit : Z) `{!AcceptingBase limit}
    (fuel : nat) (force marker : bool) state base :
  4 <= limit < 2 ^ 30 -> queue_wf (ps_obus state) ->
  (ps_open_obu_fragment state = true -> pending (ps_obus state) <> []) ->
  (queue_fuel state <= fuel)%nat ->
  exists state' base',
    packet_loop fuel force marker (state, base) = (Done tt, (state', base')) /\
    queue_wf (ps_obus state') /\ (force || marker = true -> pending (ps_obus state') = []).
Proof.
  intros Hlimit Hwf Hopen Hfuel. pose proof (queue_fuel_enough state).
  destruct (packet_loop_spec limit Hlimit fuel force marker state base Hwf)
    as (state' & base' & ps & Hloop & _ & _ & Hwf' & _ & Hdone & _); [lia|done|].
  by exists state', base'.
Qed.

(** Packets fit. When the size of every OBU takes as many bytes with its
    header as without, no payload the payloader makes of a buffer is longer
    than the room the base class leaves. *)
Lemma av1_packets_fit `{BitIOLaws} `{RtpBasePay2} (limit : Z) `{!AcceptingBase limit}
    state base seq os id keyframe :
  4 <= limit < 2 ^ 30 -> Forall is_obu os -> pay_idle state -> seq_matches state seq ->
  Forall exact_leb (sendable (ps_obus (fold_left (parse_one id keyframe) os state))) ->
  exists state' base' ps,
    handle_new_obus id (concat (map sized os)) keyframe true (state, base) = (Done tt, (state', base')) /\
    accepted base' = accepted base ++ ps /\
    Forall (fun p => Z.of_nat (length (pp_payload p)) <= limit) ps.
Proof.
  intros Hlimit Hos Hidle Hseq Hex.
  destruct (pay_buffer_spec limit state base seq os id keyframe Hlimit Hos Hidle Hseq)
    as (state' & base' & ps & Hpay & Hacc & _ & _ & Hfit).
  exists state', base', ps. split; [done|]. split; [done|]. by apply Hfit.
Qed.

(** A size field of six bytes or more crashes the depayloader. AV1 allows
    LEB128 fields of up to eight bytes; the shift of [parse_leb128] overflows
    at the sixth, so any packet without an element count that starts with five
    continued bytes panics, whatever the state. *)
Lemma av1_long_leb128_crashes `{BitIOLaws} `{RtpBaseDepay2} settings ts seqnum marker bs byte rest b :
  length bs = 5%nat -> Forall (fun x => 128 <= x < 256) bs -> is_u8 byte ->
  dset_wait_for_keyframe settings = false ->
  exists s', depay_handle_packet settings (mkDepayPacket (0 :: bs ++ byte :: rest) ts seqnum marker)
    (DepayState_default, b) = (Crash, s').
Proof.
  intros Hlen Hbs Hbyte Hwait. unfold depay_handle_packet, handle_rtp_packet.
  set (packet := mkDepayPacket _ _ _ _).
  pose proof (read_at [] [0] (bs ++ byte :: rest) 0 1 eq_refl eq_refl) as Hread. cbn [app] in Hread.
  unfold mbind at 1, M_bind at 1, of_option at 1. cbn [dp_payload packet]. rewrite Hread. cbn [nth].
  change (AggregationHeader_from 0) with (mkAggr false false None false). set (aggr := mkAggr _ _ _ _).
  assert (exists b1, new_temporal_unit settings packet aggr (DepayState_default, b) =
    (Done (Some TEMPORAL_DELIMITER), (DepayState_default, b1))) as [b1 Hntu].
  { unfold new_temporal_unit, mbind, M_bind, get_, mret, M_ret, on_depay, on_base, upd_.
    cbn [fst snd]. rewrite Hwait. cbn. destruct (dset_request_keyframe settings); by eexists. }
  set (st1 := DepayState_default <| ds_marked_packet := dp_marker_bit packet |>
                                 <| ds_last_timestamp := Some (dp_ext_timestamp packet) |>).
  assert (Hloop : elements_loop (S (length (dp_payload packet))) packet aggr 1 0 TEMPORAL_DELIMITER (st1, b1) =
    (Crash, (st1, b1))).
  { cbn [elements_loop].
    rewrite (proj2 (Z.ltb_lt _ _)) by (cbn [dp_payload packet length]; rewrite length_app; cbn [length]; lia).
    cbn [negb]. unfold mbind at 1, M_bind at 1, of_flow at 1, find_element_info.
    cbn [ag_obu_count aggr dp_payload packet]. change (drop (Z.to_nat 1) (0 :: ?l)) with l.
    by rewrite parse_leb128_too_long by done. }
  unfold mbind, M_bind. rewrite Hntu. exists (st1, b1).
  unfold on_depay, upd_, get_, mret, M_ret, collect_obus, mbind, M_bind. cbn [fst snd]. fold st1.
  change (ds_obu_fragment st1) with (@None PendingFragment).
  cbn [is_none negb andb]. unfold get_, mret, M_ret. cbn [fst snd].
  change (ds_obu_fragment st1) with (@None PendingFragment). cbn iota beta. by rewrite Hloop.
Qed.

(** ** Examples *)

(** What is sent for a buffer, and what the other end makes of it. *)
Definition packets_of (limit : Z) (data : list Z) : list PayPacket :=
  snd (snd (@handle_new_obus bits_exact (keep_packets limit) 0 data true true (Av1PayState_default, []))).

Definition received (ps : list PayPacket) : list DepayBuffer :=
  snd (snd (@feed bits_exact keep_buffers (mkDepaySettings false false) 0 0 ps (DepayState_default, []))).

Definition example_obus : list Obu :=
  [mkObu 16 [] []; mkObu 8 [] [1; 2; 3]; mkObu 48 [] (map Z.of_nat (seq 10 40)); mkObu 28 [40] [7; 7]].

#[local] Instance is_obu_dec o : Decision (is_obu o).
Proof.
  unfold is_obu, is_bytes, is_u8. apply _.
Defined.

Lemma example_obus_ok : Forall is_obu example_obus.
Proof. apply (bool_decide_unpack _). vm_compute. exact I. Qed.

Lemma leb128_correct_witness :
  is_u32 300 /\ is_bytes [7] /\
  @run_parser bits_exact _ (@parse_leb128 bits_exact) (@leb128_bytes bits_exact 300 ++ [7]) = Done ((300, 2), [7]).
Proof.
  assert (is_u32 300 /\ is_bytes [7]) as [Hv Hb].
  { split; [done|]. apply Forall_cons; split; [done|]. apply Forall_nil; exact I. }
  split; [exact Hv|]. split; [exact Hb|].
  exact (proj2 (proj2 (@leb128_correct bits_exact bits_exact_laws 300 [7] Hv Hb))).
Defined.

(** The packets of [example_obus], and the OBUs they carry. *)
Lemma av1_roundtrip_witness :
  Forall is_obu example_obus /\
  exists state' ps st' bufs,
    @handle_new_obus bits_exact (keep_packets 20) 0 (concat (map sized example_obus)) true true
      (Av1PayState_default, []) = (Done tt, (state', ps)) /\
    @feed bits_exact keep_buffers (mkDepaySettings false false) 5 9 ps (DepayState_default, []) =
      (Done tt, (st', bufs)) /\
    concat (map (fun buf => strip_td (db_bytes buf)) bufs) = concat (map sized (drop 1 example_obus)).
Proof.
  split; [exact example_obus_ok|].
  destruct (@av1_roundtrip bits_exact bits_exact_laws (keep_packets 20) keep_buffers keep_buffers_collecting
    20 (keep_packets_accepting 20) (mkDepaySettings false false) Av1PayState_default [] None example_obus 0 true
    5 9 DepayState_default []) as (state' & base' & ps & st' & b' & bufs & Hpay & _ & Hacc & Hfeed & _ & Hout & Hbytes).
  - done.
  - exact example_obus_ok.
  - done.
  - exact I.
  - done.
  - reflexivity.
  - reflexivity.
  - cbv zeta. apply (bool_decide_unpack _). vm_compute. exact I.
  - change (base' = ps) in Hacc. change (b' = bufs) in Hout. subst ps bufs.
    exists state', base', st', b'. split; [exact Hpay|]. split; [exact Hfeed|exact Hbytes].
Defined.

Lemma av1_pay_terminates_witness :
  exists state' base',
    @packet_loop bits_exact (keep_packets 20) 100 true false
      (fold_left (parse_one 0 true) example_obus Av1PayState_default, []) = (Done tt, (state', base')) /\
    pending (ps_obus state') = [].
Proof.
  destruct (@av1_pay_terminates bits_exact bits_exact_laws (keep_packets 20) 20 (keep_packets_accepting 20)
    100 true false (fold_left (parse_one 0 true) example_obus Av1PayState_default) [])
    as (state' & base' & Hloop & _ & Hdone).
  - done.
  - exact (proj1 (parse_all_spec 0 true example_obus Av1PayState_default None example_obus_ok (Forall_nil_2 _) I)).
  - done.
  - vm_compute. lia.
  - exists state', base'. split; [exact Hloop|exact (Hdone eq_refl)].
Defined.

Lemma av1_packets_fit_witness :
  exists state' ps,
    @handle_new_obus bits_exact (keep_packets 20) 0 (concat (map sized example_obus)) true true
      (Av1PayState_default, []) = (Done tt, (state', ps)) /\
    Forall (fun p => Z.of_nat (length (pp_payload p)) <= 20) ps.
Proof.
  destruct (@av1_packets_fit bits_exact bits_exact_laws (keep_packets 20) 20 (keep_packets_accepting 20)
    Av1PayState_default [] None example_obus 0 true) as (state' & base' & ps & Hpay & Hacc & Hfit).
  - done.
  - exact example_obus_ok.
  - done.
  - exact I.
  - repeat (constructor; [reflexivity|]). constructor.
  - change (base' = ps) in Hacc. subst ps. exists state', base'. split; [exact Hpay|exact Hfit].
Defined.

Lemma av1_long_leb128_crashes_witness :
  exists s', @depay_handle_packet bits_exact keep_buffers (mkDepaySettings false false)
    (mkDepayPacket (0 :: [130; 128; 128; 128; 128] ++ 0 :: [24; 1]) 0 0 true) (DepayState_default, []) = (Crash, s').
Proof.
  apply (@av1_long_leb128_crashes bits_exact bits_exact_laws keep_buffers
    (mkDepaySettings false false) 0 0 true [130; 128; 128; 128; 128] 0 [24; 1] []); try done.
  repeat (constructor; [lia|]). constructor.
Defined.

(** ** Where the round trip fails *)

Definition small_obu (byte : Z) : Obu := mkObu 24 [] [byte].
Definition crowded_obus : list Obu :=
  [mkObu 16 [] []; small_obu 1; small_obu 2; small_obu 3; small_obu 4; mkObu 32 [] [5; 6; 7; 8; 9; 10]].

(** The hypothesis of the round trip on size fields is needed. When the
    fourth or a later OBU is the last to fit and the next one is too short to
    be cut, the planner leaves [omit_last_size_field] set although the packet
    has no element count, so the last OBU is sent without its size. For five
    small OBUs and room for 15 bytes the depayloader loses the whole first
    packet: only the last OBU comes out. *)
Lemma av1_crowded_packet_lost :
  Forall is_obu crowded_obus /\
  map pp_payload (packets_of 15 (concat (map sized crowded_obus))) =
    [[0; 2; 24; 1; 2; 24; 2; 2; 24; 3; 24; 4]; [16; 32; 5; 6; 7; 8; 9; 10]] /\
  map db_bytes (received (packets_of 15 (concat (map sized crowded_obus)))) =
    [TEMPORAL_DELIMITER ++ sized (mkObu 32 [] [5; 6; 7; 8; 9; 10])].
Proof.
  split; [apply (bool_decide_unpack _); vm_compute; exact I|]. split; vm_compute; reflexivity.
Qed.

(** The marker is set too early. A packet cut short by an OBU of other layer
    ids counts as the end of the unit when that OBU is the last in the queue,
    although it is not in the packet: both packets carry the marker, and the
    depayloader starts a second temporal unit between them. *)
Lemma av1_early_marker :
  let ps := packets_of 1500 (concat (map sized [mkObu 16 [] []; mkObu 24 [] [1; 2; 3]; mkObu 36 [40] [9; 9]])) in
  map pp_marker_bit ps = [true; true] /\
  map db_bytes (received ps) =
    [TEMPORAL_DELIMITER ++ sized (mkObu 24 [] [1; 2; 3]); TEMPORAL_DELIMITER ++ sized (mkObu 36 [40] [9; 9])].
Proof. split; vm_compute; reflexivity. Qed.

(** A unit whose first OBU is cut comes out without its temporal delimiter:
    the first packet completes nothing, and the delimiter kept for its output
    is thrown away. *)
Lemma av1_delimiter_lost :
  let o := mkObu 24 [] (map Z.of_nat (seq 0 12)) in
  map db_bytes (received (packets_of 10 (concat (map sized [mkObu 16 [] []; o])))) = [sized o].
Proof. vm_compute. reflexivity. Qed.

(** The hypothesis of [av1_packets_fit] is needed: the planner reckons with
    the size of the payload, the packet is written with the size of the OBU. *)
Lemma av1_packet_too_long :
  map (fun p => Z.of_nat (length (pp_payload p)))
    (packets_of 520 (concat (map sized (repeat (mkObu 24 [] (repeat 1 127)) 5)))) = [524; 127].
Proof. vm_compute. reflexivity. Qed.

(** A padded size field inside an element (AV1 allows it) corrupts the OBU:
    room for its parsed length is reserved, the shortest form is written. The
    payload byte 7 becomes a 0, with a stray 7 behind the OBU. *)
Lemma av1_padded_size_corrupts :
  map db_bytes (received [mkPayPacket 0 0 true [16; 26; 129; 0; 7]]) = [TEMPORAL_DELIMITER ++ [26; 1; 0; 7]].
Proof. vm_compute. reflexivity. Qed.

(** An OBU whose size field is padded breaks the payloader: with the length of
    that field it does not fit, so a fragment is planned, which is longer than
    the OBU, and the slice panics. *)
Lemma av1_padded_size_panics :
  fst (@handle_new_obus bits_exact (keep_packets 22) 0
    (concat (map sized (repeat (mkObu 24 [] [7; 7]) 3)) ++ [26; 134; 128; 128; 0] ++ [1; 2; 3; 4; 5; 6]) true true (Av1PayState_default, [])) = Crash.
Proof. vm_compute. reflexivity. Qed.
