(* ===== verification/Vp8Desc.v ===== *)
(** * The VP8 payload descriptor

    [vp8/payload_descriptor.rs] of the RTP plugin: the one to six bytes before
    the frame data in each packet, their parser and writer, and picture ids. *)

From S2P Require Import Prelude Flow BitStream ByteStream.

Definition VP8_X_BIT : Z := 128.
Definition VP8_N_BIT : Z := 32.
Definition VP8_S_BIT : Z := 16.
Definition VP8_I_BIT : Z := 128.
Definition VP8_L_BIT : Z := 64.
Definition VP8_T_BIT : Z := 32.
Definition VP8_K_BIT : Z := 16.
Definition VP8_M_BIT : Z := 128.

(** [flags & BIT != 0], [if cond { BIT } else { 0 }] *)
Definition has (flags bit : Z) : bool := negb (Z.land flags bit =? 0).
Definition flag (cond : bool) (bit : Z) : Z := if cond then bit else 0.

Inductive Vp8PictureId := Vp8SevenBit (v : Z) | Vp8FifteenBit (v : Z).

Record Vp8LayerId := mkVp8LayerId {
  v8l_id : Z;
  v8l_sync : bool;
}.

Record Vp8PayloadDescriptor := mkVp8PayloadDescriptor {
  v8d_non_reference_frame : bool;
  v8d_start_of_partition : bool;
  v8d_partition_index : Z;
  v8d_picture_id : option Vp8PictureId;
  v8d_temporal_layer_zero_index : option Z;
  v8d_temporal_layer_id : option Vp8LayerId;
  v8d_key_index : option Z;
}.

#[export] Instance Vp8PayloadDescriptor_rebuild : Rebuild Vp8PayloadDescriptor := {|
  rebuild := fun r => mkVp8PayloadDescriptor (v8d_non_reference_frame r) (v8d_start_of_partition r)
    (v8d_partition_index r) (v8d_picture_id r) (v8d_temporal_layer_zero_index r)
    (v8d_temporal_layer_id r) (v8d_key_index r) |}.

#[export] Instance Vp8PictureId_eq_dec : EqDecision Vp8PictureId.
Proof. solve_decision. Defined.
#[export] Instance Vp8LayerId_eq_dec : EqDecision Vp8LayerId.
Proof. solve_decision. Defined.
#[export] Instance Vp8PayloadDescriptor_eq_dec : EqDecision Vp8PayloadDescriptor.
Proof. solve_decision. Defined.

(** ** Picture ids *)
Inductive Vp8PictureIdMode := Vp8PidNone | Vp8PidSevenBit | Vp8PidFifteenBit.

Definition Vp8PictureId_new (mode : Vp8PictureIdMode) (v : Z) : option Vp8PictureId :=
  match mode with
  | Vp8PidNone => None
  | Vp8PidSevenBit => Some (Vp8SevenBit (wrap U8 (Z.land v 127)))
  | Vp8PidFifteenBit => Some (Vp8FifteenBit (Z.land v 32767))
  end.

Definition Vp8PictureId_increment (self : Vp8PictureId) : res Vp8PictureId :=
  match self with
  | Vp8SevenBit v => v ← uint_add U8 v 1; Ok (Vp8SevenBit (Z.land v 127))
  | Vp8FifteenBit v => v ← uint_add U16 v 1; Ok (Vp8FifteenBit (Z.land v 32767))
  end.

Definition Vp8PictureId_update_mode (self : Vp8PictureId) (mode : Vp8PictureIdMode) : Vp8PictureId :=
  match self, mode with
  | _, Vp8PidNone => self
  | Vp8SevenBit _, Vp8PidSevenBit => self
  | Vp8FifteenBit _, Vp8PidFifteenBit => self
  | Vp8SevenBit v, Vp8PidFifteenBit => Vp8FifteenBit v
  | Vp8FifteenBit v, Vp8PidSevenBit => Vp8SevenBit (wrap U8 (Z.land v 127))
  end.

(** [u16::from(picture_id)] *)
Definition Vp8PictureId_into (self : Vp8PictureId) : Z :=
  match self with Vp8SevenBit v => v | Vp8FifteenBit v => v end.

Definition Vp8PictureId_eq (self other : Vp8PictureId) : bool :=
  match self, other with
  | Vp8SevenBit s, Vp8SevenBit o => s =? o
  | Vp8SevenBit s, Vp8FifteenBit o => s =? wrap U8 (Z.land o 127)
  | Vp8FifteenBit s, Vp8SevenBit o => wrap U8 (Z.land s 127) =? o
  | Vp8FifteenBit s, Vp8FifteenBit o => s =? o
  end.

Section Streams.
Context `{ByteIO}.

Definition write_byte (b : Z) : M ByteWriter unit := upd_ (byte_write b).

Definition Vp8PictureId_from_reader : M ByteReader Vp8PictureId :=
  pid ← get_byte;
  if has pid VP8_M_BIT then
    ext_pid ← get_byte;
    mret (Vp8FifteenBit (Z.lor (Z.shiftl (Z.ldiff pid VP8_M_BIT) 8) ext_pid))
  else mret (Vp8SevenBit pid).

Definition Vp8PictureId_to_writer (self : Vp8PictureId) : M ByteWriter unit :=
  match self with
  | Vp8SevenBit v => write_byte v
  | Vp8FifteenBit v =>
      _ ← write_byte (Z.lor VP8_M_BIT (wrap U8 (Z.shiftr v 8)));
      write_byte (wrap U8 (Z.land v 255))
  end.

(** ** The descriptor *)
Definition Vp8PayloadDescriptor_from_reader : M ByteReader Vp8PayloadDescriptor :=
  flags ← get_byte;
  ext_flags ← (if has flags VP8_X_BIT then get_byte else mret 0);
  picture_id ← (if has ext_flags VP8_I_BIT
                then pid ← Vp8PictureId_from_reader; mret (Some pid) else mret None);
  temporal_layer_zero_index ← (if has ext_flags VP8_L_BIT
                               then b ← get_byte; mret (Some b) else mret None);
  tid_key ← (if has ext_flags VP8_T_BIT || has ext_flags VP8_K_BIT then
               b ← get_byte;
               mret (if has ext_flags VP8_T_BIT then Some (mkVp8LayerId (Z.shiftr b 6) (has b 32)) else None,
                     if has ext_flags VP8_K_BIT then Some (Z.land b 31) else None)
             else mret (None, None));
  mret (mkVp8PayloadDescriptor (has flags VP8_N_BIT) (has flags VP8_S_BIT) (Z.land flags 7)
          picture_id temporal_layer_zero_index (fst tid_key) (snd tid_key)).

Definition Vp8PayloadDescriptor_flags (self : Vp8PayloadDescriptor) : Z :=
  Z.lor (Z.lor (Z.lor (flag (v8d_non_reference_frame self) VP8_N_BIT)
    (flag (v8d_start_of_partition self) VP8_S_BIT))
    (flag (is_some (v8d_picture_id self) || is_some (v8d_temporal_layer_id self)
           || is_some (v8d_temporal_layer_zero_index self) || is_some (v8d_key_index self)) VP8_X_BIT))
    (v8d_partition_index self).

Definition Vp8PayloadDescriptor_ext_flags (self : Vp8PayloadDescriptor) : Z :=
  Z.lor (Z.lor (Z.lor (flag (is_some (v8d_picture_id self)) VP8_I_BIT)
    (flag (is_some (v8d_temporal_layer_zero_index self)) VP8_L_BIT))
    (flag (is_some (v8d_temporal_layer_id self)) VP8_T_BIT))
    (flag (is_some (v8d_key_index self)) VP8_K_BIT).

(** The byte with temporal layer and key index; [None] for an error. *)
Definition Vp8PayloadDescriptor_tid_key (self : Vp8PayloadDescriptor) : option Z :=
  b ← match v8d_temporal_layer_id self with
      | Some layer =>
          if v8l_id layer >? 3 then None
          else Some (Z.lor (wrap U8 (Z.shiftl (v8l_id layer) 6)) (flag (v8l_sync layer) 32))
      | None => Some 0
      end;
  match v8d_key_index self with
  | Some key_index => if key_index >? 31 then None else Some (Z.lor b key_index)
  | None => Some b
  end.

Definition Vp8PayloadDescriptor_to_writer (self : Vp8PayloadDescriptor) : M ByteWriter unit :=
  if v8d_partition_index self >? 7 then fail_
  else
    let flags := Vp8PayloadDescriptor_flags self in
    _ ← write_byte flags;
    _ ← (if has flags VP8_X_BIT then write_byte (Vp8PayloadDescriptor_ext_flags self) else mret tt);
    _ ← match v8d_picture_id self with
        | Some picture_id => Vp8PictureId_to_writer picture_id
        | None => mret tt
        end;
    _ ← match v8d_temporal_layer_zero_index self with
        | Some index => write_byte index
        | None => mret tt
        end;
    if is_some (v8d_temporal_layer_id self) || is_some (v8d_key_index self) then
      b ← of_option (Vp8PayloadDescriptor_tid_key self);
      write_byte b
    else mret tt.

(** The descriptor written to a new buffer: its bytes, or an error. *)
Definition Vp8PayloadDescriptor_bytes (self : Vp8PayloadDescriptor) : flow (list Z) :=
  match Vp8PayloadDescriptor_to_writer self byte_writer with
  | (Done _, w) => Done (byte_written w)
  | (Fail, _) => Fail
  | (Crash, _) => Crash
  end.

Definition Vp8PayloadDescriptor_size (self : Vp8PayloadDescriptor) : flow Z :=
  fmap_flow (fun bytes => Z.of_nat (length bytes)) (Vp8PayloadDescriptor_bytes self).
End Streams.

(** ** The bytes of a descriptor *)

Definition pid_bytes (p : Vp8PictureId) : list Z :=
  match p with
  | Vp8SevenBit v => [v]
  | Vp8FifteenBit v => [Z.lor 128 (v / 256); v mod 256]
  end.

Definition is_vp8_pid (p : Vp8PictureId) : Prop :=
  match p with Vp8SevenBit v => 0 <= v < 128 | Vp8FifteenBit v => 0 <= v < 32768 end.

(** A descriptor whose fields fit. *)
Definition is_vp8_desc (d : Vp8PayloadDescriptor) : Prop :=
  0 <= v8d_partition_index d <= 7 /\
  (forall p, v8d_picture_id d = Some p -> is_vp8_pid p) /\
  (forall i, v8d_temporal_layer_zero_index d = Some i -> is_u8 i) /\
  (forall l, v8d_temporal_layer_id d = Some l -> 0 <= v8l_id l <= 3) /\
  (forall k, v8d_key_index d = Some k -> 0 <= k <= 31).

Definition tid_key_byte (d : Vp8PayloadDescriptor) : Z :=
  match v8d_temporal_layer_id d with Some l => v8l_id l * 64 + flag (v8l_sync l) 32 | None => 0 end
  + match v8d_key_index d with Some k => k | None => 0 end.

Definition opt_list {A B} (f : A -> list B) (o : option A) : list B :=
  match o with Some a => f a | None => [] end.

(** What the writer writes. *)
Definition desc_bytes (d : Vp8PayloadDescriptor) : list Z :=
  let x := is_some (v8d_picture_id d) || is_some (v8d_temporal_layer_id d)
           || is_some (v8d_temporal_layer_zero_index d) || is_some (v8d_key_index d) in
  [Vp8PayloadDescriptor_flags d] ++ (if x then [Vp8PayloadDescriptor_ext_flags d] else [])
  ++ opt_list pid_bytes (v8d_picture_id d) ++ opt_list (fun i => [i]) (v8d_temporal_layer_zero_index d)
  ++ (if is_some (v8d_temporal_layer_id d) || is_some (v8d_key_index d) then [tid_key_byte d] else []).

Section DescLemmas.

Lemma flags_fields n s x p :
  0 <= p <= 7 ->
  let f := Z.lor (Z.lor (Z.lor (flag n VP8_N_BIT) (flag s VP8_S_BIT)) (flag x VP8_X_BIT)) p in
  has f VP8_N_BIT = n /\ has f VP8_S_BIT = s /\ has f VP8_X_BIT = x /\ Z.land f 7 = p /\ is_u8 f.
Proof.
  intros Hp.
  assert (p = 0 \/ p = 1 \/ p = 2 \/ p = 3 \/ p = 4 \/ p = 5 \/ p = 6 \/ p = 7) as Hcases by lia.
  repeat destruct Hcases as [->|Hcases]; try subst p; destruct n, s, x; vm_compute; split_and!; congruence.
Qed.

Lemma ext_flags_fields i l t k :
  let f := Z.lor (Z.lor (Z.lor (flag i VP8_I_BIT) (flag l VP8_L_BIT)) (flag t VP8_T_BIT)) (flag k VP8_K_BIT) in
  has f VP8_I_BIT = i /\ has f VP8_L_BIT = l /\ has f VP8_T_BIT = t /\ has f VP8_K_BIT = k /\ is_u8 f.
Proof. destruct i, l, t, k; vm_compute; split_and!; congruence. Qed.

(** Every value the byte with layer and key index can take. *)
Lemma tid_key_fields id sync key :
  0 <= id <= 3 -> 0 <= key <= 31 ->
  let b := id * 64 + flag sync 32 + key in
  Z.lor (Z.lor (wrap U8 (Z.shiftl id 6)) (flag sync 32)) key = b /\
  Z.shiftr b 6 = id /\ has b 32 = sync /\ Z.land b 31 = key /\ is_u8 b.
Proof.
  intros Hid Hkey.
  assert (Hall : forallb (fun id => forallb (fun key => forallb (fun sync =>
    let b := id * 64 + flag sync 32 + key in
    (Z.lor (Z.lor (wrap U8 (Z.shiftl id 6)) (flag sync 32)) key =? b) &&
    (Z.shiftr b 6 =? id) && Bool.eqb (has b 32) sync && (Z.land b 31 =? key) && (0 <=? b) && (b <? U8))
    [true; false]) (seqZ 0 32)) (seqZ 0 4) = true) by (vm_compute; reflexivity).
  rewrite forallb_forall in Hall. specialize (Hall id). rewrite forallb_forall in Hall.
  specialize (Hall ltac:(apply list_elem_of_In, elem_of_seqZ; lia) key).
  rewrite forallb_forall in Hall.
  specialize (Hall ltac:(apply list_elem_of_In, elem_of_seqZ; lia) sync ltac:(destruct sync; cbn; auto)).
  cbv beta zeta in Hall. rewrite !andb_true_iff, !Z.eqb_eq, eqb_true_iff, Z.leb_le, Z.ltb_lt in Hall.
  unfold is_u8. intuition.
Qed.

Lemma m_bit_fields hi :
  0 <= hi < 128 ->
  has (Z.lor 128 hi) VP8_M_BIT = true /\ Z.ldiff (Z.lor 128 hi) VP8_M_BIT = hi /\ is_u8 (Z.lor 128 hi).
Proof.
  intros Hhi.
  assert (Hall : forallb (fun hi => has (Z.lor 128 hi) VP8_M_BIT && (Z.ldiff (Z.lor 128 hi) VP8_M_BIT =? hi) &&
    (0 <=? Z.lor 128 hi) && (Z.lor 128 hi <? U8)) (seqZ 0 128) = true) by (vm_compute; reflexivity).
  rewrite forallb_forall in Hall. specialize (Hall hi ltac:(apply list_elem_of_In, elem_of_seqZ; lia)).
  rewrite !andb_true_iff, Z.eqb_eq, Z.leb_le, Z.ltb_lt in Hall. unfold is_u8. intuition.
Qed.

Lemma seven_bit_fields v : 0 <= v < 128 -> has v VP8_M_BIT = false.
Proof.
  intros Hv.
  assert (Hall : forallb (fun v => negb (has v VP8_M_BIT)) (seqZ 0 128) = true) by (vm_compute; reflexivity).
  rewrite forallb_forall in Hall. specialize (Hall v ltac:(apply list_elem_of_In, elem_of_seqZ; lia)).
  by apply negb_true_iff in Hall.
Qed.

Lemma fifteen_bit_fields v :
  0 <= v < 32768 ->
  Z.lor VP8_M_BIT (wrap U8 (Z.shiftr v 8)) = Z.lor 128 (v / 256) /\ wrap U8 (Z.land v 255) = v mod 256 /\
  has (Z.lor 128 (v / 256)) VP8_M_BIT = true /\
  Z.lor (Z.shiftl (Z.ldiff (Z.lor 128 (v / 256)) VP8_M_BIT) 8) (v mod 256) = v /\
  is_bytes [Z.lor 128 (v / 256); v mod 256].
Proof.
  intros Hv. assert (Hhi : 0 <= v / 256 < 128) by (split; [apply Z.div_pos|apply Z.div_lt_upper_bound]; lia).
  assert (Hlo : 0 <= v mod 256 < 256) by (apply Z.mod_pos_bound; lia).
  destruct (m_bit_fields _ Hhi) as (Hm & Hld & Hu).
  rewrite Z.shiftr_div_pow2 by lia. change (2 ^ 8) with 256. change 255 with (Z.ones 8).
  rewrite Z.land_ones by lia. change (2 ^ 8) with 256. rewrite !wrap_small by (change U8 with 256; lia).
  split; [done|]. split; [done|]. split; [done|]. split.
  - rewrite Hld, lor_shiftl_add by (change (2 ^ 8) with 256; lia). change (2 ^ 8) with 256.
    pose proof (Z.div_mod v 256). lia.
  - unfold is_bytes, is_u8 in *. change U8 with 256 in *. repeat constructor; lia.
Qed.
End DescLemmas.

(** ** Reading what was written *)
Section RoundTrip.
Context `{ByteIOLaws}.

Lemma write_byte_spec b w : exists w', write_byte b w = (Done tt, w') /\ byte_written w' = byte_written w ++ [b].
Proof. exists (byte_write b w). split; [done|apply written_byte]. Qed.

(** [writes m l]: the writer appends the bytes [l]. *)
Definition writes (m : M ByteWriter unit) (l : list Z) : Prop :=
  forall w, exists w', m w = (Done tt, w') /\ byte_written w' = byte_written w ++ l.

Lemma writes_ret : writes (mret tt) [].
Proof. intros w. exists w. by rewrite app_nil_r. Qed.

Lemma writes_byte b : writes (write_byte b) [b].
Proof. intros w. apply write_byte_spec. Qed.

Lemma writes_bind m k l1 l2 : writes m l1 -> writes k l2 -> writes (_ ← m; k) (l1 ++ l2).
Proof.
  intros Hm Hk w. destruct (Hm w) as (w1 & E1 & H1'). destruct (Hk w1) as (w2 & E2 & H2).
  exists w2. unfold mbind, M_bind. rewrite E1, E2, H2, H1', app_assoc. done.
Qed.

Lemma writes_pid p : is_vp8_pid p -> writes (Vp8PictureId_to_writer p) (pid_bytes p).
Proof.
  destruct p as [v|v]; intros Hp; cbn; [apply writes_byte|].
  destruct (fifteen_bit_fields v Hp) as (E1 & E2 & _). rewrite E1, E2.
  apply (writes_bind _ _ [_] [_]); apply writes_byte.
Qed.

Lemma consumes_pid p : is_vp8_pid p -> consumes Vp8PictureId_from_reader (pid_bytes p) p.
Proof.
  destruct p as [v|v]; intros Hp; cbn [pid_bytes].
  - apply (consumes_bind _ _ [v] [] v); [apply consumes_byte|]. rewrite (seven_bit_fields v Hp). apply consumes_ret.
  - destruct (fifteen_bit_fields v Hp) as (_ & _ & Hm & E & _).
    apply (consumes_bind _ _ [_] [_] _ _ (consumes_byte _)). rewrite Hm.
    rewrite <- (app_nil_r [v mod 256]). eapply consumes_bind; [apply consumes_byte|]. rewrite E. apply consumes_ret.
Qed.

Lemma tid_key_value d : is_vp8_desc d -> Vp8PayloadDescriptor_tid_key d = Some (tid_key_byte d).
Proof.
  intros (_ & _ & _ & Hl & Hk). unfold Vp8PayloadDescriptor_tid_key, tid_key_byte, mbind, option_bind.
  destruct (v8d_temporal_layer_id d) as [l|]; destruct (v8d_key_index d) as [k|]; cbv beta iota;
    try specialize (Hl _ eq_refl); try specialize (Hk _ eq_refl).
  - rewrite Z.gtb_ltb, (proj2 (Z.ltb_ge _ _)) by lia.
    rewrite Z.gtb_ltb, (proj2 (Z.ltb_ge _ _)) by lia.
    destruct (tid_key_fields (v8l_id l) (v8l_sync l) k) as [-> _]; [done..|]. done.
  - rewrite Z.gtb_ltb, (proj2 (Z.ltb_ge _ _)) by lia.
    destruct (tid_key_fields (v8l_id l) (v8l_sync l) 0) as [E _]; [lia..|].
    rewrite Z.lor_0_r in E. by rewrite E.
  - rewrite Z.gtb_ltb, (proj2 (Z.ltb_ge _ _)) by lia. done.
  - done.
Qed.

Lemma pid_bytes_bytes p : is_vp8_pid p -> is_bytes (pid_bytes p).
Proof.
  destruct p as [v|v]; intros Hp; cbn in Hp |- *.
  - constructor; [|done]. unfold is_u8. lia.
  - by destruct (fifteen_bit_fields v Hp) as (_ & _ & _ & _ & ?).
Qed.

Lemma increment_ok p : is_vp8_pid p -> exists p', Vp8PictureId_increment p = Ok p' /\ is_vp8_pid p'.
Proof.
  destruct p as [v|v]; intros Hv; cbn in Hv; unfold Vp8PictureId_increment, uint_add.
  - rewrite (proj2 (Z.ltb_lt _ _)) by (change U8 with 256; lia). eexists. split; [done|]. cbn.
    change 127 with (Z.ones 7). rewrite Z.land_ones by lia. apply Z.mod_pos_bound. done.
  - rewrite (proj2 (Z.ltb_lt _ _)) by (change U16 with 65536; lia). eexists. split; [done|]. cbn.
    change 32767 with (Z.ones 15). rewrite Z.land_ones by lia. apply Z.mod_pos_bound. done.
Qed.

Lemma desc_bytes_bytes d : is_vp8_desc d -> is_bytes (desc_bytes d).
Proof.
  intros (Hp & Hpid & Hz & Hl & Hk). unfold desc_bytes, is_bytes. cbv zeta. repeat apply Forall_app_2.
  - unfold Vp8PayloadDescriptor_flags. constructor; [|done]. by eapply flags_fields.
  - destruct (_ || _); [|done]. constructor; [|done]. apply ext_flags_fields.
  - destruct (v8d_picture_id d) as [p|]; [|done]. by apply pid_bytes_bytes, Hpid.
  - destruct (v8d_temporal_layer_zero_index d); [|done]. constructor; [by apply Hz|done].
  - destruct (_ || _); [|done]. constructor; [|done]. unfold tid_key_byte.
    destruct (v8d_temporal_layer_id d) as [[id sync]|], (v8d_key_index d) as [k|]; cbn [v8l_id v8l_sync];
      try specialize (Hl _ eq_refl); try specialize (Hk _ eq_refl); cbn [v8l_id] in *; unfold is_u8; try lia;
      destruct sync; cbn; lia.
Qed.

Lemma writes_desc d : is_vp8_desc d -> writes (Vp8PayloadDescriptor_to_writer d) (desc_bytes d).
Proof.
  intros Hd. pose proof (tid_key_value d Hd) as Htk. pose proof Hd as (Hp & Hpid & _).
  unfold Vp8PayloadDescriptor_to_writer, desc_bytes.
  rewrite Z.gtb_ltb, (proj2 (Z.ltb_ge _ _)) by lia.
  apply writes_bind; [apply writes_byte|]. apply writes_bind.
  { unfold Vp8PayloadDescriptor_flags.
    destruct (flags_fields (v8d_non_reference_frame d) (v8d_start_of_partition d)
      (is_some (v8d_picture_id d) || is_some (v8d_temporal_layer_id d)
       || is_some (v8d_temporal_layer_zero_index d) || is_some (v8d_key_index d)) _ Hp) as (_ & _ & -> & _).
    destruct (_ || _); [apply writes_byte|apply writes_ret]. }
  apply writes_bind. { destruct (v8d_picture_id d); [by apply writes_pid, Hpid|apply writes_ret]. }
  apply writes_bind. { destruct (v8d_temporal_layer_zero_index d); [apply writes_byte|apply writes_ret]. }
  destruct (is_some _ || is_some _); [|apply writes_ret].
  rewrite Htk. apply (writes_byte _).
Qed.

Lemma tid_key_byte_fields d :
  (forall l, v8d_temporal_layer_id d = Some l -> 0 <= v8l_id l <= 3) ->
  (forall k, v8d_key_index d = Some k -> 0 <= k <= 31) ->
  (if is_some (v8d_temporal_layer_id d) then Some (mkVp8LayerId (Z.shiftr (tid_key_byte d) 6) (has (tid_key_byte d) 32))
   else None) = v8d_temporal_layer_id d /\
  (if is_some (v8d_key_index d) then Some (Z.land (tid_key_byte d) 31) else None) = v8d_key_index d.
Proof.
  intros Hl Hk. unfold tid_key_byte.
  destruct (v8d_temporal_layer_id d) as [[id sync]|], (v8d_key_index d) as [k|]; cbn [is_some v8l_id v8l_sync];
    try specialize (Hl _ eq_refl); try specialize (Hk _ eq_refl); cbn [v8l_id] in *.
  - destruct (tid_key_fields id sync k) as (_ & -> & -> & -> & _); [lia..|done].
  - destruct (tid_key_fields id sync 0) as (_ & -> & -> & _ & _); [lia..|done].
  - destruct (tid_key_fields 0 false k) as (_ & _ & _ & E & _); [lia..|]. cbn [flag] in E.
    change (0 * 64 + 0 + k) with (0 + k) in E. by rewrite E.
  - done.
Qed.

Lemma consumes_desc d : is_vp8_desc d -> consumes Vp8PayloadDescriptor_from_reader (desc_bytes d) d.
Proof.
  intros (Hp & Hpid & _ & Hl & Hk). unfold Vp8PayloadDescriptor_from_reader, desc_bytes.
  set (x := _ || _).
  assert (Hflags : has (Vp8PayloadDescriptor_flags d) VP8_N_BIT = v8d_non_reference_frame d /\
    has (Vp8PayloadDescriptor_flags d) VP8_S_BIT = v8d_start_of_partition d /\
    has (Vp8PayloadDescriptor_flags d) VP8_X_BIT = x /\
    Z.land (Vp8PayloadDescriptor_flags d) 7 = v8d_partition_index d).
  { destruct (flags_fields (v8d_non_reference_frame d) (v8d_start_of_partition d) x _ Hp) as (? & ? & ? & ? & _).
    done. }
  destruct Hflags as (Hn & Hs & Hx & Hpi).
  apply consumes_bind with (a := Vp8PayloadDescriptor_flags d); [apply consumes_byte|].
  rewrite Hn, Hs, Hx, Hpi.
  destruct (ext_flags_fields (is_some (v8d_picture_id d)) (is_some (v8d_temporal_layer_zero_index d))
    (is_some (v8d_temporal_layer_id d)) (is_some (v8d_key_index d))) as (Hi & Hz & Ht & Hki & _).
  fold (Vp8PayloadDescriptor_ext_flags d) in *.
  apply consumes_bind with (a := if x then Vp8PayloadDescriptor_ext_flags d else 0).
  { destruct x; [apply consumes_byte|apply consumes_ret]. }
  assert (Hxt : x = false -> v8d_picture_id d = None /\ v8d_temporal_layer_zero_index d = None /\
    v8d_temporal_layer_id d = None /\ v8d_key_index d = None).
  { unfold x. rewrite !orb_false_iff. intros [[[? ?] ?] ?].
    by destruct (v8d_picture_id d), (v8d_temporal_layer_id d), (v8d_temporal_layer_zero_index d), (v8d_key_index d). }
  set (e := if x then _ else 0).
  assert (He : has e VP8_I_BIT = is_some (v8d_picture_id d) /\
    has e VP8_L_BIT = is_some (v8d_temporal_layer_zero_index d) /\
    has e VP8_T_BIT = is_some (v8d_temporal_layer_id d) /\ has e VP8_K_BIT = is_some (v8d_key_index d)).
  { unfold e. destruct x; [done|]. by destruct (Hxt eq_refl) as (-> & -> & -> & ->). }
  destruct He as (-> & -> & -> & ->).
  apply consumes_bind with (a := v8d_picture_id d).
  { destruct (v8d_picture_id d); cbn [is_some opt_list]; [|apply consumes_ret].
    rewrite <- (app_nil_r (pid_bytes _)). eapply consumes_bind; [by apply consumes_pid, Hpid|apply consumes_ret]. }
  apply consumes_bind with (a := v8d_temporal_layer_zero_index d).
  { destruct (v8d_temporal_layer_zero_index d); cbn [is_some opt_list]; [|apply consumes_ret].
    apply (consumes_bind _ _ [_] [] _ _ (consumes_byte _)). apply consumes_ret. }
  rewrite <- (app_nil_r (if _ || _ then [_] else [])).
  apply consumes_bind with (a := (v8d_temporal_layer_id d, v8d_key_index d)).
  { destruct (is_some (v8d_temporal_layer_id d) || is_some (v8d_key_index d)) eqn:E.
    - apply (consumes_bind _ _ [_] [] _ _ (consumes_byte _)).
      destruct (tid_key_byte_fields d Hl Hk) as [-> ->]. apply consumes_ret.
    - apply orb_false_iff in E as [E1 E2].
      destruct (v8d_temporal_layer_id d), (v8d_key_index d); try done. apply consumes_ret. }
  destruct d; apply consumes_ret.
Qed.

(** A descriptor with a field that does not fit is refused. *)
Lemma desc_refused d w :
  (7 < v8d_partition_index d \/ (exists l, v8d_temporal_layer_id d = Some l /\ 3 < v8l_id l) \/
   (exists k, v8d_key_index d = Some k /\ 31 < k)) ->
  exists w', Vp8PayloadDescriptor_to_writer d w = (Fail, w').
Proof.
  intros Hbad. unfold Vp8PayloadDescriptor_to_writer.
  destruct (v8d_partition_index d >? 7) eqn:Ep; [by eexists|]. rewrite Z.gtb_ltb in Ep. apply Z.ltb_ge in Ep.
  assert (Htk : Vp8PayloadDescriptor_tid_key d = None /\
    is_some (v8d_temporal_layer_id d) || is_some (v8d_key_index d) = true).
  { unfold Vp8PayloadDescriptor_tid_key, mbind, option_bind. destruct Hbad as [?|[(l & -> & Hl)|(k & -> & Hk)]]; [lia|..].
    - by rewrite Z.gtb_ltb, (proj2 (Z.ltb_lt _ _)) by lia.
    - rewrite Z.gtb_ltb, (proj2 (Z.ltb_lt 31 k)) by lia. rewrite orb_true_r.
      destruct (v8d_temporal_layer_id d); [destruct (_ >? 3)|]; done. }
  destruct Htk as [-> ->]. unfold mbind, M_bind, write_byte, upd_, mret, M_ret.
  destruct (has _ _), (v8d_picture_id d) as [[?|?]|], (v8d_temporal_layer_zero_index d); by eexists.
Qed.
End RoundTrip.
