(* ===== verification/Vp8Bool.v ===== *)
(** * The boolean entropy decoder

    [vp8/bool_decoder.rs] of the RTP plugin, the decoder of RFC 6386 section
    7.3: the data is one long binary number, and every boolean narrows the
    interval it lies in. The code keeps two bytes of it at a time; here it is
    compared with the decoder that keeps the whole number. *)

From S2P Require Import Prelude Flow BitStream.

(** ** State and operations *)
Record BoolDecoder := mkBoolDecoder {
  bd_reader : list Z;
  bd_eof : bool;
  bd_range : Z;
  bd_value : Z;
  bd_bit_count : Z;
}.

#[export] Instance BoolDecoder_rebuild : Rebuild BoolDecoder := {|
  rebuild := fun r => mkBoolDecoder (bd_reader r) (bd_eof r) (bd_range r) (bd_value r) (bd_bit_count r) |}.

Definition BoolDecoder_new (reader : list Z) : flow BoolDecoder :=
  match reader with
  | [] => Fail
  | [input1] => Done (mkBoolDecoder [] false 255 (Z.lor (Z.shiftl input1 8) 0) 8)
  | input1 :: input2 :: reader => Done (mkBoolDecoder reader false 255 (Z.lor (Z.shiftl input1 8) input2) 0)
  end.

(** [if self.bit_count == 8 { .. }]: the next byte, or the end of the data. *)
Definition shift_in : M BoolDecoder unit :=
  self ← get_;
  if bd_bit_count self =? 8 then
    if negb (bd_eof self) then
      match bd_reader self with
      | [] => upd_ (fun self => self <| bd_eof := true |>)
      | input :: reader =>
          upd_ (fun self => self <| bd_reader := reader |> <| bd_bit_count := 0 |>
                                 <| bd_value := Z.lor (bd_value self) input |>)
      end
    else if bd_bit_count self =? 16 then fail_
    else mret tt
  else mret tt.

(** [while self.range < 128 { .. }] *)
Fixpoint shift_out (fuel : nat) : M BoolDecoder unit :=
  match fuel with
  | O => crash_
  | S fuel =>
      self ← get_;
      if bd_range self <? 128 then
        bit_count ← of_res (uint_add U8 (bd_bit_count self) 1);
        _ ← upd_ (fun self => self <| bd_value := wrap U32 (Z.shiftl (bd_value self) 1) |>
                                   <| bd_range := wrap U32 (Z.shiftl (bd_range self) 1) |>
                                   <| bd_bit_count := bit_count |>);
        _ ← shift_in;
        shift_out fuel
      else mret tt
  end.

(** A range from 1 up is doubled at most seven times. *)
Definition SHIFT_FUEL : nat := 8.

Definition next_bool (prob : Z) : M BoolDecoder bool :=
  _ ← of_res (assert_ (prob <=? 256));
  self ← get_;
  range1 ← of_res (uint_sub (bd_range self) 1);
  scaled ← of_res (uint_mul U32 range1 prob);
  let split := 1 + Z.shiftr scaled 8 in
  let split_ := wrap U32 (Z.shiftl split 8) in
  ret ← (if bd_value self >=? split_ then
           range ← of_res (uint_sub (bd_range self) split);
           value ← of_res (uint_sub (bd_value self) split_);
           _ ← upd_ (fun self => self <| bd_range := range |> <| bd_value := value |>);
           mret true
         else
           _ ← upd_ (fun self => self <| bd_range := split |>);
           mret false);
  _ ← shift_out SHIFT_FUEL;
  mret ret.

Definition next_bit : M BoolDecoder bool := next_bool 128.

(** The loop of [read_unsigned_counted], for a [u8]. *)
Fixpoint read_unsigned_loop (bits : nat) (v : Z) : M BoolDecoder Z :=
  match bits with
  | O => mret v
  | S bits => b ← next_bit; read_unsigned_loop bits (Z.lor (wrap U8 (Z.shiftl v 1)) (Z.b2z b))
  end.

Definition read_unsigned_counted (bits : nat) : M BoolDecoder Z :=
  if (8 <? bits)%nat then fail_ else read_unsigned_loop bits 0.

(** ** The exact decoder

    The number the data stands for, as [num / 2^scale] with the first byte
    before the binary point, followed by zeros for ever. *)
Record Exact := mkExact { ex_num : Z; ex_scale : Z; ex_range : Z }.

Definition ex_double (s : Exact) : Exact :=
  if ex_scale s =? 0 then mkExact (2 * ex_num s) 0 (2 * ex_range s)
  else mkExact (ex_num s) (ex_scale s - 1) (2 * ex_range s).

Fixpoint ex_normalise (fuel : nat) (s : Exact) : Exact :=
  match fuel with
  | O => s
  | S fuel => if ex_range s <? 128 then ex_normalise fuel (ex_double s) else s
  end.

Definition ex_split (range prob : Z) : Z := 1 + (range - 1) * prob / 256.

Definition ex_bool (prob : Z) (s : Exact) : bool * Exact :=
  let split := ex_split (ex_range s) prob in
  let bound := split * 2 ^ ex_scale s in
  if bound <=? ex_num s
  then (true, ex_normalise 7 (mkExact (ex_num s - bound) (ex_scale s) (ex_range s - split)))
  else (false, ex_normalise 7 (mkExact (ex_num s) (ex_scale s) split)).

Fixpoint ex_bools (probs : list Z) (s : Exact) : list bool :=
  match probs with
  | [] => []
  | prob :: probs => let '(b, s) := ex_bool prob s in b :: ex_bools probs s
  end.

(** The bytes as one number. *)
Definition num_of (bytes : list Z) : Z := foldl (fun n b => 256 * n + b) 0 bytes.
#[global] Arguments num_of : simpl never.

Definition ex_start (bytes : list Z) : Exact :=
  mkExact (num_of bytes) (8 * (Z.of_nat (length bytes) - 1)) 255.

Fixpoint next_bools (probs : list Z) : M BoolDecoder (list bool) :=
  match probs with
  | [] => mret []
  | prob :: probs => b ← next_bool prob; bs ← next_bools probs; mret (b :: bs)
  end.

(** ** The two decoders agree *)

(** Either part of the data is still unread, or the value is all that is left. *)
Definition window (d : BoolDecoder) (s : Exact) : Prop :=
  (bd_eof d = false /\ 0 <= bd_bit_count d < 8 /\
   ex_scale s = 8 * Z.of_nat (length (bd_reader d)) + 8 - bd_bit_count d /\
   exists hi, bd_value d = hi * 2 ^ bd_bit_count d /\
     ex_num s = hi * 2 ^ (8 * Z.of_nat (length (bd_reader d))) + num_of (bd_reader d)) \/
  (bd_reader d = [] /\ 8 <= bd_bit_count d /\ ex_scale s = 0 /\ bd_value d = 256 * ex_num s).

Definition agrees (d : BoolDecoder) (s : Exact) : Prop :=
  bd_range d = ex_range s /\ 1 <= bd_range d <= 255 /\
  0 <= bd_value d < bd_range d * 256 /\ is_bytes (bd_reader d) /\ window d s.

Section BoolLemmas.

Lemma num_of_cons b bs : num_of (b :: bs) = b * 2 ^ (8 * Z.of_nat (length bs)) + num_of bs.
Proof.
  assert (Hacc : forall n, foldl (fun n b => 256 * n + b) n bs = n * 2 ^ (8 * Z.of_nat (length bs)) + num_of bs).
  { unfold num_of. induction bs as [|c bs IH]; intros n; cbn [foldl length]; [cbn; lia|].
    rewrite (IH (256 * n + c)), (IH (256 * 0 + c)).
    replace (8 * Z.of_nat (S (length bs))) with (8 * Z.of_nat (length bs) + 8) by lia.
    rewrite Z.pow_add_r by lia. change (2 ^ 8) with 256. lia. }
  unfold num_of at 1. cbn [foldl]. rewrite Hacc. f_equal.
Qed.

Lemma num_of_bound bs : is_bytes bs -> 0 <= num_of bs < 2 ^ (8 * Z.of_nat (length bs)).
Proof.
  induction 1 as [|b bs Hb _ IH]; [by vm_compute|]. rewrite num_of_cons. unfold is_u8 in Hb. change U8 with 256 in Hb.
  cbn [length]. replace (8 * Z.of_nat (S (length bs))) with (8 * Z.of_nat (length bs) + 8) by lia.
  rewrite Z.pow_add_r by lia. change (2 ^ 8) with 256. nia.
Qed.

(** Doubling with the next byte shifted in. *)
Lemma shift_step d s :
  agrees d s -> bd_range d < 128 -> bd_bit_count d < 255 ->
  let d1 := d <| bd_value := wrap U32 (Z.shiftl (bd_value d) 1) |>
              <| bd_range := wrap U32 (Z.shiftl (bd_range d) 1) |>
              <| bd_bit_count := bd_bit_count d + 1 |> in
  exists d', shift_in d1 = (Done tt, d') /\ agrees d' (ex_double s) /\ bd_bit_count d' <= bd_bit_count d + 1.
Proof.
  intros (Hr & Hrb & Hv & Hbytes & Hwin) Hlt Hbc d1.
  destruct d as [rd eof rng v bc]. cbn in Hr, Hrb, Hv, Hbytes, Hlt, Hbc.
  assert (Hv1 : wrap U32 (Z.shiftl v 1) = 2 * v).
  { rewrite Z.shiftl_mul_pow2, wrap_small by (try lia; change U32 with 4294967296; lia). lia. }
  assert (Hr1 : wrap U32 (Z.shiftl rng 1) = 2 * rng).
  { rewrite Z.shiftl_mul_pow2, wrap_small by (try lia; change U32 with 4294967296; lia). lia. }
  assert (Hd1 : d1 = mkBoolDecoder rd eof (2 * rng) (2 * v) (bc + 1)) by (unfold d1; cbn; by rewrite Hv1, Hr1).
  clearbody d1. subst d1. unfold shift_in, mbind, M_bind, get_. cbn [bd_bit_count bd_eof bd_reader].
  destruct Hwin as [(He & Hbc8 & Hsc & hi & Hval & Hnum)|(Hrd & Hbc8 & Hsc & Hval)]; cbn in *.
  - subst eof. cbn [negb].
    assert (Hdbl : ex_double s = mkExact (ex_num s) (ex_scale s - 1) (2 * rng)).
    { unfold ex_double. rewrite (proj2 (Z.eqb_neq _ _)) by lia. by rewrite Hr. }
    rewrite Hdbl. destruct (Z.eqb_spec (bc + 1) 8) as [E8|E8].
    + assert (bc = 7) as -> by lia. change (2 ^ 7) with 128 in Hval.
      destruct rd as [|input rd]; cbn [length] in *.
      * eexists. split; [done|]. split; [|cbn; lia].
        unfold agrees; cbn. split; [done|]. split; [lia|]. split; [lia|]. split; [done|].
        right; cbn. split; [done|]. split; [lia|]. split; [lia|]. rewrite Hnum. change (num_of []) with 0. cbn. lia.
      * inversion Hbytes as [|? ? Hin Hbytes']; subst. unfold is_u8 in Hin. change U8 with 256 in Hin.
        eexists. split; [done|]. split; [|cbn; lia].
        assert (Hlor : Z.lor (2 * (hi * 128)) input = hi * 256 + input).
        { replace (2 * (hi * 128)) with (Z.shiftl hi 8) by (rewrite Z.shiftl_mul_pow2 by lia; change (2 ^ 8) with 256; lia).
          by rewrite lor_shiftl_add by (change (2 ^ 8) with 256; lia). }
        unfold agrees; cbn. rewrite Hlor. split; [done|]. split; [lia|]. split; [lia|]. split; [done|].
        left; cbn. split; [done|]. split; [lia|]. split; [lia|].
        exists (hi * 256 + input). split; [lia|]. rewrite Hnum, num_of_cons.
        replace (8 * Z.of_nat (S (length rd))) with (8 * Z.of_nat (length rd) + 8) by lia.
        rewrite Z.pow_add_r by lia. change (2 ^ 8) with 256. ring.
    + eexists. split; [done|]. split; [|cbn; lia].
      unfold agrees; cbn. split; [done|]. split; [lia|]. split; [lia|]. split; [done|].
      left; cbn. split; [done|]. split; [lia|]. split; [lia|].
      exists hi. split; [|done]. rewrite Hval, Z.pow_add_r by lia. ring.
  - subst rd. rewrite (proj2 (Z.eqb_neq _ _)) by lia. eexists. split; [done|]. split; [|cbn; lia].
    unfold ex_double. rewrite Hsc. cbn. unfold agrees; cbn. rewrite Hr.
    split; [done|]. split; [lia|]. split; [lia|]. split; [done|].
    right; cbn. split; [done|]. split; [lia|]. split; [done|]. lia.
Qed.

Lemma shift_out_agrees n fuel m d s :
  (n < fuel)%nat -> (n <= m)%nat -> agrees d s -> 128 <= bd_range d * 2 ^ Z.of_nat n ->
  0 <= bd_bit_count d -> bd_bit_count d + Z.of_nat n <= 255 ->
  exists d', shift_out fuel d = (Done tt, d') /\ agrees d' (ex_normalise m s) /\ 128 <= bd_range d' /\
    0 <= bd_bit_count d' <= bd_bit_count d + Z.of_nat n.
Proof.
  revert fuel m d s. induction n as [|n IH]; intros [|fuel] m d s Hf Hm Hag Hn Hb0 Hbc; [lia| |lia|];
    cbn [shift_out]; unfold mbind, M_bind, get_; pose proof Hag as (Hr & Hrb & _).
  - rewrite (proj2 (Z.ltb_ge _ _)) by lia. exists d. split; [done|]. split; [|lia].
    destruct m; cbn [ex_normalise]; [done|]. by rewrite <- Hr, (proj2 (Z.ltb_ge _ _)) by lia.
  - destruct m as [|m]; [lia|]. cbn [ex_normalise]. rewrite <- Hr. destruct (Z.ltb_spec (bd_range d) 128) as [Hlt|Hge].
    + unfold of_res, uint_add. rewrite (proj2 (Z.ltb_lt _ _)) by (change U8 with 256; lia).
      destruct (shift_step d s Hag Hlt) as (d1 & Hin & Hag1 & Hb1); [lia|]. unfold upd_. cbv zeta in Hin. rewrite Hin.
      assert (Hr1 : bd_range d1 = 2 * bd_range d).
      { destruct Hag1 as (-> & _). unfold ex_double. destruct (_ =? _); cbn; lia. }
      assert (Hb1' : 0 <= bd_bit_count d1) by (destruct Hag1 as (_ & _ & _ & _ & [(_ & ? & _)|(_ & ? & _)]); lia).
      destruct (IH fuel m d1 (ex_double s)) as (d' & -> & ? & ? & ?); try done; try lia.
      { rewrite Hr1. rewrite Nat2Z.inj_succ, Z.pow_succ_r in Hn by lia. lia. }
      exists d'. split; [done|]. split; [done|]. lia.
    + exists d. split; [done|]. split; [|lia]. done.
Qed.

(** The window shows on which side of the split the number lies. *)
Lemma window_compare d s split :
  is_bytes (bd_reader d) -> window d s -> 0 <= split ->
  (split * 256 <= bd_value d <-> split * 2 ^ ex_scale s <= ex_num s).
Proof.
  intros Hbytes [(_ & Hbc & -> & hi & -> & ->)|(_ & _ & -> & ->)] Hsplit; [|cbn; lia].
  pose proof (num_of_bound _ Hbytes) as Hlo.
  set (p := 2 ^ (8 * Z.of_nat (length (bd_reader d)))) in *.
  replace (8 * Z.of_nat (length (bd_reader d)) + 8 - bd_bit_count d)
    with (8 * Z.of_nat (length (bd_reader d)) + (8 - bd_bit_count d)) by lia.
  rewrite Z.pow_add_r by lia. fold p.
  assert (E256 : 256 = 2 ^ (8 - bd_bit_count d) * 2 ^ bd_bit_count d)
    by (rewrite <- Z.pow_add_r by lia; by replace (8 - bd_bit_count d + bd_bit_count d) with 8 by lia).
  assert (Hq : 0 < 2 ^ bd_bit_count d) by (apply Z.pow_pos_nonneg; lia).
  set (q := 2 ^ bd_bit_count d) in *. set (t := 2 ^ (8 - bd_bit_count d)) in *. rewrite E256.
  split; intros Hle.
  - assert (split * t <= hi) by nia. nia.
  - assert (split * t <= hi); [|nia]. destruct (Z_le_gt_dec (split * t) hi); [done|]. nia.
Qed.

Lemma window_sub d s split range :
  is_bytes (bd_reader d) -> window d s ->
  window (d <| bd_range := range |> <| bd_value := bd_value d - split * 256 |>)
    (mkExact (ex_num s - split * 2 ^ ex_scale s) (ex_scale s) range).
Proof.
  intros Hbytes [(He & Hbc & Hsc & hi & Hv & Hn)|(Hrd & Hbc & Hsc & Hv)]; [left|right]; cbn.
  - split; [done|]. split; [done|]. split; [done|].
    exists (hi - split * 2 ^ (8 - bd_bit_count d)).
    replace (8 * Z.of_nat (length (bd_reader d)) + 8 - bd_bit_count d)
      with (8 * Z.of_nat (length (bd_reader d)) + (8 - bd_bit_count d)) in Hsc by lia.
    rewrite Hv, Hn, Hsc, Z.pow_add_r by lia. split; [|ring].
    rewrite Z.mul_sub_distr_r, <- Z.mul_assoc, <- Z.pow_add_r by lia.
    by replace (8 - bd_bit_count d + bd_bit_count d) with 8 by lia.
  - split; [done|]. split; [done|]. split; [done|]. rewrite Hv, Hsc. cbn. lia.
Qed.

(** How often a boolean of this probability can double the range. *)
Definition shifts (prob : Z) : nat := if prob =? 128 then 1 else 7.

Lemma ex_split_bounds range prob :
  128 <= range <= 255 -> 0 <= prob <= 255 ->
  1 <= ex_split range prob < range /\ 128 <= ex_split range prob * 2 ^ Z.of_nat (shifts prob) /\
  128 <= (range - ex_split range prob) * 2 ^ Z.of_nat (shifts prob).
Proof.
  intros Hr Hp. unfold ex_split, shifts.
  pose proof (Z.div_mod ((range - 1) * prob) 256). pose proof (Z.mod_pos_bound ((range - 1) * prob) 256).
  destruct (Z.eqb_spec prob 128) as [->|]; [change (2 ^ Z.of_nat 1) with 2|change (2 ^ Z.of_nat 7) with 128]; nia.
Qed.

Lemma next_bool_agrees prob d s :
  0 <= prob <= 255 -> agrees d s -> 128 <= bd_range d ->
  0 <= bd_bit_count d -> bd_bit_count d + Z.of_nat (shifts prob) <= 255 ->
  exists d', next_bool prob d = (Done (fst (ex_bool prob s)), d') /\ agrees d' (snd (ex_bool prob s)) /\
    128 <= bd_range d' /\ 0 <= bd_bit_count d' <= bd_bit_count d + Z.of_nat (shifts prob).
Proof.
  intros Hp (Hr & Hrb & Hv & Hbytes & Hwin) H128 Hb0 Hbc.
  pose proof (ex_split_bounds (bd_range d) prob ltac:(lia) Hp) as (Hs1 & Hs2 & Hs3).
  assert (Hsh : (shifts prob < SHIFT_FUEL)%nat /\ (shifts prob <= 7)%nat)
    by (unfold shifts, SHIFT_FUEL; destruct (_ =? _); lia).
  unfold next_bool, ex_bool, mbind, M_bind, of_res, assert_, get_, mret, M_ret, upd_.
  rewrite (proj2 (Z.leb_le _ _)) by lia.
  unfold uint_sub at 1. rewrite (proj2 (Z.leb_le _ _)) by lia.
  unfold uint_mul. rewrite (proj2 (Z.ltb_lt _ _)) by (change U32 with 4294967296; nia).
  rewrite Z.shiftr_div_pow2 by lia. change (2 ^ 8) with 256. fold (ex_split (bd_range d) prob). rewrite <- Hr.
  set (split := ex_split (bd_range d) prob) in *.
  assert (Hspl : wrap U32 (Z.shiftl split 8) = split * 256).
  { rewrite Z.shiftl_mul_pow2 by lia. apply wrap_small. change U32 with 4294967296. change (2 ^ 8) with 256. lia. }
  rewrite Hspl. pose proof (window_compare d s split Hbytes Hwin ltac:(lia)) as Hcmp.
  rewrite Z.geb_leb.
  destruct (Z.leb_spec (split * 256) (bd_value d)) as [Hge|Hlt].
  - rewrite (proj2 (Z.leb_le _ _)) by (by apply Hcmp). cbn [fst snd].
    unfold uint_sub. rewrite !(proj2 (Z.leb_le _ _)) by lia.
    destruct (shift_out_agrees (shifts prob) SHIFT_FUEL 7
      (d <| bd_range := bd_range d - split |> <| bd_value := bd_value d - split * 256 |>)
      (mkExact (ex_num s - split * 2 ^ ex_scale s) (ex_scale s) (bd_range d - split)))
      as (d' & Hout & Hag & Hr' & Hb'); [lia..| |cbn; lia|cbn; lia|cbn; lia|].
    + split; [done|]. split; [cbn; lia|]. split; [cbn; lia|]. split; [done|]. by apply window_sub.
    + rewrite Hout. by exists d'.
  - rewrite (proj2 (Z.leb_gt _ _)) by (apply Z.lt_nge; rewrite <- Hcmp; lia). cbn [fst snd].
    destruct (shift_out_agrees (shifts prob) SHIFT_FUEL 7 (d <| bd_range := split |>)
      (mkExact (ex_num s) (ex_scale s) split))
      as (d' & Hout & Hag & Hr' & Hb'); [lia..| |cbn; lia|cbn; lia|cbn; lia|].
    + split; [done|]. split; [cbn; lia|]. split; [cbn; lia|]. split; [done|]. exact Hwin.
    + rewrite Hout. by exists d'.
Qed.

(** The decoder over a whole sequence of booleans. *)
Lemma next_bools_agree probs d s :
  Forall (fun prob => 0 <= prob <= 255) probs -> agrees d s -> 128 <= bd_range d ->
  0 <= bd_bit_count d -> bd_bit_count d + Z.of_nat (sum_list (map shifts probs)) <= 255 ->
  exists d', next_bools probs d = (Done (ex_bools probs s), d').
Proof.
  intros Hps. revert d s. induction Hps as [|prob probs Hp _ IH]; intros d s Hag Hr Hb0 Hbc; [by exists d|].
  change (sum_list (map shifts (prob :: probs))) with (shifts prob + sum_list (map shifts probs))%nat in Hbc.
  destruct (next_bool_agrees prob d s) as (d1 & Hb & Hag1 & Hr1 & Hb1); [done..|lia|].
  cbn [next_bools ex_bools]. unfold mbind, M_bind, mret, M_ret. rewrite Hb.
  destruct (ex_bool prob s) as [b s1]; cbn [fst snd] in *.
  destruct (IH d1 s1) as (d2 & ->); [done..|lia|lia|]. by exists d2.
Qed.

Lemma BoolDecoder_new_agrees b bs :
  is_bytes (b :: bs) -> b < 255 ->
  exists d, BoolDecoder_new (b :: bs) = Done d /\ agrees d (ex_start (b :: bs)) /\
    bd_range d = 255 /\ 0 <= bd_bit_count d <= 8.
Proof.
  intros Hbytes Hb. inversion Hbytes as [|? ? Hb' Hbs]; subst. unfold is_u8 in Hb'. change U8 with 256 in Hb'.
  destruct bs as [|b2 bs]; cbn [BoolDecoder_new]; eexists; (split; [done|]); (split; [|cbn; lia]).
  - unfold agrees; cbn [bd_range bd_value bd_reader ex_range ex_start length].
    rewrite Z.lor_0_r, Z.shiftl_mul_pow2 by lia. change (2 ^ 8) with 256.
    split; [done|]. split; [lia|]. split; [lia|]. split; [constructor|]. right; cbn.
    split; [done|]. split; [lia|]. split; [done|]. unfold num_of. cbn. lia.
  - inversion Hbs as [|? ? Hb2 Hbs2]; subst. unfold is_u8 in Hb2. change U8 with 256 in Hb2.
    unfold agrees; cbn [bd_range bd_value bd_reader ex_range ex_start].
    rewrite lor_shiftl_add by (change (2 ^ 8) with 256; lia). change (2 ^ 8) with 256.
    split; [done|]. split; [lia|]. split; [lia|]. split; [done|]. left; cbn [bd_eof bd_bit_count bd_reader ex_start ex_scale bd_value ex_num].
    split; [done|]. split; [lia|]. split; [cbn [length]; lia|]. exists (b * 256 + b2). split; [lia|].
    rewrite !num_of_cons. cbn [length]. replace (8 * Z.of_nat (S (length bs))) with (8 * Z.of_nat (length bs) + 8) by lia.
    rewrite Z.pow_add_r by lia. change (2 ^ 8) with 256. ring.
Qed.
End BoolLemmas.

(** ** The encoder's side

    Encoding narrows the interval of numbers [co_low / 2^co_scale] up to
    [(co_low + co_range) / 2^co_scale]; any number in the final interval is a
    correct encoding. *)
Record Coding := mkCoding { co_low : Z; co_scale : Z; co_range : Z }.

Definition co_start : Coding := mkCoding 0 0 255.

Fixpoint co_normalise (fuel : nat) (c : Coding) : Coding :=
  match fuel with
  | O => c
  | S fuel =>
      if co_range c <? 128
      then co_normalise fuel (mkCoding (2 * co_low c) (co_scale c + 1) (2 * co_range c)) else c
  end.

Definition co_bool (c : Coding) (pb : Z * bool) : Coding :=
  let split := ex_split (co_range c) (fst pb) in
  co_normalise 7 (if snd pb then mkCoding (co_low c + split) (co_scale c) (co_range c - split)
                  else mkCoding (co_low c) (co_scale c) split).

(** The number [num / 2^scale] lies in the interval. *)
Definition contains (c : Coding) (num scale : Z) : Prop :=
  co_scale c <= scale /\
  co_low c * 2 ^ (scale - co_scale c) <= num < (co_low c + co_range c) * 2 ^ (scale - co_scale c).

(** The bytes are an encoding of the booleans, each with its probability. *)
Definition encodes (bytes : list Z) (bools : list (Z * bool)) : Prop :=
  contains (foldl co_bool co_start bools) (num_of bytes) (8 * (Z.of_nat (length bytes) - 1)).

Section CodingLemmas.

(** The exact decoder has subtracted what the encoder has added. *)
Definition follows (c : Coding) (s : Exact) (num scale : Z) : Prop :=
  co_scale c <= scale /\ ex_scale s = scale - co_scale c /\ ex_range s = co_range c /\
  ex_num s = num - co_low c * 2 ^ ex_scale s.

Lemma contains_normalise fuel c num scale : contains (co_normalise fuel c) num scale -> contains c num scale.
Proof.
  revert c. induction fuel as [|fuel IH]; intros c; cbn [co_normalise]; [done|].
  destruct (co_range c <? 128); [|done]. intros Hc. apply IH in Hc as [Hs Hc]. cbn in Hs, Hc.
  split; [lia|]. replace (scale - co_scale c) with (Z.succ (scale - (co_scale c + 1))) by lia.
  rewrite Z.pow_succ_r by lia. lia.
Qed.

Lemma follows_normalise fuel c s num scale :
  contains (co_normalise fuel c) num scale -> follows c s num scale ->
  follows (co_normalise fuel c) (ex_normalise fuel s) num scale.
Proof.
  revert c s. induction fuel as [|fuel IH]; intros c s; cbn [co_normalise ex_normalise]; [done|].
  intros Hc (Hs & Hsc & Hr & Hn). rewrite Hr in *. destruct (co_range c <? 128); [|done].
  apply IH; [done|]. apply contains_normalise in Hc as [Hs' _]. cbn in Hs'.
  unfold ex_double. rewrite (proj2 (Z.eqb_neq _ _)) by lia.
  split; [cbn; lia|]. split; [cbn; lia|]. split; [cbn; lia|]. cbn. rewrite Hn.
  replace (ex_scale s) with (Z.succ (ex_scale s - 1)) at 1 by lia. rewrite Z.pow_succ_r by lia. lia.
Qed.

Lemma contains_bool c pb num scale :
  1 <= ex_split (co_range c) (fst pb) < co_range c -> contains (co_bool c pb) num scale -> contains c num scale.
Proof.
  intros Hsp Hc. apply contains_normalise in Hc as [Hs Hc]. split; [by destruct (snd pb)|].
  assert (0 < 2 ^ (scale - co_scale c)) by (apply Z.pow_pos_nonneg; destruct (snd pb); cbn in Hs; lia).
  destruct (snd pb); cbn in Hc; nia.
Qed.

Lemma co_normalise_range fuel c :
  1 <= co_range c <= 255 -> 128 <= co_range c * 2 ^ Z.of_nat fuel -> 128 <= co_range (co_normalise fuel c) <= 255.
Proof.
  revert c. induction fuel as [|fuel IH]; intros c Hr H128; cbn [co_normalise]; [cbn in H128; lia|].
  destruct (Z.ltb_spec (co_range c) 128); [|lia]. apply IH; cbn; [lia|].
  rewrite Nat2Z.inj_succ, Z.pow_succ_r in H128 by lia. lia.
Qed.

Lemma co_bool_range c pb :
  128 <= co_range c <= 255 -> 0 <= fst pb <= 255 ->
  1 <= ex_split (co_range c) (fst pb) < co_range c /\ 128 <= co_range (co_bool c pb) <= 255.
Proof.
  intros Hr Hp. destruct (ex_split_bounds (co_range c) (fst pb) Hr Hp) as (Hs & _).
  split; [done|]. apply co_normalise_range; change (2 ^ Z.of_nat 7) with 128; destruct (snd pb); cbn; lia.
Qed.

Lemma follows_bool c s pb num scale :
  128 <= co_range c <= 255 -> 0 <= fst pb <= 255 ->
  follows c s num scale -> contains (co_bool c pb) num scale ->
  exists s', ex_bool (fst pb) s = (snd pb, s') /\ follows (co_bool c pb) s' num scale.
Proof.
  intros Hr Hp (Hs & Hsc & Hrg & Hn) Hc. destruct (co_bool_range c pb Hr Hp) as [Hsp _].
  pose proof (contains_normalise _ _ _ _ Hc) as [_ Hin]. unfold ex_bool, co_bool in *. rewrite Hrg.
  set (split := ex_split (co_range c) (fst pb)) in *.
  assert (Hpow : 0 < 2 ^ ex_scale s) by (apply Z.pow_pos_nonneg; lia).
  destruct (snd pb); cbn in Hin; rewrite <- Hsc in Hin.
  - rewrite (proj2 (Z.leb_le _ _)) by nia. eexists. split; [done|]. apply follows_normalise; [done|].
    split; [done|]. split; [done|]. split; [done|]. cbn. rewrite Hn. ring.
  - rewrite (proj2 (Z.leb_gt _ _)) by nia. eexists. split; [done|]. apply follows_normalise; [done|]. done.
Qed.

Lemma contains_bools bools c num scale :
  128 <= co_range c <= 255 -> Forall (fun pb => 0 <= fst pb <= 255) bools ->
  contains (foldl co_bool c bools) num scale -> contains c num scale.
Proof.
  intros Hr Hps. revert c Hr. induction Hps as [|pb bools Hp _ IH]; intros c Hr Hc; [done|].
  destruct (co_bool_range c pb Hr Hp) as [Hsp Hr']. by eapply contains_bool, IH.
Qed.

Lemma ex_bools_decode bools c s num scale :
  128 <= co_range c <= 255 -> Forall (fun pb => 0 <= fst pb <= 255) bools ->
  follows c s num scale -> contains (foldl co_bool c bools) num scale ->
  ex_bools (map fst bools) s = map snd bools.
Proof.
  intros Hr Hps. revert c s Hr. induction Hps as [|pb bools Hp Hps IH]; intros c s Hr Hf Hc; [done|].
  cbn [map ex_bools foldl] in *. destruct (co_bool_range c pb Hr Hp) as [_ Hr'].
  destruct (follows_bool c s pb num scale Hr Hp Hf) as (s' & -> & Hf').
  { by eapply contains_bools. }
  f_equal. by eapply IH.
Qed.

Lemma encodes_decode bytes bools :
  Forall (fun pb => 0 <= fst pb <= 255) bools -> encodes bytes bools ->
  ex_bools (map fst bools) (ex_start bytes) = map snd bools.
Proof.
  intros Hps Henc. eapply (ex_bools_decode _ co_start); [cbn; lia|done| |exact Henc].
  pose proof (contains_bools bools co_start _ _ ltac:(cbn; lia) Hps Henc) as [Hs _].
  split; [done|]. split; [cbn; lia|]. split; [done|]. cbn. lia.
Qed.
End CodingLemmas.

(** ** Single bits

    Whatever the data, reading a bit neither fails nor panics as long as the
    bit counter has room: the test for the end of the data inside the loop is
    on a bit count of 16 where the count is 8. *)
Definition bit_ready (k : Z) (d : BoolDecoder) : Prop :=
  128 <= bd_range d <= 255 /\ 0 <= bd_bit_count d <= k.

Lemma shift_in_total d : exists d', shift_in d = (Done tt, d') /\ bd_range d' = bd_range d /\
  (bd_bit_count d' = bd_bit_count d \/ bd_bit_count d' = 0).
Proof.
  unfold shift_in, mbind, M_bind, get_. destruct (Z.eqb_spec (bd_bit_count d) 8) as [E8|]; [|eauto].
  destruct (bd_eof d); cbn [negb]; [rewrite E8; exists d; auto|]. destruct (bd_reader d) as [|input reader]; eexists; cbn; auto.
Qed.

Lemma next_bit_total k d :
  bit_ready k d -> k < 255 -> exists b d', next_bit d = (Done b, d') /\ bit_ready (k + 1) d'.
Proof.
  intros (Hr & Hb) Hk. unfold next_bit, next_bool, mbind, M_bind, of_res, assert_, get_, mret, M_ret, upd_.
  change (128 <=? 256) with true. cbv iota.
  unfold uint_sub at 1. rewrite (proj2 (Z.leb_le _ _)) by lia.
  unfold uint_mul. rewrite (proj2 (Z.ltb_lt _ _)) by (change U32 with 4294967296; lia).
  rewrite Z.shiftr_div_pow2 by lia. change (2 ^ 8) with 256. fold (ex_split (bd_range d) 128).
  destruct (ex_split_bounds (bd_range d) 128) as (Hs1 & Hs2 & Hs3); [done|lia|].
  change (2 ^ Z.of_nat (shifts 128)) with 2 in Hs2, Hs3. set (split := ex_split (bd_range d) 128) in *.
  assert (Hout : forall d1, 64 <= bd_range d1 <= 255 -> 0 <= bd_bit_count d1 <= k ->
    exists d', shift_out SHIFT_FUEL d1 = (Done tt, d') /\ bit_ready (k + 1) d').
  { intros d1 Hr1 Hb1. unfold SHIFT_FUEL. cbn [shift_out]. unfold mbind, M_bind, get_.
    destruct (Z.ltb_spec (bd_range d1) 128) as [Hlt|]; [|exists d1; split; [done|split; lia]].
    unfold of_res, uint_add, upd_. rewrite (proj2 (Z.ltb_lt _ _)) by (change U8 with 256; lia).
    match goal with |- context [shift_in ?x] => destruct (shift_in_total x) as (d2 & -> & Hr2 & Hb2) end.
    assert (Hrange : wrap U32 (Z.shiftl (bd_range d1) 1) = 2 * bd_range d1).
    { rewrite Z.shiftl_mul_pow2, wrap_small by (try lia; change U32 with 4294967296; lia). lia. }
    cbn in Hr2, Hb2. change 4294967296 with U32 in Hr2. rewrite Hrange in Hr2.
    cbn [shift_out]. unfold mbind, M_bind, get_. rewrite (proj2 (Z.ltb_ge (bd_range d2) 128)) by lia.
    exists d2. split; [done|]. split; lia. }
  destruct (bd_value d >=? wrap U32 (Z.shiftl split 8)) eqn:Ege.
  - rewrite Z.geb_leb in Ege. apply Z.leb_le in Ege. unfold uint_sub.
    rewrite !(proj2 (Z.leb_le _ _)) by lia.
    match goal with |- context [shift_out _ ?x] => destruct (Hout x) as (d' & -> & Hd'); [cbn; lia..|] end. eauto.
  - match goal with |- context [shift_out _ ?x] => destruct (Hout x) as (d' & -> & Hd'); [cbn; lia..|] end. eauto.
Qed.

Lemma read_unsigned_total bits k d v :
  bit_ready k d -> k + Z.of_nat bits <= 255 -> exists v' d', read_unsigned_loop bits v d = (Done v', d') /\
    bit_ready (k + Z.of_nat bits) d'.
Proof.
  revert k d v. induction bits as [|bits IH]; intros k d v Hd Hk; cbn [read_unsigned_loop].
  - exists v, d. split; [done|]. by rewrite Z.add_0_r.
  - destruct (next_bit_total k d Hd) as (b & d1 & E & Hd1); [lia|]. rewrite (M_bind_done _ _ _ _ _ E).
    destruct (IH (k + 1) d1 (Z.lor (wrap U8 (Z.shiftl v 1)) (Z.b2z b)) Hd1) as (v' & d' & -> & Hd'); [lia|].
    exists v', d'. split; [done|]. by replace (k + Z.of_nat (S bits)) with (k + 1 + Z.of_nat bits) by lia.
Qed.

Lemma BoolDecoder_new_ready b bs : exists d, BoolDecoder_new (b :: bs) = Done d /\ bit_ready 8 d.
Proof. destruct bs; eexists; (split; [done|]); split; cbn; lia. Qed.
