(* ===== verification/Vp8Frame.v ===== *)
(** * VP8 frame headers and partitions

    [vp8/frame_header.rs] of the RTP plugin: the uncompressed header, the
    entropy-coded one as far as the number of partitions, and the offsets of
    the partitions in the frame. *)

From S2P Require Import Prelude Flow BitStream ByteStream Vp8Desc Vp8Bool.

(** ** The uncompressed header *)
Record UncompressedFrameHeader := mkUncompressedFrameHeader {
  uf_first_partition_size : Z;
  uf_is_keyframe : bool;
  uf_show_frame : bool;
  uf_profile : Z;
  uf_scale : option (Z * Z);
  uf_resolution : option (Z * Z);
}.

Definition UncompressedFrameHeader_from_reader `{ByteIO} : M ByteReader UncompressedFrameHeader :=
  b ← get_byte;
  let is_keyframe := Z.land b 1 =? 0 in
  size1 ← get_byte;
  size2 ← get_byte;
  let size0 := Z.shiftr (Z.land b 224) 5 in
  let first_partition_size := Z.lor (Z.lor (Z.shiftl size2 11) (Z.shiftl size1 3)) size0 in
  scale_resolution ←
    (if is_keyframe then
       sync_code_1 ← get_byte;
       sync_code_2 ← get_byte;
       sync_code_3 ← get_byte;
       if negb (bool_decide ([157; 1; 42] = [sync_code_1; sync_code_2; sync_code_3])) then fail_
       else
         w ← get_le16;
         h ← get_le16;
         mret (Some (wrap U8 (Z.shiftr w 14), wrap U8 (Z.shiftr h 14)), Some (Z.land w 16383, Z.land h 16383))
     else mret (None, None));
  mret (mkUncompressedFrameHeader first_partition_size is_keyframe (has b 16) (Z.land (Z.shiftr b 1) 3)
          (fst scale_resolution) (snd scale_resolution)).

(** ** The frame header *)
Record SegmentFeatureData := mkSegmentFeatureData {
  sf_segment_feature_mode : Z;
  sf_quantizer_update : list (option Z);
  sf_loop_filter_update : list (option Z);
}.

Record MbSegmentationMap := mkMbSegmentationMap { ms_segment_probs : list (option Z) }.

Record UpdateSegmentation := mkUpdateSegmentation {
  us_segment_feature_data : option SegmentFeatureData;
  us_mb_segmentation_map : option MbSegmentationMap;
}.

Record MbLfAdjustments := mkMbLfAdjustments {
  ml_ref_frame_delta_update : list (option Z);
  ml_mb_mode_delta_update : list (option Z);
}.

Record FrameHeader := mkFrameHeader {
  fh_color_space : option Z;
  fh_clamping_type : option Z;
  fh_update_segmentation : option UpdateSegmentation;
  fh_filter_type : Z;
  fh_loop_filter_level : Z;
  fh_sharpness_level : Z;
  fh_mb_lf_adjustments : option MbLfAdjustments;
  fh_nbr_of_dct_partitions : Z;
}.

Abbreviation BM := (M BoolDecoder).

(** [Some(parser)] where a flag is set. *)
Definition when {A} (b : bool) (p : BM A) : BM (option A) := if b then a ← p; mret (Some a) else mret None.

Definition read_with_sign (bits : nat) : BM Z :=
  _ ← of_res (assert_ ((0 <? bits) && (bits <=? 7))%nat);
  value ← read_unsigned_counted bits;
  sign ← next_bit;
  mret (if sign : bool then - value else value).

(** [for _ in 0..n { flag; if flag { push(Some(..)) } else { push(None) } }] *)
Fixpoint read_updates (n : nat) (p : BM Z) : BM (list (option Z)) :=
  match n with
  | O => mret []
  | S n =>
      flag ← next_bit;
      update ← when flag p;
      rest ← read_updates n p;
      mret (update :: rest)
  end.

Definition SegmentFeatureData_from_reader : BM SegmentFeatureData :=
  segment_feature_mode ← read_unsigned_counted 1;
  quantizer_update ← read_updates 4 (read_with_sign 7);
  loop_filter_update ← read_updates 4 (read_with_sign 6);
  mret (mkSegmentFeatureData segment_feature_mode quantizer_update loop_filter_update).

Definition MbSegmentationMap_from_reader : BM MbSegmentationMap :=
  segment_probs ← read_updates 3 (read_unsigned_counted 8);
  mret (mkMbSegmentationMap segment_probs).

Definition UpdateSegmentation_from_reader : BM UpdateSegmentation :=
  update_mb_segmentation_map ← next_bit;
  update_segment_feature_data ← next_bit;
  segment_feature_data ← when update_segment_feature_data SegmentFeatureData_from_reader;
  mb_segmentation_map ← when update_mb_segmentation_map MbSegmentationMap_from_reader;
  mret (mkUpdateSegmentation segment_feature_data mb_segmentation_map).

Definition MbLfAdjustments_from_reader : BM MbLfAdjustments :=
  mode_ref_lf_delta_update ← next_bit;
  if mode_ref_lf_delta_update : bool then
    ref_frame_delta_update ← read_updates 4 (read_with_sign 6);
    mb_mode_delta_update ← read_updates 4 (read_with_sign 6);
    mret (mkMbLfAdjustments ref_frame_delta_update mb_mode_delta_update)
  else mret (mkMbLfAdjustments [] []).

Definition FrameHeader_from_reader (keyframe : bool) : BM FrameHeader :=
  color_space ← when keyframe (read_unsigned_counted 1);
  clamping_type ← when keyframe (read_unsigned_counted 1);
  segmentation_enabled ← next_bit;
  update_segmentation ← when segmentation_enabled UpdateSegmentation_from_reader;
  filter_type ← read_unsigned_counted 1;
  loop_filter_level ← read_unsigned_counted 6;
  sharpness_level ← read_unsigned_counted 3;
  loop_filter_adj_enable ← next_bit;
  mb_lf_adjustments ← when loop_filter_adj_enable MbLfAdjustments_from_reader;
  log2_nbr ← read_unsigned_counted 2;
  mret (mkFrameHeader color_space clamping_type update_segmentation filter_type loop_filter_level
          sharpness_level mb_lf_adjustments (wrap U8 (Z.shiftl 1 log2_nbr))).

(** ** Partitions *)
Record FrameInfo := mkFrameInfo {
  fi_uncompressed_frame_header : UncompressedFrameHeader;
  fi_frame_header : FrameHeader;
  fi_partition_offsets : list Z;
}.

Section Partitions.
Context `{ByteIO}.

(** The loop over the partition sizes. *)
Fixpoint partition_loop (n : nat) (offsets : list Z) (current_offset : Z) : M ByteReader (list Z * Z) :=
  match n with
  | O => mret (offsets, current_offset)
  | S n =>
      size0 ← get_byte;
      size1 ← get_byte;
      size2 ← get_byte;
      let size := Z.lor (Z.lor (Z.shiftl size2 16) (Z.shiftl size1 8)) size0 in
      next ← of_res (uint_add U32 current_offset size);
      partition_loop n (offsets ++ [current_offset]) next
  end.

(** The reader is behind the uncompressed header, at [offset] of the frame. *)
Definition read_partition_offsets (first_partition_size offset nbr len : Z) : M ByteReader (list Z) :=
  _ ← skip_bytes first_partition_size;
  a ← of_res (uint_add U32 first_partition_size (wrap U32 offset));
  n1 ← of_res (uint_sub nbr 1);
  sizes ← of_res (uint_mul U32 3 n1);
  current_offset ← of_res (uint_add U32 a sizes);
  ret ← partition_loop (Z.to_nat (nbr - 1)) [0] current_offset;
  let '(offsets, current_offset) := ret in
  mret ((if current_offset >=? wrap U32 len then [0] else offsets ++ [current_offset]) ++ [wrap U32 len]).

Definition FrameInfo_parse (data : list Z) : flow FrameInfo :=
  match run_bytes UncompressedFrameHeader_from_reader data with
  | Done (header, rest) =>
      let len := Z.of_nat (length data) in
      let offset := len - Z.of_nat (length rest) in
      if len <? offset + uf_first_partition_size header then Fail
      else
        match BoolDecoder_new rest with
        | Done decoder =>
            match FrameHeader_from_reader (uf_is_keyframe header) decoder with
            | (Done frame_header, _) =>
                match run_bytes (read_partition_offsets (uf_first_partition_size header) offset
                                   (fh_nbr_of_dct_partitions frame_header) len) rest with
                | Done (offsets, _) => Done (mkFrameInfo header frame_header offsets)
                | Fail => Fail
                | Crash => Crash
                end
            | (Fail, _) => Fail
            | (Crash, _) => Crash
            end
        | Fail => Fail
        | Crash => Crash
        end
  | Fail => Fail
  | Crash => Crash
  end.
End Partitions.

(** The partition a byte lies in: its index, start and end. *)
Fixpoint find_partition_loop (idx : Z) (partition_offsets : list Z) (offset : Z) : res (Z * Z * Z) :=
  match partition_offsets with
  | start :: ((end_ :: _) as rest) =>
      if (start <=? offset) && (offset <? end_) then Ok (idx, start, end_)
      else find_partition_loop (idx + 1) rest offset
  | _ => Panic
  end.

Definition find_partition_for_offset (partition_offsets : list Z) (offset : Z) : res (Z * Z * Z) :=
  _ ← assert_ (negb (bool_decide (partition_offsets = [])));
  find_partition_loop 0 partition_offsets offset.

(** ** The frame header is always read

    [takes n p P]: from any data, [p] reads at most [n] bits without error and
    returns a value that satisfies [P]. *)
Definition takes {A} (n : Z) (p : BM A) (P : A -> Prop) : Prop :=
  forall k d, bit_ready k d -> k + n <= 255 -> exists a d', p d = (Done a, d') /\ bit_ready (k + n) d' /\ P a.

Create HintDb takes.

Section Takes.

Lemma bit_ready_mono k k' d : k <= k' -> bit_ready k d -> bit_ready k' d.
Proof. intros Hk [? ?]. split; lia. Qed.

Lemma takes_ret {A} (a : A) (P : A -> Prop) : P a -> takes 0 (mret a) P.
Proof. intros Ha k d Hd _. exists a, d. by rewrite Z.add_0_r. Qed.

Lemma takes_weaken {A} n m (p : BM A) (P Q : A -> Prop) :
  takes n p P -> n <= m -> (forall a, P a -> Q a) -> takes m p Q.
Proof.
  intros Hp Hnm HPQ k d Hd Hk. destruct (Hp k d Hd) as (a & d' & E & Hd' & Ha); [lia|].
  exists a, d'. split; [done|]. split; [eapply bit_ready_mono; [|done]; lia|by apply HPQ].
Qed.

Lemma takes_bind {A B} n m (p : BM A) (k : A -> BM B) P Q :
  0 <= m -> takes n p P -> (forall a, P a -> takes m (k a) Q) -> takes (n + m) (p ≫= k) Q.
Proof.
  intros Hm Hp Hk i d Hd Hi. destruct (Hp i d Hd) as (a & d1 & E & Hd1 & Ha); [lia|].
  rewrite (M_bind_done _ _ _ _ _ E). destruct (Hk a Ha (i + n) d1 Hd1) as (b & d2 & ? & ? & ?); [lia|].
  exists b, d2. by rewrite Z.add_assoc.
Qed.

Lemma takes_bit : takes 1 next_bit (fun _ => True).
Proof.
  intros k d Hd Hk. destruct (next_bit_total k d Hd) as (b & d' & ? & ?); [lia|]. by exists b, d'.
Qed.

Lemma read_unsigned_bound bits d v v' d' :
  0 <= v < 2 ^ (8 - Z.of_nat bits) -> (bits <= 8)%nat ->
  read_unsigned_loop bits v d = (Done v', d') -> v * 2 ^ Z.of_nat bits <= v' < (v + 1) * 2 ^ Z.of_nat bits.
Proof.
  revert d v. induction bits as [|bits IH]; intros d v Hv Hbits Hr; cbn [read_unsigned_loop] in Hr.
  - cbn in Hr. injection Hr as <- _. cbn. lia.
  - apply M_bind_inv in Hr as (b & d1 & _ & Hr).
    assert (Hlor : Z.lor (wrap U8 (Z.shiftl v 1)) (Z.b2z b) = 2 * v + Z.b2z b).
    { rewrite wrap_small.
      - rewrite lor_shiftl_add by (destruct b; cbn; lia). cbn. lia.
      - rewrite Z.shiftl_mul_pow2 by lia. change U8 with 256.
        assert (2 ^ (8 - Z.of_nat (S bits)) <= 2 ^ 7) by (apply Z.pow_le_mono_r; lia).
        change (2 ^ 7) with 128 in *. change (2 ^ 1) with 2. lia. }
    rewrite Hlor in Hr. apply IH in Hr; [|clear Hr|lia].
    + rewrite Nat2Z.inj_succ, Z.pow_succ_r by lia. destruct b; cbn in Hr; nia.
    + replace (8 - Z.of_nat bits) with (Z.succ (8 - Z.of_nat (S bits))) by lia.
      rewrite Z.pow_succ_r by lia. destruct b; cbn; lia.
Qed.

Lemma takes_unsigned bits :
  (bits <= 8)%nat -> takes (Z.of_nat bits) (read_unsigned_counted bits) (fun v => 0 <= v < 2 ^ Z.of_nat bits).
Proof.
  intros Hbits k d Hd Hk. unfold read_unsigned_counted. rewrite (proj2 (Nat.ltb_ge _ _)) by lia.
  destruct (read_unsigned_total bits k d 0 Hd Hk) as (v & d' & E & Hd'). exists v, d'.
  split; [done|]. split; [done|]. apply read_unsigned_bound in E; [lia| |done].
  split; [done|]. apply Z.pow_pos_nonneg; lia.
Qed.

Lemma takes_when {A} n (p : BM A) b P :
  0 <= n -> takes n p P -> takes n (when b p) (fun _ => True).
Proof.
  intros Hn Hp. unfold when.
  destruct b; [|by apply (takes_weaken 0 n _ (fun _ => True)); [apply takes_ret|..]].
  apply (takes_weaken (n + 0) n _ (fun _ => True)); [|lia|done].
  apply (takes_bind n 0 _ _ P); [done|done|]. intros a _. by apply takes_ret.
Qed.

Lemma takes_with_sign bits :
  (0 < bits <= 7)%nat -> takes (Z.of_nat bits + 1) (read_with_sign bits) (fun _ => True).
Proof.
  intros Hbits. unfold read_with_sign. rewrite (proj2 (Nat.ltb_lt _ _)), (proj2 (Nat.leb_le _ _)) by lia. cbn [andb].
  intros k d. unfold mbind at 1, M_bind at 1, of_res, assert_. revert k d.
  eapply takes_bind; [lia|apply takes_unsigned; lia|]. intros v _.
  apply (takes_bind 1 0 _ _ (fun _ => True)); [done|apply takes_bit|]. intros s _. by apply takes_ret.
Qed.

Lemma takes_updates n m (p : BM Z) :
  0 <= m -> takes m p (fun _ => True) -> takes (Z.of_nat n * (1 + m)) (read_updates n p) (fun _ => True).
Proof.
  intros Hm Hp. induction n as [|n IH]; cbn [read_updates]; [by apply takes_ret|].
  apply (takes_weaken (1 + (m + (Z.of_nat n * (1 + m) + 0))) _ _ (fun _ => True)); [|lia|done].
  apply (takes_bind 1 (m + (Z.of_nat n * (1 + m) + 0)) _ _ (fun _ => True)); [lia|apply takes_bit|]. intros f _.
  apply (takes_bind m _ _ _ (fun _ => True)); [lia|by eapply takes_when|]. intros u _.
  apply (takes_bind _ 0 _ _ (fun _ => True)); [done|exact IH|]. intros l _. by apply takes_ret.
Qed.
End Takes.

Section HeaderTotal.

Lemma takes_then {A B} n m (p : BM A) (k : A -> BM B) P Q :
  takes n p P -> 0 <= m -> (forall a, takes m (k a) Q) -> takes (n + m) (p ≫= k) Q.
Proof. intros Hp Hm Hk. eapply takes_bind; [done|exact Hp|]. intros a _. apply Hk. Qed.

Lemma takes_any {A} n m (p : BM A) P : takes n p P -> n <= m -> takes m p (fun _ => True).
Proof. intros Hp Hn. by eapply takes_weaken. Qed.

Lemma takes_feature_data : takes 69 SegmentFeatureData_from_reader (fun _ => True).
Proof.
  apply (takes_then 1 68 _ _ _ _ (takes_unsigned 1 ltac:(lia))); [lia|]. intros mode.
  apply (takes_then 36 32 _ _ _ _ (takes_updates 4 8 _ ltac:(lia) (takes_with_sign 7 ltac:(lia)))); [lia|]. intros q.
  apply (takes_then 32 0 _ _ _ _ (takes_updates 4 7 _ ltac:(lia) (takes_with_sign 6 ltac:(lia)))); [lia|]. intros l.
  by apply takes_ret.
Qed.

Lemma takes_segmentation_map : takes 27 MbSegmentationMap_from_reader (fun _ => True).
Proof.
  apply (takes_then 27 0 _ _ (fun _ => True)); [|done|intros p; by apply takes_ret].
  apply (takes_updates 3 8); [lia|]. apply (takes_any 8 8 _ _ (takes_unsigned 8 ltac:(lia))). lia.
Qed.

Lemma takes_segmentation : takes 98 UpdateSegmentation_from_reader (fun _ => True).
Proof.
  apply (takes_then 1 97 _ _ _ _ takes_bit); [lia|]. intros m.
  apply (takes_then 1 96 _ _ _ _ takes_bit); [lia|]. intros f.
  apply (takes_then 69 27 _ _ _ _ (takes_when 69 _ f _ ltac:(lia) takes_feature_data)); [lia|]. intros d.
  apply (takes_then 27 0 _ _ _ _ (takes_when 27 _ m _ ltac:(lia) takes_segmentation_map)); [lia|]. intros p.
  by apply takes_ret.
Qed.

Lemma takes_adjustments : takes 65 MbLfAdjustments_from_reader (fun _ => True).
Proof.
  apply (takes_then 1 64 _ _ _ _ takes_bit); [lia|]. intros [].
  - apply (takes_then 32 32 _ _ _ _ (takes_updates 4 7 _ ltac:(lia) (takes_with_sign 6 ltac:(lia)))); [lia|]. intros r.
    apply (takes_then 32 0 _ _ _ _ (takes_updates 4 7 _ ltac:(lia) (takes_with_sign 6 ltac:(lia)))); [lia|]. intros m.
    by apply takes_ret.
  - apply (takes_any 0 64 _ (fun _ => True)); [by apply takes_ret|lia].
Qed.

(** At most 179 bits; one, two, four or eight partitions. *)
Lemma takes_header keyframe :
  takes 179 (FrameHeader_from_reader keyframe) (fun h => 1 <= fh_nbr_of_dct_partitions h <= 8).
Proof.
  apply (takes_then 1 178 _ _ _ _ (takes_when 1 _ keyframe _ ltac:(lia) (takes_unsigned 1 ltac:(lia)))); [lia|]. intros c.
  apply (takes_then 1 177 _ _ _ _ (takes_when 1 _ keyframe _ ltac:(lia) (takes_unsigned 1 ltac:(lia)))); [lia|]. intros cl.
  apply (takes_then 1 176 _ _ _ _ takes_bit); [lia|]. intros s.
  apply (takes_then 98 78 _ _ _ _ (takes_when 98 _ s _ ltac:(lia) takes_segmentation)); [lia|]. intros us.
  apply (takes_then 1 77 _ _ _ _ (takes_unsigned 1 ltac:(lia))); [lia|]. intros ft.
  apply (takes_then 6 71 _ _ _ _ (takes_unsigned 6 ltac:(lia))); [lia|]. intros lf.
  apply (takes_then 3 68 _ _ _ _ (takes_unsigned 3 ltac:(lia))); [lia|]. intros sl.
  apply (takes_then 1 67 _ _ _ _ takes_bit); [lia|]. intros a.
  apply (takes_then 65 2 _ _ _ _ (takes_when 65 _ a _ ltac:(lia) takes_adjustments)); [lia|]. intros ad.
  apply (takes_bind 2 0 _ _ (fun v => 0 <= v < 4)); [lia|apply (takes_unsigned 2); lia|]. intros n Hn.
  apply takes_ret. cbn [fh_nbr_of_dct_partitions].
  assert (n = 0 \/ n = 1 \/ n = 2 \/ n = 3) as [->|[->|[->| ->]]] by lia; vm_compute; split; congruence.
Qed.
End HeaderTotal.

(** ** The offsets cover the frame *)

(** Increasing offsets from 0 to the length of the frame. *)
Fixpoint covers (from : Z) (offsets : list Z) (len : Z) : Prop :=
  match offsets with
  | [] => from = len
  | o :: offsets => from <= o /\ covers o offsets len
  end.

(** The offsets of up to nine partitions, the first not empty and with the
    first [hdr] bytes. *)
Definition good_offsets (offsets : list Z) (hdr len : Z) : Prop :=
  exists o rest, offsets = 0 :: o :: rest /\ 0 < o /\ hdr <= o /\ covers o rest len /\ (length rest <= 8)%nat.

Section PartitionLemmas.

Lemma covers_app from l o len : covers from l o -> o <= len -> covers from (l ++ [len]) len.
Proof.
  revert from. induction l as [|x l IH]; intros from Hc Ho; cbn in *; [by subst|].
  destruct Hc as [? Hc]. split; [done|]. by apply IH.
Qed.

(** [find_partition_for_offset] finds every byte of the frame. *)
Lemma find_partition_total from offsets len idx offset :
  covers from offsets len -> from <= offset < len ->
  exists i s e, find_partition_loop idx (from :: offsets) offset = Ok (i, s, e) /\
    s <= offset < e /\ idx <= i < idx + Z.of_nat (length offsets) /\ from <= s /\ e <= len.
Proof.
  revert from idx. induction offsets as [|o offsets IH]; intros from idx Hc Ho; cbn in Hc; [lia|].
  destruct Hc as [Hfo Hc]. cbn [find_partition_loop].
  assert (Hol : o <= len).
  { clear -Hc. revert o Hc. induction offsets as [|x offsets IH]; intros o Hc; cbn in Hc; [lia|].
    destruct Hc as [? Hc]. apply IH in Hc. lia. }
  destruct (Z.ltb_spec offset o) as [Hlt|Hge].
  - rewrite (proj2 (Z.leb_le _ _)) by lia. exists idx, from, o. cbn [length]. split; [done|]. lia.
  - rewrite andb_false_r. destruct (IH o (idx + 1) Hc) as (i & s & e & E & ? & ? & ? & ?); [lia|].
    exists i, s, e. cbn [length]. split; [exact E|]. lia.
Qed.

(** Two bytes of the frame: the later one lies in the same or in a later
    partition, which starts where the earlier one's ends or behind. *)
Lemma find_partition_mono from offsets len idx a b :
  covers from offsets len -> from <= a <= b -> b < len ->
  exists i s e j s' e', find_partition_loop idx (from :: offsets) a = Ok (i, s, e) /\
    find_partition_loop idx (from :: offsets) b = Ok (j, s', e') /\
    s <= a < e /\ s' <= b < e' /\ e' <= len /\ idx <= i <= j /\ j < idx + Z.of_nat (length offsets) /\ from <= s /\
    ((i = j /\ s = s' /\ e = e') \/ (i < j /\ e <= s')).
Proof.
  revert from idx. induction offsets as [|o offsets IH]; intros from idx Hc Ha Hb; [cbn in Hc; lia|].
  pose proof (find_partition_total from (o :: offsets) len idx b Hc ltac:(lia)) as (j & s' & e' & Ej & Hj).
  cbn [length] in *.
  cbn in Hc. destruct Hc as [Hfo Hc]. cbn [find_partition_loop] in *.
  destruct (Z.ltb_spec a o) as [Hlt|Hge].
  - rewrite (proj2 (Z.leb_le from a)) by lia. exists idx, from, o, j, s', e'. split; [done|]. split; [done|].
    destruct (Z.ltb_spec b o).
    + rewrite (proj2 (Z.leb_le from b)) in Ej by lia. injection Ej as <- <- <-. lia.
    + rewrite andb_false_r in Ej.
      destruct (find_partition_total o offsets len (idx + 1) b Hc ltac:(lia)) as (j2 & s2 & e2 & E2 & ?).
      assert (Ok (j, s', e') = Ok (j2, s2, e2)) as [= -> -> ->] by (rewrite <- Ej; exact E2). lia.
  - rewrite andb_false_r. rewrite (proj2 (Z.ltb_ge b o)), andb_false_r in * by lia.
    destruct (IH o (idx + 1) Hc) as (i & s & e & j2 & s2 & e2 & E1 & E2 & ?); [lia..|].
    exists i, s, e, j2, s2, e2. split; [exact E1|]. split; [exact E2|]. lia.
Qed.

Lemma find_partition_lookup idx offsets offset i s e :
  find_partition_loop idx offsets offset = Ok (i, s, e) ->
  idx <= i /\ offsets !! Z.to_nat (i - idx) = Some s /\ offsets !! S (Z.to_nat (i - idx)) = Some e /\ s <= offset < e.
Proof.
  revert idx. induction offsets as [|x offsets IH]; intros idx Hf; [done|].
  destruct offsets as [|y offsets]; [done|]. cbn [find_partition_loop] in Hf.
  destruct ((x <=? offset) && (offset <? y)) eqn:E.
  - injection Hf as <- <- <-. apply andb_true_iff in E as [E1%Z.leb_le E2%Z.ltb_lt].
    rewrite Z.sub_diag. cbn. split; [lia|]. split; [done|]. split; [done|lia].
  - apply IH in Hf as (Hi & Hs & He & Ho). split; [lia|].
    replace (Z.to_nat (i - idx)) with (S (Z.to_nat (i - (idx + 1)))) by lia. done.
Qed.

Lemma covers_sorted from offsets len i j x y :
  covers from offsets len -> (from :: offsets) !! i = Some x -> (from :: offsets) !! j = Some y -> (i <= j)%nat -> x <= y.
Proof.
  revert from i j x. induction offsets as [|o offsets IH]; intros from i j x Hc Hx Hy Hij.
  - destruct i, j; cbn in *; try done. injection Hx as <-. injection Hy as <-. lia.
  - destruct Hc as [Hfo Hc]. destruct i as [|i], j as [|j]; cbn [lookup list_lookup] in *; try lia.
    + injection Hx as <-. injection Hy as <-. lia.
    + injection Hx as <-. pose proof (IH o 0%nat j o Hc eq_refl Hy ltac:(lia)). lia.
    + apply (IH o i j x Hc Hx Hy). lia.
Qed.
End PartitionLemmas.

(** ** Parsing a frame *)

Definition header_of (b size1 size2 : Z) (scale resolution : option (Z * Z)) : UncompressedFrameHeader :=
  mkUncompressedFrameHeader (Z.lor (Z.lor (Z.shiftl size2 11) (Z.shiftl size1 3)) (Z.shiftr (Z.land b 224) 5))
    (Z.land b 1 =? 0) (has b 16) (Z.land (Z.shiftr b 1) 3) scale resolution.

(** The uncompressed header of a byte sequence, and the bytes behind it. *)
Definition uncompressed_of (data : list Z) : option (UncompressedFrameHeader * list Z) :=
  match data with
  | b :: size1 :: size2 :: rest =>
      if Z.land b 1 =? 0 then
        match rest with
        | c1 :: c2 :: c3 :: w0 :: w1 :: h0 :: h1 :: rest =>
            if bool_decide ([157; 1; 42] = [c1; c2; c3]) then
              let w := w0 + 256 * w1 in
              let h := h0 + 256 * h1 in
              Some (header_of b size1 size2 (Some (wrap U8 (Z.shiftr w 14), wrap U8 (Z.shiftr h 14)))
                      (Some (Z.land w 16383, Z.land h 16383)), rest)
            else None
        | _ => None
        end
      else Some (header_of b size1 size2 None None, rest)
  | _ => None
  end.

Section ParseLemmas.
Context `{ByteIOLaws}.

Lemma reads_if {A} (c : bool) (p q : M ByteReader A) f g :
  reads p f -> reads q g -> reads (if c then p else q) (fun l => if c then f l else g l).
Proof. by destruct c. Qed.

Lemma reads_uncompressed : reads UncompressedFrameHeader_from_reader uncompressed_of.
Proof.
  eapply reads_ext; [|unfold UncompressedFrameHeader_from_reader].
  2: { eapply reads_bind; [apply reads_byte|]. intros b. cbv zeta.
       eapply reads_bind; [apply reads_byte|]. intros s1. eapply reads_bind; [apply reads_byte|]. intros s2.
       eapply reads_bind.
       - apply reads_if; [|apply reads_ret].
         eapply reads_bind; [apply reads_byte|]. intros c1. eapply reads_bind; [apply reads_byte|]. intros c2.
         eapply reads_bind; [apply reads_byte|]. intros c3. apply reads_if; [apply reads_fail|].
         eapply reads_bind; [apply reads_le16|]. intros w. eapply reads_bind; [apply reads_le16|]. intros h.
         apply reads_ret.
       - intros sr. apply reads_ret. }
  intros l. cbv beta. unfold uncompressed_of. destruct l as [|b [|s1 [|s2 l]]]; [done..|].
  destruct (Z.land b 1 =? 0) eqn:Ekey; cbn [fst snd]; [|by unfold header_of; rewrite Ekey].
  destruct l as [|c1 [|c2 [|c3 l]]]; [done..|]. destruct (bool_decide _); cbn [negb].
  - destruct l as [|w0 [|w1 [|h0 [|h1 l]]]]; [done..|]. by unfold header_of; rewrite Ekey.
  - by destruct l as [|w0 [|w1 [|h0 [|h1 l]]]].
Qed.

Lemma uncompressed_of_spec data h rest :
  is_bytes data -> uncompressed_of data = Some (h, rest) ->
  0 <= uf_first_partition_size h < 2 ^ 19 /\ is_bytes rest /\
  exists hdr, data = hdr ++ rest /\ (3 <= length hdr <= 10)%nat /\
    (uf_is_keyframe h = true <-> is_some (uf_resolution h) = true).
Proof.
  unfold uncompressed_of. destruct data as [|b [|s1 [|s2 l]]]; [done..|]. intros Hb Heq.
  inversion Hb as [|? ? Hb0 Hb1]; subst. inversion Hb1 as [|? ? Hs1 Hb2]; subst. inversion Hb2 as [|? ? Hs2 Hl]; subst.
  assert (Hsize : 0 <= Z.lor (Z.lor (Z.shiftl s2 11) (Z.shiftl s1 3)) (Z.shiftr (Z.land b 224) 5) < 2 ^ 19).
  { unfold is_u8 in *. change U8 with 256 in *. change (2 ^ 19) with 524288.
    assert (Hb5 : 0 <= Z.shiftr (Z.land b 224) 5 < 2 ^ 3).
    { rewrite Z.shiftr_land. change (Z.shiftr 224 5) with (Z.ones 3). rewrite Z.land_ones by lia.
      apply Z.mod_pos_bound. done. }
    replace (Z.shiftl s2 11) with (Z.shiftl (Z.shiftl s2 8) 3) by (rewrite Z.shiftl_shiftl by lia; done).
    rewrite <- Z.shiftl_lor, lor_shiftl_add by (done || lia).
    rewrite lor_shiftl_add by (change (2 ^ 8) with 256; lia). change (2 ^ 8) with 256. change (2 ^ 3) with 8 in *. lia. }
  destruct (Z.land b 1 =? 0) eqn:Ekey.
  - destruct l as [|c1 [|c2 [|c3 [|w0 [|w1 [|h0 [|h1 l]]]]]]]; [done..|].
    destruct (bool_decide _); [|done]. injection Heq as <- <-. split; [done|].
    split; [by do 7 (inversion Hl as [|? ? ? Hl']; subst; clear Hl; rename Hl' into Hl)|].
    exists [b; s1; s2; c1; c2; c3; w0; w1; h0; h1]. split; [done|]. split; [cbn; lia|]. cbn. by rewrite Ekey.
  - injection Heq as <- <-. split; [done|]. split; [done|]. exists [b; s1; s2].
    split; [done|]. split; [cbn; lia|]. cbn. by rewrite Ekey.
Qed.

(** The loop over the sizes: the offsets go on, from the start of the second
    partition, by less than 2^24 each. *)
Lemma partition_loop_spec n offsets current r :
  is_bytes (ahead r) -> 0 <= current -> current + Z.of_nat n * 2 ^ 24 < U32 ->
  match partition_loop n offsets current r with
  | (Done (offsets', current'), _) =>
      exists more, offsets' = offsets ++ more /\ covers current (more ++ [current']) current' /\
        length more = n /\ head (more ++ [current']) = Some current
  | (Fail, _) => True
  | (Crash, _) => False
  end.
Proof.
  revert offsets current r. induction n as [|n IH]; intros offsets current r Hr Hc Hn; cbn [partition_loop].
  { exists []. rewrite app_nil_r. cbn. done. }
  unfold mbind, M_bind, get_byte.
  destruct (ahead r) as [|s0 l0] eqn:E0; [by rewrite (ahead_read_end r E0)|].
  destruct (ahead_read r s0 l0 E0) as (r1 & -> & E1).
  destruct l0 as [|s1 l1]; [by rewrite (ahead_read_end r1 E1)|]. destruct (ahead_read r1 s1 l1 E1) as (r2 & -> & E2).
  destruct l1 as [|s2 l2]; [by rewrite (ahead_read_end r2 E2)|]. destruct (ahead_read r2 s2 l2 E2) as (r3 & -> & E3).
  apply Forall_cons in Hr as [Hs0 Hr]. apply Forall_cons in Hr as [Hs1 Hr]. apply Forall_cons in Hr as [Hs2 Hr]. unfold is_u8 in *. change U8 with 256 in *.
  assert (Hsize : 0 <= Z.lor (Z.lor (Z.shiftl s2 16) (Z.shiftl s1 8)) s0 < 2 ^ 24).
  { replace (Z.shiftl s2 16) with (Z.shiftl (Z.shiftl s2 8) 8) by (rewrite Z.shiftl_shiftl by lia; done).
    rewrite <- Z.shiftl_lor, lor_shiftl_add by (done || lia).
    rewrite lor_shiftl_add by (change (2 ^ 8) with 256; lia). change (2 ^ 8) with 256. change (2 ^ 24) with 16777216. lia. }
  set (size := Z.lor _ s0) in *. change (2 ^ 24) with 16777216 in *. change U32 with 4294967296 in *.
  unfold of_res, uint_add. rewrite (proj2 (Z.ltb_lt _ _)) by lia.
  specialize (IH (offsets ++ [current]) (current + size) r3 ltac:(by rewrite E3) ltac:(lia) ltac:(lia)).
  destruct (partition_loop n _ _ r3) as [[[offsets' current']| |] r4]; [|done..].
  destruct IH as (more & -> & Hcov & <- & _). exists (current :: more). split; [by rewrite <- app_assoc|]. split; [|done].
  cbn. split; [lia|]. destruct more; cbn in *; [lia|]. destruct Hcov. split; [lia|done].
Qed.

Lemma FrameInfo_parse_spec data :
  is_bytes data -> Z.of_nat (length data) < 2 ^ 31 ->
  match FrameInfo_parse data with
  | Done info =>
      exists h rest, uncompressed_of data = Some (h, rest) /\
        good_offsets (fi_partition_offsets info) (Z.of_nat (length data) - Z.of_nat (length rest)) (Z.of_nat (length data))
  | Fail => True
  | Crash => False
  end.
Proof.
  intros Hdata Hlen. change (2 ^ 31) with 2147483648 in Hlen. unfold FrameInfo_parse.
  rewrite (run_bytes_reads _ _ data reads_uncompressed).
  destruct (uncompressed_of data) as [[h rest]|] eqn:Eun; [|done].
  destruct (uncompressed_of_spec data h rest Hdata Eun) as (Hfps & Hrest & hdr & Hd & Hhdr & _).
  change (2 ^ 19) with 524288 in Hfps.
  assert (Hoff : Z.of_nat (length data) - Z.of_nat (length rest) = Z.of_nat (length hdr))
    by (rewrite Hd, length_app; lia). rewrite Hoff.
  destruct (Z.ltb_spec (Z.of_nat (length data)) (Z.of_nat (length hdr) + uf_first_partition_size h)) as [|Hfit]; [done|].
  destruct rest as [|b0 rest']; [done|]. destruct (BoolDecoder_new_ready b0 rest') as (d & -> & Hd8).
  destruct (takes_header (uf_is_keyframe h) 8 d Hd8) as (fh & d' & -> & _ & Hnbr); [lia|].
  set (len := Z.of_nat (length data)) in *. set (rest := b0 :: rest') in *.
  unfold run_bytes, read_partition_offsets.
  destruct (ahead_skip (uf_first_partition_size h) (byte_reader rest)) as (r1 & Hsk & Hr1).
  { rewrite ahead_new. lia. }
  unfold mbind, M_bind, skip_bytes at 1. rewrite Hsk.
  unfold of_res, uint_add, uint_sub, uint_mul. rewrite wrap_small by (change U32 with 4294967296; lia).
  rewrite (proj2 (Z.ltb_lt _ U32)) by (change U32 with 4294967296; lia).
  rewrite (proj2 (Z.leb_le _ _)) by lia.
  rewrite !(proj2 (Z.ltb_lt _ U32)) by (change U32 with 4294967296; lia).
  assert (Hb1 : is_bytes (ahead r1)) by (rewrite Hr1, ahead_new; by apply Forall_drop).
  pose proof (partition_loop_spec (Z.to_nat (fh_nbr_of_dct_partitions fh - 1)) [0]
    (uf_first_partition_size h + Z.of_nat (length hdr) + 3 * (fh_nbr_of_dct_partitions fh - 1)) r1 Hb1
    ltac:(lia) ltac:(change U32 with 4294967296; change (2 ^ 24) with 16777216; lia)) as Hloop.
  destruct (partition_loop _ _ _ r1) as [[[offsets current]| |] r2]; [|done..].
  destruct Hloop as (more & -> & Hcov & Hmore & Hhead). cbn [fi_partition_offsets].
  rewrite wrap_small by (unfold len; change U32 with 4294967296; lia). rewrite Z.geb_leb.
  unfold mret, M_ret. cbn [fi_partition_offsets]. exists h, rest. split; [done|]. rewrite Hoff.
  destruct (Z.leb_spec len current) as [Hle|Hlt].
  { exists len, []. split; [done|]. split; [lia|]. split; [lia|]. split; [done|]. cbn; lia. }
  set (c0 := uf_first_partition_size h + _ + _) in *.
  destruct more as [|m more]; cbn in Hhead; injection Hhead as ->.
  - exists c0, [len]. split; [done|]. split; [lia|]. split; [lia|]. split; [cbn; lia|]. cbn; lia.
  - exists c0, (more ++ [current; len]).
    split; [by rewrite <- !app_assoc|]. split; [lia|]. split; [lia|]. cbn in Hcov, Hmore. split.
    + replace (more ++ [current; len]) with ((more ++ [current]) ++ [len]) by (by rewrite <- app_assoc).
      eapply covers_app; [apply Hcov|lia].
    + rewrite length_app. cbn. lia.
Qed.
End ParseLemmas.
