(* ===== verification/Vp8Pay.v ===== *)
(** * The VP8 payloader

    [vp8/pay/imp.rs] of the RTP plugin: a frame is cut into packets, each with
    a payload descriptor, along partitions if so configured. *)

From S2P Require Import Prelude Flow BitStream ByteStream RtpBase Vp8Desc Vp8Bool Vp8Frame.

(** ** Data *)
Inductive FragmentationMode := FragNone | FragPartitionStart | FragEveryPartition.

Record Vp8PaySettings := mkVp8PaySettings {
  v8s_picture_id_mode : Vp8PictureIdMode;
  v8s_picture_id_offset : option Z;
  v8s_fragmentation_mode : FragmentationMode;
}.

(** The state and the current picture id. *)
Record Vp8PayState := mkVp8PayState {
  v8p_temporal_layer_zero_index : option Z;
  v8p_picture_id : option Vp8PictureId;
}.

#[export] Instance Vp8PayState_rebuild : Rebuild Vp8PayState := {|
  rebuild := fun r => mkVp8PayState (v8p_temporal_layer_zero_index r) (v8p_picture_id r) |}.

Definition Vp8PayState_default : Vp8PayState := mkVp8PayState None None.

(** The fields of the custom meta [GstVP8Meta], [None] where a field is
    missing or has another type. *)
Record Vp8MetaStructure := mkVp8MetaStructure {
  vm_use_temporal_scaling : option bool;
  vm_layer_id : option Z;
  vm_layer_sync : option bool;
}.

(** [VP8Meta::layer_id] of the meta of a buffer, if it has one. *)
Definition VP8Meta_from_buffer (meta : option Vp8MetaStructure) : option (option (Z * bool)) :=
  s ← meta;
  if bool_decide (vm_use_temporal_scaling s = Some true) then
    layer_id ← vm_layer_id s;
    layer_sync ← vm_layer_sync s;
    Some (Some (layer_id, layer_sync))
  else Some None.

(** An input buffer: its data ([None] where mapping fails), flag and meta. *)
Record Vp8Buffer := mkVp8Buffer {
  v8b_data : option (list Z);
  v8b_droppable : bool;
  v8b_meta : option Vp8MetaStructure;
}.

(** ** Cutting a packet *)

(** The partition index and start flag of the packet at [current_offset], and
    its size reduced to fit the fragmentation mode. *)
Definition fit_partitions (mode : FragmentationMode) (partition_offsets : list Z)
    (current_offset payload_size : Z) (desc : Vp8PayloadDescriptor) : res (Vp8PayloadDescriptor * Z) :=
  '(start_index, start_start, start_end) ← find_partition_for_offset partition_offsets current_offset;
  let desc :=
    if start_index <=? 1 then desc <| v8d_partition_index := 0 |>
    else
      let desc := desc <| v8d_partition_index := Z.land (wrap U8 (start_index - 1)) 7 |> in
      if start_start =? current_offset then desc <| v8d_start_of_partition := true |> else desc in
  after ← uint_add U32 current_offset (wrap U32 payload_size);
  last ← uint_sub after 1;
  '(end_index, end_start, end_end) ← find_partition_for_offset partition_offsets last;
  match mode with
  | FragNone => Ok (desc, payload_size)
  | FragPartitionStart =>
      if negb (start_index =? end_index) && negb (end_index =? 1) && (end_end >? after)
      then size ← uint_sub end_start current_offset; Ok (desc, size)
      else Ok (desc, payload_size)
  | FragEveryPartition =>
      if (end_index >? 1) && (after >? start_end)
      then size ← uint_sub start_end current_offset; Ok (desc, size)
      else if (end_index =? 1) && (after >? end_end)
      then size ← uint_sub end_end current_offset; Ok (desc, size)
      else Ok (desc, payload_size)
  end.

Section Pay.
Context `{ByteIO} `{RtpBasePay2}.

Abbreviation PM := (M (Vp8PayState * BasePay)).

(** What stays the same for all packets of a frame. *)
Record Frame := mkFrame {
  fr_id : Z;
  fr_max_payload_size : Z;
  fr_mode : FragmentationMode;
  fr_descriptor : Vp8PayloadDescriptor;
  fr_partition_offsets : option (list Z);
}.

(** One round of the loop: the packet, and how much of [data] it takes. *)
Definition make_packet (frame : Frame) (first : bool) (current_offset : Z) (data : list Z)
  : PM (PayPacket * Z) :=
  let desc := (fr_descriptor frame) <| v8d_start_of_partition := first |> in
  descriptor_size ← of_flow (Vp8PayloadDescriptor_size desc);
  room ← of_option (if descriptor_size + 1 <=? fr_max_payload_size frame
                    then Some (fr_max_payload_size frame - (descriptor_size + 1)) else None);
  let payload_size := Z.min (room + 1) (Z.of_nat (length data)) in
  fitted ← of_res (match fr_partition_offsets frame with
                   | Some offsets => fit_partitions (fr_mode frame) offsets current_offset payload_size desc
                   | None => Ok (desc, payload_size)
                   end);
  let '(desc, payload_size) := fitted in
  _ ← of_res (assert_ (payload_size >? 0));
  bytes ← of_flow (Vp8PayloadDescriptor_bytes desc);
  _ ← of_res (assert_ (Z.of_nat (length bytes) =? descriptor_size));
  mret (mkPayPacket (fr_id frame) (fr_id frame) (Z.of_nat (length data) =? payload_size)
          (bytes ++ take (Z.to_nat payload_size) data), payload_size).

(** [while !data.is_empty() { .. }] *)
Fixpoint packets_loop (fuel : nat) (frame : Frame) (first : bool) (current_offset : Z) (data : list Z) : PM unit :=
  match data with
  | [] => mret tt
  | _ =>
      match fuel with
      | O => crash_
      | S fuel =>
          made ← make_packet frame first current_offset data;
          let '(packet, payload_size) := made in
          _ ← queue_ packet;
          offset ← of_res (uint_add U32 current_offset (wrap U32 payload_size));
          packets_loop fuel frame false offset (drop (Z.to_nat payload_size) data)
      end
  end.

(** ** The element *)
Definition vp8_pay_handle_buffer (settings : Vp8PaySettings) (buffer : Vp8Buffer) (id : Z) : PM unit :=
  data ← of_option (v8b_data buffer);
  s ← get_;
  let picture_id := v8p_picture_id (fst s) in
  let meta := VP8Meta_from_buffer (v8b_meta buffer) in
  _ ← (if match meta with Some (Some _) => true | _ => false end
          && is_none (v8p_temporal_layer_zero_index (fst s))
       then upd_ (fun s => ((fst s) <| v8p_temporal_layer_zero_index := Some 0 |>, snd s))
       else mret tt);
  s ← get_;
  let zero_index := v8p_temporal_layer_zero_index (fst s) in
  partition_offsets ← (if is_none zero_index then
                         match FrameInfo_parse data with
                         | Done info => mret (Some (fi_partition_offsets info))
                         | Fail => mret None
                         | Crash => crash_
                         end
                       else mret None);
  let layer_id :=
    match zero_index with
    | Some _ =>
        let '(layer, sync) := match meta with Some (Some l) => l | _ => (0, false) end in
        Some (mkVp8LayerId (wrap U8 layer) sync)
    | None => None
    end in
  let desc := mkVp8PayloadDescriptor (v8b_droppable buffer) false 0 picture_id zero_index layer_id None in
  _ ← packets_loop (length data)
        (mkFrame id (max_payload_size (snd s)) (v8s_fragmentation_mode settings) desc partition_offsets)
        true 0 data;
  _ ← (if match meta with None => true | Some (Some (0, _)) => true | _ => false end
       then upd_ (fun s => ((fst s) <| v8p_temporal_layer_zero_index ::= option_map (fun i => wrap U8 (i + 1)) |>, snd s))
       else mret tt);
  next ← match picture_id with
         | Some p => p ← of_res (Vp8PictureId_increment p); mret (Some p)
         | None => mret None
         end;
  upd_ (fun s => ((fst s) <| v8p_picture_id := next |>, snd s)).

(** [start]: the picture id offset is drawn at random where none is set. *)
Definition vp8_pay_start (settings : Vp8PaySettings) (random_offset : Z) : PM unit :=
  upd_ (fun s =>
    (mkVp8PayState None
       (Vp8PictureId_new (v8s_picture_id_mode settings)
          (match v8s_picture_id_offset settings with Some o => o | None => random_offset end)), snd s)).

Definition vp8_pay_stop : PM unit := upd_ (fun s => (Vp8PayState_default, snd s)).
End Pay.
