(* ===== verification/Vp8Depay.v ===== *)
(** * The VP8 depayloader

    [vp8/depay/imp.rs] of the RTP plugin: the payloads of the packets from the
    start of a frame up to the marked one are joined. *)

From S2P Require Import Prelude Flow BitStream ByteStream RtpBase Vp8Desc Vp8Bool Vp8Frame.

Record Vp8DepaySettings := mkVp8DepaySettings {
  v8e_request_keyframe : bool;
  v8e_wait_for_keyframe : bool;
}.

Record Vp8DepayState := mkVp8DepayState {
  v8_last_timestamp : option Z;
  v8_last_picture_id : option Vp8PictureId;
  v8_current_frame_payload_descriptor : option Vp8PayloadDescriptor;
  v8_last_keyframe_frame_header : option UncompressedFrameHeader;
  v8_pending_frame_ext_seqnum : Z;
  v8_pending_frame_is_keyframe : bool;
  v8_pending_frame : list Z;
  v8_needs_discont : bool;
}.

#[export] Instance Vp8DepayState_rebuild : Rebuild Vp8DepayState := {|
  rebuild := fun r => mkVp8DepayState (v8_last_timestamp r) (v8_last_picture_id r)
    (v8_current_frame_payload_descriptor r) (v8_last_keyframe_frame_header r) (v8_pending_frame_ext_seqnum r)
    (v8_pending_frame_is_keyframe r) (v8_pending_frame r) (v8_needs_discont r) |}.

Definition Vp8DepayState_default : Vp8DepayState := mkVp8DepayState None None None None 0 false [] true.

Section Depay.
Context `{ByteIO} `{RtpBaseDepay2}.

Abbreviation DM := (M (Vp8DepayState * BaseDepay)).

Definition on_vp8 (f : Vp8DepayState -> Vp8DepayState) : DM unit := upd_ (fun s => (f (fst s), snd s)).
Definition vp8_depay_reset : DM unit := on_vp8 (fun _ => Vp8DepayState_default).

(** [drop_packet(packet)] *)
Definition drop_packet (packet : DepayPacket) : DM unit := drop_ (dp_ext_seqnum packet) true.

(** The caps of a key frame whose profile or resolution is new. *)
Definition update_caps (frame_header : UncompressedFrameHeader) : DM unit :=
  s ← get_;
  if match v8_last_keyframe_frame_header (fst s) with
     | None => true
     | Some last => negb (uf_profile last =? uf_profile frame_header)
                    || negb (bool_decide (uf_resolution last = uf_resolution frame_header))
     end
  then
    resolution ← of_res (unwrap (uf_resolution frame_header));
    on_base (set_src_caps (VideoCaps (uf_profile frame_header) (fst resolution) (snd resolution)))
  else mret tt.

(** The start of a frame, its data in [rest]; [false]: the packet is dropped. *)
Definition start_frame (settings : Vp8DepaySettings) (packet : DepayPacket) (desc : Vp8PayloadDescriptor)
    (rest : list Z) : DM bool :=
  match run_bytes UncompressedFrameHeader_from_reader rest with
  | Crash => crash_
  | Fail => _ ← drop_packet packet; _ ← vp8_depay_reset; mret false
  | Done (frame_header, _) =>
      s ← get_;
      dropped ←
        (if negb (uf_is_keyframe frame_header) && is_none (v8_last_keyframe_frame_header (fst s)) then
           _ ← (if v8e_request_keyframe settings then on_base push_force_key_unit else mret tt);
           if v8e_wait_for_keyframe settings then
             _ ← vp8_depay_reset; _ ← drop_packet packet; mret true
           else mret false
         else mret false);
      if dropped : bool then mret false
      else
        _ ← of_res (assert_ (bool_decide (v8_pending_frame (fst s) = [])));
        _ ← on_vp8 (fun st => st <| v8_pending_frame_ext_seqnum := dp_ext_seqnum packet |>
                                 <| v8_pending_frame_is_keyframe := uf_is_keyframe frame_header |>
                                 <| v8_current_frame_payload_descriptor := Some desc |>
                                 <| v8_last_timestamp := Some (dp_ext_timestamp packet) |>
                                 <| v8_last_picture_id := v8d_picture_id desc |>);
        _ ← (if uf_is_keyframe frame_header then
               _ ← update_caps frame_header;
               on_vp8 (fun st => st <| v8_last_keyframe_frame_header := Some frame_header |>)
             else mret tt);
        mret true
  end.

(** [self.obj().queue_buffer(Seqnums(..), buffer)?] *)
Definition queue_frame (packet : DepayPacket) (buffer : DepayBuffer) : DM unit :=
  fun s =>
    let '(ret, base) := queue_buffer (v8_pending_frame_ext_seqnum (fst s), dp_ext_seqnum packet) buffer (snd s) in
    (ret, (fst s, base)).

(** The frame is complete: a buffer of what was collected. *)
Definition finish_frame (packet : DepayPacket) : DM unit :=
  s ← get_;
  let st := fst s in
  let buffer := mkDepayBuffer (v8_pending_frame st) true (v8_needs_discont st) (negb (v8_pending_frame_is_keyframe st)) in
  _ ← on_vp8 (fun st => st <| v8_pending_frame := [] |>
                           <| v8_needs_discont := false |>
                           <| v8_current_frame_payload_descriptor := None |>
                           <| v8_pending_frame_is_keyframe := false |>);
  s ← get_;
  _ ← (if negb (has_current_caps (snd s)) then on_base (set_src_caps TemplateCaps) else mret tt);
  queue_frame packet buffer.

Definition vp8_depay_handle_packet (settings : Vp8DepaySettings) (packet : DepayPacket) : DM unit :=
  match run_bytes Vp8PayloadDescriptor_from_reader (dp_payload packet) with
  | Crash => crash_
  | Fail => _ ← vp8_depay_reset; drop_packet packet
  | Done (desc, rest) =>
      let is_start_of_frame := v8d_start_of_partition desc && (v8d_partition_index desc =? 0) in
      s ← get_;
      if is_none (v8_current_frame_payload_descriptor (fst s)) && negb is_start_of_frame then
        _ ← drop_packet packet; vp8_depay_reset
      else
        go_on ← (if is_start_of_frame then start_frame settings packet desc rest else mret true);
        if negb go_on then mret tt
        else
          _ ← on_vp8 (fun st => st <| v8_pending_frame ::= fun l => l ++ rest |>);
          if negb (dp_marker_bit packet) then mret tt
          else finish_frame packet
  end.

Definition vp8_depay_start : DM unit := vp8_depay_reset.
Definition vp8_depay_stop : DM unit := vp8_depay_reset.
Definition vp8_depay_flush : DM unit := vp8_depay_reset.
End Depay.
