(* ===== verification/Vp8Props.v ===== *)
(** * The VP8 payload format end to end

    Descriptors, the boolean decoder, the packets of a frame, and the frame
    the depayloader makes of them. *)

From S2P Require Import Prelude Flow BitStream ByteStream RtpBase Vp8Desc Vp8Bool Vp8Frame Vp8Pay Vp8Depay.

(** ** Cutting along partitions *)

(** What each fragmentation mode promises of a packet with the bytes from [a]
    up to [b]: a packet that ends inside a partition (the second apart) starts
    in it; no boundary but the first lies inside a packet. *)
Definition fits_mode (mode : FragmentationMode) (offsets : list Z) (a b : Z) : Prop :=
  match mode with
  | FragNone => True
  | FragPartitionStart =>
      forall i s e, i <> 1%nat -> offsets !! i = Some s -> offsets !! S i = Some e -> s < b < e -> s <= a
  | FragEveryPartition =>
      forall i o, (2 <= i)%nat -> offsets !! i = Some o -> ~ a < o < b
  end.

Definition starts_frame (d : Vp8PayloadDescriptor) : bool :=
  v8d_start_of_partition d && (v8d_partition_index d =? 0).

(** The two descriptors differ only in what they say of partitions. *)
Definition same_frame (d d' : Vp8PayloadDescriptor) : Prop :=
  v8d_non_reference_frame d' = v8d_non_reference_frame d /\ v8d_picture_id d' = v8d_picture_id d /\
  v8d_temporal_layer_zero_index d' = v8d_temporal_layer_zero_index d /\
  v8d_temporal_layer_id d' = v8d_temporal_layer_id d /\ v8d_key_index d' = v8d_key_index d /\
  0 <= v8d_partition_index d' <= 7.

Section Fit.

Lemma covers_between from offsets len i j k x y z :
  covers from offsets len -> (from :: offsets) !! i = Some x -> (from :: offsets) !! j = Some y ->
  (from :: offsets) !! k = Some z -> x < z < y -> (i < k < j)%nat.
Proof.
  intros Hc Hx Hy Hz Hlt. split.
  - destruct (le_lt_dec k i); [|done]. pose proof (covers_sorted _ _ _ _ _ _ _ Hc Hz Hx ltac:(lia)). lia.
  - destruct (le_lt_dec j k); [|done]. pose proof (covers_sorted _ _ _ _ _ _ _ Hc Hy Hz ltac:(lia)). lia.
Qed.

Lemma fit_descriptor a start_index start_start desc :
  0 <= start_index <= 8 -> v8d_start_of_partition desc = (a =? 0) -> (a = 0 -> start_index = 0) -> 0 <= a ->
  let desc' := if start_index <=? 1 then desc <| v8d_partition_index := 0 |>
               else let d := desc <| v8d_partition_index := Z.land (wrap U8 (start_index - 1)) 7 |> in
                    if start_start =? a then d <| v8d_start_of_partition := true |> else d in
  same_frame desc desc' /\ starts_frame desc' = (a =? 0).
Proof.
  intros Hi Hst Ha0 Ha. cbv zeta. destruct (Z.leb_spec start_index 1) as [Hle|Hgt].
  - split; [by split_and!; cbn|]. unfold starts_frame. cbn. by rewrite andb_true_r.
  - assert (Hidx : Z.land (wrap U8 (start_index - 1)) 7 = start_index - 1).
    { rewrite wrap_small by (change U8 with 256; lia). change 7 with (Z.ones 3). rewrite Z.land_ones by lia.
      apply Z.mod_small. change (2 ^ 3) with 8. lia. }
    assert (a <> 0) by (intros ->; specialize (Ha0 eq_refl); lia).
    rewrite (proj2 (Z.eqb_neq a 0)) by lia. rewrite Hidx.
    destruct (start_start =? a); (split; [by split_and!; cbn; try lia|]); unfold starts_frame; cbn;
      rewrite (proj2 (Z.eqb_neq (start_index - 1) 0)) by lia; by rewrite ?andb_false_r.
Qed.

(** The size a mode leaves, from the partitions of the first and last byte. *)
Lemma fit_partitions_spec mode offsets hdr len a n desc :
  good_offsets offsets hdr len -> len < 2 ^ 31 -> 0 <= a -> 1 <= n -> a + n <= len ->
  v8d_start_of_partition desc = (a =? 0) ->
  exists desc' n', fit_partitions mode offsets a n desc = Ok (desc', n') /\ 1 <= n' <= n /\
    fits_mode mode offsets a (a + n') /\ (a = 0 -> Z.min n hdr <= n') /\
    same_frame desc desc' /\ starts_frame desc' = (a =? 0).
Proof.
  intros (o & rest & -> & Ho & Hhdr & Hc & Hlen) Hl Ha Hn Han Hst. change (2 ^ 31) with 2147483648 in Hl.
  assert (Hcov : covers 0 (o :: rest) len) by (cbn; split; [lia|done]).
  destruct (find_partition_mono 0 (o :: rest) len 0 a (a + n - 1) Hcov) as
    (i & s & e & j & s' & e' & Ei & Ej & Hs & Hs' & He' & Hij & Hj & _ & Hord); [lia..|].
  cbn [length] in Hj.
  destruct (find_partition_lookup _ _ _ _ _ _ Ei) as (_ & Li1 & Li2 & _).
  destruct (find_partition_lookup _ _ _ _ _ _ Ej) as (_ & Lj1 & Lj2 & _).
  rewrite Z.sub_0_r in Li1, Li2, Lj1, Lj2.
  assert (Hi0 : a = 0 -> i = 0).
  { intros ->. cbn [find_partition_loop] in Ei. rewrite (proj2 (Z.ltb_lt 0 o)) in Ei by lia. by injection Ei. }
  assert (Hhs : a = 0 -> hdr <= e /\ (i <> j -> hdr <= s')).
  { intros H0. rewrite (Hi0 H0) in *. cbn in Li2. injection Li2 as <-. split; [lia|]. intros ?. lia. }
  unfold fit_partitions, find_partition_for_offset. cbn [assert_ bool_decide].
  rewrite bool_decide_eq_false_2 by done. cbn [negb assert_]. rewrite !bind_Ok, Ei, bind_Ok.
  pose proof (fit_descriptor a i s desc ltac:(lia) Hst Hi0 Ha) as Hdesc. cbv zeta in Hdesc.
  set (desc' := if i <=? 1 then _ else _) in *.
  assert (Hafter : uint_add U32 a (wrap U32 n) = Ok (a + n)).
  { rewrite wrap_small by (change U32 with 4294967296; lia). apply uint_add_ok. change U32 with 4294967296. lia. }
  assert (Hlast : uint_sub (a + n) 1 = Ok (a + n - 1)) by (apply uint_sub_ok; lia).
  rewrite Hafter, bind_Ok, Hlast, !bind_Ok, Ej, bind_Ok.
  destruct mode; cbn [fits_mode].
  - exists desc', n. split; [done|]. split; [lia|]. split; [done|]. split; [lia|]. done.
  - rewrite Z.gtb_ltb. destruct (negb (i =? j) && negb (j =? 1) && (a + n <? e')) eqn:Ecut.
    + rewrite !andb_true_iff, !negb_true_iff, !Z.eqb_neq, Z.ltb_lt in Ecut. destruct Ecut as [[Hne Hj1] Hlt].
      unfold uint_sub. rewrite (proj2 (Z.leb_le _ _)) by lia. rewrite bind_Ok.
      exists desc', (s' - a). split; [done|]. split; [lia|]. split; [|split; [lia|done]].
      intros k x y _ Hx Hy Hxy. replace (a + (s' - a)) with s' in Hxy by lia.
      pose proof (covers_between 0 (o :: rest) len k (S k) (Z.to_nat j) x y s' Hcov Hx Hy Lj1 Hxy). lia.
    + exists desc', n. split; [done|]. split; [lia|]. split; [|split; [lia|done]].
      intros k x y Hk Hx Hy Hxy.
      assert (k = Z.to_nat j) as ->.
      { destruct (lt_eq_lt_dec k (Z.to_nat j)) as [[Hlt|?]|Hgt]; [|done|].
        - pose proof (covers_sorted 0 (o :: rest) len (S k) (Z.to_nat j) y s' Hcov Hy Lj1 ltac:(lia)). lia.
        - pose proof (covers_sorted 0 (o :: rest) len (S (Z.to_nat j)) k e' x Hcov Lj2 Hx ltac:(lia)). lia. }
      rewrite Lj1 in Hx. injection Hx as <-. rewrite Lj2 in Hy. injection Hy as <-.
      rewrite (proj2 (Z.ltb_lt (a + n) e')), andb_true_r in Ecut by lia.
      apply andb_false_iff in Ecut as [Ecut|Ecut]; apply negb_false_iff, Z.eqb_eq in Ecut; [lia|].
      subst j. by destruct Hk.
  - rewrite !Z.gtb_ltb.
    destruct ((1 <? j) && (e <? a + n)) eqn:Ecut.
    + rewrite andb_true_iff, !Z.ltb_lt in Ecut. unfold uint_sub. rewrite (proj2 (Z.leb_le _ _)) by lia. rewrite bind_Ok.
      exists desc', (e - a). split; [done|]. split; [lia|]. split; [|split; [lia|done]].
      intros k z _ Hz Hin.
      pose proof (covers_between 0 (o :: rest) len (Z.to_nat i) (S (Z.to_nat i)) k s e z Hcov Li1 Li2 Hz). lia.
    + rewrite (proj2 (Z.ltb_ge e' (a + n))), andb_false_r by lia.
      exists desc', n. split; [done|]. split; [lia|]. split; [|split; [lia|done]].
      intros k z Hk Hz Hin. apply andb_false_iff in Ecut as [Hj1%Z.ltb_ge|He%Z.ltb_ge].
      * pose proof (covers_sorted 0 (o :: rest) len (S (Z.to_nat j)) k e' z Hcov Lj2 Hz ltac:(lia)). lia.
      * pose proof (covers_between 0 (o :: rest) len (Z.to_nat i) (S (Z.to_nat i)) k s e z Hcov Li1 Li2 Hz). lia.
Qed.
End Fit.

(** ** The packets of a frame *)

Definition fits_offsets (mode : FragmentationMode) (offsets : option (list Z)) (a b : Z) : Prop :=
  match offsets with Some offsets => fits_mode mode offsets a b | None => True end.

(** The bytes [data], from [a] on in the frame, cut into packets: each has a
    descriptor of the frame and a piece of the data, fits the limit and the
    fragmentation mode, and only the last one is marked. [hdr] bytes are in the
    first packet if the limit allows. *)
Inductive cut (frame : Frame) (hdr : Z) : Z -> list Z -> list PayPacket -> Prop :=
| cut_nil a : cut frame hdr a [] []
| cut_cons a data n d ps :
    1 <= n <= Z.of_nat (length data) ->
    is_vp8_desc d -> same_frame (fr_descriptor frame) d -> starts_frame d = (a =? 0) ->
    Z.of_nat (length (desc_bytes d)) + n <= fr_max_payload_size frame ->
    fits_offsets (fr_mode frame) (fr_partition_offsets frame) a (a + n) ->
    (a = 0 -> Z.min (Z.min (fr_max_payload_size frame - Z.of_nat (length (desc_bytes d)))
                           (Z.of_nat (length data))) hdr <= n) ->
    cut frame hdr (a + n) (drop (Z.to_nat n) data) ps ->
    cut frame hdr a data
      (mkPayPacket (fr_id frame) (fr_id frame) (Z.of_nat (length data) =? n)
         (desc_bytes d ++ take (Z.to_nat n) data) :: ps).

Section Cut.
Context `{ByteIOLaws}.

Lemma same_frame_valid d d' : is_vp8_desc d -> same_frame d d' -> is_vp8_desc d'.
Proof.
  intros (_ & Hp & Hz & Ht & Hk) (_ & Ep & Ez & Et & Ek & Hi). unfold is_vp8_desc. rewrite Ep, Ez, Et, Ek. done.
Qed.

Lemma same_frame_length d d' : same_frame d d' -> length (desc_bytes d') = length (desc_bytes d).
Proof.
  intros (_ & Ep & Ez & Et & Ek & _). unfold desc_bytes. rewrite Ep, Ez, Et, Ek, !length_app.
  by repeat case_match.
Qed.

Lemma desc_bytes_ok d : is_vp8_desc d -> Vp8PayloadDescriptor_bytes d = Done (desc_bytes d).
Proof.
  intros Hd. unfold Vp8PayloadDescriptor_bytes. destruct (writes_desc d Hd byte_writer) as (w & -> & Hw).
  by rewrite Hw, written_new.
Qed.

Lemma same_frame_start d b : is_vp8_desc d -> same_frame d (d <| v8d_start_of_partition := b |>).
Proof. intros (Hi & _). unfold same_frame. cbn. tauto. Qed.

Lemma same_frame_refl d : is_vp8_desc d -> same_frame d d.
Proof. intros (Hi & _). unfold same_frame. tauto. Qed.

Lemma same_frame_trans d1 d2 d3 : same_frame d1 d2 -> same_frame d2 d3 -> same_frame d1 d3.
Proof. unfold same_frame. intros (E1 & E2 & E3 & E4 & E5 & _). by rewrite E1, E2, E3, E4, E5. Qed.

Lemma make_packet_spec `{RtpBasePay2} frame hdr len a data (s : Vp8PayState * BasePay) :
  is_vp8_desc (fr_descriptor frame) -> v8d_partition_index (fr_descriptor frame) = 0 ->
  Z.of_nat (length (desc_bytes (fr_descriptor frame))) < fr_max_payload_size frame ->
  (forall offsets, fr_partition_offsets frame = Some offsets -> good_offsets offsets hdr len) ->
  0 <= a -> data <> [] -> a + Z.of_nat (length data) = len -> len < 2 ^ 31 ->
  exists d n,
    make_packet frame (a =? 0) a data s =
      (Done (mkPayPacket (fr_id frame) (fr_id frame) (Z.of_nat (length data) =? n)
               (desc_bytes d ++ take (Z.to_nat n) data), n), s) /\
    1 <= n <= Z.of_nat (length data) /\
    is_vp8_desc d /\ same_frame (fr_descriptor frame) d /\ starts_frame d = (a =? 0) /\
    Z.of_nat (length (desc_bytes d)) + n <= fr_max_payload_size frame /\
    fits_offsets (fr_mode frame) (fr_partition_offsets frame) a (a + n) /\
    (a = 0 -> Z.min (Z.min (fr_max_payload_size frame - Z.of_nat (length (desc_bytes d)))
                           (Z.of_nat (length data))) hdr <= n).
Proof.
  intros Hd Hpi0 Hroom Hoff Ha Hne Hlen Hl. set (d0 := (fr_descriptor frame) <| v8d_start_of_partition := a =? 0 |>).
  assert (Hsame0 : same_frame (fr_descriptor frame) d0) by (by apply same_frame_start).
  pose proof (same_frame_valid _ _ Hd Hsame0) as Hd0. pose proof (same_frame_length _ _ Hsame0) as Hl0.
  set (sz := Z.of_nat (length (desc_bytes (fr_descriptor frame)))) in *.
  set (room := Z.min (fr_max_payload_size frame - sz) (Z.of_nat (length data))).
  assert (Hdl : 1 <= Z.of_nat (length data)) by (destruct data; [done|cbn; lia]).
  assert (Hfit : exists d n,
    match fr_partition_offsets frame with
    | Some offsets => fit_partitions (fr_mode frame) offsets a room d0
    | None => Ok (d0, room)
    end = Ok (d, n) /\ 1 <= n <= room /\ fits_offsets (fr_mode frame) (fr_partition_offsets frame) a (a + n) /\
    (a = 0 -> Z.min room hdr <= n) /\ same_frame d0 d /\ starts_frame d = (a =? 0)).
  { destruct (fr_partition_offsets frame) as [offsets|]; cbn [fits_offsets].
    - by apply (fit_partitions_spec _ _ hdr len); [by apply Hoff|lia..|].
    - exists d0, room. split; [done|]. split; [lia|]. split; [done|]. split; [lia|]. split; [by apply same_frame_refl|].
      unfold starts_frame. cbn. by rewrite Hpi0, andb_true_r. }
  destruct Hfit as (d & n & Hfit & Hn & Hmode & Hh & Hsame & Hst).
  pose proof (same_frame_valid _ _ Hd0 Hsame) as Hdd. pose proof (same_frame_length _ _ Hsame) as Hld.
  exists d, n. split.
  - unfold make_packet. cbv zeta. fold d0. unfold Vp8PayloadDescriptor_size.
    unfold mbind, M_bind, of_flow, of_option. rewrite !desc_bytes_ok by done. cbn [fmap_flow]. rewrite Hl0. fold sz.
    rewrite (proj2 (Z.leb_le _ _)) by lia.
    replace (fr_max_payload_size frame - (sz + 1) + 1) with (fr_max_payload_size frame - sz) by lia. fold room.
    rewrite Hfit. unfold of_res, assert_. rewrite Z.gtb_ltb, (proj2 (Z.ltb_lt _ _)) by lia.
    assert (Esz : (Z.of_nat (length (desc_bytes d)) =? sz) = true) by (apply Z.eqb_eq; unfold sz; lia).
    rewrite desc_bytes_ok, Esz by done. done.
  - assert (same_frame (fr_descriptor frame) d) by exact (same_frame_trans _ _ _ Hsame0 Hsame).
    rewrite Hld, Hl0. fold sz. split; [lia|]. split; [done|]. split; [done|]. split; [done|]. split; [lia|].
    split; [done|]. exact Hh.
Qed.

Lemma packets_loop_spec `{RtpBasePay2} limit good `{!SelectiveBase limit good} frame hdr len fuel a data st base :
  (forall marker payload, payload <> [] -> is_bytes payload -> Z.of_nat (length payload) <= fr_max_payload_size frame ->
    good (mkPayPacket (fr_id frame) (fr_id frame) marker payload)) ->
  serves base -> is_bytes data ->
  is_vp8_desc (fr_descriptor frame) -> v8d_partition_index (fr_descriptor frame) = 0 ->
  Z.of_nat (length (desc_bytes (fr_descriptor frame))) < fr_max_payload_size frame ->
  (forall offsets, fr_partition_offsets frame = Some offsets -> good_offsets offsets hdr len) ->
  0 <= a -> a + Z.of_nat (length data) = len -> len < 2 ^ 31 -> (length data <= fuel)%nat ->
  exists base' ps, packets_loop fuel frame (a =? 0) a data (st, base) = (Done tt, (st, base')) /\
    serves base' /\ taken base' = taken base ++ ps /\ cut frame hdr a data ps.
Proof.
  intros Hgood Hbase Hbytes Hd Hpi Hroom Hoff. revert a data base Hbase Hbytes.
  induction fuel as [|fuel IH]; intros a data base Hbase Hbytes Ha Hlen Hl Hf.
  { destruct data; [|cbn in Hf; lia]. exists base, []. rewrite app_nil_r. repeat split; [done|constructor]. }
  destruct data as [|x data]; [exists base, []; rewrite app_nil_r; repeat split; [done|constructor]|].
  destruct (make_packet_spec frame hdr len a (x :: data) (st, base) Hd Hpi Hroom Hoff Ha ltac:(done) Hlen Hl)
    as (d & n & Hmake & Hn & Hdd & Hsame & Hst & Hsz & Hmode & Hh).
  cbn [packets_loop]. unfold mbind, M_bind. rewrite Hmake. unfold queue_. cbn [fst snd].
  match goal with |- context [queue_packet ?p base] =>
    destruct (selective_queue p base Hbase) as (base1 & -> & Hbase1 & Hacc) end.
  { apply Hgood.
    - intros E. apply (f_equal length) in E. rewrite length_app, length_take in E. cbn in E. lia.
    - apply Forall_app_2; [by apply desc_bytes_bytes|by apply Forall_take].
    - rewrite length_app, length_take. lia. }
  unfold of_res, uint_add. change (2 ^ 31) with 2147483648 in Hl.
  rewrite wrap_small by (change U32 with 4294967296; lia).
  rewrite (proj2 (Z.ltb_lt _ _)) by (change U32 with 4294967296; lia).
  assert (Hdrop : Z.of_nat (length (drop (Z.to_nat n) (x :: data))) = Z.of_nat (length (x :: data)) - n)
    by (rewrite length_drop; lia).
  destruct (IH (a + n) (drop (Z.to_nat n) (x :: data)) base1) as (base' & ps & Hloop & Hbase' & Hacc' & Hcut);
    [done|by apply Forall_drop|lia..|].
  rewrite (proj2 (Z.eqb_neq _ _)) in Hloop by lia. rewrite Hloop.
  eexists base', (_ :: ps). split; [done|]. split; [done|]. split; [by rewrite Hacc', Hacc, <- app_assoc|]. by econstructor.
Qed.
End Cut.

(** ** The depayloader *)

(** Packets handed to the depayloader in order, with any timestamps. *)
Fixpoint feed8 `{ByteIO} `{RtpBaseDepay2} (settings : Vp8DepaySettings) (ts : Z -> Z) (seqnum : Z) (ps : list PayPacket)
  : M (Vp8DepayState * BaseDepay) unit :=
  match ps with
  | [] => mret tt
  | p :: ps =>
      _ ← vp8_depay_handle_packet settings (mkDepayPacket (pp_payload p) (ts seqnum) seqnum (pp_marker_bit p));
      feed8 settings ts (seqnum + 1) ps
  end.

(** Between two frames. *)
Definition between_frames (st : Vp8DepayState) : Prop :=
  v8_pending_frame st = [] /\ v8_current_frame_payload_descriptor st = None.

(** The frame may be passed on: nobody waits for a key frame, or it is one, or
    one was seen. *)
Definition may_start (settings : Vp8DepaySettings) (h : UncompressedFrameHeader) (st : Vp8DepayState) : Prop :=
  v8e_wait_for_keyframe settings = false \/ uf_is_keyframe h = true \/
  is_none (v8_last_keyframe_frame_header st) = false.

Section DepayLemmas.
Context `{ByteIOLaws} `{RtpBaseDepay2} `{!CollectingDepay}.

Lemma parse_descriptor d chunk :
  is_vp8_desc d -> run_bytes Vp8PayloadDescriptor_from_reader (desc_bytes d ++ chunk) = Done (d, chunk).
Proof. intros Hd. by apply run_bytes_consumes, consumes_desc. Qed.

Lemma finish_frame_spec packet st b :
  exists st' b', finish_frame packet (st, b) = (Done tt, (st', b')) /\ between_frames st' /\
    v8_last_keyframe_frame_header st' = v8_last_keyframe_frame_header st /\ v8_needs_discont st' = false /\
    outputs b' = outputs b ++
      [mkDepayBuffer (v8_pending_frame st) true (v8_needs_discont st) (negb (v8_pending_frame_is_keyframe st))].
Proof.
  unfold finish_frame, mbind, M_bind, get_, on_vp8, on_base, upd_, mret, M_ret, queue_frame. cbn [fst snd].
  destruct (has_current_caps b); cbn [negb];
    match goal with |- context [queue_buffer ?n ?buf ?b] => destruct (queue_outputs n buf b) as (b' & -> & Hout) end.
  - eexists _, b'. split; [done|]. split; [done|]. split; [done|]. split; [done|]. exact Hout.
  - eexists _, b'. split; [done|]. split; [done|]. split; [done|]. split; [done|]. cbn in Hout. by rewrite Hout, caps_outputs.
Qed.

(** A packet inside a frame. *)
Lemma inside_packet settings ts seqnum marker d chunk st b :
  is_vp8_desc d -> starts_frame d = false -> is_none (v8_current_frame_payload_descriptor st) = false ->
  let packet := mkDepayPacket (desc_bytes d ++ chunk) ts seqnum marker in
  let st1 := st <| v8_pending_frame ::= fun l => l ++ chunk |> in
  vp8_depay_handle_packet settings packet (st, b) =
    if marker then finish_frame packet (st1, b) else (Done tt, (st1, b)).
Proof.
  intros Hd Hs Hcur. cbv zeta. unfold vp8_depay_handle_packet. cbn [dp_payload]. rewrite parse_descriptor by done.
  fold (starts_frame d). rewrite Hs. unfold mbind, M_bind, get_. cbn [fst]. rewrite Hcur. by destruct marker.
Qed.

Lemma rest_of_frame settings ts frame hdr a data ps :
  cut frame hdr a data ps -> forall seqnum st b, 0 < a -> data <> [] ->
  is_none (v8_current_frame_payload_descriptor st) = false ->
  exists st' b', feed8 settings ts seqnum ps (st, b) = (Done tt, (st', b')) /\ between_frames st' /\
    v8_last_keyframe_frame_header st' = v8_last_keyframe_frame_header st /\ v8_needs_discont st' = false /\
    outputs b' = outputs b ++
      [mkDepayBuffer (v8_pending_frame st ++ data) true (v8_needs_discont st) (negb (v8_pending_frame_is_keyframe st))].
Proof.
  induction 1 as [a|a data n d ps Hn Hd Hsame Hst Hsz Hmode Hh Hcut IH]; intros seqnum st b Ha Hne Hcur; [done|].
  cbn [feed8 pp_payload pp_marker_bit]. unfold mbind, M_bind.
  rewrite (proj2 (Z.eqb_neq a 0)) in Hst by lia.
  rewrite (inside_packet settings (ts seqnum) seqnum _ d _ st b Hd Hst Hcur).
  destruct (Z.eqb_spec (Z.of_nat (length data)) n) as [Hlast|Hmore].
  - rewrite take_ge by lia. rewrite drop_ge in Hcut by lia. inversion Hcut; subst; [|cbn in *; lia].
    match goal with |- context [finish_frame ?p ?s] => destruct (finish_frame_spec p (fst s) (snd s))
      as (st' & b' & E & Hbt & Hkf & Hnd & Hout); cbn [fst snd] in E; rewrite E end.
    exists st', b'. split; [done|]. split; [done|]. split; [exact Hkf|]. split; [done|]. exact Hout.
  - destruct (IH (seqnum + 1) (st <| v8_pending_frame ::= fun l => l ++ take (Z.to_nat n) data |>) b)
      as (st' & b' & E & Hbt & Hkf & Hnd & Hout); [lia| |done|].
    { intros E. apply (f_equal length) in E. rewrite length_drop in E. cbn in E. lia. }
    rewrite E. exists st', b'. split; [done|]. split; [done|]. split; [exact Hkf|]. split; [done|].
    rewrite Hout. cbn. by rewrite <- app_assoc, take_drop.
Qed.

(** The start of a frame is kept, with what the header says. *)
Lemma start_frame_spec settings packet d h chunk rest st b :
  uncompressed_of chunk = Some (h, rest) -> (uf_is_keyframe h = true -> is_some (uf_resolution h) = true) ->
  between_frames st -> may_start settings h st ->
  exists st1 b1, start_frame settings packet d chunk (st, b) = (Done true, (st1, b1)) /\ outputs b1 = outputs b /\
    v8_pending_frame st1 = [] /\ v8_current_frame_payload_descriptor st1 = Some d /\
    v8_pending_frame_is_keyframe st1 = uf_is_keyframe h /\ v8_needs_discont st1 = v8_needs_discont st /\
    v8_last_keyframe_frame_header st1 =
      (if uf_is_keyframe h then Some h else v8_last_keyframe_frame_header st).
Proof.
  intros Hun Hres [Hpend _] Hmay. unfold start_frame. rewrite (run_bytes_reads _ _ chunk reads_uncompressed), Hun.
  unfold mbind, M_bind, get_, on_base, on_vp8, upd_, mret, M_ret, of_res, assert_. cbn [fst snd].
  rewrite Hpend, bool_decide_eq_true_2 by done.
  destruct (uf_is_keyframe h) eqn:Ekey; cbn [negb andb].
  - unfold update_caps, mbind, M_bind, get_, on_base, upd_, mret, M_ret, of_res. cbn [fst snd].
    destruct (uf_resolution h) as [wh|]; [|by specialize (Hres eq_refl)]. cbn [unwrap].
    match goal with |- context [if ?c then _ else _] => destruct c end;
      eexists _, _; (split; [reflexivity|]); cbn; by rewrite ?caps_outputs.
  - destruct (is_none (v8_last_keyframe_frame_header st)) eqn:Elast.
    + destruct Hmay as [Hw|[?|?]]; [|congruence..]. rewrite Hw.
      destruct (v8e_request_keyframe settings); eexists _, _; (split; [reflexivity|]); cbn; by rewrite ?force_outputs, ?Ekey.
    + eexists _, _. split; [reflexivity|]. cbn. by rewrite ?Ekey.
Qed.

(** The header of a frame is in every long enough start of it. *)
Lemma uncompressed_prefix data h rest m :
  uncompressed_of data = Some (h, rest) -> (length data - length rest <= m)%nat ->
  exists rest', uncompressed_of (take m data) = Some (h, rest').
Proof.
  unfold uncompressed_of. destruct data as [|b [|s1 [|s2 l]]]; [done..|]. destruct (Z.land b 1 =? 0) eqn:Ekey.
  - destruct l as [|c1 [|c2 [|c3 [|w0 [|w1 [|h0 [|h1 l]]]]]]]; [done..|].
    destruct (bool_decide _) eqn:Eb; [|done]. intros [= <- <-] Hm. cbn [length] in Hm.
    do 10 (destruct m as [|m]; [lia|]). cbn [take]. rewrite Ekey, Eb. by eexists.
  - intros [= <- <-] Hm. cbn [length] in Hm. do 3 (destruct m as [|m]; [lia|]). cbn [take]. rewrite Ekey. by eexists.
Qed.

(** All packets of a frame, the first one with the frame header. *)
Lemma whole_frame settings ts frame hdr data ps seqnum st b h rest :
  cut frame hdr 0 data ps -> is_bytes data ->
  uncompressed_of data = Some (h, rest) -> hdr = Z.of_nat (length data) - Z.of_nat (length rest) ->
  hdr <= fr_max_payload_size frame - Z.of_nat (length (desc_bytes (fr_descriptor frame))) ->
  between_frames st -> may_start settings h st ->
  exists st' b', feed8 settings ts seqnum ps (st, b) = (Done tt, (st', b')) /\ between_frames st' /\
    v8_last_keyframe_frame_header st' = (if uf_is_keyframe h then Some h else v8_last_keyframe_frame_header st) /\
    v8_needs_discont st' = false /\
    outputs b' = outputs b ++ [mkDepayBuffer data true (v8_needs_discont st) (negb (uf_is_keyframe h))].
Proof.
  intros Hcut Hdata Hun Hhdr Hroom Hbt Hmay.
  destruct (uncompressed_of_spec data h rest Hdata Hun) as (_ & _ & hb & Hd & Hhb & Hres).
  assert (Hlen : Z.of_nat (length data) = Z.of_nat (length hb) + Z.of_nat (length rest)) by (rewrite Hd, length_app; lia).
  inversion Hcut as [? Ea Ed Ep|? ? n d ps' Hn Hdd Hsame Hst Hsz Hmode Hh Hcut' Ea Ed Ep].
  { rewrite <- Ed in Hlen. cbn in Hlen. lia. }
  rewrite (same_frame_length _ _ Hsame) in Hh, Hsz. specialize (Hh eq_refl).
  destruct (uncompressed_prefix data h rest (Z.to_nat n) Hun) as (rest' & Hun'); [lia|].
  cbn [feed8 pp_payload pp_marker_bit]. unfold mbind, M_bind. unfold vp8_depay_handle_packet at 1. cbn [dp_payload].
  rewrite parse_descriptor by done. fold (starts_frame d). rewrite Hst. change (0 =? 0) with true. cbn [negb].
  unfold mbind at 1, M_bind at 1, get_ at 1. rewrite andb_false_r.
  match goal with |- context [start_frame settings ?p d _] =>
    destruct (start_frame_spec settings p d h _ rest' st b Hun' ltac:(by apply Hres) Hbt Hmay)
      as (st1 & b1 & Hs & Hout1 & Hpend & Hcur & Hkey & Hnd & Hlast) end.
  unfold mbind, M_bind. rewrite Hs. cbn [negb]. unfold on_vp8, upd_. cbn [fst snd dp_marker_bit].
  destruct (Z.eqb_spec (Z.of_nat (length data)) n) as [Elast|Hmore]; cbn [negb].
  - rewrite take_ge by lia. rewrite drop_ge in Hcut' by lia. inversion Hcut'; subst; [|cbn in *; lia].
    match goal with |- context [finish_frame ?p ?s] => destruct (finish_frame_spec p (fst s) (snd s))
      as (st' & b' & E & Hbt' & Hkf & Hnd' & Hout); cbn [fst snd] in E; rewrite E end.
    exists st', b'. split; [done|]. split; [done|]. split; [by rewrite Hkf|]. split; [done|].
    rewrite Hout. cbn. by rewrite Hout1, Hpend, Hnd, Hkey.
  - destruct (rest_of_frame settings ts frame _ _ _ _ Hcut' (seqnum + 1)
      (st1 <| v8_pending_frame ::= fun l => l ++ take (Z.to_nat n) data |>) b1)
      as (st' & b' & E & Hbt' & Hkf & Hnd' & Hout); [lia| |cbn; by rewrite Hcur|].
    { intros E. apply (f_equal length) in E. rewrite length_drop in E. cbn in E. lia. }
    unfold mret, M_ret. rewrite E. exists st', b'. split; [done|]. split; [done|].
    split; [rewrite Hkf; exact Hlast|]. split; [done|].
    rewrite Hout. cbn. rewrite Hout1, Hpend, Hnd, Hkey. cbn [app]. by rewrite take_drop.
Qed.
End DepayLemmas.

(** ** Payloading a frame *)

Definition hdr_len (data : list Z) : Z :=
  match uncompressed_of data with
  | Some (_, rest) => Z.of_nat (length data) - Z.of_nat (length rest)
  | None => 0
  end.

Definition valid_pay (st : Vp8PayState) : Prop :=
  (forall p, v8p_picture_id st = Some p -> is_vp8_pid p) /\
  (forall i, v8p_temporal_layer_zero_index st = Some i -> is_u8 i).

Definition valid_meta (meta : option (option (Z * bool))) : Prop :=
  match meta with Some (Some (layer, _)) => 0 <= layer <= 3 | _ => True end.

(** The index of base layer frames, once a buffer came with temporal layers. *)
Definition zero_index_with (meta : option (option (Z * bool))) (st : Vp8PayState) : option Z :=
  match meta, v8p_temporal_layer_zero_index st with Some (Some _), None => Some 0 | _, i => i end.

Definition frame_descriptor (buffer : Vp8Buffer) (st : Vp8PayState) : Vp8PayloadDescriptor :=
  let meta := VP8Meta_from_buffer (v8b_meta buffer) in
  let zero_index := zero_index_with meta st in
  mkVp8PayloadDescriptor (v8b_droppable buffer) false 0 (v8p_picture_id st) zero_index
    (match zero_index with
     | Some _ => let '(l, sync) := match meta with Some (Some l) => l | _ => (0, false) end in
                 Some (mkVp8LayerId (wrap U8 l) sync)
     | None => None
     end) None.

Section PayFrame.
Context `{ByteIOLaws}.

Lemma frame_descriptor_ok buffer st :
  valid_pay st -> valid_meta (VP8Meta_from_buffer (v8b_meta buffer)) ->
  is_vp8_desc (frame_descriptor buffer st) /\ (length (desc_bytes (frame_descriptor buffer st)) <= 6)%nat.
Proof.
  intros [Hp Hz] Hm. unfold frame_descriptor. set (meta := VP8Meta_from_buffer _) in *.
  assert (Hzi : forall i, zero_index_with meta st = Some i -> is_u8 i).
  { intros i. unfold zero_index_with. destruct meta as [[l|]|], (v8p_temporal_layer_zero_index st) as [z|]; intros [= <-];
      solve [by apply Hz|done]. }
  split.
  - unfold is_vp8_desc. cbn. split; [lia|]. split; [done|]. split; [done|]. split; [|done].
    intros l. destruct (zero_index_with meta st); [|done].
    destruct meta as [[[layer sync]|]|]; intros [= <-]; cbn in *; [|done..].
    rewrite wrap_small by (change U8 with 256; lia). done.
  - unfold desc_bytes. cbn. destruct (v8p_picture_id st) as [[?|?]|], (zero_index_with meta st) as [z|];
      destruct meta as [[[layer sync]|]|]; cbn; lia.
Qed.

Lemma pay_frame_spec `{RtpBasePay2} limit good `{!SelectiveBase limit good} settings buffer id st base data :
  (forall marker payload, payload <> [] -> is_bytes payload -> Z.of_nat (length payload) <= limit ->
    good (mkPayPacket id id marker payload)) ->
  serves base -> 7 <= limit -> v8b_data buffer = Some data -> is_bytes data -> Z.of_nat (length data) < 2 ^ 31 ->
  valid_pay st -> valid_meta (VP8Meta_from_buffer (v8b_meta buffer)) ->
  let zero_index := zero_index_with (VP8Meta_from_buffer (v8b_meta buffer)) st in
  let offsets := if is_none zero_index
                 then match FrameInfo_parse data with Done info => Some (fi_partition_offsets info) | _ => None end
                 else None in
  let frame := mkFrame id limit (v8s_fragmentation_mode settings) (frame_descriptor buffer st) offsets in
  exists st' base' ps,
    vp8_pay_handle_buffer settings buffer id (st, base) = (Done tt, (st', base')) /\
    serves base' /\ taken base' = taken base ++ ps /\ cut frame (hdr_len data) 0 data ps /\ valid_pay st' /\
    match v8p_picture_id st with
    | Some p => exists p', Vp8PictureId_increment p = Ok p' /\ v8p_picture_id st' = Some p'
    | None => v8p_picture_id st' = None
    end.
Proof.
  intros Hgood Hbase Hlimit Hdata Hbytes Hlen Hst Hmeta. cbv zeta.
  destruct (frame_descriptor_ok buffer st Hst Hmeta) as [Hdesc Hsize].
  pose proof (FrameInfo_parse_spec data Hbytes Hlen) as Hinfo.
  unfold vp8_pay_handle_buffer. rewrite Hdata.
  set (meta := VP8Meta_from_buffer (v8b_meta buffer)) in *. set (zero := zero_index_with meta st).
  set (offsets := if is_none zero then _ else None). set (frame := mkFrame id limit _ _ offsets).
  assert (Hzero : exists st1, (if (match meta with Some (Some _) => true | _ => false end
      && is_none (v8p_temporal_layer_zero_index st))%bool
      then upd_ (fun s => ((fst s) <| v8p_temporal_layer_zero_index := Some 0 |>, snd s)) else mret tt) (st, base) =
      (Done tt, (st1, base)) /\ v8p_temporal_layer_zero_index st1 = zero /\ v8p_picture_id st1 = v8p_picture_id st).
  { unfold zero, zero_index_with, mret, M_ret, upd_.
    destruct meta as [[l|]|], (v8p_temporal_layer_zero_index st) as [z|] eqn:Ez; cbn [andb is_none];
      eexists; (split; [reflexivity|]); by cbn. }
  destruct Hzero as (st1 & Hzero & Hz1 & Hp1).
  destruct (packets_loop_spec limit good frame (hdr_len data) (Z.of_nat (length data)) (length data) 0 data st1 base)
    as (base' & ps & Hloop & Hbase' & Hacc & Hcut); [exact Hgood|done|done|done|done|cbn [fr_descriptor fr_max_payload_size frame]; lia| |lia..|].
  { cbn [fr_partition_offsets frame]. unfold offsets, hdr_len. intros offs. destruct (is_none zero); [|done].
    destruct (FrameInfo_parse data) as [info| |]; [|done..]. intros [= <-]. by destruct Hinfo as (h & rest & -> & Hg). }
  change (0 =? 0) with true in Hloop.
  unfold mbind, M_bind, of_option, get_. cbn [fst snd]. fold meta. rewrite Hzero. cbn [fst snd]. rewrite Hz1, selective_size by done.
  assert (Hparse : (if is_none zero then match FrameInfo_parse data with
      | Done info => mret (Some (fi_partition_offsets info)) | Fail => mret None | Crash => crash_ end
      else mret None) (st1, base) = (Done offsets, (st1, base))).
  { unfold offsets. destruct (is_none zero); [|done]. by destruct (FrameInfo_parse data). }
  rewrite Hparse. unfold frame, frame_descriptor in Hloop. fold meta zero in Hloop. rewrite Hloop.
  assert (Hbump : exists st2, (if match meta with None => true | Some (Some (0, _)) => true | _ => false end
      then upd_ (fun s => ((fst s) <| v8p_temporal_layer_zero_index ::= option_map (fun i => wrap U8 (i + 1)) |>, snd s))
      else mret tt) (st1, base') = (Done tt, (st2, base')) /\
      (forall i, v8p_temporal_layer_zero_index st2 = Some i -> is_u8 i)).
  { assert (Hz : forall i, v8p_temporal_layer_zero_index st1 = Some i -> is_u8 i) by (rewrite Hz1; apply Hdesc).
    match goal with |- context [if ?c then _ else _] => destruct c end; eexists; (split; [reflexivity|]); [|exact Hz].
    cbn. destruct (v8p_temporal_layer_zero_index st1); intros i [= <-]. unfold is_u8, wrap.
    apply Z.mod_pos_bound. done. }
  destruct Hbump as (st2 & -> & Hz2). destruct Hst as [Hp Hz].
  destruct (v8p_picture_id st) as [p|] eqn:Ep; unfold of_res, mret, M_ret, upd_; cbn [fst snd].
  - destruct (increment_ok p (Hp p eq_refl)) as (p' & -> & Hp'). eexists _, base', ps. split; [reflexivity|].
    split; [done|]. split; [done|]. split; [done|]. split; [|by exists p']. split; [|exact Hz2]. cbn. by intros ? [= <-].
  - eexists _, base', ps. split; [reflexivity|]. split; [done|]. split; [done|]. split; [done|]. split; [|done].
    split; [done|exact Hz2].
Qed.
End PayFrame.

(** ** Theorems *)

(** VP8 payload descriptors survive the wire. A descriptor whose fields fit
    is written, in as many bytes as [size] says, and read back with nothing of
    what follows consumed; one with a field that does not fit is refused. *)
Lemma vp8_descriptor_roundtrip `{ByteIOLaws} (d : Vp8PayloadDescriptor) (rest : list Z) :
  (is_vp8_desc d ->
   exists bytes, Vp8PayloadDescriptor_bytes d = Done bytes /\
     Vp8PayloadDescriptor_size d = Done (Z.of_nat (length bytes)) /\
     run_bytes Vp8PayloadDescriptor_from_reader (bytes ++ rest) = Done (d, rest)) /\
  ((7 < v8d_partition_index d \/ (exists l, v8d_temporal_layer_id d = Some l /\ 3 < v8l_id l) \/
    (exists k, v8d_key_index d = Some k /\ 31 < k)) -> Vp8PayloadDescriptor_bytes d = Fail).
Proof.
  split.
  - intros Hd. exists (desc_bytes d). unfold Vp8PayloadDescriptor_size. rewrite desc_bytes_ok by done.
    split; [done|]. split; [done|]. by apply parse_descriptor.
  - intros Hbad. unfold Vp8PayloadDescriptor_bytes. by destruct (desc_refused d byte_writer Hbad) as (w & ->).
Qed.

(** C35: the boolean decoder inverts the boolean encoder. Whatever booleans were
    encoded, each with its probability, and whichever number of the final
    interval was written, the decoder reads exactly these booleans, as long as
    its 8-bit shift counter cannot run over. *)
Theorem bool_decoder_roundtrip (bytes : list Z) (bools : list (Z * bool)) :
  is_bytes bytes -> Forall (fun pb => 0 <= fst pb <= 255) bools -> encodes bytes bools ->
  Z.of_nat (sum_list (map shifts (map fst bools))) <= 247 ->
  exists d d', BoolDecoder_new bytes = Done d /\ next_bools (map fst bools) d = (Done (map snd bools), d').
Proof.
  intros Hbytes Hps Henc Hsum.
  pose proof (contains_bools bools co_start _ _ ltac:(cbn; lia) Hps Henc) as [Hs Hc]. cbn in Hs, Hc.
  destruct bytes as [|b bs]; [cbn in Hs; lia|].
  assert (Hb : b < 255).
  { rewrite num_of_cons in Hc. pose proof (num_of_bound bs (Forall_inv_tail Hbytes)) as Hn.
    replace (8 * (Z.of_nat (length (b :: bs)) - 1) - 0) with (8 * Z.of_nat (length bs)) in Hc by (cbn [length]; lia).
    nia. }
  destruct (BoolDecoder_new_agrees b bs Hbytes Hb) as (d & Hd & Hag & Hr & Hbc).
  destruct (next_bools_agree (map fst bools) d _ ltac:(by apply Forall_map) Hag ltac:(lia) ltac:(lia) ltac:(lia))
    as (d' & Hd').
  exists d, d'. split; [done|]. by rewrite Hd', encodes_decode.
Qed.

(** Parsing a frame never panics, whatever its bytes; where it succeeds, the
    partition offsets start at 0, increase up to the end of the frame, are at
    most ten, and the first partition contains the uncompressed header. *)
Lemma vp8_partitions_cover `{ByteIOLaws} (data : list Z) :
  is_bytes data -> Z.of_nat (length data) < 2 ^ 31 ->
  FrameInfo_parse data <> Crash /\
  forall info, FrameInfo_parse data = Done info ->
    good_offsets (fi_partition_offsets info) (hdr_len data) (Z.of_nat (length data)) /\
    forall offset, 0 <= offset < Z.of_nat (length data) ->
      exists i s e, find_partition_for_offset (fi_partition_offsets info) offset = Ok (i, s, e) /\
        s <= offset < e /\ i <= 8.
Proof.
  intros Hbytes Hlen. pose proof (FrameInfo_parse_spec data Hbytes Hlen) as Hspec.
  destruct (FrameInfo_parse data) as [info| |]; [|done..]. split; [done|]. intros ? [= <-].
  destruct Hspec as (h & rest & Hun & Hg). unfold hdr_len. rewrite Hun. split; [done|].
  destruct Hg as (o & rest' & -> & Ho & _ & Hc & Hr). intros offset Hoff.
  destruct (find_partition_total 0 (o :: rest') (Z.of_nat (length data)) 0 offset) as (i & s & e & E & Hi & Hj & _); [|done|].
  { cbn. split; [lia|done]. }
  exists i, s, e. unfold find_partition_for_offset. rewrite bool_decide_eq_false_2 by done. cbn [negb assert_].
  rewrite bind_Ok. split; [exact E|]. cbn [length] in Hj. lia.
Qed.

(** The packets of a VP8 frame. For every frame, setting and state, with
    room for the descriptor and one byte, the payloader cuts the frame into
    packets as [cut] says: the pieces are the frame, each packet fits, the last
    one alone is marked, the first one alone starts the frame, and the
    fragmentation mode is respected; then the picture id has moved on. *)
Lemma vp8_frame_cut `{ByteIOLaws} `{RtpBasePay2} (limit : Z) `{!AcceptingBase limit}
    settings buffer id st base data :
  7 <= limit -> v8b_data buffer = Some data -> is_bytes data -> Z.of_nat (length data) < 2 ^ 31 ->
  valid_pay st -> valid_meta (VP8Meta_from_buffer (v8b_meta buffer)) ->
  exists st' base' ps offsets,
    vp8_pay_handle_buffer settings buffer id (st, base) = (Done tt, (st', base')) /\
    accepted base' = accepted base ++ ps /\ valid_pay st' /\
    cut (mkFrame id limit (v8s_fragmentation_mode settings) (frame_descriptor buffer st) offsets) (hdr_len data)
      0 data ps /\
    (forall info, zero_index_with (VP8Meta_from_buffer (v8b_meta buffer)) st = None ->
       FrameInfo_parse data = Done info -> offsets = Some (fi_partition_offsets info)) /\
    match v8p_picture_id st with
    | Some p => exists p', Vp8PictureId_increment p = Ok p' /\ v8p_picture_id st' = Some p'
    | None => v8p_picture_id st' = None
    end.
Proof.
  intros Hlimit Hdata Hbytes Hlen Hst Hmeta.
  destruct (pay_frame_spec limit (fun _ => True) (SelectiveBase0 := accepting_selective limit) settings buffer id st base data ltac:(done) I Hlimit Hdata Hbytes Hlen Hst Hmeta)
    as (st' & base' & ps & Hpay & _ & Hacc & Hcut & Hst' & Hpid).
  eexists st', base', ps, _. split; [done|]. split; [done|]. split; [done|]. split; [exact Hcut|]. split; [|done].
  intros info Hz Hinfo. by rewrite Hz, Hinfo.
Qed.

(** VP8 frames survive the wire. The packets the payloader makes of a frame
    with a valid header, in any fragmentation mode and with room for the
    descriptor and the header, give a depayloader between two frames exactly
    that frame, in one buffer flagged as key frame or delta unit, and leave it
    between two frames again. *)
Lemma vp8_roundtrip `{ByteIOLaws} `{RtpBasePay2} `{RtpBaseDepay2} `{!CollectingDepay}
    (limit : Z) `{!AcceptingBase limit} settings buffer id pst base data dsettings ts seqnum st b h rest :
  16 <= limit -> v8b_data buffer = Some data -> is_bytes data -> Z.of_nat (length data) < 2 ^ 31 ->
  valid_pay pst -> valid_meta (VP8Meta_from_buffer (v8b_meta buffer)) ->
  uncompressed_of data = Some (h, rest) -> between_frames st -> may_start dsettings h st ->
  exists pst' base' ps st' b',
    vp8_pay_handle_buffer settings buffer id (pst, base) = (Done tt, (pst', base')) /\
    accepted base' = accepted base ++ ps /\
    feed8 dsettings ts seqnum ps (st, b) = (Done tt, (st', b')) /\ between_frames st' /\
    outputs b' = outputs b ++ [mkDepayBuffer data true (v8_needs_discont st) (negb (uf_is_keyframe h))].
Proof.
  intros Hlimit Hdata Hbytes Hlen Hpst Hmeta Hun Hbt Hmay.
  destruct (pay_frame_spec limit (fun _ => True) (SelectiveBase0 := accepting_selective limit) settings buffer id pst base data ltac:(done) I ltac:(lia) Hdata Hbytes Hlen Hpst Hmeta)
    as (pst' & base' & ps & Hpay & _ & Hacc & Hcut & _ & _).
  destruct (frame_descriptor_ok buffer pst Hpst Hmeta) as [_ Hsz].
  destruct (uncompressed_of_spec data h rest Hbytes Hun) as (_ & _ & hb & Hd & Hhb & _).
  assert (Hhl : hdr_len data = Z.of_nat (length hb)) by (unfold hdr_len; rewrite Hun, Hd, length_app; lia).
  edestruct (whole_frame dsettings ts) as (st' & b' & Hfeed & Hbt' & _ & _ & Hout);
    [exact Hcut|done|exact Hun|unfold hdr_len; by rewrite Hun|cbn [fr_max_payload_size fr_descriptor]; lia|exact Hbt|exact Hmay|].
  exists pst', base', ps, st', b'. done.
Qed.

(** C39: a second start of a frame crashes the VP8 depayloader. While data of a
    frame is pending, a packet that starts a frame with a readable header, and
    need not wait for a key frame, runs into the assertion that nothing is
    pending. Such a packet needs no packet loss: a sender that starts a frame
    anew without having marked the end of the last one is enough. *)
Theorem vp8_restart_crashes `{ByteIOLaws} `{RtpBaseDepay2} settings ts seqnum marker d chunk h rest st b :
  v8_pending_frame st <> [] -> is_vp8_desc d -> starts_frame d = true ->
  uncompressed_of chunk = Some (h, rest) -> may_start settings h st ->
  exists s', vp8_depay_handle_packet settings (mkDepayPacket (desc_bytes d ++ chunk) ts seqnum marker) (st, b) = (Crash, s').
Proof.
  intros Hpend Hd Hs Hun Hmay. unfold vp8_depay_handle_packet. cbn [dp_payload]. rewrite parse_descriptor by done.
  fold (starts_frame d). rewrite Hs. cbn [negb]. unfold mbind, M_bind, get_. rewrite andb_false_r.
  unfold start_frame. rewrite (run_bytes_reads _ _ chunk reads_uncompressed), Hun.
  unfold mbind, M_bind, get_, on_base, upd_, mret, M_ret, of_res, assert_. cbn [fst snd].
  rewrite bool_decide_eq_false_2 by done.
  destruct (negb (uf_is_keyframe h) && is_none (v8_last_keyframe_frame_header st)) eqn:E; [|by eexists].
  apply andb_true_iff in E as [Ek%negb_true_iff El]. destruct Hmay as [Hw|[?|?]]; [|congruence..]. rewrite Hw.
  destruct (v8e_request_keyframe settings); by eexists.
Qed.

(** ** Examples *)

Definition example_descriptor : Vp8PayloadDescriptor :=
  mkVp8PayloadDescriptor true true 5 (Some (Vp8FifteenBit 4711)) (Some 200) (Some (mkVp8LayerId 2 true)) (Some 17).

Lemma vp8_descriptor_roundtrip_witness :
  exists bytes, @Vp8PayloadDescriptor_bytes bytes_exact example_descriptor = Done bytes /\
    @run_bytes bytes_exact _ (@Vp8PayloadDescriptor_from_reader bytes_exact) (bytes ++ [1; 2]) =
      Done (example_descriptor, [1; 2]).
Proof.
  destruct (@vp8_descriptor_roundtrip bytes_exact bytes_exact_laws example_descriptor [1; 2]) as [Hok _].
  destruct Hok as (bytes & Hb & _ & Hr).
  { unfold is_vp8_desc. cbn. split; [lia|]. split; [by intros ? [= <-]|]. split; [by intros ? [= <-]|].
    split; [by intros ? [= <-]|by intros ? [= <-]]. }
  exists bytes. split; [exact Hb|exact Hr].
Defined.

(** Three bytes that encode five booleans. *)
Definition example_bools : list (Z * bool) := [(128, true); (128, false); (200, true); (3, false); (128, true)].

Lemma bool_decoder_roundtrip_witness :
  exists d d', BoolDecoder_new [177; 152; 0] = Done d /\
    next_bools [128; 128; 200; 3; 128] d = (Done [true; false; true; false; true], d').
Proof.
  apply (bool_decoder_roundtrip [177; 152; 0] example_bools).
  - repeat (apply Forall_cons; split; [by split|]). apply Forall_nil; exact I.
  - repeat (apply Forall_cons; split; [cbn; lia|]). apply Forall_nil; exact I.
  - unfold encodes, contains. vm_compute. split; [discriminate|]. split; [discriminate|reflexivity].
  - vm_compute. discriminate.
Defined.

(** A key frame of 16 by 32 pixels with two partitions. *)
Definition example_frame : list Z := [80; 0; 0; 157; 1; 42; 16; 0; 32; 0; 0; 0] ++ map Z.of_nat (seq 1 20).
Definition example_pay : Vp8PayState := mkVp8PayState None (Some (Vp8FifteenBit 32767)).
Definition example_settings : Vp8PaySettings := mkVp8PaySettings Vp8PidFifteenBit None FragEveryPartition.

Lemma example_frame_bytes : is_bytes example_frame.
Proof. apply (bool_decide_unpack _). vm_compute. exact I. Qed.

Lemma example_pay_valid : valid_pay example_pay.
Proof. split; [by intros ? [= <-]|done]. Qed.

Lemma vp8_partitions_cover_witness :
  exists info, @FrameInfo_parse bytes_exact example_frame = Done info /\
    good_offsets (fi_partition_offsets info) 10 32.
Proof.
  destruct (@vp8_partitions_cover bytes_exact bytes_exact_laws example_frame) as [_ Hinfo].
  - exact example_frame_bytes.
  - reflexivity.
  - destruct (@FrameInfo_parse bytes_exact example_frame) as [info| |] eqn:E.
    + exists info. split; [reflexivity|]. exact (proj1 (Hinfo info eq_refl)).
    + exfalso. vm_compute in E. discriminate E.
    + exfalso. vm_compute in E. discriminate E.
Defined.

Lemma vp8_frame_cut_witness :
  exists st' ps offsets,
    @vp8_pay_handle_buffer bytes_exact (keep_packets 20) example_settings (mkVp8Buffer (Some example_frame) false None) 7
      (example_pay, []) = (Done tt, (st', ps)) /\
    cut (mkFrame 7 20 FragEveryPartition (frame_descriptor (mkVp8Buffer (Some example_frame) false None) example_pay) offsets)
      10 0 example_frame ps.
Proof.
  destruct (@vp8_frame_cut bytes_exact bytes_exact_laws (keep_packets 20) 20 (keep_packets_accepting 20) example_settings
    (mkVp8Buffer (Some example_frame) false None) 7 example_pay [] example_frame)
    as (st' & base' & ps & offsets & Hpay & Hacc & _ & Hcut & _).
  - lia.
  - reflexivity.
  - exact example_frame_bytes.
  - reflexivity.
  - exact example_pay_valid.
  - exact I.
  - change (base' = ps) in Hacc. subst ps. exists st', base', offsets. split; [exact Hpay|exact Hcut].
Defined.

Lemma vp8_roundtrip_witness :
  exists pst' ps st' bufs,
    @vp8_pay_handle_buffer bytes_exact (keep_packets 20) example_settings (mkVp8Buffer (Some example_frame) false None) 7
      (example_pay, []) = (Done tt, (pst', ps)) /\
    @feed8 bytes_exact keep_buffers (mkVp8DepaySettings true true) (fun _ => 3) 4 ps (Vp8DepayState_default, []) =
      (Done tt, (st', bufs)) /\
    bufs = [mkDepayBuffer example_frame true true false].
Proof.
  destruct (uncompressed_of example_frame) as [[h rest]|] eqn:Eun; [|discriminate].
  destruct (@vp8_roundtrip bytes_exact bytes_exact_laws (keep_packets 20) keep_buffers keep_buffers_collecting 20
    (keep_packets_accepting 20) example_settings (mkVp8Buffer (Some example_frame) false None) 7 example_pay []
    example_frame (mkVp8DepaySettings true true) (fun _ => 3) 4 Vp8DepayState_default [] h rest)
    as (pst' & base' & ps & st' & b' & Hpay & Hacc & Hfeed & _ & Hout).
  - lia.
  - reflexivity.
  - exact example_frame_bytes.
  - reflexivity.
  - exact example_pay_valid.
  - exact I.
  - exact Eun.
  - split; reflexivity.
  - right. left. vm_compute in Eun. injection Eun as <- _. reflexivity.
  - change (base' = ps) in Hacc. subst ps. exists pst', base', st', b'. split; [exact Hpay|]. split; [exact Hfeed|].
    vm_compute in Eun. injection Eun as <- _. exact Hout.
Defined.

(** Two packets in sequence, both the start of a key frame, neither marked. *)
Lemma vp8_restart_crashes_witness :
  exists st, between_frames Vp8DepayState_default /\
    @vp8_depay_handle_packet bytes_exact keep_buffers (mkVp8DepaySettings false false)
      (mkDepayPacket (16 :: example_frame) 0 0 false) (Vp8DepayState_default, []) = (Done tt, (st, [])) /\
    exists s', @vp8_depay_handle_packet bytes_exact keep_buffers (mkVp8DepaySettings false false)
      (mkDepayPacket (16 :: example_frame) 0 1 false) (st, []) = (Crash, s').
Proof.
  destruct (@vp8_depay_handle_packet bytes_exact keep_buffers (mkVp8DepaySettings false false)
    (mkDepayPacket (16 :: example_frame) 0 0 false) (Vp8DepayState_default, [])) as [r [st b]] eqn:E.
  vm_compute in E. injection E as <- <- <-. eexists. split; [split; reflexivity|]. split; [reflexivity|].
  destruct (uncompressed_of example_frame) as [[h rest]|] eqn:Eun; [|discriminate].
  apply (@vp8_restart_crashes bytes_exact bytes_exact_laws keep_buffers (mkVp8DepaySettings false false) 0 1 false
    (mkVp8PayloadDescriptor false true 0 None None None None) example_frame h rest).
  - discriminate.
  - unfold is_vp8_desc. cbn. split; [lia|done].
  - reflexivity.
  - exact Eun.
  - left. reflexivity.
Defined.

(** A frame with two token partitions, at 16 and 18. *)
Definition two_partitions : list Z :=
  [112; 0; 0; 157; 1; 42; 16; 0; 32; 0] ++ [0; 1; 0] ++ [2; 0; 0] ++ [1; 2] ++ [3; 4; 5].

(** In the mode named after starting every partition in a packet of its own,
    the partition at 18 starts inside the only packet. *)
Lemma vp8_partition_start_inside :
  (exists info, @FrameInfo_parse bytes_exact two_partitions = Done info /\ fi_partition_offsets info = [0; 16; 18; 21]) /\
  map pp_payload (snd (snd (@vp8_pay_handle_buffer bytes_exact (keep_packets 1200)
    (mkVp8PaySettings Vp8PidNone None FragPartitionStart) (mkVp8Buffer (Some two_partitions) false None) 0
    (Vp8PayState_default, [])))) = [16 :: two_partitions].
Proof. split; [eexists; split; vm_compute; reflexivity|]. vm_compute. reflexivity. Qed.

(** The decoder never reports the end of its data: behind the last byte it
    reads zeros, so a frame header cut short is read as if it were complete. *)
Lemma vp8_header_past_end keyframe b bs :
  exists d h d', BoolDecoder_new (b :: bs) = Done d /\ FrameHeader_from_reader keyframe d = (Done h, d').
Proof.
  destruct (BoolDecoder_new_ready b bs) as (d & Hd & Hr).
  destruct (takes_header keyframe 8 d Hr) as (h & d' & Hh & _); [lia|]. by exists d, h, d'.
Qed.
