(* ===== verification/Vp9Desc.v ===== *)
(** * The VP9 payload descriptor

    [vp9/payload_descriptor.rs] of the RTP plugin: the bytes before the frame
    data in each packet, with picture id, layers, reference indices and
    scalability structure, their parser and writer. *)

From S2P Require Import Prelude Flow BitStream ByteStream Vp8Desc.

Definition VP9_I_BIT : Z := 128.
Definition VP9_P_BIT : Z := 64.
Definition VP9_L_BIT : Z := 32.
Definition VP9_F_BIT : Z := 16.
Definition VP9_B_BIT : Z := 8.
Definition VP9_E_BIT : Z := 4.
Definition VP9_V_BIT : Z := 2.
Definition VP9_Z_BIT : Z := 1.
Definition VP9_N_BIT : Z := 1.

(** ** Picture ids

    The code is that of VP8, once more. *)
Definition Vp9PictureId : Type := Vp8PictureId.
Definition Vp9PictureId_new : Vp8PictureIdMode -> Z -> option Vp9PictureId := Vp8PictureId_new.
Definition Vp9PictureId_increment : Vp9PictureId -> res Vp9PictureId := Vp8PictureId_increment.
Definition Vp9PictureId_update_mode : Vp9PictureId -> Vp8PictureIdMode -> Vp9PictureId := Vp8PictureId_update_mode.
Definition Vp9PictureId_eq : Vp9PictureId -> Vp9PictureId -> bool := Vp8PictureId_eq.
Definition Vp9PictureId_from_reader `{ByteIO} : M ByteReader Vp9PictureId := Vp8PictureId_from_reader.
Definition Vp9PictureId_to_writer `{ByteIO} : Vp9PictureId -> M ByteWriter unit := Vp8PictureId_to_writer.

(** ** Data *)
Record LayerIndex := mkLayerIndex {
  li_temporal_layer_id : Z;
  li_switching_point : bool;
  li_spatial_layer_id : Z;
  li_inter_layer_dependency_used : bool;
  li_temporal_layer_zero_index : option Z;
}.

Record PictureDescription := mkPictureDescription {
  pd_temporal_layer_id : Z;
  pd_switching_point : bool;
  pd_reference_indices : list Z;
}.

Record ScalabilityStructure := mkScalabilityStructure {
  ss_num_spatial_layers : Z;
  ss_spatial_layer_frame_resolutions : list (Z * Z);
  ss_picture_description : list PictureDescription;
}.

Record Vp9PayloadDescriptor := mkVp9PayloadDescriptor {
  v9d_picture_id : option Vp9PictureId;
  v9d_layer_index : option LayerIndex;
  v9d_inter_picture_predicted_frame : bool;
  v9d_flexible_mode : bool;
  v9d_reference_indices : list Z;
  v9d_start_of_frame : bool;
  v9d_end_of_frame : bool;
  v9d_scalability_structure : option ScalabilityStructure;
  v9d_not_reference_frame_for_upper_layers : bool;
}.

#[export] Instance Vp9PayloadDescriptor_rebuild : Rebuild Vp9PayloadDescriptor := {|
  rebuild := fun r => mkVp9PayloadDescriptor (v9d_picture_id r) (v9d_layer_index r)
    (v9d_inter_picture_predicted_frame r) (v9d_flexible_mode r) (v9d_reference_indices r) (v9d_start_of_frame r)
    (v9d_end_of_frame r) (v9d_scalability_structure r) (v9d_not_reference_frame_for_upper_layers r) |}.

(** ** Reading *)
Section Reading.
Context `{ByteIO}.

(** [for _ in 0..n { list.push(read) }] *)
Fixpoint repeat_read {A} (n : nat) (read : M ByteReader A) : M ByteReader (list A) :=
  match n with
  | O => mret []
  | S n => a ← read; l ← repeat_read n read; mret (a :: l)
  end.

Definition LayerIndex_from_reader (flexible_mode : bool) : M ByteReader LayerIndex :=
  layer_index ← get_byte;
  temporal_layer_zero_index ← (if negb flexible_mode then b ← get_byte; mret (Some b) else mret None);
  mret (mkLayerIndex (Z.shiftr layer_index 5) (has (Z.shiftr layer_index 4) 1)
          (Z.land (Z.shiftr layer_index 1) 7) (has layer_index 1) temporal_layer_zero_index).

Definition PictureDescription_from_reader : M ByteReader PictureDescription :=
  b ← get_byte;
  reference_indices ← repeat_read (Z.to_nat (Z.land (Z.shiftr b 2) 3)) get_byte;
  mret (mkPictureDescription (Z.shiftr b 5) (has (Z.shiftr b 4) 1) reference_indices).

Definition ScalabilityStructure_from_reader : M ByteReader ScalabilityStructure :=
  b ← get_byte;
  let num_spatial_layers := Z.shiftr b 5 + 1 in
  resolutions ← (if has b 16 then
                   repeat_read (Z.to_nat num_spatial_layers) (width ← get_be16; height ← get_be16; mret (width, height))
                 else mret []);
  num_pictures_in_group ← (if has b 8 then n ← get_byte; mret (Some n) else mret None);
  picture_description ← match num_pictures_in_group with
                        | Some n => repeat_read (Z.to_nat n) PictureDescription_from_reader
                        | None => mret []
                        end;
  mret (mkScalabilityStructure num_spatial_layers resolutions picture_description).

(** [for n in 0..3 { .. }], from the round [n] on. *)
Fixpoint read_reference_indices (rounds : nat) (n : Z) : M ByteReader (list Z) :=
  match rounds with
  | O => mret []
  | S rounds =>
      p_diff ← get_byte;
      if (n =? 3) && has p_diff VP9_N_BIT then fail_
      else
        l ← (if has p_diff VP9_N_BIT then read_reference_indices rounds (n + 1) else mret []);
        mret (Z.shiftr p_diff 1 :: l)
  end.

Definition Vp9PayloadDescriptor_from_reader : M ByteReader Vp9PayloadDescriptor :=
  flags ← get_byte;
  picture_id ← (if has flags VP9_I_BIT then pid ← Vp9PictureId_from_reader; mret (Some pid) else mret None);
  let inter_picture_predicted_frame := has flags VP9_P_BIT in
  let flexible_mode := has flags VP9_F_BIT in
  layer_index ← (if has flags VP9_L_BIT then l ← LayerIndex_from_reader flexible_mode; mret (Some l) else mret None);
  reference_indices ← (if inter_picture_predicted_frame && flexible_mode then read_reference_indices 3 0 else mret []);
  scalability_structure ← (if has flags VP9_V_BIT then s ← ScalabilityStructure_from_reader; mret (Some s) else mret None);
  mret (mkVp9PayloadDescriptor picture_id layer_index inter_picture_predicted_frame flexible_mode reference_indices
          (has flags VP9_B_BIT) (has flags VP9_E_BIT) scalability_structure (has flags VP9_Z_BIT)).
End Reading.

(** ** Writing *)
Section Writing.
Context `{ByteIO}.

Definition write_u16 (v : Z) : M ByteWriter unit := upd_ (byte_write_be16 v).

(** [for x in list { write(x)? }] *)
Fixpoint write_all {A} (write : A -> M ByteWriter unit) (l : list A) : M ByteWriter unit :=
  match l with
  | [] => mret tt
  | x :: l => _ ← write x; write_all write l
  end.

Definition layer_index_byte (self : LayerIndex) : Z :=
  Z.lor (Z.lor (Z.lor (wrap U8 (Z.shiftl (li_temporal_layer_id self) 5)) (flag (li_switching_point self) 16))
    (wrap U8 (Z.shiftl (li_spatial_layer_id self) 1))) (flag (li_inter_layer_dependency_used self) 1).

Definition LayerIndex_to_writer (self : LayerIndex) (flexible_mode : bool) : M ByteWriter unit :=
  if li_temporal_layer_id self >? 7 then fail_
  else if li_spatial_layer_id self >? 7 then fail_
  else if flexible_mode && is_some (li_temporal_layer_zero_index self) then fail_
  else if negb flexible_mode && is_none (li_temporal_layer_zero_index self) then fail_
  else
    _ ← write_byte (layer_index_byte self);
    match li_temporal_layer_zero_index self with
    | Some index => write_byte index
    | None => mret tt
    end.

Definition picture_description_byte (self : PictureDescription) : Z :=
  Z.lor (Z.lor (wrap U8 (Z.shiftl (pd_temporal_layer_id self) 5)) (flag (pd_switching_point self) 16))
    (wrap U8 (Z.shiftl (wrap U8 (Z.of_nat (length (pd_reference_indices self)))) 2)).

Definition PictureDescription_to_writer (self : PictureDescription) : M ByteWriter unit :=
  if pd_temporal_layer_id self >? 7 then fail_
  else if (3 <? length (pd_reference_indices self))%nat then fail_
  else
    _ ← write_byte (picture_description_byte self);
    write_all write_byte (pd_reference_indices self).

Definition scalability_byte (self : ScalabilityStructure) : Z :=
  Z.lor (Z.lor (wrap U8 (Z.shiftl (ss_num_spatial_layers self - 1) 5))
    (flag (negb (bool_decide (ss_spatial_layer_frame_resolutions self = []))) 16))
    (flag (negb (bool_decide (length (ss_picture_description self) = 0%nat))) 8).

Definition ScalabilityStructure_to_writer (self : ScalabilityStructure) : M ByteWriter unit :=
  if ss_num_spatial_layers self =? 0 then fail_
  else if ss_num_spatial_layers self - 1 >? 7 then fail_
  else if (255 <? length (ss_picture_description self))%nat then fail_
  else
    _ ← write_byte (scalability_byte self);
    _ ← write_all (fun r => _ ← write_u16 (fst r); write_u16 (snd r)) (ss_spatial_layer_frame_resolutions self);
    _ ← (if negb (bool_decide (length (ss_picture_description self) = 0%nat))
         then write_byte (wrap U8 (Z.of_nat (length (ss_picture_description self)))) else mret tt);
    write_all PictureDescription_to_writer (ss_picture_description self).

(** A bit marks the last index. *)
Fixpoint write_reference_indices (l : list Z) : M ByteWriter unit :=
  match l with
  | [] => mret tt
  | reference_index :: l =>
      if reference_index >? 127 then fail_
      else
        _ ← write_byte (Z.lor (flag (bool_decide (l = [])) VP9_N_BIT) reference_index);
        write_reference_indices l
  end.

Definition Vp9PayloadDescriptor_flags (self : Vp9PayloadDescriptor) : Z :=
  Z.lor (Z.lor (Z.lor (Z.lor (Z.lor (Z.lor (Z.lor
    (flag (is_some (v9d_picture_id self)) VP9_I_BIT)
    (flag (v9d_inter_picture_predicted_frame self) VP9_P_BIT))
    (flag (v9d_flexible_mode self) VP9_F_BIT))
    (flag (is_some (v9d_layer_index self)) VP9_L_BIT))
    (flag (v9d_start_of_frame self) VP9_B_BIT))
    (flag (v9d_end_of_frame self) VP9_E_BIT))
    (flag (v9d_not_reference_frame_for_upper_layers self) VP9_Z_BIT))
    (flag (is_some (v9d_scalability_structure self)) VP9_V_BIT).

Definition Vp9PayloadDescriptor_to_writer (self : Vp9PayloadDescriptor) : M ByteWriter unit :=
  if (3 <? length (v9d_reference_indices self))%nat then fail_
  else if v9d_inter_picture_predicted_frame self && v9d_flexible_mode self
          && bool_decide (v9d_reference_indices self = []) then fail_
  else
    _ ← write_byte (Vp9PayloadDescriptor_flags self);
    _ ← match v9d_picture_id self with Some picture_id => Vp9PictureId_to_writer picture_id | None => mret tt end;
    _ ← match v9d_layer_index self with
        | Some layer_index => LayerIndex_to_writer layer_index (v9d_flexible_mode self)
        | None => mret tt
        end;
    _ ← write_reference_indices (v9d_reference_indices self);
    match v9d_scalability_structure self with
    | Some s => ScalabilityStructure_to_writer s
    | None => mret tt
    end.

Definition Vp9PayloadDescriptor_bytes (self : Vp9PayloadDescriptor) : flow (list Z) :=
  match Vp9PayloadDescriptor_to_writer self byte_writer with
  | (Done _, w) => Done (byte_written w)
  | (Fail, _) => Fail
  | (Crash, _) => Crash
  end.

Definition Vp9PayloadDescriptor_size (self : Vp9PayloadDescriptor) : flow Z :=
  fmap_flow (fun bytes => Z.of_nat (length bytes)) (Vp9PayloadDescriptor_bytes self).
End Writing.

(** ** The bytes of a descriptor *)
Definition layer_bytes (l : LayerIndex) : list Z :=
  layer_index_byte l :: opt_list (fun i => [i]) (li_temporal_layer_zero_index l).

Definition picture_bytes (p : PictureDescription) : list Z := picture_description_byte p :: pd_reference_indices p.

Definition resolution_bytes (r : Z * Z) : list Z := [fst r / 256; fst r mod 256] ++ [snd r / 256; snd r mod 256].

Definition scalability_bytes (s : ScalabilityStructure) : list Z :=
  [scalability_byte s] ++ mjoin (resolution_bytes <$> ss_spatial_layer_frame_resolutions s)
  ++ (if bool_decide (length (ss_picture_description s) = 0%nat) then [] else [Z.of_nat (length (ss_picture_description s))])
  ++ mjoin (picture_bytes <$> ss_picture_description s).

(** What the writer writes when there are no reference indices. *)
Definition desc9_bytes (d : Vp9PayloadDescriptor) : list Z :=
  [Vp9PayloadDescriptor_flags d] ++ opt_list pid_bytes (v9d_picture_id d) ++ opt_list layer_bytes (v9d_layer_index d)
  ++ opt_list scalability_bytes (v9d_scalability_structure d).

Definition is_layer (flexible : bool) (l : LayerIndex) : Prop :=
  0 <= li_temporal_layer_id l <= 7 /\ 0 <= li_spatial_layer_id l <= 7 /\
  match li_temporal_layer_zero_index l with Some i => flexible = false /\ is_u8 i | None => flexible = true end.

Definition is_picture (p : PictureDescription) : Prop :=
  0 <= pd_temporal_layer_id p <= 7 /\ (length (pd_reference_indices p) <= 3)%nat /\ is_bytes (pd_reference_indices p).

(** Resolutions are given for all layers or for none. *)
Definition is_scalability (s : ScalabilityStructure) : Prop :=
  1 <= ss_num_spatial_layers s <= 8 /\
  (ss_spatial_layer_frame_resolutions s = [] \/
   Z.of_nat (length (ss_spatial_layer_frame_resolutions s)) = ss_num_spatial_layers s) /\
  Forall (fun r => is_u16 (fst r) /\ is_u16 (snd r)) (ss_spatial_layer_frame_resolutions s) /\
  (length (ss_picture_description s) <= 255)%nat /\ Forall is_picture (ss_picture_description s).

(** A descriptor whose fields fit, without reference indices. *)
Definition is_vp9_desc (d : Vp9PayloadDescriptor) : Prop :=
  (forall p, v9d_picture_id d = Some p -> is_vp8_pid p) /\
  (forall l, v9d_layer_index d = Some l -> is_layer (v9d_flexible_mode d) l) /\
  v9d_reference_indices d = [] /\ v9d_inter_picture_predicted_frame d && v9d_flexible_mode d = false /\
  (forall s, v9d_scalability_structure d = Some s -> is_scalability s).

Lemma forallb_seqZ (f : Z -> bool) n k : forallb f (seqZ 0 n) = true -> 0 <= k < n -> f k = true.
Proof. rewrite forallb_forall. intros Hf Hk. apply Hf. apply list_elem_of_In, elem_of_seqZ. lia. Qed.

Lemma flags9_fields i p f l b e z v :
  let x := Z.lor (Z.lor (Z.lor (Z.lor (Z.lor (Z.lor (Z.lor (flag i VP9_I_BIT) (flag p VP9_P_BIT)) (flag f VP9_F_BIT))
             (flag l VP9_L_BIT)) (flag b VP9_B_BIT)) (flag e VP9_E_BIT)) (flag z VP9_Z_BIT)) (flag v VP9_V_BIT) in
  has x VP9_I_BIT = i /\ has x VP9_P_BIT = p /\ has x VP9_F_BIT = f /\ has x VP9_L_BIT = l /\ has x VP9_B_BIT = b /\
  has x VP9_E_BIT = e /\ has x VP9_Z_BIT = z /\ has x VP9_V_BIT = v /\ is_u8 x.
Proof. destruct i, p, f, l, b, e, z, v; vm_compute; repeat (split; [reflexivity|]); split; congruence. Qed.

Lemma layer_fields l :
  0 <= li_temporal_layer_id l <= 7 -> 0 <= li_spatial_layer_id l <= 7 ->
  let b := layer_index_byte l in
  Z.shiftr b 5 = li_temporal_layer_id l /\ has (Z.shiftr b 4) 1 = li_switching_point l /\
  Z.land (Z.shiftr b 1) 7 = li_spatial_layer_id l /\ has b 1 = li_inter_layer_dependency_used l /\ is_u8 b.
Proof.
  destruct l as [t w s d z]. cbn. intros Ht Hs.
  assert (Hall : forallb (fun t => forallb (fun s => forallb (fun w => forallb (fun d =>
    let b := layer_index_byte (mkLayerIndex t w s d None) in
    (Z.shiftr b 5 =? t) && Bool.eqb (has (Z.shiftr b 4) 1) w && (Z.land (Z.shiftr b 1) 7 =? s) && Bool.eqb (has b 1) d
    && (0 <=? b) && (b <? U8)) [true; false]) [true; false]) (seqZ 0 8)) (seqZ 0 8) = true) by (vm_compute; reflexivity).
  apply (forallb_seqZ _ _ t) in Hall; [|lia]. apply (forallb_seqZ _ _ s) in Hall; [|lia].
  rewrite forallb_forall in Hall. specialize (Hall w ltac:(destruct w; cbn; auto)). rewrite forallb_forall in Hall.
  specialize (Hall d ltac:(destruct d; cbn; auto)). cbv beta zeta in Hall.
  rewrite !andb_true_iff, !Z.eqb_eq, !eqb_true_iff, Z.leb_le, Z.ltb_lt in Hall.
  change (layer_index_byte (mkLayerIndex t w s d z)) with (layer_index_byte (mkLayerIndex t w s d None)).
  unfold is_u8. intuition.
Qed.

Lemma picture_fields p :
  0 <= pd_temporal_layer_id p <= 7 -> (length (pd_reference_indices p) <= 3)%nat ->
  let b := picture_description_byte p in
  Z.shiftr b 5 = pd_temporal_layer_id p /\ has (Z.shiftr b 4) 1 = pd_switching_point p /\
  Z.land (Z.shiftr b 2) 3 = Z.of_nat (length (pd_reference_indices p)) /\ is_u8 b.
Proof.
  destruct p as [t w refs]. cbn. intros Ht Hr.
  assert (Hall : forallb (fun t => forallb (fun n => forallb (fun w =>
    let b := picture_description_byte (mkPictureDescription t w (replicate (Z.to_nat n) 0)) in
    (Z.shiftr b 5 =? t) && Bool.eqb (has (Z.shiftr b 4) 1) w && (Z.land (Z.shiftr b 2) 3 =? n) && (0 <=? b) && (b <? U8))
    [true; false]) (seqZ 0 4)) (seqZ 0 8) = true) by (vm_compute; reflexivity).
  apply (forallb_seqZ _ _ t) in Hall; [|lia]. apply (forallb_seqZ _ _ (Z.of_nat (length refs))) in Hall; [|lia].
  rewrite forallb_forall in Hall. specialize (Hall w ltac:(destruct w; cbn; auto)). cbv beta zeta in Hall.
  assert (E : picture_description_byte (mkPictureDescription t w (replicate (Z.to_nat (Z.of_nat (length refs))) 0)) =
    picture_description_byte (mkPictureDescription t w refs)).
  { unfold picture_description_byte. cbn. by rewrite length_replicate, Nat2Z.id. }
  rewrite E in Hall. rewrite !andb_true_iff, !Z.eqb_eq, !eqb_true_iff, Z.leb_le, Z.ltb_lt in Hall. unfold is_u8. intuition.
Qed.

Lemma scalability_fields s :
  1 <= ss_num_spatial_layers s <= 8 ->
  let b := scalability_byte s in
  Z.shiftr b 5 + 1 = ss_num_spatial_layers s /\
  has b 16 = negb (bool_decide (ss_spatial_layer_frame_resolutions s = [])) /\
  has b 8 = negb (bool_decide (length (ss_picture_description s) = 0%nat)) /\ is_u8 b.
Proof.
  intros Hn. unfold scalability_byte. generalize (negb (bool_decide (ss_spatial_layer_frame_resolutions s = []))).
  generalize (negb (bool_decide (length (ss_picture_description s) = 0%nat))). generalize dependent (ss_num_spatial_layers s).
  intros n Hn g y.
  assert (Hall : forallb (fun k => forallb (fun g => forallb (fun y =>
    let b := Z.lor (Z.lor (wrap U8 (Z.shiftl k 5)) (flag y 16)) (flag g 8) in
    (Z.shiftr b 5 =? k) && Bool.eqb (has b 16) y && Bool.eqb (has b 8) g && (0 <=? b) && (b <? U8))
    [true; false]) [true; false]) (seqZ 0 8) = true) by (vm_compute; reflexivity).
  apply (forallb_seqZ _ _ (n - 1)) in Hall; [|lia].
  rewrite forallb_forall in Hall. specialize (Hall g ltac:(destruct g; cbn; auto)). rewrite forallb_forall in Hall.
  specialize (Hall y ltac:(destruct y; cbn; auto)). cbv beta zeta in Hall |- *.
  rewrite !andb_true_iff, !Z.eqb_eq, !eqb_true_iff, Z.leb_le, Z.ltb_lt in Hall. unfold is_u8.
  destruct Hall as [[[[-> ->] ->] ?] ?]. split; [lia|]. intuition.
Qed.

(** ** Reading what was written *)
Section RoundTrip9.
Context `{ByteIOLaws}.

Lemma writes_be16 v : writes (write_u16 v) [v / 256; v mod 256].
Proof. intros w. exists (byte_write_be16 v w). split; [done|apply written_be16]. Qed.

Lemma writes_all {A} (write : A -> M ByteWriter unit) (bytes : A -> list Z) l :
  Forall (fun a => writes (write a) (bytes a)) l -> writes (write_all write l) (mjoin (bytes <$> l)).
Proof.
  induction 1 as [|a l Ha _ IH]; cbn [write_all]; [apply writes_ret|].
  change (mjoin (bytes <$> a :: l)) with (bytes a ++ mjoin (bytes <$> l)). by apply writes_bind.
Qed.

Lemma consumes_repeat {A} (read : M ByteReader A) (bytes : A -> list Z) l :
  Forall (fun a => consumes read (bytes a) a) l -> consumes (repeat_read (length l) read) (mjoin (bytes <$> l)) l.
Proof.
  induction 1 as [|a l Ha _ IH]; cbn [repeat_read length]; [apply consumes_ret|].
  change (mjoin (bytes <$> a :: l)) with (bytes a ++ mjoin (bytes <$> l)).
  eapply consumes_bind; [exact Ha|]. rewrite <- (app_nil_r (mjoin _)). eapply consumes_bind; [exact IH|apply consumes_ret].
Qed.

Lemma join_singletons (l : list Z) : mjoin ((fun b => [b]) <$> l) = l.
Proof. induction l as [|b l IH]; [done|]. change (b :: mjoin ((fun b => [b]) <$> l) = b :: l). by rewrite IH. Qed.

Lemma writes_layer flexible l : is_layer flexible l -> writes (LayerIndex_to_writer l flexible) (layer_bytes l).
Proof.
  intros (Ht & Hs & Hz). unfold LayerIndex_to_writer, layer_bytes. rewrite !Z.gtb_ltb, !(proj2 (Z.ltb_ge _ _)) by lia.
  destruct (li_temporal_layer_zero_index l) as [i|]; [destruct Hz as [-> _]|subst flexible]; cbn.
  - apply (writes_bind _ _ [_] [_]); apply writes_byte.
  - rewrite <- (app_nil_r [_]). apply writes_bind; [apply writes_byte|apply writes_ret].
Qed.

Lemma consumes_layer flexible l : is_layer flexible l -> consumes (LayerIndex_from_reader flexible) (layer_bytes l) l.
Proof.
  intros (Ht & Hs & Hz). destruct (layer_fields l Ht Hs) as (E1 & E2 & E3 & E4 & _).
  unfold LayerIndex_from_reader, layer_bytes. apply (consumes_bind _ _ [_] _ _ _ (consumes_byte _)).
  rewrite E1, E2, E3, E4. rewrite <- (app_nil_r (opt_list _ _)). apply consumes_bind with (a := li_temporal_layer_zero_index l).
  - destruct (li_temporal_layer_zero_index l) as [i|]; [destruct Hz as [-> _]|subst flexible]; cbn; [|apply consumes_ret].
    apply (consumes_bind _ _ [i] [] i); [apply consumes_byte|apply consumes_ret].
  - destruct l; apply consumes_ret.
Qed.

Lemma writes_picture p : is_picture p -> writes (PictureDescription_to_writer p) (picture_bytes p).
Proof.
  intros (Ht & Hr & _). unfold PictureDescription_to_writer, picture_bytes. rewrite Z.gtb_ltb, (proj2 (Z.ltb_ge _ _)) by lia.
  destruct (Nat.ltb_spec 3 (length (pd_reference_indices p))); [lia|].
  apply (writes_bind _ _ [_]); [apply writes_byte|]. rewrite <- (join_singletons (pd_reference_indices p)) at 2.
  apply writes_all. apply Forall_forall. intros b _. apply writes_byte.
Qed.

Lemma consumes_picture p : is_picture p -> consumes PictureDescription_from_reader (picture_bytes p) p.
Proof.
  intros (Ht & Hr & _). destruct (picture_fields p Ht Hr) as (E1 & E2 & E3 & _).
  unfold PictureDescription_from_reader, picture_bytes. apply (consumes_bind _ _ [_] _ _ _ (consumes_byte _)).
  rewrite E1, E2, E3, Nat2Z.id. rewrite <- (app_nil_r (pd_reference_indices p)) at 2.
  apply consumes_bind with (a := pd_reference_indices p).
  - rewrite <- (join_singletons (pd_reference_indices p)) at 2. apply consumes_repeat.
    apply Forall_forall. intros b _. apply consumes_byte.
  - destruct p; apply consumes_ret.
Qed.

Lemma writes_scalability s : is_scalability s -> writes (ScalabilityStructure_to_writer s) (scalability_bytes s).
Proof.
  intros (Hn & _ & Hres & Hl & Hp). unfold ScalabilityStructure_to_writer, scalability_bytes.
  destruct (Z.eqb_spec (ss_num_spatial_layers s) 0); [lia|]. rewrite Z.gtb_ltb, (proj2 (Z.ltb_ge _ _)) by lia.
  destruct (Nat.ltb_spec 255 (length (ss_picture_description s))); [lia|].
  apply writes_bind; [apply writes_byte|]. apply writes_bind.
  { apply writes_all. eapply Forall_impl; [exact Hres|]. intros [w h] _. apply writes_bind; apply writes_be16. }
  apply writes_bind.
  - case_bool_decide; cbn [negb]; [apply writes_ret|]. rewrite wrap_small by lia. apply writes_byte.
  - apply writes_all. eapply Forall_impl; [exact Hp|]. intros p. apply writes_picture.
Qed.

Lemma consumes_resolution r : consumes (width ← get_be16; height ← get_be16; mret (width, height)) (resolution_bytes r) r.
Proof.
  destruct r as [w h]. eapply consumes_bind; [apply consumes_be16|]. rewrite <- (app_nil_r [_; _]).
  eapply consumes_bind; [apply consumes_be16|apply consumes_ret].
Qed.

Lemma consumes_scalability s : is_scalability s -> consumes ScalabilityStructure_from_reader (scalability_bytes s) s.
Proof.
  intros (Hn & Hlen & Hres & Hl & Hp). destruct (scalability_fields s Hn) as (E1 & E2 & E3 & _).
  unfold ScalabilityStructure_from_reader, scalability_bytes. apply (consumes_bind _ _ [_] _ _ _ (consumes_byte _)). cbv zeta.
  rewrite E1, E2, E3. clear E1 E2 E3. apply consumes_bind with (a := ss_spatial_layer_frame_resolutions s).
  { case_bool_decide as Hr; cbn [negb]; [rewrite Hr; apply consumes_ret|]. destruct Hlen as [?|Hlen]; [done|].
    rewrite <- Hlen, Nat2Z.id. apply consumes_repeat. apply Forall_forall. intros r _. apply consumes_resolution. }
  apply consumes_bind with (a := if bool_decide (length (ss_picture_description s) = 0%nat) then None
                                 else Some (Z.of_nat (length (ss_picture_description s)))).
  { case_bool_decide; cbn [negb]; [apply consumes_ret|].
    apply (consumes_bind _ _ [_] [] _ _ (consumes_byte _)), consumes_ret. }
  rewrite <- (app_nil_r (mjoin (picture_bytes <$> _))). apply consumes_bind with (a := ss_picture_description s).
  - assert (Hall : consumes (repeat_read (length (ss_picture_description s)) PictureDescription_from_reader)
      (mjoin (picture_bytes <$> ss_picture_description s)) (ss_picture_description s)).
    { apply consumes_repeat. eapply Forall_impl; [exact Hp|]. intros p. apply consumes_picture. }
    case_bool_decide as Hz; [|by rewrite Nat2Z.id].
    apply nil_length_inv in Hz. rewrite Hz. apply consumes_ret.
  - destruct s; apply consumes_ret.
Qed.

Lemma writes_desc9 d : is_vp9_desc d -> writes (Vp9PayloadDescriptor_to_writer d) (desc9_bytes d).
Proof.
  intros (Hpid & Hl & Hr & Hf & Hs). unfold Vp9PayloadDescriptor_to_writer, desc9_bytes. rewrite Hr, Hf. cbn [length Nat.ltb Nat.leb andb].
  apply writes_bind; [apply writes_byte|].
  apply writes_bind; [destruct (v9d_picture_id d); [by apply writes_pid, Hpid|apply writes_ret]|].
  apply writes_bind; [destruct (v9d_layer_index d); [by apply writes_layer, Hl|apply writes_ret]|].
  apply (writes_bind _ _ []); [apply writes_ret|].
  destruct (v9d_scalability_structure d); [by apply writes_scalability, Hs|apply writes_ret].
Qed.

Lemma consumes_desc9 d : is_vp9_desc d -> consumes Vp9PayloadDescriptor_from_reader (desc9_bytes d) d.
Proof.
  intros (Hpid & Hl & Hr & Hf & Hs). unfold Vp9PayloadDescriptor_from_reader, desc9_bytes.
  apply (consumes_bind _ _ [_] _ _ _ (consumes_byte _)). unfold Vp9PayloadDescriptor_flags.
  match goal with |- context [has (Z.lor (Z.lor (Z.lor (Z.lor (Z.lor (Z.lor (Z.lor (flag ?i _) (flag ?p _)) (flag ?f _)) (flag ?l _))
    (flag ?b _)) (flag ?e _)) (flag ?z _)) (flag ?v _)) _] =>
    destruct (flags9_fields i p f l b e z v) as (-> & -> & -> & -> & -> & -> & -> & -> & _) end.
  apply consumes_bind with (a := v9d_picture_id d).
  { destruct (v9d_picture_id d); cbn [is_some opt_list]; [|apply consumes_ret].
    rewrite <- (app_nil_r (pid_bytes _)). eapply consumes_bind; [by apply consumes_pid, Hpid|apply consumes_ret]. }
  cbv zeta. rewrite Hf. apply consumes_bind with (a := v9d_layer_index d).
  { destruct (v9d_layer_index d); cbn [is_some opt_list]; [|apply consumes_ret].
    rewrite <- (app_nil_r (layer_bytes _)). eapply consumes_bind; [by apply consumes_layer, Hl|apply consumes_ret]. }
  apply (consumes_bind _ _ [] (opt_list scalability_bytes (v9d_scalability_structure d)) []); [apply consumes_ret|]. rewrite <- (app_nil_r (opt_list scalability_bytes _)).
  apply consumes_bind with (a := v9d_scalability_structure d).
  { destruct (v9d_scalability_structure d); cbn [is_some opt_list]; [|apply consumes_ret].
    rewrite <- (app_nil_r (scalability_bytes _)). eapply consumes_bind; [by apply consumes_scalability, Hs|apply consumes_ret]. }
  destruct d; cbn in Hr; subst; apply consumes_ret.
Qed.

Lemma desc9_bytes_ok d : is_vp9_desc d -> Vp9PayloadDescriptor_bytes d = Done (desc9_bytes d).
Proof.
  intros Hd. unfold Vp9PayloadDescriptor_bytes. destruct (writes_desc9 d Hd byte_writer) as (w & -> & Hw).
  by rewrite Hw, written_new.
Qed.
End RoundTrip9.

(** ** Reference indices

    The writer and the reader disagree on them. *)
Section ReferenceIndices.
Context `{ByteIOLaws}.

(** A descriptor in flexible mode, predicted from the picture [k] pictures ago. *)
Definition predicted_from (pid : Vp9PictureId) (k : Z) : Vp9PayloadDescriptor :=
  mkVp9PayloadDescriptor (Some pid) None true true [k] true true None false.

(** The bytes written for one reference index end the descriptor, but the
    reader takes the mark on the last index for one that more follow: it goes
    on to read the frame data, and what it returns has more than one index,
    the first one half of the index written, unless it fails. *)
Lemma reference_index_lost pid k rest :
  is_vp8_pid pid -> 0 <= k <= 127 ->
  exists bytes, Vp9PayloadDescriptor_bytes (predicted_from pid k) = Done bytes /\
    match run_bytes Vp9PayloadDescriptor_from_reader (bytes ++ rest) with
    | Done (d, unread) => (exists l, l <> [] /\ v9d_reference_indices d = k / 2 :: l) /\ (length unread < length rest)%nat
    | Fail => rest = [] \/ exists b, rest = [b]
    | Crash => False
    end.
Proof.
  intros Hpid Hk. exists ([Vp9PayloadDescriptor_flags (predicted_from pid k)] ++ pid_bytes pid ++ [Z.lor 1 k]). split.
  - unfold Vp9PayloadDescriptor_bytes.
    assert (Hw : writes (Vp9PayloadDescriptor_to_writer (predicted_from pid k))
      ([Vp9PayloadDescriptor_flags (predicted_from pid k)] ++ pid_bytes pid ++ [Z.lor 1 k])).
    { unfold Vp9PayloadDescriptor_to_writer, predicted_from.
      cbn [v9d_reference_indices v9d_inter_picture_predicted_frame v9d_flexible_mode v9d_picture_id v9d_layer_index
        v9d_scalability_structure length Nat.ltb Nat.leb andb].
      rewrite bool_decide_eq_false_2 by done. apply writes_bind; [apply writes_byte|].
      apply writes_bind; [by apply writes_pid|]. apply (writes_bind _ _ []); [apply writes_ret|].
      apply (writes_bind _ _ [Z.lor 1 k] []); [|apply writes_ret].
      cbn [write_reference_indices]. rewrite Z.gtb_ltb, (proj2 (Z.ltb_ge _ _)) by lia.
      rewrite bool_decide_eq_true_2 by done.
      apply (writes_bind _ _ [Z.lor 1 k] []); [apply writes_byte|apply writes_ret]. }
    destruct (Hw byte_writer) as (w & -> & E). by rewrite E, written_new.
  - rewrite <- app_assoc. set (bytes := (pid_bytes pid ++ [Z.lor 1 k]) ++ rest). unfold run_bytes.
    destruct (consumes_byte (Vp9PayloadDescriptor_flags (predicted_from pid k))
      (byte_reader ([Vp9PayloadDescriptor_flags (predicted_from pid k)] ++ bytes)) bytes) as (r1 & E1 & A1); [apply ahead_new|].
    unfold Vp9PayloadDescriptor_from_reader, mbind, M_bind. rewrite E1.
    destruct (flags9_fields true true true false true true false false) as (F1 & F2 & F3 & F4 & F5 & F6 & F7 & F8 & _).
    change (Vp9PayloadDescriptor_flags (predicted_from pid k)) with
      (Z.lor (Z.lor (Z.lor (Z.lor (Z.lor (Z.lor (Z.lor (flag true VP9_I_BIT) (flag true VP9_P_BIT)) (flag true VP9_F_BIT))
             (flag false VP9_L_BIT)) (flag true VP9_B_BIT)) (flag true VP9_E_BIT)) (flag false VP9_Z_BIT)) (flag false VP9_V_BIT)).
    rewrite F1, F2, F3, F4, F8.
    destruct (consumes_pid pid Hpid r1 ([Z.lor 1 k] ++ rest)) as (r2 & E2 & A2); [by rewrite A1; unfold bytes; rewrite <- app_assoc|].
    unfold Vp9PictureId_from_reader. rewrite E2. unfold mret, M_ret. cbn [andb read_reference_indices].
    destruct (consumes_byte (Z.lor 1 k) r2 rest A2) as (r3 & E3 & A3). unfold mbind, M_bind. rewrite E3. cbn [Z.eqb andb].
    assert (HN : has (Z.lor 1 k) VP9_N_BIT = true /\ Z.shiftr (Z.lor 1 k) 1 = k / 2).
    { pose proof (forallb_seqZ (fun k => has (Z.lor 1 k) VP9_N_BIT && (Z.shiftr (Z.lor 1 k) 1 =? k / 2)) 128 k
        ltac:(vm_compute; reflexivity) ltac:(lia)) as Hb. apply andb_true_iff in Hb as [? ?%Z.eqb_eq]. done. }
    destruct HN as [HN Hhalf]. rewrite HN, Hhalf. change (0 + 1) with 1. change (1 + 1) with 2.
    change (1 =? 3) with false. change (2 =? 3) with false. cbn [andb].
    destruct rest as [|b rest]; unfold get_byte; [rewrite (ahead_read_end r3 A3); by left|].
    destruct (ahead_read r3 b rest A3) as (r4 & -> & A4).
    destruct (has b VP9_N_BIT).
    + destruct rest as [|b' rest]; [rewrite (ahead_read_end r4 A4); right; by exists b|].
      destruct (ahead_read r4 b' rest A4) as (r5 & -> & A5).
      destruct (has b' VP9_N_BIT); cbn; rewrite ahead_left, A5; (split; [eexists; by split; [|reflexivity]|cbn; lia]).
    + cbn. rewrite ahead_left, A4. split; [eexists; by split; [|reflexivity]|cbn; lia].
Qed.
End ReferenceIndices.

(** ** Any input *)
Section AnyInput.
Context `{ByteIO}.

Lemma no_crash_repeat {A} n (read : M ByteReader A) : no_crash read -> no_crash (repeat_read n read).
Proof. intros Hr. induction n; cbn [repeat_read]; eauto with flow. Qed.

Lemma no_crash_reference_indices rounds n : no_crash (read_reference_indices rounds n).
Proof. revert n. induction rounds; intros n; cbn [read_reference_indices]; eauto 8 with flow. Qed.

Lemma no_crash_pid : no_crash Vp9PictureId_from_reader.
Proof. unfold Vp9PictureId_from_reader, Vp8PictureId_from_reader. eauto 8 with flow. Qed.

Lemma no_crash_picture : no_crash PictureDescription_from_reader.
Proof. unfold PictureDescription_from_reader. apply no_crash_bind; [auto with flow|]. intros b. eauto using no_crash_repeat with flow. Qed.

Lemma no_crash_desc9 : no_crash Vp9PayloadDescriptor_from_reader.
Proof.
  unfold Vp9PayloadDescriptor_from_reader, ScalabilityStructure_from_reader, LayerIndex_from_reader.
  repeat first [progress intros|progress cbv zeta|apply no_crash_bind|apply no_crash_if|apply no_crash_match
    |apply no_crash_repeat|apply no_crash_reference_indices|apply no_crash_pid|apply no_crash_picture|solve [auto with flow]].
Qed.
End AnyInput.
