(* ===== verification/Vp9Frame.v ===== *)
(** * VP9 frame headers

    [vp9/frame_header.rs] of the RTP plugin: the start of the uncompressed
    header of a frame, up to the size of a key frame. *)

From S2P Require Import Prelude Flow BitStream.

Record ColorConfig := mkColorConfig {
  cc_bit_depth : Z;
  cc_color_space : Z;
  cc_color_range : Z;
  cc_sub_sampling_x : Z;
  cc_sub_sampling_y : Z;
}.

Record KeyframeInfo := mkKeyframeInfo {
  ki_color_config : ColorConfig;
  ki_frame_size : Z * Z;
  ki_render_size : option (Z * Z);
}.

Record Vp9FrameHeader := mkVp9FrameHeader {
  v9h_profile : Z;
  v9h_show_existing_frame : bool;
  v9h_is_keyframe : option bool;
  v9h_show_frame : option bool;
  v9h_error_resilient_mode : option bool;
  v9h_keyframe_info : option KeyframeInfo;
}.

Definition CS_RGB : Z := 7.

Definition KeyframeInfo_render_size (self : KeyframeInfo) : Z * Z :=
  match ki_render_size self with Some size => size | None => ki_frame_size self end.

(** ** Parsing *)
Section Parsing.
Context `{BitIO}.

(** [r.skip(1)] *)
Definition skip_bit_ : M BitReader unit := _ ← read_ 1; mret tt.

Definition odd_profile (profile : Z) : bool := (profile =? 1) || (profile =? 3).

Definition ColorConfig_from_reader (profile : Z) : M BitReader ColorConfig :=
  bit_depth ← (if profile >=? 2 then
                 ten_or_twelve_bit ← read_bit_; mret (if ten_or_twelve_bit : bool then 12 else 10)
               else mret 8);
  color_space ← read_ 3;
  rest ← (if negb (color_space =? CS_RGB) then
            color_range ← read_ 1;
            sub_sampling ← (if odd_profile profile then
                              sub_sampling_x ← read_ 1;
                              sub_sampling_y ← read_ 1;
                              _ ← skip_bit_;
                              mret (sub_sampling_x, sub_sampling_y)
                            else mret (1, 1));
            mret (color_range, sub_sampling)
          else
            _ ← (if odd_profile profile then skip_bit_ else mret tt);
            mret (1, (0, 0)));
  mret (mkColorConfig bit_depth color_space (fst rest) (fst (snd rest)) (snd (snd rest))).

(** Two 16-bit fields, each one less than the size. *)
Definition read_size : M BitReader (Z * Z) :=
  width_minus_1 ← read_ 16;
  height_minus_1 ← read_ 16;
  mret (width_minus_1 + 1, height_minus_1 + 1).

Definition KeyframeInfo_from_reader (profile : Z) : M BitReader KeyframeInfo :=
  sync_code_1 ← read_ 8;
  sync_code_2 ← read_ 8;
  sync_code_3 ← read_ 8;
  if negb (bool_decide ([73; 131; 66] = [sync_code_1; sync_code_2; sync_code_3])) then fail_
  else
    color_config ← ColorConfig_from_reader profile;
    frame_size ← read_size;
    different ← read_ 1;
    render_size ← (if different =? 1 then size ← read_size; mret (Some size) else mret None);
    mret (mkKeyframeInfo color_config frame_size render_size).

Definition Vp9FrameHeader_from_reader : M BitReader Vp9FrameHeader :=
  marker ← read_ 2;
  if negb (marker =? 2) then fail_
  else
    profile_low_bit ← read_ 1;
    profile_high_bit ← read_ 1;
    let profile := Z.lor (Z.shiftl profile_high_bit 1) profile_low_bit in
    _ ← (if profile =? 3 then skip_bit_ else mret tt);
    show_existing_frame ← read_bit_;
    if show_existing_frame : bool then mret (mkVp9FrameHeader profile true None None None None)
    else
      frame_type ← read_bit_;
      let is_keyframe := negb frame_type in
      show_frame ← read_bit_;
      error_resilient_mode ← read_bit_;
      if negb is_keyframe then
        mret (mkVp9FrameHeader profile false (Some is_keyframe) (Some show_frame) (Some error_resilient_mode) None)
      else
        keyframe_info ← KeyframeInfo_from_reader profile;
        mret (mkVp9FrameHeader profile false (Some is_keyframe) (Some show_frame) (Some error_resilient_mode)
                (Some keyframe_info)).
End Parsing.

(** ** The bits of a header

    As the bitstream specification lays them out, the reserved bits zero. *)
Definition color_bits (profile : Z) (c : ColorConfig) : list bool :=
  (if profile >=? 2 then [cc_bit_depth c =? 12] else []) ++ bits_of 3 (cc_color_space c) ++
  (if negb (cc_color_space c =? CS_RGB) then
     bits_of 1 (cc_color_range c) ++
     (if odd_profile profile then bits_of 1 (cc_sub_sampling_x c) ++ bits_of 1 (cc_sub_sampling_y c) ++ [false] else [])
   else if odd_profile profile then [false] else []).

Definition size_bits (s : Z * Z) : list bool := bits_of 16 (fst s - 1) ++ bits_of 16 (snd s - 1).

Definition keyframe_bits (profile : Z) (k : KeyframeInfo) : list bool :=
  bits_of 8 73 ++ bits_of 8 131 ++ bits_of 8 66 ++ color_bits profile (ki_color_config k) ++ size_bits (ki_frame_size k) ++
  match ki_render_size k with Some s => [true] ++ size_bits s | None => [false] end.

Definition header_bits9 (h : Vp9FrameHeader) : list bool :=
  bits_of 2 2 ++ [Z.testbit (v9h_profile h) 0] ++ [Z.testbit (v9h_profile h) 1] ++
  (if v9h_profile h =? 3 then [false] else []) ++ [v9h_show_existing_frame h] ++
  match v9h_is_keyframe h, v9h_show_frame h, v9h_error_resilient_mode h with
  | Some key, Some show, Some resilient =>
      [negb key] ++ [show] ++ [resilient] ++
      match v9h_keyframe_info h with Some k => keyframe_bits (v9h_profile h) k | None => [] end
  | _, _, _ => []
  end.

(** Headers whose fields fit, and agree with each other. *)
Definition is_size (s : Z * Z) : Prop := 1 <= fst s <= 65536 /\ 1 <= snd s <= 65536.

Definition is_color (profile : Z) (c : ColorConfig) : Prop :=
  (if profile >=? 2 then cc_bit_depth c = 10 \/ cc_bit_depth c = 12 else cc_bit_depth c = 8) /\
  0 <= cc_color_space c <= 7 /\
  (if cc_color_space c =? CS_RGB then
     cc_color_range c = 1 /\ cc_sub_sampling_x c = 0 /\ cc_sub_sampling_y c = 0
   else 0 <= cc_color_range c <= 1 /\
     (if odd_profile profile then 0 <= cc_sub_sampling_x c <= 1 /\ 0 <= cc_sub_sampling_y c <= 1
      else cc_sub_sampling_x c = 1 /\ cc_sub_sampling_y c = 1)).

Definition is_header9 (h : Vp9FrameHeader) : Prop :=
  0 <= v9h_profile h <= 3 /\
  match v9h_is_keyframe h, v9h_show_frame h, v9h_error_resilient_mode h with
  | Some key, Some _, Some _ =>
      v9h_show_existing_frame h = false /\
      match v9h_keyframe_info h with
      | Some k => key = true /\ is_color (v9h_profile h) (ki_color_config k) /\ is_size (ki_frame_size k) /\
          (forall s, ki_render_size k = Some s -> is_size s)
      | None => key = false
      end
  | None, None, None => v9h_show_existing_frame h = true /\ v9h_keyframe_info h = None
  | _, _, _ => False
  end.

(** ** Reading a header back *)
Section HeaderLemmas.
Context `{BitIOLaws}.

(** [parses_bind] where a field is read first. *)
Lemma parses_field_then {B} n v (k : Z -> M BitReader B) l b :
  0 <= v < 2 ^ Z.of_nat n -> parses (k v) l b -> parses (read_ n ≫= k) (bits_of n v ++ l) b.
Proof. intros Hv Hk. eapply parses_bind; [by apply parses_field|exact Hk]. Qed.

Lemma parses_bit_then {B} x (k : bool -> M BitReader B) l b :
  parses (k x) l b -> parses (read_bit_ ≫= k) ([x] ++ l) b.
Proof. intros Hk. eapply parses_bind; [apply parses_bit|exact Hk]. Qed.

Lemma parses_skip x : parses skip_bit_ [x] tt.
Proof. apply (parses_bind _ _ [x] [] (val_of [x])); [apply (parses_read [x])|apply parses_ret]. Qed.

Lemma parses_end {A B} (p : M BitReader A) (k : A -> M BitReader B) l a b :
  parses p l a -> parses (k a) [] b -> parses (p ≫= k) l b.
Proof. intros Hp Hk. rewrite <- (app_nil_r l). by eapply parses_bind. Qed.

Lemma parses_color profile c :
  is_color profile c -> parses (ColorConfig_from_reader profile) (color_bits profile c) c.
Proof.
  intros (Hd & Hs & Hr). unfold ColorConfig_from_reader, color_bits.
  apply (parses_bind _ _ _ _ (cc_bit_depth c)).
  { destruct (profile >=? 2); [|rewrite Hd; apply parses_ret].
    apply (parses_end _ _ [_] (cc_bit_depth c =? 12)); [apply parses_bit|].
    destruct Hd as [-> | ->]; apply parses_ret. }
  apply parses_field_then; [change (2 ^ Z.of_nat 3) with 8; lia|].
  apply (parses_end _ _ _ (cc_color_range c, (cc_sub_sampling_x c, cc_sub_sampling_y c))); [|destruct c; apply parses_ret].
  destruct (cc_color_space c =? CS_RGB); cbn [negb].
  - destruct Hr as (-> & -> & ->). apply (parses_end _ _ _ tt); [|apply parses_ret].
    destruct (odd_profile profile); [apply parses_skip|apply parses_ret].
  - destruct Hr as [Hrange Hsub]. apply parses_field_then; [change (2 ^ Z.of_nat 1) with 2; lia|].
    apply (parses_end _ _ _ (cc_sub_sampling_x c, cc_sub_sampling_y c)); [|apply parses_ret].
    destruct (odd_profile profile); [|destruct Hsub as [-> ->]; apply parses_ret].
    apply parses_field_then; [change (2 ^ Z.of_nat 1) with 2; lia|].
    apply parses_field_then; [change (2 ^ Z.of_nat 1) with 2; lia|].
    apply (parses_end _ _ [false] tt); [apply parses_skip|apply parses_ret].
Qed.

Lemma parses_size s : is_size s -> parses read_size (size_bits s) s.
Proof.
  destruct s as [w h]. intros [Hw Hh]. cbn [fst snd] in *. unfold read_size, size_bits. cbn [fst snd].
  change (2 ^ Z.of_nat 16) with 65536 in *.
  apply parses_field_then; [change (2 ^ Z.of_nat 16) with 65536; lia|].
  apply (parses_end _ _ _ (h - 1)); [apply parses_field; change (2 ^ Z.of_nat 16) with 65536; lia|].
  replace (w - 1 + 1) with w by lia. replace (h - 1 + 1) with h by lia. apply parses_ret.
Qed.

Lemma parses_keyframe profile k :
  is_color profile (ki_color_config k) -> is_size (ki_frame_size k) -> (forall s, ki_render_size k = Some s -> is_size s) ->
  parses (KeyframeInfo_from_reader profile) (keyframe_bits profile k) k.
Proof.
  intros Hc Hf Hr. unfold KeyframeInfo_from_reader, keyframe_bits.
  do 3 (apply parses_field_then; [done|]). rewrite bool_decide_eq_true_2 by done. cbn [negb].
  apply (parses_bind _ _ _ _ _ _ (parses_color _ _ Hc)). apply (parses_bind _ _ _ _ _ _ (parses_size _ Hf)).
  destruct (ki_render_size k) as [s|] eqn:Er.
  - apply (parses_field_then 1 1 _ (size_bits s)); [done|]. change (1 =? 1) with true.
    apply (parses_end _ _ _ (Some s)); [|destruct k; cbn in *; subst; apply parses_ret].
    apply (parses_end _ _ _ s); [by apply parses_size, Hr|apply parses_ret].
  - apply (parses_field_then 1 0 _ []); [done|]. change (0 =? 1) with false.
    apply (parses_end _ _ _ None); [apply parses_ret|destruct k; cbn in *; subst; apply parses_ret].
Qed.

Lemma profile_parts p :
  0 <= p <= 3 -> Z.lor (Z.shiftl (val_of [Z.testbit p 1]) 1) (val_of [Z.testbit p 0]) = p.
Proof. intros Hp. assert (p = 0 \/ p = 1 \/ p = 2 \/ p = 3) as [->|[->|[->| ->]]] by lia; reflexivity. Qed.

Lemma parses_header9 h : is_header9 h -> parses Vp9FrameHeader_from_reader (header_bits9 h) h.
Proof.
  destruct h as [p ex key show res info]. intros [Hp Hh]. cbn [v9h_profile v9h_show_existing_frame v9h_is_keyframe v9h_show_frame
    v9h_error_resilient_mode v9h_keyframe_info] in *. unfold Vp9FrameHeader_from_reader, header_bits9.
  cbn [v9h_profile v9h_show_existing_frame v9h_is_keyframe v9h_show_frame v9h_error_resilient_mode v9h_keyframe_info].
  apply parses_field_then; [done|]. change (2 =? 2) with true. cbn [negb].
  apply (parses_bind _ _ [_] _ _ _ (parses_read [Z.testbit p 0])).
  apply (parses_bind _ _ [_] _ _ _ (parses_read [Z.testbit p 1])). rewrite profile_parts by done. cbv zeta.
  apply (parses_bind _ _ _ _ tt). { destruct (p =? 3); [apply parses_skip|apply parses_ret]. }
  apply parses_bit_then.
  destruct key as [key|], show as [show|], res as [res|]; try done; destruct Hh as [-> Hinfo].
  - do 3 apply parses_bit_then. rewrite negb_involutive. destruct info as [k|].
    + destruct Hinfo as (-> & Hc & Hf & Hr). cbn [negb].
      apply (parses_end _ _ _ k); [by apply parses_keyframe|apply parses_ret].
    + subst key. apply parses_ret.
  - subst info. apply parses_ret.
Qed.
End HeaderLemmas.

(** ** Any input *)
Lemma no_crash_header9 `{BitIO} : no_crash Vp9FrameHeader_from_reader.
Proof.
  unfold Vp9FrameHeader_from_reader, KeyframeInfo_from_reader, ColorConfig_from_reader, read_size, skip_bit_.
  repeat first [progress intros|progress cbv zeta|apply no_crash_bind|apply no_crash_if|solve [auto with flow]].
Qed.
