(* ===== verification/Vp9Pay.v ===== *)
(** * The VP9 payloader

    [vp9/pay/imp.rs] of the RTP plugin: a frame is cut into packets of the
    size there is room for, each with a payload descriptor. *)

From S2P Require Import Prelude Flow BitStream ByteStream RtpBase Vp8Desc Vp9Desc Vp9Frame.

Record Vp9PaySettings := mkVp9PaySettings {
  v9s_picture_id_mode : Vp8PictureIdMode;
  v9s_picture_id_offset : option Z;
}.

(** An input buffer: its data ([None] where mapping fails) and flag. *)
Record Vp9Buffer := mkVp9Buffer {
  v9b_data : option (list Z);
  v9b_delta_unit : bool;
}.

Section Pay.
Context `{ByteIO} `{BitIO} `{RtpBasePay2}.

(** The state of the element is the current picture id. *)
Abbreviation PM := (M (option Vp9PictureId * BasePay)).

(** [picture-id-offset] of [set_property], and [picture-id] of [property]. *)
Definition vp9_set_picture_id_offset (v : Z) (settings : Vp9PaySettings) : Vp9PaySettings :=
  mkVp9PaySettings (v9s_picture_id_mode settings) (if negb (v =? -1) then Some (wrap U16 (Z.land v 32767)) else None).
Definition vp9_picture_id_property (picture_id : option Vp9PictureId) : Z :=
  match picture_id with Some p => Vp8PictureId_into p | None => -1 end.

(** [start]: the picture id offset is drawn at random where none is set. *)
Definition vp9_pay_start (settings : Vp9PaySettings) (random_offset : Z) : PM unit :=
  let picture_id_offset := match v9s_picture_id_offset settings with Some o => o | None => random_offset end in
  upd_ (fun s => (Vp9PictureId_new (v9s_picture_id_mode settings) picture_id_offset, snd s)).

Definition vp9_pay_stop : PM unit := upd_ (fun s => (None, snd s)).

(** Whether the frame is a key frame, by its header or else by the flag. *)
Definition vp9_key_frame (data : list Z) (delta_unit : bool) : flow bool :=
  match run_parser Vp9FrameHeader_from_reader data with
  | Done (frame_header, _) => Done (match v9h_is_keyframe frame_header with Some b => b | None => false end)
  | Fail => Done (negb delta_unit)
  | Crash => Crash
  end.

(** The descriptor of a packet, as it is made at first. *)
Definition vp9_descriptor (picture_id : option Vp9PictureId) (key_frame first : bool) : Vp9PayloadDescriptor :=
  mkVp9PayloadDescriptor picture_id None (negb key_frame) false [] first false None true.

(** One round of the loop: the packet, and how much of [data] it takes. *)
Definition vp9_make_packet (id max_payload_size : Z) (picture_id : option Vp9PictureId) (key_frame first : bool)
    (data : list Z) : PM (PayPacket * Z) :=
  let desc := vp9_descriptor picture_id key_frame first in
  descriptor_size ← of_flow (Vp9PayloadDescriptor_size desc);
  room ← of_option (if descriptor_size + 1 <=? max_payload_size
                    then Some (max_payload_size - (descriptor_size + 1)) else None);
  let payload_size := Z.min (room + 1) (Z.of_nat (length data)) in
  let desc := desc <| v9d_end_of_frame := Z.of_nat (length data) =? payload_size |> in
  bytes ← of_flow (Vp9PayloadDescriptor_bytes desc);
  _ ← of_res (assert_ (Z.of_nat (length bytes) =? descriptor_size));
  mret (mkPayPacket id id (Z.of_nat (length data) =? payload_size) (bytes ++ take (Z.to_nat payload_size) data), payload_size).

(** [while !data.is_empty() { .. }] *)
Fixpoint vp9_packets_loop (fuel : nat) (id max_payload_size : Z) (picture_id : option Vp9PictureId)
    (key_frame first : bool) (data : list Z) : PM unit :=
  match data with
  | [] => mret tt
  | _ =>
      match fuel with
      | O => crash_
      | S fuel =>
          made ← vp9_make_packet id max_payload_size picture_id key_frame first data;
          let '(packet, payload_size) := made in
          _ ← queue_ packet;
          vp9_packets_loop fuel id max_payload_size picture_id key_frame false (drop (Z.to_nat payload_size) data)
      end
  end.

Definition vp9_pay_handle_buffer (buffer : Vp9Buffer) (id : Z) : PM unit :=
  s ← get_;
  let limit := max_payload_size (snd s) in
  data ← of_option (v9b_data buffer);
  let picture_id := fst s in
  key_frame ← of_flow (vp9_key_frame data (v9b_delta_unit buffer));
  _ ← vp9_packets_loop (length data) id limit picture_id key_frame true data;
  next ← match picture_id with
         | Some p => p ← of_res (Vp9PictureId_increment p); mret (Some p)
         | None => mret None
         end;
  upd_ (fun s => (next, snd s)).
End Pay.
