(* ===== verification/Vp9Depay.v ===== *)
(** * The VP9 depayloader

    [vp9/depay/imp.rs] of the RTP plugin: the payloads of the packets from the
    start of a picture up to the marked one are joined. *)

From S2P Require Import Prelude Flow BitStream ByteStream RtpBase Vp8Desc Vp8Depay Vp9Desc Vp9Frame.

Record Vp9DepaySettings := mkVp9DepaySettings {
  v9e_request_keyframe : bool;
  v9e_wait_for_keyframe : bool;
}.

Record Vp9DepayState := mkVp9DepayState {
  v9_last_timestamp : option Z;
  v9_last_picture_id : option Vp9PictureId;
  v9_last_key_picture_payload_descriptor : option Vp9PayloadDescriptor;
  v9_last_keyframe_frame_header : option Vp9FrameHeader;
  v9_current_keyframe_frame_header : option Vp9FrameHeader;
  v9_current_picture_payload_descriptor : option Vp9PayloadDescriptor;
  v9_pending_picture_ext_seqnum : Z;
  v9_pending_picture : list Z;
  v9_needs_discont : bool;
}.

#[export] Instance Vp9DepayState_rebuild : Rebuild Vp9DepayState := {|
  rebuild := fun r => mkVp9DepayState (v9_last_timestamp r) (v9_last_picture_id r)
    (v9_last_key_picture_payload_descriptor r) (v9_last_keyframe_frame_header r) (v9_current_keyframe_frame_header r)
    (v9_current_picture_payload_descriptor r) (v9_pending_picture_ext_seqnum r) (v9_pending_picture r)
    (v9_needs_discont r) |}.

Definition Vp9DepayState_default : Vp9DepayState := mkVp9DepayState None None None None None None 0 [] true.

(** ** What a packet is *)

(** The start of a picture: of a frame, of the first spatial layer if there are layers. *)
Definition is_start_of_picture (desc : Vp9PayloadDescriptor) : bool :=
  v9d_start_of_frame desc &&
  match v9d_layer_index desc with Some layer_index => li_spatial_layer_id layer_index =? 0 | None => true end.

Definition is_key_picture (desc : Vp9PayloadDescriptor) : bool :=
  negb (v9d_inter_picture_predicted_frame desc) && is_start_of_picture desc.

(** [Some(picture_id) != payload_descriptor.picture_id] *)
Definition other_picture (picture_id : Vp9PictureId) (other : option Vp9PictureId) : bool :=
  match other with Some o => negb (Vp9PictureId_eq picture_id o) | None => true end.

(** The packet belongs to another picture than the last one. *)
Definition is_new_picture (state : Vp9DepayState) (packet : DepayPacket) (desc : Vp9PayloadDescriptor) : bool :=
  is_start_of_picture desc
  || negb (bool_decide (v9_last_timestamp state = Some (dp_ext_timestamp packet)))
  || match v9_last_picture_id state with
     | Some picture_id => other_picture picture_id (v9d_picture_id desc)
     | None => false
     end.

(** The checks of a descriptor, against the one of the last key picture and by itself. *)
Definition fits_key_picture (last desc : Vp9PayloadDescriptor) : bool :=
  if match v9d_scalability_structure last with Some s => ss_num_spatial_layers s >? 1 | None => false end
     && negb (v9d_flexible_mode desc) && is_none (v9d_picture_id desc)
  then false
  else negb (negb (is_key_picture desc) && negb (Bool.eqb (v9d_flexible_mode last) (v9d_flexible_mode desc))).

Definition is_valid_descriptor (last : option Vp9PayloadDescriptor) (desc : Vp9PayloadDescriptor) : bool :=
  if negb (match last with Some last => fits_key_picture last desc | None => true end) then false
  else if negb (v9d_inter_picture_predicted_frame desc)
          && match v9d_layer_index desc with Some l => negb (li_temporal_layer_id l =? 0) | None => false end then false
  else negb (v9d_flexible_mode desc && is_none (v9d_picture_id desc)).

(** [keyframe_info.as_ref().map(|keyframe_info| keyframe_info.render_size())] *)
Definition header_render_size (h : Vp9FrameHeader) : option (Z * Z) :=
  option_map KeyframeInfo_render_size (v9h_keyframe_info h).

(** The caps of a key frame are new. *)
Definition caps_changed (last : option Vp9FrameHeader) (current : Vp9FrameHeader) : bool :=
  is_some (v9h_keyframe_info current) &&
  match last with
  | None => true
  | Some last => negb (v9h_profile last =? v9h_profile current)
                 || negb (bool_decide (header_render_size last = header_render_size current))
  end.

Section Depay.
Context `{ByteIO} `{BitIO} `{RtpBaseDepay2}.

Abbreviation DM := (M (Vp9DepayState * BaseDepay)).

Definition on_vp9 (f : Vp9DepayState -> Vp9DepayState) : DM unit := upd_ (fun s => (f (fst s), snd s)).
Definition vp9_depay_reset : DM unit := on_vp9 (fun _ => Vp9DepayState_default).

(** [drop_packet(packet)] *)
Definition vp9_drop_packet (packet : DepayPacket) : DM unit := drop_ (dp_ext_seqnum packet) true.

(** Wait for a key picture, or ask for one; [false]: the packet was dropped. *)
Definition wait_for_key_picture (settings : Vp9DepaySettings) (packet : DepayPacket) (desc : Vp9PayloadDescriptor) : DM bool :=
  s ← get_;
  if is_start_of_picture desc && negb (is_key_picture desc)
     && is_none (v9_last_key_picture_payload_descriptor (fst s)) then
    _ ← (if v9e_request_keyframe settings then on_base push_force_key_unit else mret tt);
    if v9e_wait_for_keyframe settings then
      _ ← vp9_depay_reset; _ ← vp9_drop_packet packet; mret false
    else mret true
  else mret true.

(** The packet is the first one of a picture. *)
Definition start_picture (packet : DepayPacket) (desc : Vp9PayloadDescriptor) : DM unit :=
  s ← get_;
  _ ← of_res (assert_ (bool_decide (v9_pending_picture (fst s) = [])));
  _ ← on_vp9 (fun st => st <| v9_pending_picture_ext_seqnum := dp_ext_seqnum packet |>
                           <| v9_current_picture_payload_descriptor := Some desc |>
                           <| v9_last_timestamp := Some (dp_ext_timestamp packet) |>
                           <| v9_last_picture_id := v9d_picture_id desc |>);
  if is_key_picture desc
  then on_vp9 (fun st => st <| v9_last_key_picture_payload_descriptor := Some desc |>)
  else mret tt.

(** The header of a frame of a key picture. *)
Definition parse_frame_header (desc : Vp9PayloadDescriptor) (rest : list Z) : DM unit :=
  s ← get_;
  if v9d_start_of_frame desc
     && match v9_current_picture_payload_descriptor (fst s) with
        | Some current => negb (v9d_inter_picture_predicted_frame current)
        | None => false
        end
  then match run_parser Vp9FrameHeader_from_reader rest with
       | Done (frame_header, _) => on_vp9 (fun st => st <| v9_current_keyframe_frame_header := Some frame_header |>)
       | Fail => mret tt
       | Crash => crash_
       end
  else mret tt.

(** [if let Some(current_keyframe_frame_header) = state.current_keyframe_frame_header.take() { .. }] *)
Definition vp9_update_caps : DM unit :=
  s ← get_;
  match v9_current_keyframe_frame_header (fst s) with
  | None => mret tt
  | Some current =>
      _ ← on_vp9 (fun st => st <| v9_current_keyframe_frame_header := None |>);
      _ ← (if caps_changed (v9_last_keyframe_frame_header (fst s)) current then
             render_size ← of_res (unwrap (header_render_size current));
             on_base (set_src_caps (VideoCaps (v9h_profile current) (fst render_size) (snd render_size)))
           else mret tt);
      on_vp9 (fun st => st <| v9_last_keyframe_frame_header := Some current |>)
  end.

(** [self.obj().queue_buffer(Seqnums(..), buffer)?] *)
Definition queue_picture (packet : DepayPacket) (buffer : DepayBuffer) : DM unit :=
  fun s =>
    let '(ret, base) := queue_buffer (v9_pending_picture_ext_seqnum (fst s), dp_ext_seqnum packet) buffer (snd s) in
    (ret, (fst s, base)).

(** The picture is complete: a buffer of what was collected. *)
Definition finish_picture (packet : DepayPacket) : DM unit :=
  s ← get_;
  current ← of_res (unwrap (v9_current_picture_payload_descriptor (fst s)));
  _ ← on_vp9 (fun st => st <| v9_current_picture_payload_descriptor := None |>);
  _ ← vp9_update_caps;
  s ← get_;
  let st := fst s in
  let buffer := mkDepayBuffer (v9_pending_picture st) true (v9_needs_discont st) (v9d_inter_picture_predicted_frame current) in
  _ ← on_vp9 (fun st => st <| v9_pending_picture := [] |>
                           <| v9_needs_discont := false |>
                           <| v9_current_picture_payload_descriptor := None |>
                           <| v9_current_keyframe_frame_header := None |>);
  s ← get_;
  _ ← (if negb (has_current_caps (snd s)) then on_base (set_src_caps TemplateCaps) else mret tt);
  queue_picture packet buffer.

Definition vp9_depay_handle_packet (settings : Vp9DepaySettings) (packet : DepayPacket) : DM unit :=
  match run_bytes Vp9PayloadDescriptor_from_reader (dp_payload packet) with
  | Crash => crash_
  | Fail => _ ← vp9_depay_reset; vp9_drop_packet packet
  | Done (desc, rest) =>
      s ← get_;
      _ ← (if is_new_picture (fst s) packet desc && is_some (v9_current_picture_payload_descriptor (fst s))
           then vp9_depay_reset else mret tt);
      s ← get_;
      if negb (is_valid_descriptor (v9_last_key_picture_payload_descriptor (fst s)) desc) then
        _ ← vp9_depay_reset; vp9_drop_packet packet
      else if is_none (v9_current_picture_payload_descriptor (fst s)) && negb (is_start_of_picture desc) then
        _ ← vp9_drop_packet packet; vp9_depay_reset
      else
        go_on ← wait_for_key_picture settings packet desc;
        if negb go_on then mret tt
        else
          _ ← (if is_start_of_picture desc then start_picture packet desc else mret tt);
          _ ← parse_frame_header desc rest;
          _ ← on_vp9 (fun st => st <| v9_pending_picture ::= fun l => l ++ rest |>);
          if negb (dp_marker_bit packet) then mret tt
          else finish_picture packet
  end.

Definition vp9_depay_start : DM unit := vp9_depay_reset.
Definition vp9_depay_stop : DM unit := vp9_depay_reset.
Definition vp9_depay_flush : DM unit := vp9_depay_reset.
Definition vp9_depay_drain : DM unit := mret tt.
End Depay.
