(* ===== verification/Vp9Props.v ===== *)
(** * The VP9 payload format end to end

    The packets of a frame, what the depayloader makes of any packets, and the
    frame it makes of those of the payloader. *)

From S2P Require Import Prelude Flow BitStream ByteStream RtpBase Vp8Desc Vp8Depay Vp9Desc Vp9Frame Vp9Pay Vp9Depay.

(** ** The depayloader on any packet *)

(** No data is pending between two pictures. *)
Definition vp9_inv (st : Vp9DepayState) : Prop :=
  v9_current_picture_payload_descriptor st = None -> v9_pending_picture st = [].

(** The state with the packet as the first one of a picture. *)
Definition started (packet : DepayPacket) (desc : Vp9PayloadDescriptor) (st : Vp9DepayState) : Vp9DepayState :=
  if is_start_of_picture desc then
    let st := st <| v9_pending_picture_ext_seqnum := dp_ext_seqnum packet |>
                 <| v9_current_picture_payload_descriptor := Some desc |>
                 <| v9_last_timestamp := Some (dp_ext_timestamp packet) |>
                 <| v9_last_picture_id := v9d_picture_id desc |> in
    if is_key_picture desc then st <| v9_last_key_picture_payload_descriptor := Some desc |> else st
  else st.

Definition header_read `{BitIO} (desc : Vp9PayloadDescriptor) (rest : list Z) (st : Vp9DepayState) : Vp9DepayState :=
  if v9d_start_of_frame desc
     && match v9_current_picture_payload_descriptor st with
        | Some current => negb (v9d_inter_picture_predicted_frame current)
        | None => false
        end
  then match run_parser Vp9FrameHeader_from_reader rest with
       | Done (h, _) => st <| v9_current_keyframe_frame_header := Some h |>
       | _ => st
       end
  else st.

Definition collected `{BitIO} (packet : DepayPacket) (desc : Vp9PayloadDescriptor) (rest : list Z) (st : Vp9DepayState)
  : Vp9DepayState :=
  (header_read desc rest (started packet desc st)) <| v9_pending_picture ::= fun l => l ++ rest |>.

(** The state after the check for a new picture. *)
Definition entered (packet : DepayPacket) (desc : Vp9PayloadDescriptor) (st : Vp9DepayState) : Vp9DepayState :=
  if is_new_picture st packet desc && is_some (v9_current_picture_payload_descriptor st)
  then Vp9DepayState_default else st.

(** The packet continues a picture, or starts one. *)
Definition continues (desc : Vp9PayloadDescriptor) (st : Vp9DepayState) : Prop :=
  is_start_of_picture desc = true \/ v9_current_picture_payload_descriptor st <> None.

(** The packet need not wait for a key picture. *)
Definition may_go_on (settings : Vp9DepaySettings) (desc : Vp9PayloadDescriptor) (st : Vp9DepayState) : Prop :=
  v9e_wait_for_keyframe settings = false \/ is_start_of_picture desc = false \/ is_key_picture desc = true \/
  v9_last_key_picture_payload_descriptor st <> None.

(** The output caps set before a complete picture is queued. *)
Definition with_caps `{RtpBaseDepay2} (st : Vp9DepayState) (b : BaseDepay) : BaseDepay :=
  let b :=
    match v9_current_keyframe_frame_header st with
    | Some h =>
        if caps_changed (v9_last_keyframe_frame_header st) h then
          match header_render_size h with
          | Some (width, height) => set_src_caps (VideoCaps (v9h_profile h) width height) b
          | None => b
          end
        else b
    | None => b
    end in
  if has_current_caps b then b else set_src_caps TemplateCaps b.

(** The state after a complete picture. *)
Definition finished9 (st : Vp9DepayState) : Vp9DepayState :=
  st <| v9_current_picture_payload_descriptor := None |> <| v9_current_keyframe_frame_header := None |>
     <| v9_last_keyframe_frame_header :=
          match v9_current_keyframe_frame_header st with Some h => Some h | None => v9_last_keyframe_frame_header st end |>
     <| v9_pending_picture := [] |> <| v9_needs_discont := false |>.

(** The buffer of the picture that started with the descriptor [c]. *)
Definition picture_buffer (c : Vp9PayloadDescriptor) (st : Vp9DepayState) : DepayBuffer :=
  mkDepayBuffer (v9_pending_picture st) true (v9_needs_discont st) (v9d_inter_picture_predicted_frame c).

(** The request for a key frame, if there is one. *)
Definition forced `{RtpBaseDepay2} (force : bool) (b : BaseDepay) : BaseDepay := if force then push_force_key_unit b else b.

Section DepayLemmas.
Context `{ByteIOLaws} `{BitIO} `{RtpBaseDepay2}.

Lemma start_picture_ok packet desc st b :
  is_start_of_picture desc = true -> v9_pending_picture st = [] ->
  start_picture packet desc (st, b) = (Done tt, (started packet desc st, b)).
Proof.
  intros Hs Hp. unfold start_picture, started, mbind, M_bind, get_, of_res, assert_, on_vp9, upd_. cbn [fst snd].
  rewrite Hs, Hp, bool_decide_eq_true_2 by done. by destruct (is_key_picture desc).
Qed.

Lemma parse_frame_header_ok desc rest st b :
  parse_frame_header desc rest (st, b) = (Done tt, (header_read desc rest st, b)).
Proof.
  unfold parse_frame_header, header_read, mbind, M_bind, get_, on_vp9, upd_, mret, M_ret. cbn [fst snd].
  match goal with |- context [if ?c then _ else _] => destruct c end; [|done].
  pose proof (run_parser_no_crash Vp9FrameHeader_from_reader rest no_crash_header9) as Hnc.
  by destruct (run_parser Vp9FrameHeader_from_reader rest) as [[h l]| |].
Qed.

(** A complete picture is queued as one buffer. *)
Lemma finish_picture_run packet st b c :
  v9_current_picture_payload_descriptor st = Some c ->
  finish_picture packet (st, b) =
    (let '(ret, b') := queue_buffer (v9_pending_picture_ext_seqnum st, dp_ext_seqnum packet) (picture_buffer c st)
                         (with_caps st b) in (ret, (finished9 st, b'))).
Proof.
  intros Hc. unfold finish_picture, mbind, M_bind, get_, of_res. cbn [fst snd]. rewrite Hc. cbn [unwrap].
  unfold on_vp9 at 1, upd_. cbn [fst snd].
  unfold vp9_update_caps, mbind, M_bind, get_, with_caps, finished9, caps_changed, header_render_size. cbn [fst].
  change (v9_current_keyframe_frame_header (st <| v9_current_picture_payload_descriptor := None |>))
    with (v9_current_keyframe_frame_header st).
  unfold on_vp9, on_base, upd_, mret, M_ret, queue_picture, of_res. cbn [fst snd].
  destruct (v9_current_keyframe_frame_header st) as [h|] eqn:E.
  - destruct (v9h_keyframe_info h) as [k|]; cbn [is_some andb option_map unwrap].
    + change (v9_last_keyframe_frame_header (st <| v9_current_picture_payload_descriptor := None |>))
        with (v9_last_keyframe_frame_header st).
      match goal with |- context [if ?c then _ else _] => destruct c end;
        destruct (KeyframeInfo_render_size k) as [w' h']; cbn [fst snd];
        match goal with |- context [has_current_caps ?b] => destruct (has_current_caps b) end; cbn [negb fst snd]; reflexivity.
    + cbn [fst snd]. destruct (has_current_caps b); reflexivity.
  - cbn [fst snd]. destruct st; cbn in Hc, E; subst; destruct (has_current_caps b); reflexivity.
Qed.

(** A packet that is kept. *)
Lemma kept_packet settings packet desc rest st b :
  run_bytes Vp9PayloadDescriptor_from_reader (dp_payload packet) = Done (desc, rest) ->
  let st0 := entered packet desc st in
  is_valid_descriptor (v9_last_key_picture_payload_descriptor st0) desc = true -> continues desc st0 ->
  may_go_on settings desc st0 -> (is_start_of_picture desc = true -> v9_pending_picture st0 = []) ->
  exists force,
    vp9_depay_handle_packet settings packet (st, b) =
      (if dp_marker_bit packet then finish_picture packet (collected packet desc rest st0, forced force b)
       else (Done tt, (collected packet desc rest st0, forced force b))).
Proof.
  intros Hp st0 Hv Hc Hm Hpend. unfold vp9_depay_handle_packet. rewrite Hp. unfold mbind, M_bind, get_. cbn [fst snd].
  assert (E0 : (if is_new_picture st packet desc && is_some (v9_current_picture_payload_descriptor st)
                then vp9_depay_reset else mret tt) (st, b) = (Done tt, (st0, b))).
  { unfold st0, entered. by destruct (_ && _). }
  rewrite E0. cbn [fst snd]. rewrite Hv. cbn [negb].
  assert (Ec : is_none (v9_current_picture_payload_descriptor st0) && negb (is_start_of_picture desc) = false).
  { destruct Hc as [-> | Hc]; [apply andb_false_r|]. by destruct (v9_current_picture_payload_descriptor st0). }
  rewrite Ec.
  assert (Ew : exists force, wait_for_key_picture settings packet desc (st0, b) = (Done true, (st0, forced force b))).
  { unfold wait_for_key_picture, mbind, M_bind, get_, on_base, upd_, mret, M_ret. cbn [fst snd].
    destruct (is_start_of_picture desc && _ && _) eqn:Eq; [|by exists false].
    rewrite !andb_true_iff, negb_true_iff in Eq. destruct Eq as [[Es Ek] El].
    destruct Hm as [-> | [Hs | [Hk | Hl]]]; [|congruence|congruence|by destruct (v9_last_key_picture_payload_descriptor st0)].
    exists (v9e_request_keyframe settings). by destruct (v9e_request_keyframe settings). }
  destruct Ew as (force & ->). exists force. cbn [negb]. set (b1 := forced force b).
  assert (Es : (if is_start_of_picture desc then start_picture packet desc else mret tt) (st0, b1) =
               (Done tt, (started packet desc st0, b1))).
  { destruct (is_start_of_picture desc) eqn:Es; [by apply start_picture_ok, Hpend|]. unfold started. by rewrite Es. }
  rewrite Es, parse_frame_header_ok. unfold on_vp9, upd_, mret, M_ret. cbn [fst snd]. by destruct (dp_marker_bit packet).
Qed.

Context `{!CollectingDepay}.

Lemma forced_outputs force b : outputs (forced force b) = outputs b.
Proof. destruct force; [apply force_outputs|done]. Qed.

Lemma with_caps_outputs st b : outputs (with_caps st b) = outputs b.
Proof. unfold with_caps. repeat case_match; rewrite ?caps_outputs; done. Qed.

(** A complete picture is one buffer. *)
Lemma finish_picture_spec packet st b c :
  v9_current_picture_payload_descriptor st = Some c ->
  exists b', finish_picture packet (st, b) = (Done tt, (finished9 st, b')) /\ outputs b' = outputs b ++ [picture_buffer c st].
Proof.
  intros Hc. rewrite (finish_picture_run packet st b c Hc).
  match goal with |- context [queue_buffer ?n ?buf ?b] => destruct (queue_outputs n buf b) as (b' & -> & Hq) end.
  exists b'. by rewrite Hq, with_caps_outputs.
Qed.
End DepayLemmas.

(** ** Pictures in a sequence of packets *)

(** The frame data of a packet. *)
Definition data_of `{ByteIO} (packet : DepayPacket) : list Z :=
  match run_bytes Vp9PayloadDescriptor_from_reader (dp_payload packet) with Done (_, rest) => rest | _ => [] end.

(** Packets that start a picture with the descriptor [desc] and all have its
    timestamp, without or with the marked last one. *)
Definition opened `{ByteIO} (desc : Vp9PayloadDescriptor) (ts : Z) (ps : list DepayPacket) : Prop :=
  Forall (fun p => dp_ext_timestamp p = ts) ps /\ is_start_of_picture desc = true /\
  exists p more rest, ps = p :: more /\ run_bytes Vp9PayloadDescriptor_from_reader (dp_payload p) = Done (desc, rest).

Definition unmarked (ps : list DepayPacket) : Prop := Forall (fun p => dp_marker_bit p = false) ps.

(** The buffer of the picture that the packets make. *)
Definition whole_picture `{ByteIO} (ps : list DepayPacket) (buffer : DepayBuffer) : Prop :=
  exists desc ts before last, ps = before ++ [last] /\ opened desc ts ps /\ unmarked before /\ dp_marker_bit last = true /\
    db_bytes buffer = concat (map data_of ps) /\ db_delta_unit buffer = v9d_inter_picture_predicted_frame desc /\
    db_marker buffer = true.

(** The buffers come from pictures in the packets, in this order, without
    sharing a packet; the other packets are left out. *)
Inductive pictures `{ByteIO} : list DepayPacket -> list DepayBuffer -> Prop :=
| pictures_nil : pictures [] []
| pictures_skip p ps bufs : pictures ps bufs -> pictures (p :: ps) bufs
| pictures_picture picture ps buffer bufs :
    whole_picture picture buffer -> pictures ps bufs -> pictures (picture ++ ps) (buffer :: bufs).

(** What the state knows of the packets of the current picture. *)
Definition tracks `{ByteIO} (st : Vp9DepayState) (block : list DepayPacket) : Prop :=
  match v9_current_picture_payload_descriptor st with
  | Some desc => exists ts, opened desc ts block /\ unmarked block /\ v9_last_timestamp st = Some ts /\
      v9_pending_picture st = concat (map data_of block)
  | None => block = [] /\ v9_pending_picture st = []
  end.

(** Packets handed over one by one. *)
Fixpoint feed9 `{ByteIO} `{BitIO} `{RtpBaseDepay2} (settings : Vp9DepaySettings) (ps : list DepayPacket)
  : M (Vp9DepayState * BaseDepay) unit :=
  match ps with
  | [] => mret tt
  | p :: ps => _ ← vp9_depay_handle_packet settings p; feed9 settings ps
  end.

Section AnyPackets.
Context `{ByteIOLaws} `{BitIO} `{RtpBaseDepay2} `{!CollectingDepay}.

Lemma collected_fields packet desc rest st :
  let st1 := collected packet desc rest st in
  v9_pending_picture st1 = v9_pending_picture st ++ rest /\ v9_needs_discont st1 = v9_needs_discont st /\
  v9_current_picture_payload_descriptor st1 =
    (if is_start_of_picture desc then Some desc else v9_current_picture_payload_descriptor st) /\
  v9_last_timestamp st1 = (if is_start_of_picture desc then Some (dp_ext_timestamp packet) else v9_last_timestamp st) /\
  v9_last_picture_id st1 = (if is_start_of_picture desc then v9d_picture_id desc else v9_last_picture_id st) /\
  v9_last_key_picture_payload_descriptor st1 =
    (if is_key_picture desc then Some desc else v9_last_key_picture_payload_descriptor st).
Proof.
  cbv zeta. unfold collected, header_read, started.
  assert (Hk : is_start_of_picture desc = false -> is_key_picture desc = false).
  { intros E. unfold is_key_picture. rewrite E. apply andb_false_r. }
  destruct (is_start_of_picture desc); [clear Hk|rewrite (Hk eq_refl)]; [destruct (is_key_picture desc)|];
    match goal with |- context [if ?c then _ else _] => destruct c end;
    destruct (run_parser Vp9FrameHeader_from_reader rest) as [[h l]| |]; by repeat split.
Qed.

Lemma collected_seqnum packet desc rest st :
  v9_pending_picture_ext_seqnum (collected packet desc rest st) =
    (if is_start_of_picture desc then dp_ext_seqnum packet else v9_pending_picture_ext_seqnum st).
Proof.
  unfold collected, header_read, started. destruct (is_start_of_picture desc); [destruct (is_key_picture desc)|];
    match goal with |- context [if ?c then _ else _] => destruct c end;
    by destruct (run_parser Vp9FrameHeader_from_reader rest) as [[h l]| |].
Qed.

Lemma entered_inv packet desc st : vp9_inv st -> vp9_inv (entered packet desc st).
Proof. unfold entered. by destruct (_ && _). Qed.

Lemma entered_start packet desc st :
  is_start_of_picture desc = true -> v9_current_picture_payload_descriptor (entered packet desc st) = None.
Proof.
  intros Hs. unfold entered, is_new_picture. rewrite Hs. cbn [orb andb].
  by destruct (v9_current_picture_payload_descriptor st) eqn:E.
Qed.

Lemma entered_inside packet desc st :
  is_start_of_picture desc = false -> v9_current_picture_payload_descriptor (entered packet desc st) <> None ->
  entered packet desc st = st /\ v9_last_timestamp st = Some (dp_ext_timestamp packet).
Proof.
  intros Hs. unfold entered. destruct (is_new_picture st packet desc && _) eqn:E; [done|]. intros Hc. split; [done|].
  destruct (v9_current_picture_payload_descriptor st); [|done]. rewrite andb_true_r in E. unfold is_new_picture in E.
  rewrite !orb_false_iff, negb_false_iff, bool_decide_eq_true in E. tauto.
Qed.

(** A packet is left out, and the state starts anew, or it is kept. *)
Lemma handle_packet_cases settings packet st b :
  vp9_inv st ->
  (exists force, vp9_depay_handle_packet settings packet (st, b) =
     (Done tt, (Vp9DepayState_default, drop_packets (dp_ext_seqnum packet) true (forced force b)))) \/
  exists desc rest, run_bytes Vp9PayloadDescriptor_from_reader (dp_payload packet) = Done (desc, rest) /\
    let st0 := entered packet desc st in
    continues desc st0 /\ (is_start_of_picture desc = true -> v9_pending_picture st0 = []) /\
    exists force,
      vp9_depay_handle_packet settings packet (st, b) =
        (if dp_marker_bit packet then finish_picture packet (collected packet desc rest st0, forced force b)
         else (Done tt, (collected packet desc rest st0, forced force b))).
Proof.
  intros Hinv. destruct (run_bytes Vp9PayloadDescriptor_from_reader (dp_payload packet)) as [[desc rest]| |] eqn:Ep.
  2: { left. unfold vp9_depay_handle_packet. rewrite Ep. by exists false. }
  2: { by destruct (run_bytes_no_crash Vp9PayloadDescriptor_from_reader (dp_payload packet) no_crash_desc9). }
  set (st0 := entered packet desc st).
  assert (Hpend : is_start_of_picture desc = true -> v9_pending_picture st0 = []).
  { intros Hs. by apply (entered_inv packet desc st Hinv), entered_start. }
  assert (E0 : (if is_new_picture st packet desc && is_some (v9_current_picture_payload_descriptor st)
                then vp9_depay_reset else mret tt) (st, b) = (Done tt, (st0, b))).
  { unfold st0, entered. by destruct (_ && _). }
  destruct (is_valid_descriptor (v9_last_key_picture_payload_descriptor st0) desc) eqn:Ev.
  2: { left. unfold vp9_depay_handle_packet. rewrite Ep. unfold mbind, M_bind, get_. cbn [fst snd]. rewrite E0. cbn [fst snd].
       rewrite Ev. by exists false. }
  destruct (is_none (v9_current_picture_payload_descriptor st0) && negb (is_start_of_picture desc)) eqn:Ec.
  { left. unfold vp9_depay_handle_packet. rewrite Ep. unfold mbind, M_bind, get_. cbn [fst snd]. rewrite E0. cbn [fst snd].
    rewrite Ev. cbn [negb]. rewrite Ec. by exists false. }
  assert (Hc : continues desc st0).
  { apply andb_false_iff in Ec as [Ec|Ec%negb_false_iff]; [right|by left]. by destruct (v9_current_picture_payload_descriptor st0). }
  destruct (is_start_of_picture desc && negb (is_key_picture desc) && is_none (v9_last_key_picture_payload_descriptor st0)
            && v9e_wait_for_keyframe settings) eqn:Ew.
  { left. rewrite !andb_true_iff in Ew. destruct Ew as [Ek Ew]. rewrite <- !andb_true_iff in Ek.
    unfold vp9_depay_handle_packet. rewrite Ep. unfold mbind, M_bind, get_. cbn [fst snd]. rewrite E0. cbn [fst snd].
    rewrite Ev. cbn [negb]. rewrite Ec. unfold wait_for_key_picture, mbind, M_bind, get_. cbn [fst snd]. rewrite Ek, Ew.
    exists (v9e_request_keyframe settings). by destruct (v9e_request_keyframe settings). }
  right. exists desc, rest. split; [done|]. split; [done|]. split; [done|]. apply kept_packet; [done|done|done| |done].
  rewrite !andb_false_iff, negb_false_iff in Ew. destruct Ew as [[[Hs|Hk]|Hl]|Hw]; [by right; left|by right; right; left| |by left].
  right; right; right. fold st0. by destruct (v9_last_key_picture_payload_descriptor st0).
Qed.

Lemma pictures_skip_all block ps bufs : pictures ps bufs -> pictures (block ++ ps) bufs.
Proof. intros Hp. induction block as [|p block IH]; [done|]. by constructor. Qed.

Lemma tracks_inv st block : tracks st block -> vp9_inv st.
Proof. unfold tracks, vp9_inv. intros Ht Hn. rewrite Hn in Ht. apply Ht. Qed.

(** The packets of the picture with one more. *)
Definition with_packet (block : list DepayPacket) (desc : Vp9PayloadDescriptor) : list DepayPacket :=
  if is_start_of_picture desc then [] else block.

Lemma collected_tracks packet desc rest st block :
  tracks st block -> run_bytes Vp9PayloadDescriptor_from_reader (dp_payload packet) = Done (desc, rest) ->
  let st0 := entered packet desc st in
  continues desc st0 -> (is_start_of_picture desc = true -> v9_pending_picture st0 = []) ->
  let st1 := collected packet desc rest st0 in
  let before := with_packet block desc in
  exists c ts, v9_current_picture_payload_descriptor st1 = Some c /\ opened c ts (before ++ [packet]) /\ unmarked before /\
    v9_last_timestamp st1 = Some ts /\ v9_pending_picture st1 = concat (map data_of (before ++ [packet])).
Proof.
  intros Ht Hp st0 Hc Hpend. cbv zeta. destruct (collected_fields packet desc rest st0) as (E1 & _ & E2 & E3 & _ & _).
  rewrite E1, E2, E3. unfold with_packet. assert (Hd : data_of packet = rest) by (unfold data_of; by rewrite Hp).
  destruct (is_start_of_picture desc) eqn:Es.
  - exists desc, (dp_ext_timestamp packet). rewrite Hpend by done. cbn. rewrite Hd, app_nil_r. split; [done|].
    split; [|by split; [constructor|]]. split; [by constructor|]. split; [done|]. by exists packet, [], rest.
  - destruct Hc as [?|Hc]; [congruence|]. destruct (entered_inside packet desc st Es Hc) as [E0 Hts].
    unfold st0 in *. rewrite E0 in *. unfold tracks in Ht.
    destruct (v9_current_picture_payload_descriptor st) as [c|]; [|done]. destruct Ht as (ts & (Hall & Hs & Hh) & Hu & Hlast & Hpd).
    rewrite Hlast in Hts. injection Hts as Hts. exists c, ts. split; [done|]. split; [|split; [done|split; [done|]]].
    + split; [apply Forall_app_2; [done|by constructor]|]. split; [done|].
      destruct Hh as (p & more & r & -> & Hr). by exists p, (more ++ [packet]), r.
    + by rewrite map_app, concat_app, Hpd, <- Hd; cbn; rewrite app_nil_r.
Qed.

Lemma feed9_pictures settings ps st b block :
  tracks st block ->
  exists st' b' bufs block', feed9 settings ps (st, b) = (Done tt, (st', b')) /\ tracks st' block' /\
    outputs b' = outputs b ++ bufs /\ pictures (block ++ ps) bufs.
Proof.
  revert st b block. induction ps as [|p ps IH]; intros st b block Ht.
  { exists st, b, [], block. split; [done|]. split; [done|]. split; [by rewrite app_nil_r|]. apply pictures_skip_all. constructor. }
  cbn [feed9]. unfold mbind, M_bind.
  destruct (handle_packet_cases settings p st b (tracks_inv _ _ Ht)) as
    [(force & ->)|(desc & rest & Hp & Hc & Hpend & force & ->)].
  { destruct (IH Vp9DepayState_default (drop_packets (dp_ext_seqnum p) true (forced force b)) []) as (st' & b' & bufs & block' & -> & Ht' & Hout & Hpics); [done|].
    exists st', b', bufs, block'. split; [done|]. split; [done|]. split; [by rewrite Hout, drop_outputs, forced_outputs|].
    apply pictures_skip_all. by constructor. }
  destruct (collected_tracks p desc rest st block Ht Hp Hc Hpend) as (c & ts & Hcur & Hop & Hu & Hts & Hpd).
  set (st1 := collected p desc rest (entered p desc st)) in *. set (before := with_packet block desc) in *.
  assert (Hbefore : exists skipped, block = skipped ++ before).
  { unfold before, with_packet. destruct (is_start_of_picture desc); [exists block|exists []]; by rewrite ?app_nil_r. }
  destruct Hbefore as [skipped Hsk]. pose proof (forced_outputs force b) as Hb1. set (b1 := forced force b) in *.
  destruct (dp_marker_bit p) eqn:Em.
  - destruct (finish_picture_spec p st1 b1 c Hcur) as (b2 & -> & Hout2).
    destruct (IH (finished9 st1) b2 []) as (st' & b' & bufs & block' & -> & Ht' & Hout & Hpics); [done|].
    eexists st', b', (_ :: bufs), block'. split; [done|]. split; [done|]. split.
    { rewrite Hout, Hout2, Hb1, <- app_assoc. reflexivity. }
    rewrite Hsk, <- app_assoc. apply pictures_skip_all. replace (before ++ p :: ps) with ((before ++ [p]) ++ ps) by (by rewrite <- app_assoc).
    constructor; [|exact Hpics]. by exists c, ts, before, p.
  - destruct (IH st1 b1 (before ++ [p])) as (st' & b' & bufs & block' & -> & Ht' & Hout & Hpics).
    { unfold tracks. rewrite Hcur. exists ts. split; [done|]. split; [|done]. apply Forall_app_2; [done|by constructor]. }
    exists st', b', bufs, block'. split; [done|]. split; [done|]. split; [by rewrite Hout, Hb1|].
    rewrite Hsk, <- app_assoc. apply pictures_skip_all. by rewrite <- app_assoc in Hpics.
Qed.
End AnyPackets.

(** ** The packets of a frame *)

(** The descriptor of the packet, complete. *)
Definition packet_descriptor (picture_id : option Vp9PictureId) (key_frame first last : bool) : Vp9PayloadDescriptor :=
  (vp9_descriptor picture_id key_frame first) <| v9d_end_of_frame := last |>.

Definition valid_picture_id (picture_id : option Vp9PictureId) : Prop := forall p, picture_id = Some p -> is_vp8_pid p.

(** The length of the descriptors of a frame. *)
Definition descriptor_length (picture_id : option Vp9PictureId) : Z :=
  match picture_id with None => 1 | Some (Vp8SevenBit _) => 2 | Some (Vp8FifteenBit _) => 3 end.

(** The data cut into packets: as much as there is [room] for in each, the
    rest in the last one, which alone is marked. *)
Inductive cut9 (id room : Z) (picture_id : option Vp9PictureId) (key_frame : bool) : bool -> list Z -> list PayPacket -> Prop :=
| cut9_nil first : cut9 id room picture_id key_frame first [] []
| cut9_last first data :
    data <> [] -> Z.of_nat (length data) <= room ->
    cut9 id room picture_id key_frame first data
      [mkPayPacket id id true (desc9_bytes (packet_descriptor picture_id key_frame first true) ++ data)]
| cut9_more first data ps :
    room < Z.of_nat (length data) ->
    cut9 id room picture_id key_frame false (drop (Z.to_nat room) data) ps ->
    cut9 id room picture_id key_frame first data
      (mkPayPacket id id false
         (desc9_bytes (packet_descriptor picture_id key_frame first false) ++ take (Z.to_nat room) data) :: ps).

Section PayLemmas.
Context `{ByteIOLaws} `{BitIO}.

Lemma packet_descriptor_ok picture_id key_frame first last :
  valid_picture_id picture_id -> is_vp9_desc (packet_descriptor picture_id key_frame first last).
Proof. intros Hp. unfold is_vp9_desc, packet_descriptor. cbn. rewrite andb_false_r. done. Qed.

Lemma packet_descriptor_length picture_id key_frame first last :
  Z.of_nat (length (desc9_bytes (packet_descriptor picture_id key_frame first last))) = descriptor_length picture_id.
Proof. by destruct picture_id as [[v|v]|]. Qed.

Lemma packet_descriptor_bytes picture_id key_frame first last :
  valid_picture_id picture_id -> is_bytes (desc9_bytes (packet_descriptor picture_id key_frame first last)).
Proof.
  intros Hp. unfold desc9_bytes. apply Forall_app_2.
  - constructor; [|done].
    match goal with |- context [Vp9PayloadDescriptor_flags ?d] =>
      destruct (flags9_fields (is_some (v9d_picture_id d)) (v9d_inter_picture_predicted_frame d) (v9d_flexible_mode d)
        (is_some (v9d_layer_index d)) (v9d_start_of_frame d) (v9d_end_of_frame d)
        (v9d_not_reference_frame_for_upper_layers d) (is_some (v9d_scalability_structure d)))
        as (_ & _ & _ & _ & _ & _ & _ & _ & Hf) end. exact Hf.
  - cbn. rewrite app_nil_r. destruct picture_id as [p|]; [|constructor]. specialize (Hp p eq_refl). by apply pid_bytes_bytes.
Qed.

Lemma vp9_make_packet_spec `{RtpBasePay2} id limit picture_id key_frame first data (s : option Vp9PictureId * BasePay) :
  valid_picture_id picture_id -> descriptor_length picture_id < limit -> data <> [] ->
  let room := limit - descriptor_length picture_id in
  let n := Z.min room (Z.of_nat (length data)) in
  let last := Z.of_nat (length data) =? n in
  vp9_make_packet id limit picture_id key_frame first data s =
    (Done (mkPayPacket id id last (desc9_bytes (packet_descriptor picture_id key_frame first last) ++ take (Z.to_nat n) data), n), s).
Proof.
  intros Hp Hl Hne room n last. unfold vp9_make_packet, Vp9PayloadDescriptor_size, mbind, M_bind, of_flow, of_option, of_res.
  change (vp9_descriptor picture_id key_frame first) with (packet_descriptor picture_id key_frame first false).
  rewrite desc9_bytes_ok by (by apply packet_descriptor_ok). cbn [fmap_flow]. rewrite packet_descriptor_length.
  rewrite (proj2 (Z.leb_le _ _)) by lia.
  replace (limit - (descriptor_length picture_id + 1) + 1) with room by (unfold room; lia). fold n last.
  change ((packet_descriptor picture_id key_frame first false) <| v9d_end_of_frame := last |>)
    with (packet_descriptor picture_id key_frame first last).
  rewrite desc9_bytes_ok by (by apply packet_descriptor_ok). rewrite packet_descriptor_length, Z.eqb_refl. done.
Qed.

Lemma vp9_packets_loop_spec `{RtpBasePay2} limit good `{!SelectiveBase limit good} id picture_id key_frame fuel first data st base :
  (forall marker payload, payload <> [] -> is_bytes payload -> Z.of_nat (length payload) <= limit ->
    good (mkPayPacket id id marker payload)) ->
  serves base -> is_bytes data -> valid_picture_id picture_id -> descriptor_length picture_id < limit ->
  (length data <= fuel)%nat ->
  exists base' ps, vp9_packets_loop fuel id limit picture_id key_frame first data (st, base) = (Done tt, (st, base')) /\
    serves base' /\ taken base' = taken base ++ ps /\
    cut9 id (limit - descriptor_length picture_id) picture_id key_frame first data ps.
Proof.
  intros Hgood Hbase Hbytes Hp Hl. revert first data base Hbase Hbytes.
  induction fuel as [|fuel IH]; intros first data base Hbase Hbytes Hf.
  { destruct data; [|cbn in Hf; lia]. exists base, []. rewrite app_nil_r. repeat split; [done|constructor]. }
  destruct (decide (data = [])) as [->|Hne]; [exists base, []; rewrite app_nil_r; repeat split; [done|constructor]|].
  assert (Hloop : vp9_packets_loop (S fuel) id limit picture_id key_frame first data =
    (made ← vp9_make_packet id limit picture_id key_frame first data;
     let '(packet, payload_size) := made in
     _ ← queue_ packet;
     vp9_packets_loop fuel id limit picture_id key_frame false (drop (Z.to_nat payload_size) data))) by (by destruct data).
  rewrite Hloop. unfold mbind, M_bind. rewrite vp9_make_packet_spec by done. cbv zeta.
  set (room := limit - descriptor_length picture_id). set (n := Z.min room (Z.of_nat (length data))).
  set (last := Z.of_nat (length data) =? n). unfold queue_. cbn [fst snd].
  assert (Hlen : 1 <= Z.of_nat (length data)) by (destruct data; [done|cbn; lia]).
  assert (Hn : 1 <= n <= Z.of_nat (length data)) by lia.
  match goal with |- context [queue_packet ?p base] =>
    destruct (selective_queue p base Hbase) as (base1 & -> & Hbase1 & Hacc) end.
  { apply Hgood.
    - intros E. apply (f_equal length) in E. rewrite length_app, length_take in E. cbn in E. lia.
    - apply Forall_app_2; [by apply packet_descriptor_bytes|by apply Forall_take].
    - rewrite length_app, length_take. pose proof (packet_descriptor_length picture_id key_frame first last). lia. }
  destruct (IH false (drop (Z.to_nat n) data) base1) as (base' & ps & -> & Hbase' & Hacc' & Hcut);
    [done|by apply Forall_drop|rewrite length_drop; lia|].
  eexists base', (_ :: ps). split; [done|]. split; [done|]. split; [by rewrite Hacc', Hacc, <- app_assoc|].
  destruct (Z.eqb_spec (Z.of_nat (length data)) n) as [E|E].
  - rewrite drop_ge in Hcut by lia. inversion Hcut; subst ps; [|done|cbn in *; lia].
    unfold last. rewrite take_ge by lia. apply cut9_last; [done|lia].
  - unfold last. assert (n = room) as -> by lia. apply cut9_more; [lia|exact Hcut].
Qed.

(** How many packets that is, and that none is too long. *)
Lemma cut9_count id room picture_id key_frame first data ps :
  0 < room -> cut9 id room picture_id key_frame first data ps ->
  Z.of_nat (length ps) = (Z.of_nat (length data) + room - 1) / room /\
  Forall (fun p => Z.of_nat (length (pp_payload p)) <= room + descriptor_length picture_id) ps.
Proof.
  intros Hr. induction 1 as [|first data Hne Hlen|first data ps Hlen Hcut [IH1 IH2]].
  - split; [|done]. cbn. symmetry. apply Z.div_small. lia.
  - split.
    + assert (1 <= Z.of_nat (length data)) by (destruct data; [done|cbn; lia]).
      cbn. apply Z.div_unique with (r := Z.of_nat (length data) - 1); lia.
    + constructor; [|done]. cbn [pp_payload]. rewrite length_app. pose proof (packet_descriptor_length picture_id key_frame first true). lia.
  - split.
    + cbn [length]. rewrite Nat2Z.inj_succ, IH1, length_drop.
      replace (Z.of_nat (length data) + room - 1) with (Z.of_nat (length data - Z.to_nat room) + room - 1 + 1 * room) by lia.
      rewrite Z.div_add by lia. lia.
    + constructor; [|done]. cbn [pp_payload]. rewrite length_app, length_take.
      pose proof (packet_descriptor_length picture_id key_frame first false). lia.
Qed.

Lemma vp9_key_frame_ok data delta_unit : exists key_frame, vp9_key_frame data delta_unit = Done key_frame.
Proof.
  unfold vp9_key_frame. pose proof (run_parser_no_crash Vp9FrameHeader_from_reader data no_crash_header9) as Hn.
  destruct (run_parser Vp9FrameHeader_from_reader data) as [[h l]| |]; [by eexists|by eexists|done].
Qed.

Lemma vp9_pay_spec `{RtpBasePay2} limit good `{!SelectiveBase limit good} buffer id picture_id base data :
  (forall marker payload, payload <> [] -> is_bytes payload -> Z.of_nat (length payload) <= limit ->
    good (mkPayPacket id id marker payload)) ->
  serves base -> descriptor_length picture_id < limit -> v9b_data buffer = Some data -> is_bytes data ->
  valid_picture_id picture_id ->
  exists key_frame picture_id' base' ps,
    vp9_key_frame data (v9b_delta_unit buffer) = Done key_frame /\
    vp9_pay_handle_buffer buffer id (picture_id, base) = (Done tt, (picture_id', base')) /\
    serves base' /\ taken base' = taken base ++ ps /\ valid_picture_id picture_id' /\
    cut9 id (limit - descriptor_length picture_id) picture_id key_frame true data ps /\
    match picture_id with
    | Some p => exists p', Vp9PictureId_increment p = Ok p' /\ picture_id' = Some p'
    | None => picture_id' = None
    end.
Proof.
  intros Hgood Hbase Hl Hdata Hbytes Hp. destruct (vp9_key_frame_ok data (v9b_delta_unit buffer)) as (key & Hkey).
  unfold vp9_pay_handle_buffer, mbind, M_bind, get_, of_option, of_flow. cbn [fst snd]. rewrite Hdata, Hkey, selective_size by done.
  destruct (vp9_packets_loop_spec limit good id picture_id key (length data) true data picture_id base Hgood Hbase Hbytes Hp Hl)
    as (base' & ps & -> & Hbase' & Hacc & Hcut); [lia|].
  exists key. destruct picture_id as [p|]; unfold mret, M_ret, of_res, upd_; cbn [fst snd].
  - destruct (increment_ok p (Hp p eq_refl)) as (p' & E & Hp'). unfold Vp9PictureId_increment. rewrite E.
    exists (Some p'), base', ps. split; [done|]. split; [done|]. split; [done|]. split; [done|].
    split; [by intros ? [= <-]|]. split; [done|]. by exists p'.
  - by exists None, base', ps.
Qed.
End PayLemmas.

(** ** From the payloader to the depayloader *)

(** Packets of a payloader as the base class hands them over: numbered from
    [seqnum], with one timestamp. *)
Fixpoint depay_packets (ts seqnum : Z) (ps : list PayPacket) : list DepayPacket :=
  match ps with
  | [] => []
  | p :: ps => mkDepayPacket (pp_payload p) ts seqnum (pp_marker_bit p) :: depay_packets ts (seqnum + 1) ps
  end.

(** The last key picture seen, if any, allows non-flexible pictures with or without ids. *)
Definition allows (last : option Vp9PayloadDescriptor) (picture_id : option Vp9PictureId) (key_frame : bool) : Prop :=
  forall d, last = Some d ->
    (key_frame = true \/ v9d_flexible_mode d = false) /\
    (picture_id <> None \/ forall s, v9d_scalability_structure d = Some s -> ss_num_spatial_layers s <= 1).

(** A key frame may be passed on; another one if none is waited for or one was seen. *)
Definition may_start9 (settings : Vp9DepaySettings) (key_frame : bool) (st : Vp9DepayState) : Prop :=
  v9e_wait_for_keyframe settings = false \/ key_frame = true \/ v9_last_key_picture_payload_descriptor st <> None.

Section Roundtrip.
Context `{ByteIOLaws} `{BitIO} `{RtpBaseDepay2}.

Lemma parse_descriptor9 d chunk :
  is_vp9_desc d -> run_bytes Vp9PayloadDescriptor_from_reader (desc9_bytes d ++ chunk) = Done (d, chunk).
Proof. intros Hd. by apply run_bytes_consumes, consumes_desc9. Qed.

Lemma allowed_valid last picture_id key_frame first l :
  allows last picture_id key_frame -> (first = false -> forall d, last = Some d -> v9d_flexible_mode d = false) ->
  is_valid_descriptor last (packet_descriptor picture_id key_frame first l) = true.
Proof.
  intros Ha Hf. unfold is_valid_descriptor. cbn. rewrite andb_false_r. cbn [negb].
  destruct last as [d|]; [|done]. destruct (Ha d eq_refl) as [Hk Hs]. unfold fits_key_picture, is_key_picture, is_start_of_picture. cbn.
  rewrite negb_involutive, !andb_true_r.
  assert (E : match v9d_scalability_structure d with Some s => ss_num_spatial_layers s >? 1 | None => false end && is_none picture_id = false).
  { destruct Hs as [Hs|Hs]; [destruct picture_id; [apply andb_false_r|done]|].
    destruct (v9d_scalability_structure d) as [s|]; [|done]. specialize (Hs s eq_refl).
    rewrite Z.gtb_ltb, (proj2 (Z.ltb_ge _ _)) by lia. done. }
  rewrite E. destruct first; [|rewrite (Hf eq_refl d eq_refl); by destruct key_frame].
  destruct Hk as [-> | ->]; [done|by destruct key_frame].
Qed.

Lemma Vp9PictureId_eq_refl p : Vp9PictureId_eq p p = true.
Proof. destruct p; cbn; apply Z.eqb_refl. Qed.

(** The depayloader in a picture of the payloader. *)
Definition inside (ts : Z) (picture_id : option Vp9PictureId) (key_frame : bool) (c : Vp9PayloadDescriptor) (st : Vp9DepayState) : Prop :=
  v9_current_picture_payload_descriptor st = Some c /\ v9_last_timestamp st = Some ts /\ v9_last_picture_id st = picture_id /\
  allows (v9_last_key_picture_payload_descriptor st) picture_id key_frame /\
  (forall d, v9_last_key_picture_payload_descriptor st = Some d -> v9d_flexible_mode d = false).

Lemma inside_packet9 settings ts seqnum picture_id key_frame last chunk st b c :
  valid_picture_id picture_id -> inside ts picture_id key_frame c st ->
  let d := packet_descriptor picture_id key_frame false last in
  let packet := mkDepayPacket (desc9_bytes d ++ chunk) ts seqnum last in
  let st1 := collected packet d chunk st in
  inside ts picture_id key_frame c st1 /\ v9_pending_picture st1 = v9_pending_picture st ++ chunk /\
  v9_needs_discont st1 = v9_needs_discont st /\
  v9_last_key_picture_payload_descriptor st1 = v9_last_key_picture_payload_descriptor st /\
  v9_pending_picture_ext_seqnum st1 = v9_pending_picture_ext_seqnum st /\
  exists force, vp9_depay_handle_packet settings packet (st, b) =
    (if last then finish_picture packet (st1, forced force b) else (Done tt, (st1, forced force b))).
Proof.
  intros Hp (Hc & Hts & Hpid & Ha & Hflex) d packet.
  assert (Hent : entered packet d st = st).
  { unfold entered, is_new_picture, is_start_of_picture, d. cbn. rewrite Hts, bool_decide_eq_true_2, Hpid by done. cbn.
    destruct picture_id as [p|]; [|done]. cbn. by rewrite Vp9PictureId_eq_refl. }
  destruct (kept_packet settings packet d chunk st b) as (force & E);
    [by apply parse_descriptor9, packet_descriptor_ok|rewrite Hent; by apply allowed_valid|
     right; rewrite Hent; congruence|right; by left|done|].
  destruct (collected_fields packet d chunk st) as (E1 & E2 & E3 & E4 & E5 & E6).
  assert (Hk : is_key_picture d = false) by (unfold is_key_picture, is_start_of_picture, d; cbn; apply andb_false_r).
  change (is_start_of_picture d) with false in *. rewrite Hk in E6. rewrite Hent in E. cbv zeta.
  split; [unfold inside; by rewrite E3, E4, E5, E6|]. split; [done|]. split; [done|]. split; [done|].
  split; [|by exists force]. apply collected_seqnum.
Qed.

(** Packets inside a picture. *)
Lemma rest_of_picture `{!CollectingDepay} settings ts id room picture_id key_frame data ps :
  cut9 id room picture_id key_frame false data ps -> data <> [] -> valid_picture_id picture_id ->
  forall seqnum st b c, inside ts picture_id key_frame c st ->
  exists st' b', feed9 settings (depay_packets ts seqnum ps) (st, b) = (Done tt, (st', b')) /\
    v9_current_picture_payload_descriptor st' = None /\ v9_pending_picture st' = [] /\ v9_needs_discont st' = false /\
    v9_last_key_picture_payload_descriptor st' = v9_last_key_picture_payload_descriptor st /\
    outputs b' = outputs b ++
      [mkDepayBuffer (v9_pending_picture st ++ data) true (v9_needs_discont st) (v9d_inter_picture_predicted_frame c)].
Proof.
  intros Hcut Hne Hp. remember false as first eqn:Ef.
  induction Hcut as [|first data _ Hlen|first data ps Hlen Hcut IH]; subst first; intros seqnum st b c Hin; [done| |];
    cbn [depay_packets feed9 pp_payload pp_marker_bit]; unfold mbind, M_bind.
  - destruct (inside_packet9 settings ts seqnum picture_id key_frame true data st b c Hp Hin) as (Hin1 & E1 & E2 & E3 & _ & force & ->).
    match goal with |- context [finish_picture ?p (?s, ?b1)] =>
      destruct (finish_picture_spec p s b1 c (proj1 Hin1)) as (b' & -> & Hout) end.
    eexists _, b'. split; [reflexivity|]. split; [done|]. split; [done|]. split; [done|]. split; [exact E3|].
    unfold picture_buffer in Hout. by rewrite Hout, forced_outputs, E1, E2.
  - destruct (inside_packet9 settings ts seqnum picture_id key_frame false (take (Z.to_nat room) data) st b c Hp Hin)
      as (Hin1 & E1 & E2 & E3 & _ & force & ->).
    destruct (IH) with (seqnum := seqnum + 1) (b := forced force b) (1 := eq_refl false) (3 := Hin1)
      as (st' & b' & -> & Hn & Hpd & Hnd & Hk & Hout).
    { intros E0. apply (f_equal length) in E0. rewrite length_drop in E0. destruct data; [done|]. cbn in *. lia. }
    exists st', b'. split; [done|]. split; [done|]. split; [done|]. split; [done|]. split; [by rewrite Hk|].
    by rewrite Hout, forced_outputs, E1, E2, <- app_assoc, take_drop.
Qed.

(** The first packet of a picture. *)
Lemma first_packet9 settings ts seqnum picture_id key_frame last chunk st b :
  valid_picture_id picture_id -> v9_current_picture_payload_descriptor st = None -> v9_pending_picture st = [] ->
  allows (v9_last_key_picture_payload_descriptor st) picture_id key_frame -> may_start9 settings key_frame st ->
  let d := packet_descriptor picture_id key_frame true last in
  let packet := mkDepayPacket (desc9_bytes d ++ chunk) ts seqnum last in
  let st1 := collected packet d chunk st in
  inside ts picture_id key_frame d st1 /\ v9_pending_picture st1 = chunk /\ v9_needs_discont st1 = v9_needs_discont st /\
  v9_last_key_picture_payload_descriptor st1 =
    (if key_frame then Some d else v9_last_key_picture_payload_descriptor st) /\
  v9_pending_picture_ext_seqnum st1 = seqnum /\
  exists force, vp9_depay_handle_packet settings packet (st, b) =
    (if last then finish_picture packet (st1, forced force b) else (Done tt, (st1, forced force b))).
Proof.
  intros Hp Hc Hpend Ha Hm d packet.
  assert (Hent : entered packet d st = st) by (unfold entered; by rewrite Hc, andb_false_r).
  assert (Hk : is_key_picture d = key_frame).
  { unfold is_key_picture, is_start_of_picture, d. cbn. by rewrite andb_true_r, negb_involutive. }
  destruct (kept_packet settings packet d chunk st b) as (force & E);
    [by apply parse_descriptor9, packet_descriptor_ok|rewrite Hent; by apply allowed_valid|by left| |by rewrite Hent|].
  { rewrite Hent. unfold may_go_on. rewrite Hk. destruct Hm as [?|[?|?]]; tauto. }
  destruct (collected_fields packet d chunk st) as (E1 & E2 & E3 & E4 & E5 & E6).
  change (is_start_of_picture d) with true in *. rewrite Hk in E6. rewrite Hent in E. cbv zeta.
  split; [|rewrite Hpend in E1; by repeat (split; [first [done|apply collected_seqnum]|]); exists force].
  unfold inside. rewrite E3, E4, E5, E6. split; [done|]. split; [done|]. split; [done|].
  destruct key_frame; [|split; [done|]].
  - split; [intros ? [= <-]; cbn; split; [by left|right; done]|by intros ? [= <-]].
  - intros d0 Hd0. by destruct (Ha d0 Hd0) as [[?|?] _].
Qed.

(** All packets of a frame. *)
Lemma whole_picture9 `{!CollectingDepay} settings ts id room picture_id key_frame data ps seqnum st b :
  cut9 id room picture_id key_frame true data ps -> data <> [] -> valid_picture_id picture_id ->
  v9_current_picture_payload_descriptor st = None -> v9_pending_picture st = [] ->
  allows (v9_last_key_picture_payload_descriptor st) picture_id key_frame -> may_start9 settings key_frame st ->
  exists st' b', feed9 settings (depay_packets ts seqnum ps) (st, b) = (Done tt, (st', b')) /\
    v9_current_picture_payload_descriptor st' = None /\ v9_pending_picture st' = [] /\ v9_needs_discont st' = false /\
    (key_frame = true \/ v9_last_key_picture_payload_descriptor st' = v9_last_key_picture_payload_descriptor st) /\
    (key_frame = true -> v9_last_key_picture_payload_descriptor st' <> None) /\
    outputs b' = outputs b ++ [mkDepayBuffer data true (v9_needs_discont st) (negb key_frame)].
Proof.
  intros Hcut Hne Hp Hc Hpend Ha Hm. inversion Hcut as [|? ? _ Hlen|? ? ps' Hlen Hcut']; subst; [done| |];
    cbn [depay_packets feed9 pp_payload pp_marker_bit]; unfold mbind, M_bind.
  - destruct (first_packet9 settings ts seqnum picture_id key_frame true data st b Hp Hc Hpend Ha Hm)
      as (Hin1 & E1 & E2 & E3 & _ & force & ->).
    match goal with |- context [finish_picture ?p (?s, ?b1)] =>
      destruct (finish_picture_spec p s b1 _ (proj1 Hin1)) as (b' & -> & Hout) end.
    eexists _, b'. split; [reflexivity|]. split; [done|]. split; [done|]. split; [done|].
    cbn [finished9 v9_last_key_picture_payload_descriptor modify rebuild Vp9DepayState_rebuild].
    rewrite E3. split; [destruct key_frame; [by left|by right]|]. split; [by intros -> |].
    unfold picture_buffer in Hout. by rewrite Hout, forced_outputs, E1, E2.
  - destruct (first_packet9 settings ts seqnum picture_id key_frame false (take (Z.to_nat room) data) st b Hp Hc Hpend Ha Hm)
      as (Hin1 & E1 & E2 & E3 & _ & force & ->).
    destruct (rest_of_picture settings ts _ _ _ _ _ _ Hcut') with (seqnum := seqnum + 1) (b := forced force b) (3 := Hin1)
      as (st' & b' & -> & Hn & Hpd & Hnd & Hk & Hout); [|done|].
    { intros E0. apply (f_equal length) in E0. rewrite length_drop in E0. destruct data; [done|]. cbn in *. lia. }
    exists st', b'. split; [done|]. split; [done|]. split; [done|]. split; [done|].
    rewrite Hk, E3. split; [destruct key_frame; [by left|by right]|]. split; [by intros -> |].
    by rewrite Hout, forced_outputs, E1, E2, take_drop.
Qed.
End Roundtrip.

(** ** Theorems *)

(** VP9 payload descriptors without reference indices survive the wire: a
    descriptor whose fields fit is written, in as many bytes as [size] says, and
    read back with nothing of what follows consumed. *)
Lemma vp9_descriptor_roundtrip `{ByteIOLaws} (d : Vp9PayloadDescriptor) (rest : list Z) :
  is_vp9_desc d ->
  exists bytes, Vp9PayloadDescriptor_bytes d = Done bytes /\
    Vp9PayloadDescriptor_size d = Done (Z.of_nat (length bytes)) /\
    run_bytes Vp9PayloadDescriptor_from_reader (bytes ++ rest) = Done (d, rest).
Proof.
  intros Hd. exists (desc9_bytes d). unfold Vp9PayloadDescriptor_size. rewrite desc9_bytes_ok by done.
  split; [done|]. split; [done|]. by apply parse_descriptor9.
Qed.

(** VP9 frames survive the wire. The packets the payloader makes of a frame,
    whatever its bytes and with or without picture ids, given room for the
    descriptor and one byte, give a depayloader between two pictures exactly that
    frame, in one buffer flagged as key frame or delta unit as the payloader
    found it, and leave it between two pictures again; the depayloader must not
    be waiting for a key frame, and the last key picture must allow such packets. *)
Lemma vp9_roundtrip `{ByteIOLaws} `{BitIO} `{RtpBasePay2} `{RtpBaseDepay2} `{!CollectingDepay}
    (limit : Z) `{!AcceptingBase limit} buffer id picture_id base data key_frame settings ts seqnum st b :
  descriptor_length picture_id < limit -> v9b_data buffer = Some data -> is_bytes data -> data <> [] ->
  valid_picture_id picture_id -> vp9_key_frame data (v9b_delta_unit buffer) = Done key_frame ->
  v9_current_picture_payload_descriptor st = None -> v9_pending_picture st = [] ->
  allows (v9_last_key_picture_payload_descriptor st) picture_id key_frame -> may_start9 settings key_frame st ->
  exists picture_id' base' ps st' b',
    vp9_pay_handle_buffer buffer id (picture_id, base) = (Done tt, (picture_id', base')) /\
    accepted base' = accepted base ++ ps /\
    feed9 settings (depay_packets ts seqnum ps) (st, b) = (Done tt, (st', b')) /\
    v9_current_picture_payload_descriptor st' = None /\ v9_pending_picture st' = [] /\
    outputs b' = outputs b ++ [mkDepayBuffer data true (v9_needs_discont st) (negb key_frame)].
Proof.
  intros Hl Hdata Hbytes Hne Hp Hkey Hc Hpend Ha Hm.
  destruct (vp9_pay_spec limit (fun _ => True) (SelectiveBase0 := accepting_selective limit) buffer id picture_id base data
    ltac:(done) I Hl Hdata Hbytes Hp) as (key & pid' & base' & ps & Hkey' & Hpay & _ & Hacc & _ & Hcut & _).
  rewrite Hkey in Hkey'. injection Hkey' as <-.
  destruct (whole_picture9 settings ts id _ picture_id key_frame data ps seqnum st b Hcut Hne Hp Hc Hpend Ha Hm)
    as (st' & b' & Hfeed & Hn & Hpd & _ & _ & _ & Hout).
  by exists pid', base', ps, st', b'.
Qed.

(** The packets of a VP9 frame. With room for the descriptor and one byte the
    payloader cuts any frame into as few packets as there can be with that
    descriptor, none longer than allowed, as [cut9] says; then the picture id has
    moved on. Without that room it fails, and has queued nothing. *)
Lemma vp9_frame_cut `{ByteIOLaws} `{BitIO} `{RtpBasePay2} (limit : Z) `{!AcceptingBase limit} buffer id picture_id base data :
  v9b_data buffer = Some data -> is_bytes data -> valid_picture_id picture_id ->
  let room := limit - descriptor_length picture_id in
  (0 < room ->
   exists key_frame picture_id' base' ps,
     vp9_key_frame data (v9b_delta_unit buffer) = Done key_frame /\
     vp9_pay_handle_buffer buffer id (picture_id, base) = (Done tt, (picture_id', base')) /\
     accepted base' = accepted base ++ ps /\ cut9 id room picture_id key_frame true data ps /\
     Z.of_nat (length ps) = (Z.of_nat (length data) + room - 1) / room /\
     Forall (fun p => Z.of_nat (length (pp_payload p)) <= limit) ps /\ valid_picture_id picture_id') /\
  (room <= 0 -> data <> [] -> vp9_pay_handle_buffer buffer id (picture_id, base) = (Fail, (picture_id, base))).
Proof.
  intros Hdata Hbytes Hp room. split.
  - intros Hr. destruct (vp9_pay_spec limit (fun _ => True) (SelectiveBase0 := accepting_selective limit) buffer id picture_id base data
      ltac:(done) I ltac:(lia) Hdata Hbytes Hp) as (key & pid' & base' & ps & Hkey & Hpay & _ & Hacc & Hp' & Hcut & _).
    destruct (cut9_count _ _ _ _ _ _ _ Hr Hcut) as [Hcount Hall]. exists key, pid', base', ps.
    split; [done|]. split; [done|]. split; [done|]. split; [done|]. split; [done|]. split; [|done].
    eapply Forall_impl; [exact Hall|]. cbn. intros p Hpp. lia.
  - intros Hr Hne. destruct (vp9_key_frame_ok data (v9b_delta_unit buffer)) as (key & Hkey).
    unfold vp9_pay_handle_buffer, mbind, M_bind, get_, of_option, of_flow. cbn [fst snd]. rewrite Hdata, Hkey, accepting_size.
    destruct data as [|x data]; [done|]. cbn [vp9_packets_loop length]. unfold mbind, M_bind, vp9_make_packet.
    unfold Vp9PayloadDescriptor_size, mbind, M_bind, of_flow, of_option.
    change (vp9_descriptor picture_id key true) with (packet_descriptor picture_id key true false).
    rewrite desc9_bytes_ok by (by apply packet_descriptor_ok). cbn [fmap_flow]. rewrite packet_descriptor_length.
    by rewrite (proj2 (Z.leb_gt _ _)) by lia.
Qed.

(** C13: what the VP9 depayloader makes of any packets. Whatever packets arrive,
    with whatever bytes, it does not panic, and every buffer it passes on is a
    picture: the frame data of consecutive packets, the first of which starts a
    picture and the last of which alone is marked, all with one timestamp, with
    the flag the first one gives; pictures come out in order and share no packet. *)
Theorem vp9_depay_pictures `{ByteIOLaws} `{BitIO} `{RtpBaseDepay2} `{!CollectingDepay} settings packets b :
  exists st' b' bufs,
    feed9 settings packets (Vp9DepayState_default, b) = (Done tt, (st', b')) /\
    outputs b' = outputs b ++ bufs /\ pictures packets bufs /\ vp9_inv st'.
Proof.
  destruct (feed9_pictures settings packets Vp9DepayState_default b []) as (st' & b' & bufs & block & E & Ht & Hout & Hpics); [done|].
  exists st', b', bufs. split; [done|]. split; [done|]. split; [done|]. by apply tracks_inv in Ht.
Qed.

(** The header of a frame is read back from its bits, whatever follows. *)
Lemma vp9_header_roundtrip `{BitIOLaws} h bytes rest :
  is_header9 h -> bytes_bits bytes = header_bits9 h ++ rest ->
  exists left, run_parser Vp9FrameHeader_from_reader bytes = Done (h, left).
Proof.
  intros Hh Hb. unfold run_parser. destruct (parses_header9 h Hh (reader_endian bytes) rest) as (r & -> & _).
  { by rewrite unread_endian. }
  by eexists.
Qed.

(** ** Examples *)

(** A key frame of 640 by 360 pixels. *)
Definition example_header9 : Vp9FrameHeader :=
  mkVp9FrameHeader 0 false (Some true) (Some true) (Some false)
    (Some (mkKeyframeInfo (mkColorConfig 8 1 0 1 1) (640, 360) None)).
Definition example_frame9 : list Z := [130; 73; 131; 66; 32; 39; 240; 22; 112] ++ map Z.of_nat (seq 1 20).

Lemma example_frame9_bytes : is_bytes example_frame9.
Proof. apply (bool_decide_unpack _). vm_compute. exact I. Qed.

Definition example_pid9 : option Vp9PictureId := Some (Vp8FifteenBit 32767).

Lemma example_pid9_valid : valid_picture_id example_pid9.
Proof. by intros ? [= <-]. Qed.

Example vp9_header_roundtrip_example :
  exists left, @run_parser bits_exact _ (@Vp9FrameHeader_from_reader bits_exact) example_frame9 = Done (example_header9, left).
Proof.
  apply (@vp9_header_roundtrip bits_exact bits_exact_laws example_header9 example_frame9
    (drop (length (header_bits9 example_header9)) (bytes_bits example_frame9))).
  - by vm_compute.
  - vm_compute. reflexivity.
Qed.

(** With layers, resolutions and descriptions of two pictures. *)
Definition example_descriptor9 : Vp9PayloadDescriptor :=
  mkVp9PayloadDescriptor (Some (Vp8FifteenBit 4711)) (Some (mkLayerIndex 0 true 2 true (Some 17))) false false [] true false
    (Some (mkScalabilityStructure 2 [(320, 180); (640, 360)] [mkPictureDescription 0 false [1]; mkPictureDescription 1 true [1; 2; 3]]))
    true.

Example vp9_descriptor_roundtrip_example :
  exists bytes, @Vp9PayloadDescriptor_bytes bytes_exact example_descriptor9 = Done bytes /\
    @run_bytes bytes_exact _ (@Vp9PayloadDescriptor_from_reader bytes_exact) (bytes ++ [1; 2]) =
      Done (example_descriptor9, [1; 2]).
Proof.
  destruct (@vp9_descriptor_roundtrip bytes_exact bytes_exact_laws example_descriptor9 [1; 2]) as (bytes & Hb & _ & Hr).
  - unfold is_vp9_desc. cbn. split; [by intros ? [= <-]|]. split; [intros ? [= <-]; unfold is_layer; cbn; by repeat split|].
    split; [done|]. split; [done|]. intros ? [= <-]. unfold is_scalability. cbn. split; [lia|]. split; [by right|].
    split; [by repeat constructor|]. split; [lia|].
    constructor; [|constructor; [|done]]; unfold is_picture; cbn; (split; [lia|]); (split; [lia|]); by repeat constructor.
  - exists bytes. split; [exact Hb|exact Hr].
Qed.

Lemma vp9_frame_cut_witness :
  exists key_frame pid' ps,
    @vp9_pay_handle_buffer bytes_exact bits_exact (keep_packets 13) (mkVp9Buffer (Some example_frame9) true) 7 (example_pid9, []) =
      (Done tt, (pid', ps)) /\
    cut9 7 10 example_pid9 key_frame true example_frame9 ps /\ length ps = 3%nat.
Proof.
  destruct (@vp9_frame_cut bytes_exact bytes_exact_laws bits_exact (keep_packets 13) 13 (keep_packets_accepting 13)
    (mkVp9Buffer (Some example_frame9) true) 7 example_pid9 [] example_frame9) as [Hok _].
  - reflexivity.
  - exact example_frame9_bytes.
  - exact example_pid9_valid.
  - destruct Hok as (key & pid' & base' & ps & _ & Hpay & Hacc & Hcut & Hcount & _); [reflexivity|].
    change (base' = ps) in Hacc. subst base'. exists key, pid', ps. split; [exact Hpay|]. split; [exact Hcut|].
    change ((Z.of_nat (length example_frame9) + (13 - descriptor_length example_pid9) - 1) / (13 - descriptor_length example_pid9))
      with 3 in Hcount. lia.
Defined.

Lemma vp9_roundtrip_witness :
  exists pid' ps st',
    @vp9_pay_handle_buffer bytes_exact bits_exact (keep_packets 13) (mkVp9Buffer (Some example_frame9) true) 7 (example_pid9, []) =
      (Done tt, (pid', ps)) /\
    @feed9 bytes_exact bits_exact keep_buffers (mkVp9DepaySettings true true) (depay_packets 3 4 ps) (Vp9DepayState_default, []) =
      (Done tt, (st', [mkDepayBuffer example_frame9 true true false])).
Proof.
  destruct (@vp9_roundtrip bytes_exact bytes_exact_laws bits_exact (keep_packets 13) keep_buffers keep_buffers_collecting 13
    (keep_packets_accepting 13) (mkVp9Buffer (Some example_frame9) true) 7 example_pid9 [] example_frame9 true
    (mkVp9DepaySettings true true) 3 4 Vp9DepayState_default []) as (pid' & base' & ps & st' & b' & Hpay & Hacc & Hfeed & _ & _ & Hout).
  - reflexivity.
  - reflexivity.
  - exact example_frame9_bytes.
  - discriminate.
  - exact example_pid9_valid.
  - vm_compute. reflexivity.
  - reflexivity.
  - reflexivity.
  - intros d [=].
  - right. left. reflexivity.
  - change (base' = ps) in Hacc. subst base'. change (b' = [mkDepayBuffer example_frame9 true true false]) in Hout. subst b'.
    exists pid', ps, st'. split; [exact Hpay|exact Hfeed].
Defined.

(** Two pictures, the end of the first of which is lost, and bytes that are no
    descriptor: one buffer comes out. *)
Definition example_packets9 : list DepayPacket :=
  [mkDepayPacket [9; 130; 1] 0 0 false; mkDepayPacket [] 0 1 false; mkDepayPacket [9; 130; 2] 3000 2 false;
   mkDepayPacket [5; 3; 4] 3000 3 true].

Lemma vp9_depay_pictures_witness :
  exists st' bufs,
    @feed9 bytes_exact bits_exact keep_buffers (mkVp9DepaySettings false false) example_packets9 (Vp9DepayState_default, []) =
      (Done tt, (st', bufs)) /\ @pictures bytes_exact example_packets9 bufs /\
    bufs = [mkDepayBuffer [130; 2; 3; 4] true true false].
Proof.
  destruct (@vp9_depay_pictures bytes_exact bytes_exact_laws bits_exact keep_buffers keep_buffers_collecting
    (mkVp9DepaySettings false false) example_packets9 []) as (st' & b' & bufs & Hf & Hout & Hp & _).
  change (b' = bufs) in Hout. subst b'. exists st', bufs. split; [exact Hf|]. split; [exact Hp|].
  vm_compute in Hf. by injection Hf.
Defined.

(** A descriptor in flexible mode is not read back as it was written. *)
Example reference_index_lost_example :
  exists bytes, @Vp9PayloadDescriptor_bytes bytes_exact (predicted_from (Vp8SevenBit 5) 4) = Done bytes /\
    @run_bytes bytes_exact _ (@Vp9PayloadDescriptor_from_reader bytes_exact) (bytes ++ [130; 1]) =
      Done ((predicted_from (Vp8SevenBit 5) 4) <| v9d_reference_indices := [2; 65] |>, [1]).
Proof. eexists. split; vm_compute; reflexivity. Qed.
