(* ===== verification/Queues.v ===== *)
(** * Queues as the base classes use them

    Iterators that stop at the first element ([take_while], [skip_while]),
    queues whose finished elements come first, and queues of elements with
    consecutive numbers. *)

From S2P Require Import Prelude.

(** ** Lists as the iterators read them *)
Section TakeWhile.
Context {A : Type} (f : A -> bool).

Fixpoint take_while (l : list A) : list A :=
  match l with
  | [] => []
  | a :: l => if f a then a :: take_while l else []
  end.

(** [skip_while], and popping from the front as long as [f] holds there. *)
Fixpoint skip_while (l : list A) : list A :=
  match l with
  | [] => []
  | a :: l' => if f a then skip_while l' else l
  end.

(** [find_map] *)
Fixpoint list_find_map {B} (g : A -> option B) (l : list A) : option B :=
  match l with
  | [] => None
  | a :: l => match g a with Some b => Some b | None => list_find_map g l end
  end.

Lemma take_skip_while l : take_while l ++ skip_while l = l.
Proof. induction l as [|a l IH]; cbn; [done|]. destruct (f a); cbn; congruence. Qed.

Lemma skip_while_suffix l : exists k, k ++ skip_while l = l.
Proof. exists (take_while l). apply take_skip_while. Qed.

Lemma skip_while_Forall (P : A -> Prop) l : Forall P l -> Forall P (skip_while l).
Proof. intros Hl. rewrite <- (take_skip_while l) in Hl. by apply Forall_app in Hl as [_ ?]. Qed.

Lemma take_while_Forall (P : A -> Prop) l : Forall P l -> Forall P (take_while l).
Proof. intros Hl. rewrite <- (take_skip_while l) in Hl. by apply Forall_app in Hl as [? _]. Qed.

Lemma take_while_all l : Forall (fun a => f a = true) (take_while l).
Proof. induction l as [|a l IH]; cbn; [done|]. destruct (f a) eqn:?; auto. Qed.

Lemma skip_while_app_all l1 l2 :
  Forall (fun a => f a = true) l1 -> skip_while (l1 ++ l2) = skip_while l2.
Proof. induction 1 as [|a l1 Ha _ IH]; cbn; [done|by rewrite Ha]. Qed.

Lemma take_while_app_all l1 l2 :
  Forall (fun a => f a = true) l1 -> take_while (l1 ++ l2) = l1 ++ take_while l2.
Proof. induction 1 as [|a l1 Ha _ IH]; cbn; [done|by rewrite Ha, IH]. Qed.

Lemma skip_while_none l : Forall (fun a => f a = false) l -> skip_while l = l.
Proof. destruct 1 as [|a l Ha]; cbn; [done|by rewrite Ha]. Qed.

Lemma last_skip_while l a : last (skip_while l) = Some a -> last l = Some a.
Proof. intros Hl. rewrite <- (take_skip_while l), last_app. by rewrite Hl. Qed.

(** ** Finished elements first *)
Definition in_front (l : list A) : Prop := Forall (fun a => f a = false) (skip_while l).

Lemma in_front_head l :
  in_front l -> existsb f l = true -> exists a l', l = a :: l' /\ f a = true.
Proof.
  unfold in_front. destruct l as [|b l]; cbn; [done|].
  destruct (f b) eqn:Hb; cbn; [eauto|]. intros [_ Hl]%Forall_cons Hex.
  apply existsb_exists in Hex as (c & Hc & Hset). rewrite Forall_forall in Hl.
  rewrite (Hl c) in Hset; [done|by apply list_elem_of_In].
Qed.

Lemma none_in_front l : existsb f l = false -> take_while l = [] /\ skip_while l = l.
Proof. destruct l as [|b l]; cbn; [done|]. by destruct (f b). Qed.

Lemma all_in_front l : Forall (fun a => f a = true) l -> in_front l.
Proof. intros Hl. unfold in_front. rewrite <- (app_nil_r l), skip_while_app_all by done. done. Qed.

Lemma in_front_snoc l a : in_front l -> f a = false -> in_front (l ++ [a]).
Proof.
  unfold in_front. intros Hl Ha. induction l as [|b l IH]; cbn in *; [rewrite Ha; auto|].
  destruct (f b); [auto|]. apply (Forall_app_2 _ (b :: l)); auto.
Qed.
End TakeWhile.

(** A round that takes elements of a narrower kind from the front. *)
Lemma narrow_split {A} (f g : A -> bool) l :
  (forall a, g a = true -> f a = true) ->
  take_while f l = take_while g l ++ take_while f (skip_while g l) /\
  skip_while f l = skip_while f (skip_while g l).
Proof.
  intros Hfg. induction l as [|b l [IH1 IH2]]; cbn; [done|].
  destruct (g b) eqn:Hb; [rewrite (Hfg _ Hb); cbn; by rewrite <- IH1|]. cbn. by destruct (f b).
Qed.

(** ** Consecutive numbers, up to [top] *)
Section Numbered.
Context {A : Type} (key : A -> Z).

Definition numbered_by (top : Z) (l : list A) : Prop :=
  key <$> l = seqZ (top + 1 - Z.of_nat (length l)) (Z.of_nat (length l)).

Lemma numbered_nil top : numbered_by top [].
Proof. done. Qed.

Lemma numbered_suffix top k l : numbered_by top (k ++ l) -> numbered_by top l.
Proof.
  unfold numbered_by. intros Hn. rewrite length_app, Nat2Z.inj_add in Hn.
  rewrite seqZ_app in Hn by lia. rewrite fmap_app in Hn.
  apply app_inj_1 in Hn as [_ Hn]; [|rewrite length_fmap, length_seqZ; lia].
  rewrite Hn. f_equal. lia.
Qed.

Lemma numbered_snoc top l p :
  numbered_by top l -> key p = top + 1 -> numbered_by (top + 1) (l ++ [p]).
Proof.
  unfold numbered_by. intros Hl Hp. rewrite fmap_app, Hl, length_app. cbn [length fmap list_fmap].
  rewrite Nat2Z.inj_add, seqZ_app by lia. f_equal; [f_equal; lia|].
  rewrite Hp. replace (_ + Z.of_nat (length l)) with (top + 1) by lia. done.
Qed.

Lemma numbered_last top l p : numbered_by top l -> last l = Some p -> key p = top.
Proof.
  intros Hn Hl. assert (l <> []) by (by intros ->).
  destruct (exists_last (l := l)) as (k & q & ->); [done|].
  rewrite last_snoc in Hl. injection Hl as <-.
  apply numbered_suffix in Hn. unfold numbered_by in Hn. cbn in Hn. injection Hn as Hn. lia.
Qed.

Lemma numbered_head top p l : numbered_by top (p :: l) -> key p = top - Z.of_nat (length l).
Proof.
  unfold numbered_by. cbn [length]. rewrite seqZ_cons by lia. intros [= Hp _]. lia.
Qed.
End Numbered.
