(* ===== verification/DepayMeta.v ===== *)
(** * Buffers, header extensions and metas of the depayloader base class

    The data that [basedepay/imp.rs] of the RTP plugin works on, the
    interfaces of the crates it uses for it, and the part of the base class
    that decorates an output buffer: cutting the RTP header extensions of the
    packets it is made of, copying their metas, collecting their sources
    ([copy_metas]), and the extensions a new input format asks for
    ([update_extensions_from_sink_caps]). *)

From Stdlib Require Import SpecFloat Ascii.
From S2P Require Import Prelude Queues Flow RtpBase.

(** ** Results

    [Result<_, gst::FlowError>] with the state on success and on error; a
    panic ends everything. *)
Inductive FlowError := NotNegotiated | FlowErr | FlowFlushing | FlowEos.

Inductive result (A : Type) : Type :=
| Success (a : A)
| Failure (e : FlowError).
Arguments Success {A} a.
Arguments Failure {A} e.

(** ** Data *)

(** A meta on a buffer: its tags, whether it belongs to the memory, and the
    reference of a reference timestamp meta (whether its caps are fixed, their
    name, the timestamp). *)
Record Meta := mkMeta {
  me_api : string;
  me_tags : list string;
  me_memory : bool;
  me_reference : option (bool * string * Z);
}.

(** A buffer that arrives, and one that is made. *)
Record InBuffer := mkInBuffer {
  ib_bytes : list Z;
  ib_mappable : bool;
  ib_discont : bool;
  ib_pts : option Z;
  ib_dts : option Z;
  ib_metas : list Meta;
}.

Record OutBuffer := mkOutBuffer {
  ob_buffer : DepayBuffer;
  ob_pts : option Z;
  ob_dts : option Z;
  ob_metas : list Meta;
  ob_source : option (Z * list Z);
}.

#[export] Instance DepayBuffer_rebuild : Rebuild DepayBuffer := {|
  rebuild := fun r => mkDepayBuffer (db_bytes r) (db_marker r) (db_discont r) (db_delta_unit r) |}.
#[export] Instance OutBuffer_rebuild : Rebuild OutBuffer := {|
  rebuild := fun r => mkOutBuffer (ob_buffer r) (ob_pts r) (ob_dts r) (ob_metas r) (ob_source r) |}.

(** What the code reads of a parsed RTP packet. *)
Record RtpHeader := mkRtpHeader {
  rh_sequence_number : Z;
  rh_ssrc : Z;
  rh_payload_type : Z;
  rh_timestamp : Z;
  rh_marker_bit : bool;
  rh_extension : option (Z * list Z);
  rh_extension_len : Z;
  rh_csrc : list Z;
  rh_payload : list Z;
  rh_payload_offset : Z;
}.

#[export] Instance RtpHeader_rebuild : Rebuild RtpHeader := {|
  rebuild := fun r => mkRtpHeader (rh_sequence_number r) (rh_ssrc r) (rh_payload_type r) (rh_timestamp r)
    (rh_marker_bit r) (rh_extension r) (rh_extension_len r) (rh_csrc r) (rh_payload r) (rh_payload_offset r) |}.

Definition MAX_N_CSRCS : nat := 15.

(** A packet that is not used up yet. *)
Record PendingPacket := mkPendingPacket {
  pe_ext_seqnum : Z;
  pe_ext_timestamp : Z;
  pe_ssrc : Z;
  pe_csrc : list Z;
  pe_have_header_extensions : bool;
  pe_buffer : InBuffer;
}.

Record Settings := mkSettings {
  set_max_reorder : Z;
  set_source_info : bool;
  set_auto_header_extensions : bool;
}.

Definition Settings_default : Settings := mkSettings 100 false true.

(** A field of the input caps whose value is a string, an array (an element
    that is a string, or another), or something else. *)
Inductive FieldValue :=
| FString (s : string)
| FArray (l : list (option string))
| FOther (z : Z).

(** RTP caps, the input of a depayloader and the output of a payloader: the
    name, the fields that are read and all others. A field is [None] when it is
    absent or not of the type it is read as. *)
Record SinkCaps := mkSinkCaps {
  sk_name : string;
  sk_clock_rate : option Z;
  sk_npt_start : option Z;
  sk_npt_stop : option Z;
  sk_play_scale : option spec_float;
  sk_play_speed : option spec_float;
  sk_clock_base : option Z;
  sk_onvif_mode : option bool;
  sk_ssrc : option Z;
  sk_payload : option Z;
  sk_fields : list (string * FieldValue);
}.

#[export] Instance SinkCaps_rebuild : Rebuild SinkCaps := {|
  rebuild := fun r => mkSinkCaps (sk_name r) (sk_clock_rate r) (sk_npt_start r) (sk_npt_stop r)
    (sk_play_scale r) (sk_play_speed r) (sk_clock_base r) (sk_onvif_mode r) (sk_ssrc r) (sk_payload r)
    (sk_fields r) |}.

#[export] Instance FieldValue_eq_dec : EqDecision FieldValue.
Proof. solve_decision. Defined.
#[export] Instance spec_float_eq_dec : EqDecision spec_float.
Proof. solve_decision. Defined.
#[export] Instance SinkCaps_eq_dec : EqDecision SinkCaps.
Proof. solve_decision. Defined.
#[export] Instance Caps_eq_dec : EqDecision Caps.
Proof. solve_decision. Defined.
#[export] Instance FlowError_eq_dec : EqDecision FlowError.
Proof. solve_decision. Defined.

(** ** Header extensions

    The two forms of header extension elements. *)
Inductive ExtFlags := ONE_BYTE | TWO_BYTE.

#[export] Instance ExtFlags_eq_dec : EqDecision ExtFlags.
Proof. solve_decision. Defined.

Definition extension_flags (extension_pattern : Z) : option ExtFlags :=
  if extension_pattern =? 48862 then Some ONE_BYTE
  else if Z.shiftr extension_pattern 4 =? 256 then Some TWO_BYTE
  else None.

(** [while !extensions_data.is_empty() { .. }]: the elements the loop cuts, up
    to the first that does not fit. Every round takes a byte, so the length of
    the data is fuel enough. *)
Fixpoint extension_elements (fuel : nat) (flags : ExtFlags) (extensions_data : list Z) : list (Z * list Z) :=
  match fuel, extensions_data with
  | S fuel, b :: extensions_data =>
      let element id len extensions_data :=
        if Z.of_nat (length extensions_data) <? len then []
        else (id, take (Z.to_nat len) extensions_data)
               :: extension_elements fuel flags (drop (Z.to_nat len) extensions_data) in
      match flags with
      | ONE_BYTE =>
          let id := Z.shiftr b 4 in
          let len := Z.land b 15 + 1 in
          if id =? 0 then extension_elements fuel flags extensions_data
          else if id =? 15 then []
          else element id len extensions_data
      | TWO_BYTE =>
          if b =? 0 then extension_elements fuel flags extensions_data
          else match extensions_data with
               | [] => []
               | len :: extensions_data => element b len extensions_data
               end
      end
  | _, _ => []
  end.

(** The [gst_rtp::RTPHeaderExtension] objects: their id and URI, reading an
    element into a buffer, configuring them from the input caps, and what they
    do to the output caps; making one for a URI; and the handlers an application
    has connected to the [request-extension] signal. *)
Class HeaderExtensions := {
  Ext : Type;
  ext_id : Ext -> Z;
  ext_uri : Ext -> option string;
  ext_read : Ext -> ExtFlags -> list Z -> OutBuffer -> bool * Ext * OutBuffer;
  ext_wants_update : Ext -> bool;
  ext_update_caps : Ext -> Caps -> bool * Caps;
  ext_set_attributes_from_caps : SinkCaps -> Ext -> bool * Ext;
  ext_create_from_uri : string -> option Ext;
  ext_set_id : Z -> Ext -> Ext;
  application_extension : Z -> string -> option Ext;
}.

(** [rtp_types::RtpPacket::parse], and copying a meta to a buffer. *)
Class RtpTypes := {
  RtpPacket_parse : list Z -> option RtpHeader;
  meta_transform : Meta -> OutBuffer -> option OutBuffer;
}.

(** What a subclass chooses: whether it copes with gaps itself, and the metas
    that are copied. *)
Class DepayClass := {
  allow_seqnum_discontinuities : bool;
  transform_meta : InBuffer -> Meta -> OutBuffer -> OutBuffer;
}.

Section Metas.
Context `{RtpTypes} `{HeaderExtensions} `{DepayClass}.

(** [transform_meta_default], for a subclass that allows these tags. *)
Definition transform_meta_default (allowed_meta_tags : list string) (in_buf : InBuffer) (meta : Meta)
    (out_buf : OutBuffer) : OutBuffer :=
  let copy := match meta_transform meta out_buf with Some out_buf => out_buf | None => out_buf end in
  match me_tags meta with
  | [] => copy
  | [meta_tag] => if bool_decide (meta_tag ∈ allowed_meta_tags) then copy else out_buf
  | _ => out_buf
  end.

(** The closure of [foreach_meta]; [refs] are the timestamps seen by reference. *)
Definition copy_meta (in_buf : InBuffer) (acc : gmap string Z * OutBuffer) (meta : Meta)
  : res (gmap string Z * OutBuffer) :=
  let '(refs, buffer) := acc in
  if me_memory meta then Ok (refs, buffer)
  else match me_reference meta with
       | Some (fixed, name, timestamp) =>
           _ ← assert_ fixed;
           let same := bool_decide (refs !! name = Some timestamp) in
           let refs := <[name := timestamp]> refs in
           if same then Ok (refs, buffer) else Ok (refs, transform_meta in_buf meta buffer)
       | None => Ok (refs, transform_meta in_buf meta buffer)
       end.

(** One element: read by the extension of that id, if there is one. *)
Definition read_element (flags : ExtFlags) (acc : gmap Z Ext * OutBuffer * bool) (element : Z * list Z)
  : gmap Z Ext * OutBuffer * bool :=
  let '(extensions, buffer, wants) := acc in
  match extensions !! fst element with
  | None => acc
  | Some extension =>
      let '(read, extension, buffer) := ext_read extension flags (snd element) buffer in
      (<[fst element := extension]> extensions, buffer, wants || (read && ext_wants_update extension))
  end.

(** The extensions of a packet; [false] when their form is not known, which
    leaves the round for this packet. *)
Definition read_extensions (front : PendingPacket) (extensions : gmap Z Ext) (buffer : OutBuffer) (wants : bool)
  : res (gmap Z Ext * OutBuffer * bool * bool) :=
  if negb (bool_decide (extensions = ∅)) && pe_have_header_extensions front then
    packet ← unwrap (RtpPacket_parse (ib_bytes (pe_buffer front)));
    '(extension_pattern, extensions_data) ← unwrap (rh_extension packet);
    match extension_flags extension_pattern with
    | None => Ok (extensions, buffer, wants, false)
    | Some flags =>
        Ok (fold_left (read_element flags)
              (extension_elements (length extensions_data) flags extensions_data)
              (extensions, buffer, wants), true)
    end
  else Ok (extensions, buffer, wants, true).

(** Sources are listed once, as far as there is room. *)
Definition add_csrc (csrc : list Z) (c : Z) : list Z :=
  if negb (bool_decide (c ∈ csrc)) && (length csrc <? MAX_N_CSRCS)%nat then csrc ++ [c] else csrc.

(** The locals of [copy_metas]. *)
Record CopyState := mkCopyState {
  cp_refs : gmap string Z;
  cp_extensions : gmap Z Ext;
  cp_buffer : OutBuffer;
  cp_wants : bool;
  cp_ssrc : option Z;
  cp_csrc : list Z;
}.

Definition copy_packet (settings : Settings) (st : CopyState) (front : PendingPacket) : res CopyState :=
  '(refs, buffer) ← res_fold (copy_meta (pe_buffer front)) (cp_refs st, cp_buffer st) (ib_metas (pe_buffer front));
  '(extensions, buffer, wants, known) ← read_extensions front (cp_extensions st) buffer (cp_wants st);
  if (known : bool) && set_source_info settings then
    let ssrc := match cp_ssrc st with None => Some (pe_ssrc front) | Some s => Some s end in
    Ok (mkCopyState refs extensions buffer wants ssrc (fold_left add_csrc (pe_csrc front) (cp_csrc st)))
  else Ok (mkCopyState refs extensions buffer wants (cp_ssrc st) (cp_csrc st)).

(** The buffer decorated from the packets up to [ext_seqnum], the extensions
    after reading, and whether one of them wants to change the output caps. *)
Definition copy_metas (settings : Settings) (pending_packets : list PendingPacket) (extensions : gmap Z Ext)
    (ext_seqnum : Z) (buffer : OutBuffer) : res (bool * gmap Z Ext * OutBuffer) :=
  st ← res_fold (copy_packet settings) (mkCopyState ∅ extensions buffer false None [])
         (take_while (fun p => pe_ext_seqnum p <=? ext_seqnum) pending_packets);
  let buffer :=
    match cp_ssrc st with
    | Some ssrc => if set_source_info settings
                   then (cp_buffer st) <| ob_source := Some (ssrc, cp_csrc st) |> else cp_buffer st
    | None => cp_buffer st
    end in
  Ok (cp_wants st, cp_extensions st, buffer).

(** ** The extensions of new input caps *)

(** [str::parse::<u8>()] *)
Fixpoint parse_digits (s : string) (acc : Z) : option Z :=
  match s with
  | EmptyString => Some acc
  | String c s =>
      let d := Z.of_N (N_of_ascii c) - 48 in
      if (0 <=? d) && (d <=? 9) && (acc * 10 + d <? U8) then parse_digits s (acc * 10 + d) else None
  end.
Definition parse_u8 (s : string) : option Z :=
  match s with
  | EmptyString => None
  | String "+"%char EmptyString => None
  | String "+"%char s => parse_digits s 0
  | _ => parse_digits s 0
  end.

Fixpoint strip_prefix (prefix s : string) : option string :=
  match prefix, s with
  | EmptyString, _ => Some s
  | String c prefix, String d s => if Ascii.eqb c d then strip_prefix prefix s else None
  | String _ _, EmptyString => None
  end.

Definition extmap_uri (v : FieldValue) : option string :=
  match v with
  | FString uri => Some uri
  | FArray arr => match arr !! 1%nat with Some (Some uri) => Some uri | _ => None end
  | FOther _ => None
  end.

(** The [extmap-<id>] fields; [None] when one of them is malformed. *)
Fixpoint caps_extensions (fields : list (string * FieldValue)) (acc : gmap Z string) : option (gmap Z string) :=
  match fields with
  | [] => Some acc
  | (k, v) :: fields =>
      match strip_prefix "extmap-" k with
      | None => caps_extensions fields acc
      | Some id =>
          match parse_u8 id, extmap_uri v with
          | Some ext_id, Some uri => caps_extensions fields (<[ext_id := uri]> acc)
          | _, _ => None
          end
      end
  end.

(** A [BTreeMap<u8, _>] is read in the order of its keys. *)
Definition by_id {V} (m : gmap Z V) : list (Z * V) :=
  omap (fun i => v ← m !! i; Some (i, v)) (seqZ 0 U8).

(** The class handler of the signal. *)
Definition request_extension (auto_header_extensions : bool) (id : Z) (uri : string) : option Ext :=
  if negb auto_header_extensions then None
  else match ext_create_from_uri uri with
       | None => None
       | Some ext => Some (ext_set_id id ext)
       end.

(** Emitting the signal: the class handler runs last, and the accumulator stops
    at the first extension. *)
Definition emit_request_extension (auto_header_extensions : bool) (id : Z) (uri : string) : option Ext :=
  match application_extension id uri with
  | Some ext => Some ext
  | None => request_extension auto_header_extensions id uri
  end.

(** One extension of the caps: the one in place is configured, or a new one is
    asked for. *)
Definition update_extension (auto_header_extensions : bool) (sink_caps : SinkCaps) (extensions : gmap Z Ext)
    (wanted : Z * string) : gmap Z Ext :=
  let '(id, uri) := wanted in
  let request extensions :=
    match emit_request_extension auto_header_extensions id uri with
    | None => extensions
    | Some ext =>
        if negb (ext_id ext =? id) then extensions
        else let '(configured, ext) := ext_set_attributes_from_caps sink_caps ext in
             if configured : bool then <[id := ext]> extensions else extensions
    end in
  match extensions !! id with
  | Some extension =>
      if bool_decide (ext_uri extension = Some uri) then
        let '(configured, extension) := ext_set_attributes_from_caps sink_caps extension in
        if configured : bool then <[id := extension]> extensions else request (delete id extensions)
      else request (delete id extensions)
  | None => request extensions
  end.

Definition update_extensions_from_sink_caps (settings : Settings) (sink_caps : SinkCaps)
    (extensions : gmap Z Ext) : result (gmap Z Ext) :=
  match caps_extensions (sk_fields sink_caps) ∅ with
  | None => Failure NotNegotiated
  | Some wanted =>
      let extensions := fold_left (update_extension (set_auto_header_extensions settings) sink_caps) (by_id wanted) extensions in
      Success (filter (fun kv => is_Some (wanted !! kv.1)) extensions)
  end.
End Metas.
