(* ===== verification/BaseDepay.v ===== *)
(** * The base class of the depayloaders

    [basedepay/imp.rs] of the RTP plugin: incoming buffers are parsed, checked
    for gaps, numbered and handed to the subclass, which queues output buffers
    made of ranges of packets; the base class gives them their timestamps and
    flags and pushes them. Events and caps of the input go through it too. *)

From Stdlib Require Import SpecFloat.
From S2P Require Import Prelude Queues F64 Flow RtpBase DepayMeta.

(** ** Data *)

(** [gst::Signed<gst::ClockTime>] *)
Inductive Signed := Positive (t : Z) | Negative (t : Z).

Definition into_positive (t : Z) : Signed := Positive t.
Definition signed_positive (s : Signed) : option Z :=
  match s with Positive t => Some t | Negative _ => None end.

Inductive TimestampOffset :=
| OffsetPts (pts_offset : Signed)
| OffsetPtsAndDts (pts_offset dts_offset : Signed).

(** Ranges of sequence numbers, both ends included. *)
Inductive PacketToBufferRelation :=
| Seqnums (seqnums : Z * Z)
| SeqnumsWithOffset (seqnums : Z * Z) (timestamp_offset : TimestampOffset)
| OutOfBand.

(** The upper end of a range. *)
Inductive Bound := Included (n : Z) | Excluded (n : Z) | Unbounded.

(** [gst::FormattedSegment<gst::ClockTime>] *)
Record Segment := mkSegment {
  sg_rate : spec_float;
  sg_applied_rate : spec_float;
  sg_base : option Z;
  sg_start : option Z;
  sg_stop : option Z;
  sg_time : option Z;
  sg_position : option Z;
  sg_others : list Z;
}.

#[export] Instance Segment_rebuild : Rebuild Segment := {|
  rebuild := fun r => mkSegment (sg_rate r) (sg_applied_rate r) (sg_base r) (sg_start r) (sg_stop r)
    (sg_time r) (sg_position r) (sg_others r) |}.

Record PendingBuffer := mkPendingBuffer {
  pb_metadata_set : bool;
  pb_buffer : OutBuffer;
}.

Record CurrentStream := mkCurrentStream {
  cs_ssrc : Z;
  cs_pt : Z;
  cs_ext_seqnum : Z;
  cs_ext_rtptime : Z;
}.

#[export] Instance CurrentStream_rebuild : Rebuild CurrentStream := {|
  rebuild := fun r => mkCurrentStream (cs_ssrc r) (cs_pt r) (cs_ext_seqnum r) (cs_ext_rtptime r) |}.

Record State := mkState {
  d_segment : option (Z * Segment);
  d_pending_segment : bool;
  d_sink_caps : option SinkCaps;
  d_src_caps : option Caps;
  d_clock_rate : option Z;
  d_npt_start : option Z;
  d_npt_stop : option Z;
  d_play_speed : spec_float;
  d_play_scale : spec_float;
  d_clock_base : option Z;
  d_npt_start_times : option (option Z * Z);
  d_discont_pending : bool;
  d_current_stream : option CurrentStream;
  d_last_used_ext_seqnum : option Z;
  d_last_pts : option Z;
  d_last_dts : option Z;
  d_pending_packets : list PendingPacket;
  d_pending_buffers : list PendingBuffer;
}.

#[export] Instance State_rebuild : Rebuild State := {|
  rebuild := fun r => mkState (d_segment r) (d_pending_segment r) (d_sink_caps r) (d_src_caps r)
    (d_clock_rate r) (d_npt_start r) (d_npt_stop r) (d_play_speed r) (d_play_scale r) (d_clock_base r)
    (d_npt_start_times r) (d_discont_pending r) (d_current_stream r) (d_last_used_ext_seqnum r)
    (d_last_pts r) (d_last_dts r) (d_pending_packets r) (d_pending_buffers r) |}.

(** [1.0] *)
Definition f64_one : spec_float := f64_of_u64 1.

Definition State_default : State :=
  mkState None false None None None None None f64_one f64_one None None true None None None None [] [].

Record DepayStats := mkDepayStats {
  sta_ssrc : Z;
  sta_clock_rate : Z;
  sta_running_time_dts : option Z;
  sta_running_time_pts : option Z;
  sta_seqnum : Z;
  sta_timestamp : Z;
  sta_npt_start : option Z;
  sta_npt_stop : option Z;
  sta_play_speed : spec_float;
  sta_play_scale : spec_float;
}.

(** A segment of an event is in time format, or in another. *)
Inductive AnySegment := TimeSegment (s : Segment) | OtherSegment (format : Z).

Inductive SinkEvent :=
| EvCaps (caps : SinkCaps)
| EvSegment (seqnum : Z) (segment : AnySegment)
| EvEos
| EvFlushStop
| EvOther (kind : Z).

(** What leaves on the source pad, and the event a subclass sends upstream. A
    caps event without a segment gets a new sequence number, here [None]. What
    the pads answer is only logged. *)
Inductive Output :=
| OutCaps (caps : Caps) (seqnum : option Z)
| OutSegment (seqnum : Z) (segment : Segment)
| OutPush (buffer : OutBuffer)
| OutPushList (list : list OutBuffer)
| OutEvent (event : SinkEvent)
| OutForceKeyUnit.

(** A packet for the subclass. *)
Record InPacket := mkInPacket {
  pa_buffer : InBuffer;
  pa_discont : bool;
  pa_ext_seqnum : Z;
  pa_expected_ext_seqnum : option Z;
  pa_ext_timestamp : Z;
  pa_marker : bool;
  pa_payload_range : Z * Z;
}.

(** ** What the code uses of the gstreamer crate

    Arithmetic of [ClockTime] and [Signed<ClockTime>], which panics when the
    result is not one; segments. *)
Class GstTime := {
  clock_add : Z -> Z -> res Z;
  clock_sub : Z -> Z -> res Z;
  signed_add : Signed -> Signed -> res Signed;
  to_running_time : Segment -> option Z -> option Z;
  segment_reset : Segment -> Segment;
  segment_eq : Segment -> Segment -> bool;
}.

(** Sums that are a [ClockTime]. *)
Class ClockAddLaws `{GstTime} : Prop :=
  clock_add_exact a b : 0 <= a -> 0 <= b -> a + b < U64 - 1 -> clock_add a b = Ok (a + b).

Section Base.
Context `{Gst} `{GstTime} `{RtpTypes} `{HeaderExtensions} `{DepayClass}.

(** The element without its subclass, and what it has sent. *)
Record Base := mkBase {
  bd_state : State;
  bd_settings : Settings;
  bd_stats : option DepayStats;
  bd_extensions : gmap Z Ext;
  bd_out : list Output;
}.

#[export] Instance Base_rebuild : Rebuild Base := {|
  rebuild := fun r => mkBase (bd_state r) (bd_settings r) (bd_stats r) (bd_extensions r) (bd_out r) |}.

Definition push_out (o : Output) (self : Base) : Base := self <| bd_out ::= fun l => l ++ [o] |>.

Definition push_segment (o : option Output) (self : Base) : Base :=
  match o with Some o => push_out o self | None => self end.

(** ** The segment event *)

(** The segment of old-style RTSP caps, starting at [npt_start]. *)
Definition npt_segment (state : State) (segment : Segment) (npt_start : Z) (npt_start_times : option Z * Z)
  : res Segment :=
  let '(npt_start_pts, npt_start_ext_rtptime) := npt_start_times in
  clock_rate ← unwrap (d_clock_rate state);
  start ← unwrap (sg_start segment);
  start ← match d_clock_base state, npt_start_pts with
          | Some clock_base, Some pts =>
              ext_clock_base ← u64_add clock_base (2 ^ 32);
              match mul_div_floor U64 (saturating_sub npt_start_ext_rtptime ext_clock_base) NS_PER_SEC clock_rate with
              | Some gap => if pts >? gap then clock_sub pts gap else Ok start
              | None => Ok start
              end
          | _, _ => Ok start
          end;
  stop ← match d_npt_stop state with
         | Some npt_stop => s ← clock_add start (saturating_sub npt_stop npt_start); Ok (Some s)
         | None => Ok (sg_stop segment)
         end;
  let npt_start_pts := match npt_start_pts with None => Some start | Some p => Some p end in
  let running_time := to_running_time segment (Some start) in
  Ok ((segment_reset segment) <| sg_rate := d_play_speed state |>
        <| sg_applied_rate := d_play_scale state |> <| sg_start := Some start |> <| sg_stop := stop |>
        <| sg_time := Some npt_start |> <| sg_position := npt_start_pts |> <| sg_base := running_time |>).

Definition retrieve_pending_segment_event (state : State) : res (option Output * State) :=
  if negb (d_pending_segment state) then Ok (None, state)
  else match d_src_caps state with
  | None => Ok (None, state)
  | Some _ =>
      '(seqnum, segment) ← unwrap (d_segment state);
      match d_npt_start state with
      | Some npt_start =>
          match d_npt_start_times state with
          | None => Ok (None, state)
          | Some times =>
              segment ← npt_segment state segment npt_start times;
              Ok (Some (OutSegment seqnum segment), state <| d_pending_segment := false |>)
          end
      | None => Ok (Some (OutSegment seqnum segment), state <| d_pending_segment := false |>)
      end
  end.

(** ** What a subclass calls *)

Definition base_set_src_caps (src_caps : Caps) (self : Base) : res Base :=
  let state := bd_state self in
  if bool_decide (Some src_caps = d_src_caps state) then Ok self
  else
    let seqnum := match d_segment state with Some (seqnum, _) => Some seqnum | None => None end in
    '(segment_event, state) ← retrieve_pending_segment_event (state <| d_src_caps := Some src_caps |>);
    Ok (push_segment segment_event (push_out (OutCaps src_caps seqnum) (self <| bd_state := state |>))).

(** The packets up to number [e] go. *)
Definition drop_packets_to (e : Z) (state : State) : State :=
  match last (d_pending_packets state) with
  | None => state
  | Some back =>
      if pe_ext_seqnum back <=? e then state <| d_pending_packets := [] |>
      else state <| d_pending_packets ::= skip_while (fun p => pe_ext_seqnum p <=? e) |>
  end.

Definition base_drop_packets (end_bound : Bound) (self : Base) : Base :=
  let state := (bd_state self) <| d_discont_pending := true |> in
  self <| bd_state :=
    match end_bound with
    | Included e => drop_packets_to e state
    | Excluded e => if e =? 0 then state else drop_packets_to (e - 1) state
    | Unbounded => state <| d_pending_buffers := [] |>
    end |>.

(** *** Pushing the finished buffers *)

Definition same_push (pts : option Z) (b : PendingBuffer) : bool :=
  pb_metadata_set b
  && (bool_decide (ob_pts (pb_buffer b) = pts) || bool_decide (ob_pts (pb_buffer b) = None)).

(** The loop pops a buffer in every round, so one round more than there are
    buffers is fuel enough. *)
Fixpoint finish_loop (fuel : nat) (self : Base) : res Base :=
  let pending := d_pending_buffers (bd_state self) in
  if negb (existsb pb_metadata_set pending) then Ok self
  else match fuel with
  | O => Panic
  | S fuel =>
      front ← unwrap (head pending);
      let pts := ob_pts (pb_buffer front) in
      let num_buffers := length (take_while (same_push pts) pending) in
      _ ← assert_ (negb (num_buffers =? 0)%nat);
      '(segment_event, state) ← retrieve_pending_segment_event (bd_state self);
      let '(buffers, pending) :=
        if (num_buffers =? 1)%nat then (OutPush (pb_buffer front), tail pending)
        else (OutPushList (pb_buffer <$> take_while (same_push pts) pending), skip_while (same_push pts) pending) in
      finish_loop fuel (push_out buffers (push_segment segment_event
                          (self <| bd_state := state <| d_pending_buffers := pending |> |>)))
  end.

(** It always returns [Ok]: errors of the pad are only logged. *)
Definition finish_pending_buffers (self : Base) : res Base :=
  if is_none (d_segment (bd_state self)) then Ok self
  else finish_loop (S (length (d_pending_buffers (bd_state self)))) self.

(** *** Queueing a buffer *)

Definition pts_with_offset (pts : option Z) (pts_offset : Signed) : res (option Z) :=
  match pts with
  | None => Ok None
  | Some ts =>
      pts_signed ← signed_add (into_positive ts) pts_offset;
      Ok (match signed_positive pts_signed with Some ts => Some ts | None => pts end)
  end.

Definition dts_with_offset (pts : option Z) (dts_offset : Signed) : res (option Z) :=
  match pts with
  | None => Ok None
  | Some pts => dts_signed ← signed_add (into_positive pts) dts_offset; Ok (signed_positive dts_signed)
  end.

(** The timestamps of a buffer for packets up to [seqnum_end]; [pts] is the
    first one these packets have. *)
Definition buffer_times (last_used_ext_seqnum : option Z) (seqnum_end : Z)
    (timestamp_offset : option TimestampOffset) (pts : option Z) : res (option Z * option Z) :=
  match timestamp_offset with
  | Some (OffsetPts pts_offset) => pts ← pts_with_offset pts pts_offset; Ok (pts, None)
  | Some (OffsetPtsAndDts pts_offset dts_offset) =>
      pts ← pts_with_offset pts pts_offset;
      dts ← dts_with_offset pts dts_offset;
      Ok (pts, dts)
  | None =>
      if match last_used_ext_seqnum with Some l => seqnum_end <=? l | None => false end
      then Ok (None, None) else Ok (pts, None)
  end.

Definition decorate_buffer (pts dts : option Z) (discont : bool) (b : OutBuffer) : OutBuffer :=
  let b := b <| ob_pts := pts |> <| ob_dts := dts |> in
  if discont then b <| ob_buffer ::= modify db_discont (fun _ => true) |> else b.

(** The buffers that waited for a timestamp; the first gets the discont flag. *)
Fixpoint decorate_waiting (pts dts : option Z) (discont_pending : bool) (l : list PendingBuffer)
  : res (list PendingBuffer * bool) :=
  match l with
  | [] => Ok ([], discont_pending)
  | b :: l =>
      _ ← assert_ (negb (pb_metadata_set b));
      '(l, discont_pending') ← decorate_waiting pts dts false l;
      Ok (mkPendingBuffer true (decorate_buffer pts dts discont_pending (pb_buffer b)) :: l, discont_pending')
  end.

Definition decorate_pending (pts dts : option Z) (discont_pending : bool) (l : list PendingBuffer)
  : res (list PendingBuffer * bool) :=
  '(waiting, discont_pending) ← decorate_waiting pts dts discont_pending (skip_while pb_metadata_set l);
  Ok (take_while pb_metadata_set l ++ waiting, discont_pending).

(** Each extension in turn changes the caps, or refuses. *)
Fixpoint updated_caps (extensions : list (Z * Ext)) (src_caps : Caps) : option Caps :=
  match extensions with
  | [] => Some src_caps
  | (_, extension) :: extensions =>
      let '(updated, src_caps) := ext_update_caps extension src_caps in
      if updated : bool then updated_caps extensions src_caps else None
  end.

(** Caps an extension wants to change: the buffers before go out first. *)
Definition caps_update (self : Base) : res (result unit * Base) :=
  old_src_caps ← unwrap (d_src_caps (bd_state self));
  match updated_caps (by_id (bd_extensions self)) old_src_caps with
  | None => Ok (Failure FlowErr, self)
  | Some src_caps =>
      if bool_decide (src_caps = old_src_caps) then Ok (Success tt, self)
      else
        '(seqnum, _) ← unwrap (d_segment (bd_state self));
        self ← finish_pending_buffers self;
        let self := push_out (OutCaps src_caps (Some seqnum)) self in
        Ok (Success tt, self <| bd_state ::= modify d_src_caps (fun _ => Some src_caps) |>)
  end.

(** A buffer for the packets [seqnum_start..=seqnum_end], which are pending. *)
Definition queue_for_packets (seqnum_end : Z) (timestamp_offset : option TimestampOffset) (buffer : OutBuffer)
    (self : Base) : res (result unit * Base) :=
  let state := bd_state self in
  let discont_pending := d_discont_pending state in
  '(pts, dts) ← buffer_times (d_last_used_ext_seqnum state) seqnum_end timestamp_offset
    (list_find_map (fun p => ib_pts (pe_buffer p))
       (take_while (fun p => pe_ext_seqnum p <=? seqnum_end) (d_pending_packets state)));
  '(pending_buffers, discont_pending) ← decorate_pending pts dts discont_pending (d_pending_buffers state);
  '(needs_caps_update, extensions, buffer) ←
    copy_metas (bd_settings self) (d_pending_packets state) (bd_extensions self) seqnum_end
      (buffer <| ob_pts := pts |> <| ob_dts := dts |>);
  let buffer := if discont_pending : bool
                then buffer <| ob_buffer ::= modify db_discont (fun _ => true) |> else buffer in
  let self := self <| bd_extensions := extensions |>
    <| bd_state := state <| d_discont_pending := false |> <| d_pending_buffers := pending_buffers |> |> in
  '(updated, self) ← (if needs_caps_update : bool then caps_update self else Ok (Success tt, self));
  match updated with
  | Failure e => Ok (Failure e, self)
  | Success _ =>
      let state := bd_state self in
      let state := state <| d_pending_buffers ::= fun l => l ++ [mkPendingBuffer true buffer] |>
                         <| d_last_used_ext_seqnum := Some seqnum_end |> in
      let state := if is_some pts then state <| d_last_pts := pts |> <| d_last_dts := dts |> else state in
      Ok (Success tt, self <| bd_state := state |>)
  end.

(** The buffer of a range: older packets are dropped, the rest has to be there. *)
Definition queue_for_range (seqnums : Z * Z) (timestamp_offset : option TimestampOffset) (buffer : OutBuffer)
    (self : Base) : res (result unit * Base) :=
  let '(seqnum_start, seqnum_end) := seqnums in
  if seqnum_start >? seqnum_end then Ok (Failure FlowErr, self)
  else
    let self := self <| bd_state ::= modify d_pending_packets
                                       (skip_while (fun p => pe_ext_seqnum p <? seqnum_start)) |> in
    match last (d_pending_packets (bd_state self)) with
    | None => Ok (Failure FlowErr, self)
    | Some back =>
        if seqnum_end >? pe_ext_seqnum back then Ok (Failure FlowErr, self)
        else queue_for_packets seqnum_end timestamp_offset buffer self
    end.

Definition base_queue_buffer (packet_to_buffer_relation : PacketToBufferRelation) (buffer : OutBuffer)
    (self : Base) : res (result unit * Base) :=
  let buffer := buffer <| ob_pts := None |> <| ob_dts := None |> in
  match d_src_caps (bd_state self) with
  | None => Ok (Failure NotNegotiated, self)
  | Some _ =>
      match packet_to_buffer_relation with
      | OutOfBand =>
          Ok (Success tt, self <| bd_state ::= modify d_pending_buffers
                                                 (fun l => l ++ [mkPendingBuffer false buffer]) |>)
      | Seqnums seqnums => queue_for_range seqnums None buffer self
      | SeqnumsWithOffset seqnums timestamp_offset => queue_for_range seqnums (Some timestamp_offset) buffer self
      end
  end.
End Base.

(** ** The element with its subclass *)

Section Element.
Context `{Gst} `{GstTime} `{RtpTypes} `{HeaderExtensions} `{DepayClass}.

(** The virtual methods, over the state of the subclass and the base class;
    [start] and [stop] say whether they succeeded. *)
Class Subclass := {
  Sub : Type;
  sub_handle_packet : InPacket -> Sub * Base -> res (result unit * (Sub * Base));
  sub_drain : Sub * Base -> res (result unit * (Sub * Base));
  sub_flush : Sub * Base -> res (Sub * Base);
  sub_set_sink_caps : SinkCaps -> Sub * Base -> res (bool * (Sub * Base));
  sub_start : Sub * Base -> res (bool * (Sub * Base));
  sub_stop : Sub * Base -> res (bool * (Sub * Base));
}.

Context `{Subclass}.
Abbreviation W := (Sub * Base)%type.

Definition on_depay (f : State -> State) (self : W) : W := (self.1, self.2 <| bd_state ::= f |>).

(** ** Draining and flushing *)

Definition flush (self : W) : res W :=
  self ← sub_flush self;
  Ok (on_depay (fun state => state <| d_pending_packets := [] |> <| d_pending_buffers := [] |>
                                   <| d_discont_pending := true |>) self).

(** Buffers that still wait for a timestamp get the last one there was. *)
Definition forward_pending (self : Base) : res Base :=
  let state := (bd_state self) <| d_pending_packets := [] |> in
  '(pending_buffers, _) ← decorate_pending (d_last_pts state) (d_last_dts state) (d_discont_pending state)
                            (d_pending_buffers state);
  finish_pending_buffers
    (self <| bd_state := state <| d_discont_pending := false |> <| d_pending_buffers := pending_buffers |> |>).

Definition drain (self : W) : res (result unit * W) :=
  '(drained, self) ← sub_drain self;
  match drained with
  | Failure err => self ← flush self; Ok (Failure err, self)
  | Success _ =>
      base ← forward_pending self.2;
      self ← flush (self.1, base);
      Ok (Success tt, self)
  end.

(** ** A packet *)

(** The value near [last] that ends in the [bits] bits of [x]: the code that
    extends a sequence number and an RTP time. *)
Definition extend_near (bits last x : Z) : res Z :=
  ext ← u64_add x (clear_low last bits);
  if ext <? last then
    diff ← u64_sub last ext;
    if diff >? 2 ^ (bits - 1) - 1 then u64_add ext (2 ^ bits) else Ok ext
  else
    diff ← u64_sub ext last;
    if diff >? 2 ^ (bits - 1) - 1 then u64_sub ext (2 ^ bits) else Ok ext.

(** A stream ends with a discontinuity, or with another SSRC or payload type. *)
Definition stream_continues (discont_buffer : bool) (packet : RtpHeader) (current_stream : option CurrentStream)
  : option CurrentStream :=
  if negb allow_seqnum_discontinuities && discont_buffer then None
  else match current_stream with
       | Some cs =>
           if negb (cs_ssrc cs =? rh_ssrc packet) then None
           else if negb (cs_pt cs =? rh_payload_type packet) then None
           else Some cs
       | None => None
       end.

Inductive SeqnumCheck :=
| SeqnumOld
| SeqnumRestart
| SeqnumGood (expected_ext_seqnum : Z).

(** Whether the sequence number continues the stream. *)
Definition check_seqnum (settings : Settings) (current_stream : CurrentStream) (seqnum : Z) : res SeqnumCheck :=
  next ← u64_add (cs_ext_seqnum current_stream) 1;
  let expected_seqnum := Z.land next 65535 in
  if negb (expected_seqnum =? seqnum) then
    ext_seqnum ← extend_near 16 (cs_ext_seqnum current_stream) seqnum;
    let diff :=
      if ext_seqnum >? cs_ext_seqnum current_stream
      then swrap U32 (ext_seqnum - cs_ext_seqnum current_stream)
      else - swrap U32 (cs_ext_seqnum current_stream - ext_seqnum) in
    if diff >? 0 then
      if negb allow_seqnum_discontinuities then Ok SeqnumRestart else Ok (SeqnumGood next)
    else if negb allow_seqnum_discontinuities then
      if diff >=? - swrap U32 (set_max_reorder settings) then Ok SeqnumOld else Ok SeqnumRestart
    else Ok (SeqnumGood next)
  else Ok (SeqnumGood next).

(** The stream after a packet that continues it. *)
Definition continue_stream (current_stream : CurrentStream) (packet : RtpHeader) : res CurrentStream :=
  ext_rtptime ← extend_near 32 (cs_ext_rtptime current_stream) (rh_timestamp packet);
  ext_seqnum ← extend_near 16 (cs_ext_seqnum current_stream) (rh_sequence_number packet);
  ext_seqnum ←
    (if ext_seqnum >? cs_ext_seqnum current_stream then
       d ← u64_sub ext_seqnum (cs_ext_seqnum current_stream); u64_add (cs_ext_seqnum current_stream) d
     else
       d ← u64_sub (cs_ext_seqnum current_stream) ext_seqnum; u64_sub (cs_ext_seqnum current_stream) d);
  Ok (current_stream <| cs_ext_seqnum := ext_seqnum |> <| cs_ext_rtptime := ext_rtptime |>).

(** The first packet of a stream. *)
Definition start_stream (packet : RtpHeader) : CurrentStream :=
  mkCurrentStream (rh_ssrc packet) (rh_payload_type packet)
    (rh_sequence_number packet + 2 ^ 16) (rh_timestamp packet + 2 ^ 32).

(** What becomes of the stream: [None] for an old packet, which is dropped;
    else the stream it continues, if any, and the sequence number expected. *)
Definition follow_stream (settings : Settings) (discont_buffer : bool) (packet : RtpHeader)
    (current_stream : option CurrentStream) : res (option (option CurrentStream * option Z)) :=
  match stream_continues discont_buffer packet current_stream with
  | None => Ok (Some (None, None))
  | Some cs =>
      check ← check_seqnum settings cs (rh_sequence_number packet);
      match check with
      | SeqnumOld => Ok None
      | SeqnumRestart => Ok (Some (None, None))
      | SeqnumGood expected => cs ← continue_stream cs packet; Ok (Some (Some cs, Some expected))
      end
  end.

Definition payload_range (packet : RtpHeader) : Z * Z :=
  match rh_payload packet with
  | [] => (0, 0)
  | _ => (rh_payload_offset packet, rh_payload_offset packet + Z.of_nat (length (rh_payload packet)))
  end.

(** The packet is remembered, with the stream it belongs to; the segment event
    that goes out before it is handled. *)
Definition admit_packet (buffer : InBuffer) (packet : RtpHeader) (clock_rate : Z) (discont : bool)
    (self : Base) : res (Z * Z * Base) :=
  let state := bd_state self in
  let state :=
    match d_current_stream state with
    | Some _ => state
    | None => state <| d_current_stream := Some (start_stream packet) |> <| d_last_used_ext_seqnum := None |>
    end in
  cs ← unwrap (d_current_stream state);
  let ext_seqnum := cs_ext_seqnum cs in
  let ext_rtptime := cs_ext_rtptime cs in
  let state :=
    if is_some (d_npt_start state) && is_none (d_npt_start_times state)
    then state <| d_npt_start_times := Some (ib_pts buffer, ext_rtptime) |> else state in
  '(segment_event, state) ← retrieve_pending_segment_event state;
  let state := state <| d_pending_packets ::= fun l =>
      l ++ [mkPendingPacket ext_seqnum ext_rtptime (rh_ssrc packet) (take MAX_N_CSRCS (rh_csrc packet))
              (negb (rh_extension_len packet =? 0)) buffer] |>
    <| d_discont_pending ::= fun d => d || discont |> in
  '(_, segment) ← unwrap (d_segment state);
  let stats := mkDepayStats (rh_ssrc packet) clock_rate (to_running_time segment (ib_dts buffer))
    (to_running_time segment (ib_pts buffer)) (rh_sequence_number packet) (rh_timestamp packet)
    (d_npt_start state) (d_npt_stop state) (d_play_speed state) (d_play_scale state) in
  Ok (ext_seqnum, ext_rtptime, push_segment segment_event (self <| bd_state := state |> <| bd_stats := Some stats |>)).

(** Packets that buffers were made of are dropped, except for the last. *)
Definition drop_used (state : State) : State :=
  match d_last_used_ext_seqnum state with
  | Some last_used => state <| d_pending_packets ::= skip_while (fun p => pe_ext_seqnum p <? last_used) |>
  | None => state
  end.

(** The subclass gets the packet, and what it made of it is pushed. *)
Definition deliver_packet (packet : InPacket) (self : W) : res (result unit * W) :=
  '(handled, self) ← sub_handle_packet packet self;
  self ← match handled with
         | Failure _ => Ok self
         | Success _ => base ← finish_pending_buffers self.2; Ok (self.1, base)
         end;
  Ok (handled, on_depay drop_used self).

Definition handle_parsed (settings : Settings) (buffer : InBuffer) (packet : RtpHeader) (clock_rate : Z)
    (self : W) : res (result unit * W) :=
  followed ← follow_stream settings (ib_discont buffer) packet (d_current_stream (bd_state self.2));
  match followed with
  | None => Ok (Success tt, self)
  | Some (current_stream, expected_ext_seqnum) =>
      let self := on_depay (fun state => state <| d_current_stream := current_stream |>) self in
      let discont := is_none current_stream in
      '(drained, self) ←
        (if discont && negb (bool_decide (length (d_pending_packets (bd_state self.2)) = 0%nat))
         then drain self else Ok (Success tt, self));
      match drained with
      | Failure err => Ok (Failure err, self)
      | Success _ =>
          '(ext_seqnum, ext_rtptime, base) ← admit_packet buffer packet clock_rate discont self.2;
          deliver_packet
            (mkInPacket buffer (discont || ib_discont buffer) ext_seqnum expected_ext_seqnum ext_rtptime
               (rh_marker_bit packet) (payload_range packet))
            (self.1, base)
      end
  end.

Definition handle_buffer (settings : Settings) (buffer : InBuffer) (self : W) : res (result unit * W) :=
  let state := bd_state self.2 in
  if is_none (d_sink_caps state) then Ok (Failure NotNegotiated, self)
  else if is_none (d_segment state) then Ok (Failure FlowErr, self)
  else
    clock_rate ← unwrap (d_clock_rate state);
    if negb (ib_mappable buffer) then Ok (Failure FlowErr, self)
    else match RtpPacket_parse (ib_bytes buffer) with
         | None => Ok (Success tt, self)
         | Some packet => handle_parsed settings buffer packet clock_rate self
         end.

Definition sink_chain (buffer : InBuffer) (self : W) : res (result unit * W) :=
  handle_buffer (bd_settings self.2) buffer self.

(** [for buffer in list { self.handle_buffer(..)?; }] *)
Fixpoint handle_list (settings : Settings) (list : list InBuffer) (self : W) : res (result unit * W) :=
  match list with
  | [] => Ok (Success tt, self)
  | buffer :: list =>
      '(handled, self) ← handle_buffer settings buffer self;
      match handled with
      | Failure e => Ok (Failure e, self)
      | Success _ => handle_list settings list self
      end
  end.
Definition sink_chain_list (list : list InBuffer) (self : W) : res (result unit * W) :=
  handle_list (bd_settings self.2) list self.

(** ** Caps and events *)

(** The state once the subclass has taken new caps. *)
Definition accept_caps (sink_caps : SinkCaps) (clock_rate : Z) (state : State) : State :=
  let state := state <| d_sink_caps := Some sink_caps |> <| d_clock_rate := Some (wrap U32 clock_rate) |> in
  if is_some (sk_npt_start sink_caps) && negb (default false (sk_onvif_mode sink_caps)) then
    state <| d_npt_start := sk_npt_start sink_caps |> <| d_npt_stop := sk_npt_stop sink_caps |>
          <| d_play_speed := default f64_one (sk_play_speed sink_caps) |>
          <| d_play_scale := default f64_one (sk_play_scale sink_caps) |>
          <| d_clock_base := sk_clock_base sink_caps |> <| d_npt_start_times := None |>
          <| d_pending_segment := is_some (d_segment state) |>
  else
    let state := if is_some (d_npt_start state)
                 then state <| d_pending_segment := is_some (d_segment state) |> else state in
    state <| d_npt_start := None |> <| d_npt_stop := None |> <| d_play_speed := f64_one |>
          <| d_play_scale := f64_one |> <| d_clock_base := None |> <| d_npt_start_times := None |>.

Definition set_sink_caps (sink_caps : SinkCaps) (self : W) : res (result unit * W) :=
  if negb (String.eqb (sk_name sink_caps) "application/x-rtp") then Ok (Failure NotNegotiated, self)
  else match sk_clock_rate sink_caps with
  | None => Ok (Failure NotNegotiated, self)
  | Some clock_rate =>
      if negb (clock_rate >? 0) then Ok (Failure NotNegotiated, self)
      else match update_extensions_from_sink_caps (bd_settings self.2) sink_caps (bd_extensions self.2) with
      | Failure e => Ok (Failure e, self)
      | Success extensions =>
          let self := (self.1, self.2 <| bd_extensions := extensions |>) in
          if bool_decide (d_sink_caps (bd_state self.2) = Some sink_caps) then Ok (Success tt, self)
          else
            '(_, self) ← drain self;
            '(accepted, self) ← sub_set_sink_caps sink_caps self;
            if accepted : bool then Ok (Success tt, on_depay (accept_caps sink_caps clock_rate) self)
            else Ok (Failure NotNegotiated, on_depay (fun state => state <| d_sink_caps := None |>) self)
      end
  end.

Definition forward_event (event : SinkEvent) (self : W) : W := (self.1, push_out (OutEvent event) self.2).

Definition same_segment (state : State) (seqnum : Z) (segment : AnySegment) : bool :=
  match d_segment state, segment with
  | Some (old_seqnum, old_segment), TimeSegment s => (seqnum =? old_seqnum) && segment_eq s old_segment
  | _, _ => false
  end.

(** [sink_event_default] on a segment event. *)
Definition segment_event (seqnum : Z) (segment : AnySegment) (self : W) : res (result unit * W) :=
  let state := bd_state self.2 in
  if is_none (d_sink_caps state) then Ok (Failure NotNegotiated, self)
  else if same_segment state seqnum segment then
    Ok (Success tt, forward_event (EvSegment seqnum segment) self)
  else
    '(_, self) ← (if is_some (d_segment state) then drain self else Ok (Success tt, self));
    match segment with
    | TimeSegment s =>
        Ok (Success tt, on_depay (fun state => state <| d_segment := Some (seqnum, s) |>
                                                     <| d_pending_segment := true |>) self)
    | OtherSegment _ => Ok (Failure FlowErr, on_depay (fun state => state <| d_segment := None |>) self)
    end.

Definition flush_stop (self : W) : res W :=
  self ← flush self;
  let self := on_depay (fun state => state <| d_segment := None |> <| d_pending_segment := false |>
                                           <| d_current_stream := None |> <| d_last_pts := None |>
                                           <| d_last_dts := None |>) self in
  Ok (self.1, self.2 <| bd_stats := None |>).

Definition sink_event_default (event : SinkEvent) (self : W) : res (result unit * W) :=
  match event with
  | EvCaps caps => set_sink_caps caps self
  | EvSegment seqnum segment => segment_event seqnum segment self
  | EvEos => '(_, self) ← drain self; Ok (Success tt, forward_event event self)
  | EvFlushStop => self ← flush_stop self; Ok (Success tt, forward_event event self)
  | EvOther _ => Ok (Success tt, forward_event event self)
  end.

(** ** Starting and stopping; [false] when the subclass refuses *)
Definition reset_state (self : W) : W :=
  (self.1, self.2 <| bd_state := State_default |> <| bd_stats := None |>).

Definition ready_to_paused (self : W) : res (bool * W) := sub_start (reset_state self).

Definition paused_to_ready (self : W) : res (bool * W) :=
  '(stopped, self) ← sub_stop self;
  if stopped : bool then Ok (true, reset_state self) else Ok (false, self).

(** ** Signals and properties *)
Definition add_extension (ext : Ext) (self : W) : res W :=
  _ ← assert_ (negb (ext_id ext =? 0));
  Ok (self.1, self.2 <| bd_extensions ::= insert (wrap U8 (ext_id ext)) ext |>).

Definition clear_extensions (self : W) : W := (self.1, self.2 <| bd_extensions := ∅ |>).

Definition set_settings (settings : Settings) (self : W) : W := (self.1, self.2 <| bd_settings := settings |>).

(** A new element. *)
Definition Base_new : Base := mkBase State_default Settings_default None ∅ [].

(** ** Everything that happens to an element *)
Inductive Op :=
| OpBuffer (buffer : InBuffer)
| OpBufferList (list : list InBuffer)
| OpEvent (event : SinkEvent)
| OpStart
| OpStop
| OpAddExtension (ext : Ext)
| OpClearExtensions
| OpSettings (settings : Settings).

Definition depay_exec (self : W) (op : Op) : res W :=
  match op with
  | OpBuffer buffer => '(_, self) ← sink_chain buffer self; Ok self
  | OpBufferList list => '(_, self) ← sink_chain_list list self; Ok self
  | OpEvent event => '(_, self) ← sink_event_default event self; Ok self
  | OpStart => '(_, self) ← ready_to_paused self; Ok self
  | OpStop => '(_, self) ← paused_to_ready self; Ok self
  | OpAddExtension ext => add_extension ext self
  | OpClearExtensions => Ok (clear_extensions self)
  | OpSettings settings => Ok (set_settings settings self)
  end.
End Element.

(** ** What a packet offers the subclass *)
Definition InPacket_payload (packet : InPacket) : res (list Z) :=
  let '(from, to) := pa_payload_range packet in
  let bytes := ib_bytes (pa_buffer packet) in
  if (from <=? to) && (to <=? Z.of_nat (length bytes))
  then Ok (take (Z.to_nat (to - from)) (drop (Z.to_nat from) bytes)) else Panic.
