(* ===== verification/BaseDepayInv.v ===== *)
(** * The state of the depayloader base class

    How a subclass reaches the base class, the invariant of the state, that
    every call and every operation of the element keeps it, and that the
    assertions of the code hold where it does. *)

From S2P Require Import Prelude Queues F64 Flow RtpBase DepayMeta BaseDepay.

(** Buffers with their timestamps come before those that wait for one; the
    sequence numbers of the pending packets are consecutive. *)
Abbreviation buffers_ok := (in_front pb_metadata_set).
Abbreviation numbered := (numbered_by pe_ext_seqnum).

(** ** Calls of a subclass *)
Section Calls.
Context `{Gst} `{GstTime} `{RtpTypes} `{HeaderExtensions} `{DepayClass}.

(** One call of the interface of the base class. *)
Inductive base_call : Base -> Base -> Prop :=
| call_queue rel buf b r b' : base_queue_buffer rel buf b = Ok (r, b') -> base_call b b'
| call_drop bound b : base_call b (base_drop_packets bound b)
| call_caps caps b b' : base_set_src_caps caps b = Ok b' -> base_call b b'
| call_finish b b' : finish_pending_buffers b = Ok b' -> base_call b b'
| call_force b : base_call b (push_out OutForceKeyUnit b).

(** A subclass changes the base class through calls only: its state is private. *)
Class UsesBase `{!Subclass} : Prop := {
  handle_uses p w r w' : sub_handle_packet p w = Ok (r, w') -> rtc base_call w.2 w'.2;
  drain_uses w r w' : sub_drain w = Ok (r, w') -> rtc base_call w.2 w'.2;
  flush_uses w w' : sub_flush w = Ok w' -> rtc base_call w.2 w'.2;
  caps_uses caps w r w' : sub_set_sink_caps caps w = Ok (r, w') -> rtc base_call w.2 w'.2;
  start_uses w r w' : sub_start w = Ok (r, w') -> rtc base_call w.2 w'.2;
  stop_uses w r w' : sub_stop w = Ok (r, w') -> rtc base_call w.2 w'.2;
}.

(** What no call changes; a pending segment can only be sent. *)
Definition frame_state (s s' : State) : Prop :=
  (d_pending_segment s' = true -> d_pending_segment s = true) /\
  d_segment s' = d_segment s /\ d_sink_caps s' = d_sink_caps s /\ d_clock_rate s' = d_clock_rate s /\
  d_npt_start s' = d_npt_start s /\ d_npt_stop s' = d_npt_stop s /\ d_clock_base s' = d_clock_base s /\
  d_npt_start_times s' = d_npt_start_times s /\ d_current_stream s' = d_current_stream s.

(** The fields of [frame_state] are untouched. *)
Ltac same_frame := split; [by intros ?|by repeat split].
Ltac same_call := split; [same_frame|split; [by exists []|done]].

#[export] Instance frame_state_preorder : PreOrder frame_state.
Proof.
  split; [by intros s; repeat split|].
  intros s1 s2 s3 [P1 F1] [P2 F2]. split; [auto|]. intuition congruence.
Qed.

(** *** Pushing *)

(** The buffers that left, and those with their timestamps that are about to. *)
Definition pushed (o : Output) : list OutBuffer :=
  match o with OutPush b => [b] | OutPushList l => l | _ => [] end.
Definition sent (b : Base) : list OutBuffer := mjoin (pushed <$> bd_out b).
Definition waiting (b : Base) : list PendingBuffer := d_pending_buffers (bd_state b).

Lemma sent_push o b : sent (push_out o b) = sent b ++ pushed o.
Proof. unfold sent, push_out. cbn. rewrite fmap_app, join_app. cbn. by rewrite app_nil_r. Qed.

Lemma retrieve_spec s o s' :
  retrieve_pending_segment_event s = Ok (o, s') ->
  (exists ps, s' = s <| d_pending_segment := ps |> /\ (ps = true -> d_pending_segment s = true)) /\
  match o with Some o => pushed o = [] | None => True end.
Proof.
  assert (Hsame : exists ps, s = s <| d_pending_segment := ps |> /\ (ps = true -> d_pending_segment s = true))
    by (exists (d_pending_segment s); by destruct s).
  assert (Hgone : exists ps, s <| d_pending_segment := false |> = s <| d_pending_segment := ps |> /\
    (ps = true -> d_pending_segment s = true)) by (by exists false).
  unfold retrieve_pending_segment_event. destruct (negb _); [by intros; inv_ok|].
  destruct (d_src_caps s); [|by intros; inv_ok].
  intros ([n sg] & _ & HK)%bind_ok. cbv beta iota in HK.
  destruct (d_npt_start s); [|by inv_ok]. destruct (d_npt_start_times s); by inv_ok.
Qed.

Lemma push_segment_spec o b :
  match o with Some o => pushed o = [] | None => True end ->
  sent (push_segment o b) = sent b /\ bd_state (push_segment o b) = bd_state b /\
  bd_settings (push_segment o b) = bd_settings b /\ bd_extensions (push_segment o b) = bd_extensions b /\
  bd_stats (push_segment o b) = bd_stats b.
Proof.
  unfold push_segment. destruct o as [o|]; [|done]. intros Ho. by rewrite sent_push, Ho, app_nil_r.
Qed.

(** One round of the loop takes some of the ready buffers. *)
Lemma same_push_prefix pts l :
  take_while pb_metadata_set l = take_while (same_push pts) l ++ take_while pb_metadata_set (skip_while (same_push pts) l)
  /\ skip_while pb_metadata_set l = skip_while pb_metadata_set (skip_while (same_push pts) l).
Proof.
  apply narrow_split. unfold same_push. by intros b [? _]%andb_prop.
Qed.

Lemma buffers_ok_skip pts l : buffers_ok l -> buffers_ok (skip_while (same_push pts) l).
Proof. unfold in_front. by rewrite (proj2 (same_push_prefix pts l)). Qed.

(** What a round pushes and leaves, in either form. *)
Lemma round_spec pts front l :
  head l = Some front -> pb_metadata_set front = true -> ob_pts (pb_buffer front) = pts ->
  let same := take_while (same_push pts) l in
  exists o, pushed o = pb_buffer <$> same /\ (0 < length same)%nat /\
    (if (length same =? 1)%nat then (OutPush (pb_buffer front), tail l)
     else (OutPushList (pb_buffer <$> same), skip_while (same_push pts) l)) = (o, skip_while (same_push pts) l).
Proof.
  destruct l as [|b l]; [done|]. intros [= ->] Hset Hpts. cbn.
  assert (Hs : same_push pts front = true) by (unfold same_push; by rewrite Hset, bool_decide_eq_true_2).
  rewrite Hs. cbn. destruct (take_while (same_push pts) l) as [|c k] eqn:Hk; cbn.
  - exists (OutPush (pb_buffer front)). split; [done|]. split; [lia|]. f_equal.
    by rewrite <- (take_skip_while (same_push pts) l) at 1; rewrite Hk.
  - eexists. split; [|split; [lia|reflexivity]]. done.
Qed.

Lemma finish_loop_spec fuel b b' :
  finish_loop fuel b = Ok b' -> buffers_ok (waiting b) ->
  (exists ps, bd_state b' = (bd_state b) <| d_pending_segment := ps |>
                              <| d_pending_buffers := skip_while pb_metadata_set (waiting b) |> /\
     (ps = true -> d_pending_segment (bd_state b) = true)) /\
  sent b' = sent b ++ (pb_buffer <$> take_while pb_metadata_set (waiting b)) /\
  bd_settings b' = bd_settings b /\ bd_extensions b' = bd_extensions b /\ bd_stats b' = bd_stats b.
Proof.
  revert b. induction fuel as [|fuel IH]; intros b HK Hok; cbn [finish_loop] in HK; unfold waiting in *.
  all: destruct (existsb _ _) eqn:Hex; cbn [negb] in HK.
  1: done.
  1,3: inv_ok; destruct (none_in_front _ _ Hex) as [-> ->]; rewrite app_nil_r; split; [|done];
       exists (d_pending_segment (bd_state b')); by destruct b' as [[]].
  destruct (in_front_head _ _ Hok Hex) as (front & l & Hl & Hset).
  apply bind_ok in HK as (f & Hf & HK). apply unwrap_ok in Hf. rewrite Hl in Hf. injection Hf as <-.
  apply bind_ok in HK as (? & _ & HK). apply bind_ok in HK as ([o s] & Hr & HK). cbv beta iota in HK.
  apply retrieve_spec in Hr as [(ps & -> & Hmono) Ho].
  destruct (round_spec (ob_pts (pb_buffer front)) front (d_pending_buffers (bd_state b)))
    as (o' & Ho' & _ & Heq); [by rewrite Hl|done|done|].
  rewrite Heq in HK. set (l' := skip_while _ (d_pending_buffers (bd_state b))) in *.
  set (b1 := b <| bd_state := _ |>) in HK.
  destruct (push_segment_spec o b1 Ho) as (Hse & Hst & Hset' & Hext & Hstats).
  apply IH in HK as ((ps' & -> & Hm') & -> & -> & -> & ->);
    [|cbn; rewrite Hst; cbn; by apply buffers_ok_skip].
  rewrite sent_push, Hse, Ho'. cbn. rewrite Hst. cbn.
  destruct (same_push_prefix (ob_pts (pb_buffer front)) (d_pending_buffers (bd_state b))) as [Ht Hs].
  rewrite Ht, Hs, fmap_app, app_assoc. cbn in Hm'. rewrite Hst in Hm'. cbn in Hm'. eauto 10.
Qed.

Lemma finish_spec b b' :
  finish_pending_buffers b = Ok b' -> buffers_ok (waiting b) ->
  (exists ps pb, bd_state b' = (bd_state b) <| d_pending_segment := ps |> <| d_pending_buffers := pb |> /\
     (ps = true -> d_pending_segment (bd_state b) = true) /\
     buffers_ok pb /\ sent b' ++ (pb_buffer <$> pb) = sent b ++ (pb_buffer <$> waiting b)) /\
  bd_settings b' = bd_settings b /\ bd_extensions b' = bd_extensions b /\ bd_stats b' = bd_stats b.
Proof.
  unfold finish_pending_buffers. intros HK Hok. destruct (is_none _).
  - inv_ok. split; [|done]. exists (d_pending_segment (bd_state b')), (waiting b').
    split; [by destruct b' as [[]]|done].
  - apply finish_loop_spec in HK as ((ps & -> & Hm) & -> & -> & -> & ->); [|done]. split; [|done].
    eexists ps, _. split; [done|]. split; [done|]. split.
    + unfold in_front. by rewrite skip_while_none.
    + by rewrite <- app_assoc, <- fmap_app, take_skip_while.
Qed.

(** The segment event that is pending can be made. *)
Definition event_ok (s : State) : Prop :=
  d_pending_segment s = true -> is_Some (d_src_caps s) ->
  exists n sg, d_segment s = Some (n, sg) /\
    forall npt times, d_npt_start s = Some npt -> d_npt_start_times s = Some times ->
      exists sg', npt_segment s sg npt times = Ok sg'.

Lemma retrieve_total s : event_ok s -> exists o s', retrieve_pending_segment_event s = Ok (o, s').
Proof.
  unfold event_ok, retrieve_pending_segment_event. intros Hok.
  destruct (d_pending_segment s); cbn; [|eauto]. destruct (d_src_caps s) as [c|]; [|eauto].
  destruct Hok as (n & sg & -> & Hnpt); [done|eauto|]. cbn.
  destruct (d_npt_start s) as [npt|]; [|eauto]. destruct (d_npt_start_times s) as [t|]; [|eauto].
  destruct (Hnpt npt t) as (sg' & ->); [done..|]. cbn. eauto.
Qed.

Lemma event_ok_pending s ps l :
  event_ok s -> (ps = true -> d_pending_segment s = true) ->
  event_ok (s <| d_pending_segment := ps |> <| d_pending_buffers := l |>).
Proof.
  unfold event_ok. destruct s; cbn. intros Hok Hps Hp Hc.
  destruct (Hok (Hps Hp) Hc) as (n & sg & Hs & Hnpt). exists n, sg. split; [exact Hs|exact Hnpt].
Qed.

Lemma finish_loop_total fuel b :
  buffers_ok (waiting b) -> event_ok (bd_state b) -> (length (waiting b) < fuel)%nat ->
  exists b', finish_loop fuel b = Ok b'.
Proof.
  revert b. induction fuel as [|fuel IH]; intros b Hok Hev Hlen; [lia|]. cbn [finish_loop].
  unfold waiting in *. destruct (existsb _ _) eqn:Hex; cbn [negb]; [|eauto].
  destruct (in_front_head _ _ Hok Hex) as (front & l & Hl & Hset).
  destruct (round_spec (ob_pts (pb_buffer front)) front (d_pending_buffers (bd_state b)))
    as (o' & _ & Hpos & Heq); [by rewrite Hl|done|done|].
  replace (head (d_pending_buffers (bd_state b))) with (Some front) by (by rewrite Hl).
  cbn [unwrap]. rewrite bind_Ok.
  replace (negb _) with true by (destruct (Nat.eqb_spec (length (take_while (same_push (ob_pts (pb_buffer front)))
    (d_pending_buffers (bd_state b)))) 0); [lia|done]).
  cbn [assert_]. rewrite bind_Ok.
  destruct (retrieve_total _ Hev) as (o & s & Hr). rewrite Hr, bind_Ok. cbv beta iota.
  destruct (retrieve_spec _ _ _ Hr) as [(ps & -> & Hmono) Ho]. rewrite Heq.
  set (b1 := b <| bd_state := _ |>). destruct (push_segment_spec o b1 Ho) as (_ & Hst & _).
  apply IH; cbn; rewrite Hst; cbn.
  - by apply buffers_ok_skip.
  - apply event_ok_pending; done.
  - rewrite <- (take_skip_while (same_push (ob_pts (pb_buffer front))) (d_pending_buffers (bd_state b))), length_app in Hlen.
    lia.
Qed.

Lemma finish_total b :
  buffers_ok (waiting b) -> event_ok (bd_state b) -> exists b', finish_pending_buffers b = Ok b'.
Proof.
  intros Hok Hev. unfold finish_pending_buffers. destruct (is_none _); [eauto|].
  apply finish_loop_total; [done..|unfold waiting; lia].
Qed.

(** *** Timestamps of waiting buffers *)

Definition dated (pts dts : option Z) (discont : bool) (b : PendingBuffer) : PendingBuffer :=
  mkPendingBuffer true (decorate_buffer pts dts discont (pb_buffer b)).

Definition dated_all (pts dts : option Z) (discont : bool) (l : list PendingBuffer) : list PendingBuffer :=
  match l with [] => [] | b :: l => dated pts dts discont b :: (dated pts dts false <$> l) end.

Lemma decorate_waiting_spec pts dts discont l :
  Forall (fun b => pb_metadata_set b = false) l ->
  decorate_waiting pts dts discont l = Ok (dated_all pts dts discont l, discont && bool_decide (l = [])).
Proof.
  intros Hl. revert discont. induction Hl as [|b l Hb Hl IH]; intros discont; cbn.
  - by rewrite andb_true_r.
  - rewrite Hb, IH. cbn. rewrite andb_false_r. do 3 f_equal. by destruct l.
Qed.

Lemma decorate_pending_spec pts dts discont l :
  buffers_ok l ->
  decorate_pending pts dts discont l
  = Ok (take_while pb_metadata_set l ++ dated_all pts dts discont (skip_while pb_metadata_set l),
        discont && bool_decide (skip_while pb_metadata_set l = [])).
Proof. intros Hl. unfold decorate_pending. by rewrite decorate_waiting_spec. Qed.

Lemma dated_all_set pts dts discont l : Forall (fun b => pb_metadata_set b = true) (dated_all pts dts discont l).
Proof. destruct l; cbn; constructor; [done|]. by apply Forall_fmap, Forall_true. Qed.

Lemma decorated_set pts dts discont l :
  Forall (fun b => pb_metadata_set b = true)
    (take_while pb_metadata_set l ++ dated_all pts dts discont (skip_while pb_metadata_set l)).
Proof. apply Forall_app. split; [apply take_while_all|apply dated_all_set]. Qed.

(** *** What calls keep *)

Definition used_ok (top : Z) (last_used : option Z) : Prop :=
  match last_used with Some l => l <= top | None => True end.

(** The state as calls keep it, the last packet being number [top]. A class
    that copes with gaps gets packets in any order. *)
Definition call_inv (top : Z) (s : State) : Prop :=
  buffers_ok (d_pending_buffers s) /\
  (allow_seqnum_discontinuities = false ->
   numbered top (d_pending_packets s) /\ used_ok top (d_last_used_ext_seqnum s)).

Definition call_frame (b b' : Base) : Prop :=
  frame_state (bd_state b) (bd_state b') /\
  (exists k, d_pending_packets (bd_state b) = k ++ d_pending_packets (bd_state b')) /\
  bd_settings b' = bd_settings b /\ bd_stats b' = bd_stats b.

#[export] Instance call_frame_preorder : PreOrder call_frame.
Proof.
  split; [intros b; split; [done|]; split; [by exists []|done]|].
  intros b1 b2 b3 (F1 & [k1 P1] & S1 & T1) (F2 & [k2 P2] & S2 & T2).
  split; [by etrans|]. split; [exists (k1 ++ k2); by rewrite P1, P2, app_assoc|].
  split; congruence.
Qed.

(** The bytes of everything that left or waits, in order. *)
Definition bytes_of (b : OutBuffer) : list Z := db_bytes (ob_buffer b).
Definition stream_bytes (b : Base) : list (list Z) :=
  bytes_of <$> (sent b ++ (pb_buffer <$> waiting b)).

Lemma dated_all_bytes pts dts discont l :
  bytes_of <$> (pb_buffer <$> dated_all pts dts discont l) = bytes_of <$> (pb_buffer <$> l).
Proof.
  assert (Hd : forall d b, bytes_of (pb_buffer (dated pts dts d b)) = bytes_of (pb_buffer b)) by (by intros []).
  destruct l as [|b l]; cbn; [done|]. f_equal; [apply Hd|].
  rewrite <- !list_fmap_compose. apply list_fmap_ext. intros ? x _. apply Hd.
Qed.

Lemma decorated_bytes pts dts discont l :
  bytes_of <$> (pb_buffer <$> (take_while pb_metadata_set l ++ dated_all pts dts discont (skip_while pb_metadata_set l)))
  = bytes_of <$> (pb_buffer <$> l).
Proof. by rewrite !fmap_app, dated_all_bytes, <- !fmap_app, take_skip_while. Qed.

(** What a buffer is without its metas: data, flags and timestamps. *)
Definition core_of (b : OutBuffer) : DepayBuffer * option Z * option Z := (ob_buffer b, ob_pts b, ob_dts b).

(** Extensions and the subclass add metas to a buffer, the rest stays. *)
Class MetasOnly : Prop := {
  read_keeps e flags d b : core_of (ext_read e flags d b).2 = core_of b;
  transform_keeps i m b : core_of (transform_meta i m b) = core_of b;
}.

Lemma copy_meta_core `{!MetasOnly} i b acc m acc' :
  core_of acc.2 = core_of b -> copy_meta i acc m = Ok acc' -> core_of acc'.2 = core_of b.
Proof.
  destruct acc as [r1 b1], acc' as [r2 b2]. unfold copy_meta. cbn. intros Hb HK.
  destruct (me_memory m); [by inv_ok|]. destruct (me_reference m) as [[[fx nm] ts]|].
  - apply bind_ok in HK as (? & _ & HK). destruct (bool_decide _); inv_ok; by rewrite ?transform_keeps.
  - inv_ok. by rewrite transform_keeps.
Qed.

Lemma read_extensions_core `{!MetasOnly} p exts b w exts' b' w' known :
  read_extensions p exts b w = Ok (exts', b', w', known) -> core_of b' = core_of b.
Proof.
  unfold read_extensions. destruct (_ && _); [|by intros; inv_ok].
  intros (pk & _ & HK)%bind_ok. apply bind_ok in HK as ([pat data] & _ & HK). cbv beta iota in HK.
  destruct (extension_flags pat) as [fl|]; inv_ok; [|done].
  match goal with HF : fold_left ?f ?els ?acc = _ |- _ =>
    pose proof (fold_left_inv (fun a => core_of a.1.2 = core_of b) f acc els) as HI; rewrite HF in HI end.
  apply HI; [|done]. intros [[xs b5] w5] el Hb5. unfold read_element. cbn in *.
  destruct (xs !! el.1) as [x|]; [|done].
  pose proof (read_keeps x fl el.2 b5) as HR. destruct (ext_read _ _ _ _) as [[ok x'] b6]. cbn in *. congruence.
Qed.

Lemma copy_packet_core `{!MetasOnly} settings b st p st' :
  core_of (cp_buffer st) = core_of b -> copy_packet settings st p = Ok st' ->
  core_of (cp_buffer st') = core_of b.
Proof.
  intros Hs ([r1 b1] & Hm & HK)%bind_ok. cbv beta iota in HK.
  apply bind_ok in HK as ([[[x1 b2] w2] kn] & Hx%read_extensions_core & HK). cbv beta iota in HK.
  apply (res_fold_inv (fun a => core_of a.2 = core_of b)) in Hm; [|apply copy_meta_core|done].
  cbv zeta in HK. destruct (_ && _); inv_ok; exact (eq_trans Hx Hm).
Qed.

Lemma copy_metas_core `{!MetasOnly} settings l exts e b w exts' b' :
  copy_metas settings l exts e b = Ok (w, exts', b') -> core_of b' = core_of b.
Proof.
  intros (st & Hst & HK)%bind_ok.
  apply (res_fold_inv (fun st => core_of (cp_buffer st) = core_of b)) in Hst;
    [|intros ???; apply copy_packet_core|done].
  cbv zeta in HK. inv_ok. by destruct (cp_ssrc st), (set_source_info settings).
Qed.

(** The buffers that leave are the first ones of the queue. *)
Lemma finish_suffix b b' :
  finish_pending_buffers b = Ok b' -> buffers_ok (waiting b) -> exists k, waiting b = k ++ waiting b'.
Proof.
  unfold finish_pending_buffers. intros HK Hok. destruct (is_none _).
  - inv_ok. by exists [].
  - apply finish_loop_spec in HK as ((ps & Hs & _) & _); [|done]. unfold waiting in *. rewrite Hs. cbn.
    eexists. symmetry. apply take_skip_while.
Qed.

(** New caps, with the buffers before them pushed. *)
Lemma caps_update_spec b r b' :
  caps_update b = Ok (r, b') -> Forall (fun p => pb_metadata_set p = true) (waiting b) ->
  (exists ps pb sc, bd_state b' = (bd_state b) <| d_pending_segment := ps |> <| d_pending_buffers := pb |>
                                    <| d_src_caps := Some sc |> /\
     (ps = true -> d_pending_segment (bd_state b) = true) /\
     Forall (fun p => pb_metadata_set p = true) pb /\
     sent b' ++ (pb_buffer <$> pb) = sent b ++ (pb_buffer <$> waiting b)) /\
  bd_settings b' = bd_settings b /\ bd_stats b' = bd_stats b.
Proof.
  intros (sc & Hsc%unwrap_ok & HK)%bind_ok Hset.
  assert (Hsame : bd_state b = (bd_state b) <| d_pending_segment := d_pending_segment (bd_state b) |>
    <| d_pending_buffers := waiting b |> <| d_src_caps := Some sc |>)
    by (unfold waiting; destruct b as [[]]; cbn in Hsc |- *; by subst).
  destruct (updated_caps _ sc) as [sc'|]; [|inv_ok; eauto 10].
  destruct (bool_decide _); [inv_ok; eauto 10|].
  apply bind_ok in HK as ([n sg] & _ & HK). cbv beta iota in HK.
  apply bind_ok in HK as (b1 & Hf & HK). cbv zeta in HK. inv_ok.
  pose proof (finish_suffix _ _ Hf (all_in_front _ _ Hset)) as [k Hk].
  apply finish_spec in Hf as ((ps & pb & Hb1 & Hm & _ & Hs) & Hset1 & _ & Hst1); [|by apply all_in_front].
  split; [|split; [exact Hset1|exact Hst1]]. exists ps, pb, sc'. cbn. rewrite Hb1. split; [done|]. split; [done|]. split.
  - rewrite Hk in Hset. apply Forall_app in Hset as [_ Hset]. unfold waiting in Hset. by rewrite Hb1 in Hset.
  - rewrite <- Hs. f_equal. pose proof (sent_push (OutCaps sc' (Some n)) b1) as Hp.
    by rewrite app_nil_r in Hp.
Qed.

(** The queue with the waiting buffers given the timestamps of a new one. *)
Definition redated (pts dts : option Z) (b : Base) : list PendingBuffer :=
  take_while pb_metadata_set (waiting b) ++
  dated_all pts dts (d_discont_pending (bd_state b)) (skip_while pb_metadata_set (waiting b)).

(** The new buffer gets the discont flag when no waiting one took it. *)
Definition takes_discont (b : Base) : bool :=
  d_discont_pending (bd_state b) && bool_decide (skip_while pb_metadata_set (waiting b) = []).

(** The caps update before a new buffer, if there is one. *)
Lemma update_parts (w : bool) b1 u b2 :
  (if w then caps_update b1 else Ok (Success tt, b1)) = Ok (u, b2) ->
  Forall (fun p => pb_metadata_set p = true) (waiting b1) ->
  exists ps pb sc, bd_state b2 = (bd_state b1) <| d_pending_segment := ps |>
      <| d_pending_buffers := pb |> <| d_src_caps := sc |> /\
    (ps = true -> d_pending_segment (bd_state b1) = true) /\
    Forall (fun p => pb_metadata_set p = true) pb /\
    sent b2 ++ (pb_buffer <$> pb) = sent b1 ++ (pb_buffer <$> waiting b1) /\
    bd_settings b2 = bd_settings b1 /\ bd_stats b2 = bd_stats b1.
Proof.
  intros Hu Hset. destruct w.
  - apply caps_update_spec in Hu as ((ps & pb & sc & ? & ? & ? & ?) & ? & ?); [|done]. eauto 20.
  - injection Hu as <- <-.
    exists (d_pending_segment (bd_state b1)), (waiting b1), (d_src_caps (bd_state b1)).
    split; [by destruct b1 as [[]]|done].
Qed.

(** A buffer for pending packets: the whole effect. *)
Lemma queue_for_parts e off buf b r b' :
  queue_for_packets e off buf b = Ok (r, b') -> buffers_ok (waiting b) ->
  exists pts dts buf1 ps pb sc lp ld,
    buffer_times (d_last_used_ext_seqnum (bd_state b)) e off
      (list_find_map (fun p => ib_pts (pe_buffer p))
         (take_while (fun p => pe_ext_seqnum p <=? e) (d_pending_packets (bd_state b)))) = Ok (pts, dts) /\
    (MetasOnly -> core_of buf1 = core_of (decorate_buffer pts dts (takes_discont b) buf)) /\
    Forall (fun p => pb_metadata_set p = true) pb /\
    (ps = true -> d_pending_segment (bd_state b) = true) /\
    sent b' ++ (pb_buffer <$> pb) = sent b ++ (pb_buffer <$> redated pts dts b) /\
    bd_settings b' = bd_settings b /\ bd_stats b' = bd_stats b /\
    bd_state b' = (bd_state b) <| d_discont_pending := false |> <| d_pending_segment := ps |> <| d_src_caps := sc |>
      <| d_pending_buffers := pb ++ match r with Success _ => [mkPendingBuffer true buf1] | Failure _ => [] end |>
      <| d_last_used_ext_seqnum :=
           match r with Success _ => Some e | Failure _ => d_last_used_ext_seqnum (bd_state b) end |>
      <| d_last_pts := lp |> <| d_last_dts := ld |>.
Proof.
  intros ([pts dts] & Ht & HK)%bind_ok Hok. cbv beta iota in HK.
  rewrite decorate_pending_spec, bind_Ok in HK by done. cbv beta iota in HK.
  apply bind_ok in HK as ([[w exts] buf1] & Hm & HK). cbv beta iota zeta in HK.
  set (b1 := modify bd_state _ _) in HK. apply bind_ok in HK as ([u b2] & Hu & HK). cbv beta iota in HK.
  apply update_parts in Hu as (ps & pb & sc & Hb2 & Hps & Hset & Hsent & Hse & Hst); [|apply decorated_set].
  exists pts, dts,
    (if takes_discont b then buf1 <| ob_buffer ::= modify db_discont (fun _ => true) |> else buf1), ps, pb, sc.
  assert (Hcore : MetasOnly ->
    core_of (if takes_discont b then buf1 <| ob_buffer ::= modify db_discont (fun _ => true) |> else buf1)
    = core_of (decorate_buffer pts dts (takes_discont b) buf)).
  { intros HM. apply copy_metas_core in Hm. unfold decorate_buffer, core_of in *. injection Hm as H1' H2' H3'.
    by destruct (takes_discont b); cbn in *; rewrite H1', H2', H3'. }
  destruct u as [[]|err]; injection HK as <- <-.
  - exists (if is_some pts then pts else d_last_pts (bd_state b)), (if is_some pts then dts else d_last_dts (bd_state b)).
    split; [done|]. split; [done|]. split; [done|]. split; [done|]. split; [exact Hsent|]. split; [exact Hse|].
    split; [exact Hst|]. cbn. rewrite Hb2. cbn. by destruct (is_some pts).
  - exists (d_last_pts (bd_state b)), (d_last_dts (bd_state b)).
    split; [done|]. split; [done|]. split; [done|]. split; [done|]. split; [exact Hsent|]. split; [exact Hse|].
    split; [exact Hst|]. rewrite Hb2, app_nil_r. cbn. by destruct (bd_state b).
Qed.

Lemma redated_bytes pts dts b : bytes_of <$> (pb_buffer <$> redated pts dts b) = bytes_of <$> (pb_buffer <$> waiting b).
Proof. apply decorated_bytes. Qed.

(** What is kept, and the bytes. *)
Lemma queue_for_spec e off buf b r b' :
  queue_for_packets e off buf b = Ok (r, b') -> buffers_ok (waiting b) ->
  frame_state (bd_state b) (bd_state b') /\
  d_pending_packets (bd_state b') = d_pending_packets (bd_state b) /\
  buffers_ok (waiting b') /\ bd_settings b' = bd_settings b /\ bd_stats b' = bd_stats b /\
  match r with
  | Success _ => d_last_used_ext_seqnum (bd_state b') = Some e
  | Failure _ => d_last_used_ext_seqnum (bd_state b') = d_last_used_ext_seqnum (bd_state b)
  end /\
  (MetasOnly ->
   stream_bytes b' = stream_bytes b ++ match r with Success _ => [bytes_of buf] | Failure _ => [] end).
Proof.
  intros HK Hok. destruct (queue_for_parts _ _ _ _ _ _ HK Hok)
    as (pts & dts & buf1 & ps & pb & sc & lp & ld & _ & Hcore & Hset & Hps & Hsent & Hse & Hst & Hb').
  unfold stream_bytes, waiting in *. rewrite Hb'. cbn.
  split; [split; [exact Hps|by repeat split]|]. split; [done|]. split.
  { apply all_in_front, Forall_app. split; [done|]. destruct r; by repeat constructor. }
  split; [done|]. split; [done|]. split; [by destruct r|]. intros HM.
  rewrite (fmap_app pb_buffer pb), app_assoc, Hsent, !(fmap_app bytes_of), redated_bytes, <- !app_assoc.
  do 2 f_equal. destruct r; cbn; [|done]. f_equal. specialize (Hcore HM).
  unfold decorate_buffer, core_of in Hcore. injection Hcore as Hcore _ _. unfold bytes_of. rewrite Hcore.
  by destruct (takes_discont b).
Qed.

(** The last packet that a buffer was made of is still pending. *)
Definition newly_used (s s' : State) : Prop :=
  d_last_used_ext_seqnum s' = d_last_used_ext_seqnum s \/
  exists e p, d_last_used_ext_seqnum s' = Some e /\ last (d_pending_packets s') = Some p /\ e <= pe_ext_seqnum p.

(** What one queued buffer does: the state as calls keep it, and the bytes. *)
Definition queue_effect (r : result unit) (buf : OutBuffer) (b b' : Base) : Prop :=
  call_frame b b' /\ buffers_ok (waiting b') /\ newly_used (bd_state b) (bd_state b') /\
  (MetasOnly ->
   stream_bytes b' = stream_bytes b ++ match r with Success _ => [bytes_of buf] | Failure _ => [] end).

Lemma queue_failed e buf b b' :
  buffers_ok (waiting b) -> call_frame b b' -> waiting b' = waiting b -> bd_out b' = bd_out b ->
  d_last_used_ext_seqnum (bd_state b') = d_last_used_ext_seqnum (bd_state b) ->
  queue_effect (Failure e) buf b b'.
Proof.
  intros Hok Hf Hw Ho Hu. split; [done|]. split; [by rewrite Hw|]. split; [by left|].
  intros _. unfold stream_bytes, sent. by rewrite app_nil_r, Hw, Ho.
Qed.

Lemma queue_range_spec seqnums off buf b r b' :
  queue_for_range seqnums off buf b = Ok (r, b') -> buffers_ok (waiting b) -> queue_effect r buf b b'.
Proof.
  destruct seqnums as [st e]. unfold queue_for_range. intros HK Hok.
  destruct (st >? e); [injection HK as <- <-; by apply queue_failed|]. cbv zeta in HK.
  set (b1 := modify bd_state _ b) in HK.
  assert (Hf1 : call_frame b b1).
  { split; [by repeat split|]. split; [|done]. eexists. symmetry. apply take_skip_while. }
  destruct (last _) as [back|] eqn:Hback; [|injection HK as <- <-; by apply queue_failed].
  destruct (e >? pe_ext_seqnum back) eqn:He; [injection HK as <- <-; by apply queue_failed|].
  apply queue_for_spec in HK as (Hf & Hp & Hw & Hse & Hst & Hu & Hsb); [|done].
  split; [etrans; [exact Hf1|]; split; [done|]; split; [by exists []|done]|]. split; [done|]. split; [|done].
  destruct r as [u|err]; [right; exists e, back|by left].
  rewrite Hp. split; [done|]. split; [done|]. rewrite Z.gtb_ltb in He. by apply Z.ltb_ge in He.
Qed.

(** [queue_buffer] in all its cases. *)
Lemma queue_spec rel buf b r b' :
  base_queue_buffer rel buf b = Ok (r, b') -> buffers_ok (waiting b) -> queue_effect r buf b b'.
Proof.
  intros HK Hok. unfold base_queue_buffer in HK. cbv zeta in HK.
  destruct (d_src_caps (bd_state b)) as [sc|]; [|injection HK as <- <-; by apply queue_failed].
  destruct rel as [seqnums|seqnums off|]; [by apply queue_range_spec in HK..|].
  injection HK as <- <-. split; [same_call|]. split; [by apply in_front_snoc|].
  split; [by left|]. intros _. unfold stream_bytes, waiting, sent. cbn.
  by rewrite !fmap_app, <- app_assoc.
Qed.

Lemma drop_to_spec e s :
  frame_state s (drop_packets_to e s) /\
  (exists k, d_pending_packets s = k ++ d_pending_packets (drop_packets_to e s)) /\
  d_last_used_ext_seqnum (drop_packets_to e s) = d_last_used_ext_seqnum s /\
  d_pending_buffers (drop_packets_to e s) = d_pending_buffers s.
Proof.
  unfold drop_packets_to. destruct (last _); [destruct (_ <=? _)|]; (split; [by repeat split|]);
    (split; [|done]); eexists; symmetry; [apply app_nil_r|apply take_skip_while|exact (app_nil_l _)].
Qed.

(** [drop_packets] leaves the buffers alone, unless the range is unbounded. *)
Lemma drop_spec bound b :
  let b' := base_drop_packets bound b in
  call_frame b b' /\
  d_last_used_ext_seqnum (bd_state b') = d_last_used_ext_seqnum (bd_state b) /\
  waiting b' = match bound with Unbounded => [] | _ => waiting b end /\ sent b' = sent b.
Proof.
  assert (H0' : call_frame b (b <| bd_state := (bd_state b) <| d_discont_pending := true |> |>))
    by same_call.
  assert (Hd : forall e, call_frame b (b <| bd_state := drop_packets_to e ((bd_state b) <| d_discont_pending := true |>) |>) /\
    d_last_used_ext_seqnum (drop_packets_to e ((bd_state b) <| d_discont_pending := true |>))
    = d_last_used_ext_seqnum (bd_state b) /\
    d_pending_buffers (drop_packets_to e ((bd_state b) <| d_discont_pending := true |>)) = waiting b).
  { intros e. destruct (drop_to_spec e ((bd_state b) <| d_discont_pending := true |>)) as (Hf & Hk & Hu & Hw).
    split; [|done]. etrans; [exact H0'|]. split; [exact Hf|]. split; [exact Hk|done]. }
  cbv zeta. destruct bound as [e|e|]; unfold base_drop_packets; cbv zeta iota.
  - by destruct (Hd e) as (? & ? & ?).
  - destruct (e =? 0); [done|]. by destruct (Hd (e - 1)) as (? & ? & ?).
  - split; [|done]. same_call.
Qed.

Lemma set_src_caps_spec caps b b' :
  base_set_src_caps caps b = Ok b' ->
  call_frame b b' /\ d_last_used_ext_seqnum (bd_state b') = d_last_used_ext_seqnum (bd_state b) /\
  waiting b' = waiting b /\ sent b' = sent b.
Proof.
  unfold base_set_src_caps. destruct (bool_decide _); [by intros [= <-]|].
  cbv zeta. intros ([o s] & Hr & HK)%bind_ok. cbv beta iota in HK. injection HK as <-.
  apply retrieve_spec in Hr as [(ps & -> & Hmono) Ho].
  set (b1 := push_out _ _). destruct (push_segment_spec o b1 Ho) as (Hse & Hst & Hset & _ & Hstats).
  unfold waiting. rewrite Hse, Hst. split.
  - split; [rewrite Hst; split; [exact Hmono|by repeat split]|]. split; [exists []; by rewrite Hst|]. by rewrite Hset, Hstats.
  - split; [done|]. split; [done|]. subst b1. by rewrite sent_push, app_nil_r.
Qed.

(** ** Every call keeps the invariant *)
Lemma call_inv_suffix top b b' :
  call_frame b b' -> buffers_ok (waiting b') -> newly_used (bd_state b) (bd_state b') ->
  call_inv top (bd_state b) -> call_inv top (bd_state b').
Proof.
  intros (_ & [k Hk] & _) Hw Hu [_ Hn]. split; [done|]. intros Ha. destruct (Hn Ha) as [Hnum Huse].
  rewrite Hk in Hnum. apply numbered_suffix in Hnum. split; [done|].
  destruct Hu as [->|(e & p & -> & Hl & He)]; [done|].
  cbn. by rewrite (numbered_last _ _ _ _ Hnum Hl) in He.
Qed.

Lemma base_call_effect b b' :
  base_call b b' -> buffers_ok (waiting b) ->
  call_frame b b' /\ buffers_ok (waiting b') /\ newly_used (bd_state b) (bd_state b').
Proof.
  intros Hcall Hok. destruct Hcall as [rel buf b r b' HK|bound b|caps b b' HK|b b' HK|b].
  - by apply queue_spec in HK as (? & ? & ? & _).
  - destruct (drop_spec bound b) as (Hf & Hu & Hw & _). split; [done|]. split; [|by left].
    rewrite Hw. destruct bound; [done|done|by apply all_in_front].
  - apply set_src_caps_spec in HK as (Hf & Hu & Hw & _). split; [done|]. split; [by rewrite Hw|by left].
  - apply finish_spec in HK as ((ps & pb & Hb & Hm & Hpb & _) & Hset & _ & Hst); [|done].
    unfold call_frame, frame_state, waiting, newly_used. rewrite Hb, Hset, Hst. cbn.
    split; [split; [split; [exact Hm|by repeat split]|split; [by exists []|done]]|]. split; [done|by left].
  - split; [same_call|]. split; [done|by left].
Qed.

Lemma base_call_keeps top b b' :
  base_call b b' -> call_inv top (bd_state b) -> call_inv top (bd_state b') /\ call_frame b b'.
Proof.
  intros Hcall Hinv. destruct (base_call_effect _ _ Hcall (proj1 Hinv)) as (Hf & Hw & Hu).
  split; [by eapply call_inv_suffix|done].
Qed.

Lemma base_calls_keep top b b' :
  rtc base_call b b' -> call_inv top (bd_state b) -> call_inv top (bd_state b') /\ call_frame b b'.
Proof.
  induction 1 as [b|b1 b2 b3 H12 _ IH]; intros Hinv; [done|].
  destruct (base_call_keeps _ _ _ H12 Hinv) as [H2' F12]. destruct (IH H2') as [H3' F23].
  split; [done|by etrans].
Qed.
End Calls.

(** ** The element *)
Section ElementInv.
Context `{Gst} `{GstTime} `{RtpTypes} `{HeaderExtensions} `{DepayClass} `{!Subclass} `{!UsesBase}.
Abbreviation W := (Sub * Base)%type.

(** The invariant of the element between operations: pending packets are
    consecutive up to the current stream's last one, buffers that were used
    are not newer, packets wait only while there is a stream and a segment,
    and caps come with a clock rate. *)
Record depay_inv (b : Base) : Prop := {
  di_buffers : buffers_ok (waiting b);
  di_stream : match d_current_stream (bd_state b) with
              | Some cs => allow_seqnum_discontinuities = false ->
                           2 ^ 16 <= cs_ext_seqnum cs /\
                           numbered (cs_ext_seqnum cs) (d_pending_packets (bd_state b)) /\
                           used_ok (cs_ext_seqnum cs) (d_last_used_ext_seqnum (bd_state b))
              | None => d_pending_packets (bd_state b) = []
              end;
  di_segment : d_pending_packets (bd_state b) = [] \/ is_Some (d_segment (bd_state b));
  di_clock : is_Some (d_sink_caps (bd_state b)) ->
             exists c, d_clock_rate (bd_state b) = Some c /\ 0 < c < U32;
}.

Lemma Base_new_inv : depay_inv Base_new.
Proof. split; cbn; [constructor|done|by left|by intros [? ?]]. Qed.

(** The number the calls of a subclass refer to. *)
Lemma inv_call b : depay_inv b -> exists top, call_inv top (bd_state b) /\
  (forall cs, d_current_stream (bd_state b) = Some cs -> top = cs_ext_seqnum cs).
Proof.
  intros [Hb Hs _ _]. destruct (d_current_stream (bd_state b)) as [cs|].
  - exists (cs_ext_seqnum cs). split; [|by intros ? [= <-]]. split; [done|]. intros Ha.
    by destruct (Hs Ha) as (_ & ? & ?).
  - exists (default 0 (d_last_used_ext_seqnum (bd_state b))). split; [|done]. split; [done|].
    intros _. rewrite Hs. split; [done|]. destruct (d_last_used_ext_seqnum (bd_state b)); cbn; [lia|done].
Qed.

Lemma calls_inv b b' : rtc base_call b b' -> depay_inv b -> depay_inv b'.
Proof.
  intros Hc Hinv. destruct (inv_call b Hinv) as (top & Hci & Htop).
  destruct (base_calls_keep _ _ _ Hc Hci) as [[Hb' Hn'] (Hf & [k Hk] & _)].
  destruct Hf as (_ & Hseg & Hsc & Hcr & _ & _ & _ & _ & Hcs). destruct Hinv as [Hb Hs Hsg Hcl].
  split; [done| | |by rewrite Hsc, Hcr].
  - rewrite Hcs. destruct (d_current_stream (bd_state b)) as [cs|].
    + intros Ha. rewrite (Htop cs eq_refl) in Hn'. destruct (Hs Ha) as [? _]. split; [done|]. by apply Hn'.
    + rewrite Hs in Hk. by apply eq_sym, app_eq_nil in Hk as [_ ?].
  - rewrite Hseg. destruct Hsg as [Hp|Hp]; [left|by right]. rewrite Hp in Hk. by apply eq_sym, app_eq_nil in Hk as [_ ?].
Qed.

(** *** Draining and flushing *)

(** Nothing is left, and the rest is as it was. *)
Definition emptied (top : Z) (b b' : Base) : Prop :=
  frame_state (bd_state b) (bd_state b') /\ bd_settings b' = bd_settings b /\ bd_stats b' = bd_stats b /\
  (allow_seqnum_discontinuities = false -> used_ok top (d_last_used_ext_seqnum (bd_state b'))) /\
  d_pending_packets (bd_state b') = [] /\ waiting b' = [] /\ d_discont_pending (bd_state b') = true.

Lemma flush_spec top w w' :
  flush w = Ok w' -> call_inv top (bd_state w.2) -> emptied top w.2 w'.2.
Proof.
  intros (w1 & Hf%flush_uses & HK)%bind_ok Hinv. injection HK as <-.
  destruct (base_calls_keep _ _ _ Hf Hinv) as ([_ Hn] & Hfr & _ & Hset & Hst).
  split; [etrans; [exact Hfr|]; by repeat split|]. split; [done|]. split; [done|]. split; [|done].
  intros Ha. by destruct (Hn Ha).
Qed.

Lemma forward_spec top b b' :
  forward_pending b = Ok b' -> call_inv top (bd_state b) ->
  call_inv top (bd_state b') /\ frame_state (bd_state b) (bd_state b') /\
  bd_settings b' = bd_settings b /\ bd_stats b' = bd_stats b.
Proof.
  unfold forward_pending. cbv zeta. intros HK [Hb Hn].
  rewrite decorate_pending_spec, bind_Ok in HK by done. cbv beta iota in HK.
  set (b1 := modify bd_state _ b) in HK.
  assert (Hb1 : buffers_ok (waiting b1)) by apply all_in_front, decorated_set.
  apply finish_spec in HK as ((ps & pb & -> & Hm & Hpb & _) & -> & _ & ->); [|done].
  split; [|split; [split; [exact Hm|by repeat split]|done]]. split; [done|]. intros Ha. by destruct (Hn Ha).
Qed.

Lemma drain_spec top w r w' :
  drain w = Ok (r, w') -> call_inv top (bd_state w.2) -> emptied top w.2 w'.2.
Proof.
  intros ([d w1] & Hd%drain_uses & HK)%bind_ok Hinv. cbv beta iota in HK.
  destruct (base_calls_keep _ _ _ Hd Hinv) as (Hinv1 & Hfr & _ & Hset & Hst).
  destruct d as [u|err].
  - apply bind_ok in HK as (b2 & H2' & HK). apply bind_ok in HK as (w3 & H3' & HK). injection HK as <- <-.
    destruct (forward_spec _ _ _ H2' Hinv1) as (Hinv2 & Hf2 & Hset2 & Hst2).
    apply (flush_spec top) in H3' as (Hf3 & Hset3 & Hst3 & Hrest); [|done].
    split; [etrans; [exact Hfr|etrans; [exact Hf2|exact Hf3]]|]. cbn in *. by rewrite Hset3, Hst3, Hset2, Hst2.
  - apply bind_ok in HK as (w3 & H3' & HK). injection HK as <- <-.
    apply (flush_spec top) in H3' as (Hf3 & Hset3 & Hst3 & Hrest); [|done].
    split; [by etrans|]. by rewrite Hset3, Hst3.
Qed.

Lemma emptied_inv top b b' :
  emptied top b b' -> depay_inv b ->
  (forall cs, d_current_stream (bd_state b) = Some cs -> top = cs_ext_seqnum cs) -> depay_inv b'.
Proof.
  intros (Hf & _ & _ & Hu & Hp & Hw & _) [_ Hs _ Hc] Htop.
  destruct Hf as (_ & Hseg & Hsc & Hcr & _ & _ & _ & _ & Hcs).
  split; [rewrite Hw; by apply all_in_front| |by left|by rewrite Hsc, Hcr].
  rewrite Hcs, Hp. destruct (d_current_stream (bd_state b)) as [cs|]; [|done].
  rewrite (Htop cs eq_refl) in Hu. intros Ha. destruct (Hs Ha) as [? _]. auto using numbered_nil.
Qed.

Lemma drain_inv w r w' : drain w = Ok (r, w') -> depay_inv w.2 -> depay_inv w'.2.
Proof.
  intros HK Hinv. destruct (inv_call _ Hinv) as (top & Hci & Htop).
  eapply emptied_inv; [by eapply drain_spec|done|done].
Qed.

Lemma flush_inv w w' : flush w = Ok w' -> depay_inv w.2 -> depay_inv w'.2.
Proof.
  intros HK Hinv. destruct (inv_call _ Hinv) as (top & Hci & Htop).
  eapply emptied_inv; [by eapply flush_spec|done|done].
Qed.
End ElementInv.

(** ** Numbers of packets *)
Section Numbers.
Context `{DepayClass}.

(** The extended value ends in the bits of the wire value, and is within half
    a cycle of the last one. *)
Lemma extend_near_ok bits last x e :
  0 < bits -> 0 <= x < 2 ^ bits -> 0 <= last -> extend_near bits last x = Ok e ->
  e mod 2 ^ bits = x /\ Z.abs (e - last) <= 2 ^ (bits - 1) /\ 0 <= e < U64.
Proof.
  intros Hb Hx Hl HK. unfold extend_near in HK. rewrite clear_low_mod in HK by lia.
  assert (Hp : 2 ^ bits = 2 * 2 ^ (bits - 1)) by (rewrite <- Z.pow_succ_r by lia; f_equal; lia).
  set (h := 2 ^ (bits - 1)) in *. assert (0 < h) by (apply Z.pow_pos_nonneg; lia).
  set (c := 2 ^ bits) in *. assert (Hc : c <= 2 * h <= c) by lia. clear Hp.
  pose proof (Z.mod_pos_bound last c ltac:(lia)) as Hm.
  pose proof (Z.mod_le last c ltac:(lia) ltac:(lia)).
  assert (Hz : (x + (last - last mod c)) mod c = x).
  { rewrite (Z.div_mod last c) at 1 by lia. replace (x + _) with (x + last / c * c) by lia.
    rewrite Z.mod_add, Z.mod_small by lia. done. }
  apply bind_ok in HK as (e0 & He0 & HK). inv_ok.
  set (e1 := x + _) in *. destruct (Z.ltb_spec e1 last).
  - apply bind_ok in HK as (d & Hd & HK). inv_ok. rewrite Z.gtb_ltb in HK.
    destruct (Z.ltb_spec (h - 1) (last - e1)); inv_ok; [|split; [done|split; lia]].
    split; [|split; lia]. replace (e1 + c) with (e1 + 1 * c) by lia. by rewrite Z.mod_add by lia.
  - apply bind_ok in HK as (d & Hd & HK). inv_ok. rewrite Z.gtb_ltb in HK.
    destruct (Z.ltb_spec (h - 1) (e1 - last)); inv_ok; [|split; [done|split; lia]].
    split; [|split; lia]. replace (e1 - c) with (e1 + (-1) * c) by lia. by rewrite Z.mod_add by lia.
Qed.

(** The next sequence number is extended to the next number. *)
Lemma extend_near_next last x e :
  0 <= last -> extend_near 16 last x = Ok e -> Z.land (last + 1) 65535 = x -> e = last + 1.
Proof.
  intros Hl HK Hx. change 65535 with (Z.ones 16) in Hx. rewrite Z.land_ones in Hx by lia.
  pose proof (Z.mod_pos_bound (last + 1) (2 ^ 16) ltac:(lia)).
  apply extend_near_ok in HK as (Hm & Ha & _); [|lia..].
  apply (cong_small (2 ^ 16)); [lia| |change (2 ^ (16 - 1)) with 32768 in Ha; change (2 ^ 16) with 65536; lia].
  by rewrite Zminus_mod, Hm, Hx, Z.sub_diag.
Qed.
End Numbers.

(** ** Packets *)

(** What is documented of a parsed packet: fields have the width of the wire
    format, an extension of some length is there, and the payload is where
    its offset says. *)
Class RtpTypesLaws `{RtpTypes} : Prop := {
  parse_seqnum bytes h : RtpPacket_parse bytes = Some h -> is_u16 (rh_sequence_number h);
  parse_timestamp bytes h : RtpPacket_parse bytes = Some h -> is_u32 (rh_timestamp h);
  parse_extension bytes h : RtpPacket_parse bytes = Some h -> rh_extension_len h <> 0 -> is_Some (rh_extension h);
  parse_payload bytes h : RtpPacket_parse bytes = Some h ->
    exists pre post, bytes = pre ++ rh_payload h ++ post /\ rh_payload_offset h = Z.of_nat (length pre);
}.

Section Packets.
Context `{Gst} `{GstTime} `{RtpTypes} `{HeaderExtensions} `{DepayClass} `{!Subclass} `{!UsesBase}.

(** A packet that continues the stream has the next number, unless the class
    copes with gaps. *)
Lemma follow_stream_next settings discont h cur cs' expected :
  allow_seqnum_discontinuities = false ->
  match cur with Some cs => 0 <= cs_ext_seqnum cs | None => True end ->
  follow_stream settings discont h cur = Ok (Some (Some cs', expected)) ->
  exists cs, cur = Some cs /\ cs_ext_seqnum cs' = cs_ext_seqnum cs + 1 /\
    expected = Some (cs_ext_seqnum cs + 1) /\ cs_ssrc cs = rh_ssrc h /\ cs_pt cs = rh_payload_type h.
Proof.
  intros Ha Hcur. unfold follow_stream, stream_continues. rewrite Ha. cbn [negb andb].
  destruct discont; [done|]. destruct cur as [cs|]; [|done].
  destruct (Z.eqb_spec (cs_ssrc cs) (rh_ssrc h)) as [Hssrc|]; cbn [negb]; [|done].
  destruct (Z.eqb_spec (cs_pt cs) (rh_payload_type h)) as [Hpt|]; cbn [negb]; [|done].
  intros (check & Hck & HK)%bind_ok.
  unfold check_seqnum in Hck. rewrite Ha in Hck. cbn [negb] in Hck.
  apply bind_ok in Hck as (next & Hnx & Hck). cbv zeta in Hck.
  destruct (Z.eqb_spec (Z.land next 65535) (rh_sequence_number h)) as [Heq|]; cbn [negb] in Hck.
  2:{ apply bind_ok in Hck as (e & _ & Hck). destruct (_ >? 0); [injection Hck as <-; done|].
      destruct (_ >=? _); injection Hck as <-; done. }
  injection Hck as <-. apply u64_add_ok in Hnx as [-> _].
  apply bind_ok in HK as (c & Hc & HK). injection HK as <- <-. exists cs. split; [done|].
  apply bind_ok in Hc as (rt & _ & Hc). apply bind_ok in Hc as (e & He & Hc).
  apply extend_near_next in He; [|done|done].
  apply bind_ok in Hc as (e' & He' & Hc). injection Hc as <-. split; [|done]. cbn. subst e.
  rewrite Z.gtb_ltb in He'. destruct (Z.ltb_spec (cs_ext_seqnum cs) (cs_ext_seqnum cs + 1)); [|lia].
  inv_ok. lia.
Qed.

(** The stream a packet starts or continues keeps the source and type. *)
Lemma admit_spec buffer h clock_rate discont b n t b' :
  admit_packet buffer h clock_rate discont b = Ok (n, t, b') ->
  let cs := match d_current_stream (bd_state b) with Some cs => cs | None => start_stream h end in
  n = cs_ext_seqnum cs /\ t = cs_ext_rtptime cs /\
  d_current_stream (bd_state b') = Some cs /\
  (exists p, d_pending_packets (bd_state b') = d_pending_packets (bd_state b) ++ [p] /\
     pe_ext_seqnum p = n /\ pe_buffer p = buffer /\
     pe_have_header_extensions p = negb (rh_extension_len h =? 0)) /\
  d_last_used_ext_seqnum (bd_state b')
  = match d_current_stream (bd_state b) with Some _ => d_last_used_ext_seqnum (bd_state b) | None => None end /\
  waiting b' = waiting b /\ d_segment (bd_state b') = d_segment (bd_state b) /\ is_Some (d_segment (bd_state b)) /\
  d_sink_caps (bd_state b') = d_sink_caps (bd_state b) /\ d_clock_rate (bd_state b') = d_clock_rate (bd_state b) /\
  d_discont_pending (bd_state b') = d_discont_pending (bd_state b) || discont /\
  d_npt_start (bd_state b') = d_npt_start (bd_state b) /\
  (d_pending_segment (bd_state b') = true -> d_pending_segment (bd_state b) = true) /\
  sent b' = sent b /\ bd_settings b' = bd_settings b /\ bd_extensions b' = bd_extensions b.
Proof.
  unfold admit_packet. cbv zeta. intros HK.
  set (s1 := match d_current_stream (bd_state b) with Some _ => bd_state b | None => _ end) in HK.
  apply bind_ok in HK as (cs & Hcs%unwrap_ok & HK).
  set (s2 := if is_some (d_npt_start s1) && _ then _ else s1) in HK.
  assert (E2 : s2 = s1 <| d_npt_start_times := d_npt_start_times s2 |>)
    by (subst s2; destruct (_ && _); [done|by destruct s1]).
  clearbody s2. apply bind_ok in HK as ([o s3] & Hr & HK). cbv beta iota in HK.
  apply retrieve_spec in Hr as [(ps & -> & Hmono) Ho].
  apply bind_ok in HK as ([sn sg] & Hsg%unwrap_ok & HK). cbv beta iota in HK. injection HK as <- <- <-.
  match goal with |- context [push_segment o ?b1] => destruct (push_segment_spec o b1 Ho) as (Hse & Hst & Hset & Hex & _) end.
  unfold waiting. rewrite Hst, Hse, Hset, Hex. cbn. rewrite E2 in *. cbn in *.
  assert (E1 : cs = match d_current_stream (bd_state b) with Some cs => cs | None => start_stream h end)
    by (subst s1; destruct (d_current_stream (bd_state b)) as [c|] eqn:E; cbn in Hcs; congruence).
  rewrite <- E1. split; [done|]. split; [done|].
  assert (Hs1 : d_current_stream s1 = Some cs) by done. rewrite Hs1.
  assert (Hpk : d_pending_packets s1 = d_pending_packets (bd_state b))
    by (subst s1; by destruct (d_current_stream (bd_state b))).
  split; [done|]. rewrite Hpk. split; [eexists; split; [reflexivity|done]|].
  subst s1. destruct (d_current_stream (bd_state b)); cbn in *; rewrite Hsg; eauto 20.
Qed.

(** A state about to take a packet as the next of its stream. *)
Definition ready (b : Base) : Prop :=
  buffers_ok (waiting b) /\
  (is_Some (d_sink_caps (bd_state b)) -> exists c, d_clock_rate (bd_state b) = Some c /\ 0 < c < U32) /\
  match d_current_stream (bd_state b) with
  | Some cs => allow_seqnum_discontinuities = false ->
               2 ^ 16 <= cs_ext_seqnum cs /\
               numbered (cs_ext_seqnum cs - 1) (d_pending_packets (bd_state b)) /\
               used_ok (cs_ext_seqnum cs - 1) (d_last_used_ext_seqnum (bd_state b))
  | None => d_pending_packets (bd_state b) = []
  end.

Lemma used_ok_le top top' o : used_ok top o -> top <= top' -> used_ok top' o.
Proof. destruct o; cbn; lia. Qed.

Lemma admit_inv buffer h clock_rate discont b n t b' :
  admit_packet buffer h clock_rate discont b = Ok (n, t, b') -> 0 <= rh_sequence_number h -> ready b -> depay_inv b'.
Proof.
  intros HK Hq (Hb & Hc & Hs). pose proof (admit_spec _ _ _ _ _ _ _ _ HK) as HS. cbv zeta in HS.
  destruct HS as (Hn & _ & Hcs & (p & Hp & Hpn & _) & Hu & Hw & Hsg & Hsome & Hsc & Hcr & _).
  split; [by rewrite Hw| |right; by rewrite Hsg|by rewrite Hsc, Hcr].
  rewrite Hcs. intros Ha. rewrite Hp, Hu. destruct (d_current_stream (bd_state b)) as [cs|].
  - destruct (Hs Ha) as (Hlo & Hnum & Huse). split; [done|]. split; [|eapply used_ok_le; [done|lia]].
    replace (cs_ext_seqnum cs) with (cs_ext_seqnum cs - 1 + 1) by lia. apply numbered_snoc; [done|lia].
  - rewrite Hs. cbn in Hn |- *. split; [lia|]. split; [|done].
    replace (rh_sequence_number h + 2 ^ 16) with (rh_sequence_number h + 2 ^ 16 - 1 + 1) by lia.
    apply (numbered_snoc _ _ []); [done|lia].
Qed.

Lemma drop_used_spec s :
  exists k l, d_pending_packets s = k ++ l /\ drop_used s = s <| d_pending_packets := l |>.
Proof.
  unfold drop_used. destruct (d_last_used_ext_seqnum s) as [u|].
  - do 2 eexists. split; [symmetry; apply take_skip_while|done].
  - exists [], (d_pending_packets s). by destruct s.
Qed.

Lemma drop_used_inv w : depay_inv w.2 -> depay_inv (on_depay drop_used w).2.
Proof.
  intros [Hb Hs Hg Hc]. destruct w as [sub b]. unfold on_depay. cbn [snd] in *.
  destruct (drop_used_spec (bd_state b)) as (k & l & Hk & Hd).
  assert (He : b <| bd_state ::= drop_used |> = b <| bd_state := (bd_state b) <| d_pending_packets := l |> |>)
    by (rewrite <- Hd; by destruct b).
  rewrite He. split; cbn; [done| | |done]; rewrite Hk in *.
  - destruct (d_current_stream (bd_state b)) as [cs|].
    + intros Ha. destruct (Hs Ha) as (? & ?%numbered_suffix & ?). done.
    + by apply app_eq_nil in Hs as [_ ?].
  - destruct Hg as [[_ ?]%app_eq_nil|Hg]; [by left|by right].
Qed.

Lemma deliver_inv p w r w' : deliver_packet p w = Ok (r, w') -> depay_inv w.2 -> depay_inv w'.2.
Proof.
  intros ([hd w1] & Hh%handle_uses & HK)%bind_ok Hinv. cbv beta iota in HK.
  apply (calls_inv _ _ Hh) in Hinv. apply bind_ok in HK as (w2 & H2' & HK). injection HK as <- <-.
  apply drop_used_inv. destruct hd as [u|err]; [|by injection H2' as <-].
  apply bind_ok in H2' as (b2 & Hb2 & HK2). injection HK2 as <-. cbn.
  eapply calls_inv; [apply rtc_once; by eapply call_finish|done].
Qed.

(** The stream as it is when a packet is taken: continued, or drained. *)
Lemma restart_ready top w r w' :
  call_inv top (bd_state w.2) -> d_current_stream (bd_state w.2) = None ->
  (is_Some (d_sink_caps (bd_state w.2)) -> exists c, d_clock_rate (bd_state w.2) = Some c /\ 0 < c < U32) ->
  (if negb (bool_decide (length (d_pending_packets (bd_state w.2)) = 0%nat)) then drain w else Ok (Success tt, w))
  = Ok (r, w') ->
  ready w'.2 /\ depay_inv w'.2 /\ d_current_stream (bd_state w'.2) = None.
Proof.
  intros Hci Hcs Hc HK. destruct (bool_decide_reflect (length (d_pending_packets (bd_state w.2)) = 0%nat)) as [Hl|Hl];
    cbn [negb] in HK.
  - injection HK as <- <-. apply nil_length_inv in Hl. destruct Hci as [Hb _].
    split; [|split; [|done]]; [split; [done|]; by rewrite Hcs|].
    split; [done|by rewrite Hcs|by left|done].
  - apply (drain_spec top) in HK as (Hf & _ & _ & _ & Hp & Hw & _); [|done].
    destruct Hf as (_ & _ & Hsc & Hcr & _ & _ & _ & _ & Hcs'). rewrite Hcs in Hcs'.
    assert (Hb : buffers_ok (waiting w'.2)) by (rewrite Hw; by apply all_in_front).
    split; [|split; [|done]]; [split; [done|]; by rewrite Hcs', Hsc, Hcr|].
    split; [done|by rewrite Hcs'|by left|by rewrite Hsc, Hcr].
Qed.

Lemma handle_parsed_inv settings buffer h clock_rate w r w' :
  handle_parsed settings buffer h clock_rate w = Ok (r, w') ->
  is_u16 (rh_sequence_number h) -> depay_inv w.2 -> depay_inv w'.2.
Proof.
  intros (followed & Hfo & HK)%bind_ok Hq Hinv. destruct followed as [[cs expected]|]; [|by injection HK as <- <-].
  cbv zeta in HK. set (w1 := on_depay _ w) in HK. apply bind_ok in HK as ([dr w2] & Hd & HK). cbv beta iota in HK.
  destruct (inv_call _ Hinv) as (top & Hci & Htop). pose proof Hinv as [Hb Hs Hg Hc].
  assert (Hready : ready w2.2 /\ (cs = None -> depay_inv w2.2) /\ d_current_stream (bd_state w2.2) = cs).
  { destruct cs as [cs|]; cbn [is_none andb] in Hd.
    - injection Hd as <- <-. split; [|done]. split; [done|]. split; [done|]. cbn. intros Ha.
      apply follow_stream_next in Hfo as (c & Hcur & Hnext & _); [|done|].
      + rewrite Hcur in Hs. destruct (Hs Ha) as (? & ? & ?). rewrite Hnext.
        replace (cs_ext_seqnum c + 1 - 1) with (cs_ext_seqnum c) by lia. split; [lia|done].
      + destruct (d_current_stream (bd_state w.2)); [|done]. destruct (Hs Ha). lia.
    - by destruct (restart_ready top w1 dr w2) as (? & ? & ?). }
  destruct Hready as (Hready & Hn & Hcs). destruct dr as [u|err].
  - apply bind_ok in HK as ([[n t] b3] & Had & HK). cbv beta iota in HK.
    apply deliver_inv in HK; [done|]. eapply admit_inv; [done| |done]. unfold is_u16 in Hq. lia.
  - injection HK as <- <-. destruct cs as [cs|]; [|by apply Hn]. cbn in Hd. done.
Qed.

Lemma handle_buffer_inv `{!RtpTypesLaws} settings buffer w r w' :
  handle_buffer settings buffer w = Ok (r, w') -> depay_inv w.2 -> depay_inv w'.2.
Proof.
  unfold handle_buffer. cbv zeta. intros HK Hinv.
  destruct (is_none _); [by injection HK as <- <-|]. destruct (is_none _); [by injection HK as <- <-|].
  apply bind_ok in HK as (cr & _ & HK). destruct (negb _); [by injection HK as <- <-|].
  destruct (RtpPacket_parse _) as [h|] eqn:Hp; [|by injection HK as <- <-].
  eapply handle_parsed_inv; [done|by eapply parse_seqnum|done].
Qed.
End Packets.
