(* ===== verification/BaseDepayProps.v ===== *)
(** * The depayloader base class over sequences of operations

    Buffers, lists, events and state changes keep the invariant of the
    element; calls of a subclass do not panic where the state is [safe], which
    every operation keeps for plausible input; and no operation panics there
    as long as the numbers of the stream are in range. *)

From S2P Require Import Prelude Queues F64 Flow RtpBase DepayMeta BaseDepay BaseDepayInv.

Section Runs.
Context `{Gst} `{GstTime} `{RtpTypes} `{HeaderExtensions} `{DepayClass} `{!Subclass} `{!UsesBase}.
Context `{!RtpTypesLaws}.
Abbreviation W := (Sub * Base)%type.

(** ** Events *)

Lemma handle_list_inv settings l w r w' :
  handle_list settings l w = Ok (r, w') -> depay_inv w.2 -> depay_inv w'.2.
Proof.
  revert w. induction l as [|b l IH]; intros w HK Hinv; cbn in HK; [by injection HK as <- <-|].
  apply bind_ok in HK as ([h w1] & Hh & HK). cbv beta iota in HK.
  apply handle_buffer_inv in Hh; [|done]. destruct h; [by eapply IH|by injection HK as <- <-].
Qed.

(** The clock rate of caps is an [i32]. *)
Definition caps_typed (caps : SinkCaps) : Prop :=
  match sk_clock_rate caps with Some c => c < 2 ^ 31 | None => True end.

Lemma accept_caps_inv caps c w :
  0 < c < 2 ^ 31 -> depay_inv w.2 -> depay_inv (on_depay (accept_caps caps c) w).2.
Proof.
  intros Hc [Hb Hs Hg _]. unfold on_depay. destruct w as [sub b]. cbn [snd] in *.
  set (s' := accept_caps caps c (bd_state b)).
  assert (E : b <| bd_state ::= accept_caps caps c |> = b <| bd_state := s' |>) by done. rewrite E.
  assert (Hs' : d_pending_buffers s' = d_pending_buffers (bd_state b) /\
    d_pending_packets s' = d_pending_packets (bd_state b) /\ d_segment s' = d_segment (bd_state b) /\
    d_current_stream s' = d_current_stream (bd_state b) /\
    d_last_used_ext_seqnum s' = d_last_used_ext_seqnum (bd_state b) /\ d_clock_rate s' = Some (wrap U32 c)).
  { subst s'. unfold accept_caps. cbv zeta. destruct (_ && _); [done|]. by destruct (is_some _). }
  clearbody s'. destruct Hs' as (E1 & E2 & E3 & E4 & E5 & E6).
  split; unfold waiting in *; cbn; rewrite ?E1, ?E2, ?E3, ?E4, ?E5, ?E6; [done..|].
  intros _. exists c. rewrite wrap_small by lia. split; [done|lia].
Qed.

Lemma set_sink_caps_inv caps w r w' :
  caps_typed caps -> set_sink_caps caps w = Ok (r, w') -> depay_inv w.2 -> depay_inv w'.2.
Proof.
  unfold caps_typed, set_sink_caps. intros Hty HK Hinv.
  destruct (negb _); [by injection HK as <- <-|]. destruct (sk_clock_rate caps) as [c|]; [|by injection HK as <- <-].
  destruct (Z.gtb_spec c 0); cbn [negb] in HK; [|by injection HK as <- <-].
  destruct (update_extensions_from_sink_caps _ _ _) as [exts|]; [|by injection HK as <- <-]. cbv zeta in HK.
  set (w1 := (w.1, _)) in HK. assert (Hinv1 : depay_inv w1.2) by (destruct Hinv; by split).
  destruct (bool_decide _); [by injection HK as <- <-|].
  apply bind_ok in HK as ([d w2] & Hd%drain_inv & HK); [|done]. cbv beta iota in HK.
  apply bind_ok in HK as ([a w3] & Ha%caps_uses & HK). cbv beta iota in HK.
  apply (calls_inv _ _ Ha) in Hd. destruct a; injection HK as <- <-; [apply accept_caps_inv; [lia|done]|].
  destruct Hd as [Hb Hs Hg Hc]. split; [done..|]. by intros [? ?].
Qed.

Lemma segment_event_inv n sg w r w' :
  segment_event n sg w = Ok (r, w') -> depay_inv w.2 -> depay_inv w'.2.
Proof.
  unfold segment_event. cbv zeta. intros HK Hinv. destruct (is_none _); [by injection HK as <- <-|].
  destruct (same_segment _ _ _); [injection HK as <- <-; by destruct Hinv|].
  apply bind_ok in HK as ([d w1] & Hd & HK). cbv beta iota in HK.
  assert (Hinv1 : depay_inv w1.2 /\ d_pending_packets (bd_state w1.2) = []).
  { destruct (d_segment (bd_state w.2)) as [sg0|] eqn:Hsg; cbn [is_some] in Hd.
    - split; [by eapply drain_inv|]. destruct (inv_call _ Hinv) as (top & Hci & _).
      by apply (drain_spec top) in Hd as (_ & _ & _ & _ & ? & _).
    - injection Hd as <- <-. split; [done|]. destruct Hinv as [_ _ [Hg|[? Hg]] _]; [done|congruence]. }
  destruct Hinv1 as [[Hb Hs Hg Hc] Hp]. destruct sg as [s|f]; injection HK as <- <-.
  - split; [done|done|by right; eexists|done].
  - split; [done|done|by left|done].
Qed.

Lemma flush_stop_inv w w' : flush_stop w = Ok w' -> depay_inv w.2 -> depay_inv w'.2.
Proof.
  intros (w1 & Hf & HK)%bind_ok Hinv. cbv zeta in HK. injection HK as <-.
  destruct (inv_call _ Hinv) as (top & Hci & _). pose proof (flush_inv _ _ Hf Hinv) as [Hb Hs Hg Hc].
  apply (flush_spec top) in Hf as (_ & _ & _ & _ & Hp & _); [|done].
  split; [done|exact Hp|by left|done].
Qed.

Lemma sink_event_inv ev w r w' :
  match ev with EvCaps caps => caps_typed caps | _ => True end ->
  sink_event_default ev w = Ok (r, w') -> depay_inv w.2 -> depay_inv w'.2.
Proof.
  intros Hty HK Hinv. assert (Hfw : forall w, depay_inv w.2 -> depay_inv (forward_event ev w).2)
    by (intros ? []; by split).
  destruct ev as [caps|n sg| | |k]; cbn [sink_event_default] in HK.
  - by eapply set_sink_caps_inv.
  - by eapply segment_event_inv.
  - apply bind_ok in HK as ([d w1] & Hd%drain_inv & HK); [|done]. injection HK as <- <-. by apply Hfw.
  - apply bind_ok in HK as (w1 & Hf%flush_stop_inv & HK); [|done]. injection HK as <- <-. by apply Hfw.
  - injection HK as <- <-. by apply Hfw.
Qed.

Definition op_typed (op : Op) : Prop :=
  match op with OpEvent (EvCaps caps) => caps_typed caps | _ => True end.

Lemma reset_inv w : depay_inv (reset_state w).2.
Proof. split; cbn; [by apply all_in_front|done|by left|by intros [? ?]]. Qed.

Lemma depay_exec_inv op w w' : op_typed op -> depay_exec w op = Ok w' -> depay_inv w.2 -> depay_inv w'.2.
Proof.
  intros Hty HK Hinv. destruct op as [b|l|ev| | |x| |s]; cbn [depay_exec] in HK.
  - apply bind_ok in HK as ([r w1] & Hh & HK). injection HK as <-. by eapply handle_buffer_inv.
  - apply bind_ok in HK as ([r w1] & Hh & HK). injection HK as <-. by eapply handle_list_inv.
  - apply bind_ok in HK as ([r w1] & Hh & HK). injection HK as <-. eapply sink_event_inv; [|done|done].
    by destruct ev.
  - apply bind_ok in HK as ([r w1] & Hh%start_uses & HK). injection HK as <-.
    eapply calls_inv; [exact Hh|apply reset_inv].
  - apply bind_ok in HK as ([r w1] & Hh & HK). injection HK as <-.
    apply bind_ok in Hh as ([st w2] & Hst%stop_uses & HK). cbv beta iota in HK.
    destruct st; injection HK as <- <-; [apply reset_inv|by eapply calls_inv].
  - apply bind_ok in HK as (? & _ & HK). injection HK as <-. by destruct Hinv.
  - injection HK as <-. by destruct Hinv.
  - injection HK as <-. by destruct Hinv.
Qed.

Lemma depay_run_inv ops w w' :
  Forall op_typed ops -> res_fold depay_exec w ops = Ok w' -> depay_inv w.2 -> depay_inv w'.2.
Proof.
  revert w. induction ops as [|op ops IH]; intros w Hty HK Hinv; cbn in HK; [by injection HK as <-|].
  apply bind_ok in HK as (w1 & H1' & HK). apply Forall_cons in Hty as [Ht Hty].
  eapply IH; [done|done|]. by eapply depay_exec_inv.
Qed.
End Runs.

(** ** No panic *)

(** Arithmetic of signed times is exact as long as it stays in range. *)
Class GstTimeLaws `{GstTime} : Prop := {
  signed_add_pos a b : 0 <= a -> 0 <= b -> a + b < U64 - 1 ->
    signed_add (Positive a) (Positive b) = Ok (Positive (a + b));
  signed_add_neg a b : 0 <= b < U64 - 1 -> 0 <= a < U64 - 1 ->
    signed_add (Positive a) (Negative b) = Ok (if b <=? a then Positive (a - b) else Negative (b - a));
}.

Section Totality.
Context `{Gst} `{GstTime} `{RtpTypes} `{HeaderExtensions} `{DepayClass} `{!Subclass} `{!UsesBase}.
Context `{!RtpTypesLaws} `{!GstTimeLaws}.
Abbreviation W := (Sub * Base)%type.

(** Buffers with plausible timestamps, whose references are fixed caps. *)
Definition time_ok (t : option Z) : Prop := match t with Some t => 0 <= t < 2 ^ 62 | None => True end.
Definition buffer_ok (b : InBuffer) : Prop :=
  time_ok (ib_pts b) /\
  Forall (fun m => match me_reference m with Some (fixed, _, _) => fixed = true | None => True end) (ib_metas b).

Definition packet_ok (p : PendingPacket) : Prop :=
  buffer_ok (pe_buffer p) /\
  (pe_have_header_extensions p = true ->
   exists h, RtpPacket_parse (ib_bytes (pe_buffer p)) = Some h /\ is_Some (rh_extension h)).

(** No old-style RTSP caps, and a segment wherever one is to be sent. *)
Definition calm (s : State) : Prop :=
  d_npt_start s = None /\ (d_pending_segment s = true -> is_Some (d_segment s)).

(** Where calls of the base class do not panic. *)
Record safe (b : Base) : Prop := {
  safe_buffers : buffers_ok (waiting b);
  safe_calm : calm (bd_state b);
  safe_packets : Forall packet_ok (d_pending_packets (bd_state b));
  safe_segment : d_pending_packets (bd_state b) = [] \/ is_Some (d_segment (bd_state b));
}.

Lemma calm_event_ok s : calm s -> event_ok s.
Proof.
  intros [Hn Hs] Hp _. destruct (Hs Hp) as [[n sg] Hsg]. exists n, sg. split; [done|]. by rewrite Hn.
Qed.

Lemma calm_frame s s' : calm s -> frame_state s s' -> calm s'.
Proof.
  intros [Hn Hs] (Hp & Hsg & _ & _ & Hnpt & _). split; [congruence|]. rewrite Hsg. auto.
Qed.

Lemma safe_call b b' : safe b -> base_call b b' -> safe b'.
Proof.
  intros [Hb Hc Hp Hs] Hcall.
  destruct (base_call_effect _ _ Hcall Hb) as ((Hf & [k Hk] & _) & Hb' & _).
  split; [done|by eapply calm_frame| |].
  - rewrite Hk in Hp. by apply Forall_app in Hp as [_ ?].
  - destruct Hf as (_ & -> & _). destruct Hs as [Hs|Hs]; [left|by right].
    rewrite Hs in Hk. by apply eq_sym, app_eq_nil in Hk as [_ ?].
Qed.

Lemma safe_calls b b' : rtc base_call b b' -> safe b -> safe b'.
Proof. induction 1; eauto using safe_call. Qed.

(** *** Calls do not panic *)

Lemma copy_packet_total settings st p : packet_ok p -> exists st', copy_packet settings st p = Ok st'.
Proof.
  intros [[_ Hm] Hx]. unfold copy_packet.
  assert (Hf : forall acc m, match me_reference m with Some (fixed, _, _) => fixed = true | None => True end ->
    exists acc', copy_meta (pe_buffer p) acc m = Ok acc').
  { intros [refs buf] m Hf. unfold copy_meta. destruct (me_memory m); [eauto|].
    destruct (me_reference m) as [[[fx nm] ts]|]; [|eauto]. rewrite Hf. cbn. destruct (bool_decide _); eauto. }
  destruct (res_fold_total _ _ (cp_refs st, cp_buffer st) _ Hf Hm) as [[r b] ->].
  rewrite bind_Ok. cbv beta iota.
  assert (Hr : exists x, read_extensions p (cp_extensions st) b (cp_wants st) = Ok x).
  { unfold read_extensions. destruct (pe_have_header_extensions p) eqn:Hh; [|rewrite andb_false_r; eauto].
    destruct (Hx eq_refl) as (h & -> & [[pat data] Hd]). destruct (_ && _); [|eauto].
    cbn [unwrap]. rewrite bind_Ok, Hd. cbn. destruct (extension_flags pat); eauto. }
  destruct Hr as [[[[x b'] w] kn] ->]. rewrite bind_Ok. cbv beta iota. destruct (_ && _); eauto.
Qed.

Lemma copy_metas_total settings l exts e b :
  Forall packet_ok l -> exists r, copy_metas settings l exts e b = Ok r.
Proof.
  intros Hl. unfold copy_metas.
  destruct (res_fold_total packet_ok (copy_packet settings) (mkCopyState ∅ exts b false None [])
    (take_while (fun p => pe_ext_seqnum p <=? e) l)) as [st ->];
    [intros; by apply copy_packet_total|by apply take_while_Forall|].
  rewrite bind_Ok. eauto.
Qed.

Definition signed_small (o : Signed) : Prop := match o with Positive t | Negative t => 0 <= t < 2 ^ 61 end.
Definition offset_small (o : TimestampOffset) : Prop :=
  match o with
  | OffsetPts p => signed_small p
  | OffsetPtsAndDts p d => signed_small p /\ signed_small d
  end.

Lemma signed_add_total a o : 0 <= a < 2 ^ 63 -> signed_small o ->
  exists s, signed_add (Positive a) o = Ok s /\ match s with Positive t => 0 <= t <= a + 2 ^ 61 | Negative _ => True end.
Proof.
  intros Ha Ho. destruct o as [b|b]; cbn in Ho.
  - rewrite signed_add_pos by lia. eexists. split; [done|]. cbn. lia.
  - rewrite signed_add_neg by lia. eexists. split; [done|]. destruct (Z.leb_spec b a); cbn; lia.
Qed.

Lemma buffer_times_total lu e off pts :
  time_ok pts -> match off with Some o => offset_small o | None => True end ->
  exists t, buffer_times lu e off pts = Ok t.
Proof.
  intros Hp Ho.
  assert (Hpts : forall o, signed_small o -> exists p, pts_with_offset pts o = Ok p /\
    match p with Some t => 0 <= t < 2 ^ 63 | None => True end).
  { intros o Hs. destruct pts as [t|]; cbn; [|eauto]. cbn in Hp.
    destruct (signed_add_total t o ltac:(lia) Hs) as (s & Hadd & Hr). unfold into_positive. rewrite Hadd.
    eexists. split; [done|]. destruct s; cbn; lia. }
  destruct off as [[p|p d]|]; cbn in *.
  - destruct (Hpts p Ho) as (q & -> & _). eauto.
  - destruct Ho as [Ho1 Ho2]. destruct (Hpts p Ho1) as (q & -> & Hq). cbn. unfold dts_with_offset.
    destruct q as [t|]; [|eauto]. destruct (signed_add_total t d Hq Ho2) as (s & Hadd & _). unfold into_positive. rewrite Hadd. cbn. eauto.
  - destruct lu as [l|]; [destruct (_ <=? _)|]; eauto.
Qed.

Lemma first_pts_ok (l : list PendingPacket) :
  Forall packet_ok l -> time_ok (list_find_map (fun p => ib_pts (pe_buffer p)) l).
Proof.
  induction 1 as [|p l [[Hp _] _] _ IH]; cbn; [done|]. by destruct (ib_pts (pe_buffer p)).
Qed.

Lemma queue_for_total e off buf b :
  safe b -> is_Some (d_src_caps (bd_state b)) -> d_pending_packets (bd_state b) <> [] ->
  match off with Some o => offset_small o | None => True end ->
  exists r b', queue_for_packets e off buf b = Ok (r, b').
Proof.
  intros [Hb Hc Hp Hs] [sc Hsc] Hne Ho. destruct Hs as [Hs|[[n sg] Hs]]; [done|]. unfold queue_for_packets.
  destruct (buffer_times_total (d_last_used_ext_seqnum (bd_state b)) e off
    (list_find_map (fun p => ib_pts (pe_buffer p))
       (take_while (fun p => pe_ext_seqnum p <=? e) (d_pending_packets (bd_state b))))) as [[pts dts] ->];
    [by apply first_pts_ok, take_while_Forall|done|].
  rewrite bind_Ok. cbv beta iota. rewrite decorate_pending_spec, bind_Ok by done. cbv beta iota.
  match goal with |- context [copy_metas ?st ?l ?x ?e ?bf ≫= _] =>
    destruct (copy_metas_total st l x e bf Hp) as [[[w exts] buf1] ->] end.
  rewrite bind_Ok. cbv beta iota zeta. set (b1 := modify bd_state _ _).
  assert (Hu : exists u b2, (if w then caps_update b1 else Ok (Success tt, b1)) = Ok (u, b2)).
  { destruct w; [|eauto]. unfold caps_update.
    change (d_src_caps (bd_state b1)) with (d_src_caps (bd_state b)).
    change (d_segment (bd_state b1)) with (d_segment (bd_state b)). rewrite Hsc, Hs. cbn [unwrap]. rewrite bind_Ok.
    destruct (updated_caps _ sc) as [sc'|]; [|eauto]. destruct (bool_decide _); [eauto|]. rewrite bind_Ok.
    destruct (finish_total b1) as [b3 ->]; [apply all_in_front, decorated_set|by apply calm_event_ok|].
    rewrite bind_Ok. eauto. }
  destruct Hu as (u & b2 & ->). rewrite bind_Ok. cbv beta iota. destruct u; eauto.
Qed.

(** Every call of the base class returns. *)
Lemma calls_total b : safe b ->
  (exists b', finish_pending_buffers b = Ok b') /\
  (forall caps, exists b', base_set_src_caps caps b = Ok b') /\
  (forall rel buf, match rel with SeqnumsWithOffset _ o => offset_small o | _ => True end ->
     exists r b', base_queue_buffer rel buf b = Ok (r, b')).
Proof.
  intros Hsafe. pose proof Hsafe as [Hb Hc Hp Hs]. split; [|split].
  - apply finish_total; [done|by apply calm_event_ok].
  - intros caps. unfold base_set_src_caps. destruct (bool_decide _); [eauto|]. cbv zeta.
    destruct (retrieve_total ((bd_state b) <| d_src_caps := Some caps |>)) as (o & s & ->);
      [by apply calm_event_ok|]. rewrite bind_Ok. eauto.
  - intros rel buf Ho. unfold base_queue_buffer. cbv zeta.
    destruct (d_src_caps (bd_state b)) as [sc|] eqn:Hsc; [|eauto].
    assert (Hr : forall sq off, match off with Some o => offset_small o | None => True end ->
      exists r b', queue_for_range sq off (buf <| ob_pts := None |> <| ob_dts := None |>) b = Ok (r, b')).
    { intros [st e] off Hoff. unfold queue_for_range. destruct (st >? e); [eauto|]. cbv zeta.
      set (b1 := modify bd_state _ b). destruct (last _) as [back|] eqn:Hl; [|eauto].
      destruct (e >? _); [eauto|]. apply queue_for_total; [|by exists sc| |done].
      - destruct (skip_while_suffix (fun p => pe_ext_seqnum p <? st) (d_pending_packets (bd_state b))) as [k Hk].
        split; [done|done|by apply skip_while_Forall|]. destruct Hs as [Hs|Hs]; [left; cbn; by rewrite Hs|by right].
      - by intros Hn; rewrite Hn in Hl. }
    destruct rel; [by apply Hr|by apply Hr|eauto].
Qed.

(** *** The element does not panic *)

(** A packet whose payload is in its buffer. *)
Definition payload_there (p : InPacket) : Prop := exists payload, InPacket_payload p = Ok payload.

(** A subclass that, in the states [sub_ok], which it keeps, does not panic
    where its calls do not. *)
Class TotalSubclass (sub_ok : Sub -> Prop) : Prop := {
  handle_total p w : payload_there p -> sub_ok w.1 -> safe w.2 -> exists r w', sub_handle_packet p w = Ok (r, w') /\ sub_ok w'.1;
  drain_total_ w : sub_ok w.1 -> safe w.2 -> exists r w', sub_drain w = Ok (r, w') /\ sub_ok w'.1;
  flush_total_ w : sub_ok w.1 -> safe w.2 -> exists w', sub_flush w = Ok w' /\ sub_ok w'.1;
  caps_total caps w : sub_ok w.1 -> safe w.2 -> exists r w', sub_set_sink_caps caps w = Ok (r, w') /\ sub_ok w'.1;
  start_total w : sub_ok w.1 -> safe w.2 -> exists r w', sub_start w = Ok (r, w') /\ sub_ok w'.1;
  stop_total w : sub_ok w.1 -> safe w.2 -> exists r w', sub_stop w = Ok (r, w') /\ sub_ok w'.1;
}.

Lemma safe_emptied top b b' : calm (bd_state b) -> emptied top b b' -> safe b'.
Proof.
  intros Hc (Hf & _ & _ & _ & Hp & Hw & _).
  split; [rewrite Hw; by apply all_in_front|by eapply calm_frame|by rewrite Hp|by left].
Qed.

Lemma forward_safe b : safe b -> exists b', forward_pending b = Ok b' /\ safe b'.
Proof.
  intros [Hb Hc Hp Hs]. unfold forward_pending. cbv zeta.
  rewrite decorate_pending_spec, bind_Ok by done. cbv beta iota. set (b1 := modify bd_state _ b).
  assert (Hb1 : buffers_ok (waiting b1)) by apply all_in_front, decorated_set.
  destruct (finish_total b1) as [b2 Hb2]; [done|by apply calm_event_ok|]. exists b2. split; [done|].
  apply (safe_call b1); [|by apply call_finish]. split; [done|done|done|by left].
Qed.

Section Total.
Context {sub_ok : Sub -> Prop} `{!TotalSubclass sub_ok}.

(** Both parts of the element are fit for the next call. *)
Definition fit (w : W) : Prop := sub_ok w.1 /\ safe w.2.

Lemma flush_total w : fit w -> exists w', flush w = Ok w' /\ sub_ok w'.1.
Proof. intros [Hu Hs]. unfold flush. destruct (flush_total_ w Hu Hs) as (w1 & -> & Hu1). rewrite bind_Ok. eauto. Qed.

Lemma drain_total w : fit w -> exists r w', drain w = Ok (r, w') /\ sub_ok w'.1.
Proof.
  intros [Hu Hs]. unfold drain. destruct (drain_total_ w Hu Hs) as (r & w1 & Hd & Hu1). rewrite Hd, bind_Ok. cbv beta iota.
  apply drain_uses in Hd. apply (safe_calls _ _ Hd) in Hs. destruct r as [u|e].
  - destruct (forward_safe w1.2 Hs) as (b2 & -> & Hs2). rewrite bind_Ok.
    destruct (flush_total (w1.1, b2) (conj Hu1 Hs2)) as (w3 & -> & Hu3). rewrite bind_Ok. eauto.
  - destruct (flush_total w1 (conj Hu1 Hs)) as (w3 & -> & Hu3). rewrite bind_Ok. eauto.
Qed.

Lemma extend_near_total bits last x :
  0 < bits <= 32 -> 0 <= x < 2 ^ bits -> 2 ^ (bits - 1) <= last < 2 ^ 63 -> exists e, extend_near bits last x = Ok e.
Proof.
  intros Hb Hx Hl. unfold extend_near. rewrite clear_low_mod by lia.
  assert (Hp : 2 ^ bits = 2 * 2 ^ (bits - 1)) by (rewrite <- Z.pow_succ_r by lia; f_equal; lia).
  assert (Hle : 2 ^ bits <= 2 ^ 32) by (apply Z.pow_le_mono_r; lia). change (2 ^ 32) with U32 in Hle.
  change (2 ^ 63) with 9223372036854775808 in Hl.
  set (h := 2 ^ (bits - 1)) in *. assert (0 < h) by (apply Z.pow_pos_nonneg; lia).
  set (c := 2 ^ bits) in *. pose proof (Z.mod_pos_bound last c ltac:(lia)).
  pose proof (Z.mod_le last c ltac:(lia) ltac:(lia)).
  run_chk. destruct (Z.ltb_spec (x + (last - last mod c)) last); run_chk; rewrite Z.gtb_ltb.
  - destruct (Z.ltb_spec (h - 1) (last - (x + (last - last mod c)))); [|eauto].
    eexists. apply u64_add_ok. split; [reflexivity|lia].
  - destruct (Z.ltb_spec (h - 1) (x + (last - last mod c) - last)); [|eauto].
    eexists. apply u64_sub_ok. split; [reflexivity|lia].
Qed.

(** Sequence number and RTP time of the stream are far from both ends. *)
Definition stream_in_range (o : option CurrentStream) : Prop :=
  match o with
  | Some cs => 2 ^ 15 <= cs_ext_seqnum cs < 2 ^ 63 /\ 2 ^ 31 <= cs_ext_rtptime cs < 2 ^ 63
  | None => True
  end.

Lemma check_total settings cs q :
  is_u16 q -> 2 ^ 15 <= cs_ext_seqnum cs < 2 ^ 63 -> exists c, check_seqnum settings cs q = Ok c.
Proof.
  intros Hq Hr. unfold check_seqnum. run_chk. cbv zeta.
  destruct (extend_near_total 16 (cs_ext_seqnum cs) q) as [e ->]; [lia|exact Hq|exact Hr|].
  destruct (negb (_ =? _)); [rewrite bind_Ok|eauto].
  destruct (_ >? 0); [destruct (negb _)|destruct (negb _); [destruct (_ >=? _)|]]; eauto.
Qed.

Lemma continue_total cs h :
  is_u16 (rh_sequence_number h) -> is_u32 (rh_timestamp h) -> stream_in_range (Some cs) ->
  exists cs', continue_stream cs h = Ok cs'.
Proof.
  intros Hq Ht [Hr1 Hr2]. unfold continue_stream.
  destruct (extend_near_total 16 (cs_ext_seqnum cs) (rh_sequence_number h)) as [e He]; [lia|exact Hq|exact Hr1|].
  destruct (extend_near_total 32 (cs_ext_rtptime cs) (rh_timestamp h)) as [t ->]; [lia|exact Ht|exact Hr2|].
  apply extend_near_ok in He as Hok; [|lia|exact Hq|lia]. rewrite He, !bind_Ok, Z.gtb_ltb.
  destruct (Z.ltb_spec (cs_ext_seqnum cs) e); run_chk; run_chk; eauto.
Qed.

Lemma follow_total settings d h cur :
  is_u16 (rh_sequence_number h) -> is_u32 (rh_timestamp h) -> stream_in_range cur ->
  exists f, follow_stream settings d h cur = Ok f.
Proof.
  intros Hq Ht Hr. unfold follow_stream.
  destruct (stream_continues d h cur) as [cs|] eqn:Hsc; [|eauto].
  assert (cur = Some cs) as ->.
  { unfold stream_continues in Hsc. destruct (_ && _); [done|]. destruct cur; [|done].
    destruct (negb _); [done|]. by destruct (negb _). }
  destruct (check_total settings cs (rh_sequence_number h)) as [c ->]; [exact Hq|apply Hr|].
  rewrite bind_Ok. destruct c; [eauto..|]. destruct (continue_total cs h) as [cs' ->]; [done..|].
  rewrite bind_Ok. eauto.
Qed.

Lemma admit_total buffer h cr d b :
  safe b -> is_Some (d_segment (bd_state b)) -> exists n t b', admit_packet buffer h cr d b = Ok (n, t, b').
Proof.
  intros [_ Hc _ _] [[n sg] Hsg]. unfold admit_packet. cbv zeta.
  set (s1 := match d_current_stream (bd_state b) with Some _ => bd_state b | None => _ end).
  assert (Hcs : exists cs, d_current_stream s1 = Some cs)
    by (subst s1; destruct (d_current_stream (bd_state b)) eqn:E; eauto).
  assert (Hc1 : calm s1 /\ d_segment s1 = Some (n, sg))
    by (subst s1; destruct (d_current_stream (bd_state b)); done).
  clearbody s1. destruct Hcs as [cs ->], Hc1 as [Hc1 Hsg1]. cbn [unwrap]. rewrite bind_Ok.
  replace (is_some (d_npt_start s1)) with false by (by destruct Hc1 as [-> _]). cbn [andb].
  destruct (retrieve_total s1) as (o & s3 & Hr); [by apply calm_event_ok|]. rewrite Hr, bind_Ok. cbv beta iota.
  apply retrieve_spec in Hr as [(ps & -> & _) _]. cbn. rewrite Hsg1. cbn. eauto.
Qed.

Lemma admit_safe buffer h cr d b n t b' :
  admit_packet buffer h cr d b = Ok (n, t, b') -> safe b -> buffer_ok buffer ->
  RtpPacket_parse (ib_bytes buffer) = Some h -> safe b'.
Proof.
  intros HK [Hb [Hc1 Hc2] Hp Hs] Hbuf Hparse. apply admit_spec in HK. cbv zeta in HK.
  destruct HK as (_ & _ & _ & (p & Hpk & _ & Hpb & Hpx) & _ & Hw & Hsg & Hsome & _ & _ & _ & Hnpt & Hmono & _).
  split; [by rewrite Hw|split; [congruence|rewrite Hsg; auto]| |right; by rewrite Hsg].
  rewrite Hpk. apply Forall_app. split; [done|]. constructor; [|done]. split; [by rewrite Hpb|].
  rewrite Hpb, Hpx. intros Hx. exists h. split; [done|]. eapply parse_extension; [done|].
  intros E. by rewrite E in Hx.
Qed.

(** The payload a parser finds is where it says. *)
Lemma payload_found buffer h discont n expected t marker :
  RtpPacket_parse (ib_bytes buffer) = Some h ->
  InPacket_payload (mkInPacket buffer discont n expected t marker (payload_range h)) = Ok (rh_payload h).
Proof.
  intros (pre & post & Hb & Ho)%parse_payload. unfold InPacket_payload, payload_range. cbn [pa_payload_range pa_buffer].
  destruct (rh_payload h) as [|x l] eqn:E; cbv beta iota zeta.
  { rewrite (proj2 (Z.leb_le 0 0)), (proj2 (Z.leb_le 0 _)) by lia. cbn [andb]. by rewrite take_0. }
  rewrite Ho, Hb. rewrite (proj2 (Z.leb_le _ _)) by lia.
  rewrite (proj2 (Z.leb_le _ _)) by (rewrite !length_app; lia). cbn [andb].
  rewrite Nat2Z.id, drop_app_length. f_equal. replace (Z.to_nat _) with (length (x :: l)) by lia. apply take_app_length.
Qed.

Lemma deliver_packet_total p w : payload_there p -> fit w -> exists r w', deliver_packet p w = Ok (r, w') /\ fit w'.
Proof.
  intros Hpl [Hu Hs]. unfold deliver_packet. destruct (handle_total p w Hpl Hu Hs) as (r & w1 & Hh & Hu1). rewrite Hh, bind_Ok.
  apply handle_uses in Hh. apply (safe_calls _ _ Hh) in Hs. cbv beta iota.
  assert (Hdu : forall w : W, safe w.2 -> safe (on_depay drop_used w).2).
  { clear. intros [sub b] [Hb Hc Hp Hsg]. cbn [snd on_depay] in *.
    destruct (drop_used_spec (bd_state b)) as (k & l & Hk & Hd).
    assert (He : b <| bd_state ::= drop_used |> = b <| bd_state := (bd_state b) <| d_pending_packets := l |> |>)
      by (rewrite <- Hd; by destruct b).
    unfold on_depay. cbn [snd]. rewrite He. rewrite Hk in Hp, Hsg. apply Forall_app in Hp as [_ Hp].
    split; [done|done|done|]. destruct Hsg as [[_ ?]%app_eq_nil|?]; [by left|by right]. }
  destruct r as [u|e].
  - destruct (finish_total w1.2) as [b2 Hb2]; [apply Hs|apply calm_event_ok, Hs|]. rewrite Hb2, !bind_Ok.
    do 2 eexists. split; [done|]. split; [done|]. apply Hdu. cbn. eapply safe_call; [exact Hs|by apply call_finish].
  - rewrite bind_Ok. do 2 eexists. split; [done|]. split; [done|]. by apply Hdu.
Qed.

Lemma handle_parsed_total settings buffer h cr w :
  (exists f, follow_stream settings (ib_discont buffer) h (d_current_stream (bd_state w.2)) = Ok f) ->
  fit w -> depay_inv w.2 -> buffer_ok buffer -> RtpPacket_parse (ib_bytes buffer) = Some h ->
  is_Some (d_segment (bd_state w.2)) ->
  exists r w', handle_parsed settings buffer h cr w = Ok (r, w') /\ fit w'.
Proof.
  intros [f Hf] [Hu Hs] Hinv Hbuf Hparse Hsg. unfold handle_parsed. rewrite Hf, bind_Ok.
  destruct f as [[cs expected]|]; [|by do 2 eexists]. cbv zeta. set (w1 := on_depay _ w).
  assert (Hs1 : safe w1.2) by (destruct Hs; by split). assert (Hu1 : sub_ok w1.1) by exact Hu.
  assert (Hd : exists r w2, (if is_none cs && negb (bool_decide (length (d_pending_packets (bd_state w1.2)) = 0%nat))
                             then drain w1 else Ok (Success tt, w1)) = Ok (r, w2) /\ fit w2 /\
                            is_Some (d_segment (bd_state w2.2))).
  { destruct (_ && _); [|do 2 eexists; split; [done|]; split; [done|exact Hsg]].
    destruct (drain_total w1 (conj Hu1 Hs1)) as (r & w2 & Hdr & Hu2). exists r, w2. split; [done|].
    destruct (inv_call _ Hinv) as (top & Hci & _).
    apply (drain_spec top) in Hdr; [|done]. split; [split; [done|by eapply safe_emptied; [apply Hs1|]]|].
    destruct Hdr as ((_ & -> & _) & _). exact Hsg. }
  destruct Hd as (r & w2 & -> & [Hu2 Hs2] & Hsg2). rewrite bind_Ok. cbv beta iota. destruct r as [u|e]; [|by do 2 eexists].
  destruct (admit_total buffer h cr (is_none cs) w2.2) as (n & t & b3 & Had); [done..|].
  rewrite Had, bind_Ok. cbv beta iota. apply admit_safe in Had; [|done..].
  apply deliver_packet_total; [|done]. eexists. by apply payload_found.
Qed.

Lemma handle_buffer_total settings buffer w :
  fit w -> depay_inv w.2 -> buffer_ok buffer -> stream_in_range (d_current_stream (bd_state w.2)) ->
  exists r w', handle_buffer settings buffer w = Ok (r, w').
Proof.
  intros Hs Hinv Hbuf Hr. unfold handle_buffer. cbv zeta.
  destruct (d_sink_caps (bd_state w.2)) as [sc|] eqn:Hsc; cbn [is_none]; [|eauto].
  destruct (d_segment (bd_state w.2)) as [[sn sg]|] eqn:Hsg; cbn [is_none]; [|eauto].
  destruct (di_clock _ Hinv) as (cr & -> & _); [by rewrite Hsc|]. cbn [unwrap]. rewrite bind_Ok.
  destruct (negb _); [eauto|]. destruct (RtpPacket_parse _) as [h|] eqn:Hparse; [|eauto].
  destruct (handle_parsed_total settings buffer h cr w) as (r & w' & -> & _); [|done..|by rewrite Hsg|eauto].
  apply follow_total; [by eapply parse_seqnum|by eapply parse_timestamp|done].
Qed.

Lemma handle_buffer_safe settings buffer w r w' :
  handle_buffer settings buffer w = Ok (r, w') -> fit w -> depay_inv w.2 -> buffer_ok buffer -> fit w'.
Proof.
  unfold handle_buffer. cbv zeta. intros HK Hs Hinv Hbuf.
  destruct (is_none _); [by injection HK as <- <-|].
  destruct (d_segment (bd_state w.2)) as [[sn sg]|] eqn:Hsg; cbn [is_none] in HK; [|by injection HK as <- <-].
  apply bind_ok in HK as (cr & _ & HK). destruct (negb _); [by injection HK as <- <-|].
  destruct (RtpPacket_parse _) as [h|] eqn:Hparse; [|by injection HK as <- <-].
  destruct (handle_parsed_total settings buffer h cr w) as (r' & w'' & HK' & Hs'); [|done..|by rewrite Hsg|].
  - apply bind_ok in HK as (f & Hf & _). eauto.
  - rewrite HK' in HK. by injection HK as _ <-.
Qed.

Lemma handle_list_safe settings l w r w' :
  handle_list settings l w = Ok (r, w') -> fit w -> depay_inv w.2 -> Forall buffer_ok l -> fit w'.
Proof.
  revert w. induction l as [|b l IH]; intros w HK Hs Hinv Hl; cbn in HK; [by injection HK as <- <-|].
  apply Forall_cons in Hl as [Hb Hl]. apply bind_ok in HK as ([h w1] & Hh & HK). cbv beta iota in HK.
  pose proof (handle_buffer_safe _ _ _ _ _ Hh Hs Hinv Hb). pose proof (handle_buffer_inv _ _ _ _ _ Hh Hinv).
  destruct h; [by eapply IH|by injection HK as <- <-].
Qed.

(** *** Events *)

Lemma drain_safe w : fit w -> depay_inv w.2 ->
  exists r w', drain w = Ok (r, w') /\ fit w' /\ frame_state (bd_state w.2) (bd_state w'.2) /\
    d_pending_packets (bd_state w'.2) = [].
Proof.
  intros Hs Hinv. destruct (drain_total w Hs) as (r & w' & Hd & Hu). exists r, w'. split; [done|].
  destruct (inv_call _ Hinv) as (top & Hci & _). apply (drain_spec top) in Hd; [|done].
  split; [split; [done|by eapply safe_emptied; [apply Hs|]]|]. by destruct Hd as (? & _ & _ & _ & ? & _).
Qed.

Definition caps_calm (caps : SinkCaps) : Prop := sk_npt_start caps = None \/ sk_onvif_mode caps = Some true.

Lemma accept_caps_safe caps c w : caps_calm caps -> safe w.2 -> safe (on_depay (accept_caps caps c) w).2.
Proof.
  intros Hcaps [Hb [Hc1 Hc2] Hp Hs]. unfold on_depay. destruct w as [sub b]. cbn [snd] in *.
  set (s' := accept_caps caps c (bd_state b)).
  assert (E : b <| bd_state ::= accept_caps caps c |> = b <| bd_state := s' |>) by done. rewrite E.
  assert (Hs' : d_pending_buffers s' = d_pending_buffers (bd_state b) /\
    d_pending_packets s' = d_pending_packets (bd_state b) /\ d_segment s' = d_segment (bd_state b) /\
    d_npt_start s' = None /\ d_pending_segment s' = d_pending_segment (bd_state b)).
  { subst s'. unfold accept_caps. cbv zeta.
    replace (is_some (sk_npt_start caps) && _) with false
      by (destruct Hcaps as [Hn | Hn]; rewrite Hn; [done|by rewrite andb_false_r]).
    cbn. rewrite Hc1. done. }
  clearbody s'. destruct Hs' as (E1 & E2 & E3 & E4 & E5).
  split; unfold waiting, calm in *; cbn; rewrite ?E1, ?E2, ?E3, ?E4, ?E5; done.
Qed.

Lemma set_sink_caps_safe caps w : caps_calm caps -> fit w -> depay_inv w.2 ->
  exists r w', set_sink_caps caps w = Ok (r, w') /\ fit w'.
Proof.
  intros Hcaps Hs Hinv. unfold set_sink_caps. destruct (negb _); [eauto|].
  destruct (sk_clock_rate caps) as [c|]; [|eauto]. destruct (negb _); [eauto|].
  destruct (update_extensions_from_sink_caps _ _ _) as [exts|]; [|eauto]. cbv zeta. set (w1 := (w.1, _)).
  assert (Hs1 : fit w1) by (destruct Hs as [? []]; by split). assert (Hi1 : depay_inv w1.2) by (destruct Hinv; by split).
  destruct (bool_decide _); [eauto|]. destruct (drain_safe w1) as (r & w2 & -> & [Hu2 Hs2] & _); [done..|].
  rewrite bind_Ok. cbv beta iota. destruct (caps_total caps w2 Hu2 Hs2) as (a & w3 & Ha & Hu3). rewrite Ha, bind_Ok.
  apply caps_uses in Ha. apply (safe_calls _ _ Ha) in Hs2. cbv beta iota.
  destruct a; do 2 eexists; (split; [done|]); (split; [exact Hu3|]); [by apply accept_caps_safe|]. destruct Hs2. by split.
Qed.

Lemma segment_event_safe n sg w : fit w -> depay_inv w.2 ->
  exists r w', segment_event n (TimeSegment sg) w = Ok (r, w') /\ fit w'.
Proof.
  intros Hs Hinv. unfold segment_event. cbv zeta. destruct (is_none _); [eauto|].
  destruct (same_segment _ _ _); [do 2 eexists; split; [done|]; destruct Hs as [? []]; by split|].
  assert (Hd : exists r w1, (if is_some (d_segment (bd_state w.2)) then drain w else Ok (Success tt, w)) = Ok (r, w1) /\
    fit w1).
  { destruct (is_some _); [|eauto]. destruct (drain_safe w) as (r & w1 & ? & ? & _); eauto. }
  destruct Hd as (r & w1 & -> & Hs1). rewrite bind_Ok. cbv beta iota.
  do 2 eexists. split; [done|]. destruct Hs1 as [Hu1 [Hb [Hc1 _] Hp _]]. split; [exact Hu1|].
  split; [done| |done|right; by eexists].
  split; [done|]. intros _. by eexists.
Qed.

Lemma flush_stop_safe w : fit w -> depay_inv w.2 -> exists w', flush_stop w = Ok w' /\ fit w'.
Proof.
  intros Hs Hinv. unfold flush_stop. destruct (flush_total w Hs) as (w1 & Hf & Hu1). rewrite Hf, bind_Ok. cbv zeta.
  eexists. split; [done|]. split; [exact Hu1|]. destruct (inv_call _ Hinv) as (top & Hci & _). apply (flush_spec top) in Hf; [|done].
  destruct (safe_emptied _ _ _ (safe_calm _ (proj2 Hs)) Hf) as [Hb [Hc1 _] Hp _].
  destruct Hf as (_ & _ & _ & _ & Hp0 & _). split; [done|done|done|by left].
Qed.

(** Segments are in time format, caps without a start time of old-style RTSP. *)
Definition event_calm (ev : SinkEvent) : Prop :=
  match ev with
  | EvCaps caps => caps_calm caps
  | EvSegment _ (OtherSegment _) => False
  | _ => True
  end.

Lemma sink_event_safe ev w : event_calm ev -> fit w -> depay_inv w.2 ->
  exists r w', sink_event_default ev w = Ok (r, w') /\ fit w'.
Proof.
  assert (Hfw : forall w, fit w -> fit (forward_event ev w)) by (intros ? [? []]; by split).
  intros Hev Hs Hinv. destruct ev as [caps|n [sg|f]| | |k]; cbn [sink_event_default].
  - by apply set_sink_caps_safe.
  - by apply segment_event_safe.
  - done.
  - destruct (drain_safe w) as (r & w1 & -> & Hs1 & _); [done..|]. rewrite bind_Ok. cbv beta iota. eauto.
  - destruct (flush_stop_safe w) as (w1 & -> & Hs1); [done..|]. rewrite bind_Ok. eauto.
  - eauto.
Qed.

Definition op_calm (op : Op) : Prop :=
  match op with
  | OpBuffer b => buffer_ok b
  | OpBufferList l => Forall buffer_ok l
  | OpEvent ev => event_calm ev
  | OpAddExtension ext => ext_id ext <> 0
  | _ => True
  end.

Lemma reset_safe w : safe (reset_state w).2.
Proof. split; cbn; [by apply all_in_front|done|done|by left]. Qed.

Lemma depay_exec_safe op w w' :
  op_calm op -> depay_exec w op = Ok w' -> fit w -> depay_inv w.2 -> fit w'.
Proof.
  intros Hop HK Hs Hinv. destruct op as [b|l|ev| | |x| |st]; cbn [depay_exec] in HK.
  - apply bind_ok in HK as ([r w1] & Hh & HK). injection HK as <-. by eapply handle_buffer_safe.
  - apply bind_ok in HK as ([r w1] & Hh & HK). injection HK as <-. by eapply handle_list_safe.
  - apply bind_ok in HK as ([r w1] & Hh & HK). injection HK as <-.
    destruct (sink_event_safe ev w) as (r' & w2 & Hev & Hs2); [done..|]. rewrite Hev in Hh. by injection Hh as _ <-.
  - apply bind_ok in HK as ([r w1] & Hh & HK). injection HK as <-.
    destruct (start_total (reset_state w) (proj1 Hs) (reset_safe w)) as (r' & w2 & Hst & Hu2).
    unfold ready_to_paused in Hh. rewrite Hst in Hh. injection Hh as <- <-. split; [done|]. apply start_uses in Hst.
    eapply safe_calls; [exact Hst|apply reset_safe].
  - apply bind_ok in HK as ([r w1] & Hh & HK). injection HK as <-.
    apply bind_ok in Hh as ([s w2] & Hst & HK). cbv beta iota in HK.
    destruct (stop_total w (proj1 Hs) (proj2 Hs)) as (r' & w3 & Hst' & Hu3). rewrite Hst' in Hst. injection Hst as <- <-.
    apply stop_uses in Hst'.
    destruct r'; injection HK as <- <-; (split; [done|]); [apply reset_safe|by eapply safe_calls; [|apply Hs]].
  - apply bind_ok in HK as (? & _ & HK). injection HK as <-. by destruct Hs as [? []].
  - injection HK as <-. by destruct Hs as [? []].
  - injection HK as <-. by destruct Hs as [? []].
Qed.

(** The numbers of the current stream are in range whenever the turn of a
    buffer of [op] comes. *)
Fixpoint list_in_range (settings : Settings) (l : list InBuffer) (w : W) : Prop :=
  match l with
  | [] => True
  | b :: l =>
      stream_in_range (d_current_stream (bd_state w.2)) /\
      forall w', handle_buffer settings b w = Ok (Success tt, w') -> list_in_range settings l w'
  end.
Definition op_in_range (op : Op) (w : W) : Prop :=
  match op with
  | OpBuffer _ => stream_in_range (d_current_stream (bd_state w.2))
  | OpBufferList l => list_in_range (bd_settings w.2) l w
  | _ => True
  end.

Lemma handle_list_total settings l w :
  fit w -> depay_inv w.2 -> Forall buffer_ok l -> list_in_range settings l w ->
  exists r w', handle_list settings l w = Ok (r, w').
Proof.
  revert w. induction l as [|b l IH]; intros w Hs Hinv Hl Hr; cbn [handle_list]; [eauto|].
  apply Forall_cons in Hl as [Hb Hl]. destruct Hr as [Hr Hn].
  destruct (handle_buffer_total settings b w) as ([[]|e] & w1 & Hh); [done..| |]; rewrite Hh, bind_Ok; [|eauto].
  apply IH; [by eapply handle_buffer_safe|by eapply handle_buffer_inv|done|by apply Hn].
Qed.

Lemma depay_exec_total op w :
  op_calm op -> fit w -> depay_inv w.2 -> op_in_range op w -> exists w', depay_exec w op = Ok w'.
Proof.
  intros Hop Hs Hinv Hr. destruct op as [b|l|ev| | |x| |st]; cbn [depay_exec op_in_range] in *; [| |..|eauto|eauto].
  - destruct (handle_buffer_total (bd_settings w.2) b w) as (r & w' & Hh); [done..|].
    unfold sink_chain. rewrite Hh, bind_Ok. eauto.
  - destruct (handle_list_total (bd_settings w.2) l w) as (r & w' & Hh); [done..|].
    unfold sink_chain_list. rewrite Hh, bind_Ok. eauto.
  - destruct (sink_event_safe ev w) as (r & w' & -> & _); [done..|]. rewrite bind_Ok. eauto.
  - destruct (start_total (reset_state w)) as (r & w' & Hst & _); [apply Hs|apply reset_safe|].
    unfold ready_to_paused. rewrite Hst, bind_Ok. eauto.
  - destruct (stop_total w (proj1 Hs) (proj2 Hs)) as (r & w' & Hst & _). unfold paused_to_ready. rewrite Hst, bind_Ok.
    cbv beta iota. destruct r; rewrite bind_Ok; eauto.
  - unfold add_extension. destruct (Z.eqb_spec (ext_id x) 0); [done|]. cbn. eauto.
Qed.

Lemma depay_run_safe ops w w' :
  Forall op_typed ops -> Forall op_calm ops -> res_fold depay_exec w ops = Ok w' ->
  fit w -> depay_inv w.2 -> fit w' /\ depay_inv w'.2.
Proof.
  revert w. induction ops as [|op ops IH]; intros w Hty Hca HK Hs Hinv; cbn in HK; [by injection HK as <-|].
  apply bind_ok in HK as (w1 & H1' & HK). apply Forall_cons in Hty as [Ht Hty], Hca as [Hc Hca].
  eapply IH; [done..|by eapply depay_exec_safe|by eapply depay_exec_inv].
Qed.
End Total.
End Totality.
