(* ===== verification/BaseDepayRun.v ===== *)
(** * Theorems about the depayloader base class

    The invariant over any sequence of operations and any subclass, absence of
    panics, what becomes of a packet by its sequence number, the order and the
    timestamps of the output, header extensions, and inputs on which the code
    panics. *)

From S2P Require Import Prelude Queues F64 Flow RtpBase DepayMeta BaseDepay BaseDepayInv BaseDepayProps.

(** ** Header extensions *)

(** An element on the wire (RFC 8285), in the one- and the two-byte form. *)
Definition element_bytes (flags : ExtFlags) (element : Z * list Z) : list Z :=
  let '(id, data) := element in
  match flags with
  | ONE_BYTE => (id * 16 + (Z.of_nat (length data) - 1)) :: data
  | TWO_BYTE => id :: Z.of_nat (length data) :: data
  end.

Definition element_valid (flags : ExtFlags) (element : Z * list Z) : Prop :=
  let '(id, data) := element in
  match flags with
  | ONE_BYTE => 1 <= id <= 14 /\ (1 <= length data <= 16)%nat
  | TWO_BYTE => 1 <= id <= 255 /\ (length data <= 255)%nat
  end.

(** Elements with padding before each. *)
Definition padded_bytes (flags : ExtFlags) (elements : list (nat * (Z * list Z))) : list Z :=
  mjoin ((fun e => replicate e.1 0 ++ element_bytes flags e.2) <$> elements).

Lemma elements_padding fuel flags n d :
  extension_elements (n + fuel) flags (replicate n 0 ++ d) = extension_elements fuel flags d.
Proof.
  induction n as [|n IH]; [done|]. cbn [replicate Nat.add app]. rewrite <- IH.
  by destruct flags.
Qed.

Lemma elements_step fuel flags e d :
  element_valid flags e ->
  extension_elements (S fuel) flags (element_bytes flags e ++ d) = e :: extension_elements fuel flags d.
Proof.
  destruct e as [id data].
  assert (Hcut : forall len, len = Z.of_nat (length data) ->
    (if Z.of_nat (length (data ++ d)) <? len then []
     else (id, take (Z.to_nat len) (data ++ d)) :: extension_elements fuel flags (drop (Z.to_nat len) (data ++ d)))
    = (id, data) :: extension_elements fuel flags d).
  { intros len ->. rewrite length_app. destruct (Z.ltb_spec (Z.of_nat (length data + length d)) (Z.of_nat (length data))); [lia|].
    rewrite Nat2Z.id, take_app_length, drop_app_length. done. }
  destruct flags; cbn [element_valid element_bytes]; intros [Hid Hlen]; cbn [app extension_elements].
  - set (n := Z.of_nat (length data) - 1). assert (0 <= n < 16) by lia.
    replace (id * 16 + n) with (Z.lor (Z.shiftl id 4) n) by (rewrite lor_shiftl_add by lia; lia).
    assert (Hs : Z.shiftr (Z.lor (Z.shiftl id 4) n) 4 = id).
    { rewrite lor_shiftl_add by lia. rewrite Z.shiftr_div_pow2 by lia. rewrite Z.div_add_l by lia.
      rewrite Z.div_small by lia. lia. }
    assert (Hl : Z.land (Z.lor (Z.shiftl id 4) n) 15 = n).
    { change 15 with (Z.ones 4). rewrite Z.land_ones, lor_shiftl_add by lia.
      rewrite Z.add_comm, Z.mod_add, Z.mod_small by lia. done. }
    rewrite Hs, Hl. destruct (Z.eqb_spec id 0); [lia|]. destruct (Z.eqb_spec id 15); [lia|].
    apply Hcut. lia.
  - destruct (Z.eqb_spec id 0); [lia|]. by apply Hcut.
Qed.

Lemma padded_cons flags n e l :
  padded_bytes flags ((n, e) :: l) = replicate n 0 ++ element_bytes flags e ++ padded_bytes flags l.
Proof. unfold padded_bytes. cbn. by rewrite app_assoc. Qed.

Lemma elements_spec flags l tail fuel :
  Forall (fun e => element_valid flags e.2) l ->
  (length (padded_bytes flags l ++ replicate tail 0%Z) <= fuel)%nat ->
  extension_elements fuel flags (padded_bytes flags l ++ replicate tail 0) = snd <$> l.
Proof.
  revert fuel. induction l as [|[n e] l IH]; intros fuel Hl Hfuel.
  - cbn in *. rewrite length_replicate in Hfuel. replace fuel with (tail + (fuel - tail))%nat by lia.
    rewrite <- (app_nil_r (replicate tail 0)), elements_padding. by destruct (fuel - tail)%nat.
  - apply Forall_cons in Hl as [He Hl]. cbn [fmap list_fmap snd] in He |- *.
    rewrite padded_cons, <- !app_assoc in Hfuel |- *. rewrite !length_app, length_replicate in Hfuel.
    assert (0 < length (element_bytes flags e))%nat by (destruct e, flags; cbn; lia).
    replace fuel with (n + S (fuel - n - 1))%nat by lia. rewrite elements_padding, elements_step by done.
    f_equal. apply IH; [done|]. rewrite length_app. lia.
Qed.

(** ** A complete element

    Instances of the interfaces, and a subclass that makes a buffer of every
    payload and sets its caps when the input caps arrive. *)
#[export] Instance Segment_eq_dec : EqDecision Segment.
Proof. solve_decision. Defined.

Definition exact_signed_add (a b : Signed) : res Signed :=
  let value s := match s with Positive t => t | Negative t => - t end in
  let sum := value a + value b in
  if Z.abs sum <? U64 - 1 then Ok (if 0 <=? sum then Positive sum else Negative (- sum)) else Panic.

#[local] Instance time_exact : GstTime := {|
  clock_add a b := if a + b <? U64 - 1 then Ok (a + b) else Panic;
  clock_sub a b := if b <=? a then Ok (a - b) else Panic;
  signed_add := exact_signed_add;
  to_running_time _ t := t;
  segment_reset s := s;
  segment_eq s t := bool_decide (s = t);
|}.

Lemma clock_add_exact_laws : @ClockAddLaws time_exact.
Proof. intros a b Ha Hb Hab. cbn. by rewrite (proj2 (Z.ltb_lt _ _)) by lia. Qed.

#[local] Instance time_exact_laws : GstTimeLaws.
Proof.
  split; intros a b Ha Hb; [intros Hab|]; cbn; unfold exact_signed_add.
  - destruct (Z.ltb_spec (Z.abs (a + b)) (U64 - 1)); [|lia]. by destruct (Z.leb_spec 0 (a + b)); [|lia].
  - destruct (Z.ltb_spec (Z.abs (a + - b)) (U64 - 1)); [|lia].
    destruct (Z.leb_spec 0 (a + - b)), (Z.leb_spec b a); first [lia|do 2 f_equal; lia].
Qed.

(** Packets without extension, sources and padding. *)
Definition plain_parse (bytes : list Z) : option RtpHeader :=
  match bytes with
  | v :: mp :: s1 :: s0 :: t3 :: t2 :: t1 :: t0 :: c3 :: c2 :: c1 :: c0 :: payload =>
      if (v =? 128) && forallb (fun b => (0 <=? b) && (b <? U8)) bytes then
        Some (mkRtpHeader (s1 * 256 + s0) (((c3 * 256 + c2) * 256 + c1) * 256 + c0) (Z.land mp 127)
                (((t3 * 256 + t2) * 256 + t1) * 256 + t0) (128 <=? mp) None 0 [] payload 12)
      else None
  | _ => None
  end.

#[local] Instance rtp_plain : RtpTypes := {|
  RtpPacket_parse := plain_parse;
  meta_transform m b := Some (b <| ob_metas ::= fun l => l ++ [m] |>);
|}.

Lemma plain_parse_inv bytes h :
  plain_parse bytes = Some h ->
  is_u16 (rh_sequence_number h) /\ is_u32 (rh_timestamp h) /\ rh_extension_len h = 0 /\
  exists pre, bytes = pre ++ rh_payload h /\ rh_payload_offset h = Z.of_nat (length pre).
Proof.
  unfold plain_parse. do 12 (destruct bytes as [|? bytes]; [done|]).
  destruct (_ && _) eqn:Hb; [|done]. intros [= <-]. cbn.
  apply andb_prop in Hb as [_ Hb]. cbn in Hb. repeat (apply andb_prop in Hb as [?%andb_prop Hb]).
  repeat match goal with HX : _ /\ _ |- _ => destruct HX as [?%Z.leb_le ?%Z.ltb_lt] end.
  split; [unfold is_u16; lia|]. split; [unfold is_u32; lia|]. split; [done|].
  by eexists [_; _; _; _; _; _; _; _; _; _; _; _].
Qed.

#[local] Instance rtp_plain_laws : RtpTypesLaws.
Proof.
  split; intros bytes h (? & ? & Hx & pre & Hp & Ho)%plain_parse_inv; [done..|by intros []|].
  exists pre, []. by rewrite app_nil_r.
Qed.

#[local] Instance no_extensions : HeaderExtensions := {|
  Ext := Empty_set;
  ext_id e := match e with end;
  ext_uri e := match e with end;
  ext_read e := match e with end;
  ext_wants_update e := match e with end;
  ext_update_caps e := match e with end;
  ext_set_attributes_from_caps _ e := match e with end;
  ext_create_from_uri _ := None;
  ext_set_id _ e := e;
  application_extension _ _ := None;
|}.

#[local] Instance copying_class : DepayClass := {|
  allow_seqnum_discontinuities := false;
  transform_meta _ m b := b <| ob_metas ::= fun l => l ++ [m] |>;
|}.

Section Copying.
Context `{Gst}.

Definition copy_payload (packet : InPacket) (w : unit * Base) : res (result unit * (unit * Base)) :=
  match InPacket_payload packet with
  | Panic => Ok (Failure FlowErr, w)
  | Ok payload =>
      '(r, base) ← base_queue_buffer (Seqnums (pa_ext_seqnum packet, pa_ext_seqnum packet))
        (mkOutBuffer (mkDepayBuffer payload (pa_marker packet) false false) None None [] None) w.2;
      Ok (r, (w.1, base))
  end.

#[local] Instance copying : Subclass := {|
  Sub := unit;
  sub_handle_packet := copy_payload;
  sub_drain w := Ok (Success tt, w);
  sub_flush w := Ok w;
  sub_set_sink_caps _ w := base ← base_set_src_caps TemplateCaps w.2; Ok (true, (w.1, base));
  sub_start w := Ok (true, w);
  sub_stop w := Ok (true, w);
|}.

#[local] Instance copying_uses : UsesBase.
Proof.
  split; cbn.
  - intros p w r w' HK. unfold copy_payload in HK. destruct (InPacket_payload p); [|injection HK as <- <-; apply rtc_refl].
    apply bind_ok in HK as ([r' b'] & Hq & HK). injection HK as <- <-. apply rtc_once. by eapply call_queue.
  - intros w r w' [= <- <-]. apply rtc_refl.
  - intros w w' [= <-]. apply rtc_refl.
  - intros _ w r w' (b & Hb & HK)%bind_ok. injection HK as <- <-. apply rtc_once. by eapply call_caps.
  - intros w r w' [= <- <-]. apply rtc_refl.
  - intros w r w' [= <- <-]. apply rtc_refl.
Qed.

#[local] Instance copying_total : TotalSubclass (fun _ => True).
Proof.
  split; cbn; intros; [|by eauto|by eauto| |by eauto|by eauto].
  - unfold copy_payload. destruct (InPacket_payload p); [|eauto].
    match goal with |- context [base_queue_buffer ?rel ?buf ?b] =>
      destruct (proj2 (proj2 (calls_total b ltac:(done))) rel buf I) as (r & b' & ->) end.
    rewrite bind_Ok. cbv beta iota. eauto.
  - destruct (proj1 (proj2 (calls_total w.2 ltac:(done))) TemplateCaps) as (b' & ->). rewrite bind_Ok. eauto.
Qed.
End Copying.

(** ** Theorems *)
Section Theorems.
Context `{Gst} `{GstTime} `{RtpTypes} `{HeaderExtensions} `{DepayClass} `{!Subclass} `{!UsesBase}.
Context `{!RtpTypesLaws}.

(** C23: After any sequence of buffers, buffer lists, events, state changes and
    signals, for any subclass: pending buffers with metadata come before those
    without, pending packets exist only with a stream and a segment, and input
    caps come with a positive clock rate. For a subclass that does not cope
    with gaps itself, pending packets are also numbered consecutively up to
    the last packet of the current stream, and no buffer was made of a later
    packet. *)
Theorem depay_invariant sub ops w :
  Forall op_typed ops -> res_fold depay_exec (sub, Base_new) ops = Ok w ->
  let s := bd_state w.2 in
  (exists done_ wait, d_pending_buffers s = done_ ++ wait /\
     Forall (fun b => pb_metadata_set b = true) done_ /\ Forall (fun b => pb_metadata_set b = false) wait) /\
  (allow_seqnum_discontinuities = false -> forall cs, d_current_stream s = Some cs ->
     let n := Z.of_nat (length (d_pending_packets s)) in
     pe_ext_seqnum <$> d_pending_packets s = seqZ (cs_ext_seqnum cs + 1 - n) n /\
     forall u, d_last_used_ext_seqnum s = Some u -> u <= cs_ext_seqnum cs) /\
  (d_pending_packets s <> [] -> is_Some (d_current_stream s) /\ is_Some (d_segment s)) /\
  (is_Some (d_sink_caps s) -> exists c, d_clock_rate s = Some c /\ 0 < c).
Proof.
  intros Hty HK. destruct (depay_run_inv _ _ _ Hty HK Base_new_inv) as [Hb Hs Hg Hc]. cbv zeta. split; [|split; [|split]].
  - exists (take_while pb_metadata_set (waiting w.2)), (skip_while pb_metadata_set (waiting w.2)).
    split; [symmetry; apply take_skip_while|]. split; [apply take_while_all|exact Hb].
  - intros Ha cs Hcs. rewrite Hcs in Hs. destruct (Hs Ha) as (_ & Hn & Hu). split; [exact Hn|].
    intros u E. by rewrite E in Hu.
  - intros Hne. split; [|by destruct Hg]. by destruct (d_current_stream (bd_state w.2)).
  - intros Hsc. destruct (Hc Hsc) as (c & ? & ?). exists c. split; [done|lia].
Qed.

(** C25: After any sequence of operations with plausible input (segments in
    time format, no start time of old-style RTSP caps, references with fixed
    caps, timestamps below 2^62), another such operation (a buffer, a buffer
    list, an event, a state change, a signal) returns without a panic, for any
    subclass that panics nowhere its calls do not, provided that when the turn
    of a buffer comes the extended sequence number of the current stream is in
    [2^15, 2^63) and its extended RTP time in [2^31, 2^63). RTP times that go
    back for a cycle leave that range, and a packet can then make the element
    panic ([depay_time_underflow]). *)
Theorem depay_no_panic `{!GstTimeLaws} (sub_ok : Sub -> Prop) `{!TotalSubclass sub_ok} sub ops w op :
  sub_ok sub -> Forall op_typed ops -> Forall op_calm ops -> res_fold depay_exec (sub, Base_new) ops = Ok w ->
  op_calm op -> op_in_range op w ->
  exists w', depay_exec w op = Ok w'.
Proof.
  intros Hsub Hty Hca HK Hop Hr.
  destruct (depay_run_safe _ _ _ Hty Hca HK (conj Hsub (reset_safe (sub, Base_new))) Base_new_inv) as [Hs Hinv].
  by eapply depay_exec_total.
Qed.

(** What a subclass queues with a sequence of calls, none of which drops an
    unbounded range. *)
Inductive calls_queue : Base -> list (list Z) -> Base -> Prop :=
| cq_done b : calls_queue b [] b
| cq_queue rel buf b r b1 qs b2 :
    base_queue_buffer rel buf b = Ok (r, b1) -> calls_queue b1 qs b2 ->
    calls_queue b (match r with Success _ => [bytes_of buf] | Failure _ => [] end ++ qs) b2
| cq_drop bound b qs b2 :
    bound <> Unbounded -> calls_queue (base_drop_packets bound b) qs b2 -> calls_queue b qs b2
| cq_caps caps b b1 qs b2 : base_set_src_caps caps b = Ok b1 -> calls_queue b1 qs b2 -> calls_queue b qs b2
| cq_finish b b1 qs b2 : finish_pending_buffers b = Ok b1 -> calls_queue b1 qs b2 -> calls_queue b qs b2
| cq_force b qs b2 : calls_queue (push_out OutForceKeyUnit b) qs b2 -> calls_queue b qs b2.

(** What was sent is never taken back. *)
Definition out_grows (b b' : Base) : Prop := exists l, bd_out b' = bd_out b ++ l.

Lemma out_refl b b' : bd_out b' = bd_out b -> out_grows b b'.
Proof. exists []. by rewrite app_nil_r. Qed.

Lemma out_trans b1 b2 b3 : out_grows b1 b2 -> out_grows b2 b3 -> out_grows b1 b3.
Proof. intros [l1 H1'] [l2 H2']. exists (l1 ++ l2). by rewrite H2', H1', app_assoc. Qed.

Lemma out_push o b b' : bd_out b' = bd_out b -> out_grows b (push_out o b').
Proof. intros Ho. exists [o]. cbn. by rewrite Ho. Qed.

Lemma out_segment o b b' : bd_out b' = bd_out b -> out_grows b (push_segment o b').
Proof. destruct o; cbn; [apply out_push|apply out_refl]. Qed.

Lemma finish_loop_grows fuel b b' : finish_loop fuel b = Ok b' -> out_grows b b'.
Proof.
  revert b. induction fuel as [|fuel IH]; intros b HK; cbn [finish_loop] in HK.
  { destruct (negb _); [injection HK as <-; by apply out_refl|done]. }
  destruct (negb _); [injection HK as <-; by apply out_refl|].
  apply bind_ok in HK as (f & _ & HK). apply bind_ok in HK as (? & _ & HK).
  apply bind_ok in HK as ([o s] & _ & HK). cbv beta iota in HK.
  match type of HK with context [if ?c then _ else _] => destruct c end; apply IH in HK.
  all: eapply out_trans; [|exact HK]; eapply out_trans; [|by apply out_push]; by apply out_segment.
Qed.

Lemma finish_grows b b' : finish_pending_buffers b = Ok b' -> out_grows b b'.
Proof.
  unfold finish_pending_buffers. destruct (is_none _); [intros [= <-]; by apply out_refl|apply finish_loop_grows].
Qed.

Lemma queue_grows rel buf b r b' : base_queue_buffer rel buf b = Ok (r, b') -> out_grows b b'.
Proof.
  intros HK. unfold base_queue_buffer in HK. cbv zeta in HK.
  destruct (d_src_caps (bd_state b)); [|injection HK as <- <-; by apply out_refl].
  assert (Hr : forall sq off bf, queue_for_range sq off bf b = Ok (r, b') -> out_grows b b').
  { clear HK. intros [st e] off bf HK. unfold queue_for_range in HK.
    destruct (st >? e); [injection HK as <- <-; by apply out_refl|]. cbv zeta in HK.
    destruct (last _); [|injection HK as <- <-; by apply out_refl].
    destruct (e >? _); [injection HK as <- <-; by apply out_refl|].
    apply bind_ok in HK as ([pts dts] & _ & HK). apply bind_ok in HK as ([pb dc] & _ & HK).
    apply bind_ok in HK as ([[w x] bf'] & _ & HK). cbv beta iota zeta in HK.
    apply bind_ok in HK as ([u b2] & Hu & HK). cbv beta iota in HK.
    assert (Hg : out_grows b b2).
    { destruct w; [|injection Hu as <- <-; by apply out_refl].
      apply bind_ok in Hu as (sc & _ & Hu). destruct (updated_caps _ _); [|injection Hu as <- <-; by apply out_refl].
      destruct (bool_decide _); [injection Hu as <- <-; by apply out_refl|].
      apply bind_ok in Hu as ([n sg] & _ & Hu). apply bind_ok in Hu as (b3 & Hf%finish_grows & Hu).
      injection Hu as <- <-. eapply out_trans; [|by apply (out_push (OutCaps c0 (Some n)) b3)].
      eapply out_trans; [by apply out_refl|exact Hf]. }
    destruct u; injection HK as <- <-; [|done]. eapply out_trans; [exact Hg|by apply out_refl]. }
  destruct rel; [by eapply Hr|by eapply Hr|]. injection HK as <- <-. by apply out_refl.
Qed.

Lemma calls_queue_bytes `{!MetasOnly} b qs b' :
  calls_queue b qs b' -> buffers_ok (waiting b) ->
  stream_bytes b' = stream_bytes b ++ qs /\ out_grows b b' /\ buffers_ok (waiting b').
Proof.
  induction 1 as [b|rel buf b r b1 qs b2 Hq _ IH|bound b qs b2 Hbd _ IH|caps b b1 qs b2 Hc _ IH
                 |b b1 qs b2 Hf _ IH|b qs b2 _ IH]; intros Hok.
  - rewrite app_nil_r. split; [done|]. split; [by apply out_refl|done].
  - pose proof (queue_grows _ _ _ _ _ Hq). apply queue_spec in Hq as (_ & Hw & _ & Hb); [|done].
    destruct (IH Hw) as (-> & ? & ?). rewrite Hb by done. rewrite app_assoc. eauto using out_trans.
  - destruct (drop_spec bound b) as (_ & _ & Hw & Hs). cbv zeta in *.
    assert (Hw' : waiting (base_drop_packets bound b) = waiting b) by (rewrite Hw; by destruct bound).
    destruct IH as (-> & Hg & ?); [by rewrite Hw'|].
    split; [unfold stream_bytes; by rewrite Hw', Hs|]. split; [|done]. by destruct bound.
  - assert (out_grows b b1).
    { unfold base_set_src_caps in Hc. destruct (bool_decide _); [injection Hc as <-; by apply out_refl|].
      cbv zeta in Hc. apply bind_ok in Hc as ([o s] & _ & Hc). injection Hc as <-.
      eapply out_trans; [|by apply out_segment]. by apply out_push. }
    apply set_src_caps_spec in Hc as (_ & _ & Hw & Hs). destruct IH as (-> & Hg & ?); [by rewrite Hw|].
    split; [unfold stream_bytes; by rewrite Hw, Hs|]. eauto using out_trans.
  - pose proof (finish_grows _ _ Hf). apply finish_spec in Hf as ((ps & pb & Hb & _ & Hpb & Hs) & _); [|done].
    assert (Hw : waiting b1 = pb) by (unfold waiting; by rewrite Hb).
    destruct IH as (-> & ? & ?); [by rewrite Hw|].
    split; [unfold stream_bytes; by rewrite Hw, Hs|]. eauto using out_trans.
  - destruct (IH Hok) as (-> & ? & ?). split; [|split; [|done]].
    + unfold stream_bytes. rewrite sent_push, app_nil_r. done.
    + eapply out_trans; [by apply out_push|done].
Qed.

(** C22: Buffers leave in the order they were queued in, none lost, added or
    changed: after any sequence of operations and then any calls of a
    subclass (queueing buffers, dropping packets up to a number, setting caps,
    finishing buffers, requesting a key unit), what has left followed by what
    waits is what it was before followed by what was queued with success, and
    nothing that left is taken back. A call that fails to queue a buffer queues
    nothing. The one call left out is dropping an unbounded range, which also
    discards the buffers that wait ([drop_unbounded]). *)
Theorem depay_output_order `{!MetasOnly} sub ops w qs b' :
  Forall op_typed ops -> res_fold depay_exec (sub, Base_new) ops = Ok w -> calls_queue w.2 qs b' ->
  bytes_of <$> (sent b' ++ (pb_buffer <$> waiting b'))
  = (bytes_of <$> (sent w.2 ++ (pb_buffer <$> waiting w.2))) ++ qs /\
  exists more, bd_out b' = bd_out w.2 ++ more.
Proof.
  intros Hty HK Hq. destruct (depay_run_inv _ _ _ Hty HK Base_new_inv) as [Hb _ _ _].
  destruct (calls_queue_bytes _ _ _ Hq Hb) as (Hs & Hg & _). by split.
Qed.

(** The distance of a sequence number to that of the stream. *)
Definition seqnum_diff (cs : CurrentStream) (seqnum : Z) : Z := swrap U16 (seqnum - cs_ext_seqnum cs).

Lemma extend_near_diff cs q e :
  is_u16 q -> 0 <= cs_ext_seqnum cs -> extend_near 16 (cs_ext_seqnum cs) q = Ok e ->
  e - cs_ext_seqnum cs = seqnum_diff cs q \/
  (e - cs_ext_seqnum cs = 2 ^ 15 /\ seqnum_diff cs q = - 2 ^ 15).
Proof.
  intros Hq Hlo He. apply extend_near_ok in He as (Hm & Ha & _); [|lia|exact Hq|done].
  change (2 ^ (16 - 1)) with (2 ^ 15) in Ha. unfold seqnum_diff.
  assert (Hc : forall d, (d - (q - cs_ext_seqnum cs)) mod U16 = (d - (e - cs_ext_seqnum cs)) mod U16).
  { intros d. rewrite <- Hm. change (2 ^ 16) with U16.
    replace (d - (e - cs_ext_seqnum cs)) with (d + cs_ext_seqnum cs - e) by lia.
    replace (d - (e mod U16 - cs_ext_seqnum cs)) with (d + cs_ext_seqnum cs - e mod U16) by lia.
    by rewrite Zminus_mod_idemp_r. }
  change (2 ^ 15) with 32768 in *.
  destruct (decide (e - cs_ext_seqnum cs = 32768)) as [E|E]; [right; split; [done|]|left; symmetry];
    (apply swrap_unique; [lia|done|change (U16 / 2) with 32768; lia|]); rewrite Hc;
    [by rewrite E|by rewrite Z.sub_diag].
Qed.

Lemma next_seqnum_diff cs q : is_u16 q -> Z.land (cs_ext_seqnum cs + 1) 65535 = q <-> seqnum_diff cs q = 1.
Proof.
  intros Hq. change 65535 with (Z.ones 16). rewrite Z.land_ones by lia. unfold seqnum_diff. change (2 ^ 16) with U16. split.
  - intros <-. apply swrap_unique; [lia|done|change (U16 / 2) with 32768; lia|].
    replace (1 - _) with (cs_ext_seqnum cs + 1 - (cs_ext_seqnum cs + 1) mod U16) by lia.
    by rewrite Zminus_mod_idemp_r, Z.sub_diag.
  - intros Hd. pose proof (swrap_cong U16 (q - cs_ext_seqnum cs) ltac:(lia)) as Hc. rewrite Hd in Hc.
    pose proof (Z.mod_pos_bound (cs_ext_seqnum cs + 1) U16 ltac:(lia)).
    apply (cong_small U16); [lia| |unfold is_u16 in Hq; lia].
    rewrite Zminus_mod_idemp_l, <- Hc. f_equal. lia.
Qed.

Lemma check_seqnum_cases settings cs q :
  allow_seqnum_discontinuities = false -> 0 <= set_max_reorder settings <= 32767 ->
  is_u16 q -> 2 ^ 15 <= cs_ext_seqnum cs < 2 ^ 63 ->
  let d := seqnum_diff cs q in
  check_seqnum settings cs q =
    Ok (if d =? 1 then SeqnumGood (cs_ext_seqnum cs + 1)
        else if (- set_max_reorder settings <=? d) && (d <=? 0) then SeqnumOld else SeqnumRestart).
Proof.
  intros Ha Hmax Hq Hr. cbv zeta. unfold check_seqnum. rewrite Ha. cbn [negb]. run_chk. cbv zeta.
  destruct (Z.eqb_spec (Z.land (cs_ext_seqnum cs + 1) 65535) q) as [Hn|Hn]; rewrite next_seqnum_diff in Hn by done;
    cbn [negb]; destruct (Z.eqb_spec (seqnum_diff cs q) 1); [done..|].
  destruct (extend_near_total 16 (cs_ext_seqnum cs) q) as [e He]; [lia|exact Hq|exact Hr|]. rewrite He, bind_Ok.
  pose proof (extend_near_diff cs q e Hq ltac:(lia) He) as Hd.
  apply extend_near_ok in He as (_ & Habs & _); [|lia|exact Hq|lia]. change (2 ^ (16 - 1)) with 32768 in Habs.
  change (2 ^ 15) with 32768 in *.
  replace (if e >? cs_ext_seqnum cs then _ else _) with (e - cs_ext_seqnum cs).
  2:{ rewrite Z.gtb_ltb. destruct (Z.ltb_spec (cs_ext_seqnum cs) e);
        rewrite swrap_small by (first [lia|done|change (U32 / 2) with 2147483648; lia]); lia. }
  rewrite (swrap_small U32 (set_max_reorder settings)) by (first [lia|done|change (U32 / 2) with 2147483648; lia]).
  rewrite Z.gtb_ltb, Z.geb_leb. destruct Hd as [Hd|[Hd1 Hd2]].
  - rewrite Hd in *. destruct (Z.ltb_spec 0 (seqnum_diff cs q)), (Z.leb_spec (- set_max_reorder settings) (seqnum_diff cs q)),
      (Z.leb_spec (seqnum_diff cs q) 0); first [done|lia].
  - rewrite Hd1, Hd2. replace (- set_max_reorder settings <=? - (32768)) with false; [done|].
    symmetry. apply Z.leb_gt. lia.
Qed.

(** C24: What becomes of a packet of the current stream, by the distance of its
    sequence number, for a class that does not cope with gaps: the next
    number continues the stream with the next extended number; a duplicate or
    a packet up to max-reorder behind is dropped; anything else starts anew. *)
Theorem depay_seqnum_cases settings h cs :
  allow_seqnum_discontinuities = false -> 0 <= set_max_reorder settings <= 32767 ->
  is_u16 (rh_sequence_number h) -> is_u32 (rh_timestamp h) -> stream_in_range (Some cs) ->
  cs_ssrc cs = rh_ssrc h -> cs_pt cs = rh_payload_type h ->
  let d := seqnum_diff cs (rh_sequence_number h) in
  (d = 1 -> exists cs', follow_stream settings false h (Some cs) = Ok (Some (Some cs', Some (cs_ext_seqnum cs + 1))) /\
              cs_ext_seqnum cs' = cs_ext_seqnum cs + 1) /\
  (- set_max_reorder settings <= d <= 0 -> follow_stream settings false h (Some cs) = Ok None) /\
  (d < - set_max_reorder settings \/ 1 < d -> follow_stream settings false h (Some cs) = Ok (Some (None, None))).
Proof.
  intros Ha Hmax Hq Ht Hr Hssrc Hpt. pose proof Hr as [Hr1 _]. cbv zeta.
  pose proof (check_seqnum_cases settings cs _ Ha Hmax Hq Hr1) as Hck. cbv zeta in Hck.
  set (d := seqnum_diff cs (rh_sequence_number h)) in *.
  assert (Hf : stream_continues false h (Some cs) = Some cs).
  { unfold stream_continues. by rewrite Ha, Hssrc, Hpt, !Z.eqb_refl. }
  unfold follow_stream. rewrite Hf, Hck, bind_Ok. split; [|split].
  - intros Hd. rewrite Hd. cbn [Z.eqb Pos.eqb]. destruct (continue_total cs h) as [cs' Hcs']; [done..|].
    rewrite Hcs', bind_Ok. exists cs'. split; [done|].
    destruct (follow_stream_next settings false h (Some cs) cs' (Some (cs_ext_seqnum cs + 1))) as (c & [= <-] & Hn & _);
      [done|lia| |done].
    unfold follow_stream. rewrite Hf, Hck, bind_Ok, Hd. cbn [Z.eqb Pos.eqb]. by rewrite Hcs'.
  - intros [Hd1 Hd2]. destruct (Z.eqb_spec d 1); [lia|].
    rewrite (proj2 (Z.leb_le _ _) Hd1), (proj2 (Z.leb_le _ _) Hd2). done.
  - intros Hd. destruct (Z.eqb_spec d 1); [lia|].
    destruct (Z.leb_spec (- set_max_reorder settings) d), (Z.leb_spec d 0); first [done|lia].
Qed.

(** The timestamps of a buffer made of the packets [a..=e]: it gets the
    first PTS these packets have and no DTS, or no PTS when an earlier buffer
    already reached packet [e]; the buffers that waited get the same; the
    first of all of them gets the pending DISCONT flag; its data is as queued
    and it is the last in line. *)
Lemma depay_buffer_times `{!MetasOnly} sub ops w a e buf b' :
  Forall op_typed ops -> res_fold depay_exec (sub, Base_new) ops = Ok w ->
  base_queue_buffer (Seqnums (a, e)) buf w.2 = Ok (Success tt, b') ->
  let s := bd_state w.2 in
  let used := match d_last_used_ext_seqnum s with Some l => e <=? l | None => false end in
  let packets := take_while (fun p => pe_ext_seqnum p <=? e)
                   (skip_while (fun p => pe_ext_seqnum p <? a) (d_pending_packets s)) in
  let pts := if used then None else list_find_map (fun p => ib_pts (pe_buffer p)) packets in
  exists buf',
    sent b' ++ (pb_buffer <$> waiting b') = sent w.2 ++ (pb_buffer <$> redated pts None w.2) ++ [buf'] /\
    ob_pts buf' = pts /\ ob_dts buf' = None /\ bytes_of buf' = bytes_of buf /\
    db_discont (ob_buffer buf') = db_discont (ob_buffer buf) || takes_discont w.2 /\
    d_last_used_ext_seqnum (bd_state b') = Some e /\ d_discont_pending (bd_state b') = false.
Proof.
  intros Hty HK Hq. destruct (depay_run_inv _ _ _ Hty HK Base_new_inv) as [Hb _ _ _]. cbv zeta.
  unfold base_queue_buffer in Hq. cbv zeta in Hq. destruct (d_src_caps (bd_state w.2)); [|done].
  unfold queue_for_range in Hq. destruct (a >? e); [done|]. cbv zeta in Hq.
  destruct (last _); [|done]. destruct (e >? _); [done|].
  apply queue_for_parts in Hq as (pts & dts & buf1 & ps & pb & sc & lp & ld & Ht & Hcore & _ & _ & Hsent & _ & _ & Hb');
    [|exact Hb].
  cbn in Ht. match goal with |- context [redated ?p None w.2] => set (t := p) end.
  assert (Htimes : pts = t /\ dts = None).
  { subst t. destruct (d_last_used_ext_seqnum (bd_state w.2)) as [l|]; [destruct (e <=? l)|];
      by injection Ht as <- <-. }
  destruct Htimes as [-> ->]. exists buf1. specialize (Hcore ltac:(done)).
  unfold core_of, decorate_buffer in Hcore. injection Hcore as H1' H2' H3'.
  unfold waiting. rewrite Hb'. cbn. rewrite fmap_app, app_assoc, Hsent, H2', H3', <- app_assoc. unfold bytes_of.
  rewrite H1'. split; [done|].
  destruct (takes_discont w.2) eqn:Htd; change (takes_discont _) with (takes_discont w.2);
    rewrite Htd; cbn; rewrite ?orb_true_r, ?orb_false_r; done.
Qed.

(** A packet whose RTP time lies half a cycle or more ahead of an extended
    time below 2^31 makes the element panic: the code subtracts a cycle from a
    number smaller than one. Times that went back that far get there (the
    witness shows four packets that do). *)
Lemma depay_time_underflow buffer h w cs :
  is_Some (d_sink_caps (bd_state w.2)) -> is_Some (d_segment (bd_state w.2)) ->
  ib_mappable buffer = true -> ib_discont buffer = false -> RtpPacket_parse (ib_bytes buffer) = Some h ->
  d_current_stream (bd_state w.2) = Some cs -> cs_ssrc cs = rh_ssrc h -> cs_pt cs = rh_payload_type h ->
  0 <= cs_ext_seqnum cs < 2 ^ 63 -> Z.land (cs_ext_seqnum cs + 1) 65535 = rh_sequence_number h ->
  0 <= cs_ext_rtptime cs < 2 ^ 31 -> cs_ext_rtptime cs + 2 ^ 31 <= rh_timestamp h < 2 ^ 32 ->
  sink_chain buffer w = Panic.
Proof.
  intros [sc Hsc] [sg Hsg] Hmap Hdis Hparse Hcs Hssrc Hpt Hn Hq Ht Hjump.
  change (2 ^ 31) with 2147483648 in *. change (2 ^ 32) with U32 in *.
  unfold sink_chain, handle_buffer. cbv zeta. rewrite Hsc, Hsg, Hmap, Hparse. cbn [is_none negb].
  destruct (d_clock_rate (bd_state w.2)) as [cr|]; [|done]. cbn [unwrap]. rewrite bind_Ok.
  unfold handle_parsed, follow_stream, stream_continues. rewrite Hdis, Hcs, Hssrc, Hpt, !Z.eqb_refl, andb_false_r.
  cbn [negb]. unfold check_seqnum. run_chk. rewrite Hq, Z.eqb_refl. cbv zeta. cbn [negb]. rewrite bind_Ok.
  unfold continue_stream, extend_near. rewrite (clear_low_mod (cs_ext_rtptime cs)) by lia. change (2 ^ 32) with U32.
  rewrite (Z.mod_small (cs_ext_rtptime cs) U32), Z.sub_diag by lia. run_chk.
  destruct (Z.ltb_spec (rh_timestamp h + 0) (cs_ext_rtptime cs)); [lia|]. run_chk.
  change (2 ^ (32 - 1) - 1) with 2147483647. rewrite Z.gtb_ltb.
  destruct (Z.ltb_spec 2147483647 (rh_timestamp h + 0 - cs_ext_rtptime cs)); [|lia].
  unfold u64_sub, uint_sub. destruct (Z.leb_spec U32 (rh_timestamp h + 0)); [lia|done].
Qed.

(** A segment that is not in time format is refused, but a segment event
    that was pending stays pending without a segment; from then on the first
    new output caps make the element panic. *)
Lemma depay_other_segment_panics seqnum f w r w' caps :
  is_Some (d_sink_caps (bd_state w.2)) -> segment_event seqnum (OtherSegment f) w = Ok (r, w') ->
  d_pending_segment (bd_state w'.2) = true -> d_src_caps (bd_state w'.2) <> Some caps ->
  r = Failure FlowErr /\ base_set_src_caps caps w'.2 = Panic.
Proof.
  intros [sc Hsc] HK Hp Hcaps. unfold segment_event in HK. cbv zeta in HK. rewrite Hsc in HK. cbn [is_none] in HK.
  replace (same_segment _ _ _) with false in HK by (unfold same_segment; by destruct (d_segment _) as [[]|]).
  apply bind_ok in HK as ([d w1] & _ & HK). injection HK as <- <-. split; [done|]. cbn in Hp, Hcaps.
  unfold base_set_src_caps. cbn. rewrite bool_decide_eq_false_2 by congruence.
  unfold retrieve_pending_segment_event. cbn. by rewrite Hp.
Qed.
End Theorems.

(** Cutting header extensions undoes writing them: elements with valid ids
    and lengths, in the one- or two-byte form of RFC 8285, with any padding
    before each and at the end, are cut into exactly these elements. *)
Lemma header_extensions_roundtrip flags l tail :
  Forall (fun e => element_valid flags e.2) l ->
  let data := padded_bytes flags l ++ replicate tail 0 in
  extension_elements (length data) flags data = snd <$> l.
Proof. intros Hl. cbv zeta. by apply elements_spec. Qed.

(** ** Examples *)
#[local] Existing Instances gst_exact copying copying_uses copying_total.

#[local] Instance copying_metas : MetasOnly.
Proof. split; [by intros []|done]. Qed.

Definition u32_bytes (x : Z) : list Z := [x / 16777216 mod 256; x / 65536 mod 256; x / 256 mod 256; x mod 256].

(** A packet of payload type 96 and SSRC 7. *)
Definition plain_packet (seqnum timestamp : Z) (pts : option Z) (payload : list Z) : InBuffer :=
  mkInBuffer ([128; 96; seqnum / 256; seqnum mod 256] ++ u32_bytes timestamp ++ [0; 0; 0; 7] ++ payload)
    true false pts None [].

Definition video_caps : SinkCaps := mkSinkCaps "application/x-rtp" (Some 90000) None None None None None None None None [].
Definition other_caps : SinkCaps := mkSinkCaps "application/x-rtp" (Some 48000) None None None None None None None None [].
Definition open_segment : Segment := mkSegment f64_one f64_one (Some 0) (Some 0) None (Some 0) (Some 0) [].

Definition start_ops : list Op :=
  [OpStart; OpEvent (EvCaps video_caps); OpEvent (EvSegment 1 (TimeSegment open_segment))].

Definition run_or_new (ops : list Op) : unit * Base :=
  match res_fold depay_exec (tt, Base_new) ops with Ok w => w | Panic => (tt, Base_new) end.

Definition two_packets : list Op :=
  start_ops ++ [OpBuffer (plain_packet 10 1000 (Some 5) [1; 2]); OpBuffer (plain_packet 11 1000 (Some 5) [3])].

(** Everything left, in order. *)
Example two_packets_sent : bytes_of <$> sent (run_or_new two_packets).2 = [[1; 2]; [3]].
Proof. vm_compute. reflexivity. Qed.

Lemma two_packets_ops :
  Forall op_typed two_packets /\ Forall op_calm two_packets /\
  res_fold depay_exec (tt, Base_new) two_packets = Ok (run_or_new two_packets).
Proof.
  split; [|split; [|vm_compute; reflexivity]].
  - repeat constructor.
  - unfold two_packets, start_ops. cbn. repeat apply Forall_cons_2; [done|by left|done|..|by constructor];
      (split; [cbn; lia|by constructor]).
Qed.

Lemma depay_invariant_witness :
  exists cs, d_current_stream (bd_state (run_or_new two_packets).2) = Some cs /\ cs_ext_seqnum cs = 65547 /\
    pe_ext_seqnum <$> d_pending_packets (bd_state (run_or_new two_packets).2) = seqZ 65547 1.
Proof.
  destruct (depay_invariant (H4 := copying) tt two_packets (run_or_new two_packets)) as (_ & Hs & _);
    [apply two_packets_ops|apply two_packets_ops|].
  eexists. split; [vm_compute; reflexivity|]. split; [reflexivity|].
  destruct (Hs eq_refl _ ltac:(vm_compute; reflexivity)) as [Hn _]. exact Hn.
Defined.

Lemma depay_no_panic_witness :
  exists w', depay_exec (run_or_new two_packets)
    (OpBufferList [plain_packet 12 1001 None [4]; plain_packet 13 1001 None [5]]) = Ok w'.
Proof.
  apply (depay_no_panic (H4 := copying) (fun _ => True) tt two_packets).
  - exact I.
  - apply two_packets_ops.
  - apply two_packets_ops.
  - apply two_packets_ops.
  - repeat constructor.
  - split; [vm_compute; repeat split; discriminate|]. intros w' Hw. split; [|by intros].
    vm_compute in Hw. injection Hw as <-. vm_compute. repeat split; discriminate.
Defined.

(** Two packets, then a buffer out of band. *)
Definition spare_buffer : OutBuffer := mkOutBuffer (mkDepayBuffer [9] false false false) None None [] None.
Definition with_spare : Base :=
  match base_queue_buffer OutOfBand spare_buffer (run_or_new two_packets).2 with
  | Ok (_, b) => b
  | Panic => Base_new
  end.

Lemma depay_output_order_witness :
  bytes_of <$> (sent with_spare ++ (pb_buffer <$> waiting with_spare)) = [[1; 2]; [3]; [9]].
Proof.
  destruct (depay_output_order (H4 := copying) tt two_packets (run_or_new two_packets) [[9]] with_spare) as [Hb _].
  - apply two_packets_ops.
  - apply two_packets_ops.
  - eapply (cq_queue OutOfBand spare_buffer _ (Success tt) _ []); [vm_compute; reflexivity|apply cq_done].
  - rewrite Hb. vm_compute. reflexivity.
Defined.

Definition some_stream : CurrentStream := mkCurrentStream 7 96 65547 4294968296.
Definition some_header (seqnum : Z) : RtpHeader := mkRtpHeader seqnum 7 96 1000 false None 0 [] [] 12.

(** The packet after number 11, the same one again, and one after a gap. *)
Lemma depay_seqnum_cases_witness :
  (exists cs, follow_stream Settings_default false (some_header 12) (Some some_stream) = Ok (Some (Some cs, Some 65548))) /\
  follow_stream Settings_default false (some_header 11) (Some some_stream) = Ok None /\
  follow_stream Settings_default false (some_header 14) (Some some_stream) = Ok (Some (None, None)).
Proof.
  assert (Hr : stream_in_range (Some some_stream)) by (repeat split; discriminate).
  assert (Hc : forall q, is_u16 q -> is_u16 (rh_sequence_number (some_header q)) /\ is_u32 (rh_timestamp (some_header q)))
    by (intros q Hq; split; [exact Hq|by split]).
  assert (Hm : 0 <= set_max_reorder Settings_default <= 32767) by (by split).
  split; [|split].
  - destruct (depay_seqnum_cases Settings_default (some_header 12) some_stream) as [H1' _];
      [done|done|by apply Hc|by apply Hc|done|done|done|].
    destruct H1' as (cs & Hf & _); [vm_compute; reflexivity|]. by exists cs.
  - destruct (depay_seqnum_cases Settings_default (some_header 11) some_stream) as (_ & H2' & _);
      [done|done|by apply Hc|by apply Hc|done|done|done|].
    apply H2'. vm_compute. by split.
  - destruct (depay_seqnum_cases Settings_default (some_header 14) some_stream) as (_ & _ & H3');
      [done|done|by apply Hc|by apply Hc|done|done|done|].
    apply H3'. right. vm_compute. reflexivity.
Defined.

(** A second buffer of the packet that was last used has no timestamp. *)
Definition second_buffer : Base :=
  match base_queue_buffer (Seqnums (65547, 65547)) spare_buffer (run_or_new two_packets).2 with
  | Ok (_, b) => b
  | Panic => Base_new
  end.

Lemma depay_buffer_times_witness :
  exists buf', sent second_buffer ++ (pb_buffer <$> waiting second_buffer) = sent (run_or_new two_packets).2 ++ [buf'] /\
    ob_pts buf' = None.
Proof.
  destruct (depay_buffer_times (H4 := copying) tt two_packets (run_or_new two_packets) 65547 65547 spare_buffer second_buffer)
    as (buf' & Hs & Hp & _).
  - apply two_packets_ops.
  - apply two_packets_ops.
  - vm_compute. reflexivity.
  - exists buf'. split; [rewrite Hs; vm_compute; reflexivity|rewrite Hp; vm_compute; reflexivity].
Defined.

(** RTP times that go back twice by less than half a cycle, and then wrap. *)
Definition backward_times : list Op :=
  start_ops ++ [OpBuffer (plain_packet 10 10 None []); OpBuffer (plain_packet 11 4294967280 None []);
                OpBuffer (plain_packet 12 2147483649 None []); OpBuffer (plain_packet 13 16 None [])].

Lemma depay_time_underflow_witness :
  sink_chain (plain_packet 14 4294967295 None []) (run_or_new backward_times) = Panic.
Proof.
  eapply (depay_time_underflow (H4 := copying)).
  - vm_compute. by eexists.
  - vm_compute. by eexists.
  - reflexivity.
  - reflexivity.
  - vm_compute. reflexivity.
  - vm_compute. reflexivity.
  - reflexivity.
  - reflexivity.
  - by split.
  - reflexivity.
  - by split.
  - by split.
Defined.

(** A segment in bytes before any packet. *)
Definition byte_segment : unit * Base :=
  match segment_event 2 (OtherSegment 2) (run_or_new start_ops) with Ok (_, w) => w | Panic => (tt, Base_new) end.

Lemma depay_other_segment_panics_witness :
  segment_event 2 (OtherSegment 2) (run_or_new start_ops) = Ok (Failure FlowErr, byte_segment) /\
  base_set_src_caps (VideoCaps 0 640 480) byte_segment.2 = Panic.
Proof.
  assert (E : segment_event 2 (OtherSegment 2) (run_or_new start_ops) = Ok (Failure FlowErr, byte_segment))
    by (vm_compute; reflexivity).
  split; [exact E|].
  apply (depay_other_segment_panics (H4 := copying) 2 2 (run_or_new start_ops) (Failure FlowErr) byte_segment).
  - vm_compute. by eexists.
  - exact E.
  - vm_compute. reflexivity.
  - vm_compute. discriminate.
Defined.

Lemma header_extensions_roundtrip_witness :
  extension_elements 8 ONE_BYTE [0; 17; 10; 11; 0; 32; 12; 0] = [(1, [10; 11]); (2, [12])].
Proof.
  apply (header_extensions_roundtrip ONE_BYTE [(1%nat, (1, [10; 11])); (1%nat, (2, [12]))] 1).
  repeat apply Forall_cons_2; [cbn; lia|cbn; lia|by constructor].
Defined.

(** ** Behaviours that differ from what is documented *)

(** Dropping an unbounded range keeps the packets, and loses the buffers. *)
Lemma drop_unbounded (b : Base) :
  d_pending_packets (bd_state (base_drop_packets Unbounded b)) = d_pending_packets (bd_state b) /\
  waiting (base_drop_packets Unbounded b) = [].
Proof. done. Qed.

(** A second buffer that starts with the same packet gets its timestamp again
    when it ends with a later packet. *)
Definition two_pending : Base :=
  let packet n pts := mkPendingPacket n 0 7 [] false (plain_packet 10 0 (Some pts) []) in
  Base_new <| bd_state := State_default <| d_src_caps := Some TemplateCaps |>
                            <| d_pending_packets := [packet 65546 5; packet 65547 7] |> |>.

Example same_start_pts :
  (b1 ← base_queue_buffer (Seqnums (65546, 65546)) spare_buffer two_pending;
   b2 ← base_queue_buffer (Seqnums (65546, 65547)) spare_buffer b1.2;
   Ok (ob_pts <$> (pb_buffer <$> waiting b2.2)))
  = Ok [Some 5; Some 5].
Proof. vm_compute. reflexivity. Qed.
