(* ===== verification/BasePay.v ===== *)
(** * The base class of the payloaders

    [basepay/imp.rs] of the RTP plugin: input buffers are numbered and handed to
    the subclass, which queues packets made of ranges of buffers; the base class
    gives them sequence numbers, timestamps, sources and header extensions and
    pushes them. It also negotiates the output caps. *)

From Stdlib Require Import SpecFloat.
From S2P Require Import Prelude Queues F64 Flow RtpBase DepayMeta BaseDepay.

(** ** Data *)

Record PaySettings := mkPaySettings {
  ps_mtu : Z;
  ps_pt : Z;
  ps_pt_set : bool;
  ps_ssrc : option Z;
  ps_timestamp_offset : option Z;
  ps_seqnum_offset : option Z;
  ps_onvif_no_rate_control : bool;
  ps_scale_rtptime : bool;
  ps_source_info : bool;
  ps_auto_header_extensions : bool;
}.

#[export] Instance PaySettings_rebuild : Rebuild PaySettings := {|
  rebuild := fun r => mkPaySettings (ps_mtu r) (ps_pt r) (ps_pt_set r) (ps_ssrc r) (ps_timestamp_offset r)
    (ps_seqnum_offset r) (ps_onvif_no_rate_control r) (ps_scale_rtptime r) (ps_source_info r)
    (ps_auto_header_extensions r) |}.

Definition PaySettings_default : PaySettings :=
  mkPaySettings 1200 96 false None None None false true false true.

Record PayStream := mkPayStream {
  st_pt : Z;
  st_ssrc : Z;
  st_timestamp_offset : Z;
  st_seqnum_offset : Z;
  st_use_stream_time : bool;
  st_last_seqnum : Z;
  st_last_timestamp : Z;
}.

#[export] Instance PayStream_rebuild : Rebuild PayStream := {|
  rebuild := fun r => mkPayStream (st_pt r) (st_ssrc r) (st_timestamp_offset r) (st_seqnum_offset r)
    (st_use_stream_time r) (st_last_seqnum r) (st_last_timestamp r) |}.

Record PayStats := mkPayStats {
  ys_ssrc : Z;
  ys_pt : Z;
  ys_clock_rate : option Z;
  ys_running_time : option Z;
  ys_seqnum : Z;
  ys_timestamp : Z;
  ys_seqnum_offset : Z;
  ys_timestamp_offset : Z;
}.

#[export] Instance PayStats_rebuild : Rebuild PayStats := {|
  rebuild := fun r => mkPayStats (ys_ssrc r) (ys_pt r) (ys_clock_rate r) (ys_running_time r) (ys_seqnum r)
    (ys_timestamp r) (ys_seqnum_offset r) (ys_timestamp_offset r) |}.

Inductive PayTimestampOffset := PayOffsetPts (pts_diff : Z) | PayOffsetRtp (rtp_diff : Z).

(** Ranges of buffer ids, both ends included. *)
Inductive BufferRelation :=
| Ids (ids : Z * Z)
| IdsWithOffset (ids : Z * Z) (timestamp_offset : PayTimestampOffset)
| PayOutOfBand.

(** A packet on its way: a [gst::Buffer] made of its bytes. *)
Record PayOut := mkPayOut {
  po_bytes : list Z;
  po_marker : bool;
  po_discont : bool;
  po_pts : option Z;
  po_metas : list Meta;
}.

#[export] Instance PayOut_rebuild : Rebuild PayOut := {|
  rebuild := fun r => mkPayOut (po_bytes r) (po_marker r) (po_discont r) (po_pts r) (po_metas r) |}.

(** [rtp_types::RtpPacketBuilder]: the marker bit and the payload come from the
    subclass. *)
Record RtpBuilder := mkRtpBuilder {
  rb_marker_bit : bool;
  rb_payload : list Z;
  rb_payload_type : Z;
  rb_ssrc : Z;
  rb_sequence_number : Z;
  rb_timestamp : Z;
  rb_csrc : list Z;
  rb_extension : option (Z * list Z);
}.

#[export] Instance RtpBuilder_rebuild : Rebuild RtpBuilder := {|
  rebuild := fun r => mkRtpBuilder (rb_marker_bit r) (rb_payload r) (rb_payload_type r) (rb_ssrc r)
    (rb_sequence_number r) (rb_timestamp r) (rb_csrc r) (rb_extension r) |}.

Definition MIN_RTP_PACKET_LEN : Z := 12.

(** ** What the code uses of other crates *)

(** Stream time of the gstreamer crate. *)
Class StreamTime := { to_stream_time : Segment -> option Z -> option Z }.

(** Caps: those of the media that arrive; those of the output before they are
    fixed (their name, what peers make of them), which [fixate] fixes. *)
Class PayCaps := {
  MediaCaps : Type;
  MediaCaps_eq :: EqDecision MediaCaps;
  OpenCaps : Type;
  open_name : OpenCaps -> option string;
  open_is_empty : OpenCaps -> bool;
  open_fixate : OpenCaps -> option SinkCaps;
}.

(** Writing packets with rtp_types: a whole packet, the timestamp of one, the
    data of its extension. *)
Class RtpWriter := {
  RtpBuilder_write : RtpBuilder -> option (list Z);
  RtpPacketMut_set_timestamp : Z -> list Z -> option (list Z);
  RtpPacketMut_set_extension : list Z -> list Z -> list Z;
}.

(** An input buffer: what the base class reads of it (the sources of an
    [RTPSourceMeta], its other metas), and what the subclass reads. *)
Record InputBuffer (Content : Type) := mkInputBuffer {
  in_content : Content;
  in_pts : option Z;
  in_discont : bool;
  in_header : bool;
  in_source : option (option Z * list Z);
  in_metas : list Meta;
}.
Arguments mkInputBuffer {Content}.
Arguments in_content {Content}.
Arguments in_pts {Content}.
Arguments in_discont {Content}.
Arguments in_header {Content}.
Arguments in_source {Content}.
Arguments in_metas {Content}.

#[export] Instance InputBuffer_rebuild {C} : Rebuild (InputBuffer C) := {|
  rebuild := fun r => mkInputBuffer (in_content r) (in_pts r) (in_discont r) (in_header r) (in_source r) (in_metas r) |}.

(** What a subclass chooses: what it reads of a buffer, whether header buffers
    are dropped, its defaults, and the metas that are copied. *)
Class PayClass := {
  Content : Type;
  drop_header_buffers : bool;
  default_pt : Z;
  default_mtu : Z;
  pay_meta_transform : Meta -> PayOut -> option PayOut;
  pay_transform_meta : InputBuffer Content -> Meta -> PayOut -> PayOut;
}.

(** Header extensions that are written: which forms they support, their size at
    most, writing (the number of bytes, and the slice after it), the media they
    are for, and what they say in the caps. *)
Class ExtensionWriter `{HeaderExtensions} `{PayCaps} `{PayClass} := {
  ext_supported_one_byte : Ext -> bool;
  ext_supported_two_byte : Ext -> bool;
  ext_max_size : Ext -> InputBuffer Content -> Z;
  ext_write : Ext -> InputBuffer Content -> ExtFlags -> PayOut -> list Z -> option Z * list Z * Ext * PayOut;
  ext_set_non_rtp_sink_caps : MediaCaps -> Ext -> bool * Ext;
  ext_set_caps_from_attributes : Ext -> SinkCaps -> SinkCaps;
}.

(** [x as u64] *)
Definition f64_as_u64 (x : spec_float) : Z :=
  match x with
  | S754_finite false m e => Z.min (U64 - 1) (if 0 <=? e then Zpos m * 2 ^ e else Zpos m / 2 ^ (- e))
  | S754_infinity false => U64 - 1
  | _ => 0
  end.

Definition f64_is_zero (x : spec_float) : bool := match x with S754_zero _ => true | _ => false end.

Section Base.
Context `{Gst} `{GstTime} `{StreamTime} `{RtpTypes} `{RtpWriter} `{HeaderExtensions} `{PayCaps} `{PayClass}
  `{!ExtensionWriter}.

Abbreviation Input := (InputBuffer Content).

(** ** State *)
Record PayState := mkPayState {
  p_segment : option (Z * Segment);
  p_pending_segment : bool;
  p_sink_caps : option MediaCaps;
  p_src_caps : option OpenCaps;
  p_negotiated_src_caps : option SinkCaps;
  p_clock_rate : option Z;
  p_stream : option PayStream;
  p_discont_pending : bool;
  p_current_buffer_id : Z;
  p_last_used_buffer_id : Z;
  p_last_pts : option Z;
  p_last_pts_rtp_mapping : option (Z * Z);
  p_pending_buffers : list (Z * Input);
  p_pending_packets : list PayOut;
}.

#[export] Instance PayState_rebuild : Rebuild PayState := {|
  rebuild := fun r => mkPayState (p_segment r) (p_pending_segment r) (p_sink_caps r) (p_src_caps r)
    (p_negotiated_src_caps r) (p_clock_rate r) (p_stream r) (p_discont_pending r) (p_current_buffer_id r)
    (p_last_used_buffer_id r) (p_last_pts r) (p_last_pts_rtp_mapping r) (p_pending_buffers r)
    (p_pending_packets r) |}.

Definition PayState_default : PayState :=
  mkPayState None false None None None None None true 0 0 None None [] [].

(** What leaves on the source pad; a caps event without a segment gets a new
    sequence number, here [None]. *)
Inductive PayEvent :=
| PevCaps (caps : MediaCaps)
| PevSegment (seqnum : Z) (segment : AnySegment)
| PevEos
| PevFlushStop
| PevOther (kind : Z).

Inductive PayOutput :=
| PoCaps (caps : SinkCaps) (seqnum : option Z)
| PoSegment (seqnum : Z) (segment : Segment)
| PoPush (packet : PayOut)
| PoPushList (list : list PayOut)
| PoEvent (event : PayEvent).

(** What surrounds the element: the caps the peer answers a query with, the
    numbers the random generator gives next, and what the source pad answers to
    the next pushes ([None], and after the last answer, is success). *)
Record PayEnv := mkPayEnv {
  env_peer_caps : OpenCaps -> OpenCaps;
  env_random_ssrc : Z;
  env_random_timestamp : Z;
  env_random_seqnum : Z;
  env_downstream : list (option FlowError);
}.

#[export] Instance PayEnv_rebuild : Rebuild PayEnv := {|
  rebuild := fun r => mkPayEnv (env_peer_caps r) (env_random_ssrc r) (env_random_timestamp r)
    (env_random_seqnum r) (env_downstream r) |}.

(** The element without its subclass; [bp_reconfigure] is the flag of the
    source pad. *)
Record PayBase := mkPayBase {
  bp_state : PayState;
  bp_settings : PaySettings;
  bp_stats : option PayStats;
  bp_ssrc_collision : option Z;
  bp_extensions : gmap Z Ext;
  bp_reconfigure : bool;
  bp_env : PayEnv;
  bp_out : list PayOutput;
}.

#[export] Instance PayBase_rebuild : Rebuild PayBase := {|
  rebuild := fun r => mkPayBase (bp_state r) (bp_settings r) (bp_stats r) (bp_ssrc_collision r)
    (bp_extensions r) (bp_reconfigure r) (bp_env r) (bp_out r) |}.

Definition pay_out (o : PayOutput) (self : PayBase) : PayBase := self <| bp_out ::= fun l => l ++ [o] |>.

Definition pay_out_segment (o : option PayOutput) (self : PayBase) : PayBase :=
  match o with Some o => pay_out o self | None => self end.

Definition on_pay (f : PayState -> PayState) (self : PayBase) : PayBase := self <| bp_state ::= f |>.

(** ** Room for a payload *)

(** The form header extensions are written in, its pattern, and their size at
    most, rounded up to 4 bytes. Sizes are far from the limits of [usize]. *)
Definition calculate_extension_size (extensions : list (Z * Ext)) (buffer : Input) : option ExtFlags * Z * Z :=
  let '(one, two, size) :=
    fold_left (fun '(one, two, size) '(_, extension) =>
        let max_size := ext_max_size extension buffer in
        let id := ext_id extension in
        (one && ext_supported_one_byte extension && negb ((max_size >? 16) || (id >? 14)),
         two && ext_supported_two_byte extension && negb ((max_size >? 255) || (id >? 255)),
         size + max_size))
      extensions (true, true, 0) in
  let n := Z.of_nat (length extensions) in
  let round_up x := (x + 3) / 4 * 4 in
  if one : bool then (Some ONE_BYTE, 48862, round_up (size + n))
  else if two : bool then (Some TWO_BYTE, 4096, round_up (size + 2 * n))
  else (None, 0, 0).

Definition pay_max_payload_size (self : PayBase) : Z :=
  let size := saturating_sub (ps_mtu (bp_settings self)) MIN_RTP_PACKET_LEN in
  let size := if ps_source_info (bp_settings self) then saturating_sub size (Z.of_nat MAX_N_CSRCS * 4) else size in
  match p_pending_buffers (bp_state self) with
  | (_, buffer) :: _ =>
      let '(_, _, extension_size) := calculate_extension_size (by_id (bp_extensions self)) buffer in
      if extension_size >? 0 then saturating_sub size (wrap U32 extension_size + 4) else size
  | [] => size
  end.

(** ** What a subclass calls *)

Definition drop_buffers_to (e : Z) (state : PayState) : PayState :=
  match last (p_pending_buffers state) with
  | None => state
  | Some back =>
      if fst back <=? e then state <| p_pending_buffers := [] |>
      else state <| p_pending_buffers ::= skip_while (fun b => fst b <=? e) |>
  end.

Definition pay_drop_buffers (end_bound : Bound) (self : PayBase) : PayBase :=
  on_pay (fun state =>
    match end_bound with
    | Included e => drop_buffers_to e state
    | Excluded e => if e =? 0 then state else drop_buffers_to (e - 1) state
    | Unbounded => state <| p_pending_buffers := [] |>
    end) self.

Definition pay_next_seqnum (self : PayBase) : Z :=
  match p_stream (bp_state self) with
  | None => 0
  | Some stream => wrap U16 (st_last_seqnum stream + 1)
  end.

(** *** The time of a packet *)

(** The PTS clipped to the segment. *)
Definition clip_pts (segment : Segment) (pts : Z) : res Z :=
  start ← unwrap (sg_start segment);
  Ok (if pts <=? start then start
      else match sg_stop segment with
           | Some stop => if pts >=? stop then stop else pts
           | None => pts
           end).

Definition rtptime_base (use_stream_time : bool) (segment : Segment) (pts : Z) : res Z :=
  if use_stream_time then unwrap (to_stream_time segment (Some pts))
  else unwrap (to_running_time segment (Some pts)).

Definition to_rtptime (clock_rate base : Z) : res Z :=
  t ← unwrap (mul_div_ceil U64 base clock_rate NS_PER_SEC);
  Ok (wrap U32 (Z.land t 4294967295)).

(** The PTS and RTP time of a packet whose first buffer has [pts], and the new
    mapping between them; [None] when an offset has no mapping to refer to. *)
Definition packet_time (state : PayState) (segment : Segment) (use_stream_time : bool) (clock_rate pts : Z)
    (timestamp_offset : option PayTimestampOffset) : res (option (Z * Z * option (Z * Z))) :=
  base ← rtptime_base use_stream_time segment pts;
  match timestamp_offset with
  | Some (PayOffsetPts pts_diff) =>
      packet_pts ← clock_add pts pts_diff;
      let packet_pts := match sg_stop segment with
                        | Some stop => if packet_pts >? stop then stop else packet_pts
                        | None => packet_pts
                        end in
      base ← rtptime_base use_stream_time segment packet_pts;
      packet_rtptime ← to_rtptime clock_rate base;
      Ok (Some (packet_pts, packet_rtptime, Some (packet_pts, packet_rtptime)))
  | Some (PayOffsetRtp rtp_diff) =>
      match p_last_pts_rtp_mapping state with
      | None => Ok None
      | Some (base_pts, base_rtptime) =>
          ns ← unwrap (mul_div_ceil U64 rtp_diff NS_PER_SEC clock_rate);
          packet_pts ← clock_add base_pts ns;
          let rate := if use_stream_time then sg_applied_rate segment else f64_div f64_one (sg_rate segment) in
          let rtp_diff := if negb (f64_is_zero rate) then f64_as_u64 (f64_mul (f64_of_u64 rtp_diff) rate)
                          else rtp_diff in
          Ok (Some (packet_pts, wrap U32 (base_rtptime + wrap U32 (Z.land rtp_diff 4294967295)),
                    p_last_pts_rtp_mapping state))
      end
  | None =>
      packet_rtptime ← to_rtptime clock_rate base;
      Ok (Some (pts, packet_rtptime, Some (pts, packet_rtptime)))
  end.

(** *** Packets that waited for a time *)
Definition set_discont (discont : bool) (packet : PayOut) : PayOut :=
  if discont then packet <| po_discont := true |> else packet.

Fixpoint stamp_waiting (pts : option Z) (rtptime : Z) (discont_pending : bool) (l : list PayOut)
  : res (list PayOut * bool) :=
  match l with
  | [] => Ok ([], discont_pending)
  | packet :: l =>
      _ ← assert_ (is_none (po_pts packet));
      bytes ← unwrap (RtpPacketMut_set_timestamp rtptime (po_bytes packet));
      '(l, discont_pending') ← stamp_waiting pts rtptime false l;
      Ok (set_discont discont_pending (packet <| po_pts := pts |> <| po_bytes := bytes |>) :: l, discont_pending')
  end.

Definition stamp_pending (pts : option Z) (rtptime : Z) (discont_pending : bool) (l : list PayOut)
  : res (list PayOut * bool) :=
  let timed packet := is_some (po_pts packet) in
  '(waiting, discont_pending) ← stamp_waiting pts rtptime discont_pending (skip_while timed l);
  Ok (take_while timed l ++ waiting, discont_pending).

(** *** Sources, metas and header extensions *)

(** The sources of a buffer, listed once as far as there is room. *)
Definition buffer_sources (csrc : list Z) (buffer : Z * Input) : list Z :=
  if (length csrc <? MAX_N_CSRCS)%nat then
    match in_source (snd buffer) with
    | Some (ssrc, sources) =>
        fold_left add_csrc sources (match ssrc with Some ssrc => add_csrc csrc ssrc | None => csrc end)
    | None => csrc
    end
  else csrc.

Definition pay_copy_metas (buffer : Z * Input) (packet : PayOut) : PayOut :=
  fold_left (fun packet meta => if me_memory meta then packet else pay_transform_meta (snd buffer) meta packet)
    (in_metas (snd buffer)) packet.

(** [transform_meta_default], for a subclass that allows these tags. *)
Definition pay_transform_meta_default (allowed_meta_tags : list string) (in_buf : Input) (meta : Meta)
    (out_buf : PayOut) : PayOut :=
  let copy := match pay_meta_transform meta out_buf with Some out_buf => out_buf | None => out_buf end in
  match me_tags meta with
  | [] => copy
  | [meta_tag] => if bool_decide (meta_tag ∈ allowed_meta_tags) then copy else out_buf
  | _ => out_buf
  end.

(** The bytes before the data of an element. *)
Definition element_header (flags : ExtFlags) (id written : Z) : res (list Z) :=
  match flags with
  | ONE_BYTE => _ ← assert_ (written <=? 16); Ok [Z.lor (wrap U8 (Z.shiftl id 4)) (written - 1)]
  | TWO_BYTE => _ ← assert_ (written <=? 255); Ok [id; written]
  end.

(** The extensions in turn write their elements to [data], the rest of the
    extension of the packet. *)
Fixpoint write_elements (flags : ExtFlags) (input : Input) (extensions : list (Z * Ext)) (all : gmap Z Ext)
    (packet : PayOut) (data : list Z) : res (list Z * gmap Z Ext * PayOut) :=
  match extensions with
  | [] => Ok (data, all, packet)
  | (id, extension) :: extensions =>
      let offset := match flags with ONE_BYTE => 1%nat | TWO_BYTE => 2%nat end in
      if (length data <? offset)%nat then Ok (data, all, packet)
      else
        let '(written, slice, extension, packet) := ext_write extension input flags packet (drop offset data) in
        let all := <[id := extension]> all in
        match written with
        | None | Some 0 => write_elements flags input extensions all packet (take offset data ++ slice)
        | Some written =>
            header ← element_header flags id written;
            let element := header ++ take (Z.to_nat written) slice in
            _ ← assert_ (written <=? Z.of_nat (length slice));
            '(rest, all, packet) ← write_elements flags input extensions all packet (drop (Z.to_nat written) slice);
            Ok (element ++ rest, all, packet)
        end
  end.

Definition write_extensions (flags : option ExtFlags) (input : Input) (self : PayBase) (packet : PayOut)
  : res (PayBase * PayOut) :=
  match flags with
  | None => Ok (self, packet)
  | Some flags =>
      header ← unwrap (RtpPacket_parse (po_bytes packet));
      '(_, data) ← unwrap (rh_extension header);
      '(data, extensions, packet) ←
        write_elements flags input (by_id (bp_extensions self)) (bp_extensions self) packet data;
      Ok (self <| bp_extensions := extensions |>,
          packet <| po_bytes := RtpPacketMut_set_extension data (po_bytes packet) |>)
  end.

(** *** Queueing *)
Definition write_packet (packet : RtpBuilder) (pts : option Z) : res (option PayOut) :=
  match RtpBuilder_write packet with
  | None => Ok None
  | Some bytes =>
      header ← unwrap (RtpPacket_parse bytes);
      Ok (Some (mkPayOut bytes (rh_marker_bit header) false pts []))
  end.

Definition queue_out_of_band (packet : RtpBuilder) (self : PayBase) : res (result unit * PayBase) :=
  written ← write_packet packet None;
  match written with
  | None => Ok (Failure FlowErr, self)
  | Some buffer =>
      let discont := p_discont_pending (bp_state self) in
      Ok (Success tt, on_pay (fun state =>
            state <| p_discont_pending := false |>
                  <| p_pending_packets ::= fun l => l ++ [set_discont discont buffer] |>) self)
  end.

(** The DISCONT flag is due, from before or from a buffer not used so far. *)
Definition discont_due (state : PayState) (id_end : Z) : bool :=
  p_discont_pending state
  || ((p_last_used_buffer_id state <? id_end)
      && existsb (fun b => in_discont (snd b))
           (take_while (fun b => fst b <=? id_end)
              (skip_while (fun b => fst b <=? p_last_used_buffer_id state) (p_pending_buffers state)))).

(** Timestamp, sources and room for header extensions, which are written in the
    form returned, if at all. *)
Definition complete_packet (self : PayBase) (buffers : list (Z * Input)) (input : Input) (packet_rtptime : Z)
    (packet : RtpBuilder) : RtpBuilder * option ExtFlags :=
  let packet := packet <| rb_timestamp := packet_rtptime |> in
  let packet := if ps_source_info (bp_settings self)
                then packet <| rb_csrc ::= fun l => l ++ fold_left buffer_sources buffers [] |> else packet in
  let '(flags, pattern, extension_size) := calculate_extension_size (by_id (bp_extensions self)) input in
  if negb (extension_size =? 0) && negb (pattern =? 0)
  then (packet <| rb_extension := Some (pattern, replicate (Z.to_nat extension_size) 0) |>, flags)
  else (packet, None).

(** The packet of the pending buffers up to [id_end], once its time is known. *)
Definition queue_timed (id_end : Z) (segment : Segment) (pts packet_pts packet_rtptime : Z) (packet : RtpBuilder)
    (self : PayBase) : res (result unit * PayBase) :=
  let state := bp_state self in
  let discont_pending := discont_due state id_end in
  stream ← unwrap (p_stream state);
  let packet_rtptime := wrap U32 (st_timestamp_offset stream + packet_rtptime) in
  '(pending_packets, discont_pending) ←
    stamp_pending (Some pts) packet_rtptime discont_pending (p_pending_packets state);
  let self := on_pay (fun state => state <| p_discont_pending := false |>
                                         <| p_pending_packets := pending_packets |>) self in
  let buffers := take_while (fun b => fst b <=? id_end) (p_pending_buffers state) in
  input ← unwrap (head buffers);
  let '(packet, flags) := complete_packet self buffers (snd input) packet_rtptime packet in
  written ← write_packet packet (Some packet_pts);
  match written with
  | None => Ok (Failure FlowErr, self)
  | Some buffer =>
      let buffer := fold_left (fun buffer b => pay_copy_metas b buffer) buffers (set_discont discont_pending buffer) in
      '(self, buffer) ← write_extensions flags (snd input) self buffer;
      let self := on_pay (fun state =>
        state <| p_pending_packets ::= fun l => l ++ [buffer] |> <| p_last_used_buffer_id := id_end |>
              <| p_stream := Some (stream <| st_last_timestamp := packet_rtptime |>) |>
              <| p_last_pts := Some pts |>) self in
      Ok (Success tt, self <| bp_stats ::= fmap (fun stats : PayStats =>
        stats <| ys_running_time := to_running_time segment (Some packet_pts) |>
              <| ys_seqnum := st_last_seqnum stream |> <| ys_timestamp := packet_rtptime |>) |>)
  end.

Definition queue_for_ids (ids : Z * Z) (timestamp_offset : option PayTimestampOffset) (packet : RtpBuilder)
    (self : PayBase) : res (result unit * PayBase) :=
  let '(id_start, id_end) := ids in
  if id_start >? id_end then Ok (Failure FlowErr, self)
  else
    let self := on_pay (fun state => state <| p_pending_buffers ::= skip_while (fun b => fst b <? id_start) |>) self in
    let state := bp_state self in
    match head (p_pending_buffers state), last (p_pending_buffers state) with
    | Some front, Some back =>
        if id_end >? fst back then Ok (Failure FlowErr, self)
        else
          clock_rate ← unwrap (p_clock_rate state);
          '(_, segment) ← unwrap (p_segment state);
          pts ← unwrap (in_pts (snd front));
          pts ← clip_pts segment pts;
          stream ← unwrap (p_stream state);
          time ← packet_time state segment (st_use_stream_time stream) clock_rate pts timestamp_offset;
          match time with
          | None => Ok (Failure FlowErr, self)
          | Some (packet_pts, packet_rtptime, mapping) =>
              queue_timed id_end segment pts packet_pts packet_rtptime packet
                (on_pay (fun state => state <| p_last_pts_rtp_mapping := mapping |>) self)
          end
    | _, _ => Ok (Failure FlowErr, self)
    end.

Definition pay_queue_packet (packet_to_buffer_relation : BufferRelation) (packet : RtpBuilder) (self : PayBase)
  : res (result unit * PayBase) :=
  match p_negotiated_src_caps (bp_state self) with
  | None => Ok (Failure NotNegotiated, self)
  | Some _ =>
      stream ← unwrap (p_stream (bp_state self));
      let seqnum := wrap U16 (st_last_seqnum stream + 1) in
      let stream := stream <| st_last_seqnum := seqnum |> in
      let self := on_pay (fun state => state <| p_stream := Some stream |>) self in
      let packet := packet <| rb_payload_type := st_pt stream |> <| rb_ssrc := st_ssrc stream |>
                           <| rb_sequence_number := seqnum |> in
      match packet_to_buffer_relation with
      | PayOutOfBand => queue_out_of_band packet self
      | Ids ids => queue_for_ids ids None packet self
      | IdsWithOffset ids timestamp_offset => queue_for_ids ids (Some timestamp_offset) packet self
      end
  end.

(** *** Pushing *)
Definition pay_retrieve_segment_event (state : PayState) : res (option PayOutput * PayState) :=
  if negb (p_pending_segment state) then Ok (None, state)
  else match p_negotiated_src_caps state with
  | None => Ok (None, state)
  | Some _ =>
      '(seqnum, segment) ← unwrap (p_segment state);
      Ok (Some (PoSegment seqnum segment), state <| p_pending_segment := false |>)
  end.

(** The answer of the source pad to a push. *)
Definition pad_answer (self : PayBase) : result unit * PayBase :=
  match env_downstream (bp_env self) with
  | [] => (Success tt, self)
  | answer :: answers =>
      (match answer with None => Success tt | Some err => Failure err end,
       self <| bp_env ::= modify env_downstream (fun _ => answers) |>)
  end.

(** Every round pops a packet, so one round more than there are packets is fuel
    enough. *)
Fixpoint pay_finish_loop (fuel : nat) (self : PayBase) : res (result unit * PayBase) :=
  let pending := p_pending_packets (bp_state self) in
  if negb (existsb (fun p => is_some (po_pts p)) pending) then Ok (Success tt, self)
  else match fuel with
  | O => Panic
  | S fuel =>
      front ← unwrap (head pending);
      pts ← unwrap (po_pts front);
      let same p := bool_decide (po_pts p = Some pts) in
      let num_buffers := length (take_while same pending) in
      _ ← assert_ (negb (num_buffers =? 0)%nat);
      '(segment_event, state) ← pay_retrieve_segment_event (bp_state self);
      let '(packets, pending) :=
        if (num_buffers =? 1)%nat then (PoPush front, tail pending)
        else (PoPushList (take_while same pending), skip_while same pending) in
      let '(answer, self) :=
        pad_answer (pay_out packets (pay_out_segment segment_event
                      (self <| bp_state := state <| p_pending_packets := pending |> |>))) in
      match answer with
      | Failure err => Ok (Failure err, self)
      | Success _ => pay_finish_loop fuel self
      end
  end.

Definition finish_pending_packets (self : PayBase) : res (result unit * PayBase) :=
  if is_none (p_segment (bp_state self)) then Ok (Success tt, self)
  else pay_finish_loop (S (length (p_pending_packets (bp_state self)))) self.
End Base.

(** ** The element with its subclass

    The virtual methods, over the state of the subclass and the base class:
    first those that draining calls, then negotiation, which may drain, then the
    rest, which may set the output caps and so negotiate. *)
Section Drain.
Context `{Gst} `{GstTime} `{StreamTime} `{RtpTypes} `{RtpWriter} `{HeaderExtensions} `{PayCaps} `{PayClass}
  `{!ExtensionWriter}.

Class PayDrain := {
  PaySub : Type;
  psub_drain : PaySub * PayBase -> res (result unit * (PaySub * PayBase));
  psub_flush : PaySub * PayBase -> res (PaySub * PayBase);
}.

Context `{PayDrain}.
Abbreviation W := (PaySub * PayBase)%type.

Definition pay_flush (self : W) : res W :=
  self ← psub_flush self;
  Ok (self.1, on_pay (fun state => state <| p_pending_buffers := [] |> <| p_pending_packets := [] |>
                                         <| p_last_pts_rtp_mapping := None |> <| p_discont_pending := true |>) self.2).

(** Packets that still wait for a time get the last one there was. *)
Definition pay_forward_pending (self : PayBase) : res (result unit * PayBase) :=
  let state := (bp_state self) <| p_pending_buffers := [] |> in
  state ←
    (if negb (bool_decide (length (p_pending_packets state) = 0%nat)) then
       stream ← unwrap (p_stream state);
       '(pending_packets, _) ← stamp_pending (p_last_pts state) (st_last_timestamp stream)
                                 (p_discont_pending state) (p_pending_packets state);
       Ok (state <| p_discont_pending := false |> <| p_pending_packets := pending_packets |>)
     else Ok state);
  finish_pending_packets (self <| bp_state := state |>).

Definition pay_drain (self : W) : res (result unit * W) :=
  '(drained, self) ← psub_drain self;
  match drained with
  | Failure err => self ← pay_flush self; Ok (Failure err, self)
  | Success _ =>
      '(forwarded, base) ← pay_forward_pending self.2;
      self ← pay_flush (self.1, base);
      Ok (forwarded, self)
  end.

(** ** Negotiation *)

(** The extensions that do not take the caps of the media go. *)
Definition keep_for_media (sink_caps : MediaCaps) (extensions : gmap Z Ext) (entry : Z * Ext) : gmap Z Ext :=
  let '(id, ext) := entry in
  let '(configured, ext) := ext_set_non_rtp_sink_caps sink_caps ext in
  if configured : bool then <[id := ext]> extensions else delete id extensions.

(** The extensions for these caps, and what they say in them; [None] when the
    caps are malformed. *)
Definition negotiate_header_extensions (settings : PaySettings) (state : PayState) (extensions : gmap Z Ext)
    (src_caps : SinkCaps) : res (option (gmap Z Ext * SinkCaps)) :=
  match caps_extensions (sk_fields src_caps) ∅ with
  | None => Ok None
  | Some wanted =>
      let extensions :=
        fold_left (update_extension (ps_auto_header_extensions settings) src_caps) (by_id wanted) extensions in
      sink_caps ← unwrap (p_sink_caps state);
      let extensions := fold_left (keep_for_media sink_caps) (by_id extensions) extensions in
      Ok (Some (extensions, fold_left (fun caps entry => ext_set_caps_from_attributes (snd entry) caps)
                              (by_id extensions) src_caps))
  end.

Definition or_else {A} (a b : option A) : option A := match a with Some a => Some a | None => b end.

(** The payload type of the caps, if it is positive. *)
Definition caps_pt (src_caps : SinkCaps) : option Z :=
  pt ← sk_payload src_caps;
  if pt >? 0 then Some (wrap U8 pt) else None.

Definition new_stream (settings : PaySettings) (env : PayEnv) (ssrc_collision : option Z) (src_caps : SinkCaps)
  : PayStream :=
  let timestamp_offset := default (env_random_timestamp env) (ps_timestamp_offset settings) in
  let seqnum_offset := default (env_random_seqnum env) (ps_seqnum_offset settings) in
  mkPayStream
    (if ps_pt_set settings then ps_pt settings else default (ps_pt settings) (caps_pt src_caps))
    (default (env_random_ssrc env) (or_else ssrc_collision (or_else (ps_ssrc settings) (sk_ssrc src_caps))))
    timestamp_offset seqnum_offset
    (ps_onvif_no_rate_control settings || negb (ps_scale_rtptime settings))
    (wrap U16 (seqnum_offset - 1)) timestamp_offset.

(** The stream is set up, or gets another SSRC after a collision. *)
Definition configure_stream (ssrc_collision : option Z) (src_caps : SinkCaps) (self : PayBase) : res PayBase :=
  match p_stream (bp_state self) with
  | None =>
      let stream := new_stream (bp_settings self) (bp_env self) ssrc_collision src_caps in
      Ok ((on_pay (fun state => state <| p_stream := Some stream |>) self)
            <| bp_stats := Some (mkPayStats (st_ssrc stream) (st_pt stream) None None (st_seqnum_offset stream)
                                   (st_timestamp_offset stream) (st_seqnum_offset stream)
                                   (st_timestamp_offset stream)) |>)
  | Some stream =>
      match ssrc_collision with
      | None => Ok self
      | Some ssrc =>
          stats ← unwrap (bp_stats self);
          Ok ((on_pay (fun state => state <| p_stream := Some (stream <| st_ssrc := ssrc |>) |>) self)
                <| bp_stats := Some (stats <| ys_ssrc := ssrc |>) |>)
      end
  end.

(** New caps are remembered and go out, after a drain if the clock rate or the
    SSRC has changed. *)
Definition announce_caps (ssrc_collision : option Z) (clock_rate : Z) (src_caps : SinkCaps) (self : W) : res W :=
  let state := bp_state self.2 in
  let clock_rate_changed := match p_clock_rate state with Some old => negb (old =? clock_rate) | None => false end in
  let state := state <| p_negotiated_src_caps := Some src_caps |> <| p_clock_rate := Some clock_rate |> in
  stats ← unwrap (bp_stats self.2);
  let seqnum := match p_segment state with Some (seqnum, _) => Some seqnum | None => None end in
  '(segment_event, state) ← pay_retrieve_segment_event state;
  let self := (self.1, self.2 <| bp_state := state |> <| bp_stats := Some (stats <| ys_clock_rate := Some clock_rate |>) |>) in
  if clock_rate_changed || is_some ssrc_collision then
    '(_, self) ← pay_drain (self.1, pay_out_segment segment_event self.2);
    Ok (self.1, pay_out (PoCaps src_caps seqnum) self.2)
  else Ok (self.1, pay_out_segment segment_event (pay_out (PoCaps src_caps seqnum) self.2)).

Definition negotiate_default (src_caps : OpenCaps) (self : W) : res W :=
  src_caps ← unwrap (open_fixate src_caps);
  _ ← assert_ (String.eqb (sk_name src_caps) "application/x-rtp");
  clock_rate ← unwrap (sk_clock_rate src_caps);
  _ ← assert_ (clock_rate >? 0);
  extended ← negotiate_header_extensions (bp_settings self.2) (bp_state self.2) (bp_extensions self.2) src_caps;
  match extended with
  | None => Ok (self.1, on_pay (fun state => state <| p_negotiated_src_caps := None |>) self.2)
  | Some (extensions, negotiated) =>
      let ssrc_collision := bp_ssrc_collision self.2 in
      base ← configure_stream ssrc_collision src_caps
               (self.2 <| bp_extensions := extensions |> <| bp_ssrc_collision := None |>);
      stream ← unwrap (p_stream (bp_state base));
      let negotiated := negotiated <| sk_ssrc := Some (st_ssrc stream) |> <| sk_payload := Some (st_pt stream) |> in
      if bool_decide (p_negotiated_src_caps (bp_state base) = Some negotiated) then Ok (self.1, base)
      else announce_caps ssrc_collision (wrap U32 clock_rate) negotiated (self.1, base)
  end.
End Drain.

Section Negotiate.
Context `{Gst} `{GstTime} `{StreamTime} `{RtpTypes} `{RtpWriter} `{HeaderExtensions} `{PayCaps} `{PayClass}
  `{!ExtensionWriter} `{!PayDrain}.

Class PayNegotiate := {
  psub_negotiate : OpenCaps -> PaySub * PayBase -> res (PaySub * PayBase);
}.

Context `{!PayNegotiate}.
Abbreviation W := (PaySub * PayBase)%type.

Definition negotiate (self : W) : res W :=
  match p_src_caps (bp_state self.2) with
  | None => Ok (self.1, self.2 <| bp_reconfigure := true |>)
  | Some src_caps =>
      let peer_caps := env_peer_caps (bp_env self.2) src_caps in
      psub_negotiate (if negb (open_is_empty peer_caps) then peer_caps else src_caps)
        (self.1, self.2 <| bp_reconfigure := false |>)
  end.

Definition pay_set_src_caps (src_caps : OpenCaps) (self : W) : res W :=
  name ← unwrap (open_name src_caps);
  _ ← assert_ (String.eqb name "application/x-rtp");
  negotiate (self.1, on_pay (fun state => state <| p_src_caps := Some src_caps |>) self.2).

Class PaySubclass := {
  psub_handle_buffer : InputBuffer Content -> Z -> PaySub * PayBase -> res (result unit * (PaySub * PayBase));
  psub_set_sink_caps : MediaCaps -> PaySub * PayBase -> res (bool * (PaySub * PayBase));
  psub_start : PaySub * PayBase -> res (bool * (PaySub * PayBase));
  psub_stop : PaySub * PayBase -> res (bool * (PaySub * PayBase));
}.

Context `{!PaySubclass}.

(** ** A buffer *)

(** Buffers that packets were made of are dropped, except for the last. *)
Definition pay_drop_used (state : PayState) : PayState :=
  state <| p_pending_buffers ::= skip_while (fun b => fst b <? p_last_used_buffer_id state) |>.

(** The subclass gets the buffer, and what it made of it is pushed. *)
Definition deliver_buffer (buffer : InputBuffer Content) (id : Z) (self : W) : res (result unit * W) :=
  '(handled, self) ← psub_handle_buffer buffer id self;
  '(handled, self) ←
    match handled with
    | Failure err => Ok (Failure err, self)
    | Success _ => '(finished, base) ← finish_pending_packets self.2; Ok (finished, (self.1, base))
    end;
  Ok (handled, (self.1, on_pay pay_drop_used self.2)).

Definition pay_handle_buffer (buffer : InputBuffer Content) (self : W) : res (result unit * W) :=
  self ← (if bp_reconfigure self.2 then negotiate (self.1, self.2 <| bp_reconfigure := false |>) else Ok self);
  let state := bp_state self.2 in
  if is_none (p_sink_caps state) then Ok (Failure NotNegotiated, self)
  else if is_none (p_segment state) then Ok (Failure FlowErr, self)
  else if in_header buffer && drop_header_buffers then Ok (Success tt, self)
  else match or_else (in_pts buffer) (p_last_pts state) with
  | None => Ok (Failure FlowErr, self)
  | Some pts =>
      let buffer := buffer <| in_pts := Some pts |> in
      let id := p_current_buffer_id state in
      next ← u64_add id 1;
      deliver_buffer buffer id
        (self.1, on_pay (fun state => state <| p_current_buffer_id := next |>
                                            <| p_pending_buffers ::= fun l => l ++ [(id, buffer)] |>) self.2)
  end.

(** [for buffer in list { self.handle_buffer(..)?; }] *)
Fixpoint pay_handle_list (list : list (InputBuffer Content)) (self : W) : res (result unit * W) :=
  match list with
  | [] => Ok (Success tt, self)
  | buffer :: list =>
      '(handled, self) ← pay_handle_buffer buffer self;
      match handled with
      | Failure e => Ok (Failure e, self)
      | Success _ => pay_handle_list list self
      end
  end.

(** ** Caps and events *)
Definition pay_set_sink_caps (caps : MediaCaps) (self : W) : res (result unit * W) :=
  let same_caps := bool_decide (p_sink_caps (bp_state self.2) = Some caps) in
  let self := (self.1, on_pay (fun state => state <| p_sink_caps := Some caps |>) self.2) in
  if same_caps then Ok (Success tt, self)
  else
    '(accepted, self) ← psub_set_sink_caps caps self;
    if accepted : bool then Ok (Success tt, self)
    else Ok (Failure NotNegotiated, (self.1, on_pay (fun state => state <| p_sink_caps := None |>) self.2)).

Definition pay_forward_event (event : PayEvent) (self : W) : W := (self.1, pay_out (PoEvent event) self.2).

Definition pay_same_segment (state : PayState) (seqnum : Z) (segment : AnySegment) : bool :=
  match p_segment state, segment with
  | Some (old_seqnum, old_segment), TimeSegment s => (seqnum =? old_seqnum) && segment_eq s old_segment
  | _, _ => false
  end.

(** A segment before the output caps is kept back. *)
Definition pay_segment_event (seqnum : Z) (segment : AnySegment) (self : W) : res (result unit * W) :=
  let state := bp_state self.2 in
  if is_none (p_sink_caps state) then Ok (Failure NotNegotiated, self)
  else if pay_same_segment state seqnum segment then
    Ok (Success tt, pay_forward_event (PevSegment seqnum segment) self)
  else
    '(_, self) ← (if is_some (p_segment state) then pay_drain self else Ok (Success tt, self));
    match segment with
    | TimeSegment s =>
        let self := (self.1, on_pay (fun state => state <| p_segment := Some (seqnum, s) |>) self.2) in
        if is_none (p_negotiated_src_caps (bp_state self.2)) then
          Ok (Success tt, (self.1, on_pay (fun state => state <| p_pending_segment := true |>) self.2))
        else Ok (Success tt, pay_forward_event (PevSegment seqnum segment) self)
    | OtherSegment _ => Ok (Failure FlowErr, (self.1, on_pay (fun state => state <| p_segment := None |>) self.2))
    end.

Definition pay_flush_stop (self : W) : res W :=
  self ← pay_flush self;
  Ok (self.1, on_pay (fun state => state <| p_segment := None |> <| p_pending_segment := false |>
                                         <| p_last_pts := None |>) self.2).

Definition pay_sink_event_default (event : PayEvent) (self : W) : res (result unit * W) :=
  match event with
  | PevCaps caps => pay_set_sink_caps caps self
  | PevSegment seqnum segment => pay_segment_event seqnum segment self
  | PevEos => '(_, self) ← pay_drain self; Ok (Success tt, pay_forward_event event self)
  | PevFlushStop => self ← pay_flush_stop self; Ok (Success tt, pay_forward_event event self)
  | PevOther _ => Ok (Success tt, pay_forward_event event self)
  end.

(** The first number drawn that is not [ssrc]: [loop { .. }]. *)
Fixpoint draw_other (ssrc : Z) (draws : list Z) : option Z :=
  match draws with
  | [] => None
  | new_ssrc :: draws => if negb (new_ssrc =? ssrc) then Some new_ssrc else draw_other ssrc draws
  end.

(** A collision of SSRCs reported by a peer, with the one it suggests; [draws]
    are random numbers. [None] while all of them were the old SSRC. *)
Definition handle_ssrc_collision_event (ssrc suggested_ssrc : option Z) (draws : list Z) (self : PayBase)
  : option PayBase :=
  match ssrc, bp_stats self with
  | Some ssrc, Some stats =>
      if negb (ys_ssrc stats =? ssrc) then Some self
      else
        new_ssrc ← match suggested_ssrc with
                   | Some suggested => if negb (suggested =? ys_ssrc stats) then Some suggested
                                       else draw_other (ys_ssrc stats) draws
                   | None => draw_other (ys_ssrc stats) draws
                   end;
        Some (self <| bp_ssrc_collision := Some new_ssrc |>)
  | _, _ => Some self
  end.

(** ** Starting and stopping; [false] when the subclass refuses *)
Definition pay_reset_state (self : W) : W :=
  (self.1, self.2 <| bp_state := PayState_default |> <| bp_stats := None |>).

Definition pay_ready_to_paused (self : W) : res (bool * W) := psub_start (pay_reset_state self).

Definition pay_paused_to_ready (self : W) : res (bool * W) :=
  '(stopped, self) ← psub_stop self;
  if stopped : bool then Ok (true, pay_reset_state self) else Ok (false, self).

(** ** Signals and properties *)
Definition pay_add_extension (ext : Ext) (self : W) : res W :=
  _ ← assert_ (negb (ext_id ext =? 0));
  Ok (self.1, self.2 <| bp_extensions ::= insert (wrap U8 (ext_id ext)) ext |> <| bp_reconfigure := true |>).

Definition pay_clear_extensions (self : W) : W :=
  (self.1, self.2 <| bp_extensions := ∅ |> <| bp_reconfigure := true |>).

(** The properties; [-1] is none. *)
Inductive PayProperty :=
| PropMtu (v : Z) | PropPt (v : Z) | PropSsrc (v : Z) | PropTimestampOffset (v : Z) | PropSeqnumOffset (v : Z)
| PropOnvifNoRateControl (v : bool) | PropScaleRtptime (v : bool) | PropSourceInfo (v : bool)
| PropAutoHeaderExtension (v : bool).

Definition pay_set_property (p : PayProperty) (s : PaySettings) : PaySettings :=
  let then_some m v := if negb (v =? -1) then Some (wrap m v) else None in
  match p with
  | PropMtu v => s <| ps_mtu := v |>
  | PropPt v => s <| ps_pt := wrap U8 v |> <| ps_pt_set := true |>
  | PropSsrc v => s <| ps_ssrc := then_some U32 v |>
  | PropTimestampOffset v => s <| ps_timestamp_offset := then_some U32 v |>
  | PropSeqnumOffset v => s <| ps_seqnum_offset := then_some U16 v |>
  | PropOnvifNoRateControl v => s <| ps_onvif_no_rate_control := v |>
  | PropScaleRtptime v => s <| ps_scale_rtptime := v |>
  | PropSourceInfo v => s <| ps_source_info := v |>
  | PropAutoHeaderExtension v => s <| ps_auto_header_extensions := v |>
  end.

(** A new element. *)
Definition PayBase_new (env : PayEnv) : PayBase :=
  mkPayBase PayState_default (PaySettings_default <| ps_mtu := default_mtu |> <| ps_pt := default_pt |>)
    None None ∅ false env [].

(** ** Everything that happens to an element *)
Inductive PayOp :=
| PopBuffer (buffer : InputBuffer Content)
| PopBufferList (list : list (InputBuffer Content))
| PopEvent (event : PayEvent)
| PopCollision (ssrc suggested_ssrc : option Z) (draws : list Z)
| PopReconfigure
| PopEnv (env : PayEnv)
| PopStart
| PopStop
| PopAddExtension (ext : Ext)
| PopClearExtensions
| PopProperty (p : PayProperty).

Definition pay_exec (self : W) (op : PayOp) : res W :=
  match op with
  | PopBuffer buffer => '(_, self) ← pay_handle_buffer buffer self; Ok self
  | PopBufferList list => '(_, self) ← pay_handle_list list self; Ok self
  | PopEvent event => '(_, self) ← pay_sink_event_default event self; Ok self
  | PopCollision ssrc suggested draws =>
      Ok (self.1, default self.2 (handle_ssrc_collision_event ssrc suggested draws self.2))
  | PopReconfigure => Ok (self.1, self.2 <| bp_reconfigure := true |>)
  | PopEnv env => Ok (self.1, self.2 <| bp_env := env |>)
  | PopStart => '(_, self) ← pay_ready_to_paused self; Ok self
  | PopStop => '(_, self) ← pay_paused_to_ready self; Ok self
  | PopAddExtension ext => pay_add_extension ext self
  | PopClearExtensions => Ok (pay_clear_extensions self)
  | PopProperty p => Ok (self.1, self.2 <| bp_settings ::= pay_set_property p |>)
  end.
End Negotiate.
