(* ===== verification/BasePayInv.v ===== *)
(** * The state of the payloader base class

    Laws of the crates, how a subclass reaches the base class, the invariant of
    the state, and that every call and every operation of the element keeps it. *)

From S2P Require Import Prelude Queues F64 Flow RtpBase DepayMeta BaseDepay BasePay.

(** ** Laws *)

(** What a builder asks for is in the packet. *)
Definition carries (b : RtpBuilder) (h : RtpHeader) : Prop :=
  rh_sequence_number h = rb_sequence_number b /\ rh_ssrc h = rb_ssrc b /\
  rh_payload_type h = rb_payload_type b /\ rh_timestamp h = rb_timestamp b /\
  rh_marker_bit h = rb_marker_bit b /\ rh_extension h = rb_extension b /\ rh_csrc h = rb_csrc b /\
  rh_payload h = rb_payload b.

(** The fields are in range. *)
Definition builder_ok (b : RtpBuilder) : Prop :=
  0 <= rb_payload_type b < 128 /\ is_u32 (rb_ssrc b) /\ is_u16 (rb_sequence_number b) /\
  is_u32 (rb_timestamp b) /\ Forall is_u8 (rb_payload b) /\
  (length (rb_csrc b) <= MAX_N_CSRCS)%nat /\ Forall is_u32 (rb_csrc b) /\
  match rb_extension b with
  | Some (pattern, data) =>
      is_u16 pattern /\ Forall is_u8 data /\ Z.of_nat (length data) mod 4 = 0 /\ Z.of_nat (length data) < 4 * U16
  | None => True
  end.

Definition builder_len (b : RtpBuilder) : Z :=
  MIN_RTP_PACKET_LEN + 4 * Z.of_nat (length (rb_csrc b))
  + match rb_extension b with Some (_, data) => 4 + Z.of_nat (length data) | None => 0 end
  + Z.of_nat (length (rb_payload b)).

Class RtpWriterLaws `{RtpTypes} `{RtpWriter} : Prop := {
  write_ok b : builder_ok b -> is_Some (RtpBuilder_write b);
  write_spec b bytes :
    RtpBuilder_write b = Some bytes ->
    Z.of_nat (length bytes) = builder_len b /\ exists h, RtpPacket_parse bytes = Some h /\ carries b h;
  set_timestamp_spec ts bytes h :
    is_u32 ts -> RtpPacket_parse bytes = Some h ->
    exists bytes', RtpPacketMut_set_timestamp ts bytes = Some bytes' /\ length bytes' = length bytes /\
      RtpPacket_parse bytes' = Some (h <| rh_timestamp := ts |>);
  set_extension_spec data bytes h pattern old :
    RtpPacket_parse bytes = Some h -> rh_extension h = Some (pattern, old) ->
    length data = length old -> Forall is_u8 data ->
    length (RtpPacketMut_set_extension data bytes) = length bytes /\
    RtpPacket_parse (RtpPacketMut_set_extension data bytes) = Some (h <| rh_extension := Some (pattern, data) |>);
}.

(** The packet apart from its metas. *)
Definition packet_core (p : PayOut) : list Z * bool * bool * option Z :=
  (po_bytes p, po_marker p, po_discont p, po_pts p).

(** Copying a meta touches metas only; an extension that is written fills at
    most its slice, and at most the size it has announced. *)
Class PayMetasOnly `{HeaderExtensions} `{PayCaps} `{PayClass} `{!ExtensionWriter} : Prop := {
  ext_max_size_pos e i : 0 <= ext_max_size e i;
  pay_meta_core i m p : packet_core (pay_transform_meta i m p) = packet_core p;
  ext_write_spec e i flags p d w d' e' p' :
    ext_write e i flags p d = (w, d', e', p') ->
    packet_core p' = packet_core p /\ length d' = length d /\ (Forall is_u8 d -> Forall is_u8 d') /\
    match w with Some n => 0 <= n <= Z.of_nat (length d) /\ n <= ext_max_size e i | None => True end;
}.

Section Calls.
Context `{Gst} `{GstTime} `{StreamTime} `{RtpTypes} `{RtpWriter} `{HeaderExtensions} `{PayCaps} `{PayClass}
  `{!ExtensionWriter}.

(** One call of the interface of the base class. *)
Inductive pay_call : PayBase -> PayBase -> Prop :=
| pcall_queue rel packet b r b' : pay_queue_packet rel packet b = Ok (r, b') -> pay_call b b'
| pcall_drop bound b : pay_call b (pay_drop_buffers bound b)
| pcall_finish b r b' : finish_pending_packets b = Ok (r, b') -> pay_call b b'.

(** ** Pushing *)

Definition timed (p : PayOut) : bool := is_some (po_pts p).
Definition ppushed (o : PayOutput) : list PayOut :=
  match o with PoPush p => [p] | PoPushList l => l | _ => [] end.
Definition psent (b : PayBase) : list PayOut := mjoin (ppushed <$> bp_out b).
Definition pwaiting (b : PayBase) : list PayOut := p_pending_packets (bp_state b).

Lemma psent_out o b : psent (pay_out o b) = psent b ++ ppushed o.
Proof. unfold psent, pay_out. cbn. rewrite fmap_app, join_app. cbn. by rewrite app_nil_r. Qed.

(** The element after pushing [out], with [pending] left. *)
Definition pushed_on (ps : bool) (pending : list PayOut) (answers : list (option FlowError)) (out : list PayOutput)
    (b : PayBase) : PayBase :=
  b <| bp_state := (bp_state b) <| p_pending_segment := ps |> <| p_pending_packets := pending |> |>
    <| bp_env := (bp_env b) <| env_downstream := answers |> |> <| bp_out := bp_out b ++ out |>.

Lemma pushed_on_id b :
  pushed_on (p_pending_segment (bp_state b)) (pwaiting b) (env_downstream (bp_env b)) [] b = b.
Proof. unfold pushed_on, pwaiting. destruct b as [[] ? ? ? ? ? [] ?]. cbn. by rewrite app_nil_r. Qed.

Lemma pushed_on_twice ps1 l1 a1 o1 ps2 l2 a2 o2 b :
  pushed_on ps2 l2 a2 o2 (pushed_on ps1 l1 a1 o1 b) = pushed_on ps2 l2 a2 (o1 ++ o2) b.
Proof. unfold pushed_on. destruct b as [[] ? ? ? ? ? [] ?]. cbn. by rewrite app_assoc. Qed.

Lemma pay_retrieve_spec s o s' :
  pay_retrieve_segment_event s = Ok (o, s') ->
  (exists ps, s' = s <| p_pending_segment := ps |> /\ (ps = true -> p_pending_segment s = true)) /\
  match o with Some o => ppushed o = [] | None => True end.
Proof.
  unfold pay_retrieve_segment_event. destruct (negb _).
  { intros [= <- <-]. split; [|done]. exists (p_pending_segment s). by destruct s. }
  destruct (p_negotiated_src_caps s).
  - intros ([n sg] & _ & HK)%bind_ok. injection HK as <- <-. split; [by exists false|done].
  - intros [= <- <-]. split; [|done]. exists (p_pending_segment s). by destruct s.
Qed.

(** What a round pushes and leaves, in either form. *)
Lemma pay_round_spec pts front l :
  head l = Some front -> po_pts front = Some pts ->
  let same := fun p => bool_decide (po_pts p = Some pts) in
  exists o, ppushed o = take_while same l /\ (0 < length (take_while same l))%nat /\
    (if (length (take_while same l) =? 1)%nat then (PoPush front, tail l)
     else (PoPushList (take_while same l), skip_while same l)) = (o, skip_while same l).
Proof.
  destruct l as [|b l]; [done|]. intros [= ->] Hpts. cbn. rewrite bool_decide_eq_true_2 by done. cbn.
  destruct (take_while _ l) as [|c k] eqn:Hk; cbn.
  - exists (PoPush front). split; [done|]. split; [lia|]. f_equal.
    by rewrite <- (take_skip_while (fun p => bool_decide (po_pts p = Some pts)) l) at 1; rewrite Hk.
  - eexists. split; [|split; [lia|reflexivity]]. done.
Qed.

Lemma same_pts_timed pts p : bool_decide (po_pts p = Some pts) = true -> timed p = true.
Proof. intros Hp%bool_decide_eq_true. unfold timed. by rewrite Hp. Qed.

(** The packets that have a time leave, all of them if the source pad takes
    every one. *)
Lemma pay_finish_loop_spec fuel b r b' :
  pay_finish_loop fuel b = Ok (r, b') -> in_front timed (pwaiting b) ->
  exists ps l answers out, b' = pushed_on ps l answers out b /\
    (ps = true -> p_pending_segment (bp_state b) = true) /\
    mjoin (ppushed <$> out) ++ l = pwaiting b /\ in_front timed l /\
    Forall (fun p => timed p = true) (mjoin (ppushed <$> out)) /\
    match r with Success _ => existsb timed l = false | Failure _ => True end.
Proof.
  revert b. induction fuel as [|fuel IH]; intros b HK Hok; cbn [pay_finish_loop] in HK.
  all: fold timed in HK; fold (pwaiting b) in HK; destruct (existsb _ _) eqn:Hex; cbn [negb] in HK.
  1: done.
  1,3: injection HK as <- <-; eexists _, _, _, []; split; [symmetry; apply pushed_on_id|];
    repeat split; [done..|by constructor|done].
  destruct (in_front_head _ _ Hok Hex) as (front & l & Hl & Hset).
  apply bind_ok in HK as (f & Hf & HK). apply unwrap_ok in Hf. rewrite Hl in Hf. injection Hf as <-.
  apply bind_ok in HK as (pts & Hp & HK). apply unwrap_ok in Hp.
  apply bind_ok in HK as (? & _ & HK). apply bind_ok in HK as ([o s] & Hr & HK). cbv beta iota in HK.
  apply pay_retrieve_spec in Hr as [(ps & -> & Hmono) Ho].
  destruct (pay_round_spec pts front (pwaiting b)) as (o' & Ho' & _ & Heq); [by rewrite Hl|done|].
  rewrite Heq in HK. set (l' := skip_while _ (pwaiting b)) in *.
  destruct (narrow_split timed _ (pwaiting b) (same_pts_timed pts)) as [Ht Hs]. fold l' in Ht, Hs.
  set (b1 := pay_out o' _) in HK.
  set (outs := match o with Some o => [o; o'] | None => [o'] end).
  assert (Hb1 : b1 = pushed_on ps l' (env_downstream (bp_env b)) outs b).
  { subst b1 outs. unfold pushed_on. destruct b as [[] ? ? ? ? ? [] ?], o;
      unfold pay_out_segment, pay_out, modify; cbn; by rewrite <- ?app_assoc. }
  assert (Houts : mjoin (ppushed <$> outs) = take_while (fun p => bool_decide (po_pts p = Some pts)) (pwaiting b)).
  { subst outs. destruct o; cbn; rewrite ?Ho, Ho', app_nil_r; done. }
  assert (Hl' : in_front timed l') by (unfold in_front; by rewrite <- Hs).
  assert (Hall : Forall (fun p => timed p = true) (mjoin (ppushed <$> outs))).
  { rewrite Houts. eapply Forall_impl; [apply take_while_all|]. intros p. apply same_pts_timed. }
  rewrite Hb1 in HK. clear b1 Hb1. unfold pad_answer in HK. cbn [bp_env pushed_on modify env_downstream] in HK.
  assert (Hnext : forall answers,
    pay_finish_loop fuel (pushed_on ps l' answers outs b) = Ok (r, b') ->
    exists ps l answers out, b' = pushed_on ps l answers out b /\
      (ps = true -> p_pending_segment (bp_state b) = true) /\
      mjoin (ppushed <$> out) ++ l = pwaiting b /\ in_front timed l /\
      Forall (fun p => timed p = true) (mjoin (ppushed <$> out)) /\
      match r with Success _ => existsb timed l = false | Failure _ => True end).
  { intros answers Hloop. apply IH in Hloop as (ps2 & l2 & a2 & out2 & -> & Hm2 & Hj2 & Hf2 & Hall2 & Hr2); [|done].
    cbn in Hm2. rewrite pushed_on_twice. eexists ps2, l2, a2, _. split; [done|]. split; [auto|].
    rewrite fmap_app, join_app. split; [|split; [done|split; [by apply Forall_app|done]]].
    rewrite <- app_assoc, Hj2, Houts. apply take_skip_while. }
  destruct (env_downstream (bp_env b)) as [|[err|] answers] eqn:Hans; cbv beta iota in HK.
  - exact (Hnext _ HK).
  - injection HK as <- <-. eexists ps, l', answers, outs.
    split; [unfold pushed_on; by destruct b as [[] ? ? ? ? ? [] ?]|]. split; [done|].
    split; [rewrite Houts; apply take_skip_while|done].
  - exact (Hnext _ HK).
Qed.

Lemma pay_finish_spec b r b' :
  finish_pending_packets b = Ok (r, b') -> in_front timed (pwaiting b) ->
  exists ps l answers out, b' = pushed_on ps l answers out b /\
    (ps = true -> p_pending_segment (bp_state b) = true) /\
    mjoin (ppushed <$> out) ++ l = pwaiting b /\ in_front timed l /\
    Forall (fun p => timed p = true) (mjoin (ppushed <$> out)) /\
    match r with Success _ => is_Some (p_segment (bp_state b)) -> existsb timed l = false | Failure _ => True end.
Proof.
  unfold finish_pending_packets. intros HK Hok. destruct (p_segment (bp_state b)) as [sg|]; cbn [is_none] in HK.
  - apply pay_finish_loop_spec in HK as (ps & l & a & out & ? & ? & ? & ? & ? & ?); [|done].
    exists ps, l, a, out. by destruct r.
  - injection HK as <- <-. eexists _, _, _, []. split; [symmetry; apply pushed_on_id|].
    repeat split; [done..|by constructor|]. by intros [].
Qed.

Lemma drop_buffers_to_spec e s :
  exists k l, p_pending_buffers s = k ++ l /\ drop_buffers_to e s = s <| p_pending_buffers := l |>.
Proof.
  unfold drop_buffers_to. destruct (last _); [destruct (_ <=? _)|].
  - exists (p_pending_buffers s), []. by rewrite app_nil_r.
  - eexists _, _. split; [symmetry; apply take_skip_while|done].
  - exists [], (p_pending_buffers s). split; [done|by destruct s].
Qed.

Lemma pay_drop_spec bound b :
  exists k l, p_pending_buffers (bp_state b) = k ++ l /\
    pay_drop_buffers bound b = on_pay (fun s => s <| p_pending_buffers := l |>) b.
Proof.
  assert (Hsame : exists k l, p_pending_buffers (bp_state b) = k ++ l /\
    b = on_pay (fun s => s <| p_pending_buffers := l |>) b).
  { exists [], (p_pending_buffers (bp_state b)). split; [done|by destruct b as [[]]]. }
  destruct bound as [e|e|]; unfold pay_drop_buffers.
  - destruct (drop_buffers_to_spec e (bp_state b)) as (k & l & Hk & He). exists k, l. split; [done|].
    unfold on_pay, modify. cbn. by rewrite He.
  - destruct (e =? 0); [destruct b; exact Hsame|].
    destruct (drop_buffers_to_spec (e - 1) (bp_state b)) as (k & l & Hk & He). exists k, l. split; [done|].
    unfold on_pay, modify. cbn. by rewrite He.
  - exists (p_pending_buffers (bp_state b)), []. by rewrite app_nil_r.
Qed.

(** ** What packets say

    Their sequence number, source, payload type, marker bit and payload: what
    is fixed once a packet is queued. *)
Definition essence (p : PayOut) : option (Z * Z * Z * bool * list Z) :=
  (fun h => (rh_sequence_number h, rh_ssrc h, rh_payload_type h, rh_marker_bit h, rh_payload h))
  <$> RtpPacket_parse (po_bytes p).

Definition builder_essence (b : RtpBuilder) : Z * Z * Z * bool * list Z :=
  (rb_sequence_number b, rb_ssrc b, rb_payload_type b, rb_marker_bit b, rb_payload b).

Lemma carries_essence b h p :
  carries b h -> RtpPacket_parse (po_bytes p) = Some h -> essence p = Some (builder_essence b).
Proof.
  intros (Hn & Hs & Hp & _ & Hm & _ & _ & Hpl) Hh. unfold essence, builder_essence. rewrite Hh. cbn.
  by rewrite Hn, Hs, Hp, Hm, Hpl.
Qed.

Abbreviation parsed := (fun p => is_Some (essence p)).

Lemma parsed_essence l l' : essence <$> l' = essence <$> l -> Forall parsed l -> Forall parsed l'.
Proof.
  intros He Hl. apply Forall_fmap in Hl. change (fun p => is_Some (essence p)) with (is_Some ∘ essence). 
  apply Forall_fmap. by rewrite He.
Qed.

Context `{!RtpWriterLaws}.

Lemma stamp_waiting_spec pts rt discont l :
  is_u32 rt -> Forall parsed l -> Forall (fun p => timed p = false) l ->
  exists l', stamp_waiting pts rt discont l = Ok (l', discont && bool_decide (l = [])) /\
    essence <$> l' = essence <$> l /\ Forall (fun p => po_pts p = pts) l' /\
    po_discont <$> l' = match po_discont <$> l with [] => [] | x :: k => (x || discont) :: k end.
Proof.
  intros Hrt Hp Hl. revert discont Hp. induction Hl as [|p l Ht Hl IH]; intros discont Hp; cbn.
  { exists []. by rewrite andb_true_r. }
  apply Forall_cons in Hp as [[x Hx] Hp]. unfold essence in Hx. destruct (RtpPacket_parse (po_bytes p)) as [h|] eqn:Hh; [|done].
  unfold timed in Ht. destruct (po_pts p) eqn:Hpts; [done|]. cbn.
  destruct (set_timestamp_spec rt (po_bytes p) h Hrt Hh) as (bytes & Hb & _ & Hparse).
  rewrite Hb. cbn. destruct (IH false Hp) as (l' & -> & He & Hall & Hd). cbn. rewrite andb_false_r.
  eexists. split; [reflexivity|]. cbn. split.
  - f_equal; [|done]. unfold essence, set_discont.
    destruct discont; cbn; by rewrite Hparse, Hh.
  - split; [constructor; [by destruct discont|done]|]. rewrite Hd. f_equal.
    + destruct discont; cbn; by rewrite ?orb_true_r, ?orb_false_r.
    + destruct l; cbn; by rewrite ?orb_false_r.
Qed.

Lemma stamp_pending_spec pts rt discont l :
  is_u32 rt -> Forall parsed l -> in_front timed l ->
  exists l', stamp_pending pts rt discont l
    = Ok (take_while timed l ++ l', discont && bool_decide (skip_while timed l = [])) /\
    essence <$> (take_while timed l ++ l') = essence <$> l /\ Forall (fun p => po_pts p = pts) l' /\
    po_discont <$> l' = match po_discont <$> skip_while timed l with [] => [] | x :: k => (x || discont) :: k end.
Proof.
  intros Hrt Hp Hl. unfold stamp_pending. fold timed.
  destruct (stamp_waiting_spec pts rt discont (skip_while timed l)) as (l' & -> & He & Ha & Hd);
    [done|by apply skip_while_Forall|done|]. cbn. exists l'. split; [done|]. split; [|done].
  by rewrite fmap_app, He, <- fmap_app, take_skip_while.
Qed.

Lemma stamped_in_front pts l l' :
  Forall (fun p => po_pts p = pts) l' -> in_front timed (take_while timed l ++ l').
Proof.
  intros Hl'. unfold in_front. rewrite skip_while_app_all by apply take_while_all. apply Forall_forall.
  destruct pts as [t|].
  - intros p Hp. assert (Hall : Forall (fun p => timed p = true) l').
    { eapply Forall_impl; [exact Hl'|]. intros q. unfold timed. by intros ->. }
    apply (all_in_front _ _) in Hall. unfold in_front in Hall. by rewrite Forall_forall in Hall; apply Hall.
  - intros p Hp. assert (Hall : Forall (fun p => timed p = false) l').
    { eapply Forall_impl; [exact Hl'|]. intros q. unfold timed. by intros ->. }
    rewrite skip_while_none in Hp by done. by rewrite Forall_forall in Hall; apply Hall.
Qed.

Lemma write_packet_spec packet pts o :
  write_packet packet pts = Ok o ->
  match o with
  | None => RtpBuilder_write packet = None
  | Some p => po_pts p = pts /\ po_marker p = rb_marker_bit packet /\ po_discont p = false /\ po_metas p = [] /\
      Z.of_nat (length (po_bytes p)) = builder_len packet /\
      exists h, RtpPacket_parse (po_bytes p) = Some h /\ carries packet h
  end.
Proof.
  unfold write_packet. destruct (RtpBuilder_write packet) as [bytes|] eqn:Hw; [|by intros [= <-]].
  destruct (write_spec _ _ Hw) as (Hlen & h & Hh & Hc). rewrite Hh. cbn. intros [= <-]. cbn.
  split; [done|]. split; [apply Hc|]. split; [done|]. split; [done|]. split; [done|]. by exists h.
Qed.

Lemma by_id_range {V} (m : gmap Z V) : Forall (fun e => is_u8 e.1) (by_id m).
Proof.
  unfold by_id, is_u8. generalize U8. intros n. apply Forall_forall. intros [i v] Hi.
  apply list_elem_of_omap in Hi as (k & Hk & He). apply elem_of_seqZ in Hk.
  destruct (m !! k); cbn in He; [|done]. injection He as <- <-. cbn. lia.
Qed.

Lemma element_header_bytes flags id written l :
  is_u8 id -> 0 < written -> element_header flags id written = Ok l ->
  length l = match flags with ONE_BYTE => 1%nat | TWO_BYTE => 2%nat end /\ Forall is_u8 l.
Proof.
  unfold is_u8, element_header. intros Hid Hw. destruct flags; intros (? & Ha%assert_ok%Z.leb_le & HK)%bind_ok; injection HK as <-.
  - split; [done|]. constructor; [|done]. assert (Hid16 : wrap U8 (Z.shiftl id 4) = Z.shiftl (id mod 16) 4).
    { unfold wrap. rewrite !Z.shiftl_mul_pow2 by lia. change (2 ^ 4) with 16. change U8 with (16 * 16). apply Zmult_mod_distr_r. }
    pose proof (Z.mod_pos_bound id 16 ltac:(lia)).
    rewrite Hid16, lor_shiftl_add by lia. lia.
  - split; [done|]. apply Forall_cons. split; [unfold is_u8; lia|]. apply Forall_cons. split; [unfold is_u8; lia|done].
Qed.

Context `{!PayMetasOnly}.

Lemma write_elements_spec flags input exts all packet data data' all' packet' :
  write_elements flags input exts all packet data = Ok (data', all', packet') ->
  Forall (fun e => is_u8 e.1) exts -> Forall is_u8 data ->
  length data' = length data /\ Forall is_u8 data' /\ packet_core packet' = packet_core packet.
Proof.
  revert all packet data data'. induction exts as [|[id e] exts IH]; intros all packet data data' HK Hexts Hdata;
    cbn [write_elements] in HK; cbv zeta in HK.
  { by injection HK as <- <- <-. }
  apply Forall_cons in Hexts as [Hid Hexts]. cbn in Hid.
  set (offset := match flags with ONE_BYTE => 1%nat | TWO_BYTE => 2%nat end) in *.
  destruct (Nat.ltb_spec (length data) offset); [by injection HK as <- <- <-|].
  destruct (ext_write e input flags packet (drop offset data)) as [[[w slice] e'] p1] eqn:Hw.
  destruct (ext_write_spec _ _ _ _ _ _ _ _ _ Hw) as (Hcore & Hlen & Hby & Hn).
  specialize (Hby (Forall_drop _ _ _ Hdata)). rewrite length_drop in Hlen, Hn.
  assert (Hskip : write_elements flags input exts (<[id:=e']> all) p1 (take offset data ++ slice) = Ok (data', all', packet') ->
    length data' = length data /\ Forall is_u8 data' /\ packet_core packet' = packet_core packet).
  { intros (Hl & Hb & Hc)%IH; [|done|apply Forall_app; split; [by apply Forall_take|done]].
    rewrite Hl, Hc, Hcore, length_app, length_take. split; [lia|done]. }
  destruct w as [[|n|n]|]; cbv beta iota in HK; [by apply Hskip|..|lia|by apply Hskip].
  apply bind_ok in HK as (hd & Hhd & HK). apply element_header_bytes in Hhd as [Hl1 Hb1]; [|done|lia]. fold offset in Hl1.
  apply bind_ok in HK as (? & Ha%assert_ok%Z.leb_le & HK). apply bind_ok in HK as ([[rest all1] p2] & Hrec & HK).
  injection HK as <- <- <-. apply IH in Hrec as (Hl2 & Hb2 & Hc2); [|done|by apply Forall_drop].
  rewrite length_drop in Hl2. rewrite !length_app, length_take, Hc2, Hcore. split; [lia|]. split; [|done].
  repeat apply Forall_app_2; [done|by apply Forall_take|done].
Qed.

Lemma set_extensions_id b : b <| bp_extensions := bp_extensions b |> = b.
Proof. by destruct b. Qed.

(** The extension of a packet, before and after the header extensions have
    written to it. *)
Definition extension_filled (flags : option ExtFlags) (input : InputBuffer Content) (b : PayBase)
    (before after : option (Z * list Z)) : Prop :=
  match flags with
  | None => after = before
  | Some flags => exists pattern old data p exts p',
      before = Some (pattern, old) /\ after = Some (pattern, data) /\
      write_elements flags input (by_id (bp_extensions b)) (bp_extensions b) p old = Ok (data, exts, p')
  end.

Lemma write_extensions_spec flags input b p h b' p' :
  write_extensions flags input b p = Ok (b', p') -> RtpPacket_parse (po_bytes p) = Some h ->
  match flags with Some _ => exists pattern n, rh_extension h = Some (pattern, replicate n 0) | None => True end ->
  exists exts ext, b' = b <| bp_extensions := exts |> /\
    RtpPacket_parse (po_bytes p') = Some (h <| rh_extension := ext |>) /\
    length (po_bytes p') = length (po_bytes p) /\
    po_marker p' = po_marker p /\ po_discont p' = po_discont p /\ po_pts p' = po_pts p /\
    extension_filled flags input b (rh_extension h) ext.
Proof.
  unfold write_extensions. destruct flags as [flags|]; intros HK Hh Hext.
  2:{ injection HK as <- <-. exists (bp_extensions b), (rh_extension h). rewrite set_extensions_id, Hh.
      split; [done|]. split; [by destruct h|]. by repeat split. }
  rewrite Hh in HK. cbn [unwrap] in HK. rewrite bind_Ok in HK. destruct Hext as (pattern & n & Hext). rewrite Hext in HK.
  cbn [unwrap] in HK. rewrite bind_Ok in HK. cbv beta iota in HK.
  apply bind_ok in HK as ([[data exts] p1] & Hw & HK). injection HK as <- <-.
  destruct (write_elements_spec _ _ _ _ _ _ _ _ _ Hw) as (Hlen & Hby & Hcore);
    [apply by_id_range|apply Forall_replicate; unfold is_u8; lia|].
  injection Hcore as Hb Hm Hd Hp. rewrite <- Hb in Hh |- *.
  destruct (set_extension_spec data _ _ _ _ Hh Hext Hlen Hby) as [Hl Hparse].
  exists exts, (Some (pattern, data)). cbn. rewrite Hl, Hparse. do 6 (split; [done|]).
  by exists pattern, (replicate n 0), data, p, exts, p1.
Qed.

Lemma calculate_flags exts input flags pattern size :
  calculate_extension_size exts input = (flags, pattern, size) -> pattern <> 0 -> is_Some flags.
Proof.
  unfold calculate_extension_size. destruct (fold_left _ _ _) as [[one two] sz].
  destruct one; [by intros [= <- <- <-]|]. destruct two; [by intros [= <- <- <-]|]. by intros [= <- <- <-].
Qed.

Lemma complete_on_pay f b buffers input rt packet :
  complete_packet (on_pay f b) buffers input rt packet = complete_packet b buffers input rt packet.
Proof.
  unfold complete_packet. by change (bp_settings (on_pay f b)) with (bp_settings b);
    change (bp_extensions (on_pay f b)) with (bp_extensions b).
Qed.

Lemma complete_spec b buffers input rt packet final flags :
  complete_packet b buffers input rt packet = (final, flags) ->
  builder_essence final = builder_essence packet /\ rb_timestamp final = rt /\
  match flags with
  | Some _ => exists pattern n, rb_extension final = Some (pattern, replicate n 0)
  | None => rb_extension final = rb_extension packet
  end.
Proof.
  unfold complete_packet. destruct (calculate_extension_size _ _) as [[fl pattern] size] eqn:Hc.
  destruct (negb (size =? 0) && negb (pattern =? 0)) eqn:Hx; intros [= <- <-].
  - apply andb_prop in Hx as [_ Hx%negb_true_iff%Z.eqb_neq]. destruct (calculate_flags _ _ _ _ _ Hc Hx) as [f ->].
    split; [by destruct (ps_source_info _)|]. split; [by destruct (ps_source_info _)|]. by eexists _, _.
  - split; [by destruct (ps_source_info _)|]. split; [by destruct (ps_source_info _)|]. by destruct (ps_source_info _).
Qed.

Lemma copy_metas_fold buffers p :
  packet_core (fold_left (fun buffer b => pay_copy_metas b buffer) buffers p) = packet_core p.
Proof.
  revert p. induction buffers as [|b buffers IH]; intros p; cbn; [done|]. rewrite IH. unfold pay_copy_metas.
  generalize (in_metas b.2). intros l. revert p. induction l as [|m l IHl]; intros p; cbn; [done|].
  rewrite IHl. destruct (me_memory m); [done|apply pay_meta_core].
Qed.

(** The packet as it joins the queue. *)
Definition queued_packet (b : PayBase) (id_end ppts rt : Z) (packet : RtpBuilder) (p : PayOut) : Prop :=
  exists input final flags h,
    let buffers := take_while (fun b => fst b <=? id_end) (p_pending_buffers (bp_state b)) in
    head buffers = Some input /\ complete_packet b buffers (snd input) rt packet = (final, flags) /\
    RtpPacket_parse (po_bytes p) = Some h /\ essence p = Some (builder_essence packet) /\
    rh_timestamp h = rt /\ rh_csrc h = rb_csrc final /\
    Z.of_nat (length (po_bytes p)) = builder_len final /\ po_pts p = Some ppts /\ po_marker p = rb_marker_bit packet /\
    po_discont p = discont_due (bp_state b) id_end && bool_decide (skip_while timed (pwaiting b) = []) /\
    extension_filled flags (snd input) b (rb_extension final) (rh_extension h).

Lemma queue_timed_spec id_end sg pts ppts prt packet b r b' stream :
  queue_timed id_end sg pts ppts prt packet b = Ok (r, b') -> p_stream (bp_state b) = Some stream ->
  Forall parsed (pwaiting b) -> in_front timed (pwaiting b) ->
  let rt := wrap U32 (st_timestamp_offset stream + prt) in
  exists l', essence <$> l' = essence <$> pwaiting b /\ Forall (fun p => timed p = true) l' /\
    match r with
    | Failure e => e = FlowErr /\
        b' = on_pay (fun s => s <| p_discont_pending := false |> <| p_pending_packets := l' |>) b
    | Success _ => exists p exts stats, queued_packet b id_end ppts rt packet p /\
        (is_Some stats <-> is_Some (bp_stats b)) /\
        b' = (on_pay (fun s => s <| p_discont_pending := false |> <| p_pending_packets := l' ++ [p] |>
                                 <| p_last_used_buffer_id := id_end |>
                                 <| p_stream := Some (stream <| st_last_timestamp := rt |>) |>
                                 <| p_last_pts := Some pts |>) b)
               <| bp_extensions := exts |> <| bp_stats := stats |>
    end.
Proof.
  intros HK Hst Hpar Hok. cbv zeta. unfold queue_timed in HK. cbv zeta in HK. rewrite Hst in HK. cbn [unwrap] in HK. rewrite bind_Ok in HK.
  set (rt := wrap U32 _) in *. assert (Hrt : is_u32 rt) by (apply Z.mod_pos_bound; lia).
  destruct (stamp_pending_spec (Some pts) rt (discont_due (bp_state b) id_end) (pwaiting b) Hrt Hpar Hok)
    as (k & Hk & He & Hall & _). unfold pwaiting in Hk. rewrite Hk, bind_Ok in HK. cbv beta iota in HK. fold (pwaiting b) in HK.
  set (l' := take_while timed (pwaiting b) ++ k) in *. exists l'. split; [done|]. split.
  { apply Forall_app. split; [apply take_while_all|]. eapply Forall_impl; [exact Hall|]. unfold timed. by intros p ->. }
  apply bind_ok in HK as (input & Hin%unwrap_ok & HK).
  rewrite complete_on_pay in HK. destruct (complete_packet _ _ _ _ _) as [final flags] eqn:Hc. apply bind_ok in HK as (o & Hw & HK).
  apply write_packet_spec in Hw. destruct o as [p0|]; [|by injection HK as <- <-].
  destruct Hw as (Hpts & Hmark & Hdis & _ & Hlen & h & Hh & Hcar). cbv zeta in HK.
  set (p1 := fold_left _ _ _) in HK. pose proof (copy_metas_fold (take_while (fun b => fst b <=? id_end)
    (p_pending_buffers (bp_state b))) (set_discont (discont_due (bp_state b) id_end && bool_decide (skip_while timed (pwaiting b) = [])) p0)) as Hp1.
  fold p1 in Hp1. clearbody p1. injection Hp1 as Hb1 Hm1 Hd1 Hpt1.
  replace (po_bytes (set_discont _ _)) with (po_bytes p0) in Hb1 by (by destruct (_ && _)).
  replace (po_marker (set_discont _ _)) with (po_marker p0) in Hm1 by (by destruct (_ && _)).
  replace (po_pts (set_discont _ _)) with (po_pts p0) in Hpt1 by (by destruct (_ && _)).
  destruct (complete_spec _ _ _ _ _ _ _ Hc) as (Hess & Hts & Hext).
  apply bind_ok in HK as ([b1 p] & Hwe & HK). rewrite <- Hb1 in Hh, Hlen.
  apply (write_extensions_spec _ _ _ _ h) in Hwe as (exts & ext & -> & Hph & Hpl & Hpm & Hpd & Hpp & Hfill); [|done|].
  2:{ destruct flags; [|done]. destruct Hext as (pat & n & Hext). exists pat, n. by rewrite <- Hext; apply Hcar. }
  injection HK as <- <-. eexists p, exts, _. split; [|split; [|done]].
  - exists input, final, flags. eexists. split; [done|]. split; [exact Hc|]. split; [exact Hph|]. rewrite <- Hess.
    destruct Hcar as (C1 & C2 & C3 & C4 & C5 & C6 & C7 & C8). rewrite C6 in Hfill.
    split; [unfold essence, builder_essence; rewrite Hph; cbn; by rewrite C1, C2, C3, C5, C8|].
    cbn. rewrite C4, Hts, Hpl, Hlen, Hpp, Hpt1, Hpts, Hpm, Hm1, Hmark. injection Hess as ? ? ? ? ?.
    do 5 (split; [done|]). split; [|exact Hfill]. rewrite Hpd, Hd1. unfold set_discont.
    destruct (_ && _); [done|exact Hdis].
  - cbn. destruct (bp_stats b); cbn; split; by intros [].
Qed.

(** How far [queue_for_ids] gets, and what it finds on the way. *)
Lemma queue_ids_spec a e off packet b r b' :
  queue_for_ids (a, e) off packet b = Ok (r, b') ->
  let b0 := on_pay (fun s => s <| p_pending_buffers ::= skip_while (fun x => fst x <? a) |>) b in
  let s0 := bp_state b0 in
  (r = Failure FlowErr /\ (b' = b \/ b' = b0)) \/
  exists front back c n sg t pts stream ppts prt mapping,
    a <= e /\ head (p_pending_buffers s0) = Some front /\ last (p_pending_buffers s0) = Some back /\ e <= fst back /\
    p_clock_rate s0 = Some c /\ p_segment s0 = Some (n, sg) /\ in_pts (snd front) = Some t /\ clip_pts sg t = Ok pts /\
    p_stream s0 = Some stream /\
    packet_time s0 sg (st_use_stream_time stream) c pts off = Ok (Some (ppts, prt, mapping)) /\
    queue_timed e sg pts ppts prt packet (on_pay (fun s => s <| p_last_pts_rtp_mapping := mapping |>) b0) = Ok (r, b').
Proof.
  intros HK. cbv zeta. unfold queue_for_ids in HK. rewrite Z.gtb_ltb in HK.
  destruct (Z.ltb_spec e a); [injection HK as <- <-; left; auto|]. cbv zeta in HK.
  set (b0 := on_pay (fun s => s <| p_pending_buffers ::= _ |>) b) in *.
  destruct (head (p_pending_buffers (bp_state b0))) as [front|]; [|injection HK as <- <-; left; auto].
  destruct (last (p_pending_buffers (bp_state b0))) as [back|]; [|injection HK as <- <-; left; auto].
  rewrite Z.gtb_ltb in HK. destruct (Z.ltb_spec (fst back) e); [injection HK as <- <-; left; auto|].
  apply bind_ok in HK as (c & Hc%unwrap_ok & HK). apply bind_ok in HK as ([n sg] & Hsg%unwrap_ok & HK).
  apply bind_ok in HK as (t & Ht%unwrap_ok & HK). apply bind_ok in HK as (pts & Hpts & HK).
  apply bind_ok in HK as (stream & Hst%unwrap_ok & HK). apply bind_ok in HK as (o & Htime & HK).
  destruct o as [[[ppts prt] mapping]|]; [|injection HK as <- <-; left; auto].
  right. by exists front, back, c, n, sg, t, pts, stream, ppts, prt, mapping.
Qed.

(** ** The invariant *)
Record pay_inv (b : PayBase) : Prop := {
  pi_packets : in_front timed (pwaiting b);
  pi_parsed : Forall parsed (pwaiting b);
  pi_buffers : numbered_by fst (p_current_buffer_id (bp_state b) - 1) (p_pending_buffers (bp_state b));
  pi_dated : Forall (fun x => is_Some (in_pts x.2)) (p_pending_buffers (bp_state b));
  pi_segment : p_pending_buffers (bp_state b) <> [] -> is_Some (p_segment (bp_state b));
  pi_used : p_last_used_buffer_id (bp_state b) <= p_current_buffer_id (bp_state b);
  pi_stream : match p_stream (bp_state b) with
              | Some stream => is_u16 (st_last_seqnum stream) /\ is_u32 (st_last_timestamp stream) /\ is_Some (bp_stats b)
              | None => pwaiting b = [] /\ p_negotiated_src_caps (bp_state b) = None
              end;
  pi_rate : is_Some (p_negotiated_src_caps (bp_state b)) -> exists c, p_clock_rate (bp_state b) = Some c /\ 0 < c < U32;
  pi_settings : match ps_timestamp_offset (bp_settings b) with Some t => is_u32 t | None => True end;
  pi_env : is_u32 (env_random_timestamp (bp_env b));
}.

(** What no call changes. *)
Definition same_config (st st' : option PayStream) : Prop :=
  match st, st' with
  | Some s, Some s' => st_pt s' = st_pt s /\ st_ssrc s' = st_ssrc s /\ st_timestamp_offset s' = st_timestamp_offset s /\
      st_seqnum_offset s' = st_seqnum_offset s /\ st_use_stream_time s' = st_use_stream_time s
  | None, None => True
  | _, _ => False
  end.

Definition pay_frame (b b' : PayBase) : Prop :=
  let s := bp_state b in
  let s' := bp_state b' in
  (p_pending_segment s' = true -> p_pending_segment s = true) /\
  (exists k, p_pending_buffers s = k ++ p_pending_buffers s') /\
  same_config (p_stream s) (p_stream s') /\
  p_segment s' = p_segment s /\ p_sink_caps s' = p_sink_caps s /\ p_src_caps s' = p_src_caps s /\
  p_negotiated_src_caps s' = p_negotiated_src_caps s /\ p_clock_rate s' = p_clock_rate s /\
  p_current_buffer_id s' = p_current_buffer_id s /\
  bp_settings b' = bp_settings b /\ bp_ssrc_collision b' = bp_ssrc_collision b /\
  bp_reconfigure b' = bp_reconfigure b /\ env_random_timestamp (bp_env b') = env_random_timestamp (bp_env b).

#[export] Instance same_config_preorder : PreOrder same_config.
Proof.
  split; [by intros []|]. intros [] [] []; cbn; try done. intuition congruence.
Qed.

#[export] Instance pay_frame_preorder : PreOrder pay_frame.
Proof.
  split.
  - intros b. split; [done|]. split; [by exists []|]. split; [reflexivity|]. by repeat split.
  - intros b1 b2 b3 (P1 & [k1 K1] & C1 & F1) (P2 & [k2 K2] & C2 & F2).
    split; [auto|]. split; [exists (k1 ++ k2); by rewrite <- app_assoc, <- K2|]. split; [by etrans|]. intuition congruence.
Qed.

(** A call that keeps the frame keeps the invariant, if it keeps what it may
    change. *)
Lemma pay_inv_step b b' :
  pay_inv b -> pay_frame b b' -> in_front timed (pwaiting b') -> Forall parsed (pwaiting b') ->
  (p_last_used_buffer_id (bp_state b') = p_last_used_buffer_id (bp_state b) \/
   exists back, last (p_pending_buffers (bp_state b')) = Some back /\ p_last_used_buffer_id (bp_state b') <= fst back) ->
  match p_stream (bp_state b') with
  | Some stream => is_u16 (st_last_seqnum stream) /\ is_u32 (st_last_timestamp stream) /\ is_Some (bp_stats b')
  | None => pwaiting b' = []
  end -> pay_inv b'.
Proof.
  intros [I1 I2 I3 I4 I5 I6 I7 I8 I9 I10] (F1 & [k Fk] & F2 & F3 & F4 & F5 & F6 & F7 & F8 & F9 & F10 & F11 & F12) Hq Hp Hu Hs.
  rewrite Fk in I3. apply numbered_suffix in I3. split; [done|done|by rewrite F8| | | | | | |].
  - rewrite Fk in I4. by apply Forall_app in I4 as [_ ?].
  - intros Hne. rewrite F3. apply I5. rewrite Fk. intros [_ ?]%app_nil. done.
  - rewrite F8. destruct Hu as [->|(back & Hb & Hu)]; [done|]. apply (numbered_last fst _ _ _ I3) in Hb. lia.
  - destruct (p_stream (bp_state b')) as [st'|] eqn:Hst'; [done|]. split; [done|]. rewrite F6.
    destruct (p_stream (bp_state b)); [done|]. by destruct I7.
  - by rewrite F6, F7.
  - by rewrite F9.
  - by rewrite F12.
Qed.

Lemma pay_drop_keeps bound b : pay_inv b -> pay_frame b (pay_drop_buffers bound b) /\ pay_inv (pay_drop_buffers bound b).
Proof.
  intros Hinv. destruct (pay_drop_spec bound b) as (k & l & Hk & ->).
  assert (Hf : pay_frame b (on_pay (fun s => s <| p_pending_buffers := l |>) b)).
  { split; [done|]. split; [by exists k|]. split; [reflexivity|]. by repeat split. }
  split; [done|]. apply (pay_inv_step _ _ Hinv Hf); [apply Hinv|apply Hinv|by left|].
  pose proof (pi_stream _ Hinv) as Hs. cbn. by destruct (p_stream (bp_state b)); [|destruct Hs].
Qed.

Lemma pay_finish_keeps b r b' :
  finish_pending_packets b = Ok (r, b') -> pay_inv b -> pay_frame b b' /\ pay_inv b'.
Proof.
  intros HK Hinv. apply pay_finish_spec in HK as (ps & l & a & out & -> & Hm & Hj & Hf & _); [|apply Hinv].
  assert (Hfr : pay_frame b (pushed_on ps l a out b)).
  { split; [done|]. split; [by exists []|]. split; [reflexivity|]. by repeat split. }
  split; [done|]. pose proof (pi_parsed _ Hinv) as Hp. rewrite <- Hj in Hp. apply Forall_app in Hp as [_ Hp].
  apply (pay_inv_step _ _ Hinv Hfr); [done|done|by left|].
  pose proof (pi_stream _ Hinv) as Hs. cbn. destruct (p_stream (bp_state b)); [done|]. destruct Hs as [Hw _].
  rewrite Hw in Hj. by apply app_nil in Hj as [_ ->].
Qed.

(** A packet numbered [seqnum] joins the queue, or an error leaves it as it was;
    what the waiting packets say is not touched. *)
Definition pay_queue_effect (r : result unit) (packet : RtpBuilder) (b b' : PayBase) : Prop :=
  pay_frame b b' /\ pay_inv b' /\ bp_out b' = bp_out b /\
  st_last_seqnum <$> p_stream (bp_state b') = st_last_seqnum <$> p_stream (bp_state b) /\
  essence <$> pwaiting b' = (essence <$> pwaiting b) ++
    match r with Success _ => [Some (builder_essence packet)] | Failure _ => [] end.

Lemma queue_ids_keeps ids off packet b r b' :
  queue_for_ids ids off packet b = Ok (r, b') -> pay_inv b -> pay_queue_effect r packet b b'.
Proof.
  intros HK Hinv. destruct ids as [a e].
  assert (Hskip : forall s, exists k, p_pending_buffers s = k ++ p_pending_buffers
    (s <| p_pending_buffers ::= skip_while (fun x : Z * InputBuffer Content => fst x <? a) |>)).
  { intros s. eexists. symmetry. apply take_skip_while. }
  assert (Hs : match p_stream (bp_state b) with
    | Some stream => is_u16 (st_last_seqnum stream) /\ is_u32 (st_last_timestamp stream) /\ is_Some (bp_stats b)
    | None => pwaiting b = [] end) 
    by (pose proof (pi_stream _ Hinv) as HX; destruct (p_stream (bp_state b)); [done|by destruct HX]).
  apply queue_ids_spec in HK as [[-> [-> | ->]]|HK].
  { split; [done|]. split; [done|]. split; [done|]. split; [done|]. by rewrite app_nil_r. }
  { assert (Hf : pay_frame b (on_pay (fun s => s <| p_pending_buffers ::= skip_while (fun x => fst x <? a) |>) b)).
    { split; [done|]. split; [apply Hskip|]. split; [reflexivity|]. by repeat split. }
    split; [done|]. split; [|split; [done|split; [done|by rewrite app_nil_r]]].
    apply (pay_inv_step _ _ Hinv Hf); [apply Hinv|apply Hinv|by left|exact Hs]. }
  destruct HK as (front & back & c & n & sg & t & pts & stream & ppts & prt & mapping &
    Hae & Hhd & Hlast & Heb & _ & _ & _ & _ & Hst & _ & HK).
  apply (queue_timed_spec _ _ _ _ _ _ _ _ _ stream) in HK; [|exact Hst|apply Hinv|apply Hinv]. cbv zeta in HK.
  destruct HK as (l' & He & Hall & HK). change (p_stream (bp_state b) = Some stream) in Hst.
  assert (Hpar : Forall parsed l') by (eapply parsed_essence; [exact He|apply Hinv]).
  destruct r as [u|err].
  - destruct HK as (p & exts & stats & Hq & Hstats & ->).
    set (b1 := _ <| bp_extensions := exts |> <| bp_stats := stats |>).
    assert (Hf : pay_frame b b1).
    { split; [done|]. split; [apply Hskip|]. split; [cbn; by rewrite Hst|]. by repeat split. }
    destruct Hq as (? & ? & ? & ? & _ & _ & _ & Hess & _ & _ & _ & Hpts & _).
    split; [done|]. split; [|split; [done|split; [cbn; by rewrite Hst|]]].
    + apply (pay_inv_step _ _ Hinv Hf).
      * apply all_in_front, Forall_app. split; [done|]. constructor; [|done]. unfold timed. by rewrite Hpts.
      * apply Forall_app. split; [done|]. constructor; [by rewrite Hess|done].
      * right. by exists back.
      * cbn. rewrite Hst in Hs. split; [apply Hs|]. split; [apply Z.mod_pos_bound; lia|]. by apply Hstats, Hs.
    + cbn. by rewrite fmap_app, He, list_fmap_singleton, Hess.
  - destruct HK as [-> ->]. set (b1 := on_pay _ _).
    assert (Hf : pay_frame b b1).
    { split; [done|]. split; [apply Hskip|]. split; [reflexivity|]. by repeat split. }
    split; [done|]. split; [|split; [done|split; [done|by rewrite app_nil_r]]].
    apply (pay_inv_step _ _ Hinv Hf); [by apply all_in_front|done|by left|]. cbn. rewrite Hst in Hs |- *. exact Hs.
Qed.

Lemma queue_out_of_band_keeps packet b r b' :
  queue_out_of_band packet b = Ok (r, b') -> is_Some (p_stream (bp_state b)) -> pay_inv b ->
  pay_queue_effect r packet b b'.
Proof.
  unfold queue_out_of_band. intros (o & Hw & HK)%bind_ok [stream Hst] Hinv. apply write_packet_spec in Hw.
  destruct o as [p|]; injection HK as <- <-.
  2:{ split; [done|]. split; [done|]. split; [done|]. split; [done|]. by rewrite app_nil_r. }
  destruct Hw as (Hpts & _ & _ & _ & _ & h & Hh & Hc).
  set (q := set_discont _ p). assert (Hq : po_pts q = None /\ po_bytes q = po_bytes p) by (by subst q; destruct (p_discont_pending _)).
  destruct Hq as [Hq1 Hq2]. clearbody q.
  assert (Hess : essence q = Some (builder_essence packet)) by (eapply carries_essence; [exact Hc|by rewrite Hq2]).
  set (b1 := on_pay _ b).
  assert (Hf : pay_frame b b1).
  { split; [done|]. split; [by exists []|]. split; [reflexivity|]. by repeat split. }
  split; [done|]. split; [|split; [done|split; [done|]]].
  - apply (pay_inv_step _ _ Hinv Hf).
    + apply in_front_snoc; [apply Hinv|]. unfold timed. by rewrite Hq1.
    + apply Forall_app. split; [apply Hinv|]. constructor; [by rewrite Hess|done].
    + by left.
    + cbn. pose proof (pi_stream _ Hinv) as HX. by rewrite Hst in HX |- *.
  - cbn. by rewrite fmap_app, list_fmap_singleton, Hess.
Qed.

(** Queueing takes the next sequence number, even when it fails. *)
Lemma pay_queue_keeps rel packet b r b' :
  pay_queue_packet rel packet b = Ok (r, b') -> pay_inv b ->
  pay_frame b b' /\ pay_inv b' /\ bp_out b' = bp_out b /\
  match p_negotiated_src_caps (bp_state b), p_stream (bp_state b) with
  | Some _, Some stream =>
      let seqnum := wrap U16 (st_last_seqnum stream + 1) in
      st_last_seqnum <$> p_stream (bp_state b') = Some seqnum /\
      essence <$> pwaiting b' = (essence <$> pwaiting b) ++
        match r with
        | Success _ => [Some (seqnum, st_ssrc stream, st_pt stream, rb_marker_bit packet, rb_payload packet)]
        | Failure _ => []
        end
  | _, _ => r = Failure NotNegotiated /\ b' = b
  end.
Proof.
  intros HK Hinv. unfold pay_queue_packet in HK.
  destruct (p_negotiated_src_caps (bp_state b)) as [caps|] eqn:Hn; [|by injection HK as <- <-].
  apply bind_ok in HK as (stream & Hst%unwrap_ok & HK). rewrite Hst. cbv zeta in HK |- *.
  set (seqnum := wrap U16 (st_last_seqnum stream + 1)) in *. set (stream1 := stream <| st_last_seqnum := seqnum |>) in *.
  set (b1 := on_pay (fun s => s <| p_stream := Some stream1 |>) b) in *.
  set (packet1 := packet <| rb_payload_type := _ |> <| rb_ssrc := _ |> <| rb_sequence_number := _ |>) in *.
  assert (Hf : pay_frame b b1).
  { split; [done|]. split; [by exists []|]. split; [cbn; by rewrite Hst|]. by repeat split. }
  assert (Hinv1 : pay_inv b1).
  { apply (pay_inv_step _ _ Hinv Hf); [apply Hinv|apply Hinv|by left|]. cbn. pose proof (pi_stream _ Hinv) as HX.
    rewrite Hst in HX. split; [apply Z.mod_pos_bound; lia|apply HX]. }
  assert (He : pay_queue_effect r packet1 b1 b').
  { destruct rel; [by eapply queue_ids_keeps..|]. eapply queue_out_of_band_keeps; [exact HK|by exists stream1|done]. }
  destruct He as (F & I & O & L & E). split; [by etrans|]. split; [done|]. split; [exact O|]. split; [exact L|].
  rewrite E. by destruct r.
Qed.

Lemma pay_call_keeps b b' : pay_call b b' -> pay_inv b -> pay_inv b' /\ pay_frame b b'.
Proof.
  intros Hcall Hinv. destruct Hcall as [rel packet b r b' HK|bound b|b r b' HK].
  - by destruct (pay_queue_keeps _ _ _ _ _ HK Hinv) as (? & ? & _).
  - by destruct (pay_drop_keeps bound b Hinv).
  - by destruct (pay_finish_keeps _ _ _ HK Hinv).
Qed.

Lemma pay_calls_keep b b' : rtc pay_call b b' -> pay_inv b -> pay_inv b' /\ pay_frame b b'.
Proof.
  induction 1 as [b|b1 b2 b3 H12 _ IH]; intros Hinv; [done|].
  destruct (pay_call_keeps _ _ H12 Hinv) as [H2' F12]. destruct (IH H2') as [H3' F23].
  split; [done|by etrans].
Qed.
End Calls.
