(* ===== verification/BasePayProps.v ===== *)
(** * Operations of the payloader base class

    What a subclass may do, and that every operation of the element keeps the
    invariant. *)

From S2P Require Import Prelude Queues F64 Flow RtpBase DepayMeta BaseDepay BasePay BasePayInv.

(** The clock rate of caps is an [i32]. *)
Class PayCapsLaws `{PayCaps} : Prop := {
  fixate_clock_rate caps fixed c : open_fixate caps = Some fixed -> sk_clock_rate fixed = Some c -> c < 2 ^ 31;
}.

Section Element.
Context `{Gst} `{GstTime} `{StreamTime} `{RtpTypes} `{RtpWriter} `{HeaderExtensions} `{PayCaps} `{PayClass}
  `{!ExtensionWriter} `{!PayDrain} `{!PayNegotiate} `{!PaySubclass}.
Context `{!RtpWriterLaws} `{!PayMetasOnly} `{!PayCapsLaws}.
Abbreviation W := (PaySub * PayBase)%type.

(** A step of a subclass: a call of the base class, a change of its own state,
    or setting the output caps. *)
Inductive pay_step : W -> W -> Prop :=
| step_call w w' : pay_call w.2 w'.2 -> pay_step w w'
| step_own w w' : w'.2 = w.2 -> pay_step w w'
| step_caps caps w w' : pay_set_src_caps caps w = Ok w' -> pay_step w w'.

(** A subclass changes the base class through calls only; what it does to
    negotiate ends in the default. *)
Class UsesPay : Prop := {
  pdrain_uses w r w' : psub_drain w = Ok (r, w') -> rtc pay_call w.2 w'.2;
  pflush_uses w w' : psub_flush w = Ok w' -> rtc pay_call w.2 w'.2;
  pnegotiate_uses caps w w' : psub_negotiate caps w = Ok w' ->
    exists caps' w1, rtc pay_call w.2 w1.2 /\ negotiate_default caps' w1 = Ok w';
  phandle_uses buffer id w r w' : psub_handle_buffer buffer id w = Ok (r, w') -> rtc pay_step w w';
  pcaps_uses caps w r w' : psub_set_sink_caps caps w = Ok (r, w') -> rtc pay_step w w';
  pstart_uses w r w' : psub_start w = Ok (r, w') -> rtc pay_step w w';
  pstop_uses w r w' : psub_stop w = Ok (r, w') -> rtc pay_step w w';
}.
Context `{!UsesPay}.

(** ** Draining and flushing *)

(** Nothing is left. *)
Definition pay_emptied (b : PayBase) : Prop := p_pending_buffers (bp_state b) = [] /\ pwaiting b = [].

Lemma pay_flush_keeps w w' :
  pay_flush w = Ok w' -> pay_inv w.2 -> pay_frame w.2 w'.2 /\ pay_inv w'.2 /\ pay_emptied w'.2.
Proof.
  unfold pay_flush. intros (w1 & Hf & HK)%bind_ok Hinv. injection HK as <-.
  destruct (pay_calls_keep _ _ (pflush_uses _ _ Hf) Hinv) as [Hinv1 F1]. set (b2 := on_pay _ w1.2).
  assert (F2 : pay_frame w1.2 b2).
  { split; [done|]. split; [eexists; symmetry; apply app_nil_r|]. split; [reflexivity|]. by repeat split. }
  split; [by etrans|]. split; [|done]. apply (pay_inv_step _ _ Hinv1 F2); [by constructor|by constructor|by left|].
  cbn. pose proof (pi_stream _ Hinv1) as HX. by destruct (p_stream (bp_state w1.2)); [|destruct HX].
Qed.

Lemma pay_forward_keeps b r b' :
  pay_forward_pending b = Ok (r, b') -> pay_inv b -> pay_frame b b' /\ pay_inv b'.
Proof.
  unfold pay_forward_pending. cbv zeta. intros (s & Hs & HK)%bind_ok Hinv.
  assert (Hb : pay_frame b (b <| bp_state := s |>) /\ pay_inv (b <| bp_state := s |>)).
  { pose proof (pi_stream _ Hinv) as HX. destruct (negb _).
    - apply bind_ok in Hs as (stream & Hst%unwrap_ok & Hs). cbn in Hst. rewrite Hst in HX.
      destruct (stamp_pending_spec (p_last_pts (bp_state b)) (st_last_timestamp stream) (p_discont_pending (bp_state b)) (pwaiting b))
        as (l & Hl & He & Hall & _); [apply HX|apply Hinv..|].
      apply bind_ok in Hs as ([l0 d0] & Hl0 & Hs). injection Hs as <-. cbn in Hl0 |- *.
      change (stamp_pending (p_last_pts (bp_state b)) (st_last_timestamp stream) (p_discont_pending (bp_state b)) (pwaiting b)
        = Ok (l0, d0)) in Hl0. rewrite Hl in Hl0. injection Hl0 as <- <-.
      assert (F : pay_frame b (b <| bp_state := (bp_state b) <| p_pending_buffers := [] |> <| p_discont_pending := false |>
        <| p_pending_packets := take_while timed (pwaiting b) ++ l |> |>)).
      { split; [done|]. split; [eexists; symmetry; apply app_nil_r|]. split; [reflexivity|]. by repeat split. }
      split; [exact F|]. apply (pay_inv_step _ _ Hinv F); [by eapply stamped_in_front| |by left|cbn; by rewrite Hst].
      eapply parsed_essence; [exact He|apply Hinv].
    - injection Hs as <-.
      assert (F : pay_frame b (b <| bp_state := (bp_state b) <| p_pending_buffers := [] |> |>)).
      { split; [done|]. split; [eexists; symmetry; apply app_nil_r|]. split; [reflexivity|]. by repeat split. }
      split; [exact F|]. apply (pay_inv_step _ _ Hinv F); [apply Hinv..|by left|].
      cbn. by destruct (p_stream (bp_state b)); [|destruct HX]. }
  destruct Hb as [F1 I1]. destruct (pay_finish_keeps _ _ _ HK I1) as [F2 I2]. split; [by etrans|done].
Qed.

Lemma pay_drain_keeps w r w' :
  pay_drain w = Ok (r, w') -> pay_inv w.2 -> pay_frame w.2 w'.2 /\ pay_inv w'.2 /\ pay_emptied w'.2.
Proof.
  unfold pay_drain. intros ([d w1] & Hd & HK)%bind_ok Hinv. cbv beta iota in HK.
  destruct (pay_calls_keep _ _ (pdrain_uses _ _ _ Hd) Hinv) as [I1 F1].
  destruct d as [u|e].
  - apply bind_ok in HK as ([f b2] & Hf & HK). apply bind_ok in HK as (w3 & Hw3 & HK). injection HK as <- <-.
    destruct (pay_forward_keeps _ _ _ Hf I1) as [F2 I2].
    destruct (pay_flush_keeps _ _ Hw3 I2) as (F3 & I3 & E3). split; [|done]. etrans; [exact F1|by etrans].
  - apply bind_ok in HK as (w2 & Hw2 & HK). injection HK as <- <-.
    destruct (pay_flush_keeps _ _ Hw2 I1) as (F2 & I2 & E2). split; [by etrans|done].
Qed.

(** ** Negotiation *)
Lemma configure_stream_inv collision caps b b' :
  configure_stream collision caps b = Ok b' -> pay_inv b ->
  pay_inv b' /\ is_Some (p_stream (bp_state b')) /\ p_segment (bp_state b') = p_segment (bp_state b).
Proof.
  unfold configure_stream. intros HK Hinv. destruct Hinv as [I1 I2 I3 I4 I5 I6 I7 I8 I9 I10].
  destruct (p_stream (bp_state b)) as [stream|] eqn:Hst.
  - destruct collision as [ssrc|].
    + apply bind_ok in HK as (stats & Hstats%unwrap_ok & HK). injection HK as <-. split; [|done].
      split; try done. cbn. destruct I7 as (? & ? & ?). done.
    + injection HK as <-. split; [split; try done; by rewrite Hst|by rewrite Hst].
  - injection HK as <-. split; [|done]. split; try done. cbn. destruct I7 as [? _].
    split; [apply Z.mod_pos_bound; lia|]. split; [|done]. by destruct (ps_timestamp_offset (bp_settings b)).
Qed.

Lemma announce_caps_inv collision c caps w w' :
  announce_caps collision c caps w = Ok w' -> is_Some (p_stream (bp_state w.2)) -> 0 < c < U32 ->
  pay_inv w.2 -> pay_inv w'.2.
Proof.
  unfold announce_caps. cbv zeta. intros (stats & Hstats%unwrap_ok & HK)%bind_ok [stream Hst] Hc Hinv.
  apply bind_ok in HK as ([o s] & Hr & HK). cbv beta iota in HK.
  apply pay_retrieve_spec in Hr as [(ps & -> & _) _].
  assert (I1 : forall o', pay_inv (pay_out_segment o' (w.2 <| bp_state := (bp_state w.2) <| p_negotiated_src_caps := Some caps |>
      <| p_clock_rate := Some c |> <| p_pending_segment := ps |> |> <| bp_stats := Some (stats <| ys_clock_rate := Some c |>) |>))).
  { intros o'. destruct Hinv as [I1 I2 I3 I4 I5 I6 I7 I8 I9 I10]. rewrite Hst in I7.
    destruct o'; (split; try done; [|by exists c]); cbn; rewrite Hst; by destruct I7 as (? & ? & ?). }
  assert (Hout : forall o' b, pay_inv b -> pay_inv (pay_out o' b)) by (by intros o' b []; split).
  destruct (_ || _).
  - apply bind_ok in HK as ([d w1] & Hd & HK). injection HK as <-. apply Hout.
    apply pay_drain_keeps in Hd as (_ & ? & _); [done|apply I1].
  - injection HK as <-. cbn. destruct o as [o|]; cbn; [apply Hout, Hout, (I1 None)|apply Hout, (I1 None)].
Qed.

Lemma negotiate_default_inv caps w w' :
  negotiate_default caps w = Ok w' -> pay_inv w.2 -> pay_inv w'.2.
Proof.
  unfold negotiate_default. intros (fixed & Hfix%unwrap_ok & HK)%bind_ok Hinv.
  apply bind_ok in HK as (? & _ & HK). apply bind_ok in HK as (c & Hc%unwrap_ok & HK).
  apply bind_ok in HK as (? & Hpos%assert_ok & HK). rewrite Z.gtb_ltb in Hpos. apply Z.ltb_lt in Hpos.
  pose proof (fixate_clock_rate _ _ _ Hfix Hc) as Hmax.
  apply bind_ok in HK as ([[exts negotiated]|] & _ & HK); cbv beta iota zeta in HK.
  - apply bind_ok in HK as (b1 & Hb1 & HK). apply bind_ok in HK as (stream & Hst%unwrap_ok & HK).
    apply configure_stream_inv in Hb1 as (I1 & _); [|by destruct Hinv; split].
    destruct (bool_decide _); [by injection HK as <-|].
    eapply announce_caps_inv; [exact HK|by exists stream| |done].
    unfold wrap. rewrite Z.mod_small; change (2 ^ 31) with 2147483648 in Hmax; lia.
  - injection HK as <-. destruct Hinv as [I1 I2 I3 I4 I5 I6 I7 I8 I9 I10]. split; try done.
    + cbn. by destruct (p_stream (bp_state w.2)); [|destruct I7].
    + cbn. by intros [].
Qed.

Lemma pay_negotiate_inv w w' : negotiate w = Ok w' -> pay_inv w.2 -> pay_inv w'.2.
Proof.
  unfold negotiate. intros HK Hinv. destruct (p_src_caps (bp_state w.2)).
  - apply pnegotiate_uses in HK as (caps' & w1 & Hc & HK).
    apply negotiate_default_inv in HK; [done|]. apply (pay_calls_keep _ _ Hc). by destruct Hinv; split.
  - injection HK as <-. by destruct Hinv; split.
Qed.

Lemma pay_set_src_caps_inv caps w w' : pay_set_src_caps caps w = Ok w' -> pay_inv w.2 -> pay_inv w'.2.
Proof.
  unfold pay_set_src_caps. intros (name & _ & HK)%bind_ok Hinv. apply bind_ok in HK as (? & _ & HK).
  apply pay_negotiate_inv in HK; [done|]. by destruct Hinv; split.
Qed.

Lemma pay_steps_inv w w' : rtc pay_step w w' -> pay_inv w.2 -> pay_inv w'.2.
Proof.
  induction 1 as [w|w1 w2 w3 Hstep _ IH]; intros Hinv; [done|]. apply IH.
  destruct Hstep as [w1 w2 Hc|w1 w2 Hs|caps w1 w2 Hc].
  - by apply (pay_call_keeps _ _ Hc).
  - by rewrite Hs.
  - by eapply pay_set_src_caps_inv.
Qed.

(** ** Buffers *)
Lemma pay_drop_used_inv b : pay_inv b -> pay_inv (on_pay pay_drop_used b).
Proof.
  intros Hinv. assert (F : pay_frame b (on_pay pay_drop_used b)).
  { split; [done|]. split; [eexists; symmetry; apply take_skip_while|]. split; [reflexivity|]. by repeat split. }
  apply (pay_inv_step _ _ Hinv F); [apply Hinv|apply Hinv|by left|].
  cbn. pose proof (pi_stream _ Hinv) as HX. by destruct (p_stream (bp_state b)); [|destruct HX].
Qed.

Lemma deliver_buffer_inv buffer id w r w' :
  deliver_buffer buffer id w = Ok (r, w') -> pay_inv w.2 -> pay_inv w'.2.
Proof.
  unfold deliver_buffer. intros ([h w1] & Hh & HK)%bind_ok Hinv. cbv beta iota in HK.
  pose proof (pay_steps_inv _ _ (phandle_uses _ _ _ _ _ Hh) Hinv) as I1.
  apply bind_ok in HK as ([h2 w2] & Hw2 & HK). injection HK as <- <-. apply pay_drop_used_inv.
  destruct h as [u|e].
  - apply bind_ok in Hw2 as ([f b2] & Hf & Hw2). injection Hw2 as <- <-. by apply (pay_finish_keeps _ _ _ Hf).
  - by injection Hw2 as <- <-.
Qed.

Lemma pay_handle_buffer_inv buffer w r w' :
  pay_handle_buffer buffer w = Ok (r, w') -> pay_inv w.2 -> pay_inv w'.2.
Proof.
  unfold pay_handle_buffer. intros (w1 & Hw1 & HK)%bind_ok Hinv. cbv zeta in HK.
  assert (I1 : pay_inv w1.2).
  { destruct (bp_reconfigure w.2); [|by injection Hw1 as <-]. apply pay_negotiate_inv in Hw1; [done|].
    by destruct Hinv; split. }
  clear Hw1 Hinv. destruct (is_none _); [by injection HK as <- <-|].
  destruct (p_segment (bp_state w1.2)) as [sg|] eqn:Hsg; cbn [is_none] in HK; [|by injection HK as <- <-].
  destruct (_ && _); [by injection HK as <- <-|].
  destruct (or_else _ _) as [pts|]; [|by injection HK as <- <-].
  apply bind_ok in HK as (next & Hn%u64_add_ok & HK). destruct Hn as [-> _].
  apply deliver_buffer_inv in HK; [done|]. destruct I1 as [I1 I2 I3 I4 I5 I6 I7 I8 I9 I10].
  split; try done; cbn.
  - replace (p_current_buffer_id (bp_state w1.2) + 1 - 1) with (p_current_buffer_id (bp_state w1.2) - 1 + 1) by lia.
    apply numbered_snoc; [done|cbn; lia].
  - apply Forall_app. split; [done|]. by constructor.
  - lia.
Qed.

Lemma pay_handle_list_inv l w r w' : pay_handle_list l w = Ok (r, w') -> pay_inv w.2 -> pay_inv w'.2.
Proof.
  revert w. induction l as [|b l IH]; intros w HK Hinv; cbn in HK; [by injection HK as <- <-|].
  apply bind_ok in HK as ([h w1] & Hh & HK). cbv beta iota in HK. apply pay_handle_buffer_inv in Hh; [|done].
  destruct h; [by eapply IH|by injection HK as <- <-].
Qed.

(** ** Caps and events *)
Lemma pay_set_sink_caps_inv caps w r w' :
  pay_set_sink_caps caps w = Ok (r, w') -> pay_inv w.2 -> pay_inv w'.2.
Proof.
  unfold pay_set_sink_caps. cbv zeta. intros HK Hinv.
  assert (I1 : pay_inv (on_pay (fun s => s <| p_sink_caps := Some caps |>) w.2)) by (by destruct Hinv; split).
  destruct (bool_decide _); [by injection HK as <- <-|].
  apply bind_ok in HK as ([a w1] & Ha & HK). apply pcaps_uses in Ha. apply pay_steps_inv in Ha; [|done].
  destruct a; injection HK as <- <-; [done|]. by destruct Ha; split.
Qed.

(** Without a segment no buffer is pending. *)
Lemma no_segment_no_buffers b : pay_inv b -> p_segment (bp_state b) = None -> p_pending_buffers (bp_state b) = [].
Proof.
  intros Hinv Hs. destruct (p_pending_buffers (bp_state b)) as [|x l] eqn:E; [done|].
  destruct (pi_segment _ Hinv) as [sg Hsg]; [by rewrite E|congruence].
Qed.

Lemma pay_segment_event_inv n sg w r w' :
  pay_segment_event n sg w = Ok (r, w') -> pay_inv w.2 -> pay_inv w'.2.
Proof.
  unfold pay_segment_event. cbv zeta. intros HK Hinv. destruct (is_none _); [by injection HK as <- <-|].
  destruct (pay_same_segment _ _ _); [injection HK as <- <-; by destruct Hinv; split|].
  apply bind_ok in HK as ([d w1] & Hd & HK). cbv beta iota in HK.
  assert (I1 : pay_inv w1.2 /\ p_pending_buffers (bp_state w1.2) = []).
  { destruct (p_segment (bp_state w.2)) eqn:Hs; cbn [is_some] in Hd.
    - by apply pay_drain_keeps in Hd as (_ & ? & ? & _).
    - injection Hd as <- <-. split; [done|by apply no_segment_no_buffers]. }
  destruct I1 as [[I1 I2 I3 I4 I5 I6 I7 I8 I9 I10] Hnone]. destruct sg as [s|f].
  - destruct (is_none _); injection HK as <- <-; by split.
  - injection HK as <- <-. by split.
Qed.

Lemma pay_sink_event_inv ev w r w' :
  pay_sink_event_default ev w = Ok (r, w') -> pay_inv w.2 -> pay_inv w'.2.
Proof.
  intros HK Hinv. destruct ev as [caps|n sg| | |k]; cbn in HK.
  - by eapply pay_set_sink_caps_inv.
  - by eapply pay_segment_event_inv.
  - apply bind_ok in HK as ([d w1] & Hd & HK). injection HK as <- <-.
    apply pay_drain_keeps in Hd as (_ & Hd & _); [|done]. by destruct Hd; split.
  - apply bind_ok in HK as (w1 & Hf & HK). injection HK as <- <-.
    unfold pay_flush_stop in Hf. apply bind_ok in Hf as (w2 & Hw2 & Hf). injection Hf as <-.
    apply pay_flush_keeps in Hw2 as (_ & Hw2 & Hnone & _); [|done].
    destruct Hw2 as [I1 I2 I3 I4 I5 I6 I7 I8 I9 I10]. by split.
  - injection HK as <- <-. by destruct Hinv; split.
Qed.

(** ** Everything that happens *)

Definition pay_op_typed (op : PayOp) : Prop :=
  match op with PopEnv env => is_u32 (env_random_timestamp env) | _ => True end.

Lemma pay_new_inv env : is_u32 (env_random_timestamp env) -> pay_inv (PayBase_new env).
Proof. intros He. by split; try done; [by constructor..|intros []]. Qed.

Lemma pay_reset_inv w : pay_inv w.2 -> pay_inv (pay_reset_state w).2.
Proof. intros [I1 I2 I3 I4 I5 I6 I7 I8 I9 I10]. by split; try done; [by constructor..|intros []]. Qed.

Lemma pay_set_property_inv p b : pay_inv b -> pay_inv (b <| bp_settings ::= pay_set_property p |>).
Proof.
  intros [I1 I2 I3 I4 I5 I6 I7 I8 I9 I10]. split; try done. cbn. destruct p as [| | |v| | | | |]; try done. cbn.
  destruct (negb _); [|done]. apply Z.mod_pos_bound. lia.
Qed.

Lemma pay_exec_inv op w w' : pay_op_typed op -> pay_exec w op = Ok w' -> pay_inv w.2 -> pay_inv w'.2.
Proof.
  intros Hty HK Hinv. destruct op as [buffer|l|ev|ssrc sug draws| |env| | |ext| |p]; cbn [pay_exec] in HK.
  - apply bind_ok in HK as ([r w1] & Hw & HK). injection HK as <-. by eapply pay_handle_buffer_inv.
  - apply bind_ok in HK as ([r w1] & Hw & HK). injection HK as <-. by eapply pay_handle_list_inv.
  - apply bind_ok in HK as ([r w1] & Hw & HK). injection HK as <-. by eapply pay_sink_event_inv.
  - injection HK as <-. cbn. unfold handle_ssrc_collision_event.
    destruct ssrc as [ssrc|]; [|done]. destruct (bp_stats w.2) as [stats|] eqn:Hs; [|done]. destruct (negb _); [done|].
    match goal with |- context [?m ≫= _] => destruct m as [n|] end; [|done]. cbn.
    destruct Hinv as [I1 I2 I3 I4 I5 I6 I7 I8 I9 I10]. split; try done.
  - injection HK as <-. by destruct Hinv; split.
  - injection HK as <-. destruct Hinv as [I1 I2 I3 I4 I5 I6 I7 I8 I9 I10]. by split.
  - apply bind_ok in HK as ([r w1] & Hw & HK). injection HK as <-. apply pstart_uses in Hw.
    apply pay_steps_inv in Hw; [done|]. by apply pay_reset_inv.
  - apply bind_ok in HK as ([r w1] & Hw & HK). injection HK as <-. unfold pay_paused_to_ready in Hw.
    apply bind_ok in Hw as ([s w2] & Hw2 & Hw). apply pstop_uses in Hw2. apply pay_steps_inv in Hw2; [|done].
    destruct s; injection Hw as <- <-; [by apply pay_reset_inv|done].
  - unfold pay_add_extension in HK. apply bind_ok in HK as (? & _ & HK). injection HK as <-. by destruct Hinv; split.
  - injection HK as <-. by destruct Hinv; split.
  - injection HK as <-. by apply pay_set_property_inv.
Qed.

Lemma pay_run_inv ops w w' :
  Forall pay_op_typed ops -> res_fold pay_exec w ops = Ok w' -> pay_inv w.2 -> pay_inv w'.2.
Proof.
  revert w. induction ops as [|op ops IH]; intros w Hty HK Hinv; cbn in HK; [by injection HK as <-|].
  apply Forall_cons in Hty as [Hop Hty]. apply bind_ok in HK as (w1 & Hw1 & HK).
  eapply IH; [done|exact HK|]. by eapply pay_exec_inv.
Qed.
End Element.
