(* ===== verification/RtpWire.v ===== *)
(** * Reading and writing RTP packets

    An instance of the interfaces of the rtp_types crate that follows RFC 3550
    (without padding), with the laws the base classes rely on. It makes the
    theorems about them applicable to concrete packets. *)

From S2P Require Import Prelude Queues F64 Flow RtpBase DepayMeta BaseDepay BaseDepayInv BasePay BasePayInv.

(** ** Numbers as bytes *)
Definition be16 (x : Z) : list Z := [x / 256; x mod 256].
Definition be32 (x : Z) : list Z := [x / 16777216; x / 65536 mod 256; x / 256 mod 256; x mod 256].
Definition of16 (a b : Z) : Z := a * 256 + b.
Definition of32 (a b c d : Z) : Z := ((a * 256 + b) * 256 + c) * 256 + d.

Fixpoint words (l : list Z) : list Z :=
  match l with
  | a :: b :: c :: d :: l => of32 a b c d :: words l
  | _ => []
  end.

Ltac bytes_lia := unfold is_u8, is_u16, is_u32, of16, of32 in *; Z.to_euclidean_division_equations; lia.

Lemma of16_be16 x : is_u16 x -> of16 (x / 256) (x mod 256) = x.
Proof. intros. bytes_lia. Qed.

Lemma of32_be32 x : is_u32 x -> of32 (x / 16777216) (x / 65536 mod 256) (x / 256 mod 256) (x mod 256) = x.
Proof. intros. bytes_lia. Qed.

Lemma be16_bytes x : is_u16 x -> Forall is_u8 (be16 x).
Proof. intros. apply Forall_cons. split; [bytes_lia|]. apply Forall_cons. split; [bytes_lia|done]. Qed.

Lemma be32_bytes x : is_u32 x -> Forall is_u8 (be32 x).
Proof. intros. repeat (apply Forall_cons; split; [bytes_lia|]). done. Qed.

Lemma words_be32 l : Forall is_u32 l -> words (mjoin (be32 <$> l)) = l.
Proof. induction 1 as [|x l Hx _ IH]; [done|]. change (mjoin (be32 <$> x :: l)) with (be32 x ++ mjoin (be32 <$> l)).
  cbn [be32 app words]. by rewrite of32_be32, IH. Qed.

Lemma length_be32s l : length (mjoin (be32 <$> l)) = (4 * length l)%nat.
Proof. induction l as [|x l IH]; [done|]. change (mjoin (be32 <$> x :: l)) with (be32 x ++ mjoin (be32 <$> l)).
  rewrite length_app, IH. cbn. lia. Qed.

Lemma be32s_bytes l : Forall is_u32 l -> Forall is_u8 (mjoin (be32 <$> l)).
Proof. induction 1 as [|x l Hx _ IH]; [done|]. change (mjoin (be32 <$> x :: l)) with (be32 x ++ mjoin (be32 <$> l)).
  apply Forall_app_2; [by apply be32_bytes|done]. Qed.

(** ** Packets *)
Definition byteb (b : Z) : bool := (0 <=? b) && (b <? U8).

Lemma forallb_bytes l : forallb byteb l = true <-> Forall is_u8 l.
Proof.
  induction l as [|b l IH]; cbn; [done|]. rewrite andb_true_iff, IH, Forall_cons. unfold byteb, is_u8.
  rewrite andb_true_iff, Z.leb_le, Z.ltb_lt. done.
Qed.

(** What follows the fixed part and the sources: the extension and the payload. *)
Definition split_extension (extended : bool) (rest : list Z) : option (option (Z * list Z) * list Z) :=
  if extended then
    match rest with
    | p1 :: p0 :: l1 :: l0 :: rest =>
        let len := Z.to_nat (4 * of16 l1 l0) in
        if (length rest <? len)%nat then None else Some (Some (of16 p1 p0, take len rest), drop len rest)
    | _ => None
    end
  else Some (None, rest).

Definition wire_parse (bytes : list Z) : option RtpHeader :=
  match bytes with
  | b0 :: b1 :: s1 :: s0 :: t3 :: t2 :: t1 :: t0 :: c3 :: c2 :: c1 :: c0 :: rest =>
      if forallb byteb bytes && (b0 / 32 =? 4) then
        let n := Z.to_nat (4 * (b0 mod 16)) in
        if (length rest <? n)%nat then None
        else
          '(extension, payload) ← split_extension (b0 / 16 mod 2 =? 1) (drop n rest);
          Some (mkRtpHeader (of16 s1 s0) (of32 c3 c2 c1 c0) (b1 mod 128) (of32 t3 t2 t1 t0) (b1 / 128 =? 1) extension
                  (match extension with Some (_, data) => Z.of_nat (length data) | None => 0 end)
                  (words (take n rest)) payload (Z.of_nat (length bytes) - Z.of_nat (length payload)))
      else None
  | _ => None
  end.

Definition extension_bytes (e : option (Z * list Z)) : list Z :=
  match e with
  | Some (pattern, data) => be16 pattern ++ be16 (Z.of_nat (length data) / 4) ++ data
  | None => []
  end.

Definition wire_bytes (b : RtpBuilder) : list Z :=
  [128 + (if is_some (rb_extension b) then 16 else 0) + Z.of_nat (length (rb_csrc b));
   (if rb_marker_bit b then 128 else 0) + rb_payload_type b]
  ++ be16 (rb_sequence_number b) ++ be32 (rb_timestamp b) ++ be32 (rb_ssrc b)
  ++ mjoin (be32 <$> rb_csrc b) ++ extension_bytes (rb_extension b) ++ rb_payload b.

#[export] Instance builder_ok_dec b : Decision (builder_ok b).
Proof.
  unfold builder_ok, is_u32, is_u16. repeat apply and_dec; try apply _.
  destruct (rb_extension b) as [[p d]|]; [|apply _]. repeat apply and_dec; apply _.
Defined.

Definition wire_write (b : RtpBuilder) : option (list Z) :=
  if bool_decide (builder_ok b) then Some (wire_bytes b) else None.

Definition wire_set_timestamp (ts : Z) (bytes : list Z) : option (list Z) :=
  match wire_parse bytes with
  | Some _ => Some (take 4 bytes ++ be32 ts ++ drop 8 bytes)
  | None => None
  end.

Definition wire_set_extension (data bytes : list Z) : list Z :=
  match bytes with
  | b0 :: _ =>
      let offset := Z.to_nat (16 + 4 * (b0 mod 16)) in
      take offset bytes ++ data ++ drop (offset + length data) bytes
  | [] => []
  end.

#[export] Instance rtp_wire : RtpTypes := {|
  RtpPacket_parse := wire_parse;
  meta_transform m b := Some (b <| ob_metas ::= fun l => l ++ [m] |>);
|}.

#[export] Instance rtp_wire_writer : RtpWriter := {|
  RtpBuilder_write := wire_write;
  RtpPacketMut_set_timestamp := wire_set_timestamp;
  RtpPacketMut_set_extension := wire_set_extension;
|}.

(** ** Laws *)
Lemma extension_bytes_ok e :
  match e with
  | Some (pattern, data) =>
      is_u16 pattern /\ Forall is_u8 data /\ Z.of_nat (length data) mod 4 = 0 /\ Z.of_nat (length data) < 4 * U16
  | None => True
  end ->
  Forall is_u8 (extension_bytes e) /\
  Z.of_nat (length (extension_bytes e)) = match e with Some (_, data) => 4 + Z.of_nat (length data) | None => 0 end /\
  forall payload, split_extension (is_some e) (extension_bytes e ++ payload) = Some (e, payload).
Proof.
  destruct e as [[pattern data]|]; [|by cbn]. intros (Hp & Hd & Hm & Hl). cbn [extension_bytes].
  assert (Hn : is_u16 (Z.of_nat (length data) / 4)) by bytes_lia.
  split; [repeat apply Forall_app_2; [by apply be16_bytes..|done]|].
  split; [rewrite !length_app; cbn; lia|]. intros payload.
  cbn [be16 app split_extension is_some]. cbv zeta. rewrite !of16_be16 by done. rewrite length_app.
  replace (Z.to_nat (4 * (Z.of_nat (length data) / 4))) with (length data) by (Z.to_euclidean_division_equations; lia).
  destruct (Nat.ltb_spec (length data + length payload) (length data)); [lia|].
  by rewrite take_app_length, drop_app_length.
Qed.

Lemma rev_first_byte x n :
  0 <= n <= 15 -> (x = 0 \/ x = 16) ->
  (128 + x + n) / 32 = 4 /\ (128 + x + n) mod 16 = n /\ (128 + x + n) / 16 mod 2 = x / 16.
Proof. intros Hn [-> | ->]; split; [|split| |split]; Z.to_euclidean_division_equations; lia. Qed.

Lemma wire_bytes_ok b :
  builder_ok b ->
  Forall is_u8 (wire_bytes b) /\ Z.of_nat (length (wire_bytes b)) = builder_len b /\
  exists h, wire_parse (wire_bytes b) = Some h /\ carries b h.
Proof.
  intros (Hpt & Hssrc & Hseq & Hts & Hpl & Hn & Hcsrc & Hext).
  destruct (extension_bytes_ok _ Hext) as (Heb & Hel & Hsplit).
  set (x := if is_some (rb_extension b) then 16 else 0). assert (Hx : x = 0 \/ x = 16) by (subst x; destruct (is_some _); auto).
  destruct (rev_first_byte x (Z.of_nat (length (rb_csrc b)))) as (D1 & D2 & D3); [unfold MAX_N_CSRCS in Hn; lia|done|].
  assert (Hby : Forall is_u8 (wire_bytes b)).
  { unfold wire_bytes. fold x. repeat apply Forall_app_2; [|by apply be16_bytes|by apply be32_bytes..|by apply be32s_bytes|done|done].
    apply Forall_cons. split; [unfold is_u8; unfold MAX_N_CSRCS in Hn; lia|]. apply Forall_cons. split; [|done].
    unfold is_u8. destruct (rb_marker_bit b); lia. }
  assert (Hlen : Z.of_nat (length (wire_bytes b)) = builder_len b).
  { unfold wire_bytes, builder_len, MIN_RTP_PACKET_LEN. rewrite !length_app, !Nat2Z.inj_add, Hel, length_be32s. cbn [length be16 be32].
    destruct (rb_extension b) as [[]|]; lia. }
  split; [done|]. split; [done|]. pose proof Hby as Hb%forallb_bytes. revert Hlen Hb. unfold wire_parse.
  set (all := wire_bytes b). unfold wire_bytes in all. fold x in all. cbn [app be16 be32] in all. unfold all at 3. intros Hlen Hb.
  rewrite Hb, D1, D2, D3. cbn [andb Z.eqb Pos.eqb].
  replace (Z.to_nat (4 * Z.of_nat (length (rb_csrc b)))) with (length (mjoin (be32 <$> rb_csrc b))) by (rewrite length_be32s; lia).
  destruct (Nat.ltb_spec (length (mjoin (be32 <$> rb_csrc b) ++ extension_bytes (rb_extension b) ++ rb_payload b))
    (length (mjoin (be32 <$> rb_csrc b)))); [rewrite length_app in *; lia|].
  rewrite take_app_length, drop_app_length.
  replace (x / 16 =? 1) with (is_some (rb_extension b)) by (subst x; by destruct (is_some _)).
  rewrite Hsplit. cbn. eexists. split; [reflexivity|]. unfold carries. cbn.
  rewrite of16_be16, !of32_be32, words_be32 by done. split; [done|]. split; [done|].
  destruct (rb_marker_bit b); (split; [Z.to_euclidean_division_equations; lia|]); (split; [done|]);
    (split; [|done]); [apply Z.eqb_eq|apply Z.eqb_neq]; Z.to_euclidean_division_equations; lia.
Qed.

(** The parts of a packet that parses. *)
Lemma wire_parse_inv bytes h :
  wire_parse bytes = Some h ->
  exists b0 b1 s1 s0 t3 t2 t1 t0 c3 c2 c1 c0 csrc rest,
    bytes = [b0; b1; s1; s0; t3; t2; t1; t0; c3; c2; c1; c0] ++ csrc ++ rest /\ Forall is_u8 bytes /\ b0 / 32 = 4 /\
    length csrc = Z.to_nat (4 * (b0 mod 16)) /\
    split_extension (b0 / 16 mod 2 =? 1) rest = Some (rh_extension h, rh_payload h) /\
    h = mkRtpHeader (of16 s1 s0) (of32 c3 c2 c1 c0) (b1 mod 128) (of32 t3 t2 t1 t0) (b1 / 128 =? 1) (rh_extension h)
          (match rh_extension h with Some (_, data) => Z.of_nat (length data) | None => 0 end) (words csrc) (rh_payload h)
          (Z.of_nat (length bytes) - Z.of_nat (length (rh_payload h))).
Proof.
  unfold wire_parse. intros HK. do 12 (destruct bytes as [|? bytes]; [done|]).
  destruct (_ && _) eqn:Hb; [|done]. apply andb_prop in Hb as [Hb%forallb_bytes Hv%Z.eqb_eq]. cbv zeta in HK.
  set (n := Z.to_nat _) in HK. destruct (Nat.ltb_spec (length bytes) n); [done|].
  destruct (split_extension _ (drop n bytes)) as [[ext payload]|] eqn:He; [|done]. injection HK as <-.
  do 12 eexists. exists (take n bytes), (drop n bytes). rewrite take_drop. split; [done|]. split; [done|]. split; [done|].
  split; [rewrite length_take; lia|]. split; [exact He|done].
Qed.

(** Putting the parts together again. *)
Lemma wire_parse_parts b0 b1 s1 s0 t3 t2 t1 t0 c3 c2 c1 c0 csrc rest ext payload :
  let bytes := [b0; b1; s1; s0; t3; t2; t1; t0; c3; c2; c1; c0] ++ csrc ++ rest in
  Forall is_u8 bytes -> b0 / 32 = 4 -> length csrc = Z.to_nat (4 * (b0 mod 16)) ->
  split_extension (b0 / 16 mod 2 =? 1) rest = Some (ext, payload) ->
  wire_parse bytes = Some (mkRtpHeader (of16 s1 s0) (of32 c3 c2 c1 c0) (b1 mod 128) (of32 t3 t2 t1 t0) (b1 / 128 =? 1) ext
    (match ext with Some (_, data) => Z.of_nat (length data) | None => 0 end) (words csrc) payload
    (Z.of_nat (length bytes) - Z.of_nat (length payload))).
Proof.
  intros bytes Hb%forallb_bytes Hv Hl He. unfold wire_parse. subst bytes. cbn [app] in Hb |- *.
  rewrite Hb, Hv. cbn [andb Z.eqb Pos.eqb]. rewrite <- Hl.
  destruct (Nat.ltb_spec (length (csrc ++ rest)) (length csrc)); [rewrite length_app in *; lia|].
  by rewrite take_app_length, drop_app_length, He.
Qed.

#[export] Instance rtp_wire_laws : RtpTypesLaws.
Proof.
  split; intros bytes h Hh; cbn in Hh; apply wire_parse_inv in Hh as
    (b0 & b1 & s1 & s0 & t3 & t2 & t1 & t0 & c3 & c2 & c1 & c0 & csrc & rest & -> & Hb & _ & _ & He & ->);
    apply Forall_app in Hb as [Hb _]; repeat (apply Forall_cons in Hb as [? Hb]); cbn [rh_sequence_number rh_timestamp
      rh_extension rh_extension_len rh_payload rh_payload_offset] in *.
  - bytes_lia.
  - bytes_lia.
  - destruct (rh_extension h) as [[]|]; [by eexists|done].
  - revert He. unfold split_extension. destruct (_ =? 1).
    + destruct rest as [|p1 [|p0 [|l1 [|l0 rest]]]]; [done..|]. cbv zeta. destruct (_ <? _)%nat; [done|]. intros [= _ He].
      exists ([b0; b1; s1; s0; t3; t2; t1; t0; c3; c2; c1; c0] ++ csrc ++ [p1; p0; l1; l0] ++ take (Z.to_nat (4 * of16 l1 l0)) rest), [].
      rewrite app_nil_r, <- He. split; [rewrite <- !app_assoc; do 2 f_equal; cbn; by rewrite take_drop|].
      rewrite !length_app, length_drop, length_take. cbn. lia.
    + intros [= _ He]. exists ([b0; b1; s1; s0; t3; t2; t1; t0; c3; c2; c1; c0] ++ csrc), []. rewrite app_nil_r, <- He. split; [by rewrite <- app_assoc|].
      rewrite !length_app. cbn. lia.
Qed.

Lemma wire_set_timestamp_spec ts bytes h :
  is_u32 ts -> wire_parse bytes = Some h ->
  exists bytes', wire_set_timestamp ts bytes = Some bytes' /\ length bytes' = length bytes /\
    wire_parse bytes' = Some (h <| rh_timestamp := ts |>).
Proof.
  intros Hts Hh. unfold wire_set_timestamp. rewrite Hh. apply wire_parse_inv in Hh as
    (b0 & b1 & s1 & s0 & t3 & t2 & t1 & t0 & c3 & c2 & c1 & c0 & csrc & rest & -> & Hb & Hv & Hl & He & ->).
  eexists. split; [reflexivity|]. cbn [take drop app be32]. split; [done|].
  assert (Hby : Forall is_u8 ([b0; b1; s1; s0; ts / 16777216; ts / 65536 mod 256; ts / 256 mod 256; ts mod 256;
    c3; c2; c1; c0] ++ csrc ++ rest)).
  { apply Forall_app in Hb as [Hb Hr]. apply Forall_app. split; [|done].
    repeat (apply Forall_cons in Hb as [? Hb]). pose proof (be32_bytes _ Hts) as Ht.
    repeat (apply Forall_cons in Ht as [? Ht]). by repeat (apply Forall_cons; split; [done|]). }
  pose proof (wire_parse_parts _ _ _ _ _ _ _ _ _ _ _ _ _ _ _ _ Hby Hv Hl He) as HP.
  cbn [app] in HP. rewrite HP. cbn. by rewrite of32_be32.
Qed.

Lemma wire_set_extension_spec data bytes h pattern old :
  wire_parse bytes = Some h -> rh_extension h = Some (pattern, old) -> length data = length old -> Forall is_u8 data ->
  length (wire_set_extension data bytes) = length bytes /\
  wire_parse (wire_set_extension data bytes) = Some (h <| rh_extension := Some (pattern, data) |>).
Proof.
  intros Hh Hx Hd Hdb. apply wire_parse_inv in Hh as
    (b0 & b1 & s1 & s0 & t3 & t2 & t1 & t0 & c3 & c2 & c1 & c0 & csrc & rest & -> & Hb & Hv & Hl & He & Hhd).
  rewrite Hx in He, Hhd. pose proof He as He'. revert He'. unfold split_extension at 1. destruct (_ =? 1) eqn:Hbit; [|by intros [= ?]].
  destruct rest as [|p1 [|p0 [|l1 [|l0 rest]]]]; [done..|]. cbv zeta.
  set (len := Z.to_nat (4 * of16 l1 l0)). destruct (Nat.ltb_spec (length rest) len); [done|]. intros [= Hp Ho Hpl].
  assert (Hlen : length data = len) by (rewrite Hd, <- Ho, length_take; lia).
  set (hdr := [b0; b1; s1; s0; t3; t2; t1; t0; c3; c2; c1; c0]) in *.
  assert (Hset : wire_set_extension data (hdr ++ csrc ++ p1 :: p0 :: l1 :: l0 :: rest)
                 = hdr ++ csrc ++ p1 :: p0 :: l1 :: l0 :: data ++ rh_payload h).
  { assert (Hm : 0 <= b0 mod 16 < 16) by (apply Z.mod_pos_bound; lia). set (all := hdr ++ _).
    change (wire_set_extension data all) with (take (Z.to_nat (16 + 4 * (b0 mod 16))) all ++ data
      ++ drop (Z.to_nat (16 + 4 * (b0 mod 16)) + length data) all).
    replace (Z.to_nat (16 + 4 * (b0 mod 16))) with (length (hdr ++ csrc ++ [p1; p0; l1; l0]))
      by (rewrite !length_app, Hl; cbn; lia).
    replace all with ((hdr ++ csrc ++ [p1; p0; l1; l0]) ++ rest) by (subst all; by rewrite <- !app_assoc).
    rewrite take_app_length, <- drop_drop, drop_app_length, Hlen, Hpl. by rewrite <- !app_assoc. }
  rewrite Hset. split.
  { rewrite !length_app. cbn [length]. rewrite length_app, <- Hpl, length_drop. lia. }
  subst hdr. rewrite (wire_parse_parts _ _ _ _ _ _ _ _ _ _ _ _ csrc (p1 :: p0 :: l1 :: l0 :: data ++ rh_payload h)
    (Some (pattern, data)) (rh_payload h)); [|..|done|done|].
  - rewrite Hhd. unfold modify. cbn. rewrite Hd. do 2 f_equal. rewrite !length_app. cbn [length].
    rewrite length_app, <- Hpl, length_drop. lia.
  - apply Forall_app in Hb as [Hb1 Hb]. apply Forall_app in Hb as [Hb2 Hb]. apply Forall_app. split; [done|]. apply Forall_app.
    split; [done|]. do 4 (apply Forall_cons in Hb as [? Hb]; apply Forall_cons; split; [done|]). apply Forall_app.
    split; [done|]. rewrite <- Hpl. by apply Forall_drop.
  - unfold split_extension. rewrite Hbit. cbv zeta. fold len. rewrite length_app, Hlen.
    destruct (Nat.ltb_spec (len + length (rh_payload h)) len); [lia|]. rewrite <- Hlen, take_app_length, drop_app_length.
    by rewrite Hp.
Qed.

#[export] Instance rtp_wire_writer_laws : RtpWriterLaws.
Proof.
  split; cbn.
  - intros b Hb. unfold wire_write. rewrite bool_decide_eq_true_2 by done. by eexists.
  - intros b bytes. unfold wire_write. destruct (bool_decide _) eqn:Hb; [|done]. apply bool_decide_eq_true in Hb.
    intros [= <-]. by destruct (wire_bytes_ok _ Hb) as (_ & ? & ?).
  - apply wire_set_timestamp_spec.
  - apply wire_set_extension_spec.
Qed.
