(* ===== verification/BasePayRun.v ===== *)
(** * Theorems about the payloader base class

    The invariant over any sequence of operations and any subclass, the numbers
    and the time of packets, their size, absence of panics when queueing, what
    becomes of an SSRC collision, and inputs on which the code panics. *)

From S2P Require Import Prelude Queues F64 Flow RtpBase DepayMeta BaseDepay BaseDepayInv BaseDepayProps BaseDepayRun BasePay BasePayInv BasePayProps RtpWire.

Section Queueing.
Context `{Gst} `{GstTime} `{StreamTime} `{RtpTypes} `{RtpWriter} `{HeaderExtensions} `{PayCaps} `{PayClass}
  `{!ExtensionWriter}.
Context `{!RtpWriterLaws} `{!PayMetasOnly}.

(** ** Numbers *)

(** Calls of a subclass, with the packets it queues and whether that succeeds. *)
Inductive pay_queues : PayBase -> list (bool * RtpBuilder) -> PayBase -> Prop :=
| pq_done b : pay_queues b [] b
| pq_queue rel packet b r b1 qs b2 :
    pay_queue_packet rel packet b = Ok (r, b1) -> pay_queues b1 qs b2 ->
    pay_queues b ((match r with Success _ => true | Failure _ => false end, packet) :: qs) b2
| pq_drop bound b qs b2 : pay_queues (pay_drop_buffers bound b) qs b2 -> pay_queues b qs b2
| pq_finish b r b1 qs b2 : finish_pending_packets b = Ok (r, b1) -> pay_queues b1 qs b2 -> pay_queues b qs b2.

(** What the packets say: every call takes the next number. *)
Fixpoint numbered_packets (ssrc pt last_seqnum : Z) (qs : list (bool * RtpBuilder))
  : list (option (Z * Z * Z * bool * list Z)) :=
  match qs with
  | [] => []
  | (ok, packet) :: qs =>
      let seqnum := wrap U16 (last_seqnum + 1) in
      (if ok : bool then [Some (seqnum, ssrc, pt, rb_marker_bit packet, rb_payload packet)] else [])
      ++ numbered_packets ssrc pt seqnum qs
  end.

Definition stream_of_packets (b : PayBase) : list (option (Z * Z * Z * bool * list Z)) :=
  essence <$> (psent b ++ pwaiting b).

Lemma finish_stream b r b' :
  finish_pending_packets b = Ok (r, b') -> pay_inv b ->
  stream_of_packets b' = stream_of_packets b /\ (exists more, bp_out b' = bp_out b ++ more) /\
  p_stream (bp_state b') = p_stream (bp_state b).
Proof.
  intros HK Hinv. apply pay_finish_spec in HK as (ps & l & a & out & -> & _ & Hj & _); [|apply Hinv].
  split; [|split; [by exists out|done]]. unfold stream_of_packets. f_equal. rewrite <- Hj. unfold psent, pwaiting, pushed_on. cbn.
  by rewrite fmap_app, join_app, app_assoc.
Qed.

Lemma pay_queues_numbered b qs b' stream :
  pay_queues b qs b' -> pay_inv b -> is_Some (p_negotiated_src_caps (bp_state b)) -> p_stream (bp_state b) = Some stream ->
  stream_of_packets b' = stream_of_packets b ++ numbered_packets (st_ssrc stream) (st_pt stream) (st_last_seqnum stream) qs /\
  (exists more, bp_out b' = bp_out b ++ more) /\ pay_inv b'.
Proof.
  intros Hq. revert stream. induction Hq as [b|rel packet b r b1 qs b2 HK _ IH|bound b qs b2 _ IH|b r b1 qs b2 HK _ IH];
    intros stream Hinv [caps Hn] Hst.
  - rewrite app_nil_r. split; [done|]. split; [exists []; by rewrite app_nil_r|done].
  - destruct (pay_queue_keeps _ _ _ _ _ HK Hinv) as (F & I1 & Hout & HX). rewrite Hn, Hst in HX. destruct HX as [Hseq Hess].
    destruct F as (_ & _ & Hcfg & _ & _ & _ & Hneg & _). rewrite Hst in Hcfg.
    destruct (p_stream (bp_state b1)) as [stream1|] eqn:Hst1; [|done]. injection Hseq as Hseq. destruct Hcfg as (Hpt & Hssrc & _).
    destruct (IH stream1 I1) as (Hs2 & [more Hm] & I2); [by rewrite Hneg, Hn|done|].
    split; [|split; [exists more; by rewrite Hm, Hout|done]].
    rewrite Hs2, Hpt, Hssrc, Hseq. unfold stream_of_packets, psent. rewrite Hout, !fmap_app, Hess. cbn [numbered_packets]. cbv zeta.
    destruct r; cbn; by rewrite <- !app_assoc.
  - destruct (pay_drop_keeps bound b Hinv) as [F I1]. destruct (pay_drop_spec bound b) as (k & l & Hk & Hb). rewrite Hb in *.
    exact (IH stream I1 (ex_intro _ caps Hn) Hst).
  - destruct (pay_finish_keeps _ _ _ HK Hinv) as [F I1]. destruct (finish_stream _ _ _ HK Hinv) as (Hs1 & [m1 Hm1] & Hst1).
    destruct F as (_ & _ & _ & _ & _ & _ & Hneg & _).
    destruct (IH stream I1) as (Hs2 & [m2 Hm2] & I2); [by rewrite Hneg, Hn|by rewrite Hst1|].
    split; [by rewrite Hs2, Hs1|]. split; [exists (m1 ++ m2); by rewrite Hm2, Hm1, app_assoc|done].
Qed.

(** ** Room *)
Lemma omap_length_le {A B} (f : A -> option B) l : (length (omap f l) <= length l)%nat.
Proof. induction l as [|x l IH]; cbn; [done|]. destruct (f x); cbn; lia. Qed.

Lemma by_id_length {V} (m : gmap Z V) : Z.of_nat (length (by_id m)) <= U8.
Proof.
  unfold by_id. assert (HU : 0 <= U8) by lia. revert HU. generalize U8. intros n Hn.
  pose proof (omap_length_le (fun i => v ← m !! i; Some (i, v)) (seqZ 0 n)) as Hl. rewrite length_seqZ in Hl. lia.
Qed.

(** The sizes of extensions, and whether they all fit either form. *)
Lemma extension_sizes input exts one two size one' two' size' :
  fold_left (fun '(one, two, size) '(_, extension) =>
      let max_size := ext_max_size extension input in
      let id := ext_id extension in
      (one && ext_supported_one_byte extension && negb ((max_size >? 16) || (id >? 14)),
       two && ext_supported_two_byte extension && negb ((max_size >? 255) || (id >? 255)),
       size + max_size))
    exts (one, two, size) = (one', two', size') ->
  size <= size' /\
  (one' = true -> one = true /\ Forall (fun e : Z * Ext => ext_max_size e.2 input <= 16) exts /\
                  size' <= size + 16 * Z.of_nat (length exts)) /\
  (two' = true -> two = true /\ Forall (fun e : Z * Ext => ext_max_size e.2 input <= 255) exts /\
                  size' <= size + 255 * Z.of_nat (length exts)).
Proof.
  revert one two size. induction exts as [|[id e] exts IH]; intros one two size HK; cbn in HK.
  { injection HK as <- <- <-. split; [lia|]. cbn. split; intros ?; (split; [done|]; split; [by constructor|lia]). }
  pose proof (ext_max_size_pos e input) as Hpos.
  apply IH in HK as (Hs & Hone1 & Htwo2). split; [lia|].
  split; [intros [Hb Hx]%Hone1|intros [Hb Hx]%Htwo2]; clear Hone1 Htwo2;
    apply andb_prop in Hb as [[Hone _]%andb_prop [Hm _]%negb_true_iff%orb_false_elim];
    rewrite Z.gtb_ltb in Hm; apply Z.ltb_ge in Hm; destruct Hx as [Hall Hle];
    (split; [done|]); (split; [by constructor|cbn [length]; lia]).
Qed.

(** A form that every extension fits, and a size in bounds. *)
Lemma calculate_spec exts input flags pattern size :
  calculate_extension_size exts input = (flags, pattern, size) -> Z.of_nat (length exts) <= U8 ->
  0 <= size <= 257 * U8 + 3 /\ size mod 4 = 0 /\ is_u16 pattern /\ (pattern = 0 -> size = 0) /\
  match flags with
  | Some ONE_BYTE => Forall (fun e : Z * Ext => ext_max_size e.2 input <= 16) exts
  | Some TWO_BYTE => Forall (fun e : Z * Ext => ext_max_size e.2 input <= 255) exts
  | None => True
  end.
Proof.
  unfold calculate_extension_size. destruct (fold_left _ _ _) as [[one two] sz] eqn:Hf.
  apply extension_sizes in Hf as (Hs & Hone1 & Htwo2). intros HK Hn. unfold is_u16.
  assert (Hround : forall x, 0 <= x -> x <= 257 * U8 ->
    0 <= (x + 3) / 4 * 4 <= 257 * U8 + 3 /\ ((x + 3) / 4 * 4) mod 4 = 0).
  { intros x ? ?. split; [Z.to_euclidean_division_equations; lia|apply Z_mod_mult]. }
  destruct one; [|destruct two]; injection HK as <- <- <-.
  - destruct (Hone1 eq_refl) as (_ & Hall & Hle). destruct (Hround (sz + Z.of_nat (length exts))) as [? ?]; [lia..|].
    split; [done|]. split; [done|]. split; [lia|]. done.
  - destruct (Htwo2 eq_refl) as (_ & Hall & Hle). destruct (Hround (sz + 2 * Z.of_nat (length exts))) as [? ?]; [lia..|].
    split; [done|]. split; [done|]. split; [lia|]. done.
  - split; [lia|]. split; [done|]. split; [lia|]. done.
Qed.

(** *** The elements of an extension *)
Definition element_offset (flags : ExtFlags) : nat := match flags with ONE_BYTE => 1 | TWO_BYTE => 2 end.

(** The room extensions ask for. *)
Definition elements_room (flags : ExtFlags) (input : InputBuffer Content) (exts : list (Z * Ext)) : Z :=
  foldr (fun e n => Z.of_nat (element_offset flags) + ext_max_size e.2 input + n) 0 exts.

Lemma elements_room_pos flags input exts : 0 <= elements_room flags input exts.
Proof.
  unfold elements_room. induction exts as [|[id e] exts IH]; cbn [foldr snd]; [done|].
  pose proof (ext_max_size_pos e input). lia.
Qed.

Lemma extension_sizes_sum flags input exts one two size one' two' size' :
  fold_left (fun '(one, two, size) '(_, extension) =>
      let max_size := ext_max_size extension input in
      let id := ext_id extension in
      (one && ext_supported_one_byte extension && negb ((max_size >? 16) || (id >? 14)),
       two && ext_supported_two_byte extension && negb ((max_size >? 255) || (id >? 255)),
       size + max_size))
    exts (one, two, size) = (one', two', size') ->
  size' + Z.of_nat (element_offset flags) * Z.of_nat (length exts) = size + elements_room flags input exts.
Proof.
  unfold elements_room. revert one two size. induction exts as [|[id e] exts IH]; intros one two size HK;
    cbn [fold_left] in HK; cbn [foldr length snd]; [injection HK as <- <- <-; lia|].
  apply IH in HK. lia.
Qed.

Lemma extension_room exts input flags pattern size :
  calculate_extension_size exts input = (Some flags, pattern, size) -> elements_room flags input exts <= size.
Proof.
  unfold calculate_extension_size. destruct (fold_left _ _ _) as [[one two] sz] eqn:Hf.
  pose proof (extension_sizes_sum flags _ _ _ _ _ _ _ _ Hf) as Hs.
  assert (Hround : forall x, x <= (x + 3) / 4 * 4) by (intros x; Z.to_euclidean_division_equations; lia).
  destruct one; [|destruct two]; intros [= <- <- <-]; cbn in Hs;
    [specialize (Hround (sz + Z.of_nat (length exts)))|specialize (Hround (sz + 2 * Z.of_nat (length exts)))]; lia.
Qed.

(** Header extensions one after the other: each is offered at least the room
    it asks for, and what it writes is in the data, after the header of its
    element. An extension that writes nothing leaves its room to the next. *)
Inductive elements_in (flags : ExtFlags) (input : InputBuffer Content) : list (Z * Ext) -> PayOut -> list Z -> list Z -> Prop :=
| in_done p data : elements_in flags input [] p data data
| in_none id e exts p data w slice e' p' data' :
    Z.of_nat (element_offset flags) + ext_max_size e input <= Z.of_nat (length data) ->
    ext_write e input flags p (drop (element_offset flags) data) = (w, slice, e', p') -> w = None \/ w = Some 0 ->
    elements_in flags input exts p' (take (element_offset flags) data ++ slice) data' ->
    elements_in flags input ((id, e) :: exts) p data data'
| in_element id e exts p data n slice e' p' header data' :
    Z.of_nat (element_offset flags) + ext_max_size e input <= Z.of_nat (length data) ->
    ext_write e input flags p (drop (element_offset flags) data) = (Some n, slice, e', p') -> 0 < n ->
    element_header flags id n = Ok header ->
    elements_in flags input exts p' (drop (Z.to_nat n) slice) data' ->
    elements_in flags input ((id, e) :: exts) p data (header ++ take (Z.to_nat n) slice ++ data').

Lemma write_elements_in flags input exts all p data data' all' p' :
  write_elements flags input exts all p data = Ok (data', all', p') ->
  elements_room flags input exts <= Z.of_nat (length data) -> elements_in flags input exts p data data'.
Proof.
  revert all p data data'. induction exts as [|[id e] exts IH]; intros all p data data' HK Hroom;
    cbn [write_elements] in HK; cbv zeta in HK; [injection HK as <- <- <-; apply in_done|].
  fold (element_offset flags) in HK. cbn [elements_room foldr snd] in Hroom. fold (elements_room flags input exts) in Hroom.
  pose proof (ext_max_size_pos e input) as Hpos. pose proof (elements_room_pos flags input exts) as Hrest.
  destruct (Nat.ltb_spec (length data) (element_offset flags)); [lia|].
  destruct (ext_write e input flags p (drop (element_offset flags) data)) as [[[w slice] e'] p1] eqn:Hw.
  destruct (ext_write_spec _ _ _ _ _ _ _ _ _ Hw) as (_ & Hlen & _ & Hn). rewrite length_drop in Hlen, Hn.
  assert (Hskip : w = None \/ w = Some 0 ->
    write_elements flags input exts (<[id := e']> all) p1 (take (element_offset flags) data ++ slice) = Ok (data', all', p') ->
    elements_in flags input ((id, e) :: exts) p data data').
  { intros Hnone Hrec. eapply in_none; [lia|exact Hw|done|]. eapply IH; [exact Hrec|].
    rewrite length_app, length_take. lia. }
  destruct w as [[|n|n]|]; cbv beta iota in HK; [by apply Hskip; auto|..|lia|by apply Hskip; auto].
  apply bind_ok in HK as (hd & Hhd & HK). apply bind_ok in HK as (? & _ & HK).
  apply bind_ok in HK as ([[rest all1] p2] & Hrec & HK). injection HK as <- <- <-. rewrite <- app_assoc.
  eapply in_element; [lia|exact Hw|lia|exact Hhd|]. eapply IH; [exact Hrec|]. rewrite length_drop. lia.
Qed.

(** *** The sources of buffers *)
Definition sources_of (buffer : Z * InputBuffer Content) : list Z :=
  match in_source (snd buffer) with
  | Some (ssrc, sources) => match ssrc with Some ssrc => [ssrc] | None => [] end ++ sources
  | None => []
  end.

Lemma add_csrc_full l csrc : (length csrc = MAX_N_CSRCS)%nat -> fold_left add_csrc l csrc = csrc.
Proof.
  revert csrc. induction l as [|c l IH]; intros csrc Hl; cbn; [done|]. unfold add_csrc at 2.
  by rewrite Hl, Nat.ltb_irrefl, andb_false_r, IH.
Qed.

Lemma buffer_sources_bound csrc buffer :
  (length csrc <= MAX_N_CSRCS)%nat -> (length (buffer_sources csrc buffer) <= MAX_N_CSRCS)%nat.
Proof.
  intros Hl. assert (Hadd : forall l c, (length l <= MAX_N_CSRCS)%nat -> (length (add_csrc l c) <= MAX_N_CSRCS)%nat).
  { intros l c Hc. unfold add_csrc. destruct (_ && _) eqn:Hx; [|done].
    apply andb_prop in Hx as [_ ?%Nat.ltb_lt]. rewrite length_app. cbn. lia. }
  assert (Hfold : forall l c, (length c <= MAX_N_CSRCS)%nat -> (length (fold_left add_csrc l c) <= MAX_N_CSRCS)%nat).
  { intros l. induction l as [|x l IH]; intros c Hc; cbn; [done|]. by apply IH, Hadd. }
  unfold buffer_sources. destruct (_ <? _)%nat; [|done]. destruct (in_source _) as [[[ssrc|] l]|]; auto.
Qed.

Lemma sources_bound buffers csrc :
  (length csrc <= MAX_N_CSRCS)%nat -> (length (fold_left buffer_sources buffers csrc) <= MAX_N_CSRCS)%nat.
Proof. revert csrc. induction buffers as [|b l IH]; intros csrc Hl; cbn; [done|]. by apply IH, buffer_sources_bound. Qed.

Lemma buffer_sources_adds csrc buffer :
  (length csrc <= MAX_N_CSRCS)%nat -> buffer_sources csrc buffer = fold_left add_csrc (sources_of buffer) csrc.
Proof.
  intros Hl. unfold buffer_sources. destruct (Nat.ltb_spec (length csrc) MAX_N_CSRCS); [|by rewrite add_csrc_full by lia].
  unfold sources_of. by destruct (in_source _) as [[[ssrc|] l]|].
Qed.

Lemma sources_fold buffers csrc :
  (length csrc <= MAX_N_CSRCS)%nat -> fold_left buffer_sources buffers csrc = fold_left add_csrc (buffers ≫= sources_of) csrc.
Proof.
  revert csrc. induction buffers as [|b l IH]; intros csrc Hl; cbn; [done|].
  rewrite IH by (by apply buffer_sources_bound). rewrite buffer_sources_adds by done. by rewrite fold_left_app.
Qed.

Lemma add_csrc_listed l csrc :
  NoDup csrc -> (length csrc <= MAX_N_CSRCS)%nat ->
  let r := fold_left add_csrc l csrc in
  NoDup r /\ (forall x, x ∈ r -> x ∈ csrc \/ x ∈ l) /\ (forall x, x ∈ csrc -> x ∈ r) /\
  (forall x, x ∈ l -> x ∈ r \/ length r = MAX_N_CSRCS).
Proof.
  revert csrc. induction l as [|c l IH]; intros csrc Hnd Hl; cbn.
  { split; [done|]. split; [auto|]. split; [done|]. by intros x ?%not_elem_of_nil. }
  unfold add_csrc at 2 4 6 8 10. destruct (bool_decide_reflect (c ∈ csrc)) as [Hin|Hout]; cbn [negb andb].
  - destruct (IH csrc Hnd Hl) as (Hr & Ha & Hk & Hb). split; [done|].
    split; [intros x [?|?]%Ha; [by left|right; by right]|]. split; [done|]. intros x [->|?]%elem_of_cons; auto.
  - destruct (Nat.ltb_spec (length csrc) MAX_N_CSRCS).
    + destruct (IH (csrc ++ [c])) as (Hr & Ha & Hk & Hb).
      { apply NoDup_app. split; [done|]. split; [intros x ? Hx; by apply list_elem_of_singleton in Hx as ->|apply NoDup_singleton]. }
      { rewrite length_app. cbn. lia. }
      split; [done|]. split.
      { intros x [[?|Hc]%elem_of_app|?]%Ha; [by left|apply list_elem_of_singleton in Hc as ->; right; by left|right; by right]. }
      split; [intros x ?; apply Hk, elem_of_app; by left|].
      intros x [->|?]%elem_of_cons; [left; apply Hk, elem_of_app; right; by left|auto].
    + rewrite add_csrc_full by lia. split; [done|]. split; [auto|]. split; [done|]. intros x _. right. lia.
Qed.

(** The sources of [buffers], each once, as many as there is room for. *)
Definition lists_sources (buffers : list (Z * InputBuffer Content)) (csrc : list Z) : Prop :=
  NoDup csrc /\ (forall x, x ∈ csrc -> x ∈ buffers ≫= sources_of) /\
  (forall x, x ∈ buffers ≫= sources_of -> x ∈ csrc \/ length csrc = MAX_N_CSRCS).

Lemma sources_listed buffers : lists_sources buffers (fold_left buffer_sources buffers []).
Proof.
  rewrite sources_fold by (cbn; lia). destruct (add_csrc_listed (buffers ≫= sources_of) []) as (? & Ha & _ & ?).
  - apply NoDup_nil_2.
  - cbn. lia.
  - split; [done|]. split; [|done]. by intros x [?%not_elem_of_nil|?]%Ha.
Qed.

Lemma sources_few buffers csrc x :
  lists_sources buffers csrc -> (length (remove_dups (buffers ≫= sources_of)) <? MAX_N_CSRCS)%nat = true ->
  x ∈ buffers ≫= sources_of -> x ∈ csrc.
Proof.
  intros (Hnd & Hsub & Hall) Hfew%Nat.ltb_lt Hin. destruct (Hall x Hin) as [?|Hfull]; [done|]. exfalso.
  assert (Hsm : csrc ⊆+ remove_dups (buffers ≫= sources_of)).
  { apply NoDup_submseteq; [done|]. intros y ?%Hsub. by apply elem_of_remove_dups. }
  apply submseteq_length in Hsm. lia.
Qed.

(** The packet is at most as long as announced, when its first buffer is the
    first that is pending. *)
Lemma complete_fits b id buffer rest buffers rt packet final flags :
  complete_packet b buffers buffer rt packet = (final, flags) ->
  p_pending_buffers (bp_state b) = (id, buffer) :: rest ->
  rb_csrc packet = [] -> rb_extension packet = None ->
  0 < Z.of_nat (length (rb_payload packet)) <= pay_max_payload_size b ->
  builder_len final <= ps_mtu (bp_settings b).
Proof.
  unfold complete_packet, pay_max_payload_size. intros HK -> Hcsrc Hext Hlen.
  destruct (calculate_extension_size _ _) as [[fl pattern] size] eqn:Hc.
  pose proof (calculate_spec _ _ _ _ _ Hc (by_id_length _)) as (Hsize & _ & _ & Hp0 & _).
  pose proof (sources_bound buffers [] ltac:(cbn; lia)) as Hs. rewrite Z.gtb_ltb in Hlen.
  rewrite (wrap_small U32 size) in Hlen by lia. unfold saturating_sub, MIN_RTP_PACKET_LEN in Hlen.
  assert (Hf : rb_payload final = rb_payload packet /\
    rb_csrc final = (if ps_source_info (bp_settings b) then fold_left buffer_sources buffers [] else []) /\
    match rb_extension final with Some (_, d) => Z.of_nat (length d) = size /\ 0 < size | None => size = 0 end).
  { destruct (negb _ && _) eqn:Hx; injection HK as <- <-.
    - apply andb_prop in Hx as [Hx%negb_true_iff%Z.eqb_neq _].
      destruct (ps_source_info _); cbn; rewrite Hcsrc, ?length_replicate; (split; [done|]; split; [done|lia]).
    - assert (size = 0).
      { destruct (Z.eqb_spec size 0); [done|]. destruct (Z.eqb_spec pattern 0); [auto|done]. }
      destruct (ps_source_info _); cbn; rewrite Hcsrc, Hext; by (split; [done|]; split). }
  destruct Hf as (Hpl & Hcs & Hex). unfold builder_len, MIN_RTP_PACKET_LEN. rewrite Hpl, Hcs.
  unfold MAX_N_CSRCS in *. clear HK Hc.
  destruct (ps_source_info _), (rb_extension final) as [[? d]|], (Z.ltb_spec 0 size); cbn [length]; lia.
Qed.

(** ** A packet of buffers *)
Definition ids_relation (ids : Z * Z) (off : option PayTimestampOffset) : BufferRelation :=
  match off with None => Ids ids | Some off => IdsWithOffset ids off end.

(** The element while it queues a packet for the buffers from [a]. *)
Definition for_queueing (a : Z) (stream : PayStream) (mapping : option (Z * Z)) (b : PayBase) : PayBase :=
  on_pay (fun s => s <| p_last_pts_rtp_mapping := mapping |>)
    (on_pay (fun s => s <| p_pending_buffers ::= skip_while (fun x => fst x <? a) |>)
      (on_pay (fun s => s <| p_stream := Some (stream <| st_last_seqnum := wrap U16 (st_last_seqnum stream + 1) |>) |>) b)).

Lemma queue_success a e off packet b u b' :
  pay_queue_packet (ids_relation (a, e) off) packet b = Ok (Success u, b') -> pay_inv b ->
  exists stream front c n sg t pts ppts prt mapping p l packet1,
    p_stream (bp_state b) = Some stream /\
    head (skip_while (fun x => fst x <? a) (p_pending_buffers (bp_state b))) = Some front /\
    p_clock_rate (bp_state b) = Some c /\ p_segment (bp_state b) = Some (n, sg) /\
    in_pts (snd front) = Some t /\ clip_pts sg t = Ok pts /\
    packet_time (bp_state b) sg (st_use_stream_time stream) c pts off = Ok (Some (ppts, prt, mapping)) /\
    rb_payload packet1 = rb_payload packet /\ rb_csrc packet1 = rb_csrc packet /\ rb_extension packet1 = rb_extension packet /\
    p_last_pts_rtp_mapping (bp_state b') = mapping /\ pwaiting b' = l ++ [p] /\ Forall (fun p => timed p = true) l /\ essence <$> l = essence <$> pwaiting b /\
    queued_packet (for_queueing a stream mapping b) e ppts (wrap U32 (st_timestamp_offset stream + prt)) packet1 p.
Proof.
  intros HK Hinv. unfold pay_queue_packet in HK. destruct (p_negotiated_src_caps (bp_state b)); [|done].
  apply bind_ok in HK as (stream & Hst%unwrap_ok & HK). cbv zeta in HK.
  set (packet1 := packet <| rb_payload_type := _ |> <| rb_ssrc := _ |> <| rb_sequence_number := _ |>) in HK.
  assert (HK' : queue_for_ids (a, e) off packet1 (on_pay (fun s => s <| p_stream :=
    Some (stream <| st_last_seqnum := wrap U16 (st_last_seqnum stream + 1) |>) |>) b) = Ok (Success u, b')) by (by destruct off).
  clear HK. apply queue_ids_spec in HK' as [[? _]|HK]; [done|].
  destruct HK as (front & back & c & n & sg & t & pts & stream1 & ppts & prt & mapping &
    _ & Hhd & _ & _ & Hc & Hsg & Ht & Hclip & Hst1 & Htime & HK). injection Hst1 as <-.
  apply (queue_timed_spec _ _ _ _ _ _ _ _ _ (stream <| st_last_seqnum := wrap U16 (st_last_seqnum stream + 1) |>)) in HK;
    [|reflexivity|apply Hinv|apply Hinv]. cbv zeta in HK.
  destruct HK as (l & He & Hall & p & exts & stats & Hq & _ & ->).
  exists stream, front, c, n, sg, t, pts, ppts, prt, mapping, p, l, packet1. by repeat (split; [done|]).
Qed.

(** The room for a payload does not change while queueing from the first
    pending buffer. *)
Lemma room_for_queueing a stream mapping b id buffer rest :
  p_pending_buffers (bp_state b) = (id, buffer) :: rest -> a <= id ->
  p_pending_buffers (bp_state (for_queueing a stream mapping b)) = (id, buffer) :: rest /\
  pay_max_payload_size (for_queueing a stream mapping b) = pay_max_payload_size b.
Proof.
  intros Hb Ha. assert (Hs : p_pending_buffers (bp_state (for_queueing a stream mapping b)) = (id, buffer) :: rest).
  { unfold for_queueing. cbn. rewrite Hb. cbn. by destruct (Z.ltb_spec id a); [lia|]. }
  split; [done|]. unfold pay_max_payload_size. rewrite Hs, Hb.
  by change (bp_settings (for_queueing a stream mapping b)) with (bp_settings b);
    change (bp_extensions (for_queueing a stream mapping b)) with (bp_extensions b).
Qed.

(** What a packet of the pending buffers [buffers], the first of them [input],
    says of their sources and of the header extensions. *)
Definition complete_header (b : PayBase) (buffers : list (Z * InputBuffer Content)) (input : InputBuffer Content)
    (h : RtpHeader) : Prop :=
  (if ps_source_info (bp_settings b) then lists_sources buffers (rh_csrc h) else rh_csrc h = []) /\
  match calculate_extension_size (by_id (bp_extensions b)) input with
  | (Some flags, pattern, size) =>
      if size =? 0 then rh_extension h = None
      else exists p data, rh_extension h = Some (pattern, data) /\ Z.of_nat (length data) = size /\
        elements_in flags input (by_id (bp_extensions b)) p (replicate (Z.to_nat size) 0) data
  | (None, _, _) => rh_extension h = None
  end.

Lemma calculate_none exts input pattern size :
  calculate_extension_size exts input = (None, pattern, size) -> pattern = 0 /\ size = 0.
Proof.
  unfold calculate_extension_size. destruct (fold_left _ _ _) as [[one two] sz].
  destruct one; [done|]. destruct two; [done|]. by intros [= <- <-].
Qed.

Lemma calculate_pattern exts input flags pattern size :
  calculate_extension_size exts input = (Some flags, pattern, size) -> pattern <> 0.
Proof.
  unfold calculate_extension_size. destruct (fold_left _ _ _) as [[one two] sz].
  destruct one; [by intros [= <- <- <-]|]. destruct two; [by intros [= <- <- <-]|done].
Qed.

Lemma header_completed b buffers input rt packet final flags h :
  complete_packet b buffers input rt packet = (final, flags) ->
  rb_csrc packet = [] -> rb_extension packet = None ->
  rh_csrc h = rb_csrc final -> extension_filled flags input b (rb_extension final) (rh_extension h) ->
  complete_header b buffers input h.
Proof.
  unfold complete_packet, complete_header. intros HK Hcs Hex Hh Hfill.
  destruct (calculate_extension_size _ _) as [[fl pattern] size] eqn:Hc.
  assert (Hf : rb_csrc final = (if ps_source_info (bp_settings b) then fold_left buffer_sources buffers [] else [])).
  { destruct (_ && _), (ps_source_info (bp_settings b)); injection HK as <- _; cbn; by rewrite Hcs. }
  split; [rewrite Hh, Hf; destruct (ps_source_info _); [apply sources_listed|done]|].
  pose proof (calculate_spec _ _ _ _ _ Hc (by_id_length _)) as (Hsize & _).
  assert (Hsame : rb_extension final = rb_extension packet -> flags = None -> rh_extension h = None).
  { intros E ->. cbn in Hfill. by rewrite Hfill, E. }
  destruct fl as [form|].
  - pose proof (calculate_pattern _ _ _ _ _ Hc) as Hp%Z.eqb_neq. rewrite Hp in HK. cbn [negb] in HK. rewrite andb_true_r in HK.
    destruct (Z.eqb_spec size 0); cbn [negb] in HK; injection HK as <- <-.
    { apply Hsame; [|done]. by destruct (ps_source_info _). }
    destruct Hfill as (pat & old & data & p & exts & p' & Hold & -> & Hw). injection Hold as <- <-. exists p, data.
    destruct (write_elements_spec _ _ _ _ _ _ _ _ _ Hw) as (Hlen & _ & _);
      [apply by_id_range|apply Forall_replicate; unfold is_u8; lia|]. rewrite length_replicate in Hlen.
    split; [done|]. split; [lia|]. eapply write_elements_in; [exact Hw|]. rewrite length_replicate.
    apply extension_room in Hc. lia.
  - destruct (calculate_none _ _ _ _ Hc) as [-> ->]. injection HK as <- <-. apply Hsame; [|done]. by destruct (ps_source_info _).
Qed.

Lemma packet_fits a e off packet b u b' id buffer rest :
  pay_queue_packet (ids_relation (a, e) off) packet b = Ok (Success u, b') -> pay_inv b ->
  p_pending_buffers (bp_state b) = (id, buffer) :: rest -> a <= id ->
  rb_csrc packet = [] -> rb_extension packet = None ->
  0 < Z.of_nat (length (rb_payload packet)) <= pay_max_payload_size b ->
  exists l p h, pwaiting b' = l ++ [p] /\ essence <$> l = essence <$> pwaiting b /\
    Z.of_nat (length (po_bytes p)) <= ps_mtu (bp_settings b) /\ RtpPacket_parse (po_bytes p) = Some h /\
    complete_header b (take_while (fun x => fst x <=? e) (p_pending_buffers (bp_state b))) buffer h.
Proof.
  intros HK Hinv Hb Ha Hcsrc Hext Hlen.
  destruct (queue_success _ _ _ _ _ _ _ HK Hinv) as (stream & front & c & n & sg & t & pts & ppts & prt & mapping & p & l & packet1 &
    _ & _ & _ & _ & _ & _ & _ & Hp1 & Hc1 & He1 & _ & Hw & _ & He & Hq).
  destruct (room_for_queueing a stream mapping b id buffer rest Hb Ha) as [Hpend Hroom].
  destruct Hq as (input & final & flags & h & Hin & Hcomp & Hh & _ & _ & Hcs & Hl & _ & _ & _ & Hfill).
  exists l, p, h. split; [done|]. split; [done|]. rewrite Hl. cbv zeta in Hin.
  rewrite Hpend in Hin. cbn [take_while fst] in Hin. destruct (id <=? e); [|done]. injection Hin as <-. split; [|split; [done|]].
  - change (bp_settings b) with (bp_settings (for_queueing a stream mapping b)).
    eapply complete_fits; [exact Hcomp|exact Hpend|by rewrite Hc1|by rewrite He1|]. by rewrite Hp1, Hroom.
  - rewrite Hb, <- Hpend. eapply (header_completed (for_queueing a stream mapping b)); [exact Hcomp|..]; try done; congruence.
Qed.

(** ** No panic *)

Lemma write_elements_total flags input exts all packet data :
  Forall (fun e : Z * Ext => ext_max_size e.2 input <= match flags with ONE_BYTE => 16 | TWO_BYTE => 255 end) exts ->
  exists r, write_elements flags input exts all packet data = Ok r.
Proof.
  intros Hexts. revert all packet data.
  induction Hexts as [|[id e] exts Hmax _ IH]; intros all packet data; cbn [write_elements]; cbv zeta; [eauto|].
  destruct (_ <? _)%nat; [eauto|]. destruct (ext_write e input flags packet _) as [[[w slice] e'] p1] eqn:Hw.
  destruct (ext_write_spec _ _ _ _ _ _ _ _ _ Hw) as (_ & Hlen & _ & Hn). cbn [snd] in Hmax.
  destruct w as [[|n|n]|]; [apply IH|..|lia|apply IH]. rewrite <- Hlen in Hn.
  assert (Hhd : exists hd, element_header flags id (Z.pos n) = Ok hd).
  { destruct flags; unfold element_header; match goal with |- context [Z.pos n <=? ?k] => destruct (Z.leb_spec (Z.pos n) k) end; first [lia|by eexists]. }
  destruct Hhd as [hd ->]. rewrite bind_Ok. destruct (Z.leb_spec (Z.pos n) (Z.of_nat (length slice))); [|lia].
  cbn [assert_]. rewrite bind_Ok.
  match goal with |- context [write_elements flags input exts ?a ?p ?d] => destruct (IH a p d) as [[[rest all1] p2] ->] end.
  rewrite bind_Ok. cbv beta iota. eauto.
Qed.

Lemma write_extensions_total flags input b p h :
  RtpPacket_parse (po_bytes p) = Some h ->
  match flags with
  | Some flags => is_Some (rh_extension h) /\
      Forall (fun e : Z * Ext => ext_max_size e.2 input <= match flags with ONE_BYTE => 16 | TWO_BYTE => 255 end)
        (by_id (bp_extensions b))
  | None => True
  end -> exists r, write_extensions flags input b p = Ok r.
Proof.
  intros Hh HF. unfold write_extensions. destruct flags as [flags|]; [|eauto]. destruct HF as [[[pattern d] Hx] Hall].
  rewrite Hh. cbn [unwrap]. rewrite bind_Ok, Hx. cbn [unwrap]. rewrite bind_Ok. cbv beta iota.
  match goal with |- context [write_elements _ _ ?x ?a ?q ?dd] => destruct (write_elements_total flags input x a q dd Hall) as [[[rest all1] p2] ->] end.
  rewrite bind_Ok. cbv beta iota. eauto.
Qed.

Lemma write_packet_total packet pts : exists o, write_packet packet pts = Ok o.
Proof.
  unfold write_packet. destruct (RtpBuilder_write packet) as [bytes|] eqn:Hw; [|eauto].
  destruct (write_spec _ _ Hw) as (_ & h & -> & _). cbn. eauto.
Qed.

Lemma complete_forms b buffers input rt packet final flags :
  complete_packet b buffers input rt packet = (final, flags) ->
  match flags with
  | Some flags => Forall (fun e : Z * Ext => ext_max_size e.2 input <= match flags with ONE_BYTE => 16 | TWO_BYTE => 255 end)
        (by_id (bp_extensions b))
  | None => True
  end.
Proof.
  unfold complete_packet. destruct (calculate_extension_size _ _) as [[fl pattern] size] eqn:Hc.
  apply calculate_spec in Hc as (_ & _ & _ & _ & Hf); [|apply by_id_length].
  destruct (_ && _); intros [= <- <-]; [|done]. by destruct fl as [[|]|].
Qed.

Lemma copy_metas_bytes buffers p :
  po_bytes (fold_left (fun buffer b => pay_copy_metas b buffer) buffers p) = po_bytes p.
Proof. by injection (copy_metas_fold buffers p). Qed.

Lemma queue_timed_total id_end sg pts ppts prt packet b stream front rest :
  p_stream (bp_state b) = Some stream -> Forall (fun p => is_Some (essence p)) (pwaiting b) -> in_front timed (pwaiting b) ->
  p_pending_buffers (bp_state b) = front :: rest -> fst front <= id_end ->
  exists r, queue_timed id_end sg pts ppts prt packet b = Ok r.
Proof.
  intros Hst Hpar Hok Hpend Hid. unfold queue_timed. cbv zeta. rewrite Hst. cbn [unwrap]. rewrite bind_Ok.
  set (rt := wrap U32 _). assert (Hrt : is_u32 rt) by (apply Z.mod_pos_bound; lia).
  destruct (stamp_pending_spec (Some pts) rt (discont_due (bp_state b) id_end) (pwaiting b) Hrt Hpar Hok)
    as (k & Hk & _). unfold pwaiting in Hk. rewrite Hk, bind_Ok. cbv beta iota. clear Hk.
  rewrite Hpend. cbn [take_while]. destruct (Z.leb_spec (fst front) id_end); [|lia]. cbn [head unwrap]. rewrite bind_Ok.
  rewrite complete_on_pay. destruct (complete_packet _ _ _ _ _) as [final flags] eqn:Hc.
  destruct (write_packet_total final (Some ppts)) as [o Ho]. rewrite Ho, bind_Ok. apply write_packet_spec in Ho.
  destruct o as [p0|]; [|eauto]. destruct Ho as (_ & _ & _ & _ & _ & h & Hh & Hcar). cbv zeta.
  match goal with |- context [write_extensions ?f ?i ?b0 ?p1] => destruct (write_extensions_total f i b0 p1 h) as [[b1 p2] ->] end.
  - rewrite copy_metas_bytes. by destruct (_ && _).
  - destruct flags; [|done]. split.
    + apply complete_spec in Hc as (_ & _ & pat & n & Hx). destruct Hcar as (_ & _ & _ & _ & _ & -> & _). by rewrite Hx.
    + exact (complete_forms _ _ _ _ _ _ _ Hc).
  - rewrite bind_Ok. cbv beta iota. eauto.
Qed.

(** Pushing ends, successfully if the source pad takes everything. *)
Lemma pay_finish_loop_total fuel b :
  in_front timed (pwaiting b) -> (length (pwaiting b) < fuel)%nat -> is_Some (p_segment (bp_state b)) ->
  exists r b', pay_finish_loop fuel b = Ok (r, b') /\ (env_downstream (bp_env b) = [] -> r = Success tt).
Proof.
  revert b. induction fuel as [|fuel IH]; intros b Hok Hfuel [[n sg] Hsg]; [lia|]. cbn [pay_finish_loop]. cbv zeta.
  fold timed. fold (pwaiting b). destruct (existsb _ _) eqn:Hex; cbn [negb]; [|eauto].
  destruct (in_front_head _ _ Hok Hex) as (front & l & Hl & Hset). unfold timed in Hset.
  destruct (po_pts front) as [pts|] eqn:Hpts; [|done].
  destruct (pay_round_spec pts front (pwaiting b)) as (o' & Ho' & Hpos & Heq); [by rewrite Hl|done|].
  assert (Hhd : head (pwaiting b) = Some front) by (by rewrite Hl).
  rewrite Hhd. cbn [unwrap]. rewrite bind_Ok, Hpts. cbn [unwrap]. rewrite bind_Ok.
  set (same := fun p => bool_decide (po_pts p = Some pts)) in *.
  destruct (Nat.eqb_spec (length (take_while same (pwaiting b))) 0) as [E|_]; [lia|]. cbn [negb assert_]. rewrite bind_Ok.
  assert (Hr : exists o ps, pay_retrieve_segment_event (bp_state b) = Ok (o, (bp_state b) <| p_pending_segment := ps |>)).
  { unfold pay_retrieve_segment_event. rewrite Hsg.
    assert (Hsame : bp_state b = (bp_state b) <| p_pending_segment := p_pending_segment (bp_state b) |>) by (by destruct (bp_state b)).
    destruct (negb _); [by exists None, (p_pending_segment (bp_state b)); rewrite <- Hsame|].
    destruct (p_negotiated_src_caps _); [by eexists _, false|]. exists None, (p_pending_segment (bp_state b)). by rewrite <- Hsame. }
  destruct Hr as (o & ps & ->). rewrite bind_Ok. cbv beta iota. rewrite Heq.
  set (b1 := pay_out o' _). assert (Hb1 : pwaiting b1 = skip_while same (pwaiting b) /\ p_segment (bp_state b1) = Some (n, sg) /\
    bp_env b1 = bp_env b) by (by destruct o).
  destruct Hb1 as (Hw1 & Hs1 & He1). unfold pad_answer. rewrite He1.
  assert (Hshort : (length (skip_while same (pwaiting b)) < fuel)%nat).
  { rewrite <- (take_skip_while same (pwaiting b)), length_app in Hfuel. lia. }
  assert (Hok1 : in_front timed (skip_while same (pwaiting b))).
  { destruct (narrow_split timed same (pwaiting b) (same_pts_timed pts)) as [_ Hs]. unfold in_front. by rewrite <- Hs. }
  destruct (env_downstream (bp_env b)) as [|[err|] answers] eqn:Hans.
  - destruct (IH b1) as (r & b' & -> & Hr); [by rewrite Hw1..|by rewrite Hs1|]. rewrite He1, Hans in Hr. eauto.
  - by eexists _, _.
  - match goal with |- context [pay_finish_loop fuel ?b2] => destruct (IH b2) as (r & b' & -> & Hr) end;
      [by rewrite <- Hw1 in Hok1|by rewrite <- Hw1 in Hshort|by exists (n, sg)|]. by eexists _, _.
Qed.

Lemma pay_finish_total b :
  pay_inv b -> exists r b', finish_pending_packets b = Ok (r, b') /\ (env_downstream (bp_env b) = [] -> r = Success tt).
Proof.
  intros Hinv. unfold finish_pending_packets. destruct (p_segment (bp_state b)) as [sg|] eqn:Hsg; cbn [is_none]; [|eauto].
  apply pay_finish_loop_total; [apply Hinv|unfold pwaiting; lia|by rewrite Hsg].
Qed.

(** The clipped PTS [t] has a time in the segment that is not astronomic. *)
Definition time_known (sg : Segment) (use_stream_time : bool) (t : Z) : Prop :=
  exists pts base, clip_pts sg t = Ok pts /\ rtptime_base use_stream_time sg pts = Ok base /\ 0 <= base < 2 ^ 61.

Lemma to_rtptime_spec `{!GstLaws} c base :
  0 < c < U32 -> 0 <= base < 2 ^ 61 -> to_rtptime c base = Ok (((base * c + NS_PER_SEC - 1) / NS_PER_SEC) mod U32).
Proof.
  intros Hc Hb. change (2 ^ 61) with 2305843009213693952 in Hb. unfold to_rtptime.
  rewrite mul_div_ceil_spec by lia.
  set (q := _ / _). assert (Hq : 0 <= q < U64).
  { subst q. split; [apply Z.div_pos; nia|]. apply Z.div_lt_upper_bound; nia. }
  unfold fits. destruct (Z.ltb_spec q U64); [|lia]. cbn [unwrap]. rewrite bind_Ok.
  change 4294967295 with (Z.ones 32). rewrite Z.land_ones by lia. change (2 ^ 32) with U32.
  unfold wrap. by rewrite Z.mod_mod.
Qed.

(** No later than the end of the segment. *)
Definition stop_pts (sg : Segment) (pts : Z) : Z := match sg_stop sg with Some stop => Z.min pts stop | None => pts end.

(** An offset to the clipped PTS [first] of a packet gives times that are not
    astronomic: another time in the segment, or one after the last packet
    whose time was computed from a PTS. *)
Definition offset_known (b : PayBase) (sg : Segment) (use_stream_time : bool) (c first : Z) (off : PayTimestampOffset) : Prop :=
  match off with
  | PayOffsetPts d => 0 <= first /\ 0 <= d /\ first + d < U64 - 1 /\
      exists base, rtptime_base use_stream_time sg (stop_pts sg (first + d)) = Ok base /\ 0 <= base < 2 ^ 61
  | PayOffsetRtp ticks => 0 <= ticks < U64 /\
      forall base_pts rt, p_last_pts_rtp_mapping (bp_state b) = Some (base_pts, rt) ->
        0 <= base_pts /\ base_pts + (ticks * NS_PER_SEC + c - 1) / c < U64 - 1
  end.

(** What a subclass asks for: before the end of the range there is a buffer
    that is still pending, and its time is known. *)
Definition range_ok (b : PayBase) (a e : Z) (off : option PayTimestampOffset) : Prop :=
  match skip_while (fun x => fst x <? a) (p_pending_buffers (bp_state b)) with
  | front :: _ => a <= e -> fst front <= e /\
      forall n sg stream c t, p_segment (bp_state b) = Some (n, sg) -> p_stream (bp_state b) = Some stream ->
        p_clock_rate (bp_state b) = Some c -> in_pts (snd front) = Some t ->
        time_known sg (st_use_stream_time stream) t /\
        match off with
        | Some off => forall first, clip_pts sg t = Ok first -> offset_known b sg (st_use_stream_time stream) c first off
        | None => True
        end
  | [] => True
  end.
Definition relation_ok (b : PayBase) (rel : BufferRelation) : Prop :=
  match rel with
  | Ids (a, e) => range_ok b a e None
  | IdsWithOffset (a, e) off => range_ok b a e (Some off)
  | PayOutOfBand => True
  end.

(** RTP ticks at the rate of the segment. *)
Definition rate_ticks (sg : Segment) (use_stream_time : bool) (ticks : Z) : Z :=
  let rate := if use_stream_time then sg_applied_rate sg else f64_div f64_one (sg_rate sg) in
  if f64_is_zero rate then ticks else f64_as_u64 (f64_mul (f64_of_u64 ticks) rate).

(** The RTP time of a PTS, relative to the offset of the stream. *)
Definition rtp_ticks (base c : Z) : Z := (base * c + NS_PER_SEC - 1) / NS_PER_SEC.

(** The PTS and the RTP time of a packet whose first buffer has the clipped
    PTS [first], and what later offsets refer to. *)
Definition time_of_packet (b : PayBase) (sg : Segment) (use_stream_time : bool) (c first : Z)
    (off : option PayTimestampOffset) (ppts prt : Z) (mapping : option (Z * Z)) : Prop :=
  match off with
  | None => ppts = first /\ exists base, rtptime_base use_stream_time sg ppts = Ok base /\ prt = rtp_ticks base c mod U32 /\
      mapping = Some (ppts, prt)
  | Some (PayOffsetPts d) => ppts = stop_pts sg (first + d) /\
      exists base, rtptime_base use_stream_time sg ppts = Ok base /\ prt = rtp_ticks base c mod U32 /\ mapping = Some (ppts, prt)
  | Some (PayOffsetRtp ticks) => mapping = p_last_pts_rtp_mapping (bp_state b) /\
      exists base_pts base_rt, mapping = Some (base_pts, base_rt) /\
        ppts = base_pts + (ticks * NS_PER_SEC + c - 1) / c /\ prt = (base_rt + rate_ticks sg use_stream_time ticks) mod U32
  end.

Lemma packet_time_known `{!GstLaws} `{!ClockAddLaws} b sg use_stream_time c t first base off :
  clip_pts sg t = Ok first -> rtptime_base use_stream_time sg first = Ok base -> 0 <= base < 2 ^ 61 -> 0 < c < U32 ->
  match off with Some off => offset_known b sg use_stream_time c first off | None => True end ->
  exists o, packet_time (bp_state b) sg use_stream_time c first off = Ok o /\
    match o with
    | Some (ppts, prt, mapping) => time_of_packet b sg use_stream_time c first off ppts prt mapping
    | None => True
    end.
Proof.
  intros Hclip Hbase Hb Hc Hoff. unfold packet_time. rewrite Hbase, bind_Ok. destruct off as [[d|ticks]|]; cbn [offset_known] in Hoff.
  - destruct Hoff as (Hf & Hd & Hlt & base' & Hbase' & Hb'). rewrite clock_add_exact, bind_Ok by lia. cbv zeta.
    replace (match sg_stop sg with Some stop => _ | None => _ end) with (stop_pts sg (first + d)).
    2:{ unfold stop_pts. destruct (sg_stop sg) as [stop|]; [|done]. rewrite Z.gtb_ltb. destruct (Z.ltb_spec stop (first + d)); lia. }
    rewrite Hbase', bind_Ok, to_rtptime_spec, bind_Ok by done. eexists. split; [done|]. split; [done|]. by exists base'.
  - destruct Hoff as [Ht Hmap]. destruct (p_last_pts_rtp_mapping (bp_state b)) as [[bp rt]|] eqn:Hm; [|by eexists].
    destruct (Hmap bp rt eq_refl) as [Hbp Hsum]. rewrite mul_div_ceil_spec by lia.
    assert (Hq : 0 <= (ticks * NS_PER_SEC + c - 1) / c) by (apply Z.div_pos; lia).
    rewrite fits_small by lia. cbn [unwrap]. rewrite bind_Ok, clock_add_exact, bind_Ok by lia. cbv zeta.
    eexists. split; [done|]. split; [done|]. exists bp, rt. split; [done|]. split; [done|].
    unfold rate_ticks, wrap. destruct (f64_is_zero _); cbn [negb]; change 4294967295 with (Z.ones 32);
      rewrite Z.land_ones by lia; change (2 ^ 32) with U32; by rewrite Z.mod_mod, Zplus_mod_idemp_r by lia.
  - rewrite to_rtptime_spec, bind_Ok by done. eexists. split; [done|]. split; [done|]. by exists base.
Qed.

(** With its time known, the packet for a range that has pending buffers gets
    as far as its time. *)
Lemma queue_ids_timed `{!GstLaws} a e packet b stream c front rest back :
  pay_inv b -> p_stream (bp_state b) = Some stream -> p_clock_rate (bp_state b) = Some c -> 0 < c < U32 ->
  a <= e -> skip_while (fun x => fst x <? a) (p_pending_buffers (bp_state b)) = front :: rest ->
  last (front :: rest) = Some back -> e <= fst back ->
  (forall n sg t, p_segment (bp_state b) = Some (n, sg) -> in_pts (snd front) = Some t ->
    time_known sg (st_use_stream_time stream) t) ->
  exists n sg t pts base, p_segment (bp_state b) = Some (n, sg) /\ in_pts (snd front) = Some t /\ clip_pts sg t = Ok pts /\
    rtptime_base (st_use_stream_time stream) sg pts = Ok base /\
    let prt := ((base * c + NS_PER_SEC - 1) / NS_PER_SEC) mod U32 in
    queue_for_ids (a, e) None packet b = queue_timed e sg pts pts prt packet
      (on_pay (fun s => s <| p_last_pts_rtp_mapping := Some (pts, prt) |>)
        (on_pay (fun s => s <| p_pending_buffers ::= skip_while (fun x => fst x <? a) |>) b)).
Proof.
  intros Hinv Hst Hc Hcr Hae Hpend Hlast Heb Htime. unfold queue_for_ids. rewrite Z.gtb_ltb.
  destruct (Z.ltb_spec e a); [lia|]. cbv zeta. set (b0 := on_pay _ b).
  change (p_pending_buffers (bp_state b0)) with (skip_while (fun x : Z * InputBuffer Content => fst x <? a) (p_pending_buffers (bp_state b))).
  rewrite Hpend, Hlast. cbn [head]. rewrite Z.gtb_ltb. destruct (Z.ltb_spec (fst back) e); [lia|].
  change (p_clock_rate (bp_state b0)) with (p_clock_rate (bp_state b)). change (p_segment (bp_state b0)) with (p_segment (bp_state b)).
  change (p_stream (bp_state b0)) with (p_stream (bp_state b)).
  destruct (pi_segment _ Hinv) as [[n sg] Hsg]; [by intros HE; rewrite HE in Hpend|].
  assert (Hin : is_Some (in_pts (snd front))).
  { pose proof (pi_dated _ Hinv) as Hall. apply (skip_while_Forall (fun x => fst x <? a)) in Hall. rewrite Hpend in Hall.
    by apply Forall_cons in Hall as [? _]. }
  destruct Hin as [t Ht]. destruct (Htime n sg t Hsg Ht) as (pts & base & Hclip & Hbase & Hrange).
  rewrite Hc, Hsg, Ht, Hst. cbn [unwrap]. rewrite !bind_Ok. cbv beta iota. rewrite Hclip, !bind_Ok.
  unfold packet_time. rewrite Hbase, bind_Ok, to_rtptime_spec, !bind_Ok by done.
  by exists n, sg, t, pts, base.
Qed.

Lemma queue_ids_total `{!GstLaws} `{!ClockAddLaws} a e off packet b stream c :
  pay_inv b -> p_stream (bp_state b) = Some stream -> p_clock_rate (bp_state b) = Some c -> 0 < c < U32 ->
  range_ok b a e off -> exists r, queue_for_ids (a, e) off packet b = Ok r.
Proof.
  intros Hinv Hst Hc Hcr Hrel. unfold range_ok in Hrel. unfold queue_for_ids. rewrite Z.gtb_ltb.
  destruct (Z.ltb_spec e a) as [Hlt|Hae]; [eauto|]. cbv zeta. set (b0 := on_pay _ b).
  change (p_pending_buffers (bp_state b0)) with (skip_while (fun x : Z * InputBuffer Content => fst x <? a) (p_pending_buffers (bp_state b))).
  change (p_clock_rate (bp_state b0)) with (p_clock_rate (bp_state b)). change (p_segment (bp_state b0)) with (p_segment (bp_state b)).
  change (p_stream (bp_state b0)) with (p_stream (bp_state b)).
  destruct (skip_while _ _) as [|front rest] eqn:Hpend; [eauto|]. cbn [head].
  destruct (last (front :: rest)) as [back|] eqn:Hlast; [|eauto].
  rewrite Z.gtb_ltb. destruct (Z.ltb_spec (fst back) e) as [Hlt|Heb]; [eauto|]. destruct (Hrel Hae) as [Hid Htime].
  destruct (pi_segment _ Hinv) as [[n sg] Hsg]; [by intros HE; rewrite HE in Hpend|].
  assert (Hin : is_Some (in_pts (snd front))).
  { pose proof (pi_dated _ Hinv) as Hall. apply (skip_while_Forall (fun x => fst x <? a)) in Hall. rewrite Hpend in Hall.
    by apply Forall_cons in Hall as [? _]. }
  destruct Hin as [t Ht]. destruct (Htime n sg stream c t Hsg Hst Hc Ht) as [(first & base & Hclip & Hbase & Hrange) Hoff].
  destruct (packet_time_known b sg (st_use_stream_time stream) c t first base off) as (o & Ho & _); try done.
  { destruct off; [by apply Hoff|done]. }
  rewrite Hc, Hsg, Ht, Hst. cbn [unwrap]. rewrite !bind_Ok. cbv beta iota. rewrite Hclip, !bind_Ok.
  change (packet_time (bp_state b0)) with (packet_time (bp_state b)). rewrite Ho, bind_Ok.
  destruct o as [[[ppts prt] mapping]|]; [|eauto].
  eapply queue_timed_total; [exact Hst|apply Hinv|apply Hinv|exact Hpend|done].
Qed.

(** The number the packet takes. *)
Definition next_number (stream : PayStream) (b : PayBase) : PayBase :=
  on_pay (fun s => s <| p_stream := Some (stream <| st_last_seqnum := wrap U16 (st_last_seqnum stream + 1) |>) |>) b.

Lemma next_number_inv stream b : p_stream (bp_state b) = Some stream -> pay_inv b -> pay_inv (next_number stream b).
Proof.
  intros Hst Hinv. assert (Hf : pay_frame b (next_number stream b)).
  { split; [done|]. split; [by exists []|]. split; [cbn; by rewrite Hst|]. by repeat split. }
  apply (pay_inv_step _ _ Hinv Hf); [apply Hinv|apply Hinv|by left|]. cbn. pose proof (pi_stream _ Hinv) as HX.
  rewrite Hst in HX. split; [apply Z.mod_pos_bound; lia|apply HX].
Qed.

Lemma negotiated_stream b :
  pay_inv b -> is_Some (p_negotiated_src_caps (bp_state b)) ->
  exists stream c, p_stream (bp_state b) = Some stream /\ p_clock_rate (bp_state b) = Some c /\ 0 < c < U32.
Proof.
  intros Hinv [caps Hn]. destruct (p_stream (bp_state b)) as [stream|] eqn:Hst.
  2:{ pose proof (pi_stream _ Hinv) as HX. rewrite Hst in HX. destruct HX; congruence. }
  destruct (pi_rate _ Hinv) as (c & Hc & Hcr); [by rewrite Hn|]. by exists stream, c.
Qed.

Lemma next_number_range stream b a e off :
  p_stream (bp_state b) = Some stream -> range_ok b a e off -> range_ok (next_number stream b) a e off.
Proof.
  intros Hst Hr. unfold range_ok in *. change (p_pending_buffers (bp_state (next_number stream b))) with (p_pending_buffers (bp_state b)).
  destruct (skip_while _ _) as [|front rest]; [done|]. intros Hae. destruct (Hr Hae) as [Hid Ht]. split; [done|].
  intros n sg st c t Hsg Hs Hc Hpts. injection Hs as <-. destruct (Ht n sg stream c t Hsg Hst Hc Hpts) as [Hk Ho]. split; [exact Hk|].
  destruct off as [[d|ticks]|]; [exact Ho..|done].
Qed.

Lemma queue_total `{!GstLaws} `{!ClockAddLaws} rel packet b :
  pay_inv b -> relation_ok b rel -> exists r b', pay_queue_packet rel packet b = Ok (r, b').
Proof.
  intros Hinv Hrel. unfold pay_queue_packet. destruct (p_negotiated_src_caps (bp_state b)) as [caps|] eqn:Hn; [|eauto].
  destruct (negotiated_stream b Hinv) as (stream & c & Hst & Hc & Hcr); [by rewrite Hn|].
  rewrite Hst. cbn [unwrap]. rewrite bind_Ok. cbv zeta. fold (next_number stream b).
  assert (Hids : forall a e off p, range_ok b a e off -> exists r b', queue_for_ids (a, e) off p (next_number stream b) = Ok (r, b')).
  { intros a e off p Hr. destruct (queue_ids_total a e off p (next_number stream b) _ c (next_number_inv _ _ Hst Hinv) eq_refl Hc Hcr)
      as [[r b'] HK]; [by apply next_number_range|eauto]. }
  destruct rel as [[a e]|[a e] off|]; [by apply Hids..|].
  unfold queue_out_of_band. match goal with |- context [write_packet ?p ?t] => destruct (write_packet_total p t) as [[o|] ->] end;
    rewrite bind_Ok; eauto.
Qed.

(** The first buffer of the range is gone by the time it is needed. *)
Lemma queue_timed_released id_end sg pts ppts prt packet b stream front rest :
  p_stream (bp_state b) = Some stream -> Forall (fun p => is_Some (essence p)) (pwaiting b) -> in_front timed (pwaiting b) ->
  p_pending_buffers (bp_state b) = front :: rest -> id_end < fst front ->
  queue_timed id_end sg pts ppts prt packet b = Panic.
Proof.
  intros Hst Hpar Hok Hpend Hid. unfold queue_timed. cbv zeta. rewrite Hst. cbn [unwrap]. rewrite bind_Ok.
  set (rt := wrap U32 _). assert (Hrt : is_u32 rt) by (apply Z.mod_pos_bound; lia).
  destruct (stamp_pending_spec (Some pts) rt (discont_due (bp_state b) id_end) (pwaiting b) Hrt Hpar Hok)
    as (k & Hk & _). unfold pwaiting in Hk. rewrite Hk, bind_Ok. cbv beta iota. clear Hk.
  rewrite Hpend. cbn [take_while]. by destruct (Z.leb_spec (fst front) id_end); [lia|].
Qed.
End Queueing.

(** ** Negotiation *)
Section Collision.
Context `{Gst} `{GstTime} `{StreamTime} `{RtpTypes} `{RtpWriter} `{HeaderExtensions} `{PayCaps} `{PayClass}
  `{!ExtensionWriter} `{!PayDrain} `{!PayNegotiate} `{!PaySubclass}.
Context `{!RtpWriterLaws} `{!PayMetasOnly} `{!PayCapsLaws} `{!UsesPay}.

Lemma draw_other_differs ssrc draws n : draw_other ssrc draws = Some n -> n <> ssrc.
Proof.
  induction draws as [|d draws IH]; cbn; [done|]. destruct (Z.eqb_spec d ssrc); cbn; [done|]. by intros [= <-].
Qed.

Lemma configure_stream_frame collision caps b b' :
  configure_stream collision caps b = Ok b' ->
  p_pending_segment (bp_state b') = p_pending_segment (bp_state b) /\ p_segment (bp_state b') = p_segment (bp_state b) /\
  p_negotiated_src_caps (bp_state b') = p_negotiated_src_caps (bp_state b) /\ bp_out b' = bp_out b /\
  bp_ssrc_collision b' = bp_ssrc_collision b /\
  match collision with Some ssrc => st_ssrc <$> p_stream (bp_state b') = Some ssrc | None => True end.
Proof.
  unfold configure_stream. destruct (p_stream (bp_state b)) as [stream|].
  - destruct collision as [ssrc|]; [|by intros [= <-]]. intros (stats & _ & HK)%bind_ok. by injection HK as <-.
  - intros [= <-]. by destruct collision.
Qed.

Lemma announce_caps_frame collision c caps w w' :
  announce_caps collision c caps w = Ok w' -> is_Some (p_stream (bp_state w.2)) -> 0 < c < U32 -> pay_inv w.2 ->
  same_config (p_stream (bp_state w.2)) (p_stream (bp_state w'.2)) /\
  p_negotiated_src_caps (bp_state w'.2) = Some caps /\ bp_ssrc_collision w'.2 = bp_ssrc_collision w.2.
Proof.
  unfold announce_caps. cbv zeta. intros (stats & Hstats%unwrap_ok & HK)%bind_ok [stream Hst] Hc Hinv.
  apply bind_ok in HK as ([o s] & Hr & HK). cbv beta iota in HK. apply pay_retrieve_spec in Hr as [(ps & -> & _) _].
  destruct (_ || _).
  - apply bind_ok in HK as ([d w1] & Hd & HK). injection HK as <-. apply pay_drain_keeps in Hd as (F & _).
    + destruct F as (_ & _ & Hcfg & _ & _ & _ & Hneg & _ & _ & _ & Hcol & _). cbn in *.
      destruct o; cbn in Hcfg, Hneg, Hcol |- *; done.
    + destruct Hinv as [I1 I2 I3 I4 I5 I6 I7 I8 I9 I10]. rewrite Hst in I7.
      destruct o; (split; try done; [|by exists c]); cbn; rewrite Hst; by destruct I7 as (? & ? & ?).
  - injection HK as <-. destruct o; cbn; (split; [reflexivity|done]).
Qed.

Lemma negotiate_collision caps w w' ssrc :
  negotiate_default caps w = Ok w' -> pay_inv w.2 -> bp_ssrc_collision w.2 = Some ssrc ->
  is_Some (p_negotiated_src_caps (bp_state w'.2)) ->
  st_ssrc <$> p_stream (bp_state w'.2) = Some ssrc /\
  sk_ssrc <$> p_negotiated_src_caps (bp_state w'.2) = Some (Some ssrc) /\ bp_ssrc_collision w'.2 = None.
Proof.
  unfold negotiate_default. intros (fixed & Hfix%unwrap_ok & HK)%bind_ok Hinv Hcol Hneg.
  apply bind_ok in HK as (? & _ & HK). apply bind_ok in HK as (c & Hc%unwrap_ok & HK).
  apply bind_ok in HK as (? & Hpos%assert_ok & HK). rewrite Z.gtb_ltb in Hpos. apply Z.ltb_lt in Hpos.
  pose proof (fixate_clock_rate _ _ _ Hfix Hc) as Hmax. change (2 ^ 31) with 2147483648 in Hmax.
  apply bind_ok in HK as ([[exts negotiated]|] & _ & HK); cbv beta iota zeta in HK.
  2:{ injection HK as <-. by destruct Hneg. }
  rewrite Hcol in HK. apply bind_ok in HK as (b1 & Hb1 & HK). apply bind_ok in HK as (stream & Hst%unwrap_ok & HK).
  pose proof (configure_stream_frame _ _ _ _ Hb1) as (_ & _ & _ & _ & F5 & F6). cbn in F5.
  apply configure_stream_inv in Hb1 as (I1 & _); [|by destruct Hinv; split].
  rewrite Hst in F6. injection F6 as F6.
  destruct (bool_decide _) eqn:Hsame.
  - injection HK as <-. apply bool_decide_eq_true in Hsame. cbn. rewrite Hst, Hsame. cbn. by rewrite F6.
  - apply announce_caps_frame in HK as (Hcfg & Hn & Hcoll); [|by exists stream| |done].
    2:{ rewrite wrap_small; lia. }
    cbn in Hcfg, Hcoll. rewrite Hst in Hcfg. destruct (p_stream (bp_state w'.2)) as [stream'|]; [|done].
    rewrite Hn, Hcoll. cbn. destruct Hcfg as (_ & -> & _). by rewrite F6.
Qed.
End Collision.

(** ** Theorems *)
Section Theorems.
Context `{Gst} `{GstTime} `{StreamTime} `{RtpTypes} `{RtpWriter} `{HeaderExtensions} `{PayCaps} `{PayClass}
  `{!ExtensionWriter} `{!PayDrain} `{!PayNegotiate} `{!PaySubclass}.
Context `{!GstLaws} `{!RtpWriterLaws} `{!PayMetasOnly} `{!PayCapsLaws} `{!UsesPay}.

(** C27: After any sequence of buffers, buffer lists, events, collisions, state
    changes, signals and properties, for any subclass: packets with a time are
    in front of those that still wait for one, every packet can be parsed,
    pending buffers are numbered without a gap up to the last one given out,
    have a PTS and a segment, the sequence number, the last timestamp and the
    clock rate are in range, and before negotiation nothing is queued. *)
Theorem pay_invariant sub env ops w :
  is_u32 (env_random_timestamp env) -> Forall pay_op_typed ops ->
  res_fold pay_exec (sub, PayBase_new env) ops = Ok w -> pay_inv w.2.
Proof. intros Henv Hty HK. eapply pay_run_inv; [exact Hty|exact HK|]. by apply pay_new_inv. Qed.

(** C26: Sequence numbers are consecutive in the order of the calls: whatever the
    relation of packets to buffers, and however pushing, dropping and queueing
    interleave, the packets sent and waiting are those from before, each with
    the number, SSRC, payload type, marker bit and payload it had, followed by
    one packet for every call that succeeded, with the SSRC and the payload
    type of the stream, its marker bit and its payload, and the number after
    that of the call before it, modulo 2^16; a call that fails has taken a
    number too. What was sent stays as it is; packets that wait may still get
    a time. *)
Theorem pay_packets_numbered sub env ops w qs b stream :
  is_u32 (env_random_timestamp env) -> Forall pay_op_typed ops ->
  res_fold pay_exec (sub, PayBase_new env) ops = Ok w ->
  is_Some (p_negotiated_src_caps (bp_state w.2)) -> p_stream (bp_state w.2) = Some stream ->
  pay_queues w.2 qs b ->
  stream_of_packets b =
    stream_of_packets w.2 ++ numbered_packets (st_ssrc stream) (st_pt stream) (st_last_seqnum stream) qs /\
  exists more, bp_out b = bp_out w.2 ++ more.
Proof.
  intros Henv Hty HK Hn Hst Hq.
  assert (Hinv : pay_inv w.2) by (eapply pay_run_inv; [exact Hty|exact HK|by apply pay_new_inv]).
  by destruct (pay_queues_numbered _ _ _ _ Hq Hinv Hn Hst) as (Hs & Hm & _).
Qed.

(** C28: A payload that is not empty and not longer than [max_payload_size] says,
    for a range that starts with or before the first pending buffer and in a
    packet without sources or extension of its own, gives a packet that fits
    the MTU. The packet lists the sources of its buffers if they are asked for,
    each once and up to 15 of them, and has an extension in which every header
    extension was given the room it asks for and left its element, unless no
    form suits them all. *)
Theorem pay_packet_fits ids off packet b u b' id buffer rest :
  pay_inv b -> pay_queue_packet (ids_relation ids off) packet b = Ok (Success u, b') ->
  p_pending_buffers (bp_state b) = (id, buffer) :: rest -> fst ids <= id ->
  rb_csrc packet = [] -> rb_extension packet = None ->
  0 < Z.of_nat (length (rb_payload packet)) <= pay_max_payload_size b ->
  exists l p h, pwaiting b' = l ++ [p] /\ essence <$> l = essence <$> pwaiting b /\
    Z.of_nat (length (po_bytes p)) <= ps_mtu (bp_settings b) /\ RtpPacket_parse (po_bytes p) = Some h /\
    complete_header b (take_while (fun x => fst x <=? snd ids) (p_pending_buffers (bp_state b))) buffer h.
Proof. intros Hinv HK. destruct ids as [a e]. by eapply packet_fits. Qed.

(** C29: The time of a packet of buffers, with and without an offset. The first
    of its buffers that is pending gives a PTS, clipped to the segment. Without
    an offset that is the PTS of the packet; with an offset in time the packet
    is that much later, up to the end of the segment; with an offset in RTP
    ticks its PTS and its RTP time are that much after those of the last packet
    whose time came from a PTS. A time that comes from a PTS is the running
    time, or the stream time, at the clock rate, rounded up, and later offsets
    refer to it. The timestamp on the wire is the offset of the stream plus the
    RTP time, modulo 2^32, and every packet that waited for a time has one now.
    The segment has a start that is not after its end, times in it are below
    2^61 ns, and sums fit a [ClockTime]. *)
Theorem pay_packet_time `{!ClockAddLaws} a e off packet b u b' stream c n sg start front rest t base :
  pay_inv b -> pay_queue_packet (ids_relation (a, e) off) packet b = Ok (Success u, b') ->
  p_stream (bp_state b) = Some stream -> p_clock_rate (bp_state b) = Some c -> 0 < c < U32 ->
  p_segment (bp_state b) = Some (n, sg) -> sg_start sg = Some start ->
  match sg_stop sg with Some stop => start <= stop | None => True end ->
  skip_while (fun x => fst x <? a) (p_pending_buffers (bp_state b)) = front :: rest -> in_pts (snd front) = Some t ->
  let first := Z.max start (stop_pts sg t) in
  rtptime_base (st_use_stream_time stream) sg first = Ok base -> 0 <= base < 2 ^ 61 ->
  match off with Some off => offset_known b sg (st_use_stream_time stream) c first off | None => True end ->
  exists l p h ppts prt, pwaiting b' = l ++ [p] /\ essence <$> l = essence <$> pwaiting b /\ Forall (fun q => timed q = true) l /\
    RtpPacket_parse (po_bytes p) = Some h /\ po_pts p = Some ppts /\
    rh_timestamp h = (st_timestamp_offset stream + prt) mod U32 /\
    time_of_packet b sg (st_use_stream_time stream) c first off ppts prt (p_last_pts_rtp_mapping (bp_state b')).
Proof.
  intros Hinv HK Hst Hc Hcr Hsg Hstart Hstop Hpend Ht first Hbase Hrange Hoff.
  destruct (queue_success a e off _ _ _ _ HK Hinv) as (stream' & front' & c' & n' & sg' & t' & pts' & ppts & prt & mapping & p & l & packet1 &
    Hst' & Hhd & Hc' & Hsg' & Ht' & Hclip & Htime & _ & _ & _ & Hmap & Hw & Hall & He & Hq).
  rewrite Hst in Hst'. injection Hst' as <-. rewrite Hc in Hc'. injection Hc' as <-. rewrite Hsg in Hsg'. injection Hsg' as <- <-.
  rewrite Hpend in Hhd. injection Hhd as <-. rewrite Ht in Ht'. injection Ht' as <-.
  assert (Hp : clip_pts sg t = Ok first).
  { unfold clip_pts. rewrite Hstart. cbn [unwrap]. rewrite bind_Ok. f_equal. subst first. unfold stop_pts.
    destruct (sg_stop sg) as [stop|]; destruct (Z.leb_spec t start); [lia| |lia..].
    rewrite Z.geb_leb. destruct (Z.leb_spec stop t); lia. }
  rewrite Hp in Hclip. injection Hclip as <-.
  destruct (packet_time_known b sg (st_use_stream_time stream) c t first base off Hp Hbase Hrange Hcr Hoff) as (o & Ho & Htp).
  rewrite Htime in Ho. injection Ho as <-.
  destruct Hq as (input & final & flags & h & _ & _ & Hh & _ & Hrt & _ & _ & Hpts & _).
  exists l, p, h, ppts, prt. do 6 (split; [done|]). by rewrite Hmap.
Qed.

(** C30: Queueing a packet does not panic: out of band it always returns, and for a
    range of buffers, with or without an offset, it returns when the range does
    not end before the first of its buffers still pending, the clipped PTS of
    that buffer has a time in the segment below 2^61 ns, and an offset leads to
    such a time or, in ticks after an earlier packet, to a [ClockTime]; no
    precondition is put on packets that wait, on header extensions or on what
    the subclass put into the packet. *)
Theorem pay_queue_no_panic `{!ClockAddLaws} rel packet b :
  pay_inv b -> relation_ok b rel -> exists r b', pay_queue_packet rel packet b = Ok (r, b') /\ pay_inv b'.
Proof.
  intros Hinv Hrel. destruct (queue_total rel packet b Hinv Hrel) as (r & b' & HK). exists r, b'.
  split; [done|]. by apply (pay_queue_keeps _ _ _ _ _ HK Hinv).
Qed.

(** An SSRC collision reported from downstream is resolved by the next
    negotiation: the event only stores an SSRC that differs from the one in use
    (the suggested one if it does), the stream is not touched and negotiation is
    not asked for; a negotiation that succeeds then puts it on the stream and in
    the caps, and no collision is left. *)
Lemma ssrc_collision_resolved ssrc suggested draws b b1 stats caps sub w :
  pay_inv b -> bp_stats b = Some stats -> ys_ssrc stats = ssrc ->
  handle_ssrc_collision_event (Some ssrc) suggested draws b = Some b1 ->
  bp_state b1 = bp_state b /\ bp_reconfigure b1 = bp_reconfigure b /\
  exists new_ssrc, bp_ssrc_collision b1 = Some new_ssrc /\ new_ssrc <> ssrc /\
    match suggested with Some s => s <> ssrc -> new_ssrc = s | None => True end /\
    (negotiate_default caps (sub, b1) = Ok w -> is_Some (p_negotiated_src_caps (bp_state w.2)) ->
     st_ssrc <$> p_stream (bp_state w.2) = Some new_ssrc /\
     sk_ssrc <$> p_negotiated_src_caps (bp_state w.2) = Some (Some new_ssrc) /\
     bp_ssrc_collision w.2 = None).
Proof.
  intros Hinv Hstats Hssrc HK. unfold handle_ssrc_collision_event in HK. rewrite Hstats, Hssrc, Z.eqb_refl in HK. cbn [negb] in HK.
  match type of HK with context [?m ≫= _] => destruct m as [new_ssrc|] eqn:Hnew end; [|done]. injection HK as <-.
  split; [done|]. split; [done|]. exists new_ssrc. split; [done|].
  assert (Hd : new_ssrc <> ssrc /\ match suggested with Some s => s <> ssrc -> new_ssrc = s | None => True end).
  { destruct suggested as [s|]; [destruct (Z.eqb_spec s ssrc); cbn [negb] in Hnew|].
    - split; [by eapply draw_other_differs|done].
    - by injection Hnew as <-.
    - split; [by eapply draw_other_differs|done]. }
  destruct Hd as [Hne Hsug]. split; [done|]. split; [done|]. intros HN Hneg.
  eapply negotiate_collision; [exact HN|by destruct Hinv; split|done|done].
Qed.

(** A segment that is not in TIME format and arrives while a segment waits
    for the output caps leaves the element unable to negotiate: there is a
    segment to send, but none is known, so a negotiation returns only if the
    header extensions of the caps are malformed, and otherwise panics. *)
Lemma pay_other_segment_panics caps w w' :
  p_pending_segment (bp_state w.2) = true -> p_segment (bp_state w.2) = None ->
  p_negotiated_src_caps (bp_state w.2) = None ->
  negotiate_default caps w = Ok w' ->
  p_negotiated_src_caps (bp_state w'.2) = None /\ bp_out w'.2 = bp_out w.2.
Proof.
  intros Hps Hsg Hn HK. unfold negotiate_default in HK.
  apply bind_ok in HK as (fixed & _ & HK). apply bind_ok in HK as (? & _ & HK). apply bind_ok in HK as (c & _ & HK).
  apply bind_ok in HK as (? & _ & HK). apply bind_ok in HK as ([[exts negotiated]|] & _ & HK); cbv beta iota zeta in HK.
  2:{ by injection HK as <-. }
  apply bind_ok in HK as (b1 & Hb1 & HK). apply bind_ok in HK as (stream & _ & HK).
  apply configure_stream_frame in Hb1 as (F1 & F2 & F3 & _). cbn in F1, F2, F3. rewrite F3, Hn in HK.
  rewrite bool_decide_eq_false_2 in HK by done. unfold announce_caps in HK. cbv zeta in HK.
  apply bind_ok in HK as (stats & _ & HK). apply bind_ok in HK as ([o s] & Hr & _).
  unfold pay_retrieve_segment_event in Hr. cbn in Hr. rewrite F1, Hps, F2, Hsg in Hr. done.
Qed.

(** A packet for buffers that are all before the first pending one (dropped
    by the subclass, or released after a later packet) is no error: once its time
    is found, looking for its first buffer panics. *)
Lemma pay_released_ids_panic a e packet b front rest back :
  pay_inv b -> is_Some (p_negotiated_src_caps (bp_state b)) ->
  p_pending_buffers (bp_state b) = front :: rest -> last (front :: rest) = Some back ->
  a <= e -> e < fst front ->
  (forall n sg stream t, p_segment (bp_state b) = Some (n, sg) -> p_stream (bp_state b) = Some stream ->
    in_pts (snd front) = Some t -> time_known sg (st_use_stream_time stream) t) ->
  pay_queue_packet (Ids (a, e)) packet b = Panic.
Proof.
  intros Hinv Hneg Hpend Hlast Hae Hid Htime. unfold pay_queue_packet.
  destruct (negotiated_stream b Hinv Hneg) as (stream & c & Hst & Hc & Hcr). destruct Hneg as [caps ->].
  rewrite Hst. cbn [unwrap]. rewrite bind_Ok. cbv zeta. fold (next_number stream b).
  pose proof (next_number_inv _ _ Hst Hinv) as Hinv1.
  assert (Hskip : skip_while (fun x : Z * InputBuffer Content => fst x <? a) (p_pending_buffers (bp_state (next_number stream b))) = front :: rest).
  { change (p_pending_buffers (bp_state (next_number stream b))) with (p_pending_buffers (bp_state b)). rewrite Hpend. cbn [skip_while].
    by destruct (Z.ltb_spec (fst front) a); [lia|]. }
  assert (Hback : fst front <= fst back).
  { pose proof (pi_buffers _ Hinv) as Hnum. rewrite Hpend in Hnum. rewrite (numbered_head _ _ _ _ Hnum).
    rewrite (numbered_last _ _ _ _ Hnum Hlast). lia. }
  match goal with |- context [queue_for_ids _ None ?p _] =>
    destruct (queue_ids_timed a e p (next_number stream b) _ c front rest back Hinv1 eq_refl Hc Hcr Hae Hskip Hlast ltac:(lia))
      as (n & sg & t & pts & base & _ & _ & _ & _ & ->) end.
  - intros n sg t Hsg Ht. exact (Htime n sg stream t Hsg Hst Ht).
  - eapply queue_timed_released; [reflexivity|apply Hinv1|apply Hinv1|exact Hskip|done].
Qed.
End Theorems.

(** ** A complete element

    Instances of the interfaces, and a subclass that makes a packet of every
    buffer with data, keeps the others pending, and sets the output caps when
    caps arrive. *)
#[local] Existing Instances gst_exact gst_exact_laws time_exact.

(** Header extensions that are known by their id and write three bytes. *)
#[local] Instance mark_extensions : HeaderExtensions := {|
  Ext := Z;
  ext_id e := e;
  ext_uri _ := None;
  ext_read e _ _ b := (true, e, b);
  ext_wants_update _ := false;
  ext_update_caps _ c := (true, c);
  ext_set_attributes_from_caps _ e := (true, e);
  ext_create_from_uri _ := None;
  ext_set_id id _ := id;
  application_extension _ _ := None;
|}.

#[local] Instance stream_time_exact : StreamTime := {| to_stream_time _ t := t |}.

#[local] Instance simple_caps : PayCaps := {|
  MediaCaps := Z;
  OpenCaps := SinkCaps;
  open_name c := Some (sk_name c);
  open_is_empty _ := false;
  open_fixate c := match sk_clock_rate c with
                   | Some rate => if rate <? 2 ^ 31 then Some c else None
                   | None => None
                   end;
|}.

#[local] Instance simple_caps_laws : PayCapsLaws.
Proof.
  split. intros caps fixed c. cbn. destruct (sk_clock_rate caps) as [rate|] eqn:Hr; [|done].
  destruct (Z.ltb_spec rate (2 ^ 31)); [|done]. intros [= <-]. rewrite Hr. by intros [= <-].
Qed.

#[local] Instance chunk_class : PayClass := {|
  Content := list Z;
  drop_header_buffers := false;
  default_pt := 96;
  default_mtu := 1400;
  pay_meta_transform _ p := Some p;
  pay_transform_meta _ m p := p <| po_metas ::= fun l => l ++ [m] |>;
|}.

#[local] Instance mark_writer : @ExtensionWriter mark_extensions simple_caps chunk_class :=
  @Build_ExtensionWriter mark_extensions simple_caps chunk_class (fun _ => true) (fun _ => true) (fun _ _ => 3)
    (fun e _ _ p data => if (3 <=? length data)%nat then (Some 3, [1; 2; 3] ++ drop 3 data, e, p) else (None, data, e, p))
    (fun _ e => (true, e)) (fun _ c => c).

#[local] Instance chunk_metas : PayMetasOnly.
Proof.
  split; [done|done|]. intros e i flags p d w d' e' p'. destruct d as [|x [|y [|z d]]]; intros [= <- <- <- <-]; [done..|].
  split; [done|]. split; [done|]. split; [|cbn; lia].
  intros Hd. repeat (constructor; [unfold is_u8; lia|]). by do 3 apply Forall_cons in Hd as [_ Hd].
Qed.

#[local] Instance chunk_drain : PayDrain := {|
  PaySub := unit;
  psub_drain w := Ok (Success tt, w);
  psub_flush w := Ok w;
|}.

#[local] Instance chunk_negotiate : PayNegotiate := {| psub_negotiate := negotiate_default |}.

Definition chunk_packet (payload : list Z) : RtpBuilder := mkRtpBuilder false payload 0 0 0 0 [] None.

Definition chunk_caps : SinkCaps := mkSinkCaps "application/x-rtp" (Some 90000) None None None None None None None None [].

#[local] Instance chunk : PaySubclass := {|
  psub_handle_buffer buffer id w :=
    match in_content buffer with
    | [] => Ok (Success tt, w)
    | payload => '(r, b) ← pay_queue_packet (Ids (id, id)) (chunk_packet payload) w.2; Ok (r, (w.1, b))
    end;
  psub_set_sink_caps caps w :=
    if caps =? 0 then Ok (true, w) else w ← pay_set_src_caps chunk_caps w; Ok (true, w);
  psub_start w := Ok (true, w);
  psub_stop w := Ok (true, w);
|}.

#[local] Instance chunk_uses : UsesPay.
Proof.
  split; cbn.
  - intros w r w' [= <- <-]. apply rtc_refl.
  - intros w w' [= <-]. apply rtc_refl.
  - intros caps w w' HK. exists caps, w. split; [apply rtc_refl|done].
  - intros buffer id w r w' HK. destruct (in_content buffer) as [|x l]; [injection HK as <- <-; apply rtc_refl|].
    apply bind_ok in HK as ([r' b'] & Hq & HK). injection HK as <- <-. apply rtc_once, step_call. eapply pcall_queue. exact Hq.
  - intros caps w r w' HK. destruct (caps =? 0); [injection HK as <- <-; apply rtc_refl|].
    apply bind_ok in HK as (w1 & Hq & HK). injection HK as <- <-. apply rtc_once, (step_caps (chunk_caps : @OpenCaps simple_caps)). exact Hq.
  - intros w r w' [= <- <-]. apply rtc_refl.
  - intros w r w' [= <- <-]. apply rtc_refl.
Qed.

(** ** Examples *)
Definition env0 : PayEnv := mkPayEnv (fun c => c) 7 1000 65535 [].
Definition chunk_of (payload : list Z) (pts : Z) : InputBuffer Content :=
  mkInputBuffer payload (Some pts) false false None [].
Definition pay_start : list PayOp :=
  [PopStart; PopEvent (PevCaps 1); PopEvent (PevSegment 1 (TimeSegment open_segment))].
Definition finished {A} (r : res A) : bool := match r with Ok _ => true | Panic => false end.
Definition outcome {A} (d : A) (r : res A) : A := match r with Ok a => a | Panic => d end.

Lemma finished_outcome {A} (d : A) r : finished r = true -> r = Ok (outcome d r).
Proof. by destruct r. Qed.

Lemma found_default {A} (d : A) o : is_some o = true -> o = Some (default d o).
Proof. by destruct o. Qed.

Definition pay_run (ops : list PayOp) : unit * PayBase :=
  outcome (tt, PayBase_new env0) (res_fold pay_exec (tt, PayBase_new env0) ops).

(** The element after queueing a packet, which succeeds. *)
Definition after_queueing (rel : BufferRelation) (payload : list Z) (b : PayBase) : PayBase :=
  snd (outcome (Failure FlowErr, b) (pay_queue_packet rel (chunk_packet payload) b)).

Lemma queueing_succeeds rel payload b :
  match pay_queue_packet rel (chunk_packet payload) b with Ok (Success _, _) => true | _ => false end = true ->
  pay_queue_packet rel (chunk_packet payload) b = Ok (Success tt, after_queueing rel payload b).
Proof. unfold after_queueing. by destruct (pay_queue_packet _ _ _) as [[[[]|] b']|]. Qed.

(** Two packets were sent; the second buffer and one without data are pending. *)
Definition pay_ops : list PayOp :=
  pay_start ++ [PopBuffer (chunk_of [1; 2] 0); PopBuffer (chunk_of [3] 0); PopBuffer (chunk_of [] 1000000000)].

Example chunks_sent :
  (fun p => (po_bytes p, po_pts p)) <$> psent (pay_run pay_ops).2
  = [([128; 96; 255; 255; 0; 0; 3; 232; 0; 0; 0; 7; 1; 2], Some 0);
     ([128; 96; 0; 0; 0; 0; 3; 232; 0; 0; 0; 7; 3], Some 0)].
Proof. vm_compute. reflexivity. Qed.

Lemma pay_ops_run :
  is_u32 (env_random_timestamp env0) /\ Forall pay_op_typed pay_ops /\
  res_fold pay_exec (tt, PayBase_new env0) pay_ops = Ok (pay_run pay_ops).
Proof. split; [by split|]. split; [by repeat constructor|]. apply finished_outcome. vm_compute. reflexivity. Qed.

Lemma pay_ops_inv : pay_inv (pay_run pay_ops).2.
Proof.
  destruct pay_ops_run as (He & Hty & Hr).
  exact (pay_run_inv pay_ops (tt, PayBase_new env0) (pay_run pay_ops) Hty Hr (pay_new_inv env0 He)).
Qed.

Lemma pay_invariant_witness :
  p_pending_buffers (bp_state (pay_run pay_ops).2) <> [] /\ is_Some (p_segment (bp_state (pay_run pay_ops).2)).
Proof.
  assert (Hne : p_pending_buffers (bp_state (pay_run pay_ops).2) <> []) by (by vm_compute).
  split; [done|]. apply (pay_invariant (H8 := chunk_drain) tt env0 pay_ops); [apply pay_ops_run..|done].
Defined.

(** A packet out of band, then one of the pending buffer. *)
Definition queued_next : PayBase := after_queueing PayOutOfBand [8] (pay_run pay_ops).2.
Definition queued_two : PayBase := after_queueing (Ids (2, 2)) [9] queued_next.

Lemma pay_packets_numbered_witness :
  stream_of_packets queued_two =
    [Some (65535, 7, 96, false, [1; 2]); Some (0, 7, 96, false, [3]); Some (1, 7, 96, false, [8]);
     Some (2, 7, 96, false, [9])].
Proof.
  destruct (pay_packets_numbered (H8 := chunk_drain) tt env0 pay_ops (pay_run pay_ops) [(true, chunk_packet [8]); (true, chunk_packet [9])] queued_two
    (mkPayStream 96 7 1000 65535 false 0 1000)) as [Hs _].
  - apply pay_ops_run.
  - apply pay_ops_run.
  - apply pay_ops_run.
  - vm_compute. by eexists.
  - vm_compute. reflexivity.
  - eapply (pq_queue PayOutOfBand (chunk_packet [8]) _ (Success tt) queued_next); [apply queueing_succeeds; vm_compute; reflexivity|].
    eapply (pq_queue (Ids (2, 2)) (chunk_packet [9]) _ (Success tt) queued_two); [apply queueing_succeeds; vm_compute; reflexivity|apply pq_done].
  - rewrite Hs. vm_compute. reflexivity.
Defined.

(** Two header extensions, two buffers with sources, and the largest payload
    for the MTU of 1400 bytes. *)
Definition source_ops : list PayOp :=
  [PopAddExtension (3 : @Ext mark_extensions); PopAddExtension (5 : @Ext mark_extensions); PopProperty (PropSourceInfo true)] ++
  pay_start ++ [PopBuffer (mkInputBuffer [] (Some 0) false false (Some (Some 21, [22])) []);
                PopBuffer (mkInputBuffer [] (Some 0) false false (Some (Some 22, [23])) [])].
Definition full_payload : list Z := replicate 1316 5.
Definition queued_full : PayBase := after_queueing (Ids (0, 1)) full_payload (pay_run source_ops).2.

Lemma source_ops_inv : pay_inv (pay_run source_ops).2.
Proof.
  assert (Hty : Forall pay_op_typed source_ops) by (by repeat constructor).
  assert (Hr : res_fold pay_exec (tt, PayBase_new env0) source_ops = Ok (pay_run source_ops))
    by (apply finished_outcome; vm_compute; reflexivity).
  exact (pay_run_inv source_ops (tt, PayBase_new env0) (pay_run source_ops) Hty Hr (pay_new_inv env0 (proj1 pay_ops_run))).
Qed.

Lemma source_ops_state :
  p_pending_buffers (bp_state (pay_run source_ops).2) =
    [(0, mkInputBuffer [] (Some 0) false false (Some (Some 21, [22])) []);
     (1, mkInputBuffer [] (Some 0) false false (Some (Some 22, [23])) [])] /\
  ps_source_info (bp_settings (pay_run source_ops).2) = true /\
  by_id (bp_extensions (pay_run source_ops).2) = [(3, 3); (5, 5)] /\
  pay_max_payload_size (pay_run source_ops).2 = 1316 /\ pwaiting (pay_run source_ops).2 = [] /\
  ps_mtu (bp_settings (pay_run source_ops).2) = 1400.
Proof. vm_compute. by repeat split. Qed.

Lemma pay_packet_fits_witness :
  exists p h, pwaiting queued_full = [p] /\ RtpPacket_parse (po_bytes p) = Some h /\ Z.of_nat (length (po_bytes p)) <= 1400 /\
    Forall (fun x => x ∈ rh_csrc h) [21; 22; 23] /\
    exists data, rh_extension h = Some (48862, data) /\ length data = 8%nat.
Proof.
  destruct source_ops_state as (Hpend & Hsrc & Hext & Hmax & Hwait & Hmtu).
  destruct (pay_packet_fits (0, 1) None (chunk_packet full_payload) (pay_run source_ops).2 tt queued_full 0
      (mkInputBuffer [] (Some 0) false false (Some (Some 21, [22])) [])
      [(1, mkInputBuffer [] (Some 0) false false (Some (Some 22, [23])) [])])
    as (l & p & h & Hw & He & Hl & Hh & Hcs & Hx).
  - apply source_ops_inv.
  - apply queueing_succeeds. vm_compute. reflexivity.
  - exact Hpend.
  - by cbn.
  - reflexivity.
  - reflexivity.
  - rewrite Hmax. unfold full_payload. cbn [rb_payload chunk_packet]. rewrite length_replicate. lia.
  - rewrite Hmtu in Hl. rewrite Hext in Hx. rewrite Hsrc, Hpend in Hcs. cbn in Hcs, Hx. exists p, h.
    rewrite Hwait in He. apply fmap_nil_inv in He as ->. split; [exact Hw|]. split; [done|]. split; [done|].
    split.
    + repeat (constructor; [apply (sources_few _ _ _ Hcs); [by vm_compute|by repeat constructor]|]). constructor.
    + destruct Hx as (_ & data & Hd & Hlen & _). exists data. split; [exact Hd|]. apply Nat2Z.inj. exact Hlen.
Defined.

(** 160 ticks after the packet before, which has PTS 0, at 90 kHz and with an
    offset of 1000. *)
Definition queued_time : PayBase := after_queueing (IdsWithOffset (2, 2) (PayOffsetRtp 160)) [9] (pay_run pay_ops).2.

Lemma pay_packet_time_witness :
  exists l p h, pwaiting queued_time = l ++ [p] /\ RtpPacket_parse (po_bytes p) = Some h /\
    po_pts p = Some 1777778 /\ rh_timestamp h = 1160.
Proof.
  assert (Hmap : p_last_pts_rtp_mapping (bp_state (pay_run pay_ops).2) = Some (0, 0)) by (vm_compute; reflexivity).
  destruct (pay_packet_time (H16 := clock_add_exact_laws) 2 2 (Some (PayOffsetRtp 160)) (chunk_packet [9]) (pay_run pay_ops).2 tt queued_time
    (mkPayStream 96 7 1000 65535 false 0 1000) 90000 1 open_segment 0 (2, chunk_of [] 1000000000) [] 1000000000 1000000000)
    as (l & p & h & ppts & prt & Hw & _ & _ & Hh & Hp & Ht & Htp).
  - apply pay_ops_inv.
  - apply (queueing_succeeds (IdsWithOffset (2, 2) (PayOffsetRtp 160))). vm_compute. reflexivity.
  - vm_compute. reflexivity.
  - vm_compute. reflexivity.
  - by split.
  - vm_compute. reflexivity.
  - reflexivity.
  - exact I.
  - vm_compute. reflexivity.
  - reflexivity.
  - reflexivity.
  - by split.
  - split; [lia|]. rewrite Hmap. intros bp rt [= <- <-]. split; [lia|]. vm_compute. reflexivity.
  - exists l, p, h. split; [done|]. split; [done|]. destruct Htp as (Hm & bp & rt & Hm' & -> & ->).
    rewrite Hm, Hmap in Hm'. injection Hm' as <- <-. split; [exact Hp|]. rewrite Ht. vm_compute. reflexivity.
Defined.

Lemma pending_time_known n sg stream t :
  p_segment (bp_state (pay_run pay_ops).2) = Some (n, sg) -> p_stream (bp_state (pay_run pay_ops).2) = Some stream ->
  t = 1000000000 \/ t = 0 -> time_known sg (st_use_stream_time stream) t.
Proof.
  assert (Hs : p_segment (bp_state (pay_run pay_ops).2) = Some (1, open_segment)) by (vm_compute; reflexivity).
  assert (Hst : p_stream (bp_state (pay_run pay_ops).2) = Some (mkPayStream 96 7 1000 65535 false 0 1000)) by (vm_compute; reflexivity).
  rewrite Hs, Hst. intros [= <- <-] [= <-] Ht. exists t, t. destruct Ht as [-> | ->];
    (split; [reflexivity|]; split; [reflexivity|]; by split).
Qed.

Lemma pending_two :
  p_pending_buffers (bp_state (pay_run pay_ops).2) = [(1, chunk_of [3] 0); (2, chunk_of [] 1000000000)].
Proof. vm_compute. reflexivity. Qed.

Lemma pay_queue_no_panic_witness :
  exists r b', pay_queue_packet (IdsWithOffset (2, 2) (PayOffsetPts 20000000)) (chunk_packet [300]) (pay_run pay_ops).2 = Ok (r, b').
Proof.
  destruct (pay_queue_no_panic (H16 := clock_add_exact_laws) (IdsWithOffset (2, 2) (PayOffsetPts 20000000))
    (chunk_packet [300]) (pay_run pay_ops).2) as (r & b' & HK & _).
  - apply pay_ops_inv.
  - cbn [relation_ok]. unfold range_ok. rewrite pending_two. cbn [skip_while fst]. intros _. split; [done|].
    intros n sg stream c t Hs Hst _ [= <-]. split; [eapply pending_time_known; [done..|auto]|].
    assert (Hs' : p_segment (bp_state (pay_run pay_ops).2) = Some (1, open_segment)) by (vm_compute; reflexivity).
    rewrite Hs' in Hs. injection Hs as _ <-. intros first [= <-]. split; [lia|]. split; [lia|]. split; [vm_compute; reflexivity|].
    exists 1020000000. split; [by destruct (st_use_stream_time stream)|]. by split.
  - by exists r, b'.
Defined.

Lemma pay_released_ids_panic_witness :
  pay_queue_packet (Ids (0, 0)) (chunk_packet [9]) (pay_run pay_ops).2 = Panic.
Proof.
  apply (pay_released_ids_panic 0 0 (chunk_packet [9]) (pay_run pay_ops).2 (1, chunk_of [3] 0)
    [(2, chunk_of [] 1000000000)] (2, chunk_of [] 1000000000)).
  - apply pay_ops_inv.
  - vm_compute. by eexists.
  - apply pending_two.
  - reflexivity.
  - lia.
  - cbn. lia.
  - intros n sg stream t Hs Hst [= <-]. eapply pending_time_known; [done..|auto].
Defined.

(** SSRC 7 is taken, and the peer suggests it again. *)
Definition collided : PayBase :=
  default (pay_run pay_ops).2 (handle_ssrc_collision_event (Some 7) (Some 7) [7; 42] (pay_run pay_ops).2).
Definition renegotiated : unit * PayBase :=
  outcome (tt, collided) (negotiate_default (chunk_caps : @OpenCaps simple_caps) (tt, collided)).

Lemma ssrc_collision_resolved_witness :
  bp_ssrc_collision collided = Some 42 /\ st_ssrc <$> p_stream (bp_state renegotiated.2) = Some 42.
Proof.
  destruct (ssrc_collision_resolved (H8 := chunk_drain) 7 (Some 7) [7; 42] (pay_run pay_ops).2 collided
    (mkPayStats 7 96 (Some 90000) (Some 0) 0 1000 65535 1000) (chunk_caps : @OpenCaps simple_caps) tt renegotiated)
    as (_ & _ & n & Hn & _ & _ & HN).
  - apply pay_ops_inv.
  - vm_compute. reflexivity.
  - reflexivity.
  - apply found_default. vm_compute. reflexivity.
  - assert (Hc : bp_ssrc_collision collided = Some 42) by (vm_compute; reflexivity). split; [exact Hc|].
    rewrite Hc in Hn. injection Hn as <-. apply HN; [apply finished_outcome; vm_compute; reflexivity|vm_compute; by eexists].
Defined.

(** Caps that set no output caps, a segment that waits, and one in bytes. *)
Definition stuck_ops : list PayOp :=
  [PopStart; PopEvent (PevCaps 0); PopEvent (PevSegment 1 (TimeSegment open_segment)); PopEvent (PevSegment 2 (OtherSegment 2))].

Lemma pay_other_segment_panics_witness :
  finished (pay_exec (pay_run stuck_ops) (PopEvent (PevCaps 1))) = false /\
  forall w', negotiate_default (chunk_caps : @OpenCaps simple_caps) (pay_run stuck_ops) = Ok w' ->
    p_negotiated_src_caps (bp_state w'.2) = None.
Proof.
  split; [vm_compute; reflexivity|]. intros w' HK.
  apply (pay_other_segment_panics (H8 := chunk_drain) (chunk_caps : @OpenCaps simple_caps) (pay_run stuck_ops) w'); [vm_compute; reflexivity..|exact HK].
Defined.
