(* ===== verification/PayElement.v ===== *)
(** * Payload formats on the payloader base class

    The interface [RtpBasePay2] the payload formats are written against, made of
    the base class itself; a payload format as a subclass of it; and what the
    packets of a buffer become on the wire. *)

From S2P Require Import Prelude Queues F64 Flow BitStream ByteStream RtpBase DepayMeta BaseDepay BaseDepayRun.
From S2P Require Import BasePay BasePayInv BasePayProps RtpWire BasePayRun.

(** ** The base class as the payload formats see it *)
Section Bridge.
Context `{Gst} `{GstTime} `{StreamTime} `{RtpTypes} `{RtpWriter} `{HeaderExtensions} `{PayCaps} `{PayClass}
  `{!ExtensionWriter}.

Definition builder_of (p : PayPacket) : RtpBuilder := mkRtpBuilder (pp_marker_bit p) (pp_payload p) 0 0 0 0 [] None.

(** The base class, and the error of the last packet it did not take, which the
    subclass returns. *)
#[local] Instance pay_interface : RtpBasePay2 := {|
  RtpBase.BasePay := PayBase * option FlowError;
  max_payload_size b := pay_max_payload_size (fst b);
  queue_packet p b :=
    match pay_queue_packet (Ids (pp_start_id p, pp_end_id p)) (builder_of p) (fst b) with
    | Ok (Success _, base) => (Done tt, (base, None))
    | Ok (Failure err, base) => (Fail, (base, Some err))
    | Panic => (Crash, b)
    end;
|}.

(** A computation of a subclass, run on the base class. *)
Definition run_pay {St} (m : M (St * RtpBase.BasePay) unit) (w : St * PayBase) : res (result unit * (St * PayBase)) :=
  match m (fst w, (snd w, None)) with
  | (Done _, (st, (base, _))) => Ok (Success tt, (st, base))
  | (Fail, (st, (base, err))) => Ok (Failure (default FlowErr err), (st, base))
  | (Crash, _) => Panic
  end.

(** Computations that reach the base class through its calls only. *)
Definition calls_only {St A} (m : M (St * RtpBase.BasePay) A) : Prop :=
  forall s, rtc pay_call (fst (snd s)) (fst (snd (snd (m s)))).

Lemma calls_ret {St A} (a : A) : calls_only (St := St) (mret a).
Proof. intros s. apply rtc_refl. Qed.

Lemma calls_bind {St A B} (m : M (St * RtpBase.BasePay) A) (k : A -> M (St * RtpBase.BasePay) B) :
  calls_only m -> (forall a, calls_only (k a)) -> calls_only (a ← m; k a).
Proof.
  intros Hm Hk s. unfold mbind, M_bind. specialize (Hm s). destruct (m s) as [[a| |] s']; [|exact Hm..].
  etrans; [exact Hm|apply Hk].
Qed.

Lemma calls_same {St A} (m : M (St * RtpBase.BasePay) A) : (forall s, snd (snd (m s)) = snd s) -> calls_only m.
Proof. intros Hm s. rewrite Hm. apply rtc_refl. Qed.

Lemma calls_of_res {St A} (r : res A) : calls_only (St := St) (of_res r).
Proof. apply calls_same. intros s. by destruct r. Qed.

Lemma calls_of_flow {St A} (r : flow A) : calls_only (St := St) (of_flow r).
Proof. apply calls_same. intros s. done. Qed.

Lemma calls_of_option {St A} (r : option A) : calls_only (St := St) (of_option r).
Proof. apply calls_same. intros s. by destruct r. Qed.

Lemma calls_queue {St} p : calls_only (St := St) (queue_ p).
Proof.
  intros [st [b e]]. unfold queue_. cbn.
  destruct (pay_queue_packet _ _ b) as [[[u|err] b']|] eqn:Hq; [| |apply rtc_refl];
    apply rtc_once; by eapply pcall_queue.
Qed.

Lemma run_pay_calls {St} (m : M (St * RtpBase.BasePay) unit) w r w' :
  calls_only m -> run_pay m w = Ok (r, w') -> rtc pay_call (snd w) (snd w').
Proof.
  unfold run_pay. intros Hm HK. specialize (Hm (fst w, (snd w, None))).
  destruct (m _) as [[u| |] [st [b e]]]; [|by injection HK as <- <-..|done]. by injection HK as <- <-.
Qed.

Lemma run_pay_done {St} (m : M (St * RtpBase.BasePay) unit) st b st' e b' :
  m (st, (b, None)) = (Done tt, (st', (b', e))) -> run_pay m (st, b) = Ok (Success tt, (st', b')).
Proof. intros HK. unfold run_pay. cbn [fst snd]. by rewrite HK. Qed.
End Bridge.

(** ** A frame on its way

    The state while a subclass queues packets for the newest buffer [id], in a
    negotiated stream without header extensions. *)
Section Serving.
Context `{Gst} `{GstTime} `{StreamTime} `{RtpTypes} `{RtpWriter} `{HeaderExtensions} `{PayCaps} `{PayClass}
  `{!ExtensionWriter}.
Context `{!GstLaws} `{!RtpWriterLaws} `{!PayMetasOnly}.

(** The number, the time and the source (SSRC and payload type) of a packet on the wire. *)
Definition wire_seqnum (p : PayOut) : option Z := rh_sequence_number <$> RtpPacket_parse (po_bytes p).
Definition wire_timestamp (p : PayOut) : option Z := rh_timestamp <$> RtpPacket_parse (po_bytes p).
Definition wire_source (p : PayOut) : option (Z * Z) :=
  (fun h => (rh_ssrc h, rh_payload_type h)) <$> RtpPacket_parse (po_bytes p).

(** [l] are packets of the source [src] after number [s], of this PTS and timestamp, that fit. *)
Definition on_the_wire (src : Z * Z) (s pts ts mtu : Z) (l : list PayOut) : Prop :=
  wire_seqnum <$> l = (fun i => Some (wrap U16 (s + i))) <$> seqZ 1 (Z.of_nat (length l)) /\
  Forall (fun p => po_pts p = Some pts /\ wire_timestamp p = Some ts /\ wire_source p = Some src /\
                   Z.of_nat (length (po_bytes p)) <= mtu) l.

Lemma on_the_wire_snoc src s pts ts mtu l p :
  on_the_wire src s pts ts mtu l -> wire_seqnum p = Some (wrap U16 (s + (Z.of_nat (length l) + 1))) ->
  po_pts p = Some pts -> wire_timestamp p = Some ts -> wire_source p = Some src -> Z.of_nat (length (po_bytes p)) <= mtu ->
  on_the_wire src s pts ts mtu (l ++ [p]).
Proof.
  intros [Hn Hall] Hs Hp Ht Hsrc Hl. split; [|apply Forall_app_2; [done|by constructor]].
  rewrite length_app, Nat2Z.inj_add, seqZ_app by lia. rewrite !fmap_app, Hn. f_equal.
  change (Z.of_nat (length [p])) with 1. rewrite seqZ_cons, seqZ_nil, !list_fmap_singleton, Hs by lia. do 4 f_equal. lia.
Qed.

Definition sources_ok (x : Z * InputBuffer Content) : Prop :=
  match in_source (snd x) with
  | Some (ssrc, l) => match ssrc with Some s => is_u32 s | None => True end /\ Forall is_u32 l
  | None => True
  end.

Definition time_of (b : PayBase) (stream : PayStream) (buffer : InputBuffer Content) (pts ts : Z) : Prop :=
  exists c n sg t base, p_clock_rate (bp_state b) = Some c /\ p_segment (bp_state b) = Some (n, sg) /\
    in_pts buffer = Some t /\ clip_pts sg t = Ok pts /\ rtptime_base (st_use_stream_time stream) sg pts = Ok base /\
    0 <= base < 2 ^ 61 /\ ts = (st_timestamp_offset stream + (base * c + NS_PER_SEC - 1) / NS_PER_SEC) mod U32.

Record serving (src : Z * Z) (id s pts ts limit mtu : Z) (b : PayBase) : Prop := {
  sv_inv : pay_inv b;
  sv_caps : is_Some (p_negotiated_src_caps (bp_state b));
  sv_plain : bp_extensions b = ∅;
  sv_limit : pay_max_payload_size b = limit;
  sv_mtu : ps_mtu (bp_settings b) = mtu;
  sv_stream : exists stream buffer, p_stream (bp_state b) = Some stream /\
    skip_while (fun x => fst x <? id) (p_pending_buffers (bp_state b)) = [(id, buffer)] /\
    0 <= st_pt stream < 128 /\ is_u32 (st_ssrc stream) /\ (st_ssrc stream, st_pt stream) = src /\
    time_of b stream buffer pts ts /\ st_last_seqnum stream = wrap U16 (s + Z.of_nat (length (pwaiting b)));
  sv_sources : Forall sources_ok (p_pending_buffers (bp_state b));
  sv_packets : on_the_wire src s pts ts mtu (pwaiting b);
}.

Lemma by_id_empty {V} : by_id (∅ : gmap Z V) = [].
Proof.
  unfold by_id. generalize U8. intros n. generalize (seqZ 0 n). intros l. induction l as [|x l IH]; [done|].
  cbn. by rewrite lookup_empty.
Qed.

Lemma stamp_all_timed pts rt discont l :
  Forall (fun p => timed p = true) l -> stamp_pending pts rt discont l = Ok (l, discont).
Proof.
  intros Hl. unfold stamp_pending. fold timed. 
  assert (Hs : skip_while timed l = [] /\ take_while timed l = l).
  { induction Hl as [|p l Hp _ IH]; cbn; [done|]. rewrite Hp. destruct IH as [-> ->]. done. }
  destruct Hs as [-> ->]. cbn. by rewrite app_nil_r.
Qed.

Lemma sources_u32 buffers csrc :
  Forall sources_ok buffers -> Forall is_u32 csrc -> Forall is_u32 (fold_left buffer_sources buffers csrc).
Proof.
  assert (Hadd : forall l c, is_u32 c -> Forall is_u32 l -> Forall is_u32 (add_csrc l c)).
  { intros l c Hc Hl. unfold add_csrc. destruct (_ && _); [|done]. apply Forall_app_2; [done|by constructor]. }
  assert (Hfold : forall l c, Forall is_u32 l -> Forall is_u32 c -> Forall is_u32 (fold_left add_csrc l c)).
  { intros l c Hl. revert c. induction Hl as [|x l Hx _ IH]; intros c Hc; cbn; [done|]. by apply IH, Hadd. }
  intros Hb. revert csrc. induction Hb as [|x l Hx _ IH]; intros csrc Hc; cbn [fold_left]; [done|]. apply IH.
  unfold buffer_sources. destruct (_ <? _)%nat; [|done]. unfold sources_ok in Hx.
  destruct (in_source _) as [[[ssrc|] srcs]|]; [| |done]; destruct Hx; auto.
Qed.

(** Without header extensions a packet gets its time and its sources. *)
Lemma complete_plain b buffers input rt packet :
  bp_extensions b = ∅ ->
  complete_packet b buffers input rt packet =
    (if ps_source_info (bp_settings b)
     then packet <| rb_timestamp := rt |> <| rb_csrc ::= fun l => l ++ fold_left buffer_sources buffers [] |>
     else packet <| rb_timestamp := rt |>, None).
Proof.
  intros Hext. unfold complete_packet. rewrite Hext, by_id_empty.
  change (calculate_extension_size [] input) with (Some ONE_BYTE, 48862, 0). by destruct (ps_source_info _).
Qed.

(** Queueing in a stream without header extensions, with all packets so far
    timed. *)
Lemma queue_timed_plain id_end sg pts prt packet b stream id buffer :
  p_stream (bp_state b) = Some stream -> Forall (fun p => timed p = true) (pwaiting b) ->
  p_pending_buffers (bp_state b) = [(id, buffer)] -> id <= id_end -> bp_extensions b = ∅ ->
  Forall sources_ok (p_pending_buffers (bp_state b)) ->
  0 <= rb_payload_type packet < 128 -> is_u32 (rb_ssrc packet) -> is_u16 (rb_sequence_number packet) ->
  Forall is_u8 (rb_payload packet) -> rb_csrc packet = [] -> rb_extension packet = None ->
  0 < Z.of_nat (length (rb_payload packet)) <= pay_max_payload_size b ->
  let rt := wrap U32 (st_timestamp_offset stream + prt) in
  exists p h stats,
    queue_timed id_end sg pts pts prt packet b =
      Ok (Success tt, (on_pay (fun s => s <| p_discont_pending := false |> <| p_pending_packets := pwaiting b ++ [p] |>
                                          <| p_last_used_buffer_id := id_end |>
                                          <| p_stream := Some (stream <| st_last_timestamp := rt |>) |>
                                          <| p_last_pts := Some pts |>) b) <| bp_stats := stats |>) /\
    RtpPacket_parse (po_bytes p) = Some h /\ po_pts p = Some pts /\ rh_timestamp h = rt /\
    rh_sequence_number h = rb_sequence_number packet /\ (rh_ssrc h, rh_payload_type h) = (rb_ssrc packet, rb_payload_type packet) /\
    Z.of_nat (length (po_bytes p)) <= ps_mtu (bp_settings b).
Proof.
  intros Hst Htimed Hpend Hid Hext Hsrc Hpt Hssrc Hseq Hpl Hcs Hex Hlen. cbv zeta.
  unfold queue_timed. cbv zeta. rewrite Hst. cbn [unwrap]. rewrite bind_Ok. set (rt := wrap U32 _).
  assert (Hrt : is_u32 rt) by (apply Z.mod_pos_bound; lia).
  fold (pwaiting b). rewrite stamp_all_timed by done. rewrite bind_Ok. cbv beta iota.
  rewrite Hpend. cbn [take_while fst]. destruct (Z.leb_spec id id_end); [|lia]. cbn [head unwrap]. rewrite bind_Ok.
  rewrite complete_on_pay. destruct (complete_packet b [(id, buffer)] (snd (id, buffer)) rt packet) as [final flags] eqn:Hc.
  pose proof (complete_fits _ _ _ _ _ _ _ _ _ Hc Hpend Hcs Hex Hlen) as Hfits.
  assert (Hfinal : builder_ok final /\ flags = None /\ rb_timestamp final = rt /\
    rb_sequence_number final = rb_sequence_number packet /\ rb_ssrc final = rb_ssrc packet /\ rb_payload_type final = rb_payload_type packet).
  { rewrite complete_plain in Hc by done. injection Hc as <- <-.
    pose proof (sources_bound [(id, buffer)] [] ltac:(cbn; lia)) as Hb. rewrite Hpend in Hsrc.
    pose proof (sources_u32 [(id, buffer)] [] Hsrc ltac:(done)) as Hu. cbn [fold_left] in Hb, Hu.
    unfold builder_ok. destruct (ps_source_info _); cbn; rewrite ?Hcs, ?Hex; cbn [app length];
      (split; [|done]); do 5 (split; [done|]); (split; [first [done|lia]|]); by split. }
  destruct Hfinal as (Hbok & -> & Hts & Hsn & Hss & Hpt'). destruct (write_ok final Hbok) as [bytes Hw].
  destruct (write_spec _ _ Hw) as (Hbl & h & Hh & Hcar). unfold write_packet. rewrite Hw, Hh. cbn [unwrap]. rewrite !bind_Ok.
  cbv zeta. unfold write_extensions. rewrite bind_Ok. cbv beta iota.
  set (p := fold_left _ _ _). pose proof (copy_metas_fold [(id, buffer)] (set_discont (discont_due (bp_state b) id_end)
    (mkPayOut bytes (rh_marker_bit h) false (Some pts) []))) as Hp. fold p in Hp.
  injection Hp as Hpb _ _ Hpp. replace (po_bytes (set_discont _ _)) with bytes in Hpb by (by destruct (discont_due _ _)).
  replace (po_pts (set_discont _ _)) with (Some pts) in Hpp by (by destruct (discont_due _ _)). clearbody p.
  exists p, h. eexists. split; [reflexivity|]. rewrite Hpb, Hh, Hpp. destruct Hcar as (C1 & C2 & C3 & C4 & _).
  split; [done|]. split; [done|]. split; [by rewrite C4|]. split; [by rewrite C1|].
  split; [by rewrite C2, C3, Hss, Hpt'|]. by rewrite Hbl.
Qed.

(** The room does not depend on the buffers. *)
Lemma room_plain b b' :
  bp_extensions b = ∅ -> bp_extensions b' = ∅ -> bp_settings b' = bp_settings b ->
  pay_max_payload_size b' = pay_max_payload_size b.
Proof.
  intros He He' Hs. unfold pay_max_payload_size. rewrite He, He', Hs, by_id_empty.
  destruct (p_pending_buffers (bp_state b')) as [|[? ?] ?], (p_pending_buffers (bp_state b)) as [|[? ?] ?]; reflexivity.
Qed.

Definition packet_essence (id : Z) (e : option (Z * Z * Z * bool * list Z)) : PayPacket :=
  match e with
  | Some (_, _, _, marker, payload) => mkPayPacket id id marker payload
  | None => mkPayPacket id id false []
  end.

(** The packet of a buffer that serves, and the state after it. *)
Lemma queue_plain src id s pts ts limit mtu b p stream buffer c n sg t base :
  serving src id s pts ts limit mtu b -> is_bytes (pp_payload p) -> pp_payload p <> [] ->
  Z.of_nat (length (pp_payload p)) <= limit ->
  p_stream (bp_state b) = Some stream ->
  skip_while (fun x => fst x <? id) (p_pending_buffers (bp_state b)) = [(id, buffer)] ->
  0 <= st_pt stream < 128 -> is_u32 (st_ssrc stream) ->
  p_clock_rate (bp_state b) = Some c -> p_segment (bp_state b) = Some (n, sg) -> in_pts buffer = Some t ->
  clip_pts sg t = Ok pts -> rtptime_base (st_use_stream_time stream) sg pts = Ok base -> 0 <= base < 2 ^ 61 ->
  ts = (st_timestamp_offset stream + (base * c + NS_PER_SEC - 1) / NS_PER_SEC) mod U32 ->
  exists p1 h stats b', pay_queue_packet (Ids (id, id)) (builder_of p) b = Ok (Success tt, b') /\
    b' = (on_pay (fun st => st <| p_discont_pending := false |> <| p_pending_packets := pwaiting b ++ [p1] |>
            <| p_last_used_buffer_id := id |>
            <| p_stream := Some (stream <| st_last_seqnum := wrap U16 (st_last_seqnum stream + 1) |> <| st_last_timestamp := ts |>) |>
            <| p_last_pts := Some pts |> <| p_pending_buffers ::= skip_while (fun x => fst x <? id) |>
            <| p_last_pts_rtp_mapping := Some (pts, ((base * c + NS_PER_SEC - 1) / NS_PER_SEC) mod U32) |>) b)
          <| bp_stats := stats |> /\
    RtpPacket_parse (po_bytes p1) = Some h /\ po_pts p1 = Some pts /\ rh_timestamp h = ts /\
    rh_sequence_number h = wrap U16 (st_last_seqnum stream + 1) /\ (rh_ssrc h, rh_payload_type h) = (st_ssrc stream, st_pt stream) /\
    Z.of_nat (length (po_bytes p1)) <= mtu.
Proof.
  intros [Hinv Hcaps Hplain Hlimit Hmtu _ Hsrc Hwire] Hbytes Hne Hlen Hst Hpend Hpt Hssrc Hc Hsg Ht Hclip Hbase Hrange Hts.
  assert (Hc' : 0 < c < U32).
  { destruct (pi_rate _ Hinv Hcaps) as (c' & Hc' & ?). congruence. }
  destruct Hcaps as [caps Hn]. pose proof (next_number_inv _ _ Hst Hinv) as Hinv1.
  unfold pay_queue_packet. rewrite Hn, Hst. cbn [unwrap]. rewrite bind_Ok. cbv zeta. fold (next_number stream b).
  set (packet := (builder_of p) <| rb_payload_type := _ |> <| rb_ssrc := _ |> <| rb_sequence_number := _ |>).
  destruct (queue_ids_timed id id packet (next_number stream b) _ c (id, buffer) [] (id, buffer) Hinv1 eq_refl Hc Hc' ltac:(lia) Hpend eq_refl
    ltac:(cbn; lia)) as (n' & sg' & t' & pts' & base' & Hsg' & Ht' & Hclip' & Hbase' & HK).
  { intros n' sg' t' Hsg' Ht'. change (p_segment (bp_state b) = Some (n', sg')) in Hsg'. rewrite Hsg in Hsg'. injection Hsg' as <- <-.
    cbn [snd] in Ht'. rewrite Ht in Ht'. injection Ht' as <-. by exists pts, base. }
  change (p_segment (bp_state b) = Some (n', sg')) in Hsg'. rewrite Hsg in Hsg'. injection Hsg' as <- <-.
  cbn [snd] in Ht'. rewrite Ht in Ht'. injection Ht' as <-. rewrite Hclip in Hclip'. injection Hclip' as <-.
  change (rtptime_base (st_use_stream_time stream) sg pts = Ok base') in Hbase'. rewrite Hbase in Hbase'. injection Hbase' as <-.
  cbv zeta in HK. rewrite HK. clear HK. set (b1 := on_pay _ (on_pay _ (next_number stream b))).
  destruct (queue_timed_plain id sg pts (((base * c + NS_PER_SEC - 1) / NS_PER_SEC) mod U32) packet b1
      (stream <| st_last_seqnum := wrap U16 (st_last_seqnum stream + 1) |>) id buffer)
    as (p1 & h & stats & HK & Hh & Hp & Hrt & Hn1 & Hsrc1 & Hl1); [reflexivity| |exact Hpend|lia|exact Hplain| |done|done| |done|done|done| |].
  - destruct Hwire as [_ Hw]. eapply Forall_impl; [exact Hw|]. intros q (Hq & _). unfold timed. by rewrite Hq.
  - by apply (skip_while_Forall (fun x => fst x <? id)) in Hsrc.
  - apply Z.mod_pos_bound. lia.
  - change (rb_payload packet) with (pp_payload p). split; [destruct (pp_payload p); [done|cbn; lia]|].
    rewrite (room_plain b b1) by done. rewrite Hlimit. exact Hlen.
  - exists p1, h, stats. eexists. split; [exact HK|].
    assert (Hts' : wrap U32 (st_timestamp_offset stream + ((base * c + NS_PER_SEC - 1) / NS_PER_SEC) mod U32) = ts).
    { rewrite Hts. unfold wrap. by rewrite Zplus_mod_idemp_r. }
    split; [|split; [done|split; [done|split; [by rewrite Hrt|split; [done|split; [done|by rewrite <- Hmtu]]]]]].
    cbn [st_timestamp_offset modify rebuild PayStream_rebuild]. rewrite Hts'. by destruct b as [[]].
Qed.

(** Another packet for the buffer. *)
Lemma queue_serving src id s pts ts limit mtu b p :
  serving src id s pts ts limit mtu b -> pp_start_id p = id -> pp_end_id p = id ->
  pp_payload p <> [] -> is_bytes (pp_payload p) -> Z.of_nat (length (pp_payload p)) <= limit ->
  exists b', pay_queue_packet (Ids (pp_start_id p, pp_end_id p)) (builder_of p) b = Ok (Success tt, b') /\
    serving src id s pts ts limit mtu b' /\ bp_out b' = bp_out b /\ bp_env b' = bp_env b /\
    packet_essence id <$> (essence <$> pwaiting b') = (packet_essence id <$> (essence <$> pwaiting b)) ++ [p].
Proof.
  intros [Hinv Hcaps Hplain Hlimit Hmtu (stream & buffer & Hst & Hpend & Hpt & Hssrc & Hsource & Htime & Hnum) Hsrc Hwire] Hs1 Hs2 Hne Hbytes Hlen.
  rewrite Hs1, Hs2.
  destruct Htime as (c & n & sg & t & base & Hc & Hsg & Ht & Hclip & Hbase & Hrange & Hts).
  destruct Hcaps as [caps Hn].
  destruct (queue_plain src id s pts ts limit mtu b p stream buffer c n sg t base) as (p1 & h & stats & b' & HK & Hb' & Hh & Hp & Hpts & Hpn & Hps & Hpl);
    [by split; try done; exists stream, buffer; repeat (split; [done|]); split; [by exists c, n, sg, t, base|]|done..|].
  exists b'. split; [exact HK|].
  destruct (pay_queue_keeps _ _ _ _ _ HK Hinv) as (_ & Hinv' & Hout & HX). rewrite Hn, Hst in HX. destruct HX as [_ Hess].
  split; [|split; [done|split; [by rewrite Hb'|]]].
  - assert (Hp' : p_pending_buffers (bp_state b') = [(id, buffer)]) by (rewrite Hb'; exact Hpend).
    split.
    + done.
    + rewrite Hb'. cbn. by rewrite Hn.
    + rewrite Hb'. exact Hplain.
    + rewrite <- Hlimit. apply room_plain; [done|by rewrite Hb'..].
    + rewrite Hb'. exact Hmtu.
    + eexists _, buffer. split; [by rewrite Hb'|]. rewrite Hp'. cbn [skip_while fst]. rewrite Z.ltb_irrefl.
      split; [done|]. split; [done|]. split; [done|]. split; [exact Hsource|]. split.
      * exists c, n, sg, t, base. rewrite Hb'. by repeat (split; [done|]).
      * rewrite Hb'. cbn [st_last_seqnum modify]. cbn. rewrite length_app, Hnum. cbn. unfold wrap. rewrite Zplus_mod_idemp_l. f_equal. lia.
    + rewrite Hp'. apply (skip_while_Forall (fun x => fst x <? id)) in Hsrc. by rewrite Hpend in Hsrc.
    + rewrite Hb'. cbn. apply on_the_wire_snoc; [done|..].
      * unfold wire_seqnum. rewrite Hh. cbn. rewrite Hpn, Hnum. unfold wrap. rewrite Zplus_mod_idemp_l. do 2 f_equal. lia.
      * done.
      * unfold wire_timestamp. rewrite Hh. cbn. by rewrite Hpts.
      * unfold wire_source. rewrite Hh. cbn. by rewrite Hps, Hsource.
      * done.
  - rewrite Hess, fmap_app. cbn. by destruct p; cbn in *; subst.
Qed.

(** The base class serves a payload format. *)
#[local] Existing Instance pay_interface.

Definition good_for (id limit : Z) (p : PayPacket) : Prop :=
  pp_start_id p = id /\ pp_end_id p = id /\ pp_payload p <> [] /\ is_bytes (pp_payload p) /\
  Z.of_nat (length (pp_payload p)) <= limit.

Definition serving_base (src : Z * Z) (id s pts ts limit mtu : Z) (out : list PayOutput) (env : PayEnv)
  : SelectiveBase limit (good_for id limit).
Proof.
  refine {| serves b := serving src id s pts ts limit mtu (fst b) /\ bp_out (fst b) = out /\ bp_env (fst b) = env;
            taken b := packet_essence id <$> (essence <$> pwaiting (fst b)) |}.
  - intros b (Hs & _). apply Hs.
  - intros p [b e] (Hs & Ho & He) (H1' & H2' & H3' & H4' & H5').
    destruct (queue_serving src id s pts ts limit mtu b p Hs H1' H2' H3' H4' H5') as (b' & HK & Hs' & Ho' & He' & Ht).
    exists (b', None). cbn. cbn in HK. rewrite HK. cbn in Ho, He. split; [done|]. split; [|done].
    split; [done|]. split; congruence.
Defined.

(** ** A buffer that may come *)

(** The element between two buffers, and the next buffer. *)
Record streaming (b : PayBase) (buffer : InputBuffer Content) (src : Z * Z) (s pts ts : Z) : Prop := {
  sm_inv : pay_inv b;
  sm_reconfigure : bp_reconfigure b = false;
  sm_sink_caps : is_Some (p_sink_caps (bp_state b));
  sm_caps : is_Some (p_negotiated_src_caps (bp_state b));
  sm_plain : bp_extensions b = ∅;
  sm_empty : pwaiting b = [];
  sm_answers : env_downstream (bp_env b) = [];
  sm_id : p_current_buffer_id (bp_state b) + 1 < U64;
  sm_header : in_header buffer && drop_header_buffers = false;
  sm_sources : Forall sources_ok ((0, buffer) :: p_pending_buffers (bp_state b));
  sm_stream : exists stream, p_stream (bp_state b) = Some stream /\ 0 <= st_pt stream < 128 /\ is_u32 (st_ssrc stream) /\
    (st_ssrc stream, st_pt stream) = src /\ time_of b stream buffer pts ts /\ st_last_seqnum stream = s;
}.

Definition admitted (buffer : InputBuffer Content) (b : PayBase) : PayBase :=
  let id := p_current_buffer_id (bp_state b) in
  on_pay (fun state => state <| p_current_buffer_id := id + 1 |>
                             <| p_pending_buffers ::= fun l => l ++ [(id, buffer)] |>) b.

Lemma streaming_serves b buffer src s pts ts :
  streaming b buffer src s pts ts ->
  serving src (p_current_buffer_id (bp_state b)) s pts ts (pay_max_payload_size b) (ps_mtu (bp_settings b)) (admitted buffer b).
Proof.
  intros [Hinv Hrec Hsink Hcaps Hplain Hempty Hans Hid Hhead Hsrc (stream & Hst & Hpt & Hssrc & Hsource & Htime & Hs)].
  pose proof Htime as (c & n & sg & t & base & _ & Hsg & Ht & _).
  assert (Hold : Forall (fun x => (fst x <? p_current_buffer_id (bp_state b)) = true) (p_pending_buffers (bp_state b))).
  { pose proof (pi_buffers _ Hinv) as Hnum. unfold numbered_by in Hnum. apply Forall_forall. intros x Hx.
    apply (list_elem_of_fmap_2 fst) in Hx. rewrite Hnum in Hx. apply elem_of_seqZ in Hx. apply Z.ltb_lt. lia. }
  split.
  - destruct Hinv as [I1 I2 I3 I4 I5 I6 I7 I8 I9 I10]. split; try done; cbn.
    + replace (p_current_buffer_id (bp_state b) + 1 - 1) with (p_current_buffer_id (bp_state b) - 1 + 1) by lia.
      apply numbered_snoc; [done|cbn; lia].
    + apply Forall_app. split; [done|]. constructor; [cbn; by rewrite Ht|done].
    + lia.
  - done.
  - done.
  - by apply room_plain.
  - done.
  - exists stream, buffer. split; [done|]. split.
    + cbn. rewrite skip_while_app_all by done. cbn. by rewrite Z.ltb_irrefl.
    + split; [done|]. split; [done|]. split; [done|]. split; [exact Htime|]. unfold pwaiting in Hempty |- *. cbn. rewrite Hempty. cbn.
      rewrite Z.add_0_r, Hs, wrap_small; [done|]. pose proof (pi_stream _ Hinv) as HX. rewrite Hst in HX. destruct HX as [Hu _].
      rewrite <- Hs. exact Hu.
  - cbn. apply Forall_cons in Hsrc as [Hb Hsrc]. apply Forall_app_2; [done|]. by constructor.
  - unfold pwaiting in Hempty |- *. cbn. rewrite Hempty. by split.
Qed.

(** Everything a frame has become leaves. *)
Lemma serving_sends src id s pts ts limit mtu b :
  serving src id s pts ts limit mtu b -> env_downstream (bp_env b) = [] ->
  exists b', finish_pending_packets b = Ok (Success tt, b') /\ psent b' = psent b ++ pwaiting b /\ pwaiting b' = [] /\ pay_inv b'.
Proof.
  intros Hs Hans. destruct (pay_finish_total b (sv_inv _ _ _ _ _ _ _ _ Hs)) as (r & b' & HK & Hr). rewrite (Hr Hans) in HK.
  exists b'. split; [done|]. pose proof (pay_finish_keeps _ _ _ HK (sv_inv _ _ _ _ _ _ _ _ Hs)) as [_ Hinv'].
  apply pay_finish_spec in HK as (ps & l & a & out & -> & _ & Hj & _ & _ & Hl); [|apply Hs].
  destruct (sv_stream _ _ _ _ _ _ _ _ Hs) as (stream & buffer & _ & _ & _ & _ & _ & (c & n & sg & t & base & _ & Hsg & _) & _).
  specialize (Hl ltac:(by rewrite Hsg)).
  assert (Hnil : l = []).
  { destruct (sv_packets _ _ _ _ _ _ _ _ Hs) as [_ Hall]. rewrite <- Hj in Hall. apply Forall_app in Hall as [_ Hall].
    destruct l as [|p l]; [done|]. apply Forall_cons in Hall as [(Hp & _) _]. cbn in Hl. unfold timed in Hl. by rewrite Hp in Hl. }
  subst l. rewrite app_nil_r in Hj. split; [|by split]. unfold psent, pushed_on. cbn. by rewrite fmap_app, join_app, Hj.
Qed.
End Serving.

(** What a subclass queues for the next buffer is sent. *)
Section Sending.
Context `{Gst} `{GstTime} `{StreamTime} `{RtpTypes} `{RtpWriter} `{HeaderExtensions} `{PayCaps} `{PayClass}
  `{!ExtensionWriter} `{!PayDrain} `{!PayNegotiate} `{!PaySubclass}.
Context `{!GstLaws} `{!RtpWriterLaws} `{!PayMetasOnly}.

Lemma buffer_sent st b buffer src s pts ts st' b1 :
  streaming b buffer src s pts ts ->
  let id := p_current_buffer_id (bp_state b) in
  psub_handle_buffer buffer id (st, admitted buffer b) = Ok (Success tt, (st', b1)) ->
  serving src id s pts ts (pay_max_payload_size b) (ps_mtu (bp_settings b)) b1 -> bp_out b1 = bp_out b -> bp_env b1 = bp_env b ->
  exists b', pay_handle_buffer buffer (st, b) = Ok (Success tt, (st', b')) /\
    psent b' = psent b ++ pwaiting b1 /\ pwaiting b' = [] /\ pay_inv b'.
Proof.
  intros [Hinv Hrec [mc Hsink] Hcaps Hplain Hempty Hans Hid Hhead Hsrc (stream & Hstm & _ & _ & _ & Htime & _)] id Hsub Hs Ho He.
  destruct (serving_sends _ _ _ _ _ _ _ _ Hs) as (b2 & Hfin & Hsent & Hw & Hinv2); [by rewrite He|].
  exists (on_pay pay_drop_used b2). destruct Htime as (c & n & sg & t & base & _ & Hsg & Ht & _).
  split; [|split; [|split; [done|by apply pay_drop_used_inv]]].
  - unfold pay_handle_buffer. cbn [snd fst]. rewrite Hrec, bind_Ok. cbv zeta. cbn [snd fst]. rewrite Hsink, Hsg. cbn [is_none].
    rewrite Hhead, Ht. cbn [or_else]. rewrite (proj2 (u64_add_ok _ _ _)) by (split; [reflexivity|lia]). rewrite bind_Ok.
    replace (buffer <| in_pts := Some t |>) with buffer by (destruct buffer; cbn in *; by subst).
    fold id. unfold deliver_buffer. change (on_pay _ b) with (admitted buffer b). rewrite Hsub, bind_Ok. cbv beta iota.
    cbn [fst snd]. rewrite Hfin, bind_Ok. cbv beta iota. by rewrite bind_Ok.
  - change (psent (on_pay pay_drop_used b2)) with (psent b2). rewrite Hsent. unfold psent. by rewrite Ho.
Qed.
End Sending.

(** ** Payload formats as elements *)

(** The class of a video format: metas tagged with video, or not at all, are copied. *)
Definition video_pay_class (content : Type) (meta_transform : Meta -> PayOut -> option PayOut) : PayClass :=
  let defaults := Build_PayClass content false 96 1200 meta_transform (fun _ _ p => p) in
  Build_PayClass content false 96 1200 meta_transform (@pay_transform_meta_default defaults ["video"%string]).

Section FormatElement.
Context `{Gst} `{GstTime} `{StreamTime} `{RtpTypes} `{RtpWriter} `{HeaderExtensions} `{PayCaps} `{PayClass}
  `{!ExtensionWriter}.
#[local] Existing Instance pay_interface.

(** The methods of the format over the interface; the output caps it offers, and
    what it makes of those it negotiates (the encoding name fixed). *)
Context {St : Type} (handle : Content -> Z -> M (St * RtpBase.BasePay) unit) (start stop : M (St * RtpBase.BasePay) unit).
Context (offered_caps : OpenCaps) (fixate_encoding_name : OpenCaps -> OpenCaps).

#[local] Instance format_drain : PayDrain := {|
  PaySub := St;
  psub_drain w := Ok (Success tt, w);
  psub_flush w := Ok w;
|}.

Definition format_negotiate (src_caps : OpenCaps) (w : St * PayBase) : res (St * PayBase) :=
  negotiate_default (fixate_encoding_name src_caps) w.

#[local] Instance format_pay_negotiate : PayNegotiate := {| psub_negotiate := format_negotiate |}.

Definition format_set_sink_caps (w : St * PayBase) : res (bool * (St * PayBase)) :=
  w ← pay_set_src_caps offered_caps w;
  Ok (true, w).

Definition succeeded (r : res (result unit * (St * PayBase))) : res (bool * (St * PayBase)) :=
  '(r, w) ← r; Ok (match r with Success _ => true | Failure _ => false end, w).

#[local] Instance format_subclass : PaySubclass := {|
  psub_handle_buffer buffer id w := run_pay (handle (in_content buffer) id) w;
  psub_set_sink_caps _ w := format_set_sink_caps w;
  psub_start w := succeeded (run_pay start w);
  psub_stop w := succeeded (run_pay stop w);
|}.

(** The format reaches the base class through its calls only. *)
Class FormatCalls : Prop := {
  handle_calls content id : calls_only (handle content id);
  start_calls : calls_only start;
  stop_calls : calls_only stop;
}.
Context `{!FormatCalls}.

Lemma run_pay_steps (m : M (St * RtpBase.BasePay) unit) w r w' :
  calls_only m -> run_pay m w = Ok (r, w') -> rtc pay_step w w'.
Proof.
  intros Hm HK. apply run_pay_calls in HK; [|done]. destruct w as [st b], w' as [st' b']. cbn in HK.
  apply rtc_r with (st, b'); [|by apply step_own].
  clear Hm. induction HK as [b|b1 b2 b3 H12 _ IH]; [apply rtc_refl|]. apply rtc_l with (st, b2); [by apply step_call|exact IH].
Qed.

Lemma succeeded_steps (m : M (St * RtpBase.BasePay) unit) w r w' :
  calls_only m -> succeeded (run_pay m w) = Ok (r, w') -> rtc pay_step w w'.
Proof.
  intros Hm ([r1 w1] & Hr & HK)%bind_ok. injection HK as _ <-. by eapply run_pay_steps.
Qed.

#[local] Instance format_uses_pay : UsesPay.
Proof.
  split; cbn.
  - intros w r w' [= <- <-]. apply rtc_refl.
  - intros w w' [= <-]. apply rtc_refl.
  - intros caps w w' HK. eexists _, w. split; [apply rtc_refl|exact HK].
  - intros buffer id w r w' HK. eapply run_pay_steps; [apply handle_calls|exact HK].
  - intros caps w r w' (w1 & Hw & HK)%bind_ok. injection HK as <- <-. apply rtc_once. by eapply step_caps.
  - intros w r w' HK. eapply succeeded_steps; [apply start_calls|exact HK].
  - intros w r w' HK. eapply succeeded_steps; [apply stop_calls|exact HK].
Qed.

Context `{!GstLaws} `{!RtpWriterLaws} `{!PayMetasOnly}.

(** The element keeps the invariant of its base class. *)
Lemma format_invariant `{!PayCapsLaws} st env ops w :
  is_u32 (env_random_timestamp env) -> Forall pay_op_typed ops ->
  res_fold pay_exec (st, PayBase_new env) ops = Ok w -> pay_inv w.2.
Proof.
  intros Henv Hty HK.
  exact (pay_run_inv (H8 := format_drain) ops (st, PayBase_new env) w Hty HK (pay_new_inv env Henv)).
Qed.

(** A packet as a receiver parses it. *)
Definition wire_packet (id : Z) (p : PayOut) : PayPacket := packet_essence id (essence p).

(** What the format makes of the next buffer, it sends. *)
Lemma format_buffer_sent st b buffer src s pts ts st' base' ps :
  streaming b buffer src s pts ts ->
  let id := p_current_buffer_id (bp_state b) in
  let B := serving_base src id s pts ts (pay_max_payload_size b) (ps_mtu (bp_settings b)) (bp_out b) (bp_env b) in
  handle (in_content buffer) id (st, (admitted buffer b, None)) = (Done tt, (st', base')) ->
  serves (SelectiveBase := B) base' -> taken (SelectiveBase := B) base' = taken (SelectiveBase := B) (admitted buffer b, None) ++ ps ->
  exists b' l, pay_handle_buffer buffer (st, b) = Ok (Success tt, (st', b')) /\
    psent b' = psent b ++ l /\ pwaiting b' = [] /\ pay_inv b' /\
    on_the_wire src s pts ts (ps_mtu (bp_settings b)) l /\ wire_packet id <$> l = ps.
Proof.
  intros Hstr id B HK (Hs & Ho & He) Htaken. destruct base' as [b1 e]. cbn [fst] in Hs, Ho, He.
  destruct (buffer_sent (H8 := format_drain) (H10 := format_subclass) st b buffer src s pts ts st' b1 Hstr
    (run_pay_done _ _ _ _ e _ HK) Hs Ho He) as (b' & HK' & Hsent & Hw & Hinv').
  exists b', (pwaiting b1). split; [exact HK'|]. split; [done|]. split; [done|]. split; [done|]. split; [apply Hs|].
  unfold B, serving_base in Htaken. cbn [taken fst] in Htaken.
  change (pwaiting (admitted buffer b)) with (pwaiting b) in Htaken. rewrite (sm_empty _ _ _ _ _ _ Hstr) in Htaken.
  cbn [fmap list_fmap app] in Htaken. rewrite <- list_fmap_compose in Htaken. exact Htaken.
Qed.
End FormatElement.
