(* ===== verification/DepayElement.v ===== *)
(** * Depayloaders as elements

    The interface the payload formats are written against, made of the base
    class of the depayloaders, and a payload format as a subclass of it. *)

From S2P Require Import Prelude Queues F64 Flow RtpBase DepayMeta BaseDepay BaseDepayInv BaseDepayProps.

(** ** The base class as the payload formats see it *)
Section Bridge.
Context `{Gst} `{GstTime} `{RtpTypes} `{HeaderExtensions} `{DepayClass}.

(** The base class after the calls so far, or a panic in one of them; with the
    error of the last buffer it did not take, which the subclass returns. *)
Definition Reached : Type := res (Base * option FlowError).

Definition on_reached (f : Base -> res Base) (x : Reached) : Reached :=
  '(b, err) ← x; b ← f b; Ok (b, err).

(** A buffer of a subclass, without metas and times yet. *)
Definition out_buffer (buffer : DepayBuffer) : OutBuffer := mkOutBuffer buffer None None [] None.

(** The caps of the source pad are those the base class set. *)
#[local] Instance depay_interface : RtpBaseDepay2 := {|
  RtpBase.BaseDepay := Reached;
  drop_packets n inclusive :=
    on_reached (fun b => Ok (base_drop_packets (if inclusive then Included n else Excluded n) b));
  push_force_key_unit := on_reached (fun b => Ok (push_out OutForceKeyUnit b));
  set_src_caps caps := on_reached (base_set_src_caps caps);
  has_current_caps x := match x with Ok (b, _) => is_some (d_src_caps (bd_state b)) | Panic => true end;
  queue_buffer seqnums buffer x :=
    match x with
    | Panic => (Crash, Panic)
    | Ok (b, _) =>
        match base_queue_buffer (Seqnums seqnums) (out_buffer buffer) b with
        | Ok (Success _, b) => (Done tt, Ok (b, None))
        | Ok (Failure err, b) => (Fail, Ok (b, Some err))
        | Panic => (Crash, Panic)
        end
    end;
|}.

(** A computation of a subclass, run on the base class. *)
Definition run_depay {St} (m : M (St * RtpBase.BaseDepay) unit) (w : St * Base) : res (result unit * (St * Base)) :=
  match m (w.1, Ok (w.2, None)) with
  | (Done _, (st, Ok (b, _))) => Ok (Success tt, (st, b))
  | (Fail, (st, Ok (b, err))) => Ok (Failure (default FlowErr err), (st, b))
  | _ => Panic
  end.

(** ** Calls and panics *)
Context `{!RtpTypesLaws} `{!GstTimeLaws}.

(** [x'] is reached from [x] by calls; if one of them panicked, [x] was not safe. *)
Definition linked (x x' : RtpBase.BaseDepay) : Prop :=
  match x, x' with
  | Ok (b, _), Ok (b', _) => rtc base_call b b'
  | Ok (b, _), Panic => ~ safe b
  | Panic, Panic => True
  | Panic, Ok _ => False
  end.

#[local] Instance linked_preorder : PreOrder linked.
Proof.
  split; [intros [[b e]|]; cbn; [apply rtc_refl|done]|].
  intros [[b1 e1]|] [[b2 e2]|] [[b3 e3]|]; cbn; try done; [by intros H12; etrans|].
  intros H12 Hn Hs. by apply Hn, (safe_calls _ _ H12).
Qed.

Lemma linked_safe b e x : linked (Ok (b, e)) x -> safe b -> exists b' e', x = Ok (b', e') /\ rtc base_call b b'.
Proof. destruct x as [[b' e']|]; cbn; [eauto|done]. Qed.

Lemma linked_on_reached f x :
  (forall b b', f b = Ok b' -> base_call b b') -> (forall b, safe b -> exists b', f b = Ok b') -> linked x (on_reached f x).
Proof.
  intros Hc Ht. destruct x as [[b e]|]; cbn; [|done]. destruct (f b) as [b'|] eqn:E; cbn; [by apply rtc_once, Hc|].
  intros Hs. destruct (Ht b Hs) as [b' Hb]. congruence.
Qed.

Lemma linked_drop n inclusive x : linked x (drop_packets n inclusive x).
Proof. apply linked_on_reached; [intros b b' [= <-]; apply call_drop|eauto]. Qed.

Lemma linked_force x : linked x (push_force_key_unit x).
Proof. apply linked_on_reached; [intros b b' [= <-]; apply call_force|eauto]. Qed.

Lemma linked_caps caps x : linked x (set_src_caps caps x).
Proof.
  apply linked_on_reached; [intros b b' E; by eapply call_caps|]. intros b Hs. by apply (calls_total b Hs).
Qed.

Lemma linked_queue seqnums buffer x : linked x (snd (queue_buffer seqnums buffer x)).
Proof.
  destruct x as [[b e]|]; cbn; [|done].
  destruct (base_queue_buffer _ _ b) as [[[u|err] b']|] eqn:Hq; cbn; [by apply rtc_once; eapply call_queue..|].
  intros Hs. destruct (calls_total b Hs) as (_ & _ & Ht).
  destruct (Ht (Seqnums seqnums) (out_buffer buffer) I) as (r & b' & Hb). congruence.
Qed.

(** A queue that panics leaves nothing. *)
Lemma queue_crash seqnums buffer x : fst (queue_buffer seqnums buffer x) = Crash -> snd (queue_buffer seqnums buffer x) = Panic.
Proof. destruct x as [[b e]|]; cbn; [|done]. by destruct (base_queue_buffer _ _ b) as [[[u|err] b']|]. Qed.

(** Computations that reach the base class through its calls only. *)
Definition depay_calls {St A} (m : M (St * RtpBase.BaseDepay) A) : Prop := forall s, linked (snd s) (snd (snd (m s))).

Lemma dcalls_bind {St A B} (m : M (St * RtpBase.BaseDepay) A) (k : A -> M (St * RtpBase.BaseDepay) B) :
  depay_calls m -> (forall a, depay_calls (k a)) -> depay_calls (a ← m; k a).
Proof.
  intros Hm Hk s. unfold mbind, M_bind. specialize (Hm s). destruct (m s) as [[a| |] s']; [|exact Hm..].
  etrans; [exact Hm|apply Hk].
Qed.

Lemma dcalls_same {St A} (m : M (St * RtpBase.BaseDepay) A) : (forall s, snd (snd (m s)) = snd s) -> depay_calls m.
Proof. intros Hm s. by rewrite Hm. Qed.

Lemma dcalls_ret {St A} (a : A) : depay_calls (St := St) (mret a).
Proof. by apply dcalls_same. Qed.

Lemma dcalls_get {St} : depay_calls (St := St) get_.
Proof. by apply dcalls_same. Qed.

Lemma dcalls_crash {St A} : depay_calls (St := St) (A := A) crash_.
Proof. by apply dcalls_same. Qed.

Lemma dcalls_of_res {St A} (r : res A) : depay_calls (St := St) (of_res r).
Proof. apply dcalls_same. intros s. by destruct r. Qed.

Lemma dcalls_of_option {St A} (o : option A) : depay_calls (St := St) (of_option o).
Proof. apply dcalls_same. intros s. by destruct o. Qed.

(** An update of the state of the subclass alone. *)
Lemma dcalls_own {St} (f : St -> St) : depay_calls (upd_ (fun s : St * RtpBase.BaseDepay => (f (fst s), snd s))).
Proof. by apply dcalls_same. Qed.

Lemma dcalls_if {St A} (c : bool) (m m' : M (St * RtpBase.BaseDepay) A) :
  depay_calls m -> depay_calls m' -> depay_calls (if c then m else m').
Proof. by destruct c. Qed.

Lemma dcalls_base {St} f : (forall x, linked x (f x)) -> depay_calls (St := St) (on_base f).
Proof. intros Hf [st x]. apply Hf. Qed.

Lemma dcalls_queue {St} (f : St -> Z * Z) buffer :
  depay_calls (fun s : St * RtpBase.BaseDepay => let '(r, x) := queue_buffer (f (fst s)) buffer (snd s) in (r, (fst s, x))).
Proof.
  intros [st x]. cbn [fst snd]. pose proof (linked_queue (f st) buffer x) as Hq.
  by destruct (@queue_buffer depay_interface (f st) buffer x).
Qed.

Lemma dcalls_drop {St} n inclusive : depay_calls (St := St) (drop_ n inclusive).
Proof. apply dcalls_base, linked_drop. Qed.

Lemma dcalls_force {St} : depay_calls (St := St) (on_base push_force_key_unit).
Proof. apply dcalls_base, linked_force. Qed.

Lemma dcalls_caps {St} caps : depay_calls (St := St) (on_base (set_src_caps caps)).
Proof. apply dcalls_base, linked_caps. Qed.

(** Computations that keep [ok], and panic only where a call of theirs did. *)
Definition sound {St A} (ok : St -> Prop) (m : M (St * RtpBase.BaseDepay) A) : Prop :=
  forall st x, ok st -> ok (fst (snd (m (st, x)))) /\ (fst (m (st, x)) = Crash -> snd (snd (m (st, x))) = Panic).

Lemma run_depay_calls {St} (m : M (St * RtpBase.BaseDepay) unit) w r w' :
  depay_calls m -> run_depay m w = Ok (r, w') -> rtc base_call w.2 w'.2.
Proof.
  unfold run_depay. intros Hm HK. specialize (Hm (w.1, Ok (w.2, None))).
  destruct (m _) as [[u| |] [st [[b e]|]]]; try done; by injection HK as <- <-.
Qed.

Lemma run_depay_total {St} (ok : St -> Prop) (m : M (St * RtpBase.BaseDepay) unit) w :
  depay_calls m -> sound ok m -> ok w.1 -> safe w.2 -> exists r w', run_depay m w = Ok (r, w') /\ ok w'.1.
Proof.
  unfold run_depay. intros Hm Hk Hok Hs. specialize (Hm (w.1, Ok (w.2, None))). destruct (Hk w.1 (Ok (w.2, None)) Hok) as [Hok' Hc].
  cbn [snd] in Hm. destruct (linked_safe _ _ _ Hm Hs) as (b' & e' & E & _).
  destruct (m _) as [r [st x]]. cbn in *. subst x. destruct r as [u| |]; [by eauto|by eauto|]. by specialize (Hc eq_refl).
Qed.
End Bridge.

Create HintDb dcalls.
#[export] Hint Resolve dcalls_bind dcalls_ret dcalls_get dcalls_crash dcalls_of_res dcalls_of_option dcalls_own dcalls_if
  dcalls_drop dcalls_force dcalls_caps dcalls_queue : dcalls.

(** ** Payload formats as elements *)

(** The class of a video format: gaps restart the stream; metas tagged with
    video, or not at all, are copied. *)
Definition video_depay_class `{RtpTypes} : DepayClass := {|
  allow_seqnum_discontinuities := false;
  transform_meta := transform_meta_default ["video"%string];
|}.

Section FormatElement.
Context `{Gst} `{GstTime} `{RtpTypes} `{HeaderExtensions} `{DepayClass}.
#[local] Existing Instance depay_interface.

(** The methods of the format over the interface; [caps] is what it does with
    new input caps, which it always takes. *)
Context {St : Type} (handle : DepayPacket -> M (St * RtpBase.BaseDepay) unit).
Context (drain flush caps start stop : M (St * RtpBase.BaseDepay) unit).

(** The packet of the base class as the format reads it. *)
Definition packet_view (p : InPacket) (payload : list Z) : DepayPacket :=
  mkDepayPacket payload (pa_ext_timestamp p) (pa_ext_seqnum p) (pa_marker p).

Definition succeeds (r : res (result unit * (St * Base))) : res (bool * (St * Base)) :=
  '(r, w) ← r; Ok (match r with Success _ => true | Failure _ => false end, w).

#[local] Instance format_depay : Subclass := {|
  Sub := St;
  sub_handle_packet p w := payload ← InPacket_payload p; run_depay (handle (packet_view p payload)) w;
  sub_drain w := run_depay drain w;
  sub_flush w := '(_, w) ← run_depay flush w; Ok w;
  sub_set_sink_caps _ w := succeeds (run_depay caps w);
  sub_start w := succeeds (run_depay start w);
  sub_stop w := succeeds (run_depay stop w);
|}.

Context `{!RtpTypesLaws} `{!GstTimeLaws}.

(** The format reaches the base class through its calls only. *)
Class DepayFormat : Prop := {
  handle_dcalls p : depay_calls (handle p);
  drain_dcalls : depay_calls drain;
  flush_dcalls : depay_calls flush;
  caps_dcalls : depay_calls caps;
  start_dcalls : depay_calls start;
  stop_dcalls : depay_calls stop;
}.
Context `{!DepayFormat}.

Lemma succeeds_calls m w r w' :
  depay_calls m -> succeeds (run_depay m w) = Ok (r, w') -> rtc base_call w.2 w'.2.
Proof. intros Hm ([r1 w1] & Hr & HK)%bind_ok. injection HK as _ <-. by eapply run_depay_calls. Qed.

#[local] Instance format_uses_base : UsesBase.
Proof.
  split; cbn.
  - intros p w r w' (payload & _ & HK)%bind_ok. eapply run_depay_calls; [apply handle_dcalls|exact HK].
  - intros w r w' HK. eapply run_depay_calls; [apply drain_dcalls|exact HK].
  - intros w w' ([r1 w1] & HK & E)%bind_ok. injection E as <-. eapply run_depay_calls; [apply flush_dcalls|exact HK].
  - intros _ w r w' HK. eapply succeeds_calls; [apply caps_dcalls|exact HK].
  - intros w r w' HK. eapply succeeds_calls; [apply start_dcalls|exact HK].
  - intros w r w' HK. eapply succeeds_calls; [apply stop_dcalls|exact HK].
Qed.

(** The format does not panic of its own. *)
Class SoundFormat (ok : St -> Prop) : Prop := {
  handle_sound p : sound ok (handle p);
  drain_sound : sound ok drain;
  flush_sound : sound ok flush;
  caps_sound : sound ok caps;
  start_sound : sound ok start;
  stop_sound : sound ok stop;
}.

Lemma succeeds_total ok m w :
  depay_calls m -> sound ok m -> ok w.1 -> safe w.2 -> exists r w', succeeds (run_depay m w) = Ok (r, w') /\ ok w'.1.
Proof.
  intros Hm Hk Hok Hs. destruct (run_depay_total ok m w Hm Hk Hok Hs) as (r & w' & E & Hok').
  unfold succeeds. rewrite E, bind_Ok. eauto.
Qed.

#[local] Instance format_total ok : SoundFormat ok -> TotalSubclass ok.
Proof.
  intros HS. split; cbn; [intros p w [payload Hp]|..]; intros.
  - rewrite Hp, bind_Ok. apply run_depay_total; [apply handle_dcalls|apply handle_sound|done..].
  - apply run_depay_total; [apply drain_dcalls|apply drain_sound|done..].
  - destruct (run_depay_total ok flush w) as (r & w' & -> & Hok); [apply flush_dcalls|apply flush_sound|done..|].
    rewrite bind_Ok. eauto.
  - apply succeeds_total; [apply caps_dcalls|apply caps_sound|done..].
  - apply succeeds_total; [apply start_dcalls|apply start_sound|done..].
  - apply succeeds_total; [apply stop_dcalls|apply stop_sound|done..].
Qed.
End FormatElement.
