(* ===== verification/DepayStream.v ===== *)
(** * A frame on its way through a depayloader

    The base class of the depayloaders while the packets of one frame arrive:
    they are numbered and kept, and the buffer the payload format makes of them
    leaves with the time of the first one. *)

From S2P Require Import Prelude Queues F64 Flow RtpBase DepayMeta BaseDepay BaseDepayInv BaseDepayProps.

Lemma numbered_app {A} (key : A -> Z) top k l :
  numbered_by key top (k ++ l) -> numbered_by key (top - Z.of_nat (length l)) k.
Proof.
  unfold numbered_by. rewrite fmap_app, length_app. intros HK.
  rewrite Nat2Z.inj_add, seqZ_app in HK by lia.
  apply app_inj_1 in HK as [HK _]; [|rewrite length_fmap, length_seqZ; lia].
  rewrite HK. f_equal. lia.
Qed.

Lemma numbered_below {A} (key : A -> Z) top l : numbered_by key top l -> Forall (fun a => key a <= top) l.
Proof.
  unfold numbered_by. intros HK. apply Forall_forall. intros a Ha. apply (list_elem_of_fmap_2 key) in Ha.
  rewrite HK in Ha. apply elem_of_seqZ in Ha. lia.
Qed.

Lemma numbered_above {A} (key : A -> Z) top l :
  numbered_by key top l -> Forall (fun a => top - Z.of_nat (length l) < key a) l.
Proof.
  unfold numbered_by. intros HK. apply Forall_forall. intros a Ha. apply (list_elem_of_fmap_2 key) in Ha.
  rewrite HK in Ha. apply elem_of_seqZ in Ha. lia.
Qed.

Section Stream.
Context `{Gst} `{GstTime} `{RtpTypes} `{HeaderExtensions} `{DepayClass}.
Context `{!RtpTypesLaws} `{!GstTimeLaws}.
Hypothesis no_gaps : allow_seqnum_discontinuities = false.

(** The element between two frames of the source [src], the last packet having
    had the sequence number [s]; or before the first packet. *)
Record receiving (src : Z * Z) (s : Z) (b : Base) : Prop := {
  rv_safe : safe b;
  rv_inv : depay_inv b;
  rv_caps : is_Some (d_sink_caps (bd_state b));
  rv_segment : is_Some (d_segment (bd_state b));
  rv_plain : bd_extensions b = ∅;
  rv_empty : waiting b = [];
  rv_stream : match d_current_stream (bd_state b) with
              | Some cs => (cs_ssrc cs, cs_pt cs) = src /\ wrap U16 (cs_ext_seqnum cs) = s
              | None => True
              end;
}.

(** The numbers of the current stream are far from both ends. *)
Definition far_from_ends (o : option CurrentStream) : Prop :=
  match o with Some cs => cs_ext_seqnum cs < 2 ^ 62 /\ 2 ^ 32 <= cs_ext_rtptime cs < 2 ^ 62 | None => True end.

(** The packets [n0] to [n] of a frame with the timestamp [t] have come, in the
    buffers [rs]. *)
Record collecting (src : Z * Z) (n0 n t : Z) (rs : list InBuffer) (b : Base) : Prop := {
  cl_safe : safe b;
  cl_inv : depay_inv b;
  cl_caps : is_Some (d_sink_caps (bd_state b));
  cl_segment : is_Some (d_segment (bd_state b));
  cl_plain : bd_extensions b = ∅;
  cl_empty : waiting b = [];
  cl_stream : exists cs, d_current_stream (bd_state b) = Some cs /\ (cs_ssrc cs, cs_pt cs) = src /\
    cs_ext_seqnum cs = n /\ cs_ext_rtptime cs = t;
  cl_time : 2 ^ 31 <= t < 2 ^ 63;
  cl_used : used_ok (n0 - 1) (d_last_used_ext_seqnum (bd_state b));
  cl_packets : exists pre ps, d_pending_packets (bd_state b) = pre ++ ps /\ pe_buffer <$> ps = rs;
  cl_count : Z.of_nat (length rs) = n - n0 + 1;
  cl_some : rs <> [];
}.

(** What the payload formats do before they queue a buffer does not matter. *)
Definition undisturbed (b b' : Base) : Prop :=
  frame_state (bd_state b) (bd_state b') /\ d_pending_packets (bd_state b') = d_pending_packets (bd_state b) /\
  d_last_used_ext_seqnum (bd_state b') = d_last_used_ext_seqnum (bd_state b) /\ waiting b' = waiting b /\
  d_discont_pending (bd_state b') = d_discont_pending (bd_state b) /\ bd_extensions b' = bd_extensions b /\
  sent b' = sent b.

#[local] Instance undisturbed_preorder : PreOrder undisturbed.
Proof.
  split; [by intros b|]. intros b1 b2 b3 (F1 & P1) (F2 & P2). split; [by etrans|]. intuition congruence.
Qed.

Lemma collecting_undisturbed src n0 n t rs b b' :
  rtc base_call b b' -> undisturbed b b' -> collecting src n0 n t rs b -> collecting src n0 n t rs b'.
Proof.
  intros Hcalls (Hf & Hp & Hu & Hw & _ & He & _) [C1 C2 C3 C4 C5 C6 C7 C8 C9 C10 C11 C12].
  pose proof Hf as (_ & Hsg & Hsc & _ & _ & _ & _ & _ & Hcs).
  split; [by eapply safe_calls|by eapply calls_inv|by rewrite Hsc|by rewrite Hsg|by rewrite He|by rewrite Hw|
    by rewrite Hcs|done|by rewrite Hu|by rewrite Hp|done|done].
Qed.

Lemma force_undisturbed b : undisturbed b (push_out OutForceKeyUnit b).
Proof. split; [done|]. repeat (split; [done|]). by rewrite sent_push, app_nil_r. Qed.

Lemma set_src_caps_undisturbed caps b b' :
  base_set_src_caps caps b = Ok b' -> undisturbed b b' /\ d_src_caps (bd_state b') = Some caps.
Proof.
  intros HK. destruct (set_src_caps_spec _ _ _ HK) as ((Hf & _) & Hu & Hw & Hs). unfold base_set_src_caps in HK.
  destruct (bool_decide_reflect (Some caps = d_src_caps (bd_state b))) as [E|_]; [by injection HK as <-|].
  cbv zeta in HK. apply bind_ok in HK as ([o s] & Hr & HK). cbv beta iota in HK. injection HK as HK.
  apply retrieve_spec in Hr as [(ps & Es & _) Ho].
  match type of HK with push_segment o ?b1 = _ => destruct (push_segment_spec o b1 Ho) as (_ & Hst & _ & Hex & _) end.
  rewrite HK in Hst, Hex. rewrite Hst, Es in *. unfold undisturbed. rewrite Hst. by repeat split; try done; apply Hf.
Qed.

(** ** Admission *)

(** The packet after the last one continues the stream. *)
Lemma follow_next settings h cs :
  (cs_ssrc cs, cs_pt cs) = (rh_ssrc h, rh_payload_type h) -> rh_sequence_number h = wrap U16 (cs_ext_seqnum cs + 1) ->
  is_u32 (rh_timestamp h) -> stream_in_range (Some cs) ->
  exists cs', follow_stream settings false h (Some cs) = Ok (Some (Some cs', Some (cs_ext_seqnum cs + 1))) /\
    (cs_ssrc cs', cs_pt cs') = (cs_ssrc cs, cs_pt cs) /\ cs_ext_seqnum cs' = cs_ext_seqnum cs + 1 /\
    cs_ext_rtptime cs' mod 2 ^ 32 = rh_timestamp h /\ Z.abs (cs_ext_rtptime cs' - cs_ext_rtptime cs) <= 2 ^ 31.
Proof.
  intros Hsrc Hseq Ht Hr. injection Hsrc as Hss Hpt. pose proof Hr as [Hr1 Hr2].
  assert (Hq : is_u16 (rh_sequence_number h)) by (rewrite Hseq; apply Z.mod_pos_bound; lia).
  destruct (continue_total cs h Hq Ht Hr) as [cs' Hc].
  assert (Hfo : follow_stream settings false h (Some cs) = Ok (Some (Some cs', Some (cs_ext_seqnum cs + 1)))).
  { unfold follow_stream, stream_continues. rewrite andb_false_r, Hss, Hpt, !Z.eqb_refl. cbn [negb].
    unfold check_seqnum. run_chk. cbv zeta. change 65535 with (Z.ones 16). rewrite Z.land_ones by lia.
    change (2 ^ 16) with U16. rewrite Hseq. unfold wrap. rewrite Z.eqb_refl. cbn [negb]. rewrite bind_Ok, Hc. by rewrite bind_Ok. }
  exists cs'. split; [exact Hfo|].
  apply follow_stream_next in Hfo as (? & [= <-] & Hn & _); [|done|lia].
  apply bind_ok in Hc as (rt & Hrt & Hc). apply bind_ok in Hc as (e & _ & Hc). apply bind_ok in Hc as (e' & _ & Hc).
  injection Hc as <-. cbn in *. split; [done|]. split; [done|].
  apply extend_near_ok in Hrt as (? & ? & _); [done|lia|exact Ht|lia].
Qed.

(** A buffer with a packet, as it arrives. *)
Definition arrives (h : RtpHeader) (buffer : InBuffer) : Prop :=
  RtpPacket_parse (ib_bytes buffer) = Some h /\ ib_mappable buffer = true /\ ib_discont buffer = false /\ buffer_ok buffer.

Context `{!Subclass}.

(** The packet as the subclass gets it. *)
Definition handed (buffer : InBuffer) (h : RtpHeader) (discont : bool) (n : Z) (expected : option Z) (t : Z) : InPacket :=
  mkInPacket buffer discont n expected t (rh_marker_bit h) (payload_range h).

(** A packet whose stream is known, or new with nothing pending, is admitted. *)
Lemma admitted_packet settings buffer h (w : Sub * Base) cs expected :
  safe w.2 -> depay_inv w.2 -> is_Some (d_sink_caps (bd_state w.2)) -> is_Some (d_segment (bd_state w.2)) ->
  arrives h buffer -> follow_stream settings false h (d_current_stream (bd_state w.2)) = Ok (Some (cs, expected)) ->
  (cs = None -> d_current_stream (bd_state w.2) = None) ->
  exists n t b1 cr discont,
    handle_buffer settings buffer w = deliver_packet (handed buffer h discont n expected t) (w.1, b1) /\
    admit_packet buffer h cr (is_none cs)
      (w.2 <| bd_state := (bd_state w.2) <| d_current_stream := cs |> |>) = Ok (n, t, b1) /\ safe b1.
Proof.
  intros Hsafe Hinv [sc Hsc] [[sn sg] Hsg] (Hparse & Hmap & Hdis & Hbuf) Hfo Hnone.
  destruct (di_clock _ Hinv) as (cr & Hcr & _); [by rewrite Hsc|].
  unfold handle_buffer. cbv zeta. rewrite Hsc, Hsg, Hcr, Hmap, Hparse. cbn [is_none unwrap negb]. rewrite bind_Ok.
  unfold handle_parsed. rewrite Hdis, Hfo, bind_Ok. cbv beta iota zeta. unfold on_depay. cbn [fst snd].
  set (b0 := w.2 <| bd_state := (bd_state w.2) <| d_current_stream := cs |> |>).
  change (w.2 <| bd_state ::= (fun state : State => state <| d_current_stream := cs |>) |>) with b0.
  assert (Hnodrain : is_none cs && negb (bool_decide (length (d_pending_packets (bd_state b0)) = 0%nat)) = false).
  { destruct cs as [cs|]; [done|]. pose proof (di_stream _ Hinv) as Hs. rewrite (Hnone eq_refl) in Hs.
    cbn. by rewrite Hs. }
  rewrite Hnodrain, bind_Ok. cbv beta iota. cbn [fst snd].
  assert (Hs0 : safe b0) by (destruct Hsafe; by split).
  destruct (admit_total buffer h cr (is_none cs) b0 Hs0) as (n & t & b1 & Had); [cbn; by rewrite Hsg|].
  exists n, t, b1, cr, (is_none cs || ib_discont buffer). rewrite Had, bind_Ok. split; [by rewrite Hdis|].
  split; [done|]. by eapply admit_safe.
Qed.

(** The state of a stream that goes on, or starts, about to take a packet. *)
Lemma ready_with b cs :
  depay_inv b ->
  match cs, d_current_stream (bd_state b) with
  | Some cs', Some cs => cs_ext_seqnum cs' = cs_ext_seqnum cs + 1
  | None, None => True
  | _, _ => False
  end ->
  ready (b <| bd_state := (bd_state b) <| d_current_stream := cs |> |>).
Proof.
  intros [Hb Hs _ Hc] Hcs. split; [done|]. split; [done|]. cbn.
  destruct cs as [cs'|], (d_current_stream (bd_state b)) as [cs|]; [|done|done|done].
  intros _. destruct (Hs no_gaps) as (Hlo & Hnum & Hu). rewrite Hcs.
  replace (cs_ext_seqnum cs + 1 - 1) with (cs_ext_seqnum cs) by lia. split; [lia|done].
Qed.

Lemma clear_mod_same a b c : 0 < c -> a mod c = b mod c -> Z.abs (a - b) < c -> a = b.
Proof.
  intros Hc Hm Ha. apply (cong_small c); [done| |lia]. by rewrite Zminus_mod, Hm, Z.sub_diag.
Qed.

(** The first packet of a frame. *)
Lemma admit_first src s settings buffer h (w : Sub * Base) :
  receiving src s w.2 -> far_from_ends (d_current_stream (bd_state w.2)) -> arrives h buffer -> (rh_ssrc h, rh_payload_type h) = src -> rh_sequence_number h = wrap U16 (s + 1) ->
  exists n t b1 discont expected,
    handle_buffer settings buffer w = deliver_packet (handed buffer h discont n expected t) (w.1, b1) /\
    collecting src n n t [buffer] b1 /\ wrap U16 n = rh_sequence_number h /\ t mod 2 ^ 32 = rh_timestamp h /\
    n <= 2 ^ 62 /\ t < 2 ^ 62 + 2 ^ 33 /\ sent b1 = sent w.2 /\
    d_discont_pending (bd_state b1) = d_discont_pending (bd_state w.2) || is_none (d_current_stream (bd_state w.2)).
Proof.
  intros [Hsafe Hinv Hsc Hsg Hext Hemp Hst] Hfar Harr Hsrc Hseq.
  pose proof (parse_timestamp _ _ (proj1 Harr)) as Hts. pose proof (parse_seqnum _ _ (proj1 Harr)) as Hsq.
  destruct (d_current_stream (bd_state w.2)) as [cs|] eqn:Ecs.
  - destruct Hst as (Hcsrc & Hs). destruct Hfar as [Hhi Htr]. pose proof (di_stream _ Hinv) as Hstr. rewrite Ecs in Hstr.
    destruct (Hstr no_gaps) as (Hlo & Hnum & Huse).
    destruct (follow_next settings h cs) as (cs' & Hfo & Hsrc' & Hn & Ht & Hdt); [congruence| |done|split; lia|].
    { rewrite Hseq, <- Hs. unfold wrap. by rewrite Zplus_mod_idemp_l. }
    rewrite <- Ecs in Hfo. destruct (admitted_packet settings buffer h w _ _ Hsafe Hinv Hsc Hsg Harr Hfo)
      as (n & t & b1 & cr & discont & HK & Had & Hs1); [done|].
    pose proof (admit_inv _ _ _ _ _ _ _ _ Had ltac:(unfold is_u16 in Hsq; lia)) as Hinv1.
    apply admit_spec in Had. cbn in Had. destruct Had as (-> & -> & A1 & (p & A2 & A3 & A4 & _) & A5 & A6 & A7 & A8 & A9 & _ & A10 & _ & _ & A11 & _ & A12).
    exists (cs_ext_seqnum cs'), (cs_ext_rtptime cs'), b1, discont, (Some (cs_ext_seqnum cs + 1)).
    split; [exact HK|]. split; [|split; [|split; [done|split; [lia|split; [lia|split; [done|by rewrite A10]]]]]].
    + split; [done| |by rewrite A9|by rewrite A7|by rewrite A12|by rewrite A6| |lia| |by exists (d_pending_packets (bd_state w.2)), [p]; rewrite A2; cbn; rewrite A4|cbn; lia|done].
      * apply Hinv1, ready_with; [done|]. by rewrite Ecs.
      * exists cs'. split; [done|]. split; [congruence|done].
      * rewrite A5, Hn. by replace (cs_ext_seqnum cs + 1 - 1) with (cs_ext_seqnum cs) by lia.
    + rewrite Hn, Hseq, <- Hs. unfold wrap. by rewrite Zplus_mod_idemp_l.
  - assert (Hfo : follow_stream settings false h (d_current_stream (bd_state w.2)) = Ok (Some (None, None))).
    { rewrite Ecs. unfold follow_stream, stream_continues. by rewrite andb_false_r. }
    destruct (admitted_packet settings buffer h w _ _ Hsafe Hinv Hsc Hsg Harr Hfo)
      as (n & t & b1 & cr & discont & HK & Had & Hs1); [done|].
    pose proof (admit_inv _ _ _ _ _ _ _ _ Had ltac:(unfold is_u16 in Hsq; lia)) as Hinv1.
    pose proof (di_stream _ Hinv) as Hstr. rewrite Ecs in Hstr.
    apply admit_spec in Had. cbn in Had. destruct Had as (-> & -> & A1 & (p & A2 & A3 & A4 & _) & A5 & A6 & A7 & A8 & A9 & _ & A10 & _ & _ & A11 & _ & A12).
    unfold is_u16, is_u32 in *.
    exists (rh_sequence_number h + 65536), (rh_timestamp h + 4294967296), b1, discont, None.
    split; [exact HK|]. split; [|split; [|split; [|split; [lia|split; [lia|split; [done|by rewrite A10]]]]]].
    + split; [done| |by rewrite A9|by rewrite A7|by rewrite A12|by rewrite A6| |lia| |by exists (d_pending_packets (bd_state w.2)), [p]; rewrite A2; cbn; rewrite A4|cbn; lia|done].
      * apply Hinv1, ready_with; [done|]. by rewrite Ecs.
      * eexists. split; [exact A1|]. split; [done|done].
      * by rewrite A5.
    + unfold wrap. replace 65536 with (1 * U16) by lia. rewrite Z.mod_add by lia. by rewrite Z.mod_small.
    + replace 4294967296 with (1 * 2 ^ 32) by lia. rewrite Z.mod_add by lia. by rewrite Z.mod_small.
Qed.

(** Another packet of the frame. *)
Lemma admit_more src n0 n t rs settings buffer h (w : Sub * Base) :
  collecting src n0 n t rs w.2 -> arrives h buffer -> (rh_ssrc h, rh_payload_type h) = src ->
  rh_sequence_number h = wrap U16 (n + 1) -> t mod 2 ^ 32 = rh_timestamp h -> n < 2 ^ 63 - 1 ->
  exists b1 discont expected,
    handle_buffer settings buffer w = deliver_packet (handed buffer h discont (n + 1) expected t) (w.1, b1) /\
    collecting src n0 (n + 1) t (rs ++ [buffer]) b1 /\ sent b1 = sent w.2 /\
    d_discont_pending (bd_state b1) = d_discont_pending (bd_state w.2).
Proof.
  intros [C1 C2 C3 C4 C5 C6 (cs & Ecs & Csrc & Cn & Ct) C8 C9 (pre & ps & C10 & C10') C11 C12] Harr Hsrc Hseq Hth Hn.
  pose proof (parse_timestamp _ _ (proj1 Harr)) as Hts. pose proof (parse_seqnum _ _ (proj1 Harr)) as Hsq.
  pose proof (di_stream _ C2) as Hstr. rewrite Ecs in Hstr. destruct (Hstr no_gaps) as (Hlo & Hnum & Huse).
  destruct (follow_next settings h cs) as (cs' & Hfo & Hsrc' & Hn' & Ht & Hdt); [congruence|by rewrite Cn|done|split; lia|].
  rewrite <- Ecs in Hfo. destruct (admitted_packet settings buffer h w _ _ C1 C2 C3 C4 Harr Hfo)
    as (n1 & t1 & b1 & cr & discont & HK & Had & Hs1); [done|].
  pose proof (admit_inv _ _ _ _ _ _ _ _ Had ltac:(unfold is_u16 in Hsq; lia)) as Hinv1.
  apply admit_spec in Had. cbn in Had. destruct Had as (-> & -> & A1 & (p & A2 & A3 & A4 & _) & A5 & A6 & A7 & A8 & A9 & _ & A10 & _ & _ & A11 & _ & A12).
  assert (Et : cs_ext_rtptime cs' = t).
  { apply (clear_mod_same _ _ (2 ^ 32)); [lia|congruence|rewrite <- Ct; change (2 ^ 32) with (2 * 2 ^ 31); lia]. }
  rewrite Hn', Cn, Et in *. exists b1, discont, (Some (n + 1)).
  split; [exact HK|]. split; [|split; [done|by rewrite A10, orb_false_r]].
  split; [done| |by rewrite A9|by rewrite A7|by rewrite A12|by rewrite A6| |done|by rewrite A5| | |].
  - apply Hinv1, ready_with; [done|]. rewrite Ecs. lia.
  - exists cs'. split; [done|]. split; [congruence|done].
  - exists pre, (ps ++ [p]). rewrite A2, C10, app_assoc, fmap_app, C10'. cbn. by rewrite A4.
  - rewrite length_app. cbn. lia.
  - by destruct rs.
Qed.

(** ** Delivery *)

Lemma skip_while_app_none {A} (f : A -> bool) k l :
  Forall (fun a => f a = false) l -> skip_while f (k ++ l) = skip_while f k ++ l.
Proof.
  intros Hl. induction k as [|a k IH]; cbn; [by apply skip_while_none|]. by destruct (f a).
Qed.

(** The numbers of the packets of the frame, and of those before. *)
Lemma collecting_numbers src n0 n t rs b :
  collecting src n0 n t rs b ->
  exists pre ps, d_pending_packets (bd_state b) = pre ++ ps /\ pe_buffer <$> ps = rs /\
    Forall (fun p => pe_ext_seqnum p < n0) pre /\ Forall (fun p => n0 <= pe_ext_seqnum p <= n) ps /\
    (exists p, last ps = Some p /\ pe_ext_seqnum p = n).
Proof.
  intros [C1 C2 C3 C4 C5 C6 (cs & Ecs & Csrc & Cn & Ct) C8 C9 (pre & ps & C10 & C10') C11 C12].
  pose proof (di_stream _ C2) as Hstr. rewrite Ecs in Hstr. destruct (Hstr no_gaps) as (_ & Hnum & _).
  rewrite C10, Cn in Hnum. rewrite <- C10', length_fmap in C11. exists pre, ps. split; [done|]. split; [done|].
  pose proof (numbered_suffix _ _ _ _ Hnum) as Hps. apply numbered_app in Hnum. split; [|split].
  - apply numbered_below in Hnum. eapply Forall_impl; [exact Hnum|]. cbn. intros. lia.
  - apply Forall_and. split.
    + apply numbered_above in Hps. eapply Forall_impl; [exact Hps|]. cbn. intros. lia.
    + apply numbered_below in Hps. done.
  - destruct (last ps) as [p|] eqn:El; [|by apply last_None in El; subst; done].
    exists p. split; [done|]. by eapply numbered_last.
Qed.

Lemma finish_empty b : waiting b = [] -> finish_pending_buffers b = Ok b.
Proof. intros Hw. unfold finish_pending_buffers. unfold waiting in Hw. rewrite Hw. cbn. rewrite Hw. by destruct (is_none _). Qed.

Context `{!UsesBase}.

(** A packet in the middle of a frame: the format keeps it. *)
Lemma deliver_kept src n0 n t rs p w st b2 :
  sub_handle_packet p w = Ok (Success tt, (st, b2)) -> collecting src n0 n t rs b2 ->
  exists b3, deliver_packet p w = Ok (Success tt, (st, b3)) /\ collecting src n0 n t rs b3 /\ sent b3 = sent b2 /\
    d_discont_pending (bd_state b3) = d_discont_pending (bd_state b2).
Proof.
  intros Hh Hcl. unfold deliver_packet. rewrite Hh, bind_Ok. cbv beta iota. cbn [fst snd].
  rewrite (finish_empty b2) by apply Hcl. rewrite !bind_Ok. unfold on_depay. cbn [fst snd].
  set (b3 := b2 <| bd_state ::= drop_used |>). exists b3. split; [done|].
  destruct (drop_used_spec (bd_state b2)) as (k & l & Hk & Hd).
  assert (He : b3 = b2 <| bd_state := (bd_state b2) <| d_pending_packets := l |> |>)
    by (subst b3; rewrite <- Hd; by destruct b2).
  split; [|by rewrite He].
  pose proof (drop_used_inv (st, b2) (cl_inv _ _ _ _ _ _ Hcl)) as Hinv3. unfold on_depay in Hinv3. cbn [fst snd] in Hinv3. fold b3 in Hinv3.
  destruct (collecting_numbers _ _ _ _ _ _ Hcl) as (pre & ps & Hp & Hrs & Hpre & Hps & _).
  assert (Hl : exists pre', l = pre' ++ ps).
  { assert (E : l = d_pending_packets (drop_used (bd_state b2))) by (by rewrite Hd). rewrite E. unfold drop_used.
    pose proof (cl_used _ _ _ _ _ _ Hcl) as Hu. destruct (d_last_used_ext_seqnum (bd_state b2)) as [u|]; [|by exists pre].
    cbn in Hu |- *. rewrite Hp, skip_while_app_none; [by eexists|]. eapply Forall_impl; [exact Hps|]. cbn. intros q [Hq _]. apply Z.ltb_ge. lia. }
  destruct Hl as [pre' Hl]. destruct Hcl as [C1 C2 C3 C4 C5 C6 C7 C8 C9 _ C11 C12].
  split; rewrite ?He; try done.
  - destruct C1 as [S1 S2 S3 S4]. rewrite Hk in S3, S4. apply Forall_app in S3 as [_ S3]. split; [done|done|done|right; exact C4].
  - by rewrite <- He.
  - exists pre', ps. by split.
Qed.

(** Without extensions nothing wants to change the caps. *)
Lemma copy_metas_plain settings l e b :
  Forall packet_ok l -> exists b', copy_metas settings l ∅ e b = Ok (false, ∅, b').
Proof.
  intros Hl. destruct (copy_metas_total settings l ∅ e b Hl) as [[[w exts] b'] HK]. exists b'. rewrite HK. unfold copy_metas in HK.
  apply bind_ok in HK as (st & Hst & HK). injection HK as <- <- _.
  assert (Hp : cp_extensions st = ∅ /\ cp_wants st = false).
  { apply (res_fold_inv (fun st => cp_extensions st = ∅ /\ cp_wants st = false)) in Hst; [done| |done].
    intros st0 p st1 [E1 E2] HC. unfold copy_packet in HC. apply bind_ok in HC as ([refs buf] & _ & HC). cbv beta iota in HC.
    rewrite E1, E2 in HC. unfold read_extensions in HC. rewrite bool_decide_eq_true_2 in HC by done. cbn [negb andb] in HC.
    rewrite bind_Ok in HC. cbv beta iota in HC. destruct (_ && _); injection HC as <-; done. }
  destruct Hp as [-> ->]. done.
Qed.

(** The buffer of the frame is queued, with the time of the first packet that has one. *)
Lemma queue_frame_buffer `{!MetasOnly} src n0 n t rs b buf :
  collecting src n0 n t rs b -> is_Some (d_src_caps (bd_state b)) -> n0 <= n ->
  exists out b', base_queue_buffer (Seqnums (n0, n)) (mkOutBuffer buf None None [] None) b = Ok (Success tt, b') /\
    core_of out = core_of (decorate_buffer (list_find_map ib_pts rs) None (d_discont_pending (bd_state b))
                             (mkOutBuffer buf None None [] None)) /\
    waiting b' = [mkPendingBuffer true out] /\ sent b' = sent b /\ bd_extensions b' = ∅.
Proof.
  intros Hcl [sc Hsc] Hle. destruct (collecting_numbers _ _ _ _ _ _ Hcl) as (pre & ps & Hp & Hrs & Hpre & Hps & (back & Hl & Hb)).
  unfold base_queue_buffer. cbv zeta. rewrite Hsc. set (buf0 := mkOutBuffer buf None None [] None).
  change (buf0 <| ob_pts := None |> <| ob_dts := None |>) with buf0. unfold queue_for_range.
  rewrite Z.gtb_ltb, (proj2 (Z.ltb_ge _ _)) by lia. cbv zeta.
  set (b1 := b <| bd_state ::= modify d_pending_packets (skip_while (fun p => pe_ext_seqnum p <? n0)) |>).
  assert (Hp1 : d_pending_packets (bd_state b1) = ps).
  { cbn. rewrite Hp, skip_while_app_all; [apply skip_while_none|]; eapply Forall_impl; [exact Hps| |exact Hpre|]; cbn; intros;
      [apply Z.ltb_ge; lia|by apply Z.ltb_lt]. }
  rewrite Hp1, Hl, Hb, Z.gtb_ltb, Z.ltb_irrefl.
  assert (Hw1 : waiting b1 = []) by apply Hcl.
  assert (Hok1 : buffers_ok (waiting b1)) by (rewrite Hw1; by apply all_in_front).
  assert (Hpk : Forall packet_ok ps).
  { pose proof (safe_packets _ (cl_safe _ _ _ _ _ _ Hcl)) as Hpk. rewrite Hp in Hpk. by apply Forall_app in Hpk as [_ ?]. }
  assert (Htake : take_while (fun p => pe_ext_seqnum p <=? n) ps = ps).
  { rewrite <- (app_nil_r ps) at 1. rewrite take_while_app_all; [by cbn; rewrite app_nil_r|].
    eapply Forall_impl; [exact Hps|]. cbn. intros. apply Z.leb_le. lia. }
  assert (Hused : match d_last_used_ext_seqnum (bd_state b1) with Some l => n <=? l | None => false end = false).
  { change (d_last_used_ext_seqnum (bd_state b1)) with (d_last_used_ext_seqnum (bd_state b)).
    pose proof (cl_used _ _ _ _ _ _ Hcl) as Hu. destruct (d_last_used_ext_seqnum (bd_state b)); [|done]. cbn in Hu. apply Z.leb_gt. lia. }
  assert (Htimes : buffer_times (d_last_used_ext_seqnum (bd_state b1)) n None
    (list_find_map (fun p => ib_pts (pe_buffer p)) (take_while (fun p => pe_ext_seqnum p <=? n) (d_pending_packets (bd_state b1))))
    = Ok (list_find_map ib_pts rs, None)).
  { unfold buffer_times. rewrite Hused, Hp1, Htake. do 2 f_equal. rewrite <- Hrs. clear. induction ps as [|p ps IH]; cbn; [done|].
    by rewrite IH. }
  unfold queue_for_packets. rewrite Htimes, bind_Ok. cbv beta iota. rewrite decorate_pending_spec, bind_Ok by done. cbv beta iota.
  fold (waiting b1). rewrite Hw1. cbn [take_while skip_while dated_all app]. rewrite bool_decide_eq_true_2, andb_true_r by done.
  change (bd_extensions b1) with (bd_extensions b). rewrite (cl_plain _ _ _ _ _ _ Hcl), Hp1.
  match goal with |- context [copy_metas ?st ?l ?x ?e ?bf ≫= _] => destruct (copy_metas_plain st l e bf Hpk) as [buf1 Hm] end.
  rewrite Hm, bind_Ok. cbv beta iota zeta. rewrite bind_Ok. cbv beta iota. apply copy_metas_core in Hm.
  do 2 eexists. split; [reflexivity|]. change (d_discont_pending (bd_state b1)) with (d_discont_pending (bd_state b)).
  unfold decorate_buffer, core_of in *. injection Hm as M1 M2 M3.
  split; [|by destruct (is_some (list_find_map ib_pts rs))]. by destruct (d_discont_pending (bd_state b)); cbn in *; rewrite M1, M2, M3.
Qed.

(** The last packet of a frame: the format has queued the buffer, which leaves. *)
Lemma deliver_finished src n0 n t rs p (w : Sub * Base) st b2 out :
  sub_handle_packet p w = Ok (Success tt, (st, b2)) -> collecting src n0 n t rs w.2 ->
  waiting b2 = [mkPendingBuffer true out] -> bd_extensions b2 = ∅ ->
  exists b3, deliver_packet p w = Ok (Success tt, (st, b3)) /\ sent b3 = sent b2 ++ [out] /\ receiving src (wrap U16 n) b3.
Proof.
  intros Hh [C1 C2 C3 C4 C5 C6 (cs & Ecs & Csrc & Cn & Ct) C8 C9 C10 C11 C12] Hw Hext.
  assert (Hpl : exists r w', deliver_packet p w = Ok (r, w')).
  { unfold deliver_packet. rewrite Hh, bind_Ok. cbv beta iota. cbn [fst snd]. apply handle_uses in Hh. cbn [snd] in Hh.
    apply (safe_calls _ _ Hh) in C1. destruct (calls_total b2 C1) as ((b3 & ->) & _). rewrite !bind_Ok. eauto. }
  destruct Hpl as (r & w' & HK). pose proof (deliver_inv _ _ _ _ HK C2) as Hinv. pose proof HK as HK0.
  unfold deliver_packet in HK. rewrite Hh, bind_Ok in HK. cbv beta iota in HK. cbn [fst snd] in HK.
  apply handle_uses in Hh. cbn [snd] in Hh. destruct (base_calls_keep (cs_ext_seqnum cs) _ _ Hh) as [Hci (Hf & _)].
  { split; [apply C2|]. pose proof (di_stream _ C2) as Hstr. rewrite Ecs in Hstr. intros Ha. by destruct (Hstr Ha) as (_ & ? & ?). }
  apply (safe_calls _ _ Hh) in C1.
  apply bind_ok in HK as (w2 & Hfin & HK). apply bind_ok in Hfin as (b3 & Hfin & E). injection E as <-. injection HK as <- <-.
  assert (Hs3 : safe b3) by (eapply safe_call; [exact C1|by apply call_finish]).
  unfold finish_pending_buffers in Hfin. destruct Hf as (_ & Fsg & Fsc & _ & _ & _ & _ & _ & Fcs).
  rewrite Fsg in Hfin. destruct C4 as [sg Hsg]. rewrite Hsg in Hfin. cbn [is_none] in Hfin.
  apply finish_loop_spec in Hfin as ((ps & Hb3 & _) & Hsent & _ & Hex & _); [|rewrite Hw; apply all_in_front; by repeat constructor].
  rewrite Hw in Hb3, Hsent. cbn [skip_while take_while pb_metadata_set fmap list_fmap pb_buffer] in Hb3, Hsent.
  unfold on_depay in *. cbn [fst snd] in *. eexists. split; [exact HK0|]. split; [exact Hsent|].
  destruct (drop_used_spec (bd_state b3)) as (k & l & Hk & Hd).
  assert (He : b3 <| bd_state ::= drop_used |> = b3 <| bd_state := (bd_state b3) <| d_pending_packets := l |> |>)
    by (rewrite <- Hd; by destruct b3).
  rewrite He in Hinv |- *. clear He Hd. split.
  - destruct Hs3 as [S1 S2 S3 S4]. rewrite Hk in S3. apply Forall_app in S3 as [_ S3]. split; [done|done|done|right].
    cbn. rewrite Hb3. cbn. by rewrite Fsg, Hsg.
  - exact Hinv.
  - cbn. rewrite Hb3. cbn. by rewrite Fsc.
  - cbn. rewrite Hb3. cbn. by rewrite Fsg, Hsg.
  - cbn. by rewrite Hex.
  - cbn. by rewrite Hb3.
  - cbn. rewrite Hb3. cbn. rewrite Fcs, Ecs. split; [done|]. by rewrite Cn.
Qed.
End Stream.
