(* ===== verification/Vp8Element.v ===== *)
(** * The VP8 payloader as an element

    [vp8/pay/imp.rs] as a subclass of the base class of the payloaders, and what
    becomes of a frame on the wire. *)

From S2P Require Import Prelude Queues F64 Flow BitStream ByteStream RtpBase DepayMeta BaseDepay BaseDepayRun.
From S2P Require Import BasePay BasePayInv BasePayProps RtpWire BasePayRun PayElement Vp8Desc Vp8Bool Vp8Frame.
From S2P Require Import Vp8Pay Vp8Depay Vp8Props.

Definition vp8_pay_class : (Meta -> PayOut -> option PayOut) -> PayClass := video_pay_class Vp8Buffer.

Section Vp8Element.
Context `{Gst} `{GstTime} `{StreamTime} `{RtpTypes} `{RtpWriter} `{HeaderExtensions} `{PayCaps} `{ByteIO}.
Context (meta_transform : Meta -> PayOut -> option PayOut).
#[local] Instance vp8_class : PayClass := vp8_pay_class meta_transform.
Context `{!ExtensionWriter}.

(** The settings and the random offset; the output caps the element offers, and
    what it makes of those it negotiates (the encoding name fixed, to VP8 if
    possible). *)
Context (settings : Vp8PaySettings) (random_offset : Z).
Context (vp8_caps : OpenCaps) (fixate_encoding_name : OpenCaps -> OpenCaps).

#[local] Existing Instance pay_interface.

Definition vp8_negotiate : OpenCaps -> Vp8PayState * PayBase -> res (Vp8PayState * PayBase) :=
  format_negotiate fixate_encoding_name.
Definition vp8_set_sink_caps : Vp8PayState * PayBase -> res (bool * (Vp8PayState * PayBase)) :=
  format_set_sink_caps vp8_caps fixate_encoding_name.

#[local] Instance vp8_pay_drain : PayDrain := format_drain (St := Vp8PayState).
#[local] Instance vp8_pay_negotiate : PayNegotiate := format_pay_negotiate (St := Vp8PayState) fixate_encoding_name.
#[local] Instance vp8_pay_subclass : PaySubclass :=
  format_subclass (vp8_pay_handle_buffer settings) (vp8_pay_start settings random_offset) vp8_pay_stop vp8_caps
    fixate_encoding_name.

Lemma make_packet_calls frame first offset data : calls_only (make_packet frame first offset data).
Proof.
  unfold make_packet. cbv zeta. apply calls_bind; [apply calls_of_flow|intros sz]. apply calls_bind; [apply calls_of_option|intros room].
  apply calls_bind; [apply calls_of_res|intros [d n]]. apply calls_bind; [apply calls_of_res|intros _].
  apply calls_bind; [apply calls_of_flow|intros bytes]. apply calls_bind; [apply calls_of_res|intros _]. apply calls_ret.
Qed.

Lemma packets_loop_calls fuel frame first offset data : calls_only (packets_loop fuel frame first offset data).
Proof.
  revert first offset data. induction fuel as [|fuel IH]; intros first offset data; destruct data as [|x data]; cbn [packets_loop];
    [apply calls_ret|by apply calls_same|apply calls_ret|].
  apply calls_bind; [apply make_packet_calls|intros [packet n]]. apply calls_bind; [apply calls_queue|intros _].
  apply calls_bind; [apply calls_of_res|intros off]. apply IH.
Qed.

Lemma vp8_handle_calls buffer id : calls_only (vp8_pay_handle_buffer settings buffer id).
Proof.
  unfold vp8_pay_handle_buffer. apply calls_bind; [apply calls_of_option|intros data].
  apply calls_bind; [by apply calls_same|intros s]. cbv zeta. apply calls_bind; [destruct (_ && _); by apply calls_same|intros _].
  apply calls_bind; [by apply calls_same|intros s1].
  apply calls_bind; [destruct (is_none _); [destruct (FrameInfo_parse data)|]; by apply calls_same|intros offsets].
  apply calls_bind; [apply packets_loop_calls|intros _].
  apply calls_bind; [match goal with |- calls_only (if ?c then _ else _) => destruct c end; by apply calls_same|intros _].
  apply calls_bind; [|intros next; by apply calls_same].
  destruct (v8p_picture_id (fst s)); [|apply calls_ret]. apply calls_bind; [apply calls_of_res|intros p]. apply calls_ret.
Qed.

#[local] Instance vp8_calls : FormatCalls (vp8_pay_handle_buffer settings) (vp8_pay_start settings random_offset) vp8_pay_stop.
Proof. split; [intros content id; apply vp8_handle_calls|by apply calls_same|by apply calls_same]. Qed.

(** ** A frame on the wire *)
Context `{!GstLaws} `{!RtpWriterLaws} `{!PayMetasOnly} `{!ByteIOLaws}.

Lemma vp8_buffer_sent st b buffer data src s pts ts :
  streaming b buffer src s pts ts -> v8b_data (in_content buffer) = Some data -> is_bytes data ->
  Z.of_nat (length data) < 2 ^ 31 -> valid_pay st -> valid_meta (VP8Meta_from_buffer (v8b_meta (in_content buffer))) ->
  7 <= pay_max_payload_size b ->
  let id := p_current_buffer_id (bp_state b) in
  exists st' b' l offsets,
    pay_handle_buffer buffer (st, b) = Ok (Success tt, (st', b')) /\
    psent b' = psent b ++ l /\ pwaiting b' = [] /\ pay_inv b' /\ valid_pay st' /\
    on_the_wire src s pts ts (ps_mtu (bp_settings b)) l /\
    cut (mkFrame id (pay_max_payload_size b) (v8s_fragmentation_mode settings) (frame_descriptor (in_content buffer) st) offsets)
      (hdr_len data) 0 data (wire_packet id <$> l).
Proof.
  intros Hstr Hdata Hbytes Hlen Hst Hmeta Hroom id.
  pose proof (pay_frame_spec (pay_max_payload_size b) (good_for id (pay_max_payload_size b))
    (SelectiveBase0 := serving_base src id s pts ts (pay_max_payload_size b) (ps_mtu (bp_settings b)) (bp_out b) (bp_env b))
    settings (in_content buffer) id st (admitted buffer b, None) data) as HK. cbv zeta in HK.
  destruct HK as (st' & base' & ps & HK & Hserves & Htaken & Hcut & Hst' & _); [|..|done|done|done|done|done|].
  - intros marker payload Hne Hb Hl. by repeat split.
  - split; [by apply streaming_serves|done].
  - done.
  - destruct (format_buffer_sent (H6 := vp8_class) (vp8_pay_handle_buffer settings) (vp8_pay_start settings random_offset) vp8_pay_stop vp8_caps
      fixate_encoding_name st b buffer src s pts ts st' base' ps Hstr HK Hserves Htaken)
      as (b' & l & HK' & Hsent & Hw & Hinv & Hwire & Hps).
    eexists st', b', l, _. split; [exact HK'|]. split; [done|]. split; [done|]. split; [done|]. split; [done|].
    split; [done|]. fold id in Hps. rewrite Hps. exact Hcut.
Qed.

(** The VP8 payloader keeps the invariant of its base class. *)
Lemma vp8_element_invariant `{!PayCapsLaws} st env ops w :
  is_u32 (env_random_timestamp env) -> Forall pay_op_typed ops ->
  res_fold pay_exec (st, PayBase_new env) ops = Ok w -> pay_inv w.2.
Proof.
  exact (format_invariant (H6 := vp8_class) (vp8_pay_handle_buffer settings) (vp8_pay_start settings random_offset) vp8_pay_stop vp8_caps
    fixate_encoding_name st env ops w).
Qed.

(** C10: A VP8 frame from buffer to buffer, over the wire. A buffer with a frame
    that comes to the payloader, in a negotiated stream without header extensions
    and with room for the descriptor and the frame header, is taken without
    error; the RTP packets that leave have consecutive sequence numbers, the PTS
    and the timestamp of the buffer, and fit the MTU; nothing is left behind; and
    what a receiver parses of these bytes (marker bits and payloads) gives a
    depayloader between two frames exactly that frame, as one buffer. *)
Theorem vp8_frame_on_the_wire `{RtpBaseDepay2} `{!CollectingDepay} st b buffer data src s pts ts h rest dsettings dts dseq dst db :
  streaming b buffer src s pts ts -> v8b_data (in_content buffer) = Some data -> is_bytes data ->
  Z.of_nat (length data) < 2 ^ 31 -> valid_pay st -> valid_meta (VP8Meta_from_buffer (v8b_meta (in_content buffer))) ->
  16 <= pay_max_payload_size b -> uncompressed_of data = Some (h, rest) -> between_frames dst -> may_start dsettings h dst ->
  exists st' b' l dst' db',
    pay_handle_buffer buffer (st, b) = Ok (Success tt, (st', b')) /\
    psent b' = psent b ++ l /\ pwaiting b' = [] /\ pay_inv b' /\
    on_the_wire src s pts ts (ps_mtu (bp_settings b)) l /\
    feed8 dsettings dts dseq (wire_packet (p_current_buffer_id (bp_state b)) <$> l) (dst, db) = (Done tt, (dst', db')) /\
    between_frames dst' /\
    outputs db' = outputs db ++ [mkDepayBuffer data true (v8_needs_discont dst) (negb (uf_is_keyframe h))].
Proof.
  intros Hstr Hdata Hbytes Hlen Hst Hmeta Hroom Hun Hbt Hmay.
  destruct (vp8_buffer_sent st b buffer data src s pts ts Hstr Hdata Hbytes Hlen Hst Hmeta ltac:(lia))
    as (st' & b' & l & offsets & HK & Hsent & Hw & Hinv & _ & Hwire & Hcut).
  destruct (frame_descriptor_ok (in_content buffer) st Hst Hmeta) as [_ Hsz].
  destruct (uncompressed_of_spec data h rest Hbytes Hun) as (_ & _ & hb & Hd & Hhb & _).
  assert (Hhl : hdr_len data = Z.of_nat (length hb)) by (unfold hdr_len; rewrite Hun, Hd, length_app; lia).
  edestruct (whole_frame dsettings dts) as (dst' & db' & Hfeed & Hbt' & _ & _ & Hout);
    [exact Hcut|done|exact Hun|unfold hdr_len; by rewrite Hun|cbn [fr_max_payload_size fr_descriptor]; lia|exact Hbt|exact Hmay|].
  exists st', b', l, dst', db'. by repeat (split; [done|]).
Qed.
End Vp8Element.

(** ** Example: a key frame in an element of its own *)
Section Example.
#[local] Existing Instances gst_exact gst_exact_laws time_exact no_extensions stream_time_exact simple_caps simple_caps_laws RtpWire.rtp_wire
  RtpWire.rtp_wire_writer RtpWire.rtp_wire_writer_laws bytes_exact bytes_exact_laws.
#[local] Instance frame_class : PayClass := vp8_pay_class (fun _ p => Some p).

#[local] Instance frame_extension_writer : @ExtensionWriter no_extensions simple_caps frame_class :=
  @Build_ExtensionWriter no_extensions simple_caps frame_class
    (fun e => match e : Empty_set with end) (fun e => match e : Empty_set with end)
    (fun e => match e : Empty_set with end) (fun e => match e : Empty_set with end)
    (fun _ e => match e : Empty_set with end) (fun e => match e : Empty_set with end).

#[local] Instance frame_metas : PayMetasOnly.
Proof.
  split; [by intros []| |by intros []]. intros i m p. cbn. unfold pay_transform_meta_default. cbn.
  destruct (me_tags m) as [|tag [|]]; [done| |done]. by destruct (bool_decide _).
Qed.

Abbreviation keep_meta := (fun _ p => Some p).
#[local] Existing Instance vp8_pay_drain.
#[local] Instance frame_negotiate : PayNegotiate := vp8_pay_negotiate keep_meta (fun c => c).
#[local] Instance frame_subclass : PaySubclass :=
  vp8_pay_subclass keep_meta example_settings 32767 (chunk_caps : @OpenCaps simple_caps) (fun c => c).

(** Started, with packets of at most 40 bytes, caps and a segment. *)
Definition frame_ops : list PayOp :=
  [PopProperty (PropMtu 40); PopStart; PopEvent (PevCaps 1); PopEvent (PevSegment 1 (TimeSegment open_segment))].
Definition frame_run : Vp8PayState * PayBase :=
  outcome (Vp8PayState_default, PayBase_new env0) (res_fold pay_exec (Vp8PayState_default, PayBase_new env0) frame_ops).

Definition frame_buffer : InputBuffer Content :=
  mkInputBuffer (mkVp8Buffer (Some example_frame) false None) (Some 0) false false None [].

Lemma frame_run_ok : res_fold pay_exec (Vp8PayState_default, PayBase_new env0) frame_ops = Ok frame_run.
Proof. apply finished_outcome. vm_compute. reflexivity. Qed.

Lemma frame_run_inv : pay_inv frame_run.2.
Proof.
  assert (Hty : Forall pay_op_typed frame_ops) by (by repeat constructor).
  assert (He : is_u32 (env_random_timestamp env0)) by (by split).
  exact (vp8_element_invariant keep_meta example_settings 32767 (chunk_caps : @OpenCaps simple_caps) (fun c => c)
    Vp8PayState_default env0 frame_ops frame_run He Hty frame_run_ok).
Qed.

Lemma frame_streaming : streaming frame_run.2 frame_buffer (7, 96) 65534 0 1000.
Proof.
  split.
  - apply frame_run_inv.
  - vm_compute. reflexivity.
  - vm_compute. by eexists.
  - vm_compute. by eexists.
  - vm_compute. reflexivity.
  - vm_compute. reflexivity.
  - vm_compute. reflexivity.
  - vm_compute. reflexivity.
  - reflexivity.
  - assert (Hp : p_pending_buffers (bp_state frame_run.2) = []) by (vm_compute; reflexivity).
    rewrite Hp. apply Forall_cons_2; [exact I|constructor].
  - exists (mkPayStream 96 7 1000 65535 false 65534 1000). split; [vm_compute; reflexivity|]. split; [by split|]. split; [by split|].
    split; [reflexivity|]. split; [|reflexivity]. exists 90000, 1, open_segment, 0, 0. split; [vm_compute; reflexivity|]. split; [vm_compute; reflexivity|].
    split; [reflexivity|]. split; [reflexivity|]. split; [reflexivity|]. split; [by split|vm_compute; reflexivity].
Qed.

(** What left for the frame. *)
Definition frame_sent : list PayOut :=
  psent (outcome (Failure FlowErr, frame_run) (pay_handle_buffer frame_buffer frame_run)).2.2.

Example frame_sent_bytes :
  (fun p => (length (po_bytes p), take 4 (po_bytes p), po_marker p)) <$> frame_sent =
    [(40%nat, [128; 96; 255; 255], false); (24%nat, [128; 224; 0; 0], true)].
Proof. vm_compute. reflexivity. Qed.

Lemma vp8_frame_on_the_wire_witness :
  exists st' b' l dst',
    pay_handle_buffer frame_buffer (frame_run.1, frame_run.2) = Ok (Success tt, (st', b')) /\
    psent b' = l /\ on_the_wire (7, 96) 65534 0 1000 40 l /\
    @feed8 bytes_exact keep_buffers (mkVp8DepaySettings true true) (fun _ => 3) 4 (wire_packet 0 <$> l)
      (Vp8DepayState_default, []) = (Done tt, (dst', [mkDepayBuffer example_frame true true false])).
Proof.
  destruct (uncompressed_of example_frame) as [[h rest]|] eqn:Eun; [|discriminate].
  destruct (@vp8_frame_on_the_wire _ _ _ _ _ _ _ _ keep_meta _ example_settings 32767 (chunk_caps : @OpenCaps simple_caps) (fun c => c)
    _ _ _ _ keep_buffers keep_buffers_collecting frame_run.1 frame_run.2 frame_buffer example_frame (7, 96) 65534 0 1000 h rest
    (mkVp8DepaySettings true true) (fun _ => 3) 4 Vp8DepayState_default [])
    as (st' & b' & l & dst' & db' & HK & Hsent & _ & _ & Hwire & Hfeed & _ & Hout).
  - exact frame_streaming.
  - reflexivity.
  - exact example_frame_bytes.
  - reflexivity.
  - split; [by intros ? [= <-]|done].
  - exact I.
  - vm_compute. discriminate.
  - exact Eun.
  - split; reflexivity.
  - right. left. vm_compute in Eun. injection Eun as <- _. reflexivity.
  - assert (Hnone : psent frame_run.2 = []) by (vm_compute; reflexivity).
    assert (Hl : psent b' = l) by (etransitivity; [exact Hsent|apply (f_equal (fun k => k ++ l) Hnone)]).
    vm_compute in Eun. injection Eun as <- _.
    change (db' = [mkDepayBuffer example_frame true true false]) in Hout. subst db'.
    exists st', b', l, dst'. split; [exact HK|]. split; [exact Hl|]. split; [exact Hwire|]. exact Hfeed.
Defined.
End Example.
