(* ===== verification/Vp9Element.v ===== *)
(** * The VP9 payloader as an element

    [vp9/pay/imp.rs] as a subclass of the base class of the payloaders, and what
    becomes of a frame on the wire. *)

From S2P Require Import Prelude Queues F64 Flow BitStream ByteStream RtpBase DepayMeta BaseDepay BaseDepayRun.
From S2P Require Import BasePay BasePayInv BasePayProps RtpWire BasePayRun PayElement BaseDepayInv BaseDepayProps.
From S2P Require Import DepayElement Vp8Desc Vp9Desc Vp9Frame Vp9Pay Vp9Depay Vp9Props.

Definition vp9_pay_class : (Meta -> PayOut -> option PayOut) -> PayClass := video_pay_class Vp9Buffer.

Section Vp9Element.
Context `{Gst} `{GstTime} `{StreamTime} `{RtpTypes} `{RtpWriter} `{HeaderExtensions} `{PayCaps} `{ByteIO} `{BitIO}.
Context (meta_transform : Meta -> PayOut -> option PayOut).
#[local] Instance vp9_class : PayClass := vp9_pay_class meta_transform.
Context `{!ExtensionWriter}.

(** The settings and the random offset; the output caps the element offers, and
    what it makes of those it negotiates (the encoding name fixed, to VP9 if
    possible). *)
Context (settings : Vp9PaySettings) (random_offset : Z).
Context (vp9_caps : OpenCaps) (fixate_encoding_name : OpenCaps -> OpenCaps).

#[local] Existing Instance pay_interface.

Definition vp9_negotiate : OpenCaps -> option Vp9PictureId * PayBase -> res (option Vp9PictureId * PayBase) :=
  format_negotiate fixate_encoding_name.
Definition vp9_set_sink_caps : option Vp9PictureId * PayBase -> res (bool * (option Vp9PictureId * PayBase)) :=
  format_set_sink_caps vp9_caps fixate_encoding_name.

#[local] Instance vp9_pay_drain : PayDrain := format_drain (St := option Vp9PictureId).
#[local] Instance vp9_pay_negotiate : PayNegotiate := format_pay_negotiate (St := option Vp9PictureId) fixate_encoding_name.
#[local] Instance vp9_pay_subclass : PaySubclass :=
  format_subclass vp9_pay_handle_buffer (vp9_pay_start settings random_offset) vp9_pay_stop vp9_caps fixate_encoding_name.

Lemma vp9_make_packet_calls id limit picture_id key_frame first data :
  calls_only (vp9_make_packet id limit picture_id key_frame first data).
Proof.
  unfold vp9_make_packet. cbv zeta. apply calls_bind; [apply calls_of_flow|intros sz].
  apply calls_bind; [apply calls_of_option|intros room]. apply calls_bind; [apply calls_of_flow|intros bytes].
  apply calls_bind; [apply calls_of_res|intros _]. apply calls_ret.
Qed.

Lemma vp9_packets_loop_calls fuel id limit picture_id key_frame first data :
  calls_only (vp9_packets_loop fuel id limit picture_id key_frame first data).
Proof.
  revert first data. induction fuel as [|fuel IH]; intros first data; destruct data as [|x data]; cbn [vp9_packets_loop];
    [apply calls_ret|by apply calls_same|apply calls_ret|].
  apply calls_bind; [apply vp9_make_packet_calls|intros [packet n]]. apply calls_bind; [apply calls_queue|intros _]. apply IH.
Qed.

Lemma vp9_handle_calls buffer id : calls_only (vp9_pay_handle_buffer buffer id).
Proof.
  unfold vp9_pay_handle_buffer. apply calls_bind; [by apply calls_same|intros s]. cbv zeta.
  apply calls_bind; [apply calls_of_option|intros data]. apply calls_bind; [apply calls_of_flow|intros key].
  apply calls_bind; [apply vp9_packets_loop_calls|intros _]. apply calls_bind; [|intros next; by apply calls_same].
  destruct (fst s); [|apply calls_ret]. apply calls_bind; [apply calls_of_res|intros p]. apply calls_ret.
Qed.

#[local] Instance vp9_calls : FormatCalls vp9_pay_handle_buffer (vp9_pay_start settings random_offset) vp9_pay_stop.
Proof. split; [intros content id; apply vp9_handle_calls|by apply calls_same|by apply calls_same]. Qed.

Context `{!GstLaws} `{!RtpWriterLaws} `{!PayMetasOnly} `{!ByteIOLaws}.

(** The packets of a frame leave, cut as the format says. *)
Lemma vp9_buffer_sent picture_id b buffer data src s pts ts :
  streaming b buffer src s pts ts -> v9b_data (in_content buffer) = Some data -> is_bytes data ->
  valid_picture_id picture_id -> descriptor_length picture_id < pay_max_payload_size b ->
  let id := p_current_buffer_id (bp_state b) in
  exists key_frame picture_id' b' l,
    vp9_key_frame data (v9b_delta_unit (in_content buffer)) = Done key_frame /\
    pay_handle_buffer buffer (picture_id, b) = Ok (Success tt, (picture_id', b')) /\
    psent b' = psent b ++ l /\ pwaiting b' = [] /\ pay_inv b' /\ valid_picture_id picture_id' /\
    on_the_wire src s pts ts (ps_mtu (bp_settings b)) l /\
    cut9 id (pay_max_payload_size b - descriptor_length picture_id) picture_id key_frame true data (wire_packet id <$> l).
Proof.
  intros Hstr Hdata Hbytes Hp Hroom id.
  destruct (vp9_pay_spec (pay_max_payload_size b) (good_for id (pay_max_payload_size b))
    (SelectiveBase0 := serving_base src id s pts ts (pay_max_payload_size b) (ps_mtu (bp_settings b)) (bp_out b) (bp_env b))
    (in_content buffer) id picture_id (admitted buffer b, None) data)
    as (key & pid' & base' & ps & Hkey & HK & Hserves & Htaken & Hp' & Hcut & _); [|..|done|done|done|done|].
  - intros marker payload Hne Hb Hl. by repeat split.
  - split; [by apply streaming_serves|done].
  - destruct (format_buffer_sent (H6 := vp9_class) vp9_pay_handle_buffer (vp9_pay_start settings random_offset) vp9_pay_stop vp9_caps
      fixate_encoding_name picture_id b buffer src s pts ts pid' base' ps Hstr HK Hserves Htaken)
      as (b' & l & HK' & Hsent & Hw & Hinv & Hwire & Hps).
    exists key, pid', b', l. split; [done|]. split; [exact HK'|]. split; [done|]. split; [done|]. split; [done|].
    split; [done|]. split; [done|]. fold id in Hps. rewrite Hps. exact Hcut.
Qed.

(** The VP9 payloader keeps the invariant of its base class. *)
Lemma vp9_element_invariant `{!PayCapsLaws} picture_id env ops w :
  is_u32 (env_random_timestamp env) -> Forall pay_op_typed ops ->
  res_fold pay_exec (picture_id, PayBase_new env) ops = Ok w -> pay_inv w.2.
Proof.
  exact (format_invariant (H6 := vp9_class) vp9_pay_handle_buffer (vp9_pay_start settings random_offset) vp9_pay_stop vp9_caps
    fixate_encoding_name picture_id env ops w).
Qed.
End Vp9Element.

(** ** The depayloader *)

Definition vp9_depay_class `{RtpTypes} : DepayClass := video_depay_class.

Section Vp9DepayElement.
Context `{Gst} `{GstTime} `{RtpTypes} `{HeaderExtensions} `{ByteIO} `{BitIO}.
#[local] Instance vp9_dclass : DepayClass := vp9_depay_class.
Context (settings : Vp9DepaySettings).

#[local] Existing Instance depay_interface.

Definition vp9_depay_element : Subclass :=
  format_depay (vp9_depay_handle_packet settings) vp9_depay_drain vp9_depay_flush (mret tt) vp9_depay_start vp9_depay_stop.
#[local] Existing Instance vp9_depay_element.

Context `{!RtpTypesLaws} `{!GstTimeLaws} `{!ByteIOLaws}.

Lemma vp9_own_calls f : depay_calls (on_vp9 f).
Proof. apply dcalls_own. Qed.

Lemma vp9_drop_calls packet : depay_calls (vp9_drop_packet packet).
Proof. apply dcalls_drop. Qed.

Lemma vp9_queue_calls packet buffer : depay_calls (queue_picture packet buffer).
Proof. apply (dcalls_queue (fun st => (v9_pending_picture_ext_seqnum st, dp_ext_seqnum packet))). Qed.

#[local] Hint Resolve vp9_own_calls vp9_drop_calls vp9_queue_calls : dcalls.

Lemma vp9_caps_calls : depay_calls vp9_update_caps.
Proof.
  unfold vp9_update_caps. apply dcalls_bind; [apply dcalls_get|intros s].
  destruct (v9_current_keyframe_frame_header (fst s)) as [h|]; eauto 6 with dcalls.
Qed.
#[local] Hint Resolve vp9_caps_calls : dcalls.

Lemma vp9_finish_calls packet : depay_calls (finish_picture packet).
Proof. unfold finish_picture. cbv zeta. eauto 12 with dcalls. Qed.
#[local] Hint Resolve vp9_finish_calls : dcalls.

Lemma vp9_header_calls desc rest : depay_calls (parse_frame_header desc rest).
Proof.
  unfold parse_frame_header. apply dcalls_bind; [apply dcalls_get|intros s]. apply dcalls_if; [|apply dcalls_ret].
  destruct (run_parser _ rest) as [[h l]| |]; eauto with dcalls.
Qed.
#[local] Hint Resolve vp9_header_calls : dcalls.

Lemma vp9_wait_calls packet desc : depay_calls (wait_for_key_picture settings packet desc).
Proof. unfold wait_for_key_picture, vp9_depay_reset. eauto 10 with dcalls. Qed.

Lemma vp9_start_calls packet desc : depay_calls (start_picture packet desc).
Proof. unfold start_picture. eauto 10 with dcalls. Qed.
#[local] Hint Resolve vp9_wait_calls vp9_start_calls : dcalls.

Lemma vp9_depay_calls packet : depay_calls (vp9_depay_handle_packet settings packet).
Proof.
  unfold vp9_depay_handle_packet, vp9_depay_reset.
  destruct (run_bytes _ _) as [[desc rest]| |]; [|by eauto with dcalls..].
  do 3 (apply dcalls_bind; [by eauto with dcalls|intros ?]). apply dcalls_if; [by eauto with dcalls|].
  apply dcalls_if; [by eauto with dcalls|]. eauto 10 with dcalls.
Qed.

(** The invariant of the format is kept; only calls of the base class panic. *)
Lemma vp9_handle_sound packet : sound vp9_inv (vp9_depay_handle_packet settings packet).
Proof.
  intros st x Hinv.
  destruct (handle_packet_cases settings packet st x Hinv) as [(force & ->)|(desc & rest & _ & Hc & _ & force & ->)]; [done|].
  set (st1 := collected packet desc rest (entered packet desc st)).
  assert (Hcur : exists c, v9_current_picture_payload_descriptor st1 = Some c).
  { destruct (collected_fields packet desc rest (entered packet desc st)) as (_ & _ & E & _). fold st1 in E. rewrite E.
    destruct Hc as [-> | Hc]; [eauto|]. destruct (is_start_of_picture desc); [eauto|].
    destruct (v9_current_picture_payload_descriptor _); [eauto|done]. }
  destruct Hcur as [c Hcur]. destruct (dp_marker_bit packet); cbn [fst snd].
  - rewrite (finish_picture_run packet st1 _ c Hcur).
    pose proof (queue_crash (v9_pending_picture_ext_seqnum st1, dp_ext_seqnum packet) (picture_buffer c st1)
      (with_caps st1 (forced force x))) as Hcr.
    destruct (queue_buffer _ _ _) as [r x']. by split.
  - split; [|done]. unfold vp9_inv. by rewrite Hcur.
Qed.

#[local] Instance vp9_depay_format :
  DepayFormat (vp9_depay_handle_packet settings) vp9_depay_drain vp9_depay_flush (mret tt) vp9_depay_start vp9_depay_stop.
Proof. split; [apply vp9_depay_calls|by apply dcalls_same..]. Qed.

#[local] Instance vp9_depay_sound :
  SoundFormat (vp9_depay_handle_packet settings) vp9_depay_drain vp9_depay_flush (mret tt) vp9_depay_start vp9_depay_stop vp9_inv.
Proof. split; [apply vp9_handle_sound|by intros st x Hst..]. Qed.

End Vp9DepayElement.
