(* ===== verification/Vp9Stream.v ===== *)
(** * A VP9 frame from element to element

    The packets the VP9 payloader sends of a frame, received by the VP9
    depayloader with its base class, are that frame again. *)

From S2P Require Import Prelude Queues F64 Flow BitStream ByteStream RtpBase DepayMeta BaseDepay BaseDepayInv.
From S2P Require Import BaseDepayProps BaseDepayRun BasePay BasePayInv BasePayProps RtpWire BasePayRun PayElement.
From S2P Require Import DepayElement DepayStream Vp8Desc Vp9Desc Vp9Frame Vp9Pay Vp9Depay Vp9Props Vp9Element.

Lemma wrap_shift a b k : wrap U16 a = wrap U16 b -> wrap U16 (a + k) = wrap U16 (b + k).
Proof. unfold wrap. intros E. rewrite (Zplus_mod a), (Zplus_mod b). by rewrite E. Qed.

Section Receiver.
Context `{Gst} `{GstTime} `{RtpTypes} `{HeaderExtensions} `{ByteIO} `{BitIO}.
#[local] Instance receiver_class : DepayClass := vp9_depay_class.
Context `{!RtpTypesLaws} `{!GstTimeLaws} `{!ByteIOLaws} `{!MetasOnly}.
Context (settings : Vp9DepaySettings).
#[local] Existing Instance depay_interface.
#[local] Instance receiver : Subclass := vp9_depay_element settings.
#[local] Instance receiver_format :
  DepayFormat (vp9_depay_handle_packet settings) vp9_depay_drain vp9_depay_flush (mret tt) vp9_depay_start vp9_depay_stop :=
  vp9_depay_format settings.
#[local] Instance receiver_uses : UsesBase :=
  format_uses_base (vp9_depay_handle_packet settings) vp9_depay_drain vp9_depay_flush (mret tt) vp9_depay_start vp9_depay_stop.

#[local] Instance receiver_total : TotalSubclass vp9_inv.
Proof. exact (format_total _ _ _ _ _ _ vp9_inv (vp9_depay_sound settings)). Qed.

(** C12: The VP9 depayloader with its base class: after any sequence of
    operations with plausible input (segments in time format, no start time of
    old-style RTSP caps, references with fixed caps, timestamps below 2^62),
    another such operation (a buffer, a buffer list, an event, a state change,
    a signal) returns without a panic whatever bytes its packets carry,
    provided that when the turn of a buffer comes the extended sequence number
    of the current stream is in [2^15, 2^63) and its extended RTP time in
    [2^31, 2^63), which RTP times that go back for a cycle leave. *)
Theorem vp9_depay_element_no_panic ops (w : Vp9DepayState * Base) op :
  Forall op_typed ops -> Forall op_calm ops -> res_fold depay_exec (Vp9DepayState_default, Base_new) ops = Ok w ->
  op_calm op -> op_in_range op w ->
  exists w' : Vp9DepayState * Base, depay_exec w op = Ok w'.
Proof.
  intros Hty Hca HK Hop Hr.
  assert (Hfit : fit (sub_ok := vp9_inv) (Vp9DepayState_default, Base_new)).
  { split; [done|]. exact (reset_safe (Vp9DepayState_default, Base_new)). }
  destruct (depay_run_safe (H4 := receiver) (sub_ok := vp9_inv) _ _ _ Hty Hca HK Hfit Base_new_inv) as [Hs Hinv].
  by apply (depay_exec_total (H4 := receiver) (sub_ok := vp9_inv)).
Qed.

Lemma no_gaps9 : allow_seqnum_discontinuities = false.
Proof. done. Qed.

(** Packets [ps] of a payloader that arrive in the buffers [rs], numbered after [s]. *)
Fixpoint in_order (src : Z * Z) (ts s : Z) (ps : list PayPacket) (rs : list InBuffer) : Prop :=
  match ps, rs with
  | [], [] => True
  | p :: ps, r :: rs =>
      (exists h, arrives h r /\ rh_payload h = pp_payload p /\ rh_marker_bit h = pp_marker_bit p /\
         (rh_ssrc h, rh_payload_type h) = src /\ rh_timestamp h = ts /\ rh_sequence_number h = wrap U16 (s + 1)) /\
      in_order src ts (s + 1) ps rs
  | _, _ => False
  end.

Lemma forced_reached force b e :
  exists b', forced force (Ok (b, e) : RtpBase.BaseDepay) = Ok (b', e) /\ rtc base_call b b' /\ undisturbed b b'.
Proof.
  destruct force; [|exists b; split; [done|split; [apply rtc_refl|apply undisturbed_preorder]]].
  exists (push_out OutForceKeyUnit b). split; [done|]. split; [apply rtc_once, call_force|apply force_undisturbed].
Qed.

Lemma caps_reached caps b e :
  safe b -> exists b', set_src_caps caps (Ok (b, e) : RtpBase.BaseDepay) = Ok (b', e) /\ rtc base_call b b' /\ undisturbed b b' /\
    is_Some (d_src_caps (bd_state b')).
Proof.
  intros Hs. destruct (calls_total b Hs) as (_ & Hc & _). destruct (Hc caps) as [b' Hb]. exists b'.
  destruct (set_src_caps_undisturbed _ _ _ Hb) as [Hu Hsc]. cbn. rewrite Hb. cbn. split; [done|].
  split; [apply rtc_once; by eapply call_caps|]. split; [done|]. by rewrite Hsc.
Qed.

Lemma with_caps_reached st b e :
  safe b -> exists b', with_caps st (Ok (b, e) : RtpBase.BaseDepay) = Ok (b', e) /\ rtc base_call b b' /\ undisturbed b b' /\
    is_Some (d_src_caps (bd_state b')).
Proof.
  intros Hs. unfold with_caps. set (x := match v9_current_keyframe_frame_header st with Some _ => _ | None => _ end).
  assert (Hx : exists b1, x = Ok (b1, e) /\ rtc base_call b b1 /\ undisturbed b b1).
  { assert (Hself : exists b1, (Ok (b, e) : RtpBase.BaseDepay) = Ok (b1, e) /\ rtc base_call b b1 /\ undisturbed b b1)
      by (exists b; split; [done|split; [apply rtc_refl|apply undisturbed_preorder]]).
    subst x. destruct (v9_current_keyframe_frame_header st) as [h|]; [|exact Hself]. destruct (caps_changed _ h); [|exact Hself].
    destruct (header_render_size h) as [[w' h']|]; [|exact Hself].
    destruct (caps_reached (VideoCaps (v9h_profile h) w' h') b e Hs) as (b1 & -> & ? & ? & _). eauto. }
  destruct Hx as (b1 & -> & Hc1 & Hu1). cbn [has_current_caps depay_interface].
  destruct (d_src_caps (bd_state b1)) as [sc|] eqn:Esc; cbn [is_some].
  - exists b1. split; [done|]. split; [done|]. split; [done|]. by rewrite Esc.
  - destruct (caps_reached TemplateCaps b1 e (safe_calls _ _ Hc1 Hs)) as (b2 & -> & Hc2 & Hu2 & Hsc).
    exists b2. split; [done|]. split; [by etrans|]. split; [|done]. eapply (@transitivity _ _ (@PreOrder_Transitive _ _ undisturbed_preorder)); eassumption.
Qed.

(** The base class as the format finds it. *)
Definition reached (b : Base) : RtpBase.BaseDepay := Ok (b, None).

(** The format, handed a packet. *)
Lemma handed_runs buffer h discont n expected t w :
  arrives h buffer ->
  sub_handle_packet (handed buffer h discont n expected t) w =
    run_depay (vp9_depay_handle_packet settings (mkDepayPacket (rh_payload h) t n (rh_marker_bit h))) w.
Proof. intros (Hp & _). cbn. unfold handed. by rewrite (payload_found _ h) by done. Qed.

Lemma same_packet h payload marker t n m :
  rh_payload h = payload -> rh_marker_bit h = marker -> m = n ->
  mkDepayPacket (rh_payload h) t n (rh_marker_bit h) = mkDepayPacket payload t m marker.
Proof. by intros -> -> ->. Qed.

Lemma handle_list_next dsettings r rs (w w1 : Sub * Base) :
  handle_buffer dsettings r w = Ok (Success tt, w1) -> handle_list dsettings (r :: rs) w = handle_list dsettings rs w1.
Proof. intros E. cbn [handle_list]. by rewrite E, bind_Ok. Qed.

(** A packet in the middle of a picture. *)
Lemma middle_packet src n0 n t rs buffer h discont expected st b st1 force :
  arrives h buffer -> collecting src n0 n t rs b ->
  vp9_depay_handle_packet settings (mkDepayPacket (rh_payload h) t n (rh_marker_bit h)) (st, Ok (b, None)) =
    (Done tt, (st1, forced force (Ok (b, None)))) ->
  exists b3, deliver_packet (handed buffer h discont n expected t) (st, b) = Ok (Success tt, (st1, b3)) /\
    collecting src n0 n t rs b3 /\ sent b3 = sent b /\ d_discont_pending (bd_state b3) = d_discont_pending (bd_state b).
Proof.
  intros Harr Hcl HK. destruct (forced_reached force b None) as (b1 & Hb1 & Hc1 & Hu1).
  pose proof (collecting_undisturbed _ _ _ _ _ _ _ Hc1 Hu1 Hcl) as Hcl1.
  destruct (deliver_kept (H6 := receiver) no_gaps9 src n0 n t rs (handed buffer h discont n expected t) (st, b) st1 b1) as (b3 & HD & Hcl3 & Hs3 & Hd3);
    [|done|].
  { rewrite handed_runs by done. unfold run_depay. cbn [fst snd]. by rewrite HK, Hb1. }
  destruct Hu1 as (_ & _ & _ & _ & Hd & _ & Hs). exists b3. split; [done|]. split; [done|]. split; congruence.
Qed.

(** The last packet of a picture: its buffer leaves. *)
Lemma last_packet src n0 n t rs buffer h discont expected st b st1 force c :
  arrives h buffer -> collecting src n0 n t rs b -> n0 <= n ->
  vp9_depay_handle_packet settings (mkDepayPacket (rh_payload h) t n (rh_marker_bit h)) (st, Ok (b, None)) =
    finish_picture (mkDepayPacket (rh_payload h) t n (rh_marker_bit h)) (st1, forced force (Ok (b, None))) ->
  v9_current_picture_payload_descriptor st1 = Some c -> v9_pending_picture_ext_seqnum st1 = n0 ->
  exists b3 out, deliver_packet (handed buffer h discont n expected t) (st, b) = Ok (Success tt, (finished9 st1, b3)) /\
    sent b3 = sent b ++ [out] /\ receiving src (wrap U16 n) b3 /\
    core_of out = (mkDepayBuffer (v9_pending_picture st1) true (v9_needs_discont st1 || d_discont_pending (bd_state b))
                     (v9d_inter_picture_predicted_frame c), list_find_map ib_pts rs, None).
Proof.
  intros Harr Hcl Hle HK Hc Hn0. destruct (forced_reached force b None) as (b1 & Hb1 & Hc1 & Hu1).
  pose proof (collecting_undisturbed _ _ _ _ _ _ _ Hc1 Hu1 Hcl) as Hcl1.
  destruct (with_caps_reached st1 b1 None (cl_safe _ _ _ _ _ _ Hcl1)) as (b2 & Hb2 & Hc2 & Hu2 & Hsc).
  pose proof (collecting_undisturbed _ _ _ _ _ _ _ Hc2 Hu2 Hcl1) as Hcl2.
  destruct (queue_frame_buffer no_gaps9 src n0 n t rs b2 (picture_buffer c st1) Hcl2 Hsc Hle) as (out & b3 & HQ & Hcore & Hw & Hs3 & He3).
  rewrite (finish_picture_run _ st1 _ c Hc), Hb1, Hb2, Hn0 in HK. cbn [dp_ext_seqnum queue_buffer depay_interface] in HK.
  unfold out_buffer in HK. rewrite HQ in HK.
  destruct (deliver_finished (H6 := receiver) src n0 n t rs (handed buffer h discont n expected t) (st, b) (finished9 st1) b3 out) as (b4 & HD & Hs4 & Hrv);
    [|done|done|done|].
  { rewrite handed_runs by done. unfold run_depay. cbn [fst snd]. by rewrite HK. }
  destruct Hu1 as (_ & _ & _ & _ & Hd1 & _ & Hs1), Hu2 as (_ & _ & _ & _ & Hd2 & _ & Hs2).
  exists b4, out. split; [done|]. split; [congruence|]. split; [done|]. rewrite Hcore, Hd2, Hd1. unfold decorate_buffer.
  destruct (d_discont_pending (bd_state b)); [by rewrite orb_true_r|by rewrite orb_false_r].
Qed.

(** What the picture has become. *)
Definition came_out (src : Z * Z) (s : Z) (data : list Z) (discont delta : bool) (rs : list InBuffer)
    (last_key : option Vp9PayloadDescriptor) (b : Base) (w' : Vp9DepayState * Base) : Prop :=
  v9_current_picture_payload_descriptor w'.1 = None /\ v9_pending_picture w'.1 = [] /\ v9_needs_discont w'.1 = false /\
  v9_last_key_picture_payload_descriptor w'.1 = last_key /\ receiving src s w'.2 /\
  exists out, sent w'.2 = sent b ++ [out] /\
    core_of out = (mkDepayBuffer data true discont delta, list_find_map ib_pts rs, None).

Lemma rest_arrives src ts t id room picture_id key_frame data ps :
  cut9 id room picture_id key_frame false data ps -> data <> [] -> valid_picture_id picture_id -> t mod 2 ^ 32 = ts ->
  forall s rs n0 n rs0 st b c dsettings, in_order src ts s ps rs -> wrap U16 n = wrap U16 s -> n + Z.of_nat (length ps) < 2 ^ 63 ->
  inside t picture_id key_frame c st -> v9_pending_picture_ext_seqnum st = n0 -> n0 <= n -> collecting src n0 n t rs0 b ->
  exists w', handle_list dsettings rs (st, b) = Ok (Success tt, w') /\
    came_out src (wrap U16 (s + Z.of_nat (length ps))) (v9_pending_picture st ++ data)
      (v9_needs_discont st || d_discont_pending (bd_state b)) (v9d_inter_picture_predicted_frame c) (rs0 ++ rs)
      (v9_last_key_picture_payload_descriptor st) b w'.
Proof.
  intros Hcut Hne Hp Ht. remember false as first eqn:Ef.
  induction Hcut as [|first data _ Hlen|first data ps Hlen Hcut IH]; subst first;
    intros s rs n0 n rs0 st b c dsettings Hio Hns Hr Hin Hn0 Hle Hcl; [done| |];
    destruct rs as [|r rs]; try done; cbn [in_order pp_payload pp_marker_bit] in Hio; destruct Hio as ((h & Harr & Hpl & Hm & Hsrc & Hts & Hseq) & Hio);
    (destruct (admit_more (H6 := receiver) no_gaps9 src n0 n t rs0 dsettings r h (st, b) Hcl Harr Hsrc) as (b1 & dis & expct & HA & Hcl1 & Hs1 & Hd1);
      [rewrite Hseq; symmetry; by apply wrap_shift|by rewrite Hts|cbn in Hr; lia|]);
    cbn [fst snd] in *.
  - destruct rs; [|done].
    destruct (inside_packet9 settings t (n + 1) picture_id key_frame true data st (reached b1) c Hp Hin)
      as (Hin1 & E1 & E2 & E3 & E4 & force & HK).
    match type of E1 with v9_pending_picture ?x = _ => set (st1 := x) in *; clearbody st1 end.
    rewrite <- (same_packet _ _ _ _ _ _ Hpl Hm eq_refl) in HK.
    destruct (last_packet src n0 (n + 1) t (rs0 ++ [r]) r h dis expct st b1 _ force c Harr Hcl1 ltac:(lia) HK (proj1 Hin1) ltac:(congruence))
      as (b3 & out & HD & Hs3 & Hrv & Hcore).
    eexists. split; [exact (handle_list_next _ _ _ _ _ (eq_trans HA HD))|].
    split; [done|]. split; [done|]. split; [done|]. split; [exact E3|]. cbn [fst snd]. split.
    + replace (wrap U16 (s + _)) with (wrap U16 (n + 1)); [done|]. by apply wrap_shift.
    + exists out. split; [by rewrite Hs3, Hs1|]. by rewrite Hcore, E1, E2, Hd1.
  - destruct (inside_packet9 settings t (n + 1) picture_id key_frame false (take (Z.to_nat room) data) st (reached b1) c Hp Hin)
      as (Hin1 & E1 & E2 & E3 & E4 & force & HK).
    match type of E1 with v9_pending_picture ?x = _ => set (st1 := x) in *; clearbody st1 end.
    rewrite <- (same_packet _ _ _ _ _ _ Hpl Hm eq_refl) in HK.
    destruct (middle_packet src n0 (n + 1) t (rs0 ++ [r]) r h dis expct st b1 _ force Harr Hcl1 HK) as (b3 & HD & Hcl3 & Hs3 & Hd3).
    destruct (IH) with (s := s + 1) (rs := rs) (n0 := n0) (n := n + 1) (rs0 := rs0 ++ [r]) (b := b3) (dsettings := dsettings)
      (1 := eq_refl false) (6 := Hin1) as (w' & HL & O1 & O2 & O3 & O4 & O5 & out & O6 & O7); [| | | |congruence|lia|done|].
    { intros E0. apply (f_equal length) in E0. rewrite length_drop in E0. destruct data; [done|]. cbn in *. lia. }
    { done. }
    { by apply wrap_shift. }
    { cbn in Hr. lia. }
    exists w'. split; [exact (eq_trans (handle_list_next _ _ _ _ _ (eq_trans HA HD)) HL)|].
    split; [done|]. split; [done|]. split; [done|]. split; [by rewrite O4|]. split.
    + replace (s + Z.of_nat (length _)) with (s + 1 + Z.of_nat (length ps)) by (cbn; lia). done.
    + exists out. split; [by rewrite O6, Hs3, Hs1|]. rewrite O7, E1, E2, Hd3, Hd1, <- !app_assoc, take_drop. done.
Qed.

(** A whole picture arrives. *)
Lemma picture_arrives src ts id room picture_id key_frame data ps s rs st b dsettings :
  cut9 id room picture_id key_frame true data ps -> data <> [] -> valid_picture_id picture_id ->
  v9_current_picture_payload_descriptor st = None -> v9_pending_picture st = [] ->
  allows (v9_last_key_picture_payload_descriptor st) picture_id key_frame -> may_start9 settings key_frame st ->
  in_order src ts s ps rs -> receiving src (wrap U16 s) b -> far_from_ends (d_current_stream (bd_state b)) ->
  Z.of_nat (length ps) < 2 ^ 62 ->
  exists w' last_key, handle_list dsettings rs (st, b) = Ok (Success tt, w') /\
    came_out src (wrap U16 (s + Z.of_nat (length ps))) data
      (v9_needs_discont st || (d_discont_pending (bd_state b) || is_none (d_current_stream (bd_state b)))) (negb key_frame) rs
      last_key b w' /\
    (if key_frame then is_Some last_key else last_key = v9_last_key_picture_payload_descriptor st).
Proof.
  intros Hcut Hne Hp Hcur Hpend Hal Hmay Hio Hrv Hfar Hlen.
  assert (Hfirst : forall h r, arrives h r -> (rh_ssrc h, rh_payload_type h) = src -> rh_sequence_number h = wrap U16 (s + 1) ->
    exists n t b1 discont expected,
      handle_buffer dsettings r (st, b) = deliver_packet (handed r h discont n expected t) (st, b1) /\
      collecting src n n t [r] b1 /\ wrap U16 n = wrap U16 (s + 1) /\ t mod 2 ^ 32 = rh_timestamp h /\
      n <= 2 ^ 62 /\ sent b1 = sent b /\
      d_discont_pending (bd_state b1) = d_discont_pending (bd_state b) || is_none (d_current_stream (bd_state b))).
  { intros h r Harr Hsrc Hseq.
    destruct (admit_first (H6 := receiver) no_gaps9 src (wrap U16 s) dsettings r h (st, b) Hrv Hfar Harr Hsrc)
      as (n & t & b1 & dis & ex & HA & Hcl & Hn & Ht & Hn2 & _ & Hs1 & Hd1).
    { rewrite Hseq. apply wrap_shift. unfold wrap. by rewrite Z.mod_mod by lia. }
    exists n, t, b1, dis, ex. repeat (split; [first [done|congruence]|]). done. }
  inversion Hcut as [|? ? _ Hl|? ? ps' Hl Hcut']; subst; [done| |];
    destruct rs as [|r rs]; try done; cbn [in_order pp_payload pp_marker_bit] in Hio;
    destruct Hio as ((h & Harr & Hpl & Hm & Hsrc & Hts & Hseq) & Hio);
    destruct (Hfirst h r Harr Hsrc Hseq) as (n & t & b1 & dis & ex & HA & Hcl & Hn & Ht & Hn2 & Hs1 & Hd1).
  - destruct rs; [|done].
    destruct (first_packet9 settings t n picture_id key_frame true data st (reached b1) Hp Hcur Hpend Hal Hmay)
      as (Hin1 & E1 & E2 & E3 & E4 & force & HK).
    match type of E1 with v9_pending_picture ?x = _ => set (st1 := x) in *; clearbody st1 end.
    rewrite <- (same_packet _ _ _ _ _ _ Hpl Hm eq_refl) in HK.
    destruct (last_packet src n n t [r] r h dis ex st b1 _ force _ Harr Hcl ltac:(lia) HK (proj1 Hin1) E4) as (b3 & out & HD & Hs3 & Hrv3 & Hcore).
    eexists _, _. split; [exact (handle_list_next _ _ _ _ _ (eq_trans HA HD))|]. split.
    + split; [done|]. split; [done|]. split; [done|]. split; [exact E3|]. cbn [fst snd length Z.of_nat]. split.
      * by replace (wrap U16 (s + _)) with (wrap U16 n).
      * exists out. split; [by rewrite Hs3, Hs1|]. by rewrite Hcore, E1, E2, Hd1.
    + by destruct key_frame.
  - destruct (first_packet9 settings t n picture_id key_frame false (take (Z.to_nat room) data) st (reached b1) Hp Hcur Hpend Hal Hmay)
      as (Hin1 & E1 & E2 & E3 & E4 & force & HK).
    match type of E1 with v9_pending_picture ?x = _ => set (st1 := x) in *; clearbody st1 end.
    rewrite <- (same_packet _ _ _ _ _ _ Hpl Hm eq_refl) in HK.
    destruct (middle_packet src n n t [r] r h dis ex st b1 _ force Harr Hcl HK) as (b3 & HD & Hcl3 & Hs3 & Hd3).
    destruct (rest_arrives src ts t _ _ _ _ _ _ Hcut') with (s := s + 1) (rs := rs) (n0 := n) (n := n) (rs0 := [r])
      (st := st1) (b := b3) (dsettings := dsettings) (c := packet_descriptor picture_id key_frame true false) as (w' & HL & O1 & O2 & O3 & O4 & O5 & out & O6 & O7);
      [|done|congruence|done|done| |done|done|lia|done|].
    { intros E0. apply (f_equal length) in E0. rewrite length_drop in E0. destruct data; [done|]. cbn in *. lia. }
    { cbn [length] in Hlen. lia. }
    exists w', (v9_last_key_picture_payload_descriptor st1).
    split; [exact (eq_trans (handle_list_next _ _ _ _ _ (eq_trans HA HD)) HL)|]. split.
    + split; [done|]. split; [done|]. split; [done|]. split; [done|]. split.
      * replace (s + Z.of_nat (length _)) with (s + 1 + Z.of_nat (length ps')) by (cbn; lia). done.
      * exists out. split; [by rewrite O6, Hs3, Hs1|]. rewrite O7, E1, E2, Hd3, Hd1, take_drop. done.
    + rewrite E3. by destruct key_frame.
Qed.
End Receiver.

(** ** End to end *)
Section EndToEnd.
Context `{Gst} `{GstTime} `{StreamTime} `{RtpTypes} `{RtpWriter} `{HeaderExtensions} `{PayCaps} `{ByteIO} `{BitIO}.
Context (meta_transform : Meta -> PayOut -> option PayOut).
#[local] Instance sender_class : PayClass := vp9_pay_class meta_transform.
#[local] Instance end_class : DepayClass := vp9_depay_class.
Context `{!ExtensionWriter}.
Context (settings : Vp9PaySettings) (random_offset : Z) (dsettings : Vp9DepaySettings).
Context (vp9_caps : OpenCaps) (fixate_encoding_name : OpenCaps -> OpenCaps).

#[local] Instance sender_drain : PayDrain := vp9_pay_drain meta_transform.
#[local] Instance sender_negotiate : PayNegotiate := vp9_pay_negotiate meta_transform fixate_encoding_name.
#[local] Instance sender : PaySubclass := vp9_pay_subclass meta_transform settings random_offset vp9_caps fixate_encoding_name.
#[local] Instance end_receiver : Subclass := vp9_depay_element dsettings.

Context `{!GstLaws} `{!RtpWriterLaws} `{!PayMetasOnly} `{!ByteIOLaws}.
Context `{!RtpTypesLaws} `{!GstTimeLaws} `{!MetasOnly}.

(** A packet that left arrives in a buffer. *)
Definition brought (p : PayOut) (r : InBuffer) : Prop :=
  ib_bytes r = po_bytes p /\ ib_mappable r = true /\ ib_discont r = false /\ buffer_ok r.

Lemma wire_in_order src s ts id l rs :
  Forall2 brought l rs -> forall k,
  wire_seqnum <$> l = (fun i => Some (wrap U16 (s + i))) <$> seqZ (k + 1) (Z.of_nat (length l)) ->
  Forall (fun p => wire_timestamp p = Some ts /\ wire_source p = Some src) l ->
  in_order src ts (s + k) (wire_packet id <$> l) rs.
Proof.
  induction 1 as [|p r l rs (Hb & Hm & Hd & Hok) Hrs IH]; intros k Hn Hall; [done|].
  apply Forall_cons in Hall as [(Ht & Hs) Hall]. cbn [length] in Hn. rewrite seqZ_cons in Hn by lia.
  rewrite !fmap_cons in Hn. injection Hn as Hn Hrest. unfold wire_seqnum, wire_timestamp, wire_source in *. cbn [fmap list_fmap in_order].
  unfold wire_packet at 1 2, essence at 1 2.
  destruct (RtpPacket_parse (po_bytes p)) as [h|] eqn:Hh; [|done]. cbn in Hn, Ht, Hs |- *.
  injection Hn as Hn. injection Ht as Ht. injection Hs as Hs. split.
  - exists h. split; [by rewrite <- Hb in Hh|]. repeat (split; [done|]). rewrite Hn. f_equal. lia.
  - replace (s + k + 1) with (s + (k + 1)) by lia. apply IH; [|done].
    rewrite Hrest. f_equal. f_equal; lia.
Qed.

(** C11: A VP9 frame from buffer to buffer through both elements and their base
    classes. A frame that comes to the payloader, in a negotiated stream without
    header extensions, is taken; if the RTP packets that leave arrive at a
    depayloader between two pictures, in order, one buffer each, at whatever
    times, in the stream it is receiving or as its first packets, then the
    depayloader takes them all and pushes exactly one buffer: the data of the
    frame, marked, flagged as delta unit unless the payloader found a key frame,
    with a discontinuity if one is due, and with the first time the received
    buffers have. The depayloader is then between two pictures again, the number
    of the last packet being that of the payloader. *)
Theorem vp9_end_to_end picture_id b buffer data key_frame src s pts ts dst db :
  streaming b buffer src s pts ts -> v9b_data (in_content buffer) = Some data -> is_bytes data -> data <> [] ->
  vp9_key_frame data (v9b_delta_unit (in_content buffer)) = Done key_frame -> Z.of_nat (length data) < 2 ^ 62 -> valid_picture_id picture_id -> descriptor_length picture_id < pay_max_payload_size b ->
  v9_current_picture_payload_descriptor dst = None -> v9_pending_picture dst = [] ->
  allows (v9_last_key_picture_payload_descriptor dst) picture_id key_frame -> may_start9 dsettings key_frame dst ->
  receiving src s db -> far_from_ends (d_current_stream (bd_state db)) ->
  exists picture_id' b' l,
    pay_handle_buffer buffer (picture_id, b) = Ok (Success tt, (picture_id', b')) /\ psent b' = psent b ++ l /\
    forall rs, Forall2 brought l rs ->
      exists dst' db' out, sink_chain_list rs (dst, db) = Ok (Success tt, (dst', db')) /\
        sent db' = sent db ++ [out] /\
        core_of out = (mkDepayBuffer data true
            (v9_needs_discont dst || (d_discont_pending (bd_state db) || is_none (d_current_stream (bd_state db)))) (negb key_frame),
          list_find_map ib_pts rs, None) /\
        v9_current_picture_payload_descriptor dst' = None /\ v9_pending_picture dst' = [] /\
        receiving src (wrap U16 (s + Z.of_nat (length l))) db'.
Proof.
  intros Hstr Hdata Hbytes Hne Hkey Hlen Hp Hroom Hcur Hpend Hal Hmay Hrv Hfar.
  destruct (vp9_buffer_sent meta_transform settings random_offset vp9_caps fixate_encoding_name picture_id b buffer data src s pts ts
    Hstr Hdata Hbytes Hp Hroom) as (key & pid' & b' & l & Hkey' & HK & Hsent & _ & _ & _ & [Hn Hall] & Hcut).
  pose proof (eq_trans (eq_sym Hkey) Hkey') as E. injection E as <-. exists pid', b', l. split; [exact HK|]. split; [done|]. intros rs Hrs.
  assert (Hs : wrap U16 s = s).
  { destruct (sm_stream _ _ _ _ _ _ Hstr) as (stream & Hst & _ & _ & _ & _ & <-).
    pose proof (pi_stream _ (sm_inv _ _ _ _ _ _ Hstr)) as HX. rewrite Hst in HX. apply wrap_small, HX. }
  destruct (cut9_count _ _ _ _ _ _ _ (proj2 (Z.lt_0_sub _ _) Hroom) Hcut) as [Hcount _]. rewrite length_fmap in Hcount.
  destruct (picture_arrives dsettings src ts _ _ _ _ _ _ s rs dst db (bd_settings db) Hcut Hne Hp Hcur Hpend)
    as (w' & key' & HL & (O1 & O2 & _ & _ & O5 & out & O6 & O7) & _).
  - done.
  - done.
  - rewrite <- (Z.add_0_r s). apply (wire_in_order src s ts _ l rs Hrs 0); [done|].
    eapply Forall_impl; [exact Hall|]. cbn. tauto.
  - by rewrite Hs.
  - done.
  - rewrite length_fmap, Hcount. apply Z.div_lt_upper_bound; [lia|]. nia.
  - rewrite length_fmap in O5. destruct w' as [dst' db']. exists dst', db', out.
    split; [exact HL|]. by repeat (split; [done|]).
Qed.
End EndToEnd.

(** ** Example: a key frame through both elements *)
Section Example.
#[local] Existing Instances gst_exact gst_exact_laws time_exact time_exact_laws no_extensions stream_time_exact simple_caps simple_caps_laws
  RtpWire.rtp_wire RtpWire.rtp_wire_laws RtpWire.rtp_wire_writer RtpWire.rtp_wire_writer_laws bytes_exact bytes_exact_laws bits_exact.
Abbreviation keep_meta := (fun _ p => Some p).
#[local] Instance frame9_class : PayClass := vp9_pay_class keep_meta.
#[local] Instance frame9_dclass : DepayClass := vp9_depay_class.

#[local] Instance frame9_extension_writer : @ExtensionWriter no_extensions simple_caps frame9_class :=
  @Build_ExtensionWriter no_extensions simple_caps frame9_class
    (fun e => match e : Empty_set with end) (fun e => match e : Empty_set with end)
    (fun e => match e : Empty_set with end) (fun e => match e : Empty_set with end)
    (fun _ e => match e : Empty_set with end) (fun e => match e : Empty_set with end).

#[local] Instance frame9_metas : PayMetasOnly.
Proof.
  split; [by intros []| |by intros []]. intros i m p. cbn. unfold pay_transform_meta_default. cbn.
  destruct (me_tags m) as [|tag [|]]; [done| |done]. by destruct (bool_decide _).
Qed.

#[local] Instance frame9_dmetas : MetasOnly.
Proof.
  split; [by intros []|]. intros i m b. cbn. unfold transform_meta_default. cbn.
  destruct (me_tags m) as [|tag [|]]; [done| |done]. by destruct (bool_decide _).
Qed.

Definition frame9_settings : Vp9PaySettings := mkVp9PaySettings Vp8PidFifteenBit (Some 32767).
Definition frame9_dsettings : Vp9DepaySettings := mkVp9DepaySettings true true.

#[local] Instance frame9_drain : PayDrain := vp9_pay_drain keep_meta.
#[local] Instance frame9_negotiate : PayNegotiate := vp9_pay_negotiate keep_meta (fun c => c).
#[local] Instance frame9_sender : PaySubclass :=
  vp9_pay_subclass keep_meta frame9_settings 0 (chunk_caps : @OpenCaps simple_caps) (fun c => c).
#[local] Instance frame9_receiver : Subclass := vp9_depay_element frame9_dsettings.

(** The sender, started, with packets of at most 40 bytes, caps and a segment. *)
Definition frame9_ops : list PayOp :=
  [PopProperty (PropMtu 40); PopStart; PopEvent (PevCaps 1); PopEvent (PevSegment 1 (TimeSegment open_segment))].
Definition frame9_run : option Vp9PictureId * PayBase :=
  outcome (None, PayBase_new env0) (res_fold pay_exec (None, PayBase_new env0) frame9_ops).

Definition frame9_buffer : InputBuffer Content :=
  mkInputBuffer (mkVp9Buffer (Some example_frame9) false) (Some 0) false false None [].

Lemma frame9_run_ok : res_fold pay_exec (None, PayBase_new env0) frame9_ops = Ok frame9_run.
Proof. apply finished_outcome. vm_compute. reflexivity. Qed.

Lemma frame9_run_inv : pay_inv frame9_run.2.
Proof.
  assert (Hty : Forall pay_op_typed frame9_ops) by (by repeat constructor).
  assert (He : is_u32 (env_random_timestamp env0)) by (by split).
  exact (vp9_element_invariant keep_meta frame9_settings 0 (chunk_caps : @OpenCaps simple_caps) (fun c => c)
    None env0 frame9_ops frame9_run He Hty frame9_run_ok).
Qed.

Lemma frame9_streaming : streaming frame9_run.2 frame9_buffer (7, 96) 65534 0 1000.
Proof.
  split.
  - apply frame9_run_inv.
  - vm_compute. reflexivity.
  - vm_compute. by eexists.
  - vm_compute. by eexists.
  - vm_compute. reflexivity.
  - vm_compute. reflexivity.
  - vm_compute. reflexivity.
  - vm_compute. reflexivity.
  - reflexivity.
  - assert (Hp : p_pending_buffers (bp_state frame9_run.2) = []) by (vm_compute; reflexivity).
    rewrite Hp. apply Forall_cons_2; [exact I|constructor].
  - exists (mkPayStream 96 7 1000 65535 false 65534 1000). split; [vm_compute; reflexivity|]. split; [by split|]. split; [by split|].
    split; [reflexivity|]. split; [|reflexivity]. exists 90000, 1, open_segment, 0, 0. split; [vm_compute; reflexivity|]. split; [vm_compute; reflexivity|].
    split; [reflexivity|]. split; [reflexivity|]. split; [reflexivity|]. split; [by split|vm_compute; reflexivity].
Qed.

(** The receiver, with caps and a segment. *)
Definition waiting9_ops : list Op :=
  [OpStart; OpEvent (EvCaps video_caps); OpEvent (EvSegment 1 (TimeSegment open_segment))].
Definition waiting9 : Vp9DepayState * Base :=
  outcome (Vp9DepayState_default, Base_new) (res_fold depay_exec (Vp9DepayState_default, Base_new) waiting9_ops).

Lemma waiting9_ok :
  Forall op_typed waiting9_ops /\ Forall op_calm waiting9_ops /\
  res_fold depay_exec (Vp9DepayState_default, Base_new) waiting9_ops = Ok waiting9.
Proof.
  split; [by repeat constructor|]. split; [|vm_compute; reflexivity].
  repeat apply Forall_cons_2; [done|by left|done|by constructor].
Qed.

Lemma waiting9_receiving : receiving (7, 96) 65534 waiting9.2.
Proof.
  assert (E : exists sc, waiting9.2 = mkBase (State_default <| d_segment := Some (1, open_segment) |> <| d_pending_segment := true |>
    <| d_sink_caps := Some sc |> <| d_clock_rate := Some 90000 |>) Settings_default None ∅ []) by (eexists; vm_compute; reflexivity).
  destruct E as [sc ->]. split; cbn; try done.
  - split; cbn; [by apply all_in_front|split; [done|by eexists]|done|by left].
  - split; cbn; [by apply all_in_front|done|by left|by eexists].
Qed.

(** What arrives of the packets that left. *)
Definition received9 (p : PayOut) : InBuffer := mkInBuffer (po_bytes p) true false (Some 5) None [].

Lemma vp9_end_to_end_witness :
  exists pid' b' l dst' db' out,
    pay_handle_buffer frame9_buffer (frame9_run.1, frame9_run.2) = Ok (Success tt, (pid', b')) /\ psent b' = l /\
    sink_chain_list (received9 <$> l) (Vp9DepayState_default, waiting9.2) = Ok (Success tt, (dst', db')) /\
    sent db' = [out] /\ core_of out = (mkDepayBuffer example_frame9 true true false, list_find_map ib_pts (received9 <$> l), None).
Proof.
  destruct (@vp9_end_to_end _ _ _ _ _ _ _ _ _ keep_meta _ frame9_settings 0 frame9_dsettings (chunk_caps : @OpenCaps simple_caps) (fun c => c)
    _ _ _ _ _ _ _ frame9_run.1 frame9_run.2 frame9_buffer example_frame9 true (7, 96) 65534 0 1000 Vp9DepayState_default waiting9.2)
    as (pid' & b' & l & HK & Hsent & Hall).
  - exact frame9_streaming.
  - reflexivity.
  - exact example_frame9_bytes.
  - discriminate.
  - vm_compute. reflexivity.
  - reflexivity.
  - assert (E : frame9_run.1 = example_pid9) by (vm_compute; reflexivity). rewrite E. exact example_pid9_valid.
  - vm_compute. reflexivity.
  - reflexivity.
  - reflexivity.
  - intros d [=].
  - right. left. reflexivity.
  - exact waiting9_receiving.
  - assert (E : d_current_stream (bd_state waiting9.2) = None) by (vm_compute; reflexivity). rewrite E. exact I.
  - destruct (Hall (received9 <$> l)) as (dst' & db' & out & HL & Hs & Hcore & _).
    { clear. induction l as [|p l IH]; [constructor|]. constructor; [|exact IH]. repeat split; [discriminate|constructor]. }
    assert (Hnone : psent frame9_run.2 = []) by (vm_compute; reflexivity).
    assert (Hl : psent b' = l) by (etransitivity; [exact Hsent|apply (f_equal (fun k => k ++ l) Hnone)]).
    exists pid', b', l, dst', db', out. split; [exact HK|]. split; [exact Hl|]. split; [exact HL|]. split.
    + rewrite Hs. vm_compute. reflexivity.
    + rewrite Hcore. reflexivity.
Defined.

(** The buffer that comes out of the receiver when the packets come in one list. *)
Example frame9_through :
  let l := psent (outcome (Failure FlowErr, frame9_run) (pay_handle_buffer frame9_buffer frame9_run)).2.2 in
  match sink_chain_list (received9 <$> l) waiting9 with
  | Ok (r, w) => (length l, core_of <$> sent w.2) = (2%nat, [(mkDepayBuffer example_frame9 true true false, Some 5, None)])
  | Panic => False
  end.
Proof. vm_compute. reflexivity. Qed.

(** A packet without a descriptor that can be read. *)
Definition garbage9 : Op := OpBuffer (mkInBuffer [128; 96; 0; 1; 0; 0; 0; 0; 0; 0; 0; 7; 255; 255; 255] true false None None []).

Lemma vp9_depay_element_no_panic_witness : exists w' : Vp9DepayState * Base, depay_exec waiting9 garbage9 = Ok w'.
Proof.
  assert (Hs : d_current_stream (bd_state waiting9.2) = None) by (vm_compute; reflexivity).
  assert (Hg : op_calm garbage9) by (split; [done|by constructor]).
  assert (Hr : stream_in_range (d_current_stream (bd_state waiting9.2))) by (rewrite Hs; exact I).
  exact (@vp9_depay_element_no_panic _ _ _ _ _ _ _ _ frame9_dsettings waiting9_ops waiting9 garbage9
    (proj1 waiting9_ok) (proj1 (proj2 waiting9_ok)) (proj2 (proj2 waiting9_ok)) Hg Hr).
Defined.
End Example.
