(* ===== verification/Klv.v ===== *)
(** * KLV metadata

    [klv] of the RTP plugin: SMPTE ST 336 units in RTP packets (RFC 6597). A
    unit is a 16 byte key, a length in BER form and a value. [klv_utils.rs],
    [pay/imp.rs] and [depay/imp.rs]. *)

From S2P Require Import Prelude Flow RtpBase.

(** ** Peeking at units *)

Definition MAX_KLV_UNIT_LEN_ALLOWED : Z := 32 * 1024 * 1024.

Inductive HeaderReason := NotEnoughData | NoStartCode | InvalidDesignator.

Inductive KlvError :=
| UnexpectedLengthLength (len_len : Z)
| UnitTooLarge (len max : Z)
| InvalidHeader (reason : HeaderReason).

(** [data[1..=len_len].iter().fold(0u64, |acc, &elem| (acc << 8) + elem as u64)] *)
Definition fold_length (bytes : list Z) : res Z :=
  res_fold (fun acc elem => u64_add (wrap U64 (Z.shiftl acc 8)) elem) 0 bytes.

(** The number of bytes of the length, and the length. *)
Definition peek_klv_len (data : list Z) : res (KlvError + Z * Z) :=
  match data with
  | [] => Panic
  | first_byte :: _ =>
      if Z.land first_byte 128 =? 0 then Ok (inr (1, first_byte))
      else
        let len_len := Z.land first_byte 127 in
        if (len_len =? 0) || (len_len >? 8) || (Z.of_nat (length data) <? 1 + len_len)
        then Ok (inl (UnexpectedLengthLength len_len))
        else
          len ← fold_length (take (Z.to_nat len_len) (drop 1 data));
          _ ← assert_ (MAX_KLV_UNIT_LEN_ALLOWED <=? U64 - 1);
          if len >? MAX_KLV_UNIT_LEN_ALLOWED
          then Ok (inl (UnitTooLarge len MAX_KLV_UNIT_LEN_ALLOWED))
          else Ok (inr (len_len + 1, len))
  end.

(** The size of the unit that starts the data. *)
Definition peek_klv (data : list Z) : res (KlvError + Z) :=
  if (length data <? 17)%nat then Ok (inl (InvalidHeader NotEnoughData))
  else if negb (bool_decide (take 4 data = [6; 14; 43; 52])) then Ok (inl (InvalidHeader NoStartCode))
  else if existsb (fun b => b >? 127) (take 4 (drop 4 data)) then Ok (inl (InvalidHeader InvalidDesignator))
  else
    len ← peek_klv_len (drop 16 data);
    match len with
    | inl err => Ok (inl err)
    | inr (len_len, value_len) => Ok (inr (16 + len_len + value_len))
    end.

(** ** The payloader *)

(** [self.obj().drop_buffers(..)] of the base class. *)
Class RtpBasePayDrop `{RtpBasePay2} := { drop_buffers : Z * Z -> BasePay -> BasePay }.

(** An input buffer: its data ([None] where mapping fails). *)
Record KlvBuffer := mkKlvBuffer { kb_data : option (list Z) }.

Section Pay.
Context `{RtpBasePay2} `{!RtpBasePayDrop}.

Abbreviation PM := (M (unit * BasePay)).

(** The packets before the last one. One more round than there are bytes is fuel
    enough if there is room for a payload; without any the loop does not end. *)
Fixpoint klv_packets_loop (fuel : nat) (id max_payload_size : Z) (data : list Z) : PM (list Z) :=
  match fuel with
  | O => crash_
  | S fuel =>
      if Z.of_nat (length data) >? max_payload_size then
        _ ← queue_ (mkPayPacket id id false (take (Z.to_nat max_payload_size) data));
        klv_packets_loop fuel id max_payload_size (drop (Z.to_nat max_payload_size) data)
      else mret data
  end.

(** The data from the first byte of a unit on, cut to that unit. *)
Definition klv_send_unit (id : Z) (data : list Z) : PM unit :=
  s ← get_;
  let room := max_payload_size (snd s) in
  data ← klv_packets_loop (S (length data)) id room data;
  queue_ (mkPayPacket id id true data).

Definition klv_pay_handle_buffer (buffer : KlvBuffer) (id : Z) : PM unit :=
  data ← of_option (kb_data buffer);
  match data with
  | [] => upd_ (fun s => (fst s, drop_buffers (id, id) (snd s)))
  | _ =>
      unit_len ← of_res (peek_klv data);
      match unit_len with
      | inl _ => mret tt
      | inr unit_len =>
          if unit_len >? Z.of_nat (length data) then mret tt
          else klv_send_unit id (take (Z.to_nat unit_len) data)
      end
  end.
End Pay.

(** ** The depayloader *)

Inductive LooksLike := LikeStart | LikeSelfContained | LikeUndetermined.

#[export] Instance LooksLike_eq_dec : EqDecision LooksLike.
Proof. solve_decision. Defined.

Record KlvDepayState := mkKlvDepayState {
  kd_prev_marker_seqnum : option Z;
  kd_accumulator : list Z;
  kd_acc_seqnum : option Z;
  kd_acc_ts : option Z;
}.

#[export] Instance KlvDepayState_rebuild : Rebuild KlvDepayState := {|
  rebuild := fun r => mkKlvDepayState (kd_prev_marker_seqnum r) (kd_accumulator r) (kd_acc_seqnum r) (kd_acc_ts r) |}.

Definition KlvDepayState_default : KlvDepayState := mkKlvDepayState None [] None None.

Definition clear_accumulator (state : KlvDepayState) : KlvDepayState :=
  state <| kd_accumulator := [] |> <| kd_acc_seqnum := None |> <| kd_acc_ts := None |>.

(** What the payload looks like by itself. *)
Definition klv_looks_like (payload : list Z) : res LooksLike :=
  peeked ← peek_klv payload;
  Ok (match peeked with
      | inr klv_unit_size =>
          match Z.of_nat (length payload) ?= klv_unit_size with
          | Eq => LikeSelfContained
          | Lt => LikeStart
          | Gt => LikeUndetermined
          end
      | inl _ => LikeUndetermined
      end).

Section Depay.
Context `{RtpBaseDepay2}.

Abbreviation DM := (M (KlvDepayState * BaseDepay)).

Definition on_klv (f : KlvDepayState -> KlvDepayState) : DM unit := upd_ (fun s => (f (fst s), snd s)).

(** [drop_packet(packet)] *)
Definition klv_drop_packet (packet : DepayPacket) : DM unit := drop_ (dp_ext_seqnum packet) true.

(** [queue_buffer(Seqnums(..), buffer)] *)
Definition klv_queue (seqnums : Z * Z) (bytes : list Z) : DM unit :=
  fun s =>
    let '(ret, base) := queue_buffer seqnums (mkDepayBuffer bytes false false false) (snd s) in
    (ret, (fst s, base)).

(** The packet is the first of a unit, or directly after one with the marker bit. *)
Definition klv_is_start (looks_like : LooksLike) (packet : DepayPacket) (state : KlvDepayState) : res bool :=
  if bool_decide (looks_like = LikeUndetermined) then
    match kd_prev_marker_seqnum state with
    | Some prev_marker_seqnum => next ← u64_add prev_marker_seqnum 1; Ok (dp_ext_seqnum packet =? next)
    | None => Ok false
    end
  else Ok true.

(** A fragment that is not the first one. *)
Definition klv_continue (packet : DepayPacket) (last : bool) : DM unit :=
  s ← get_;
  if bool_decide (kd_accumulator (fst s) = []) then klv_drop_packet packet
  else
    _ ← on_klv (fun st => st <| kd_accumulator ::= fun l => l ++ dp_payload packet |>);
    s ← get_;
    let accumulator := kd_accumulator (fst s) in
    peeked ← of_res (peek_klv accumulator);
    match peeked with
    | inl _ => _ ← on_klv clear_accumulator; klv_drop_packet packet
    | inr klv_unit_size =>
        if (Z.of_nat (length accumulator) >=? klv_unit_size) || last then
          _ ← on_klv (fun st => st <| kd_accumulator := [] |>);
          first_seqnum ← of_res (unwrap (kd_acc_seqnum (fst s)));
          klv_queue (first_seqnum, dp_ext_seqnum packet) accumulator
        else mret tt
    end.

(** [discont]: the base class found a discontinuity before the packet. *)
Definition klv_depay_handle_packet (discont : bool) (packet : DepayPacket) : DM unit :=
  s ← get_;
  _ ← (if negb (bool_decide (kd_accumulator (fst s) = []))
          && (discont || negb (bool_decide (kd_acc_ts (fst s) = Some (dp_ext_timestamp packet))))
       then on_klv clear_accumulator else mret tt);
  looks_like ← of_res (klv_looks_like (dp_payload packet));
  s ← get_;
  start ← of_res (klv_is_start looks_like packet (fst s));
  let last := dp_marker_bit packet || bool_decide (looks_like = LikeSelfContained) in
  _ ← (if last then on_klv (fun st => st <| kd_prev_marker_seqnum := Some (dp_ext_seqnum packet) |>) else mret tt);
  if (start : bool) && bool_decide (looks_like = LikeUndetermined) then
    _ ← on_klv clear_accumulator; klv_drop_packet packet
  else
    match looks_like with
    | LikeSelfContained =>
        _ ← on_klv clear_accumulator;
        klv_queue (dp_ext_seqnum packet, dp_ext_seqnum packet) (dp_payload packet)
    | LikeStart =>
        _ ← on_klv (fun st =>
              (if negb (bool_decide (kd_accumulator st = [])) then clear_accumulator st else st)
                <| kd_accumulator ::= fun l => l ++ dp_payload packet |>
                <| kd_acc_seqnum := Some (dp_ext_seqnum packet) |>
                <| kd_acc_ts := Some (dp_ext_timestamp packet) |>);
        mret tt
    | LikeUndetermined => klv_continue packet last
    end.

Definition klv_set_sink_caps : DM unit := on_base (set_src_caps TemplateCaps).
Definition klv_depay_stop : DM unit := on_klv (fun _ => KlvDepayState_default).
End Depay.
