(* ===== verification/KlvProps.v ===== *)
(** * The KLV payload format end to end

    Peeking agrees with a reference encoding of units; what the payloader makes
    of a unit, the depayloader joins again; what comes out of the depayloader on
    any packets. *)

From S2P Require Import Prelude Flow BitStream RtpBase.
From S2P Require Import Klv.

(** ** Units *)

(** A length in BER: short form, or the number of bytes and a big endian number. *)
Definition be_value (bytes : list Z) : Z := fold_left (fun acc b => acc * 256 + b) bytes 0.

Inductive ber : Z -> list Z -> Prop :=
| ber_short n : 0 <= n < 128 -> ber n [n]
| ber_long bytes : is_bytes bytes -> (1 <= length bytes <= 8)%nat -> be_value bytes <= MAX_KLV_UNIT_LEN_ALLOWED ->
    ber (be_value bytes) ((128 + Z.of_nat (length bytes)) :: bytes).

(** A universal label: the start code, four designators, eight more bytes. *)
Definition klv_key (key : list Z) : Prop :=
  length key = 16%nat /\ take 4 key = [6; 14; 43; 52] /\ Forall (fun b => b <= 127) (take 4 (drop 4 key)).

(** Data that starts with the header of a unit of that size. *)
Definition starts_unit (data : list Z) (size : Z) : Prop :=
  exists key len rest n, data = key ++ len ++ rest /\ klv_key key /\ ber n len /\ size = 16 + Z.of_nat (length len) + n.

Lemma be_value_app l x : be_value (l ++ [x]) = be_value l * 256 + x.
Proof. unfold be_value. by rewrite fold_left_app. Qed.

Lemma be_value_bound l : is_bytes l -> 0 <= be_value l < 256 ^ Z.of_nat (length l).
Proof.
  induction l as [|x l IH] using rev_ind; [by cbn|]. intros [Hl Hx]%Forall_app. rewrite be_value_app, length_app. cbn.
  specialize (IH Hl). apply Forall_cons in Hx as [Hx _]. unfold is_u8 in Hx.
  replace (Z.of_nat (length l + 1)) with (Z.of_nat (length l) + 1) by lia. rewrite Z.pow_add_r, Z.pow_1_r by lia.
  change U8 with 256 in Hx. nia.
Qed.

(** Up to eight bytes the shifts lose nothing. *)
Lemma fold_length_value bytes :
  is_bytes bytes -> (length bytes <= 8)%nat -> fold_length bytes = Ok (be_value bytes).
Proof.
  unfold fold_length. induction bytes as [|x l IH] using rev_ind; [done|]. intros [Hl Hx]%Forall_app Hlen.
  rewrite length_app in Hlen. cbn in Hlen. rewrite res_fold_app, IH, bind_Ok by (done || lia). cbn.
  pose proof (be_value_bound l Hl) as Hb. apply Forall_cons in Hx as [Hx _]. unfold is_u8 in Hx. change U8 with 256 in Hx.
  assert (Hp : 256 ^ Z.of_nat (length l) <= 256 ^ 7) by (apply Z.pow_le_mono_r; lia).
  change (256 ^ 7) with 72057594037927936 in Hp.
  rewrite Z.shiftl_mul_pow2 by lia. change (2 ^ 8) with 256. rewrite wrap_small by (change U64 with 18446744073709551616; lia).
  rewrite (proj2 (u64_add_ok _ _ _)) by (split; [reflexivity|change U64 with 18446744073709551616; lia]).
  cbn. by rewrite be_value_app.
Qed.

Lemma byte_forall (P : Z -> bool) : forallb P (seqZ 0 256) = true -> forall x, is_u8 x -> P x = true.
Proof.
  intros HP x Hx. rewrite forallb_forall in HP. apply HP, list_elem_of_In, elem_of_seqZ. exact Hx.
Qed.

Lemma ber_byte_short x : is_u8 x -> (Z.land x 128 =? 0) = (x <? 128).
Proof.
  intros Hx. apply Bool.eqb_prop. revert x Hx. apply (byte_forall (fun x => Bool.eqb (Z.land x 128 =? 0) (x <? 128))).
  vm_compute. reflexivity.
Qed.

Lemma ber_byte_count x : is_u8 x -> 128 <= x -> Z.land x 127 = x - 128.
Proof.
  intros Hx Hlo. assert (HP : (x <? 128) || (Z.land x 127 =? x - 128) = true).
  { revert x Hx Hlo. intros x Hx _. revert x Hx. apply (byte_forall (fun x => (x <? 128) || (Z.land x 127 =? x - 128))).
    vm_compute. reflexivity. }
  apply orb_true_iff in HP as [HP|HP]; [apply Z.ltb_lt in HP; lia|by apply Z.eqb_eq].
Qed.

Lemma ber_length n len : ber n len -> (1 <= length len <= 9)%nat /\ 0 <= n <= MAX_KLV_UNIT_LEN_ALLOWED.
Proof.
  destruct 1 as [n Hn|bytes Hb Hl Hv]; cbn; [unfold MAX_KLV_UNIT_LEN_ALLOWED; lia|].
  pose proof (be_value_bound bytes Hb). lia.
Qed.

Lemma peek_len_ber n len rest : is_bytes rest -> ber n len -> peek_klv_len (len ++ rest) = Ok (inr (Z.of_nat (length len), n)).
Proof.
  intros Hrest Hber. destruct Hber as [n Hn|bytes Hb Hl Hv]; cbn [app peek_klv_len length].
  - rewrite ber_byte_short by (unfold is_u8; change U8 with 256; lia). by rewrite (proj2 (Z.ltb_lt _ _)) by lia.
  - assert (Hu : is_u8 (128 + Z.of_nat (length bytes))) by (unfold is_u8; change U8 with 256; lia).
    rewrite ber_byte_short, (proj2 (Z.ltb_ge _ _)) by (done || lia). rewrite ber_byte_count by (done || lia). cbv zeta.
    replace (128 + Z.of_nat (length bytes) - 128) with (Z.of_nat (length bytes)) by lia.
    rewrite (proj2 (Z.eqb_neq _ _)), Z.gtb_ltb, (proj2 (Z.ltb_ge _ _)), (proj2 (Z.ltb_ge _ _)) by (cbn [length]; rewrite ?length_app; lia).
    cbn [orb skipn]. rewrite Nat2Z.id, drop_0, take_app_length, fold_length_value, bind_Ok by (done || lia). cbn [assert_].
    change (MAX_KLV_UNIT_LEN_ALLOWED <=? U64 - 1) with true. cbn [assert_]. rewrite bind_Ok.
    rewrite Z.gtb_ltb, (proj2 (Z.ltb_ge _ _)) by lia. do 3 f_equal. lia.
Qed.

(** The other way round: what is accepted is a length. *)
Lemma peek_len_inv data len_len n :
  is_bytes data -> peek_klv_len data = Ok (inr (len_len, n)) ->
  exists len rest, data = len ++ rest /\ ber n len /\ len_len = Z.of_nat (length len).
Proof.
  intros Hb HK. destruct data as [|x data]; [done|]. cbn [peek_klv_len] in HK. apply Forall_cons in Hb as [Hx Hb].
  rewrite ber_byte_short in HK by done. destruct (Z.ltb_spec x 128) as [Hlt|Hge].
  { injection HK as <- <-. exists [x], data. split; [done|]. split; [|done]. constructor. unfold is_u8 in Hx. lia. }
  rewrite ber_byte_count in HK by done. cbv zeta in HK.
  destruct (_ || _) eqn:Ec; [done|]. apply orb_false_iff in Ec as [[Ez%Z.eqb_neq Eh]%orb_false_iff El%Z.ltb_ge].
  rewrite Z.gtb_ltb in Eh. apply Z.ltb_ge in Eh. cbn [length] in El. unfold is_u8 in Hx.
  set (k := Z.to_nat (x - 128)) in *. cbn [skipn] in HK. rewrite drop_0 in HK.
  assert (Hk : is_bytes (take k data)) by (by apply Forall_take).
  assert (Hl : length (take k data) = k) by (rewrite length_take; lia).
  rewrite fold_length_value, bind_Ok in HK by (done || lia). cbn [assert_] in HK.
  change (MAX_KLV_UNIT_LEN_ALLOWED <=? U64 - 1) with true in HK. cbn [assert_] in HK. rewrite bind_Ok, Z.gtb_ltb in HK.
  destruct (Z.ltb_spec MAX_KLV_UNIT_LEN_ALLOWED (be_value (take k data))) as [|Hmax]; [done|]. injection HK as <- <-.
  exists (x :: take k data), (drop k data). split; [cbn; by rewrite take_drop|]. split; [|cbn [length]; lia].
  replace x with (128 + Z.of_nat (length (take k data))) at 1 by lia. constructor; [done|lia|done].
Qed.

Lemma peek_len_total x data : is_bytes (x :: data) -> exists r, peek_klv_len (x :: data) = Ok r.
Proof.
  intros [Hx Hb]%Forall_cons. cbn [peek_klv_len]. destruct (Z.land x 128 =? 0); [eauto|]. cbv zeta.
  destruct (_ || _) eqn:Ec; [eauto|]. apply orb_false_iff in Ec as [[_ Eh]%orb_false_iff _]. rewrite Z.gtb_ltb in Eh. apply Z.ltb_ge in Eh.
  rewrite fold_length_value, bind_Ok; [|by apply Forall_take, Forall_drop; constructor|rewrite length_take; lia].
  cbn [assert_]. change (MAX_KLV_UNIT_LEN_ALLOWED <=? U64 - 1) with true. cbn [assert_]. rewrite bind_Ok. destruct (_ >? _); eauto.
Qed.

(** Key and header of the data. *)
Lemma key_split data :
  (17 <= length data)%nat -> take 4 data = [6; 14; 43; 52] -> existsb (fun b => b >? 127) (take 4 (drop 4 data)) = false ->
  klv_key (take 16 data).
Proof.
  intros Hl Ht He. split; [rewrite length_take; lia|]. split; [by rewrite take_take|].
  rewrite <- not_true_iff_false, existsb_exists in He. apply Forall_forall. intros b Hb.
  destruct (Z.leb_spec b 127) as [|Hgt]; [done|]. exfalso. apply He. exists b. split; [|by rewrite Z.gtb_ltb; apply Z.ltb_lt].
  apply list_elem_of_In. rewrite skipn_firstn_comm, take_take in Hb. exact Hb.
Qed.

Lemma peek_total data : is_bytes data -> exists r, peek_klv data = Ok r.
Proof.
  intros Hb. unfold peek_klv. destruct (Nat.ltb_spec (length data) 17); [eauto|]. destruct (negb _); [eauto|].
  destruct (existsb _ _); [eauto|]. apply (Forall_drop _ 16%nat) in Hb. destruct (drop 16 data) as [|x l] eqn:Ed.
  { apply (f_equal length) in Ed. rewrite length_drop in Ed. cbn in Ed. lia. }
  destruct (peek_len_total x l Hb) as [[err|[a b]] ->]; rewrite bind_Ok; eauto.
Qed.

Lemma peek_spec data size : is_bytes data -> peek_klv data = Ok (inr size) <-> starts_unit data size.
Proof.
  intros Hb. split.
  - unfold peek_klv. destruct (Nat.ltb_spec (length data) 17) as [|Hl]; [done|].
    destruct (bool_decide_reflect (take 4 data = [6; 14; 43; 52])) as [Ht|]; cbn [negb]; [|done].
    destruct (existsb _ _) eqn:He; [done|]. intros (r & Hr & HK)%bind_ok. destruct r as [err|[len_len n]]; [done|].
    injection HK as <-. apply peek_len_inv in Hr as (len & rest & Hd & Hber & ->); [|by apply Forall_drop].
    exists (take 16 data), len, rest, n. split; [by rewrite <- Hd, take_drop|]. split; [by apply key_split|]. split; [done|lia].
  - intros (key & len & rest & n & -> & (Hk & Ht & Hd) & Hber & ->). pose proof (ber_length _ _ Hber) as [Hl _]. unfold peek_klv.
    rewrite (proj2 (Nat.ltb_ge _ _)) by (rewrite !length_app; lia). rewrite take_app_le by lia.
    rewrite bool_decide_eq_true_2 by done. cbn [negb]. rewrite drop_app_le, take_app_le by (rewrite ?length_drop; lia).
    replace (existsb _ _) with false.
    2: { symmetry. rewrite <- not_true_iff_false, existsb_exists. intros (b & Hin & Hgt). rewrite Forall_forall in Hd.
         specialize (Hd b ltac:(by apply list_elem_of_In)). rewrite Z.gtb_ltb in Hgt. apply Z.ltb_lt in Hgt. lia. }
    rewrite drop_app_length' by done. apply Forall_app in Hb as [_ Hb]. apply Forall_app in Hb as [_ Hb].
    rewrite (peek_len_ber n len rest Hb Hber), bind_Ok. do 2 f_equal.
Qed.

(** A header is within the first 25 bytes. *)
Lemma starts_prefix data size k : starts_unit data size -> (25 <= k)%nat -> starts_unit (take k data) size.
Proof.
  intros (key & len & rest & n & -> & Hkey & Hber & ->) Hk. pose proof (ber_length _ _ Hber) as [Hl _].
  exists key, len, (take (k - length key - length len) rest), n. split; [|done]. destruct Hkey as [Hk16 _].
  rewrite !take_app, !(take_ge key), !(take_ge len) by lia. done.
Qed.

Lemma starts_more data size more : starts_unit data size -> starts_unit (data ++ more) size.
Proof.
  intros (key & len & rest & n & -> & Hkey & Hber & ->). exists key, len, (rest ++ more), n. by rewrite <- !app_assoc.
Qed.

(** ** What is sent *)

(** The packets of a unit: all but the last are full. *)
Inductive klv_cut (id limit : Z) : list Z -> list PayPacket -> Prop :=
| klv_cut_last data : Z.of_nat (length data) <= limit -> klv_cut id limit data [mkPayPacket id id true data]
| klv_cut_more data ps :
    limit < Z.of_nat (length data) -> klv_cut id limit (drop (Z.to_nat limit) data) ps ->
    klv_cut id limit data (mkPayPacket id id false (take (Z.to_nat limit) data) :: ps).

Section PayLemmas.
Context `{RtpBasePay2} `{!RtpBasePayDrop} (limit : Z) (good : PayPacket -> Prop) `{!SelectiveBase limit good}.

Lemma klv_loop_spec id data fuel (base : BasePay) :
  0 < limit -> serves base -> is_bytes data -> (length data < fuel)%nat ->
  (forall marker payload, is_bytes payload -> Z.of_nat (length payload) <= limit -> (marker = false -> payload <> []) ->
     good (mkPayPacket id id marker payload)) ->
  exists base' ps rest, klv_packets_loop fuel id limit data (tt, base) = (Done rest, (tt, base')) /\ serves base' /\
    taken base' = taken base ++ ps /\ Z.of_nat (length rest) <= limit /\ is_bytes rest /\
    klv_cut id limit data (ps ++ [mkPayPacket id id true rest]).
Proof.
  intros Hlim. revert data base. induction fuel as [|fuel IH]; intros data base Hs Hb Hf Hg; [lia|]. cbn [klv_packets_loop].
  rewrite Z.gtb_ltb. destruct (Z.ltb_spec limit (Z.of_nat (length data))) as [Hlt|Hle].
  - set (p := mkPayPacket id id false (take (Z.to_nat limit) data)).
    destruct (selective_queue p base Hs) as (b1 & Hq & Hs1 & Ht1).
    { apply Hg; [by apply Forall_take|rewrite length_take; lia|]. intros _ E. apply (f_equal length) in E. rewrite length_take in E. cbn in E. lia. }
    unfold mbind, M_bind, queue_. cbn [fst snd]. rewrite Hq.
    destruct (IH (drop (Z.to_nat limit) data) b1) as (b2 & ps & rest & HK & Hs2 & Ht2 & Hl & Hr & Hcut);
      [done|by apply Forall_drop|rewrite length_drop; lia|done|].
    exists b2, (p :: ps), rest. split; [exact HK|]. split; [done|]. split; [by rewrite Ht2, Ht1, <- app_assoc|].
    split; [done|]. split; [done|]. by constructor.
  - exists base, [], data. split; [done|]. split; [done|]. split; [by rewrite app_nil_r|]. split; [done|]. split; [done|]. by constructor.
Qed.

Lemma klv_send_spec id data (base : BasePay) :
  0 < limit -> serves base -> is_bytes data ->
  (forall marker payload, is_bytes payload -> Z.of_nat (length payload) <= limit -> (marker = false -> payload <> []) ->
     good (mkPayPacket id id marker payload)) ->
  exists base' ps, klv_send_unit id data (tt, base) = (Done tt, (tt, base')) /\ serves base' /\
    taken base' = taken base ++ ps /\ klv_cut id limit data ps.
Proof.
  intros Hlim Hs Hb Hg. unfold klv_send_unit, mbind, M_bind, get_. cbn [fst snd]. rewrite (selective_size _ Hs).
  destruct (klv_loop_spec id data (S (length data)) base Hlim Hs Hb ltac:(lia) Hg) as (b1 & ps & rest & HK & Hs1 & Ht1 & Hl & Hr & Hcut).
  unfold mbind, M_bind in HK. rewrite HK. destruct (selective_queue (mkPayPacket id id true rest) b1 Hs1) as (b2 & Hq & Hs2 & Ht2); [by apply Hg|].
  unfold queue_. cbn [fst snd]. rewrite Hq. exists b2, (ps ++ [mkPayPacket id id true rest]).
  split; [done|]. split; [done|]. split; [by rewrite Ht2, Ht1, app_assoc|done].
Qed.

(** A buffer with a unit, and perhaps more behind it. *)
Lemma klv_pay_spec buffer id unit_ more (base : BasePay) :
  kb_data buffer = Some (unit_ ++ more) -> is_bytes (unit_ ++ more) -> starts_unit unit_ (Z.of_nat (length unit_)) ->
  0 < limit -> serves base ->
  (forall marker payload, is_bytes payload -> Z.of_nat (length payload) <= limit -> (marker = false -> payload <> []) ->
     good (mkPayPacket id id marker payload)) ->
  exists base' ps, klv_pay_handle_buffer buffer id (tt, base) = (Done tt, (tt, base')) /\ serves base' /\
    taken base' = taken base ++ ps /\ klv_cut id limit unit_ ps.
Proof.
  intros Hd Hb Hu Hlim Hs Hg. unfold klv_pay_handle_buffer. rewrite Hd.
  pose proof (proj2 (peek_spec _ _ Hb) (starts_more _ _ more Hu)) as Hpk. unfold mbind, M_bind, of_option.
  destruct (unit_ ++ more) as [|x l] eqn:Ed; [by cbn in Hpk|]. unfold of_res. rewrite Hpk, Z.gtb_ltb, <- Ed.
  rewrite (proj2 (Z.ltb_ge _ _)) by (rewrite length_app; lia). rewrite Nat2Z.id, take_app_length. rewrite <- Ed in Hb. apply Forall_app in Hb as [Hb _].
  by apply klv_send_spec.
Qed.
End PayLemmas.

(** ** What is received *)

Section DepayLemmas.
Context `{RtpBaseDepay2}.

Lemma looks_like_start payload size :
  is_bytes payload -> starts_unit payload size -> Z.of_nat (length payload) < size -> klv_looks_like payload = Ok LikeStart.
Proof.
  intros Hb Hs Hl. unfold klv_looks_like. rewrite (proj2 (peek_spec _ _ Hb) Hs), bind_Ok.
  by rewrite (proj2 (Z.compare_lt_iff _ _)).
Qed.

Lemma looks_like_unit payload :
  is_bytes payload -> starts_unit payload (Z.of_nat (length payload)) -> klv_looks_like payload = Ok LikeSelfContained.
Proof.
  intros Hb Hs. unfold klv_looks_like. rewrite (proj2 (peek_spec _ _ Hb) Hs), bind_Ok. by rewrite Z.compare_refl.
Qed.

(** The state after the check for a discontinuity. *)
Definition klv_entered (discont : bool) (packet : DepayPacket) (st : KlvDepayState) : KlvDepayState :=
  if negb (bool_decide (kd_accumulator st = []))
     && (discont || negb (bool_decide (kd_acc_ts st = Some (dp_ext_timestamp packet))))
  then clear_accumulator st else st.

Definition klv_ended (last : bool) (packet : DepayPacket) (st : KlvDepayState) : KlvDepayState :=
  if last then st <| kd_prev_marker_seqnum := Some (dp_ext_seqnum packet) |> else st.

Lemma klv_handle_run discont packet st b looks_like start :
  klv_looks_like (dp_payload packet) = Ok looks_like ->
  klv_is_start looks_like packet (klv_entered discont packet st) = Ok start ->
  let last := dp_marker_bit packet || bool_decide (looks_like = LikeSelfContained) in
  let st1 := klv_ended last packet (klv_entered discont packet st) in
  klv_depay_handle_packet discont packet (st, b) =
    (if start && bool_decide (looks_like = LikeUndetermined)
     then (_ ← on_klv clear_accumulator; klv_drop_packet packet) (st1, b)
     else match looks_like with
          | LikeSelfContained => (_ ← on_klv clear_accumulator;
              klv_queue (dp_ext_seqnum packet, dp_ext_seqnum packet) (dp_payload packet)) (st1, b)
          | LikeStart => (Done tt,
              ((if negb (bool_decide (kd_accumulator st1 = [])) then clear_accumulator st1 else st1)
                 <| kd_accumulator ::= fun l => l ++ dp_payload packet |> <| kd_acc_seqnum := Some (dp_ext_seqnum packet) |>
                 <| kd_acc_ts := Some (dp_ext_timestamp packet) |>, b))
          | LikeUndetermined => klv_continue packet last (st1, b)
          end).
Proof.
  intros Hl Hs last st1. unfold klv_depay_handle_packet, mbind, M_bind, get_. cbn [fst snd].
  replace ((if negb (bool_decide (kd_accumulator st = [])) && _ then on_klv clear_accumulator else mret tt) (st, b))
    with (Done tt, (klv_entered discont packet st, b)) by (unfold klv_entered; by destruct (_ && _)).
  rewrite Hl. cbn [of_res fst snd]. rewrite Hs. cbn [of_res]. fold last.
  replace ((if last then on_klv _ else mret tt) (klv_entered discont packet st, b)) with (Done tt, (st1, b))
    by (subst st1; unfold klv_ended; by destruct last).
  destruct (start && _); [done|]. destruct looks_like; reflexivity.
Qed.

(** [n] is not directly after the last end of a unit. *)
Definition not_after_marker (n : Z) (st : KlvDepayState) : Prop :=
  match kd_prev_marker_seqnum st with Some m => m + 1 <> n /\ m + 1 < U64 | None => True end.

(** A fragment inside a unit. *)
Lemma klv_inside_packet ts n marker chunk size st b n0 :
  is_bytes (kd_accumulator st ++ chunk) -> kd_accumulator st <> [] -> starts_unit (kd_accumulator st) size ->
  kd_acc_ts st = Some ts -> kd_acc_seqnum st = Some n0 -> klv_looks_like chunk = Ok LikeUndetermined -> not_after_marker n st ->
  let packet := mkDepayPacket chunk ts n marker in
  let st1 := klv_ended marker packet st in
  klv_depay_handle_packet false packet (st, b) =
    (if (Z.of_nat (length (kd_accumulator st ++ chunk)) >=? size) || marker
     then let '(ret, b') := queue_buffer (n0, n) (mkDepayBuffer (kd_accumulator st ++ chunk) false false false) b in
          (ret, (st1 <| kd_accumulator := [] |>, b'))
     else (Done tt, (st1 <| kd_accumulator ::= fun l => l ++ chunk |>, b))).
Proof.
  intros Hb Hne Hs Hts Hsn Hlike Hm packet st1.
  assert (He : klv_entered false packet st = st).
  { unfold klv_entered. rewrite Hts. cbn [dp_ext_timestamp packet orb]. rewrite (bool_decide_eq_true_2 (Some ts = Some ts)) by done.
    cbn [negb]. by rewrite andb_false_r. }
  rewrite (klv_handle_run false packet st b LikeUndetermined false).
  2: exact Hlike.
  2: { rewrite He. unfold klv_is_start. rewrite bool_decide_eq_true_2 by done. unfold not_after_marker in Hm.
       destruct (kd_prev_marker_seqnum st) as [m|]; [|done]. rewrite (proj2 (u64_add_ok _ _ _)) by (split; [reflexivity|lia]).
       rewrite bind_Ok. cbn. by rewrite (proj2 (Z.eqb_neq _ _)) by lia. }
  rewrite He. cbn [andb]. change (dp_marker_bit packet || bool_decide (LikeUndetermined = LikeSelfContained)) with (marker || false).
  rewrite orb_false_r. fold st1. unfold klv_continue, mbind, M_bind, get_. cbn [fst snd].
  assert (Ea : kd_accumulator st1 = kd_accumulator st) by (subst st1; unfold klv_ended; by destruct marker).
  assert (Esn : kd_acc_seqnum st1 = Some n0) by (subst st1; unfold klv_ended; by destruct marker).
  rewrite Ea, bool_decide_eq_false_2 by done. unfold on_klv, upd_. cbn [fst snd].
  change (kd_accumulator (st1 <| kd_accumulator ::= fun l => l ++ dp_payload packet |>)) with (kd_accumulator st1 ++ chunk).
  rewrite Ea, (proj2 (peek_spec _ _ Hb) (starts_more _ _ chunk Hs)). cbn [of_res].
  destruct (_ || _); [|done].
  change (kd_acc_seqnum (st1 <| kd_accumulator ::= fun l => l ++ dp_payload packet |>)) with (kd_acc_seqnum st1). rewrite Esn. cbn [unwrap of_res].
  unfold klv_queue. cbn [fst snd dp_ext_seqnum packet]. by destruct (queue_buffer _ _ b).
Qed.
End DepayLemmas.

(** Packets handed over one by one, with the discontinuities the base class found. *)
Fixpoint feed_klv `{RtpBaseDepay2} (ps : list (bool * DepayPacket)) : M (KlvDepayState * BaseDepay) unit :=
  match ps with
  | [] => mret tt
  | (discont, p) :: ps => _ ← klv_depay_handle_packet discont p; feed_klv ps
  end.

(** Packets of a payloader, numbered from [n], with one timestamp, a
    discontinuity at most before the first. *)
Fixpoint klv_arrivals (discont : bool) (ts n : Z) (ps : list PayPacket) : list (bool * DepayPacket) :=
  match ps with
  | [] => []
  | p :: ps => (discont, mkDepayPacket (pp_payload p) ts n (pp_marker_bit p)) :: klv_arrivals false ts (n + 1) ps
  end.

(** A payload that does not look like the start of a unit. *)
Definition quiet (p : PayPacket) : Prop := klv_looks_like (pp_payload p) = Ok LikeUndetermined.

(** The last end of a unit was before [n]. *)
Definition ended_before (n : Z) (st : KlvDepayState) : Prop :=
  match kd_prev_marker_seqnum st with Some m => m < n | None => True end.

Section Roundtrip.
Context `{RtpBaseDepay2} `{!CollectingDepay}.

Lemma klv_rest id limit data ps ts n0 size :
  klv_cut id limit data ps -> 0 < limit -> Forall quiet ps -> data <> [] ->
  forall n st b, is_bytes (kd_accumulator st ++ data) -> kd_accumulator st <> [] -> starts_unit (kd_accumulator st) size ->
  size = Z.of_nat (length (kd_accumulator st ++ data)) -> kd_acc_ts st = Some ts -> kd_acc_seqnum st = Some n0 ->
  ended_before (n - 1) st -> n + Z.of_nat (length ps) <= U64 ->
  exists st' b', feed_klv (klv_arrivals false ts n ps) (st, b) = (Done tt, (st', b')) /\
    kd_accumulator st' = [] /\ kd_prev_marker_seqnum st' = Some (n + Z.of_nat (length ps) - 1) /\
    outputs b' = outputs b ++ [mkDepayBuffer (kd_accumulator st ++ data) false false false].
Proof.
  intros Hcut Hlim. induction Hcut as [data Hl|data ps Hl Hcut IH]; intros Hq Hne n st b Hb Ha Hs Hsz Hts Hsn Hm Hr;
    apply Forall_cons in Hq as [Hq0 Hq]; cbn [klv_arrivals feed_klv pp_payload pp_marker_bit length] in *; unfold mbind, M_bind;
    assert (Hnm : not_after_marker n st)
      by (unfold not_after_marker, ended_before in *; destruct (kd_prev_marker_seqnum st); [lia|done]).
  - rewrite (klv_inside_packet ts n true data size st b n0) by done. rewrite orb_true_r.
    destruct (queue_outputs (n0, n) (mkDepayBuffer (kd_accumulator st ++ data) false false false) b) as (b' & -> & Ho).
    do 2 eexists. split; [reflexivity|]. split; [done|]. split; [cbn; f_equal; lia|done].
  - set (chunk := take (Z.to_nat limit) data) in *.
    assert (Hd : data = chunk ++ drop (Z.to_nat limit) data) by (subst chunk; by rewrite take_drop).
    assert (Hcl : Z.of_nat (length chunk) = limit) by (subst chunk; rewrite length_take; lia).
    rewrite (klv_inside_packet ts n false chunk size st b n0); [|by rewrite Hd, app_assoc in Hb; apply Forall_app in Hb as [? _]|done..].
    rewrite Hsz, orb_false_r. rewrite !length_app in *. rewrite Z.geb_leb, (proj2 (Z.leb_gt _ _)) by lia. cbn [klv_ended].
    destruct (IH) with (n := n + 1) (st := st <| kd_accumulator ::= fun l => l ++ chunk |>) (b := b)
      as (st' & b' & HK & H1' & H2' & H3'); [done|..].
    + intros E. apply (f_equal length) in E. rewrite length_drop in E. cbn in E. lia.
    + cbn. by rewrite <- app_assoc, <- Hd.
    + cbn. by destruct (kd_accumulator st).
    + cbn. by apply starts_more.
    + cbn. rewrite !length_app, length_drop. lia.
    + done.
    + done.
    + cbn. unfold ended_before in *. cbn. destruct (kd_prev_marker_seqnum st); [lia|done].
    + lia.
    + exists st', b'. split; [exact HK|]. split; [done|]. split; [rewrite H2'; f_equal; lia|].
      rewrite H3'. cbn. by rewrite <- app_assoc, <- Hd.
Qed.

(** All packets of a unit, in any state of the depayloader. *)
Lemma klv_whole id limit unit_ ps ts n st b discont :
  klv_cut id limit unit_ ps -> 25 <= limit -> Forall quiet (tail ps) -> is_bytes unit_ ->
  starts_unit unit_ (Z.of_nat (length unit_)) -> ended_before n st -> n + Z.of_nat (length ps) <= U64 ->
  exists st' b', feed_klv (klv_arrivals discont ts n ps) (st, b) = (Done tt, (st', b')) /\
    kd_accumulator st' = [] /\ ended_before (n + Z.of_nat (length ps)) st' /\
    outputs b' = outputs b ++ [mkDepayBuffer unit_ false false false].
Proof.
  intros Hcut Hlim Hq Hb Hs Hm Hr. inversion Hcut as [? Hl|? ps' Hl Hcut']; subst; cbn [tail] in Hq;
    cbn [klv_arrivals feed_klv pp_payload pp_marker_bit length] in *; unfold mbind, M_bind.
  - rewrite (klv_handle_run discont _ st b LikeSelfContained true); [|by apply looks_like_unit|done].
    cbn [andb]. rewrite bool_decide_eq_false_2 by done. unfold mbind, M_bind, on_klv, upd_, klv_queue. cbn [fst snd dp_ext_seqnum dp_payload].
    destruct (queue_outputs (n, n) (mkDepayBuffer unit_ false false false) b) as (b' & -> & Ho).
    do 2 eexists. split; [reflexivity|]. split; [done|]. split; [|done]. cbn [dp_marker_bit orb klv_ended]. unfold ended_before. cbn. lia.
  - set (chunk := take (Z.to_nat limit) unit_) in *.
    assert (Hd : unit_ = chunk ++ drop (Z.to_nat limit) unit_) by (subst chunk; by rewrite take_drop).
    assert (Hcl : Z.of_nat (length chunk) = limit) by (subst chunk; rewrite length_take; lia).
    assert (Hcs : starts_unit chunk (Z.of_nat (length unit_))) by (apply starts_prefix; [done|lia]).
    set (packet := mkDepayPacket chunk ts n false).
    rewrite (klv_handle_run discont packet st b LikeStart true);
      [|change (dp_payload packet) with chunk; apply (looks_like_start _ (Z.of_nat (length unit_))); [by apply Forall_take|done|lia]|done].
    cbn [andb]. rewrite bool_decide_eq_false_2 by done.
    change (dp_marker_bit packet || bool_decide (LikeStart = LikeSelfContained)) with false. cbn [klv_ended].
    set (st0 := klv_entered discont packet st).
    set (st1 := modify kd_acc_ts _ _).
    assert (E1 : kd_accumulator st1 = chunk /\ kd_acc_ts st1 = Some ts /\ kd_acc_seqnum st1 = Some n /\
      kd_prev_marker_seqnum st1 = kd_prev_marker_seqnum st).
    { subst st1. cbn. destruct (bool_decide_reflect (kd_accumulator st0 = [])) as [E|E]; cbn [negb].
      - rewrite E. split; [done|]. split; [done|]. split; [done|]. subst st0. unfold klv_entered. by destruct (_ && _).
      - split; [done|]. split; [done|]. split; [done|]. cbn. subst st0. unfold klv_entered. by destruct (_ && _). }
    clearbody st1. destruct E1 as (Ea & Et & En & Ep).
    destruct (klv_rest id limit _ ps' ts n (Z.of_nat (length unit_)) Hcut' ltac:(lia) Hq) with (n := n + 1) (st := st1) (b := b)
      as (st' & b' & HK & H1' & H2' & H3').
    + intros E. apply (f_equal length) in E. rewrite length_drop in E. cbn in E. lia.
    + by rewrite Ea, <- Hd.
    + rewrite Ea. intros E. rewrite E in Hcl. cbn in Hcl. lia.
    + by rewrite Ea.
    + by rewrite Ea, <- Hd.
    + done.
    + done.
    + unfold ended_before in *. rewrite Ep. destruct (kd_prev_marker_seqnum st); [lia|done].
    + lia.
    + exists st', b'. split; [exact HK|]. split; [done|]. split; [unfold ended_before; rewrite H2'; lia|].
      by rewrite H3', Ea, <- Hd.
Qed.
End Roundtrip.

(** ** Any packets *)

(** The accumulated bytes are the start of a unit that is not yet complete. *)
Definition klv_pending (data : list Z) : Prop :=
  is_bytes data /\ exists size, starts_unit data size /\ Z.of_nat (length data) < size.

Definition klv_inv (st : KlvDepayState) : Prop :=
  (kd_accumulator st <> [] -> klv_pending (kd_accumulator st) /\ is_Some (kd_acc_seqnum st)) /\
  match kd_prev_marker_seqnum st with Some m => 0 <= m < U64 - 1 | None => True end.

(** Bytes of a payload, with a number that has a successor. *)
Definition klv_arrives (p : DepayPacket) : Prop := is_bytes (dp_payload p) /\ 0 <= dp_ext_seqnum p < U64 - 1.

(** An output: whole, or too long by what one packet brought, or ended by the marker bit. *)
Definition klv_output (b : DepayBuffer) : Prop := is_bytes (db_bytes b) /\ exists size, starts_unit (db_bytes b) size.

Lemma klv_pending_bound data : klv_pending data -> Z.of_nat (length data) < 25 + MAX_KLV_UNIT_LEN_ALLOWED.
Proof.
  intros (_ & size & (key & len & rest & n & _ & _ & Hber & ->) & Hl). pose proof (ber_length _ _ Hber). lia.
Qed.

Lemma klv_cleared_inv st : klv_inv st -> klv_inv (clear_accumulator st).
Proof. intros [_ Hm]. by split. Qed.

Lemma klv_entered_inv discont p st : klv_inv st -> klv_inv (klv_entered discont p st).
Proof. unfold klv_entered. destruct (_ && _); auto using klv_cleared_inv. Qed.

Lemma klv_ended_inv last p st : klv_arrives p -> klv_inv st -> klv_inv (klv_ended last p st).
Proof. intros [_ Hn] [Ha Hm]. unfold klv_ended. by destruct last. Qed.

Create HintDb klv.
#[local] Hint Resolve klv_cleared_inv klv_entered_inv klv_ended_inv : klv.

(** What the payload looks like says what is known of it. *)
Lemma looks_like_cases payload :
  is_bytes payload ->
  exists l, klv_looks_like payload = Ok l /\
    match l with
    | LikeStart => klv_pending payload
    | LikeSelfContained => starts_unit payload (Z.of_nat (length payload))
    | LikeUndetermined => True
    end.
Proof.
  intros Hb. unfold klv_looks_like. destruct (peek_total _ Hb) as [[err|size] Hp]; rewrite Hp, bind_Ok; [by eexists|].
  apply peek_spec in Hp; [|done]. eexists. split; [reflexivity|].
  destruct (Z.compare_spec (Z.of_nat (length payload)) size) as [<-|Hlt|]; [done| |done]. split; [done|by exists size].
Qed.

Lemma klv_is_start_total l p st : klv_inv st -> exists start, klv_is_start l p st = Ok start.
Proof.
  intros [_ Hm]. unfold klv_is_start. destruct (bool_decide _); [|by eexists].
  destruct (kd_prev_marker_seqnum st) as [m|]; [|by eexists].
  rewrite (proj2 (u64_add_ok _ _ _)) by (split; [reflexivity|lia]). rewrite bind_Ok. by eexists.
Qed.

Section Total.
Context `{RtpBaseDepay2} `{!CollectingDepay}.

(** The computation succeeds, keeps the invariant and queues units. *)
Definition klv_fine (m : M (KlvDepayState * BaseDepay) unit) (st : KlvDepayState) (b : BaseDepay) : Prop :=
  exists st' b' bufs, m (st, b) = (Done tt, (st', b')) /\ klv_inv st' /\
    outputs b' = outputs b ++ bufs /\ Forall klv_output bufs.

Lemma klv_drop_fine p st b : klv_inv st -> klv_fine (_ ← on_klv clear_accumulator; klv_drop_packet p) st b.
Proof.
  intros Hi. do 2 eexists. exists []. split; [reflexivity|]. cbn [fst snd]. split; [auto with klv|]. split; [|constructor].
  cbn. by rewrite drop_outputs, app_nil_r.
Qed.

Lemma klv_queue_fine seqnums bytes st b :
  klv_inv st -> is_bytes bytes -> (exists size, starts_unit bytes size) -> klv_fine (klv_queue seqnums bytes) st b.
Proof.
  intros Hi Hb Hs. unfold klv_fine, klv_queue. cbn [fst snd].
  destruct (queue_outputs seqnums (mkDepayBuffer bytes false false false) b) as (b' & -> & Ho).
  do 2 eexists. eexists. split; [reflexivity|]. split; [done|]. split; [exact Ho|]. constructor; [by split|constructor].
Qed.

Lemma klv_continue_fine p last st b : klv_inv st -> klv_arrives p -> klv_fine (klv_continue p last) st b.
Proof.
  intros Hi [Hb Hn]. unfold klv_fine, klv_continue, mbind, M_bind, get_. cbn [fst snd].
  destruct (bool_decide_reflect (kd_accumulator st = [])) as [Ee|Ee].
  { do 2 eexists. exists []. split; [reflexivity|]. split; [done|]. split; [by cbn; rewrite drop_outputs, app_nil_r|constructor]. }
  destruct Hi as [Ha Hm]. destruct (Ha Ee) as [(Hab & size & Hs & _) [n0 Hn0]]. unfold on_klv, upd_. cbn [fst snd].
  set (st1 := st <| kd_accumulator ::= fun l => l ++ dp_payload p |>).
  assert (Hb1 : is_bytes (kd_accumulator st1)) by (cbn; by apply Forall_app).
  assert (Hs1 : starts_unit (kd_accumulator st1) size) by (cbn; by apply starts_more).
  rewrite (proj2 (peek_spec _ _ Hb1) Hs1). cbn [of_res]. destruct (_ || last) eqn:Ed.
  - change (kd_acc_seqnum st1) with (kd_acc_seqnum st). rewrite Hn0. cbn [unwrap of_res].
    apply klv_queue_fine; [by split|done|by exists size].
  - apply orb_false_iff in Ed as [El _]. rewrite Z.geb_leb in El. apply Z.leb_gt in El.
    exists st1, b, []. split; [done|]. split; [|split; [by rewrite app_nil_r|constructor]]. split; [|done]. intros _. split; [|by exists n0].
    split; [done|by exists size].
Qed.

Lemma klv_handle_fine discont p st b : klv_inv st -> klv_arrives p -> klv_fine (klv_depay_handle_packet discont p) st b.
Proof.
  intros Hi Hp. destruct (looks_like_cases _ (proj1 Hp)) as (l & Hl & Hk).
  destruct (klv_is_start_total l p (klv_entered discont p st)) as [start Hs]; [auto with klv|].
  unfold klv_fine. rewrite (klv_handle_run _ _ _ _ _ _ Hl Hs). cbv zeta. set (st1 := klv_ended _ _ _).
  assert (Hi1 : klv_inv st1) by (subst st1; auto with klv). clearbody st1.
  destruct (start && _); [by apply klv_drop_fine|]. destruct l.
  - do 2 eexists. exists []. split; [reflexivity|]. split; [|split; [by rewrite app_nil_r|constructor]]. split.
    + intros _. split; [|by eexists]. by destruct (bool_decide_reflect (kd_accumulator st1 = [])) as [E|E]; cbn; [rewrite E|].
    + destruct Hi1 as [_ Hm]. cbn. by destruct (negb _).
  - unfold mbind, M_bind, on_klv, upd_. cbn [fst snd]. apply klv_queue_fine; [auto with klv|apply Hp|by eexists].
  - by apply klv_continue_fine.
Qed.

Lemma klv_feed_fine ps st b : klv_inv st -> Forall (fun p => klv_arrives (snd p)) ps -> klv_fine (feed_klv ps) st b.
Proof.
  intros Hi Hps. revert st b Hi. induction Hps as [|[d p] ps Hp _ IH]; intros st b Hi.
  { exists st, b, []. split; [done|]. split; [done|]. split; [by rewrite app_nil_r|constructor]. }
  cbn [feed_klv]. unfold klv_fine, mbind, M_bind. destruct (klv_handle_fine d p st b Hi Hp) as (st1 & b1 & bufs1 & -> & Hi1 & Ho1 & Hf1).
  destruct (IH st1 b1 Hi1) as (st2 & b2 & bufs2 & -> & Hi2 & Ho2 & Hf2). exists st2, b2, (bufs1 ++ bufs2).
  split; [done|]. split; [done|]. split; [by rewrite Ho2, Ho1, app_assoc|by apply Forall_app].
Qed.
End Total.

(** ** Properties *)

(** Peeking at a KLV unit agrees with the encoding. On any bytes
    [peek_klv] returns without a panic (no index out of range, no overflow in
    the sum of up to eight length bytes), and it returns a size exactly if the
    data starts with a universal label (the start code, designators below 128)
    and a length in BER form that is not above the limit; the size is that of
    key, length and value together. *)
Lemma klv_peek_correct data :
  is_bytes data ->
  (exists r, peek_klv data = Ok r) /\ forall size, peek_klv data = Ok (inr size) <-> starts_unit data size.
Proof. intros Hb. split; [by apply peek_total|]. intros size. by apply peek_spec. Qed.

(** C16: KLV units survive the round trip. A buffer with a unit (and perhaps more
    data, which is ignored) is sent as packets within the size limit, of which
    the last alone has the marker bit; if they arrive in order and no fragment
    but the first looks like a unit itself, the depayloader, in whatever state it
    is (fragments of other units, a discontinuity before the first packet), gives
    that unit alone, and is left without accumulated data. *)
Theorem klv_roundtrip `{RtpBasePay2} `{!RtpBasePayDrop} `{RtpBaseDepay2} `{!CollectingDepay} (limit : Z) `{!AcceptingBase limit}
    unit_ more id base ts n st b discont :
  25 <= limit -> is_bytes (unit_ ++ more) -> starts_unit unit_ (Z.of_nat (length unit_)) -> ended_before n st ->
  exists base' ps,
    klv_pay_handle_buffer (mkKlvBuffer (Some (unit_ ++ more))) id (tt, base) = (Done tt, (tt, base')) /\
    accepted base' = accepted base ++ ps /\
    Forall (fun p => Z.of_nat (length (pp_payload p)) <= limit) ps /\
    (Forall quiet (tail ps) -> n + Z.of_nat (length ps) <= U64 ->
     exists st' b', feed_klv (klv_arrivals discont ts n ps) (st, b) = (Done tt, (st', b')) /\ kd_accumulator st' = [] /\
       outputs b' = outputs b ++ [mkDepayBuffer unit_ false false false]).
Proof.
  intros Hlim Hb Hu Hm.
  destruct (klv_pay_spec limit (fun _ => True) (SelectiveBase0 := accepting_selective limit) (mkKlvBuffer (Some (unit_ ++ more)))
    id unit_ more base eq_refl Hb Hu ltac:(lia) I ltac:(done)) as (base' & ps & HK & _ & Ht & Hcut).
  exists base', ps. split; [exact HK|]. split; [exact Ht|]. split.
  { clear -Hcut Hlim. induction Hcut; constructor; cbn; rewrite ?length_take; (done || lia || constructor). }
  intros Hq Hr. apply Forall_app in Hb as [Hb _].
  destruct (klv_whole id limit unit_ ps ts n st b discont Hcut Hlim Hq Hb Hu Hm Hr) as (st' & b' & Hf & Ha & _ & Ho).
  by exists st', b'.
Qed.

(** C17: the KLV depayloader on any packets. From its initial state it handles
    every sequence of packets with any payloads, timestamps, markers and
    discontinuities without a panic or an error; whatever is pushed starts with
    the header of a unit, so that the case of accumulated data without a header
    never occurs, and the accumulated data stays below the longest unit. *)
Theorem klv_depay_no_panic `{RtpBaseDepay2} `{!CollectingDepay} ps b :
  Forall (fun p => klv_arrives (snd p)) ps ->
  exists st' b' bufs, feed_klv ps (KlvDepayState_default, b) = (Done tt, (st', b')) /\
    outputs b' = outputs b ++ bufs /\ Forall klv_output bufs /\
    Z.of_nat (length (kd_accumulator st')) < 25 + MAX_KLV_UNIT_LEN_ALLOWED.
Proof.
  intros Hps. destruct (klv_feed_fine ps KlvDepayState_default b) as (st' & b' & bufs & HK & [Ha _] & Ho & Hf); [by split|done|].
  exists st', b', bufs. split; [done|]. split; [done|]. split; [done|]. destruct (kd_accumulator st') as [|x l] eqn:E; [done|].
  apply klv_pending_bound. by apply Ha.
Qed.

(** ** Witnesses *)

Definition example_key : list Z := [6; 14; 43; 52; 2; 11; 1; 1; 14; 1; 3; 1; 1; 0; 0; 0].
Definition example_unit : list Z := example_key ++ [20] ++ repeat 7 20.

Definition drop_nothing limit : @RtpBasePayDrop (keep_packets limit) := {| drop_buffers _ b := b |}.

Lemma example_unit_starts : starts_unit example_unit (Z.of_nat (length example_unit)).
Proof. apply peek_spec; [by repeat constructor|reflexivity]. Qed.

Lemma klv_peek_correct_witness :
  is_bytes example_unit /\ (forall size, peek_klv example_unit = Ok (inr size) <-> starts_unit example_unit size) /\
  peek_klv example_unit = Ok (inr 37).
Proof.
  assert (Hb : is_bytes example_unit) by (by repeat constructor). split; [exact Hb|].
  split; [exact (proj2 (klv_peek_correct example_unit Hb))|reflexivity].
Defined.

Lemma klv_roundtrip_witness :
  exists ps st', @klv_pay_handle_buffer (keep_packets 30) (drop_nothing 30) (mkKlvBuffer (Some (example_unit ++ [1; 2]))) 3 (tt, []) =
      (Done tt, (tt, ps)) /\ length ps = 2%nat /\
    @feed_klv keep_buffers (klv_arrivals true 90 5 ps) (KlvDepayState_default, []) =
      (Done tt, (st', [mkDepayBuffer example_unit false false false])).
Proof.
  destruct (@klv_roundtrip (keep_packets 30) (drop_nothing 30) keep_buffers keep_buffers_collecting 30 (keep_packets_accepting 30)
    example_unit [1; 2] 3 [] 90 5 KlvDepayState_default [] true) as (base' & ps & HK & Ht & _ & HR).
  - lia.
  - by repeat constructor.
  - exact example_unit_starts.
  - exact I.
  - change (base' = ps) in Ht. subst ps. assert (E : base' = snd (snd (@klv_pay_handle_buffer (keep_packets 30) (drop_nothing 30)
      (mkKlvBuffer (Some (example_unit ++ [1; 2]))) 3 (tt, [])))) by exact (f_equal (fun r => snd (snd r)) (eq_sym HK)).
    vm_compute in E.
    destruct HR as (st' & b' & HF & _ & Ho).
    + rewrite E. constructor; [vm_compute; reflexivity|constructor].
    + by rewrite E.
    + change (b' = [mkDepayBuffer example_unit false false false]) in Ho. subst b'. exists base', st'.
      split; [exact HK|]. split; [by rewrite E|exact HF].
Defined.

(** Fragments without a start, a unit that ends too early, a start. *)
Lemma klv_depay_no_panic_witness :
  exists st' bufs, @feed_klv keep_buffers
    [(true, mkDepayPacket [1; 2; 3] 90 5 false); (false, mkDepayPacket (take 30 example_unit) 90 6 false);
     (false, mkDepayPacket [7] 90 7 true); (false, mkDepayPacket [7] 90 8 false);
     (false, mkDepayPacket (take 20 example_unit) 91 9 false)] (KlvDepayState_default, []) = (Done tt, (st', bufs)) /\
    Forall klv_output bufs /\ map db_bytes bufs = [take 30 example_unit ++ [7]] /\ length (kd_accumulator st') = 20%nat.
Proof.
  set (ps := [_; _; _; _; _]).
  destruct (@klv_depay_no_panic keep_buffers keep_buffers_collecting ps []) as (st' & b' & bufs & HK & Ho & Hf & _).
  - subst ps. repeat (constructor; [split; [by repeat constructor|cbn; lia]|]). constructor.
  - change (b' = bufs) in Ho. subst b'. exists st', bufs. split; [exact HK|]. split; [exact Hf|].
    assert (E : (st', bufs) = snd (@feed_klv keep_buffers ps (KlvDepayState_default, []))) by exact (f_equal snd (eq_sym HK)).
    vm_compute in E. by injection E as -> ->.
Defined.

(** A unit inside a unit: where the inner one is a fragment of its own, it is
    taken for the start of a unit, and the outer one is lost. *)
Definition nested_unit : list Z := example_key ++ [25] ++ repeat 7 8 ++ example_key ++ [0].

Lemma klv_nested_lost :
  starts_unit nested_unit (Z.of_nat (length nested_unit)) /\
  let ps := snd (snd (@klv_pay_handle_buffer (keep_packets 25) (drop_nothing 25) (mkKlvBuffer (Some nested_unit)) 3 (tt, []))) in
  concat (map pp_payload ps) = nested_unit /\
  snd (snd (@feed_klv keep_buffers (klv_arrivals false 90 5 ps) (KlvDepayState_default, []))) =
    [mkDepayBuffer (example_key ++ [0]) false false false].
Proof. split; [apply peek_spec; [by repeat constructor|reflexivity]|]. by vm_compute. Qed.
