(* ===== verification/AudioPay.v ===== *)
(** * Base class of audio payloaders

    [audio_discont.rs], which finds discontinuities of an audio stream by its
    timestamps, and [baseaudiopay/imp.rs], which cuts queued audio buffers into
    packets of the wanted duration. *)

From S2P Require Import Prelude Queues F64 Flow RtpBase DepayMeta BaseDepay BasePay.

(** Remainder and quotient of [usize], which panic on a zero divisor. *)
Definition usize_rem (a b : Z) : res Z := if b =? 0 then Panic else Ok (a mod b).
Definition usize_div (a b : Z) : res Z := if b =? 0 then Panic else Ok (a / b).

(** ** Discontinuities *)

(** The difference of two signed times of the gstreamer crate, and the size of one. *)
Class GstSigned := {
  signed_sub : Signed -> Signed -> res Signed;
  signed_abs : Signed -> Z;
}.

Record AudioDiscontConfiguration := mkAudioDiscontConfiguration {
  ac_alignment_threshold : option Z;
  ac_discont_wait : Z;
}.

Definition AudioDiscontConfiguration_default : AudioDiscontConfiguration :=
  mkAudioDiscontConfiguration (Some 40000000) NS_PER_SEC.

Record AudioDiscont := mkAudioDiscont {
  ad_discont_pending : bool;
  ad_base_pts : option Z;
  ad_next_out_offset : option Z;
  ad_next_in_offset : option Z;
  ad_discont_time : option Z;
  ad_last_rate : option Z;
}.

#[export] Instance AudioDiscont_rebuild : Rebuild AudioDiscont := {|
  rebuild := fun r => mkAudioDiscont (ad_discont_pending r) (ad_base_pts r) (ad_next_out_offset r) (ad_next_in_offset r)
    (ad_discont_time r) (ad_last_rate r) |}.

Definition AudioDiscont_default : AudioDiscont := mkAudioDiscont false None None None None None.

Definition AudioDiscont_resync (base_pts num_samples : Z) (self : AudioDiscont) : AudioDiscont :=
  self <| ad_discont_pending := false |> <| ad_base_pts := Some base_pts |> <| ad_next_in_offset := Some num_samples |>
    <| ad_next_out_offset := None |> <| ad_discont_time := None |> <| ad_last_rate := None |>.

Definition AudioDiscont_reset (self : AudioDiscont) : AudioDiscont := AudioDiscont_default.

Definition AudioDiscont_process_output (num_samples : Z) (self : AudioDiscont) : res AudioDiscont :=
  next ← u64_add (default 0 (ad_next_out_offset self)) num_samples;
  Ok (self <| ad_next_out_offset := Some next |>).

Section Discont.
Context `{Gst} `{GstTime} `{GstSigned}.

(** [(a.into_positive() - b.into_positive()).abs()] *)
Definition time_distance (a b : Z) : res Z :=
  diff ← signed_sub (into_positive a) (into_positive b); Ok (signed_abs diff).

(** The timestamp the next sample should have. *)
Definition expected_pts (rate base_pts : Z) (self : AudioDiscont) : res Z :=
  ns ← unwrap (mul_div_ceil U64 (default 0 (ad_next_in_offset self)) NS_PER_SEC rate);
  clock_add base_pts ns.

(** A buffer above the threshold: whether to resync, and the state. *)
Definition above_threshold (discont_wait pts expected : Z) (self : AudioDiscont) : res (bool * AudioDiscont) :=
  if discont_wait =? 0 then Ok (true, self)
  else
    match ad_discont_time self with
    | Some discont_time =>
        d ← time_distance discont_time pts;
        Ok (d >=? discont_wait, self)
    | None =>
        d ← time_distance expected pts;
        if d >=? discont_wait then Ok (true, self)
        else Ok (false, self <| ad_discont_time := Some expected |>)
    end.

Definition AudioDiscont_process_input (settings : AudioDiscontConfiguration) (discont : bool) (rate pts num_samples : Z)
    (self : AudioDiscont) : res (bool * AudioDiscont) :=
  if ad_discont_pending self then Ok (true, self)
  else
    let self := match ad_last_rate self with
                | Some last_rate => if last_rate =? rate then self else self <| ad_discont_pending := true |>
                | None => self
                end in
    let self := self <| ad_last_rate := Some rate |> in
    if discont then Ok (true, self <| ad_discont_pending := true |>)
    else
      match ad_base_pts self with
      | None => Ok (true, self <| ad_discont_pending := true |>)
      | Some base_pts =>
          match ac_alignment_threshold settings with
          | None => Ok (false, self)
          | Some alignment_threshold =>
              expected ← expected_pts rate base_pts self;
              diff ← time_distance pts expected;
              r ← (if diff >=? alignment_threshold then above_threshold (ac_discont_wait settings) pts expected self
                   else Ok (false, self <| ad_discont_time := None |>));
              let '(discont, self) := r in
              next ← u64_add (default 0 (ad_next_in_offset self)) num_samples;
              let self := self <| ad_next_in_offset := Some next |> in
              Ok (discont, if (discont : bool) then self <| ad_discont_pending := true |> else self)
          end
      end.
End Discont.

(** ** The payloader *)

(** [self.obj().queue_packet(IdsWithOffset { .. }, packet)] of the base class. *)
Class RtpBasePayOffset `{RtpBasePay2} := {
  queue_packet_offset : PayPacket -> PayTimestampOffset -> RtpBase.BasePay -> flow unit * RtpBase.BasePay;
}.

(** An input buffer: its data ([None] where mapping fails), its PTS and whether
    it is flagged DISCONT or RESYNC. *)
Record AudioBuffer := mkAudioBuffer {
  ab_data : option (list Z);
  ab_pts : option Z;
  ab_discont : bool;
  ab_resync : bool;
}.

Record AudioPaySettings := mkAudioPaySettings {
  as_max_ptime : option Z;
  as_min_ptime : Z;
  as_ptime_multiple : Z;
  as_audio_discont : AudioDiscontConfiguration;
}.

Definition AudioPaySettings_default : AudioPaySettings :=
  mkAudioPaySettings None 0 0 AudioDiscontConfiguration_default.

#[export] Instance AudioPaySettings_rebuild : Rebuild AudioPaySettings := {|
  rebuild := fun r => mkAudioPaySettings (as_max_ptime r) (as_min_ptime r) (as_ptime_multiple r) (as_audio_discont r) |}.

#[export] Instance AudioDiscontConfiguration_rebuild : Rebuild AudioDiscontConfiguration := {|
  rebuild := fun r => mkAudioDiscontConfiguration (ac_alignment_threshold r) (ac_discont_wait r) |}.

(** Properties with their values: times in nanoseconds as [i64] or as clock times. *)
Inductive AudioProperty :=
| PropMaxPtime (v : Z) | PropMinPtime (v : Z) | PropPtimeMultiple (v : Z)
| PropAlignmentThreshold (v : option Z) | PropDiscontWait (v : Z).

Definition AudioDiscontConfiguration_set_property (p : AudioProperty) (self : AudioDiscontConfiguration)
  : option AudioDiscontConfiguration :=
  match p with
  | PropAlignmentThreshold v => Some (self <| ac_alignment_threshold := v |>)
  | PropDiscontWait v => Some (self <| ac_discont_wait := v |>)
  | _ => None
  end.

(** The new settings, and whether a latency message is posted. *)
Definition audio_set_property (p : AudioProperty) (settings : AudioPaySettings) : AudioPaySettings * bool :=
  match AudioDiscontConfiguration_set_property p (as_audio_discont settings) with
  | Some c => (settings <| as_audio_discont := c |>, false)
  | None =>
      match p with
      | PropMaxPtime v => (settings <| as_max_ptime := if v =? -1 then None else Some (wrap U64 v) |>, false)
      | PropMinPtime v => (settings <| as_min_ptime := wrap U64 v |>, negb (as_min_ptime settings =? wrap U64 v))
      | PropPtimeMultiple v => (settings <| as_ptime_multiple := wrap U64 v |>, false)
      | _ => (settings, false)
      end
  end.

Definition audio_max_ptime_property (settings : AudioPaySettings) : Z :=
  match as_max_ptime settings with Some t => swrap U64 t | None => -1 end.

(** The latency query: what the base class answered, and the time that is waited for a packet. *)
Definition audio_latency `{GstTime} (settings : AudioPaySettings) (min_latency : Z) (max_latency : option Z) : res (Z * option Z) :=
  min_latency ← clock_add min_latency (as_min_ptime settings);
  max_latency ← (match max_latency with
                 | Some t => t ← clock_add t (as_min_ptime settings); Ok (Some t)
                 | None => Ok None
                 end);
  Ok (min_latency, max_latency).

Record QueuedBuffer := mkQueuedBuffer {
  qb_id : Z;
  qb_buffer : list Z;
  qb_offset : Z;
}.

Record AudioPayState := mkAudioPayState {
  au_clock_rate : option Z;
  au_bpf : option Z;
  au_ptime : option Z;
  au_max_ptime : option Z;
  au_queued_buffers : list QueuedBuffer;
  au_queued_bytes : Z;
  au_audio_discont : AudioDiscont;
}.

#[export] Instance AudioPayState_rebuild : Rebuild AudioPayState := {|
  rebuild := fun r => mkAudioPayState (au_clock_rate r) (au_bpf r) (au_ptime r) (au_max_ptime r) (au_queued_buffers r)
    (au_queued_bytes r) (au_audio_discont r) |}.

Definition AudioPayState_default : AudioPayState := mkAudioPayState None None None None [] 0 AudioDiscont_default.

(** The payload of [remaining] bytes from the queue, and the id of the last buffer looked at. *)
Fixpoint fill_payload (remaining end_id : Z) (l : list QueuedBuffer) : res (Z * list Z) :=
  match l with
  | [] => Ok (end_id, [])
  | buffer :: l =>
      left ← u64_sub (Z.of_nat (length (qb_buffer buffer))) (qb_offset buffer);
      let this_buffer_payload_size := Z.min left remaining in
      let payload := take (Z.to_nat this_buffer_payload_size) (drop (Z.to_nat (qb_offset buffer)) (qb_buffer buffer)) in
      let remaining := remaining - this_buffer_payload_size in
      if remaining =? 0 then Ok (qb_id buffer, payload)
      else
        r ← fill_payload remaining (qb_id buffer) l;
        Ok (fst r, payload ++ snd r)
  end.

(** Buffers sent are removed, one sent in part keeps its rest. *)
Fixpoint dequeue_sent (remaining : Z) (l : list QueuedBuffer) : res (list QueuedBuffer) :=
  if remaining >? 0 then
    match l with
    | [] => Panic
    | buffer :: l =>
        left ← u64_sub (Z.of_nat (length (qb_buffer buffer))) (qb_offset buffer);
        if left >? remaining then Ok (mkQueuedBuffer (qb_id buffer) (qb_buffer buffer) (qb_offset buffer + remaining) :: l)
        else dequeue_sent (remaining - left) l
    end
  else Ok l.

Section AudioPay.
Context `{Gst} `{GstTime} `{GstSigned} `{RtpBasePay2} `{!RtpBasePayOffset}.

Abbreviation AM := (M (AudioPayState * RtpBase.BasePay)).

Definition on_audio (f : AudioPayState -> AudioPayState) : AM unit := upd_ (fun s => (f (fst s), snd s)).

Definition queue_offset_ (packet : PayPacket) (offset : PayTimestampOffset) : AM unit :=
  fun s => let '(ret, base) := queue_packet_offset packet offset (snd s) in (ret, (fst s, base)).

(** Frames of a duration, rounded up, as [u32]. *)
Definition pframes_of (clock_rate ptime : Z) : res Z :=
  n ← unwrap (mul_div_ceil U64 ptime clock_rate NS_PER_SEC); Ok (wrap U32 n).

Definition pframes_opt (clock_rate : Z) (ptime : option Z) : res (option Z) :=
  match ptime with
  | Some t => n ← pframes_of clock_rate t; Ok (Some n)
  | None => Ok None
  end.

Definition joint_max_ptime (settings : AudioPaySettings) (state : AudioPayState) : option Z :=
  match as_max_ptime settings, au_max_ptime state with
  | Some max_ptime, Some caps_max_ptime => Some (Z.min max_ptime caps_max_ptime)
  | None, Some max_ptime => Some max_ptime
  | Some max_ptime, None => Some max_ptime
  | None, None => None
  end.

(** The minimum, maximum and multiple of packet sizes; [max_payload] is the room in a packet. *)
Definition calculate_packet_sizes (settings : AudioPaySettings) (state : AudioPayState) (max_payload clock_rate bpf : Z)
  : res (Z * Z * Z) :=
  min_pframes ← pframes_of clock_rate (as_min_ptime settings);
  max_pframes ← pframes_opt clock_rate (joint_max_ptime settings state);
  multiple ← pframes_of clock_rate (as_ptime_multiple settings);
  psize_multiple ← u64_mul (Z.max 1 multiple) bpf;
  r ← usize_rem max_payload psize_multiple;
  max_packet_size ← u64_sub max_payload r;
  max_packet_size ← (match max_pframes with
                     | Some max_pframes => n ← u64_mul max_pframes bpf; Ok (Z.min n max_packet_size)
                     | None => Ok max_packet_size
                     end);
  n ← u64_mul min_pframes bpf;
  let min_packet_size := Z.min (Z.max n psize_multiple) max_packet_size in
  match au_ptime state with
  | Some ptime =>
      pframes ← pframes_of clock_rate ptime;
      psize ← u64_mul pframes bpf;
      Ok (Z.max min_packet_size psize, Z.min max_packet_size psize, psize_multiple)
  | None => Ok (min_packet_size, max_packet_size, psize_multiple)
  end.

(** One packet, from the front of the queue. *)
Definition drain_packet (max_packet_size psize_multiple bpf : Z) : AM unit :=
  s ← get_;
  let state := fst s in
  let packet_size := Z.min max_packet_size (au_queued_bytes state) in
  r ← of_res (usize_rem packet_size psize_multiple);
  let packet_size := packet_size - r in
  let next_out_offset := ad_next_out_offset (au_audio_discont state) in
  front ← of_res (unwrap (head (au_queued_buffers state)));
  filled ← of_res (fill_payload packet_size (qb_id front) (au_queued_buffers state));
  let '(end_id, payload) := filled in
  _ ← queue_offset_ (mkPayPacket (qb_id front) end_id (is_none next_out_offset) payload)
        (match next_out_offset with Some n => PayOffsetRtp n | None => PayOffsetPts 0 end);
  left ← of_res (dequeue_sent packet_size (au_queued_buffers state));
  bytes ← of_res (u64_sub (au_queued_bytes state) packet_size);
  frames ← of_res (usize_div packet_size bpf);
  ad ← of_res (AudioDiscont_process_output frames (au_audio_discont state));
  on_audio (fun st => st <| au_queued_buffers := left |> <| au_queued_bytes := bytes |> <| au_audio_discont := ad |>).

(** Packets while enough is queued. *)
Fixpoint drain_loop (fuel : nat) (force : bool) (min_packet_size max_packet_size psize_multiple bpf : Z) : AM unit :=
  match fuel with
  | O => crash_
  | S fuel =>
      s ← get_;
      let queued_bytes := au_queued_bytes (fst s) in
      if (queued_bytes >=? min_packet_size) || (force && (queued_bytes >? 0)) then
        _ ← drain_packet max_packet_size psize_multiple bpf;
        drain_loop fuel force min_packet_size max_packet_size psize_multiple bpf
      else mret tt
  end.

(** One more round than bytes are queued is fuel enough if every packet has a payload. *)
Definition audio_drain_packets (settings : AudioPaySettings) (force : bool) : AM unit :=
  s ← get_;
  let state := fst s in
  match au_clock_rate state with
  | None => mret tt
  | Some clock_rate =>
      bpf ← of_res (unwrap (au_bpf state));
      sizes ← of_res (calculate_packet_sizes settings state (max_payload_size (snd s)) clock_rate bpf);
      let '(min_packet_size, max_packet_size, psize_multiple) := sizes in
      drain_loop (S (Z.to_nat (au_queued_bytes state))) force min_packet_size max_packet_size psize_multiple bpf
  end.

Definition audio_pay_start : AM unit := on_audio (fun _ => AudioPayState_default).
Definition audio_pay_stop : AM unit := on_audio (fun _ => AudioPayState_default).
Definition audio_pay_set_bpf (bpf : Z) : AM unit := on_audio (fun st => st <| au_bpf := Some bpf |>).

(** What [negotiate] takes from the caps: [ptime] and [maxptime] in milliseconds,
    the clock rate; the call of the parent is an argument. *)
Definition audio_pay_negotiate (ptime maxptime clock_rate : option Z) (parent_negotiate : AM unit) : AM unit :=
  let from_mseconds t := t * 1000000 in
  clock_rate ← of_res (match clock_rate with
                       | Some c => if 0 <? c then Ok c else Panic
                       | None => Panic
                       end);
  _ ← parent_negotiate;
  on_audio (fun st => st <| au_ptime := from_mseconds <$> ptime |> <| au_max_ptime := from_mseconds <$> maxptime |>
                        <| au_clock_rate := Some clock_rate |>).

Definition audio_pay_drain (settings : AudioPaySettings) : AM unit := audio_drain_packets settings true.

Definition audio_pay_flush : AM unit :=
  on_audio (fun st => st <| au_queued_buffers := [] |> <| au_queued_bytes := 0 |> <| au_audio_discont ::= AudioDiscont_reset |>).

(** The check for a discontinuity: what is queued is sent, and the stream starts anew. *)
Definition audio_resync (settings : AudioPaySettings) (pts num_samples : Z) : AM unit :=
  s ← get_;
  _ ← (if is_some (ad_base_pts (au_audio_discont (fst s))) then audio_drain_packets settings true else mret tt);
  on_audio (fun st => st <| au_audio_discont ::= AudioDiscont_resync pts num_samples |>).

Definition audio_pay_handle_buffer (settings : AudioPaySettings) (buffer : AudioBuffer) (id : Z) : AM unit :=
  data ← of_option (ab_data buffer);
  pts ← of_res (unwrap (ab_pts buffer));
  s ← get_;
  let state := fst s in
  match au_bpf state, au_clock_rate state with
  | Some bpf, Some clock_rate =>
      num_samples ← of_res (usize_div (Z.of_nat (length data)) bpf);
      r ← of_res (AudioDiscont_process_input (as_audio_discont settings) (ab_discont buffer || ab_resync buffer)
                    clock_rate pts num_samples (au_audio_discont state));
      let '(discont, ad) := r in
      _ ← on_audio (fun st => st <| au_audio_discont := ad |>);
      _ ← (if (discont : bool) then audio_resync settings pts num_samples else mret tt);
      s ← get_;
      bytes ← of_res (u64_add (au_queued_bytes (fst s)) (Z.of_nat (length data)));
      _ ← on_audio (fun st => st <| au_queued_bytes := bytes |>
                                <| au_queued_buffers ::= fun l => l ++ [mkQueuedBuffer id data 0] |>);
      audio_drain_packets settings false
  | _, _ => fail_
  end.
End AudioPay.
