(* ===== verification/AudioPayProps.v ===== *)
(** * Audio payloading

    What the base class of audio payloaders makes of a stream of buffers: the
    audio in packets, none lost and none across a discontinuity, with timestamps
    that count the frames; when a stream without flags is taken for
    discontinuous; and settings for which sending does not end. *)

From S2P Require Import Prelude Queues F64 Flow BitStream RtpBase DepayMeta BaseDepay BasePay.
From S2P Require Import BaseDepayRun AudioPay.

(** ** Laws of the interfaces *)
Class GstSignedLaws `{GstSigned} : Prop :=
  signed_sub_pos a b : 0 <= a < U64 - 1 -> 0 <= b < U64 - 1 ->
    exists s, signed_sub (Positive a) (Positive b) = Ok s /\ signed_abs s = Z.abs (a - b).

(** A base class that takes every packet, and leaves [limit] bytes for a payload. *)
Class AcceptingOffsets `{RtpBasePayOffset} (limit : Z) := {
  stamped : RtpBase.BasePay -> list (PayPacket * PayTimestampOffset);
  offsets_size b : max_payload_size b = limit;
  offsets_queue p o b : exists b', queue_packet_offset p o b = (Done tt, b') /\ stamped b' = stamped b ++ [(p, o)];
}.

(** ** The queue as its bytes *)
Definition unsent_bytes (b : QueuedBuffer) : list Z := drop (Z.to_nat (qb_offset b)) (qb_buffer b).
Definition queue_data (l : list QueuedBuffer) : list Z := concat (map unsent_bytes l).
Definition qb_ok (b : QueuedBuffer) : Prop := 0 <= qb_offset b <= Z.of_nat (length (qb_buffer b)).

Lemma unsent_bytes_length b : qb_ok b -> Z.of_nat (length (unsent_bytes b)) = Z.of_nat (length (qb_buffer b)) - qb_offset b.
Proof. unfold qb_ok, unsent_bytes. rewrite length_drop. lia. Qed.

Lemma queue_data_snoc l id data : queue_data (l ++ [mkQueuedBuffer id data 0]) = queue_data l ++ data.
Proof. unfold queue_data. rewrite map_app, concat_app. cbn. by rewrite app_nil_r. Qed.

Lemma fill_spec l : Forall qb_ok l -> forall n id, 0 <= n <= Z.of_nat (length (queue_data l)) ->
  exists e, fill_payload n id l = Ok (e, take (Z.to_nat n) (queue_data l)).
Proof.
  intros Hl. induction Hl as [|b l Hb Hl IH]; intros n id Hn; cbn [fill_payload queue_data map concat] in *.
  { exists id. by rewrite take_nil. }
  pose proof (unsent_bytes_length b Hb) as Hu. unfold qb_ok in Hb. rewrite (proj2 (u64_sub_ok _ _ _)) by (split; [reflexivity|lia]).
  rewrite bind_Ok. rewrite length_app in Hn. fold (queue_data l) in *. fold (unsent_bytes b). rewrite <- Hu.
  destruct (Z.eqb_spec (n - Z.min (Z.of_nat (length (unsent_bytes b))) n) 0) as [E|E].
  - exists (qb_id b). rewrite Z.min_r by lia. by rewrite take_app_le by lia.
  - assert (Hlt : Z.of_nat (length (unsent_bytes b)) < n) by lia. rewrite Z.min_l in * by lia. destruct (IH (n - Z.of_nat (length (unsent_bytes b))) (qb_id b)) as [e ->]; [lia|]. rewrite bind_Ok.
    exists e. cbn. rewrite take_app, !(take_ge (unsent_bytes b)) by lia. do 4 f_equal. lia.
Qed.

Lemma dequeue_spec l : Forall qb_ok l -> forall n, 0 <= n <= Z.of_nat (length (queue_data l)) ->
  exists l', dequeue_sent n l = Ok l' /\ Forall qb_ok l' /\ queue_data l' = drop (Z.to_nat n) (queue_data l).
Proof.
  intros Hl. induction Hl as [|b l Hb Hl IH]; intros n Hn; cbn [dequeue_sent]; destruct (Z.gtb_spec n 0) as [Hpos|Hz].
  - cbn in Hn. lia.
  - exists []. split; [done|]. split; [constructor|]. change (queue_data []) with (@nil Z). by rewrite drop_nil.
  - pose proof (unsent_bytes_length b Hb) as Hu. unfold qb_ok in Hb. rewrite (proj2 (u64_sub_ok _ _ _)) by (split; [reflexivity|lia]).
    rewrite bind_Ok. cbn [queue_data map concat] in *. rewrite length_app in Hn. fold (queue_data l) in *. rewrite Z.gtb_ltb.
    destruct (Z.ltb_spec n (Z.of_nat (length (qb_buffer b)) - qb_offset b)) as [Hlt|Hge].
    + eexists. split; [reflexivity|]. split; [constructor; [unfold qb_ok; cbn; lia|done]|]. cbn [queue_data map concat].
      fold (queue_data l). rewrite drop_app_le by lia. f_equal. unfold unsent_bytes. cbn. rewrite drop_drop. f_equal. lia.
    + destruct (IH (n - (Z.of_nat (length (qb_buffer b)) - qb_offset b))) as (l' & -> & Hok & Hd); [lia|].
      exists l'. split; [done|]. split; [done|]. rewrite Hd, drop_app_ge by lia. f_equal. lia.
  - exists (b :: l). split; [done|]. split; [by constructor|]. replace (Z.to_nat n) with 0%nat by lia. by rewrite drop_0.
Qed.

(** ** Packets of a stretch of audio *)

(** The timestamp of the next packet: the first refers to the PTS of its buffer,
    later ones are so many frames after it. *)
Definition stamp_of (next : option Z) : PayTimestampOffset :=
  match next with Some n => PayOffsetRtp n | None => PayOffsetPts 0 end.

(** [packets] carry [data] up to [rest], from offset [next] to [next']. *)
Inductive audio_packets (bpf mult mx : Z) : option Z -> list Z -> list (PayPacket * PayTimestampOffset) -> option Z -> list Z -> Prop :=
| audio_none next data : audio_packets bpf mult mx next data [] next data
| audio_one next data p o ps next' rest :
    pp_payload p <> [] -> Z.of_nat (length (pp_payload p)) <= mx -> (mult | Z.of_nat (length (pp_payload p))) ->
    pp_marker_bit p = is_none next -> o = stamp_of next ->
    audio_packets bpf mult mx (Some (default 0 next + Z.of_nat (length (pp_payload p)) / bpf)) data ps next' rest ->
    audio_packets bpf mult mx next (pp_payload p ++ data) ((p, o) :: ps) next' rest.

Lemma audio_packets_app bpf mult mx next data ps1 next1 rest ps2 next2 rest2 more :
  audio_packets bpf mult mx next data ps1 next1 rest -> audio_packets bpf mult mx next1 (rest ++ more) ps2 next2 rest2 ->
  audio_packets bpf mult mx next (data ++ more) (ps1 ++ ps2) next2 rest2.
Proof.
  intros H1 H2. induction H1; cbn [app]; [done|]. rewrite <- app_assoc. constructor; auto.
Qed.

Lemma audio_packets_bytes bpf mult mx next data ps next' rest :
  audio_packets bpf mult mx next data ps next' rest -> data = concat (map (fun x => pp_payload (fst x)) ps) ++ rest.
Proof. induction 1; cbn; [done|]. by rewrite <- app_assoc, <- IHaudio_packets. Qed.

Lemma audio_packets_each bpf mult mx next data ps next' rest :
  audio_packets bpf mult mx next data ps next' rest ->
  Forall (fun x => 0 < Z.of_nat (length (pp_payload (fst x))) <= mx /\ (mult | Z.of_nat (length (pp_payload (fst x))))) ps.
Proof.
  induction 1 as [|? ? p o ? ? ? Hne]; constructor; [|done]. split; [|done]. cbn. destruct (pp_payload p); [done|]. cbn [length] in *. lia.
Qed.

(** ** One packet and the sending loop *)

(** The queue of the state: its bytes, counted right, in whole chunks, with
    offsets that stay in range. *)
Record audio_queued (mult total : Z) (st : AudioPayState) : Prop := {
  aq_ok : Forall qb_ok (au_queued_buffers st);
  aq_bytes : au_queued_bytes st = Z.of_nat (length (queue_data (au_queued_buffers st)));
  aq_mult : (mult | au_queued_bytes st);
  aq_next : 0 <= default 0 (ad_next_out_offset (au_audio_discont st));
  aq_total : default 0 (ad_next_out_offset (au_audio_discont st)) + au_queued_bytes st <= total;
}.

(** What sending leaves alone. *)
Definition only_sent (st st' : AudioPayState) : Prop :=
  au_clock_rate st' = au_clock_rate st /\ au_bpf st' = au_bpf st /\ au_ptime st' = au_ptime st /\
  au_max_ptime st' = au_max_ptime st /\
  au_audio_discont st' = (au_audio_discont st) <| ad_next_out_offset := ad_next_out_offset (au_audio_discont st') |>.

Lemma only_sent_refl st : only_sent st st.
Proof. repeat split. by destruct (au_audio_discont st). Qed.

Lemma only_sent_trans st1 st2 st3 : only_sent st1 st2 -> only_sent st2 st3 -> only_sent st1 st3.
Proof.
  intros (A1 & A2 & A3 & A4 & A5) (B1 & B2 & B3 & B4 & B5). split_and!; [congruence..|]. rewrite B5. cbn. rewrite A5. done.
Qed.

Section Drain.
Context `{Gst} `{GstTime} `{GstSigned} `{RtpBasePay2} `{!RtpBasePayOffset} (limit : Z) `{!AcceptingOffsets limit}.
Implicit Types (st : AudioPayState) (b : RtpBase.BasePay).

Lemma drain_packet_run mx mult bpf st b :
  Forall qb_ok (au_queued_buffers st) -> au_queued_bytes st = Z.of_nat (length (queue_data (au_queued_buffers st))) ->
  au_queued_buffers st <> [] -> 0 < mult -> 0 < bpf -> 0 <= mx ->
  let q := Z.min mx (au_queued_bytes st) in
  let n := q - q mod mult in
  let next := ad_next_out_offset (au_audio_discont st) in
  default 0 next + n / bpf < U64 ->
  exists st' b' start e,
    drain_packet mx mult bpf (st, b) = (Done tt, (st', b')) /\
    stamped b' = stamped b ++ [(mkPayPacket start e (is_none next) (take (Z.to_nat n) (queue_data (au_queued_buffers st))), stamp_of next)] /\
    Forall qb_ok (au_queued_buffers st') /\ au_queued_bytes st' = au_queued_bytes st - n /\
    queue_data (au_queued_buffers st') = drop (Z.to_nat n) (queue_data (au_queued_buffers st)) /\
    ad_next_out_offset (au_audio_discont st') = Some (default 0 next + n / bpf) /\ only_sent st st'.
Proof.
  intros Hok Hq Hne Hm Hb Hx q n next Hn.
  assert (Hq0 : 0 <= q) by lia. pose proof (Z.mod_pos_bound q mult Hm). pose proof (Z.mod_le q mult Hq0 Hm).
  unfold drain_packet, mbind, M_bind, get_. cbn [fst snd]. unfold usize_rem. fold q.
  rewrite (proj2 (Z.eqb_neq mult 0)) by lia. cbn [of_res]. fold n. fold next.
  destruct (au_queued_buffers st) as [|front l] eqn:El; [done|]. cbn [head unwrap of_res]. rewrite <- El in *.
  destruct (fill_spec _ Hok n (qb_id front)) as [e ->]; [lia|]. cbn [of_res]. unfold queue_offset_. cbn [fst snd].
  fold (stamp_of next).
  destruct (offsets_queue (mkPayPacket (qb_id front) e (is_none next) (take (Z.to_nat n) (queue_data (au_queued_buffers st)))) (stamp_of next) b)
    as (b' & -> & Hs).
  destruct (dequeue_spec _ Hok n) as (l' & -> & Hok' & Hd); [lia|]. cbn [of_res].
  rewrite (proj2 (u64_sub_ok _ _ _)) by (split; [reflexivity|lia]). cbn [of_res]. unfold usize_div.
  rewrite (proj2 (Z.eqb_neq bpf 0)) by lia. cbn [of_res]. unfold AudioDiscont_process_output. fold next.
  rewrite (proj2 (u64_add_ok _ _ _)) by (split; [reflexivity|lia]). rewrite bind_Ok. cbn [of_res].
  eexists _, b', _, e. split; [reflexivity|]. split; [exact Hs|]. cbn. by split_and!.
Qed.

Lemma drain_loop_spec force mn mx mult bpf total : 0 < mult -> 0 < bpf -> mult <= mx -> mult <= mn -> total < U64 ->
  forall fuel st b, audio_queued mult total st -> (Z.to_nat (au_queued_bytes st) < fuel)%nat ->
  exists st' b' ps,
    drain_loop fuel force mn mx mult bpf (st, b) = (Done tt, (st', b')) /\ stamped b' = stamped b ++ ps /\
    audio_packets bpf mult mx (ad_next_out_offset (au_audio_discont st)) (queue_data (au_queued_buffers st)) ps
      (ad_next_out_offset (au_audio_discont st')) (queue_data (au_queued_buffers st')) /\
    audio_queued mult total st' /\ only_sent st st' /\ au_queued_bytes st' < mn /\ (force = true -> au_queued_bytes st' = 0).
Proof.
  intros Hm Hbpf Hmx Hmn Ht fuel. induction fuel as [|fuel IH]; intros st b Hq Hf; [lia|]. cbn [drain_loop].
  unfold mbind, M_bind, get_ at 1. cbn [fst snd]. destruct Hq as [Hok Hby Hmul Hn0 Htot].
  set (q := au_queued_bytes st) in *. destruct (_ || _) eqn:Ec.
  - assert (Hlarge : mult <= q).
    { apply orb_true_iff in Ec as [Ec|Ec]; [rewrite Z.geb_leb in Ec; apply Z.leb_le in Ec; lia|].
      apply andb_true_iff in Ec as [_ Ec]. rewrite Z.gtb_ltb in Ec. apply Z.ltb_lt in Ec. by apply Z.divide_pos_le. }
    set (q1 := Z.min mx q). set (n := q1 - q1 mod mult).
    pose proof (Z.mod_pos_bound q1 mult Hm). pose proof (Z.div_mod q1 mult ltac:(lia)) as Hdm.
    assert (Hn : 0 < n) by (subst n q1; assert (1 <= Z.min mx q / mult) by (apply Z.div_le_lower_bound; lia); nia).
    assert (Hdv : (mult | n)) by (exists (q1 / mult); subst n; lia).
    assert (Hfr : 0 <= n / bpf <= n) by (split; [apply Z.div_pos; lia|apply Z.div_le_upper_bound; nia]).
    destruct (drain_packet_run mx mult bpf st b Hok Hby) as (st1 & b1 & start & e & -> & Hs1 & Hok1 & Hb1 & Hd1 & Hn1 & Ho1);
      [intros E; rewrite E in Hby; cbn in Hby; lia|lia|lia|lia|fold q q1 n; lia|]. fold q q1 n in Hs1, Hb1, Hd1, Hn1.
    assert (Hq1 : audio_queued mult total st1).
    { constructor; [done| |by rewrite Hb1; apply Z.divide_sub_r|rewrite Hn1; cbn; lia|rewrite Hn1, Hb1; cbn; lia].
      rewrite Hb1, Hd1, length_drop. lia. }
    destruct (IH st1 b1 Hq1 ltac:(lia)) as (st2 & b2 & ps & -> & Hs2 & Hp2 & Hq2 & Ho2 & Hrest).
    eexists st2, b2, (_ :: ps). split; [reflexivity|]. split; [rewrite Hs2, Hs1, <- app_assoc; reflexivity|].
    split; [|split; [done|split; [by eapply only_sent_trans|done]]].
    rewrite <- (take_drop (Z.to_nat n) (queue_data (au_queued_buffers st))) at 1.
    assert (Hlen : Z.of_nat (length (take (Z.to_nat n) (queue_data (au_queued_buffers st)))) = n) by (rewrite length_take; lia).
    apply (audio_one bpf mult mx _ _ (mkPayPacket start e _ (take (Z.to_nat n) (queue_data (au_queued_buffers st))))); cbn [pp_payload pp_marker_bit].
    + intros E. rewrite E in Hlen. cbn in Hlen. lia.
    + lia.
    + by rewrite Hlen.
    + done.
    + done.
    + by rewrite Hlen, <- Hd1, <- Hn1.
  - apply orb_false_iff in Ec as [E1 E2]. rewrite Z.geb_leb in E1. apply Z.leb_gt in E1. exists st, b, [].
    split; [done|]. split; [by rewrite app_nil_r|]. split; [constructor|]. split; [by constructor|]. split; [apply only_sent_refl|].
    split; [done|]. intros ->. cbn in E2. rewrite Z.gtb_ltb in E2. apply Z.ltb_ge in E2. lia.
Qed.
End Drain.

(** ** Packet sizes *)

(** The max-ptime property reads as it was set. *)
Lemma max_ptime_kept v settings :
  -1 <= v < I64 -> audio_max_ptime_property (fst (audio_set_property (PropMaxPtime v) settings)) = v.
Proof.
  intros Hv. unfold audio_set_property. cbn. destruct (Z.eqb_spec v (-1)) as [->|Hne]; [done|]. unfold audio_max_ptime_property. cbn.
  rewrite wrap_small by lia. apply swrap_small; [lia|done|]. change (U64 / 2) with I64. lia.
Qed.

Section Sizes.
Context `{Gst}.

Lemma sizes_inv settings st limit rate bpf mn mx mult :
  calculate_packet_sizes settings st limit rate bpf = Ok (mn, mx, mult) -> 0 < bpf -> 0 <= limit ->
  0 < mult /\ mx <= limit /\ (mult <= mx -> mult <= mn).
Proof.
  intros HK Hb Hl. unfold calculate_packet_sizes in HK. inv_ok.
  match goal with H : usize_rem limit ?m = Ok _ |- _ => set (sm := m) in *; assert (Hsm : 0 < sm) by (subst sm; nia);
    unfold usize_rem in H; destruct (Z.eqb_spec sm 0) as [|_]; [lia|]; injection H as <- end.
  pose proof (Z.mod_pos_bound limit sm Hsm).
  match goal with H : match ?o with Some _ => _ ≫= _ | None => Ok (limit - _) end = Ok ?x |- _ =>
    assert (x <= limit) by (destruct o; inv_ok; lia); clear H end.
  clearbody sm. destruct (au_ptime st); inv_ok; lia.
Qed.

Lemma sizes_same settings st st' limit rate bpf :
  au_ptime st' = au_ptime st -> au_max_ptime st' = au_max_ptime st ->
  calculate_packet_sizes settings st' limit rate bpf = calculate_packet_sizes settings st limit rate bpf.
Proof. intros E1 E2. unfold calculate_packet_sizes, joint_max_ptime. by rewrite E1, E2. Qed.
End Sizes.

(** ** Discontinuities *)

(** A state in which no discontinuity is pending, [sofar] samples or more after the start. *)
Record ad_ok (rate sofar : Z) (ad : AudioDiscont) : Prop := {
  do_pending : ad_discont_pending ad = false;
  do_rate : ad_last_rate ad = None \/ ad_last_rate ad = Some rate;
  do_base : match ad_base_pts ad with Some t => 0 <= t < 2 ^ 62 | None => True end;
  do_in : 0 <= default 0 (ad_next_in_offset ad) <= sofar;
  do_time : match ad_discont_time ad with Some t => 0 <= t < 2 ^ 63 | None => True end;
}.

Section Inputs.
Context `{Gst} `{GstTime} `{GstSigned} `{!GstLaws} `{!GstSignedLaws} `{!ClockAddLaws}.

Lemma time_distance_exact a b : 0 <= a < 2 ^ 63 -> 0 <= b < 2 ^ 63 -> time_distance a b = Ok (Z.abs (a - b)).
Proof.
  intros Ha Hb. unfold time_distance, into_positive. destruct (signed_sub_pos a b) as (s & -> & E); [lia..|].
  rewrite bind_Ok. by rewrite E.
Qed.

(** The exact expected timestamp. *)
Definition ideal_pts (rate base samples : Z) : Z := base + (samples * NS_PER_SEC + rate - 1) / rate.

Lemma expected_exact rate base sofar ad :
  0 < rate < U32 -> 0 <= base < 2 ^ 62 -> 0 <= default 0 (ad_next_in_offset ad) <= sofar -> sofar <= rate * 2 ^ 31 ->
  expected_pts rate base ad = Ok (ideal_pts rate base (default 0 (ad_next_in_offset ad))) /\
  0 <= ideal_pts rate base (default 0 (ad_next_in_offset ad)) < 2 ^ 63.
Proof.
  intros Hr Hb Hi Hs. unfold expected_pts, ideal_pts. set (off := default 0 (ad_next_in_offset ad)) in *.
  assert (Hd : 0 <= (off * NS_PER_SEC + rate - 1) / rate <= 2 ^ 31 * NS_PER_SEC + 1).
  { split; [apply Z.div_pos; lia|]. apply Z.lt_succ_r, Z.div_lt_upper_bound; [lia|]. nia. }
  rewrite mul_div_ceil_spec by lia. rewrite fits_small by lia. cbn [unwrap]. rewrite bind_Ok, clock_add_exact by lia.
  split; [done|lia].
Qed.

Lemma process_input_total settings flag rate pts k sofar ad :
  0 < rate < U32 -> 0 <= pts < 2 ^ 62 -> 0 <= k -> sofar + k <= rate * 2 ^ 31 -> ad_ok rate sofar ad ->
  exists discont ad', AudioDiscont_process_input settings flag rate pts k ad = Ok (discont, ad') /\
    ad_base_pts ad' = ad_base_pts ad /\ ad_next_out_offset ad' = ad_next_out_offset ad /\
    (flag = true -> discont = true) /\ (ad_base_pts ad = None -> discont = true) /\
    (discont = false -> ad_ok rate (sofar + k) ad').
Proof.
  intros Hr Hp Hk Ht [Hpend Hrate Hbase Hin Htime]. unfold AudioDiscont_process_input. rewrite Hpend.
  set (ad0 := match ad_last_rate ad with Some _ => _ | None => _ end).
  assert (E0 : ad0 = ad) by (subst ad0; destruct Hrate as [-> | ->]; [done|by rewrite Z.eqb_refl]). rewrite E0. clear ad0 E0.
  set (ad1 := ad <| ad_last_rate := Some rate |>). destruct flag; [by do 2 eexists|].
  change (ad_base_pts ad1) with (ad_base_pts ad). destruct (ad_base_pts ad) as [base|] eqn:Eb; [|by do 2 eexists].
  destruct (ac_alignment_threshold settings) as [thr|].
  2: { do 2 eexists. split; [reflexivity|]. split; [done|]. split; [done|]. split; [done|]. split; [done|]. intros _.
       constructor; cbn; try rewrite Eb; try done; [by right|lia]. }
  destruct (expected_exact rate base sofar ad1) as [-> He]; [done|done|exact Hin|lia|]. rewrite bind_Ok.
  set (ex := ideal_pts rate base (default 0 (ad_next_in_offset ad1))) in *.
  rewrite time_distance_exact, bind_Ok by lia.
  assert (Hst : exists d ad2, (if Z.abs (pts - ex) >=? thr then above_threshold (ac_discont_wait settings) pts ex ad1
      else Ok (false, ad1 <| ad_discont_time := None |>)) = Ok (d, ad2) /\
    ad2 = ad1 <| ad_discont_time := ad_discont_time ad2 |> /\
    match ad_discont_time ad2 with Some t => 0 <= t < 2 ^ 63 | None => True end).
  { destruct (_ >=? thr); [|by do 2 eexists]. unfold above_threshold. destruct (_ =? 0); [by do 2 eexists|].
    change (ad_discont_time ad1) with (ad_discont_time ad). destruct (ad_discont_time ad) as [t|] eqn:Et.
    - rewrite time_distance_exact, bind_Ok by lia. do 2 eexists. split; [reflexivity|]. cbn. rewrite Et. split; [|done].
      by destruct ad; cbn in *; subst.
    - rewrite time_distance_exact, bind_Ok by lia. destruct (_ >=? _); do 2 eexists; (split; [reflexivity|]); cbn; rewrite ?Et; [|done].
      split; [|done]. by destruct ad; cbn in *; subst. }
  destruct Hst as (d & ad2 & -> & E2 & Ht2). rewrite bind_Ok.
  assert (Ei : ad_next_in_offset ad2 = ad_next_in_offset ad) by (by rewrite E2).
  rewrite Ei, (proj2 (u64_add_ok _ _ _)) by (split; [reflexivity|lia]). rewrite bind_Ok.
  assert (Eb2 : ad_base_pts ad2 = Some base) by (by rewrite E2).
  assert (Er2 : ad_last_rate ad2 = Some rate) by (by rewrite E2).
  assert (Eo2 : ad_next_out_offset ad2 = ad_next_out_offset ad) by (by rewrite E2).
  assert (Ep2 : ad_discont_pending ad2 = false) by (by rewrite E2).
  do 2 eexists. split; [reflexivity|]. destruct d; cbn; split_and!; try done. intros _.
  constructor; cbn; rewrite ?Eb2, ?Er2; try done; [by right|lia].
Qed.
End Inputs.

(** ** When a stream is discontinuous *)

(** The index of the first buffer, of those with these timestamps and numbers of
    samples, none flagged, that is taken for discontinuous. *)
Fixpoint first_discont `{Gst} `{GstTime} `{GstSigned} (settings : AudioDiscontConfiguration) (rate : Z) (bs : list (Z * Z))
    (ad : AudioDiscont) : res (option nat) :=
  match bs with
  | [] => Ok None
  | (pts, k) :: bs =>
      r ← AudioDiscont_process_input settings false rate pts k ad;
      let '(discont, ad) := r in
      if (discont : bool) then Ok (Some 0%nat)
      else r ← first_discont settings rate bs ad; Ok (option_map S r)
  end.

(** The exact timestamps of buffers after [k0] samples from [base] on, and the
    buffers that are off by the threshold or more. *)
Definition samples (bs : list (Z * Z)) : Z := fold_right (fun x n => snd x + n) 0 bs.
Definition exact_time (rate base k0 : Z) (bs : list (Z * Z)) (i : nat) : Z := ideal_pts rate base (k0 + samples (take i bs)).
Definition given_time (bs : list (Z * Z)) (i : nat) : Z := default 0 (fst <$> bs !! i).
Definition off_by (thr rate base k0 : Z) (bs : list (Z * Z)) (i : nat) : Prop :=
  thr <= Z.abs (given_time bs i - exact_time rate base k0 bs i).

(** [j] is the first of the buffers off in a row up to [i]. *)
Definition off_since (thr rate base k0 : Z) (bs : list (Z * Z)) (j i : nat) : Prop :=
  (j <= i)%nat /\ (forall m, (j <= m <= i)%nat -> off_by thr rate base k0 bs m) /\
  (j = 0%nat \/ ~ off_by thr rate base k0 bs (j - 1)).

(** The stream is off at [i] and the timestamp is so long after the time it went off. *)
Definition jump_at (thr wait rate base k0 : Z) (bs : list (Z * Z)) (i : nat) : Prop :=
  exists j, off_since thr rate base k0 bs j i /\ wait <= Z.abs (exact_time rate base k0 bs j - given_time bs i).

Section Jumps.
Context `{Gst} `{GstTime} `{GstSigned} `{!GstLaws} `{!GstSignedLaws} `{!ClockAddLaws}.
Context (thr wait rate base k0 : Z) (bs : list (Z * Z)).
Hypotheses (Hrate : 0 < rate < U32) (Hbase : 0 <= base < 2 ^ 62) (Hk0 : 0 <= k0) (Hwait : 0 <= wait)
  (Htotal : k0 + samples bs <= rate * 2 ^ 31) (Hbs : Forall (fun x => 0 <= fst x < 2 ^ 62 /\ 0 <= snd x) bs).

Abbreviation off := (off_by thr rate base k0 bs).
Abbreviation since := (off_since thr rate base k0 bs).

(** One buffer of a running stream. *)
Lemma process_step pts k ad n :
  0 <= pts < 2 ^ 62 -> 0 <= k -> 0 <= n -> n + k <= rate * 2 ^ 31 -> ad_discont_pending ad = false ->
  ad_last_rate ad = None \/ ad_last_rate ad = Some rate -> ad_base_pts ad = Some base -> ad_next_in_offset ad = Some n ->
  match ad_discont_time ad with Some t => 0 <= t < 2 ^ 63 | None => True end ->
  let e := ideal_pts rate base n in
  let late := thr <=? Z.abs (pts - e) in
  let t := default e (ad_discont_time ad) in
  let d := late && (wait <=? Z.abs (t - pts)) in
  0 <= e < 2 ^ 63 /\
  AudioDiscont_process_input (mkAudioDiscontConfiguration (Some thr) wait) false rate pts k ad =
    Ok (d, mkAudioDiscont d (Some base) (ad_next_out_offset ad) (Some (n + k))
             (if late then if d then ad_discont_time ad else Some t else None) (Some rate)).
Proof.
  intros Hp Hk Hn Ht Hpend Hlr Hb Hi Hdt. cbv zeta.
  destruct (expected_exact rate base n (ad <| ad_last_rate := Some rate |>)) as [He Hr]; [done|done|by cbn; rewrite Hi; cbn; lia|lia|].
  cbn in He, Hr. rewrite Hi in He, Hr. cbn in He, Hr. split; [exact Hr|]. unfold AudioDiscont_process_input. rewrite Hpend.
  set (ad0 := match ad_last_rate ad with Some _ => _ | None => _ end).
  assert (E0 : ad0 = ad) by (subst ad0; destruct Hlr as [-> | ->]; [done|by rewrite Z.eqb_refl]). rewrite E0. clear ad0 E0.
  destruct ad as [pend bp nout nin dt lr]. cbn in *. subst. rewrite He, bind_Ok, time_distance_exact, bind_Ok by lia.
  set (e := ideal_pts rate base n) in *. rewrite Z.geb_leb. destruct (thr <=? Z.abs (pts - e)); cbn [andb].
  - unfold above_threshold. cbn. destruct (Z.eqb_spec wait 0) as [->|Hw].
    + rewrite bind_Ok. cbn. rewrite (proj2 (u64_add_ok _ _ _)) by (split; [reflexivity|lia]). rewrite bind_Ok.
      by rewrite (proj2 (Z.leb_le _ _)) by lia.
    + destruct dt as [t|]; cbn in *.
      * rewrite time_distance_exact, !bind_Ok, Z.geb_leb by lia. cbn.
        rewrite (proj2 (u64_add_ok _ _ _)) by (split; [reflexivity|lia]). rewrite bind_Ok. by destruct (wait <=? _).
      * rewrite time_distance_exact, !bind_Ok, Z.geb_leb by lia. destruct (wait <=? _); rewrite bind_Ok; cbn;
          (rewrite (proj2 (u64_add_ok _ _ _)) by (split; [reflexivity|lia])); by rewrite bind_Ok.
  - rewrite bind_Ok. cbn. rewrite (proj2 (u64_add_ok _ _ _)) by (split; [reflexivity|lia]). by rewrite bind_Ok.
Qed.

Lemma since_unique j1 j2 i : since j1 i -> since j2 i -> j1 = j2.
Proof.
  intros (L1 & A1 & S1) (L2 & A2 & S2). destruct (lt_eq_lt_dec j1 j2) as [[Hlt|?]|Hlt]; [|done|].
  - destruct S2 as [->|S2]; [lia|]. destruct S2. apply A1. lia.
  - destruct S1 as [->|S1]; [lia|]. destruct S1. apply A2. lia.
Qed.

(** What the state remembers after [i] buffers: when the stream went off. *)
Definition remembers (i : nat) (dt : option Z) : Prop :=
  match dt with
  | Some t => exists j i', i = S i' /\ since j i' /\ t = exact_time rate base k0 bs j
  | None => i = 0%nat \/ ~ off (i - 1)
  end.

(** The time the state compares with is that of the first buffer off in the row. *)
Lemma remembers_since i dt :
  remembers i dt -> off i -> exists j, since j i /\ default (exact_time rate base k0 bs i) dt = exact_time rate base k0 bs j.
Proof.
  intros Hr Ho. destruct dt as [t|]; cbn in *.
  - destruct Hr as (j & i' & -> & (Hj & Hall & Hs) & ->). exists j. split; [|done]. split; [lia|]. split; [|done].
    intros m Hm. destruct (decide (m = S i')) as [->|]; [done|]. apply Hall. lia.
  - exists i. split; [|done]. split; [lia|]. split; [|done]. intros m Hm. by replace m with i by lia.
Qed.

Lemma samples_app l1 l2 : samples (l1 ++ l2) = samples l1 + samples l2.
Proof. unfold samples. induction l1 as [|x l1 IH]; cbn [app fold_right]; lia. Qed.

Lemma samples_nonneg l : Forall (fun x => 0 <= fst x < 2 ^ 62 /\ 0 <= snd x) l -> 0 <= samples l.
Proof. unfold samples. induction 1; cbn [fold_right]; lia. Qed.

(** One more buffer: whether it is taken for discontinuous, and what is remembered of it otherwise. *)
Lemma discont_step pts k rest pre ad :
  bs = pre ++ (pts, k) :: rest -> ad_discont_pending ad = false -> ad_last_rate ad = None \/ ad_last_rate ad = Some rate ->
  ad_base_pts ad = Some base -> ad_next_in_offset ad = Some (k0 + samples pre) -> remembers (length pre) (ad_discont_time ad) ->
  match ad_discont_time ad with Some t => 0 <= t < 2 ^ 63 | None => True end ->
  exists d ad', AudioDiscont_process_input (mkAudioDiscontConfiguration (Some thr) wait) false rate pts k ad = Ok (d, ad') /\
    (d = true <-> jump_at thr wait rate base k0 bs (length pre)) /\
    (d = false -> ad_discont_pending ad' = false /\ ad_last_rate ad' = Some rate /\ ad_base_pts ad' = Some base /\
       ad_next_in_offset ad' = Some (k0 + samples (pre ++ [(pts, k)])) /\ remembers (S (length pre)) (ad_discont_time ad') /\
       match ad_discont_time ad' with Some t => 0 <= t < 2 ^ 63 | None => True end).
Proof.
  intros E Hpend Hlr Hb Hi Hrem Hdt.
  assert (Hall : Forall (fun x => 0 <= fst x < 2 ^ 62 /\ 0 <= snd x) pre /\ Forall (fun x => 0 <= fst x < 2 ^ 62 /\ 0 <= snd x) ((pts, k) :: rest))
    by (rewrite E in Hbs; by apply Forall_app in Hbs).
  destruct Hall as [Hpre Hrest]. apply Forall_cons in Hrest as [[Hp Hk] Hrest]. cbn [fst snd] in Hp, Hk.
  assert (Htot : k0 + samples pre + k <= rate * 2 ^ 31).
  { rewrite E, samples_app in Htotal. change (samples ((pts, k) :: rest)) with (k + samples rest) in Htotal.
    pose proof (samples_nonneg _ Hrest). lia. }
  pose proof (samples_nonneg _ Hpre) as Hspre.
  destruct (process_step pts k ad (k0 + samples pre)) as [He ->]; [done|lia|lia|lia|done|done|done|done|done|].
  set (i := length pre) in *.
  assert (Eg : given_time bs i = pts) by (unfold given_time; change i with (length pre); rewrite E, lookup_app_r, Nat.sub_diag by done; done).
  assert (Ee : exact_time rate base k0 bs i = ideal_pts rate base (k0 + samples pre)) by (unfold exact_time; change i with (length pre); by rewrite E, take_app_length).
  rewrite <- Ee in He. rewrite <- Ee, <- Eg.
  assert (Hdec : (thr <=? Z.abs (given_time bs i - exact_time rate base k0 bs i)) = true <-> off i) by (rewrite Z.leb_le; done).
  set (late := thr <=? _) in *. set (t := default _ (ad_discont_time ad)) in *.
  assert (Hjump : late && (wait <=? Z.abs (t - given_time bs i)) = true <-> jump_at thr wait rate base k0 bs i).
  { rewrite andb_true_iff, Hdec, Z.leb_le. split.
    - intros [Ho Hw]. destruct (remembers_since i _ Hrem Ho) as (j & Hj & Et). exists j. split; [done|]. fold t in Et. by rewrite <- Et.
    - intros (j & Hj & Hw). assert (Ho : off i) by (apply Hj; destruct Hj; lia). split; [done|].
      destruct (remembers_since i _ Hrem Ho) as (j' & Hj' & Et). fold t in Et. rewrite Et. by rewrite (since_unique j' j i). }
  do 2 eexists. split; [reflexivity|]. split; [exact Hjump|]. set (d := late && _) in *. intros Ed. rewrite Ed.
  cbn [ad_discont_pending ad_last_rate ad_base_pts ad_next_in_offset ad_discont_time].
  split_and!; try done.
  - f_equal. rewrite samples_app. cbn. lia.
  - destruct late.
    + destruct (remembers_since i _ Hrem (proj1 Hdec eq_refl)) as (j & Hj & Et). by exists j, i.
    + right. replace (S i - 1)%nat with i by lia. intros Ho. by apply Hdec in Ho.
  - destruct late; [|done]. subst t. by destruct (ad_discont_time ad).
Qed.

Lemma first_discont_from rest : forall pre ad,
  bs = pre ++ rest -> ad_discont_pending ad = false -> ad_last_rate ad = None \/ ad_last_rate ad = Some rate ->
  ad_base_pts ad = Some base -> ad_next_in_offset ad = Some (k0 + samples pre) -> remembers (length pre) (ad_discont_time ad) ->
  match ad_discont_time ad with Some t => 0 <= t < 2 ^ 63 | None => True end ->
  exists r, first_discont (mkAudioDiscontConfiguration (Some thr) wait) rate rest ad = Ok r /\
    match r with
    | Some i => (i < length rest)%nat /\ jump_at thr wait rate base k0 bs (length pre + i) /\
        forall m, (length pre <= m < length pre + i)%nat -> ~ jump_at thr wait rate base k0 bs m
    | None => forall m, (length pre <= m < length bs)%nat -> ~ jump_at thr wait rate base k0 bs m
    end.
Proof.
  induction rest as [|[pts k] rest IH]; intros pre ad E Hpend Hlr Hb Hi Hrem Hdt; cbn [first_discont].
  { exists None. split; [done|]. intros m Hm. rewrite E, app_nil_r in Hm. lia. }
  destruct (discont_step pts k rest pre ad) as (d & ad' & -> & Hjump & Hnext); [done..|]. rewrite bind_Ok. destruct d.
  { exists (Some 0%nat). split; [done|]. split; [cbn; lia|]. rewrite Nat.add_0_r. split; [by apply Hjump|]. intros m Hm. lia. }
  destruct (Hnext eq_refl) as (N1 & N2 & N3 & N4 & N5 & N6).
  assert (Hn : ~ jump_at thr wait rate base k0 bs (length pre)) by (intros Hj; by apply Hjump in Hj).
  destruct (IH (pre ++ [(pts, k)]) ad') as (r & -> & Hr); [by rewrite <- app_assoc|done|by right|done|done| |done|].
  { rewrite length_app. cbn. by rewrite Nat.add_1_r. }
  rewrite bind_Ok. exists (option_map S r). split; [done|]. rewrite length_app in Hr. cbn [length] in Hr.
  destruct r as [m0|]; cbn [option_map].
  - destruct Hr as (Hlt & Hj & Hbefore). split; [cbn; lia|]. replace (length pre + S m0)%nat with (length pre + 1 + m0)%nat by lia.
    split; [done|]. intros m Hm. destruct (decide (m = length pre)) as [->|]; [done|]. apply Hbefore. lia.
  - intros m Hm. destruct (decide (m = length pre)) as [->|]; [done|]. apply Hr. lia.
Qed.
End Jumps.

(** What happened up to a buffer does not depend on what follows. *)
Lemma off_by_app thr rate base k0 bs more i :
  (i < length bs)%nat -> off_by thr rate base k0 (bs ++ more) i <-> off_by thr rate base k0 bs i.
Proof.
  intros Hi. unfold off_by, given_time, exact_time. by rewrite lookup_app_l, take_app_le by lia.
Qed.

Lemma remembers_app thr rate base k0 bs more i dt :
  (i <= length bs)%nat -> remembers thr rate base k0 bs i dt -> remembers thr rate base k0 (bs ++ more) i dt.
Proof.
  intros Hi. destruct dt as [t|]; cbn.
  - intros (j & i' & -> & (Hj & Hall & Hs) & ->). exists j, i'. split; [done|]. split; [split; [done|split]|].
    + intros m Hm. rewrite off_by_app by lia. by apply Hall.
    + destruct j as [|j]; [by left|]. destruct Hs as [?|Hs]; [done|]. right. by rewrite off_by_app by lia.
    + unfold exact_time. by rewrite take_app_le by lia.
  - intros [->|Ho]; [by left|]. destruct i as [|i]; [by left|]. right. by rewrite off_by_app by lia.
Qed.

(** ** Buffers *)

(** An input buffer: bytes in whole chunks, with a plausible timestamp. *)
Definition ab_bytes (x : AudioBuffer) : list Z := default [] (ab_data x).
Definition ab_flagged (x : AudioBuffer) : bool := ab_discont x || ab_resync x.
Definition ab_ok (mult : Z) (x : AudioBuffer) : Prop :=
  is_Some (ab_data x) /\ (mult | Z.of_nat (length (ab_bytes x))) /\ match ab_pts x with Some t => 0 <= t < 2 ^ 62 | None => False end.

(** The timestamp of a buffer and the number of its frames. *)
Definition times (bpf : Z) (x : AudioBuffer) : Z * Z := (default 0 (ab_pts x), Z.of_nat (length (ab_bytes x)) / bpf).

(** [x] goes on with the buffers before it, of which the first started the group: it is not
    flagged, and its timestamp is not off for too long. *)
Definition continues (cfg : AudioDiscontConfiguration) (rate bpf : Z) (g : list AudioBuffer) (x : AudioBuffer) : Prop :=
  match g with
  | [] => False
  | first :: rest =>
      ab_flagged x = false /\
      match ac_alignment_threshold cfg with
      | Some thr => ~ jump_at thr (ac_discont_wait cfg) rate (fst (times bpf first)) (snd (times bpf first))
                        (map (times bpf) (rest ++ [x])) (length rest)
      | None => True
      end
  end.

(** Every buffer of a group continues the ones before it. *)
Definition whole (cfg : AudioDiscontConfiguration) (rate bpf : Z) (g : list AudioBuffer) : Prop :=
  forall pre x post, g = pre ++ x :: post -> pre <> [] -> continues cfg rate bpf pre x.

(** The first buffer of a group does not continue the group before. *)
Fixpoint separate (cfg : AudioDiscontConfiguration) (rate bpf : Z) (groups : list (list AudioBuffer)) : Prop :=
  match groups with
  | [] => True
  | g :: groups =>
      match groups with (x :: _) :: _ => ~ continues cfg rate bpf g x | _ => True end /\ separate cfg rate bpf groups
  end.

Lemma whole_snoc cfg rate bpf g x : whole cfg rate bpf g -> continues cfg rate bpf g x -> whole cfg rate bpf (g ++ [x]).
Proof.
  intros Hw Hc pre y post E Hne. destruct post as [|z post _] using rev_ind.
  - apply app_inj_tail in E as [-> ->]. done.
  - rewrite app_comm_cons, app_assoc in E. apply app_inj_tail in E as [-> _]. by eapply Hw.
Qed.

Lemma separate_grow cfg rate bpf l g x :
  g <> [] -> separate cfg rate bpf (l ++ [g]) -> separate cfg rate bpf (l ++ [g ++ [x]]).
Proof.
  intros Hne. induction l as [|h l IH]; cbn; [done|]. intros [H1 H2]. split; [|by apply IH].
  destruct l as [|h' l]; cbn in *; [by destruct g|done].
Qed.

Lemma separate_new cfg rate bpf l g x :
  separate cfg rate bpf (l ++ [g]) -> ~ continues cfg rate bpf g x -> separate cfg rate bpf ((l ++ [g]) ++ [[x]]).
Proof.
  intros Hs Hc. induction l as [|h l IH]; cbn in *; [by split|]. destruct Hs as [H1 H2]. split; [|by apply IH].
  by destruct l as [|h' l].
Qed.

(** What the detector remembers of the group that goes on. *)
Definition tracks (cfg : AudioDiscontConfiguration) (rate bpf : Z) (g : list AudioBuffer) (ad : AudioDiscont) : Prop :=
  match g with
  | [] => ad_base_pts ad = None
  | first :: rest =>
      Forall (fun x => 0 <= fst x < 2 ^ 62 /\ 0 <= snd x) (map (times bpf) g) /\
      ad_base_pts ad = Some (fst (times bpf first)) /\
      match ac_alignment_threshold cfg with
      | Some thr => ad_next_in_offset ad = Some (snd (times bpf first) + samples (map (times bpf) rest)) /\
          remembers thr rate (fst (times bpf first)) (snd (times bpf first)) (map (times bpf) rest) (length rest) (ad_discont_time ad)
      | None => True
      end
  end.

Section Tracking.
Context `{Gst} `{GstTime} `{GstSigned} `{!GstLaws} `{!GstSignedLaws} `{!ClockAddLaws}.

(** A buffer is taken for discontinuous where it does not continue the group. *)
Lemma process_tracks cfg rate bpf g x sofar ad d ad' :
  0 < rate < U32 -> 0 <= ac_discont_wait cfg -> ad_ok rate sofar ad -> tracks cfg rate bpf g ad ->
  0 <= fst (times bpf x) < 2 ^ 62 -> 0 <= snd (times bpf x) -> sofar + snd (times bpf x) <= rate * 2 ^ 31 ->
  AudioDiscont_process_input cfg (ab_flagged x) rate (fst (times bpf x)) (snd (times bpf x)) ad = Ok (d, ad') ->
  (d = true -> ~ continues cfg rate bpf g x) /\ (d = false -> continues cfg rate bpf g x /\ tracks cfg rate bpf (g ++ [x]) ad').
Proof.
  intros Hr Hw Had Ht Hp Hk Hs HK. pose proof Had as [A1 A2 A3 A4 A5].
  destruct (process_input_total cfg (ab_flagged x) rate (fst (times bpf x)) (snd (times bpf x)) sofar ad Hr Hp Hk Hs Had)
    as (d0 & ad0 & HK' & Eb & _ & Hflag & Hnone & _). rewrite HK in HK'. injection HK' as <- <-.
  destruct g as [|first rest]; cbn [tracks continues] in *; [rewrite (Hnone Ht); split; [tauto|done]|]. destruct Ht as (Hall & Hb & Ht).
  destruct (ab_flagged x) eqn:Ef; [rewrite (Hflag eq_refl); split; [by intros _ [? _]|done]|].
  cbn [map] in Hall. apply Forall_cons in Hall as [[Hf0 Hk0] Hall].
  assert (Hall' : Forall (fun x => 0 <= fst x < 2 ^ 62 /\ 0 <= snd x) (map (times bpf) (rest ++ [x])))
    by (rewrite map_app; apply Forall_app_2; [done|constructor; [by split|constructor]]).
  destruct cfg as [[thr|] wait]; cbn [ac_alignment_threshold ac_discont_wait] in *.
  - destruct Ht as [Hi Hrem]. rewrite map_app in *. cbn [map] in *.
    assert (A4' : 0 <= snd (times bpf first) + samples (map (times bpf) rest) <= sofar) by (rewrite Hi in A4; exact A4). pose proof (samples_nonneg _ Hall) as Hn.
    destruct (discont_step thr wait rate (fst (times bpf first)) (snd (times bpf first)) (map (times bpf) rest ++ [times bpf x])
      Hr Hf0 Hk0 Hw ltac:(rewrite samples_app; change (samples [times bpf x]) with (snd (times bpf x) + 0); lia) Hall' (fst (times bpf x)) (snd (times bpf x)) [] (map (times bpf) rest) ad)
      as (d1 & ad1 & HK' & Hj & Hnext); [by destruct (times bpf x)|done..| |done|].
    { rewrite length_map. apply remembers_app; [by rewrite length_map|done]. }
    rewrite HK in HK'. injection HK' as <- <-. rewrite length_map in *. split.
    + intros Ed [_ Hnj]. by apply Hnj, Hj.
    + intros Ed. destruct (Hnext Ed) as (_ & _ & N3 & N4 & N5 & _). rewrite <- surjective_pairing in N4.
      split; [split; [done|]; intros Hjj; apply Hj in Hjj; congruence|]. split; [cbn; constructor; [done|]; by rewrite map_app|]. split; [done|]. rewrite map_app, length_app. cbn [map length]. rewrite Nat.add_1_r. done.
  - unfold AudioDiscont_process_input in HK. cbn [ac_alignment_threshold] in HK. rewrite A1 in HK.
    set (ad1 := match ad_last_rate ad with Some _ => _ | None => _ end) in HK.
    assert (E0 : ad1 = ad) by (subst ad1; destruct A2 as [-> | ->]; [done|by rewrite Z.eqb_refl]). rewrite E0 in HK.
    cbn in HK. rewrite Hb in HK. injection HK as <- <-. split; [done|].
    intros _. split; [done|]. split; [cbn; by constructor|]. done.
Qed.
End Tracking.

(** A negotiated payloader, and the packet sizes its settings give. *)
Definition sending `{Gst} (settings : AudioPaySettings) (limit rate bpf mn mx mult : Z) (st : AudioPayState) : Prop :=
  au_clock_rate st = Some rate /\ au_bpf st = Some bpf /\ calculate_packet_sizes settings st limit rate bpf = Ok (mn, mx, mult).

Lemma sending_kept `{Gst} settings limit rate bpf mn mx mult st st' :
  only_sent st st' -> sending settings limit rate bpf mn mx mult st -> sending settings limit rate bpf mn mx mult st'.
Proof.
  intros (E1 & E2 & E3 & E4 & _) (S1 & S2 & S3). split; [congruence|]. split; [congruence|]. by rewrite (sizes_same _ st).
Qed.

Section Stream.
Context `{Gst} `{GstTime} `{GstSigned} `{!GstLaws} `{!GstSignedLaws} `{!ClockAddLaws}.
Context `{RtpBasePay2} `{!RtpBasePayOffset} (limit : Z) `{!AcceptingOffsets limit}.
Context (settings : AudioPaySettings) (rate bpf mn mx mult : Z).
Hypotheses (Hbpf : 0 < bpf) (Hrate : 0 < rate < U32) (Hlimit : 0 <= limit) (Hroom : mult <= mx) (Hwait : 0 <= ac_discont_wait (as_audio_discont settings)).
Abbreviation continuing := (continues (as_audio_discont settings) rate bpf).
Abbreviation tracked := (tracks (as_audio_discont settings) rate bpf).
Implicit Types (st : AudioPayState) (b : RtpBase.BasePay).

Lemma drain_packets_spec force total st b :
  sending settings limit rate bpf mn mx mult st -> audio_queued mult total st -> total < U64 ->
  exists st' b' ps,
    audio_drain_packets settings force (st, b) = (Done tt, (st', b')) /\ stamped b' = stamped b ++ ps /\
    audio_packets bpf mult mx (ad_next_out_offset (au_audio_discont st)) (queue_data (au_queued_buffers st)) ps
      (ad_next_out_offset (au_audio_discont st')) (queue_data (au_queued_buffers st')) /\
    audio_queued mult total st' /\ only_sent st st' /\ au_queued_bytes st' < mn /\ (force = true -> au_queued_bytes st' = 0).
Proof.
  intros (S1 & S2 & S3) Hq Ht. destruct (sizes_inv _ _ _ _ _ _ _ _ S3 Hbpf Hlimit) as (Hm & _ & Hmn).
  unfold audio_drain_packets, mbind, M_bind, get_. cbn [fst snd]. rewrite S1, S2. cbn [unwrap of_res]. rewrite offsets_size, S3.
  cbn [of_res]. apply (drain_loop_spec limit force mn mx mult bpf total); [done..|auto|done|done|lia].
Qed.

(** The state between two buffers, after [sofar] bytes. *)
Record audio_inv (sofar : Z) (st : AudioPayState) : Prop := {
  ai_sending : sending settings limit rate bpf mn mx mult st;
  ai_queued : audio_queued mult sofar st;
  ai_discont : ad_ok rate sofar (au_audio_discont st);
  ai_fresh : ad_base_pts (au_audio_discont st) = None -> queue_data (au_queued_buffers st) = [];
}.

Lemma audio_queued_kept total st st' :
  audio_queued mult total st -> au_queued_buffers st' = au_queued_buffers st -> au_queued_bytes st' = au_queued_bytes st ->
  ad_next_out_offset (au_audio_discont st') = ad_next_out_offset (au_audio_discont st) -> audio_queued mult total st'.
Proof. intros [Q1 Q2 Q3 Q4 Q5] E1 E2 E3. constructor; rewrite ?E1, ?E2, ?E3; done. Qed.

(** A buffer joins the queue, and what is enough is sent. *)
Lemma enqueue_spec id data sofar st b :
  sending settings limit rate bpf mn mx mult st -> audio_queued mult sofar st -> (mult | Z.of_nat (length data)) ->
  sofar + Z.of_nat (length data) < U64 ->
  exists st' b' ps,
    (s ← get_; bytes ← of_res (u64_add (au_queued_bytes (fst s)) (Z.of_nat (length data)));
     _ ← on_audio (fun st => st <| au_queued_bytes := bytes |> <| au_queued_buffers ::= fun l => l ++ [mkQueuedBuffer id data 0] |>);
     audio_drain_packets settings false) (st, b) = (Done tt, (st', b')) /\
    stamped b' = stamped b ++ ps /\
    audio_packets bpf mult mx (ad_next_out_offset (au_audio_discont st)) (queue_data (au_queued_buffers st) ++ data) ps
      (ad_next_out_offset (au_audio_discont st')) (queue_data (au_queued_buffers st')) /\
    audio_queued mult (sofar + Z.of_nat (length data)) st' /\ only_sent st st' /\ au_queued_bytes st' < mn.
Proof.
  intros Hs [Q1 Q2 Q3 Q4 Q5] Hd Ht. unfold mbind, M_bind, get_. cbn [fst snd].
  rewrite (proj2 (u64_add_ok _ _ _)) by (split; [reflexivity|lia]). cbn [of_res]. unfold on_audio, upd_. cbn [fst snd].
  set (st1 := modify _ _ _).
  assert (Eb : au_queued_buffers st1 = au_queued_buffers st ++ [mkQueuedBuffer id data 0]) by done.
  assert (Ey : au_queued_bytes st1 = au_queued_bytes st + Z.of_nat (length data)) by done.
  assert (Ea : au_audio_discont st1 = au_audio_discont st) by done.
  destruct (drain_packets_spec false (sofar + Z.of_nat (length data)) st1 b) as (st' & b' & ps & HK & Hst & Hp & Hq & Ho & Hmn & _).
  - exact Hs.
  - constructor; rewrite ?Eb, ?Ey, ?Ea; [apply Forall_app_2; [done|constructor; [unfold qb_ok; cbn; lia|done]]|
      rewrite queue_data_snoc, length_app; lia|by apply Z.divide_add_r|done|lia].
  - done.
  - exists st', b', ps. rewrite Eb, Ea, queue_data_snoc in Hp. by split_and!.
Qed.

(** What is queued is sent, and the stream starts anew. *)
Lemma resync_spec pts k sofar st b :
  sending settings limit rate bpf mn mx mult st -> audio_queued mult sofar st -> sofar < U64 ->
  (ad_base_pts (au_audio_discont st) = None -> queue_data (au_queued_buffers st) = []) ->
  exists st' b' ps next,
    audio_resync settings pts k (st, b) = (Done tt, (st', b')) /\ stamped b' = stamped b ++ ps /\
    audio_packets bpf mult mx (ad_next_out_offset (au_audio_discont st)) (queue_data (au_queued_buffers st)) ps next [] /\
    sending settings limit rate bpf mn mx mult st' /\ audio_queued mult sofar st' /\ queue_data (au_queued_buffers st') = [] /\
    au_audio_discont st' = mkAudioDiscont false (Some pts) None (Some k) None None.
Proof.
  intros Hs Hq Ht Hf. unfold audio_resync, mbind, M_bind, get_. cbn [fst snd].
  destruct (ad_base_pts (au_audio_discont st)) as [base|]; cbn [is_some].
  - destruct (drain_packets_spec true sofar st b Hs Hq Ht) as (st1 & b1 & ps & -> & Hst & Hp & Hq1 & Ho & _ & H0').
    specialize (H0' eq_refl). assert (E : queue_data (au_queued_buffers st1) = []) by (apply length_zero_iff_nil; pose proof (aq_bytes _ _ _ Hq1); lia).
    rewrite E in Hp. do 2 eexists. exists ps, (ad_next_out_offset (au_audio_discont st1)). split; [reflexivity|]. split; [done|].
    split; [done|]. split; [exact (sending_kept _ _ _ _ _ _ _ _ _ Ho Hs)|]. destruct Hq1 as [Q1 Q2 Q3 Q4 Q5].
    split; [|by split]. constructor; cbn; try done. lia.
  - specialize (Hf eq_refl). do 2 eexists. exists [], (ad_next_out_offset (au_audio_discont st)). split; [reflexivity|].
    split; [by rewrite app_nil_r|]. split; [rewrite Hf; constructor|]. split; [exact Hs|]. destruct Hq as [Q1 Q2 Q3 Q4 Q5].
    split; [|by split]. constructor; cbn; try done. lia.
Qed.

(** One buffer: it continues what is queued, or that is sent and it starts anew. *)
Lemma handle_buffer_spec x id sofar st b g :
  audio_inv sofar st -> tracked g (au_audio_discont st) -> ab_ok mult x -> sofar + Z.of_nat (length (ab_bytes x)) <= rate * 2 ^ 31 ->
  exists st' b' ps,
    audio_pay_handle_buffer settings x id (st, b) = (Done tt, (st', b')) /\ stamped b' = stamped b ++ ps /\
    audio_inv (sofar + Z.of_nat (length (ab_bytes x))) st' /\ au_queued_bytes st' < mn /\
    ((continuing g x /\ tracked (g ++ [x]) (au_audio_discont st') /\
      audio_packets bpf mult mx (ad_next_out_offset (au_audio_discont st)) (queue_data (au_queued_buffers st) ++ ab_bytes x) ps
        (ad_next_out_offset (au_audio_discont st')) (queue_data (au_queued_buffers st'))) \/
     ~ continuing g x /\ tracked [x] (au_audio_discont st') /\ exists ps1 ps2 next, ps = ps1 ++ ps2 /\
       audio_packets bpf mult mx (ad_next_out_offset (au_audio_discont st)) (queue_data (au_queued_buffers st)) ps1 next [] /\
       audio_packets bpf mult mx None (ab_bytes x) ps2
         (ad_next_out_offset (au_audio_discont st')) (queue_data (au_queued_buffers st'))).
Proof.
  intros [Hs Hq Had Hfresh] Hg ([data Hdata] & Hdiv & Hpts) Ht.
  assert (Ed : ab_bytes x = data) by (unfold ab_bytes; by rewrite Hdata). rewrite Ed in *.
  destruct (ab_pts x) as [pts|] eqn:Ep; [|done]. pose proof Hs as (S1 & S2 & S3). pose proof (do_in _ _ _ Had) as Hin.
  unfold audio_pay_handle_buffer. rewrite Hdata, Ep, (M_bind_done _ _ _ data (st, b)) by done.
  rewrite (M_bind_done _ _ _ pts (st, b)), (M_bind_done _ _ _ (st, b) (st, b)) by done. cbn [fst snd]. rewrite S1, S2.
  unfold usize_div. rewrite (proj2 (Z.eqb_neq bpf 0)) by lia. assert (Hlen : 0 <= Z.of_nat (length data)) by lia.
  set (len := Z.of_nat (length data)) in *. set (k := len / bpf).
  assert (Hk : 0 <= k <= len) by (split; [apply Z.div_pos; lia|apply Z.div_le_upper_bound; nia]).
  rewrite (M_bind_done _ _ _ k (st, b)) by done. fold (ab_flagged x).
  destruct (process_input_total (as_audio_discont settings) (ab_flagged x) rate pts k sofar _ Hrate Hpts (proj1 Hk) ltac:(lia) Had)
    as (discont & ad' & HK & Eb & Eo & Hflag & Hnone & Hok).
  assert (Et : times bpf x = (pts, k)) by (unfold times; by rewrite Ep, Ed).
  destruct (process_tracks (as_audio_discont settings) rate bpf g x sofar _ discont ad' Hrate Hwait Had Hg) as [Hcont Htr];
    [rewrite Et; done || cbn; lia..|by rewrite Et|].
  rewrite (M_bind_done _ _ _ (discont, ad') (st, b)) by (by rewrite HK).
  set (st1 := st <| au_audio_discont := ad' |>). rewrite (M_bind_done _ _ _ tt (st1, b)) by done.
  assert (Hs1 : sending settings limit rate bpf mn mx mult st1) by exact Hs.
  assert (Hq1 : audio_queued mult sofar st1) by (by apply (audio_queued_kept _ st)). destruct discont.
  - destruct (resync_spec pts k sofar st1 b Hs1 Hq1 ltac:(lia)) as (st2 & b2 & ps1 & next & HR & Hst2 & Hp1 & Hs2 & Hq2 & He2 & Ha2).
    { intros E. apply Hfresh. by rewrite <- Eb. }
    rewrite (M_bind_done _ _ _ tt (st2, b2)) by done.
    destruct (enqueue_spec id data sofar st2 b2 Hs2 Hq2 Hdiv) as (st3 & b3 & ps2 & HE & Hst3 & Hp2 & Hq3 & Ho3 & Hmn); [lia|].
    exists st3, b3, (ps1 ++ ps2). split; [exact HE|]. split; [by rewrite Hst3, Hst2, app_assoc|].
    assert (Ea3 : au_audio_discont st3 = mkAudioDiscont false (Some pts) (ad_next_out_offset (au_audio_discont st3)) (Some k) None None)
      by (destruct Ho3 as (_ & _ & _ & _ & Ho3); by rewrite Ha2 in Ho3).
    rewrite Ha2, He2 in Hp2. cbn in Hp2. split; [|split; [done|]].
    + constructor; [by apply (sending_kept _ _ _ _ _ _ _ _ _ Ho3)|done| |by rewrite Ea3]. rewrite Ea3. constructor; cbn; auto; lia.
    + right. split; [by apply Hcont|]. split.
      * unfold tracks. cbn [map]. rewrite Et, Ea3. cbn. split; [constructor; [cbn; lia|constructor]|]. split; [done|].
        destruct (ac_alignment_threshold _); [|done]. split; [by rewrite Z.add_0_r|by left].
      * exists ps1, ps2, next. split; [done|]. split; [|done]. cbn in Hp1. by rewrite Eo in Hp1.
  - specialize (Hok eq_refl). rewrite (M_bind_done _ _ _ tt (st1, b)) by done.
    destruct (enqueue_spec id data sofar st1 b Hs1 Hq1 Hdiv) as (st3 & b3 & ps2 & HE & Hst3 & Hp2 & Hq3 & Ho3 & Hmn); [lia|].
    assert (Hbase : is_Some (ad_base_pts (au_audio_discont st))) by (destruct (ad_base_pts (au_audio_discont st)); [done|by discriminate Hnone]).
    exists st3, b3, ps2. split; [exact HE|]. split; [done|]. destruct Ho3 as (O1 & O2 & O3 & O4 & O5).
    assert (Eb3 : ad_base_pts (au_audio_discont st3) = ad_base_pts (au_audio_discont st)) by (rewrite O5; by cbn).
    split; [|split; [done|]].
    + constructor; [by apply (sending_kept _ _ _ _ _ _ _ st1); [repeat split|]|done| |intros E; rewrite Eb3 in E; by destruct Hbase; congruence].
      destruct Hok as [K1 K2 K3 K4 K5]. rewrite O5. constructor; cbn; auto. lia.
    + left. destruct (Htr eq_refl) as [Hc Htr']. split; [done|]. split; [|cbn in Hp2; by rewrite Eo in Hp2].
      assert (Esame : ad_base_pts (au_audio_discont st3) = ad_base_pts ad' /\ ad_next_in_offset (au_audio_discont st3) = ad_next_in_offset ad' /\
        ad_discont_time (au_audio_discont st3) = ad_discont_time ad') by (rewrite O5; by cbn).
      destruct Esame as (E1 & E2 & E3). unfold tracks in *. rewrite E1, E2, E3. exact Htr'.
Qed.

(** *** Any buffers *)
Definition group_data (g : list AudioBuffer) : list Z := concat (map ab_bytes g).

(** Buffers that belong together, and their packets. *)
Definition group_sent (g : list AudioBuffer * list (PayPacket * PayTimestampOffset)) : Prop :=
  fst g <> [] /\ whole (as_audio_discont settings) rate bpf (fst g) /\
  exists next, audio_packets bpf mult mx None (group_data (fst g)) (snd g) next [].

(** The packets so far: whole groups, and those of the group that goes on. *)
Definition history (seen : list AudioBuffer) (out : list (PayPacket * PayTimestampOffset)) (g : list AudioBuffer) (st : AudioPayState) : Prop :=
  exists closed ps, seen = concat (map fst closed) ++ g /\ out = concat (map snd closed) ++ ps /\ Forall group_sent closed /\
    whole (as_audio_discont settings) rate bpf g /\ separate (as_audio_discont settings) rate bpf (map fst closed ++ [g]) /\
    (g = [] -> closed = []) /\
    audio_packets bpf mult mx None (group_data g) ps (ad_next_out_offset (au_audio_discont st)) (queue_data (au_queued_buffers st)).

Fixpoint feed_audio (bs : list (AudioBuffer * Z)) : M (AudioPayState * RtpBase.BasePay) unit :=
  match bs with
  | [] => mret tt
  | (x, id) :: bs => _ ← audio_pay_handle_buffer settings x id; feed_audio bs
  end.

Lemma group_data_snoc g x : group_data (g ++ [x]) = group_data g ++ ab_bytes x.
Proof. unfold group_data. rewrite map_app, concat_app. cbn. by rewrite app_nil_r. Qed.

Lemma audio_packets_empty next ps next' rest : audio_packets bpf mult mx next [] ps next' rest -> ps = [].
Proof.
  intros Hp. pose proof (audio_packets_bytes _ _ _ _ _ _ _ _ Hp) as E. pose proof (audio_packets_each _ _ _ _ _ _ _ _ Hp) as Hf.
  destruct ps as [|p ps]; [done|]. apply Forall_cons in Hf as [[Hl _] _]. cbn in E. destruct (pp_payload (fst p)); [cbn in Hl; lia|done].
Qed.

(** The open group is closed. *)
Lemma close_group closed g ps ps1 next :
  Forall group_sent closed -> whole (as_audio_discont settings) rate bpf g -> g <> [] ->
  audio_packets bpf mult mx None (group_data g) (ps ++ ps1) next [] ->
  let closed' := closed ++ [(g, ps ++ ps1)] in
  Forall group_sent closed' /\ map fst closed' = map fst closed ++ [g] /\ concat (map fst closed') = concat (map fst closed) ++ g /\
  concat (map snd closed') = concat (map snd closed) ++ ps ++ ps1.
Proof.
  intros Hc Hg Hne Hp. cbv zeta. rewrite !map_app, !concat_app. cbn. rewrite !app_nil_r. split; [|done].
  apply Forall_app_2; [done|]. constructor; [|done]. split; [done|]. split; [done|]. by exists next.
Qed.

Lemma history_step seen out g st st' x ps :
  history seen out g st ->
  ((continuing g x /\ tracked (g ++ [x]) (au_audio_discont st') /\
    audio_packets bpf mult mx (ad_next_out_offset (au_audio_discont st)) (queue_data (au_queued_buffers st) ++ ab_bytes x) ps
      (ad_next_out_offset (au_audio_discont st')) (queue_data (au_queued_buffers st'))) \/
   ~ continuing g x /\ tracked [x] (au_audio_discont st') /\ exists ps1 ps2 next, ps = ps1 ++ ps2 /\
     audio_packets bpf mult mx (ad_next_out_offset (au_audio_discont st)) (queue_data (au_queued_buffers st)) ps1 next [] /\
     audio_packets bpf mult mx None (ab_bytes x) ps2
       (ad_next_out_offset (au_audio_discont st')) (queue_data (au_queued_buffers st'))) ->
  exists g', history (seen ++ [x]) (out ++ ps) g' st' /\ tracked g' (au_audio_discont st').
Proof.
  intros (closed & ps0 & -> & -> & Hc & Hg & Hsep & Hnil & Hp0) [(Hf & Ht & Hp)|(Hf & Ht & ps1 & ps2 & next & -> & Hp1 & Hp2)].
  - assert (Hne : g <> []) by (by intros ->). exists (g ++ [x]). split; [|done].
    exists closed, (ps0 ++ ps). rewrite !app_assoc. split_and!; try done.
    + by apply whole_snoc.
    + by apply separate_grow.
    + by destruct g.
    + rewrite group_data_snoc. by eapply audio_packets_app.
  - exists [x]. split; [|done]. rewrite <- (app_nil_l (ab_bytes x)) in Hp2.
    assert (Hone : whole (as_audio_discont settings) rate bpf [x]) by (intros [|y pre] z post [= _ E]; [done|by destruct pre]).
    assert (Hcl : audio_packets bpf mult mx None (group_data g) (ps0 ++ ps1) next []).
    { rewrite <- (app_nil_r (group_data g)). eapply audio_packets_app; [exact Hp0|by rewrite app_nil_r]. }
    destruct (decide (g = [])) as [->|Hne].
    + rewrite (Hnil eq_refl). apply audio_packets_empty in Hcl. apply app_eq_nil in Hcl as [-> ->].
      exists [], ps2. cbn. rewrite app_nil_r. split_and!; done.
    + destruct (close_group closed g ps0 ps1 next Hc Hg Hne Hcl) as (Hc' & E0 & E1 & E2).
      exists (closed ++ [(g, ps0 ++ ps1)]), ps2. rewrite E1, E2, E0, <- !app_assoc. split_and!; try done.
      * rewrite (app_assoc (map fst closed)). by apply separate_new.
      * cbn. by rewrite app_nil_r.
Qed.

Lemma feed_audio_spec bs : forall sofar st b seen out g,
  audio_inv sofar st -> tracked g (au_audio_discont st) -> Forall (fun x => ab_ok mult (fst x)) bs ->
  sofar + Z.of_nat (length (group_data (map fst bs))) <= rate * 2 ^ 31 -> history seen out g st ->
  exists st' b' ps sofar' g', feed_audio bs (st, b) = (Done tt, (st', b')) /\ stamped b' = stamped b ++ ps /\
    audio_inv sofar' st' /\ sofar' <= rate * 2 ^ 31 /\ history (seen ++ map fst bs) (out ++ ps) g' st'.
Proof.
  induction bs as [|[x id] bs IH]; intros sofar st b seen out g Hi Hg Hok Ht Hh.
  { exists st, b, [], sofar, g. cbn in *. rewrite !app_nil_r. split_and!; try done. lia. }
  apply Forall_cons in Hok as [Hx Hok]. cbn [map fst] in *. change (group_data (x :: ?l)) with (ab_bytes x ++ group_data l) in Ht.
  rewrite length_app in Ht. destruct (handle_buffer_spec x id sofar st b g Hi Hg Hx ltac:(lia)) as (st1 & b1 & ps1 & HK & Hs1 & Hi1 & _ & Hc).
  cbn [feed_audio]. rewrite (M_bind_done _ _ _ tt (st1, b1)) by done.
  destruct (history_step _ _ _ _ _ _ _ Hh Hc) as (g1 & Hh1 & Hg1).
  destruct (IH _ st1 b1 (seen ++ [x]) (out ++ ps1) g1 Hi1 Hg1 Hok ltac:(lia) Hh1)
    as (st2 & b2 & ps2 & sofar' & g2 & HF & Hs2 & Hi2 & Hle & Hh2).
  exists st2, b2, (ps1 ++ ps2), sofar', g2. rewrite <- !app_assoc in Hh2. split; [done|]. split; [by rewrite Hs2, Hs1, app_assoc|]. done.
Qed.

(** Buffers, and then everything that is left. *)
Lemma audio_run_spec bs st b :
  sending settings limit rate bpf mn mx mult st -> au_queued_buffers st = [] -> au_queued_bytes st = 0 ->
  au_audio_discont st = AudioDiscont_default -> Forall (fun x => ab_ok mult (fst x)) bs ->
  Z.of_nat (length (group_data (map fst bs))) <= rate * 2 ^ 31 ->
  exists st' b' groups,
    (_ ← feed_audio bs; audio_pay_drain settings) (st, b) = (Done tt, (st', b')) /\ au_queued_bytes st' = 0 /\
    map fst bs = concat (map fst groups) /\ stamped b' = stamped b ++ concat (map snd groups) /\ Forall group_sent groups /\
    separate (as_audio_discont settings) rate bpf (map fst groups).
Proof.
  intros Hs Hq0 Hb0 Ha0 Hok Ht.
  assert (Hi : audio_inv 0 st).
  { constructor; [done| | |by rewrite Hq0].
    - constructor; rewrite ?Hq0, ?Hb0, ?Ha0; cbn; try done. apply Z.divide_0_r.
    - rewrite Ha0. constructor; cbn; auto. lia. }
  assert (Hh : history [] [] [] st).
  { exists [], []. rewrite Hq0, Ha0. split_and!; try done; [by intros [|? ?] ? ? [=]|constructor]. }
  destruct (feed_audio_spec bs 0 st b [] [] [] Hi ltac:(by rewrite Ha0) Hok ltac:(lia) Hh)
    as (st1 & b1 & ps & sofar & g & HF & Hs1 & [Hs' Hq' _ _] & Hle & Hh1).
  rewrite (M_bind_done _ _ _ tt (st1, b1)) by done.
  destruct (drain_packets_spec true sofar st1 b1 Hs' Hq' ltac:(lia)) as (st2 & b2 & ps2 & HD & Hs2 & Hp & Hq2 & _ & _ & Hz).
  specialize (Hz eq_refl). assert (E : queue_data (au_queued_buffers st2) = []) by (apply length_zero_iff_nil; pose proof (aq_bytes _ _ _ Hq2); lia).
  rewrite E in Hp. destruct Hh1 as (closed & ps0 & E1 & E2 & Hc & Hg & Hsep & Hnil & Hp0). cbn [app] in E1, E2.
  assert (Hcl : audio_packets bpf mult mx None (group_data g) (ps0 ++ ps2) (ad_next_out_offset (au_audio_discont st2)) []).
  { rewrite <- (app_nil_r (group_data g)). eapply audio_packets_app; [exact Hp0|by rewrite app_nil_r]. }
  destruct (decide (g = [])) as [->|Hne].
  - rewrite (Hnil eq_refl) in *. apply audio_packets_empty in Hcl. apply app_eq_nil in Hcl as [-> ->].
    exists st2, b2, []. cbn in *. split_and!; try done. by rewrite Hs2, Hs1, E2, !app_nil_r.
  - destruct (close_group closed g ps0 ps2 _ Hc Hg Hne Hcl) as (Hgr & E0 & E3 & E4).
    eexists st2, b2, _. split; [exact HD|]. split; [done|]. split; [by rewrite E3|]. split; [|split; [exact Hgr|by rewrite E0]].
    by rewrite Hs2, Hs1, E2, E4, <- !app_assoc.
Qed.
End Stream.

(** ** Properties *)


(** When an unflagged audio stream is taken for discontinuous. After a
    resync, with the timestamps of up to 68 years of audio, no step panics, and
    the first buffer reported is the first one for which the timestamps have been
    off by the threshold or more since some buffer, without a break, and are now
    the waiting time or more away from the time that buffer should have had. *)
Lemma audio_discont_detects `{Gst} `{GstTime} `{GstSigned} `{!GstLaws} `{!GstSignedLaws} `{!ClockAddLaws}
    thr wait rate base k0 bs ad :
  0 < rate < U32 -> 0 <= base < 2 ^ 62 -> 0 <= k0 -> 0 <= wait -> k0 + samples bs <= rate * 2 ^ 31 ->
  Forall (fun x => 0 <= fst x < 2 ^ 62 /\ 0 <= snd x) bs ->
  exists r, first_discont (mkAudioDiscontConfiguration (Some thr) wait) rate bs (AudioDiscont_resync base k0 ad) = Ok r /\
    match r with
    | Some i => (i < length bs)%nat /\ jump_at thr wait rate base k0 bs i /\
        forall m, (m < i)%nat -> ~ jump_at thr wait rate base k0 bs m
    | None => forall m, (m < length bs)%nat -> ~ jump_at thr wait rate base k0 bs m
    end.
Proof.
  intros Hr Hb Hk Hw Ht Hbs.
  destruct (first_discont_from thr wait rate base k0 bs Hr Hb Hk Hw Ht Hbs bs [] (AudioDiscont_resync base k0 ad)) as (r & HK & HR);
    [done|done|by left|done|by cbn; rewrite Z.add_0_r|by left|done|].
  exists r. split; [done|]. destruct r as [i|].
  - destruct HR as (Hi & Hj & Hm). split; [done|]. split; [done|]. intros m Hlt. apply Hm. cbn. lia.
  - intros m Hlt. apply HR. cbn. lia.
Qed.

(** Draining an audio payloader may not end. When less than one multiple is
    queued (the rest of a stream with the ptime-multiple property set), a forced
    drain queues packets with no payload, one per round, and the bytes are never
    sent: after any number of rounds the loop is still running. *)
Lemma audio_drain_never_ends `{Gst} `{GstTime} `{GstSigned} `{RtpBasePay2} `{!RtpBasePayOffset} (limit : Z) `{!AcceptingOffsets limit}
    mn mx mult bpf st b fuel :
  0 < bpf -> 0 <= mx -> Forall qb_ok (au_queued_buffers st) ->
  au_queued_bytes st = Z.of_nat (length (queue_data (au_queued_buffers st))) -> 0 < au_queued_bytes st < mult ->
  0 <= default 0 (ad_next_out_offset (au_audio_discont st)) < U64 ->
  exists st' b' ps, drain_loop fuel true mn mx mult bpf (st, b) = (Crash, (st', b')) /\ stamped b' = stamped b ++ ps /\
    length ps = fuel /\ Forall (fun x => pp_payload (fst x) = []) ps /\ au_queued_bytes st' = au_queued_bytes st.
Proof.
  intros Hb Hx. revert st b. induction fuel as [|fuel IH]; intros st b Hok Hby Hq Hn.
  { exists st, b, []. rewrite app_nil_r. by split_and!. }
  cbn [drain_loop]. unfold mbind, M_bind, get_ at 1. cbn [fst snd]. rewrite Z.gtb_ltb, (proj2 (Z.ltb_lt 0 _)) by lia.
  cbn [andb]. rewrite orb_true_r.
  assert (En : Z.min mx (au_queued_bytes st) - Z.min mx (au_queued_bytes st) mod mult = 0) by (rewrite Z.mod_small; lia).
  destruct (drain_packet_run limit mx mult bpf st b Hok Hby) as (st1 & b1 & start & e & -> & Hs1 & Hok1 & Hb1 & Hd1 & Hn1 & _);
    [intros E; rewrite E in Hby; cbn in Hby; lia|lia|lia|lia|rewrite En, Z.div_0_l by lia; lia|].
  rewrite En in *. rewrite Z.div_0_l in Hn1 by lia. change (Z.to_nat 0) with 0%nat in *. rewrite drop_0 in Hd1. rewrite take_0 in Hs1.
  destruct (IH st1 b1) as (st2 & b2 & ps & -> & Hs2 & Hl & Hf & Hq2);
    [done|by rewrite Hb1, Hd1, Z.sub_0_r|by rewrite Hb1, Z.sub_0_r|rewrite Hn1; cbn; lia|].
  eexists st2, b2, (_ :: ps). split; [reflexivity|]. split; [rewrite Hs2, Hs1, <- app_assoc; reflexivity|].
  split; [cbn; by rewrite Hl|]. split; [by constructor|]. rewrite Hq2, Hb1. lia.
Qed.

(** ** Witnesses *)
Definition keep_stamped (limit : Z) : RtpBasePay2 :=
  {| RtpBase.BasePay := list (PayPacket * PayTimestampOffset); max_payload_size _ := limit; queue_packet _ b := (Done tt, b) |}.

Definition keep_stamped_offset (limit : Z) : @RtpBasePayOffset (keep_stamped limit) :=
  {| queue_packet_offset p o (b : @RtpBase.BasePay (keep_stamped limit)) := (Done tt, b ++ [(p, o)]) |}.

Definition keep_stamped_accepting (limit : Z) : @AcceptingOffsets (keep_stamped limit) (keep_stamped_offset limit) limit.
Proof. unshelve econstructor; [exact (fun b => b)|done|]. intros p o b. by exists (b ++ [(p, o)]). Defined.

Definition signed_exact : GstSigned := {|
  signed_sub a b := exact_signed_add a (match b with Positive t => Negative t | Negative t => Positive t end);
  signed_abs s := match s with Positive t | Negative t => t end;
|}.

Lemma signed_exact_laws : @GstSignedLaws signed_exact.
Proof.
  intros a b Ha Hb. cbn. unfold exact_signed_add. rewrite (proj2 (Z.ltb_lt _ _)) by lia. eexists. split; [reflexivity|].
  destruct (Z.leb_spec 0 (a + - b)); cbn; lia.
Qed.

(** 8 kHz, two bytes per frame, 12 bytes in a packet. *)
Definition example_audio : AudioPayState := mkAudioPayState (Some 8000) (Some 2) None None [] 0 AudioDiscont_default.
(** The third buffer jumps, the fourth is flagged. *)
Definition example_stream : list (AudioBuffer * Z) :=
  [(mkAudioBuffer (Some [1; 2; 3; 4; 5; 6; 7; 8; 9; 10; 11; 12; 13; 14; 15; 16]) (Some 0) false false, 1);
   (mkAudioBuffer (Some [17; 18]) (Some 1000000) false false, 2);
   (mkAudioBuffer (Some [19; 20]) (Some 5000000000) false false, 3);
   (mkAudioBuffer (Some [21; 22]) (Some 5000125000) true false, 4)].


(** A jump of 400 ms that stays: reported once its buffers are a second away from where it began. *)
Lemma audio_discont_detects_witness :
  exists r, @first_discont gst_exact time_exact signed_exact AudioDiscontConfiguration_default 8000
    [(1000000000, 8000); (2000000000, 4000); (2900000000, 4000); (3400000000, 4000); (3900000000, 4000)]
    (AudioDiscont_resync 0 8000 AudioDiscont_default) = Ok r /\ r = Some 4%nat /\
    jump_at 40000000 NS_PER_SEC 8000 0 8000
      [(1000000000, 8000); (2000000000, 4000); (2900000000, 4000); (3400000000, 4000); (3900000000, 4000)] 4.
Proof.
  set (bs := [_; _; _; _; _]).
  destruct (@audio_discont_detects gst_exact time_exact signed_exact gst_exact_laws signed_exact_laws clock_add_exact_laws
    40000000 NS_PER_SEC 8000 0 8000 bs AudioDiscont_default) as (r & HK & HR).
  - lia.
  - lia.
  - lia.
  - lia.
  - vm_compute. done.
  - subst bs. repeat (constructor; [cbn; lia|]). constructor.
  - exists r. split; [exact HK|]. pose proof HK as E. vm_compute in E. injection E as <-. split; [done|]. apply HR.
Defined.

(** A millisecond left over where packets are to have multiples of 20 ms. *)
Lemma audio_drain_never_ends_witness :
  exists st' sent,
    calculate_packet_sizes (H := gst_exact) (mkAudioPaySettings None 0 20000000 AudioDiscontConfiguration_default)
      (example_audio <| au_bpf := Some 1 |>) 1400 8000 1 = Ok (160, 1280, 160) /\
    @drain_loop (keep_stamped 1400) (keep_stamped_offset 1400) 1000 true 160 1280 160 1
      (example_audio <| au_bpf := Some 1 |> <| au_queued_buffers := [mkQueuedBuffer 1 [1; 2; 3; 4; 5; 6; 7; 8] 0] |>
         <| au_queued_bytes := 8 |>, []) = (Crash, (st', sent)) /\ length sent = 1000%nat /\ au_queued_bytes st' = 8.
Proof.
  set (st := modify au_queued_bytes _ _).
  destruct (@audio_drain_never_ends gst_exact time_exact signed_exact (keep_stamped 1400) (keep_stamped_offset 1400) 1400 (keep_stamped_accepting 1400)
    160 1280 160 1 st [] 1000) as (st' & b' & ps & HK & Hs & Hl & _ & Hq).
  - lia.
  - lia.
  - constructor; [by vm_compute|constructor].
  - reflexivity.
  - cbn. lia.
  - cbn. lia.
  - change (b' = ps) in Hs. subst b'. exists st', ps. split; [by vm_compute|]. split; [exact HK|]. split; [exact Hl|exact Hq].
Defined.

(** *** Inputs on which the code fails its purpose *)

(** A change of the sample rate is only reported with the buffer after the first one of the new rate. *)
Lemma audio_rate_change_late :
  let buffer pts := @AudioDiscont_process_input gst_exact time_exact signed_exact AudioDiscontConfiguration_default false 16000 pts 160 in
  match buffer NS_PER_SEC (mkAudioDiscont false (Some 0) (Some 8000) (Some 8000) None (Some 8000)) with
  | Ok (first, ad) => match buffer 1010000000 ad with Ok (second, _) => (first, second) = (false, true) | Panic => False end
  | Panic => False
  end.
Proof. by vm_compute. Qed.

(** Multiples that do not fit a packet: both limits are zero, and draining an
    empty queue looks for its first buffer. *)
Lemma audio_no_room_panics :
  let settings := mkAudioPaySettings None 0 NS_PER_SEC AudioDiscontConfiguration_default in
  calculate_packet_sizes (H := gst_exact) settings example_audio 1400 8000 2 = Ok (0, 0, 16000) /\
  @drain_packet (keep_stamped 1400) (keep_stamped_offset 1400) 0 16000 2 (example_audio, []) = (Crash, (example_audio, [])) /\
  @audio_pay_drain gst_exact (keep_stamped 1400) (keep_stamped_offset 1400) settings (example_audio, []) = (Crash, (example_audio, [])).
Proof. by vm_compute. Qed.
