(* ===== verification/LinearAudio.v ===== *)
(** * Raw and companded audio

    [linear_audio] (L8, L16, L24: channel orders and the reordering of channels
    in [common/channel_positions.rs], [pay/imp.rs], [depay/imp.rs]) and [pcmau]
    (A-law and mu-law) of the RTP plugin. *)

From stdpp Require Import strings.
From S2P Require Import Prelude Flow RtpBase BaseDepay BasePay AudioPay.
#[local] Open Scope Z_scope.

(** ** Channel positions *)

(** [gst_audio::AudioChannelPosition], as far as the code names its values. *)
Inductive ChannelPosition :=
| Mono | FrontLeft | FrontRight | FrontCenter | Lfe1 | RearLeft | RearRight | FrontLeftOfCenter | FrontRightOfCenter
| RearCenter | SideLeft | SideRight | SurroundLeft | SurroundRight | NoPosition | OtherPosition (n : Z).

#[export] Instance ChannelPosition_eq_dec : EqDecision ChannelPosition.
Proof. solve_decision. Defined.

(** [gst_audio::AudioFormat] and [AudioInfo]. *)
Inductive AudioFormat := FormatU8 | FormatS16be | FormatS24be | FormatOther.

Record AudioInfo := mkAudioInfo {
  in_format : AudioFormat;
  in_rate : Z;
  in_channels : Z;
  in_positions : option (list ChannelPosition);
  in_width : Z;
  in_bpf : Z;
}.

(** What the code uses of the gstreamer audio library; [channel_reorder_map from to]
    gives the index in [to] of every position of [from]. *)
Class GstAudio := {
  positions_to_mask : list ChannelPosition -> option Z;
  positions_to_valid_order : list ChannelPosition -> option (list ChannelPosition);
  channel_reorder_map : list ChannelPosition -> list ChannelPosition -> option (list nat);
  audio_info_build : AudioFormat -> Z -> Z -> list ChannelPosition -> option AudioInfo;
}.

Definition MAX_REORDER_CHANNELS : nat := 8.

Definition DEFAULT_1CH : list ChannelPosition := [Mono].
Definition DEFAULT_2CH : list ChannelPosition := [FrontLeft; FrontRight].
Definition DEFAULT_3CH : list ChannelPosition := [FrontLeft; FrontRight; FrontCenter].
Definition DEFAULT_4CH : list ChannelPosition := [FrontLeft; FrontRight; FrontCenter; Lfe1].
Definition DEFAULT_5CH : list ChannelPosition := [FrontLeft; FrontRight; FrontCenter; RearLeft; RearRight].
Definition DEFAULT_6CH : list ChannelPosition :=
  [FrontLeft; FrontLeftOfCenter; FrontCenter; FrontRight; FrontRightOfCenter; Lfe1].
Definition DV_4CH_1 : list ChannelPosition := [FrontLeft; FrontRight; SideLeft; SideRight].
Definition DV_4CH_2 : list ChannelPosition := [FrontLeft; FrontRight; FrontCenter; RearCenter].
Definition DV_4CH_3 : list ChannelPosition := [FrontLeft; FrontRight; FrontCenter; Lfe1].
Definition DV_5CH_1 : list ChannelPosition := [FrontLeft; FrontRight; SideLeft; SideRight; FrontCenter].
Definition DV_6CH_1 : list ChannelPosition := [FrontLeft; FrontRight; SideLeft; SideRight; FrontCenter; RearCenter].
Definition DV_6CH_2 : list ChannelPosition := [FrontLeft; FrontRight; FrontCenter; Lfe1; SideLeft; SideRight].
Definition DV_8CH_1 : list ChannelPosition :=
  [FrontLeft; FrontRight; FrontCenter; Lfe1; SideLeft; SideRight; RearLeft; RearRight].
Definition DV_8CH_2 : list ChannelPosition :=
  [FrontLeft; FrontRight; FrontCenter; Lfe1; SideLeft; SideRight; SurroundLeft; SurroundRight].
Definition DV_8CH_3 : list ChannelPosition :=
  [FrontLeft; FrontRight; FrontCenter; Lfe1; SideLeft; SideRight; RearLeft; RearRight].

Definition get_channel_order (name : option string) (n_channels : Z) : res (option (list ChannelPosition)) :=
  _ ← assert_ (0 <? n_channels);
  let name := default "default"%string name in
  let named s := bool_decide (name = s) in
  Ok (if n_channels =? 1 then Some DEFAULT_1CH
      else if n_channels =? 2 then Some DEFAULT_2CH
      else if n_channels =? 3 then Some DEFAULT_3CH
      else if n_channels =? 4 then
        if named "DV.LRLsRs"%string then Some DV_4CH_1
        else if named "DV.LRCS"%string then Some DV_4CH_2
        else if named "DV.LRCWo"%string then Some DV_4CH_3
        else Some DEFAULT_4CH
      else if n_channels =? 5 then
        if named "DV.LRLsRsC"%string then Some DV_5CH_1 else Some DEFAULT_5CH
      else if n_channels =? 6 then
        if named "DV.LRLsRsCS"%string then Some DV_6CH_1
        else if named "DV.LmixRmixTWoQ1Q2"%string then Some DV_6CH_2
        else Some DEFAULT_6CH
      else if n_channels =? 8 then
        if named "DV.LRCWoLsRsLmixRmix"%string then Some DV_8CH_1
        else if named "DV.LRCWoLs1Rs1Ls2Rs2"%string then Some DV_8CH_2
        else if named "DV.LRCWoLsRsLcRc"%string then Some DV_8CH_3
        else None
      else None).

Definition CHANNEL_MAPPINGS : list (list ChannelPosition * string) :=
  [(DEFAULT_1CH, "default"%string); (DEFAULT_2CH, "default"%string); (DEFAULT_3CH, "default"%string);
   (DV_4CH_1, "DV.LRLsRs"%string); (DV_4CH_2, "DV.LRCS"%string); (DV_4CH_3, "DV.LRCWo"%string); (DEFAULT_4CH, "default"%string);
   (DV_5CH_1, "DV.LRLsRsC"%string); (DEFAULT_5CH, "default"%string);
   (DV_6CH_1, "DV.LRLsRsCS"%string); (DV_6CH_2, "DV.LmixRmixTWoQ1Q2"%string); (DEFAULT_6CH, "default"%string);
   (DV_8CH_1, "DV.LRCWoLsRsLmixRmix"%string); (DV_8CH_2, "DV.LRCWoLs1Rs1Ls2Rs2"%string); (DV_8CH_3, "DV.LRCWoLsRsLcRc"%string)].

Section Positions.
Context `{GstAudio}.

Definition positions_are_compatible (pos1 pos2 : list ChannelPosition) : bool :=
  if negb (length pos1 =? length pos2)%nat then false
  else
    match positions_to_mask pos1, positions_to_mask pos2 with
    | Some mask1, Some mask2 => mask1 =? mask2
    | _, _ => false
    end.

Definition find_channel_order_from_positions (pos : list ChannelPosition) : option string :=
  snd <$> List.find (fun m => (length (fst m) =? length pos)%nat && positions_are_compatible (fst m) pos) CHANNEL_MAPPINGS.
End Positions.

(** ** Reordering of channels *)

(** [chunks_exact]: the pieces of [k] elements, what is left over apart; [k] is not zero. *)
Fixpoint chunks_exact {A} (fuel k : nat) (l : list A) : list (list A) * list A :=
  match fuel with
  | O => ([], l)
  | S fuel =>
      if (k <=? length l)%nat
      then let r := chunks_exact fuel k (drop k l) in (take k l :: fst r, snd r)
      else ([], l)
  end.

(** One frame of samples: channel [i] goes to place [reorder_map[i]]. *)
Definition reorder_frame {T} (reorder_map : list nat) (in_frame : list T) : res (list T) :=
  res_fold (fun out_frame x =>
    let '(i, out_idx) := x in
    sample ← unwrap (in_frame !! i);
    _ ← assert_ (out_idx <? length out_frame)%nat;
    Ok (<[out_idx := sample]> out_frame)) in_frame (zip (seq 0 (length reorder_map)) reorder_map).

(** [size] bytes per sample. Casting the data panics unless it is made of whole samples. *)
Definition reorder_channels (size : nat) (reorder_map : list nat) (data : list Z) : res (list Z) :=
  let n_channels := length reorder_map in
  _ ← assert_ ((1 <=? n_channels)%nat && (n_channels <=? MAX_REORDER_CHANNELS)%nat);
  let '(samples, rest) := chunks_exact (length data) size data in
  _ ← assert_ (bool_decide (rest = []));
  let '(frames, rest) := chunks_exact (length samples) n_channels samples in
  frames ← res_fold (fun out frame => frame ← reorder_frame reorder_map frame; Ok (out ++ [frame])) [] frames;
  Ok (concat (concat frames ++ rest)).

(** Reordering by the width of samples, if there is a map. *)
Definition reorder_if_needed (width : option Z) (reorder_map : option (list nat)) (data : list Z) : res (list Z) :=
  match reorder_map with
  | None => Ok data
  | Some reorder_map =>
      width ← unwrap width;
      if width =? 8 then reorder_channels 1 reorder_map data
      else if width =? 16 then reorder_channels 2 reorder_map data
      else if width =? 24 then reorder_channels 3 reorder_map data
      else Panic
  end.

(** [NonZeroU32::new] *)
Definition non_zero (n : Z) : option Z := if n =? 0 then None else Some n.

(** ** Payloader *)

Record LinearPayState := mkLinearPayState {
  lp_width : option Z;
  lp_channel_reorder_map : option (list nat);
}.

Definition LinearPayState_default : LinearPayState := mkLinearPayState None None.

(** Output caps: [encoding-params] is the number of channels too. *)
Record LinearCaps := mkLinearCaps {
  lc_encoding_name : string;
  lc_clock_rate : Z;
  lc_channels : Z;
  lc_channel_order : option string;
}.

Section LinearPay.
Context `{GstAudio}.

(** The map from one order to the other, if they differ. *)
Definition order_map (from to : list ChannelPosition) : res (option (list nat)) :=
  if bool_decide (from = to) then Ok None
  else m ← unwrap (channel_reorder_map from to); Ok (Some m).

(** The channel order of the caps, and the map from the order of GStreamer to it. *)
Definition linear_pay_order (info : AudioInfo) : res (option string * option (list nat)) :=
  match in_positions info with
  | Some positions =>
      if in_channels info >? 2 then
        match find_channel_order_from_positions positions with
        | Some name =>
            order ← get_channel_order (Some name) (in_channels info);
            rtp_positions ← unwrap order;
            gst_positions ← unwrap (positions_to_valid_order rtp_positions);
            reorder_map ← order_map gst_positions rtp_positions;
            Ok (if bool_decide (name = "default"%string) then None else Some name, reorder_map)
        | None => Ok (None, None)
        end
      else Ok (None, None)
  | None => Ok (None, None)
  end.

(** The caps, the new state and the bytes per frame; [None] where the caps are refused. *)
Definition linear_pay_set_sink_caps (prop_pt : Z) (info : option AudioInfo) : res (option (LinearCaps * LinearPayState * Z)) :=
  match info with
  | None => Ok None
  | Some info =>
      encoding_name ← (match in_format info with
                       | FormatU8 => Ok "L8"%string
                       | FormatS16be => Ok "L16"%string
                       | FormatS24be => Ok "L24"%string
                       | FormatOther => Panic
                       end);
      let is_static channels :=
        (in_channels info =? channels) && (in_rate info =? 44100) && bool_decide (encoding_name = "L16"%string) in
      if (prop_pt =? 10) && negb (is_static 2) then Ok None
      else if (prop_pt =? 11) && negb (is_static 1) then Ok None
      else
        order ← linear_pay_order info;
        Ok (Some (mkLinearCaps encoding_name (in_rate info) (in_channels info) (fst order),
                  mkLinearPayState (non_zero (in_width info)) (snd order), in_bpf info))
  end.
End LinearPay.

Section LinearPayBuffer.
Context `{Gst} `{GstTime} `{GstSigned} `{RtpBasePay2} `{!RtpBasePayOffset}.

Definition linear_pay_handle_buffer (state : LinearPayState) (settings : AudioPaySettings) (buffer : AudioBuffer) (id : Z)
  : M (AudioPayState * RtpBase.BasePay) unit :=
  match ab_data buffer with
  | None => fail_
  | Some data =>
      data ← of_res (reorder_if_needed (lp_width state) (lp_channel_reorder_map state) data);
      audio_pay_handle_buffer settings (mkAudioBuffer (Some data) (ab_pts buffer) (ab_discont buffer) (ab_resync buffer)) id
  end.
End LinearPayBuffer.

(** ** Depayloader *)

(** An output buffer with its duration, and RESYNC at the start of a talkspurt. *)
Record AudioOut := mkAudioOut {
  ao_bytes : list Z;
  ao_duration : option Z;
  ao_resync : bool;
}.

(** [self.obj().queue_buffer(packet.into(), buffer)] for such buffers. *)
Class RtpBaseDepayAudio `{RtpBaseDepay2} := {
  queue_audio : Z * Z -> AudioOut -> RtpBase.BaseDepay -> flow unit * RtpBase.BaseDepay;
}.

Definition queue_audio_ `{RtpBaseDepayAudio} {St} (packet : DepayPacket) (out : AudioOut) : M (St * RtpBase.BaseDepay) unit :=
  fun s => let '(ret, base) := queue_audio (dp_ext_seqnum packet, dp_ext_seqnum packet) out (snd s) in (ret, (fst s, base)).

(** The input caps: [encoding-params] and a [channels] string as the numbers in
    them, if they are such, [channels] as a number. *)
Record LinearDepayCaps := mkLinearDepayCaps {
  ld_payload : option Z;
  ld_encoding_name : option string;
  ld_clock_rate : option Z;
  ld_encoding_params : option Z;
  ld_channels_string : option Z;
  ld_channels : option Z;
  ld_channel_order : option string;
}.

Record LinearDepayState := mkLinearDepayState {
  ls_clock_rate : option Z;
  ls_bpf : option Z;
  ls_width : option Z;
  ls_channel_reorder_map : option (list nat);
}.

#[export] Instance LinearDepayState_rebuild : Rebuild LinearDepayState := {|
  rebuild := fun r => mkLinearDepayState (ls_clock_rate r) (ls_bpf r) (ls_width r) (ls_channel_reorder_map r) |}.

Definition LinearDepayState_default : LinearDepayState := mkLinearDepayState None None None None.

(** [.filter(|&v| v > 0)] *)
Definition filter_positive (o : option Z) : option Z := match o with Some v => if v >? 0 then Some v else None | None => None end.

Section LinearDepay.
Context `{GstAudio}.

Definition linear_n_channels (caps : LinearDepayCaps) (implied : option Z) : Z :=
  let channels := or_else (filter_positive (ld_channels_string caps)) (filter_positive (ld_channels caps)) in
  default 1 (or_else (or_else (filter_positive (ld_encoding_params caps)) channels) implied).

(** The positions of the output, and the state with the map to them if one is needed. *)
Definition linear_depay_order (name : option string) (n_channels : Z) (state : LinearDepayState)
  : res (list ChannelPosition * LinearDepayState) :=
  order ← get_channel_order name n_channels;
  match order with
  | Some rtp_positions =>
      channel_positions ← unwrap (positions_to_valid_order rtp_positions);
      if bool_decide (rtp_positions = channel_positions) then Ok (channel_positions, state)
      else
        reorder_map ← unwrap (channel_reorder_map rtp_positions channel_positions);
        Ok (channel_positions, state <| ls_channel_reorder_map := Some reorder_map |>)
  | None => Ok (repeat NoPosition (Z.to_nat n_channels), state)
  end.

(** Whether the caps are accepted, the output format, and the new state. *)
Definition linear_depay_set_sink_caps (caps : LinearDepayCaps) (state : LinearDepayState)
  : res (option AudioInfo * LinearDepayState) :=
  let pt := filter_positive (ld_payload caps) in
  let is_pt n := bool_decide (pt = Some n) in
  let implied_clock_rate := if is_pt 10 || is_pt 11 then Some 44100 else None in
  let implied_channels := if is_pt 10 then Some 2 else if is_pt 11 then Some 1 else None in
  if (is_pt 10 || is_pt 11) && match ld_encoding_name caps with Some n => negb (bool_decide (n = "L16"%string)) | None => false end
  then Ok (None, state)
  else
    clock_rate ← unwrap (or_else (filter_positive (ld_clock_rate caps)) implied_clock_rate);
    let state := state <| ls_clock_rate := non_zero clock_rate |> in
    audio_format ← (match ld_encoding_name caps with
                    | Some n => if bool_decide (n = "L8"%string) then Ok FormatU8
                                else if bool_decide (n = "L16"%string) then Ok FormatS16be
                                else if bool_decide (n = "L24"%string) then Ok FormatS24be
                                else Panic
                    | None => Ok FormatS16be
                    end);
    let n_channels := linear_n_channels caps implied_channels in
    if is_pt 10 && negb (n_channels =? 2) then Ok (None, state)
    else if is_pt 11 && negb (n_channels =? 1) then Ok (None, state)
    else
      r ← linear_depay_order (ld_channel_order caps) n_channels state;
      let '(gst_positions, state) := r in
      audio_info ← unwrap (audio_info_build audio_format clock_rate n_channels gst_positions);
      Ok (Some audio_info,
          state <| ls_bpf := non_zero (in_bpf audio_info) |> <| ls_width := non_zero (in_width audio_info) |>).
End LinearDepay.

Section AudioDepay.
Context `{Gst} `{RtpBaseDepay2} `{!RtpBaseDepayAudio}.

Definition linear_depay_handle_packet (packet : DepayPacket) : M (LinearDepayState * RtpBase.BaseDepay) unit :=
  s ← get_;
  let state := fst s in
  clock_rate ← of_res (unwrap (ls_clock_rate state));
  bpf ← of_res (unwrap (ls_bpf state));
  let payload := dp_payload packet in
  if bool_decide (payload = []) then drop_ (dp_ext_seqnum packet) true
  else if negb (Z.of_nat (length payload) mod bpf =? 0) then drop_ (dp_ext_seqnum packet) true
  else
    frame_rate ← of_res (u64_mul bpf clock_rate);
    data ← of_res (reorder_if_needed (ls_width state) (ls_channel_reorder_map state) payload);
    queue_audio_ packet (mkAudioOut data (mul_div_floor U64 (Z.of_nat (length payload)) NS_PER_SEC frame_rate) (dp_marker_bit packet)).

(** *** A-law and mu-law

    The payloaders are the audio payloader with one byte per frame. The state of
    the depayloader is its clock rate. *)
Definition pcmau_pay_set_sink_caps (rate : option Z) : res (Z * Z) :=
  rate ← unwrap rate; _ ← assert_ (0 <=? rate); Ok (rate, 1).

Definition pcmau_depay_set_sink_caps (clock_rate : option Z) : M (option Z * RtpBase.BaseDepay) Z :=
  let clock_rate := default 8000 clock_rate in
  _ ← upd_ (fun s => (Some (wrap U32 clock_rate), snd s));
  mret clock_rate.

Definition pcmau_depay_handle_packet (packet : DepayPacket) : M (option Z * RtpBase.BaseDepay) unit :=
  s ← get_;
  clock_rate ← of_res (unwrap (fst s));
  let payload := dp_payload packet in
  queue_audio_ packet (mkAudioOut payload (mul_div_floor U64 (Z.of_nat (length payload)) NS_PER_SEC clock_rate) (dp_marker_bit packet)).
End AudioDepay.
