(* ===== verification/LinearAudioProps.v ===== *)
(** * Channel orders of raw audio

    What the payloader reorders for the wire, the depayloader puts back, however
    the audio is cut into packets; and streams for which it does not. *)

From stdpp Require Import strings.
From S2P Require Import Prelude Flow RtpBase BaseDepay BasePay AudioPay LinearAudio.
#[local] Open Scope Z_scope.

(** ** Pieces of equal length *)
Definition pieces {A} (k : nat) (cs : list (list A)) : Prop := Forall (fun c => length c = k) cs.

Lemma chunks_unique {A} k (cs : list (list A)) : (0 < k)%nat -> pieces k cs -> forall fuel,
  (length (concat cs) <= fuel)%nat -> chunks_exact fuel k (concat cs) = (cs, []).
Proof.
  intros Hk Hcs. induction Hcs as [|c cs Hc Hcs IH]; intros fuel Hf; cbn [concat] in *.
  - destruct fuel; cbn; [done|]. by destruct k; [lia|].
  - rewrite length_app in Hf. destruct fuel as [|fuel]; [lia|]. cbn [chunks_exact].
    rewrite (proj2 (Nat.leb_le _ _)) by (rewrite length_app; lia). rewrite drop_app_length', take_app_length' by done.
    by rewrite IH by lia.
Qed.

Lemma pieces_length {A} k (cs : list (list A)) : pieces k cs -> length (concat cs) = (length cs * k)%nat.
Proof. induction 1 as [|c cs Hc _ IH]; cbn; [done|]. rewrite length_app, Hc, IH. lia. Qed.

Lemma pieces_exist {A} k (l : list A) n : length l = (n * k)%nat -> exists cs, l = concat cs /\ pieces k cs /\ length cs = n.
Proof.
  revert l. induction n as [|n IH]; intros l Hl; cbn in Hl.
  - exists []. split; [by apply length_zero_iff_nil|]. by split; [constructor|].
  - destruct (IH (drop k l)) as (cs & E & Hcs & Hn); [rewrite length_drop; lia|]. exists (take k l :: cs). cbn.
    rewrite <- E, take_drop, Hn. split; [done|]. split; [|done]. constructor; [rewrite length_take; lia|done].
Qed.

(** Bytes as frames of [n] samples of [size] bytes. *)
Definition framed (size n : nat) (frames : list (list (list Z))) : Prop :=
  pieces n frames /\ Forall (pieces size) frames.
Definition frame_bytes (frames : list (list (list Z))) : list Z := concat (concat frames).

Lemma framed_samples size n frames : framed size n frames -> pieces size (concat frames).
Proof. intros [_ Hf]. induction Hf as [|f fs Hf _ IH]; cbn; [constructor|]. by apply Forall_app_2. Qed.

Lemma framed_exist size n data k : length data = (k * n * size)%nat -> exists frames, data = frame_bytes frames /\ framed size n frames.
Proof.
  intros Hl. destruct (pieces_exist size data (k * n)) as (samples & -> & Hs & Hn); [lia|].
  destruct (pieces_exist n samples k Hn) as (frames & -> & Hf & _). exists frames. split; [done|]. split; [done|].
  clear -Hs. induction frames as [|f fs IH]; cbn in *; [constructor|]. apply Forall_app in Hs as [? ?]. by constructor; auto.
Qed.

Lemma framed_app size n f1 f2 : framed size n f1 -> framed size n f2 -> framed size n (f1 ++ f2).
Proof. intros [A1 B1] [A2 B2]. split; by apply Forall_app_2. Qed.

Lemma frame_bytes_app f1 f2 : frame_bytes (f1 ++ f2) = frame_bytes f1 ++ frame_bytes f2.
Proof. unfold frame_bytes. by rewrite !concat_app. Qed.

(** The frames of given bytes are unique. *)
Lemma framed_unique size n f1 f2 :
  (0 < size)%nat -> (0 < n)%nat -> framed size n f1 -> framed size n f2 -> frame_bytes f1 = frame_bytes f2 -> f1 = f2.
Proof.
  intros Hs Hn H1 H2 E.
  assert (Es : concat f1 = concat f2).
  { pose proof (chunks_unique size _ Hs (framed_samples _ _ _ H1) _ (le_n _)) as C1.
    pose proof (chunks_unique size _ Hs (framed_samples _ _ _ H2) _ (le_n _)) as C2.
    fold (frame_bytes f1) in C1. fold (frame_bytes f2) in C2. rewrite E in C1. congruence. }
  pose proof (chunks_unique n _ Hn (proj1 H1) _ (le_n _)) as C1. pose proof (chunks_unique n _ Hn (proj1 H2) _ (le_n _)) as C2.
  rewrite Es in C1. congruence.
Qed.

(** ** Reordering a frame *)

(** A map that takes every channel to a place of its own. *)
Definition reorders (m : list nat) : Prop := NoDup m /\ Forall (fun j => (j < length m)%nat) m.

Section Frame.
Context {T : Type}.
Implicit Types (fr acc out : list T) (m : list nat).

Lemma reorder_from fr m : NoDup m -> forall k acc, (k + length m <= length fr)%nat -> Forall (fun j => (j < length acc)%nat) m ->
  exists out,
    res_fold (fun out_frame x => let '(i, out_idx) := x in
      sample ← unwrap (fr !! i); _ ← assert_ (out_idx <? length out_frame)%nat; Ok (<[out_idx := sample]> out_frame))
      acc (zip (seq k (length m)) m) = Ok out /\ length out = length acc /\
    (forall i j, m !! i = Some j -> out !! j = fr !! (k + i)%nat) /\ (forall j, j ∉ m -> out !! j = acc !! j).
Proof.
  intros Hnd. induction Hnd as [|x m Hx Hnd IH]; intros k acc Hk Hb; cbn [length seq zip zip_with res_fold].
  { exists acc. by split_and!. }
  apply Forall_cons in Hb as [Hxb Hb]. cbn [length] in Hk. destruct (lookup_lt_is_Some_2 fr k) as [s Es]; [lia|].
  rewrite Es. cbn [unwrap]. rewrite bind_Ok, (proj2 (Nat.ltb_lt _ _)) by done. cbn [assert_]. rewrite !bind_Ok.
  destruct (IH (S k) (<[x := s]> acc)) as (out & HK & Hl & Hin & Hout); [lia|by rewrite length_insert|].
  exists out. split; [exact HK|]. rewrite length_insert in Hl. split; [done|]. split.
  - intros [|i] j; cbn; [intros [= <-]|intros Hj].
    + rewrite Hout, list_lookup_insert_eq, Nat.add_0_r by done. done.
    + rewrite (Hin i j Hj). f_equal. lia.
  - intros j Hj. apply not_elem_of_cons in Hj as [Hne Hj]. rewrite Hout by done. by rewrite list_lookup_insert_ne.
Qed.

Lemma reorder_frame_spec m fr : reorders m -> length fr = length m ->
  exists out, reorder_frame m fr = Ok out /\ length out = length m /\ forall i j, m !! i = Some j -> out !! j = fr !! i.
Proof.
  intros [Hnd Hb] Hl. destruct (reorder_from fr m Hnd 0 fr) as (out & HK & Hlo & Hin & _); [lia|by rewrite Hl|].
  exists out. split; [exact HK|]. split; [lia|]. intros i j Hj. by rewrite (Hin i j Hj).
Qed.

(** Maps that undo each other. *)
Definition inverse_maps m1 m2 : Prop :=
  reorders m1 /\ reorders m2 /\ length m1 = length m2 /\ forall i j, m1 !! i = Some j -> m2 !! j = Some i.

Lemma reorder_frame_inverse m1 m2 fr : inverse_maps m1 m2 -> length fr = length m1 ->
  exists out, reorder_frame m1 fr = Ok out /\ length out = length m1 /\ reorder_frame m2 out = Ok fr.
Proof.
  intros (H1 & H2 & Hl & Hinv) Hf. destruct (reorder_frame_spec m1 fr H1 Hf) as (out & HK & Ho & Hout).
  exists out. split; [done|]. split; [done|]. destruct (reorder_frame_spec m2 out H2) as (fr' & -> & Hf' & Hfr'); [lia|]. f_equal.
  apply list_eq_same_length with (length m1); [lia|lia|]. intros i x y Hi Hx Hy.
  destruct (lookup_lt_is_Some_2 m1 i Hi) as [j Hj]. pose proof (Hinv i j Hj) as Hji. rewrite (Hfr' j i Hji), (Hout i j Hj) in Hx. congruence.
Qed.
End Frame.

Lemma reorder_frame_Forall {T} (P : T -> Prop) m (fr out : list T) : reorder_frame m fr = Ok out -> Forall P fr -> Forall P out.
Proof.
  intros HK Hf. revert HK. apply (res_fold_inv (Forall P)); [|done]. intros acc [i j] out' Hacc HK.
  apply bind_ok in HK as (s & Hs & HK). apply bind_ok in HK as (u & _ & HK). injection HK as <-.
  apply unwrap_ok in Hs. apply Forall_insert; [done|]. by apply (proj1 (Forall_lookup P fr) Hf i).
Qed.

Lemma collect_frames {A B} (g : A -> res B) l l' acc :
  Forall2 (fun x y => g x = Ok y) l l' -> res_fold (fun out x => y ← g x; Ok (out ++ [y])) acc l = Ok (acc ++ l').
Proof.
  intros Hl. revert acc. induction Hl as [|x y l l' Hxy _ IH]; intros acc; cbn [res_fold]; [by rewrite app_nil_r|].
  rewrite Hxy, !bind_Ok, IH. by rewrite <- app_assoc.
Qed.

(** Data in whole frames, frame by frame. *)
Lemma reorder_channels_spec size m frames frames' :
  (0 < size)%nat -> (1 <= length m <= 8)%nat -> framed size (length m) frames ->
  Forall2 (fun f f' => reorder_frame m f = Ok f') frames frames' ->
  reorder_channels size m (frame_bytes frames) = Ok (frame_bytes frames').
Proof.
  intros Hs Hm Hf H2. unfold reorder_channels, MAX_REORDER_CHANNELS.
  rewrite (proj2 (Nat.leb_le _ _)), (proj2 (Nat.leb_le _ 8)) by lia. cbn [andb assert_]. rewrite bind_Ok.
  unfold frame_bytes at 1 2. rewrite (chunks_unique size (concat frames) Hs (framed_samples _ _ _ Hf)) by done.
  rewrite bool_decide_eq_true_2 by done. cbn [assert_]. rewrite bind_Ok.
  rewrite (chunks_unique (length m) frames) by (lia || done || apply Hf).
  rewrite (collect_frames _ _ _ [] H2), bind_Ok. cbn [app]. by rewrite app_nil_r.
Qed.

Lemma reorder_frames_inverse size m1 m2 frames :
  inverse_maps m1 m2 -> framed size (length m1) frames ->
  exists frames', Forall2 (fun f f' => reorder_frame m1 f = Ok f') frames frames' /\ framed size (length m1) frames' /\
    Forall2 (fun f f' => reorder_frame m2 f = Ok f') frames' frames.
Proof.
  intros Hinv [Hn Hs]. induction frames as [|f fs IH]; [by exists []; repeat constructor|].
  apply Forall_cons in Hn as [Hf Hn]. apply Forall_cons in Hs as [Hfs Hs]. destruct (IH Hn Hs) as (fs' & H1 & [Hn' Hs'] & H2).
  destruct (reorder_frame_inverse m1 m2 f Hinv Hf) as (f' & E1 & Hl & E2). exists (f' :: fs'). split; [by constructor|].
  split; [|by constructor]. split; [by constructor|]. constructor; [|done]. by apply (reorder_frame_Forall _ m1 f).
Qed.

(** Cut into pieces of whole frames, the data is put back piece by piece. *)
Lemma reorder_pieces size m frames frames' chunks :
  (0 < size)%nat -> (1 <= length m <= 8)%nat -> framed size (length m) frames ->
  Forall2 (fun f f' => reorder_frame m f = Ok f') frames frames' ->
  Forall (fun c => exists k, length c = (k * length m * size)%nat) chunks -> concat chunks = frame_bytes frames ->
  exists outs, Forall2 (fun c o => reorder_channels size m c = Ok o) chunks outs /\ concat outs = frame_bytes frames'.
Proof.
  intros Hs Hm Hf H2 Hc. revert frames frames' Hf H2. induction Hc as [|c cs [k Hk] Hcs IH]; intros frames frames' Hf H2 E.
  - cbn in E. assert (frames = []) as -> by (apply (framed_unique size (length m)); [lia|lia|done|by split; constructor|done]).
    inversion H2. by exists [].
  - cbn [concat] in E. destruct (framed_exist size (length m) c k Hk) as (f1 & Ec & Hf1).
    assert (Hrest : exists f2, concat cs = frame_bytes f2 /\ framed size (length m) f2).
    { assert (Hl : exists j, length (concat cs) = (j * length m * size)%nat).
      { clear -Hcs. induction Hcs as [|c cs [k Hk] _ [j IH]]; cbn; [by exists 0%nat|].
        exists (k + j)%nat. rewrite length_app, IH, Hk. lia. }
      destruct Hl as [j Hj]. by apply (framed_exist _ _ _ j). }
    destruct Hrest as (f2 & Er & Hf2).
    assert (frames = f1 ++ f2) as ->.
    { apply (framed_unique size (length m)); [lia|lia|done|by apply framed_app|]. by rewrite <- E, Ec, Er, frame_bytes_app. }
    apply Forall2_app_inv_l in H2 as (f1' & f2' & H1' & H2' & ->).
    destruct (IH f2 f2' Hf2 H2' Er) as (outs & Ho & Eo). exists (frame_bytes f1' :: outs). cbn [concat].
    rewrite Eo, frame_bytes_app. split; [|done]. constructor; [|done]. rewrite Ec. by apply reorder_channels_spec.
Qed.

(** ** Orders and maps *)

(** A position in a frame of more than two channels. *)
Definition placed (p : ChannelPosition) : bool :=
  match p with Mono | NoPosition | OtherPosition _ => false | _ => true end.

Definition format_bytes (f : AudioFormat) : nat :=
  match f with FormatU8 => 1 | FormatS16be => 2 | FormatS24be => 3 | FormatOther => 0 end.

Class GstAudioLaws `{GstAudio} : Prop := {
  valid_order_ok l : NoDup l -> Forall (fun p => placed p = true) l ->
    exists l', positions_to_valid_order l = Some l' /\ l' ≡ₚ l;
  reorder_map_ok a b : NoDup a -> a ≡ₚ b ->
    exists m, channel_reorder_map a b = Some m /\ Forall2 (fun p j => b !! j = Some p) a m;
  info_build_ok f rate pos : f <> FormatOther -> 0 < rate -> NoDup pos -> Forall (fun p => placed p = true) pos ->
    exists i, audio_info_build f rate (Z.of_nat (length pos)) pos = Some i /\ in_width i = 8 * Z.of_nat (format_bytes f) /\
      in_bpf i = Z.of_nat (length pos) * Z.of_nat (format_bytes f);
}.

Lemma map_reorders (a b : list ChannelPosition) m :
  NoDup a -> a ≡ₚ b -> Forall2 (fun p j => b !! j = Some p) a m -> reorders m /\ length m = length a.
Proof.
  intros Ha Hp H2. pose proof (Forall2_length _ _ _ H2) as Hl. split; [|done]. split.
  - clear -Ha H2. induction H2 as [|p j a m Hpj H2 IH]; [constructor|]. apply NoDup_cons in Ha as [Hn Ha]. constructor; [|by apply IH].
    intros Hin. apply Hn. clear -Hpj H2 Hin. induction H2 as [|q k a m Hqk H2 IH]; [by apply elem_of_nil in Hin|].
    apply elem_of_cons in Hin as [<-|Hin]; [rewrite Hpj in Hqk; injection Hqk as ->; left|right; auto].
  - assert (Hlb : length b = length a) by (by rewrite Hp). clear Hp Ha. rewrite <- Hl, <- Hlb. clear Hl Hlb.
    induction H2 as [|p j a m Hpj H2 IH]; [constructor|]. constructor; [by apply lookup_lt_Some in Hpj|done].
Qed.

Lemma maps_inverse (a b : list ChannelPosition) m1 m2 :
  NoDup a -> a ≡ₚ b -> Forall2 (fun p j => b !! j = Some p) a m1 -> Forall2 (fun p j => a !! j = Some p) b m2 -> inverse_maps m1 m2.
Proof.
  intros Ha Hp H1 H2. assert (Hb : NoDup b) by (by rewrite <- Hp).
  destruct (map_reorders a b m1 Ha Hp H1) as [R1 L1]. destruct (map_reorders b a m2 Hb (symmetry Hp) H2) as [R2 L2].
  split; [done|]. split; [done|]. split; [rewrite L1, L2; by apply Permutation_length|]. intros i j Hj.
  destruct (Forall2_lookup_r _ _ _ _ _ H1 Hj) as (p & Hpi & Hbj). destruct (Forall2_lookup_l _ _ _ _ _ H2 Hbj) as (i' & Hi' & Hai').
  rewrite Hi'. f_equal. by apply (NoDup_lookup a i' i p).
Qed.

(** Every entry of the table is found again by its name. *)
Lemma mappings_named : Forall (fun m => forall k, Z.of_nat (length (fst m)) = k ->
  get_channel_order (Some (snd m)) k = Ok (Some (fst m)) /\
  (2 < k -> NoDup (fst m) /\ Forall (fun p => placed p = true) (fst m)) /\ k <= 8) CHANNEL_MAPPINGS.
Proof.
  repeat (constructor; [intros k <-; split; [reflexivity|]; split; [|by vm_compute]; cbn;
    first [by intros ?; split; [apply (bool_decide_unpack _); vm_compute|repeat constructor]|intros ?; exfalso; lia]|]). constructor.
Qed.

Lemma find_mapped `{GstAudio} pos name :
  find_channel_order_from_positions pos = Some name ->
  exists order, length order = length pos /\ get_channel_order (Some name) (Z.of_nat (length pos)) = Ok (Some order) /\
    positions_are_compatible order pos = true /\
    (2 < Z.of_nat (length pos) -> NoDup order /\ Forall (fun p => placed p = true) order) /\ (length pos <= 8)%nat.
Proof.
  unfold find_channel_order_from_positions. destruct (List.find _ _) as [[order name']|] eqn:Ef; [|done]. cbn. intros [= <-].
  apply find_some in Ef as [Hin Hc]. cbn [fst snd] in Hc. apply andb_true_iff in Hc as [Hl%Nat.eqb_eq Hc].
  pose proof (proj1 (Forall_forall _ _) mappings_named (order, name') ltac:(by apply list_elem_of_In)) as Hm. cbn [fst snd] in Hm.
  destruct (Hm (Z.of_nat (length pos))) as (Hg & Hp & H8); [by rewrite Hl|]. exists order. split_and!; try done; lia.
Qed.

Lemma reorder_by_width f m data : f <> FormatOther ->
  reorder_if_needed (Some (8 * Z.of_nat (format_bytes f))) (Some m) data = reorder_channels (format_bytes f) m data.
Proof. by destruct f. Qed.

Lemma order_default n : get_channel_order None n = get_channel_order (Some "default"%string) n.
Proof. done. Qed.

(** The payloader and the depayloader agree on the positions, and their maps undo each other. *)
Definition maps_agree (n : nat) (m1 m2 : option (list nat)) : Prop :=
  (m1 = None /\ m2 = None) \/ exists a b, m1 = Some a /\ m2 = Some b /\ inverse_maps a b /\ length a = n.

Section Agreement.
Context `{GstAudio} `{!GstAudioLaws}.

Lemma orders_agree info pos name st :
  in_positions info = Some pos -> in_channels info = Z.of_nat (length pos) -> 2 < in_channels info ->
  find_channel_order_from_positions pos = Some name -> ls_channel_reorder_map st = None ->
  exists order m1 m2 positions,
    linear_pay_order info = Ok (order, m1) /\
    linear_depay_order order (in_channels info) st = Ok (positions, st <| ls_channel_reorder_map := m2 |>) /\
    maps_agree (length pos) m1 m2 /\ length positions = length pos /\ NoDup positions /\ Forall (fun p => placed p = true) positions.
Proof.
  intros Hp Hc Hn Hf Hst. destruct (find_mapped pos name Hf) as (rtp & Hl & Hg & _ & Hrtp & _). rewrite Hc in *.
  destruct (Hrtp Hn) as [Hnd Hpl]. destruct (valid_order_ok rtp Hnd Hpl) as (gst & Hv & Hperm).
  assert (Hgnd : NoDup gst) by (by rewrite Hperm). assert (Hgpl : Forall (fun p => placed p = true) gst) by (by rewrite Hperm).
  assert (Hglen : length gst = length pos) by (rewrite <- Hl; by apply Permutation_length).
  set (order := if bool_decide (name = "default"%string) then None else Some name).
  assert (Hgo : get_channel_order order (Z.of_nat (length pos)) = Ok (Some rtp)).
  { subst order. destruct (bool_decide_reflect (name = "default"%string)) as [->|]; [by rewrite order_default|done]. }
  assert (Hpay : linear_pay_order info = (m ← order_map gst rtp; Ok (order, m))).
  { unfold linear_pay_order. rewrite Hp, Hc, Hf, Hg, Z.gtb_ltb, (proj2 (Z.ltb_lt _ _)) by lia. rewrite bind_Ok. cbn [unwrap].
    rewrite bind_Ok, Hv. cbn [unwrap]. by rewrite bind_Ok. }
  assert (Hdep : linear_depay_order order (Z.of_nat (length pos)) st =
    if bool_decide (rtp = gst) then Ok (gst, st)
    else reorder_map ← unwrap (channel_reorder_map rtp gst); Ok (gst, st <| ls_channel_reorder_map := Some reorder_map |>)).
  { unfold linear_depay_order. rewrite Hgo, bind_Ok, Hv. cbn [unwrap]. by rewrite bind_Ok. }
  unfold order_map in Hpay. destruct (decide (gst = rtp)) as [->|Hne].
  - rewrite bool_decide_eq_true_2, bind_Ok in Hpay by done. rewrite bool_decide_eq_true_2 in Hdep by done.
    exists order, None, None, rtp. split; [done|]. split; [rewrite Hdep; do 2 f_equal; by destruct st; cbn in *; subst|].
    split; [by left|done].
  - rewrite bool_decide_eq_false_2 in Hpay by done. rewrite bool_decide_eq_false_2 in Hdep by congruence.
    destruct (reorder_map_ok gst rtp Hgnd Hperm) as (m1 & E1 & H1). destruct (reorder_map_ok rtp gst Hnd (symmetry Hperm)) as (m2 & E2 & H2).
    rewrite E1 in Hpay. rewrite E2 in Hdep. cbn [unwrap] in Hpay, Hdep. rewrite !bind_Ok in Hpay. rewrite bind_Ok in Hdep.
    exists order, (Some m1), (Some m2), gst. split; [done|]. split; [done|]. split; [|done].
    right. exists m1, m2. split; [done|]. split; [done|]. split; [by apply (maps_inverse gst rtp)|].
    by rewrite (proj2 (map_reorders _ _ _ Hgnd Hperm H1)).
Qed.

Lemma agreed_roundtrip f n m1 m2 data :
  f <> FormatOther -> (1 <= n <= 8)%nat -> maps_agree n m1 m2 -> (exists k, length data = (k * n * format_bytes f)%nat) ->
  exists sent, reorder_if_needed (Some (8 * Z.of_nat (format_bytes f))) m1 data = Ok sent /\
    forall chunks, concat chunks = sent -> Forall (fun c => exists k, length c = (k * n * format_bytes f)%nat) chunks ->
    exists outs, Forall2 (fun c o => reorder_if_needed (Some (8 * Z.of_nat (format_bytes f))) m2 c = Ok o) chunks outs /\ concat outs = data.
Proof.
  intros Hf Hn [[-> ->]|(a & b & -> & -> & Hinv & Hla)] [k Hk].
  - exists data. split; [done|]. intros chunks E _. exists chunks. split; [|done]. by apply Forall_Forall2_diag, Forall_true.
  - assert (Hsz : (0 < format_bytes f)%nat) by (destruct f; cbn; [lia..|done]). pose proof Hinv as (_ & _ & Hlen & _). subst n.
    destruct (framed_exist (format_bytes f) (length a) data k Hk) as (frames & -> & Hfr).
    destruct (reorder_frames_inverse _ a b frames Hinv Hfr) as (frames' & H1 & Hfr' & H2).
    exists (frame_bytes frames'). rewrite reorder_by_width by done. split; [by apply reorder_channels_spec|].
    intros chunks E Hc. rewrite Hlen in *. destruct (reorder_pieces _ b frames' frames chunks Hsz ltac:(lia) Hfr' H2 Hc E) as (outs & Ho & Eo).
    exists outs. split; [|done]. eapply Forall2_impl; [exact Ho|]. intros c o Hco. by rewrite reorder_by_width.
Qed.
End Agreement.

(** The output caps as the depayloader receives them, with a payload type. *)
Definition received_caps (payload : option Z) (caps : LinearCaps) : LinearDepayCaps :=
  mkLinearDepayCaps payload (Some (lc_encoding_name caps)) (Some (lc_clock_rate caps)) (Some (lc_channels caps)) None
    (Some (lc_channels caps)) (lc_channel_order caps).

(** ** Properties *)

(** C15: channels of raw audio survive the round trip. For more than two channels
    in positions one of the channel orders has, in any of the formats, the payloader
    accepts its caps, the depayloader accepts the caps the payloader sets, neither
    panics, and what the payloader reorders in a buffer, cut in any way into pieces
    of whole frames, the depayloader puts back piece by piece. *)
Theorem linear_audio_roundtrip `{GstAudio} `{!GstAudioLaws} prop_pt payload info pos name :
  in_positions info = Some pos -> in_channels info = Z.of_nat (length pos) -> 2 < in_channels info -> in_format info <> FormatOther ->
  in_width info = 8 * Z.of_nat (format_bytes (in_format info)) -> 0 < in_rate info ->
  find_channel_order_from_positions pos = Some name -> prop_pt <> 10 -> prop_pt <> 11 -> payload <> Some 10 -> payload <> Some 11 ->
  exists caps pst out dst,
    linear_pay_set_sink_caps prop_pt (Some info) = Ok (Some (caps, pst, in_bpf info)) /\
    linear_depay_set_sink_caps (received_caps payload caps) LinearDepayState_default = Ok (Some out, dst) /\
    ls_bpf dst = Some (in_channels info * Z.of_nat (format_bytes (in_format info))) /\
    forall data, (exists k, length data = (k * length pos * format_bytes (in_format info))%nat) ->
    exists sent, reorder_if_needed (lp_width pst) (lp_channel_reorder_map pst) data = Ok sent /\
      forall chunks, concat chunks = sent ->
      Forall (fun c => exists k, length c = (k * length pos * format_bytes (in_format info))%nat) chunks ->
      exists outs, Forall2 (fun c o => reorder_if_needed (ls_width dst) (ls_channel_reorder_map dst) c = Ok o) chunks outs /\ concat outs = data.
Proof.
  intros Hp Hc Hn Hf Hw Hr Hfind H10 H11 P10 P11. set (f := in_format info) in *.
  set (st0 := LinearDepayState_default <| ls_clock_rate := Some (in_rate info) |>).
  destruct (orders_agree info pos name st0 Hp Hc Hn Hfind eq_refl) as (order & m1 & m2 & positions & Hpo & Hdo & Hag & Hlp & Hnd & Hpl).
  destruct (info_build_ok f (in_rate info) positions Hf Hr Hnd Hpl) as (out & Hb & Hwo & Hbo). rewrite Hlp, <- Hc in Hb, Hbo.
  pose proof (find_mapped pos name Hfind) as (_ & _ & _ & _ & _ & H8).
  assert (Hen : exists enc, (match f with FormatU8 => Ok "L8"%string | FormatS16be => Ok "L16"%string | FormatS24be => Ok "L24"%string
      | FormatOther => Panic end) = Ok enc /\ (if bool_decide (enc = "L8"%string) then Ok FormatU8
        else if bool_decide (enc = "L16"%string) then Ok FormatS16be else if bool_decide (enc = "L24"%string) then Ok FormatS24be else Panic) = Ok f)
    by (destruct f; [by eexists..|done]). destruct Hen as (enc & He1 & He2).
  assert (Hnz : forall x, 0 < x -> non_zero x = Some x) by (intros x Hx; unfold non_zero; by rewrite (proj2 (Z.eqb_neq x 0)) by lia).
  assert (Hsz : 0 < Z.of_nat (format_bytes f)) by (destruct f; cbn; [lia..|done]).
  eexists (mkLinearCaps enc (in_rate info) (in_channels info) order), (mkLinearPayState _ m1), out, _. split; [|split; [|split]].
  - unfold linear_pay_set_sink_caps. fold f. rewrite He1, bind_Ok.
    rewrite (proj2 (Z.eqb_neq prop_pt 10) H10), (proj2 (Z.eqb_neq prop_pt 11) H11). cbn [andb]. rewrite Hpo, bind_Ok. reflexivity.
  - unfold linear_depay_set_sink_caps. cbn [received_caps ld_payload ld_encoding_name ld_clock_rate ld_channel_order lc_encoding_name lc_clock_rate lc_channel_order].
    assert (Hpt : forall n, payload <> Some n -> bool_decide (filter_positive payload = Some n) = false).
    { intros n Hne. apply bool_decide_eq_false_2. destruct payload as [v|]; cbn; [|done]. by destruct (v >? 0). }
    rewrite (Hpt 10 P10), (Hpt 11 P11). cbn [orb andb filter_positive].
    rewrite Z.gtb_ltb, (proj2 (Z.ltb_lt 0 (in_rate info))) by lia. cbn [or_else unwrap]. rewrite bind_Ok, (Hnz _ Hr), He2, bind_Ok.
    assert (Hch : forall imp, linear_n_channels (received_caps payload (mkLinearCaps enc (in_rate info) (in_channels info) order)) imp = in_channels info).
    { intros imp. unfold linear_n_channels. cbn. by rewrite Z.gtb_ltb, (proj2 (Z.ltb_lt 0 (in_channels info))) by lia. }
    cbn [received_caps lc_encoding_name lc_clock_rate lc_channels lc_channel_order] in Hch. rewrite Hch.
    fold st0. rewrite Hdo, bind_Ok, Hb. cbn [unwrap]. rewrite bind_Ok. reflexivity.
  - cbn. rewrite Hbo, Hnz; [done|nia].
  - intros data Hd. cbn. rewrite Hw, Hwo, Hnz by lia. apply (agreed_roundtrip f (length pos)); [done|lia|done|done].
Qed.

(** ** An instance of the audio library *)

(** The order of channels in GStreamer. *)
Definition valid_order : list ChannelPosition :=
  [FrontLeft; FrontRight; FrontCenter; Lfe1; RearLeft; RearRight; FrontLeftOfCenter; FrontRightOfCenter; RearCenter;
   SideLeft; SideRight; SurroundLeft; SurroundRight].

Definition place (p : ChannelPosition) (l : list ChannelPosition) : option nat := fst <$> list_find (fun q => q = p) l.

Definition sort_positions (l : list ChannelPosition) : list ChannelPosition := filter (fun p => p ∈ l) valid_order.

Definition audio_exact : GstAudio := {|
  positions_to_mask l := foldr Z.lor 0 <$> mapM (fun p => (fun i => Z.shiftl 1 (Z.of_nat i)) <$> place p valid_order) l;
  positions_to_valid_order l :=
    if forallb placed l then Some (sort_positions l) else None;
  channel_reorder_map a b := mapM (fun p => place p b) a;
  audio_info_build f rate n pos :=
    Some (mkAudioInfo f rate n (Some pos) (8 * Z.of_nat (format_bytes f)) (n * Z.of_nat (format_bytes f)));
|}.

Lemma placed_valid p : placed p = true -> p ∈ valid_order.
Proof. destruct p; intros Hp; try done; apply (bool_decide_unpack _); by vm_compute. Qed.

Lemma place_found p l : p ∈ l -> exists j, place p l = Some j /\ l !! j = Some p.
Proof.
  intros Hin. destruct (list_find_elem_of (fun q => q = p) l p Hin eq_refl) as [[j q] Hf].
  exists j. unfold place. rewrite Hf. split; [done|]. by apply list_find_Some in Hf as (Hl & -> & _).
Qed.

Lemma valid_order_nodup : NoDup valid_order.
Proof. apply (bool_decide_unpack _). by vm_compute. Qed.

Lemma sort_positions_perm l : NoDup l -> Forall (fun p => placed p = true) l -> sort_positions l ≡ₚ l.
Proof.
  intros Hnd Hp. apply NoDup_Permutation; [apply NoDup_filter, valid_order_nodup|exact Hnd|]. intros x. unfold sort_positions.
  rewrite list_elem_of_filter. split; [by intros [? _]|]. intros Hx. split; [exact Hx|].
  apply placed_valid. exact (proj1 (Forall_forall _ _) Hp x Hx).
Qed.

Lemma audio_exact_laws : @GstAudioLaws audio_exact.
Proof.
  split.
  - intros l Hnd Hp. cbn [positions_to_valid_order audio_exact].
    rewrite (proj2 (forallb_forall _ _)) by (intros x Hx; by apply (proj1 (Forall_forall _ _) Hp x), list_elem_of_In).
    exists (sort_positions l). split; [reflexivity|]. by apply sort_positions_perm.
  - intros a b Hnd Hp. assert (Hall : Forall (fun p => is_Some (place p b)) a).
    { apply Forall_forall. intros p Hin. destruct (place_found p b) as (j & -> & _); [by rewrite <- Hp|done]. }
    cbn. destruct (mapM_is_Some_2 _ _ Hall) as [m Hm]. exists m. split; [done|]. apply mapM_Some in Hm.
    eapply Forall2_impl; [exact Hm|]. intros p j Hj. unfold place in Hj. destruct (list_find _ b) as [[j' q]|] eqn:Ef; [|done].
    injection Hj as <-. by apply list_find_Some in Ef as (Hl & -> & _).
  - intros f rate pos _ _ _ _. cbn. by eexists.
Qed.

(** 5.0 surround with side channels and 16 bit: the order of DV.LRLsRsC. *)
Definition example_positions : list ChannelPosition := [FrontLeft; FrontRight; FrontCenter; SideLeft; SideRight].

Lemma linear_audio_roundtrip_witness :
  exists caps pst out dst,
    @linear_pay_set_sink_caps audio_exact 96 (Some (mkAudioInfo FormatS16be 48000 5 (Some example_positions) 16 10)) = Ok (Some (caps, pst, 10)) /\
    lc_channel_order caps = Some "DV.LRLsRsC"%string /\
    @linear_depay_set_sink_caps audio_exact (received_caps (Some 96) caps) LinearDepayState_default = Ok (Some out, dst) /\
    exists sent, reorder_if_needed (lp_width pst) (lp_channel_reorder_map pst) [1; 2; 3; 4; 5; 6; 7; 8; 9; 10] = Ok sent /\
      sent = [1; 2; 3; 4; 7; 8; 9; 10; 5; 6] /\
      exists outs, Forall2 (fun c o => reorder_if_needed (ls_width dst) (ls_channel_reorder_map dst) c = Ok o) [sent] outs /\
        concat outs = [1; 2; 3; 4; 5; 6; 7; 8; 9; 10].
Proof.
  destruct (@linear_audio_roundtrip audio_exact audio_exact_laws 96 (Some 96) (mkAudioInfo FormatS16be 48000 5 (Some example_positions) 16 10)
    example_positions "DV.LRLsRsC"%string) as (caps & pst & out & dst & HP & HD & _ & HR); try done.
  destruct (HR [1; 2; 3; 4; 5; 6; 7; 8; 9; 10]) as (sent & HS & HC); [by exists 1%nat|].
  exists caps, pst, out, dst. split; [exact HP|]. vm_compute in HP. injection HP as <- <-. split; [done|]. split; [exact HD|].
  exists sent. split; [exact HS|]. vm_compute in HS. injection HS as <-. split; [done|].
  apply HC; [done|]. constructor; [by exists 1%nat|constructor].
Defined.

(** *** Inputs on which the code fails its purpose *)

(** The map of one stream stays in place for the next one that needs none. *)
Lemma linear_stale_map :
  let six := mkLinearDepayCaps (Some 96) (Some "L8"%string) (Some 48000) (Some 6) None None (Some "DV.LRLsRsCS"%string) in
  let stereo := mkLinearDepayCaps (Some 96) (Some "L8"%string) (Some 48000) (Some 2) None None None in
  match @linear_depay_set_sink_caps audio_exact six LinearDepayState_default with
  | Ok (_, st) =>
      match @linear_depay_set_sink_caps audio_exact stereo st with
      | Ok (Some _, st) => ls_bpf st = Some 2 /\
          reorder_if_needed (ls_width st) (ls_channel_reorder_map st) [1; 2; 3; 4; 5; 6] = Ok [1; 2; 5; 6; 3; 4]
      | _ => False
      end
  | Panic => False
  end.
Proof. by vm_compute. Qed.

(** 5.1 with rear channels has no channel order: it is sent as it is, and the
    depayloader takes it for the default order of six channels. *)
Lemma linear_unknown_order_shuffled :
  let positions := [FrontLeft; FrontRight; FrontCenter; Lfe1; RearLeft; RearRight] in
  match @linear_pay_set_sink_caps audio_exact 96 (Some (mkAudioInfo FormatU8 48000 6 (Some positions) 8 6)) with
  | Ok (Some (caps, pst, _)) =>
      lp_channel_reorder_map pst = None /\ lc_channel_order caps = None /\
      match @linear_depay_set_sink_caps audio_exact (received_caps (Some 96) caps) LinearDepayState_default with
      | Ok (Some _, st) => reorder_if_needed (ls_width st) (ls_channel_reorder_map st) [1; 2; 3; 4; 5; 6] = Ok [1; 4; 3; 6; 2; 5]
      | _ => False
      end
  | _ => False
  end.
Proof. by vm_compute. Qed.
