(* ===== verification/Mp4a.v ===== *)
(** * MPEG-4 audio

    [mp4a]: the parsers of the audio configuration and of multiplexed frames
    ([parsers.rs]), the payloader ([pay/imp.rs]) and the depayloader
    ([depay/imp.rs]) of RFC 3016. *)

From S2P Require Import Prelude Utils Queues F64 Flow BitStream RtpBase DepayMeta BaseDepay.

(** ** Caps *)

(** The value of a caps field: [u8], [u32], [i32], a string, or something else. *)
Inductive CapsValue :=
| CapUChar (v : Z) | CapUInt (v : Z) | CapInt (v : Z) | CapString (s : string) | CapOther.

(** The fields of a structure. *)
Abbreviation CapsStructure := (gmap string CapsValue).

(** [s.get_optional::<&str>(field)]; an error where the value is not a string. *)
Definition get_optional_str (s : CapsStructure) (field : string) : flow (option string) :=
  match s !! field with
  | None => Done None
  | Some (CapString v) => Done (Some v)
  | Some _ => Fail
  end.

(** [s.get_optional::<u32>(field).unwrap()] *)
Definition get_optional_u32 (s : CapsStructure) (field : string) : res (option Z) :=
  match s !! field with
  | None => Ok None
  | Some (CapUInt v) => Ok (Some v)
  | Some _ => Panic
  end.

(** [s.get::<i32>(field).expect(..)] *)
Definition get_i32 (s : CapsStructure) (field : string) : res Z :=
  match s !! field with Some (CapInt v) => Ok v | _ => Panic end.

(** The [hex] crate. *)
Class HexCodec := {
  hex_encode : list Z -> string;
  hex_decode : string -> option (list Z);
}.

(** ** Parsers *)
Definition ACC_SAMPLING_FREQS : list Z :=
  [96000; 88200; 64000; 48000; 44100; 32000; 24000; 22050; 16000; 12000; 11025; 8000; 7350].

Record AudioSpecificConfig := mkAudioSpecificConfig {
  asc_audio_object_type : Z;
  asc_sampling_freq : Z;
  asc_channel_conf : Z;
  asc_frame_len : Z;
}.

Record StreamMuxConfig := mkStreamMuxConfig {
  smc_num_sub_frames : Z;
  smc_prog : AudioSpecificConfig;
}.

Section Parsers.
Context `{BitIO}.

Definition read_sampling_freq : M BitReader Z :=
  sampling_freq_idx ← read_ 4;
  if (sampling_freq_idx >=? Z.of_nat (length ACC_SAMPLING_FREQS)) && negb (sampling_freq_idx =? 15) then fail_
  else if sampling_freq_idx =? 15 then read_ 24
  else of_res (unwrap (ACC_SAMPLING_FREQS !! Z.to_nat sampling_freq_idx)).

Definition AudioSpecificConfig_from_reader : M BitReader AudioSpecificConfig :=
  audio_object_type ← read_ 5;
  if audio_object_type =? 0 then fail_
  else
    sampling_freq ← read_sampling_freq;
    channel_conf ← read_ 4;
    if channel_conf >? 7 then fail_
    else
      short ← (if bool_decide (audio_object_type ∈ [1; 2; 3; 4; 6; 7]) then read_bit_ else mret false);
      mret (mkAudioSpecificConfig audio_object_type sampling_freq channel_conf (if (short : bool) then 960 else 1024)).

Definition StreamMuxConfig_from_reader : M BitReader StreamMuxConfig :=
  version ← read_ 1;
  if negb (version =? 0) then fail_
  else
    _ ← read_bit_;
    num_sub_frames ← read_ 6;
    num_progs ← read_ 4;
    num_layers ← read_ 3;
    if negb ((num_progs + 1 =? 1) && (num_layers + 1 =? 1)) then fail_
    else
      prog ← AudioSpecificConfig_from_reader;
      mret (mkStreamMuxConfig (num_sub_frames + 1) prog).
End Parsers.

(** ** Profile and level *)
Definition to_lowercase_char (c : Ascii.ascii) : Ascii.ascii :=
  let n := Ascii.N_of_ascii c in
  if (65 <=? Z.of_N n) && (Z.of_N n <=? 90) then Ascii.ascii_of_N (n + 32)%N else c.

Fixpoint to_lowercase (s : string) : string :=
  match s with EmptyString => EmptyString | String c s => String (to_lowercase_char c) (to_lowercase s) end.

Record ProfileLevel := mkProfileLevel { pl_profile : string; pl_level : string; pl_id : Z }.

(** The identifiers of the levels of a profile. *)
Definition level_id (level : string) (ids : list (string * Z)) : option Z :=
  snd <$> find (fun x => bool_decide (fst x = level)) ids.

Definition profile_level_id (profile level : string) : option Z :=
  let profile := to_lowercase profile in
  if bool_decide (profile = "lc"%string) then level_id level [("1", 40); ("2", 41); ("4", 42); ("5", 43)]%string
  else if bool_decide (profile = "he-aac"%string) || bool_decide (profile = "he-aac-v1"%string) then
    level_id level [("2", 44); ("3", 45); ("4", 46); ("5", 47)]%string
  else if bool_decide (profile = "he-aac-v2"%string) then level_id level [("2", 48); ("3", 49); ("4", 50); ("5", 51)]%string
  else None.

Definition ProfileLevel_from_caps (s : CapsStructure) : option ProfileLevel :=
  match s !! "profile"%string, s !! "level"%string with
  | Some (CapString profile), Some (CapString level) =>
      id ← profile_level_id profile level;
      Some (mkProfileLevel profile level id)
  | _, _ => None
  end.

(** ** Frames with subframes *)
Inductive SubframeError :=
| ZeroLengthSubframe (idx : Z)
| WrongFrameSize (required available : Z).

Record Subframes := mkSubframes {
  sf_frame : list Z;
  sf_pos : Z;
  sf_subframe_idx : Z;
  sf_config : StreamMuxConfig;
}.

Definition Subframes_new (frame : list Z) (config : StreamMuxConfig) : Subframes := mkSubframes frame 0 0 config.

(** An output buffer: its bytes, duration, and the flag of a unit that is not a random access point. *)
Record UnitBuffer := mkUnitBuffer {
  ub_bytes : list Z;
  ub_duration : option Z;
  ub_delta_unit : bool;
}.

(** The length field: the sum of its bytes, which ends at one that is not 255, and their number. *)
Fixpoint payload_length_info (buf : list Z) : Z * Z :=
  match buf with
  | [] => (0, 0)
  | byte :: buf =>
      if byte =? 255 then let '(data_len, n) := payload_length_info buf in (byte + data_len, 1 + n)
      else (byte, 1)
  end.

Definition Subframes_next `{Gst} (self : Subframes) : res (option (UnitBuffer + SubframeError) * Subframes) :=
  let '(mkSubframes frame pos idx config) := self in
  if idx >=? smc_num_sub_frames config then Ok (None, self)
  else
    let idx := idx + 1 in
    _ ← assert_ (pos <=? Z.of_nat (length frame));
    let buf := drop (Z.to_nat pos) frame in
    let '(data_len, n) := payload_length_info buf in
    let pos := pos + n in
    let self := mkSubframes frame pos idx config in
    if data_len =? 0 then Ok (Some (inr (ZeroLengthSubframe idx)), self)
    else if data_len >? Z.of_nat (length buf) then
      Ok (Some (inr (WrongFrameSize (pos + data_len) (pos + Z.of_nat (length buf)))), self)
    else
      _ ← assert_ (pos + data_len <=? Z.of_nat (length frame));
      let subframe := take (Z.to_nat data_len) (drop (Z.to_nat pos) frame) in
      let duration := mul_div_floor U64 (asc_frame_len (smc_prog config)) NS_PER_SEC (asc_sampling_freq (smc_prog config)) in
      Ok (Some (inl (mkUnitBuffer subframe duration false)), mkSubframes frame (pos + data_len) idx config).

(** ** The payloader *)

(** More of the base class of payloaders: the largest packet, dropping the buffers
    up to an id, sending what is queued. *)
Class RtpBasePayMore `{RtpBasePay2} := {
  mtu : RtpBase.BasePay -> Z;
  drop_buffers_to : Z -> RtpBase.BasePay -> RtpBase.BasePay;
  finish_pending_packets : RtpBase.BasePay -> flow unit * RtpBase.BasePay;
}.

Section Mp4aPay.
Context `{BitIO} `{RtpBasePay2} `{!RtpBasePayMore}.

(** The configuration of the stream, and the multiplex configuration with it. *)
Definition from_codec_data (codec_data : option (list Z)) : option (AudioSpecificConfig * list Z) :=
  codec_data ← codec_data;
  if negb (Z.of_nat (length codec_data) =? 2) then None
  else
    match fst (AudioSpecificConfig_from_reader (reader_endian codec_data)) with
    | Done audio_config =>
        let w := writer_write 13 0 (writer_write 1 1 (writer_write 1 0 writer_endian)) in
        let w := fold_left (fun w byte => writer_write 8 byte w) codec_data w in
        Some (audio_config, writer_bytes (writer_write 7 0 w))
    | _ => None
    end.

(** The fields of the source caps: clock rate, profile and configuration; [None] where
    the caps are refused. *)
Definition mp4a_pay_set_sink_caps `{HexCodec} (codec_data : option (list Z)) (rate : option Z) : option (Z * Z * string) :=
  c ← from_codec_data codec_data;
  let '(config, config_data) := c in
  let rate := match rate with Some rate => rate | None => swrap U32 (asc_sampling_freq config) end in
  Some (rate, asc_audio_object_type config, hex_encode config_data).

(** The bytes of the size. A round takes 255 off, so the size is fuel enough. *)
Fixpoint size_prefix_loop (fuel : nat) (rem_size : Z) : list Z :=
  match fuel with
  | O => [wrap U8 rem_size]
  | S fuel => if rem_size >? 255 then 255 :: size_prefix_loop fuel (rem_size - 255) else [wrap U8 rem_size]
  end.

Definition size_prefix (size : Z) : list Z := size_prefix_loop (Z.to_nat size) size.

Abbreviation PM := (M RtpBase.BasePay).

(** The packets of a frame. Only the first may carry no data. *)
Fixpoint send_chunks (fuel : nat) (id max_payload_size : Z) (prefix : list Z) (is_first : bool) (rem_data : list Z) : PM unit :=
  match rem_data with
  | [] => mret tt
  | _ =>
      match fuel with
      | O => crash_
      | S fuel =>
          let prefix_now := if is_first then prefix else [] in
          let chunk_size := Z.to_nat (Z.min (Z.of_nat (length rem_data)) (max_payload_size - Z.of_nat (length prefix_now))) in
          let payload := take chunk_size rem_data in
          let rem_data := drop chunk_size rem_data in
          let marker := bool_decide (rem_data = []) in
          _ ← queue_packet (mkPayPacket id id marker (prefix_now ++ payload));
          send_chunks fuel id max_payload_size prefix false rem_data
      end
  end.

(** A buffer: its size, and its data where it can be mapped. *)
Definition mp4a_pay_handle_buffer (size : Z) (data : option (list Z)) (id : Z) : PM unit :=
  if size =? 0 then upd_ (drop_buffers_to id)
  else
    data ← of_option data;
    base ← get_;
    let max_payload_size := max_payload_size base in
    let prefix := size_prefix (Z.of_nat (length data)) in
    if max_payload_size <? Z.of_nat (length prefix) then _ ← upd_ (drop_buffers_to id); fail_
    else
      _ ← send_chunks (S (length data)) id max_payload_size prefix true data;
      finish_pending_packets.
End Mp4aPay.

(** ** The depayloader *)

(** Queueing a buffer for packets with offsets of its timestamps. *)
Class RtpBaseDepayRelation `{RtpBaseDepay2} := {
  queue_relation : PacketToBufferRelation -> UnitBuffer -> RtpBase.BaseDepay -> flow unit * RtpBase.BaseDepay;
}.

Record FrameAccumulator := mkFrameAccumulator {
  fa_buf : option (list Z);
  fa_start_ext_seqnum : Z;
}.

Definition FrameAccumulator_new (packet : DepayPacket) : FrameAccumulator :=
  mkFrameAccumulator (Some (dp_payload packet)) (dp_ext_seqnum packet).

Definition FrameAccumulator_extend (packet : DepayPacket) (self : FrameAccumulator) : res FrameAccumulator :=
  buf ← unwrap (fa_buf self);
  Ok (mkFrameAccumulator (Some (buf ++ dp_payload packet)) (fa_start_ext_seqnum self)).

Record Mp4aDepayState := mkMp4aDepayState {
  ma_config : option StreamMuxConfig;
  ma_frame_acc : option FrameAccumulator;
  ma_seqnum_base : option Z;
  ma_can_parse : bool;
}.

#[export] Instance Mp4aDepayState_rebuild : Rebuild Mp4aDepayState := {|
  rebuild := fun r => mkMp4aDepayState (ma_config r) (ma_frame_acc r) (ma_seqnum_base r) (ma_can_parse r) |}.

Definition Mp4aDepayState_default : Mp4aDepayState := mkMp4aDepayState None None None false.

Definition mp4a_depay_flush (self : Mp4aDepayState) : Mp4aDepayState :=
  self <| ma_frame_acc := None |> <| ma_can_parse := false |>.

(** Whether a stream may begin with this packet, and the states of [seqnum_base] and [can_parse]:
    from the packet with the announced number on, or after the first marked packet. *)
Definition initial_packet (packet : DepayPacket) (seqnum_base : option Z) (pending : bool) : res (bool * option Z * bool) :=
  let seqnum := and_mask (dp_ext_seqnum packet) 16 in
  let wait_marker seqnum_base :=
    if dp_marker_bit packet then _ ← assert_ (negb pending); Ok (false, seqnum_base, true)
    else Ok (false, seqnum_base, false) in
  match seqnum_base with
  | Some base =>
      let delta := seqnum_distance seqnum (and_mask base 16) in
      if delta =? 0 then Ok (true, Some base, true)
      else if delta <? 0 then Ok (false, Some base, false)
      else wait_marker None
  | None => wait_marker None
  end.

(** The codec data: the configuration from bit 15 on; the last two bytes stay. *)
Definition shift_codec_data (data : list Z) : res (list Z) :=
  n ← u64_sub (Z.of_nat (length data)) 2;
  Ok (imap (fun i d =>
        if Z.of_nat i <? n then
          Z.lor (Z.shiftl (Z.land (nth (i + 1) data 0) 1) 7) (Z.shiftr (Z.land (nth (i + 2) data 0) 254) 1)
        else d) data).

Section Mp4aDepay.
Context `{Gst} `{GstTime} `{BitIO} `{HexCodec} `{RtpBaseDepay2} `{!RtpBaseDepayRelation}.

(** The configuration of the caps; [Done None] without one. *)
Definition from_caps_structure (s : CapsStructure) : flow (option (StreamMuxConfig * list Z)) :=
  match get_optional_str s "config" with
  | Done None => Done None
  | Done (Some conf_str) =>
      match hex_decode conf_str with
      | None => Fail
      | Some data =>
          match fst (StreamMuxConfig_from_reader (reader_endian data)) with
          | Done config =>
              match shift_codec_data data with Ok codec_data => Done (Some (config, codec_data)) | Panic => Crash end
          | Fail => Fail
          | Crash => Crash
          end
      end
  | Fail => Fail
  | Crash => Crash
  end.

Definition DEFAULT_CLOCK_RATE : Z := 90000.

(** The source caps (channels, rate, codec data) and the new state; [None] where the
    caps are refused. *)
Definition mp4a_depay_set_sink_caps (s : CapsStructure) (state : Mp4aDepayState)
  : res (option (Z * Z * list Z) * Mp4aDepayState) :=
  match from_caps_structure s with
  | Crash => Panic
  | Fail | Done None => Ok (None, state)
  | Done (Some (config, codec_data)) =>
      let prog := smc_prog config in
      let caps := (asc_channel_conf prog, swrap U32 (asc_sampling_freq prog), codec_data) in
      clock_rate ← get_i32 s "clock-rate";
      _ ← assert_ (0 <? clock_rate);
      let clock_rate := wrap U32 clock_rate in
      (* what the branches on the object type differ in is the log message *)
      let config :=
        if negb (clock_rate =? DEFAULT_CLOCK_RATE) && negb (clock_rate =? asc_sampling_freq prog) then
          mkStreamMuxConfig (smc_num_sub_frames config)
            (mkAudioSpecificConfig (asc_audio_object_type prog) clock_rate (asc_channel_conf prog) (asc_frame_len prog))
        else config in
      seqnum_base ← get_optional_u32 s "seqnum-base";
      Ok (Some caps, state <| ma_seqnum_base := seqnum_base |> <| ma_config := Some config |>)
  end.

Abbreviation AM := (M (Mp4aDepayState * RtpBase.BaseDepay)).

Definition on_mp4a (f : Mp4aDepayState -> Mp4aDepayState) : AM unit := upd_ (fun s => (f (fst s), snd s)).

Definition queue_relation_ {St} (relation : PacketToBufferRelation) (buffer : UnitBuffer) : M (St * RtpBase.BaseDepay) unit :=
  fun s => let '(ret, base) := queue_relation relation buffer (snd s) in (ret, (fst s, base)).

(** Whether to go on with the packet. *)
Definition mp4a_check_initial_packet (packet : DepayPacket) : AM bool :=
  s ← get_;
  r ← of_res (initial_packet packet (ma_seqnum_base (fst s)) (is_some (ma_frame_acc (fst s))));
  let '(go, seqnum_base, can_parse) := r in
  _ ← on_mp4a (fun st => st <| ma_seqnum_base := seqnum_base |> <| ma_can_parse := can_parse |>);
  mret go.

(** The subframes are pushed, each after the ones before it. At most so many are
    looked at as the configuration has. *)
Fixpoint push_subframes (fuel : nat) (range : Z * Z) (accumulated_duration : Z) (subframes : Subframes) : AM unit :=
  match fuel with
  | O => crash_
  | S fuel =>
      r ← of_res (Subframes_next subframes);
      let '(item, subframes) := r in
      match item with
      | None => mret tt
      | Some (inl subframe) =>
          duration ← of_res (unwrap (ub_duration subframe));
          _ ← queue_relation_ (SeqnumsWithOffset range (OffsetPts (into_positive accumulated_duration))) subframe;
          accumulated_duration ← of_res (clock_add accumulated_duration duration);
          push_subframes fuel range accumulated_duration subframes
      | Some (inr (ZeroLengthSubframe _)) => push_subframes fuel range accumulated_duration subframes
      | Some (inr (WrongFrameSize _ _)) => drop_ (snd range) true
      end
  end.

Definition mp4a_depay_handle_packet (packet : DepayPacket) : AM unit :=
  s ← get_;
  go ← (if ma_can_parse (fst s) then mret true else mp4a_check_initial_packet packet);
  if negb go then drop_ (dp_ext_seqnum packet) true
  else
    s ← get_;
    acc ← (match ma_frame_acc (fst s) with
           | Some frame_acc => of_res (FrameAccumulator_extend packet frame_acc)
           | None => mret (FrameAccumulator_new packet)
           end);
    if negb (dp_marker_bit packet) then on_mp4a (fun st => st <| ma_frame_acc := Some acc |>)
    else
      _ ← on_mp4a (fun st => st <| ma_frame_acc := None |>);
      match ma_config (fst s) with
      | None => fail_
      | Some config =>
          buf ← of_res (unwrap (fa_buf acc));
          push_subframes (S (Z.to_nat (smc_num_sub_frames config))) (fa_start_ext_seqnum acc, dp_ext_seqnum packet) 0
            (Subframes_new buf config)
      end.
End Mp4aDepay.
