(* ===== verification/Mp4aProps.v ===== *)
(** * MPEG-4 audio, sender to receiver

    Frames through the payloader and the depayloader, the configuration through
    the caps, and the frames that do not make it. *)

From S2P Require Import Prelude Utils Queues F64 Flow BitStream RtpBase DepayMeta BaseDepay.
From S2P Require Import BaseDepayRun AudioPay AudioPayProps Mp4a.

(** ** Laws of the interfaces *)

(** Finishing packets takes none away. *)
Class AcceptingMore `{RtpBasePayMore} (limit : Z) `{!AcceptingBase limit} : Prop :=
  accepting_finish b : exists b', finish_pending_packets b = (Done tt, b') /\ accepted b' = accepted b.

Class CollectingRelation `{RtpBaseDepayRelation} := {
  units : RtpBase.BaseDepay -> list (PacketToBufferRelation * UnitBuffer);
  drop_units n inclusive b : units (drop_packets n inclusive b) = units b;
  queue_units rel buf b : exists b', queue_relation rel buf b = (Done tt, b') /\ units b' = units b ++ [(rel, buf)];
}.

(** ** The length field *)
Lemma size_prefix_info l : forall fuel n, 0 < n -> n <= Z.of_nat fuel -> n mod 255 <> 0 ->
  payload_length_info (size_prefix_loop fuel n ++ l) = (n, Z.of_nat (length (size_prefix_loop fuel n))).
Proof.
  induction fuel as [|fuel IH]; intros n Hn Hf Hm; [lia|]. cbn [size_prefix_loop]. rewrite Z.gtb_ltb. destruct (Z.ltb_spec 255 n) as [Hl|Hl].
  - cbn [app payload_length_info Z.eqb Pos.eqb]. rewrite IH; [|lia|lia|].
    + cbn [length]. f_equal; lia.
    + intros E. apply Hm. replace n with (n - 255 + 1 * 255) by lia. by rewrite Z.mod_add.
  - assert (n <> 255) by (intros ->; by apply Hm). unfold wrap. rewrite Z.mod_small by lia. cbn.
    by rewrite (proj2 (Z.eqb_neq n 255)).
Qed.

(** A size that is a multiple of 255 runs into the data. *)
Lemma size_prefix_runs_on l : forall fuel n, 0 < n -> n <= Z.of_nat fuel -> n mod 255 = 0 ->
  payload_length_info (size_prefix_loop fuel n ++ l) =
    (n + fst (payload_length_info l), Z.of_nat (length (size_prefix_loop fuel n)) + snd (payload_length_info l)).
Proof.
  induction fuel as [|fuel IH]; intros n Hn Hf Hm; [lia|]. cbn [size_prefix_loop]. rewrite Z.gtb_ltb. destruct (Z.ltb_spec 255 n) as [Hl|Hl].
  - cbn [app payload_length_info Z.eqb Pos.eqb]. rewrite IH; [|lia|lia|].
    + cbn [length]. f_equal; lia.
    + replace n with (n - 255 + 1 * 255) in Hm by lia. by rewrite Z.mod_add in Hm.
  - assert (n = 255) as ->; [|cbn; by destruct (payload_length_info l)]. destruct (Z.eq_dec n 255) as [E|E]; [done|].
    rewrite Z.mod_small in Hm by lia. lia.
Qed.

(** ** Packets of a frame *)

(** All but the last are unmarked, the last is marked. *)
Definition closes (ps : list PayPacket) : Prop :=
  exists init last, ps = init ++ [last] /\ Forall (fun p => pp_marker_bit p = false) init /\ pp_marker_bit last = true.

Lemma closes_cons p ps : pp_marker_bit p = false -> closes ps -> closes (p :: ps).
Proof. intros Hp (init & last & -> & Hi & Hl). exists (p :: init), last. by repeat constructor. Qed.

(** The packets carry [prefix ++ data], none larger than [limit], the last one marked. *)
Record frame_packets (limit : Z) (bytes : list Z) (ps : list PayPacket) : Prop := {
  fp_bytes : concat (map pp_payload ps) = bytes;
  fp_closes : closes ps;
  fp_limit : Forall (fun p => Z.of_nat (length (pp_payload p)) <= limit) ps;
}.

Section Pay.
Context `{RtpBasePay2} `{!RtpBasePayMore} (limit : Z) `{!AcceptingBase limit} `{!AcceptingMore limit}.

Lemma send_rest id prefix : forall fuel data base, data <> [] -> (length data <= fuel)%nat -> 0 < limit ->
  exists base' ps, send_chunks fuel id limit prefix false data base = (Done tt, base') /\
    accepted base' = accepted base ++ ps /\ frame_packets limit data ps.
Proof using Type*.
  induction fuel as [|fuel IH]; intros data base Hne Hf Hl; [by destruct data; [|cbn in Hf; lia]|].
  destruct data as [|x data']; [done|]. cbn [send_chunks]. set (data := x :: data') in *. cbv zeta. cbn [length]. rewrite Z.sub_0_r.
  set (k := Z.to_nat (Z.min (Z.of_nat (length data)) limit)).
  assert (Hk : (0 < k <= length data)%nat /\ Z.of_nat k <= limit) by (subst k data; cbn [length]; lia).
  unfold mbind, M_bind. cbn [app]. destruct (accepting_queue (mkPayPacket id id (bool_decide (drop k data = [])) (take k data)) base) as (b1 & -> & Hb1).
  destruct (decide (drop k data = [])) as [E|E].
  - rewrite bool_decide_eq_true_2 in Hb1 by done. rewrite E. assert (Ht : take k data = data) by (rewrite <- (take_drop k data) at 2; by rewrite E, app_nil_r).
    eexists b1, [_]. split; [by destruct fuel|]. split; [exact Hb1|]. constructor; [cbn; by rewrite app_nil_r|exists [], (mkPayPacket id id true (take k data))|].
    + by repeat constructor.
    + repeat constructor. cbn. rewrite length_take. lia.
  - rewrite bool_decide_eq_false_2 in Hb1 by done.
    destruct (IH (drop k data) b1 E) as (b2 & ps & -> & Hb2 & [Hy Hc Hlim]); [rewrite length_drop; lia|done|].
    eexists b2, (_ :: ps). split; [reflexivity|]. split; [rewrite Hb2, Hb1, <- app_assoc; reflexivity|].
    constructor; [cbn; rewrite Hy; apply take_drop|by apply closes_cons|]. constructor; [|done]. cbn. rewrite length_take. lia.
Qed.

Lemma mp4a_frame_sent data id base :
  data <> [] -> Z.of_nat (length (size_prefix (Z.of_nat (length data)))) <= limit ->
  exists base' ps, mp4a_pay_handle_buffer (Z.of_nat (length data)) (Some data) id base = (Done tt, base') /\
    accepted base' = accepted base ++ ps /\ frame_packets limit (size_prefix (Z.of_nat (length data)) ++ data) ps.
Proof using Type*.
  intros Hne Hp. unfold mp4a_pay_handle_buffer. rewrite (proj2 (Z.eqb_neq _ 0)) by (destruct data; cbn; [done|lia]).
  unfold mbind, M_bind, of_option, get_. cbn [fst snd]. rewrite accepting_size. set (prefix := size_prefix _) in *.
  assert (Hp1 : (0 < length prefix)%nat) by (subst prefix; unfold size_prefix; destruct (Z.to_nat _); cbn [size_prefix_loop]; [|destruct (_ >? _)]; cbn [length]; lia).
  rewrite (proj2 (Z.ltb_ge _ _)) by lia.
  assert (HS : exists b1 ps, send_chunks (S (length data)) id limit prefix true data base = (Done tt, b1) /\
    accepted b1 = accepted base ++ ps /\ frame_packets limit (prefix ++ data) ps).
  { remember (length data) as fuel eqn:Ef. destruct data as [|x data']; [done|]. cbn [send_chunks]. set (data := x :: data') in *. cbv zeta.
    set (k := Z.to_nat (Z.min (Z.of_nat (length data)) (limit - Z.of_nat (length prefix)))).
    assert (Hk : (k <= length data)%nat /\ Z.of_nat (length prefix) + Z.of_nat k <= limit) by (subst k; lia).
    unfold mbind, M_bind. destruct (accepting_queue (mkPayPacket id id (bool_decide (drop k data = [])) (prefix ++ take k data)) base) as (b1 & -> & Hb1).
    destruct (decide (drop k data = [])) as [E|E].
    - rewrite bool_decide_eq_true_2 in Hb1 by done. rewrite E. assert (Ht : take k data = data) by (rewrite <- (take_drop k data) at 2; by rewrite E, app_nil_r).
      eexists b1, [_]. split; [by destruct fuel|]. split; [exact Hb1|].
      constructor; [cbn; by rewrite app_nil_r, Ht|exists [], (mkPayPacket id id true (prefix ++ take k data)); by repeat constructor|].
      repeat constructor. cbn. rewrite length_app, length_take. lia.
    - rewrite bool_decide_eq_false_2 in Hb1 by done.
      destruct (send_rest id prefix fuel (drop k data) b1 E) as (b2 & ps & -> & Hb2 & [Hy Hc Hlim]); [rewrite length_drop; lia|lia|].
      eexists b2, (_ :: ps). split; [reflexivity|]. split; [rewrite Hb2, Hb1, <- app_assoc; reflexivity|].
      constructor; [cbn; rewrite Hy, <- app_assoc; f_equal; apply take_drop|by apply closes_cons|]. constructor; [|done].
      cbn. rewrite length_app, length_take. lia. }
  destruct HS as (b1 & ps & -> & Hb1 & Hfp). destruct (accepting_finish b1) as (b2 & -> & Hb2). exists b2, ps. by rewrite Hb2.
Qed.
End Pay.

(** ** The receiver *)

(** The packets as they arrive, numbered from [n] on. *)
Fixpoint arrivals (ts n : Z) (ps : list PayPacket) : list DepayPacket :=
  match ps with
  | [] => []
  | p :: ps => mkDepayPacket (pp_payload p) ts n (pp_marker_bit p) :: arrivals ts (n + 1) ps
  end.

Lemma arrivals_app ts ps1 ps2 : forall n, arrivals ts n (ps1 ++ ps2) = arrivals ts n ps1 ++ arrivals ts (n + Z.of_nat (length ps1)) ps2.
Proof. induction ps1 as [|p ps1 IH]; intros n; cbn [app arrivals length]; [f_equal; lia|]. rewrite IH. do 3 f_equal. lia. Qed.

Section Depay.
Context `{Gst} `{!GstLaws} `{GstTime} `{!ClockAddLaws} `{RtpBaseDepay2} `{!RtpBaseDepayRelation} `{!CollectingRelation}.

Fixpoint mp4a_feed (ps : list DepayPacket) : M (Mp4aDepayState * RtpBase.BaseDepay) unit :=
  match ps with
  | [] => mret tt
  | p :: ps => _ ← mp4a_depay_handle_packet p; mp4a_feed ps
  end.

Lemma mp4a_feed_app ps1 ps2 s s1 : mp4a_feed ps1 s = (Done tt, s1) -> mp4a_feed (ps1 ++ ps2) s = mp4a_feed ps2 s1.
Proof.
  revert s. induction ps1 as [|p ps1 IH]; intros s; cbn [mp4a_feed app]; [by intros [= ->]|].
  intros (a & s2 & E1 & E2)%M_bind_inv. rewrite (M_bind_done _ _ _ _ _ E1). by apply IH.
Qed.

(** What a packet leaves to do once it is taken: accumulate, or take the frame apart. *)
Definition accumulated (p : DepayPacket) (st : Mp4aDepayState) : option FrameAccumulator :=
  match ma_frame_acc st with
  | None => Some (FrameAccumulator_new p)
  | Some (mkFrameAccumulator (Some buf) start) => Some (mkFrameAccumulator (Some (buf ++ dp_payload p)) start)
  | Some (mkFrameAccumulator None _) => None
  end.

Lemma mp4a_taken p st b acc :
  ma_can_parse st = true -> accumulated p st = Some acc ->
  mp4a_depay_handle_packet p (st, b) =
    if dp_marker_bit p then
      match ma_config st with
      | None => (Fail, (st <| ma_frame_acc := None |>, b))
      | Some config =>
          (buf ← of_res (unwrap (fa_buf acc));
           push_subframes (S (Z.to_nat (smc_num_sub_frames config))) (fa_start_ext_seqnum acc, dp_ext_seqnum p) 0
             (Subframes_new buf config)) (st <| ma_frame_acc := None |>, b)
      end
    else (Done tt, (st <| ma_frame_acc := Some acc |>, b)).
Proof.
  intros Hc Ha. unfold mp4a_depay_handle_packet, mbind, M_bind, get_, accumulated in *. cbn [fst snd]. rewrite Hc. cbn [mret M_ret negb fst snd].
  destruct (ma_frame_acc st) as [[[buf|] start]|]; [|done|]; injection Ha as <-;
    cbn -[push_subframes]; (destruct (dp_marker_bit p); [|done]); cbn -[push_subframes]; by destruct (ma_config st).
Qed.

Lemma mp4a_accumulates ts ps : forall n st b buf start,
  ma_can_parse st = true -> ma_frame_acc st = Some (mkFrameAccumulator (Some buf) start) -> Forall (fun p => pp_marker_bit p = false) ps ->
  mp4a_feed (arrivals ts n ps) (st, b) =
    (Done tt, (st <| ma_frame_acc := Some (mkFrameAccumulator (Some (buf ++ concat (map pp_payload ps))) start) |>, b)).
Proof.
  induction ps as [|p ps IH]; intros n st b buf start Hc Ha Hm; cbn [arrivals mp4a_feed].
  { cbn. rewrite app_nil_r, <- Ha. by destruct st. }
  apply Forall_cons in Hm as [Hp Hm]. unfold mbind, M_bind.
  rewrite (mp4a_taken _ st b (mkFrameAccumulator (Some (buf ++ pp_payload p)) start)); [|done|unfold accumulated; by rewrite Ha].
  cbn [dp_marker_bit]. rewrite Hp. rewrite (IH _ _ _ (buf ++ pp_payload p) start); [|done|done|done]. cbn. by rewrite app_assoc.
Qed.

(** The bytes of a frame reach [push_subframes]. *)
Lemma mp4a_frame_taken ts n ps bytes st b config limit :
  ma_can_parse st = true -> ma_frame_acc st = None -> ma_config st = Some config -> frame_packets limit bytes ps ->
  mp4a_feed (arrivals ts n ps) (st, b) =
    push_subframes (S (Z.to_nat (smc_num_sub_frames config))) (n, n + Z.of_nat (length ps) - 1) 0 (Subframes_new bytes config) (st, b).
Proof.
  intros Hc Ha Hcfg [<- (init & last & -> & Hi & Hl) _].
  assert (Hst : st <| ma_frame_acc := None |> = st) by (rewrite <- Ha; by destruct st).
  destruct init as [|p init]; cbn [app arrivals mp4a_feed].
  - unfold mbind, M_bind. rewrite (mp4a_taken _ st b (FrameAccumulator_new (mkDepayPacket (pp_payload last) ts n (pp_marker_bit last))));
      [|done|unfold accumulated; by rewrite Ha]. cbn [dp_marker_bit dp_ext_seqnum]. rewrite Hl, Hcfg, Hst. cbn -[push_subframes].
    rewrite app_nil_r. replace (n + Z.of_nat 1 - 1) with n by lia. unfold mbind, M_bind. cbn [of_res].
    by destruct (push_subframes _ _ _ _ _) as [[[]| |] ?].
  - apply Forall_cons in Hi as [Hp Hi]. unfold mbind, M_bind.
    rewrite (mp4a_taken _ st b (FrameAccumulator_new (mkDepayPacket (pp_payload p) ts n (pp_marker_bit p)))); [|done|unfold accumulated; by rewrite Ha].
    cbn [dp_marker_bit]. rewrite Hp, arrivals_app. unfold FrameAccumulator_new. cbn [dp_payload dp_ext_seqnum].
    erewrite mp4a_feed_app by (by apply mp4a_accumulates). cbn [arrivals mp4a_feed]. unfold mbind, M_bind.
    rewrite (mp4a_taken _ _ b (mkFrameAccumulator (Some ((pp_payload p ++ concat (map pp_payload init)) ++ pp_payload last)) n)); [|done|done].
    cbn [dp_marker_bit dp_ext_seqnum]. rewrite Hl. cbn -[push_subframes Z.of_nat]. rewrite Hcfg.
    assert (Hs3 : forall x y, st <| ma_frame_acc := x |> <| ma_frame_acc := y |> <| ma_frame_acc := None |> = st) by (intros; by rewrite <- Hst at 2).
    rewrite Hs3. rewrite map_app, concat_app. cbn -[push_subframes Z.of_nat]. rewrite app_nil_r, <- app_assoc, length_app. cbn [length].
    replace (n + 1 + Z.of_nat (length init)) with (n + Z.of_nat (S (length init + 1)) - 1) by lia. unfold mbind, M_bind. cbn [of_res].
    by destruct (push_subframes _ _ _ _ _) as [[[]| |] ?].
Qed.

(** A frame of one subframe whose length field says so. *)
Lemma one_subframe config range data prefix st b d :
  smc_num_sub_frames config = 1 -> data <> [] -> Z.of_nat (length data) + Z.of_nat (length prefix) < U64 ->
  payload_length_info (prefix ++ data) = (Z.of_nat (length data), Z.of_nat (length prefix)) ->
  mul_div_floor U64 (asc_frame_len (smc_prog config)) NS_PER_SEC (asc_sampling_freq (smc_prog config)) = Some d -> 0 <= d < U64 - 1 ->
  exists b', push_subframes 2 range 0 (Subframes_new (prefix ++ data) config) (st, b) = (Done tt, (st, b')) /\
    units b' = units b ++ [(SeqnumsWithOffset range (OffsetPts (Positive 0)), mkUnitBuffer data (Some d) false)].
Proof using Type*.
  intros Hone Hne Hs Hi Hd Hdr. cbn [push_subframes]. unfold mbind at 1, M_bind at 1, Subframes_next at 1, Subframes_new. rewrite Hone.
  cbn [Z.geb Z.compare]. cbn [assert_]. rewrite (proj2 (Z.leb_le 0 _)) by lia. cbn [assert_]. rewrite bind_Ok. cbv zeta.
  change (drop (Z.to_nat 0) (prefix ++ data)) with (prefix ++ data). rewrite Hi.
  rewrite (proj2 (Z.eqb_neq _ 0)) by (destruct data; [done|cbn; lia]). rewrite length_app, Z.gtb_ltb, (proj2 (Z.ltb_ge _ _)) by lia.
  rewrite (proj2 (Z.leb_le _ _)) by lia. cbn [assert_]. rewrite bind_Ok, Hd. cbn [of_res]. rewrite Z.add_0_l, Nat2Z.id, Nat2Z.id, drop_app_length, firstn_all.
  unfold mbind, M_bind. cbn [ub_duration unwrap of_res]. unfold queue_relation_, into_positive. cbn [fst snd].
  destruct (queue_units (SeqnumsWithOffset range (OffsetPts (Positive 0))) (mkUnitBuffer data (Some d) false) b) as (b' & -> & Hb).
  rewrite clock_add_exact by lia. cbn [of_res]. unfold Subframes_next. rewrite Hone. cbn. by exists b'.
Qed.

(** One whose length field takes in the first byte of the data. *)
Lemma one_subframe_lost config range data prefix st b x :
  smc_num_sub_frames config = 1 -> 0 <= x ->
  payload_length_info (prefix ++ data) = (Z.of_nat (length data) + x, Z.of_nat (length prefix) + 1) -> data <> [] ->
  if x <=? Z.of_nat (length prefix) then
    push_subframes 2 range 0 (Subframes_new (prefix ++ data) config) (st, b) = (Crash, (st, b))
  else
    push_subframes 2 range 0 (Subframes_new (prefix ++ data) config) (st, b) = (Done tt, (st, drop_packets (snd range) true b)).
Proof.
  intros Hone Hx Hi Hne. cbn [push_subframes]. unfold mbind, M_bind, Subframes_next, Subframes_new. rewrite Hone.
  cbn [Z.geb Z.compare]. rewrite (proj2 (Z.leb_le 0 _)) by lia. cbn [assert_ res_bind].
  change (drop (Z.to_nat 0) (prefix ++ data)) with (prefix ++ data). rewrite Hi.
  assert (0 < length data)%nat by (destruct data; [done|cbn; lia]). rewrite (proj2 (Z.eqb_neq _ 0)) by lia. rewrite length_app, Z.gtb_ltb.
  destruct (Z.leb_spec x (Z.of_nat (length prefix))).
  - rewrite (proj2 (Z.ltb_ge _ _)) by lia. by rewrite (proj2 (Z.leb_gt _ _)) by lia.
  - by rewrite (proj2 (Z.ltb_lt _ _)) by lia.
Qed.
End Depay.

(** ** The configuration *)

(** Bits that do not fill a byte are not written out. *)
Class BitPartialLaws `{BitIOLaws} : Prop :=
  bytes_partial w bs l : is_bytes bs -> written w = bytes_bits bs ++ l -> (length l < 8)%nat -> writer_bytes w = bs.

Section Config.
Context `{BitIOLaws}.

(** A parser that succeeds reads the bits it takes from the front. *)
Definition parser_sound {A} (p : M BitReader A) : Prop :=
  forall r a r', p r = (Done a, r') -> exists l, unread r = l ++ unread r' /\ parses p l a.

Lemma sound_ret {A} (a : A) : parser_sound (mret a).
Proof. intros r a' r' [= <- <-]. exists []. split; [done|apply parses_ret]. Qed.

Lemma sound_fail {A} : parser_sound (@fail_ BitReader A).
Proof. by intros r a r' [=]. Qed.

Lemma sound_of_res {A} (x : res A) : parser_sound (of_res x).
Proof. intros r a r' (-> & ->)%of_res_ok. exists []. split; [done|]. intros r1 rest Hr. by exists r1. Qed.

Lemma sound_read n : parser_sound (read_ n).
Proof.
  intros r a r' HK. unfold read_ in HK. destruct (le_lt_dec n (length (unread r))) as [Hl|Hl].
  - assert (El : length (take n (unread r)) = n) by (rewrite length_take; lia).
    destruct (unread_read n r (take n (unread r)) (drop n (unread r)) (eq_sym (take_drop _ _)) El) as (r1 & E & Hu).
    rewrite E in HK. injection HK as <- <-. exists (take n (unread r)). rewrite Hu, take_drop. split; [done|].
    rewrite <- El at 1. apply parses_read.
  - by rewrite (unread_short n r Hl) in HK.
Qed.

Lemma sound_bind {A B} (p : M BitReader A) (k : A -> M BitReader B) : parser_sound p -> (forall a, parser_sound (k a)) -> parser_sound (p ≫= k).
Proof.
  intros Hp Hk r b r' (a & r1 & E1 & E2)%M_bind_inv. destruct (Hp _ _ _ E1) as (l1 & U1 & P1). destruct (Hk _ _ _ _ E2) as (l2 & U2 & P2).
  exists (l1 ++ l2). split; [by rewrite U1, U2, app_assoc|by eapply parses_bind].
Qed.

Lemma sound_if {A} (c : bool) (p q : M BitReader A) : parser_sound p -> parser_sound q -> parser_sound (if c then p else q).
Proof. by destruct c. Qed.

Lemma audio_config_sound : parser_sound AudioSpecificConfig_from_reader.
Proof.
  unfold AudioSpecificConfig_from_reader, read_sampling_freq, read_bit_.
  repeat first [apply sound_ret|apply sound_fail|apply sound_of_res|apply sound_read|apply sound_if|apply sound_bind; [|intros ?]].
Qed.
End Config.

(** What the payloader writes before the codec data, and the bytes with it. *)
Definition mux_bytes (a b : Z) : list Z := [64; a / 128; a * 2 mod 256 + b / 128; b * 2 mod 256].

(** The high bit of a byte and the others. *)
Lemma byte_split x : is_u8 x -> 0 <= x / 128 <= 1 /\ x * 2 mod 256 = x mod 128 * 2 /\ 0 <= x mod 128 < 128 /\ x = x / 128 * 128 + x mod 128.
Proof.
  intros Hx. unfold is_u8 in Hx. pose proof (Z.div_mod x 128). pose proof (Z.mod_pos_bound x 128).
  split; [split; [apply Z.div_pos; lia|apply Z.lt_succ_r, Z.div_lt_upper_bound; lia]|]. split; [|lia].
  change 256 with (128 * 2). apply Z.mul_mod_distr_r; lia.
Qed.

Lemma shifted_byte y z h : 0 <= y <= 1 -> 0 <= z < 128 -> 0 <= h <= 1 ->
  Z.lor (Z.shiftl (Z.land y 1) 7) (Z.shiftr (Z.land (z * 2 + h) 254) 1) = y * 128 + z.
Proof.
  intros Hy Hz Hh. assert (Ey : Z.land y 1 = y) by (change 1 with (Z.ones 1); rewrite Z.land_ones, Z.mod_small; lia). rewrite Ey.
  assert (Ez : Z.shiftr (Z.land (z * 2 + h) 254) 1 = z).
  { rewrite Z.shiftr_land. change (Z.shiftr 254 1) with (Z.ones 7). rewrite Z.land_ones, Z.shiftr_div_pow2 by lia. change (2 ^ 1) with 2.
    rewrite Z.div_add_l, (Z.div_small h) by lia. rewrite Z.mod_small; lia. }
  rewrite Ez. by rewrite lor_shiftl_add by lia.
Qed.

Lemma mux_bytes_spec a b : is_u8 a -> is_u8 b ->
  bits_of 1 0 ++ bits_of 1 1 ++ bits_of 13 0 ++ bits_of 8 a ++ bits_of 8 b ++ bits_of 7 0 = bytes_bits (mux_bytes a b) ++ bits_of 6 0 /\
  shift_codec_data (mux_bytes a b) = Ok ([a; b] ++ drop 2 (mux_bytes a b)) /\ is_bytes (mux_bytes a b).
Proof.
  intros Ha Hb. destruct (byte_split a Ha) as (A1 & A2 & A3 & A4). destruct (byte_split b Hb) as (B1 & B2 & B3 & B4).
  assert (Hbits : forall x, bits_of 8 x = bits_of 1 (x / 128) ++ bits_of 7 (x mod 128)).
  { intros x. rewrite (bits_of_app 1 7), Z.shiftr_div_pow2 by lia. by rewrite <- (bits_of_mod 7 x). }
  assert (Hpack : forall z h, 0 <= h <= 1 -> bits_of 8 (z * 2 + h) = bits_of 7 z ++ bits_of 1 h) by (intros z h Hh; apply (bits_of_pack 7 1); cbn; lia).
  unfold mux_bytes. rewrite A2, B2. split; [|split].
  - rewrite (Hbits a), (Hbits b). unfold bytes_bits. cbn [map concat]. rewrite app_nil_r.
    rewrite (Hpack (a mod 128) (b / 128)) by lia. pose proof (Hpack 0 (a / 128) A1) as P1. rewrite Z.mul_0_l, Z.add_0_l in P1. rewrite P1.
    pose proof (Hpack (b mod 128) 0 ltac:(lia)) as P2. rewrite Z.add_0_r in P2. rewrite P2.
    rewrite <- !app_assoc. reflexivity.
  - unfold shift_codec_data. cbn [length imap nth]. cbn -[Z.land Z.lor Z.shiftl Z.shiftr Z.div Z.modulo Z.mul Z.add].
    pose proof (shifted_byte (a / 128) (a mod 128) (b / 128)) as E1. rewrite E1 by lia.
    assert (El : Z.land (a mod 128 * 2 + b / 128) 1 = b / 128).
    { change 1 with (Z.ones 1). rewrite Z.land_ones, Z.add_comm, Z.mod_add by lia. apply Z.mod_small. lia. }
    rewrite El. pose proof (shifted_byte (b / 128) (b mod 128) 0) as E2. rewrite Z.add_0_r in E2.
    assert (El2 : Z.land (b / 128) 1 = b / 128) by (change 1 with (Z.ones 1); rewrite Z.land_ones, Z.mod_small; lia).
    rewrite El2 in E2. rewrite E2 by lia. by rewrite <- A4, <- B4.
  - unfold is_u8 in *. repeat constructor; unfold is_u8; lia.
Qed.

(** ** Properties *)

(** Frames are sent one by one. *)
Fixpoint mp4a_send `{RtpBasePay2} `{!RtpBasePayMore} (id : Z) (frames : list (list Z)) : M RtpBase.BasePay unit :=
  match frames with
  | [] => mret tt
  | frame :: frames => _ ← mp4a_pay_handle_buffer (Z.of_nat (length frame)) (Some frame) id; mp4a_send (id + 1) frames
  end.

(** Each frame is one buffer, for the packets it came in. *)
Fixpoint frame_outputs (d n : Z) (fps : list (list Z * list PayPacket)) : list (PacketToBufferRelation * UnitBuffer) :=
  match fps with
  | [] => []
  | (frame, ps) :: fps =>
      let e := n + Z.of_nat (length ps) in
      (SeqnumsWithOffset (n, e - 1) (OffsetPts (Positive 0)), mkUnitBuffer frame (Some d) false) :: frame_outputs d e fps
  end.

(** A frame that goes through: its size is no multiple of 255, its length field fits in a packet. *)
Definition frame_ok (limit : Z) (frame : list Z) : Prop :=
  Z.of_nat (length frame) mod 255 <> 0 /\ Z.of_nat (length (size_prefix (Z.of_nat (length frame)))) <= limit /\
  Z.of_nat (length frame) + limit < U64.

Section Whole.
Context `{Gst} `{!GstLaws} `{GstTime} `{!ClockAddLaws} `{RtpBaseDepay2} `{!RtpBaseDepayRelation} `{!CollectingRelation}.
Context `{RtpBasePay2} `{!RtpBasePayMore} (limit : Z) `{!AcceptingBase limit} `{!AcceptingMore limit}.

Lemma mp4a_frames_sent frames : Forall (frame_ok limit) frames -> forall id base,
  exists base' fps, mp4a_send id frames base = (Done tt, base') /\ accepted base' = accepted base ++ concat (map snd fps) /\ map fst fps = frames /\
    Forall (fun fp => frame_packets limit (size_prefix (Z.of_nat (length (fst fp))) ++ fst fp) (snd fp)) fps.
Proof using Type*.
  induction 1 as [|frame frames (Hm & Hp & Hs) _ IH]; intros id base.
  { exists base, []. split; [done|]. split; [cbn; by rewrite app_nil_r|]. by split. }
  assert (Hne : frame <> []) by (by intros ->). cbn [mp4a_send]. unfold mbind, M_bind.
  destruct (mp4a_frame_sent limit frame id base Hne Hp) as (b1 & ps & -> & Hb1 & Hfp).
  destruct (IH (id + 1) b1) as (b2 & fps & -> & Hb2 & Hf & Hall). exists b2, ((frame, ps) :: fps).
  split; [done|]. split; [cbn; by rewrite Hb2, Hb1, <- app_assoc|]. split; [cbn; by rewrite Hf|]. by constructor.
Qed.

Lemma mp4a_frames_received config d ts : smc_num_sub_frames config = 1 ->
  mul_div_floor U64 (asc_frame_len (smc_prog config)) NS_PER_SEC (asc_sampling_freq (smc_prog config)) = Some d -> 0 <= d < U64 - 1 ->
  forall fps, Forall (fun fp => frame_ok limit (fst fp) /\ frame_packets limit (size_prefix (Z.of_nat (length (fst fp))) ++ fst fp) (snd fp)) fps ->
  forall n st b, ma_can_parse st = true -> ma_frame_acc st = None -> ma_config st = Some config ->
  exists b', mp4a_feed (arrivals ts n (concat (map snd fps))) (st, b) = (Done tt, (st, b')) /\ units b' = units b ++ frame_outputs d n fps.
Proof using Type*.
  intros Hone Hd Hdr fps Hf. induction Hf as [|[frame ps] fps [(Hm & Hp & Hs) Hfp] Hf IH]; intros n st b Hc Ha Hcfg.
  { exists b. split; [done|]. cbn. by rewrite app_nil_r. }
  cbn [map concat snd fst frame_outputs] in *. cbv zeta. rewrite arrivals_app. assert (Hne : frame <> []) by (by intros ->).
  assert (Hlen : 0 < Z.of_nat (length frame)) by (destruct frame; [done|cbn; lia]).
  destruct (one_subframe config (n, n + Z.of_nat (length ps) - 1) frame (size_prefix (Z.of_nat (length frame))) st b d) as (b1 & HK & Hb1);
    [done|done|lia|apply size_prefix_info; lia|done|done|].
  pose proof (mp4a_frame_taken ts n ps _ st b config limit Hc Ha Hcfg Hfp) as HT. rewrite Hone in HT. change (S (Z.to_nat 1)) with 2%nat in HT. rewrite HK in HT.
  rewrite (mp4a_feed_app _ _ _ _ HT). destruct (IH (n + Z.of_nat (length ps)) st b1 Hc Ha Hcfg) as (b2 & HK2 & Hb2).
  exists b2. split; [done|]. by rewrite Hb2, Hb1, <- app_assoc.
Qed.
End Whole.

(** C21: MPEG-4 audio from sender to receiver. Frames whose sizes are no multiples of
    255, and whose length fields fit in a packet, are sent in packets of at most the
    size the base class allows; a receiver that is in the stream gets each frame back
    as one buffer, unchanged, with its duration, for exactly the packets that carried
    it, and is ready for the next frame. *)
Theorem mp4a_roundtrip `{Gst} `{!GstLaws} `{GstTime} `{!ClockAddLaws} `{RtpBaseDepay2} `{!RtpBaseDepayRelation} `{!CollectingRelation}
    `{RtpBasePay2} `{!RtpBasePayMore} (limit : Z) `{!AcceptingBase limit} `{!AcceptingMore limit} frames id base config ts n st b :
  Forall (frame_ok limit) frames -> smc_num_sub_frames config = 1 ->
  0 <= asc_frame_len (smc_prog config) <= 1024 -> 0 < asc_sampling_freq (smc_prog config) < U32 ->
  ma_can_parse st = true -> ma_frame_acc st = None -> ma_config st = Some config ->
  exists base' fps b',
    mp4a_send id frames base = (Done tt, base') /\ accepted base' = accepted base ++ concat (map snd fps) /\ map fst fps = frames /\
    Forall (fun p => Z.of_nat (length (pp_payload p)) <= limit) (concat (map snd fps)) /\
    mp4a_feed (arrivals ts n (concat (map snd fps))) (st, b) = (Done tt, (st, b')) /\
    units b' = units b ++ frame_outputs (asc_frame_len (smc_prog config) * NS_PER_SEC / asc_sampling_freq (smc_prog config)) n fps.
Proof.
  intros Hf Hone Hl Hr Hc Ha Hcfg. destruct (mp4a_frames_sent limit frames Hf id base) as (base' & fps & HS & Hacc & Hfst & Hall).
  set (d := asc_frame_len (smc_prog config) * NS_PER_SEC / asc_sampling_freq (smc_prog config)).
  assert (Hdr : 0 <= d <= 1024 * NS_PER_SEC) by (subst d; split; [apply Z.div_pos; lia|apply Z.div_le_upper_bound; nia]).
  assert (Hd : mul_div_floor U64 (asc_frame_len (smc_prog config)) NS_PER_SEC (asc_sampling_freq (smc_prog config)) = Some d).
  { rewrite mul_div_floor_spec by lia. rewrite fits_small; [done|]. fold d. lia. }
  assert (Hboth : Forall (fun fp => frame_ok limit (fst fp) /\ frame_packets limit (size_prefix (Z.of_nat (length (fst fp))) ++ fst fp) (snd fp)) fps).
  { apply Forall_and. split; [|done]. apply Forall_map. by rewrite Hfst. }
  destruct (mp4a_frames_received limit config d ts Hone Hd ltac:(lia) fps Hboth n st b Hc Ha Hcfg) as (b' & HF & Hu).
  exists base', fps, b'. split; [done|]. split; [done|]. split; [done|]. split; [|done].
  apply Forall_concat, Forall_map. eapply Forall_impl; [exact Hall|]. intros fp [_ _ Hlim]. exact Hlim.
Qed.

(** C40: frames whose size is a multiple of 255 are lost. The length field the
    payloader writes for them has no last byte below 255, so the receiver takes the
    first byte of the data for a part of it: where that byte is at most the number of
    bytes of the field it panics, otherwise it drops the frame. *)
Theorem mp4a_multiple_of_255_lost `{Gst} `{GstTime} `{RtpBaseDepay2} `{!RtpBaseDepayRelation} `{!CollectingRelation}
    `{RtpBasePay2} `{!RtpBasePayMore} (limit : Z) `{!AcceptingBase limit} `{!AcceptingMore limit} x rest id base config ts n st b :
  let frame := x :: rest in
  Z.of_nat (length frame) mod 255 = 0 -> Z.of_nat (length (size_prefix (Z.of_nat (length frame)))) <= limit -> 0 <= x < 255 ->
  smc_num_sub_frames config = 1 -> ma_can_parse st = true -> ma_frame_acc st = None -> ma_config st = Some config ->
  exists base' ps, mp4a_pay_handle_buffer (Z.of_nat (length frame)) (Some frame) id base = (Done tt, base') /\
    accepted base' = accepted base ++ ps /\
    if x <=? Z.of_nat (length (size_prefix (Z.of_nat (length frame)))) then
      mp4a_feed (arrivals ts n ps) (st, b) = (Crash, (st, b))
    else
      exists b', mp4a_feed (arrivals ts n ps) (st, b) = (Done tt, (st, b')) /\ units b' = units b.
Proof.
  intros frame Hm Hp Hx Hone Hc Ha Hcfg. destruct (mp4a_frame_sent limit frame id base ltac:(done) Hp) as (base' & ps & HK & Hb & Hfp).
  exists base', ps. split; [done|]. split; [done|]. rewrite (mp4a_frame_taken ts n ps _ st b config limit Hc Ha Hcfg Hfp), Hone. change (S (Z.to_nat 1)) with 2%nat.
  assert (Hi : payload_length_info (size_prefix (Z.of_nat (length frame)) ++ frame) =
    (Z.of_nat (length frame) + x, Z.of_nat (length (size_prefix (Z.of_nat (length frame)))) + 1)).
  { unfold size_prefix. rewrite size_prefix_runs_on; [|subst frame; cbn [length]; lia|lia|done]. subst frame. cbn [payload_length_info].
    by rewrite (proj2 (Z.eqb_neq x 255)) by lia. }
  pose proof (one_subframe_lost config (n, n + Z.of_nat (length ps) - 1) frame _ st b x Hone ltac:(lia) Hi ltac:(done)) as HL.
  destruct (x <=? _); [done|]. eexists. split; [exact HL|]. apply drop_units.
Qed.

(** The configuration of MPEG-4 audio through the caps. From codec data of two
    bytes that the payloader accepts, the receiver reads the same audio
    configuration with one subframe per frame; the codec data it puts into its caps
    begins with the two bytes of the sender, but two bytes of the configuration
    follow them. *)
Lemma mp4a_config_roundtrip `{BitIO} `{!BitIOLaws} `{!BitPartialLaws} a b config config_data :
  is_u8 a -> is_u8 b -> from_codec_data (Some [a; b]) = Some (config, config_data) ->
  fst (StreamMuxConfig_from_reader (reader_endian config_data)) = Done (mkStreamMuxConfig 1 config) /\
  exists stale, length stale = 2%nat /\ shift_codec_data config_data = Ok ([a; b] ++ stale).
Proof.
  intros Ha Hb HK. unfold from_codec_data in HK. cbn [mbind option_bind length negb Z.of_nat Z.eqb Pos.eqb Pos.of_succ_nat Pos.succ] in HK.
  destruct (AudioSpecificConfig_from_reader (reader_endian [a; b])) as [[c| |] r] eqn:E; cbn [fst] in HK; [|done|done]. injection HK as <- <-.
  destruct (audio_config_sound _ _ _ E) as (l & Hu & HP). rewrite unread_endian in Hu.
  destruct (mux_bytes_spec a b Ha Hb) as (Hbits & Hshift & Hbytes).
  assert (Hw : writer_bytes (writer_write 7 0 (fold_left (fun w byte => writer_write 8 byte w) [a; b]
      (writer_write 13 0 (writer_write 1 1 (writer_write 1 0 writer_endian))))) = mux_bytes a b).
  { eapply (bytes_partial _ _ (bits_of 6 0)); [done| |by vm_compute; lia]. rewrite <- Hbits. cbn [fold_left].
    unfold is_u8 in *. rewrite !written_write, written_endian by (cbn; lia). cbn [app]. by rewrite <- !app_assoc. }
  cbn [fold_left] in Hw |- *. rewrite Hw. split; [|exists (drop 2 (mux_bytes a b)); by split].
  assert (HS : parses StreamMuxConfig_from_reader (bits_of 1 0 ++ [true] ++ bits_of 6 0 ++ bits_of 4 0 ++ bits_of 3 0 ++ l) (mkStreamMuxConfig 1 c)).
  { unfold StreamMuxConfig_from_reader. eapply parses_bind; [by apply parses_field|]. cbn [negb Z.eqb].
    eapply parses_bind; [apply parses_bit|]. do 3 (eapply parses_bind; [by apply parses_field|]). cbn [negb andb Z.eqb Z.add Pos.eqb].
    rewrite <- (app_nil_r l). eapply parses_bind; [exact HP|apply parses_ret]. }
  destruct (HS (reader_endian (mux_bytes a b)) (unread r ++ bits_of 1 0)) as (r' & -> & _); [|done].
  rewrite unread_endian, <- !app_assoc. rewrite (app_assoc l), <- Hu. cbn [bytes_bits map concat]. rewrite app_nil_r.
  apply (app_inv_tail (bits_of 6 0)). rewrite <- Hbits, <- !app_assoc. done.
Qed.

(** ** Witnesses *)
Definition keep_units : RtpBaseDepay2 :=
  {| RtpBase.BaseDepay := list (PacketToBufferRelation * UnitBuffer); drop_packets _ _ b := b; push_force_key_unit b := b;
     set_src_caps _ b := b; has_current_caps _ := true; queue_buffer _ _ b := (Done tt, b) |}.
Definition keep_units_relation : @RtpBaseDepayRelation keep_units :=
  @Build_RtpBaseDepayRelation keep_units (fun rel buf b => (Done tt, app (A := PacketToBufferRelation * UnitBuffer) b [(rel, buf)])).
Definition keep_units_collecting : @CollectingRelation keep_units keep_units_relation.
Proof. unshelve econstructor; [exact (fun b => b)|done|]. intros rel buf b. by exists (app (A := PacketToBufferRelation * UnitBuffer) b [(rel, buf)]). Defined.

Definition keep_packets_more limit : @RtpBasePayMore (keep_packets limit) :=
  {| mtu _ := limit + 12; drop_buffers_to _ b := b; finish_pending_packets b := (Done tt, b) |}.
Lemma keep_packets_finish limit : @AcceptingMore (keep_packets limit) (keep_packets_more limit) limit (keep_packets_accepting limit).
Proof. intros b. by exists b. Qed.

(** One subframe of 1024 samples at 44100 Hz, in the stream. *)
Definition example_mux : StreamMuxConfig := mkStreamMuxConfig 1 (mkAudioSpecificConfig 2 44100 1 1024).
Definition example_mp4a : Mp4aDepayState := mkMp4aDepayState (Some example_mux) None None true.

(** A frame of 300 bytes in three packets, and a short one. *)
Lemma mp4a_roundtrip_witness :
  exists ps b', @mp4a_send (keep_packets 128) (keep_packets_more 128) 7 [repeat 9 300; [1; 2; 3]] [] = (Done tt, ps) /\ length ps = 4%nat /\
    @mp4a_feed gst_exact time_exact keep_units keep_units_relation (arrivals 90 65530 ps) (example_mp4a, []) = (Done tt, (example_mp4a, b')) /\
    map snd b' = [mkUnitBuffer (repeat 9 300) (Some 23219954) false; mkUnitBuffer [1; 2; 3] (Some 23219954) false].
Proof.
  destruct (@mp4a_roundtrip gst_exact gst_exact_laws time_exact clock_add_exact_laws keep_units keep_units_relation keep_units_collecting
    (keep_packets 128) (keep_packets_more 128) 128 (keep_packets_accepting 128) (keep_packets_finish 128)
    [repeat 9 300; [1; 2; 3]] 7 [] example_mux 90 65530 example_mp4a []) as (base' & fps & b' & HS & Ha & Hfst & _ & HF & Hu).
  - repeat constructor; by vm_compute.
  - done.
  - cbn. lia.
  - cbn. lia.
  - done.
  - done.
  - done.
  - change (base' = concat (map snd fps)) in Ha. rewrite <- Ha in HF. exists base', b'. split; [exact HS|].
    assert (E : base' = snd (@mp4a_send (keep_packets 128) (keep_packets_more 128) 7 [repeat 9 300; [1; 2; 3]] [])) by exact (f_equal snd (eq_sym HS)).
    split; [by rewrite E|]. split; [exact HF|]. change (b' = frame_outputs (1024 * NS_PER_SEC / 44100) 65530 fps) in Hu. rewrite Hu.
    destruct fps as [|[f1 p1] [|[f2 p2] [|]]]; try done. injection Hfst as -> ->. done.
Defined.

(** The receiver panics on a frame of 255 bytes that begins with a zero. *)
Lemma mp4a_multiple_of_255_lost_witness :
  exists ps, @mp4a_pay_handle_buffer (keep_packets 1400) (keep_packets_more 1400) 255 (Some (repeat 0 255)) 7 [] = (Done tt, ps) /\
    @mp4a_feed gst_exact time_exact keep_units keep_units_relation (arrivals 90 65530 ps) (example_mp4a, []) = (Crash, (example_mp4a, [])).
Proof.
  destruct (@mp4a_multiple_of_255_lost gst_exact time_exact keep_units keep_units_relation keep_units_collecting
    (keep_packets 1400) (keep_packets_more 1400) 1400 (keep_packets_accepting 1400) (keep_packets_finish 1400)
    0 (repeat 0 254) 7 [] example_mux 90 65530 example_mp4a []) as (base' & ps & HS & Ha & HF).
  - by vm_compute.
  - by vm_compute.
  - lia.
  - done.
  - done.
  - done.
  - done.
  - change (base' = ps) in Ha. subst base'. exists ps. split; [exact HS|]. exact HF.
Defined.

Lemma bits_exact_partial : @BitPartialLaws bits_exact bits_exact_laws.
Proof.
  intros w bs l Hbs Hw Hl. cbn in Hw. subst w. cbn. induction Hbs as [|b bs Hb _ IH].
  - do 8 (destruct l as [|? l]; [done|]). cbn in Hl. lia.
  - rewrite bytes_bits_cons, <- app_assoc, bytes_of_bits_app by done. by rewrite IH.
Qed.

(** AAC LC at 44100 Hz with one channel. *)
Lemma mp4a_config_roundtrip_witness :
  exists config_data, @from_codec_data bits_exact (Some [18; 8]) = Some (mkAudioSpecificConfig 2 44100 1 1024, config_data) /\
    fst (@StreamMuxConfig_from_reader bits_exact (@reader_endian bits_exact config_data)) = Done (mkStreamMuxConfig 1 (mkAudioSpecificConfig 2 44100 1 1024)) /\
    shift_codec_data config_data = Ok [18; 8; 36; 16].
Proof.
  exists [64; 0; 36; 16].
  destruct (@mp4a_config_roundtrip bits_exact bits_exact_laws bits_exact_partial 18 8 (mkAudioSpecificConfig 2 44100 1 1024) [64; 0; 36; 16])
    as (HP & stale & _ & _); [by vm_compute..|]. split; [by vm_compute|]. split; [exact HP|]. by vm_compute.
Defined.

(** A subframe that claims the bytes up to the end of the packet, its own length byte
    included, panics the receiver. *)
Lemma mp4a_short_frame_panics :
  @mp4a_depay_handle_packet gst_exact time_exact keep_units keep_units_relation (mkDepayPacket [3; 1; 2] 90 5 true) (example_mp4a, []) =
    (Crash, (example_mp4a, [])).
Proof. by vm_compute. Qed.
