(* ===== verification/Mp4gHeader.v ===== *)
(** * Modes and access unit headers of MPEG-4 generic streams

    [mp4g/mode.rs] and [mp4g/header.rs]: the configuration of a stream, as it is
    read from caps and written to them, and the headers of access units as bit
    fields whose widths it gives. *)

From S2P Require Import Prelude Utils Queues F64 Flow BitStream RtpBase DepayMeta BaseDepay Mp4a.

(** ** Caps *)

(** [str::parse] for an unsigned type of modulus [m]. *)
Fixpoint parse_uint_digits (m acc : Z) (s : string) : option Z :=
  match s with
  | EmptyString => Some acc
  | String c s =>
      let d := Z.of_N (Ascii.N_of_ascii c) - 48 in
      let acc := 10 * acc + d in
      if (0 <=? d) && (d <=? 9) && (acc <? m) then parse_uint_digits m acc s else None
  end.

Definition parse_uint (m : Z) (s : string) : option Z :=
  match s with
  | EmptyString => None
  | String c s' =>
      if Z.of_N (Ascii.N_of_ascii c) =? 43 (* + *) then
        match s' with EmptyString => None | _ => parse_uint_digits m 0 s' end
      else parse_uint_digits m 0 s
  end.

(** [x?] where the error is a value. *)
Definition and_then {A B E} (x : A + E) (k : A -> B + E) : B + E :=
  match x with inl a => k a | inr e => inr e end.
Notation "'let?' x := e 'in' k" := (and_then e (fun x => k)) (at level 10, x name, e at level 100, k at level 200) : rtp_scope.
#[local] Open Scope rtp_scope.

(** ** Modes *)
Inductive ModeError :=
| BothAuSizeLenAndConstantSize
| MissingAuLengthParameters
| MandatoryIndexDeltaLength
| InvalidField (field : string).

Record ModeConfig := mkModeConfig {
  mc_size_len : Z;
  mc_index_len : Z;
  mc_index_delta_len : Z;
  mc_cts_delta_len : Z;
  mc_dts_delta_len : Z;
  mc_random_access_indication : bool;
  mc_stream_state_indication : Z;
  mc_auxiliary_data_size_len : Z;
  mc_constant_size : Z;
  mc_constant_duration : Z;
  mc_max_displacement : Z;
}.

Definition ModeConfig_default : ModeConfig := mkModeConfig 0 0 0 0 0 false 0 0 0 0 0.

Definition has_header_section (self : ModeConfig) : bool :=
  (mc_size_len self >? 0) || (mc_index_len self >? 0) || (mc_index_delta_len self >? 0) || (mc_cts_delta_len self >? 0)
  || (mc_dts_delta_len self >? 0) || mc_random_access_indication self || (mc_stream_state_indication self >? 0).

Definition has_auxiliary_section (self : ModeConfig) : bool := mc_auxiliary_data_size_len self >? 0.

Definition constant_duration (self : ModeConfig) : option Z :=
  if mc_constant_duration self =? 0 then None else Some (mc_constant_duration self).

Definition max_displacement (self : ModeConfig) : option Z :=
  if mc_max_displacement self =? 0 then None else Some (mc_max_displacement self).

Definition max_header_bit_len (self : ModeConfig) : Z :=
  mc_size_len self + Z.max (mc_index_len self) (mc_index_delta_len self) + mc_cts_delta_len self + mc_dts_delta_len self
  + (if mc_random_access_indication self then 1 else 0) + mc_stream_state_indication self.

(** [s.get::<T>(field)] for [u8] and [u32]. *)
Definition get_uint (m : Z) (v : CapsValue) : option Z :=
  match v with
  | CapUChar x => if m =? U8 then Some x else None
  | CapUInt x => if m =? U32 then Some x else None
  | _ => None
  end.

Definition parse_int (m : Z) (s : CapsStructure) (field : string) : Z + ModeError :=
  match s !! field with
  | None => inl 0
  | Some v =>
      match get_uint m v with
      | Some x => inl x
      | None =>
          match v with
          | CapInt x => if (0 <=? x) && (x <? m) then inl x else inr (InvalidField field)
          | CapString str => match parse_uint m str with Some x => inl x | None => inr (InvalidField field) end
          | _ => inr (InvalidField field)
          end
      end
  end.

Definition ModeConfig_from_caps (s : CapsStructure) : ModeConfig + ModeError :=
  let? size_len := parse_int U8 s "sizelength" in
  let? constant_size := parse_int U32 s "constantsize" in
  let? constant_duration := parse_int U32 s "constantduration" in
  if negb (size_len =? 0) && negb (constant_size =? 0) then inr BothAuSizeLenAndConstantSize
  else if (size_len =? 0) && (constant_size =? 0) && (constant_duration =? 0) then inr MissingAuLengthParameters
  else
    let? index_len := parse_int U8 s "indexlength" in
    let? index_delta_len := parse_int U8 s "indexdeltalength" in
    if (index_len >? 0) && (index_delta_len =? 0) then inr MandatoryIndexDeltaLength
    else
      let? cts_delta_len := parse_int U8 s "ctsdeltalength" in
      let? dts_delta_len := parse_int U8 s "dtsdeltalength" in
      let? random_access_indication := parse_int U8 s "randomaccessindication" in
      let? stream_state_indication := parse_int U8 s "streamstateindication" in
      let? auxiliary_data_size_len := parse_int U8 s "auxiliarydatasizelength" in
      let? max_displacement := parse_int U32 s "maxdisplacement" in
      inl (mkModeConfig size_len index_len index_delta_len cts_delta_len dts_delta_len (random_access_indication >? 0)
             stream_state_indication auxiliary_data_size_len constant_size constant_duration max_displacement).

Definition ModeConfig_add_to_caps (self : ModeConfig) (builder : CapsStructure) : res (CapsStructure + ModeError) :=
  if negb (mc_size_len self =? 0) && negb (mc_constant_size self =? 0) then Ok (inr BothAuSizeLenAndConstantSize)
  else if (mc_size_len self =? 0) && (mc_constant_size self =? 0) && (mc_constant_duration self =? 0) then
    Ok (inr MissingAuLengthParameters)
  else if (mc_index_len self >? 0) && (mc_index_delta_len self =? 0) then Ok (inr MandatoryIndexDeltaLength)
  else if mc_stream_state_indication self >? 0 then Panic
  else
    Ok (inl (<["maxdisplacement" := CapInt (swrap U32 (mc_max_displacement self))]>
            (<["constantduration" := CapInt (swrap U32 (mc_constant_duration self))]>
            (<["constantsize" := CapInt (swrap U32 (mc_constant_size self))]>
            (<["auxiliarydatasizelength" := CapInt (mc_auxiliary_data_size_len self)]>
            (<["streamstateindication" := CapInt (mc_stream_state_indication self)]>
            (<["randomaccessindication" := CapUChar (if mc_random_access_indication self then 1 else 0)]>
            (<["dtsdeltalength" := CapInt (mc_dts_delta_len self)]>
            (<["ctsdeltalength" := CapInt (mc_cts_delta_len self)]>
            (<["indexdeltalength" := CapInt (mc_index_delta_len self)]>
            (<["indexlength" := CapInt (mc_index_len self)]>
            (<["sizelength" := CapInt (mc_size_len self)]> builder)))))))))))).

(** ** Bit streams with widths known at run time

    More of the [bitstream_io] crate: the [BitWrite] trait, which the bit writer and
    the counter of written bits implement; on the reader [read_var] for [u32] and
    [i32], [skip], [position_in_bits]; the big endian [ByteReader]. A failed read
    may leave the reader anywhere. *)
Class BitWrite (W : Type) := {
  write_bit : bool -> W -> option W;
  write_var_u32 : Z -> Z -> W -> option W;
  write_var_i32 : Z -> Z -> W -> option W;
}.

Class BitVarIO `{BitIO} := {
  #[global] writer_bit_write :: BitWrite BitWriter;
  BitsWritten : Type;
  #[global] counter_bit_write :: BitWrite BitsWritten;
  counter_new : BitsWritten;
  counter_written : BitsWritten -> Z;
  reader_read_var_u32 : Z -> BitReader -> option Z * BitReader;
  reader_read_var_i32 : Z -> BitReader -> option Z * BitReader;
  reader_skip : Z -> BitReader -> bool * BitReader;
  position_in_bits : BitReader -> Z;
  byte_read_u16 : list Z -> option (Z * list Z);
  byte_skip : Z -> list Z -> option (list Z);
}.

(** ** Headers *)
Record AuHeader := mkAuHeader {
  ah_size : option Z;
  ah_index : wrapping_u32;
  ah_cts_delta : option Z;
  ah_dts_delta : option Z;
  ah_maybe_random_access : option bool;
  ah_is_interleaved : bool;
}.

Definition AuHeader_new_with (index : Z) : AuHeader := mkAuHeader None (Wrapping index) None None None false.

Section Reader.
Context `{BitVarIO}.

Definition read_u32_ (n : Z) : M BitReader Z :=
  fun r => let '(v, r) := reader_read_var_u32 n r in (match v with Some v => Done v | None => Fail end, r).
Definition read_i32_ (n : Z) : M BitReader Z :=
  fun r => let '(v, r) := reader_read_var_i32 n r in (match v with Some v => Done v | None => Fail end, r).
Definition skip_ (n : Z) : M BitReader unit :=
  fun r => let '(ok, r) := reader_skip n r in (if (ok : bool) then Done tt else Fail, r).

(** The index of a header, and whether units are left out before it. *)
Definition read_index (config : ModeConfig) (prev_index : option wrapping_u32) : M BitReader (wrapping_u32 * bool) :=
  match prev_index with
  | None => v ← read_u32_ (mc_index_len config); mret (Wrapping v, false)
  | Some prev_index =>
      delta ← read_u32_ (mc_index_delta_len config);
      mret (wrapping_add_u32 (wrapping_add_u32 prev_index 1) delta, delta >? 0)
  end.

(** A flag, and the signed field that follows where it is set. *)
Definition read_flagged (len : Z) (allowed : bool) : M BitReader (option Z) :=
  if len >? 0 then
    flag ← read_bit_;
    if (flag : bool) then
      if allowed then v ← read_i32_ len; mret (Some v) else fail_
    else mret None
  else mret None.

Definition AuHeader_from_reader (config : ModeConfig) (prev_index : option wrapping_u32) : M BitReader AuHeader :=
  size ← (if mc_size_len config >? 0 then v ← read_u32_ (mc_size_len config); mret (Some v) else mret None);
  i ← read_index config prev_index;
  let '(index, is_interleaved) := i in
  if bool_decide (size = Some 0) then fail_
  else
    cts_delta ← read_flagged (mc_cts_delta_len config) (is_some prev_index);
    dts_delta ← read_flagged (mc_dts_delta_len config) true;
    rap ← (if mc_random_access_indication config then b ← read_bit_; mret (Some b) else mret None);
    _ ← (if mc_stream_state_indication config >? 0 then skip_ (mc_stream_state_indication config) else mret tt);
    mret (mkAuHeader size index cts_delta dts_delta rap is_interleaved).
End Reader.

Section Writer.
Context {W : Type} `{BitWrite W}.

Definition try_write (f : W -> option W) : M W unit :=
  fun w => match f w with Some w => (Done tt, w) | None => (Fail, w) end.

Definition write_size (config : ModeConfig) (self : AuHeader) : M W unit :=
  if mc_size_len config >? 0 then
    match ah_size self with
    | None => fail_
    | Some size => if size =? 0 then fail_ else try_write (write_var_u32 (mc_size_len config) size)
    end
  else mret tt.

Definition write_index (config : ModeConfig) (prev_index : option wrapping_u32) (self : AuHeader) : M W unit :=
  match prev_index with
  | None => try_write (write_var_u32 (mc_index_len config) (w_val (ah_index self)))
  | Some prev_index =>
      let index_delta := w_val (ah_index self) - w_val prev_index - 1 in
      if index_delta <? 0 then fail_ else try_write (write_var_u32 (mc_index_delta_len config) index_delta)
  end.

Definition write_flagged (len : Z) (v : option Z) : M W unit :=
  if len >? 0 then
    match v with
    | Some v => _ ← try_write (write_bit true); try_write (write_var_i32 len v)
    | None => try_write (write_bit false)
    end
  else mret tt.

Definition AuHeader_to_writer (config : ModeConfig) (prev_index : option wrapping_u32) (self : AuHeader) : M W unit :=
  _ ← write_size config self;
  _ ← write_index config prev_index self;
  _ ← write_flagged (mc_cts_delta_len config) (if is_none prev_index then None else ah_cts_delta self);
  _ ← write_flagged (mc_dts_delta_len config) (ah_dts_delta self);
  if mc_random_access_indication config then try_write (write_bit (default false (ah_maybe_random_access self))) else mret tt.
End Writer.
