(* ===== verification/Mp4gHeaderProps.v ===== *)
(** * Access unit headers and modes read as written

    What is relied on of bit streams with variable widths, headers through the
    writer and the reader, and modes through caps. *)

From S2P Require Import Prelude Utils Queues F64 Flow BitStream RtpBase DepayMeta BaseDepay.
From S2P Require Import BaseDepayRun AudioPay AudioPayProps Mp4a Mp4aProps Mp4gHeader.

(** ** Laws of bit streams *)

(** What is seen of a bit writer: [step] adds bits, where they fit. *)
Class BitObs {T : Type} (fits : T -> list bool -> Prop) (step : T -> list bool -> T) : Prop := {
  step_nil t : step t [] = t;
  step_app t l1 l2 : step (step t l1) l2 = step t (l1 ++ l2);
  fits_split t l1 l2 : fits t (l1 ++ l2) -> fits t l1 /\ fits (step t l1) l2;
}.

(** A field is written if its value fits in its width, and the bits in the writer. *)
Class BitWriteLaws {W : Type} `{BitWrite W} {T : Type} (obs : W -> T) (fits : T -> list bool -> Prop) (step : T -> list bool -> T) : Prop := {
  write_obs :: BitObs fits step;
  write_bit_spec b w : fits (obs w) [b] -> exists w', write_bit b w = Some w' /\ obs w' = step (obs w) [b];
  write_u32_spec n v w : 0 <= n <= 32 -> 0 <= v < 2 ^ n -> fits (obs w) (bits_of (Z.to_nat n) v) ->
    exists w', write_var_u32 n v w = Some w' /\ obs w' = step (obs w) (bits_of (Z.to_nat n) v);
  write_i32_spec n v w : 1 <= n <= 32 -> - 2 ^ (n - 1) <= v < 2 ^ (n - 1) -> fits (obs w) (bits_of (Z.to_nat n) v) ->
    exists w', write_var_i32 n v w = Some w' /\ obs w' = step (obs w) (bits_of (Z.to_nat n) v);
  write_u32_excess n v w : 2 ^ n <= v -> write_var_u32 n v w = None;
}.

Definition room_always (l : list bool) (l' : list bool) : Prop := True.
Definition room_count (n : Z) (l : list bool) : Prop := n + Z.of_nat (length l) < U32.
Definition count_bits (n : Z) (l : list bool) : Z := n + Z.of_nat (length l).

Class BitVarLaws `{BitVarIO} `{!BitIOLaws} : Prop := {
  var_partial :: BitPartialLaws;
  writer_laws :: BitWriteLaws written room_always (@app bool);
  counter_laws :: BitWriteLaws counter_written room_count count_bits;
  counter_zero : counter_written counter_new = 0;
  read_u32_spec n r l1 l2 : 0 <= n <= 32 -> unread r = l1 ++ l2 -> Z.of_nat (length l1) = n ->
    exists r', reader_read_var_u32 n r = (Some (val_of l1), r') /\ unread r' = l2 /\ position_in_bits r' = position_in_bits r + n;
  read_i32_spec n r l1 l2 : 1 <= n <= 32 -> unread r = l1 ++ l2 -> Z.of_nat (length l1) = n ->
    exists r', reader_read_var_i32 n r = (Some (swrap (2 ^ n) (val_of l1)), r') /\ unread r' = l2 /\
      position_in_bits r' = position_in_bits r + n;
  position_start bs : position_in_bits (reader_endian bs) = 0;
  position_read n r v r' : reader_read n r = Some (v, r') -> position_in_bits r' = position_in_bits r + Z.of_nat n;
  byte_u16_spec a b l : is_u8 a -> is_u8 b -> byte_read_u16 (a :: b :: l) = Some (a * 256 + b, l);
  byte_skip_spec n l : 0 <= n <= Z.of_nat (length l) -> byte_skip n l = Some (drop (Z.to_nat n) l);
}.

(** ** Headers *)
Definition au_size_bits (config : ModeConfig) (h : AuHeader) : list bool :=
  if mc_size_len config >? 0 then bits_of (Z.to_nat (mc_size_len config)) (default 0 (ah_size h)) else [].
Definition index_bits (config : ModeConfig) (prev : option wrapping_u32) (h : AuHeader) : list bool :=
  match prev with
  | None => bits_of (Z.to_nat (mc_index_len config)) (w_val (ah_index h))
  | Some p => bits_of (Z.to_nat (mc_index_delta_len config)) (w_val (ah_index h) - w_val p - 1)
  end.
Definition flag_bits (len : Z) (v : option Z) : list bool :=
  if len >? 0 then match v with Some v => true :: bits_of (Z.to_nat len) v | None => [false] end else [].
Definition rap_bits (config : ModeConfig) (h : AuHeader) : list bool :=
  if mc_random_access_indication config then [default false (ah_maybe_random_access h)] else [].

(** The composition time is not in the first header of a packet. *)
Definition sent_cts (prev : option wrapping_u32) (h : AuHeader) : option Z := if is_none prev then None else ah_cts_delta h.

Definition au_header_bits (config : ModeConfig) (prev : option wrapping_u32) (h : AuHeader) : list bool :=
  au_size_bits config h ++ index_bits config prev h ++ flag_bits (mc_cts_delta_len config) (sent_cts prev h) ++
  flag_bits (mc_dts_delta_len config) (ah_dts_delta h) ++ rap_bits config h.

Definition field_ok (len : Z) (v : option Z) : Prop :=
  0 <= len <= 32 /\ (0 < len -> match v with Some v => - 2 ^ (len - 1) <= v < 2 ^ (len - 1) | None => True end).

(** A header that can be written: its values fit in the fields of the mode. *)
Record header_ok (config : ModeConfig) (prev : option wrapping_u32) (h : AuHeader) : Prop := {
  ho_size_len : 0 <= mc_size_len config <= 32;
  ho_size : 0 < mc_size_len config -> exists size, ah_size h = Some size /\ 0 < size < 2 ^ mc_size_len config;
  ho_index_len : 0 <= mc_index_len config <= 32;
  ho_delta_len : 0 <= mc_index_delta_len config <= 32;
  ho_index : match prev with
             | None => 0 <= w_val (ah_index h) < 2 ^ mc_index_len config
             | Some p => 0 <= w_val p /\ w_val (ah_index h) < U32 /\ 0 <= w_val (ah_index h) - w_val p - 1 < 2 ^ mc_index_delta_len config
             end;
  ho_cts : field_ok (mc_cts_delta_len config) (sent_cts prev h);
  ho_dts : field_ok (mc_dts_delta_len config) (ah_dts_delta h);
  ho_state : mc_stream_state_indication config = 0;
}.

(** What a reader makes of it. *)
Definition read_header (config : ModeConfig) (prev : option wrapping_u32) (h : AuHeader) : AuHeader :=
  mkAuHeader (if mc_size_len config >? 0 then ah_size h else None) (ah_index h)
    (if mc_cts_delta_len config >? 0 then sent_cts prev h else None) (if mc_dts_delta_len config >? 0 then ah_dts_delta h else None)
    (if mc_random_access_indication config then Some (default false (ah_maybe_random_access h)) else None)
    (match prev with None => false | Some p => w_val (ah_index h) - w_val p - 1 >? 0 end).

Section Write.
Context {W : Type} `{BitWrite W} {T : Type} {obs : W -> T} {fits : T -> list bool -> Prop} {step : T -> list bool -> T}.
Context `{!BitWriteLaws obs fits step}.

(** The computation adds the bits [l]. *)
Definition writes_bits (m : M W unit) (l : list bool) : Prop :=
  forall w, fits (obs w) l -> exists w', m w = (Done tt, w') /\ obs w' = step (obs w) l.

Lemma writes_nil : writes_bits (mret tt) [].
Proof using Type*. intros w _. exists w. by rewrite step_nil. Qed.

Lemma writes_bits_bind m k l1 l2 : writes_bits m l1 -> writes_bits k l2 -> writes_bits (_ ← m; k) (l1 ++ l2).
Proof using Type*.
  intros Hm Hk w [F1 F2]%fits_split. destruct (Hm w F1) as (w1 & E1 & O1). rewrite <- O1 in F2. destruct (Hk w1 F2) as (w2 & E2 & O2).
  exists w2. split; [by rewrite (M_bind_done _ _ _ _ _ E1)|]. by rewrite O2, O1, step_app.
Qed.

Lemma writes_try f l : (forall w, fits (obs w) l -> exists w', f w = Some w' /\ obs w' = step (obs w) l) -> writes_bits (try_write f) l.
Proof using Type*. intros Hf w F. destruct (Hf w F) as (w' & E & O). exists w'. unfold try_write. by rewrite E. Qed.

Lemma writes_flagged len v : field_ok len v -> writes_bits (write_flagged len v) (flag_bits len v).
Proof using Type*.
  intros [Hl Hv]. unfold write_flagged, flag_bits. rewrite Z.gtb_ltb. destruct (Z.ltb_spec 0 len) as [Hp|Hp]; [|apply writes_nil].
  destruct v as [v|].
  - apply (writes_bits_bind _ _ [true]); apply writes_try; intros w F; [by apply write_bit_spec|apply write_i32_spec; [lia|by apply Hv|done]].
  - apply writes_try. intros w F. by apply write_bit_spec.
Qed.

Lemma header_writes config prev h : header_ok config prev h -> writes_bits (AuHeader_to_writer config prev h) (au_header_bits config prev h).
Proof using Type*.
  intros [Hsl Hs Hil Hdl Hi Hc Hd _]. unfold AuHeader_to_writer, au_header_bits.
  apply writes_bits_bind; [|apply writes_bits_bind; [|apply writes_bits_bind; [by apply writes_flagged|apply writes_bits_bind; [by apply writes_flagged|]]]].
  - unfold write_size, au_size_bits. rewrite Z.gtb_ltb. destruct (Z.ltb_spec 0 (mc_size_len config)) as [Hp|Hp]; [|apply writes_nil].
    destruct (Hs Hp) as (size & -> & Hsz). cbn [default from_option id]. rewrite (proj2 (Z.eqb_neq size 0)) by lia.
    apply writes_try. intros w F. apply write_u32_spec; [lia|lia|done].
  - unfold write_index, index_bits. destruct prev as [p|].
    + cbv zeta. rewrite (proj2 (Z.ltb_ge (w_val (ah_index h) - w_val p - 1) 0)) by lia. apply writes_try. intros w F. apply write_u32_spec; [lia|lia|done].
    + apply writes_try. intros w F. apply write_u32_spec; [lia|lia|done].
  - unfold rap_bits. destruct (mc_random_access_indication config); [|apply writes_nil]. apply writes_try. intros w F. by apply write_bit_spec.
Qed.
End Write.

Section Read.
Context `{BitVarIO} `{!BitIOLaws} `{!BitVarLaws}.

(** A parser that takes the bits [l], and moves on by as many. *)
Definition parses_at {A} (p : M BitReader A) (l : list bool) (a : A) : Prop :=
  forall r rest, unread r = l ++ rest ->
    exists r', p r = (Done a, r') /\ unread r' = rest /\ position_in_bits r' = position_in_bits r + Z.of_nat (length l).

Lemma at_ret {A} (a : A) : parses_at (mret a) [] a.
Proof using Type*. intros r rest Hr. exists r. split; [done|]. split; [done|]. cbn. lia. Qed.

Lemma at_bind {A B} (p : M BitReader A) (k : A -> M BitReader B) l1 l2 a b :
  parses_at p l1 a -> parses_at (k a) l2 b -> parses_at (p ≫= k) (l1 ++ l2) b.
Proof using Type*.
  intros Hp Hk r rest Hr. rewrite <- app_assoc in Hr. destruct (Hp r _ Hr) as (r1 & E1 & U1 & P1). destruct (Hk r1 _ U1) as (r2 & E2 & U2 & P2).
  exists r2. split; [by rewrite (M_bind_done _ _ _ _ _ E1)|]. split; [done|]. rewrite length_app. lia.
Qed.

Lemma at_bind_ret {A B} (p : M BitReader A) (f : A -> B) l a : parses_at p l a -> parses_at (x ← p; mret (f x)) l (f a).
Proof using Type*. intros Hp. rewrite <- (app_nil_r l). eapply at_bind; [exact Hp|apply at_ret]. Qed.

Lemma at_bit b : parses_at read_bit_ [b] b.
Proof using Type*.
  intros r rest Hr. destruct (unread_read 1 r [b] rest Hr eq_refl) as (r' & E & U). exists r'. unfold read_bit_, mbind, M_bind, read_.
  rewrite E. pose proof (position_read _ _ _ _ E). split; [by destruct b|]. by split.
Qed.

Lemma at_u32 n v : 0 <= n <= 32 -> 0 <= v < 2 ^ n -> parses_at (read_u32_ n) (bits_of (Z.to_nat n) v) v.
Proof using Type*.
  intros Hn Hv r rest Hr. destruct (read_u32_spec n r _ rest Hn Hr) as (r' & E & U & P); [rewrite bits_of_length; lia|].
  exists r'. unfold read_u32_. rewrite E, val_of_small by (rewrite Z2Nat.id by lia; lia). split; [done|]. split; [done|]. rewrite bits_of_length. lia.
Qed.

Lemma at_i32 n v : 1 <= n <= 32 -> - 2 ^ (n - 1) <= v < 2 ^ (n - 1) -> parses_at (read_i32_ n) (bits_of (Z.to_nat n) v) v.
Proof using Type*.
  intros Hn Hv r rest Hr. destruct (read_i32_spec n r _ rest Hn Hr) as (r' & E & U & P); [rewrite bits_of_length; lia|].
  assert (Hpow : 2 ^ n = 2 * 2 ^ (n - 1)) by (rewrite <- Z.pow_succ_r by lia; f_equal; lia).
  exists r'. unfold read_i32_. rewrite E, val_of_bits, Z2Nat.id by lia. split; [|split; [done|rewrite bits_of_length; lia]].
  pose proof (Z.pow_pos_nonneg 2 (n - 1) ltac:(lia) ltac:(lia)).
  assert (Hm : 2 ^ n mod 2 = 0) by (rewrite Hpow, Z.mul_comm; by apply Z.mod_mul). assert (Hd : 2 ^ n / 2 = 2 ^ (n - 1)) by (rewrite Hpow, Z.mul_comm; by apply Z.div_mul).
  fold (wrap (2 ^ n) v). rewrite swrap_wrap by lia. rewrite swrap_small; [done|lia|done|lia].
Qed.

Lemma at_flagged len v allowed : field_ok len v -> (v <> None -> allowed = true) ->
  parses_at (read_flagged len allowed) (flag_bits len v) (if len >? 0 then v else None).
Proof using Type*.
  intros [Hl Hv] Ha. unfold read_flagged, flag_bits. rewrite Z.gtb_ltb. destruct (Z.ltb_spec 0 len) as [Hp|Hp]; [|apply at_ret].
  destruct v as [v|].
  - apply (at_bind _ _ [true]  _ true); [apply at_bit|]. rewrite Ha by done. apply at_bind_ret. apply at_i32; [lia|by apply Hv].
  - apply (at_bind _ _ [false] [] false); [apply at_bit|apply at_ret].
Qed.

Lemma header_reads config prev h : header_ok config prev h ->
  parses_at (AuHeader_from_reader config prev) (au_header_bits config prev h) (read_header config prev h).
Proof using Type*.
  intros [Hsl Hs Hil Hdl Hi Hc Hd Hst]. unfold AuHeader_from_reader, au_header_bits, read_header.
  eapply at_bind; [|eapply at_bind].
  - instantiate (1 := if mc_size_len config >? 0 then ah_size h else None). unfold au_size_bits. rewrite Z.gtb_ltb.
    destruct (Z.ltb_spec 0 (mc_size_len config)) as [Hp|Hp]; [|apply at_ret]. destruct (Hs Hp) as (size & -> & Hsz). cbn [default from_option id].
    apply at_bind_ret, at_u32; lia.
  - instantiate (1 := (ah_index h, match prev with None => false | Some p => w_val (ah_index h) - w_val p - 1 >? 0 end)).
    unfold read_index, index_bits. destruct (ah_index h) as [i] eqn:Ei. cbn [w_val] in *. destruct prev as [p|].
    + pose proof (at_bind_ret (read_u32_ (mc_index_delta_len config))
        (fun delta => (wrapping_add_u32 (wrapping_add_u32 p 1) delta, delta >? 0)) _ _ (at_u32 (mc_index_delta_len config) (i - w_val p - 1) Hdl ltac:(lia))) as HK.
      assert (Hw : wrapping_add_u32 (wrapping_add_u32 p 1) (i - w_val p - 1) = Wrapping i).
      { unfold wrapping_add_u32. cbn [w_val]. f_equal. unfold wrap. rewrite Zplus_mod_idemp_l. rewrite <- (Z.mod_small i U32) at 2 by lia. f_equal. lia. }
      cbv beta in HK. by rewrite Hw in HK.
    + apply (at_bind_ret (read_u32_ (mc_index_len config)) (fun v => (Wrapping v, false))). by apply at_u32.
  - cbn beta iota. rewrite bool_decide_eq_false_2.
    2: { rewrite Z.gtb_ltb. destruct (Z.ltb_spec 0 (mc_size_len config)) as [Hp|Hp]; [|done]. destruct (Hs Hp) as (size & -> & Hsz). intros [=]. lia. }
    eapply at_bind; [apply at_flagged; [done|unfold sent_cts; by destruct prev]|].
    eapply at_bind; [by apply at_flagged|]. rewrite <- (app_nil_r (rap_bits config h)). rewrite Hst. cbn [Z.gtb Z.compare].
    eapply at_bind; [|apply (at_bind _ _ [] [] tt); [apply at_ret|apply at_ret]].
    unfold rap_bits. destruct (mc_random_access_indication config); [|apply at_ret]. apply at_bind_ret, at_bit.
Qed.
End Read.

(** ** Modes *)

(** A mode whose numbers fit in the fields of caps. *)
Record mode_ok (c : ModeConfig) : Prop := {
  mo_lens : Forall is_u8 [mc_size_len c; mc_index_len c; mc_index_delta_len c; mc_cts_delta_len c; mc_dts_delta_len c; mc_auxiliary_data_size_len c];
  mo_state : mc_stream_state_indication c = 0;
  mo_consts : Forall (fun x => 0 <= x < 2147483648) [mc_constant_size c; mc_constant_duration c; mc_max_displacement c];
}.

Lemma parse_int_field (m x : Z) (s : CapsStructure) field : s !! field = Some (CapInt x) -> 0 <= x < m -> parse_int m s field = inl x.
Proof. intros E Hx. unfold parse_int. rewrite E. cbn. by rewrite (proj2 (Z.leb_le 0 x)), (proj2 (Z.ltb_lt x m)) by lia. Qed.

(** A field set before others. *)
Ltac caps_lookup := repeat (rewrite lookup_insert_ne by done); apply lookup_insert_eq.

(** The mode of an MPEG-4 generic stream through the caps. The fields a payloader
    sets for a mode it accepts, beside any others, give a depayloader that mode. *)
Lemma mode_caps_roundtrip c builder caps :
  mode_ok c -> ModeConfig_add_to_caps c builder = Ok (inl caps) -> ModeConfig_from_caps caps = inl c.
Proof.
  intros [Hl Hst Hc] HK. repeat apply Forall_cons in Hl as [? Hl]. repeat apply Forall_cons in Hc as [? Hc]. unfold is_u8 in *.
  unfold ModeConfig_add_to_caps in HK. destruct (_ && negb _) eqn:E1; [done|]. destruct (_ && _ && _) eqn:E2; [done|].
  destruct ((mc_index_len c >? 0) && _) eqn:E3; [done|]. rewrite Hst in HK. cbn [Z.gtb Z.compare] in HK. injection HK as <-.
  rewrite !swrap_small by (change (U32 / 2) with 2147483648; first [lia|done]). unfold ModeConfig_from_caps.
  erewrite (parse_int_field U8 (mc_size_len c)); [|caps_lookup|lia]. cbn [and_then].
  erewrite (parse_int_field U32 (mc_constant_size c)); [|caps_lookup|lia]. cbn [and_then].
  erewrite (parse_int_field U32 (mc_constant_duration c)); [|caps_lookup|lia]. cbn [and_then]. rewrite E1, E2.
  erewrite (parse_int_field U8 (mc_index_len c)); [|caps_lookup|lia]. cbn [and_then].
  erewrite (parse_int_field U8 (mc_index_delta_len c)); [|caps_lookup|lia]. cbn [and_then]. rewrite E3.
  erewrite (parse_int_field U8 (mc_cts_delta_len c)); [|caps_lookup|lia]. cbn [and_then].
  erewrite (parse_int_field U8 (mc_dts_delta_len c)); [|caps_lookup|lia]. cbn [and_then].
  assert (Hr : forall s : CapsStructure, s !! "randomaccessindication"%string = Some (CapUChar (if mc_random_access_indication c then 1 else 0)) ->
    parse_int U8 s "randomaccessindication" = inl (if mc_random_access_indication c then 1 else 0)) by (intros s E; unfold parse_int; by rewrite E).
  rewrite Hr by caps_lookup. cbn [and_then]. erewrite (parse_int_field U8 0); [|caps_lookup|lia]. cbn [and_then].
  erewrite (parse_int_field U8 (mc_auxiliary_data_size_len c)); [|caps_lookup|lia]. cbn [and_then].
  erewrite (parse_int_field U32 (mc_max_displacement c)); [|caps_lookup|lia]. cbn [and_then].
  destruct c. cbn in *. subst. by destruct mc_random_access_indication.
Qed.

(** ** An instance of the bit streams, used by the witnesses *)
Definition bits_counted : BitIO := {|
  BitReader := list bool * Z;
  reader_endian bs := (bytes_bits bs, 0);
  reader_read n r := if decide (length r.1 < n)%nat then None else Some (val_of (take n r.1), (drop n r.1, r.2 + Z.of_nat n));
  reader_byte_align r := (drop (length r.1 mod 8) r.1, r.2 + Z.of_nat (length r.1 mod 8));
  reader_left r := bytes_of_bits r.1;
  BitWriter := list bool;
  writer_endian := [];
  writer_write n v w := w ++ bits_of n v;
  writer_byte_align w := w ++ replicate ((8 - length w mod 8) mod 8) false;
  writer_bytes := bytes_of_bits;
|}.

#[refine]
Definition bits_counted_laws : @BitIOLaws bits_counted := {|
  unread r := fst (r : @BitReader bits_counted);
  written w := w : @BitWriter bits_counted;
|}.
Proof.
  - done.
  - intros n r l1 l2 E Hn. destruct (@unread_read bits_exact bits_exact_laws n (fst r) l1 l2 E Hn) as (r' & HK & U). cbn in *.
    destruct (decide _) in HK |- *; [done|]. injection HK as -> <-. eexists. split; [done|exact U].
  - intros n r Hr. cbn in *. by rewrite decide_True.
  - intros r l bs E Hl. exact (@unread_align bits_exact bits_exact_laws (fst r) l bs E Hl).
  - intros r bs Hbs E. exact (@left_aligned bits_exact bits_exact_laws (fst r) bs Hbs E).
  - done.
  - done.
  - exact (@written_align bits_exact bits_exact_laws).
  - exact (@bytes_aligned bits_exact bits_exact_laws).
Defined.

(** Whether a value fits in a field. *)
Definition unsigned_fits (n v : Z) : bool := (0 <=? n) && (n <=? 32) && (0 <=? v) && (v <? 2 ^ n).
Definition signed_fits (n v : Z) : bool := (1 <=? n) && (n <=? 32) && (- 2 ^ (n - 1) <=? v) && (v <? 2 ^ (n - 1)).

Definition list_write : BitWrite (list bool) := {|
  write_bit b w := Some (w ++ [b]);
  write_var_u32 n v w := if unsigned_fits n v then Some (w ++ bits_of (Z.to_nat n) v) else None;
  write_var_i32 n v w := if signed_fits n v then Some (w ++ bits_of (Z.to_nat n) v) else None;
|}.

Definition count_write : BitWrite Z := {|
  write_bit b w := if w + 1 <? U32 then Some (w + 1) else None;
  write_var_u32 n v w := if unsigned_fits n v && (w + n <? U32) then Some (w + n) else None;
  write_var_i32 n v w := if signed_fits n v && (w + n <? U32) then Some (w + n) else None;
|}.

(** Reading [n] bits of a reader. *)
Definition counted_read (n : Z) (r : list bool * Z) : option (list bool) * (list bool * Z) :=
  if (0 <=? n) && (n <=? 32) && (n <=? Z.of_nat (length r.1)) then
    (Some (take (Z.to_nat n) r.1), (drop (Z.to_nat n) r.1, r.2 + n))
  else (None, r).

Definition vars_counted : @BitVarIO bits_counted := @Build_BitVarIO bits_counted list_write Z count_write 0 (fun c => c)
  (fun n r => let '(l, r) := counted_read n r in (val_of <$> l, r))
  (fun n r => if n <? 1 then (None, r) else let '(l, r) := counted_read n r in ((fun l => swrap (2 ^ n) (val_of l)) <$> l, r))
  (fun n r => let '(l, r) := counted_read n r in (is_some l, r))
  (fun r => snd (r : list bool * Z))
  (fun l => match l with a :: b :: l => Some (a * 256 + b, l) | _ => None end)
  (fun n l => if (0 <=? n) && (n <=? Z.of_nat (length l)) then Some (drop (Z.to_nat n) l) else None).

Lemma unsigned_fits_ok n v : 0 <= n <= 32 -> 0 <= v < 2 ^ n -> unsigned_fits n v = true.
Proof. intros Hn Hv. unfold unsigned_fits. rewrite !andb_true_iff. repeat split; first [apply Z.leb_le|apply Z.ltb_lt]; lia. Qed.
Lemma signed_fits_ok n v : 1 <= n <= 32 -> - 2 ^ (n - 1) <= v < 2 ^ (n - 1) -> signed_fits n v = true.
Proof. intros Hn Hv. unfold signed_fits. rewrite !andb_true_iff. repeat split; first [apply Z.leb_le|apply Z.ltb_lt]; lia. Qed.
Lemma unsigned_fits_excess n v : 2 ^ n <= v -> unsigned_fits n v = false.
Proof. intros Hv. unfold unsigned_fits. rewrite (proj2 (Z.ltb_ge v (2 ^ n)) Hv). apply andb_false_r. Qed.

Lemma counted_read_ok n r l1 l2 : 0 <= n <= 32 -> fst r = l1 ++ l2 -> Z.of_nat (length l1) = n ->
  counted_read n r = (Some l1, (l2, snd r + n)).
Proof.
  intros Hn E Hl. unfold counted_read. rewrite E, length_app. rewrite (proj2 (Z.leb_le 0 n)), (proj2 (Z.leb_le n 32)), (proj2 (Z.leb_le _ _)) by lia.
  cbn. replace (Z.to_nat n) with (length l1) by lia. by rewrite take_app_length, drop_app_length.
Qed.

Lemma vars_counted_laws : @BitVarLaws bits_counted vars_counted bits_counted_laws.
Proof.
  constructor.
  - exact bits_exact_partial.
  - constructor; [by constructor; [intros; apply app_nil_r|intros; symmetry; apply app_assoc|]|cbn; eauto| | |].
    + intros n v w Hn Hv _. cbn. rewrite unsigned_fits_ok by done. by eexists.
    + intros n v w Hn Hv _. cbn. rewrite signed_fits_ok by done. by eexists.
    + intros n v w Hv. cbn. by rewrite unsigned_fits_excess.
  - constructor; [constructor; unfold count_bits, room_count; intros; rewrite ?length_app in *; cbn [length] in *; lia| | | |]; unfold room_count, count_bits; cbn.
    + intros b w Hf. rewrite (proj2 (Z.ltb_lt _ _)) by lia. by eexists.
    + intros n v w Hn Hv Hf. rewrite bits_of_length in *. rewrite unsigned_fits_ok by done. rewrite (proj2 (Z.ltb_lt _ _)) by lia. eexists. split; [done|lia].
    + intros n v w Hn Hv Hf. rewrite bits_of_length in *. rewrite signed_fits_ok by done. rewrite (proj2 (Z.ltb_lt _ _)) by lia. eexists. split; [done|lia].
    + intros n v w Hv. by rewrite unsigned_fits_excess.
  - done.
  - intros n r l1 l2 Hn E Hl. cbn in *. rewrite (counted_read_ok n r l1 l2) by done. by eexists.
  - intros n r l1 l2 Hn E Hl. cbn in *. rewrite (proj2 (Z.ltb_ge n 1)) by lia. rewrite (counted_read_ok n r l1 l2) by (done || lia). by eexists.
  - done.
  - intros n r v r' HK. cbn in *. destruct (decide _) in HK; [done|]. by injection HK as _ <-.
  - done.
  - intros n l Hn. cbn. by rewrite (proj2 (Z.leb_le 0 n)), (proj2 (Z.leb_le _ _)) by lia.
Qed.

(** The mode of AAC streams. *)
Lemma mode_caps_roundtrip_witness :
  exists caps, ModeConfig_add_to_caps (mkModeConfig 13 3 3 0 0 false 0 0 0 1024 0) ∅ = Ok (inl caps) /\
    ModeConfig_from_caps caps = inl (mkModeConfig 13 3 3 0 0 false 0 0 0 1024 0).
Proof.
  eexists. split; [reflexivity|]. apply (mode_caps_roundtrip (mkModeConfig 13 3 3 0 0 false 0 0 0 1024 0) ∅); [|reflexivity].
  constructor; [repeat constructor; unfold is_u8; cbn; lia|done|repeat constructor; cbn; lia].
Defined.
