(* ===== verification/Mp4gDeint.v ===== *)
(** * The deinterleaving buffer of MPEG-4 generic streams

    [mp4g/depay/deint_buf.rs] and the data it handles ([mp4g/depay/mod.rs]):
    access units that arrive before their turn wait in a linked list, kept in a
    slab, in the order of their indices. *)

From S2P Require Import Prelude Utils Flow.

(** ** Access units *)
Record AccessUnit := mkAccessUnit {
  au_ext_seqnum : Z;
  au_is_fragment : bool;
  au_size : option Z;
  au_index : wrapping_u32;
  au_cts_delta : option Z;
  au_dts_delta : option Z;
  au_duration : option Z;
  au_maybe_random_access : option bool;
  au_is_interleaved : bool;
  au_data : list Z;
}.

Inductive SingleAuOrList := SingleAu (au : AccessUnit) | AuList (l : list AccessUnit).

Definition SingleAuOrList_push (au : AccessUnit) (self : SingleAuOrList) : SingleAuOrList :=
  match self with
  | SingleAu prev => AuList [prev; au]
  | AuList l => AuList (l ++ [au])
  end.

(** [MaybeSingleAuOrList] is an optional one; [None] by default. *)
Definition MaybeSingleAuOrList_push (au : AccessUnit) (self : option SingleAuOrList) : option SingleAuOrList :=
  match self with
  | Some inner => Some (SingleAuOrList_push au inner)
  | None => Some (SingleAu au)
  end.

(** Errors; that of a header stands for the ones of its parser. *)
Inductive Mpeg4GenericError := AuIndexComparisonLimit | RTPTimestampComparisonLimit.

Inductive Mpeg4GenericDepayError :=
| Mpeg4Generic (err : Mpeg4GenericError)
| AuHeaderFailed
| AuHeaderSectionTooLarge (expected_end total : Z)
| AuAuxiliarySectionTooLarge (expected_end total : Z)
| EmptyAuData
| MultipleAusUnknownSize
| MultipleAusGreaterSizeThanAuData (au_size au_data_size : Z)
| NoMoreAuDataLeft (index : wrapping_u32)
| TooEarlyAU (index expected_index : wrapping_u32)
| ConstantDurationAuNonZeroIndex (index : wrapping_u32) (ext_seqnum : Z)
| NonConstantDurationNoAuHeaders (ext_seqnum : Z)
| NonConstantDurationAuNoCtsDelta (index : wrapping_u32) (ext_seqnum : Z)
| FragmentedAuSizeMismatch (expected found ext_seqnum : Z)
| FragmentedAuRtpTsMismatch (expected found ext_seqnum : Z)
| FragmentedAuDtsMismatch (expected found ext_seqnum : Z).

(** ** The slab *)

(** A node of the list: the access unit and the key of the next node. *)
Record AuNode := mkAuNode { an_au : AccessUnit; an_next : option nat }.

(** What the code uses of the slab crate. Inserting gives the key; removing a key
    that is not there panics. *)
Class SlabOps := {
  Slab : Type;
  slab_new : Slab;
  slab_len : Slab -> nat;
  slab_insert : AuNode -> Slab -> nat * Slab;
  slab_get : nat -> Slab -> option AuNode;
  slab_set : nat -> AuNode -> Slab -> Slab;
  slab_remove : nat -> Slab -> option (AuNode * Slab);
  slab_clear : Slab -> Slab;
}.

Section DeinterleaveAuBuffer.
Context `{SlabOps}.

Record DeinterleaveAuBuffer := mkDeint {
  de_early_aus : Slab;
  de_head : option nat;
  de_expected_index : option wrapping_u32;
}.

#[export] Instance DeinterleaveAuBuffer_rebuild : Rebuild DeinterleaveAuBuffer := {|
  rebuild := fun r => mkDeint (de_early_aus r) (de_head r) (de_expected_index r) |}.

Definition DeinterleaveAuBuffer_new : DeinterleaveAuBuffer := mkDeint slab_new None None.

(** The buffer, and the output of the packet at hand. Code that returns
    [Result<(), _>] gives the error, if there is one. *)
Abbreviation DM := (M (DeinterleaveAuBuffer * option SingleAuOrList)).

Definition on_deint (f : DeinterleaveAuBuffer -> DeinterleaveAuBuffer) : DM unit := upd_ (fun s => (f (fst s), snd s)).
Definition push_out_ (au : AccessUnit) : DM unit := upd_ (fun s => (fst s, MaybeSingleAuOrList_push au (snd s))).

(** [a.try_cmp(b)], whose error is returned by [?]. *)
Definition deint_cmp (a b : wrapping_u32) : comparison + Mpeg4GenericDepayError := wrapping_try_cmp (Mpeg4Generic AuIndexComparisonLimit) a b.

(** The walk of [insert_au] from the node [cur] on. *)
Fixpoint insert_after (fuel : nat) (au : AccessUnit) (cur : nat) (slab : Slab) : res (Slab + Mpeg4GenericDepayError) :=
  match fuel with
  | O => Panic
  | S fuel =>
      cur_node ← unwrap (slab_get cur slab);
      match an_next cur_node with
      | None =>
          let '(new, slab) := slab_insert (mkAuNode au None) slab in
          cur_node ← unwrap (slab_get cur slab);
          Ok (inl (slab_set cur (mkAuNode (an_au cur_node) (Some new)) slab))
      | Some next =>
          next_node ← unwrap (slab_get next slab);
          match deint_cmp (au_index au) (au_index (an_au next_node)) with
          | inr err => Ok (inr err)
          | inl Gt => insert_after fuel au next slab
          | inl Lt =>
              let '(new, slab) := slab_insert (mkAuNode au (Some next)) slab in
              cur_node ← unwrap (slab_get cur slab);
              Ok (inl (slab_set cur (mkAuNode (an_au cur_node) (Some new)) slab))
          | inl Eq => Panic
          end
      end
  end.

Definition insert_au (au : AccessUnit) (self : DeinterleaveAuBuffer) : res (DeinterleaveAuBuffer + Mpeg4GenericDepayError) :=
  if (slab_len (de_early_aus self) =? 0)%nat then
    let '(new, slab) := slab_insert (mkAuNode au None) (de_early_aus self) in
    Ok (inl (self <| de_early_aus := slab |> <| de_head := Some new |>))
  else
    cur ← unwrap (de_head self);
    cur_node ← unwrap (slab_get cur (de_early_aus self));
    match deint_cmp (au_index au) (au_index (an_au cur_node)) with
    | inr err => Ok (inr err)
    | inl Lt =>
        let '(new, slab) := slab_insert (mkAuNode au (Some cur)) (de_early_aus self) in
        Ok (inl (self <| de_early_aus := slab |> <| de_head := Some new |>))
    | inl Eq => Panic
    | inl Gt =>
        r ← insert_after (slab_len (de_early_aus self)) au cur (de_early_aus self);
        match r with
        | inl slab => Ok (inl (self <| de_early_aus := slab |>))
        | inr err => Ok (inr err)
        end
    end.

(** Units whose turn has come. *)
Fixpoint pop_ready (fuel : nat) (expected_index : wrapping_u32) : DM (option Mpeg4GenericDepayError) :=
  match fuel with
  | O => crash_
  | S fuel =>
      s ← get_;
      let self := fst s in
      if (slab_len (de_early_aus self) =? 0)%nat then mret None
      else
        head ← of_res (unwrap (de_head self));
        head_node ← of_res (unwrap (slab_get head (de_early_aus self)));
        match deint_cmp (au_index (an_au head_node)) expected_index with
        | inr err => mret (Some err)
        | inl Eq =>
            r ← of_res (unwrap (slab_remove head (de_early_aus self)));
            let '(head_node, slab) := r in
            _ ← push_out_ (an_au head_node);
            let expected_index := wrapping_add_u32 expected_index 1 in
            _ ← on_deint (fun d => d <| de_early_aus := slab |> <| de_expected_index := Some expected_index |>
                                     <| de_head := an_next head_node |>);
            pop_ready fuel expected_index
        | inl _ => mret None
        end
  end.

(** The unit is the one expected. *)
Definition push_expected (au : AccessUnit) (expected_index : wrapping_u32) : DM (option Mpeg4GenericDepayError) :=
  _ ← push_out_ au;
  let expected_index := wrapping_add_u32 expected_index 1 in
  _ ← on_deint (fun d => d <| de_expected_index := Some expected_index |>);
  s ← get_;
  pop_ready (S (slab_len (de_early_aus (fst s)))) expected_index.

Definition push_and_pop (au : AccessUnit) : DM (option Mpeg4GenericDepayError) :=
  s ← get_;
  match de_expected_index (fst s) with
  | None => push_expected au (au_index au)
  | Some expected_index =>
      match deint_cmp (au_index au) expected_index with
      | inr err => mret (Some err)
      | inl Eq => push_expected au expected_index
      | inl Gt =>
          r ← of_res (insert_au au (fst s));
          match r with
          | inl self => _ ← on_deint (fun _ => self); mret None
          | inr err => mret (Some err)
          end
      | inl Lt => mret (Some (TooEarlyAU (au_index au) expected_index))
      end
  end.

(** The rest of the list from a node on, removed from the slab. *)
Fixpoint drain_list (fuel : nat) (cur : option nat) (slab : Slab) (l : list AccessUnit) : res (list AccessUnit * Slab) :=
  match cur with
  | None => Ok (l, slab)
  | Some cur =>
      match fuel with
      | O => Panic
      | S fuel =>
          r ← unwrap (slab_remove cur slab);
          let '(cur_node, slab) := r in
          drain_list fuel (an_next cur_node) slab (l ++ [an_au cur_node])
      end
  end.

Definition deint_drain (self : DeinterleaveAuBuffer) : res (option SingleAuOrList * DeinterleaveAuBuffer) :=
  let cur_opt := de_head self in
  let self := self <| de_expected_index := None |> <| de_head := None |> in
  match slab_len (de_early_aus self) with
  | 0%nat => Ok (None, self)
  | 1%nat =>
      cur ← unwrap cur_opt;
      r ← unwrap (slab_remove cur (de_early_aus self));
      Ok (Some (SingleAu (an_au (fst r))), self <| de_early_aus := snd r |>)
  | len =>
      r ← drain_list len cur_opt (de_early_aus self) [];
      Ok (Some (AuList (fst r)), self <| de_early_aus := snd r |>)
  end.

Definition deint_flush (self : DeinterleaveAuBuffer) : DeinterleaveAuBuffer :=
  mkDeint (slab_clear (de_early_aus self)) None None.
End DeinterleaveAuBuffer.
