(* ===== verification/Mp4gDeintProps.v ===== *)
(** * The deinterleaving buffer in order

    The linked list in the slab holds the waiting units in the order of their
    indices; units leave in sequence, none is lost. *)

From stdpp Require Import sorting.
From S2P Require Import Prelude Utils Flow Mp4gDeint.
#[local] Open Scope Z_scope.

(** ** Laws of the slab *)
Class SlabLaws `{SlabOps} := {
  contents : Slab -> gmap nat AuNode;
  slab_new_spec : contents slab_new = ∅;
  slab_clear_spec s : contents (slab_clear s) = ∅;
  slab_len_spec s : slab_len s = size (contents s);
  slab_get_spec k s : slab_get k s = contents s !! k;
  slab_insert_spec v s : exists k s', slab_insert v s = (k, s') /\ contents s !! k = None /\ contents s' = <[k := v]> (contents s);
  slab_set_spec k v s : is_Some (contents s !! k) -> contents (slab_set k v s) = <[k := v]> (contents s);
  slab_remove_spec k s v : contents s !! k = Some v -> exists s', slab_remove k s = Some (v, s') /\ contents s' = delete k (contents s);
}.

(** ** Indices *)

(** The unit with the unbounded index [n]. *)
Definition at_index (x : Z * AccessUnit) : Prop := au_index (snd x) = Wrapping (wrap U32 (fst x)).

Lemma deint_cmp_near a b : - 2147483648 < a - b < 2147483648 ->
  deint_cmp (Wrapping (wrap U32 a)) (Wrapping (wrap U32 b)) = inl (a ?= b).
Proof.
  intros Hd. unfold deint_cmp, wrapping_try_cmp, wrapping_partial_cmp. rewrite wrapping_distance_eq. cbn [w_val].
  assert (E : swrap U32 (wrap U32 a - wrap U32 b) = a - b).
  { apply swrap_unique; [done|done|change (U32 / 2) with 2147483648; lia|]. unfold wrap.
    rewrite (Z.mod_eq a U32), (Z.mod_eq b U32) by lia.
    match goal with |- ?x mod _ = 0 => replace x with ((a / U32 - b / U32) * U32) by lia end. by apply Z.mod_mul. }
  cbv zeta. rewrite E, (proj2 (Z.eqb_neq _ _)) by lia. cbn. f_equal.
  destruct (Z.compare_spec (a - b) 0), (Z.compare_spec a b); first [done|lia].
Qed.

Lemma next_index n : wrapping_add_u32 (Wrapping (wrap U32 n)) 1 = Wrapping (wrap U32 (n + 1)).
Proof. unfold wrapping_add_u32. cbn. unfold wrap. f_equal. by rewrite Zplus_mod_idemp_l. Qed.

(** ** The linked list *)

(** From [h] on the nodes of [m] are those of [l]: keys and indexed units. *)
Inductive chain (m : gmap nat AuNode) : option nat -> list (nat * (Z * AccessUnit)) -> Prop :=
| chain_nil : chain m None []
| chain_cons k x next l : m !! k = Some (mkAuNode (snd x) next) -> chain m next l -> chain m (Some k) ((k, x) :: l).

Lemma chain_frame m m' h l : chain m h l -> (forall k, k ∈ map fst l -> m' !! k = m !! k) -> chain m' h l.
Proof.
  intros Hc. induction Hc as [|k x next l Hk Hc IH]; intros He; [constructor|]. cbn in He. econstructor.
  - rewrite He by left. exact Hk.
  - apply IH. intros k' Hk'. apply He. by right.
Qed.

(** The place of a unit among those that wait. *)
Fixpoint insert_index (x : Z * AccessUnit) (w : list (Z * AccessUnit)) : list (Z * AccessUnit) :=
  match w with
  | [] => [x]
  | y :: w => if fst x <? fst y then x :: y :: w else y :: insert_index x w
  end.

Lemma insert_index_perm x w : insert_index x w ≡ₚ x :: w.
Proof. induction w as [|y w IH]; cbn; [done|]. destruct (_ <? _); [done|]. rewrite IH. constructor. Qed.

Definition by_index : relation (Z * AccessUnit) := fun x y => fst x < fst y.

Lemma insert_index_sorted x w :
  StronglySorted by_index w -> fst x ∉ map fst w -> StronglySorted by_index (insert_index x w).
Proof.
  induction 1 as [|y w Hw IH Hy]; intros Hn; cbn; [by repeat constructor|]. cbn in Hn. apply not_elem_of_cons in Hn as [Hne Hn].
  destruct (Z.ltb_spec (fst x) (fst y)) as [Hlt|Hge].
  - constructor; [by constructor|]. constructor; [exact Hlt|]. eapply Forall_impl; [exact Hy|]. unfold by_index. intros z. lia.
  - constructor; [by apply IH|]. rewrite insert_index_perm. constructor; [unfold by_index; lia|done].
Qed.

(** All indices compare with [n]. *)
Definition comparable (n : Z) (w : list (Z * AccessUnit)) : Prop :=
  Forall (fun y => - 2147483648 < n - fst y < 2147483648 /\ fst y <> n /\ at_index y) w.

Section Lists.
Context `{SlabLaws}.

(** A new node after [cur]: what both branches of the walk do. *)
Lemma link_after slab cur y x next new slab' l :
  chain (contents slab) (Some cur) ((cur, y) :: l) -> contents slab !! cur = Some (mkAuNode (snd y) next) ->
  NoDup (map fst ((cur, y) :: l)) -> chain (contents slab) next l ->
  slab_insert (mkAuNode (snd x) next) slab = (new, slab') -> contents slab !! new = None ->
  contents slab' = <[new := mkAuNode (snd x) next]> (contents slab) ->
  exists slab2, (cur_node ← unwrap (slab_get cur slab'); Ok (inl (slab_set cur (mkAuNode (an_au cur_node) (Some new)) slab')) : res (Slab + Mpeg4GenericDepayError))
      = Ok (inl slab2) /\
    contents slab2 = <[cur := mkAuNode (snd y) (Some new)]> (<[new := mkAuNode (snd x) next]> (contents slab)) /\
    chain (contents slab2) (Some cur) ((cur, y) :: (new, x) :: l).
Proof.
  intros Hc Hcur Hnd Hl _ Hnew Hc'. assert (Hne : cur <> new) by congruence.
  assert (Hget : contents slab' !! cur = Some (mkAuNode (snd y) next)) by (by rewrite Hc', lookup_insert_ne).
  rewrite slab_get_spec, Hget. cbn [unwrap]. rewrite bind_Ok. cbn [an_au]. eexists. split; [reflexivity|].
  rewrite slab_set_spec by (by rewrite Hget). rewrite Hc'. split; [done|].
  apply NoDup_cons in Hnd as [Hcl Hnd].
  econstructor; [by rewrite lookup_insert_eq|]. econstructor; [by rewrite lookup_insert_ne, lookup_insert_eq|].
  apply (chain_frame (contents slab)); [done|]. intros k Hk.
  assert (k <> cur) by (by intros ->).
  assert (k <> new).
  { intros ->. clear -Hl Hk Hnew. induction Hl as [|k x next l Hkx Hl IH]; cbn in Hk; [by apply elem_of_nil in Hk|].
    apply elem_of_cons in Hk as [<-|Hk]; [congruence|auto]. }
  by rewrite !lookup_insert_ne.
Qed.

Lemma chain_keys m h l k : chain m h l -> k ∈ map fst l -> is_Some (m !! k).
Proof.
  induction 1 as [|k' x next l Hk' Hl IH]; cbn; intros Hk; [by apply elem_of_nil in Hk|].
  apply elem_of_cons in Hk as [->|Hk]; [by rewrite Hk'|auto].
Qed.

Lemma insert_after_spec fuel x : forall cur y l slab,
  chain (contents slab) (Some cur) ((cur, y) :: l) -> NoDup (map fst ((cur, y) :: l)) -> (length l < fuel)%nat ->
  at_index x -> comparable (fst x) (map snd l) ->
  exists slab' new l', insert_after fuel (snd x) cur slab = Ok (inl slab') /\ contents slab !! new = None /\
    chain (contents slab') (Some cur) ((cur, y) :: l') /\ map snd l' = insert_index x (map snd l) /\
    map fst l' ≡ₚ new :: map fst l /\
    (forall k, k ∉ cur :: map fst l -> k <> new -> contents slab' !! k = contents slab !! k) /\
    size (contents slab') = S (size (contents slab)).
Proof.
  induction fuel as [|fuel IH]; intros cur y l slab Hc Hnd Hf Hx Hcmp; [lia|]. cbn [insert_after].
  inversion Hc as [|? ? next ? Hcur Hl]; subst. rewrite slab_get_spec, Hcur. cbn [unwrap]. rewrite bind_Ok. cbn [an_next].
  destruct l as [|[k z] l]; inversion Hl as [|? ? next' ? Hk Hl']; subst.
  - destruct (slab_insert_spec (mkAuNode (snd x) None) slab) as (new & slab' & Ei & Hnew & Hc'). rewrite Ei.
    destruct (link_after slab cur y x None new slab' [] Hc Hcur Hnd Hl Ei Hnew Hc') as (slab2 & E2 & C2 & Ch2). rewrite E2.
    exists slab2, new, [(new, x)]. split; [done|]. split; [done|]. split; [done|]. split; [done|]. split; [done|].
    assert (cur <> new) by congruence. split.
    + intros k Hk Hkn. apply not_elem_of_cons in Hk as [Hkc _]. by rewrite C2, !lookup_insert_ne.
    + rewrite C2, map_size_insert_Some by (rewrite lookup_insert_ne by done; by eexists). by rewrite map_size_insert_None.
  - rewrite slab_get_spec, Hk. cbn [unwrap]. rewrite bind_Ok. cbn [an_au]. cbn [map snd] in Hcmp.
    apply Forall_cons in Hcmp as [(Hr & Hne & Hz) Hcmp]. rewrite Hx, Hz, deint_cmp_near by done. cbn [map snd insert_index].
    destruct (Z.compare_spec (fst x) (fst z)) as [E|Hlt|Hgt]; [congruence| |].
    + destruct (slab_insert_spec (mkAuNode (snd x) (Some k)) slab) as (new & slab' & Ei & Hnew & Hc'). rewrite Ei.
      destruct (link_after slab cur y x (Some k) new slab' _ Hc Hcur Hnd Hl Ei Hnew Hc') as (slab2 & E2 & C2 & Ch2). rewrite E2.
      exists slab2, new, ((new, x) :: (k, z) :: l). split; [done|]. split; [done|]. split; [done|].
      rewrite (proj2 (Z.ltb_lt _ _)) by lia. split; [done|]. split; [done|]. assert (cur <> new) by congruence. split.
      * intros k' Hk' Hkn. apply not_elem_of_cons in Hk' as [Hkc _]. by rewrite C2, !lookup_insert_ne.
      * rewrite C2, map_size_insert_Some by (rewrite lookup_insert_ne by done; by eexists). by rewrite map_size_insert_None.
    + cbn [map fst] in Hnd. pose proof Hnd as Hnd0. apply NoDup_cons in Hnd as [Hcl Hnd]. cbn [length] in Hf.
      destruct (IH k z l slab Hl Hnd ltac:(lia) Hx Hcmp) as (slab' & new & l' & EI & Hnew & Hch & Hs & Hp & Hfr & Hsz).
      exists slab', new, ((k, z) :: l'). split; [done|]. split; [done|].
      assert (Hcn : cur <> new) by congruence.
      split; [econstructor; [by rewrite Hfr|done]|]. rewrite (proj2 (Z.ltb_ge _ _)) by lia.
      split; [cbn; by rewrite Hs|]. split; [cbn; rewrite Hp; constructor|]. split; [|done].
      intros k' Hk' Hkn. apply not_elem_of_cons in Hk' as [_ Hk']. by apply Hfr.
Qed.

(** The buffer holds exactly the units [w], in order. *)
Definition holds (self : DeinterleaveAuBuffer) (w : list (Z * AccessUnit)) : Prop :=
  exists l, map snd l = w /\ chain (contents (de_early_aus self)) (de_head self) l /\ NoDup (map fst l) /\
    size (contents (de_early_aus self)) = length w.

Lemma holds_empty self w : holds self w -> (slab_len (de_early_aus self) =? 0)%nat = bool_decide (w = []).
Proof.
  intros (l & <- & _ & _ & Hs). rewrite slab_len_spec, Hs. destruct l; [done|]. by rewrite bool_decide_eq_false_2.
Qed.

Lemma insert_au_spec self w x :
  holds self w -> at_index x -> comparable (fst x) w ->
  exists self', insert_au (snd x) self = Ok (inl self') /\ holds self' (insert_index x w) /\
    de_expected_index self' = de_expected_index self.
Proof.
  intros Hh Hx Hcmp. unfold insert_au. rewrite (holds_empty _ _ Hh). destruct Hh as (l & <- & Hc & Hnd & Hs).
  destruct l as [|[k y] l]; cbn [map snd] in *.
  - rewrite bool_decide_eq_true_2 by done. destruct (slab_insert_spec (mkAuNode (snd x) None) (de_early_aus self)) as (new & slab' & -> & Hnew & Hc').
    eexists. split; [reflexivity|]. split; [|done]. exists [(new, x)]. cbn. rewrite Hc'. split; [done|].
    split; [econstructor; [by rewrite lookup_insert_eq|constructor]|]. split; [apply NoDup_singleton|].
    rewrite map_size_insert_None, Hs by done. done.
  - rewrite bool_decide_eq_false_2 by done. inversion Hc as [|? ? next ? Hk Hl E1]; subst. cbn [unwrap]. rewrite bind_Ok.
    rewrite slab_get_spec, Hk. cbn [unwrap]. rewrite bind_Ok. cbn [an_au]. pose proof Hcmp as Hcmp0.
    apply Forall_cons in Hcmp as [(Hr & Hne & Hy) Hcmp]. rewrite Hx, Hy, deint_cmp_near by done. cbn [insert_index].
    destruct (Z.compare_spec (fst x) (fst y)) as [E|Hlt|Hgt]; [congruence| |].
    + destruct (slab_insert_spec (mkAuNode (snd x) (Some k)) (de_early_aus self)) as (new & slab' & -> & Hnew & Hc').
      eexists. split; [reflexivity|]. split; [|done]. rewrite (proj2 (Z.ltb_lt _ _)) by lia. exists ((new, x) :: (k, y) :: l).
      assert (Hnk : forall k', k' ∈ map fst ((k, y) :: l) -> k' <> new)
        by (intros k' Hk' ->; destruct (chain_keys _ _ _ _ ltac:(exact (chain_cons _ _ _ _ _ Hk Hl)) Hk'); congruence).
      split; [done|]. cbn [de_early_aus de_head]. cbn. rewrite Hc'. split; [|split].
      * econstructor; [by rewrite lookup_insert_eq|]. apply (chain_frame (contents (de_early_aus self))); [by econstructor|].
        intros k' Hk'. rewrite lookup_insert_ne by (by intros <-; apply (Hnk _ Hk')). done.
      * constructor; [|done]. intros Hin. by apply (Hnk new).
      * rewrite map_size_insert_None, Hs by done. done.
    + rewrite slab_len_spec, Hs. cbn [map snd length] in Hs |- *.
      destruct (insert_after_spec (S (length (map snd l))) x k y l (de_early_aus self) ltac:(by econstructor) Hnd ltac:(rewrite length_map; lia) Hx Hcmp)
        as (slab' & new & l' & -> & Hnew & Hch & Hsl & Hp & _ & Hsz).
      rewrite bind_Ok. eexists. split; [reflexivity|]. split; [|done]. rewrite (proj2 (Z.ltb_ge _ _)) by lia. exists ((k, y) :: l').
      split; [cbn; by rewrite Hsl|]. cbn. rewrite <- E1. split; [done|]. split.
      * rewrite Hp. rewrite (Permutation_swap new k). constructor; [|done]. intros Hin.
        destruct (chain_keys _ _ _ _ ltac:(exact (chain_cons _ _ _ _ _ Hk Hl)) Hin); congruence.
      * rewrite Hsz, Hs, insert_index_perm. done.
Qed.

(** The consecutive units from [e] on, the index after them, and the rest. *)
Fixpoint release (e : Z) (w : list (Z * AccessUnit)) : list (Z * AccessUnit) * Z * list (Z * AccessUnit) :=
  match w with
  | [] => ([], e, [])
  | x :: w' => if fst x =? e then let '(out, e', rest) := release (e + 1) w' in (x :: out, e', rest) else ([], e, w)
  end.

Definition out_list (o : option SingleAuOrList) : list AccessUnit :=
  match o with None => [] | Some (SingleAu au) => [au] | Some (AuList l) => l end.

Lemma out_list_push au o : out_list (MaybeSingleAuOrList_push au o) = out_list o ++ [au].
Proof. by destruct o as [[a|l]|]. Qed.

Lemma pop_ready_spec w : forall fuel e self out,
  holds self w -> (length w < fuel)%nat -> Forall at_index w -> Forall (fun x => e <= fst x < e + 2147483648) w ->
  StronglySorted by_index w -> de_expected_index self = Some (Wrapping (wrap U32 e)) ->
  exists self' out', pop_ready fuel (Wrapping (wrap U32 e)) (self, out) = (Done None, (self', out')) /\
    holds self' (snd (release e w)) /\ out_list out' = out_list out ++ map snd (fst (fst (release e w))) /\
    de_expected_index self' = Some (Wrapping (wrap U32 (snd (fst (release e w))))).
Proof.
  induction w as [|x w IH]; intros fuel e self out Hh Hf Hat Hr Hs He; (destruct fuel as [|fuel]; [cbn in Hf; lia|]);
    cbn [pop_ready]; unfold mbind, M_bind, get_; cbn [fst snd]; rewrite (holds_empty _ _ Hh).
  - rewrite bool_decide_eq_true_2 by done. exists self, out. cbn. by rewrite app_nil_r.
  - rewrite bool_decide_eq_false_2 by done. pose proof Hh as Hh0. destruct Hh as (l & El & Hc & Hnd & Hsz).
    destruct l as [|[k y] l]; [done|]. cbn [map snd] in El. injection El as -> El. inversion Hc as [|? ? next ? Hk Hl E1]; subst.
    cbn [unwrap of_res]. rewrite slab_get_spec, Hk. cbn [unwrap of_res an_au].
    apply Forall_cons in Hat as [Hx Hat]. apply Forall_cons in Hr as [Hxr Hr]. rewrite Hx, deint_cmp_near by lia. cbn [release].
    destruct (Z.compare_spec (fst x) e) as [E|Hlt|Hgt]; [|lia|].
    + rewrite (proj2 (Z.eqb_eq _ _) E). destruct (slab_remove_spec k (de_early_aus self) _ Hk) as (slab' & -> & Hdel).
      cbn [unwrap of_res]. unfold push_out_, on_deint, upd_. cbn [fst snd an_au an_next]. rewrite next_index.
      set (self1 := modify de_head _ _). set (out1 := MaybeSingleAuOrList_push _ _).
      inversion Hs as [|? ? Hs' Hall]; subst. cbn [map fst] in Hnd. apply NoDup_cons in Hnd as [Hkl Hnd].
      destruct (IH fuel (fst x + 1) self1 out1) as (self2 & out2 & HK & Hh2 & Ho2 & He2).
      * exists l. split; [done|]. cbn. rewrite Hdel. split; [|split; [done|]].
        { apply (chain_frame (contents (de_early_aus self))); [done|]. intros k' Hk'. rewrite lookup_delete_ne by (by intros <-). done. }
        rewrite map_size_delete_Some by (by eexists). cbn in Hsz. rewrite Hsz. done.
      * cbn in Hf. lia.
      * done.
      * apply Forall_forall. intros z Hz. pose proof (proj1 (Forall_forall _ _) Hr z Hz). pose proof (proj1 (Forall_forall _ _) Hall z Hz) as Hxz.
        unfold by_index in Hxz. cbn beta in *. lia.
      * done.
      * done.
      * exists self2, out2. rewrite HK. destruct (release (fst x + 1) (map snd l)) as [[o e'] rest]. cbn [fst snd map] in *. split; [done|]. split; [done|].
        split; [|done]. rewrite Ho2. subst out1. by rewrite out_list_push, <- app_assoc.
    + rewrite (proj2 (Z.eqb_neq _ _)) by lia. exists self, out. cbn. rewrite app_nil_r. done.
Qed.

(** ** The buffer between pushes *)

(** Next is [e], the units [w] wait for theirs. *)
Record deint_inv (e : Z) (w : list (Z * AccessUnit)) (self : DeinterleaveAuBuffer) : Prop := {
  dv_expected : de_expected_index self = Some (Wrapping (wrap U32 e));
  dv_holds : holds self w;
  dv_index : Forall at_index w;
  dv_later : Forall (fun x => e < fst x < e + 2147483648) w;
  dv_sorted : StronglySorted by_index w;
}.

Lemma release_spec e w : Forall at_index w -> Forall (fun x => e <= fst x < e + 2147483648) w -> StronglySorted by_index w ->
  let '(out, e', rest) := release e w in
  w = out ++ rest /\ map fst out = seqZ e (e' - e) /\ e <= e' /\
  Forall at_index rest /\ Forall (fun x => e' < fst x < e' + 2147483648) rest /\ StronglySorted by_index rest.
Proof.
  revert e. induction w as [|x w IH]; intros e Hat Hr Hs; cbn [release].
  { rewrite Z.sub_diag. split_and!; first [done|lia|constructor]. }
  pose proof Hat as Hat0. pose proof Hr as Hr0. pose proof Hs as Hs0.
  apply Forall_cons in Hat as [Hx Hat]. apply Forall_cons in Hr as [Hxr Hr]. inversion Hs as [|? ? Hs' Hall]; subst.
  destruct (Z.eqb_spec (fst x) e) as [<-|Hne].
  - specialize (IH (fst x + 1) Hat). destruct (release (fst x + 1) w) as [[out e'] rest].
    destruct IH as (-> & Hm & Hle & Ha & Hl & Hso); [|done|].
    { apply Forall_forall. intros z Hz. pose proof (proj1 (Forall_forall _ _) Hr z Hz). pose proof (proj1 (Forall_forall _ _) Hall z Hz) as Hxz.
      unfold by_index in Hxz. cbn beta in *. lia. }
    split_and!; try done; [|lia]. cbn. rewrite (seqZ_cons (fst x)) by lia. rewrite Hm. f_equal. f_equal; lia.
  - rewrite Z.sub_diag. split_and!; first [done|lia|idtac]. constructor; [lia|]. apply Forall_forall. intros z Hz.
    pose proof (proj1 (Forall_forall _ _) Hr z Hz). pose proof (proj1 (Forall_forall _ _) Hall z Hz) as Hxz. unfold by_index in Hxz. cbn beta in *. lia.
Qed.

Lemma push_expected_spec w x self out :
  holds self w -> Forall at_index w -> Forall (fun y => fst x < fst y < fst x + 2147483648) w -> StronglySorted by_index w -> at_index x ->
  exists self' out' os e' rest, push_expected (snd x) (Wrapping (wrap U32 (fst x))) (self, out) = (Done None, (self', out')) /\
    out_list out' = out_list out ++ map snd (x :: os) /\ w = os ++ rest /\ map fst (x :: os) = seqZ (fst x) (e' - fst x) /\
    fst x < e' /\ deint_inv e' rest self'.
Proof.
  intros Hh Hat Hl Hs Hx. unfold push_expected, mbind, M_bind, push_out_, on_deint, upd_, get_. cbn [fst snd]. rewrite next_index.
  set (self1 := self <| de_expected_index := _ |>). change (de_early_aus self1) with (de_early_aus self).
  assert (Hlen : slab_len (de_early_aus self) = length w) by (destruct Hh as (l & <- & _ & _ & Hz); by rewrite slab_len_spec, Hz).
  assert (Hl' : Forall (fun y => fst x + 1 <= fst y < fst x + 1 + 2147483648) w) by (eapply Forall_impl; [exact Hl|]; intros y; cbn beta; lia).
  destruct (pop_ready_spec w (S (slab_len (de_early_aus self))) (fst x + 1) self1 (MaybeSingleAuOrList_push (snd x) out))
    as (self2 & out2 & -> & Hh2 & Ho2 & He2); [done|rewrite Hlen; lia|done|done|done|done|].
  pose proof (release_spec (fst x + 1) w Hat Hl' Hs) as Hrel. destruct (release (fst x + 1) w) as [[os e'] rest].
  destruct Hrel as (E & Hm & Hle & Ha & Hlr & Hsr). cbn [fst snd] in *. exists self2, out2, os, e', rest. split; [done|].
  split; [by rewrite Ho2, out_list_push, <- app_assoc|]. split; [done|]. split; [|split; [lia|by constructor]].
  cbn. rewrite (seqZ_cons (fst x)) by lia. rewrite Hm. f_equal. f_equal; lia.
Qed.

(** One unit, by its index. *)
Lemma push_spec e w x self out :
  deint_inv e w self -> at_index x -> fst x ∉ map fst w -> - 2147483648 < fst x - e < 2147483648 ->
  (fst x < e /\ push_and_pop (snd x) (self, out) =
     (Done (Some (TooEarlyAU (au_index (snd x)) (Wrapping (wrap U32 e)))), (self, out))) \/
  (e < fst x /\ exists self', push_and_pop (snd x) (self, out) = (Done None, (self', out)) /\ deint_inv e (insert_index x w) self') \/
  (fst x = e /\ exists self' out' os e' rest, push_and_pop (snd x) (self, out) = (Done None, (self', out')) /\
     out_list out' = out_list out ++ map snd (x :: os) /\ w = os ++ rest /\ map fst (x :: os) = seqZ e (e' - e) /\ e < e' /\
     deint_inv e' rest self').
Proof.
  intros [He Hh Hat Hl Hs] Hx Hn Hr. unfold push_and_pop, mbind, M_bind, get_. cbn [fst snd]. rewrite He.
  pose proof Hx as Hx0. unfold at_index in Hx0. rewrite Hx0, deint_cmp_near by done.
  destruct (Z.compare_spec (fst x) e) as [E|Hlt|Hgt].
  - right. right. split; [done|]. subst e. by apply push_expected_spec.
  - left. split; [done|]. done.
  - right. left. split; [done|].
    assert (Hcmp : comparable (fst x) w).
    { apply Forall_forall. intros y Hy. pose proof (proj1 (Forall_forall _ _) Hl y Hy). pose proof (proj1 (Forall_forall _ _) Hat y Hy).
      cbn beta in *. split; [lia|]. split; [|done]. intros Ey. apply Hn. rewrite <- Ey. by apply list_elem_of_fmap_2. }
    destruct (insert_au_spec self w x Hh Hx Hcmp) as (self' & -> & Hh' & He'). cbn [of_res]. unfold on_deint, upd_. cbn [fst snd].
    exists self'. split; [done|]. constructor; [congruence|done|rewrite insert_index_perm; by constructor|
      rewrite insert_index_perm; constructor; [lia|done]|by apply insert_index_sorted].
Qed.

Lemma drain_list_spec l : forall fuel h slab acc,
  chain (contents slab) h l -> NoDup (map fst l) -> size (contents slab) = length l -> (length l <= fuel)%nat ->
  exists slab', drain_list fuel h slab acc = Ok (acc ++ map (fun x => snd (snd x)) l, slab') /\ size (contents slab') = 0%nat.
Proof.
  induction l as [|[k x] l IH]; intros fuel h slab acc Hc Hnd Hs Hf; inversion Hc as [|? ? next ? Hk Hl]; subst.
  - exists slab. rewrite app_nil_r. by destruct fuel.
  - destruct fuel as [|fuel]; [cbn in Hf; lia|]. cbn [drain_list].
    destruct (slab_remove_spec k slab _ Hk) as (slab1 & -> & Hdel). cbn [unwrap]. rewrite bind_Ok. cbn [an_next an_au].
    cbn [map fst length] in *. apply NoDup_cons in Hnd as [Hkl Hnd].
    destruct (IH fuel next slab1 (acc ++ [snd x])) as (slab2 & -> & H2).
    + apply (chain_frame (contents slab)); [done|]. intros k' Hk'. rewrite Hdel, lookup_delete_ne by (by intros <-). done.
    + done.
    + rewrite Hdel, map_size_delete_Some by (by eexists). rewrite Hs. done.
    + lia.
    + exists slab2. cbn. by rewrite <- app_assoc.
Qed.

Lemma deint_drain_spec self w : holds self w ->
  exists o self', deint_drain self = Ok (o, self') /\ out_list o = map snd w /\ slab_len (de_early_aus self') = 0%nat /\
    de_head self' = None /\ de_expected_index self' = None.
Proof.
  intros (l & <- & Hc & Hnd & Hs). rewrite length_map in Hs. unfold deint_drain. cbv zeta.
  set (self1 := self <| de_expected_index := None |> <| de_head := None |>). change (de_early_aus self1) with (de_early_aus self).
  rewrite slab_len_spec, Hs. destruct l as [|[k x] [|y l]].
  - exists None, self1. split; [done|]. split; [done|]. split; [|done]. change (de_early_aus self1) with (de_early_aus self). by rewrite slab_len_spec, Hs.
  - cbn [length]. inversion Hc as [|? ? next ? Hk Hl E1]; subst. cbn [unwrap]. rewrite bind_Ok.
    destruct (slab_remove_spec k _ _ Hk) as (slab' & -> & Hdel). cbn [unwrap]. rewrite bind_Ok. cbn [fst snd an_au].
    do 2 eexists. split; [reflexivity|]. split; [done|]. split; [|done]. cbn. rewrite slab_len_spec, Hdel.
    rewrite map_size_delete_Some by (by eexists). by rewrite Hs.
  - set (ll := (k, x) :: y :: l) in *. change (length ll) with (S (S (length l))) in *. cbn iota.
    destruct (drain_list_spec ll (S (S (length l))) _ _ [] Hc Hnd Hs (le_n _)) as (slab' & -> & Hz). rewrite bind_Ok. cbn [fst snd app].
    do 2 eexists. split; [reflexivity|]. split; [cbn [out_list]; by rewrite map_map|]. split; [|done]. cbn. by rewrite slab_len_spec.
Qed.

(** All units of a list, as the depayloader pushes them; the result is the units refused. *)
Fixpoint push_all (aus : list AccessUnit) : M (DeinterleaveAuBuffer * option SingleAuOrList) (list AccessUnit) :=
  match aus with
  | [] => mret []
  | au :: aus =>
      r ← push_and_pop au;
      refused ← push_all aus;
      mret (match r with None => refused | Some _ => au :: refused end)
  end.

Abbreviation below n0 := (base.filter (fun x : Z * AccessUnit => fst x < n0)).
Abbreviation above n0 := (base.filter (fun x : Z * AccessUnit => n0 < fst x)).
Abbreviation within lo := (Forall (fun x : Z * AccessUnit => lo <= fst x < lo + 2147483647)).

Lemma push_all_spec lo n0 xs : forall os e w self out,
  deint_inv e w self -> out_list out = map snd os -> map fst os = seqZ n0 (e - n0) -> lo <= n0 < e -> e <= lo + 2147483647 ->
  Forall at_index xs -> within lo xs -> within lo w -> NoDup (map fst (os ++ w ++ xs)) ->
  exists os' e' w' self' out', push_all (map snd xs) (self, out) = (Done (map snd (below n0 xs)), (self', out')) /\
    deint_inv e' w' self' /\ out_list out' = map snd os' /\ map fst os' = seqZ n0 (e' - n0) /\ n0 < e' /\ os' ++ w' ≡ₚ os ++ w ++ above n0 xs.
Proof.
  induction xs as [|x xs IH]; intros os e w self out Hi Ho Hm He Hel Hat Hr Hw Hnd.
  { exists os, e, w, self, out. cbn. rewrite app_nil_r. split_and!; try done. lia. }
  apply Forall_cons in Hat as [Hx Hat]. apply Forall_cons in Hr as [Hxr Hr]. cbn [map push_all].
  assert (Hsw : os ++ w ++ x :: xs ≡ₚ x :: os ++ w ++ xs) by (rewrite !app_assoc; by rewrite <- Permutation_middle).
  rewrite Hsw in Hnd. pose proof Hnd as Hnd0. cbn in Hnd. apply NoDup_cons in Hnd as [Hnx Hnd].
  rewrite !map_app in Hnx. apply not_elem_of_app in Hnx as [Hno Hnx]. apply not_elem_of_app in Hnx as [Hnw Hnxs]. rewrite Hm in Hno.
  assert (Hge : fst x < n0 \/ e <= fst x).
  { destruct (Z_lt_le_dec (fst x) n0); [by left|right]. destruct (Z_lt_le_dec (fst x) e); [destruct Hno; apply elem_of_seqZ; lia|done]. }
  unfold mbind, M_bind. destruct (push_spec e w x self out Hi Hx Hnw ltac:(lia)) as [[Hlt ->]|[(Hgt & self1 & -> & Hi1)|(E & self1 & out1 & os1 & e1 & rest & -> & Ho1 & Ew & Hm1 & He1 & Hi1)]].
  - destruct (IH os e w self out Hi Ho Hm He Hel Hat Hr Hw Hnd) as (os' & e' & w' & self' & out' & -> & HR).
    exists os', e', w', self', out'. by rewrite filter_cons_True, filter_cons_False by (cbn beta; lia).
  - rewrite filter_cons_False, filter_cons_True by (cbn beta; lia).
    destruct (IH os e (insert_index x w) self1 out Hi1 Ho Hm He Hel Hat Hr) as (os' & e' & w' & self' & out' & -> & Hi' & Ho' & Hm' & He' & Hp').
    { rewrite insert_index_perm. by constructor. }
    { rewrite insert_index_perm. cbn. by rewrite <- Permutation_middle. }
    exists os', e', w', self', out'. split; [done|]. split_and!; try done.
    rewrite Hp', insert_index_perm. cbn. by rewrite <- !Permutation_middle.
  - rewrite filter_cons_False, filter_cons_True by (cbn beta; lia). rewrite Ew in Hw. apply Forall_app in Hw as [Hw1 Hw].
    assert (He1' : e1 <= lo + 2147483647).
    { assert (Hlast : e1 - 1 ∈ map fst (x :: os1)) by (rewrite Hm1; apply elem_of_seqZ; lia).
      cbn in Hlast. apply elem_of_cons in Hlast as [?|Hlast]; [lia|]. apply list_elem_of_fmap in Hlast as (y & Ey & Hy).
      pose proof (proj1 (Forall_forall _ _) Hw1 y Hy) as Hyw. cbn beta in Hyw. lia. }
    destruct (IH (os ++ x :: os1) e1 rest self1 out1 Hi1) as (os' & e' & w' & self' & out' & -> & Hi' & Ho' & Hm' & He' & Hp').
    + by rewrite Ho1, Ho, map_app.
    + rewrite map_app, Hm, Hm1. replace (e1 - n0) with ((e - n0) + (e1 - e)) by lia. rewrite seqZ_app by lia. do 2 f_equal. lia.
    + lia.
    + lia.
    + done.
    + done.
    + done.
    + rewrite Ew in Hnd0. rewrite <- !app_assoc in *. cbn. by rewrite <- Permutation_middle.
    + exists os', e', w', self', out'. split; [done|]. split_and!; try done.
      rewrite Hp', Ew, <- !app_assoc. cbn. by rewrite <- !Permutation_middle.
Qed.
End Lists.

(** ** Properties *)

(** C19: interleaved access units leave in order. The unit that arrives first
    sets the first index, and all units have different indices, modulo 2^32, within a
    window of 2^31 - 1. Of the units that arrive after it, in any order, those with
    a lower index than the first are refused, and the others are taken, without a
    panic; the output is the run of units with consecutive indices from the first on
    up to the first index missing, the others wait, none of the units taken is lost
    or put out twice, and draining the buffer gives those that wait in the order of
    their indices. (A repeated index that waits is a panic, see
    [deint_duplicate_panics].) *)
Theorem deint_in_order `{SlabLaws} lo x0 xs :
  Forall at_index (x0 :: xs) -> NoDup (map fst (x0 :: xs)) -> Forall (fun x => lo <= fst x < lo + 2147483647) (x0 :: xs) ->
  exists self out rest self' os e w,
    push_all (map snd (x0 :: xs)) (DeinterleaveAuBuffer_new, None) =
      (Done (map snd (base.filter (fun x => fst x < fst x0) xs)), (self, out)) /\
    deint_drain self = Ok (rest, self') /\
    out_list out = map snd os /\ map fst os = seqZ (fst x0) (e - fst x0) /\ (e ∉ map fst (x0 :: xs)) /\
    out_list rest = map snd w /\ StronglySorted by_index w /\ os ++ w ≡ₚ x0 :: base.filter (fun x => fst x0 < fst x) xs /\
    slab_len (de_early_aus self') = 0%nat.
Proof.
  intros Hat Hnd Hr. apply Forall_cons in Hat as [H0' Hat]. apply Forall_cons in Hr as [Hr0 Hr]. cbn [map push_all]. unfold mbind, M_bind.
  assert (Hnew : holds DeinterleaveAuBuffer_new []).
  { exists []. split; [done|]. cbn. rewrite slab_new_spec. split; [constructor|]. split; [constructor|done]. }
  destruct (push_expected_spec [] x0 DeinterleaveAuBuffer_new None Hnew) as (s1 & o1 & os1 & e1 & r1 & HK & Ho & Ew & Hm & He & Hi);
    [constructor..|done|]. symmetry in Ew. apply app_nil in Ew as [-> ->].
  assert (E1 : push_and_pop (snd x0) (DeinterleaveAuBuffer_new, None) = (Done None, (s1, o1))).
  { unfold push_and_pop, mbind, M_bind, get_. cbn [fst snd de_expected_index DeinterleaveAuBuffer_new]. by rewrite H0'. }
  assert (He1 : e1 = fst x0 + 1) by (apply (f_equal length) in Hm; rewrite length_seqZ in Hm; cbn in Hm; lia).
  rewrite E1. destruct (push_all_spec lo (fst x0) xs [x0] e1 [] s1 o1 Hi) as (os & e & w & self & out & HP & Hi' & Ho' & Hm' & He' & Hp); try done; [lia..|].
  destruct (deint_drain_spec self w (dv_holds _ _ _ Hi')) as (rest & self' & HD & Hw & Hz & _). rewrite HP.
  exists self, out, rest, self', os, e, w. split; [done|]. split; [done|]. split; [done|]. split; [done|]. split; [|split; [done|split; [by destruct Hi'|done]]].
  intros Hin. change (fst x0 :: map fst xs) with (map fst (x0 :: xs)) in Hin. apply list_elem_of_fmap in Hin as (y & Ey & Hy).
  assert (Hyw : y ∈ os ++ w).
  { rewrite Hp. apply elem_of_cons in Hy as [->|Hy]; [by left|]. right. apply list_elem_of_filter. split; [lia|done]. }
  apply elem_of_app in Hyw as [Hyw|Hyw].
  - apply (list_elem_of_fmap_2 fst) in Hyw. change (fmap fst os) with (map fst os) in Hyw. rewrite Hm' in Hyw. apply elem_of_seqZ in Hyw. lia.
  - pose proof (proj1 (Forall_forall _ _) (dv_later _ _ _ Hi') y Hyw) as Hly. cbn beta in Hly. lia.
Qed.

(** ** Instances *)
Definition map_slab : SlabOps := {|
  Slab := gmap nat AuNode;
  slab_new := ∅;
  slab_len s := size s;
  slab_insert v s := let k := fresh (dom s) in (k, <[k := v]> s);
  slab_get k s := s !! k;
  slab_set k v s := <[k := v]> s;
  slab_remove k s := (fun v => (v, delete k s)) <$> s !! k;
  slab_clear _ := ∅;
|}.

Definition map_slab_laws : @SlabLaws map_slab.
Proof.
  refine (Build_SlabLaws map_slab (fun s : gmap nat AuNode => s) eq_refl (fun _ => eq_refl) (fun _ => eq_refl) (fun _ _ => eq_refl) _ (fun _ _ _ _ => eq_refl) _).
  - intros v s. exists (fresh (dom (s : gmap nat AuNode))), (<[fresh (dom (s : gmap nat AuNode)) := v]> s). split; [done|]. split; [|done].
    apply not_elem_of_dom, is_fresh.
  - intros k s v Hk. exists (delete k (s : gmap nat AuNode)). split; [|done]. cbn. by rewrite Hk.
Defined.

(** A unit with this index and one byte of data. *)
Definition example_au (n : Z) : Z * AccessUnit :=
  (n, mkAccessUnit 7 false None (Wrapping (wrap U32 n)) None None None None true [n mod 256]).

(** Two packets of RFC 3640 A.3 across the end of the indices, one unit that comes too late, and one that leaves a gap. *)
Lemma deint_in_order_witness :
  exists self out rest self',
    @push_all map_slab (map snd (map example_au [4294967294; 4294967297; 4294967292; 4294967295; 4294967299; 4294967296])) (DeinterleaveAuBuffer_new, None) =
      (Done [snd (example_au 4294967292)], (self, out)) /\
    @deint_drain map_slab self = Ok (rest, self') /\
    map au_data (out_list out) = [[254]; [255]; [0]; [1]] /\ map au_data (out_list rest) = [[3]].
Proof.
  destruct (@deint_in_order map_slab map_slab_laws 4294967290 (example_au 4294967294) (map example_au [4294967297; 4294967292; 4294967295; 4294967299; 4294967296]))
    as (self & out & rest & self' & os & e & w & HP & HD & _).
  - repeat (constructor; [done|]). constructor.
  - apply (bool_decide_unpack _). by vm_compute.
  - repeat (constructor; [cbn; lia|]). constructor.
  - exists self, out, rest, self'. split; [exact HP|]. split; [exact HD|].
    set (aus := map snd (map example_au [4294967294; 4294967297; 4294967292; 4294967295; 4294967299; 4294967296])) in HP.
    change (push_all _ _) with (@push_all map_slab aus (DeinterleaveAuBuffer_new, None)) in HP.
    assert (V1 : map au_data (out_list (snd (snd (@push_all map_slab aus (DeinterleaveAuBuffer_new, None))))) = [[254]; [255]; [0]; [1]])
      by (vm_compute; reflexivity).
    assert (V2 : match @deint_drain map_slab (fst (snd (@push_all map_slab aus (DeinterleaveAuBuffer_new, None)))) with
      Ok (r, _) => map au_data (out_list r) | Panic => [] end = [[3]]) by (vm_compute; reflexivity).
    rewrite HP in V1. rewrite HP in V2. cbn [fst snd] in V1, V2. rewrite HD in V2. by split.
Defined.

(** A unit whose index already waits reaches the branch that is declared unreachable. *)
Lemma deint_duplicate_panics :
  fst (@push_all map_slab (map snd (map example_au [0; 2; 2])) (DeinterleaveAuBuffer_new, None)) = Crash.
Proof. by vm_compute. Qed.
