(* ===== verification/Mp4gDepay.v ===== *)
(** * The MPEG-4 generic depayloader

    [mp4g/depay/parsers.rs], which takes the access units out of a payload, and
    [mp4g/depay/imp.rs], the depayloader of RFC 3640. *)

From S2P Require Import Prelude Utils Queues F64 Flow BitStream RtpBase DepayMeta BaseDepay AudioPay.
From S2P Require Import Mp4a Mp4gHeader Mp4gDeint.

(** ** The parser of payloads *)
Record ConstantDurationProbation := mkProbation { cd_ts : wrapping_u32; cd_frames : Z }.

Record PayloadParser := mkPayloadParser {
  mp_config : ModeConfig;
  mp_const_dur_probation : option ConstantDurationProbation;
  mp_constant_duration : option Z;
}.

#[export] Instance PayloadParser_rebuild : Rebuild PayloadParser := {|
  rebuild := fun r => mkPayloadParser (mp_config r) (mp_const_dur_probation r) (mp_constant_duration r) |}.

Definition PayloadParser_default : PayloadParser := mkPayloadParser ModeConfig_default None None.

Definition PayloadParser_reset (self : PayloadParser) : PayloadParser :=
  self <| mp_constant_duration := constant_duration (mp_config self) |> <| mp_const_dur_probation := None |>.

Definition PayloadParser_set_config (config : ModeConfig) (self : PayloadParser) : PayloadParser :=
  PayloadParser_reset (self <| mp_config := config |>).

Section Parser.
Context `{BitVarIO}.

(** The units of a payload; the parser is the one it borrows. *)
Record AccessUnitIter := mkAccessUnitIter {
  it_parser : PayloadParser;
  it_ext_seqnum : Z;
  it_packet_ts : wrapping_u32;
  it_prev_index : option wrapping_u32;
  it_headers_r : option BitReader;
  it_headers_len : Z;
  it_data : list Z;
  it_cur : Z;
}.

#[export] Instance AccessUnitIter_rebuild : Rebuild AccessUnitIter := {|
  rebuild := fun r => mkAccessUnitIter (it_parser r) (it_ext_seqnum r) (it_packet_ts r) (it_prev_index r) (it_headers_r r)
    (it_headers_len r) (it_data r) (it_cur r) |}.

(** [n.div_ceil(8)] *)
Definition div_ceil8 (n : Z) : Z := (n + 7) / 8.

(** The header section: its length in bits, its bytes, and what follows it. *)
Definition parse_header_section (self : PayloadParser) (payload : list Z) (ext_seqnum : Z)
  : res (Z * option (list Z) * Z * list Z + Mpeg4GenericDepayError) :=
  if has_header_section (mp_config self) then
    match byte_read_u16 payload with
    | None => Ok (inr AuHeaderFailed)
    | Some (headers_len, r) =>
        let headers_len_bytes := div_ceil8 headers_len in
        let data_offset := 2 + headers_len_bytes in
        if data_offset >? Z.of_nat (length payload) then Ok (inr (AuHeaderSectionTooLarge data_offset (Z.of_nat (length payload))))
        else
          r ← unwrap (byte_skip headers_len_bytes r);
          Ok (inl (headers_len, Some (take (Z.to_nat headers_len_bytes) (drop 2 payload)), data_offset, r))
    end
  else if is_none (mp_constant_duration self) then Ok (inr (NonConstantDurationNoAuHeaders ext_seqnum))
  else Ok (inl (0, None, 0, payload)).

(** The auxiliary section, which is skipped. *)
Definition parse_auxiliary_section (self : PayloadParser) (payload : list Z) (data_offset : Z) (r : list Z)
  : Z + Mpeg4GenericDepayError :=
  if has_auxiliary_section (mp_config self) then
    match byte_read_u16 r with
    | None => inr AuHeaderFailed
    | Some (aux_len, _) =>
        let data_offset := data_offset + 2 + div_ceil8 aux_len in
        if data_offset >? Z.of_nat (length payload) then inr (AuAuxiliarySectionTooLarge data_offset (Z.of_nat (length payload)))
        else inl data_offset
    end
  else inl data_offset.

Definition PayloadParser_parse (self : PayloadParser) (payload : list Z) (ext_seqnum : Z) (packet_ts : wrapping_u32)
  : res (AccessUnitIter + Mpeg4GenericDepayError) :=
  h ← parse_header_section self payload ext_seqnum;
  match h with
  | inr err => Ok (inr err)
  | inl (headers_len, headers, data_offset, r) =>
      match parse_auxiliary_section self payload data_offset r with
      | inr err => Ok (inr err)
      | inl data_offset =>
          if data_offset >=? Z.of_nat (length payload) then Ok (inr EmptyAuData)
          else Ok (inl (mkAccessUnitIter self ext_seqnum packet_ts None (reader_endian <$> headers) headers_len
                          (drop (Z.to_nat data_offset) payload) 0))
      end
  end.

Abbreviation IM := (M AccessUnitIter).

Definition on_parser (f : PayloadParser -> PayloadParser) : IM unit := upd_ (fun it => it <| it_parser ::= f |>).

(** The first header of a packet: whether the units have a constant duration. *)
Definition probe_duration (header : AuHeader) : IM (option Mpeg4GenericDepayError) :=
  it ← get_;
  let parser := it_parser it in
  if is_some (it_prev_index it) then mret None
  else if wrapping_is_zero (ah_index header) then
    if is_some (mp_constant_duration parser) then mret None
    else
      match mp_const_dur_probation parser with
      | Some cd_prob =>
          dur ← of_res (usize_div (w_val (wrapping_sub (it_packet_ts it) (cd_ts cd_prob))) (cd_frames cd_prob));
          _ ← on_parser (fun p => p <| mp_const_dur_probation := None |> <| mp_constant_duration := Some dur |>);
          mret None
      | None =>
          _ ← on_parser (fun p => p <| mp_const_dur_probation := Some (mkProbation (it_packet_ts it) 0) |>);
          mret None
      end
  else if is_some (mp_constant_duration parser) then
    mret (Some (ConstantDurationAuNonZeroIndex (ah_index header) (it_ext_seqnum it)))
  else
    _ ← on_parser (fun p => p <| mp_const_dur_probation := None |>);
    mret None.

(** The composition time and the duration of a unit with a header. *)
Definition unit_timing (header : AuHeader) : IM ((option Z * option Z) + Mpeg4GenericDepayError) :=
  it ← get_;
  let parser := it_parser it in
  match ah_cts_delta header with
  | Some delta => mret (inl (Some delta, None))
  | None =>
      match mp_constant_duration parser with
      | Some constant_duration =>
          cts ← of_res (uint_mul U32 (w_val (ah_index header)) constant_duration);
          mret (inl (Some (swrap U32 cts), Some constant_duration))
      | None =>
          if is_some (it_prev_index it) && is_none (mp_const_dur_probation parser) then
            mret (inr (NonConstantDurationAuNoCtsDelta (ah_index header) (it_ext_seqnum it)))
          else if is_none (it_prev_index it) then mret (inl (Some 0, None))
          else mret (inl (None, None))
      end
  end.

(** The next header with its times; [None] at the end of the units. *)
Definition next_header : IM (option ((AuHeader * option Z * option Z) + Mpeg4GenericDepayError)) :=
  it ← get_;
  match it_headers_r it with
  | Some r =>
      if wrap U16 (position_in_bits r) >=? it_headers_len it then mret None
      else
        let '(h, r) := AuHeader_from_reader (mp_config (it_parser it)) (it_prev_index it) r in
        _ ← upd_ (fun it => it <| it_headers_r := Some r |>);
        match h with
        | Crash => crash_
        | Fail => mret (Some (inr AuHeaderFailed))
        | Done header =>
            err ← probe_duration header;
            match err with
            | Some err => mret (Some (inr err))
            | None =>
                t ← unit_timing header;
                match t with
                | inr err => mret (Some (inr err))
                | inl (cts_delta, duration) =>
                    if is_none (ah_size header) && (mc_constant_size (mp_config (it_parser it)) =? 0)
                       && (wrap U16 (position_in_bits r) <? it_headers_len it) then
                      mret (Some (inr MultipleAusUnknownSize))
                    else if bool_decide (it_data it = []) then mret (Some (inr (NoMoreAuDataLeft (ah_index header))))
                    else
                      _ ← upd_ (fun it => it <| it_prev_index := Some (ah_index header) |>);
                      mret (Some (inl (header, cts_delta, duration)))
                end
            end
        end
  | None =>
      if bool_decide (it_data it = []) then mret None
      else
        constant_duration ← of_res (unwrap (mp_constant_duration (it_parser it)));
        cts ← of_res (uint_mul U32 (it_cur it) constant_duration);
        mret (Some (inl (AuHeader_new_with (it_cur it), Some (swrap U32 cts), Some constant_duration)))
  end.

(** The data of a unit, and whether it is a fragment. *)
Definition next_data (header : AuHeader) : IM ((bool * list Z) + Mpeg4GenericDepayError) :=
  it ← get_;
  let data := it_data it in
  let len := Z.of_nat (length data) in
  let constant_size := mc_constant_size (mp_config (it_parser it)) in
  let au_size := if constant_size >? 0 then constant_size else default len (ah_size header) in
  if au_size <=? len then
    _ ← upd_ (fun it => it <| it_data := drop (Z.to_nat au_size) data |>);
    mret (inl (false, take (Z.to_nat au_size) data))
  else if it_cur it >? 0 then mret (inr (MultipleAusGreaterSizeThanAuData au_size len))
  else
    _ ← upd_ (fun it => it <| it_data := [] |>);
    mret (inl (true, data)).

Definition next_priv : IM (option (AccessUnit + Mpeg4GenericDepayError)) :=
  h ← next_header;
  match h with
  | None => mret None
  | Some (inr err) => mret (Some (inr err))
  | Some (inl (header, cts_delta, duration)) =>
      d ← next_data header;
      match d with
      | inr err => mret (Some (inr err))
      | inl (is_fragment, data) =>
          it ← get_;
          cur ← of_res (uint_add U32 (it_cur it) 1);
          _ ← upd_ (fun it => it <| it_cur := cur |>);
          _ ← on_parser (fun p => p <| mp_const_dur_probation ::= fmap (fun cd => mkProbation (cd_ts cd) cur) |>);
          mret (Some (inl (mkAccessUnit (it_ext_seqnum it) is_fragment (ah_size header) (ah_index header) cts_delta
            (ah_dts_delta header) duration (ah_maybe_random_access header) (ah_is_interleaved header) data)))
      end
  end.

Definition AccessUnitIter_next : IM (option (AccessUnit + Mpeg4GenericDepayError)) :=
  res ← next_priv;
  match res with
  | Some (inr _) => _ ← on_parser PayloadParser_reset; mret res
  | _ => mret res
  end.
End Parser.

(** ** Fragments of a unit *)

(** [a.opt_ne(b).unwrap_or(false)] *)
Definition opt_ne (a b : option Z) : bool :=
  match a, b with Some a, Some b => negb (a =? b) | _, _ => false end.

Definition try_append (au self : AccessUnit) : AccessUnit + Mpeg4GenericDepayError :=
  if opt_ne (au_cts_delta self) (au_cts_delta au) then
    inr (FragmentedAuRtpTsMismatch (default 0 (au_cts_delta self)) (default 0 (au_cts_delta au)) (au_ext_seqnum au))
  else if opt_ne (au_dts_delta self) (au_dts_delta au) then
    inr (FragmentedAuDtsMismatch (default 0 (au_dts_delta self)) (default 0 (au_dts_delta au)) (au_ext_seqnum au))
  else
    inl (mkAccessUnit (au_ext_seqnum self) (au_is_fragment self) (au_size self) (au_index self) (au_cts_delta self)
           (au_dts_delta self) (au_duration self) (au_maybe_random_access self) (au_is_interleaved self) (au_data self ++ au_data au)).

Definition try_into_au (au : AccessUnit) : AccessUnit + Mpeg4GenericDepayError :=
  match au_size au with
  | Some expected =>
      if expected =? Z.of_nat (length (au_data au)) then inl au
      else inr (FragmentedAuSizeMismatch expected (Z.of_nat (length (au_data au))) (au_ext_seqnum au))
  | None => inl au
  end.

(** ** The depayloader *)

(** [Signed::<ClockTime>::from(delta as i64).mul_div_floor(num, denom)], and
    [i64::mul_div_ceil]. *)
Class GstSignedScale := {
  signed_mul_div_floor : Z -> Z -> Z -> option Signed;
  i64_mul_div_ceil : Z -> Z -> Z -> option Z;
}.

Section Depay.
Context `{Gst} `{GstSignedScale} `{BitVarIO} `{HexCodec} `{SlabOps} `{RtpBaseDepay2} `{!RtpBaseDepayRelation}.

Record Mp4gDepayState := mkMp4gDepayState {
  mg_parser : PayloadParser;
  mg_deint_buf : option DeinterleaveAuBuffer;
  mg_au_acc : option AccessUnit;
  mg_seqnum_base : option Z;
  mg_clock_rate : Z;
  mg_can_parse : bool;
  mg_max_au_index : option Z;
  mg_prev_au_index : option Z;
  mg_prev_rtptime : option Z;
  mg_last_au_index : option Z;
}.

#[export] Instance Mp4gDepayState_rebuild : Rebuild Mp4gDepayState := {|
  rebuild := fun r => mkMp4gDepayState (mg_parser r) (mg_deint_buf r) (mg_au_acc r) (mg_seqnum_base r) (mg_clock_rate r)
    (mg_can_parse r) (mg_max_au_index r) (mg_prev_au_index r) (mg_prev_rtptime r) (mg_last_au_index r) |}.

Definition Mp4gDepayState_default : Mp4gDepayState :=
  mkMp4gDepayState PayloadParser_default None None None 0 false None None None None.

Definition mp4g_state_flush (self : Mp4gDepayState) : Mp4gDepayState :=
  self <| mg_parser ::= PayloadParser_reset |> <| mg_deint_buf ::= fmap deint_flush |> <| mg_can_parse := false |>
    <| mg_max_au_index := None |> <| mg_prev_au_index := None |> <| mg_prev_rtptime := None |> <| mg_last_au_index := None |>.

Abbreviation GM := (M (Mp4gDepayState * RtpBase.BaseDepay)).

Definition on_mp4g (f : Mp4gDepayState -> Mp4gDepayState) : GM unit := upd_ (fun s => (f (fst s), snd s)).

Definition mp4g_depay_stop : GM unit := on_mp4g (fun _ => Mp4gDepayState_default).
Definition mp4g_depay_flush : GM unit := on_mp4g mp4g_state_flush.

Definition CodecData_from_caps (s : CapsStructure) : flow (option (list Z)) :=
  match get_optional_str s "config" with
  | Done (Some conf_str) => match hex_decode conf_str with Some data => Done (Some data) | None => Fail end
  | Done None => Done None
  | Fail => Fail
  | Crash => Crash
  end.

(** [s.get::<&str>(field).expect(..)] *)
Definition get_str (s : CapsStructure) (field : string) : res string :=
  match s !! field with Some (CapString v) => Ok v | _ => Panic end.

(** The media type and codec data of the source caps, and the new state; [None] where
    the caps are refused. *)
Definition mp4g_depay_set_sink_caps (s : CapsStructure) (state : Mp4gDepayState)
  : res (option (string * option (list Z)) * Mp4gDepayState) :=
  mode ← get_str s "mode";
  if String.prefix "CELP" mode then Ok (None, state)
  else
    media ← get_str s "media";
    _ ← assert_ (bool_decide (media = "audio"%string) || bool_decide (media = "video"%string));
    match ModeConfig_from_caps s with
    | inr _ => Ok (None, state)
    | inl mode_config =>
        match CodecData_from_caps s with
        | Crash => Panic
        | Fail => Ok (None, state)
        | Done codec_data =>
            clock_rate ← get_i32 s "clock-rate";
            _ ← assert_ (0 <? clock_rate);
            seqnum_base ← get_optional_u32 s "seqnum-base";
            let state := state <| mg_seqnum_base := seqnum_base |> <| mg_clock_rate := wrap U32 clock_rate |> in
            let state := match max_displacement mode_config with
                         | Some _ => state <| mg_deint_buf := Some DeinterleaveAuBuffer_new |>
                         | None => state
                         end in
            Ok (Some (media, codec_data), state <| mg_parser ::= PayloadParser_set_config mode_config |>)
        end
    end.

(** *** Buffers *)
Definition get_packet_to_buffer_relation (au : AccessUnit) (clock_rate : Z) (range : Z * Z) : res PacketToBufferRelation :=
  match au_cts_delta au, au_dts_delta au with
  | Some cts_delta, Some dts_delta =>
      pts_offset ← unwrap (signed_mul_div_floor cts_delta NS_PER_SEC clock_rate);
      dts_offset ← unwrap (signed_mul_div_floor dts_delta NS_PER_SEC clock_rate);
      Ok (SeqnumsWithOffset range (OffsetPtsAndDts pts_offset dts_offset))
  | Some cts_delta, None =>
      pts_offset ← unwrap (signed_mul_div_floor cts_delta NS_PER_SEC clock_rate);
      Ok (SeqnumsWithOffset range (OffsetPts pts_offset))
  | None, _ => Ok (Seqnums range)
  end.

Definition mp4g_new_buffer (au : AccessUnit) (clock_rate : Z) : UnitBuffer :=
  mkUnitBuffer (au_data au)
    (match au_duration au with Some duration => mul_div_floor U64 duration NS_PER_SEC clock_rate | None => None end)
    (bool_decide (au_maybe_random_access au = Some false)).

Definition finish_au (packet_ext_seqnum : option Z) (au : AccessUnit) : GM unit :=
  s ← get_;
  let clock_rate := mg_clock_rate (fst s) in
  let range := (au_ext_seqnum au, default (au_ext_seqnum au) packet_ext_seqnum) in
  relation ← of_res (get_packet_to_buffer_relation au clock_rate range);
  queue_relation_ relation (mp4g_new_buffer au clock_rate).

Fixpoint finish_aus (packet_ext_seqnum : option Z) (aus : list AccessUnit) : GM unit :=
  match aus with
  | [] => mret tt
  | au :: aus => _ ← finish_au packet_ext_seqnum au; finish_aus packet_ext_seqnum aus
  end.

Definition finish_buffer_or_list (packet_ext_seqnum : option Z) (aus : SingleAuOrList) : GM unit :=
  match aus with
  | SingleAu au => finish_au packet_ext_seqnum au
  | AuList aus => finish_aus packet_ext_seqnum aus
  end.

Definition finish_maybe (packet_ext_seqnum : option Z) (aus : option SingleAuOrList) : GM unit :=
  match aus with Some aus => finish_buffer_or_list packet_ext_seqnum aus | None => mret tt end.

Definition mp4g_depay_drain : GM unit :=
  s ← get_;
  match mg_deint_buf (fst s) with
  | Some deint_buf =>
      r ← of_res (deint_drain deint_buf);
      let '(aus, deint_buf) := r in
      _ ← on_mp4g (fun st => st <| mg_deint_buf := Some deint_buf |>);
      finish_maybe None aus
  | None => mret tt
  end.

(** *** Packets *)
Definition mp4g_check_initial_packet (packet : DepayPacket) : GM bool :=
  s ← get_;
  if mg_can_parse (fst s) then mret true
  else
    r ← of_res (initial_packet packet (mg_seqnum_base (fst s)) (is_some (mg_au_acc (fst s))));
    let '(go, seqnum_base, can_parse) := r in
    _ ← on_mp4g (fun st => st <| mg_seqnum_base := seqnum_base |> <| mg_can_parse := can_parse |>);
    mret go.

(** What a unit comes to: it is put out, kept, left out, or the packet is done with. *)
Inductive UnitFate := FateUnit (au : AccessUnit) | FateSkip | FateReturn.

(** The unit that is discarded resets the parser and drops the packets. *)
Definition discard_fragments (packet : DepayPacket) : GM UnitFate :=
  _ ← on_mp4g (fun st => st <| mg_au_acc := None |> <| mg_parser ::= PayloadParser_reset |>);
  _ ← drop_ (dp_ext_seqnum packet) true;
  mret FateReturn.

(** Fragments are put together. *)
Definition assemble (packet : DepayPacket) (au : AccessUnit) : GM UnitFate :=
  s ← get_;
  let au_acc := mg_au_acc (fst s) in
  if negb (dp_marker_bit packet) then
    if negb (au_is_fragment au) then mret FateSkip
    else
      match au_acc with
      | Some acc =>
          match try_append au acc with
          | inr _ => discard_fragments packet
          | inl acc => _ ← on_mp4g (fun st => st <| mg_au_acc := Some acc |>); mret FateReturn
          end
      | None => _ ← on_mp4g (fun st => st <| mg_au_acc := Some au |>); mret FateReturn
      end
  else
    _ ← on_mp4g (fun st => st <| mg_au_acc := None |>);
    match au_acc with
    | Some acc =>
        if au_is_fragment au then
          match try_append au acc with
          | inr _ => discard_fragments packet
          | inl acc =>
              match try_into_au acc with
              | inr _ => discard_fragments packet
              | inl au => mret (FateUnit au)
              end
          end
        else
          _ ← drop_ (au_ext_seqnum au) false;
          mret (FateUnit au)
    | None => mret (FateUnit au)
    end.

(** A unit goes to the output through the deinterleaving buffer, if there is one. *)
Definition output_unit (au : AccessUnit) (aus : option SingleAuOrList) : GM (option SingleAuOrList) :=
  s ← get_;
  match mg_deint_buf (fst s) with
  | Some deint_buf =>
      match push_and_pop au (deint_buf, aus) with
      | (Done _, (deint_buf, aus)) =>
          _ ← on_mp4g (fun st => st <| mg_deint_buf := Some deint_buf |>);
          mret aus
      | (_, _) => crash_
      end
  | None => mret (MaybeSingleAuOrList_push au aus)
  end.

(** The units of a packet; the output, or [None] where the packet is done with. An
    iterator that makes progress ends before the fuel does. *)
Fixpoint unit_loop (fuel : nat) (packet : DepayPacket) (it : AccessUnitIter) (aus : option SingleAuOrList)
  : GM (option (option SingleAuOrList)) :=
  match fuel with
  | O => crash_
  | S fuel =>
      let '(item, it) := AccessUnitIter_next it in
      _ ← on_mp4g (fun st => st <| mg_parser := it_parser it |>);
      match item with
      | Done None => mret (Some aus)
      | Done (Some (inr _)) => unit_loop fuel packet it aus
      | Done (Some (inl au)) =>
          fate ← assemble packet au;
          match fate with
          | FateReturn => mret None
          | FateSkip => unit_loop fuel packet it aus
          | FateUnit au => aus ← output_unit au aus; unit_loop fuel packet it aus
          end
      | _ => crash_
      end
  end.

Definition mp4g_depay_handle_packet (packet : DepayPacket) : GM unit :=
  go ← mp4g_check_initial_packet packet;
  if negb go then drop_ (dp_ext_seqnum packet) true
  else
    s ← get_;
    let payload := dp_payload packet in
    let packet_ts := wrapping_from_ext (dp_ext_timestamp packet) in
    p ← of_res (PayloadParser_parse (mg_parser (fst s)) payload (dp_ext_seqnum packet) packet_ts);
    match p with
    | inr _ =>
        _ ← on_mp4g (fun st => st <| mg_au_acc := None |>);
        drop_ (dp_ext_seqnum packet) true
    | inl it =>
        r ← unit_loop (S (8 * length payload)) packet it None;
        match r with
        | Some aus => finish_maybe (Some (dp_ext_seqnum packet)) aus
        | None => mret tt
        end
    end.
End Depay.
