(* ===== verification/Mp4gPay.v ===== *)
(** * The MPEG-4 generic payloader

    [mp4g/pay/imp.rs]: access units are collected and sent with their headers,
    several in a packet or one in several packets. *)

From S2P Require Import Prelude Utils Queues F64 Flow BitStream RtpBase DepayMeta BaseDepay AudioPay.
From S2P Require Import Mp4a Mp4gHeader Mp4gDeint Mp4gDepay.

Definition VOS_STARTCODE : Z := 432.
Definition HEADERS_LEN_SIZE : Z := 2.
Definition MIN_PACKET_LEN : Z := 12.

(** ** Settings and state *)
Inductive RtpMpeg4GenericPayAggregateMode := AggAuto | AggZeroLatency | AggAggregate.

#[export] Instance AggregateMode_eq_dec : EqDecision RtpMpeg4GenericPayAggregateMode.
Proof. solve_decision. Defined.

Record Mp4gPaySettings := mkMp4gPaySettings {
  ms_max_ptime : option Z;
  ms_aggregate_mode : RtpMpeg4GenericPayAggregateMode;
}.

Definition Mp4gPaySettings_default : Mp4gPaySettings := mkMp4gPaySettings None AggAuto.

(** The property in nanoseconds, [-1] for no limit; the new settings, and whether a
    latency message is posted. *)
Definition mp4g_set_max_ptime (v : Z) (settings : Mp4gPaySettings) : Mp4gPaySettings * bool :=
  let new_max_ptime := if v =? -1 then None else Some (wrap U64 v) in
  (mkMp4gPaySettings new_max_ptime (ms_aggregate_mode settings), bool_decide (ms_max_ptime settings <> new_max_ptime)).

(** A unit that waits. *)
Record PayAccessUnit := mkPayAccessUnit {
  pu_id : Z;
  pu_pts : option Z;
  pu_dts_delta : option Z;
  pu_duration : option Z;
  pu_maybe_random_access : option bool;
  pu_buffer : list Z;
}.

Definition pu_len (au : PayAccessUnit) : Z := Z.of_nat (length (pu_buffer au)).

Record Mp4gPayState := mkMp4gPayState {
  mt_mode : ModeConfig;
  mt_max_header_bit_len : Z;
  mt_min_mtu : Z;
  mt_pending_aus : list PayAccessUnit;
  mt_pending_size : Z;
  mt_pending_duration : option Z;
  mt_clock_rate : Z;
  mt_ptime : option Z;
  mt_max_ptime : option Z;
  mt_is_live : option bool;
}.

#[export] Instance Mp4gPayState_rebuild : Rebuild Mp4gPayState := {|
  rebuild := fun r => mkMp4gPayState (mt_mode r) (mt_max_header_bit_len r) (mt_min_mtu r) (mt_pending_aus r) (mt_pending_size r)
    (mt_pending_duration r) (mt_clock_rate r) (mt_ptime r) (mt_max_ptime r) (mt_is_live r) |}.

Definition Mp4gPayState_default : Mp4gPayState := mkMp4gPayState ModeConfig_default 0 0 [] 0 None 0 None None None.

Definition mp4g_pay_state_flush (self : Mp4gPayState) : Mp4gPayState :=
  self <| mt_pending_aus := [] |> <| mt_pending_size := 0 |> <| mt_pending_duration := None |>.

(** An input buffer: its data ([None] where mapping fails), its times and whether it is a delta unit. *)
Record Mp4gBuffer := mkMp4gBuffer {
  gb_data : option (list Z);
  gb_pts : option Z;
  gb_dts : option Z;
  gb_duration : option Z;
  gb_delta_unit : bool;
}.

(** ** Caps *)
Section Caps.
Context `{BitIO} `{HexCodec}.

Definition audio_mode (frame_len : Z) : ModeConfig := mkModeConfig 13 3 3 0 0 false 0 0 0 frame_len 0.
Definition video_mode : ModeConfig := mkModeConfig 16 3 3 16 16 true 0 0 0 0 0.

Definition mp4g_configure (mode : ModeConfig) (clock_rate : Z) (state : Mp4gPayState) : Mp4gPayState :=
  let max_header_bit_len := max_header_bit_len mode in
  state <| mt_max_header_bit_len := max_header_bit_len |>
    <| mt_min_mtu := MIN_PACKET_LEN + HEADERS_LEN_SIZE + div_ceil8 max_header_bit_len + 1 |>
    <| mt_mode := mode |> <| mt_clock_rate := clock_rate |>.

(** The clock rate, the mode and the fields of the source caps for audio. *)
Definition mp4g_audio_caps (s : CapsStructure) (codec_data : list Z) (builder : CapsStructure)
  : res (option (Z * ModeConfig * CapsStructure)) :=
  match fst (AudioSpecificConfig_from_reader (reader_endian codec_data)) with
  | Crash => Panic
  | Fail => Ok None
  | Done config =>
      if (asc_audio_object_type config =? 0) || (asc_audio_object_type config >? 6) then Ok None
      else
        match ProfileLevel_from_caps s with
        | None => Ok None
        | Some profile_level =>
            let mode := audio_mode (asc_frame_len config) in
            caps ← ModeConfig_add_to_caps mode
              (<["encoding-params" := CapInt (asc_channel_conf config)]>
              (<["profile-level-id" := CapUChar (pl_id profile_level)]>
              (<["level" := CapString (pl_level profile_level)]>
              (<["profile" := CapString (pl_profile profile_level)]>
              (<["clock-rate" := CapInt (swrap U32 (asc_sampling_freq config))]>
              (<["mode" := CapString "AAC-hbr"]>
              (<["streamtype" := CapString "5"]>
              (<["media" := CapString "audio"]> builder))))))))%string;
            match caps with
            | inl caps => Ok (Some (asc_sampling_freq config, mode, caps))
            | inr _ => Panic
            end
        end
  end.

Definition mp4g_video_caps (codec_data : list Z) (builder : CapsStructure) : res (option (Z * ModeConfig * CapsStructure)) :=
  match codec_data with
  | b0 :: b1 :: b2 :: b3 :: b4 :: _ =>
      let code := ((b0 * 256 + b1) * 256 + b2) * 256 + b3 in
      let profile := if code =? VOS_STARTCODE then b4 else 1 in
      caps ← ModeConfig_add_to_caps video_mode
        (<["profile-level-id" := CapInt profile]>
        (<["clock-rate" := CapInt 90000]>
        (<["mode" := CapString "generic"]>
        (<["streamtype" := CapString "4"]>
        (<["media" := CapString "video"]> builder)))))%string;
      match caps with
      | inl caps => Ok (Some (90000, video_mode, caps))
      | inr _ => Panic
      end
  | _ => Ok None
  end.

(** The name of the caps, their fields, and the codec data where there is one that can
    be mapped; the source caps and the new state, or [None] where the caps are refused. *)
Definition mp4g_pay_set_sink_caps (name : string) (s : CapsStructure) (codec_data : option (list Z)) (state : Mp4gPayState)
  : res (option CapsStructure * Mp4gPayState) :=
  match codec_data with
  | None => Ok (None, state)
  | Some codec_data =>
      let builder := (<["config" := CapString (hex_encode codec_data)]> (<["encoding-name" := CapString "MPEG4-GENERIC"]>
        (<["mpegversion" := CapInt 4]> ∅)))%string in
      r ← (if bool_decide (name = "audio/mpeg"%string) then mp4g_audio_caps s codec_data builder
           else if bool_decide (name = "video/mpeg"%string) then mp4g_video_caps codec_data builder
           else Panic);
      match r with
      | None => Ok (None, state)
      | Some (clock_rate, mode, caps) => Ok (Some caps, mp4g_configure mode clock_rate state)
      end
  end.
End Caps.

(** ** Sending *)
Inductive SendPacketMode := WhenReady | ForcePending.

(** What the code uses of the [option_operations] crate: the smaller of two options. *)
Class OptionMin := opt_min : option Z -> option Z -> option Z.

Section Pay.
Context `{GstTime} `{GstSignedScale} `{BitVarIO} `{OptionMin} `{RtpBasePay2} `{!RtpBasePayMore}.

Abbreviation GP := (M (Mp4gPayState * RtpBase.BasePay)).

Definition on_mp4g_pay (f : Mp4gPayState -> Mp4gPayState) : GP unit := upd_ (fun s => (f (fst s), snd s)).

(** The difference of two times in units of the clock rate; [None] where a time is
    unknown or the difference is too large. *)
Definition ct_delta_to_rtp (ct1 ct0 : option Z) (clock_rate : Z) : option Z :=
  match ct1, ct0 with
  | Some ct1, Some ct0 =>
      let delta := ct1 - ct0 in
      if (- I64 <=? delta) && (delta <? I64) then
        match i64_mul_div_ceil delta clock_rate NS_PER_SEC with
        | Some d => if (- (U32 / 2) <=? d) && (d <? U32 / 2) then Some d else None
        | None => None
        end
      else None
  | _, _ => None
  end.

Definition effective_aggregate_mode (settings : Mp4gPaySettings) (is_live : option bool) : RtpMpeg4GenericPayAggregateMode :=
  match ms_aggregate_mode settings with
  | AggAuto => match is_live with Some false => AggAggregate | _ => AggZeroLatency end
  | mode => mode
  end.

(** The bits of a header, by the counter. *)
Definition header_bit_len (config : ModeConfig) (prev_index : option wrapping_u32) (header : AuHeader) : res Z :=
  match AuHeader_to_writer config prev_index header counter_new with
  | (Done _, c) => Ok (wrap U16 (counter_written c))
  | _ => Panic
  end.

(** [x.to_be_bytes()] of a [u16]. *)
Definition be_u16 (x : Z) : list Z := [x / 256; x mod 256].

(** A fragment of a unit. *)
Definition send_fragment (max_payload_size : Z) (au : PayAccessUnit) (next_frag_offset : Z) : GP (Z * bool) :=
  s ← get_;
  let config := mt_mode (fst s) in
  let header := mkAuHeader (Some (wrap U32 (pu_len au))) wrapping_ZERO None (pu_dts_delta au) (pu_maybe_random_access au) false in
  match AuHeader_to_writer config None header writer_endian with
  | (Done _, w) =>
      let headers_buf := writer_bytes (writer_write 7 0 w) in
      header_bit_len ← of_res (header_bit_len config None header);
      left ← of_res (u64_sub (pu_len au) next_frag_offset);
      room ← of_res (u64_sub max_payload_size (div_ceil8 header_bit_len));
      let bytes_in_this_packet := Z.min left room in
      let end_ := next_frag_offset + bytes_in_this_packet in
      let is_final := end_ >=? pu_len au in
      let data := take (Z.to_nat bytes_in_this_packet) (drop (Z.to_nat next_frag_offset) (pu_buffer au)) in
      _ ← queue_ (mkPayPacket (pu_id au) (pu_id au) is_final (be_u16 header_bit_len ++ headers_buf ++ data));
      mret (end_, is_final)
  | (Fail, _) => fail_
  | (Crash, _) => crash_
  end.

(** Fragments until the last; each has data where there is room for it. *)
Fixpoint send_fragments (fuel : nat) (max_payload_size : Z) (au : PayAccessUnit) (next_frag_offset : Z) : GP unit :=
  match fuel with
  | O => crash_
  | S fuel =>
      r ← send_fragment max_payload_size au next_frag_offset;
      let '(next_frag_offset, is_final) := r in
      if (is_final : bool) then mret tt else send_fragments fuel max_payload_size au next_frag_offset
  end.

(** [a.opt_lt(b).unwrap_or(false)] *)
Definition opt_lt (a b : option Z) : bool := match a, b with Some a, Some b => a <? b | _, _ => false end.

(** [a.opt_add(b)] of clock times. *)
Definition opt_clock_add (a b : option Z) : res (option Z) :=
  match a, b with Some a, Some b => t ← clock_add a b; Ok (Some t) | _, _ => Ok None end.

Definition joint_ptime (settings : Mp4gPaySettings) (state : Mp4gPayState) : option Z :=
  opt_min (opt_min (ms_max_ptime settings) (mt_max_ptime state)) (mt_ptime state).

(** Whether the pending units are sent now. *)
Definition pending_ready (settings : Mp4gPaySettings) (send_mode : SendPacketMode) (max_payload_size : Z) (state : Mp4gPayState) : res bool :=
  let n_aus := Z.of_nat (length (mt_pending_aus state)) in
  avg_size ← usize_div (mt_pending_size state) n_aus;
  let avg_duration := (fun d => d / n_aus) <$> mt_pending_duration state in
  let agg_mode := effective_aggregate_mode settings (mt_is_live state) in
  if match send_mode with ForcePending => true | WhenReady => false end then Ok true
  else if bool_decide (agg_mode <> AggAggregate) then Ok true
  else if mt_pending_size state + avg_size + n_aus * (mt_max_header_bit_len state + 7) / 8 >? max_payload_size then Ok true
  else
    d ← opt_clock_add (mt_pending_duration state) avg_duration;
    Ok (opt_lt (joint_ptime settings state) d).

(** The packet under construction. *)
Record PacketAcc := mkPacketAcc {
  pk_end_id : Z;
  pk_writer : BitWriter;
  pk_headers_len : Z;
  pk_prev_index : option wrapping_u32;
  pk_previous_pts : option Z;
  pk_size : Z;
  pk_duration : Z;
  pk_data : list Z;
}.

(** The index of the next unit. *)
Definition next_unit_index (acc : PacketAcc) : wrapping_u32 :=
  match pk_prev_index acc with Some index => wrapping_add_u32 index 1 | None => wrapping_ZERO end.

(** Units are added while they fit. The header of a unit is written before it is known
    whether the unit fits. *)
Fixpoint fill_packet (max_payload_size : Z) (max_ptime : option Z) (aus : list PayAccessUnit) (acc : PacketAcc) : GP PacketAcc :=
  match aus with
  | [] => mret acc
  | front :: aus =>
      s ← get_;
      let state := fst s in
      let config := mt_mode state in
      let prev_index := pk_prev_index acc in
      let cts_delta := if is_none prev_index then None
                       else ct_delta_to_rtp (pu_pts front) (pk_previous_pts acc) (mt_clock_rate state) in
      let index := next_unit_index acc in
      let header := mkAuHeader (Some (wrap U32 (pu_len front))) index cts_delta (pu_dts_delta front) (pu_maybe_random_access front) false in
      match AuHeader_to_writer config prev_index header (pk_writer acc) with
      | (Done _, w) =>
          bits ← of_res (header_bit_len config prev_index header);
          headers_len ← of_res (uint_add U16 (pk_headers_len acc) bits);
          full ← of_res (if pk_size acc + div_ceil8 headers_len + pu_len front >? max_payload_size then Ok true
                         else if is_some prev_index then
                           total ← opt_clock_add (Some (pk_duration acc)) (pu_duration front);
                           Ok (opt_lt max_ptime total)
                         else Ok false);
          if (full : bool) then
            mret (mkPacketAcc (pk_end_id acc) w (pk_headers_len acc) prev_index (pu_pts front) (pk_size acc) (pk_duration acc) (pk_data acc))
          else
            total ← of_res (opt_clock_add (Some (pk_duration acc)) (pu_duration front));
            size ← of_res (u64_sub (mt_pending_size state) (pu_len front));
            _ ← on_mp4g_pay (fun st => st <| mt_pending_aus := aus |> <| mt_pending_size := size |>);
            fill_packet max_payload_size max_ptime aus
              (mkPacketAcc (pu_id front) w headers_len (Some index) (pu_pts front) (pk_size acc + pu_len front)
                 (default (pk_duration acc) total) (pk_data acc ++ pu_buffer front))
      | (Fail, _) => fail_
      | (Crash, _) => crash_
      end
  end.

(** One packet of whole units. *)
Definition send_units (settings : Mp4gPaySettings) (max_payload_size : Z) (front : PayAccessUnit) : GP unit :=
  s ← get_;
  acc ← fill_packet max_payload_size (joint_ptime settings (fst s)) (mt_pending_aus (fst s))
          (mkPacketAcc (pu_id front) writer_endian 0 None None 0 0 []);
  let headers_buf := writer_bytes (writer_write 7 0 (pk_writer acc)) in
  queue_ (mkPayPacket (pu_id front) (pk_end_id acc) true (be_u16 (pk_headers_len acc) ++ headers_buf ++ pk_data acc)).

(** Every round takes a unit off the queue where one fits in a packet. *)
Fixpoint send_loop (fuel : nat) (settings : Mp4gPaySettings) (send_mode : SendPacketMode) (max_payload_size : Z) : GP unit :=
  s ← get_;
  let state := fst s in
  match mt_pending_aus state with
  | [] => mret tt
  | front :: aus =>
      match fuel with
      | O => crash_
      | S fuel =>
          if pu_len front + div_ceil8 (mt_max_header_bit_len state) >? max_payload_size then
            _ ← on_mp4g_pay (fun st => st <| mt_pending_aus := aus |> <| mt_pending_size := saturating_sub (mt_pending_size state) (pu_len front) |>);
            _ ← send_fragments (S (length (pu_buffer front))) max_payload_size front 0;
            send_loop fuel settings send_mode max_payload_size
          else
            ready ← of_res (pending_ready settings send_mode max_payload_size state);
            if negb ready then mret tt
            else
              _ ← send_units settings max_payload_size front;
              send_loop fuel settings send_mode max_payload_size
      end
  end.

Definition finish_ : GP unit := fun s => let '(ret, base) := finish_pending_packets (snd s) in (ret, (fst s, base)).

Definition mp4g_send_packets (settings : Mp4gPaySettings) (send_mode : SendPacketMode) : GP unit :=
  s ← get_;
  if mtu (snd s) <? mt_min_mtu (fst s) then fail_
  else
    max_payload_size ← of_res (u64_sub (max_payload_size (snd s)) HEADERS_LEN_SIZE);
    _ ← send_loop (length (mt_pending_aus (fst s))) settings send_mode max_payload_size;
    match send_mode with
    | ForcePending => finish_
    | WhenReady => mret tt
    end.

(** ** The element *)

(** What upstream answers about being live; [None] where the query fails. *)
Definition ensure_upstream_liveness (settings : Mp4gPaySettings) (upstream : option bool) : GP unit :=
  on_mp4g_pay (fun st =>
    if bool_decide (ms_aggregate_mode settings <> AggAuto) || is_some (mt_is_live st) then st
    else st <| mt_is_live := Some (default false upstream) |>).

Definition mp4g_pay_handle_buffer (settings : Mp4gPaySettings) (upstream : option bool) (buffer : Mp4gBuffer) (id : Z) : GP unit :=
  s ← get_;
  let state := fst s in
  let maybe_random_access := if mc_random_access_indication (mt_mode state) then Some (negb (gb_delta_unit buffer)) else None in
  let dts_delta := ct_delta_to_rtp (gb_dts buffer) (gb_pts buffer) (mt_clock_rate state) in
  data ← of_option (gb_data buffer);
  let au := mkPayAccessUnit id (gb_pts buffer) dts_delta (gb_duration buffer) maybe_random_access data in
  size ← of_res (u64_add (mt_pending_size state) (Z.of_nat (length data)));
  duration ← of_res (match mt_pending_duration state, gb_duration buffer with
                     | Some d, Some d' => t ← clock_add d d'; Ok (Some t)
                     | d, _ => Ok d
                     end);
  _ ← on_mp4g_pay (fun st => st <| mt_pending_aus ::= fun l => l ++ [au] |> <| mt_pending_size := size |> <| mt_pending_duration := duration |>);
  _ ← ensure_upstream_liveness settings upstream;
  mp4g_send_packets settings WhenReady.

Definition mp4g_pay_drain (settings : Mp4gPaySettings) : GP unit := mp4g_send_packets settings ForcePending.
Definition mp4g_pay_flush : GP unit := on_mp4g_pay mp4g_pay_state_flush.
Definition mp4g_pay_start : GP unit := on_mp4g_pay (fun _ => Mp4gPayState_default).
Definition mp4g_pay_stop : GP unit := on_mp4g_pay (fun _ => Mp4gPayState_default).

(** [ptime] and [maxptime] of the caps in milliseconds. *)
Definition mp4g_pay_negotiate (ptime maxptime : option Z) (parent_negotiate : GP unit) : GP unit :=
  _ ← parent_negotiate;
  on_mp4g_pay (fun st => st <| mt_ptime := (fun t => t * 1000000) <$> ptime |> <| mt_max_ptime := (fun t => t * 1000000) <$> maxptime |>).

(** The latency query, given what the base class answered. *)
Definition mp4g_pay_latency (settings : Mp4gPaySettings) (is_live : bool) (min : Z) (max : option Z) (state : Mp4gPayState)
  : res (Z * option Z * Mp4gPayState) :=
  let state := state <| mt_is_live := Some is_live |> in
  match effective_aggregate_mode settings (mt_is_live state), ms_max_ptime settings with
  | AggAggregate, Some max_ptime =>
      min ← clock_add min max_ptime;
      max ← opt_clock_add max (Some max_ptime);
      Ok (min, max, state)
  | _, _ => Ok (min, max, state)
  end.
End Pay.
