(* ===== verification/Mp4gProps.v ===== *)
(** * MPEG-4 generic audio, sender to receiver

    Access units of AAC streams through the payloader and the depayloader, several
    in a packet or one in several packets; and what goes wrong elsewhere. *)

From S2P Require Import Prelude Utils Queues F64 Flow BitStream RtpBase DepayMeta BaseDepay.
From S2P Require Import BaseDepayRun AudioPay AudioPayProps Mp4a Mp4aProps Mp4gHeader Mp4gHeaderProps.
From S2P Require Import Mp4gDeint Mp4gDeintProps Mp4gDepay Mp4gPay.

(** ** Headers of the audio mode *)

(** The header of a unit of [size] bytes: 13 bits of size, and no index left out. *)
Definition unit_bits (size : Z) : list bool := bits_of 13 size ++ bits_of 3 0.

(** The index of the unit before, none before the first. *)
Definition prev_of (i : Z) : option wrapping_u32 := if i =? 0 then None else Some (Wrapping (i - 1)).

Lemma unit_bits_length size : length (unit_bits size) = 16%nat.
Proof. unfold unit_bits. by rewrite length_app, !bits_of_length. Qed.

Lemma unit_bits_bytes size : unit_bits size = bytes_bits (be_u16 (size * 8)).
Proof.
  unfold unit_bits, be_u16. rewrite <- (bits_of_pack 13 3 size 0) by (cbn; lia). change (2 ^ Z.of_nat 3) with 8. rewrite Z.add_0_r.
  rewrite (bits_of_app 8 8), Z.shiftr_div_pow2 by lia. change (2 ^ Z.of_nat 8) with 256.
  cbn [bytes_bits map concat]. unfold bytes_bits. cbn [map concat]. rewrite app_nil_r. f_equal. symmetry. apply (bits_of_mod 8).
Qed.

Lemma audio_header F i size c d ra il : 0 < size < 8192 -> 0 <= i < U32 ->
  header_ok (audio_mode F) (prev_of i) (mkAuHeader (Some size) (Wrapping i) c d ra il) /\
  au_header_bits (audio_mode F) (prev_of i) (mkAuHeader (Some size) (Wrapping i) c d ra il) = unit_bits size /\
  read_header (audio_mode F) (prev_of i) (mkAuHeader (Some size) (Wrapping i) c d ra il) = mkAuHeader (Some size) (Wrapping i) None None None false.
Proof.
  intros Hs Hi. unfold prev_of. destruct (Z.eqb_spec i 0) as [->|Hne].
  - split; [|done]. constructor; cbn; try lia; [by exists size|unfold field_ok; lia..].
  - assert (E : i - (i - 1) - 1 = 0) by lia. split; [|split].
    + constructor; cbn; try lia; [by exists size|unfold field_ok; lia..].
    + unfold au_header_bits, index_bits, au_size_bits, flag_bits, rap_bits. cbn [mc_size_len mc_index_delta_len audio_mode w_val ah_index mc_cts_delta_len mc_dts_delta_len mc_random_access_indication].
      rewrite E. done.
    + unfold read_header. cbn [audio_mode w_val ah_index mc_size_len mc_cts_delta_len mc_dts_delta_len mc_random_access_indication]. by rewrite E.
Qed.

(** ** Receiving *)

(** A receiver that is in an audio stream with units of [F] samples. *)
Record mp4g_receiving `{SlabOps} (F rate : Z) (st : Mp4gDepayState) : Prop := {
  gr_parser : mg_parser st = mkPayloadParser (audio_mode F) None (Some F);
  gr_deint : mg_deint_buf st = None;
  gr_can_parse : mg_can_parse st = true;
  gr_rate : mg_clock_rate st = rate;
}.

(** The units of a packet from index [i] on. *)
Definition unit_of (F sn i : Z) (frag : bool) (size : Z) (d : list Z) : AccessUnit :=
  mkAccessUnit sn frag (Some size) (Wrapping i) (Some (i * F)) None (Some F) None false d.

Section Units.
Context `{BitVarIO} `{!BitIOLaws} `{!BitVarLaws} (F : Z) (HF : 0 < F <= 1024).

Definition audio_iter (sn : Z) (ts : wrapping_u32) (i : Z) (r : BitReader) (hlen : Z) (data : list Z) : AccessUnitIter :=
  mkAccessUnitIter (mkPayloadParser (audio_mode F) None (Some F)) sn ts (prev_of i) (Some r) hlen data i.

Lemma next_header_audio sn ts i r hlen data size rest :
  unread r = unit_bits size ++ rest -> 0 <= position_in_bits r < hlen -> hlen < U16 -> 0 < size < 8192 -> data <> [] -> 0 <= i < 4096 ->
  exists r', unread r' = rest /\ position_in_bits r' = position_in_bits r + 16 /\
    next_header (audio_iter sn ts i r hlen data) =
      (Done (Some (inl (mkAuHeader (Some size) (Wrapping i) None None None false, Some (i * F), Some F))),
       (audio_iter sn ts i r hlen data) <| it_headers_r := Some r' |> <| it_prev_index := Some (Wrapping i) |>).
Proof using Type*.
  intros Hu Hp Hh Hs Hd Hi. destruct (audio_header F i size None None None false Hs ltac:(lia)) as (Hok & Hb & Hr).
  pose proof (header_reads (audio_mode F) (prev_of i) _ Hok) as HP. rewrite Hb, Hr in HP. destruct (HP r rest Hu) as (r' & E & Hu' & Hp').
  rewrite unit_bits_length in Hp'. exists r'. split; [done|]. split; [lia|].
  assert (Hcts : uint_mul U32 i F = Ok (i * F)) by (apply uint_mul_ok; split; [done|nia]).
  assert (Hsw : swrap U32 (i * F) = i * F) by (apply swrap_small; [lia|done|change (U32 / 2) with 2147483648; nia]).
  unfold next_header, mbind, M_bind, get_. cbn [fst snd audio_iter it_headers_r it_parser mp_config it_prev_index it_headers_len].
  unfold wrap. rewrite Z.mod_small by lia. rewrite Z.geb_leb, (proj2 (Z.leb_gt _ _)) by lia. rewrite E. unfold upd_. cbn [fst snd].
  assert (Hprobe : forall it, it_prev_index it = prev_of i -> it_parser it = mkPayloadParser (audio_mode F) None (Some F) ->
    probe_duration (mkAuHeader (Some size) (Wrapping i) None None None false) it = (Done None, it)).
  { intros it E1 E2. unfold probe_duration, mbind, M_bind, get_. cbn [fst snd]. rewrite E1, E2. unfold prev_of, wrapping_is_zero. cbn.
    by destruct (i =? 0). }
  rewrite Hprobe by done. cbn beta iota. unfold unit_timing, mbind, M_bind, get_ at 1. cbn [fst snd it_parser audio_iter ah_cts_delta mp_constant_duration ah_index w_val].
  cbn -[uint_mul swrap prev_of]. rewrite Hcts. cbn -[swrap prev_of]. rewrite Hsw, bool_decide_eq_false_2 by done. done.
Qed.

Lemma prev_of_next i : 0 <= i -> prev_of (i + 1) = Some (Wrapping i).
Proof using Type. intros Hi. unfold prev_of. rewrite (proj2 (Z.eqb_neq (i + 1) 0)) by lia. do 2 f_equal. lia. Qed.

(** A unit whose data is all there, or a fragment that is alone in its packet. *)
Lemma next_unit sn ts i r hlen data size rest :
  unread r = unit_bits size ++ rest -> 0 <= position_in_bits r < hlen -> hlen < U16 -> 0 < size < 8192 -> data <> [] -> 0 <= i < 4096 ->
  size <= Z.of_nat (length data) \/ i = 0 ->
  let frag := negb (size <=? Z.of_nat (length data)) in
  exists r', unread r' = rest /\ position_in_bits r' = position_in_bits r + 16 /\
    AccessUnitIter_next (audio_iter sn ts i r hlen data) =
      (Done (Some (inl (unit_of F sn i frag size (take (Z.to_nat size) data)))), audio_iter sn ts (i + 1) r' hlen (drop (Z.to_nat size) data)).
Proof using Type*.
  intros Hu Hp Hh Hs Hd Hi Hfit frag. destruct (next_header_audio sn ts i r hlen data size rest Hu Hp Hh Hs Hd Hi) as (r' & Hu' & Hp' & HK).
  exists r'. split; [done|]. split; [done|]. unfold AccessUnitIter_next, next_priv, mbind, M_bind. rewrite HK. cbn [fst snd].
  unfold next_data, mbind, M_bind, get_. cbn [fst snd ah_size]. cbn -[Z.leb uint_add prev_of Z.gtb take drop]. unfold unit_of, audio_iter. subst frag.
  assert (Hcur : uint_add U32 i 1 = Ok (i + 1)) by (apply uint_add_ok; split; [done|lia]).
  destruct (Z.leb_spec size (Z.of_nat (length data))) as [Hle|Hgt].
  - cbn -[uint_add prev_of take drop Z.leb]. rewrite (proj2 (Z.leb_le _ _) Hle). cbn -[uint_add prev_of take drop]. rewrite Hcur. cbn -[prev_of take drop]. by rewrite prev_of_next by lia.
  - destruct Hfit as [Hfit| ->]; [lia|]. cbn -[uint_add prev_of take drop Z.leb]. rewrite (proj2 (Z.leb_gt _ _) Hgt). cbn -[uint_add prev_of take drop]. change (uint_add U32 0 1) with (Ok 1). cbn -[prev_of take drop].
    by rewrite take_ge, drop_ge by lia.
Qed.

Lemma next_end sn ts i r hlen data : hlen <= position_in_bits r < U16 -> 0 <= hlen ->
  AccessUnitIter_next (audio_iter sn ts i r hlen data) = (Done None, audio_iter sn ts i r hlen data).
Proof using Type.
  intros Hp Hh. unfold AccessUnitIter_next, next_priv, next_header, mbind, M_bind, get_. cbn [fst snd audio_iter it_headers_r it_headers_len].
  unfold wrap. rewrite Z.mod_small by lia. by rewrite Z.geb_leb, (proj2 (Z.leb_le _ _)) by lia.
Qed.

(** The payload of units: the length of the headers in bits, the headers, the data. *)
Definition audio_payload (sizes : list Z) (data : list Z) : list Z :=
  be_u16 (16 * Z.of_nat (length sizes)) ++ concat (map (fun size => be_u16 (size * 8)) sizes) ++ data.

Lemma headers_length sizes : length (concat (map (fun size => be_u16 (size * 8)) sizes)) = (2 * length sizes)%nat.
Proof using Type. induction sizes as [|s sizes IH]; cbn; [done|]. rewrite IH. lia. Qed.

Lemma headers_bits sizes : bytes_bits (concat (map (fun size => be_u16 (size * 8)) sizes)) = concat (map unit_bits sizes).
Proof using Type.
  induction sizes as [|s sizes IH]; [done|]. cbn [map concat]. by rewrite bytes_bits_app, IH, unit_bits_bytes.
Qed.

Lemma be_u16_spec x l : 0 <= x < U16 -> byte_read_u16 (be_u16 x ++ l) = Some (x, l).
Proof using Type*.
  intros Hx. unfold be_u16. cbn [app]. pose proof (Z.div_mod x 256). pose proof (Z.mod_pos_bound x 256).
  rewrite byte_u16_spec; [do 2 f_equal; lia| |unfold is_u8; lia].
  split; [apply Z.div_pos; lia|apply Z.div_lt_upper_bound; lia].
Qed.

Lemma audio_parses sizes data sn ts : sizes <> [] -> 16 * Z.of_nat (length sizes) < U16 -> data <> [] ->
  exists r, unread r = concat (map unit_bits sizes) /\ position_in_bits r = 0 /\
    PayloadParser_parse (mkPayloadParser (audio_mode F) None (Some F)) (audio_payload sizes data) sn ts =
      Ok (inl (audio_iter sn ts 0 r (16 * Z.of_nat (length sizes)) data)).
Proof using Type*.
  intros Hne Hl Hd. set (n := Z.of_nat (length sizes)) in *. set (hs := concat (map (fun size => be_u16 (size * 8)) sizes)).
  assert (Hhs : Z.of_nat (length hs) = 2 * n) by (unfold hs; rewrite headers_length; lia).
  exists (reader_endian hs). split; [unfold hs; rewrite unread_endian; apply headers_bits|]. split; [apply position_start|].
  unfold PayloadParser_parse, parse_header_section, audio_payload. fold hs n. change (has_header_section (mp_config _)) with true. cbv beta iota.
  rewrite be_u16_spec by lia. assert (Hc : div_ceil8 (16 * n) = 2 * n) by (unfold div_ceil8; symmetry; apply (Z.div_unique _ _ _ 7); lia).
  cbv zeta. rewrite Hc, !length_app. change (length (be_u16 (16 * n))) with 2%nat.
  assert (0 < Z.of_nat (length data)) by (destruct data; [done|cbn; lia]).
  rewrite Z.gtb_ltb, (proj2 (Z.ltb_ge _ _)) by lia. rewrite byte_skip_spec by (rewrite length_app; lia). cbn [unwrap]. rewrite !bind_Ok.
  change (parse_auxiliary_section _ _ _ _) with (inl (A := Z) (B := Mpeg4GenericDepayError) (2 + 2 * n)). cbv beta iota.
  rewrite Z.geb_leb, (proj2 (Z.leb_gt _ _)) by lia. unfold audio_iter. do 3 f_equal.
  - cbn [fmap option_fmap option_map]. do 2 f_equal. change (drop 2 (be_u16 (16 * n) ++ hs ++ data)) with (hs ++ data).
    rewrite take_app_le, take_ge by lia. done.
  - replace (Z.to_nat (2 + 2 * n)) with (2 + length hs)%nat by lia. change (drop (2 + length hs) (be_u16 (16 * n) ++ hs ++ data)) with (drop (length hs) (hs ++ data)).
    by rewrite drop_app_length.
Qed.
End Units.

(** ** The depayloader on packets of units *)

(** Scaling of a time that is not negative. *)
Class SignedScaleLaws `{GstSignedScale} : Prop :=
  signed_scale_floor v num den : 0 <= v -> 0 <= num -> 0 < den -> v * num < U64 ->
    signed_mul_div_floor v num den = Some (Positive (v * num / den)).

(** A unit of audio as the parser makes it, or put together from fragments. *)
Definition plain_unit (F : Z) (u : AccessUnit) : Prop :=
  (exists c, au_cts_delta u = Some c /\ 0 <= c < 4294967296) /\ au_dts_delta u = None /\ au_duration u = Some F /\ au_maybe_random_access u = None.

(** The buffer of a unit, for the packets from its first to number [e]. *)
Definition unit_output (F rate e : Z) (u : AccessUnit) : PacketToBufferRelation * UnitBuffer :=
  (SeqnumsWithOffset (au_ext_seqnum u, e) (OffsetPts (Positive (default 0 (au_cts_delta u) * NS_PER_SEC / rate))),
   mkUnitBuffer (au_data u) (Some (F * NS_PER_SEC / rate)) false).

(** The units of one packet with this data. *)
Fixpoint units_from (F sn i : Z) (ds : list (list Z)) : list AccessUnit :=
  match ds with
  | [] => []
  | d :: ds => unit_of F sn i false (Z.of_nat (length d)) d :: units_from F sn (i + 1) ds
  end.

Lemma units_from_plain F sn ds : 0 < F <= 1024 -> forall i, 0 <= i -> i + Z.of_nat (length ds) <= 4096 -> Forall (plain_unit F) (units_from F sn i ds).
Proof.
  intros HF. induction ds as [|d ds IH]; intros i Hi Hl; cbn [units_from length] in *; constructor; [|apply IH; lia].
  split; [|done]. exists (i * F). split; [done|nia].
Qed.

Section Receive.
Context `{Gst} `{!GstLaws} `{GstSignedScale} `{!SignedScaleLaws} `{BitVarIO} `{!BitIOLaws} `{!BitVarLaws}.
Context `{HexCodec} `{SlabOps} `{RtpBaseDepay2} `{!RtpBaseDepayRelation} `{!CollectingRelation}.
Context (F rate : Z) (HF : 0 < F <= 1024) (Hrate : 0 < rate < U32).

Lemma finish_plain e u st b : mg_clock_rate st = rate -> plain_unit F u ->
  exists b', finish_au (Some e) u (st, b) = (Done tt, (st, b')) /\ units b' = units b ++ [unit_output F rate e u].
Proof using Type*.
  intros Hr ((c & Ec & Hc) & Ed & Edur & Era). unfold finish_au, mbind, M_bind, get_. cbn [fst snd]. rewrite Hr.
  unfold get_packet_to_buffer_relation, mp4g_new_buffer, unit_output. rewrite Ec, Ed, Edur, Era. cbn [default from_option id].
  rewrite signed_scale_floor by nia. cbn [unwrap]. rewrite bind_Ok. cbn [of_res].
  assert (Hd : mul_div_floor U64 F NS_PER_SEC rate = Some (F * NS_PER_SEC / rate)).
  { rewrite mul_div_floor_spec by lia. rewrite fits_small; [done|]. assert (F * NS_PER_SEC / rate <= F * NS_PER_SEC) by (apply Z.div_le_upper_bound; nia). lia. }
  rewrite Hd, bool_decide_eq_false_2 by done. unfold queue_relation_. cbn [fst snd].
  match goal with |- context [queue_relation ?rel ?buf b] => destruct (queue_units rel buf b) as (b' & -> & Hb) end. by exists b'.
Qed.

Lemma finish_all e us : Forall (plain_unit F) us -> forall st b, mg_clock_rate st = rate ->
  exists b', finish_aus (Some e) us (st, b) = (Done tt, (st, b')) /\ units b' = units b ++ map (unit_output F rate e) us.
Proof using Type*.
  induction 1 as [|u us Hu _ IH]; intros st b Hr; cbn [finish_aus map].
  { exists b. by rewrite app_nil_r. }
  destruct (finish_plain e u st b Hr Hu) as (b1 & E1 & U1). destruct (IH st b1 Hr) as (b2 & E2 & U2).
  exists b2. unfold mbind, M_bind. rewrite E1, E2. split; [done|]. by rewrite U2, U1, <- app_assoc.
Qed.

Lemma finish_maybe_all e o st b us : out_list o = us -> Forall (plain_unit F) us -> mg_clock_rate st = rate ->
  exists b', finish_maybe (Some e) o (st, b) = (Done tt, (st, b')) /\ units b' = units b ++ map (unit_output F rate e) us.
Proof using Type*.
  intros <- Hp Hr. destruct o as [[u|l]|]; cbn [out_list finish_maybe finish_buffer_or_list] in *.
  - apply Forall_cons in Hp as [Hu _]. by apply finish_plain.
  - by apply finish_all.
  - exists b. by rewrite app_nil_r.
Qed.

(** Writing back what is there. *)
Lemma receiving_same st p a : mg_parser st = p -> mg_au_acc st = a -> st <| mg_parser := p |> = st /\ st <| mg_au_acc := a |> = st.
Proof using Type. intros <- <-. by destruct st. Qed.

Lemma units_loop sn ts packet st b : mp4g_receiving F rate st -> mg_au_acc st = None -> dp_marker_bit packet = true ->
  forall ds fuel i r aus hlen, unread r = concat (map unit_bits (map (fun d => Z.of_nat (length d)) ds)) ->
  0 <= position_in_bits r -> position_in_bits r + 16 * Z.of_nat (length ds) = hlen -> hlen < U16 ->
  Forall (fun d => 0 < Z.of_nat (length d) < 8192) ds -> 0 <= i -> i + Z.of_nat (length ds) <= 4096 -> (length ds < fuel)%nat ->
  exists aus', unit_loop fuel packet (audio_iter F sn ts i r hlen (concat ds)) aus (st, b) = (Done (Some aus'), (st, b)) /\
    out_list aus' = out_list aus ++ units_from F sn i ds.
Proof using Type*.
  intros [Hp Hdei Hcp Hr] Ha Hm. destruct (receiving_same st _ _ Hp Ha) as [Sp Sa].
  induction ds as [|d ds IH]; intros fuel i r aus hlen Hu Hp0 Hp1 Hh Hds Hi Hl Hf; (destruct fuel as [|fuel]; [cbn in Hf; lia|]); cbn [unit_loop].
  - cbn [length] in *. rewrite next_end by lia. unfold mbind, M_bind, on_mp4g, upd_. cbn [fst snd audio_iter it_parser]. rewrite Sp.
    exists aus. split; [done|]. cbn. by rewrite app_nil_r.
  - apply Forall_cons in Hds as [Hd Hds]. cbn [map concat length] in *.
    destruct (next_unit F HF sn ts i r hlen (d ++ concat ds) (Z.of_nat (length d)) _ Hu) as (r' & Hu' & Hp' & HK);
      [lia|done|lia|destruct d; [cbn in Hd; lia|done]|lia|left; rewrite length_app; lia|].
    rewrite HK. unfold mbind, M_bind, on_mp4g at 1, upd_. cbn [fst snd audio_iter it_parser]. rewrite Sp.
    rewrite length_app, (proj2 (Z.leb_le _ _)) by lia. cbn [negb]. rewrite Nat2Z.id, take_app_length, drop_app_length.
    unfold assemble, mbind, M_bind, get_. cbn [fst snd]. rewrite Hm. cbn [negb]. unfold on_mp4g, upd_. cbn [fst snd]. rewrite Ha, Sa. cbn [fst snd mret M_ret].
    unfold output_unit, mbind, M_bind, get_. cbn [fst snd]. rewrite Hdei. cbn [mret M_ret].
    destruct (IH fuel (i + 1) r' (MaybeSingleAuOrList_push (unit_of F sn i false (Z.of_nat (length d)) d) aus) hlen Hu') as (aus' & -> & Ho); try done; try lia.
    exists aus'. split; [done|]. rewrite Ho, out_list_push, <- app_assoc. done.
Qed.

(** A packet of whole units. *)
Lemma units_received ts sn ds st b : mp4g_receiving F rate st -> mg_au_acc st = None -> ds <> [] ->
  Forall (fun d => 0 < Z.of_nat (length d) < 8192) ds -> Z.of_nat (length ds) < 4096 ->
  exists b', mp4g_depay_handle_packet (mkDepayPacket (audio_payload (map (fun d => Z.of_nat (length d)) ds) (concat ds)) ts sn true) (st, b) =
      (Done tt, (st, b')) /\ units b' = units b ++ map (unit_output F rate sn) (units_from F sn 0 ds).
Proof using Type*.
  intros Hrx Ha Hne Hds Hl. pose proof Hrx as [Hp _ Hcp Hr]. set (sizes := map (fun d => Z.of_nat (length d)) ds).
  assert (Hls : length sizes = length ds) by (unfold sizes; by rewrite length_map). unfold mp4g_depay_handle_packet, mp4g_check_initial_packet, mbind, M_bind, get_.
  cbn [fst snd]. rewrite Hcp. cbn [mret M_ret negb fst snd dp_payload dp_ext_seqnum dp_ext_timestamp]. rewrite Hp.
  destruct (audio_parses F HF sizes (concat ds) sn (wrapping_from_ext ts)) as (r & Hu & Hp0 & ->).
  { by destruct ds. }
  { lia. }
  { destruct ds as [|[|x d] ds]; [done| |done]. apply Forall_cons in Hds as [Hd _]. cbn in Hd. lia. }
  cbn [of_res]. set (payload := audio_payload sizes (concat ds)).
  destruct (units_loop sn (wrapping_from_ext ts) (mkDepayPacket payload ts sn true) st b Hrx Ha eq_refl ds (S (8 * length payload)) 0 r None
    (16 * Z.of_nat (length sizes)) Hu) as (aus' & -> & Ho); [lia|lia|lia|done|lia|lia| |].
  { unfold payload, audio_payload. rewrite !length_app, headers_length. lia. }
  apply finish_maybe_all; [exact Ho|apply units_from_plain; [done|lia|lia]|done].
Qed.

(** ** Fragments *)
Lemma one_fragment ts sn size f st b marker : mp4g_receiving F rate st -> f <> [] -> Z.of_nat (length f) < size < 8192 ->
  exists r, mp4g_depay_handle_packet (mkDepayPacket (audio_payload [size] f) ts sn marker) (st, b) =
    (r ← (fate ← assemble (mkDepayPacket (audio_payload [size] f) ts sn marker) (unit_of F sn 0 true size f);
          match fate with
          | FateReturn => mret None
          | FateSkip => unit_loop (8 * length (audio_payload [size] f)) (mkDepayPacket (audio_payload [size] f) ts sn marker)
              (audio_iter F sn (wrapping_from_ext ts) 1 r 16 []) None
          | FateUnit au => aus ← output_unit au None;
              unit_loop (8 * length (audio_payload [size] f)) (mkDepayPacket (audio_payload [size] f) ts sn marker)
                (audio_iter F sn (wrapping_from_ext ts) 1 r 16 []) aus
          end);
     match r with
     | Some aus => finish_maybe (Some sn) aus
     | None => mret tt
     end) (st, b) /\ position_in_bits r = 16.
Proof using Type*.
  intros [Hp Hdei Hcp Hr] Hf Hs. unfold mp4g_depay_handle_packet, mp4g_check_initial_packet, mbind, M_bind, get_.
  cbn [fst snd]. rewrite Hcp. cbn [mret M_ret negb fst snd dp_payload dp_ext_seqnum dp_ext_timestamp]. rewrite Hp.
  destruct (audio_parses F HF [size] f sn (wrapping_from_ext ts)) as (r & Hu & Hp0 & ->); [done|cbn; lia|done|]. cbn [of_res unit_loop].
  set (payload := audio_payload [size] f). cbn [map concat] in Hu.
  destruct (next_unit F HF sn (wrapping_from_ext ts) 0 r (16 * Z.of_nat 1) f size [] Hu) as (r' & Hu' & Hp' & HK);
    [cbn; lia|cbn; lia|lia|done|lia|by right|].
  change (16 * Z.of_nat (length [size])) with (16 * Z.of_nat 1). rewrite HK. unfold mbind, M_bind, on_mp4g at 1, upd_ at 1. cbn [fst snd audio_iter it_parser].
  assert (Sp : st <| mg_parser := mkPayloadParser (audio_mode F) None (Some F) |> = st) by (rewrite <- Hp; by destruct st). rewrite Sp.
  rewrite (proj2 (Z.leb_gt _ _)) by lia. cbn [negb]. rewrite take_ge, drop_ge by lia. exists r'. split; [done|lia].
Qed.

(** The state while fragments of a unit arrive. *)
Definition with_fragment (start size : Z) (acc : list Z) (st : Mp4gDepayState) : Mp4gDepayState :=
  st <| mg_au_acc := match acc with [] => None | _ => Some (unit_of F start 0 true size acc) end |>.

Lemma with_fragment_receiving start size acc st : mp4g_receiving F rate st -> mp4g_receiving F rate (with_fragment start size acc st).
Proof using Type. by intros [? ? ? ?]. Qed.

Lemma fragment_kept ts start sn size acc f st b : mp4g_receiving F rate st -> f <> [] -> Z.of_nat (length f) < size < 8192 ->
  (acc = [] -> sn = start) ->
  mp4g_depay_handle_packet (mkDepayPacket (audio_payload [size] f) ts sn false) (with_fragment start size acc st, b) =
    (Done tt, (with_fragment start size (acc ++ f) st, b)).
Proof using Type*.
  intros Hrx Hf Hs Hsn. destruct (one_fragment ts sn size f (with_fragment start size acc st) b false (with_fragment_receiving _ _ _ _ Hrx) Hf Hs) as (r & -> & _).
  unfold assemble, mbind, M_bind, get_. cbn [fst snd dp_marker_bit negb]. cbn [au_is_fragment unit_of negb].
  destruct acc as [|x acc]; unfold with_fragment; cbn [mg_au_acc].
  - rewrite Hsn by done. destruct f as [|y f]; [done|]. by destruct st.
  - by destruct st.
Qed.

Lemma fragment_last ts start sn size acc f st b : mp4g_receiving F rate st -> mg_au_acc st = None -> f <> [] -> acc <> [] ->
  Z.of_nat (length (acc ++ f)) = size -> size < 8192 ->
  exists b', mp4g_depay_handle_packet (mkDepayPacket (audio_payload [size] f) ts sn true) (with_fragment start size acc st, b) = (Done tt, (st, b')) /\
    units b' = units b ++ [unit_output F rate sn (unit_of F start 0 true size (acc ++ f))].
Proof using Type*.
  intros Hrx Ha Hf Hac Hlen Hs. rewrite length_app in Hlen. assert (0 < length acc)%nat by (destruct acc; [done|cbn; lia]).
  destruct (one_fragment ts sn size f (with_fragment start size acc st) b true (with_fragment_receiving _ _ _ _ Hrx) Hf ltac:(lia)) as (r & -> & Hp).
  unfold assemble, mbind, M_bind, get_. cbn [fst snd dp_marker_bit negb]. unfold on_mp4g, upd_. cbn [fst snd].
  assert (Hst : (with_fragment start size acc st) <| mg_au_acc := None |> = st) by (destruct st; cbn in Ha |- *; by subst). rewrite Hst.
  assert (Hacc : mg_au_acc (with_fragment start size acc st) = Some (unit_of F start 0 true size acc)) by (by destruct acc). rewrite Hacc.
  cbn [au_is_fragment unit_of]. fold (unit_of F sn 0 true size f) (unit_of F start 0 true size acc).
  assert (Hap : try_append (unit_of F sn 0 true size f) (unit_of F start 0 true size acc) = inl (unit_of F start 0 true size (acc ++ f))) by done.
  assert (Hin : try_into_au (unit_of F start 0 true size (acc ++ f)) = inl (unit_of F start 0 true size (acc ++ f))).
  { unfold try_into_au. cbn [au_size au_data unit_of]. rewrite length_app. by rewrite (proj2 (Z.eqb_eq _ _)) by lia. }
  rewrite Hap, Hin. cbn [mret M_ret]. unfold output_unit, mbind, M_bind, get_. cbn [fst snd]. pose proof Hrx as [Hpa Hdei _ Hr]. rewrite Hdei. cbn [mret M_ret].
  assert (Hlp : exists k, (8 * length (audio_payload [size] f))%nat = S k) by (unfold audio_payload; eexists; cbn [app be_u16 length map concat]; rewrite Nat.mul_comm; cbn; reflexivity).
  destruct Hlp as [k ->]. cbn [unit_loop]. rewrite next_end by lia. unfold mbind, M_bind, on_mp4g, upd_. cbn [fst snd audio_iter it_parser].
  rewrite <- Hpa. assert (Sp : st <| mg_parser := mg_parser st |> = st) by (by destruct st). rewrite Sp. cbn [mret M_ret].
  apply (finish_maybe_all sn _ st b [unit_of F start 0 true size (acc ++ f)]); [done| |done]. constructor; [|constructor]. split; [exists 0; split; [done|lia]|done].
Qed.
End Receive.

(** ** Sending *)

(** A payloader of audio with units of [F] samples. *)
Record mp4g_sending (F : Z) (st : Mp4gPayState) : Prop := {
  gs_mode : mt_mode st = audio_mode F;
  gs_bits : mt_max_header_bit_len st = 16;
  gs_mtu : mt_min_mtu st = 17;
  gs_size : mt_pending_size st = Z.of_nat (length (concat (map pu_buffer (mt_pending_aus st))));
  gs_duration : mt_pending_duration st = None;
}.

(** Configuring for audio makes such a payloader. *)
Lemma configured_sending F rate : mp4g_sending F (mp4g_configure (audio_mode F) rate Mp4gPayState_default).
Proof. by constructor. Qed.

Section Send.
Context `{GstTime} `{!ClockAddLaws} `{GstSignedScale} `{BitVarIO} `{!BitIOLaws} `{!BitVarLaws} `{OptionMin}.
Context `{RtpBasePay2} `{!RtpBasePayMore} (limit : Z) `{!AcceptingBase limit} `{!AcceptingMore limit} (F : Z).

(** A header written, and counted. *)
Lemma audio_header_written i size c d ra w : 0 < size < 8192 -> 0 <= i < U32 ->
  exists w', AuHeader_to_writer (audio_mode F) (prev_of i) (mkAuHeader (Some size) (Wrapping i) c d ra false) w = (Done tt, w') /\
    written w' = written w ++ unit_bits size.
Proof using Type*.
  intros Hs Hi. destruct (audio_header F i size c d ra false Hs Hi) as (Hok & Hb & _).
  destruct (header_writes (obs := written) _ _ _ Hok w I) as (w' & E & O). exists w'. by rewrite <- Hb.
Qed.

Lemma audio_header_counted i size c d ra : 0 < size < 8192 -> 0 <= i < U32 ->
  header_bit_len (audio_mode F) (prev_of i) (mkAuHeader (Some size) (Wrapping i) c d ra false) = Ok 16.
Proof using Type*.
  intros Hs Hi. destruct (audio_header F i size c d ra false Hs Hi) as (Hok & Hb & _). unfold header_bit_len.
  destruct (header_writes (obs := counter_written) (fits := room_count) (step := count_bits) _ _ _ Hok counter_new) as (w' & -> & O).
  { unfold room_count. rewrite counter_zero, Hb, unit_bits_length. lia. }
  by rewrite O, counter_zero, Hb; unfold count_bits; rewrite unit_bits_length.
Qed.

(** The headers with their padding, as bytes. *)
Lemma headers_padded w sizes : Forall (fun s => 0 < s < 8192) sizes -> written w = concat (map unit_bits sizes) ->
  writer_bytes (writer_write 7 0 w) = concat (map (fun size => be_u16 (size * 8)) sizes).
Proof using Type*.
  intros Hs Hw. apply (bytes_partial _ _ (bits_of 7 0)); [| |by rewrite bits_of_length; lia].
  - apply Forall_concat, Forall_map. eapply Forall_impl; [exact Hs|]. intros s Hsz. cbn beta in Hsz. unfold be_u16.
    pose proof (Z.mod_pos_bound (s * 8) 256). repeat constructor; unfold is_u8; try lia; [apply Z.div_pos; lia|apply Z.div_lt_upper_bound; lia].
  - rewrite written_write by (cbn; lia). by rewrite Hw, headers_bits.
Qed.

(** *** Fragments *)
Lemma fragments_sent st au max : mt_mode st = audio_mode F -> 0 < pu_len au < 8192 -> 2 < max -> max - 2 < pu_len au ->
  forall fuel off base, 0 <= off < pu_len au -> pu_len au - off < Z.of_nat fuel ->
  exists base' fs ms, send_fragments fuel max au off (st, base) = (Done tt, (st, base')) /\
    accepted base' = accepted base ++ zip_with (fun f m => mkPayPacket (pu_id au) (pu_id au) m (audio_payload [pu_len au] f)) fs ms /\
    concat fs = drop (Z.to_nat off) (pu_buffer au) /\ Forall (fun f => f <> [] /\ Z.of_nat (length f) <= max - 2) fs /\
    exists k, length fs = S k /\ ms = repeat false k ++ [true].
Proof using Type*.
  intros Hmode Hlen Hmax Hbig. unfold pu_len in *. set (len := Z.of_nat (length (pu_buffer au))) in *.
  induction fuel as [|fuel IH]; intros off base Hoff Hf; [lia|]. cbn [send_fragments]. unfold send_fragment, mbind, M_bind, get_. cbn [fst snd].
  rewrite Hmode. unfold pu_len. fold len. unfold wrap. rewrite Z.mod_small by lia.
  destruct (audio_header_written 0 len None (pu_dts_delta au) (pu_maybe_random_access au) writer_endian Hlen ltac:(lia)) as (w & HW & Hw).
  change (prev_of 0) with (@None wrapping_u32) in HW. unfold wrapping_ZERO. rewrite HW.
  pose proof (audio_header_counted 0 len None (pu_dts_delta au) (pu_maybe_random_access au) Hlen ltac:(lia)) as HC.
  change (prev_of 0) with (@None wrapping_u32) in HC. rewrite HC. cbn [of_res].
  rewrite (proj2 (u64_sub_ok len off _)) by (split; [reflexivity|lia]). cbn [of_res]. change (div_ceil8 16) with 2.
  rewrite (proj2 (u64_sub_ok max 2 _)) by (split; [reflexivity|lia]). cbn [of_res].
  rewrite (headers_padded w [len]); [|by constructor|by rewrite Hw, written_endian; cbn [map concat app]; rewrite app_nil_r].
  set (k := Z.min (len - off) (max - 2)). set (f := take (Z.to_nat k) (drop (Z.to_nat off) (pu_buffer au))).
  assert (Hk : 0 < k <= max - 2 /\ k <= len - off) by (subst k; lia).
  assert (Hfl : Z.of_nat (length f) = k) by (subst f; rewrite length_take, length_drop; fold len; lia).
  assert (Hpay : be_u16 16 ++ concat (map (fun size => be_u16 (size * 8)) [len]) ++ f = audio_payload [len] f) by done.
  rewrite Hpay. unfold queue_. cbn [fst snd].
  destruct (accepting_queue (mkPayPacket (pu_id au) (pu_id au) (off + k >=? len) (audio_payload [len] f)) base) as (b1 & -> & Hb1).
  cbn [mret M_ret]. assert (Hf0 : f <> [] /\ Z.of_nat (length f) <= max - 2) by (split; [intros E; rewrite E in Hfl; cbn in Hfl; lia|lia]).
  rewrite Z.geb_leb in *. destruct (Z.leb_spec len (off + k)) as [Hfin|Hmore].
  - exists b1, [f], [true]. split; [done|]. split; [done|]. split; [|split; [by constructor|exists 0%nat; done]].
    cbn. rewrite app_nil_r. subst f. apply take_ge. rewrite length_drop. fold len. lia.
  - destruct (IH (off + k) b1 ltac:(lia) ltac:(lia)) as (b2 & fs & ms & -> & Hb2 & Hc & Hall & j & Hj & ->).
    exists b2, (f :: fs), (false :: repeat false j ++ [true]). split; [done|]. split; [rewrite Hb2, Hb1, <- app_assoc; done|].
    split; [|split; [by constructor|exists (S j); cbn; by rewrite Hj]].
    cbn [concat]. rewrite Hc. subst f. rewrite <- (take_drop (Z.to_nat k) (drop (Z.to_nat off) (pu_buffer au))) at 2. rewrite drop_drop. do 2 f_equal. lia.
Qed.

(** *** Units in one packet *)
Definition unit_sizes (aus : list PayAccessUnit) : list Z := map pu_len aus.

Definition total_duration (aus : list PayAccessUnit) : Z := fold_right (fun au d => default 0 (pu_duration au) + d) 0 aus.

Lemma total_duration_nonneg aus : Forall (fun au => 0 <= default 0 (pu_duration au)) aus -> 0 <= total_duration aus.
Proof using Type. induction 1; cbn [total_duration fold_right]; [lia|]. fold (total_duration l). lia. Qed.

Lemma fill_all max mx aus : Forall (fun au => 0 < pu_len au < 8192 /\ 0 <= default 0 (pu_duration au)) aus ->
  forall st base acc sent, mx = None \/ (length sent + length aus <= 1)%nat -> mt_mode st = audio_mode F -> mt_pending_size st = Z.of_nat (length (concat (map pu_buffer aus))) ->
  let n := Z.of_nat (length sent) in
  pk_prev_index acc = prev_of n -> written (pk_writer acc) = concat (map unit_bits (unit_sizes sent)) -> pk_headers_len acc = 16 * n ->
  pk_data acc = concat (map pu_buffer sent) -> pk_size acc = Z.of_nat (length (pk_data acc)) ->
  16 * (n + Z.of_nat (length aus)) < U16 -> 2 * (n + Z.of_nat (length aus)) + Z.of_nat (length (concat (map pu_buffer (sent ++ aus)))) <= max ->
  0 <= pk_duration acc -> pk_duration acc + total_duration aus < U64 - 1 ->
  exists st' w e d, fill_packet max mx aus acc (st, base) =
    (Done (mkPacketAcc e w (16 * (n + Z.of_nat (length aus))) (prev_of (n + Z.of_nat (length aus))) d
       (Z.of_nat (length (concat (map pu_buffer (sent ++ aus))))) (pk_duration acc + total_duration aus) (concat (map pu_buffer (sent ++ aus)))), (st', base)) /\
    written w = concat (map unit_bits (unit_sizes (sent ++ aus))) /\
    st' = match aus with [] => st | _ => st <| mt_pending_aus := [] |> <| mt_pending_size := 0 |> end.
Proof using Type*.
  induction 1 as [|au aus [Hau Hdu] Hrest IH]; intros st base acc sent Hmx Hmode Hps n Hprev Hw Hhl Hdata Hsz Hn Hmax Hd0 Hd; cbn [fill_packet].
  - exists st, (pk_writer acc), (pk_end_id acc), (pk_previous_pts acc). cbn [length total_duration fold_right]. rewrite app_nil_r, !Z.add_0_r.
    split; [|done]. destruct acc. cbn in *. subst. done.
  - cbn [map concat length] in Hps. rewrite length_app in Hps. cbn [length] in Hn, Hmax. cbn [total_duration fold_right] in Hd. fold (total_duration aus) in Hd.
    rewrite map_app, concat_app, length_app in Hmax. cbn [map concat] in Hmax. rewrite length_app, <- Hdata in Hmax. fold (pu_len au) in *.
    assert (Hlen : Z.of_nat (length (pu_buffer au)) = pu_len au) by done.
    assert (Hprev' : next_unit_index acc = Wrapping n).
    { unfold next_unit_index. rewrite Hprev. unfold prev_of. destruct (Z.eqb_spec n 0) as [->|Hne]; [done|]. unfold wrapping_add_u32. cbn.
      f_equal. unfold wrap. rewrite Z.mod_small; lia. }
    unfold mbind, M_bind, get_. cbn [fst snd]. rewrite Hmode, Hprev, Hprev'. unfold wrap. rewrite Z.mod_small by lia.
    set (c := if is_none (prev_of n) then None else _).
    destruct (audio_header_written n (pu_len au) c (pu_dts_delta au) (pu_maybe_random_access au) (pk_writer acc) Hau ltac:(lia)) as (w & -> & Hw1).
    rewrite (audio_header_counted n (pu_len au) c) by lia. cbn [of_res].
    rewrite (proj2 (uint_add_ok U16 (pk_headers_len acc) 16 _)) by (split; [reflexivity|lia]). cbn [of_res]. rewrite Hhl.
    assert (Hc8 : div_ceil8 (16 * n + 16) = 2 * n + 2) by (unfold div_ceil8; symmetry; apply (Z.div_unique _ _ _ 7); lia).
    rewrite Hc8, Z.gtb_ltb, (proj2 (Z.ltb_ge _ _)) by lia.
    assert (Hadd : exists t, opt_clock_add (Some (pk_duration acc)) (pu_duration au) = Ok t /\ default (pk_duration acc) t = pk_duration acc + default 0 (pu_duration au)).
    { unfold opt_clock_add. destruct (pu_duration au) as [du|]; cbn [default from_option id] in *; [|exists None; cbn; split; [done|lia]].
      pose proof (total_duration_nonneg aus ltac:(eapply Forall_impl; [exact Hrest|]; by intros ? [])). rewrite clock_add_exact by lia. rewrite bind_Ok. by eexists. }
    destruct Hadd as (t & Et & Ht).
    rewrite !Et. cbn [res_bind].
    assert (Hif : (if is_some (prev_of n) then Ok (opt_lt mx t) else Ok false) = Ok false).
    { unfold prev_of. destruct (Z.eqb_spec n 0) as [E|E]; [done|]. cbn. destruct Hmx as [-> |Hmx]; [done|]. cbn in Hmx. lia. }
    rewrite Hif. cbn [of_res].
    rewrite (proj2 (u64_sub_ok _ _ _)) by (split; [reflexivity|lia]). cbn [of_res]. unfold on_mp4g_pay, upd_. cbn [fst snd].
    assert (Hdone : Z.of_nat (length (sent ++ [au])) = n + 1) by (rewrite length_app; cbn; lia).
    destruct (IH (st <| mt_pending_aus := aus |> <| mt_pending_size := mt_pending_size st - pu_len au |>) base
      (mkPacketAcc (pu_id au) w (16 * n + 16) (Some (Wrapping n)) (pu_pts au) (pk_size acc + pu_len au) (default (pk_duration acc) t) (pk_data acc ++ pu_buffer au))
      (sent ++ [au])) as (st' & w' & e & d & HK & Hw' & Hst); cbn [pk_prev_index pk_writer pk_headers_len pk_data pk_size pk_duration mt_mode mt_pending_size].
    + destruct Hmx as [->|Hmx]; [by left|right]. rewrite length_app. cbn in *. lia.
    + done.
    + cbn. lia.
    + rewrite Hdone. by rewrite prev_of_next by lia.
    + rewrite Hw1, Hw. unfold unit_sizes. rewrite map_app, map_app, concat_app. cbn [map concat]. by rewrite app_nil_r.
    + rewrite Hdone. lia.
    + rewrite Hdata, map_app, concat_app. cbn. by rewrite app_nil_r.
    + rewrite length_app. lia.
    + rewrite Hdone. lia.
    + rewrite Hdone, <- app_assoc, map_app, concat_app, length_app. cbn [app map concat]. rewrite length_app, <- Hdata. lia.
    + lia.
    + lia.
    + rewrite Hdone, <- app_assoc in HK. cbn [app] in HK. rewrite <- app_assoc in Hw'. cbn [app] in Hw'.
      cbn [pk_duration] in HK. rewrite Ht in HK. exists st', w', e, d. cbn [length total_duration fold_right]. fold (total_duration aus).
      replace (n + Z.of_nat (S (length aus))) with (n + 1 + Z.of_nat (length aus)) by lia. rewrite Z.add_assoc, Ht. split; [exact HK|]. split; [done|].
      rewrite Hst. destruct aus; [|done]. cbn [map concat length] in Hps. by replace (mt_pending_size st - pu_len au) with 0 by (unfold pu_len; lia).
Qed.

(** A packet of all pending units. *)
Lemma units_sent settings max st base front aus : mt_mode st = audio_mode F -> mt_pending_aus st = front :: aus ->
  mt_pending_size st = Z.of_nat (length (concat (map pu_buffer (front :: aus)))) ->
  joint_ptime settings st = None \/ aus = [] ->
  Forall (fun au => 0 < pu_len au < 8192 /\ 0 <= default 0 (pu_duration au)) (front :: aus) -> total_duration (front :: aus) < U64 - 1 ->
  16 * Z.of_nat (length (front :: aus)) < U16 -> 2 * Z.of_nat (length (front :: aus)) + Z.of_nat (length (concat (map pu_buffer (front :: aus)))) <= max ->
  exists base' e, send_units settings max front (st, base) = (Done tt, (st <| mt_pending_aus := [] |> <| mt_pending_size := 0 |>, base')) /\
    accepted base' = accepted base ++
      [mkPayPacket (pu_id front) e true (audio_payload (unit_sizes (front :: aus)) (concat (map pu_buffer (front :: aus))))].
Proof using Type*.
  intros Hmode Hpend Hsz Hpt Hall Hdur Hn Hmax. unfold send_units, mbind, M_bind, get_. cbn [fst snd]. rewrite Hpend.
  destruct (fill_all max (joint_ptime settings st) (front :: aus) Hall st base (mkPacketAcc (pu_id front) writer_endian 0 None None 0 0 []) [])
    as (st' & w & e & d & -> & Hw & ->); try done.
  { destruct Hpt as [->| ->]; [by left|by right]. }
  { cbn [pk_writer]. by rewrite written_endian. }
  cbn [pk_writer pk_headers_len pk_data pk_end_id app] in *. rewrite (headers_padded w (unit_sizes (front :: aus))); [|apply Forall_map; eapply Forall_impl; [exact Hall|]; by intros ? []|done].
  unfold queue_. cbn [fst snd]. change (Z.of_nat (@length PayAccessUnit [])) with 0. rewrite Z.add_0_l.
  assert (Hl : Z.of_nat (length (front :: aus)) = Z.of_nat (length (unit_sizes (front :: aus)))) by (unfold unit_sizes; by rewrite length_map).
  rewrite Hl. fold (audio_payload (unit_sizes (front :: aus)) (concat (map pu_buffer (front :: aus)))).
  match goal with |- context [queue_packet ?p base] => destruct (accepting_queue p base) as (base' & -> & Hb) end. by exists base', e.
Qed.

(** The fragments of a unit, or the whole of it: so many packets, the last one marked. *)
Definition unit_packets (au : PayAccessUnit) (fs : list (list Z)) (ps : list PayPacket) : Prop :=
  exists k e, length fs = S k /\ concat fs = pu_buffer au /\ Forall (fun f => f <> [] /\ (k <> 0%nat -> Z.of_nat (length f) < pu_len au)) fs /\
    ps = zip_with (fun f m => mkPayPacket (pu_id au) e m (audio_payload [pu_len au] f)) fs (repeat false k ++ [true]) /\
    Forall (fun p => Z.of_nat (length (pp_payload p)) <= limit) ps.

Lemma Forall_zipped {A B C} (P : A -> Prop) (Q : C -> Prop) (f : A -> B -> C) l k :
  Forall P l -> (forall x y, P x -> Q (f x y)) -> Forall Q (zip_with f l k).
Proof using Type. intros Hl Hf. revert k. induction Hl as [|x l Hx _ IH]; intros [|y k]; cbn; constructor; auto. Qed.

(** One unit that is sent at once. *)
Lemma one_unit_sent settings st base au : mp4g_sending F st -> mt_pending_aus st = [au] -> 0 < pu_len au < 8192 -> 0 <= default 0 (pu_duration au) < U64 - 1 ->
  4 < limit -> 17 <= mtu base -> effective_aggregate_mode settings (mt_is_live st) <> AggAggregate ->
  exists base' fs ps, mp4g_send_packets settings WhenReady (st, base) = (Done tt, (st <| mt_pending_aus := [] |> <| mt_pending_size := 0 |>, base')) /\
    accepted base' = accepted base ++ ps /\ unit_packets au fs ps.
Proof using Type*.
  intros [Hmode Hbits Hmtu Hsz Hd] Hpend Hlen Hdur Hlim Hm Hagg. unfold mp4g_send_packets, mbind, M_bind, get_. cbn [fst snd].
  rewrite Hmtu, (proj2 (Z.ltb_ge _ _)) by lia. rewrite accepting_size. unfold HEADERS_LEN_SIZE.
  rewrite (proj2 (u64_sub_ok limit 2 _)) by (split; [reflexivity|lia]). cbn [of_res]. rewrite Hpend.
  change (length [au]) with 1%nat. remember 0%nat as z eqn:Ez. cbn [send_loop].
  rewrite Hpend in Hsz. cbn [map concat] in Hsz. rewrite app_nil_r in Hsz. fold (pu_len au) in Hsz.
  unfold mbind, M_bind, get_. cbn [fst snd]. rewrite Hpend. cbn [length]. rewrite Hbits. change (div_ceil8 16) with 2. rewrite Z.gtb_ltb.
  assert (Hend : forall s, mt_pending_aus (fst s) = [] -> send_loop z settings WhenReady (limit - 2) s = (Done tt, s)).
  { intros s E. subst z. cbn [send_loop]. unfold mbind, M_bind, get_. cbn [fst snd]. by rewrite E. }
  destruct (Z.ltb_spec (limit - 2) (pu_len au + 2)) as [Hbig|Hfit].
  - unfold on_mp4g_pay, upd_. cbn [fst snd]. rewrite Hsz. assert (Hs0 : saturating_sub (pu_len au) (pu_len au) = 0) by (unfold saturating_sub; lia). rewrite Hs0.
    set (st1 := st <| mt_pending_aus := [] |> <| mt_pending_size := 0 |>).
    destruct (fragments_sent st1 au (limit - 2) Hmode Hlen ltac:(lia) ltac:(lia) (S (length (pu_buffer au))) 0 base ltac:(lia)) as
      (base' & fs & ms & -> & Hacc & Hc & Hall & k & Hk & ->); [unfold pu_len; lia|]. rewrite Hend by done.
    exists base', fs, (zip_with (fun f m => mkPayPacket (pu_id au) (pu_id au) m (audio_payload [pu_len au] f)) fs (repeat false k ++ [true])).
    split; [done|]. split; [exact Hacc|]. exists k, (pu_id au). split; [done|]. split; [exact Hc|]. split; [|split; [done|]].
    + eapply Forall_impl; [exact Hall|]. intros f [Hne Hl]. split; [done|lia].
    + eapply Forall_zipped; [exact Hall|]. intros f m [_ Hfl]. cbn [pp_payload]. unfold audio_payload. cbn [map concat be_u16 app length]. lia.
  - assert (Hready : pending_ready settings WhenReady (limit - 2) st = Ok true).
    { unfold pending_ready. rewrite Hpend. change (Z.of_nat (length [au])) with 1.
      change (usize_div (mt_pending_size st) 1) with (Ok (mt_pending_size st / 1)). rewrite bind_Ok. by rewrite bool_decide_eq_true_2. }
    rewrite Hready. cbn [of_res negb].
    destruct (units_sent settings (limit - 2) st base au [] Hmode Hpend) as (base' & e & -> & Hacc).
    + cbn [map concat]. by rewrite app_nil_r.
    + by right.
    + repeat constructor; lia.
    + cbn. lia.
    + cbn. lia.
    + cbn [map concat length]. rewrite app_nil_r. fold (pu_len au). lia.
    + rewrite Hend by done. cbn [map concat unit_sizes] in Hacc. rewrite app_nil_r in Hacc.
      exists base', [pu_buffer au], [mkPayPacket (pu_id au) e true (audio_payload [pu_len au] (pu_buffer au))]. split; [done|]. split; [exact Hacc|].
      exists 0%nat, e. split; [done|]. split; [cbn; by rewrite app_nil_r|]. split; [|split; [done|]].
      * constructor; [|constructor]. split; [|done]. intros E. unfold pu_len in Hlen. rewrite E in Hlen. cbn in Hlen. lia.
      * constructor; [|constructor]. cbn [pp_payload]. unfold audio_payload. cbn [map concat be_u16 app length]. unfold pu_len in *. lia.
Qed.
End Send.

(** ** Streams *)
Section Streams.
Context `{Gst} `{!GstLaws} `{GstTime} `{!ClockAddLaws} `{GstSignedScale} `{!SignedScaleLaws} `{BitVarIO} `{!BitIOLaws} `{!BitVarLaws}.
Context `{HexCodec} `{SlabOps} `{RtpBaseDepay2} `{!RtpBaseDepayRelation} `{!CollectingRelation} `{OptionMin}.
Context `{RtpBasePay2} `{!RtpBasePayMore} (limit : Z) `{!AcceptingBase limit} `{!AcceptingMore limit}.
Context (F rate : Z) (HF : 0 < F <= 1024) (Hrate : 0 < rate < U32).

Fixpoint mp4g_feed (ps : list DepayPacket) : M (Mp4gDepayState * RtpBase.BaseDepay) unit :=
  match ps with
  | [] => mret tt
  | p :: ps => _ ← mp4g_depay_handle_packet p; mp4g_feed ps
  end.

Lemma mp4g_feed_app ps1 ps2 s s1 : mp4g_feed ps1 s = (Done tt, s1) -> mp4g_feed (ps1 ++ ps2) s = mp4g_feed ps2 s1.
Proof using Type.
  revert s. induction ps1 as [|p ps1 IH]; intros s; cbn [mp4g_feed app]; [by intros [= ->]|].
  intros (a & s2 & E1 & E2)%M_bind_inv. rewrite (M_bind_done _ _ _ _ _ E1). by apply IH.
Qed.

Lemma mp4g_feed_one p s s1 : mp4g_depay_handle_packet p s = (Done tt, s1) -> mp4g_feed [p] s = (Done tt, s1).
Proof using Type. intros E. cbn [mp4g_feed]. unfold mbind, M_bind. by rewrite E. Qed.

Definition fragment_packet (au : PayAccessUnit) (e : Z) (f : list Z) (m : bool) : PayPacket :=
  mkPayPacket (pu_id au) e m (audio_payload [pu_len au] f).

Lemma fragments_fed au e ts start st b : mp4g_receiving F rate st -> mg_au_acc st = None -> pu_len au < 8192 ->
  forall k fs acc n, length fs = S k -> acc <> [] -> acc ++ concat fs = pu_buffer au ->
  Forall (fun f => f <> [] /\ Z.of_nat (length f) < pu_len au) fs ->
  exists b', mp4g_feed (arrivals ts n (zip_with (fragment_packet au e) fs (repeat false k ++ [true]))) (with_fragment F start (pu_len au) acc st, b) =
      (Done tt, (st, b')) /\
    units b' = units b ++ [unit_output F rate (n + Z.of_nat k) (unit_of F start 0 true (pu_len au) (pu_buffer au))].
Proof using Type*.
  intros Hrx Ha Hlen. induction k as [|k IH]; intros fs acc n Hl Hac Hc Hfs.
  - destruct fs as [|f [|f' fs]]; [done| |cbn in Hl; lia]. cbn [concat] in Hc. rewrite app_nil_r in Hc. apply Forall_cons in Hfs as [[Hf Hfl] _].
    cbn [repeat app zip_with arrivals]. destruct (fragment_last F rate HF Hrate ts start n (pu_len au) acc f st b) as (b' & HK & Hu);
      [done|done|done|done|by rewrite Hc|done|]. exists b'. split; [by apply mp4g_feed_one|]. rewrite Z.add_0_r, <- Hc. done.
  - destruct fs as [|f fs]; [done|]. cbn [concat] in Hc. cbn [length] in Hl. apply Forall_cons in Hfs as [[Hf Hfl] Hfs].
    cbn [repeat app zip_with arrivals]. cbn [mp4g_feed]. unfold mbind, M_bind. cbn [fragment_packet pp_payload pp_marker_bit].
    rewrite (fragment_kept F rate HF Hrate ts start n (pu_len au) acc f st b Hrx Hf) by (first [lia|done]).
    destruct (IH fs (acc ++ f) (n + 1)) as (b' & HK & Hu); [lia|by destruct acc|by rewrite <- app_assoc|done|].
    exists b'. split; [exact HK|]. rewrite Hu. do 3 f_equal. lia.
Qed.

(** The packets of a unit give its buffer. *)
Lemma unit_received au fs ps ts n st b : mp4g_receiving F rate st -> mg_au_acc st = None -> 0 < pu_len au < 8192 -> unit_packets limit au fs ps ->
  exists b', mp4g_feed (arrivals ts n ps) (st, b) = (Done tt, (st, b')) /\
    units b' = units b ++ [(SeqnumsWithOffset (n, n + Z.of_nat (length ps) - 1) (OffsetPts (Positive 0)),
      mkUnitBuffer (pu_buffer au) (Some (F * NS_PER_SEC / rate)) false)].
Proof using Type*.
  intros Hrx Ha Hlen (k & e & Hk & Hc & Hfs & -> & _). rewrite length_zip_with, length_app, repeat_length, Hk. cbn [length].
  replace (S k `min` (k + 1))%nat with (S k) by lia. destruct fs as [|f fs]; [done|]. cbn [length concat] in *.
  apply Forall_cons in Hfs as [[Hf Hfl] Hfs]. destruct k as [|k].
  - destruct fs; [|done]. cbn [concat] in Hc. rewrite app_nil_r in Hc. subst f. cbn [repeat app zip_with arrivals pp_payload pp_marker_bit].
    destruct (units_received F rate HF Hrate ts n [pu_buffer au] st b) as (b' & HK & Hu); [done|done|done|by repeat constructor; unfold pu_len in *; lia|cbn; lia|].
    cbn [map concat] in HK. rewrite app_nil_r in HK. exists b'. split; [by apply mp4g_feed_one|]. rewrite Hu. cbn [units_from map]. unfold unit_output. cbn [au_ext_seqnum unit_of au_data].
    replace (n + Z.of_nat 1 - 1) with n by lia. done.
  - cbn [repeat app zip_with arrivals]. cbn [mp4g_feed]. unfold mbind, M_bind. cbn [pp_payload pp_marker_bit].
    assert (Hst : with_fragment F n (pu_len au) [] st = st) by (destruct st; cbn in Ha; by subst).
    pose proof (fragment_kept F rate HF Hrate ts n n (pu_len au) [] f st b Hrx Hf ltac:(specialize (Hfl ltac:(done)); lia) ltac:(done)) as HK. rewrite Hst in HK. rewrite HK. cbn [app].
    destruct (fragments_fed au e ts n st b Hrx Ha ltac:(lia) k fs f (n + 1) ltac:(lia) Hf Hc) as (b' & HK2 & Hu).
    { eapply Forall_impl; [exact Hfs|]. intros g [Hg1 Hg2]. split; [done|by apply Hg2]. }
    exists b'. split; [exact HK2|]. rewrite Hu. unfold unit_output. cbn [au_ext_seqnum unit_of au_data].
    replace (n + 1 + Z.of_nat k) with (n + Z.of_nat (S (S k)) - 1) by lia. done.
Qed.

(** Buffers are sent one by one. *)
Fixpoint mp4g_send (settings : Mp4gPaySettings) (upstream : option bool) (id : Z) (bufs : list Mp4gBuffer) : M (Mp4gPayState * RtpBase.BasePay) unit :=
  match bufs with
  | [] => mret tt
  | buf :: bufs => _ ← mp4g_pay_handle_buffer settings upstream buf id; mp4g_send settings upstream (id + 1) bufs
  end.

(** What is known of upstream after a buffer. *)
Definition live_after (settings : Mp4gPaySettings) (upstream is_live : option bool) : option bool :=
  if bool_decide (ms_aggregate_mode settings <> AggAuto) || is_some is_live then is_live else Some (default false upstream).

(** A buffer of audio: its data, of at most 8191 bytes, and its duration if it has one. *)
Definition audio_buffer_ok (buf : Mp4gBuffer) (data : list Z) : Prop :=
  gb_data buf = Some data /\ 0 < Z.of_nat (length data) < 8192 /\ 0 <= default 0 (gb_duration buf) < U64 - 1.

Lemma mp4g_buffer_sent settings upstream buf data id st base : mp4g_sending F st -> mt_pending_aus st = [] -> audio_buffer_ok buf data ->
  4 < limit -> 17 <= mtu base -> effective_aggregate_mode settings (live_after settings upstream (mt_is_live st)) <> AggAggregate ->
  exists st' base' au fs ps, mp4g_pay_handle_buffer settings upstream buf id (st, base) = (Done tt, (st', base')) /\
    accepted base' = accepted base ++ ps /\ unit_packets limit au fs ps /\ pu_buffer au = data /\
    mp4g_sending F st' /\ mt_pending_aus st' = [] /\ mt_is_live st' = live_after settings upstream (mt_is_live st).
Proof using Type*.
  intros [Hmode Hbits Hmtu Hsz Hd] Hpend (Hdata & Hlen & Hdur) Hlim Hm Hagg. unfold mp4g_pay_handle_buffer, mbind, M_bind, get_. cbn [fst snd].
  rewrite Hdata. cbn [of_option]. rewrite Hpend in Hsz. cbn in Hsz. rewrite Hsz, (proj2 (u64_add_ok _ _ _)) by (split; [reflexivity|lia]). cbn [of_res].
  rewrite Hd. cbn [of_res]. set (au := mkPayAccessUnit id _ _ _ _ data). unfold ensure_upstream_liveness, on_mp4g_pay, upd_. cbn [fst snd].
  match goal with |- context [mp4g_send_packets settings WhenReady (?s, base)] => set (st1 := s) end.
  assert (Hl1 : mt_is_live st1 = live_after settings upstream (mt_is_live st)).
  { subst st1. unfold live_after. cbn. by destruct (_ || _). }
  assert (Hp1 : mt_pending_aus st1 = [au]) by (subst st1; destruct (_ || _); cbn; by rewrite Hpend).
  assert (Hs1 : mp4g_sending F st1).
  { constructor; [by subst st1; destruct (_ || _)..| |by subst st1; destruct (_ || _)].
    rewrite Hp1. cbn [map concat au pu_buffer]. rewrite app_nil_r. subst st1. by destruct (_ || _). }
  destruct (one_unit_sent limit F settings st1 base au Hs1 Hp1) as (base' & fs & ps & HK & Hacc & Hup); [done|done|done|done|by rewrite Hl1|].
  exists (st1 <| mt_pending_aus := [] |> <| mt_pending_size := 0 |>), base', au, fs, ps. split; [exact HK|]. split; [done|]. split; [done|]. split; [done|].
  split; [by destruct Hs1|]. done.
Qed.

Lemma live_after_again settings upstream l : live_after settings upstream (live_after settings upstream l) = live_after settings upstream l.
Proof using Type. unfold live_after. destruct (bool_decide _ || is_some l) eqn:E; [by rewrite E|]. by rewrite orb_true_r. Qed.

Lemma buffers_sent settings upstream bufs datas : Forall2 audio_buffer_ok bufs datas -> 4 < limit -> (forall b, 17 <= mtu b) ->
  forall id st base, mp4g_sending F st -> mt_pending_aus st = [] ->
  effective_aggregate_mode settings (live_after settings upstream (mt_is_live st)) <> AggAggregate ->
  exists st' base' gs, mp4g_send settings upstream id bufs (st, base) = (Done tt, (st', base')) /\ mt_pending_aus st' = [] /\
    accepted base' = accepted base ++ concat (map snd gs) /\ map fst gs = datas /\
    Forall (fun g => exists au fs, unit_packets limit au fs (snd g) /\ pu_buffer au = fst g /\ 0 < pu_len au < 8192) gs.
Proof using Type*.
  intros Hb Hlim Hm. induction Hb as [|buf data bufs datas Hbuf _ IH]; intros id st base Hs Hp Hagg; cbn [mp4g_send].
  { exists st, base, []. split; [done|]. split; [done|]. split; [cbn; by rewrite app_nil_r|]. by split. }
  destruct (mp4g_buffer_sent settings upstream buf data id st base Hs Hp Hbuf Hlim (Hm base) Hagg) as (st1 & b1 & au & fs & ps & HK & Hacc & Hup & Hd & Hs1 & Hp1 & Hl1).
  unfold mbind, M_bind. rewrite HK. rewrite <- Hl1 in Hagg.
  destruct (IH (id + 1) st1 b1 Hs1 Hp1) as (st2 & b2 & gs & HK2 & Hp2 & Hacc2 & Hf & Hall); [by rewrite Hl1, live_after_again, <- Hl1|].
  exists st2, b2, ((data, ps) :: gs). split; [done|]. split; [done|]. split; [cbn; by rewrite Hacc2, Hacc, <- app_assoc|]. split; [cbn; by rewrite Hf|].
  constructor; [|done]. exists au, fs. split; [done|]. split; [done|]. unfold pu_len. rewrite Hd. by destruct Hbuf as (_ & ? & _).
Qed.

Lemma groups_received ts st : mp4g_receiving F rate st -> mg_au_acc st = None -> forall gs,
  Forall (fun g => exists au fs, unit_packets limit au fs (snd g) /\ pu_buffer au = fst g /\ 0 < pu_len au < 8192) gs ->
  forall n b, exists b', mp4g_feed (arrivals ts n (concat (map snd gs))) (st, b) = (Done tt, (st, b')) /\
    units b' = units b ++ frame_outputs (F * NS_PER_SEC / rate) n gs.
Proof using Type*.
  intros Hrx Ha gs Hg. induction Hg as [|[data ps] gs (au & fs & Hup & Hd & Hlen) _ IH]; intros n b.
  { exists b. split; [done|]. cbn. by rewrite app_nil_r. }
  cbn [map concat fst snd frame_outputs] in *. rewrite arrivals_app. destruct (unit_received au fs ps ts n st b Hrx Ha Hlen Hup) as (b1 & E1 & U1).
  rewrite (mp4g_feed_app _ _ _ _ E1). destruct (IH (n + Z.of_nat (length ps)) b1) as (b2 & E2 & U2).
  exists b2. split; [done|]. rewrite U2, U1, <- app_assoc, Hd. done.
Qed.
End Streams.

(** ** Properties *)

(** C18: AAC audio from sender to receiver, unit by unit. Where the payloader does not
    aggregate, every buffer of at most 8191 bytes is sent at once, in one packet or in
    fragments, none larger than the base class allows and none left pending; a
    receiver that is in the stream puts the fragments together and gives every buffer
    back, unchanged, with its duration, for exactly the packets that carried it. *)
Theorem mp4g_live_roundtrip `{Gst} `{!GstLaws} `{GstTime} `{!ClockAddLaws} `{GstSignedScale} `{!SignedScaleLaws} `{BitVarIO} `{!BitIOLaws} `{!BitVarLaws}
    `{HexCodec} `{SlabOps} `{RtpBaseDepay2} `{!RtpBaseDepayRelation} `{!CollectingRelation} `{OptionMin}
    `{RtpBasePay2} `{!RtpBasePayMore} (limit : Z) `{!AcceptingBase limit} `{!AcceptingMore limit}
    F rate settings upstream bufs datas id st base ts n rx b :
  0 < F <= 1024 -> 0 < rate < U32 -> Forall2 audio_buffer_ok bufs datas -> 4 < limit -> (forall b, 17 <= mtu b) ->
  mp4g_sending F st -> mt_pending_aus st = [] ->
  effective_aggregate_mode settings (live_after settings upstream (mt_is_live st)) <> AggAggregate ->
  mp4g_receiving F rate rx -> mg_au_acc rx = None ->
  exists st' base' gs b',
    mp4g_send settings upstream id bufs (st, base) = (Done tt, (st', base')) /\ mt_pending_aus st' = [] /\
    accepted base' = accepted base ++ concat (map snd gs) /\ map fst gs = datas /\
    Forall (fun p => Z.of_nat (length (pp_payload p)) <= limit) (concat (map snd gs)) /\
    mp4g_feed (arrivals ts n (concat (map snd gs))) (rx, b) = (Done tt, (rx, b')) /\
    units b' = units b ++ frame_outputs (F * NS_PER_SEC / rate) n gs.
Proof.
  intros HF Hr Hb Hlim Hm Hs Hp Hagg Hrx Ha.
  destruct (buffers_sent limit F HF settings upstream bufs datas Hb Hlim Hm id st base Hs Hp Hagg) as (st' & base' & gs & HK & Hp' & Hacc & Hf & Hall).
  destruct (groups_received limit F rate HF Hr ts rx Hrx Ha gs Hall n b) as (b' & HR & Hu).
  exists st', base', gs, b'. split; [done|]. split; [done|]. split; [done|]. split; [done|]. split; [|by split].
  apply Forall_concat, Forall_map. eapply Forall_impl; [exact Hall|]. intros g (au & fs & (k & e & _ & _ & _ & _ & Hl) & _). exact Hl.
Qed.

(** C20: AAC audio, several units in a packet. With the header layout of AAC (sizes
    and indices, no decoding or composition times) and no packet time set, where all
    the units that wait (fewer than 4096, of 1 to 8191 bytes each) fit in one packet
    together with their headers, draining the payloader sends them in one packet; the
    receiver gives each back as a buffer, the later ones as many durations after the
    first. (Units that do not all fit leave a header too many in the packet, see
    [mp4g_leftover_header].) *)
Theorem mp4g_aggregate_roundtrip `{Gst} `{!GstLaws} `{GstTime} `{!ClockAddLaws} `{GstSignedScale} `{!SignedScaleLaws} `{BitVarIO} `{!BitIOLaws} `{!BitVarLaws}
    `{HexCodec} `{SlabOps} `{RtpBaseDepay2} `{!RtpBaseDepayRelation} `{!CollectingRelation} `{OptionMin}
    `{RtpBasePay2} `{!RtpBasePayMore} (limit : Z) `{!AcceptingBase limit} `{!AcceptingMore limit}
    F rate settings st base ts n rx b :
  let aus := mt_pending_aus st in
  0 < F <= 1024 -> 0 < rate < U32 -> mp4g_sending F st -> aus <> [] -> Z.of_nat (length aus) < 4096 ->
  Forall (fun au => 0 < pu_len au < 8192 /\ 0 <= default 0 (pu_duration au)) aus -> total_duration aus < U64 - 1 ->
  joint_ptime settings st = None -> 2 + 2 * Z.of_nat (length aus) + Z.of_nat (length (concat (map pu_buffer aus))) <= limit -> 17 <= mtu base ->
  mp4g_receiving F rate rx -> mg_au_acc rx = None ->
  exists st' base' p b',
    mp4g_pay_drain settings (st, base) = (Done tt, (st', base')) /\ mt_pending_aus st' = [] /\ accepted base' = accepted base ++ [p] /\
    Z.of_nat (length (pp_payload p)) <= limit /\
    mp4g_feed (arrivals ts n [p]) (rx, b) = (Done tt, (rx, b')) /\
    units b' = units b ++ map (unit_output F rate n) (units_from F n 0 (map pu_buffer aus)).
Proof.
  intros aus HF Hr [Hmode Hbits Hmtu Hsz _] Hne Hn Hall Hdur Hpt Hlim Hm Hrx Ha. subst aus. destruct (mt_pending_aus st) as [|front aus] eqn:Hpend; [done|].
  destruct (units_sent limit F settings (limit - 2) st base front aus Hmode Hpend Hsz (or_introl Hpt) Hall Hdur) as (b1 & e & HU & Hacc); [lia|lia|].
  destruct (accepting_finish b1) as (b2 & HFin & Hb2).
  set (p := mkPayPacket _ _ _ _) in Hacc. set (st1 := st <| mt_pending_aus := [] |> <| mt_pending_size := 0 |>) in *.
  assert (Hpk : pu_len front <= Z.of_nat (length (concat (map pu_buffer (front :: aus))))) by (cbn [map concat]; rewrite length_app; unfold pu_len; lia).
  assert (HK : mp4g_pay_drain settings (st, base) = (Done tt, (st1, b2))).
  { unfold mp4g_pay_drain, mp4g_send_packets, mbind, M_bind, get_. cbn [fst snd]. rewrite Hmtu, (proj2 (Z.ltb_ge _ _)) by lia. rewrite accepting_size.
    unfold HEADERS_LEN_SIZE. rewrite (proj2 (u64_sub_ok limit 2 _)) by (split; [reflexivity|cbn [length] in Hlim; lia]). cbn [of_res]. rewrite Hpend. change (length (front :: aus)) with (S (length aus)).
    assert (Hend : forall k, send_loop k settings ForcePending (limit - 2) (st1, b1) = (Done tt, (st1, b1))) by (by intros []).
    generalize (length aus) as k. intros k. cbn [send_loop].
    unfold mbind, M_bind, get_. cbn [fst snd]. rewrite Hpend, Hbits. change (div_ceil8 16) with 2. rewrite Z.gtb_ltb, (proj2 (Z.ltb_ge _ _)) by (cbn [length] in Hlim; lia).
    assert (Hready : pending_ready settings ForcePending (limit - 2) st = Ok true).
    { unfold pending_ready. rewrite Hpend. unfold usize_div. rewrite (proj2 (Z.eqb_neq _ 0)) by (cbn [length]; lia). by rewrite bind_Ok. }
    rewrite Hready. cbn [of_res negb]. rewrite HU, Hend. unfold finish_. cbn [fst snd]. by rewrite HFin. }
  assert (Hpay : pp_payload p = audio_payload (map (fun d => Z.of_nat (length d)) (map pu_buffer (front :: aus))) (concat (map pu_buffer (front :: aus)))).
  { subst p. cbn [pp_payload]. unfold unit_sizes. by rewrite map_map. }
  destruct (units_received F rate HF Hr ts n (map pu_buffer (front :: aus)) rx b Hrx Ha) as (b' & HR & Hu); [done| |by rewrite length_map|].
  { apply Forall_map. eapply Forall_impl; [exact Hall|]. by intros au [? _]. }
  exists st1, b2, p, b'. split; [done|]. split; [done|]. split; [by rewrite Hb2, Hacc|]. split; [|split; [|done]].
  - rewrite Hpay. unfold audio_payload. rewrite !length_app, headers_length, !length_map. cbn [be_u16 length] in *. lia.
  - cbn [arrivals]. apply mp4g_feed_one. rewrite Hpay. exact HR.
Qed.

(** ** Witnesses *)
Definition scale_exact : GstSignedScale := {|
  signed_mul_div_floor v num den :=
    if den =? 0 then None else let x := v * num / den in Some (if x <? 0 then Negative (- x) else Positive x);
  i64_mul_div_ceil v num den := if den =? 0 then None else Some (- (- (v * num) / den));
|}.

Lemma scale_exact_laws : @SignedScaleLaws scale_exact.
Proof.
  intros v num den Hv Hn Hd _. cbn. rewrite (proj2 (Z.eqb_neq den 0)) by lia. by rewrite (proj2 (Z.ltb_ge _ 0)) by (apply Z.div_pos; nia).
Qed.

Definition hex_none : HexCodec := {| hex_encode _ := ""%string; hex_decode _ := None |}.

(** The smaller of two, none if there is none. *)
Definition opt_min_both : OptionMin := fun a b => match a, b with Some a, Some b => Some (Z.min a b) | _, _ => None end.

#[local] Existing Instances scale_exact opt_min_both bits_counted vars_counted gst_exact time_exact keep_units keep_units_relation map_slab hex_none.

(** AAC at 44100 Hz with 1024 samples in a unit, both ends. *)
Definition example_mp4g_pay : Mp4gPayState := mp4g_configure (audio_mode 1024) 44100 Mp4gPayState_default.
Definition example_depay : Mp4gDepayState :=
  mkMp4gDepayState (PayloadParser_set_config (audio_mode 1024) PayloadParser_default) None None None 44100 true None None None None.
Definition example_buffer (data : list Z) : Mp4gBuffer := mkMp4gBuffer (Some data) None None (Some 23219954) false.

Definition send100 (settings : Mp4gPaySettings) (bufs : list Mp4gBuffer) : M (Mp4gPayState * list PayPacket) unit :=
  @mp4g_send time_exact scale_exact bits_counted vars_counted opt_min_both (keep_packets 100) (keep_packets_more 100) settings None 0 bufs.
Definition drain100 (settings : Mp4gPaySettings) : M (Mp4gPayState * list PayPacket) unit :=
  @mp4g_pay_drain time_exact scale_exact bits_counted vars_counted opt_min_both (keep_packets 100) (keep_packets_more 100) settings.

(** The bytes of the buffers a receiver makes of packets. *)
Definition received_units (ps : list PayPacket) : list (list Z) := map (fun u => ub_bytes (snd u)) (snd (snd (mp4g_feed (arrivals 90 5 ps) (example_depay, [])))).

(** A short unit, and one of 150 bytes in two fragments. *)
Lemma mp4g_live_roundtrip_witness :
  exists st' ps b', send100 (mkMp4gPaySettings None AggZeroLatency) (map example_buffer [[1; 2; 3]; repeat 7 150]) (example_mp4g_pay, []) = (Done tt, (st', ps)) /\
    length ps = 3%nat /\ mp4g_feed (arrivals 90 5 ps) (example_depay, []) = (Done tt, (example_depay, b')) /\
    map snd b' = [mkUnitBuffer [1; 2; 3] (Some 23219954) false; mkUnitBuffer (repeat 7 150) (Some 23219954) false].
Proof.
  destruct (@mp4g_live_roundtrip gst_exact gst_exact_laws time_exact clock_add_exact_laws scale_exact scale_exact_laws bits_counted vars_counted
    bits_counted_laws vars_counted_laws hex_none map_slab keep_units keep_units_relation keep_units_collecting opt_min_both (keep_packets 100) (keep_packets_more 100) 100
    (keep_packets_accepting 100) (keep_packets_finish 100) 1024 44100 (mkMp4gPaySettings None AggZeroLatency) None
    (map example_buffer [[1; 2; 3]; repeat 7 150]) [[1; 2; 3]; repeat 7 150] 0 example_mp4g_pay [] 90 5 example_depay [])
    as (st' & base' & gs & b' & HS & _ & Ha & Hf & _ & HR & Hu).
  - lia.
  - lia.
  - repeat constructor; cbn; lia.
  - lia.
  - intros b. cbn. lia.
  - apply configured_sending.
  - done.
  - done.
  - by constructor.
  - done.
  - change (base' = concat (map snd gs)) in Ha. rewrite <- Ha in HR. exists st', base', b'. split; [exact HS|].
    assert (E : base' = snd (snd (send100 (mkMp4gPaySettings None AggZeroLatency) (map example_buffer [[1; 2; 3]; repeat 7 150]) (example_mp4g_pay, []))))
      by exact (f_equal (fun r => snd (snd r)) (eq_sym HS)).
    split; [by rewrite E|]. split; [exact HR|]. change (b' = frame_outputs (1024 * NS_PER_SEC / 44100) 5 gs) in Hu. rewrite Hu.
    clear -Hf. destruct gs as [|[d1 p1] [|[d2 p2] [|]]]; try discriminate Hf. injection Hf as -> ->. reflexivity.
Defined.

(** Three units that wait. *)
Definition example_pending : Mp4gPayState :=
  example_mp4g_pay <| mt_pending_aus := [mkPayAccessUnit 0 None None None None [1; 2]; mkPayAccessUnit 1 None None None None [3]; mkPayAccessUnit 2 None None None None [4; 5; 6]] |>
    <| mt_pending_size := 6 |>.

Lemma mp4g_aggregate_roundtrip_witness :
  exists st' p b', drain100 Mp4gPaySettings_default (example_pending, []) = (Done tt, (st', [p])) /\
    mp4g_feed (arrivals 90 5 [p]) (example_depay, []) = (Done tt, (example_depay, b')) /\ map (fun u => ub_bytes (snd u)) b' = [[1; 2]; [3]; [4; 5; 6]] /\
    map fst b' = [SeqnumsWithOffset (5, 5) (OffsetPts (Positive 0)); SeqnumsWithOffset (5, 5) (OffsetPts (Positive 23219954));
                  SeqnumsWithOffset (5, 5) (OffsetPts (Positive 46439909))].
Proof.
  destruct (@mp4g_aggregate_roundtrip gst_exact gst_exact_laws time_exact clock_add_exact_laws scale_exact scale_exact_laws bits_counted vars_counted
    bits_counted_laws vars_counted_laws hex_none map_slab keep_units keep_units_relation keep_units_collecting opt_min_both (keep_packets 100) (keep_packets_more 100) 100
    (keep_packets_accepting 100) (keep_packets_finish 100) 1024 44100 Mp4gPaySettings_default example_pending [] 90 5 example_depay [])
    as (st' & base' & p & b' & HS & _ & Ha & _ & HR & Hu).
  - lia.
  - lia.
  - by constructor.
  - done.
  - cbn. lia.
  - repeat constructor; cbn; lia.
  - cbn. lia.
  - done.
  - cbn. lia.
  - cbn. lia.
  - by constructor.
  - done.
  - change (base' = [p]) in Ha. subst base'. exists st', p, b'. split; [exact HS|]. split; [exact HR|].
    change (b' = [] ++ map (unit_output 1024 44100 5) (units_from 1024 5 0 (map pu_buffer (mt_pending_aus example_pending)))) in Hu. rewrite Hu.
    split; vm_compute; reflexivity.
Defined.

(** ** What goes wrong *)

(** Where a unit does not fit into the packet any more, its header is in the packet all
    the same, but not counted: the receiver takes it for data, and every unit of the
    packet is wrong. *)
Lemma mp4g_leftover_header :
  let agg := mkMp4gPaySettings None AggAggregate in
  let sent := [repeat 1 30; repeat 2 20; repeat 3 60] in
  let ps := snd (snd ((_ ← send100 agg (map example_buffer sent); drain100 agg) (example_mp4g_pay, []))) in
  map (fun p => take 8 (pp_payload p)) ps = [[0; 32; 0; 240; 0; 160; 1; 224]; [0; 16; 1; 224; 3; 3; 3; 3]] /\
  received_units ps = [1 :: 224 :: repeat 1 28; 1 :: 1 :: repeat 2 18; repeat 3 60].
Proof. by vm_compute. Qed.

(** The duration of what waits is never known, so that the maximum packet time does
    not make the payloader send: two seconds wait though the limit is 50 ms. *)
Lemma mp4g_max_ptime_ignored :
  let settings := mkMp4gPaySettings (Some 50000000) AggAggregate in
  let second := mkMp4gBuffer (Some [1]) None None (Some NS_PER_SEC) false in
  let s := snd (send100 settings [second; second] (example_mp4g_pay <| mt_max_ptime := Some 50000000 |> <| mt_ptime := Some 50000000 |>, [])) in
  length (mt_pending_aus (fst s)) = 2%nat /\ mt_pending_duration (fst s) = None /\ snd s = [].
Proof. by vm_compute. Qed.

(** Flushing keeps a fragment that waits; the next marked packet then panics. *)
Lemma mp4g_flush_panics :
  let fragment := mkDepayPacket (audio_payload [150] (repeat 7 90)) 90 5 false in
  let whole := mkDepayPacket (audio_payload [3] [1; 2; 3]) 91 9 true in
  fst ((_ ← mp4g_depay_handle_packet fragment; _ ← mp4g_depay_flush; mp4g_depay_handle_packet whole) (example_depay, [])) = Crash.
Proof. by vm_compute. Qed.

(** A mode without sizes whose headers have an index from the second on. *)
Definition endless_mode : ModeConfig := mkModeConfig 0 0 3 0 0 false 0 0 0 1024 0.

(** The mode is accepted; a payload whose first header takes no bits reports an error,
    and leaves the iterator where it was, so the loop over it does not end. *)
Lemma mp4g_endless_packet :
  ModeConfig_from_caps (<["indexdeltalength" := CapInt 3]> (<["constantduration" := CapInt 1024]> ∅))%string = inl endless_mode /\
  match PayloadParser_parse (PayloadParser_set_config endless_mode PayloadParser_default) [0; 3; 0; 1; 2] 5 (Wrapping 90) with
  | Ok (inl it) => AccessUnitIter_next it = (Done (Some (inr MultipleAusUnknownSize)), it)
  | _ => False
  end.
Proof.
  split; [|reflexivity]. unfold ModeConfig_from_caps, parse_int. repeat (rewrite lookup_insert_eq || rewrite lookup_insert_ne by done || rewrite lookup_empty). done.
Qed.

(** Two fragments of a unit, both with index 0 and the same timestamp, are taken for two
    packets of units of constant duration: the duration is zero from then on. *)
Lemma mp4g_fragments_zero_duration :
  let st := mkMp4gDepayState (PayloadParser_set_config (mkModeConfig 13 3 3 0 0 false 0 0 0 0 0) PayloadParser_default) None None None 90000 true None None None None in
  let fragment n m := mkDepayPacket (audio_payload [6] [1; 2; 3]) 90 n m in
  mp_constant_duration (mg_parser (fst (snd (mp4g_feed [fragment 5 false; fragment 6 true] (st, []))))) = Some 0.
Proof. by vm_compute. Qed.

(** New caps without interleaving leave the deinterleaving buffer in place. *)
Lemma mp4g_deint_kept s mode st out st' : ModeConfig_from_caps s = inl mode -> max_displacement mode = None ->
  mp4g_depay_set_sink_caps s st = Ok (Some out, st') -> mg_deint_buf st' = mg_deint_buf st.
Proof.
  intros Hm Hd HK. unfold mp4g_depay_set_sink_caps in HK. apply bind_ok in HK as (m & _ & HK). destruct (String.prefix _ m); [done|].
  apply bind_ok in HK as (media & _ & HK). apply bind_ok in HK as (_ & _ & HK). rewrite Hm in HK. destruct (CodecData_from_caps s) as [cd| |]; [|done|done].
  apply bind_ok in HK as (cr & _ & HK). apply bind_ok in HK as (_ & _ & HK). apply bind_ok in HK as (sb & _ & HK). rewrite Hd in HK. by injection HK as _ <-.
Qed.
